(* ===== verification/_CoqProject ===== *)
-Q . S2P
Prelude.v
DfsPri.v
DfsPattern.v
RegdTables.v
Regd.v
KeyCache.v
Baw.v
Airtime.v
Dfs.v
Desc.v
TxEdma.v
TxTid.v
TxTidAcct.v
TxTidSafe.v
TxTidWin.v
TxTidInv.v
TxTidProps.v
TxSched.v
RxFrame.v
Rx.v
RxInv.v
RxProps.v
HwTiming.v
Dynack.v
HwMac.v
EepLayout.v
EepTemplates.v
Eeprom.v
TxPower.v
TxPowerProps.v
TxDesc.v
TxDescProps.v
FiCodec.v
SatmacFi.v
SatmacSlot.v
Satmac.v
SatmacInv.v
SatmacNet.v
SatmacProps.v
MacHeader.v
TdmaQueue.v
Mbr.v
