(* ===== verification/Prelude.v ===== *)
(** * Verification of the TDMA VANET platform

    The repository holds a TDMA medium access for vehicular networks: models
    for the network simulators ns-2 and ns-3 (src/ns2/, src/ns3/), an FPGA
    middleware (Verilog and VHDL under
    src/real/axi_tdma_ath9k_middleware_project/) and the Linux driver of the
    radio, changed so that the middleware can share the card (src/real/ath/).
    This library models the core of the C driver and of the C++ models for
    ns-3: the slot protocol SATMAC (src/ns3/satmac/) and the neighbour protocol
    of the multi-hop broadcast (src/ns3/mbr-neighbor/).

    ** The parts and how they interact

    The driver. The module [ath] (files directly under src/real/ath/) holds
    what the drivers of the family share: the DFS radar pattern detector,
    regulatory domains, the key cache and the cycle counters. The module
    [ath9k] (src/real/ath/ath9k/) is the driver of the card.

    Reception: the hardware fills the buffers of its two receive FIFOs; the
    tasklet of recv.c takes the finished ones, reads the descriptor
    ([ath9k_hw_process_rxdesc_edma]), judges the frame, joins the two parts of
    a long one and passes it on. A PHY error goes through the decoding of the
    radar report (dfs.c) into the pattern detector (dfs_pattern_detector.c),
    which feeds one PRI detector (dfs_pri_detector.c) per radar type and
    channel.

    Transmission: a frame waits in the software queue of its traffic identifier
    (TxTid); the scheduler (TxSched) takes identifiers in turn and forms
    aggregates, limited by air time (Airtime) and block-ack window (Baw); an
    aggregate is described to the hardware by transmit descriptors (Desc),
    queued in the eight-entry FIFO of a hardware queue (TxEdma), and completed
    when its status appears in the status ring; frames without acknowledgement
    go back to the front of their identifier. Hardware queue 6 belongs to the
    FPGA: the driver prepares its descriptors once ([fpga_set_txdesc]), and the
    tasklet skips its status entries.

    The simulator. Every vehicle runs a SATMAC node: at each slot boundary
    [slotHandler] merges what was heard into the slot table, decides what its
    slot is, announces the table in a frame-information packet (FiCodec,
    wrapped into an 802.11 header: MacHeader), and sends queued packets in the
    rest of the slot (TdmaQueue). The multi-hop broadcast (Mbr) exchanges hello
    packets and picks relays among the neighbours.

    ** The files

    - Prelude: C integers at their width ([u8] ... [u64], [s8], [s32]), C
      division, flag tests, the type [outcome] of computations that may follow
      a null pointer or leave an array ([Oops]), record update, automation.
    - DfsPri: dfs_pri_detector.c. The state is [pri_detector] (pulse queue and
      PRI sequences) and [dfs_pool] (the two shared free lists, their reference
      count, the statistics, and the allocations that will fail: [oom]); one
      definition per function, with the loops as fixpoints.
    - DfsPattern: dfs_pattern_detector.c. The radar tables (computed by the
      macros as in the source), channel detectors, [dpd_add_pulse],
      [dpd_set_domain], [dpd_exit] and [dfs_pattern_detector_init]. [dpd_reach]
      is the reachability relation; its parameter [env] is what other devices
      may do to the shared pools between two calls.
    - RegdTables, Regd: regd.h, regd_common.h and regd.c. All tables entry by
      entry; the choice of a domain from the EEPROM code, the notifier, the
      channel flags. cfg80211 is the class [Cfg80211] with [Cfg80211Laws].
    - KeyCache: key.c, ath/hw.c and the registers of reg.h. The state [ath_common]
      holds the registers, a log of the register writes in order, the key
      bitmaps and the cycle counters.
    - Baw: the block-ack window of xmit.c and the macros of ath9k.h, with the
      set of outstanding sequence numbers as abstract specification.
    - Airtime: durations, the aggregate length table, padding and
      [ath_tx_form_aggr] of xmit.c.
    - Dfs: dfs.c, written against the interface [PatternDetector] and later
      instantiated with DfsPattern ([dpd_detector], [dpd_laws]).
    - Desc: the descriptor formats of mac.h and ar9003_mac.h, and the functions
      of ar9003_mac.c that write and read them.
    - TxEdma: the transmit queues of xmit.c in EDMA mode:
      [ath_tx_txqaddbuf], [ath_tx_edma_tasklet], [ath_draintxq].
    - TxTid: the traffic identifiers of xmit.c, from [ath_tx_start] to the
      completion of an aggregate ([ath_tx_complete_aggr]). The state
      [tid_state] is an identifier with its queues, the pool of buffers and the
      calls into other parts in order. TxTidAcct: every buffer and frame is
      accounted for; TxTidSafe: no operation faults; TxTidWin, TxTidInv: the
      window of a session and the invariant of its runs; TxTidProps: what
      becomes of an aggregate, and concrete runs.
    - TxSched: [ath_txq_schedule] against the interface [TidSched], with the
      identifiers of TxTid as an instance.
    - RxFrame: recv.c and common.c, the treatment of one received frame: time,
      acceptance, rate, signal, padding, beacons and power save, and the
      receive filter. Rx: the buffers, the two software queues and the tasklet
      of recv.c; the state is [rx_state]. RxInv: the account of all buffers,
      and runs of operations and hardware writes ([rx_run]); RxProps: what
      becomes of a frame, and concrete runs.
    - FiCodec: satmac-packet.cc and satmac-common.h, the bit-wise encoding of
      frame-information packets. SatmacFi: the slot table of tdma-satmac.cc and
      the merging of received tables ([merge_fi], [synthesize_fi_list]).
      SatmacSlot: the choice of a slot ([determine_BCH]) and of the frame length
      ([adjFrameLen]). Satmac: the node and its [slotHandler], one definition
      per case of the switch. SatmacInv: the invariant of a node; SatmacNet:
      networks of nodes that receive each other's packets, as a step relation;
      SatmacProps: the protocol's properties and concrete runs.
    - MacHeader: wifi-mac-header.cc and the way of a frame through
      tdma-mac-low.cc; the buffers of ns-3 are a class.
    - TdmaQueue: tdma-mac-queue.cc and the sending of packets in a slot.
    - Mbr: mbr-header.cc, neighbor.cc and mbr-neighbor-app.cc; clock, random
      numbers, positions and geohash are a class.
    - HwTiming: ath9k/hw.c, the clock rate, the times that the hardware waits for and
      the receive filter; the state is [ath_hw]. Dynack: dynack.c, the dynamic
      ACK timeout; the state is [dyn_state].
    - HwMac: mac.c, the interrupt causes of ar9003_mac.c and the interrupt handler
      of main.c; the state is [mac_hw] (registers with the log of KeyCache, queue
      properties, interrupt masks, nesting counter), of the handler [isr_softc].
    - EepLayout: the calibration structure of ar9003_eeprom.h, its records and
      their packed bytes, by layouts that compose. EepTemplates: the structures
      that the driver comes with. Eeprom: the chain of blocks, its decoding and
      the restored structure ([ar9300_eeprom_restore_internal]).
    - TxPower: the transmit power, from the restored structure to the registers
      and to the power of a frame; the state is [pwr_hw]. TxPowerProps: limits,
      registers and calibration.
    - TxDesc: from a frame of mac80211 to its descriptor: preparation, rate series
      and the descriptors of a chain ([ath_tx_fill_desc]), multicast after a beacon
      ([ath_tx_cabq]); the state is [fill_state] and [cab_state]. TxDescProps: what
      the hardware reads.
    ** What the theorems show

    - SATMAC: a node whose slot a neighbour attributes to another node leaves it
      within a frame, in calm slots and for all slots but those with a number of 2
      modulo 8 ([conflict_within_frame]; the others keep it:
      [conflict_unnoticed]); in every network of nodes with the attributes
      below, with packets lost, late or repeated, all nodes stay well formed as
      long as slots are calm ([network_safe], [slotHandler_type]); a confirmed request becomes work and confirmed nodes
      keep their slots ([confirmed_keeps]); a lone node reaches a slot of its
      own ([lone_node_works]); the merging never claims a slot for a node
      ([synthesize_never_claims]); slot choice and frame length follow their
      rules ([determine_BCH_correct], [adj_frame_len_correct]); packets can be
      read back ([fi_roundtrip]), headers too, and frames arrive
      ([header_roundtrip], [frames_delivered]); the queue refines a list of
      packets with expiry ([queue_refines]), and a slot is filled with as many
      packets as fit into it, none of them lost ([slot_budget]).
    - Neighbours: the table refines the latest hellos that have not expired
      ([neighbors_refine]), the relay is the neighbour with the longest stay
      ([GetnbFromsetBest_correct]), hellos arrive with their contents
      ([hello_delivered]) and are sent on the grid of the interval
      ([hellos_on_grid]).
    - Radar detection: a reported radar is backed by enough distinct pulses
      with a common interval, on the channel and within the widths of a radar
      type of the domain ([radar_detection_sound]; end to end from the PHY
      error: [phyerr_radar_sound]); a burst with a constant interval is always
      detected ([radar_type_burst_detected]); queues are bounded, the pools
      leak nothing, and the calls return ([dpd_reach_bounded],
      [dpd_exit_releases_all], [dpd_add_pulse_returns]). The interval test and
      the chirp test are equivalent to their mathematical reading
      ([pde_get_multiple_correct], [check_chirping_spec]); reports are read
      within their bounds from three bytes on ([phyerr_in_bounds]) and counted
      consistently ([phyerr_stats_balanced]).
    - Regulatory: which EEPROM codes are accepted and what they select
      ([regd_init_accepts], [regd_init_country]); radar channels are protected
      after start and after every change ([regd_init_radar_protected],
      [notifier_radar_protected]); a reset by the core restores the world
      domain ([world_roaming_restored]); no request but the pseudo country "DB"
      faults ([notifier_never_faults], [dyn_country_db_faults]).
    - Keys: a loaded key reads back ([key_load_roundtrip]), TKIP keys become
      valid last ([tkip_real_key_last]), allocation and the life cycle of slots
      ([reserve_slot_correct], [key_config_delete_roundtrip]), addresses and
      cycle counters ([setbssidmask_roundtrip], [cycle_counters_listen_time]).
    - Transmission: the bit ring refines a set ([baw_refines_set],
      [update_baw_advances]), and in a session the window holds exactly the
      sequence numbers under way ([tid_window_exact]); what becomes of each
      frame of an aggregate ([aggregate_outcome]); no buffer or frame is lost or
      doubled ([tid_conservation]) and no run of operations faults
      ([tid_run_safe]); aggregates respect air time, window and length limits
      ([aggregate_limits], [max_framelen_fits], [max_aggr_framelen_fits],
      [num_delims_enough]); the scheduler ends and gives every waiting
      identifier its turn ([txq_schedule_fair]); descriptors carry the right
      checksum, durations and the single unacknowledged try of TDMA
      ([txdesc_chksum_ok], [duration_roundtrip], [tdma_tx_policy]), and the
      constants written for the FPGA are what the driver itself would compute
      ([fpga_txdesc_equiv]); a hardware queue is a FIFO of units ([txq_is_fifo])
      whose operations return ([txq_ops_return]); a status is read once
      ([proc_txdesc_once]); the tasklet ends and does not fault
      ([tasklet_returns], [tasklet_fault_free]).
    - Reception: whatever the hardware writes into its buffers, the receive
      path does not fault, ends, and accounts for every buffer
      ([rx_run_safe]); what becomes of each received buffer
      ([rx_frame_outcome]); the time of reception is exact
      ([process_tsf_correct]); the traffic indication of beacons is read
      according to their format ([dtim_pending_correct]); the error bits are
      classified without ambiguity ([rx_error_classification]).
    - Times: on the channels of 10 MHz that the platform uses, the registers
      get the times of 802.11p in ticks of the clock ([half_rate_settings]); the
      rings of the dynamic ACK timeout refine queues and each ACK is paired with
      at most one frame ([dynack_refines]); estimates are bounded
      ([ackto_bounds]) and settle at the delay of a station, or at most three
      microseconds below it ([estimate_converges]); the receive filter reads
      back ([rxfilter_roundtrip]).
    - Interrupts and queues: a reset queue and the queue of the FPGA have no
      backoff ([backoff_disabled]), which is what gives the TDMA slot its timing;
      each cause of an interrupt that reports one reaches its tasklet and no other
      ([interrupt_dispatch]); disabling and enabling nest ([interrupts_nest]);
      queue properties read back ([props_roundtrip]); only active queues raise
      interrupts ([queue_masks_active]).
    - Calibration data: the structure and its bytes correspond
      ([eeprom_layout]); an image of blocks is restored exactly
      ([eeprom_restored]); whatever the memory holds, nothing outside the
      structure is written ([restore_safe]).
    - Transmit power: every rate gets its target and stays below the conformance limit and the
      scaled limit of the caller, and the registers hold these powers
      ([txpower_limited]); so does every frame ([frame_power_limited]); the
      calibration is the interpolation between the nearest piers
      ([calibration_interpolates]).
    - Descriptions: an aggregate is described as one chain
      ([aggregate_described]), the padding of a header is undone by the receiver
      ([padding_roundtrip]), the series says what mac80211 asked for
      ([series_described], [protection_exclusive]), air times are exact
      ([txtime_exact]), no multicast frame is lost ([cabq_accounts]).
    - Defects of the code, each with a concrete run. SATMAC and the broadcast:
      [conflict_unnoticed], [straddled_status_lost], [unannounced_slot],
      [slot_outside_frame], [lowered_limit_ignored], [expired_packet_null],
      [upper_bound_passed], [stale_cell]. Driver: [channel_detector_create_oops],
      [dyn_country_db_faults], [dyn_country_co_world],
      [tkip_split_high_slot_fails], [stale_completion_drops_frame],
      [smallest_txop_unlimited], [short_report_out_of_bounds],
      [rejected_entry_completes], [old_status_missed], [end_of_ring_spins],
      [split_key_miss], [ibss_beacon_zeroed],
      [long_frame_tail], [corrupt_double_push],
      [estimate_stays_below], [tiny_ackto_wraps],
      [fatal_leaves_off], [spurious_interrupt], [chain_below_zero],
      [platform_data_overrun], [blob_overrun], [bad_block_applied],
      [negative_correction_spills], [paprd_wraps], [stbc_power_unset],
      [burst_inherits], [half_rate_short], [more_data_first].

    ** Bounds and fuel

    Loops over lists are structural. [count_units] and [ath_drain_txq_list]
    take the number of buffers as fuel, since every round consumes a buffer or
    follows one link of a chain without repetitions, and [drain_fifo] the depth
    of the FIFO, 8; out of fuel is [Oops], so [txq_ops_return] shows that this
    is enough. [check_window_loop] drops a pulse per round and takes the length
    of the pulse queue. The
    loop of the tasklet is given fuel 7, the number of entries it can look at,
    and [tasklet_returns] shows that it does not run out; a run that is out of
    fuel is [None], different from every result. The window loop of
    [ath_tx_update_baw] has the 128 bits of the ring as bound, and
    [update_baw_advances] shows that it stops at an outstanding number or at
    the end of the window. [get_subframe_loop] and [form_aggr_loop] take a frame
    from the queues per round and get their number plus one; [tid_run_safe]
    shows that this is enough. [sched_fuel] counts the frames and identifiers
    of a hardware queue ([txq_schedule_fair]). In Rx the loops take the length
    of the software queue plus one, because every round of [rx_loop] and
    [ath_edma_get_next_rx_buf] uses up a finished buffer ([rx_run_safe]), and
    [tim_loop] the length of the beacon plus one ([dtim_pending_correct]).
    [ath_dynack_compute_to] has 126 rounds, since each takes an entry from one of
    two rings of at most 63 ([dynack_refines]).
    [uncompress_loop] gets the length of a block, of which each round takes two
    bytes or more ([restore_safe]); [restore_blocks] looks at 100 blocks, as the
    code does; [cw_loop] doubles a window of at most 1024 and gets 11 rounds
    ([props_roundtrip]). [setvalue_loop] writes at least one bit per round, so the length of the
    field is enough, and [read_field] at most eight parts. [StartTransmission]
    gets the microseconds of the slot plus one, since every packet takes at
    least one ([slot_budget]).

    ** Assumptions

    Memory allocation may fail at any call (DfsPri, TxTid, Rx). Registers are
    plain words: a read returns the last value written (KeyCache). Locks, and
    the order in which interrupts and processes take them, are not modelled:
    operations on one object are atomic, as under the locks of the source. In
    TxEdma the delivery of a completed frame ([ath_tx_process_buffer], which may
    submit new frames) is a parameter of the tasklet; [tasklet_fault_free]
    assumes that it changes the queues by submitting frames only
    ([submission]), that the hardware position is inside the status ring, and
    that the status written by the hardware names a queue.
    [tid_window_exact] and [aggregate_outcome] are about [orderly] runs without
    errors of the DMA mapping: mac80211 marks the frames of a
    session, a session starts when the one before has been reported, and its
    window size is set first. In Rx the hardware writes between two operations
    of the driver, not while one of them runs, and the header lengths that
    mac80211 computes are not negative. The clock [jiffies] of Dynack has 32
    bits. In TxPower a shift by 32 or more gives 0, as on ARM, and in Eeprom
    size_t has 32 bits. The functions of mac.c that wait for the hardware to stop
    are no part of HwMac. In SATMAC the attributes are those of [attr_ok]: identifiers of nine
    bits, slots remembered (the default), no test mode, frame lengths adapted
    within the table; and in every slot the neighbours' reports are
    [consistent]: none calls a slot empty while another names it in a collision
    there ([calm], which also excludes that a node moves its slot and draws a
    new one at once). The theorems on defects show what happens outside.

    ** Not modelled, and planned

    Left out for now, in the order of the plan: the registers of the FPGA middleware (init.c); the direct path of
    [ath_tx_start]; sending through the
    802.11 low MAC of the simulator; the paths of reception and transmission for
    cards without EDMA (ath_tx_processq); antenna diversity; the board values of
    the calibration structure and its textual dump. Not planned: tables of
    initial register values, the structures of older chips in the EEPROM, the
    calibration sequences of the radio, bus glue, debugfs and the USB driver of
    the card; the set-up, logging and attributes of the
    simulator models, the ns-2 version of the protocol (the ns-3 version
    replaces it), and the changed 802.11 channel access of ns-3; the hardware
    description and the tools. *)

From stdpp Require Export base option list gmap numbers sorting.
From Stdlib Require Export ZArith Lia.

#[global] Open Scope Z_scope.
#[export] Set Warnings "-clear-no-such-hyp".

(** * C integer arithmetic

    A [w]-bit unsigned value is a [Z] in [0, 2^w); every place where the C
    code stores into (or computes in) a [w]-bit unsigned type is marked with
    [u8], [u16], [u32] or [u64]. *)

Definition wrap (w x : Z) : Z := x mod 2 ^ w.
Definition u8 (x : Z) : Z := x mod 256.
Definition u16 (x : Z) : Z := x mod 65536.
Definition u32 (x : Z) : Z := x mod 4294967296.
Definition u64 (x : Z) : Z := x mod 18446744073709551616.

(** Two's-complement reading of a bit pattern, as done by a store into a
    signed variable. *)
Definition s8 (x : Z) : Z := let y := u8 x in if y <? 128 then y else y - 256.
Definition s32 (x : Z) : Z :=
  let y := u32 x in if y <? 2147483648 then y else y - 4294967296.

Declare Scope c_scope.
Delimit Scope c_scope with C.
Infix ".&" := Z.land (at level 41, left associativity) : c_scope.
Infix ".|" := Z.lor (at level 51, left associativity) : c_scope.
Infix ".^" := Z.lxor (at level 46, left associativity) : c_scope.
Infix ".<<" := Z.shiftl (at level 38, left associativity) : c_scope.
Infix ".>>" := Z.shiftr (at level 38, left associativity) : c_scope.
#[global] Open Scope c_scope.

(** [flags & mask] used as a C condition. *)
Definition has (flags mask : Z) : bool := negb (flags .& mask =? 0).

(** [flags & ~mask] (the complement taken at the width of [flags], so no bit
    outside [flags] can appear). *)
Definition clr (flags mask : Z) : Z := Z.ldiff flags mask.

(** C integer division and remainder of non-negative operands. *)
Definition cdiv (a b : Z) : Z := Z.quot a b.
Definition crem (a b : Z) : Z := Z.rem a b.

Definition in_u8 (x : Z) : Prop := 0 <= x < 256.
Definition in_u16 (x : Z) : Prop := 0 <= x < 65536.
Definition in_u32 (x : Z) : Prop := 0 <= x < 4294967296.
Definition in_u64 (x : Z) : Prop := 0 <= x < 18446744073709551616.

(** * Faults

    A kernel call either returns or dereferences a null pointer. *)
Inductive outcome (A : Type) := Ok (a : A) | Oops.
Arguments Ok {A} a.
Arguments Oops {A}.

Definition obind {A B} (o : outcome A) (f : A -> outcome B) : outcome B :=
  match o with Ok a => f a | Oops => Oops end.

(** * Kernel types shared by the components *)

Inductive nl80211_dfs_regions := NL80211_DFS_UNSET | NL80211_DFS_FCC
  | NL80211_DFS_ETSI | NL80211_DFS_JP.
#[export] Instance nl80211_dfs_regions_eq_dec : EqDecision nl80211_dfs_regions.
Proof. solve_decision. Defined.

(** * Record update

    [r <| field := v |>] and [r <| field ::= f |>] for every record that has
    an [Eta] instance. *)

Class Eta (R : Type) := eta : R -> R.
Class Setter {R E : Type} (proj : R -> E) := upd : (E -> E) -> R -> R.
Arguments upd {R E} proj {_} f r /.

Ltac solve_setter :=
  lazymatch goal with
  | |- @Setter ?R ?E ?proj =>
      let e := constr:(_ : Eta R) in
      let b := eval red in e in
      let p := eval pattern proj in b in
      lazymatch p with
      | ?g _ => let t := eval cbv beta in (fun (f : E -> E) => g (fun r : R => f (proj r))) in exact t
      end
  end.
#[global] Hint Extern 1 (@Setter _ _ _) => solve_setter : typeclass_instances.

Notation "r <| p ::= f |>" := (upd p f r)
  (at level 1, p at level 9, left associativity, format "r  <| p  ::=  f |>") : stdpp_scope.
Notation "r <| p := v |>" := (upd p (fun _ => v) r)
  (at level 1, p at level 9, left associativity, format "r  <| p  :=  v |>") : stdpp_scope.


(** * Automation

    [csimp] normalises the machine arithmetic of a goal: it rewrites every
    [uN x] whose argument is provably in range. *)

Lemma u8_id x : in_u8 x -> u8 x = x.
Proof. intros. apply Z.mod_small. assumption. Qed.
Lemma u16_id x : in_u16 x -> u16 x = x.
Proof. intros. apply Z.mod_small. assumption. Qed.
Lemma u32_id x : in_u32 x -> u32 x = x.
Proof. intros. apply Z.mod_small. assumption. Qed.
Lemma u64_id x : in_u64 x -> u64 x = x.
Proof. intros. apply Z.mod_small. assumption. Qed.
Lemma u8_range x : in_u8 (u8 x).
Proof. apply Z.mod_pos_bound. lia. Qed.
Lemma u16_range x : in_u16 (u16 x).
Proof. apply Z.mod_pos_bound. lia. Qed.
Lemma u32_range x : in_u32 (u32 x).
Proof. apply Z.mod_pos_bound. lia. Qed.
Lemma u64_range x : in_u64 (u64 x).
Proof. apply Z.mod_pos_bound. lia. Qed.

Lemma u32_u64 x : u32 (u64 x) = u32 x.
Proof. unfold u32, u64. apply Z.mod_mod_divide. by exists 4294967296. Qed.

Lemma u32_add_l x y : u32 (u32 x + y) = u32 (x + y).
Proof. unfold u32. by rewrite Zplus_mod_idemp_l. Qed.
Lemma u32_add_r x y : u32 (x + u32 y) = u32 (x + y).
Proof. unfold u32. by rewrite Zplus_mod_idemp_r. Qed.
Lemma u32_sub_l x y : u32 (u32 x - y) = u32 (x - y).
Proof. unfold u32. by rewrite Zminus_mod_idemp_l. Qed.
Lemma u32_sub_r x y : u32 (x - u32 y) = u32 (x - y).
Proof. unfold u32. by rewrite Zminus_mod_idemp_r. Qed.
Lemma u32_idemp x : u32 (u32 x) = u32 x.
Proof. unfold u32. by rewrite Z.mod_mod. Qed.

Create HintDb c_arith.
Create Rewrite HintDb c_arith.
#[export] Hint Resolve u8_range u16_range u32_range u64_range : c_arith.
#[export] Hint Rewrite u32_add_l u32_add_r u32_sub_l u32_sub_r u32_idemp u32_u64 : c_arith.

Ltac unfold_ranges := unfold in_u8, in_u16, in_u32, in_u64 in *.

Ltac csimp :=
  repeat match goal with
  | |- context [u8 ?x] => rewrite (u8_id x) by (unfold_ranges; lia)
  | |- context [u16 ?x] => rewrite (u16_id x) by (unfold_ranges; lia)
  | |- context [u32 ?x] => rewrite (u32_id x) by (unfold_ranges; lia)
  | |- context [u64 ?x] => rewrite (u64_id x) by (unfold_ranges; lia)
  end.

(** [lia] with division and remainder by constants. *)
Ltac dlia := Z.div_mod_to_equations; lia.

(** [ztest] turns the boolean comparisons of the context into arithmetic. *)
Ltac ztest :=
  repeat match goal with
  | H : (_ && _)%bool = true |- _ => apply andb_true_iff in H as [? ?]
  | H : (_ || _)%bool = false |- _ => apply orb_false_iff in H as [? ?]
  | H : negb _ = true |- _ => apply negb_true_iff in H
  | H : negb _ = false |- _ => apply negb_false_iff in H
  | H : (_ <? _) = true |- _ => apply Z.ltb_lt in H
  | H : (_ <? _) = false |- _ => apply Z.ltb_ge in H
  | H : (_ <=? _) = true |- _ => apply Z.leb_le in H
  | H : (_ <=? _) = false |- _ => apply Z.leb_gt in H
  | H : (_ =? _) = true |- _ => apply Z.eqb_eq in H
  | H : (_ =? _) = false |- _ => apply Z.eqb_neq in H
  | H : bool_decide _ = true |- _ => apply bool_decide_eq_true in H
  | H : bool_decide _ = false |- _ => apply bool_decide_eq_false in H
  end.

(** Case analysis on the first test of the goal (or of a hypothesis). *)
Ltac brk := case_match; ztest; simplify_eq/=.

(** * Lists *)

Lemma removelast_snoc {A} (l : list A) x : List.removelast (l ++ [x]) = l.
Proof. apply List.removelast_last. Qed.

Lemma last_removelast {A} (l : list A) x :
  last l = Some x -> l = List.removelast l ++ [x].
Proof.
  destruct l as [|y l _] using rev_ind; [done|].
  rewrite last_snoc. intros [= ->]. by rewrite removelast_snoc.
Qed.

Lemma StronglySorted_app_l {A} (R : A -> A -> Prop) l1 l2 :
  StronglySorted R (l1 ++ l2) -> StronglySorted R l1.
Proof.
  induction l1 as [|x l1 IH]; simpl; [constructor|].
  inversion 1; subst. constructor; [auto|]. by apply Forall_app in H3 as [? _].
Qed.

(** The sum of [f] over a list. *)
Definition sumZ {A} (f : A -> Z) (l : list A) : Z := foldr (fun x s => f x + s) 0 l.

Lemma sumZ_app {A} (f : A -> Z) l1 l2 : sumZ f (l1 ++ l2) = sumZ f l1 + sumZ f l2.
Proof. induction l1 as [|x l1 IH]; simpl; [done|]. rewrite IH. lia. Qed.

Lemma sumZ_cons {A} (f : A -> Z) x l : sumZ f (x :: l) = f x + sumZ f l.
Proof. done. Qed.

(** * Bit fields *)

Lemma lor_add a b : Z.land a b = 0 -> a .| b = a + b.
Proof. intros H. rewrite <- Z.lxor_lor by done. symmetry. by apply Z.add_nocarry_lxor. Qed.

(** Putting a field above the low [n] bits. *)
Lemma lor_shiftl_add a b n : 0 <= n -> 0 <= a < 2 ^ n -> a .| (b .<< n) = a + b * 2 ^ n.
Proof.
  intros Hn Ha. rewrite lor_add, Z.shiftl_mul_pow2; [done|done|].
  apply Z.bits_inj'. intros i Hi. rewrite Z.land_spec, Z.bits_0.
  destruct (Z.lt_ge_cases i n) as [Hlt|Hge].
  - by rewrite Z.shiftl_spec_low, andb_false_r.
  - destruct (Z.eq_dec a 0) as [->|]; [by rewrite Z.bits_0|].
    rewrite Z.bits_above_log2; [done|lia|]. assert (Z.log2 a < n) by (apply Z.log2_lt_pow2; lia). lia.
Qed.

(** [testbit] of a one-bit mask test. *)
Lemma has_pow2 x n : 0 <= n -> has x (2 ^ n) = Z.testbit x n.
Proof.
  intros Hn. unfold has. destruct (Z.testbit x n) eqn:E.
  - apply negb_true_iff, Z.eqb_neq. intros Hz. apply (f_equal (fun y => Z.testbit y n)) in Hz.
    by rewrite Z.land_spec, Z.pow2_bits_true, E, Z.bits_0 in Hz by lia.
  - apply negb_false_iff, Z.eqb_eq. apply Z.bits_inj'. intros i Hi.
    rewrite Z.land_spec, Z.bits_0. destruct (Z.eq_dec i n) as [->|]; [by rewrite E|].
    by rewrite Z.pow2_bits_false, andb_false_r by lia.
Qed.

(** A flag that is part of a word is set. *)
Lemma has_lor_l a b m : has a m = true -> has (a .| b) m = true.
Proof.
  unfold has. intros Ha%negb_true_iff%Z.eqb_neq. apply negb_true_iff, Z.eqb_neq. intros H. apply Ha.
  rewrite Z.land_lor_distr_l in H. by apply Z.lor_eq_0_iff in H as [? _].
Qed.
Lemma has_lor_r a b m : has b m = true -> has (a .| b) m = true.
Proof. rewrite Z.lor_comm. apply has_lor_l. Qed.

Lemma has_lor a b m : has (a .| b) m = has a m || has b m.
Proof.
  destruct (has a m) eqn:Ha; [by rewrite has_lor_l|]. destruct (has b m) eqn:Hb; [by rewrite has_lor_r|].
  unfold has in *. apply negb_false_iff, Z.eqb_eq in Ha, Hb. by rewrite Z.land_lor_distr_l, Ha, Hb.
Qed.

(** Truncating division in terms of the Euclidean one. *)
Lemma cdiv_nonneg a b : 0 <= a -> 0 < b -> cdiv a b = a / b.
Proof. intros. unfold cdiv. by apply Z.quot_div_nonneg. Qed.
Lemma cdiv_neg a b : a <= 0 -> 0 < b -> cdiv a b = - (- a / b).
Proof.
  intros. unfold cdiv. rewrite <- (Z.opp_involutive a) at 1.
  rewrite Z.quot_opp_l by lia. by rewrite Z.quot_div_nonneg by lia.
Qed.
