(* ===== verification/DfsPri.v ===== *)
(** PRI detector of the DFS radar detection (src/real/ath/dfs_pri_detector.c,
    dfs_pri_detector.h, dfs_pattern_detector.h). *)

From S2P Require Import Prelude.

(** * Data *)

Record ath_dfs_pool_stats := {
  pool_reference : Z;
  pulse_allocated : Z;
  pulse_alloc_error : Z;
  pulse_used : Z;
  pseq_allocated : Z;
  pseq_alloc_error : Z;
  pseq_used : Z;
}.
#[export] Instance eta_ath_dfs_pool_stats : Eta ath_dfs_pool_stats := fun r =>
  Build_ath_dfs_pool_stats (pool_reference r) (pulse_allocated r)
    (pulse_alloc_error r) (pulse_used r) (pseq_allocated r)
    (pseq_alloc_error r) (pseq_used r).

Record pulse_event := {
  pe_ts : Z;      (* u64 *)
  pe_freq : Z;    (* u16 *)
  pe_width : Z;   (* u8 *)
  pe_rssi : Z;    (* u8 *)
  pe_chirp : bool;
}.
#[export] Instance eta_pulse_event : Eta pulse_event := fun r =>
  Build_pulse_event (pe_ts r) (pe_freq r) (pe_width r) (pe_rssi r) (pe_chirp r).

Record radar_detector_specs := {
  type_id : Z;
  width_min : Z;
  width_max : Z;
  pri_min : Z;
  pri_max : Z;
  num_pri : Z;
  ppb : Z;
  ppb_thresh : Z;
  max_pri_tolerance : Z;
  chirp : bool;
}.

Definition PRI_TOLERANCE : Z := 16.

(** Elements of the pulse queue; [head] is the position in the Rocq list. *)
Record pulse_elem := { p_ts : Z (* u64 *) }.

Record pri_sequence := {
  ps_pri : Z;          (* u32 *)
  ps_dur : Z;          (* u32 *)
  ps_count : Z;        (* u32 *)
  ps_count_falses : Z; (* u32 *)
  ps_first_ts : Z;     (* u64 *)
  ps_last_ts : Z;      (* u64 *)
  ps_deadline_ts : Z;  (* u64 *)
}.
#[export] Instance eta_pri_sequence : Eta pri_sequence := fun r =>
  Build_pri_sequence (ps_pri r) (ps_dur r) (ps_count r) (ps_count_falses r)
    (ps_first_ts r) (ps_last_ts r) (ps_deadline_ts r).

(** The heads of [de_sequences] and [de_pulses] are the first list entries
    (newest pulse first). *)
Record pri_detector := {
  de_rs : radar_detector_specs;
  de_last_ts : Z;      (* u64 *)
  de_sequences : list pri_sequence;
  de_pulses : list pulse_elem;
  de_count : Z;        (* u32 *)
  de_max_count : Z;    (* u32 *)
  de_window_size : Z;  (* u32 *)
}.
#[export] Instance eta_pri_detector : Eta pri_detector := fun r =>
  Build_pri_detector (de_rs r) (de_last_ts r) (de_sequences r) (de_pulses r)
    (de_count r) (de_max_count r) (de_window_size r).

(** The file-scope variables of dfs_pri_detector.c. [oom] scripts the outcome
    of the coming allocations ([true]: the allocation succeeds; an exhausted
    script: every further allocation succeeds). *)
Record dfs_pool := {
  global_dfs_pool_stats : ath_dfs_pool_stats;
  singleton_pool_references : Z; (* u32 *)
  pulse_pool : list pulse_elem;
  pseq_pool : list pri_sequence;
  oom : list bool;
}.
#[export] Instance eta_dfs_pool : Eta dfs_pool := fun r =>
  Build_dfs_pool (global_dfs_pool_stats r) (singleton_pool_references r)
    (pulse_pool r) (pseq_pool r) (oom r).

Definition kmalloc_ok (g : dfs_pool) : bool * dfs_pool :=
  match oom g with
  | [] => (true, g)
  | b :: r => (b, g <| oom := r |>)
  end.

Definition stat_upd (f : ath_dfs_pool_stats -> ath_dfs_pool_stats) (g : dfs_pool)
  : dfs_pool := g <| global_dfs_pool_stats ::= f |>.

Definition inc (x : Z) : Z := u32 (x + 1).
Definition dec (x : Z) : Z := u32 (x - 1).

(** * pde_get_multiple *)

Definition pde_get_multiple (val fraction tolerance : Z) : Z :=
  if fraction =? 0 then 0
  else
    let delta := if val <? fraction then fraction - val else val - fraction in
    if delta <=? tolerance then 1
    else
      let factor := val / fraction in
      let remainder := val mod fraction in
      if tolerance <? remainder then
        if fraction - remainder <=? tolerance then u32 (factor + 1) else 0
      else factor.

(** * Singleton pools *)

Definition pool_register_ref (g : dfs_pool) : dfs_pool :=
  let g := g <| singleton_pool_references ::= inc |> in
  stat_upd (fun s => s <| pool_reference ::= inc |>) g.

Fixpoint free_pulse_pool (l : list pulse_elem) (g : dfs_pool) : dfs_pool :=
  match l with
  | [] => g
  | _ :: r =>
      let g := g <| pulse_pool := r |> in
      free_pulse_pool r (stat_upd (fun s => s <| pulse_allocated ::= dec |>) g)
  end.

Fixpoint free_pseq_pool (l : list pri_sequence) (g : dfs_pool) : dfs_pool :=
  match l with
  | [] => g
  | _ :: r =>
      let g := g <| pseq_pool := r |> in
      free_pseq_pool r (stat_upd (fun s => s <| pseq_allocated ::= dec |>) g)
  end.

Definition pool_deregister_ref (g : dfs_pool) : dfs_pool :=
  let g := g <| singleton_pool_references ::= dec |> in
  let g := stat_upd (fun s => s <| pool_reference ::= dec |>) g in
  if singleton_pool_references g =? 0 then
    let g := free_pulse_pool (pulse_pool g) g in
    free_pseq_pool (pseq_pool g) g
  else g.

Definition pool_put_pulse_elem (pe : pulse_elem) (g : dfs_pool) : dfs_pool :=
  let g := g <| pulse_pool ::= cons pe |> in
  stat_upd (fun s => s <| pulse_used ::= dec |>) g.

Definition pool_put_pseq_elem (pse : pri_sequence) (g : dfs_pool) : dfs_pool :=
  let g := g <| pseq_pool ::= cons pse |> in
  stat_upd (fun s => s <| pseq_used ::= dec |>) g.

Definition pool_get_pseq_elem (g : dfs_pool) : option pri_sequence * dfs_pool :=
  match pseq_pool g with
  | [] => (None, g)
  | pse :: r =>
      let g := g <| pseq_pool := r |> in
      (Some pse, stat_upd (fun s => s <| pseq_used ::= inc |>) g)
  end.

Definition pool_get_pulse_elem (g : dfs_pool) : option pulse_elem * dfs_pool :=
  match pulse_pool g with
  | [] => (None, g)
  | pe :: r =>
      let g := g <| pulse_pool := r |> in
      (Some pe, stat_upd (fun s => s <| pulse_used ::= inc |>) g)
  end.

(** * Pulse queue *)

Definition pulse_queue_get_tail (pde : pri_detector) : option pulse_elem :=
  last (de_pulses pde).

Definition pulse_queue_dequeue (pde : pri_detector) (g : dfs_pool)
  : bool * pri_detector * dfs_pool :=
  let '(pde, g) :=
    match pulse_queue_get_tail pde with
    | None => (pde, g)
    | Some p =>
        let pde := pde <| de_pulses ::= List.removelast (A := pulse_elem) |> in
        let pde := pde <| de_count ::= dec |> in
        (pde, pool_put_pulse_elem p g)
    end in
  (0 <? de_count pde, pde, g).

(** The [while] loop of [pulse_queue_check_window]; every iteration removes a
    pulse, so the length of the queue is enough fuel. *)
Fixpoint check_window_loop (fuel : nat) (min_valid_ts : Z) (pde : pri_detector)
    (g : dfs_pool) : pri_detector * dfs_pool :=
  match fuel with
  | O => (pde, g)
  | S fuel =>
      match pulse_queue_get_tail pde with
      | None => (pde, g)
      | Some p =>
          if min_valid_ts <=? p_ts p then (pde, g)
          else
            let '(_, pde, g) := pulse_queue_dequeue pde g in
            check_window_loop fuel min_valid_ts pde g
      end
  end.

Definition pulse_queue_check_window (pde : pri_detector) (g : dfs_pool)
  : pri_detector * dfs_pool :=
  if de_count pde <? 2 then (pde, g)
  else if de_last_ts pde <=? de_window_size pde then (pde, g)
  else
    let min_valid_ts := u64 (de_last_ts pde - de_window_size pde) in
    check_window_loop (length (de_pulses pde)) min_valid_ts pde g.

(** The pooled or freshly allocated element of [pulse_queue_enqueue]. *)
Definition acquire_pulse_elem (g : dfs_pool) : option pulse_elem * dfs_pool :=
  let '(p, g) := pool_get_pulse_elem g in
  match p with
  | Some p => (Some p, g)
  | None =>
      let '(ok, g) := kmalloc_ok g in
      if ok then
        let g := stat_upd (fun s => s <| pulse_allocated ::= inc |>) g in
        (Some {| p_ts := 0 |}, stat_upd (fun s => s <| pulse_used ::= inc |>) g)
      else (None, stat_upd (fun s => s <| pulse_alloc_error ::= inc |>) g)
  end.

Definition pulse_queue_enqueue (pde : pri_detector) (ts : Z) (g : dfs_pool)
  : bool * pri_detector * dfs_pool :=
  let '(p, g) := acquire_pulse_elem g in
  match p with
  | None => (false, pde, g)
  | Some p =>
      let p := {| p_ts := ts |} in
      let pde := pde <| de_pulses ::= cons p |> in
      let pde := pde <| de_count ::= inc |> in
      let pde := pde <| de_last_ts := ts |> in
      let '(pde, g) := pulse_queue_check_window pde g in
      let '(pde, g) :=
        if de_max_count pde <=? de_count pde then
          let '(_, pde, g) := pulse_queue_dequeue pde g in (pde, g)
        else (pde, g) in
      (true, pde, g)
  end.

(** * Sequences *)

Definition GET_PRI_TO_USE (MIN MAX RUNTIME : Z) : Z :=
  if MIN + PRI_TOLERANCE =? MAX - PRI_TOLERANCE then MIN + PRI_TOLERANCE else RUNTIME.

(** The inner loop of [pseq_handler_create_sequences]: the older pulses that
    match the candidate interval. *)
Fixpoint match_past_pulses (rs : radar_detector_specs) (min_valid_ts : Z)
    (past : list pulse_elem) (tmp_false_count : Z) (ps : pri_sequence) : pri_sequence :=
  match past with
  | [] => ps
  | p2 :: past =>
      if p_ts p2 <? min_valid_ts then ps
      else
        let factor := pde_get_multiple (u32 (ps_last_ts ps - p_ts p2)) (ps_pri ps)
                        (max_pri_tolerance rs) in
        if 0 <? factor then
          let ps := ps <| ps_count ::= inc |> in
          let ps := ps <| ps_first_ts := p_ts p2 |> in
          let ps := ps <| ps_count_falses ::= fun c => u32 (c + tmp_false_count) |> in
          match_past_pulses rs min_valid_ts past 0 ps
        else match_past_pulses rs min_valid_ts past (inc tmp_false_count) ps
  end.

(** The candidate sequence built from the pulse [p] and the new time stamp
    [ts] before the older pulses are looked at. *)
Definition candidate_sequence (rs : radar_detector_specs) (ts : Z) (p : pulse_elem)
  : pri_sequence :=
  let pri := u32 (GET_PRI_TO_USE (pri_min rs) (pri_max rs) (u64 (ts - p_ts p))) in
  {| ps_pri := pri;
     ps_dur := u32 (pri * (ppb rs - 1) + 2 * max_pri_tolerance rs);
     ps_count := 2;
     ps_count_falses := 0;
     ps_first_ts := p_ts p;
     ps_last_ts := ts;
     ps_deadline_ts := 0 |}.

(** The pooled or freshly allocated element that receives the sequence; its
    old contents are overwritten by the [memcpy]. *)
Definition acquire_pseq_elem (g : dfs_pool) : option unit * dfs_pool :=
  let '(new_ps, g) := pool_get_pseq_elem g in
  match new_ps with
  | Some _ => (Some tt, g)
  | None =>
      let '(ok, g) := kmalloc_ok g in
      if ok then
        let g := stat_upd (fun s => s <| pseq_allocated ::= inc |>) g in
        (Some tt, stat_upd (fun s => s <| pseq_used ::= inc |>) g)
      else (None, stat_upd (fun s => s <| pseq_alloc_error ::= inc |>) g)
  end.

Fixpoint create_sequences_loop (rs : radar_detector_specs) (ts min_count : Z)
    (pulses : list pulse_elem) (seqs : list pri_sequence) (g : dfs_pool)
  : bool * list pri_sequence * dfs_pool :=
  match pulses with
  | [] => (true, seqs, g)
  | p :: past =>
      let delta_ts := u32 (ts - p_ts p) in
      if delta_ts <? pri_min rs then create_sequences_loop rs ts min_count past seqs g
      else if pri_max rs <? delta_ts then (true, seqs, g)
      else
        let ps := candidate_sequence rs ts p in
        let min_valid_ts := u64 (ts - ps_dur ps) in
        let ps := match_past_pulses rs min_valid_ts past 0 ps in
        if ps_count ps <=? min_count then
          create_sequences_loop rs ts min_count past seqs g
        else
          let ps := ps <| ps_deadline_ts := u64 (ps_first_ts ps + ps_dur ps) |> in
          let '(new_ps, g) := acquire_pseq_elem g in
          match new_ps with
          | None => (false, seqs, g)
          | Some _ => create_sequences_loop rs ts min_count past (ps :: seqs) g
          end
  end.

Definition pseq_handler_create_sequences (pde : pri_detector) (ts min_count : Z)
    (g : dfs_pool) : bool * pri_detector * dfs_pool :=
  let '(ok, seqs, g) :=
    create_sequences_loop (de_rs pde) ts min_count (de_pulses pde) (de_sequences pde) g in
  (ok, pde <| de_sequences := seqs |>, g).

Fixpoint add_to_existing_loop (rs : radar_detector_specs) (ts : Z)
    (seqs : list pri_sequence) (max_count : Z) (g : dfs_pool)
  : Z * list pri_sequence * dfs_pool :=
  match seqs with
  | [] => (max_count, [], g)
  | ps :: rest =>
      if ps_deadline_ts ps <? ts then
        add_to_existing_loop rs ts rest max_count (pool_put_pseq_elem ps g)
      else
        let delta_ts := u32 (ts - ps_last_ts ps) in
        let factor := pde_get_multiple delta_ts (ps_pri ps) (max_pri_tolerance rs) in
        let '(ps, max_count) :=
          if 0 <? factor then
            let ps := ps <| ps_last_ts := ts |> in
            let ps := ps <| ps_count ::= inc |> in
            (ps, if max_count <? ps_count ps then ps_count ps else max_count)
          else (ps <| ps_count_falses ::= inc |>, max_count) in
        let '(max_count, rest, g) := add_to_existing_loop rs ts rest max_count g in
        (max_count, ps :: rest, g)
  end.

Definition pseq_handler_add_to_existing_seqs (pde : pri_detector) (ts : Z)
    (g : dfs_pool) : Z * pri_detector * dfs_pool :=
  let '(max_count, seqs, g) :=
    add_to_existing_loop (de_rs pde) ts (de_sequences pde) 0 g in
  (max_count, pde <| de_sequences := seqs |>, g).

Definition pseq_detected (rs : radar_detector_specs) (ps : pri_sequence) : bool :=
  (ppb_thresh rs <=? ps_count ps) &&
  (ps_count_falses ps <=? u32 (ps_count ps * num_pri rs)).

Definition pseq_handler_check_detection (pde : pri_detector) : option pri_sequence :=
  List.find (pseq_detected (de_rs pde)) (de_sequences pde).

(** * The detector *)

Definition pri_detector_reset (pde : pri_detector) (ts : Z) (g : dfs_pool)
  : pri_detector * dfs_pool :=
  let g := fold_left (fun g ps => pool_put_pseq_elem ps g) (de_sequences pde) g in
  let pde := pde <| de_sequences := [] |> in
  let g := fold_left (fun g p => pool_put_pulse_elem p g) (de_pulses pde) g in
  let pde := pde <| de_pulses := [] |> in
  let pde := pde <| de_count := 0 |> in
  (pde <| de_last_ts := ts |>, g).

Definition pri_detector_exit (de : pri_detector) (g : dfs_pool) : dfs_pool :=
  let '(_, g) := pri_detector_reset de 0 g in
  pool_deregister_ref g.

Definition pri_detector_add_pulse (de : pri_detector) (event : pulse_event)
    (g : dfs_pool) : option pri_sequence * pri_detector * dfs_pool :=
  let ts := pe_ts event in
  let rs := de_rs de in
  if (pe_width event <? width_min rs) || (width_max rs <? pe_width event) then
    (None, de, g)
  else if u64 (ts - de_last_ts de) <? max_pri_tolerance rs then (None, de, g)
  else if chirp rs && negb (eqb (chirp rs) (pe_chirp event)) then (None, de, g)
  else
    let de := de <| de_last_ts := ts |> in
    let '(max_updated_seq, de, g) := pseq_handler_add_to_existing_seqs de ts g in
    let '(ok, de, g) := pseq_handler_create_sequences de ts max_updated_seq g in
    if negb ok then
      let '(de, g) := pri_detector_reset de ts g in (None, de, g)
    else
      match pseq_handler_check_detection de with
      | Some ps => (Some ps, de, g)
      | None =>
          let '(_, de, g) := pulse_queue_enqueue de ts g in
          (None, de, g)
      end.

Definition pri_detector_init (rs : radar_detector_specs) (g : dfs_pool)
  : option pri_detector * dfs_pool :=
  let '(ok, g) := kmalloc_ok g in
  if negb ok then (None, g)
  else
    let de :=
      {| de_rs := rs; de_last_ts := 0; de_sequences := []; de_pulses := [];
         de_count := 0;
         de_max_count := ppb rs * 2;
         de_window_size := u32 (pri_max rs * ppb rs * num_pri rs) |} in
    (Some de, pool_register_ref g).

(** * Theorems: pde_get_multiple *)

Lemma pde_get_multiple_unfold val fraction tolerance :
  in_u32 val -> 0 < fraction -> 0 <= tolerance ->
  pde_get_multiple val fraction tolerance =
    if Z.abs (val - fraction) <=? tolerance then 1
    else if tolerance <? val mod fraction then
      if fraction - val mod fraction <=? tolerance then val / fraction + 1 else 0
    else val / fraction.
Proof.
  unfold pde_get_multiple, in_u32. intros Hv Hf Ht.
  destruct (Z.eqb_spec fraction 0); [lia|].
  replace (if val <? fraction then fraction - val else val - fraction)
    with (Z.abs (val - fraction)) by (case_match; ztest; lia).
  repeat case_match; ztest; try done.
  apply u32_id. unfold in_u32.
  assert (val / fraction < 4294967295).
  { apply Z.div_lt_upper_bound; [lia|]. pose proof (Z.mod_pos_bound val fraction). nia. }
  assert (0 <= val / fraction) by (apply Z.div_pos; lia). lia.
Qed.

Lemma pde_get_multiple_sound val fraction tolerance :
  in_u32 val -> 0 < fraction -> 0 <= tolerance ->
  0 < pde_get_multiple val fraction tolerance ->
  Z.abs (val - pde_get_multiple val fraction tolerance * fraction) <= tolerance.
Proof.
  intros Hv Hf Ht. rewrite pde_get_multiple_unfold by done.
  pose proof (Z.div_mod val fraction ltac:(lia)).
  pose proof (Z.mod_pos_bound val fraction Hf).
  repeat case_match; ztest; lia.
Qed.

Lemma pde_get_multiple_complete val fraction tolerance k :
  in_u32 val -> 0 < fraction -> 1 <= k ->
  Z.abs (val - k * fraction) <= tolerance ->
  0 < pde_get_multiple val fraction tolerance.
Proof.
  intros Hv Hf Hk Hd. rewrite pde_get_multiple_unfold by (done || lia).
  pose proof (Z.div_mod val fraction ltac:(lia)) as Hdm.
  pose proof (Z.mod_pos_bound val fraction Hf) as Hb.
  unfold in_u32 in Hv.
  assert (0 <= val / fraction) by (apply Z.div_pos; lia).
  set (q := val / fraction) in *. set (r := val mod fraction) in *.
  repeat case_match; ztest; try lia.
  - exfalso. assert (k <= q \/ k = q + 1 \/ q + 2 <= k) as [?|[->|?]] by lia; nia.
  - assert (q = 0 \/ 1 <= q) as [E|?] by lia; [|lia].
    exfalso. rewrite E in Hdm. assert (k = 1 \/ 2 <= k) as [->|?] by lia; nia.
Qed.

Lemma pde_get_multiple_nonneg val fraction tolerance :
  in_u32 val -> 0 <= fraction -> 0 <= tolerance ->
  0 <= pde_get_multiple val fraction tolerance.
Proof.
  intros Hv Hf Ht. destruct (Z.eq_dec fraction 0) as [->|].
  { unfold pde_get_multiple. by rewrite Z.eqb_refl. }
  rewrite pde_get_multiple_unfold by (done || lia).
  assert (0 <= val / fraction) by (apply Z.div_pos; unfold in_u32 in *; lia).
  repeat case_match; lia.
Qed.

(** [pde_get_multiple] is non-zero exactly when the interval [val] is
    within the tolerance of some positive multiple of [fraction], and then it
    returns such a multiple; it returns 0 for [fraction = 0]. *)
Theorem pde_get_multiple_correct val fraction tolerance :
  in_u32 val -> 0 <= fraction -> 0 <= tolerance ->
  let factor := pde_get_multiple val fraction tolerance in
  (factor <> 0 <-> 0 < fraction /\ exists k, 1 <= k /\ Z.abs (val - k * fraction) <= tolerance)
  /\ (factor <> 0 -> Z.abs (val - factor * fraction) <= tolerance)
  /\ 0 <= factor.
Proof.
  intros Hv Hf Ht factor. subst factor.
  pose proof (pde_get_multiple_nonneg val fraction tolerance Hv Hf Ht) as Hn.
  destruct (Z.eq_dec fraction 0) as [->|].
  { unfold pde_get_multiple in *. rewrite Z.eqb_refl in *. repeat split; lia. }
  split_and!; [split| |done].
  - intros Hnz. split; [lia|]. eexists; split; [|apply pde_get_multiple_sound]; lia || done.
  - intros (_ & k & Hk & Hd).
    pose proof (pde_get_multiple_complete val fraction tolerance k Hv). lia.
  - intros Hnz. apply pde_get_multiple_sound; lia || done.
Qed.

(** * Theorems: pool accounting

    [pool_accounts nr g np ns]: with [nr] live detectors that hold [np] pulses
    and [ns] sequences, the reference counter is [nr], and the statistics of
    [g] count exactly those objects as used, and those plus the pooled objects
    as allocated. *)
Definition pool_accounts (nr : Z) (g : dfs_pool) (np ns : Z) : Prop :=
  let s := global_dfs_pool_stats g in
  singleton_pool_references g = u32 nr /\
  pool_reference s = u32 nr /\
  pulse_used s = u32 np /\
  pulse_allocated s = u32 (np + Z.of_nat (length (pulse_pool g))) /\
  pseq_used s = u32 ns /\
  pseq_allocated s = u32 (ns + Z.of_nat (length (pseq_pool g))).

(** The accounts of a pool in which the detector [de] holds its lists on top
    of the [np] pulses and [ns] sequences of the other detectors. *)
Definition detector_accounts (nr : Z) (g : dfs_pool) (np ns : Z) (de : pri_detector) : Prop :=
  pool_accounts nr g (np + Z.of_nat (length (de_pulses de)))
    (ns + Z.of_nat (length (de_sequences de))).

Create HintDb dfs_pool.

Ltac accounts :=
  unfold pool_accounts, detector_accounts, stat_upd, inc, dec in *; simpl in *;
  repeat match goal with H : _ /\ _ |- _ => destruct H end;
  repeat match goal with H : _ = u32 _ |- _ => rewrite H; clear H end;
  autorewrite with c_arith; rewrite ?Nat2Z.inj_succ;
  repeat split; first [done | assumption | f_equal; lia].

Section Accounts.
Context (nr : Z).

Lemma kmalloc_accounts g np ns :
  pool_accounts nr g np ns -> pool_accounts nr (snd (kmalloc_ok g)) np ns.
Proof. unfold kmalloc_ok. destruct (oom g); done. Qed.

Lemma put_pulse_accounts p g np ns :
  pool_accounts nr g (np + 1) ns -> pool_accounts nr (pool_put_pulse_elem p g) np ns.
Proof. unfold pool_put_pulse_elem. intros. accounts. Qed.

Lemma put_pseq_accounts ps g np ns :
  pool_accounts nr g np (ns + 1) -> pool_accounts nr (pool_put_pseq_elem ps g) np ns.
Proof. unfold pool_put_pseq_elem. intros. accounts. Qed.

Lemma acquire_pulse_accounts g np ns :
  pool_accounts nr g np ns ->
  match acquire_pulse_elem g with
  | (Some _, g') => pool_accounts nr g' (np + 1) ns
  | (None, g') => pool_accounts nr g' np ns
  end.
Proof.
  unfold acquire_pulse_elem, pool_get_pulse_elem. intros H.
  destruct (pulse_pool g) eqn:E.
  - pose proof (kmalloc_accounts g _ _ H). destruct (kmalloc_ok g) as [[] g1]; accounts.
  - unfold pool_accounts in H. rewrite E in H. accounts.
Qed.

Lemma acquire_pseq_accounts g np ns :
  pool_accounts nr g np ns ->
  match acquire_pseq_elem g with
  | (Some _, g') => pool_accounts nr g' np (ns + 1)
  | (None, g') => pool_accounts nr g' np ns
  end.
Proof.
  unfold acquire_pseq_elem, pool_get_pseq_elem. intros H.
  destruct (pseq_pool g) eqn:E.
  - pose proof (kmalloc_accounts g _ _ H). destruct (kmalloc_ok g) as [[] g1]; accounts.
  - unfold pool_accounts in H. rewrite E in H. accounts.
Qed.

Lemma pool_accounts_eq g np ns np' ns' :
  pool_accounts nr g np ns -> np = np' -> ns = ns' -> pool_accounts nr g np' ns'.
Proof. by intros ? -> ->. Qed.

Lemma dequeue_accounts de g np ns b de' g' :
  detector_accounts nr g np ns de ->
  pulse_queue_dequeue de g = (b, de', g') -> detector_accounts nr g' np ns de'.
Proof.
  unfold pulse_queue_dequeue, pulse_queue_get_tail. intros H.
  destruct (last (de_pulses de)) as [p|] eqn:E; intros; simplify_eq/=; [|done].
  apply last_removelast in E. unfold detector_accounts in *. rewrite E in H.
  rewrite length_app in H. simpl in *.
  apply put_pulse_accounts. eapply pool_accounts_eq; [exact H|simpl; lia|done].
Qed.

Lemma check_window_loop_accounts fuel m de g np ns de' g' :
  detector_accounts nr g np ns de ->
  check_window_loop fuel m de g = (de', g') -> detector_accounts nr g' np ns de'.
Proof.
  revert de g. induction fuel as [|fuel IH]; intros de g H; simpl; [by intros; simplify_eq|].
  repeat case_match; intros; simplify_eq; eauto using dequeue_accounts.
Qed.

Lemma check_window_accounts de g np ns de' g' :
  detector_accounts nr g np ns de ->
  pulse_queue_check_window de g = (de', g') -> detector_accounts nr g' np ns de'.
Proof.
  unfold pulse_queue_check_window. repeat case_match; intros; simplify_eq;
    eauto using check_window_loop_accounts.
Qed.

Lemma enqueue_accounts de ts g np ns b de' g' :
  detector_accounts nr g np ns de ->
  pulse_queue_enqueue de ts g = (b, de', g') -> detector_accounts nr g' np ns de'.
Proof.
  unfold pulse_queue_enqueue. intros H.
  pose proof (acquire_pulse_accounts g _ _ H) as Hr.
  destruct (acquire_pulse_elem g) as [[p|] g2]; [|by intros; simplify_eq].
  set (de1 := upd de_last_ts _ _).
  assert (detector_accounts nr g2 np ns de1) as H1.
  { eapply pool_accounts_eq; [exact Hr|simpl; lia|done]. }
  destruct (pulse_queue_check_window de1 g2) as [de2 g3] eqn:E.
  pose proof (check_window_accounts _ _ _ _ _ _ H1 E) as H2.
  destruct (de_max_count de2 <=? de_count de2); [|by intros; simplify_eq].
  destruct (pulse_queue_dequeue de2 g3) as [[? ?] ?] eqn:E3.
  intros; simplify_eq. eauto using dequeue_accounts.
Qed.

Lemma create_loop_accounts rs ts m pulses seqs g np ns ok seqs' g' :
  pool_accounts nr g np (ns + Z.of_nat (length seqs)) ->
  create_sequences_loop rs ts m pulses seqs g = (ok, seqs', g') ->
  pool_accounts nr g' np (ns + Z.of_nat (length seqs')).
Proof.
  revert seqs g. induction pulses as [|p past IH]; intros seqs g H; simpl.
  { by intros; simplify_eq. }
  destruct (u32 (ts - p_ts p) <? pri_min rs); [by apply IH|].
  destruct (pri_max rs <? _); [by intros; simplify_eq|].
  set (ps := match_past_pulses _ _ _ _ _).
  destruct (ps_count ps <=? m); [by apply IH|].
  pose proof (acquire_pseq_accounts g _ _ H) as Hg.
  destruct (acquire_pseq_elem g) as [[[]|] g1]; [|by intros; simplify_eq].
  apply IH. eapply pool_accounts_eq; [exact Hg|done|simpl; lia].
Qed.

Lemma add_to_existing_accounts rs ts seqs m g np ns m' seqs' g' :
  pool_accounts nr g np (ns + Z.of_nat (length seqs)) ->
  add_to_existing_loop rs ts seqs m g = (m', seqs', g') ->
  pool_accounts nr g' np (ns + Z.of_nat (length seqs')).
Proof.
  revert ns m g m' seqs' g'. induction seqs as [|ps seqs IH]; intros ns m g m' seqs' g' H; simpl.
  { by intros; simplify_eq. }
  destruct (ps_deadline_ts ps <? ts).
  - apply IH. apply put_pseq_accounts. eapply pool_accounts_eq; [exact H|done|simpl; lia].
  - set (r := if 0 <? _ then _ else _). destruct r as [ps' m1].
    destruct (add_to_existing_loop rs ts seqs m1 g) as [[m2 rest] g2] eqn:E.
    intros; simplify_eq/=. eapply (IH (ns + 1)) in E.
    + eapply pool_accounts_eq; [exact E|done|lia].
    + eapply pool_accounts_eq; [exact H|done|simpl; lia].
Qed.

Lemma fold_put_pseq_accounts l g np ns :
  pool_accounts nr g np (ns + Z.of_nat (length l)) ->
  pool_accounts nr (fold_left (fun g ps => pool_put_pseq_elem ps g) l g) np ns.
Proof.
  revert g. induction l as [|p l IH]; intros g H; simpl in *.
  - eapply pool_accounts_eq; [exact H|lia..].
  - apply IH, put_pseq_accounts. eapply pool_accounts_eq; [exact H|lia..].
Qed.

Lemma fold_put_pulse_accounts l g np ns :
  pool_accounts nr g (np + Z.of_nat (length l)) ns ->
  pool_accounts nr (fold_left (fun g p => pool_put_pulse_elem p g) l g) np ns.
Proof.
  revert g. induction l as [|p l IH]; intros g H; simpl in *.
  - eapply pool_accounts_eq; [exact H|lia..].
  - apply IH, put_pulse_accounts. eapply pool_accounts_eq; [exact H|lia..].
Qed.

Lemma reset_accounts de ts g np ns de' g' :
  detector_accounts nr g np ns de ->
  pri_detector_reset de ts g = (de', g') ->
  pool_accounts nr g' np ns /\ de_pulses de' = [] /\ de_sequences de' = [] /\
  de_rs de' = de_rs de /\ de_count de' = 0 /\ de_last_ts de' = ts /\
  de_max_count de' = de_max_count de.
Proof.
  unfold pri_detector_reset. intros H ?; simplify_eq/=. split_and!; try done.
  apply fold_put_pulse_accounts, fold_put_pseq_accounts. exact H.
Qed.

Lemma reset_detector_accounts de ts g np ns de' g' :
  detector_accounts nr g np ns de ->
  pri_detector_reset de ts g = (de', g') -> detector_accounts nr g' np ns de'.
Proof.
  intros H E. destruct (reset_accounts _ _ _ _ _ _ _ H E) as (Ha & Hp & Hs & _).
  unfold detector_accounts. rewrite Hp, Hs. eapply pool_accounts_eq; [exact Ha|simpl; lia..].
Qed.

(** [pri_detector_add_pulse] neither leaks nor double-frees a pooled object:
    the accounts of the pool stay exact on every path, allocation failures
    included. *)
Lemma add_pulse_accounts de e g np ns r de' g' :
  detector_accounts nr g np ns de ->
  pri_detector_add_pulse de e g = (r, de', g') -> detector_accounts nr g' np ns de'.
Proof.
  unfold pri_detector_add_pulse, pseq_handler_add_to_existing_seqs,
    pseq_handler_create_sequences. intros H.
  destruct (_ || _); [by intros; simplify_eq|].
  destruct (_ <? _); [by intros; simplify_eq|].
  destruct (_ && _); [by intros; simplify_eq|]. simpl.
  destruct (add_to_existing_loop _ _ _ _ _) as [[m seqs1] g1] eqn:E1.
  pose proof (add_to_existing_accounts _ _ _ _ _ _ _ _ _ _ H E1) as H1. simpl in *.
  destruct (create_sequences_loop _ _ _ _ _ _) as [[ok seqs2] g2] eqn:E2.
  pose proof (create_loop_accounts _ _ _ _ _ _ _ _ _ _ _ H1 E2) as H2.
  match goal with |- context [pseq_handler_check_detection ?d] => set (de2 := d) end.
  assert (detector_accounts nr g2 np ns de2) as H3 by exact H2.
  destruct ok; simpl.
  - destruct (pseq_handler_check_detection de2); [by intros; simplify_eq|].
    destruct (pulse_queue_enqueue de2 (pe_ts e) g2) as [[? ?] ?] eqn:E4.
    intros; simplify_eq. eauto using enqueue_accounts.
  - intros; simplify_eq. eapply reset_detector_accounts; [exact H3|reflexivity].
Qed.
End Accounts.
#[export] Hint Resolve kmalloc_accounts put_pulse_accounts put_pseq_accounts
  add_pulse_accounts reset_detector_accounts : dfs_pool.

(** * Theorems: soundness of the detection

    What the radar tables promise about a detector specification. *)
Record spec_ok (rs : radar_detector_specs) : Prop := {
  so_tol : max_pri_tolerance rs = PRI_TOLERANCE;
  so_pri_min : 0 < pri_min rs;
  so_pri_max : pri_min rs <= pri_max rs < 65536;
  so_ppb : 1 <= ppb rs < 256;
  so_thresh : 1 <= ppb_thresh rs;
  so_num_pri : 1 <= num_pri rs < 256;
}.

Definition spec_okb (rs : radar_detector_specs) : bool :=
  (max_pri_tolerance rs =? PRI_TOLERANCE) && (0 <? pri_min rs) &&
  (pri_min rs <=? pri_max rs) && (pri_max rs <? 65536) &&
  (1 <=? ppb rs) && (ppb rs <? 256) && (1 <=? ppb_thresh rs) &&
  (1 <=? num_pri rs) && (num_pri rs <? 256).

Lemma spec_okb_ok rs : spec_okb rs = true -> spec_ok rs.
Proof. unfold spec_okb. intros. ztest. by constructor. Qed.

(** Newest-first time stamps at least [PRI_TOLERANCE] apart. *)
Definition spaced : list Z -> Prop :=
  StronglySorted (fun newer older => older + PRI_TOLERANCE <= newer).

Lemma spaced_length l a b :
  spaced l -> head l = Some a -> last l = Some b ->
  PRI_TOLERANCE * (Z.of_nat (length l) - 1) <= a - b.
Proof.
  revert a. induction l as [|x l IH]; [done|]. intros a Hs [= ->] Hl.
  destruct l as [|y l]; [simpl in *; simplify_eq; lia|].
  inversion Hs as [|? ? Hs' Hf]; subst. rewrite last_cons_cons in Hl.
  specialize (IH y Hs' eq_refl Hl). inversion Hf; subst. simpl in *. lia.
Qed.

Lemma spaced_head_max l a t : spaced l -> head l = Some a -> t ∈ l -> t <= a.
Proof.
  destruct l as [|x l]; [done|]. intros Hs [= ->] Ht. inversion Hs as [|? ? _ Hf]; subst.
  apply elem_of_cons in Ht as [->|Ht]; [lia|].
  rewrite Forall_forall in Hf. specialize (Hf t Ht). unfold PRI_TOLERANCE in *. lia.
Qed.

Lemma spaced_last_min l b t : spaced l -> last l = Some b -> t ∈ l -> b <= t.
Proof.
  induction l as [|x l IH]; [done|]. intros Hs Hl Ht.
  inversion Hs as [|? ? Hs' Hf]; subst. destruct l as [|y l].
  { simpl in Hl. simplify_eq. apply list_elem_of_singleton in Ht. lia. }
  rewrite last_cons_cons in Hl. apply elem_of_cons in Ht as [->|Ht]; [|by apply IH].
  rewrite Forall_forall in Hf. apply last_Some_elem_of in Hl.
  specialize (Hf b Hl). unfold PRI_TOLERANCE in *. lia.
Qed.

Lemma spaced_cons t l a :
  spaced l -> head l = Some a -> a + PRI_TOLERANCE <= t -> spaced (t :: l).
Proof.
  intros Hs Ha Ht. constructor; [done|]. apply Forall_forall. intros x Hx.
  pose proof (spaced_head_max l a x Hs Ha Hx). lia.
Qed.

Lemma spaced_snoc t l b :
  spaced l -> last l = Some b -> t + PRI_TOLERANCE <= b -> spaced (l ++ [t]).
Proof.
  induction l as [|x l IH]; intros Hs Hl Ht; [done|].
  inversion Hs as [|? ? Hs' Hf]; subst. simpl.
  pose proof (spaced_last_min (x :: l) b x Hs Hl ltac:(set_solver)) as Hx.
  constructor.
  - destruct l as [|y l]; [repeat constructor|]. rewrite last_cons_cons in Hl. by apply IH.
  - apply Forall_app; split; [done|]. constructor; [lia|done].
Qed.

(** The interval from [t] to the later pulse [t'] matches the PRI. *)
Definition interval_matches (rs : radar_detector_specs) (pri t' t : Z) : Prop :=
  t < t' /\ 0 < pde_get_multiple (u32 (t' - t)) pri (max_pri_tolerance rs).

(** [l] are the time stamps of pulses that justify the sequence [ps]: all of
    them were received ([H]), there are exactly [ps_count] of them, and each
    one but the newest lies a multiple of the PRI before a later one. *)
Record evidence (rs : radar_detector_specs) (H : Z -> Prop) (ps : pri_sequence)
    (l : list Z) : Prop := {
  ev_pri : pri_min rs <= ps_pri ps <= pri_max rs;
  ev_hist : Forall H l;
  ev_spaced : spaced l;
  ev_len : Z.of_nat (length l) = ps_count ps;
  ev_head : head l = Some (ps_last_ts ps);
  ev_last : last l = Some (ps_first_ts ps);
  ev_match : forall t, t ∈ l ->
    t = ps_last_ts ps \/ exists t', t' ∈ l /\ interval_matches rs (ps_pri ps) t' t;
}.

Lemma evidence_mono rs (H H' : Z -> Prop) ps l :
  (forall t, H t -> H' t) -> evidence rs H ps l -> evidence rs H' ps l.
Proof. intros Hm []. constructor; try done. by eapply Forall_impl. Qed.

Lemma evidence_grow rs H ps l ts :
  evidence rs H ps l -> H ts -> ps_last_ts ps + PRI_TOLERANCE <= ts ->
  0 < pde_get_multiple (u32 (ts - ps_last_ts ps)) (ps_pri ps) (max_pri_tolerance rs) ->
  ps_count ps + 1 < 4294967296 ->
  evidence rs H (ps <| ps_last_ts := ts |> <| ps_count ::= inc |>) (ts :: l).
Proof.
  intros [] Hts Hgap Hm Hc. constructor; simpl; try done.
  - by constructor.
  - by eapply spaced_cons.
  - unfold inc. csimp. lia.
  - destruct l; [done|]. by rewrite last_cons_cons.
  - intros t [->|Ht]%elem_of_cons; [by left|]. right.
    destruct (ev_match0 t Ht) as [->|(t' & Ht' & Hi)].
    + exists ts. split; [by rewrite ?elem_of_app, ?elem_of_cons; auto|]. split; [unfold PRI_TOLERANCE in *; lia|done].
    + exists t'. split; [by rewrite ?elem_of_app, ?elem_of_cons; auto|done].
Qed.

Lemma evidence_past rs H ps l t f :
  evidence rs H ps l -> H t -> t + PRI_TOLERANCE <= ps_first_ts ps ->
  0 < pde_get_multiple (u32 (ps_last_ts ps - t)) (ps_pri ps) (max_pri_tolerance rs) ->
  ps_count ps + 1 < 4294967296 ->
  evidence rs H (ps <| ps_count ::= inc |> <| ps_first_ts := t |>
                    <| ps_count_falses ::= f |>) (l ++ [t]).
Proof.
  intros [] Ht Hgap Hm Hc. constructor; simpl; try done.
  - apply Forall_app; split; [done|]. by constructor.
  - by eapply spaced_snoc.
  - rewrite length_app. unfold inc. csimp. simpl. lia.
  - destruct l; done.
  - by rewrite last_snoc.
  - intros x [Hx| ->%list_elem_of_singleton]%elem_of_app.
    + destruct (ev_match0 x Hx) as [->|(t' & Ht' & Hi)]; [by left|]. right.
      exists t'. split; [by rewrite ?elem_of_app, ?elem_of_cons; auto|done].
    + right. exists (ps_last_ts ps).
      assert (ps_last_ts ps ∈ l) as Hl by (by apply head_Some_elem_of).
      split; [by rewrite ?elem_of_app, ?elem_of_cons; auto|]. split; [|done].
      pose proof (spaced_last_min l _ _ ev_spaced0 ev_last0 Hl).
      unfold PRI_TOLERANCE in *. lia.
Qed.

(** A sequence held by a detector whose last accepted time stamp is [now]. *)
Definition seq_ok (rs : radar_detector_specs) (H : Z -> Prop) (now : Z)
    (ps : pri_sequence) : Prop :=
  ps_last_ts ps <= now /\ ps_deadline_ts ps <= ps_first_ts ps + ps_dur ps /\
  in_u32 (ps_dur ps) /\ exists l, evidence rs H ps l.

Lemma seq_ok_mono rs (H H' : Z -> Prop) now now' ps :
  (forall t, H t -> H' t) -> now <= now' -> seq_ok rs H now ps -> seq_ok rs H' now' ps.
Proof.
  intros Hm Hn (? & ? & ? & l & ?). split_and!; [lia|done|done|].
  exists l. by eapply evidence_mono.
Qed.

(** The time stamps of the queued pulses. *)
Definition stamps (pulses : list pulse_elem) : list Z := p_ts <$> pulses.

Lemma match_past_evidence rs H m past tf ps l :
  evidence rs H ps l ->
  spaced (ps_first_ts ps :: stamps past) ->
  Forall H (stamps past) ->
  ps_count ps + Z.of_nat (length past) < 4294967296 ->
  let ps' := match_past_pulses rs m past tf ps in
  (exists l', evidence rs H ps' l') /\ ps_last_ts ps' = ps_last_ts ps /\
  ps_dur ps' = ps_dur ps /\ ps_pri ps' = ps_pri ps /\ ps_count ps <= ps_count ps'.
Proof.
  revert tf ps l. induction past as [|p2 past IH]; intros tf ps l He Hs HH Hc; simpl.
  { split_and!; try done. by exists l. }
  destruct (p_ts p2 <? m). { split_and!; try done. by exists l. }
  inversion Hs as [|? ? Hs' Hf]; subst. inversion Hf as [|? ? Hgap Hf']; subst.
  inversion HH as [|? ? Hp HH']; subst. simpl in Hc.
  destruct (0 <? _) eqn:E; ztest.
  - pose proof (evidence_past rs H ps l (p_ts p2)
      (fun c => u32 (c + tf)) He Hp Hgap E ltac:(lia)) as He'.
    assert (ps_count (ps <| ps_count ::= inc |>) = ps_count ps + 1) as Hcnt.
    { simpl. unfold inc. destruct He. rewrite u32_id; [done|]. unfold in_u32. lia. }
    specialize (IH 0 _ _ He' Hs' HH').
    simpl in IH, Hcnt. rewrite Hcnt in IH |- *.
    destruct IH as (? & ? & ? & ? & ?); [lia|]. split_and!; try done. lia.
  - apply (IH _ _ _ He); try done; [|lia].
    inversion Hs' as [|? ? Hss Hff]; subst. constructor; [done|].
    eapply Forall_impl; [exact Hf'|]. simpl. done.
Qed.

Lemma candidate_evidence rs (H : Z -> Prop) ts p :
  spec_ok rs -> 0 <= p_ts p -> p_ts p + PRI_TOLERANCE <= ts < 18446744073709551616 ->
  H ts -> H (p_ts p) ->
  pri_min rs <= u32 (ts - p_ts p) <= pri_max rs ->
  evidence rs H (candidate_sequence rs ts p) [ts; p_ts p].
Proof.
  intros [] Hp Hgap Hts Hpp Hd.
  assert (pri_min rs <= ps_pri (candidate_sequence rs ts p) <= pri_max rs /\
          Z.abs (u32 (ts - p_ts p) - 1 * ps_pri (candidate_sequence rs ts p)) <= PRI_TOLERANCE)
    as [Hpri Hm].
  { simpl. unfold GET_PRI_TO_USE, PRI_TOLERANCE in *. case_match; ztest.
    - rewrite u32_id by (unfold in_u32; lia). lia.
    - rewrite u32_u64. lia. }
  constructor; simpl; try done.
  - by repeat constructor.
  - repeat constructor. lia.
  - intros t [->|Ht]%elem_of_cons; [by left|]. apply list_elem_of_singleton in Ht as ->.
    right. exists ts. split; [by rewrite ?elem_of_app, ?elem_of_cons; auto|]. split; [unfold PRI_TOLERANCE in *; lia|].
    simpl in *. rewrite so_tol0.
    eapply pde_get_multiple_complete; [apply u32_range|lia| |exact Hm]. lia.
Qed.

Section Soundness.
(** [H] are the time stamps accepted so far. *)
Context (rs : radar_detector_specs) (H : Z -> Prop).
Context (Hso : spec_ok rs) (Hrange : forall t, H t -> in_u64 t).

Lemma evidence_first_nonneg ps l : evidence rs H ps l -> 0 <= ps_first_ts ps.
Proof using Hrange.
  intros []. apply last_Some_elem_of in ev_last0.
  rewrite Forall_forall in ev_hist0. specialize (ev_hist0 _ ev_last0).
  apply Hrange in ev_hist0. unfold in_u64 in *. lia.
Qed.

Lemma create_loop_ok ts m pulses seqs g ok seqs' g' :
  H ts -> spaced (ts :: stamps pulses) -> Forall H (stamps pulses) ->
  Z.of_nat (length pulses) < 4294967290 ->
  Forall (seq_ok rs H ts) seqs ->
  create_sequences_loop rs ts m pulses seqs g = (ok, seqs', g') ->
  Forall (seq_ok rs H ts) seqs'.
Proof using Hso Hrange.
  intros Hts. pose proof (Hrange ts Hts) as Hmax. unfold in_u64 in Hmax. revert seqs g.
  induction pulses as [|p past IH]; intros seqs g Hs HH Hl Hq; simpl.
  { by intros; simplify_eq. }
  inversion Hs as [|? ? Hs' Hf]; subst. inversion Hf as [|? ? Hgap Hf']; subst.
  inversion HH as [|? ? Hp HH']; subst. simpl in *.
  assert (spaced (ts :: stamps past)) as Hsk by (constructor; [by inversion Hs'|done]).
  destruct (u32 (ts - p_ts p) <? pri_min rs) eqn:E1; [apply IH; done || lia|].
  destruct (pri_max rs <? _) eqn:E2; [by intros; simplify_eq|]. ztest.
  pose proof (Hrange _ Hp) as Hp0. unfold in_u64 in Hp0.
  pose proof (candidate_evidence rs H ts p Hso ltac:(lia) ltac:(lia) Hts Hp ltac:(lia)) as He.
  pose proof (match_past_evidence rs H
    (u64 (ts - ps_dur (candidate_sequence rs ts p))) past 0 _ _ He Hs' HH' ltac:(simpl; lia))
    as (He' & Hlast & Hdur & _ & _).
  set (ps := match_past_pulses _ _ _ _ _) in *.
  destruct (ps_count ps <=? m); [apply IH; done || lia|].
  assert (in_u32 (ps_dur ps)) as Hd by (rewrite Hdur; apply u32_range).
  assert (seq_ok rs H ts (ps <| ps_deadline_ts := u64 (ps_first_ts ps + ps_dur ps) |>)) as Hok.
  { destruct He' as (l' & He'). pose proof (evidence_first_nonneg _ _ He').
    split_and!; simpl; [rewrite Hlast; simpl; lia| |done|].
    - apply Z.mod_le; unfold in_u32 in *; lia.
    - destruct He'. exists l'. by constructor. }
  destruct (acquire_pseq_elem g) as [[[]|] g1]; [|by intros; simplify_eq].
  apply IH; try done; [lia|]. by constructor.
Qed.

Lemma add_to_existing_ok ts now seqs m g m' seqs' g' :
  H ts -> now + PRI_TOLERANCE <= ts ->
  Forall (seq_ok rs H now) seqs ->
  add_to_existing_loop rs ts seqs m g = (m', seqs', g') ->
  Forall (seq_ok rs H ts) seqs'.
Proof using Hso Hrange.
  intros Hts Hnow. revert m g m' seqs' g'.
  induction seqs as [|ps seqs IH]; intros m g m' seqs' g' Hq; simpl.
  { by intros; simplify_eq. }
  inversion Hq as [|? ? (Hl & Hdl & Hdur & l & He) Hq']; subst.
  destruct (ps_deadline_ts ps <? ts) eqn:E; ztest; [by apply IH|].
  assert (ps_count ps + 1 < 4294967296) as Hc.
  { destruct He as [_ _ Hsp Hlen Hh Hla _].
    pose proof (spaced_length l _ _ Hsp Hh Hla).
    unfold in_u32, PRI_TOLERANCE in *. lia. }
  set (r := if 0 <? _ then _ else _).
  assert (seq_ok rs H ts (fst r)) as Hr.
  { subst r. destruct (0 <? _) eqn:E2; simpl; ztest.
    - split_and!; simpl; [lia|done|done|]. exists (ts :: l). apply evidence_grow; done || lia.
    - split_and!; simpl; [unfold PRI_TOLERANCE in *; lia|done|done|].
      destruct He. exists l. by constructor. }
  destruct r as [ps' m1]. simpl in Hr.
  destruct (add_to_existing_loop rs ts seqs m1 g) as [[m2 rest] g2] eqn:E3.
  intros; simplify_eq/=. constructor; [done|]. by eapply IH.
Qed.

End Soundness.

(** * Theorems: the detector invariant *)

(** [H] are the time stamps of the pulses the detector has accepted. The
    queue is counted, bounded and sorted (the early [break] of
    [pseq_handler_create_sequences] relies on it), and every sequence has its
    evidence. *)
Record pri_inv (H : Z -> Prop) (de : pri_detector) : Prop := {
  pi_spec : spec_ok (de_rs de);
  pi_max_count : de_max_count de = ppb (de_rs de) * 2;
  pi_count : de_count de = Z.of_nat (length (de_pulses de));
  pi_bound : de_count de < de_max_count de;
  pi_spaced : spaced (stamps (de_pulses de));
  pi_hist : Forall H (stamps (de_pulses de));
  pi_now : Forall (fun t => t <= de_last_ts de) (stamps (de_pulses de));
  pi_seqs : Forall (seq_ok (de_rs de) H (de_last_ts de)) (de_sequences de);
}.

Lemma pri_inv_mono (H H' : Z -> Prop) de :
  (forall t, H t -> H' t) -> pri_inv H de -> pri_inv H' de.
Proof.
  intros Hm [? ? ? ? ? Hh ? Hs]. constructor; try done.
  - eapply Forall_impl; [exact Hh|done].
  - eapply Forall_impl; [exact Hs|]. intros ps. by apply seq_ok_mono.
Qed.

(** Dropping the oldest pulses: [de'] is [de] with a prefix of its queue. *)
Definition shrinks (de de' : pri_detector) : Prop :=
  de_rs de' = de_rs de /\ de_max_count de' = de_max_count de /\
  de_last_ts de' = de_last_ts de /\ de_sequences de' = de_sequences de /\
  de_count de' = Z.of_nat (length (de_pulses de')) /\
  exists l, de_pulses de = de_pulses de' ++ l.

Lemma shrinks_refl de :
  de_count de = Z.of_nat (length (de_pulses de)) -> shrinks de de.
Proof. intros. split_and!; try done. exists []. by rewrite app_nil_r. Qed.

Lemma shrinks_trans de1 de2 de3 : shrinks de1 de2 -> shrinks de2 de3 -> shrinks de1 de3.
Proof.
  intros (? & ? & ? & ? & _ & l & Hl) (? & ? & ? & ? & Hc & l' & Hl').
  split_and!; [congruence..|done|]. exists (l' ++ l). by rewrite Hl, Hl', app_assoc.
Qed.

Lemma dequeue_shrinks de g b de' g' :
  de_count de = Z.of_nat (length (de_pulses de)) ->
  Z.of_nat (length (de_pulses de)) < 4294967296 ->
  pulse_queue_dequeue de g = (b, de', g') ->
  shrinks de de' /\
  Z.of_nat (length (de_pulses de')) = Z.max 0 (Z.of_nat (length (de_pulses de)) - 1).
Proof.
  unfold pulse_queue_dequeue, pulse_queue_get_tail. intros Hc Hl.
  destruct (last (de_pulses de)) as [p|] eqn:E; intros; simplify_eq/=.
  - apply last_removelast in E. rewrite E in Hl. rewrite length_app in Hl. simpl in Hl.
    split; [|rewrite E at 2; rewrite length_app; simpl; lia].
    split_and!; simpl; try done; [|by exists [p]].
    rewrite Hc, E at 1. rewrite length_app. simpl. unfold dec. csimp. lia.
  - apply last_None in E. split; [by apply shrinks_refl|]. by rewrite E.
Qed.

Lemma check_window_loop_shrinks fuel m de g de' g' :
  de_count de = Z.of_nat (length (de_pulses de)) ->
  Z.of_nat (length (de_pulses de)) < 4294967296 ->
  check_window_loop fuel m de g = (de', g') -> shrinks de de'.
Proof.
  revert de g. induction fuel as [|fuel IH]; intros de g Hc Hl; simpl.
  { intros; simplify_eq. by apply shrinks_refl. }
  destruct (pulse_queue_get_tail de); [|intros; simplify_eq; by apply shrinks_refl].
  case_match; [intros; simplify_eq; by apply shrinks_refl|].
  destruct (pulse_queue_dequeue de g) as [[b de1] g1] eqn:E.
  destruct (dequeue_shrinks _ _ _ _ _ Hc Hl E) as [Hs Hlen].
  pose proof Hs as (_ & _ & _ & _ & Hc1 & _).
  intros Hloop. eapply shrinks_trans; [exact Hs|]. eapply IH; [done| |done]. lia.
Qed.

Lemma check_window_shrinks de g de' g' :
  de_count de = Z.of_nat (length (de_pulses de)) ->
  Z.of_nat (length (de_pulses de)) < 4294967296 ->
  pulse_queue_check_window de g = (de', g') -> shrinks de de'.
Proof.
  unfold pulse_queue_check_window. intros Hc Hl.
  repeat case_match; intros; simplify_eq; try by apply shrinks_refl.
  by eapply check_window_loop_shrinks.
Qed.

Lemma shrinks_stamps de de' :
  shrinks de de' ->
  (forall P : Z -> Prop, Forall P (stamps (de_pulses de)) -> Forall P (stamps (de_pulses de'))) /\
  (spaced (stamps (de_pulses de)) -> spaced (stamps (de_pulses de'))) /\
  (length (de_pulses de') <= length (de_pulses de))%nat.
Proof.
  intros (_ & _ & _ & _ & _ & l & ->). unfold stamps. rewrite fmap_app. split_and!.
  - by intros P [? _]%Forall_app.
  - apply StronglySorted_app_l.
  - rewrite length_app. lia.
Qed.

(** Enqueueing keeps the queue counted, sorted and below its limit. *)
Lemma enqueue_inv H de ts g b de' g' :
  pri_inv H de -> H ts -> de_last_ts de = ts ->
  Forall (fun t => t + PRI_TOLERANCE <= ts) (stamps (de_pulses de)) ->
  pulse_queue_enqueue de ts g = (b, de', g') ->
  pri_inv H de' /\ de_rs de' = de_rs de /\ de_last_ts de' = ts.
Proof.
  intros Hinv Hts Hlast Hgap. unfold pulse_queue_enqueue.
  destruct (acquire_pulse_elem g) as [[p|] g2]; [|by intros; simplify_eq].
  destruct Hinv as [Hso Hmax Hcnt Hbnd Hsp HH Hnow Hseq]. pose proof (so_ppb _ Hso) as Hppb.
  match goal with |- context [pulse_queue_check_window ?d g2] => set (de1 := d) end.
  assert (de_count de1 = Z.of_nat (length (de_pulses de1))) as Hc1.
  { simpl. unfold inc. rewrite Hcnt, u32_id; [lia|]. unfold in_u32. lia. }
  assert (Z.of_nat (length (de_pulses de1)) <= de_max_count de1) as Hl1 by (simpl; lia).
  assert (Z.of_nat (length (de_pulses de1)) < 4294967296) as Hl1' by (simpl in *; lia).
  destruct (pulse_queue_check_window de1 g2) as [de2 g3] eqn:E.
  pose proof (check_window_shrinks _ _ _ _ Hc1 Hl1' E) as Hs2.
  pose proof Hs2 as (_ & Hm2 & _ & _ & Hc2 & _).
  pose proof (shrinks_stamps _ _ Hs2) as (_ & _ & Hlen).
  assert (forall de3, shrinks de1 de3 -> de_count de3 < de_max_count de1 ->
            pri_inv H de3 /\ de_rs de3 = de_rs de /\ de_last_ts de3 = ts) as Hend.
  { intros de3 Hs Hb. pose proof (shrinks_stamps _ _ Hs) as (HP & Hspc & _).
    destruct Hs as (Hrs & Hmc & Hlt & Hsq & Hcn & _).
    split; [|by rewrite Hrs, Hlt]. constructor; rewrite ?Hrs, ?Hmc, ?Hlt, ?Hsq; simpl; try done.
    - apply Hspc. by constructor.
    - apply HP. by constructor.
    - apply HP. constructor; [simpl; lia|]. eapply Forall_impl; [exact Hgap|].
      intros t. unfold PRI_TOLERANCE. simpl. lia.
    - by rewrite <- Hlast. }
  destruct (de_max_count de2 <=? de_count de2) eqn:E2; ztest.
  - destruct (pulse_queue_dequeue de2 g3) as [[b' de3] g4] eqn:E3.
    destruct (dequeue_shrinks _ _ _ _ _ Hc2 ltac:(lia) E3) as [Hs3 Hl3].
    intros [= <- <- <-]. apply Hend; [by eapply shrinks_trans|].
    destruct Hs3 as (_ & _ & _ & _ & -> & _). simpl in *. lia.
  - intros [= <- <- <-]. apply Hend; [done|]. by rewrite <- Hm2.
Qed.

Lemma init_inv rs g de g' :
  spec_ok rs -> pri_detector_init rs g = (Some de, g') ->
  (forall H, pri_inv H de) /\ de_rs de = rs /\ de_pulses de = [] /\ de_sequences de = [] /\
  de_last_ts de = 0 /\ forall nr np ns, pool_accounts nr g np ns -> pool_accounts (nr + 1) g' np ns.
Proof.
  unfold pri_detector_init. intros Hso.
  pose proof (fun nr np ns => kmalloc_accounts nr g np ns) as Ha.
  destruct (kmalloc_ok g) as [[] g1]; intros; simplify_eq/=. split_and!; try done;
    [|intros nr np ns H%Ha; unfold pool_register_ref; accounts].
  intros H. pose proof (so_ppb _ Hso). constructor; simpl; try done; try lia; constructor.
Qed.

Lemma init_failed_accounts nr rs g g' np ns :
  pri_detector_init rs g = (None, g') -> pool_accounts nr g np ns -> pool_accounts nr g' np ns.
Proof.
  unfold pri_detector_init. intros E H. pose proof (kmalloc_accounts nr g np ns H).
  destruct (kmalloc_ok g) as [[] g1]; by simplify_eq/=.
Qed.

Lemma reset_inv H de ts g de' g' :
  pri_inv H de -> pri_detector_reset de ts g = (de', g') ->
  (forall H', pri_inv H' de') /\ de_rs de' = de_rs de /\ de_pulses de' = [] /\
  de_sequences de' = [] /\ de_last_ts de' = ts.
Proof.
  unfold pri_detector_reset. intros [] ?; simplify_eq/=. split_and!; try done.
  intros H'. pose proof (so_ppb _ pi_spec0).
  constructor; simpl; try done; try lia; constructor.
Qed.

(** The pulses a detector accepts: width in range, chirp if required. *)
Definition pulse_admissible (rs : radar_detector_specs) (e : pulse_event) : Prop :=
  width_min rs <= pe_width e <= width_max rs /\ (chirp rs = true -> pe_chirp e = true).

(** A detector whose clock may be ahead of the next pulse holds nothing. *)
Definition clock_ok (de : pri_detector) (ts : Z) : Prop :=
  de_last_ts de <= ts \/ (de_pulses de = [] /\ de_sequences de = []).

(** The detection result: a sequence with its evidence, enough pulses, and no
    more falses than [num_pri] times the matches. *)
Definition detection_ok (rs : radar_detector_specs) (H : Z -> Prop) (ps : pri_sequence) : Prop :=
  ppb_thresh rs <= ps_count ps /\ ps_count_falses ps <= ps_count ps * num_pri rs /\
  exists l, evidence rs H ps l.

Lemma check_detection_ok H de ps :
  (forall t, H t -> in_u64 t) -> pri_inv H de ->
  pseq_handler_check_detection de = Some ps -> detection_ok (de_rs de) H ps.
Proof.
  unfold pseq_handler_check_detection. intros Hr [Hso _ _ _ _ _ _ Hs] [Hin Hd]%find_some.
  apply list_elem_of_In in Hin. rewrite Forall_forall in Hs.
  destruct (Hs ps Hin) as (_ & _ & _ & l & He).
  unfold pseq_detected in Hd. ztest. split_and!; [done| |by exists l].
  pose proof (so_num_pri _ Hso). destruct He.
  etrans; [done|]. apply Z.mod_le; nia.
Qed.

Lemma add_pulse_inv H de e g r de' g' :
  (forall t, H t -> in_u64 t) -> pri_inv H de -> clock_ok de (pe_ts e) ->
  (pulse_admissible (de_rs de) e -> H (pe_ts e)) -> in_u64 (pe_ts e) -> in_u64 (de_last_ts de) ->
  pri_detector_add_pulse de e g = (r, de', g') ->
  pri_inv H de' /\ de_rs de' = de_rs de /\ in_u64 (de_last_ts de') /\
  (clock_ok de' (pe_ts e)) /\
  (forall ps, r = Some ps -> detection_ok (de_rs de) H ps).
Proof.
  intros Hr Hinv Hclk Hadm Hts Hlast. unfold pri_detector_add_pulse.
  destruct (_ || _) eqn:Ew; [by intros; simplify_eq|].
  destruct (u64 _ <? _) eqn:Et; [by intros; simplify_eq|].
  destruct (_ && _) eqn:Ec; [by intros; simplify_eq|]. ztest.
  assert (pulse_admissible (de_rs de) e) as Ha.
  { split; [lia|]. intros Hc. rewrite Hc in Ec. simpl in Ec. by destruct (pe_chirp e). }
  apply Hadm in Ha. clear Hadm Ec.
  destruct Hinv as [Hso Hmax Hcnt Hbnd Hsp HH Hnow Hseq].
  pose proof (so_tol _ Hso) as Htol. pose proof (so_ppb _ Hso) as Hppb. rewrite Htol in Et.
  assert (Forall (fun t => t + PRI_TOLERANCE <= pe_ts e) (stamps (de_pulses de)) /\
          exists now, now + PRI_TOLERANCE <= pe_ts e /\ Forall (seq_ok (de_rs de) H now) (de_sequences de))
    as (Hgap & now & Hgap' & Hq).
  { destruct Hclk as [Hle|[-> ->]].
    - rewrite u64_id in Et by (unfold_ranges; lia). split.
      + eapply Forall_impl; [exact Hnow|]. simpl. lia.
      + exists (de_last_ts de). split; [lia|done].
    - split; [constructor|]. exists (pe_ts e - PRI_TOLERANCE). split; [lia|constructor]. }
  unfold pseq_handler_add_to_existing_seqs, pseq_handler_create_sequences. simpl.
  destruct (add_to_existing_loop _ _ _ _ _) as [[m seqs1] g1] eqn:E1.
  pose proof (add_to_existing_ok _ H Hso Hr _ _ _ _ _ _ _ _ Ha Hgap' Hq E1) as Hq1. simpl.
  destruct (create_sequences_loop _ _ _ _ _ _) as [[ok seqs2] g2] eqn:E2.
  assert (Forall (seq_ok (de_rs de) H (pe_ts e)) seqs2) as Hq2.
  { eapply create_loop_ok; [done..|by constructor|done| |exact Hq1|exact E2]. lia. }
  match goal with |- context [pseq_handler_check_detection ?d] => set (de2 := d) end.
  assert (pri_inv H de2) as Hinv2.
  { constructor; simpl; try done. eapply Forall_impl; [exact Hgap|].
    intros t. unfold PRI_TOLERANCE. simpl. lia. }
  assert (forall de3, de_last_ts de3 = pe_ts e -> in_u64 (de_last_ts de3) /\ clock_ok de3 (pe_ts e))
    as Hfin by (intros de3 E; split; [by rewrite E|left; lia]).
  destruct ok; cbn [negb].
  - destruct (pseq_handler_check_detection de2) as [ps|] eqn:E3.
    + intros [= <- <- <-]. split_and!; try done; [by apply Hfin..|].
      intros ps' [= <-]. by apply (check_detection_ok H de2).
    + destruct (pulse_queue_enqueue de2 (pe_ts e) g2) as [[? ?] ?] eqn:E4.
      intros [= <- <- <-].
      destruct (enqueue_inv H de2 _ _ _ _ _ Hinv2 Ha eq_refl Hgap E4) as (? & ? & ?).
      split_and!; try done; by apply Hfin.
  - intros [= <- <- <-].
    destruct (reset_inv H de2 (pe_ts e) g2 _ _ Hinv2 eq_refl) as (? & ? & ? & ? & ?).
    split_and!; try (by apply Hfin); done || auto.
Qed.

(** * Theorems: completeness of the detection *)

(** Feed pulses to a detector until one of them completes a detection. *)
Fixpoint feed (es : list pulse_event) (de : pri_detector) (g : dfs_pool) : bool :=
  match es with
  | [] => false
  | e :: es =>
      let '(r, de, g) := pri_detector_add_pulse de e g in
      match r with Some _ => true | None => feed es de g end
  end.

(** [n] pulses with a constant interval [P], the [k]-th of them at
    [t0 + k * P]. *)
Fixpoint burst (e : pulse_event) (P : Z) (n : nat) : list pulse_event :=
  match n with
  | O => []
  | S n => e :: burst (e <| pe_ts ::= fun t => t + P |>) P n
  end.

Lemma kmalloc_no_oom g : oom g = [] -> kmalloc_ok g = (true, g).
Proof. unfold kmalloc_ok. by intros ->. Qed.

Lemma acquire_pulse_no_oom g :
  oom g = [] -> exists p g', acquire_pulse_elem g = (Some p, g') /\ oom g' = [].
Proof.
  intros Hg. unfold acquire_pulse_elem, pool_get_pulse_elem.
  destruct (pulse_pool g); [rewrite kmalloc_no_oom by done|]; by eexists _, _.
Qed.

Lemma acquire_pseq_no_oom g :
  oom g = [] -> exists g', acquire_pseq_elem g = (Some tt, g') /\ oom g' = [].
Proof.
  intros Hg. unfold acquire_pseq_elem, pool_get_pseq_elem.
  destruct (pseq_pool g); [rewrite kmalloc_no_oom by done|]; by eexists.
Qed.

Lemma add_to_existing_no_oom rs ts seqs m g :
  oom (snd (add_to_existing_loop rs ts seqs m g)) = oom g.
Proof.
  revert m g. induction seqs as [|ps seqs IH]; intros m g; simpl; [done|].
  case_match; [by rewrite IH|].
  set (r := if 0 <? _ then _ else _). destruct r as [ps' m1].
  specialize (IH m1 g). by destruct (add_to_existing_loop rs ts seqs m1 g) as [[? ?] ?].
Qed.

(** With allocations succeeding the loop runs to its end and only adds. *)
Lemma create_loop_no_oom rs ts m pulses seqs g :
  oom g = [] ->
  exists new g', create_sequences_loop rs ts m pulses seqs g = (true, new ++ seqs, g')
    /\ oom g' = [].
Proof.
  revert seqs g. induction pulses as [|p past IH]; intros seqs g Hg; simpl.
  { by exists [], g. }
  destruct (_ <? pri_min rs); [by apply IH|].
  destruct (pri_max rs <? _); [by exists [], g|].
  destruct (_ <=? m); [by apply IH|].
  destruct (acquire_pseq_no_oom g Hg) as (g1 & -> & Hg1).
  match goal with |- context [create_sequences_loop _ _ _ _ (?x :: seqs) g1] =>
    destruct (IH (x :: seqs) g1 Hg1) as (new & g' & -> & Hg') end.
  eexists (new ++ [_]), g'. by rewrite <- app_assoc.
Qed.

Lemma check_window_loop_frame fuel m de g :
  let r := check_window_loop fuel m de g in
  oom (snd r) = oom g /\ de_rs (fst r) = de_rs de /\ de_sequences (fst r) = de_sequences de /\
  de_last_ts (fst r) = de_last_ts de.
Proof.
  revert de g. induction fuel as [|fuel IH]; intros de g; [done|]. simpl.
  destruct (pulse_queue_get_tail de) as [p|] eqn:E; [|done].
  case_match; [done|]. unfold pulse_queue_dequeue. rewrite E. simpl.
  match goal with |- context [check_window_loop fuel m ?d ?g1] =>
    destruct (IH d g1) as (? & ? & ? & ?) end. done.
Qed.

(** A pulse enqueued without memory pressure leaves the sequences alone. *)
Lemma enqueue_frame de ts g :
  oom g = [] ->
  let '(_, de', g') := pulse_queue_enqueue de ts g in
  oom g' = [] /\ de_rs de' = de_rs de /\ de_sequences de' = de_sequences de /\
  de_last_ts de' = ts.
Proof.
  intros Hg. unfold pulse_queue_enqueue.
  destruct (acquire_pulse_no_oom g Hg) as (p & g2 & -> & Hg2).
  match goal with |- context [pulse_queue_check_window ?d g2] => set (de1 := d) end.
  assert (oom (snd (pulse_queue_check_window de1 g2)) = [] /\
          de_rs (fst (pulse_queue_check_window de1 g2)) = de_rs de /\
          de_sequences (fst (pulse_queue_check_window de1 g2)) = de_sequences de /\
          de_last_ts (fst (pulse_queue_check_window de1 g2)) = ts) as (Ho & Hr & Hs & Hl).
  { unfold pulse_queue_check_window. repeat case_match; try done.
    match goal with |- context [check_window_loop ?f ?m ?d ?g] =>
      destruct (check_window_loop_frame f m d g) as (-> & -> & -> & ->) end. done. }
  destruct (pulse_queue_check_window de1 g2) as [de2 g3]. simpl in *.
  destruct (de_max_count de2 <=? de_count de2); [|done].
  unfold pulse_queue_dequeue. by destruct (pulse_queue_get_tail de2).
Qed.

Lemma add_to_existing_keeps rs ts seqs m g ps :
  ps ∈ seqs -> ts <= ps_deadline_ts ps ->
  0 < pde_get_multiple (u32 (ts - ps_last_ts ps)) (ps_pri ps) (max_pri_tolerance rs) ->
  (ps <| ps_last_ts := ts |> <| ps_count ::= inc |>)
    ∈ snd (fst (add_to_existing_loop rs ts seqs m g)).
Proof.
  intros Hin Hd Hm. revert m g. induction seqs as [|q seqs IH]; intros m g.
  { by apply elem_of_nil in Hin. }
  apply elem_of_cons in Hin as [<-|Hin]; simpl.
  - destruct (Z.ltb_spec (ps_deadline_ts ps) ts); [lia|].
    destruct (Z.ltb_spec 0 (pde_get_multiple (u32 (ts - ps_last_ts ps)) (ps_pri ps)
      (max_pri_tolerance rs))); [|lia].
    match goal with |- context [add_to_existing_loop rs ts seqs ?m1 ?g1] =>
      destruct (add_to_existing_loop rs ts seqs m1 g1) as [[? ?] ?] end.
    simpl. by left.
  - case_match; [by apply IH|].
    set (r := if 0 <? _ then _ else _). destruct r as [q' m1].
    specialize (IH Hin m1 g). destruct (add_to_existing_loop rs ts seqs m1 g) as [[? ?] ?].
    simpl in *. by right.
Qed.

Lemma find_exists (f : pri_sequence -> bool) l ps :
  ps ∈ l -> f ps = true -> exists ps', List.find f l = Some ps'.
Proof.
  intros Hin Hf. destruct (List.find f l) eqn:E; [by eexists|].
  apply list_elem_of_In in Hin. by rewrite (find_none f l E ps Hin) in Hf.
Qed.

Section Completeness.
Context (rs : radar_detector_specs) (Hso : spec_ok rs) (P : Z) (n : Z).
Context (HP : pri_min rs <= P <= pri_max rs) (HP16 : PRI_TOLERANCE <= P).
Context (Hn : n = Z.max 2 (ppb_thresh rs)).
(** The last needed pulse arrives before the deadline of the first sequence. *)
Context (Hreach : n = 2 \/ n <= ppb rs /\
  (n - 1) * PRI_TOLERANCE <= (ppb rs - n) * pri_min rs + 2 * PRI_TOLERANCE).

Let pri := if pri_min rs + PRI_TOLERANCE =? pri_max rs - PRI_TOLERANCE
           then pri_min rs + PRI_TOLERANCE else P.
Let dur := pri * (ppb rs - 1) + 2 * PRI_TOLERANCE.

Lemma pri_near : pri_min rs <= pri <= pri_max rs /\ Z.abs (P - pri) <= PRI_TOLERANCE.
Proof. subst pri. destruct Hso. case_match; ztest; unfold PRI_TOLERANCE in *; lia. Qed.

Lemma dur_range : in_u32 dur.
Proof.
  destruct pri_near as [? _]. destruct Hso. unfold in_u32. subst dur.
  unfold PRI_TOLERANCE. nia.
Qed.

Lemma interval_ok : 0 < pde_get_multiple P pri (max_pri_tolerance rs).
Proof.
  destruct pri_near as [? ?]. destruct Hso. rewrite so_tol0.
  eapply (pde_get_multiple_complete _ _ _ 1); [unfold in_u32; lia|lia|lia|].
  by rewrite Z.mul_1_l.
Qed.

(** The state after [k] pulses: the sequence started by the first two pulses
    has counted all of them. *)
Definition tracks (t0 k : Z) (de : pri_detector) : Prop :=
  exists ps, ps ∈ de_sequences de /\ ps_pri ps = pri /\ ps_count ps = k /\
    ps_count_falses ps = 0 /\ ps_last_ts ps = t0 + (k - 1) * P /\
    ps_deadline_ts ps = t0 + dur.

Definition admissible_event (e : pulse_event) : Prop :=
  (pe_width e <? width_min rs) || (width_max rs <? pe_width e) = false /\
  chirp rs && negb (eqb (chirp rs) (pe_chirp e)) = false.

(** The core of [pri_detector_add_pulse] once the filters have passed. *)
Lemma add_pulse_passes de e g :
  de_rs de = rs -> admissible_event e -> oom g = [] ->
  PRI_TOLERANCE <= u64 (pe_ts e - de_last_ts de) ->
  exists new seqs1 m g1,
    add_to_existing_loop rs (pe_ts e) (de_sequences de) 0 g = (m, seqs1, g1) /\
    (exists g2, create_sequences_loop rs (pe_ts e) m (de_pulses de) seqs1 g1 = (true, new ++ seqs1, g2)) /\
    let '(r, de', g') := pri_detector_add_pulse de e g in
    oom g' = [] /\ de_rs de' = rs /\ de_last_ts de' = pe_ts e /\
    de_sequences de' = new ++ seqs1 /\ r = List.find (pseq_detected rs) (new ++ seqs1).
Proof.
  intros Hrs (Hw & Hc) Hg Hgap. pose proof (so_tol _ Hso) as Htol.
  unfold pri_detector_add_pulse. rewrite Hrs, Hw, Hc.
  destruct (Z.ltb_spec (u64 (pe_ts e - de_last_ts de)) (max_pri_tolerance rs)); [lia|].
  unfold pseq_handler_add_to_existing_seqs, pseq_handler_create_sequences. simpl. rewrite Hrs.
  pose proof (add_to_existing_no_oom rs (pe_ts e) (de_sequences de) 0 g) as Ho.
  destruct (add_to_existing_loop rs (pe_ts e) (de_sequences de) 0 g) as [[m seqs1] g1].
  simpl in Ho. rewrite Hg in Ho. simpl.
  destruct (create_loop_no_oom rs (pe_ts e) m (de_pulses de) seqs1 g1 Ho) as (new & g2 & E & Hg2).
  exists new, seqs1, m, g1. split; [done|]. split; [by exists g2|]. rewrite E. simpl.
  unfold pseq_handler_check_detection. simpl.
  destruct (List.find (pseq_detected rs) (new ++ seqs1)); [done|].
  match goal with |- context [pulse_queue_enqueue ?d ?t ?g] =>
    pose proof (enqueue_frame d t g Hg2) as Hf;
    destruct (pulse_queue_enqueue d t g) as [[? de'] g'] end.
  simpl in Hf. by destruct Hf as (? & ? & ? & ?).
Qed.

Lemma tracks_step t0 k de e g :
  2 <= k < n -> 0 <= t0 -> t0 + n * P + dur < 18446744073709551616 ->
  de_rs de = rs -> admissible_event e -> oom g = [] ->
  de_last_ts de = t0 + (k - 1) * P -> pe_ts e = t0 + k * P ->
  tracks t0 k de ->
  let '(r, de', g') := pri_detector_add_pulse de e g in
  oom g' = [] /\ de_rs de' = rs /\ de_last_ts de' = pe_ts e /\ tracks t0 (k + 1) de' /\
  (k + 1 = n -> r <> None).
Proof.
  intros Hk Ht0 Hov Hrs Ha Hg Hl He (ps & Hin & Hp & Hcnt & Hf & Hlt & Hd).
  pose proof interval_ok as Hm. pose proof pri_near as [Hpr Hnear]. pose proof dur_range as Hdr.
  destruct (add_pulse_passes de e g Hrs Ha Hg) as (new & seqs1 & m & g1 & E1 & _ & Hres).
  { rewrite Hl, He. replace (t0 + k * P - (t0 + (k - 1) * P)) with P by lia.
    rewrite u64_id; unfold in_u64; destruct Hso; lia. }
  assert (pe_ts e <= ps_deadline_ts ps) as Hdl.
  { rewrite Hd, He. subst dur. destruct Hreach as [Hr|[Hr1 Hr2]]; [lia|].
    assert (k * P <= (n - 1) * (pri + PRI_TOLERANCE)) by (unfold PRI_TOLERANCE in *; nia).
    assert ((ppb rs - n) * pri_min rs <= (ppb rs - n) * pri) by nia.
    lia. }
  pose proof (add_to_existing_keeps rs (pe_ts e) (de_sequences de) 0 g ps Hin Hdl) as Hkeep.
  rewrite E1, Hlt, He, Hp in Hkeep. simpl in Hkeep.
  replace (t0 + k * P - (t0 + (k - 1) * P)) with P in Hkeep by lia.
  rewrite (u32_id P) in Hkeep by (unfold in_u32; destruct Hso; lia). specialize (Hkeep Hm).
  assert (inc k = k + 1) as Hinc.
  { unfold inc. apply u32_id. unfold in_u32.
    unfold in_u32, PRI_TOLERANCE in *. rewrite Hd in Hdl. nia. }
  destruct (pri_detector_add_pulse de e g) as [[r de'] g'].
  destruct Hres as (? & ? & Hl' & Hs & ->).
  match type of Hkeep with ?x ∈ _ => set (ps' := x) in *; assert (ps' ∈ de_sequences de') as Hin' end.
  { rewrite Hs. apply elem_of_app. by right. }
  split_and!; try done.
  - exists ps'. split; [done|]. subst ps'. simpl. rewrite Hcnt, Hinc. split_and!; try done. lia.
  - intros Hkn. rewrite Hs in Hin'. destruct (find_exists (pseq_detected rs) _ ps' Hin') as (q & ->); [|done].
    unfold pseq_detected. subst ps'. simpl. rewrite Hcnt, Hinc, Hf.
    apply andb_true_iff; split; apply Z.leb_le; [lia|].
    pose proof (u32_range ((k + 1) * num_pri rs)). unfold in_u32 in *. lia.
Qed.

Lemma first_pulse de e g :
  de_rs de = rs -> admissible_event e -> oom g = [] ->
  de_sequences de = [] -> de_pulses de = [] -> de_count de = 0 -> 2 <= de_max_count de ->
  de_last_ts de = 0 -> PRI_TOLERANCE <= pe_ts e < 18446744073709551616 ->
  exists de' g', pri_detector_add_pulse de e g = (None, de', g') /\ oom g' = [] /\
    de_rs de' = rs /\ de_sequences de' = [] /\ de_pulses de' = [{| p_ts := pe_ts e |}] /\
    de_last_ts de' = pe_ts e.
Proof.
  intros Hrs (Hw & Hc) Hg Hs Hp Hcnt Hmax Hl Hts. pose proof (so_tol _ Hso) as Htol.
  unfold pri_detector_add_pulse. rewrite Hrs, Hw, Hc, Hl, Z.sub_0_r.
  rewrite u64_id by (unfold in_u64, PRI_TOLERANCE in *; lia).
  destruct (Z.ltb_spec (pe_ts e) (max_pri_tolerance rs)); [lia|].
  unfold pseq_handler_add_to_existing_seqs, pseq_handler_create_sequences. simpl.
  rewrite Hs. simpl. rewrite Hp. simpl. unfold pulse_queue_enqueue.
  destruct (acquire_pulse_no_oom g Hg) as (p & g2 & -> & Hg2). simpl.
  unfold pulse_queue_check_window. simpl. rewrite Hcnt. simpl.
  destruct (Z.leb_spec (de_max_count de) (inc 0)) as [Hx|_]; [change (inc 0) with 1 in Hx; lia|].
  eexists _, _. split; [done|]. by simpl.
Qed.

Lemma second_pulse t0 de e g :
  0 <= t0 -> t0 + P + dur < 18446744073709551616 ->
  de_rs de = rs -> admissible_event e -> oom g = [] ->
  de_sequences de = [] -> de_pulses de = [{| p_ts := t0 |}] ->
  de_last_ts de = t0 -> pe_ts e = t0 + P ->
  let '(r, de', g') := pri_detector_add_pulse de e g in
  oom g' = [] /\ de_rs de' = rs /\ de_last_ts de' = pe_ts e /\ tracks t0 2 de' /\
  (n = 2 -> r <> None).
Proof.
  intros Ht0 Hov Hrs Ha Hg Hs Hp Hl He. pose proof dur_range as Hdr. pose proof Hso as [].
  destruct (add_pulse_passes de e g Hrs Ha Hg) as (new & seqs1 & m & g1 & E1 & (g2 & E2) & Hres).
  { rewrite Hl, He. replace (t0 + P - t0) with P by lia. rewrite u64_id; unfold in_u64; lia. }
  rewrite Hs in E1. simpl in E1. injection E1 as <- <- <-.
  destruct (pri_detector_add_pulse de e g) as [[r de'] g'].
  destruct Hres as (? & ? & Hl' & Hs' & ->). rewrite app_nil_r in *.
  rewrite Hp in E2. simpl in E2. unfold candidate_sequence in E2. simpl in E2.
  rewrite He in E2. replace (t0 + P - t0) with P in E2 by lia.
  rewrite (u32_id P), (u64_id P) in E2 by (unfold_ranges; lia).
  destruct (Z.ltb_spec P (pri_min rs)); [lia|]. destruct (Z.ltb_spec (pri_max rs) P); [lia|].
  destruct (acquire_pseq_no_oom g Hg) as (g3 & Eg & _). rewrite Eg in E2.
  assert (u32 (GET_PRI_TO_USE (pri_min rs) (pri_max rs) P) = pri) as Epri.
  { pose proof pri_near as [? _]. apply u32_id. unfold in_u32. fold pri. lia. }
  rewrite Epri, so_tol0 in E2. change (pri * (ppb rs - 1) + 2 * PRI_TOLERANCE) with dur in E2.
  rewrite (u32_id dur Hdr), u64_id in E2 by (unfold_ranges; lia).
  injection E2 as <- _. split_and!; try done.
  - unfold tracks. rewrite Hs'. eexists. split; [by left|]. simpl. split_and!; try done. lia.
  - intros Hn2. simpl. unfold pseq_detected at 1. simpl.
    destruct (Z.leb_spec (ppb_thresh rs) 2); [|lia]. simpl.
    destruct (Z.leb_spec 0 (u32 (2 * num_pri rs))) as [|Hx]; [done|].
    pose proof (u32_range (2 * num_pri rs)). unfold_ranges. lia.
Qed.

Lemma feed_tracks t0 m : forall k e de g,
  k + Z.of_nat m = n -> (1 <= m)%nat -> 2 <= k ->
  0 <= t0 -> t0 + n * P + dur < 18446744073709551616 ->
  de_rs de = rs -> admissible_event e -> oom g = [] ->
  de_last_ts de = t0 + (k - 1) * P -> pe_ts e = t0 + k * P -> tracks t0 k de ->
  feed (burst e P m) de g = true.
Proof.
  induction m as [|m IH]; intros k e de g Hkm Hm Hk Ht0 Hov Hrs Ha Hg Hl He Htr; [lia|].
  cbn [burst feed].
  pose proof (tracks_step t0 k de e g ltac:(lia) Ht0 Hov Hrs Ha Hg Hl He Htr) as Hst.
  destruct (pri_detector_add_pulse de e g) as [[r de'] g'].
  destruct Hst as (Hg' & Hrs' & Hl' & Htr' & Hdet).
  destruct r; [done|]. destruct m as [|m]; [exfalso; apply Hdet; [lia|done]|].
  apply (IH (k + 1)); try done; try lia; simpl; lia.
Qed.
End Completeness.

(** Enough of the burst fits in front of the deadline set by its first two
    pulses; true of every radar type of the tables. *)
Definition burst_fits (rs : radar_detector_specs) : bool :=
  let n := Z.max 2 (ppb_thresh rs) in
  (n =? 2) || ((n <=? ppb rs) &&
  ((n - 1) * PRI_TOLERANCE <=? (ppb rs - n) * pri_min rs + 2 * PRI_TOLERANCE)).

(** Completeness of the PRI detector: a fresh detector that is fed a burst
    of [max 2 ppb_thresh] admissible pulses with a constant interval [P]
    inside the type's PRI range reports a radar, at the latest on the last
    pulse of the burst (no allocation failing, no wrap-around of the 64-bit
    time stamp). *)
Lemma burst_detected rs e P g de g' :
  spec_ok rs -> burst_fits rs = true ->
  pri_min rs <= P <= pri_max rs -> PRI_TOLERANCE <= P ->
  pulse_admissible rs e ->
  PRI_TOLERANCE <= pe_ts e < 9223372036854775808 ->
  oom g = [] -> pri_detector_init rs g = (Some de, g') ->
  feed (burst e P (Z.to_nat (Z.max 2 (ppb_thresh rs)))) de g' = true.
Proof.
  intros Hso Hfit HP HP16 Hadm Hts Hg Hinit. set (n := Z.max 2 (ppb_thresh rs)).
  assert (n = 2 \/ n <= ppb rs /\
    (n - 1) * PRI_TOLERANCE <= (ppb rs - n) * pri_min rs + 2 * PRI_TOLERANCE) as Hreach.
  { unfold burst_fits in Hfit. fold n in Hfit. apply orb_true_iff in Hfit as [Hf|Hf]; ztest; auto. }
  pose proof (dur_range rs Hso P n HP eq_refl Hreach) as Hdur.
  assert (n <= 256) as Hn256 by (destruct Hreach as [|[? _]], Hso; lia).
  assert (admissible_event rs e) as Ha.
  { destruct Hadm as [Hw Hc]. split.
    - apply orb_false_iff; split; apply Z.ltb_ge; lia.
    - destruct (chirp rs); [by rewrite Hc|done]. }
  unfold pri_detector_init in Hinit. rewrite (kmalloc_no_oom _ Hg) in Hinit.
  simpl in Hinit. injection Hinit as <- <-.
  replace (Z.to_nat n) with (S (S (Z.to_nat (n - 2)))) by lia. cbn [burst feed].
  match goal with |- context [pri_detector_add_pulse ?d e ?g1] =>
    destruct (first_pulse rs Hso P n eq_refl d e g1) as (de1 & g1' & -> & Hg1 & Hrs1 & Hs1 & Hp1 & Hl1) end;
    try done; [destruct Hso; simpl; lia|lia|].
  match goal with |- context [pri_detector_add_pulse de1 ?e1 g1'] => set (e2 := e1) end.
  pose proof (second_pulse rs Hso P n HP HP16 eq_refl Hreach (pe_ts e) de1 e2 g1') as H2.
  destruct (pri_detector_add_pulse de1 e2 g1') as [[r de2] g2].
  unfold in_u32, PRI_TOLERANCE in *.
  destruct H2 as (Hg2 & Hrs2 & Hl2 & Htr & Hd2); try done; [lia| |].
  { destruct Hso. lia. }
  destruct r; [done|].
  destruct (Z.to_nat (n - 2)) as [|m] eqn:Em; [exfalso; apply Hd2; [lia|done]|].
  apply (feed_tracks rs Hso P n HP HP16 eq_refl Hreach (pe_ts e) (S m) 2); try done; try lia.
  { assert (n * P <= 256 * 65536) by (clear - Hn256 HP HP16 Hso; destruct Hso; nia).
    clear - Hts Hdur H. unfold PRI_TOLERANCE. lia. }
  { rewrite Hl2. subst e2. simpl. lia. }
  { subst e2. simpl. lia. }
Qed.

Lemma pde_get_multiple_correct_witness :
  0 <= pde_get_multiple 2850 1428 PRI_TOLERANCE.
Proof.
  apply (pde_get_multiple_correct 2850 1428 PRI_TOLERANCE); unfold in_u32, PRI_TOLERANCE; lia.
Defined.
