(* ===== verification/DfsPattern.v ===== *)
(** DFS pattern detector: radar tables, channel detectors and the pattern
    detector itself (src/real/ath/dfs_pattern_detector.c). *)

From S2P Require Import Prelude DfsPri.

(** * Radar types *)

Definition MIN_PPB_THRESH : Z := 50.
Definition PPB_THRESH_RATE (PPB RATE : Z) : Z := (PPB * RATE + 100 - RATE) / 100.
Definition PPB_THRESH (PPB : Z) : Z := PPB_THRESH_RATE PPB MIN_PPB_THRESH.
Definition PRF2PRI (PRF : Z) : Z := (1000000 + PRF / 2) / PRF.
Definition WIDTH_TOLERANCE : Z := 5.
Definition WIDTH_LOWER (X : Z) : Z := (X * (100 - WIDTH_TOLERANCE) + 50) / 100.
Definition WIDTH_UPPER (X : Z) : Z := (X * (100 + WIDTH_TOLERANCE) + 50) / 100.

Definition ETSI_PATTERN (ID WMIN WMAX PMIN PMAX PRF PPB : Z) (CHIRP : bool)
  : radar_detector_specs :=
  {| type_id := u8 ID; width_min := u8 (WIDTH_LOWER WMIN); width_max := u8 (WIDTH_UPPER WMAX);
     pri_min := u16 (PRF2PRI PMAX - PRI_TOLERANCE);
     pri_max := u16 (PRF2PRI PMIN * PRF + PRI_TOLERANCE);
     num_pri := u8 PRF; ppb := u8 (PPB * PRF); ppb_thresh := u8 (PPB_THRESH PPB);
     max_pri_tolerance := PRI_TOLERANCE; chirp := CHIRP |}.

Definition etsi_radar_ref_types_v15 : list radar_detector_specs := [
  ETSI_PATTERN 0  0  1  700  700 1 18 false;
  ETSI_PATTERN 1  0  5  200 1000 1 10 false;
  ETSI_PATTERN 2  0 15  200 1600 1 15 false;
  ETSI_PATTERN 3  0 15 2300 4000 1 25 false;
  ETSI_PATTERN 4 20 30 2000 4000 1 20 false;
  ETSI_PATTERN 5  0  2  300  400 3 10 false;
  ETSI_PATTERN 6  0  2  400 1200 3 15 false ].

Definition FCC_PATTERN (ID WMIN WMAX PMIN PMAX PRF PPB : Z) (CHIRP : bool)
  : radar_detector_specs :=
  {| type_id := u8 ID; width_min := u8 (WIDTH_LOWER WMIN); width_max := u8 (WIDTH_UPPER WMAX);
     pri_min := u16 (PMIN - PRI_TOLERANCE);
     pri_max := u16 (PMAX * PRF + PRI_TOLERANCE);
     num_pri := u8 PRF; ppb := u8 (PPB * PRF); ppb_thresh := u8 (PPB_THRESH PPB);
     max_pri_tolerance := PRI_TOLERANCE; chirp := CHIRP |}.

Definition fcc_radar_ref_types : list radar_detector_specs := [
  FCC_PATTERN 0 0 1 1428 1428 1 18 false;
  FCC_PATTERN 101 0 1 518 938 1 57 false;
  FCC_PATTERN 102 0 1 938 2000 1 27 false;
  FCC_PATTERN 103 0 1 2000 3066 1 18 false;
  FCC_PATTERN 2 0 5 150 230 1 23 false;
  FCC_PATTERN 3 6 10 200 500 1 16 false;
  FCC_PATTERN 4 11 20 200 500 1 12 false;
  FCC_PATTERN 5 50 100 1000 2000 1 1 true;
  FCC_PATTERN 6 0 1 333 333 1 9 false ].

Definition JP_PATTERN (ID WMIN WMAX PMIN PMAX PRF PPB RATE : Z) (CHIRP : bool)
  : radar_detector_specs :=
  {| type_id := u8 ID; width_min := u8 (WIDTH_LOWER WMIN); width_max := u8 (WIDTH_UPPER WMAX);
     pri_min := u16 (PMIN - PRI_TOLERANCE);
     pri_max := u16 (PMAX * PRF + PRI_TOLERANCE);
     num_pri := u8 PRF; ppb := u8 (PPB * PRF); ppb_thresh := u8 (PPB_THRESH_RATE PPB RATE);
     max_pri_tolerance := PRI_TOLERANCE; chirp := CHIRP |}.

Definition jp_radar_ref_types : list radar_detector_specs := [
  JP_PATTERN 0 0 1 1428 1428 1 18 29 false;
  JP_PATTERN 1 2 3 3846 3846 1 18 29 false;
  JP_PATTERN 2 0 1 1388 1388 1 18 50 false;
  JP_PATTERN 3 1 2 4000 4000 1 18 50 false;
  JP_PATTERN 4 0 5 150 230 1 23 50 false;
  JP_PATTERN 5 6 10 200 500 1 16 50 false;
  JP_PATTERN 6 11 20 200 500 1 12 50 false;
  JP_PATTERN 7 50 100 1000 2000 1 3 50 false;
  JP_PATTERN 5 0 1 333 333 1 9 50 false ].

Record radar_types := {
  rt_region : nl80211_dfs_regions;
  rt_num_radar_types : Z;
  rt_radar_types : list radar_detector_specs;
}.

Definition etsi_radar_types_v15 : radar_types :=
  {| rt_region := NL80211_DFS_ETSI;
     rt_num_radar_types := Z.of_nat (length etsi_radar_ref_types_v15);
     rt_radar_types := etsi_radar_ref_types_v15 |}.
Definition fcc_radar_types : radar_types :=
  {| rt_region := NL80211_DFS_FCC;
     rt_num_radar_types := Z.of_nat (length fcc_radar_ref_types);
     rt_radar_types := fcc_radar_ref_types |}.
Definition jp_radar_types : radar_types :=
  {| rt_region := NL80211_DFS_JP;
     rt_num_radar_types := Z.of_nat (length jp_radar_ref_types);
     rt_radar_types := jp_radar_ref_types |}.

Definition dfs_domains : list radar_types :=
  [etsi_radar_types_v15; fcc_radar_types; jp_radar_types].

Definition get_dfs_domain_radar_types (region : nl80211_dfs_regions) : option radar_types :=
  List.find (fun rt => bool_decide (rt_region rt = region)) dfs_domains.

(** * Channel detectors *)

(** [cd_detectors] holds the initialised prefix of the [detectors] array; the
    zeroed rest of the array is the absent suffix. *)
Record channel_detector := {
  cd_freq : Z; (* u16 *)
  cd_detectors : list pri_detector;
}.
#[export] Instance eta_channel_detector : Eta channel_detector := fun r =>
  Build_channel_detector (cd_freq r) (cd_detectors r).

Record dfs_pattern_detector := {
  dpd_region : nl80211_dfs_regions;
  dpd_num_radar_types : Z;   (* u8 *)
  dpd_last_pulse_ts : Z;     (* u64 *)
  dpd_radar_spec : list radar_detector_specs;
  dpd_channel_detectors : list channel_detector;
}.
#[export] Instance eta_dfs_pattern_detector : Eta dfs_pattern_detector := fun r =>
  Build_dfs_pattern_detector (dpd_region r) (dpd_num_radar_types r)
    (dpd_last_pulse_ts r) (dpd_radar_spec r) (dpd_channel_detectors r).

Fixpoint reset_detectors (ts : Z) (des : list pri_detector) (g : dfs_pool)
  : list pri_detector * dfs_pool :=
  match des with
  | [] => ([], g)
  | de :: des =>
      let '(de, g) := pri_detector_reset de ts g in
      let '(des, g) := reset_detectors ts des g in
      (de :: des, g)
  end.

Definition channel_detector_reset (dpd : dfs_pattern_detector) (cd : channel_detector)
    (g : dfs_pool) : channel_detector * dfs_pool :=
  let '(des, g) := reset_detectors (dpd_last_pulse_ts dpd) (cd_detectors cd) g in
  (cd <| cd_detectors := des |>, g).

(** [channel_detector_exit] on a channel detector that is unlinked by the
    caller's list operation: every initialised detector is destroyed. *)
Definition channel_detector_exit (cd : channel_detector) (g : dfs_pool) : dfs_pool :=
  fold_left (fun g de => pri_detector_exit de g) (cd_detectors cd) g.

Fixpoint init_detectors (rss : list radar_detector_specs) (done : list pri_detector)
    (g : dfs_pool) : bool * list pri_detector * dfs_pool :=
  match rss with
  | [] => (true, done, g)
  | rs :: rss =>
      let '(de, g) := pri_detector_init rs g in
      match de with
      | None => (false, done, g)
      | Some de => init_detectors rss (done ++ [de]) g
      end
  end.

(** Three allocations can fail: the detector itself ([cd == NULL], a plain
    failure), the array of detector pointers (then the [fail:] path runs
    [channel_detector_exit], which reads the first slot of [cd->detectors] through the null
    array pointer when there is at least one radar type), and a PRI detector
    (the ones already made are destroyed). *)
Definition channel_detector_create (dpd : dfs_pattern_detector) (freq : Z) (g : dfs_pool)
  : outcome (bool * dfs_pattern_detector * dfs_pool) :=
  let '(ok, g) := kmalloc_ok g in
  if negb ok then Ok (false, dpd, g)
  else
    let '(ok, g) := kmalloc_ok g in
    if negb ok then
      if 0 <? dpd_num_radar_types dpd then Oops else Ok (false, dpd, g)
    else
      let '(ok, des, g) :=
        init_detectors (take (Z.to_nat (dpd_num_radar_types dpd)) (dpd_radar_spec dpd)) [] g in
      let cd := {| cd_freq := freq; cd_detectors := des |} in
      if negb ok then Ok (false, dpd, channel_detector_exit cd g)
      else Ok (true, dpd <| dpd_channel_detectors ::= cons cd |>, g).

Fixpoint find_channel (freq : Z) (cds : list channel_detector) : option nat :=
  match cds with
  | [] => None
  | cd :: cds => if cd_freq cd =? freq then Some O else S <$> find_channel freq cds
  end.

(** Returns the position of the channel detector in the list. *)
Definition channel_detector_get (dpd : dfs_pattern_detector) (freq : Z) (g : dfs_pool)
  : outcome (option nat * dfs_pattern_detector * dfs_pool) :=
  match find_channel freq (dpd_channel_detectors dpd) with
  | Some i => Ok (Some i, dpd, g)
  | None =>
      match channel_detector_create dpd freq g with
      | Oops => Oops
      | Ok (true, dpd, g) => Ok (Some O, dpd, g)
      | Ok (false, dpd, g) => Ok (None, dpd, g)
      end
  end.

(** * Pattern detector *)

Fixpoint reset_channels (dpd : dfs_pattern_detector) (cds : list channel_detector)
    (g : dfs_pool) : list channel_detector * dfs_pool :=
  match cds with
  | [] => ([], g)
  | cd :: cds =>
      let '(cd, g) := channel_detector_reset dpd cd g in
      let '(cds, g) := reset_channels dpd cds g in
      (cd :: cds, g)
  end.

Definition dpd_reset (dpd : dfs_pattern_detector) (g : dfs_pool)
  : dfs_pattern_detector * dfs_pool :=
  let '(cds, g) := reset_channels dpd (dpd_channel_detectors dpd) g in
  (dpd <| dpd_channel_detectors := cds |>, g).

Definition exit_channels (cds : list channel_detector) (g : dfs_pool) : dfs_pool :=
  fold_left (fun g cd => channel_detector_exit cd g) cds g.

Definition dpd_exit (dpd : dfs_pattern_detector) (g : dfs_pool) : dfs_pool :=
  exit_channels (dpd_channel_detectors dpd) g.

(** The "type individual pattern matching" loop of [dpd_add_pulse]. *)
Fixpoint match_types (last_pulse_ts : Z) (event : pulse_event) (des : list pri_detector)
    (g : dfs_pool) : bool * list pri_detector * dfs_pool :=
  match des with
  | [] => (false, [], g)
  | pd :: des =>
      let '(ps, pd, g) := pri_detector_add_pulse pd event g in
      match ps with
      | Some _ =>
          let '(pd, g) := pri_detector_reset pd last_pulse_ts g in
          (true, pd :: des, g)
      | None =>
          let '(found, des, g) := match_types last_pulse_ts event des g in
          (found, pd :: des, g)
      end
  end.

Definition dpd_add_pulse (dpd : dfs_pattern_detector) (event : pulse_event) (g : dfs_pool)
  : outcome (bool * dfs_pattern_detector * dfs_pool) :=
  if bool_decide (dpd_region dpd = NL80211_DFS_UNSET) then Ok (true, dpd, g)
  else
    match channel_detector_get dpd (pe_freq event) g with
    | Oops => Oops
    | Ok (None, dpd, g) => Ok (false, dpd, g)
    | Ok (Some i, dpd, g) =>
        let '(dpd, g) :=
          if pe_ts event <? dpd_last_pulse_ts dpd then dpd_reset dpd g else (dpd, g) in
        let dpd := dpd <| dpd_last_pulse_ts := pe_ts event |> in
        match dpd_channel_detectors dpd !! i with
        | None => Oops
        | Some cd =>
            let '(found, des, g) :=
              match_types (dpd_last_pulse_ts dpd) event (cd_detectors cd) g in
            let cd := cd <| cd_detectors := des |> in
            Ok (found, dpd <| dpd_channel_detectors ::= <[i := cd]> |>, g)
        end
    end.

Definition dpd_get_stats (g : dfs_pool) : ath_dfs_pool_stats := global_dfs_pool_stats g.

Definition dpd_set_domain (dpd : dfs_pattern_detector) (region : nl80211_dfs_regions)
    (g : dfs_pool) : bool * dfs_pattern_detector * dfs_pool :=
  if bool_decide (dpd_region dpd = region) then (true, dpd, g)
  else
    let dpd := dpd <| dpd_region := NL80211_DFS_UNSET |> in
    match get_dfs_domain_radar_types region with
    | None => (false, dpd, g)
    | Some rt =>
        let g := exit_channels (dpd_channel_detectors dpd) g in
        let dpd := dpd <| dpd_channel_detectors := [] |> in
        let dpd := dpd <| dpd_radar_spec := rt_radar_types rt |> in
        let dpd := dpd <| dpd_num_radar_types := rt_num_radar_types rt |> in
        (true, dpd <| dpd_region := region |>, g)
    end.

Definition default_dpd : dfs_pattern_detector :=
  {| dpd_region := NL80211_DFS_UNSET; dpd_num_radar_types := 0;
     dpd_last_pulse_ts := 0; dpd_radar_spec := []; dpd_channel_detectors := [] |}.

(** [onus] is [config_enabled(CONFIG_CFG80211_CERTIFICATION_ONUS)]. *)
Definition dfs_pattern_detector_init (onus : bool) (region : nl80211_dfs_regions)
    (g : dfs_pool) : option dfs_pattern_detector * dfs_pool :=
  if negb onus then (None, g)
  else
    let '(ok, g) := kmalloc_ok g in
    if negb ok then (None, g)
    else
      let '(ok, dpd, g) := dpd_set_domain default_dpd region g in
      if ok then (Some dpd, g) else (None, g).


(** * Theorems: the radar tables *)

(** Every radar type of every domain is well formed, and its burst fits the
    deadline that the detector gives a sequence. *)
Lemma tables_ok rt :
  rt ∈ dfs_domains ->
  Forall spec_ok (rt_radar_types rt) /\
  rt_num_radar_types rt = Z.of_nat (length (rt_radar_types rt)).
Proof.
  intros Hin. split.
  - assert (forallb spec_okb (rt_radar_types rt) = true) as Hall.
    { unfold dfs_domains in Hin. repeat (apply elem_of_cons in Hin as [->|Hin]; [by vm_compute|]).
      by apply elem_of_nil in Hin. }
    rewrite forallb_forall in Hall. apply Forall_forall. intros rs Hrs.
    apply spec_okb_ok, Hall. by apply list_elem_of_In.
  - unfold dfs_domains in Hin. repeat (apply elem_of_cons in Hin as [->|Hin]; [done|]).
    by apply elem_of_nil in Hin.
Qed.

Lemma get_dfs_domain_radar_types_spec region rt :
  get_dfs_domain_radar_types region = Some rt ->
  rt_region rt = region /\ Forall spec_ok (rt_radar_types rt) /\
  rt_num_radar_types rt = Z.of_nat (length (rt_radar_types rt)).
Proof.
  unfold get_dfs_domain_radar_types. intros [Hin Hb]%find_some. ztest.
  split; [done|]. apply tables_ok. by apply list_elem_of_In.
Qed.

(** * Theorems: the channel detectors *)

(** The pulses of the history [h] on frequency [freq] that the radar type [rs]
    admits, by their time stamps. *)
Definition received (h : list pulse_event) (freq : Z) (rs : radar_detector_specs) (t : Z) : Prop :=
  in_u64 t /\ exists e, e ∈ h /\ pe_ts e = t /\ pe_freq e = freq /\ pulse_admissible rs e.

(** A PRI detector of the channel [freq] when the newest pulse seen by the
    pattern detector has time stamp [now]. *)
Record de_inv (h : list pulse_event) (now freq : Z) (de : pri_detector) : Prop := {
  dei_inv : pri_inv (received h freq (de_rs de)) de;
  dei_last : in_u64 (de_last_ts de);
  dei_clock : clock_ok de now;
}.

Lemma received_mono h e freq rs t : received h freq rs t -> received (e :: h) freq rs t.
Proof. intros (? & e' & ? & ? & ? & ?). split; [done|]. exists e'. split_and!; try done. by right. Qed.

Lemma clock_ok_mono de now now' : now <= now' -> clock_ok de now -> clock_ok de now'.
Proof. intros ? [?|?]; [left; lia|by right]. Qed.

Lemma de_inv_mono h e now now' freq de :
  now <= now' -> de_inv h now freq de -> de_inv (e :: h) now' freq de.
Proof.
  intros Hle []. constructor; [|done|by eapply clock_ok_mono].
  eapply pri_inv_mono; [|done]. intros t. apply received_mono.
Qed.

(** A reset detector holds nothing, so it satisfies the invariant for every
    history and every clock. *)
Lemma reset_de_inv h h' now now' freq freq' de ts g de' g' :
  de_inv h now freq de -> in_u64 ts -> pri_detector_reset de ts g = (de', g') ->
  de_inv h' now' freq' de' /\ de_rs de' = de_rs de.
Proof.
  intros [Hi _ _] Hts E. destruct (reset_inv _ _ _ _ _ _ Hi E) as (Hinv & Hrs & Hp & Hs & Hl).
  split; [|done]. constructor; [done|by rewrite Hl|by right].
Qed.

Lemma reset_detectors_inv h h' now now' freq ts des g des' g' :
  Forall (de_inv h now freq) des -> in_u64 ts -> reset_detectors ts des g = (des', g') ->
  Forall (de_inv h' now' freq) des' /\ de_rs <$> des' = de_rs <$> des.
Proof.
  intros Hall Hts. revert g des' g'. induction Hall as [|de des Hde Hall IH]; intros g des' g'; cbn [reset_detectors match_types init_detectors].
  { by intros [= <- <-]. }
  destruct (pri_detector_reset de ts g) as [de1 g1] eqn:E1.
  destruct (reset_detectors ts des g1) as [des1 g2] eqn:E2. intros [= <- <-].
  destruct (reset_de_inv _ h' _ now' _ freq _ _ _ _ _ Hde Hts E1) as [? Hrs].
  destruct (IH _ _ _ E2) as [? Hrss]. split; [by constructor|]. by rewrite !fmap_cons, Hrs, Hrss.
Qed.

(** The loop of [dpd_add_pulse] over the radar types: a hit names a type whose
    detector has the evidence. *)
Lemma match_types_inv h e des g found des' g' :
  e ∈ h -> in_u64 (pe_ts e) -> Forall (de_inv h (pe_ts e) (pe_freq e)) des ->
  match_types (pe_ts e) e des g = (found, des', g') ->
  Forall (de_inv h (pe_ts e) (pe_freq e)) des' /\ de_rs <$> des' = de_rs <$> des /\
  (found = true -> exists de ps g0 de0 g1, de ∈ des /\ pri_detector_add_pulse de e g0 = (Some ps, de0, g1) /\
     detection_ok (de_rs de) (received h (pe_freq e) (de_rs de)) ps).
Proof.
  intros Hin Hts Hall. revert g found des' g'.
  induction Hall as [|de des Hde Hall IH]; intros g found des' g'; cbn [reset_detectors match_types init_detectors].
  { by intros [= <- <- <-]. }
  destruct (pri_detector_add_pulse de e g) as [[r de1] g1] eqn:E1.
  destruct Hde as [Hi Hl Hc].
  destruct (add_pulse_inv _ _ _ _ _ _ _ (fun t Ht => proj1 Ht) Hi Hc
    (fun Ha => conj Hts (ex_intro _ e (conj Hin (conj eq_refl (conj eq_refl Ha))))) Hts Hl E1)
    as (Hi1 & Hrs1 & Hl1 & Hc1 & Hdet).
  assert (de_inv h (pe_ts e) (pe_freq e) de1) as Hde1 by (constructor; by rewrite ?Hrs1).
  destruct r as [ps|].
  - destruct (pri_detector_reset de1 (pe_ts e) g1) as [de2 g2] eqn:E2. intros [= <- <- <-].
    destruct (reset_de_inv _ h _ (pe_ts e) _ (pe_freq e) _ _ _ _ _ Hde1 Hts E2) as [? Hrs2].
    rewrite !fmap_cons, Hrs2, Hrs1. split_and!; [by constructor|done|].
    intros _. exists de, ps, g, de1, g1. split; [by left|]. split; [done|]. by apply Hdet.
  - destruct (match_types (pe_ts e) e des g1) as [[f1 des1] g2] eqn:E2. intros [= <- <- <-].
    destruct (IH _ _ _ _ E2) as (? & Hrss & Hf). rewrite !fmap_cons, Hrss, Hrs1.
    split_and!; [by constructor|done|]. intros (de2 & ps & g3 & de3 & g4 & ? & ?)%Hf. exists de2, ps, g3, de3, g4. split; [by right|done].
Qed.

Lemma init_detectors_inv h now freq rss dn g ok des g' :
  Forall spec_ok rss -> 0 <= now -> Forall (de_inv h now freq) dn ->
  init_detectors rss dn g = (ok, des, g') ->
  Forall (de_inv h now freq) des /\ (ok = true -> de_rs <$> des = (de_rs <$> dn) ++ rss).
Proof.
  intros Hall Hnow. revert dn g. induction Hall as [|rs rss Hrs Hall IH]; intros dn g Hdn; cbn [reset_detectors match_types init_detectors].
  { intros [= <- <- <-]. by rewrite app_nil_r. }
  destruct (pri_detector_init rs g) as [[de|] g1] eqn:E1; [|by intros [= <- <- <-]; split].
  destruct (init_inv _ _ _ _ Hrs E1) as (Hi & Hr & Hp & Hs & Hl & _).
  intros E. destruct (IH (dn ++ [de]) g1) as [? Heq]; [|exact E|].
  - apply Forall_app; split; [done|]. constructor; [|done]. constructor; [done| |by right].
    rewrite Hl. unfold in_u64. lia.
  - split; [done|]. intros Hok. rewrite (Heq Hok), fmap_app. simpl. by rewrite <- app_assoc, Hr.
Qed.

Lemma find_channel_some freq cds i :
  find_channel freq cds = Some i -> exists cd, cds !! i = Some cd /\ cd_freq cd = freq.
Proof.
  revert i. induction cds as [|cd cds IH]; intros i; simpl; [done|].
  destruct (Z.eqb_spec (cd_freq cd) freq); [intros [= <-]; by eexists|].
  destruct (find_channel freq cds); [|done]. intros [= <-]. by apply IH.
Qed.

Lemma find_channel_none freq cds :
  find_channel freq cds = None -> freq ∉ (cd_freq <$> cds).
Proof.
  induction cds as [|cd cds IH]; simpl; [by intros _ ?%elem_of_nil|].
  destruct (Z.eqb_spec (cd_freq cd) freq); [done|].
  destruct (find_channel freq cds); [done|]. intros _ [->|?]%elem_of_cons; [done|by apply IH].
Qed.

(** * Theorems: the pattern detector *)

Definition cd_inv (h : list pulse_event) (now : Z) (spec : list radar_detector_specs)
    (cd : channel_detector) : Prop :=
  de_rs <$> cd_detectors cd = spec /\ Forall (de_inv h now (cd_freq cd)) (cd_detectors cd).

(** The history [h] holds the pulses handed to [dpd_add_pulse] so far. *)
Record dpd_inv (h : list pulse_event) (dpd : dfs_pattern_detector) : Prop := {
  di_spec : Forall spec_ok (dpd_radar_spec dpd);
  di_num : dpd_num_radar_types dpd = Z.of_nat (length (dpd_radar_spec dpd));
  di_last : in_u64 (dpd_last_pulse_ts dpd);
  di_region : dpd_region dpd <> NL80211_DFS_UNSET ->
    exists rt, get_dfs_domain_radar_types (dpd_region dpd) = Some rt /\
               dpd_radar_spec dpd = rt_radar_types rt;
  di_chans : Forall (cd_inv h (dpd_last_pulse_ts dpd) (dpd_radar_spec dpd))
               (dpd_channel_detectors dpd);
  di_nodup : NoDup (cd_freq <$> dpd_channel_detectors dpd);
}.

Lemma set_domain_inv h dpd region g r dpd' g' :
  dpd_inv h dpd -> dpd_set_domain dpd region g = (r, dpd', g') -> dpd_inv h dpd'.
Proof.
  intros Hinv. unfold dpd_set_domain. case_bool_decide; [by intros [= <- <- <-]|].
  destruct Hinv. destruct (get_dfs_domain_radar_types region) as [rt|] eqn:E.
  - destruct (get_dfs_domain_radar_types_spec _ _ E) as (Hreg & ? & ?).
    intros [= <- <- <-]. constructor; simpl; try done; try by constructor.
    intros _. by exists rt.
  - intros [= <- <- <-]. constructor; simpl; done.
Qed.

Lemma create_inv h dpd freq g r dpd' g' :
  dpd_inv h dpd -> freq ∉ (cd_freq <$> dpd_channel_detectors dpd) ->
  channel_detector_create dpd freq g = Ok (r, dpd', g') ->
  dpd_inv h dpd' /\ dpd_last_pulse_ts dpd' = dpd_last_pulse_ts dpd /\
  dpd_radar_spec dpd' = dpd_radar_spec dpd /\
  (r = true -> exists cd, dpd_channel_detectors dpd' !! O = Some cd /\ cd_freq cd = freq).
Proof.
  intros [] Hnew. unfold channel_detector_create.
  assert (dpd_inv h dpd) as Hdpd by done.
  destruct (kmalloc_ok g) as [[] g1]; cbn [negb]; [|by intros [= <- <- <-]].
  destruct (kmalloc_ok g1) as [[] g2]; cbn [negb]; [|case_match; [done|by intros [= <- <- <-]]].
  rewrite di_num0, Nat2Z.id, firstn_all.
  destruct (init_detectors _ [] g2) as [[ok des] g3] eqn:E.
  destruct (init_detectors_inv h (dpd_last_pulse_ts dpd) freq _ _ _ _ _ _
    di_spec0 (proj1 di_last0) (Forall_nil_2 _) E) as [Hdes Heq].
  destruct ok; cbn [negb]; intros [= <- <- <-]; [|done].
  split_and!; try done; [|intros _; by eexists].
  constructor; simpl; try done; [|by constructor].
  constructor; [|done]. split; [by apply Heq|done].
Qed.

Lemma get_inv h dpd freq g i dpd' g' :
  dpd_inv h dpd -> channel_detector_get dpd freq g = Ok (i, dpd', g') ->
  dpd_inv h dpd' /\ dpd_last_pulse_ts dpd' = dpd_last_pulse_ts dpd /\
  dpd_radar_spec dpd' = dpd_radar_spec dpd /\
  forall k, i = Some k -> exists cd, dpd_channel_detectors dpd' !! k = Some cd /\ cd_freq cd = freq.
Proof.
  intros Hinv. unfold channel_detector_get.
  destruct (find_channel freq _) as [k|] eqn:E.
  - intros [= <- <- <-]. split_and!; try done. intros ? [= <-]. by apply find_channel_some.
  - destruct (channel_detector_create dpd freq g) as [[[r d] g1]|] eqn:E1; [|done].
    destruct (create_inv _ _ _ _ _ _ _ Hinv (find_channel_none _ _ E) E1) as (? & ? & ? & Hcd).
    destruct r; intros [= <- <- <-]; (split_and!; [done..|]); [|done].
    intros ? [= <-]. by apply Hcd.
Qed.

Lemma reset_channels_inv h h' now' spec dpd cds g cds' g' :
  Forall (cd_inv h (dpd_last_pulse_ts dpd) spec) cds -> in_u64 (dpd_last_pulse_ts dpd) ->
  reset_channels dpd cds g = (cds', g') ->
  Forall (cd_inv h' now' spec) cds' /\ cd_freq <$> cds' = cd_freq <$> cds.
Proof.
  intros Hall Hts. revert g cds' g'.
  induction Hall as [|cd cds [Hspec Hde] Hall IH]; intros g cds' g'; cbn [reset_channels].
  { by intros [= <- <-]. }
  unfold channel_detector_reset.
  destruct (reset_detectors _ (cd_detectors cd) g) as [des g1] eqn:E1.
  destruct (reset_detectors_inv _ h' _ now' _ _ _ _ _ _ Hde Hts E1) as [? Hrs].
  destruct (reset_channels dpd cds g1) as [cds1 g2] eqn:E2. intros [= <- <-].
  destruct (IH _ _ _ E2) as [? Hf]. rewrite !fmap_cons, Hf.
  split; [|done]. constructor; [|done]. split; simpl; [by rewrite Hrs|done].
Qed.

(** The time stamp handling of [dpd_add_pulse]: after the reset that a clock
    going backwards causes, every detector agrees with the new clock. *)
Lemma advance_clock_inv h dpd e g dpd' g' :
  dpd_inv h dpd -> in_u64 (pe_ts e) ->
  (if pe_ts e <? dpd_last_pulse_ts dpd then dpd_reset dpd g else (dpd, g)) = (dpd', g') ->
  dpd_inv (e :: h) (dpd' <| dpd_last_pulse_ts := pe_ts e |>) /\
  dpd_radar_spec dpd' = dpd_radar_spec dpd /\
  cd_freq <$> dpd_channel_detectors dpd' = cd_freq <$> dpd_channel_detectors dpd.
Proof.
  intros [] Hts. destruct (Z.ltb_spec (pe_ts e) (dpd_last_pulse_ts dpd)) as [Hlt|Hge].
  - unfold dpd_reset. destruct (reset_channels dpd _ g) as [cds g1] eqn:E. intros [= <- <-].
    destruct (reset_channels_inv _ (e :: h) (pe_ts e) _ _ _ _ _ _ di_chans0 di_last0 E) as [? Hf].
    split_and!; [|done|done]. constructor; simpl; try done. by rewrite Hf.
  - intros [= <- <-]. split_and!; try done. constructor; simpl; try done.
    eapply Forall_impl; [exact di_chans0|]. intros cd [? Hd]. split; [done|].
    eapply Forall_impl; [exact Hd|]. intros de. by apply de_inv_mono.
Qed.

(** A PRI detector of the channel [freq] at the time of a pulse: one that the
    pattern detector has, or an empty one (a channel seen for the first time, or
    all detectors after the clock has gone back). *)
Definition fresh (de : pri_detector) : Prop := de_pulses de = [] /\ de_sequences de = [].
Definition current (dpd : dfs_pattern_detector) (freq : Z) (de : pri_detector) : Prop :=
  (exists cd, cd ∈ dpd_channel_detectors dpd /\ cd_freq cd = freq /\ de ∈ cd_detectors cd) \/ fresh de.

Lemma init_detectors_fresh rss dn g ok des g' :
  Forall fresh dn -> init_detectors rss dn g = (ok, des, g') -> Forall fresh des.
Proof.
  revert dn g. induction rss as [|rs rss IH]; intros dn g Hdn; cbn [init_detectors]; [by intros [= <- <- <-]|].
  unfold pri_detector_init. destruct (kmalloc_ok g) as [[] g1]; cbn [negb]; [|by intros [= <- <- <-]].
  apply IH. apply Forall_app. split; [done|]. by constructor.
Qed.

Lemma reset_detectors_fresh ts des g : Forall fresh (fst (reset_detectors ts des g)).
Proof.
  revert g. induction des as [|de des IH]; intros g; cbn [reset_detectors]; [constructor|].
  unfold pri_detector_reset. set (g1 := fold_left _ _ _). specialize (IH g1). destruct (reset_detectors ts des g1). by constructor.
Qed.

Lemma reset_channels_fresh dpd cds g : Forall (fun cd => Forall fresh (cd_detectors cd)) (fst (reset_channels dpd cds g)).
Proof.
  revert g. induction cds as [|cd cds IH]; intros g; cbn [reset_channels]; [constructor|].
  unfold channel_detector_reset. pose proof (reset_detectors_fresh (dpd_last_pulse_ts dpd) (cd_detectors cd) g) as Hd.
  destruct (reset_detectors _ _ g) as [des g1]. specialize (IH g1). destruct (reset_channels dpd cds g1). by constructor.
Qed.

Lemma get_current dpd freq g i d1 g1 cd de : channel_detector_get dpd freq g = Ok (Some i, d1, g1) ->
  dpd_channel_detectors d1 !! i = Some cd -> de ∈ cd_detectors cd -> current dpd freq de.
Proof.
  unfold channel_detector_get. destruct (find_channel freq _) as [k|] eqn:E.
  - intros [= <- <- <-] Hcd Hde. left. destruct (find_channel_some _ _ _ E) as (cd' & Hk & Hf). exists cd.
    assert (cd' = cd) as -> by congruence. split_and!; try done. by eapply list_elem_of_lookup_2.
  - unfold channel_detector_create. destruct (kmalloc_ok g) as [[] g2]; cbn [negb]; [|by intros [=]].
    destruct (kmalloc_ok g2) as [[] g3]; cbn [negb]; [|destruct (0 <? _); by intros [=]].
    destruct (init_detectors _ [] g3) as [[ok des] g4] eqn:E1. destruct ok; cbn [negb]; [|by intros [=]].
    intros [= <- <- <-] Hcd Hde. right. cbn in Hcd. injection Hcd as <-.
    pose proof (init_detectors_fresh _ _ _ _ _ _ (Forall_nil_2 _) E1) as Hf. rewrite Forall_forall in Hf. by apply Hf.
Qed.

(** The detector that detects, and the sequence it has. *)
Definition detects (dpd : dfs_pattern_detector) (e : pulse_event) (de : pri_detector) (ps : pri_sequence) : Prop :=
  current dpd (pe_freq e) de /\ exists g0 de0 g1, pri_detector_add_pulse de e g0 = (Some ps, de0, g1).

Definition detection_evidence (h : list pulse_event) (freq : Z)
    (specs : list radar_detector_specs) : Prop :=
  exists rs ps, rs ∈ specs /\ detection_ok rs (received h freq rs) ps.

Lemma dpd_add_pulse_inv h dpd e g r dpd' g' :
  dpd_inv h dpd -> in_u64 (pe_ts e) -> dpd_add_pulse dpd e g = Ok (r, dpd', g') ->
  dpd_inv (e :: h) dpd' /\
  (r = true -> dpd_region dpd <> NL80211_DFS_UNSET ->
   exists de ps, detects dpd e de ps /\ de_rs de ∈ dpd_radar_spec dpd /\
     detection_ok (de_rs de) (received (e :: h) (pe_freq e) (de_rs de)) ps).
Proof.
  intros Hinv Hts. unfold dpd_add_pulse.
  assert (forall d, dpd_inv h d -> dpd_inv (e :: h) d) as Hmono.
  { intros d []. constructor; try done. eapply Forall_impl; [exact di_chans0|].
    intros cd [? Hd]. split; [done|]. eapply Forall_impl; [exact Hd|].
    intros de. by apply de_inv_mono. }
  case_bool_decide as Hreg.
  { intros [= <- <- <-]. split; [by apply Hmono|done]. }
  destruct (channel_detector_get dpd (pe_freq e) g) as [[[i d1] g1]|] eqn:E1; [|done].
  destruct (get_inv _ _ _ _ _ _ _ Hinv E1) as (Hinv1 & Hl1 & Hs1 & Hcd).
  destruct i as [i|]; [|intros [= <- <- <-]; split; [by apply Hmono|done]].
  destruct (Hcd i eq_refl) as (cd0 & Hi0 & Hf0).
  destruct (if pe_ts e <? dpd_last_pulse_ts d1 then _ else _) as [d2 g2] eqn:E2.
  destruct (advance_clock_inv _ _ _ _ _ _ Hinv1 Hts E2) as (Hinv2 & Hs2 & Hf2).
  simpl. destruct (dpd_channel_detectors d2 !! i) as [cd|] eqn:Ei; [|done].
  assert (cd_freq cd = pe_freq e) as Hf.
  { pose proof (f_equal (fun l => l !! i) Hf2) as Hx. simpl in Hx.
    rewrite !list_lookup_fmap, Ei, Hi0 in Hx. simpl in Hx. by injection Hx as ->. }
  destruct Hinv2. simpl in *.
  destruct (Forall_lookup_1 _ _ _ _ di_chans0 Ei) as [Hspec Hde]. rewrite Hf in Hde.
  destruct (match_types (pe_ts e) e (cd_detectors cd) g2) as [[f des] g3] eqn:E3.
  destruct (match_types_inv (e :: h) e _ _ _ _ _ (list_elem_of_here _ _) Hts Hde E3)
    as (Hdes & Hrs & Hfound).
  intros [= <- <- <-]. split.
  - constructor; simpl; try done.
    + apply Forall_insert; [done|]. split; simpl; [by rewrite Hrs|by rewrite Hf].
    + rewrite list_fmap_insert. simpl. rewrite Hf, list_insert_id; [done|].
      by rewrite list_lookup_fmap, Ei, <- Hf.
  - intros -> _. destruct (Hfound eq_refl) as (de & ps & g4 & de1 & g5 & Hin & Ea & Hd). exists de, ps.
    split; [|split; [|done]].
    + split; [|by exists g4, de1, g5]. destruct (pe_ts e <? dpd_last_pulse_ts d1).
      * right. unfold dpd_reset in E2. pose proof (reset_channels_fresh d1 (dpd_channel_detectors d1) g1) as Hfr.
        destruct (reset_channels _ _ _) as [cds g6]. injection E2 as <- <-. cbn in Ei, Hfr.
        pose proof (Forall_lookup_1 _ _ _ _ Hfr Ei) as Hx. rewrite Forall_forall in Hx. by apply Hx.
      * injection E2 as <- <-. by eapply get_current.
    + rewrite <- Hs1, <- Hs2, <- Hspec. apply list_elem_of_fmap. by exists de.
Qed.

(** * Theorems: the pool across the life of a pattern detector *)

Definition held_pulses : list pri_detector -> Z :=
  sumZ (fun de => Z.of_nat (length (de_pulses de))).
Definition held_seqs : list pri_detector -> Z :=
  sumZ (fun de => Z.of_nat (length (de_sequences de))).

(** The pool accounts when the detectors [des] are alive beside [nr] others
    that hold [np] pulses and [ns] sequences. *)
Definition dets_accounts (nr : Z) (g : dfs_pool) (np ns : Z) (des : list pri_detector) : Prop :=
  pool_accounts (nr + Z.of_nat (length des)) g (np + held_pulses des) (ns + held_seqs des).

Definition all_detectors (cds : list channel_detector) : list pri_detector :=
  cds ≫= cd_detectors.

Lemma pool_accounts_cast nr g np ns nr' np' ns' :
  pool_accounts nr g np ns -> nr = nr' -> np = np' -> ns = ns' -> pool_accounts nr' g np' ns'.
Proof. by intros ? -> -> ->. Qed.

Ltac cast_accounts H :=
  eapply pool_accounts_cast; [exact H|..];
  unfold held_pulses, held_seqs in *;
  repeat progress (rewrite ?length_app, ?length_cons, ?sumZ_app, ?sumZ_cons); simpl; lia.

Lemma dets_accounts_app nr g np ns des1 des2 :
  dets_accounts nr g np ns (des1 ++ des2) <->
  dets_accounts (nr + Z.of_nat (length des1)) g (np + held_pulses des1) (ns + held_seqs des1) des2.
Proof. unfold dets_accounts. split; intros H; cast_accounts H. Qed.

(** The accounts only depend on the detectors as a multiset. *)
Lemma dets_accounts_swap nr g np ns des1 des2 :
  dets_accounts nr g np ns (des1 ++ des2) -> dets_accounts nr g np ns (des2 ++ des1).
Proof. unfold dets_accounts. intros H. cast_accounts H. Qed.

Lemma dets_accounts_cons nr g np ns de des :
  dets_accounts nr g np ns (de :: des) <->
  detector_accounts (nr + 1 + Z.of_nat (length des)) g (np + held_pulses des) (ns + held_seqs des) de.
Proof.
  unfold dets_accounts, detector_accounts. split; intros H; cast_accounts H.
Qed.

(** An operation on one detector that keeps the accounts of that detector
    against any surroundings keeps the accounts of a whole list. *)
Lemma dets_accounts_head nr g np ns de de' des g' :
  (forall nr np ns, detector_accounts nr g np ns de -> detector_accounts nr g' np ns de') ->
  dets_accounts nr g np ns (de :: des) -> dets_accounts nr g' np ns (de' :: des).
Proof. rewrite !dets_accounts_cons. eauto. Qed.

Lemma dets_accounts_tail nr g np ns de des des' g' :
  (forall nr np ns, dets_accounts nr g np ns des -> dets_accounts nr g' np ns des') ->
  dets_accounts nr g np ns (de :: des) -> dets_accounts nr g' np ns (de :: des').
Proof.
  intros Hop H. apply (dets_accounts_app _ _ _ _ [de]). apply Hop.
  by apply (dets_accounts_app _ _ _ _ [de]).
Qed.

Lemma free_pulse_pool_accounts nr l g np ns :
  pulse_pool g = l -> pool_accounts nr g np ns ->
  let g' := free_pulse_pool l g in
  pool_accounts nr g' np ns /\ pulse_pool g' = [] /\ pseq_pool g' = pseq_pool g.
Proof.
  revert g. induction l as [|p l IH]; intros g Hp H; cbn [free_pulse_pool]; [done|].
  match goal with |- context [free_pulse_pool l ?g1] => destruct (IH g1) as (? & ? & ?) end; [done| |done].
  unfold pool_accounts in H. rewrite Hp in H. accounts.
Qed.

Lemma free_pseq_pool_accounts nr l g np ns :
  pseq_pool g = l -> pool_accounts nr g np ns ->
  let g' := free_pseq_pool l g in
  pool_accounts nr g' np ns /\ pseq_pool g' = [] /\ pulse_pool g' = pulse_pool g.
Proof.
  revert g. induction l as [|p l IH]; intros g Hp H; cbn [free_pseq_pool]; [done|].
  match goal with |- context [free_pseq_pool l ?g1] => destruct (IH g1) as (? & ? & ?) end; [done| |done].
  unfold pool_accounts in H. rewrite Hp in H. accounts.
Qed.

(** Dropping a reference keeps the accounts; the last one empties the pools. *)
Lemma deregister_accounts nr g np ns :
  pool_accounts (nr + 1) g np ns ->
  pool_accounts nr (pool_deregister_ref g) np ns /\
  (u32 nr = 0 -> pulse_pool (pool_deregister_ref g) = [] /\ pseq_pool (pool_deregister_ref g) = []).
Proof.
  intros H. unfold pool_deregister_ref.
  match goal with |- context [singleton_pool_references ?x] => set (g1 := x) end.
  assert (pool_accounts nr g1 np ns) as H1.
  { subst g1. unfold pool_accounts, stat_upd, dec in *. simpl.
    destruct H as (-> & -> & ? & ? & ? & ?). rewrite u32_sub_l, Z.add_simpl_r. split_and!; done. }
  pose proof (proj1 H1) as Href. destruct (Z.eqb_spec (singleton_pool_references g1) 0); [|by split; [|lia]].
  destruct (free_pulse_pool_accounts nr _ g1 np ns eq_refl H1) as (H2 & Hp & _).
  destruct (free_pseq_pool_accounts nr _ _ np ns eq_refl H2) as (H3 & Hq & Hp').
  rewrite Hp', Hp, Hq. done.
Qed.

Lemma exit_detectors_accounts nr des : forall g np ns,
  dets_accounts nr g np ns des ->
  pool_accounts nr (fold_left (fun g de => pri_detector_exit de g) des g) np ns.
Proof.
  induction des as [|de des IH]; intros g np ns H; simpl.
  { unfold dets_accounts in H. cast_accounts H. }
  apply IH. apply dets_accounts_cons in H. unfold pri_detector_exit.
  destruct (pri_detector_reset de 0 g) as [de' g1] eqn:E.
  destruct (reset_accounts _ _ _ _ _ _ _ _ H E) as (H1 & _).
  assert (pool_accounts (nr + Z.of_nat (length des) + 1) g1
            (np + held_pulses des) (ns + held_seqs des)) as H2 by cast_accounts H1.
  apply (deregister_accounts _ _ _ _ H2).
Qed.

Lemma exit_channels_accounts nr cds : forall g np ns,
  dets_accounts nr g np ns (all_detectors cds) -> pool_accounts nr (exit_channels cds g) np ns.
Proof.
  unfold exit_channels, all_detectors.
  induction cds as [|cd cds IH]; intros g np ns H; simpl in *.
  { unfold dets_accounts in H. cast_accounts H. }
  apply IH, exit_detectors_accounts. by apply dets_accounts_app, dets_accounts_swap.
Qed.

Lemma reset_detectors_accounts ts des : forall g des' g',
  reset_detectors ts des g = (des', g') ->
  forall nr np ns, dets_accounts nr g np ns des -> dets_accounts nr g' np ns des'.
Proof.
  induction des as [|de des IH]; intros g des' g'; cbn [reset_detectors].
  { by intros [= <- <-]. }
  destruct (pri_detector_reset de ts g) as [de1 g1] eqn:E1.
  destruct (reset_detectors ts des g1) as [des1 g2] eqn:E2. intros [= <- <-] nr np ns H.
  eapply dets_accounts_tail; [by eapply IH|].
  eapply dets_accounts_head; [|exact H]. eauto using reset_detector_accounts.
Qed.

Lemma match_types_accounts ts e des : forall g found des' g',
  match_types ts e des g = (found, des', g') ->
  forall nr np ns, dets_accounts nr g np ns des -> dets_accounts nr g' np ns des'.
Proof.
  induction des as [|de des IH]; intros g found des' g'; cbn [match_types].
  { by intros [= <- <- <-]. }
  destruct (pri_detector_add_pulse de e g) as [[r de1] g1] eqn:E1. destruct r as [ps|].
  - destruct (pri_detector_reset de1 ts g1) as [de2 g2] eqn:E2. intros [= <- <- <-] nr np ns.
    apply dets_accounts_head. eauto using add_pulse_accounts, reset_detector_accounts.
  - destruct (match_types ts e des g1) as [[f1 des1] g2] eqn:E2. intros [= <- <- <-] nr np ns H.
    eapply dets_accounts_tail; [by eapply IH|].
    eapply dets_accounts_head; [|exact H]. eauto using add_pulse_accounts.
Qed.

Lemma init_detectors_accounts rss : forall dn g ok des g',
  init_detectors rss dn g = (ok, des, g') ->
  forall nr np ns, dets_accounts nr g np ns dn -> dets_accounts nr g' np ns des.
Proof.
  induction rss as [|rs rss IH]; intros dn g ok des g'; cbn [init_detectors].
  { by intros [= <- <- <-]. }
  pose proof (init_failed_accounts) as Hfail.
  destruct (pri_detector_init rs g) as [[de|] g1] eqn:E1.
  - intros E nr np ns H. eapply IH; [exact E|].
    unfold pri_detector_init in E1. unfold dets_accounts in *.
    pose proof (kmalloc_accounts _ _ _ _ H) as Hk.
    destruct (kmalloc_ok g) as [[] g2]; simplify_eq/=. unfold pool_register_ref.
    assert (pool_accounts (nr + Z.of_nat (length dn) + 1) (pool_register_ref g2)
      (np + held_pulses dn) (ns + held_seqs dn)) as H1 by (unfold pool_register_ref; accounts).
    cast_accounts H1.
  - intros [= <- <- <-] nr np ns H. by eapply Hfail.
Qed.

(** Nothing is pooled. *)
Definition pool_idle (g : dfs_pool) : Prop := pulse_pool g = [] /\ pseq_pool g = [].

(** The only user of the pool: the accounts are those of its detectors, and
    without a detector nothing stays pooled. *)
Definition sole_user (g : dfs_pool) (des : list pri_detector) : Prop :=
  dets_accounts 0 g 0 0 des /\ (des = [] -> pool_idle g).

Lemma kmalloc_pools g : pool_idle g -> pool_idle (snd (kmalloc_ok g)).
Proof. unfold kmalloc_ok. by destruct (oom g). Qed.

Lemma exit_detectors_sole des2 : forall des1 g,
  sole_user g (des1 ++ des2) ->
  sole_user (fold_left (fun g de => pri_detector_exit de g) des2 g) des1.
Proof.
  induction des2 as [|de des IH]; intros des1 g H; simpl.
  { by rewrite app_nil_r in H. }
  apply IH. destruct H as [H Hidle]. unfold pri_detector_exit.
  assert (dets_accounts 0 g 0 0 (de :: des1 ++ des)) as H0.
  { unfold dets_accounts in *. cast_accounts H. }
  apply dets_accounts_cons in H0.
  destruct (pri_detector_reset de 0 g) as [de' g1] eqn:E.
  destruct (reset_accounts _ _ _ _ _ _ _ _ H0 E) as (H1 & _).
  assert (pool_accounts (Z.of_nat (length (des1 ++ des)) + 1) g1
            (held_pulses (des1 ++ des)) (held_seqs (des1 ++ des))) as H2 by cast_accounts H1.
  destruct (deregister_accounts _ _ _ _ H2) as [H3 Hd]. split; [exact H3|].
  intros Hnil. apply Hd. by rewrite Hnil.
Qed.

Lemma all_detectors_insert cds i cd :
  cds !! i = Some cd ->
  exists A B, all_detectors cds = A ++ cd_detectors cd ++ B /\
    forall cd', all_detectors (<[i := cd']> cds) = A ++ cd_detectors cd' ++ B.
Proof.
  intros Hi. exists (all_detectors (take i cds)), (all_detectors (drop (S i) cds)).
  unfold all_detectors. split.
  - rewrite <- (take_drop_middle cds i cd Hi) at 1. rewrite bind_app. by simpl.
  - intros cd'. rewrite insert_take_drop by (by eapply lookup_lt_Some). rewrite bind_app. by simpl.
Qed.

Lemma exit_channels_sole cds : forall g,
  sole_user g (all_detectors cds) -> sole_user (exit_channels cds g) [].
Proof.
  unfold exit_channels, all_detectors. induction cds as [|cd cds IH]; intros g H; simpl in *; [done|].
  apply IH. apply exit_detectors_sole. destruct H as [H Hi]. split.
  - by apply dets_accounts_swap.
  - intros [H1 H2]%app_nil. by apply Hi, app_nil.
Qed.

(** Changing some of the detectors by an operation that keeps the accounts
    keeps the sole use. *)
Lemma sole_user_op g g' A des des' B :
  (forall nr np ns, dets_accounts nr g np ns des -> dets_accounts nr g' np ns des') ->
  length des' = length des -> (des = [] -> g' = g) ->
  sole_user g (A ++ des ++ B) -> sole_user g' (A ++ des' ++ B).
Proof.
  intros Hop Hlen Hnil [H Hi]. split.
  - assert (dets_accounts (Z.of_nat (length (A ++ B))) g (held_pulses (A ++ B))
              (held_seqs (A ++ B)) des) as H1.
    { unfold dets_accounts in *. cast_accounts H. }
    apply Hop in H1. unfold dets_accounts in *. cast_accounts H1.
  - intros [-> [-> ->]%app_nil]%app_nil. destruct des; [|done].
    rewrite Hnil by done. by apply Hi.
Qed.

Lemma match_types_length ts e des : forall g found des' g',
  match_types ts e des g = (found, des', g') -> length des' = length des.
Proof.
  induction des as [|de des IH]; intros g found des' g'; cbn [match_types].
  { by intros [= <- <- <-]. }
  destruct (pri_detector_add_pulse de e g) as [[[ps|] de1] g1].
  - destruct (pri_detector_reset de1 ts g1) as [de2 g2]. by intros [= <- <- <-].
  - destruct (match_types ts e des g1) as [[f1 des1] g2] eqn:E2. intros [= <- <- <-]. simpl.
    f_equal. by eapply IH.
Qed.

Lemma reset_detectors_length ts des : forall g des' g',
  reset_detectors ts des g = (des', g') -> length des' = length des.
Proof.
  induction des as [|de des IH]; intros g des' g'; cbn [reset_detectors].
  { by intros [= <- <-]. }
  destruct (pri_detector_reset de ts g) as [de1 g1].
  destruct (reset_detectors ts des g1) as [des1 g2] eqn:E2. intros [= <- <-]. simpl.
  f_equal. by eapply IH.
Qed.

Lemma reset_channels_sole dpd cds : forall A g cds' g',
  reset_channels dpd cds g = (cds', g') ->
  sole_user g (A ++ all_detectors cds) -> sole_user g' (A ++ all_detectors cds').
Proof.
  induction cds as [|cd cds IH]; intros A g cds' g'; cbn [reset_channels].
  { by intros [= <- <-]. }
  unfold channel_detector_reset.
  destruct (reset_detectors _ (cd_detectors cd) g) as [des g1] eqn:E1.
  destruct (reset_channels dpd cds g1) as [cds1 g2] eqn:E2. intros [= <- <-] H.
  unfold all_detectors in *. simpl. rewrite app_assoc. eapply IH; [exact E2|]. rewrite <- app_assoc.
  eapply sole_user_op; [by eapply reset_detectors_accounts|by eapply reset_detectors_length| |exact H].
  intros Hn. rewrite Hn in E1. by injection E1 as <- <-.
Qed.

Lemma create_sole dpd freq g r dpd' g' :
  sole_user g (all_detectors (dpd_channel_detectors dpd)) ->
  channel_detector_create dpd freq g = Ok (r, dpd', g') ->
  sole_user g' (all_detectors (dpd_channel_detectors dpd')).
Proof.
  intros H. unfold channel_detector_create.
  assert (forall g, sole_user g (all_detectors (dpd_channel_detectors dpd)) ->
    sole_user (snd (kmalloc_ok g)) (all_detectors (dpd_channel_detectors dpd))) as Hk.
  { intros g0 [H0 Hi]. split; [by apply kmalloc_accounts|]. intros Hn. by apply kmalloc_pools, Hi. }
  apply Hk in H. destruct (kmalloc_ok g) as [ok1 g1]. simpl in H.
  destruct ok1; cbn [negb]; [|by intros [= <- <- <-]].
  apply Hk in H. destruct (kmalloc_ok g1) as [ok2 g2]. simpl in H.
  destruct ok2; cbn [negb]; [|case_match; [done|by intros [= <- <- <-]]].
  destruct (init_detectors _ [] g2) as [[ok des] g3] eqn:E.
  assert (sole_user g3 (all_detectors (dpd_channel_detectors dpd) ++ des)) as H3.
  { destruct H as [H Hi]. split.
    - apply dets_accounts_app. eapply init_detectors_accounts; [exact E|].
      apply dets_accounts_app. by rewrite app_nil_r.
    - intros [Hn ->]%app_nil. apply Hi in Hn as Hidle. clear - E Hidle.
      destruct (take _ _) as [|rs rss]; [by injection E as <- <-|]. cbn [init_detectors] in E.
      unfold pri_detector_init in E. pose proof (kmalloc_pools _ Hidle) as Hp.
      destruct (kmalloc_ok g2) as [[] g4]; cbn [negb] in E; [exfalso|by injection E as <- <-].
      assert (forall rss d dn g ok g', init_detectors rss (d :: dn) g = (ok, [], g') -> False) as Hx.
      { clear. induction rss as [|rs rss IH]; intros d dn g ok g'; cbn [init_detectors]; [done|].
        destruct (pri_detector_init rs g) as [[de|] g1]; [apply IH|done]. }
      by eapply Hx. }
  destruct ok; cbn [negb]; intros [= <- <- <-].
  - simpl. destruct H3 as [H3 Hi]. split; [by apply dets_accounts_swap|].
    intros [-> Hn]%app_nil. apply Hi. by rewrite app_nil_r.
  - by apply exit_detectors_sole.
Qed.

Lemma dpd_add_pulse_sole dpd e g r dpd' g' :
  sole_user g (all_detectors (dpd_channel_detectors dpd)) ->
  dpd_add_pulse dpd e g = Ok (r, dpd', g') ->
  sole_user g' (all_detectors (dpd_channel_detectors dpd')).
Proof.
  intros H. unfold dpd_add_pulse. case_bool_decide; [by intros [= <- <- <-]|].
  assert (forall i d1 g1, channel_detector_get dpd (pe_freq e) g = Ok (i, d1, g1) ->
    sole_user g1 (all_detectors (dpd_channel_detectors d1))) as Hget.
  { intros i d1 g1. unfold channel_detector_get.
    destruct (find_channel _ _); [by intros [= <- <- <-]|].
    destruct (channel_detector_create dpd (pe_freq e) g) as [[[b d] g0]|] eqn:E; [|done].
    destruct b; intros [= <- <- <-]; by eapply create_sole. }
  destruct (channel_detector_get dpd (pe_freq e) g) as [[[i d1] g1]|] eqn:E1; [|done].
  specialize (Hget _ _ _ eq_refl). destruct i as [i|]; [|by intros [= <- <- <-]].
  destruct (if pe_ts e <? dpd_last_pulse_ts d1 then _ else _) as [d2 g2] eqn:E2.
  assert (sole_user g2 (all_detectors (dpd_channel_detectors d2))) as H2.
  { destruct (pe_ts e <? _); [|by injection E2 as <- <-]. unfold dpd_reset in E2.
    destruct (reset_channels d1 _ g1) as [cds g3] eqn:E3. injection E2 as <- <-.
    by apply (reset_channels_sole _ _ [] _ _ _ E3). }
  simpl. destruct (dpd_channel_detectors d2 !! i) as [cd|] eqn:Ei; [|done].
  destruct (match_types (pe_ts e) e (cd_detectors cd) g2) as [[f des] g3] eqn:E3.
  intros [= <- <- <-]. simpl.
  destruct (all_detectors_insert _ _ _ Ei) as (A & B & HA & HB). rewrite HB. rewrite HA in H2. simpl.
  eapply sole_user_op; [by eapply match_types_accounts|by eapply match_types_length| |exact H2].
  intros Hn. rewrite Hn in E3. by injection E3 as <- <- <-.
Qed.

Lemma set_domain_sole dpd region g r dpd' g' :
  sole_user g (all_detectors (dpd_channel_detectors dpd)) ->
  dpd_set_domain dpd region g = (r, dpd', g') ->
  sole_user g' (all_detectors (dpd_channel_detectors dpd')).
Proof.
  intros H. unfold dpd_set_domain. case_bool_decide; [by intros [= <- <- <-]|].
  destruct (get_dfs_domain_radar_types region); intros [= <- <- <-]; [|done].
  by apply exit_channels_sole.
Qed.

(** * Theorems: every run of a pattern detector *)

(** The pools as the module loads; the script decides which allocations fail. *)
Definition module_pool (script : list bool) : dfs_pool :=
  {| global_dfs_pool_stats :=
       {| pool_reference := 0; pulse_allocated := 0; pulse_alloc_error := 0; pulse_used := 0;
          pseq_allocated := 0; pseq_alloc_error := 0; pseq_used := 0 |};
     singleton_pool_references := 0; pulse_pool := []; pseq_pool := []; oom := script |}.

(** The states a pattern detector can reach, with the pulses handed to it.
    The pools are shared with the other devices of the machine: [env] is what
    those may do to them between two calls. *)
Inductive dpd_reach (env : dfs_pool -> dfs_pool -> Prop)
  : list pulse_event -> dfs_pattern_detector -> dfs_pool -> Prop :=
| reach_init script onus region dpd g :
    dfs_pattern_detector_init onus region (module_pool script) = (Some dpd, g) ->
    dpd_reach env [] dpd g
| reach_env h dpd g g' :
    dpd_reach env h dpd g -> env g g' -> dpd_reach env h dpd g'
| reach_pulse h dpd g e r dpd' g' :
    dpd_reach env h dpd g -> in_u64 (pe_ts e) ->
    dpd_add_pulse dpd e g = Ok (r, dpd', g') -> dpd_reach env (e :: h) dpd' g'
| reach_domain h dpd g region r dpd' g' :
    dpd_reach env h dpd g ->
    dpd_set_domain dpd region g = (r, dpd', g') -> dpd_reach env h dpd' g'.

Lemma default_dpd_inv : dpd_inv [] default_dpd.
Proof. constructor; simpl; try done; try constructor; unfold in_u64; lia. Qed.

Lemma dpd_reach_inv env h dpd g : dpd_reach env h dpd g -> dpd_inv h dpd.
Proof.
  induction 1 as [script onus region dpd g E|h dpd g g' _ IH _|h dpd g e r dpd' g' _ IH Hts E
                 |h dpd g region r dpd' g' _ IH E]; [|done| |].
  - unfold dfs_pattern_detector_init in E. destruct onus; [|done].
    destruct (kmalloc_ok _) as [[] g1]; [|done]. cbn [negb] in E.
    destruct (dpd_set_domain default_dpd region g1) as [[r d] g2] eqn:E1.
    destruct r; [|done]. injection E as <- <-. by eapply set_domain_inv, E1; apply default_dpd_inv.
  - by apply (dpd_add_pulse_inv _ _ _ _ _ _ _ IH Hts E).
  - by eapply set_domain_inv.
Qed.

(** C5. A reported radar is backed by pulses. In every state a pattern
    detector can reach (whatever other devices do to the shared pools and
    whichever allocations fail), if [dpd_add_pulse] reports a radar in a
    configured DFS domain, then the PRI detector of one of the radar types of that
    domain, on the channel of the pulse, has completed a sequence: it has matched
    [ps_count] pulses, at least [ppb_thresh] and all distinct, and its count of
    skipped pulses, [ps_count_falses], is at most [num_pri] times as large. The
    matched pulses were all handed to the pattern detector on the frequency of the
    reported pulse and are admissible for the type (width in range, chirp if
    required), at least 16 us apart, and each but the newest is a multiple of the
    interval [ps_pri], which is inside [[pri_min, pri_max]], before a later one
    (within the tolerance). *)
Theorem radar_detection_sound env h dpd g e dpd' g' :
  dpd_reach env h dpd g -> in_u64 (pe_ts e) -> dpd_region dpd <> NL80211_DFS_UNSET ->
  dpd_add_pulse dpd e g = Ok (true, dpd', g') ->
  exists rt rs de ps ts,
    get_dfs_domain_radar_types (dpd_region dpd) = Some rt /\ rs ∈ rt_radar_types rt /\
    detects dpd e de ps /\ de_rs de = rs /\
    pri_min rs <= ps_pri ps <= pri_max rs /\
    Z.of_nat (length ts) = ps_count ps /\ ppb_thresh rs <= ps_count ps /\ ps_count_falses ps <= ps_count ps * num_pri rs /\
    Forall (fun t => exists e', e' ∈ e :: h /\ pe_ts e' = t /\ pe_freq e' = pe_freq e /\
      width_min rs <= pe_width e' <= width_max rs /\
      (chirp rs = true -> pe_chirp e' = true)) ts /\
    StronglySorted (fun newer older => older + PRI_TOLERANCE <= newer) ts /\
    (forall t, t ∈ ts -> Some t = head ts \/ exists t' k, t' ∈ ts /\ t < t' /\ 1 <= k /\
       Z.abs (u32 (t' - t) - k * ps_pri ps) <= PRI_TOLERANCE).
Proof.
  intros Hr Hts Hreg E. pose proof (dpd_reach_inv _ _ _ _ Hr) as Hinv.
  destruct (dpd_add_pulse_inv _ _ _ _ _ _ _ Hinv Hts E) as [_ Hev].
  destruct (Hev eq_refl Hreg) as (de & ps & Hdet & Hin & Hthr & Hfal & ts & Hes). set (rs := de_rs de) in *.
  destruct (di_region _ _ Hinv Hreg) as (rt & Hrt & Hspec). rewrite Hspec in Hin.
  assert (spec_ok rs) as Hso.
  { pose proof (di_spec _ _ Hinv) as Hall. rewrite Hspec, Forall_forall in Hall. by apply Hall. }
  destruct Hes as [[? ?] Hh Hsp Hlen Hhd Hla Hm].
  exists rt, rs, de, ps, ts. split_and!; try done.
  - eapply Forall_impl; [exact Hh|]. intros t (_ & e' & ? & ? & ? & ? & ?). eauto 10.
  - intros t Ht. destruct (Hm t Ht) as [->|(t' & Ht' & Hlt & Hf)]; [left; by rewrite Hhd|].
    right. exists t', (pde_get_multiple (u32 (t' - t)) (ps_pri ps) (max_pri_tolerance rs)).
    split_and!; try done; [lia|]. rewrite <- (so_tol _ Hso).
    apply pde_get_multiple_sound; [apply u32_range| | |lia]; destruct Hso; unfold PRI_TOLERANCE in *; lia.
Qed.

(** No leak, no double release: for the only user of the pools, after any
    run (allocation failures included) [dpd_exit] leaves the statistics at
    zero objects used and allocated, no reference and both pools empty. *)
Theorem dpd_exit_releases_all h dpd g :
  dpd_reach (fun _ _ => False) h dpd g ->
  let g' := dpd_exit dpd g in let s := global_dfs_pool_stats g' in
  singleton_pool_references g' = 0 /\ pool_reference s = 0 /\
  pulse_used s = 0 /\ pulse_allocated s = 0 /\ pseq_used s = 0 /\ pseq_allocated s = 0 /\
  pulse_pool g' = [] /\ pseq_pool g' = [].
Proof.
  intros Hr. assert (sole_user g (all_detectors (dpd_channel_detectors dpd))) as Hs.
  { induction Hr as [script onus region dpd g E|h dpd g g' _ IH []|h dpd g e r dpd' g' _ IH Hts E
                 |h dpd g region r dpd' g' _ IH E].
    - unfold dfs_pattern_detector_init in E. destruct onus; [|done].
      assert (sole_user (snd (kmalloc_ok (module_pool script))) (all_detectors [])) as Hk.
      { split; [by apply kmalloc_accounts|intros _; by apply kmalloc_pools]. }
      destruct (kmalloc_ok _) as [[] g1]; [|done]. cbn [negb] in E. simpl in Hk.
      destruct (dpd_set_domain default_dpd region g1) as [[r d] g2] eqn:E1.
      destruct r; [|done]. injection E as <- <-. by eapply set_domain_sole, E1.
    - by eapply dpd_add_pulse_sole.
    - by eapply set_domain_sole. }
  cbv zeta. unfold dpd_exit. destruct (exit_channels_sole _ _ Hs) as [(-> & -> & -> & -> & -> & ->) Hi].
  destruct (Hi eq_refl) as [Hp Hq]. by rewrite Hp, Hq.
Qed.

(** Boundedness: in every reachable state there is at most one channel
    detector per frequency, each has exactly one PRI detector per radar type
    of the domain, in order, and the pulse queue of each is counted by
    [count], newest first, and shorter than [max_count] = [2 * ppb]. *)
Theorem dpd_reach_bounded env h dpd g :
  dpd_reach env h dpd g ->
  NoDup (cd_freq <$> dpd_channel_detectors dpd) /\
  Forall (fun cd =>
    de_rs <$> cd_detectors cd = dpd_radar_spec dpd /\
    Forall (fun de =>
      de_count de = Z.of_nat (length (de_pulses de)) /\
      de_max_count de = 2 * ppb (de_rs de) /\ de_count de < de_max_count de /\
      StronglySorted (fun newer older => p_ts older + PRI_TOLERANCE <= p_ts newer) (de_pulses de))
      (cd_detectors cd))
    (dpd_channel_detectors dpd).
Proof.
  intros [_ _ _ _ Hch Hnd]%dpd_reach_inv. split; [done|].
  eapply Forall_impl; [exact Hch|]. intros cd [? Hd]. split; [done|].
  eapply Forall_impl; [exact Hd|]. intros de [[_ Hm Hc Hb Hsp _ _ _] _ _].
  split_and!; [done|lia|done|]. unfold spaced, stamps in Hsp. clear - Hsp.
  induction (de_pulses de) as [|p l IH]; [constructor|]. rewrite fmap_cons in Hsp.
  inversion Hsp as [|? ? Hs Hall]; subst. constructor; [by apply IH|]. by rewrite Forall_fmap in Hall.
Qed.

Lemma init_detectors_no_oom rss : forall dn g,
  oom g = [] -> exists des g', init_detectors rss dn g = (true, des, g').
Proof.
  induction rss as [|rs rss IH]; intros dn g Hg; cbn [init_detectors]; [by eexists _, _|].
  unfold pri_detector_init. rewrite (kmalloc_no_oom _ Hg). cbn [negb]. by apply IH.
Qed.

(** Fault freedom: in every reachable state, while allocations succeed
    [dpd_add_pulse] returns (it never follows a null pointer). *)
Theorem dpd_add_pulse_returns env h dpd g e :
  dpd_reach env h dpd g -> oom g = [] -> in_u64 (pe_ts e) ->
  exists r dpd' g', dpd_add_pulse dpd e g = Ok (r, dpd', g').
Proof.
  intros Hr Hg Hts. pose proof (dpd_reach_inv _ _ _ _ Hr) as Hinv. unfold dpd_add_pulse.
  case_bool_decide; [by eauto|].
  assert (exists i d1 g1, channel_detector_get dpd (pe_freq e) g = Ok (i, d1, g1)) as (i & d1 & g1 & E1).
  { unfold channel_detector_get. destruct (find_channel _ _); [by eauto|].
    unfold channel_detector_create. rewrite (kmalloc_no_oom _ Hg). cbn [negb].
    rewrite (kmalloc_no_oom _ Hg). cbn [negb].
    match goal with |- context [init_detectors ?l [] g] =>
      destruct (init_detectors_no_oom l [] g Hg) as (des & g3 & ->) end. cbn [negb]. by eauto. }
  rewrite E1. destruct (get_inv _ _ _ _ _ _ _ Hinv E1) as (Hinv1 & _ & _ & Hcd).
  destruct i as [i|]; [|by eauto]. destruct (Hcd i eq_refl) as (cd0 & Hi0 & _).
  destruct (if pe_ts e <? dpd_last_pulse_ts d1 then _ else _) as [d2 g2] eqn:E2.
  destruct (advance_clock_inv _ _ _ _ _ _ Hinv1 Hts E2) as (_ & _ & Hf). simpl.
  destruct (dpd_channel_detectors d2 !! i) as [cd|] eqn:Ei.
  - destruct (match_types _ _ _ _) as [[? ?] ?]. by eauto.
  - apply lookup_ge_None in Ei. apply lookup_lt_Some in Hi0.
    apply (f_equal length) in Hf. rewrite !length_fmap in Hf. lia.
Qed.

(** The [fail:] path of [channel_detector_create] is not safe: in a domain
    with radar types, when the second allocation (the array of detector
    pointers) fails, the call follows a null pointer. *)
Theorem channel_detector_create_oops dpd freq g rest :
  0 < dpd_num_radar_types dpd -> oom g = true :: false :: rest ->
  channel_detector_create dpd freq g = Oops.
Proof.
  intros Hn Hg. unfold channel_detector_create, kmalloc_ok. rewrite Hg. simpl.
  destruct (Z.ltb_spec 0 (dpd_num_radar_types dpd)); [done|lia].
Qed.

(** * A concrete run

    An FCC detector and a train of 1 us pulses every 1428 us on 5260 MHz. *)

Definition fcc_start (script : list bool) : dfs_pattern_detector * dfs_pool :=
  match dfs_pattern_detector_init true NL80211_DFS_FCC (module_pool script) with
  | (Some dpd, g) => (dpd, g)
  | (None, g) => (default_dpd, g)
  end.

Fixpoint run_pulses (es : list pulse_event) (s : dfs_pattern_detector * dfs_pool)
  : dfs_pattern_detector * dfs_pool :=
  match es with
  | [] => s
  | e :: es =>
      match dpd_add_pulse (fst s) e (snd s) with
      | Ok (_, dpd, g) => run_pulses es (dpd, g)
      | Oops => s
      end
  end.

Definition demo_pulse (k : nat) : pulse_event :=
  {| pe_ts := 1000 + 1428 * Z.of_nat k; pe_freq := 5260; pe_width := 1; pe_rssi := 10;
     pe_chirp := false |}.

Fixpoint demo_history (n : nat) : list pulse_event :=
  match n with O => [] | S n => demo_pulse n :: demo_history n end.

Lemma fcc_start_reach env script :
  fst (dfs_pattern_detector_init true NL80211_DFS_FCC (module_pool script)) <> None ->
  dpd_reach env [] (fst (fcc_start script)) (snd (fcc_start script)).
Proof.
  intros Hs. unfold fcc_start.
  destruct (dfs_pattern_detector_init _ _ _) as [[dpd|] g] eqn:E; [|done]. by eapply reach_init.
Qed.

Lemma run_pulses_reach env es h s :
  dpd_reach env h (fst s) (snd s) -> Forall (fun e => in_u64 (pe_ts e)) es ->
  exists h', dpd_reach env h' (fst (run_pulses es s)) (snd (run_pulses es s)) /\
             forall e, e ∈ h' -> e ∈ h \/ e ∈ es.
Proof.
  intros Hr Hes. revert h s Hr. induction Hes as [|e es He Hes IH]; intros h s Hr; cbn [run_pulses].
  { exists h. split; [done|auto]. }
  destruct (dpd_add_pulse (fst s) e (snd s)) as [[[r d] g]|] eqn:E.
  - destruct (IH (e :: h) (d, g)) as (h' & ? & Hsub); [by eapply reach_pulse|].
    exists h'. split; [done|]. intros x [[->|?]%elem_of_cons|?]%Hsub; [right; by left|by left|right; by right].
  - exists h. split; [done|auto].
Qed.

Lemma demo_history_range n : Forall (fun e => in_u64 (pe_ts e)) (rev (demo_history (Nat.min n 20))).
Proof.
  apply Forall_rev. assert (Nat.min n 20 <= 20)%nat as H by lia. revert H.
  generalize (Nat.min n 20) as m. induction m as [|m IH]; intros Hm; simpl; constructor.
  - unfold in_u64, demo_pulse. simpl. lia.
  - apply IH. lia.
Qed.

Definition demo_state (n : nat) : dfs_pattern_detector * dfs_pool :=
  run_pulses (rev (demo_history (Nat.min n 20))) (fcc_start []).

Lemma demo_reach env n :
  exists h, dpd_reach env h (fst (demo_state n)) (snd (demo_state n)).
Proof.
  destruct (run_pulses_reach env (rev (demo_history (Nat.min n 20))) [] (fcc_start []))
    as (h & ? & _); [by apply fcc_start_reach|apply demo_history_range|]. by exists h.
Qed.

Lemma radar_detection_sound_witness :
  exists rs (ts : list Z), rs ∈ fcc_radar_ref_types /\ ppb_thresh rs <= Z.of_nat (length ts).
Proof.
  destruct (demo_reach (fun _ _ => False) 8) as (h & Hr).
  destruct (dpd_add_pulse (fst (demo_state 8)) (demo_pulse 8) (snd (demo_state 8)))
    as [[[r dpd'] g']|] eqn:E; [|vm_compute in E; discriminate].
  assert (r = true) as -> by (vm_compute in E; by injection E as <- _ _).
  destruct (radar_detection_sound _ h _ _ (demo_pulse 8) dpd' g' Hr) as
    (rt & rs & _ & ps & ts & Hrt & Hin & _ & _ & _ & Hlen & Hthr & _).
  - unfold in_u64. simpl. lia.
  - vm_compute. discriminate.
  - exact E.
  - exists rs, ts. split; [|lia]. vm_compute in Hrt. injection Hrt as <-. exact Hin.
Defined.

Lemma dpd_exit_releases_all_witness :
  pulse_allocated (global_dfs_pool_stats (snd (demo_state 8))) <> 0 /\
  pulse_allocated (global_dfs_pool_stats (dpd_exit (fst (demo_state 8)) (snd (demo_state 8)))) = 0.
Proof.
  split; [by vm_compute; discriminate|]. destruct (demo_reach (fun _ _ => False) 8) as (h & Hr).
  apply (dpd_exit_releases_all h _ _ Hr).
Defined.

Lemma dpd_reach_bounded_witness :
  NoDup (cd_freq <$> dpd_channel_detectors (fst (demo_state 8))).
Proof.
  destruct (demo_reach (fun _ _ => False) 8) as (h & Hr). apply (dpd_reach_bounded _ h _ _ Hr).
Defined.

Lemma dpd_add_pulse_returns_witness :
  exists r dpd' g',
    dpd_add_pulse (fst (demo_state 8)) (demo_pulse 8) (snd (demo_state 8)) = Ok (r, dpd', g').
Proof.
  destruct (demo_reach (fun _ _ => False) 8) as (h & Hr).
  apply (dpd_add_pulse_returns _ h _ _ (demo_pulse 8) Hr); [by vm_compute|].
  unfold in_u64. simpl. lia.
Defined.

Lemma channel_detector_create_oops_witness :
  channel_detector_create (fst (fcc_start [])) 5260 (module_pool [true; false]) = Oops.
Proof. apply (channel_detector_create_oops _ _ _ []); by vm_compute. Defined.

(** * Completeness on the tables *)

(** C24. No admissible burst is missed: for every radar type of every DFS
    domain, a fresh PRI detector of that type that is fed [max 2 ppb_thresh]
    admissible pulses with any constant interval inside the type's PRI range
    reports a radar at the latest on the last of them (allocations
    succeeding, time stamps not wrapping around 64 bits). *)
Theorem radar_type_burst_detected rt rs e P g de g' :
  rt ∈ dfs_domains -> rs ∈ rt_radar_types rt ->
  pri_min rs <= P <= pri_max rs -> pulse_admissible rs e ->
  PRI_TOLERANCE <= pe_ts e < 9223372036854775808 ->
  oom g = [] -> pri_detector_init rs g = (Some de, g') ->
  feed (burst e P (Z.to_nat (Z.max 2 (ppb_thresh rs)))) de g' = true.
Proof.
  intros Hrt Hrs HP. pose proof (tables_ok rt Hrt) as [Hso _].
  rewrite Forall_forall in Hso. specialize (Hso rs Hrs).
  assert (burst_fits rs = true /\ PRI_TOLERANCE <= pri_min rs) as [Hfit Hmin].
  { assert (forallb (fun rs => burst_fits rs && (PRI_TOLERANCE <=? pri_min rs)) (rt_radar_types rt) = true) as Hall.
    { clear - Hrt. unfold dfs_domains in Hrt.
      repeat (apply elem_of_cons in Hrt as [->|Hrt]; [by vm_compute|]). by apply elem_of_nil in Hrt. }
    rewrite forallb_forall in Hall. apply list_elem_of_In in Hrs. specialize (Hall rs Hrs). by ztest. }
  apply burst_detected; [done..|lia].
Qed.

Lemma radar_type_burst_detected_witness :
  exists de g',
    pri_detector_init (ETSI_PATTERN 2 0 15 200 1600 1 15 false) (module_pool []) = (Some de, g') /\
    feed (burst (demo_pulse 0) 3000 8) de g' = true.
Proof.
  eexists _, _. split; [reflexivity|].
  apply (radar_type_burst_detected etsi_radar_types_v15 (ETSI_PATTERN 2 0 15 200 1600 1 15 false)
    (demo_pulse 0) 3000 (module_pool [])).
  - by left.
  - simpl. by do 2 right; left.
  - vm_compute. split; discriminate.
  - split; simpl; [vm_compute; split; discriminate|done].
  - simpl. unfold PRI_TOLERANCE. lia.
  - reflexivity.
  - reflexivity.
Defined.
