(* ===== verification/RegdTables.v ===== *)
(** Regulatory tables of the driver: the country codes of
    src/real/ath/regd.h and the regulatory domain pairs and countries of
    src/real/ath/regd_common.h, entry by entry. *)

From stdpp Require Export strings.
From S2P Require Import Prelude.

(** * Constants *)

Inductive ctl_group := CTL_FCC | CTL_MKK | CTL_ETSI.
Definition ctl_group_val (c : ctl_group) : Z :=
  match c with CTL_FCC => 0x10 | CTL_MKK => 0x40 | CTL_ETSI => 0x30 end.
Coercion ctl_group_val : ctl_group >-> Z.

Definition NO_CTL : Z := 0xff.
Definition SD_NO_CTL : Z := 0xE0.
Definition CTRY_DEBUG : Z := 0x1ff.
Definition CTRY_DEFAULT : Z := 0.
Definition COUNTRY_ERD_FLAG : Z := 0x8000.
Definition WORLDWIDE_ROAMING_FLAG : Z := 0x4000.
Definition WORLD_SKU_MASK : Z := 0x00F0.
Definition WORLD_SKU_PREFIX : Z := 0x0060.

(** * Enumerations *)

Inductive CountryCode :=
  | CTRY_ALBANIA | CTRY_ALGERIA | CTRY_ARGENTINA | CTRY_ARMENIA | CTRY_ARUBA
  | CTRY_AUSTRALIA | CTRY_AUSTRIA | CTRY_AZERBAIJAN | CTRY_BAHRAIN
  | CTRY_BANGLADESH | CTRY_BARBADOS | CTRY_BELARUS | CTRY_BELGIUM
  | CTRY_BELIZE | CTRY_BOLIVIA | CTRY_BOSNIA_HERZ | CTRY_BRAZIL
  | CTRY_BRUNEI_DARUSSALAM | CTRY_BULGARIA | CTRY_CAMBODIA | CTRY_CANADA
  | CTRY_CHILE | CTRY_CHINA | CTRY_COLOMBIA | CTRY_COSTA_RICA | CTRY_CROATIA
  | CTRY_CYPRUS | CTRY_CZECH | CTRY_DENMARK | CTRY_DOMINICAN_REPUBLIC
  | CTRY_ECUADOR | CTRY_EGYPT | CTRY_EL_SALVADOR | CTRY_ESTONIA
  | CTRY_FAEROE_ISLANDS | CTRY_FINLAND | CTRY_FRANCE | CTRY_GEORGIA
  | CTRY_GERMANY | CTRY_GREECE | CTRY_GREENLAND | CTRY_GRENADA | CTRY_GUAM
  | CTRY_GUATEMALA | CTRY_HAITI | CTRY_HONDURAS | CTRY_HONG_KONG
  | CTRY_HUNGARY | CTRY_ICELAND | CTRY_INDIA | CTRY_INDONESIA | CTRY_IRAN
  | CTRY_IRAQ | CTRY_IRELAND | CTRY_ISRAEL | CTRY_ITALY | CTRY_JAMAICA
  | CTRY_JAPAN | CTRY_JORDAN | CTRY_KAZAKHSTAN | CTRY_KENYA | CTRY_KOREA_NORTH
  | CTRY_KOREA_ROC | CTRY_KOREA_ROC2 | CTRY_KOREA_ROC3 | CTRY_KUWAIT
  | CTRY_LATVIA | CTRY_LEBANON | CTRY_LIBYA | CTRY_LIECHTENSTEIN
  | CTRY_LITHUANIA | CTRY_LUXEMBOURG | CTRY_MACAU | CTRY_MACEDONIA
  | CTRY_MALAYSIA | CTRY_MALTA | CTRY_MEXICO | CTRY_MONACO | CTRY_MOROCCO
  | CTRY_NEPAL | CTRY_NETHERLANDS | CTRY_NETHERLANDS_ANTILLES
  | CTRY_NEW_ZEALAND | CTRY_NICARAGUA | CTRY_NORWAY | CTRY_OMAN
  | CTRY_PAKISTAN | CTRY_PANAMA | CTRY_PAPUA_NEW_GUINEA | CTRY_PARAGUAY
  | CTRY_PERU | CTRY_PHILIPPINES | CTRY_POLAND | CTRY_PORTUGAL
  | CTRY_PUERTO_RICO | CTRY_QATAR | CTRY_ROMANIA | CTRY_RUSSIA
  | CTRY_SAUDI_ARABIA | CTRY_SERBIA_MONTENEGRO | CTRY_SINGAPORE
  | CTRY_SLOVAKIA | CTRY_SLOVENIA | CTRY_SOUTH_AFRICA | CTRY_SPAIN
  | CTRY_SRI_LANKA | CTRY_SWEDEN | CTRY_SWITZERLAND | CTRY_SYRIA | CTRY_TAIWAN
  | CTRY_THAILAND | CTRY_TRINIDAD_Y_TOBAGO | CTRY_TUNISIA | CTRY_TURKEY
  | CTRY_UAE | CTRY_UKRAINE | CTRY_UNITED_KINGDOM | CTRY_UNITED_STATES
  | CTRY_UNITED_STATES_FCC49 | CTRY_URUGUAY | CTRY_UZBEKISTAN | CTRY_VENEZUELA
  | CTRY_VIET_NAM | CTRY_YEMEN | CTRY_ZIMBABWE | CTRY_JAPAN1 | CTRY_JAPAN2
  | CTRY_JAPAN3 | CTRY_JAPAN4 | CTRY_JAPAN5 | CTRY_JAPAN6 | CTRY_JAPAN7
  | CTRY_JAPAN8 | CTRY_JAPAN9 | CTRY_JAPAN10 | CTRY_JAPAN11 | CTRY_JAPAN12
  | CTRY_JAPAN13 | CTRY_JAPAN14 | CTRY_JAPAN15 | CTRY_JAPAN16 | CTRY_JAPAN17
  | CTRY_JAPAN18 | CTRY_JAPAN19 | CTRY_JAPAN20 | CTRY_JAPAN21 | CTRY_JAPAN22
  | CTRY_JAPAN23 | CTRY_JAPAN24 | CTRY_JAPAN25 | CTRY_JAPAN26 | CTRY_JAPAN27
  | CTRY_JAPAN28 | CTRY_JAPAN29 | CTRY_JAPAN30 | CTRY_JAPAN31 | CTRY_JAPAN32
  | CTRY_JAPAN33 | CTRY_JAPAN34 | CTRY_JAPAN35 | CTRY_JAPAN36 | CTRY_JAPAN37
  | CTRY_JAPAN38 | CTRY_JAPAN39 | CTRY_JAPAN40 | CTRY_JAPAN41 | CTRY_JAPAN42
  | CTRY_JAPAN43 | CTRY_JAPAN44 | CTRY_JAPAN45 | CTRY_JAPAN46 | CTRY_JAPAN47
  | CTRY_JAPAN48 | CTRY_JAPAN49 | CTRY_JAPAN50 | CTRY_JAPAN51 | CTRY_JAPAN52
  | CTRY_JAPAN53 | CTRY_JAPAN54 | CTRY_JAPAN55 | CTRY_JAPAN56 | CTRY_JAPAN57
  | CTRY_JAPAN58 | CTRY_JAPAN59 | CTRY_AUSTRALIA2 | CTRY_CANADA2
  | CTRY_BELGIUM2.

Definition CountryCode_val (c : CountryCode) : Z :=
  match c with
  | CTRY_ALBANIA => 8 | CTRY_ALGERIA => 12 | CTRY_ARGENTINA => 32
  | CTRY_ARMENIA => 51 | CTRY_ARUBA => 533 | CTRY_AUSTRALIA => 36
  | CTRY_AUSTRIA => 40 | CTRY_AZERBAIJAN => 31 | CTRY_BAHRAIN => 48
  | CTRY_BANGLADESH => 50 | CTRY_BARBADOS => 52 | CTRY_BELARUS => 112
  | CTRY_BELGIUM => 56 | CTRY_BELIZE => 84 | CTRY_BOLIVIA => 68
  | CTRY_BOSNIA_HERZ => 70 | CTRY_BRAZIL => 76 | CTRY_BRUNEI_DARUSSALAM => 96
  | CTRY_BULGARIA => 100 | CTRY_CAMBODIA => 116 | CTRY_CANADA => 124
  | CTRY_CHILE => 152 | CTRY_CHINA => 156 | CTRY_COLOMBIA => 170
  | CTRY_COSTA_RICA => 188 | CTRY_CROATIA => 191 | CTRY_CYPRUS => 196
  | CTRY_CZECH => 203 | CTRY_DENMARK => 208 | CTRY_DOMINICAN_REPUBLIC => 214
  | CTRY_ECUADOR => 218 | CTRY_EGYPT => 818 | CTRY_EL_SALVADOR => 222
  | CTRY_ESTONIA => 233 | CTRY_FAEROE_ISLANDS => 234 | CTRY_FINLAND => 246
  | CTRY_FRANCE => 250 | CTRY_GEORGIA => 268 | CTRY_GERMANY => 276
  | CTRY_GREECE => 300 | CTRY_GREENLAND => 304 | CTRY_GRENADA => 308
  | CTRY_GUAM => 316 | CTRY_GUATEMALA => 320 | CTRY_HAITI => 332
  | CTRY_HONDURAS => 340 | CTRY_HONG_KONG => 344 | CTRY_HUNGARY => 348
  | CTRY_ICELAND => 352 | CTRY_INDIA => 356 | CTRY_INDONESIA => 360
  | CTRY_IRAN => 364 | CTRY_IRAQ => 368 | CTRY_IRELAND => 372
  | CTRY_ISRAEL => 376 | CTRY_ITALY => 380 | CTRY_JAMAICA => 388
  | CTRY_JAPAN => 392 | CTRY_JORDAN => 400 | CTRY_KAZAKHSTAN => 398
  | CTRY_KENYA => 404 | CTRY_KOREA_NORTH => 408 | CTRY_KOREA_ROC => 410
  | CTRY_KOREA_ROC2 => 411 | CTRY_KOREA_ROC3 => 412 | CTRY_KUWAIT => 414
  | CTRY_LATVIA => 428 | CTRY_LEBANON => 422 | CTRY_LIBYA => 434
  | CTRY_LIECHTENSTEIN => 438 | CTRY_LITHUANIA => 440 | CTRY_LUXEMBOURG => 442
  | CTRY_MACAU => 446 | CTRY_MACEDONIA => 807 | CTRY_MALAYSIA => 458
  | CTRY_MALTA => 470 | CTRY_MEXICO => 484 | CTRY_MONACO => 492
  | CTRY_MOROCCO => 504 | CTRY_NEPAL => 524 | CTRY_NETHERLANDS => 528
  | CTRY_NETHERLANDS_ANTILLES => 530 | CTRY_NEW_ZEALAND => 554
  | CTRY_NICARAGUA => 558 | CTRY_NORWAY => 578 | CTRY_OMAN => 512
  | CTRY_PAKISTAN => 586 | CTRY_PANAMA => 591 | CTRY_PAPUA_NEW_GUINEA => 598
  | CTRY_PARAGUAY => 600 | CTRY_PERU => 604 | CTRY_PHILIPPINES => 608
  | CTRY_POLAND => 616 | CTRY_PORTUGAL => 620 | CTRY_PUERTO_RICO => 630
  | CTRY_QATAR => 634 | CTRY_ROMANIA => 642 | CTRY_RUSSIA => 643
  | CTRY_SAUDI_ARABIA => 682 | CTRY_SERBIA_MONTENEGRO => 891
  | CTRY_SINGAPORE => 702 | CTRY_SLOVAKIA => 703 | CTRY_SLOVENIA => 705
  | CTRY_SOUTH_AFRICA => 710 | CTRY_SPAIN => 724 | CTRY_SRI_LANKA => 144
  | CTRY_SWEDEN => 752 | CTRY_SWITZERLAND => 756 | CTRY_SYRIA => 760
  | CTRY_TAIWAN => 158 | CTRY_THAILAND => 764 | CTRY_TRINIDAD_Y_TOBAGO => 780
  | CTRY_TUNISIA => 788 | CTRY_TURKEY => 792 | CTRY_UAE => 784
  | CTRY_UKRAINE => 804 | CTRY_UNITED_KINGDOM => 826
  | CTRY_UNITED_STATES => 840 | CTRY_UNITED_STATES_FCC49 => 842
  | CTRY_URUGUAY => 858 | CTRY_UZBEKISTAN => 860 | CTRY_VENEZUELA => 862
  | CTRY_VIET_NAM => 704 | CTRY_YEMEN => 887 | CTRY_ZIMBABWE => 716
  | CTRY_JAPAN1 => 393 | CTRY_JAPAN2 => 394 | CTRY_JAPAN3 => 395
  | CTRY_JAPAN4 => 396 | CTRY_JAPAN5 => 397 | CTRY_JAPAN6 => 4006
  | CTRY_JAPAN7 => 4007 | CTRY_JAPAN8 => 4008 | CTRY_JAPAN9 => 4009
  | CTRY_JAPAN10 => 4010 | CTRY_JAPAN11 => 4011 | CTRY_JAPAN12 => 4012
  | CTRY_JAPAN13 => 4013 | CTRY_JAPAN14 => 4014 | CTRY_JAPAN15 => 4015
  | CTRY_JAPAN16 => 4016 | CTRY_JAPAN17 => 4017 | CTRY_JAPAN18 => 4018
  | CTRY_JAPAN19 => 4019 | CTRY_JAPAN20 => 4020 | CTRY_JAPAN21 => 4021
  | CTRY_JAPAN22 => 4022 | CTRY_JAPAN23 => 4023 | CTRY_JAPAN24 => 4024
  | CTRY_JAPAN25 => 4025 | CTRY_JAPAN26 => 4026 | CTRY_JAPAN27 => 4027
  | CTRY_JAPAN28 => 4028 | CTRY_JAPAN29 => 4029 | CTRY_JAPAN30 => 4030
  | CTRY_JAPAN31 => 4031 | CTRY_JAPAN32 => 4032 | CTRY_JAPAN33 => 4033
  | CTRY_JAPAN34 => 4034 | CTRY_JAPAN35 => 4035 | CTRY_JAPAN36 => 4036
  | CTRY_JAPAN37 => 4037 | CTRY_JAPAN38 => 4038 | CTRY_JAPAN39 => 4039
  | CTRY_JAPAN40 => 4040 | CTRY_JAPAN41 => 4041 | CTRY_JAPAN42 => 4042
  | CTRY_JAPAN43 => 4043 | CTRY_JAPAN44 => 4044 | CTRY_JAPAN45 => 4045
  | CTRY_JAPAN46 => 4046 | CTRY_JAPAN47 => 4047 | CTRY_JAPAN48 => 4048
  | CTRY_JAPAN49 => 4049 | CTRY_JAPAN50 => 4050 | CTRY_JAPAN51 => 4051
  | CTRY_JAPAN52 => 4052 | CTRY_JAPAN53 => 4053 | CTRY_JAPAN54 => 4054
  | CTRY_JAPAN55 => 4055 | CTRY_JAPAN56 => 4056 | CTRY_JAPAN57 => 4057
  | CTRY_JAPAN58 => 4058 | CTRY_JAPAN59 => 4059 | CTRY_AUSTRALIA2 => 5000
  | CTRY_CANADA2 => 5001 | CTRY_BELGIUM2 => 5002
  end.
Coercion CountryCode_val : CountryCode >-> Z.

Inductive EnumRd :=
  | NO_ENUMRD | NULL1_WORLD | NULL1_ETSIB | NULL1_ETSIC | FCC1_FCCA
  | FCC1_WORLD | FCC4_FCCA | FCC5_FCCA | FCC6_FCCA | FCC2_FCCA | FCC2_WORLD
  | FCC2_ETSIC | FCC6_WORLD | FRANCE_RES | FCC3_FCCA | FCC3_WORLD
  | ETSI1_WORLD | ETSI3_ETSIA | ETSI2_WORLD | ETSI3_WORLD | ETSI4_WORLD
  | ETSI4_ETSIC | ETSI5_WORLD | ETSI6_WORLD | ETSI_RESERVED | MKK1_MKKA
  | MKK1_MKKB | APL4_WORLD | MKK2_MKKA | APL_RESERVED | APL2_WORLD | APL2_APLC
  | APL3_WORLD | MKK1_FCCA | APL2_APLD | MKK1_MKKA1 | MKK1_MKKA2 | MKK1_MKKC
  | APL3_FCCA | APL1_WORLD | APL1_FCCA | APL1_APLA | APL1_ETSIC | APL2_ETSIC
  | APL5_WORLD | APL6_WORLD | APL7_FCCA | APL8_WORLD | APL9_WORLD | WOR0_WORLD
  | WOR1_WORLD | WOR2_WORLD | WOR3_WORLD | WOR4_WORLD | WOR5_ETSIC
  | WOR01_WORLD | WOR02_WORLD | EU1_WORLD | WOR9_WORLD | WORA_WORLD
  | WORB_WORLD | WORC_WORLD | MKK3_MKKB | MKK3_MKKA2 | MKK3_MKKC | MKK4_MKKB
  | MKK4_MKKA2 | MKK4_MKKC | MKK5_MKKB | MKK5_MKKA2 | MKK5_MKKC | MKK6_MKKB
  | MKK6_MKKA2 | MKK6_MKKC | MKK7_MKKB | MKK7_MKKA2 | MKK7_MKKC | MKK8_MKKB
  | MKK8_MKKA2 | MKK8_MKKC | MKK14_MKKA1 | MKK15_MKKA1 | MKK10_FCCA
  | MKK10_MKKA1 | MKK10_MKKC | MKK10_MKKA2 | MKK11_MKKA | MKK11_FCCA
  | MKK11_MKKA1 | MKK11_MKKC | MKK11_MKKA2 | MKK12_MKKA | MKK12_FCCA
  | MKK12_MKKA1 | MKK12_MKKC | MKK12_MKKA2 | MKK13_MKKB | MKK3_MKKA
  | MKK3_MKKA1 | MKK3_FCCA | MKK4_MKKA | MKK4_MKKA1 | MKK4_FCCA | MKK9_MKKA
  | MKK10_MKKA | MKK6_MKKA1 | MKK6_FCCA | MKK7_MKKA1 | MKK7_FCCA | MKK9_FCCA
  | MKK9_MKKA1 | MKK9_MKKC | MKK9_MKKA2 | WORLD | DEBUG_REG_DMN.

Definition EnumRd_val (c : EnumRd) : Z :=
  match c with
  | NO_ENUMRD => 0x00 | NULL1_WORLD => 0x03 | NULL1_ETSIB => 0x07
  | NULL1_ETSIC => 0x08 | FCC1_FCCA => 0x10 | FCC1_WORLD => 0x11
  | FCC4_FCCA => 0x12 | FCC5_FCCA => 0x13 | FCC6_FCCA => 0x14
  | FCC2_FCCA => 0x20 | FCC2_WORLD => 0x21 | FCC2_ETSIC => 0x22
  | FCC6_WORLD => 0x23 | FRANCE_RES => 0x31 | FCC3_FCCA => 0x3A
  | FCC3_WORLD => 0x3B | ETSI1_WORLD => 0x37 | ETSI3_ETSIA => 0x32
  | ETSI2_WORLD => 0x35 | ETSI3_WORLD => 0x36 | ETSI4_WORLD => 0x30
  | ETSI4_ETSIC => 0x38 | ETSI5_WORLD => 0x39 | ETSI6_WORLD => 0x34
  | ETSI_RESERVED => 0x33 | MKK1_MKKA => 0x40 | MKK1_MKKB => 0x41
  | APL4_WORLD => 0x42 | MKK2_MKKA => 0x43 | APL_RESERVED => 0x44
  | APL2_WORLD => 0x45 | APL2_APLC => 0x46 | APL3_WORLD => 0x47
  | MKK1_FCCA => 0x48 | APL2_APLD => 0x49 | MKK1_MKKA1 => 0x4A
  | MKK1_MKKA2 => 0x4B | MKK1_MKKC => 0x4C | APL3_FCCA => 0x50
  | APL1_WORLD => 0x52 | APL1_FCCA => 0x53 | APL1_APLA => 0x54
  | APL1_ETSIC => 0x55 | APL2_ETSIC => 0x56 | APL5_WORLD => 0x58
  | APL6_WORLD => 0x5B | APL7_FCCA => 0x5C | APL8_WORLD => 0x5D
  | APL9_WORLD => 0x5E | WOR0_WORLD => 0x60 | WOR1_WORLD => 0x61
  | WOR2_WORLD => 0x62 | WOR3_WORLD => 0x63 | WOR4_WORLD => 0x64
  | WOR5_ETSIC => 0x65 | WOR01_WORLD => 0x66 | WOR02_WORLD => 0x67
  | EU1_WORLD => 0x68 | WOR9_WORLD => 0x69 | WORA_WORLD => 0x6A
  | WORB_WORLD => 0x6B | WORC_WORLD => 0x6C | MKK3_MKKB => 0x80
  | MKK3_MKKA2 => 0x81 | MKK3_MKKC => 0x82 | MKK4_MKKB => 0x83
  | MKK4_MKKA2 => 0x84 | MKK4_MKKC => 0x85 | MKK5_MKKB => 0x86
  | MKK5_MKKA2 => 0x87 | MKK5_MKKC => 0x88 | MKK6_MKKB => 0x89
  | MKK6_MKKA2 => 0x8A | MKK6_MKKC => 0x8B | MKK7_MKKB => 0x8C
  | MKK7_MKKA2 => 0x8D | MKK7_MKKC => 0x8E | MKK8_MKKB => 0x8F
  | MKK8_MKKA2 => 0x90 | MKK8_MKKC => 0x91 | MKK14_MKKA1 => 0x92
  | MKK15_MKKA1 => 0x93 | MKK10_FCCA => 0xD0 | MKK10_MKKA1 => 0xD1
  | MKK10_MKKC => 0xD2 | MKK10_MKKA2 => 0xD3 | MKK11_MKKA => 0xD4
  | MKK11_FCCA => 0xD5 | MKK11_MKKA1 => 0xD6 | MKK11_MKKC => 0xD7
  | MKK11_MKKA2 => 0xD8 | MKK12_MKKA => 0xD9 | MKK12_FCCA => 0xDA
  | MKK12_MKKA1 => 0xDB | MKK12_MKKC => 0xDC | MKK12_MKKA2 => 0xDD
  | MKK13_MKKB => 0xDE | MKK3_MKKA => 0xF0 | MKK3_MKKA1 => 0xF1
  | MKK3_FCCA => 0xF2 | MKK4_MKKA => 0xF3 | MKK4_MKKA1 => 0xF4
  | MKK4_FCCA => 0xF5 | MKK9_MKKA => 0xF6 | MKK10_MKKA => 0xF7
  | MKK6_MKKA1 => 0xF8 | MKK6_FCCA => 0xF9 | MKK7_MKKA1 => 0xFA
  | MKK7_FCCA => 0xFB | MKK9_FCCA => 0xFC | MKK9_MKKA1 => 0xFD
  | MKK9_MKKC => 0xFE | MKK9_MKKA2 => 0xFF | WORLD => 0x0199
  | DEBUG_REG_DMN => 0x01ff
  end.
Coercion EnumRd_val : EnumRd >-> Z.

(** * Tables *)

Record reg_dmn_pair_mapping := {
  reg_domain : Z;    (* u16 *)
  reg_5ghz_ctl : Z;  (* u16 *)
  reg_2ghz_ctl : Z;  (* u16 *)
}.

Record country_code_to_enum_rd := {
  countryCode : Z;   (* u16 *)
  regDmnEnum : Z;    (* u16 *)
  isoName : string;
}.

Definition regpair_of (rd a b : Z) : reg_dmn_pair_mapping :=
  {| reg_domain := rd; reg_5ghz_ctl := a; reg_2ghz_ctl := b |}.

Definition country_of (cc rd : Z) (iso : string) : country_code_to_enum_rd :=
  {| countryCode := cc; regDmnEnum := rd; isoName := iso |}.

(** The first entry is the regulatory domain pair, then the 5 GHz and the 2 GHz
    conformance test limits. *)
Definition regDomainPairs : list reg_dmn_pair_mapping := [
  regpair_of NO_ENUMRD DEBUG_REG_DMN DEBUG_REG_DMN;
  regpair_of NULL1_WORLD NO_CTL CTL_ETSI;
  regpair_of NULL1_ETSIB NO_CTL CTL_ETSI;
  regpair_of NULL1_ETSIC NO_CTL CTL_ETSI;
  regpair_of FCC2_FCCA CTL_FCC CTL_FCC;
  regpair_of FCC2_WORLD CTL_FCC CTL_ETSI;
  regpair_of FCC2_ETSIC CTL_FCC CTL_ETSI;
  regpair_of FCC3_FCCA CTL_FCC CTL_FCC;
  regpair_of FCC3_WORLD CTL_FCC CTL_ETSI;
  regpair_of FCC4_FCCA CTL_FCC CTL_FCC;
  regpair_of FCC5_FCCA CTL_FCC CTL_FCC;
  regpair_of FCC6_FCCA CTL_FCC CTL_FCC;
  regpair_of FCC6_WORLD CTL_FCC CTL_ETSI;
  regpair_of ETSI1_WORLD CTL_ETSI CTL_ETSI;
  regpair_of ETSI2_WORLD CTL_ETSI CTL_ETSI;
  regpair_of ETSI3_WORLD CTL_ETSI CTL_ETSI;
  regpair_of ETSI4_WORLD CTL_ETSI CTL_ETSI;
  regpair_of ETSI5_WORLD CTL_ETSI CTL_ETSI;
  regpair_of ETSI6_WORLD CTL_ETSI CTL_ETSI;
  regpair_of ETSI3_ETSIA CTL_ETSI CTL_ETSI;
  regpair_of FRANCE_RES CTL_ETSI CTL_ETSI;
  regpair_of FCC1_WORLD CTL_FCC CTL_ETSI;
  regpair_of FCC1_FCCA CTL_FCC CTL_FCC;
  regpair_of APL1_WORLD CTL_FCC CTL_ETSI;
  regpair_of APL2_WORLD CTL_FCC CTL_ETSI;
  regpair_of APL3_WORLD CTL_FCC CTL_ETSI;
  regpair_of APL4_WORLD CTL_FCC CTL_ETSI;
  regpair_of APL5_WORLD CTL_FCC CTL_ETSI;
  regpair_of APL6_WORLD CTL_ETSI CTL_ETSI;
  regpair_of APL8_WORLD CTL_ETSI CTL_ETSI;
  regpair_of APL9_WORLD CTL_ETSI CTL_ETSI;
  regpair_of APL3_FCCA CTL_FCC CTL_FCC;
  regpair_of APL7_FCCA CTL_FCC CTL_FCC;
  regpair_of APL1_ETSIC CTL_FCC CTL_ETSI;
  regpair_of APL2_ETSIC CTL_FCC CTL_ETSI;
  regpair_of APL2_APLD CTL_FCC NO_CTL;
  regpair_of MKK1_MKKA CTL_MKK CTL_MKK;
  regpair_of MKK1_MKKB CTL_MKK CTL_MKK;
  regpair_of MKK1_FCCA CTL_MKK CTL_FCC;
  regpair_of MKK1_MKKA1 CTL_MKK CTL_MKK;
  regpair_of MKK1_MKKA2 CTL_MKK CTL_MKK;
  regpair_of MKK1_MKKC CTL_MKK CTL_MKK;
  regpair_of MKK2_MKKA CTL_MKK CTL_MKK;
  regpair_of MKK3_MKKA CTL_MKK CTL_MKK;
  regpair_of MKK3_MKKB CTL_MKK CTL_MKK;
  regpair_of MKK3_MKKA1 CTL_MKK CTL_MKK;
  regpair_of MKK3_MKKA2 CTL_MKK CTL_MKK;
  regpair_of MKK3_MKKC CTL_MKK CTL_MKK;
  regpair_of MKK3_FCCA CTL_MKK CTL_FCC;
  regpair_of MKK4_MKKA CTL_MKK CTL_MKK;
  regpair_of MKK4_MKKB CTL_MKK CTL_MKK;
  regpair_of MKK4_MKKA1 CTL_MKK CTL_MKK;
  regpair_of MKK4_MKKA2 CTL_MKK CTL_MKK;
  regpair_of MKK4_MKKC CTL_MKK CTL_MKK;
  regpair_of MKK4_FCCA CTL_MKK CTL_FCC;
  regpair_of MKK5_MKKB CTL_MKK CTL_MKK;
  regpair_of MKK5_MKKA2 CTL_MKK CTL_MKK;
  regpair_of MKK5_MKKC CTL_MKK CTL_MKK;
  regpair_of MKK6_MKKB CTL_MKK CTL_MKK;
  regpair_of MKK6_MKKA1 CTL_MKK CTL_MKK;
  regpair_of MKK6_MKKA2 CTL_MKK CTL_MKK;
  regpair_of MKK6_MKKC CTL_MKK CTL_MKK;
  regpair_of MKK6_FCCA CTL_MKK CTL_FCC;
  regpair_of MKK7_MKKB CTL_MKK CTL_MKK;
  regpair_of MKK7_MKKA1 CTL_MKK CTL_MKK;
  regpair_of MKK7_MKKA2 CTL_MKK CTL_MKK;
  regpair_of MKK7_MKKC CTL_MKK CTL_MKK;
  regpair_of MKK7_FCCA CTL_MKK CTL_FCC;
  regpair_of MKK8_MKKB CTL_MKK CTL_MKK;
  regpair_of MKK8_MKKA2 CTL_MKK CTL_MKK;
  regpair_of MKK8_MKKC CTL_MKK CTL_MKK;
  regpair_of MKK9_MKKA CTL_MKK CTL_MKK;
  regpair_of MKK9_FCCA CTL_MKK CTL_FCC;
  regpair_of MKK9_MKKA1 CTL_MKK CTL_MKK;
  regpair_of MKK9_MKKA2 CTL_MKK CTL_MKK;
  regpair_of MKK9_MKKC CTL_MKK CTL_MKK;
  regpair_of MKK10_MKKA CTL_MKK CTL_MKK;
  regpair_of MKK10_FCCA CTL_MKK CTL_FCC;
  regpair_of MKK10_MKKA1 CTL_MKK CTL_MKK;
  regpair_of MKK10_MKKA2 CTL_MKK CTL_MKK;
  regpair_of MKK10_MKKC CTL_MKK CTL_MKK;
  regpair_of MKK11_MKKA CTL_MKK CTL_MKK;
  regpair_of MKK11_FCCA CTL_MKK CTL_FCC;
  regpair_of MKK11_MKKA1 CTL_MKK CTL_MKK;
  regpair_of MKK11_MKKA2 CTL_MKK CTL_MKK;
  regpair_of MKK11_MKKC CTL_MKK CTL_MKK;
  regpair_of MKK12_MKKA CTL_MKK CTL_MKK;
  regpair_of MKK12_FCCA CTL_MKK CTL_FCC;
  regpair_of MKK12_MKKA1 CTL_MKK CTL_MKK;
  regpair_of MKK12_MKKA2 CTL_MKK CTL_MKK;
  regpair_of MKK12_MKKC CTL_MKK CTL_MKK;
  regpair_of MKK13_MKKB CTL_MKK CTL_MKK;
  regpair_of MKK14_MKKA1 CTL_MKK CTL_MKK;
  regpair_of MKK15_MKKA1 CTL_MKK CTL_MKK;
  regpair_of WOR0_WORLD NO_CTL NO_CTL;
  regpair_of WOR1_WORLD NO_CTL NO_CTL;
  regpair_of WOR2_WORLD NO_CTL NO_CTL;
  regpair_of WOR3_WORLD NO_CTL NO_CTL;
  regpair_of WOR4_WORLD NO_CTL NO_CTL;
  regpair_of WOR5_ETSIC NO_CTL NO_CTL;
  regpair_of WOR01_WORLD NO_CTL NO_CTL;
  regpair_of WOR02_WORLD NO_CTL NO_CTL;
  regpair_of EU1_WORLD NO_CTL NO_CTL;
  regpair_of WOR9_WORLD NO_CTL NO_CTL;
  regpair_of WORA_WORLD NO_CTL NO_CTL;
  regpair_of WORB_WORLD NO_CTL NO_CTL;
  regpair_of WORC_WORLD NO_CTL NO_CTL ].

(** The table of countries, in two parts. *)
Definition allCountries_head : list country_code_to_enum_rd := [
  country_of CTRY_DEBUG NO_ENUMRD "DB";
  country_of CTRY_DEFAULT FCC1_FCCA "CO";
  country_of CTRY_ALBANIA NULL1_WORLD "AL";
  country_of CTRY_ALGERIA NULL1_WORLD "DZ";
  country_of CTRY_ARGENTINA FCC3_WORLD "AR";
  country_of CTRY_ARMENIA ETSI4_WORLD "AM";
  country_of CTRY_ARUBA ETSI1_WORLD "AW";
  country_of CTRY_AUSTRALIA FCC2_WORLD "AU";
  country_of CTRY_AUSTRALIA2 FCC6_WORLD "AU";
  country_of CTRY_AUSTRIA ETSI1_WORLD "AT";
  country_of CTRY_AZERBAIJAN ETSI4_WORLD "AZ";
  country_of CTRY_BAHRAIN APL6_WORLD "BH";
  country_of CTRY_BANGLADESH NULL1_WORLD "BD";
  country_of CTRY_BARBADOS FCC2_WORLD "BB";
  country_of CTRY_BELARUS ETSI1_WORLD "BY";
  country_of CTRY_BELGIUM ETSI1_WORLD "BE";
  country_of CTRY_BELGIUM2 ETSI4_WORLD "BL";
  country_of CTRY_BELIZE APL1_ETSIC "BZ";
  country_of CTRY_BOLIVIA APL1_ETSIC "BO";
  country_of CTRY_BOSNIA_HERZ ETSI1_WORLD "BA";
  country_of CTRY_BRAZIL FCC3_WORLD "BR";
  country_of CTRY_BRUNEI_DARUSSALAM APL1_WORLD "BN";
  country_of CTRY_BULGARIA ETSI6_WORLD "BG";
  country_of CTRY_CAMBODIA ETSI1_WORLD "KH";
  country_of CTRY_CANADA FCC3_FCCA "CA";
  country_of CTRY_CANADA2 FCC6_FCCA "CA";
  country_of CTRY_CHILE APL6_WORLD "CL";
  country_of CTRY_CHINA APL1_WORLD "CN";
  country_of CTRY_COLOMBIA FCC1_FCCA "CO";
  country_of CTRY_COSTA_RICA FCC1_WORLD "CR";
  country_of CTRY_CROATIA ETSI1_WORLD "HR";
  country_of CTRY_CYPRUS ETSI1_WORLD "CY";
  country_of CTRY_CZECH ETSI3_WORLD "CZ";
  country_of CTRY_DENMARK ETSI1_WORLD "DK";
  country_of CTRY_DOMINICAN_REPUBLIC FCC1_FCCA "DO";
  country_of CTRY_ECUADOR FCC1_WORLD "EC";
  country_of CTRY_EGYPT ETSI3_WORLD "EG";
  country_of CTRY_EL_SALVADOR FCC1_WORLD "SV";
  country_of CTRY_ESTONIA ETSI1_WORLD "EE";
  country_of CTRY_FINLAND ETSI1_WORLD "FI";
  country_of CTRY_FRANCE ETSI1_WORLD "FR";
  country_of CTRY_GEORGIA ETSI4_WORLD "GE";
  country_of CTRY_GERMANY ETSI1_WORLD "DE";
  country_of CTRY_GREECE ETSI1_WORLD "GR";
  country_of CTRY_GREENLAND ETSI1_WORLD "GL";
  country_of CTRY_GRENADA FCC3_FCCA "GD";
  country_of CTRY_GUAM FCC1_FCCA "GU";
  country_of CTRY_GUATEMALA FCC1_FCCA "GT";
  country_of CTRY_HAITI ETSI1_WORLD "HT";
  country_of CTRY_HONDURAS NULL1_WORLD "HN";
  country_of CTRY_HONG_KONG FCC3_WORLD "HK";
  country_of CTRY_HUNGARY ETSI1_WORLD "HU";
  country_of CTRY_ICELAND ETSI1_WORLD "IS";
  country_of CTRY_INDIA APL6_WORLD "IN";
  country_of CTRY_INDONESIA NULL1_WORLD "ID";
  country_of CTRY_IRAN APL1_WORLD "IR";
  country_of CTRY_IRELAND ETSI1_WORLD "IE";
  country_of CTRY_ISRAEL NULL1_WORLD "IL";
  country_of CTRY_ITALY ETSI1_WORLD "IT";
  country_of CTRY_JAMAICA FCC3_WORLD "JM" ].

Definition allCountries_tail : list country_code_to_enum_rd := [
  country_of CTRY_JAPAN MKK1_MKKA "JP";
  country_of CTRY_JAPAN1 MKK1_MKKB "JP";
  country_of CTRY_JAPAN2 MKK1_FCCA "JP";
  country_of CTRY_JAPAN3 MKK2_MKKA "JP";
  country_of CTRY_JAPAN4 MKK1_MKKA1 "JP";
  country_of CTRY_JAPAN5 MKK1_MKKA2 "JP";
  country_of CTRY_JAPAN6 MKK1_MKKC "JP";
  country_of CTRY_JAPAN7 MKK3_MKKB "JP";
  country_of CTRY_JAPAN8 MKK3_MKKA2 "JP";
  country_of CTRY_JAPAN9 MKK3_MKKC "JP";
  country_of CTRY_JAPAN10 MKK4_MKKB "JP";
  country_of CTRY_JAPAN11 MKK4_MKKA2 "JP";
  country_of CTRY_JAPAN12 MKK4_MKKC "JP";
  country_of CTRY_JAPAN13 MKK5_MKKB "JP";
  country_of CTRY_JAPAN14 MKK5_MKKA2 "JP";
  country_of CTRY_JAPAN15 MKK5_MKKC "JP";
  country_of CTRY_JAPAN16 MKK6_MKKB "JP";
  country_of CTRY_JAPAN17 MKK6_MKKA2 "JP";
  country_of CTRY_JAPAN18 MKK6_MKKC "JP";
  country_of CTRY_JAPAN19 MKK7_MKKB "JP";
  country_of CTRY_JAPAN20 MKK7_MKKA2 "JP";
  country_of CTRY_JAPAN21 MKK7_MKKC "JP";
  country_of CTRY_JAPAN22 MKK8_MKKB "JP";
  country_of CTRY_JAPAN23 MKK8_MKKA2 "JP";
  country_of CTRY_JAPAN24 MKK8_MKKC "JP";
  country_of CTRY_JAPAN25 MKK3_MKKA "JP";
  country_of CTRY_JAPAN26 MKK3_MKKA1 "JP";
  country_of CTRY_JAPAN27 MKK3_FCCA "JP";
  country_of CTRY_JAPAN28 MKK4_MKKA1 "JP";
  country_of CTRY_JAPAN29 MKK4_FCCA "JP";
  country_of CTRY_JAPAN30 MKK6_MKKA1 "JP";
  country_of CTRY_JAPAN31 MKK6_FCCA "JP";
  country_of CTRY_JAPAN32 MKK7_MKKA1 "JP";
  country_of CTRY_JAPAN33 MKK7_FCCA "JP";
  country_of CTRY_JAPAN34 MKK9_MKKA "JP";
  country_of CTRY_JAPAN35 MKK10_MKKA "JP";
  country_of CTRY_JAPAN36 MKK4_MKKA "JP";
  country_of CTRY_JAPAN37 MKK9_FCCA "JP";
  country_of CTRY_JAPAN38 MKK9_MKKA1 "JP";
  country_of CTRY_JAPAN39 MKK9_MKKC "JP";
  country_of CTRY_JAPAN40 MKK9_MKKA2 "JP";
  country_of CTRY_JAPAN41 MKK10_FCCA "JP";
  country_of CTRY_JAPAN42 MKK10_MKKA1 "JP";
  country_of CTRY_JAPAN43 MKK10_MKKC "JP";
  country_of CTRY_JAPAN44 MKK10_MKKA2 "JP";
  country_of CTRY_JAPAN45 MKK11_MKKA "JP";
  country_of CTRY_JAPAN46 MKK11_FCCA "JP";
  country_of CTRY_JAPAN47 MKK11_MKKA1 "JP";
  country_of CTRY_JAPAN48 MKK11_MKKC "JP";
  country_of CTRY_JAPAN49 MKK11_MKKA2 "JP";
  country_of CTRY_JAPAN50 MKK12_MKKA "JP";
  country_of CTRY_JAPAN51 MKK12_FCCA "JP";
  country_of CTRY_JAPAN52 MKK12_MKKA1 "JP";
  country_of CTRY_JAPAN53 MKK12_MKKC "JP";
  country_of CTRY_JAPAN54 MKK12_MKKA2 "JP";
  country_of CTRY_JAPAN57 MKK13_MKKB "JP";
  country_of CTRY_JAPAN58 MKK14_MKKA1 "JP";
  country_of CTRY_JAPAN59 MKK15_MKKA1 "JP";
  country_of CTRY_JORDAN ETSI2_WORLD "JO";
  country_of CTRY_KAZAKHSTAN NULL1_WORLD "KZ";
  country_of CTRY_KOREA_NORTH APL9_WORLD "KP";
  country_of CTRY_KOREA_ROC APL9_WORLD "KR";
  country_of CTRY_KOREA_ROC2 APL2_WORLD "K2";
  country_of CTRY_KOREA_ROC3 APL9_WORLD "K3";
  country_of CTRY_KUWAIT ETSI3_WORLD "KW";
  country_of CTRY_LATVIA ETSI1_WORLD "LV";
  country_of CTRY_LEBANON NULL1_WORLD "LB";
  country_of CTRY_LIECHTENSTEIN ETSI1_WORLD "LI";
  country_of CTRY_LITHUANIA ETSI1_WORLD "LT";
  country_of CTRY_LUXEMBOURG ETSI1_WORLD "LU";
  country_of CTRY_MACAU FCC2_WORLD "MO";
  country_of CTRY_MACEDONIA NULL1_WORLD "MK";
  country_of CTRY_MALAYSIA APL8_WORLD "MY";
  country_of CTRY_MALTA ETSI1_WORLD "MT";
  country_of CTRY_MEXICO FCC1_FCCA "MX";
  country_of CTRY_MONACO ETSI4_WORLD "MC";
  country_of CTRY_MOROCCO APL4_WORLD "MA";
  country_of CTRY_NEPAL APL1_WORLD "NP";
  country_of CTRY_NETHERLANDS ETSI1_WORLD "NL";
  country_of CTRY_NETHERLANDS_ANTILLES ETSI1_WORLD "AN";
  country_of CTRY_NEW_ZEALAND FCC2_ETSIC "NZ";
  country_of CTRY_NORWAY ETSI1_WORLD "NO";
  country_of CTRY_OMAN FCC3_WORLD "OM";
  country_of CTRY_PAKISTAN NULL1_WORLD "PK";
  country_of CTRY_PANAMA FCC1_FCCA "PA";
  country_of CTRY_PAPUA_NEW_GUINEA FCC1_WORLD "PG";
  country_of CTRY_PERU APL1_WORLD "PE";
  country_of CTRY_PHILIPPINES APL1_WORLD "PH";
  country_of CTRY_POLAND ETSI1_WORLD "PL";
  country_of CTRY_PORTUGAL ETSI1_WORLD "PT";
  country_of CTRY_PUERTO_RICO FCC1_FCCA "PR";
  country_of CTRY_QATAR APL1_WORLD "QA";
  country_of CTRY_ROMANIA NULL1_WORLD "RO";
  country_of CTRY_RUSSIA NULL1_WORLD "RU";
  country_of CTRY_SAUDI_ARABIA NULL1_WORLD "SA";
  country_of CTRY_SERBIA_MONTENEGRO ETSI1_WORLD "CS";
  country_of CTRY_SINGAPORE APL6_WORLD "SG";
  country_of CTRY_SLOVAKIA ETSI1_WORLD "SK";
  country_of CTRY_SLOVENIA ETSI1_WORLD "SI";
  country_of CTRY_SOUTH_AFRICA FCC3_WORLD "ZA";
  country_of CTRY_SPAIN ETSI1_WORLD "ES";
  country_of CTRY_SRI_LANKA FCC3_WORLD "LK";
  country_of CTRY_SWEDEN ETSI1_WORLD "SE";
  country_of CTRY_SWITZERLAND ETSI1_WORLD "CH";
  country_of CTRY_SYRIA NULL1_WORLD "SY";
  country_of CTRY_TAIWAN APL3_FCCA "TW";
  country_of CTRY_THAILAND FCC3_WORLD "TH";
  country_of CTRY_TRINIDAD_Y_TOBAGO FCC3_WORLD "TT";
  country_of CTRY_TUNISIA ETSI3_WORLD "TN";
  country_of CTRY_TURKEY ETSI3_WORLD "TR";
  country_of CTRY_UKRAINE NULL1_WORLD "UA";
  country_of CTRY_UAE NULL1_WORLD "AE";
  country_of CTRY_UNITED_KINGDOM ETSI1_WORLD "GB";
  country_of CTRY_UNITED_STATES FCC3_FCCA "US";
  country_of CTRY_UNITED_STATES_FCC49 FCC4_FCCA "PS";
  country_of CTRY_URUGUAY FCC3_WORLD "UY";
  country_of CTRY_UZBEKISTAN FCC3_FCCA "UZ";
  country_of CTRY_VENEZUELA APL2_ETSIC "VE";
  country_of CTRY_VIET_NAM NULL1_WORLD "VN";
  country_of CTRY_YEMEN NULL1_WORLD "YE";
  country_of CTRY_ZIMBABWE NULL1_WORLD "ZW" ].

Definition allCountries : list country_code_to_enum_rd :=
  allCountries_head ++ allCountries_tail.
