(* ===== verification/Regd.v ===== *)
(** Regulatory domain handling (src/real/ath/regd.c): from the EEPROM code to
    a regulatory domain pair and a country, the custom world domains, and the
    flags the driver puts on the channels of a wiphy when cfg80211 reports a
    regulatory change.

    cfg80211 itself is not part of the repository: the class [Cfg80211] lists
    the functions of it that the driver calls, [Cfg80211Laws] what their
    documentation promises about the channels they touch. *)

From S2P Require Import Prelude RegdTables.
#[local] Open Scope Z_scope.

(** * cfg80211 data *)

(** Flag values of the Linux headers. *)
Definition IEEE80211_CHAN_DISABLED : Z := 1.
Definition IEEE80211_CHAN_NO_IR : Z := 2.
Definition IEEE80211_CHAN_RADAR : Z := 8.
Definition NL80211_RRF_NO_OFDM : Z := 1.
Definition NL80211_RRF_NO_IR : Z := 128.
Definition REGULATORY_CUSTOM_REG : Z := 1.
Definition REGULATORY_STRICT_REG : Z := 2.
Definition REGULATORY_COUNTRY_IE_FOLLOW_POWER : Z := 8.
Definition IEEE80211_BAND_2GHZ : nat := 0.
Definition IEEE80211_BAND_5GHZ : nat := 1.
Definition IEEE80211_NUM_BANDS : nat := 3.
Definition EINVAL : Z := 22.

Record ieee80211_channel := {
  center_freq : Z;      (* u16, MHz *)
  ch_flags : Z;         (* u32 *)
  beacon_found : bool;
}.
#[export] Instance eta_ieee80211_channel : Eta ieee80211_channel := fun r =>
  Build_ieee80211_channel (center_freq r) (ch_flags r) (beacon_found r).

(** [bands] has one entry per band, [None] for a null pointer. *)
Record wiphy := {
  bands : list (option (list ieee80211_channel));
  regulatory_flags : Z;
  reg_notifier : Z;     (* the registered callback *)
}.
#[export] Instance eta_wiphy : Eta wiphy := fun r =>
  Build_wiphy (bands r) (regulatory_flags r) (reg_notifier r).

(** The arguments of [REG_RULE]: MHz, dBi, dBm. *)
Record ieee80211_reg_rule := REG_RULE {
  rr_start : Z; rr_end : Z; rr_bw : Z; rr_gain : Z; rr_eirp : Z; rr_flags : Z;
}.

Record ieee80211_regdomain := {
  n_reg_rules : Z;
  rd_alpha2 : string;
  reg_rules : list ieee80211_reg_rule;
}.

Inductive nl80211_reg_initiator := NL80211_REGDOM_SET_BY_CORE
  | NL80211_REGDOM_SET_BY_USER | NL80211_REGDOM_SET_BY_DRIVER
  | NL80211_REGDOM_SET_BY_COUNTRY_IE.
#[export] Instance initiator_eq_dec : EqDecision nl80211_reg_initiator.
Proof. solve_decision. Defined.

Record regulatory_request := {
  rq_initiator : nl80211_reg_initiator;
  rq_alpha2 : Ascii.ascii * Ascii.ascii;
  rq_dfs_region : nl80211_dfs_regions;
}.

Definition chan_at (w : wiphy) (b i : nat) : option ieee80211_channel :=
  match bands w !! b with
  | Some (Some chans) => chans !! i
  | _ => None
  end.

Definition set_chan (w : wiphy) (b i : nat) (ch : ieee80211_channel) : wiphy :=
  w <| bands ::= alter (fmap (M := option) (<[i := ch]>)) b |>.

(** The functions of cfg80211 and the configuration symbols the file uses:
    the flags of the rule that applies to a frequency in kHz ([None] for an
    error pointer), the position of the channel with a centre frequency, and
    the application of a custom domain to the channels. *)
Class Cfg80211 := {
  freq_reg_info : wiphy -> Z -> option Z;
  ieee80211_get_channel : wiphy -> Z -> option (nat * nat);
  wiphy_apply_custom_regulatory : wiphy -> ieee80211_regdomain -> wiphy;
  CONFIG_ATH_REG_DYNAMIC_USER_CERT_TESTING : bool;
  CONFIG_ATH_REG_DYNAMIC_USER_REG_HINTS : bool;
}.

(** [ieee80211_get_channel] returns a channel with the frequency asked for. *)
Class Cfg80211Laws `{Cfg80211} : Prop :=
  get_channel_freq : forall w f b i ch,
    ieee80211_get_channel w f = Some (b, i) -> chan_at w b i = Some ch -> center_freq ch = f.

(** * Driver data *)

Record ath_regulatory := {
  alpha2 : Ascii.ascii * Ascii.ascii;
  region : nl80211_dfs_regions;
  country_code : Z;       (* u16 *)
  max_power_level : Z;    (* u16 *)
  current_rd : Z;         (* u16 *)
  power_limit : Z;        (* int16_t *)
  regpair : option reg_dmn_pair_mapping;
}.
#[export] Instance eta_ath_regulatory : Eta ath_regulatory := fun r =>
  Build_ath_regulatory (alpha2 r) (region r) (country_code r) (max_power_level r)
    (current_rd r) (power_limit r) (regpair r).

(** The two regulatory fields of [struct ath_common]. *)
Record ath_common_reg := {
  regulatory : ath_regulatory;
  reg_world_copy : ath_regulatory;
}.
#[export] Instance eta_ath_common_reg : Eta ath_common_reg := fun r =>
  Build_ath_common_reg (regulatory r) (reg_world_copy r).

(** * World domains *)

Definition ATH9K_2GHZ_CH01_11 := REG_RULE (2412-10) (2462+10) 40 0 20 0.
Definition ATH9K_2GHZ_CH12_13 := REG_RULE (2467-10) (2472+10) 40 0 20 NL80211_RRF_NO_IR.
Definition ATH9K_2GHZ_CH14 := REG_RULE (2484-10) (2484+10) 40 0 20
  (NL80211_RRF_NO_IR .| NL80211_RRF_NO_OFDM).
Definition ATH9K_5GHZ_5150_5350 := REG_RULE (5150-10) (5350+10) 80 0 30 NL80211_RRF_NO_IR.
Definition ATH9K_5GHZ_5470_5925 := REG_RULE (5470-10) (5925+10) 80 0 30 NL80211_RRF_NO_IR.
Definition ATH9K_5GHZ_5725_5925 := REG_RULE (5725-10) (5925+10) 80 0 30 NL80211_RRF_NO_IR.
Definition ATH9K_2GHZ_ALL := [ATH9K_2GHZ_CH01_11; ATH9K_2GHZ_CH12_13; ATH9K_2GHZ_CH14].
Definition ATH9K_5GHZ_ALL := [ATH9K_5GHZ_5150_5350; ATH9K_5GHZ_5470_5925].
Definition ATH9K_5GHZ_NO_MIDBAND := [ATH9K_5GHZ_5150_5350; ATH9K_5GHZ_5725_5925].

Definition ath_world_regdom_60_61_62 : ieee80211_regdomain :=
  {| n_reg_rules := 5; rd_alpha2 := "99"; reg_rules := ATH9K_2GHZ_ALL ++ ATH9K_5GHZ_ALL |}.
Definition ath_world_regdom_63_65 : ieee80211_regdomain :=
  {| n_reg_rules := 4; rd_alpha2 := "99";
     reg_rules := ATH9K_2GHZ_CH01_11 :: ATH9K_2GHZ_CH12_13 :: ATH9K_5GHZ_NO_MIDBAND |}.
Definition ath_world_regdom_64 : ieee80211_regdomain :=
  {| n_reg_rules := 3; rd_alpha2 := "99";
     reg_rules := ATH9K_2GHZ_CH01_11 :: ATH9K_5GHZ_NO_MIDBAND |}.
Definition ath_world_regdom_66_69 : ieee80211_regdomain :=
  {| n_reg_rules := 3; rd_alpha2 := "99"; reg_rules := ATH9K_2GHZ_CH01_11 :: ATH9K_5GHZ_ALL |}.
Definition ath_world_regdom_67_68_6A_6C : ieee80211_regdomain :=
  {| n_reg_rules := 4; rd_alpha2 := "99";
     reg_rules := ATH9K_2GHZ_CH01_11 :: ATH9K_2GHZ_CH12_13 :: ATH9K_5GHZ_ALL |}.

(** * Country and domain codes *)

Definition is_wwr_sku (regd : Z) : bool :=
  negb (regd .& COUNTRY_ERD_FLAG =? COUNTRY_ERD_FLAG) &&
  ((regd .& WORLD_SKU_MASK =? WORLD_SKU_PREFIX) || (regd =? WORLD)).

Definition ath_regd_get_eepromRD (reg : ath_regulatory) : Z :=
  clr (current_rd reg) WORLDWIDE_ROAMING_FLAG.

Definition ath_is_world_regd (reg : ath_regulatory) : bool :=
  is_wwr_sku (ath_regd_get_eepromRD reg).

Definition ath_default_world_regdomain : ieee80211_regdomain := ath_world_regdom_64.

(** The [switch] on the domain; the [default] branch warns. *)
Definition ath_world_regdomain (reg : ath_regulatory) : outcome ieee80211_regdomain :=
  match regpair reg with
  | None => Oops
  | Some rp =>
      let d := reg_domain rp in
      Ok (if (d =? 0x60) || (d =? 0x61) || (d =? 0x62) then ath_world_regdom_60_61_62
          else if (d =? 0x63) || (d =? 0x65) then ath_world_regdom_63_65
          else if d =? 0x64 then ath_world_regdom_64
          else if (d =? 0x66) || (d =? 0x69) then ath_world_regdom_66_69
          else if (d =? 0x67) || (d =? 0x68) || (d =? 0x6A) || (d =? 0x6C)
          then ath_world_regdom_67_68_6A_6C
          else ath_default_world_regdomain)
  end.

Definition ath_is_49ghz_allowed (regdomain : Z) : bool := regdomain =? MKK9_MKKC.

Definition ath_is_radar_freq (freq : Z) : bool := (5260 <=? freq) && (freq <=? 5700).

(** [memcmp(isoName, alpha2, 2) == 0] *)
Definition iso_eqb (iso : string) (a : Ascii.ascii * Ascii.ascii) : bool :=
  match iso with
  | String c1 (String c2 _) => bool_decide (c1 = fst a) && bool_decide (c2 = snd a)
  | _ => false
  end.

Definition ath_regd_find_country_by_name (a : Ascii.ascii * Ascii.ascii) : Z :=
  match List.find (fun c => iso_eqb (isoName c) a) allCountries with
  | Some c => countryCode c
  | None => u16 (-1)
  end.

Definition ath_regd_is_eeprom_valid (reg : ath_regulatory) : bool :=
  let rd := ath_regd_get_eepromRD reg in
  if has rd COUNTRY_ERD_FLAG then
    let cc := clr rd COUNTRY_ERD_FLAG in
    existsb (fun c => countryCode c =? cc) allCountries
  else existsb (fun p => reg_domain p =? rd) regDomainPairs.

Definition ath_regd_find_country (cc : Z) : option country_code_to_enum_rd :=
  List.find (fun c => countryCode c =? cc) allCountries.

Definition ath_regd_find_country_by_rd (regdmn : Z) : option country_code_to_enum_rd :=
  List.find (fun c => regDmnEnum c =? regdmn) allCountries.

Definition ath_regd_get_default_country (rd : Z) : Z :=
  if has rd COUNTRY_ERD_FLAG then
    let cc := clr rd COUNTRY_ERD_FLAG in
    match ath_regd_find_country cc with
    | Some _ => cc
    | None => CTRY_DEFAULT
    end
  else CTRY_DEFAULT.

Definition ath_get_regpair (regdmn : Z) : option reg_dmn_pair_mapping :=
  if regdmn =? NO_ENUMRD then None
  else List.find (fun p => reg_domain p =? regdmn) regDomainPairs.

Definition ath_regd_sanitize (reg : ath_regulatory) : ath_regulatory :=
  if negb (current_rd reg =? COUNTRY_ERD_FLAG) then reg
  else reg <| current_rd := 0x64 |>.

(** The characters '0', '0'. *)
Definition alpha2_00 : Ascii.ascii * Ascii.ascii :=
  (Ascii.ascii_of_nat 48, Ascii.ascii_of_nat 48).

Definition iso_chars (s : string) : Ascii.ascii * Ascii.ascii :=
  match s with
  | String a (String b _) => (a, b)
  | _ => alpha2_00
  end.

(** Returns 0 or a negative error code. *)
Definition __ath_regd_init (reg : ath_regulatory) : Z * ath_regulatory :=
  let reg := ath_regd_sanitize reg in
  if negb (ath_regd_is_eeprom_valid reg) then (- EINVAL, reg)
  else
    let regdmn := ath_regd_get_eepromRD reg in
    let reg := reg <| country_code := ath_regd_get_default_country regdmn |> in
    let reg :=
      if (country_code reg =? CTRY_DEFAULT) && (regdmn =? CTRY_DEFAULT)
      then reg <| country_code := CTRY_UNITED_STATES |> else reg in
    let lookup :=
      if country_code reg =? CTRY_DEFAULT then Some (None, regdmn)
      else
        match ath_regd_find_country (country_code reg) with
        | None => None
        | Some country => Some (Some country, regDmnEnum country)
        end in
    match lookup with
    | None => (- EINVAL, reg)
    | Some (country, regdmn) =>
        let reg := reg <| regpair := ath_get_regpair regdmn |> in
        match regpair reg with
        | None => (- EINVAL, reg)
        | Some _ =>
            let country :=
              match country with
              | None => ath_regd_find_country_by_rd regdmn
              | Some c => Some c
              end in
            let a :=
              match country with
              | Some c => iso_chars (isoName c)
              | None => alpha2_00
              end in
            (0, reg <| alpha2 := a |>)
        end
    end.

(** * Channel flags *)

Definition MHZ_TO_KHZ (f : Z) : Z := f * 1000.

Definition is_japan (cc : Z) : bool :=
  ((CTRY_JAPAN1 <=? cc) && (cc <=? CTRY_JAPAN5)) ||
  ((CTRY_JAPAN6 <=? cc) && (cc <=? CTRY_JAPAN59)).

Section Flags.
Context `{Cfg80211}.

(** The [case] labels are the United States and JAPAN1 to JAPAN59. *)
Definition dynamic_country_user_possible (reg : ath_regulatory) : bool :=
  if CONFIG_ATH_REG_DYNAMIC_USER_CERT_TESTING then true
  else negb ((country_code reg =? CTRY_UNITED_STATES) || is_japan (country_code reg)).

Definition ath_reg_dyn_country_user_allow (reg : ath_regulatory) : bool :=
  if negb CONFIG_ATH_REG_DYNAMIC_USER_REG_HINTS then false
  else if negb (dynamic_country_user_possible reg) then false
  else true.

Definition ath_force_clear_no_ir_chan (w : wiphy) (ch : ieee80211_channel) : ieee80211_channel :=
  match freq_reg_info w (MHZ_TO_KHZ (center_freq ch)) with
  | None => ch
  | Some rule_flags =>
      if negb (has rule_flags NL80211_RRF_NO_IR) then
        if has (ch_flags ch) IEEE80211_CHAN_NO_IR then
          ch <| ch_flags ::= fun f => clr f IEEE80211_CHAN_NO_IR |>
        else ch
      else ch
  end.

Definition ath_force_clear_no_ir_freq (w : wiphy) (freq : Z) : wiphy :=
  match ieee80211_get_channel w freq with
  | None => w
  | Some (b, i) =>
      match chan_at w b i with
      | None => w
      | Some ch => set_chan w b i (ath_force_clear_no_ir_chan w ch)
      end
  end.

Definition ath_force_no_ir_chan (ch : ieee80211_channel) : ieee80211_channel :=
  ch <| ch_flags ::= fun f => f .| IEEE80211_CHAN_NO_IR |>.

Definition ath_force_no_ir_freq (w : wiphy) (freq : Z) : wiphy :=
  match ieee80211_get_channel w freq with
  | None => w
  | Some (b, i) =>
      match chan_at w b i with
      | None => w
      | Some ch => set_chan w b i (ath_force_no_ir_chan ch)
      end
  end.

Definition __ath_reg_apply_beaconing_flags (w : wiphy) (reg : ath_regulatory)
    (initiator : nl80211_reg_initiator) (ch : ieee80211_channel) : ieee80211_channel :=
  if ath_is_radar_freq (center_freq ch) || has (ch_flags ch) IEEE80211_CHAN_RADAR then ch
  else
    match initiator with
    | NL80211_REGDOM_SET_BY_COUNTRY_IE => ath_force_clear_no_ir_chan w ch
    | NL80211_REGDOM_SET_BY_USER =>
        if ath_reg_dyn_country_user_allow reg then ath_force_clear_no_ir_chan w ch else ch
    | _ =>
        if beacon_found ch then ch <| ch_flags ::= fun f => clr f IEEE80211_CHAN_NO_IR |> else ch
    end.

(** [for (i = 0; i < sband->n_channels; i++)] over a band of [w]. *)
Definition for_channels (f : wiphy -> ieee80211_channel -> ieee80211_channel) (b : nat)
    (w : wiphy) : wiphy :=
  match bands w !! b with
  | Some (Some chans) =>
      fold_left (fun w i =>
        match chan_at w b i with
        | Some ch => set_chan w b i (f w ch)
        | None => w
        end) (seq 0 (length chans)) w
  | _ => w
  end.

Definition ath_reg_apply_beaconing_flags (w : wiphy) (reg : ath_regulatory)
    (initiator : nl80211_reg_initiator) : wiphy :=
  fold_left (fun w band =>
    for_channels (fun w ch => __ath_reg_apply_beaconing_flags w reg initiator ch) band w)
    (seq 0 IEEE80211_NUM_BANDS) w.

Definition ath_reg_apply_ir_flags (w : wiphy) (reg : ath_regulatory)
    (initiator : nl80211_reg_initiator) : wiphy :=
  match bands w !! IEEE80211_BAND_2GHZ with
  | Some (Some _) =>
      match initiator with
      | NL80211_REGDOM_SET_BY_COUNTRY_IE =>
          ath_force_clear_no_ir_freq (ath_force_clear_no_ir_freq w 2467) 2472
      | NL80211_REGDOM_SET_BY_USER =>
          if negb (ath_reg_dyn_country_user_allow reg) then w
          else ath_force_clear_no_ir_freq (ath_force_clear_no_ir_freq w 2467) 2472
      | _ => ath_force_no_ir_freq (ath_force_no_ir_freq w 2467) 2472
      end
  | _ => w
  end.

Definition radar_flags_chan (ch : ieee80211_channel) : ieee80211_channel :=
  if negb (ath_is_radar_freq (center_freq ch)) then ch
  else if negb (has (ch_flags ch) IEEE80211_CHAN_DISABLED) then
    ch <| ch_flags ::= fun f => f .| (IEEE80211_CHAN_RADAR .| IEEE80211_CHAN_NO_IR) |>
  else ch.

Definition ath_reg_apply_radar_flags (w : wiphy) : wiphy :=
  for_channels (fun _ ch => radar_flags_chan ch) IEEE80211_BAND_5GHZ w.

Definition ath_reg_apply_world_flags (w : wiphy) (initiator : nl80211_reg_initiator)
    (reg : ath_regulatory) : outcome wiphy :=
  match regpair reg with
  | None => Oops
  | Some rp =>
      let d := reg_domain rp in
      Ok (if (d =? 0x60) || (d =? 0x63) || (d =? 0x66) || (d =? 0x67) || (d =? 0x6C) then
            ath_reg_apply_beaconing_flags w reg initiator
          else if d =? 0x68 then
            let w := ath_reg_apply_beaconing_flags w reg initiator in
            ath_reg_apply_ir_flags w reg initiator
          else if ath_reg_dyn_country_user_allow reg then
            ath_reg_apply_beaconing_flags w reg initiator
          else w)
  end.

(** * Regulatory changes *)

(** Note that the result of [__ath_regd_init] is not looked at. *)
Definition __ath_reg_dyn_country (w : wiphy) (reg : ath_regulatory)
    (request : regulatory_request) : outcome (Z * wiphy * ath_regulatory) :=
  if bool_decide (rq_initiator request = NL80211_REGDOM_SET_BY_COUNTRY_IE) &&
     negb (ath_is_world_regd reg) then Ok (- EINVAL, w, reg)
  else
    let cc := ath_regd_find_country_by_name (rq_alpha2 request) in
    if cc =? u16 (-1) then Ok (- EINVAL, w, reg)
    else
      let reg := reg <| current_rd := COUNTRY_ERD_FLAG |> in
      let reg := reg <| current_rd ::= fun rd => rd .| cc |> in
      let '(_, reg) := __ath_regd_init reg in
      obind (ath_reg_apply_world_flags w (rq_initiator request) reg)
        (fun w => Ok (0, w, reg)).

(** The wrapper only adds a message. *)
Definition ath_reg_dyn_country (w : wiphy) (reg : ath_regulatory)
    (request : regulatory_request) : outcome (wiphy * ath_regulatory) :=
  obind (__ath_reg_dyn_country w reg request) (fun r => Ok (snd (fst r), snd r)).

Definition ath_reg_notifier_apply (w : wiphy) (request : option regulatory_request)
    (common : ath_common_reg) : outcome (wiphy * ath_common_reg) :=
  let w := ath_reg_apply_radar_flags w in
  match request with
  | None => Ok (w, common)
  | Some request =>
      let common := common <| regulatory ::= fun reg => reg <| region := rq_dfs_region request |> |> in
      let reg := regulatory common in
      match rq_initiator request with
      | NL80211_REGDOM_SET_BY_CORE =>
          if negb (ath_is_world_regd (reg_world_copy common)) then Ok (w, common)
          else Ok (w, common <| regulatory := reg_world_copy common |>)
      | NL80211_REGDOM_SET_BY_DRIVER => Ok (w, common)
      | NL80211_REGDOM_SET_BY_USER =>
          if ath_reg_dyn_country_user_allow reg then
            obind (ath_reg_dyn_country w reg request)
              (fun '(w, reg) => Ok (w, common <| regulatory := reg |>))
          else Ok (w, common)
      | NL80211_REGDOM_SET_BY_COUNTRY_IE =>
          obind (ath_reg_dyn_country w reg request)
            (fun '(w, reg) => Ok (w, common <| regulatory := reg |>))
      end
  end.

Definition ath_regd_init_wiphy (reg : ath_regulatory) (w : wiphy) (notifier : Z)
  : outcome wiphy :=
  let w := w <| reg_notifier := notifier |> in
  let w := w <| regulatory_flags ::=
                  fun f => f .| (REGULATORY_STRICT_REG .| REGULATORY_CUSTOM_REG) |> in
  let choice :=
    if ath_is_world_regd reg then
      obind (ath_world_regdomain reg) (fun regd =>
        Ok (regd, w <| regulatory_flags ::= fun f => f .| REGULATORY_COUNTRY_IE_FOLLOW_POWER |>))
    else Ok (ath_default_world_regdomain, w) in
  obind choice (fun '(regd, w) =>
    let w := wiphy_apply_custom_regulatory w regd in
    let w := ath_reg_apply_radar_flags w in
    ath_reg_apply_world_flags w NL80211_REGDOM_SET_BY_DRIVER reg).

Definition ath_regd_init (common : ath_common_reg) (w : wiphy) (notifier : Z)
  : outcome (Z * wiphy * ath_common_reg) :=
  let '(r, reg) := __ath_regd_init (regulatory common) in
  let common := common <| regulatory := reg |> in
  if negb (r =? 0) then Ok (r, w, common)
  else
    let common :=
      if ath_is_world_regd reg then common <| reg_world_copy := reg |> else common in
    obind (ath_regd_init_wiphy reg w notifier) (fun w => Ok (0, w, common)).

End Flags.

(** [band] is the position in [wiphy->bands]. *)
Definition ath_regd_get_band_ctl (reg : ath_regulatory) (band : nat) : Z :=
  match regpair reg with
  | None => SD_NO_CTL
  | Some rp =>
      if (country_code reg =? CTRY_DEFAULT) && is_wwr_sku (ath_regd_get_eepromRD reg)
      then SD_NO_CTL
      else
        let by_band :=
          if Nat.eqb band IEEE80211_BAND_2GHZ then reg_2ghz_ctl rp
          else if Nat.eqb band IEEE80211_BAND_5GHZ then reg_5ghz_ctl rp
          else NO_CTL in
        if ath_regd_get_eepromRD reg =? CTRY_DEFAULT then
          match region reg with
          | NL80211_DFS_FCC => CTL_FCC
          | NL80211_DFS_ETSI => CTL_ETSI
          | NL80211_DFS_JP => CTL_MKK
          | NL80211_DFS_UNSET => by_band
          end
        else by_band
  end.

(** * Theorems: the tables *)

Lemma allCountries_ok c :
  c ∈ allCountries ->
  0 <= countryCode c < 0x4000 /\ 0 <= regDmnEnum c < 0x4000 /\
  (regDmnEnum c <> NO_ENUMRD -> is_Some (ath_get_regpair (regDmnEnum c))) /\
  (regDmnEnum c = NO_ENUMRD -> countryCode c = CTRY_DEBUG).
Proof.
  intros Hin%list_elem_of_In.
  assert (forallb (fun c => (0 <=? countryCode c) && (countryCode c <? 0x4000) &&
    (0 <=? regDmnEnum c) && (regDmnEnum c <? 0x4000) &&
    ((regDmnEnum c =? NO_ENUMRD) || match ath_get_regpair (regDmnEnum c) with Some _ => true | None => false end) &&
    (negb (regDmnEnum c =? NO_ENUMRD) || (countryCode c =? CTRY_DEBUG))) allCountries = true) as Hall
    by (vm_compute; reflexivity).
  rewrite forallb_forall in Hall. specialize (Hall c Hin). ztest.
  split_and!; try lia.
  intros Hn. destruct (Z.eqb_spec (regDmnEnum c) NO_ENUMRD); [done|].
  destruct (ath_get_regpair _); [by eexists|done].
Qed.

Lemma regDomainPairs_ok p : p ∈ regDomainPairs -> 0 <= reg_domain p < 0x4000.
Proof.
  intros Hin%list_elem_of_In.
  assert (forallb (fun p => (0 <=? reg_domain p) && (reg_domain p <? 0x4000)) regDomainPairs = true)
    as Hall by (vm_compute; reflexivity).
  rewrite forallb_forall in Hall. specialize (Hall p Hin). ztest. lia.
Qed.

(** Country codes identify the entries. *)
Lemma countryCode_inj c1 c2 :
  c1 ∈ allCountries -> c2 ∈ allCountries -> countryCode c1 = countryCode c2 -> c1 = c2.
Proof.
  assert (NoDup (countryCode <$> allCountries)) as Hnd
    by (apply (bool_decide_unpack _); vm_compute; exact I).
  intros (i & Hi)%list_elem_of_lookup (j & Hj)%list_elem_of_lookup E.
  assert (i = j) as ->.
  { eapply NoDup_lookup; [exact Hnd|by rewrite list_lookup_fmap, Hi|by rewrite list_lookup_fmap, Hj, E]. }
  congruence.
Qed.

Lemma find_country_some cc c :
  ath_regd_find_country cc = Some c -> c ∈ allCountries /\ countryCode c = cc.
Proof. intros [Hin He]%find_some. ztest. split; [by apply list_elem_of_In|done]. Qed.

Lemma find_country_complete c :
  c ∈ allCountries -> ath_regd_find_country (countryCode c) = Some c.
Proof.
  intros Hin. destruct (ath_regd_find_country (countryCode c)) as [c'|] eqn:E.
  - apply find_country_some in E as [Hin' He]. f_equal. by apply countryCode_inj.
  - apply list_elem_of_In in Hin. apply (find_none _ _ E) in Hin. by rewrite Z.eqb_refl in Hin.
Qed.

Lemma existsb_country cc :
  existsb (fun c => countryCode c =? cc) allCountries =
  match ath_regd_find_country cc with Some _ => true | None => false end.
Proof.
  destruct (ath_regd_find_country cc) as [c|] eqn:E.
  - apply find_some in E as [Hin He]. apply existsb_exists. by exists c.
  - apply not_true_iff_false. intros (c & Hin & He)%existsb_exists.
    by rewrite (find_none _ _ E _ Hin) in He.
Qed.

Lemma get_regpair_some d rp :
  ath_get_regpair d = Some rp -> rp ∈ regDomainPairs /\ reg_domain rp = d /\ d <> NO_ENUMRD.
Proof.
  unfold ath_get_regpair. destruct (Z.eqb_spec d NO_ENUMRD); [done|].
  intros [Hin He]%find_some. ztest. split_and!; [by apply list_elem_of_In|done|done].
Qed.

Lemma existsb_pair (d : Z) :
  d <> NO_ENUMRD ->
  existsb (fun p => reg_domain p =? d) regDomainPairs =
  match ath_get_regpair d with Some _ => true | None => false end.
Proof.
  intros Hd. unfold ath_get_regpair. destruct (Z.eqb_spec d NO_ENUMRD); [congruence|].
  destruct (List.find _ regDomainPairs) as [c|] eqn:E.
  - apply find_some in E as [Hin He]. apply existsb_exists. by exists c.
  - apply not_true_iff_false. intros (c & Hin & He)%existsb_exists.
    by rewrite (find_none _ _ E _ Hin) in He.
Qed.

(** * Theorems: from the EEPROM code to the domain *)

(** The regulatory data selected by the sanitized code [rd] without the
    roaming flag: country code, domain pair and country name; [None] when the
    driver refuses the device. *)
Definition regd_select (rd : Z) : option (Z * reg_dmn_pair_mapping * (Ascii.ascii * Ascii.ascii)) :=
  let by_country cc :=
    match ath_regd_find_country cc with
    | Some c =>
        match ath_get_regpair (regDmnEnum c) with
        | Some rp => Some (cc, rp, iso_chars (isoName c))
        | None => None
        end
    | None => None
    end in
  if rd =? CTRY_DEFAULT then by_country CTRY_UNITED_STATES
  else if has rd COUNTRY_ERD_FLAG then
    if clr rd COUNTRY_ERD_FLAG =? CTRY_DEFAULT then None else by_country (clr rd COUNTRY_ERD_FLAG)
  else
    match ath_get_regpair rd with
    | Some rp => Some (CTRY_DEFAULT, rp,
                       match ath_regd_find_country_by_rd rd with
                       | Some c => iso_chars (isoName c)
                       | None => alpha2_00
                       end)
    | None => None
    end.

Lemma has_erd_neq rd : has rd COUNTRY_ERD_FLAG = true -> rd <> 0.
Proof. by intros Hh ->. Qed.

Lemma erd_no_regpair rd :
  has rd COUNTRY_ERD_FLAG = true -> ath_get_regpair rd = None.
Proof.
  intros Hh. destruct (ath_get_regpair rd) as [rp|] eqn:E; [exfalso|done].
  apply get_regpair_some in E as (Hin & <- & _). apply regDomainPairs_ok in Hin.
  unfold has in Hh. ztest. apply Hh. apply Z.bits_inj'. intros n Hn.
  rewrite Z.land_spec, Z.bits_0. change COUNTRY_ERD_FLAG with (2 ^ 15).
  destruct (Z.eq_dec n 15) as [->|].
  - rewrite (Z.bits_above_log2 (reg_domain rp)); [done|lia|].
    destruct (Z.eq_dec (reg_domain rp) 0) as [->|]; [done|]. apply Z.log2_lt_pow2; lia.
  - by rewrite Z.pow2_bits_false, andb_false_r by lia.
Qed.

Lemma regd_init_eq reg :
  let reg1 := ath_regd_sanitize reg in
  match regd_select (ath_regd_get_eepromRD reg1) with
  | Some (cc, rp, a) =>
      __ath_regd_init reg = (0, reg1 <| country_code := cc |> <| regpair := Some rp |> <| alpha2 := a |>)
  | None => fst (__ath_regd_init reg) = - EINVAL
  end.
Proof.
  unfold __ath_regd_init, ath_regd_is_eeprom_valid, regd_select. cbv zeta.
  set (reg1 := ath_regd_sanitize reg). set (rd := ath_regd_get_eepromRD reg1).
  unfold ath_regd_get_default_country.
  destruct (Z.eqb_spec rd CTRY_DEFAULT) as [Hrd|Hrd].
  { rewrite Hrd. change (has CTRY_DEFAULT COUNTRY_ERD_FLAG) with false. cbv iota.
    replace (existsb (fun p => reg_domain p =? CTRY_DEFAULT) regDomainPairs) with true by done.
    cbn [negb country_code]. rewrite Z.eqb_refl. simpl.
    destruct (ath_regd_find_country CTRY_UNITED_STATES) as [c|] eqn:E; [|done]. simpl.
    by destruct (ath_get_regpair (regDmnEnum c)). }
  change CTRY_DEFAULT with 0 in *.
  destruct (has rd COUNTRY_ERD_FLAG) eqn:Hh.
  - rewrite existsb_country. set (cc := clr rd COUNTRY_ERD_FLAG).
    destruct (ath_regd_find_country cc) as [c|] eqn:E; cbn [negb]; [|by destruct (cc =? 0)].
    simpl. rewrite andb_false_r.
    destruct (Z.eqb_spec cc 0) as [Hcc|Hcc]; simpl.
    + rewrite Hcc. simpl. by rewrite erd_no_regpair.
    + destruct (Z.eqb_spec cc 0); [done|]. rewrite E.
      by destruct (ath_get_regpair (regDmnEnum c)).
  - rewrite existsb_pair by done.
    destruct (ath_get_regpair rd) as [rp|] eqn:E; cbn [negb]; [|done].
    simpl. by rewrite E.
Qed.

(** The codes the driver accepts: the sanitized 0x8000, and, the roaming flag
    aside, 0 (the United States), a regulatory domain pair, or the country
    flag with the code of a country other than the two pseudo entries. *)
Definition regd_supported (code : Z) : Prop :=
  code = COUNTRY_ERD_FLAG \/
  let rd := clr code WORLDWIDE_ROAMING_FLAG in
  rd = CTRY_DEFAULT \/
  (exists p, p ∈ regDomainPairs /\ reg_domain p = rd) \/
  (exists c, c ∈ allCountries /\ rd = COUNTRY_ERD_FLAG .| countryCode c /\
     countryCode c <> CTRY_DEFAULT /\ countryCode c <> CTRY_DEBUG).

Lemma bit15_small x : 0 <= x < 0x4000 -> Z.testbit x 15 = false.
Proof.
  intros Hx. destruct (Z.eq_dec x 0) as [->|]; [done|].
  apply Z.bits_above_log2; [lia|]. apply Z.log2_lt_pow2; lia.
Qed.

Lemma has_erd_testbit x : has x COUNTRY_ERD_FLAG = Z.testbit x 15.
Proof.
  unfold has. change COUNTRY_ERD_FLAG with (2 ^ 15).
  destruct (Z.testbit x 15) eqn:E.
  - apply negb_true_iff, Z.eqb_neq. intros Hz. apply (f_equal (fun y => Z.testbit y 15)) in Hz.
    by rewrite Z.land_spec, Z.pow2_bits_true, E in Hz by lia.
  - apply negb_false_iff, Z.eqb_eq. apply Z.bits_inj'. intros n Hn.
    rewrite Z.land_spec, Z.bits_0. destruct (Z.eq_dec n 15) as [->|]; [by rewrite E|].
    by rewrite Z.pow2_bits_false, andb_false_r by lia.
Qed.

Lemma erd_split x : Z.testbit x 15 = true -> x = COUNTRY_ERD_FLAG .| clr x COUNTRY_ERD_FLAG.
Proof.
  intros E. unfold clr. change COUNTRY_ERD_FLAG with (2 ^ 15). apply Z.bits_inj'. intros n Hn.
  rewrite Z.lor_spec, Z.ldiff_spec. destruct (Z.eq_dec n 15) as [->|].
  - by rewrite Z.pow2_bits_true, E.
  - rewrite Z.pow2_bits_false by lia. simpl. by rewrite andb_true_r.
Qed.

Lemma erd_join x : 0 <= x < 0x4000 ->
  Z.testbit (COUNTRY_ERD_FLAG .| x) 15 = true /\ clr (COUNTRY_ERD_FLAG .| x) COUNTRY_ERD_FLAG = x /\
  clr (COUNTRY_ERD_FLAG .| x) WORLDWIDE_ROAMING_FLAG = COUNTRY_ERD_FLAG .| x.
Proof.
  intros Hx. pose proof (bit15_small x Hx) as H15.
  assert (Z.testbit x 14 = false) as H14.
  { destruct (Z.eq_dec x 0) as [->|]; [done|].
    apply Z.bits_above_log2; [lia|]. apply Z.log2_lt_pow2; lia. }
  unfold clr. change COUNTRY_ERD_FLAG with (2 ^ 15). change WORLDWIDE_ROAMING_FLAG with (2 ^ 14).
  split_and!.
  - by rewrite Z.lor_spec, Z.pow2_bits_true.
  - apply Z.bits_inj'. intros n Hn. rewrite Z.ldiff_spec, Z.lor_spec.
    destruct (Z.eq_dec n 15) as [->|]; [by rewrite Z.pow2_bits_true, H15 by lia|].
    rewrite Z.pow2_bits_false by lia. simpl. by rewrite andb_true_r.
  - apply Z.bits_inj'. intros n Hn. rewrite Z.ldiff_spec, Z.lor_spec.
    destruct (Z.eq_dec n 14) as [->|].
    + rewrite (Z.pow2_bits_true 14), H14, (Z.pow2_bits_false 15) by lia. done.
    + rewrite (Z.pow2_bits_false 14) by lia. simpl. by rewrite andb_true_r.
Qed.

Lemma regd_select_supported rd :
  is_Some (regd_select rd) <->
  rd = CTRY_DEFAULT \/ (exists p, p ∈ regDomainPairs /\ reg_domain p = rd) \/
  (exists c, c ∈ allCountries /\ rd = COUNTRY_ERD_FLAG .| countryCode c /\
     countryCode c <> CTRY_DEFAULT /\ countryCode c <> CTRY_DEBUG).
Proof.
  assert (forall c, c ∈ allCountries -> countryCode c <> CTRY_DEBUG ->
    is_Some (ath_get_regpair (regDmnEnum c))) as Hpair.
  { intros c Hin Hd. destruct (allCountries_ok c Hin) as (_ & _ & Hs & Hn).
    apply Hs. intros E. by apply Hd, Hn. }
  unfold regd_select. rewrite has_erd_testbit.
  destruct (Z.eqb_spec rd CTRY_DEFAULT) as [->|Hrd].
  { split; [by left|]. intros _. vm_compute. by eexists. }
  destruct (Z.testbit rd 15) eqn:E15.
  - destruct (Z.eqb_spec (clr rd COUNTRY_ERD_FLAG) CTRY_DEFAULT) as [Hz|Hnz].
    + split; [by intros [? [=]]|]. intros [?|[(p & Hin & <-)|(c & Hin & -> & Hc & _)]]; [done| |].
      * by rewrite bit15_small in E15 by (by apply regDomainPairs_ok).
      * destruct (allCountries_ok c Hin) as (Hr & _). by rewrite (proj1 (proj2 (erd_join _ Hr))) in Hz.
    + split.
      * destruct (ath_regd_find_country _) as [c|] eqn:Ef; [|by intros [? [=]]].
        apply find_country_some in Ef as [Hin Hc].
        destruct (ath_get_regpair (regDmnEnum c)) as [rp|] eqn:Er; [|by intros [? [=]]].
        intros _. right; right. exists c. rewrite Hc. split_and!; [done|by apply erd_split|done|].
        intros Hd. rewrite <- Hc in Hd. rewrite (countryCode_inj c (country_of CTRY_DEBUG NO_ENUMRD "DB")) in Er;
          [done|done| |done]. by left.
      * intros [?|[(p & Hin & <-)|(c & Hin & -> & Hc & Hd)]]; [done| |].
        { by rewrite bit15_small in E15 by (by apply regDomainPairs_ok). }
        destruct (allCountries_ok c Hin) as (Hr & _). rewrite (proj1 (proj2 (erd_join _ Hr))).
        rewrite find_country_complete by done. destruct (Hpair c Hin Hd) as [rp ->]. by eexists.
  - split.
    + destruct (ath_get_regpair rd) as [rp|] eqn:Er; [|by intros [? [=]]].
      apply get_regpair_some in Er as (Hin & Hd & _). intros _. right; left. by exists rp.
    + intros [?|[(p & Hin & Hp)|(c & Hin & -> & _)]]; [done| |].
      * pose proof (existsb_pair rd Hrd) as Hx. destruct (ath_get_regpair rd); [by eexists|].
        apply list_elem_of_In in Hin. apply not_true_iff_false in Hx. destruct Hx.
        apply existsb_exists. exists p. split; [done|]. by apply Z.eqb_eq.
      * destruct (allCountries_ok c Hin) as (Hr & _). by rewrite (proj1 (erd_join _ Hr)) in E15.
Qed.

(** [__ath_regd_init] accepts exactly the supported EEPROM codes, returns
    [-EINVAL] for every other one, and after a success [reg->regpair] points
    into the table of domain pairs (the callers follow it without a check). *)
Theorem regd_init_accepts reg :
  let '(r, reg') := __ath_regd_init reg in
  (r = 0 <-> regd_supported (current_rd reg)) /\ (r = 0 \/ r = - EINVAL) /\
  (r = 0 -> exists rp, regpair reg' = Some rp /\ rp ∈ regDomainPairs).
Proof.
  pose proof (regd_init_eq reg) as Heq. cbv zeta in Heq.
  pose proof (regd_select_supported (ath_regd_get_eepromRD (ath_regd_sanitize reg))) as Hsup.
  assert (is_Some (regd_select (ath_regd_get_eepromRD (ath_regd_sanitize reg))) <->
          regd_supported (current_rd reg)) as Hiff.
  { unfold regd_supported, ath_regd_get_eepromRD, ath_regd_sanitize in *.
    destruct (Z.eqb_spec (current_rd reg) COUNTRY_ERD_FLAG) as [E|E]; simpl in *.
    - rewrite E. split; [by left|]. intros _. vm_compute. by eexists.
    - rewrite Hsup. split; [by right|]. by intros [?|?]. }
  clear Hsup. destruct (regd_select _) as [[[cc rp] a]|] eqn:E.
  - rewrite Heq. split_and!; [split; [intros _; apply Hiff; by eexists|done]|by left|].
    intros _. exists rp. split; [done|]. clear - E. unfold regd_select in E.
    repeat case_match; simplify_eq;
      match goal with Hx : ath_get_regpair _ = Some _ |- _ => by apply get_regpair_some in Hx as [? _] end.
  - destruct (__ath_regd_init reg) as [r reg']. simpl in Heq. rewrite Heq.
    split_and!; [|by right|done]. split; [done|]. intros Hs%Hiff. by destruct Hs.
Qed.

(** Country lookup: a device programmed with the code of a proper country
    gets that country's code and name and the domain pair of its table entry,
    whether or not the roaming flag is set. *)
Theorem regd_init_country reg c roaming :
  c ∈ allCountries -> countryCode c <> CTRY_DEFAULT -> countryCode c <> CTRY_DEBUG ->
  current_rd reg = (COUNTRY_ERD_FLAG .| countryCode c) .| (if roaming : bool then WORLDWIDE_ROAMING_FLAG else 0) ->
  exists rp, ath_get_regpair (regDmnEnum c) = Some rp /\ reg_domain rp = regDmnEnum c /\
    __ath_regd_init reg =
      (0, reg <| country_code := countryCode c |> <| regpair := Some rp |>
              <| alpha2 := iso_chars (isoName c) |>).
Proof.
  intros Hin H0 Hdbg Hrd. destruct (allCountries_ok c Hin) as (Hr & _ & Hs & Hn).
  assert (is_Some (ath_get_regpair (regDmnEnum c))) as [rp Hrp].
  { apply Hs. intros E. by apply Hdbg, Hn. }
  exists rp. split; [done|]. split; [by apply get_regpair_some in Hrp as (_ & ? & _)|].
  pose proof (regd_init_eq reg) as Heq. cbv zeta in Heq.
  destruct (erd_join _ Hr) as (H15 & Hclr & Hroam).
  assert (ath_regd_sanitize reg = reg) as Hsan.
  { unfold ath_regd_sanitize. destruct (Z.eqb_spec (current_rd reg) COUNTRY_ERD_FLAG) as [E|]; [|done].
    exfalso. rewrite Hrd in E. apply (f_equal (fun x => clr x WORLDWIDE_ROAMING_FLAG)) in E.
    assert (COUNTRY_ERD_FLAG .| countryCode c = COUNTRY_ERD_FLAG) as E1.
    { destruct roaming; [|rewrite Z.lor_0_r in E; by rewrite Hroam in E].
      rewrite <- Hroam at 1. rewrite <- (Z.lor_0_r (clr _ _)).
      unfold clr in *.
      etrans; [|exact E]. apply Z.bits_inj'. intros n _.
      rewrite !Z.lor_spec, !Z.ldiff_spec, !Z.lor_spec, Z.bits_0.
      destruct (Z.testbit WORLDWIDE_ROAMING_FLAG n), (Z.testbit COUNTRY_ERD_FLAG n),
        (Z.testbit (countryCode c) n); done. }
    apply H0. rewrite <- Hclr, E1. done. }
  rewrite Hsan in Heq.
  assert (ath_regd_get_eepromRD reg = COUNTRY_ERD_FLAG .| countryCode c) as Hee.
  { unfold ath_regd_get_eepromRD. rewrite Hrd. destruct roaming; [|by rewrite Z.lor_0_r].
    rewrite <- Hroam at 2. unfold clr. apply Z.bits_inj'. intros n _.
    rewrite !Z.ldiff_spec, !Z.lor_spec.
    destruct (Z.testbit WORLDWIDE_ROAMING_FLAG n), (Z.testbit COUNTRY_ERD_FLAG n),
      (Z.testbit (countryCode c) n); done. }
  rewrite Hee in Heq. unfold regd_select in Heq. rewrite has_erd_testbit, H15, Hclr in Heq.
  rewrite (proj2 (Z.eqb_neq _ CTRY_DEFAULT)) in Heq.
  2: { intros E. by rewrite E in H15. }
  rewrite (proj2 (Z.eqb_neq _ CTRY_DEFAULT)) in Heq by done.
  rewrite find_country_complete in Heq by done. by rewrite Hrp in Heq.
Qed.

(** * Theorems: the channel flags *)

(** Two wiphys with related channels at the same positions. *)
Definition wiphy_rel (R : ieee80211_channel -> ieee80211_channel -> Prop) (w w' : wiphy) : Prop :=
  forall b i, option_Forall2 R (chan_at w b i) (chan_at w' b i).

Section WiphyRel.
Context (R : ieee80211_channel -> ieee80211_channel -> Prop) `{!PreOrder R}.

#[local] Instance wiphy_rel_preorder : PreOrder (wiphy_rel R).
Proof.
  split.
  - intros w b i. destruct (chan_at w b i); constructor. reflexivity.
  - intros w1 w2 w3 H12 H23 b i. specialize (H12 b i). specialize (H23 b i).
    destruct H12 as [x y Hxy|]; [|done]. inversion H23 as [? z Hyz|]; subst. constructor. by etrans.
Qed.

Lemma chan_at_set w b i ch b' i' :
  chan_at (set_chan w b i ch) b' i' =
    if decide (b = b' /\ i = i' /\ is_Some (chan_at w b i)) then Some ch else chan_at w b' i'.
Proof.
  unfold chan_at, set_chan. simpl. destruct (decide (b = b')) as [->|Hb].
  - rewrite list_lookup_alter_eq. destruct (bands w !! b') as [[chans|]|]; simpl.
    + destruct (decide (i = i')) as [->|Hi].
      * destruct (decide _) as [(_ & _ & Hs)|Hn].
        { apply list_lookup_insert_eq. by apply lookup_lt_is_Some. }
        rewrite list_insert_ge; [done|]. apply lookup_ge_None. apply eq_None_not_Some. intros Hs. by apply Hn.
      * rewrite list_lookup_insert_ne by done. by destruct (decide _) as [(_ & ? & _)|].
    + destruct (decide _) as [(_ & _ & Hs)|]; [by destruct Hs|done].
    + destruct (decide _) as [(_ & _ & Hs)|]; [by destruct Hs|done].
  - rewrite list_lookup_alter_ne by done. by destruct (decide _) as [(? & _)|].
Qed.

Lemma set_chan_rel w b i ch ch' :
  chan_at w b i = Some ch -> R ch ch' -> wiphy_rel R w (set_chan w b i ch').
Proof.
  intros E HR b' i'. rewrite chan_at_set. destruct (decide _) as [(<- & <- & _)|].
  - rewrite E. by constructor.
  - by apply (reflexivity (R := wiphy_rel R) w b' i').
Qed.

(** A loop over a band relates the channels as its body does. *)
Lemma for_channels_rel f b w :
  (forall w ch, R ch (f w ch)) -> wiphy_rel R w (for_channels f b w).
Proof.
  intros Hf. unfold for_channels. destruct (bands w !! b) as [[chans|]|]; try reflexivity.
  generalize (seq 0 (length chans)) as l. intros l. revert w.
  induction l as [|i l IH]; intros w; simpl; [reflexivity|]. etrans; [|apply IH].
  destruct (chan_at w b i) eqn:E; [|reflexivity]. by eapply set_chan_rel.
Qed.
End WiphyRel.

(** What the driver may do to a channel outside of cfg80211: the frequency
    stays, and the flags of a radar frequency are left alone. *)
Definition keeps_radar (ch ch' : ieee80211_channel) : Prop :=
  center_freq ch' = center_freq ch /\
  (ath_is_radar_freq (center_freq ch) = true -> ch_flags ch' = ch_flags ch).

#[export] Instance keeps_radar_preorder : PreOrder keeps_radar.
Proof.
  split; [done|]. intros x y z [Hf1 H1] [Hf2 H2]. split; [congruence|].
  intros Hr. rewrite H2; [by apply H1|by rewrite Hf1].
Qed.

(** Every enabled radar channel of the 5 GHz band demands radar detection and
    forbids initiating radiation. *)
Definition radar_marked (w : wiphy) : Prop :=
  forall i ch, chan_at w IEEE80211_BAND_5GHZ i = Some ch ->
    ath_is_radar_freq (center_freq ch) = true ->
    has (ch_flags ch) IEEE80211_CHAN_DISABLED = false ->
    has (ch_flags ch) IEEE80211_CHAN_RADAR = true /\ has (ch_flags ch) IEEE80211_CHAN_NO_IR = true.

Lemma radar_marked_keeps w w' : wiphy_rel keeps_radar w w' -> radar_marked w -> radar_marked w'.
Proof.
  intros Hrel Hm i ch' E. pose proof (Hrel IEEE80211_BAND_5GHZ i) as Hi. rewrite E in Hi.
  inversion Hi as [ch ? [Hf Hfl] Ech|]; subst. rewrite Hf. intros Hr. rewrite Hfl by done.
  by apply (Hm i).
Qed.

Lemma radar_flags_chan_marks ch :
  let ch' := radar_flags_chan ch in
  center_freq ch' = center_freq ch /\
  (ath_is_radar_freq (center_freq ch') = true -> has (ch_flags ch') IEEE80211_CHAN_DISABLED = false ->
   has (ch_flags ch') IEEE80211_CHAN_RADAR = true /\ has (ch_flags ch') IEEE80211_CHAN_NO_IR = true).
Proof.
  unfold radar_flags_chan. destruct (ath_is_radar_freq (center_freq ch)) eqn:E; cbn [negb];
    [|split; [done|congruence]].
  destruct (has (ch_flags ch) IEEE80211_CHAN_DISABLED) eqn:Ed; cbn [negb];
    (split; [done|]); simpl; [congruence|].
  intros _ _. rewrite (Z.lor_comm (ch_flags ch)). split; by apply has_lor_l.
Qed.

(** The loop visits every channel of the band. *)
Lemma for_channels_at f b w i ch :
  (forall w1 w2, f w1 = f w2) -> chan_at w b i = Some ch ->
  chan_at (for_channels f b w) b i = Some (f w ch).
Proof.
  intros Hf E. unfold for_channels. pose proof E as E'. unfold chan_at in E'.
  destruct (bands w !! b) as [[chans|]|] eqn:Eb; try done.
  assert (i ∈ seq 0 (length chans)) as Hin.
  { apply list_elem_of_In, in_seq. apply lookup_lt_Some in E'. lia. }
  assert (NoDup (seq 0 (length chans))) as Hnd by apply NoDup_seq.
  clear Eb E'. revert w E Hin Hnd. generalize (seq 0 (length chans)) as l.
  assert (forall l w, i ∉ l -> chan_at (fold_left (fun w i0 => match chan_at w b i0 with
    | Some ch0 => set_chan w b i0 (f w ch0) | None => w end) l w) b i = chan_at w b i) as Hskip.
  { induction l as [|j l IH]; intros w Hn; simpl; [done|].
    apply not_elem_of_cons in Hn as [Hj Hn]. rewrite IH by done.
    destruct (chan_at w b j); [|done]. rewrite chan_at_set.
    by destruct (decide _) as [(_ & ? & _)|]. }
  induction l as [|j l IH]; intros w E Hin Hnd; simpl; [by apply elem_of_nil in Hin|].
  apply NoDup_cons in Hnd as [Hj Hnd]. apply elem_of_cons in Hin as [<-|Hin].
  - rewrite Hskip by done. rewrite E, chan_at_set.
    destruct (decide _) as [|Hx]; [done|]. destruct Hx. by rewrite E.
  - match goal with |- context [fold_left _ l ?x] => set (w1 := x) end.
    rewrite (IH w1); [by rewrite (Hf w1 w)| |done|done]. subst w1.
    destruct (chan_at w b j) eqn:Ej; [|done]. rewrite chan_at_set.
    by destruct (decide _) as [(_ & -> & _)|].
Qed.

Lemma for_channels_none f b w i :
  chan_at w b i = None -> chan_at (for_channels f b w) b i = None.
Proof.
  intros E. assert (PreOrder (fun _ _ : ieee80211_channel => True)) as Hpo by done.
  pose proof (for_channels_rel (fun _ _ => True) f b w (fun _ _ => I)) as Hr.
  specialize (Hr b i). rewrite E in Hr. by inversion Hr.
Qed.

Lemma apply_radar_flags_marks w : radar_marked (ath_reg_apply_radar_flags w).
Proof.
  intros i ch' E. unfold ath_reg_apply_radar_flags in E.
  destruct (chan_at w IEEE80211_BAND_5GHZ i) as [ch|] eqn:Ec.
  - rewrite (for_channels_at (fun _ ch => radar_flags_chan ch) _ _ _ _ (fun _ _ => eq_refl) Ec) in E. injection E as <-.
    apply radar_flags_chan_marks.
  - by rewrite for_channels_none in E.
Qed.

Section FlagTheorems.
Context `{Cfg80211Laws}.

Lemma force_clear_chan_keeps w ch :
  ath_is_radar_freq (center_freq ch) = false -> keeps_radar ch (ath_force_clear_no_ir_chan w ch).
Proof.
  intros Hr. unfold ath_force_clear_no_ir_chan, keeps_radar. rewrite Hr.
  repeat case_match; done.
Qed.

Lemma beaconing_chan_keeps w reg init ch :
  keeps_radar ch (__ath_reg_apply_beaconing_flags w reg init ch).
Proof.
  unfold __ath_reg_apply_beaconing_flags.
  destruct (ath_is_radar_freq (center_freq ch)) eqn:Hr; simpl; [done|].
  destruct (has (ch_flags ch) IEEE80211_CHAN_RADAR); [done|].
  pose proof (force_clear_chan_keeps w ch Hr).
  destruct init; repeat case_match; try done; unfold keeps_radar; simpl; by rewrite Hr.
Qed.

Lemma beaconing_keeps w reg init :
  wiphy_rel keeps_radar w (ath_reg_apply_beaconing_flags w reg init).
Proof.
  unfold ath_reg_apply_beaconing_flags. generalize (seq 0 IEEE80211_NUM_BANDS) as l.
  intros l. revert w. induction l as [|b l IH]; intros w; simpl; [by apply wiphy_rel_preorder; apply _|].
  eapply (wiphy_rel_preorder keeps_radar); [|apply IH].
  apply (for_channels_rel keeps_radar). intros. apply beaconing_chan_keeps.
Qed.

Lemma force_freq_keeps w f (g : wiphy -> ieee80211_channel -> ieee80211_channel) :
  ath_is_radar_freq f = false ->
  (forall ch, center_freq (g w ch) = center_freq ch) ->
  wiphy_rel keeps_radar w
    match ieee80211_get_channel w f with
    | None => w
    | Some (b, i) => match chan_at w b i with None => w | Some ch => set_chan w b i (g w ch) end
    end.
Proof.
  intros Hf Hg. destruct (ieee80211_get_channel w f) as [[b i]|] eqn:E; [|by apply wiphy_rel_preorder; apply _].
  destruct (chan_at w b i) as [ch|] eqn:Ec; [|by apply wiphy_rel_preorder; apply _].
  eapply (set_chan_rel keeps_radar); [exact Ec|]. split; [by rewrite Hg|].
  rewrite (get_channel_freq _ _ _ _ _ E Ec). congruence.
Qed.

Lemma ir_flags_keeps w reg init :
  wiphy_rel keeps_radar w (ath_reg_apply_ir_flags w reg init).
Proof.
  assert (forall w f, ath_is_radar_freq f = false ->
    wiphy_rel keeps_radar w (ath_force_clear_no_ir_freq w f)) as Hc.
  { intros w0 f Hf. apply force_freq_keeps; [done|]. intros ch.
    unfold ath_force_clear_no_ir_chan. by repeat case_match. }
  assert (forall w f, ath_is_radar_freq f = false ->
    wiphy_rel keeps_radar w (ath_force_no_ir_freq w f)) as Hn.
  { intros w0 f Hf. by apply (force_freq_keeps w0 f (fun _ => ath_force_no_ir_chan)). }
  pose proof (wiphy_rel_preorder keeps_radar) as Hpo.
  unfold ath_reg_apply_ir_flags. destruct (bands w !! _) as [[?|]|]; try reflexivity.
  destruct init; try (case_match; [reflexivity|]);
    first [ etrans; [apply (Hc _ 2467 eq_refl)|apply (Hc _ 2472 eq_refl)]
          | etrans; [apply (Hn _ 2467 eq_refl)|apply (Hn _ 2472 eq_refl)] ].
Qed.

Lemma world_flags_keeps w init reg w' :
  ath_reg_apply_world_flags w init reg = Ok w' -> wiphy_rel keeps_radar w w'.
Proof.
  pose proof (wiphy_rel_preorder keeps_radar) as Hpo.
  unfold ath_reg_apply_world_flags. destruct (regpair reg) as [rp|]; [|done]. intros [= <-].
  case_match; [apply beaconing_keeps|]. case_match.
  - etrans; [apply beaconing_keeps|apply ir_flags_keeps].
  - case_match; [apply beaconing_keeps|reflexivity].
Qed.

Lemma dyn_country_keeps w reg rq w' reg' :
  ath_reg_dyn_country w reg rq = Ok (w', reg') -> wiphy_rel keeps_radar w w'.
Proof.
  pose proof (wiphy_rel_preorder keeps_radar) as Hpo.
  unfold ath_reg_dyn_country, __ath_reg_dyn_country.
  destruct (bool_decide _ && _); [by intros [= <- <-]|].
  destruct (_ =? u16 (-1)); [by intros [= <- <-]|].
  destruct (__ath_regd_init _) as [r reg1].
  destruct (ath_reg_apply_world_flags w _ reg1) as [w1|] eqn:E; [|done].
  intros [= <- <-]. by eapply world_flags_keeps.
Qed.

(** Radar protection at start-up: after a successful [ath_regd_init],
    every enabled channel between 5260 and 5700 MHz has radar detection
    required and initiating radiation forbidden, for any EEPROM code, any
    wiphy and whatever the custom world domain does to the channels. *)
Theorem regd_init_radar_protected common w notifier w' common' :
  ath_regd_init common w notifier = Ok (0, w', common') -> radar_marked w'.
Proof.
  unfold ath_regd_init, ath_regd_init_wiphy. destruct (__ath_regd_init _) as [r reg].
  destruct (Z.eqb_spec r 0) as [->|Hr]; cbn [negb]; [|intros [= ? _ _]; congruence].
  destruct (if ath_is_world_regd reg then _ else _) as [[regd w1]|]; [|done]. cbn [obind].
  destruct (ath_reg_apply_world_flags _ _ reg) as [w2|] eqn:E; [|done]. intros [= <- _].
  eapply radar_marked_keeps; [by eapply world_flags_keeps|]. apply apply_radar_flags_marks.
Qed.

(** C13. Radar protection at every regulatory change: whoever initiated it
    (core, driver, user or a country information element), when
    [ath_reg_notifier_apply] returns every enabled channel between 5260 and
    5700 MHz has radar detection required and initiating radiation
    forbidden. *)
Theorem notifier_radar_protected w request common w' common' :
  ath_reg_notifier_apply w request common = Ok (w', common') -> radar_marked w'.
Proof.
  pose proof (apply_radar_flags_marks w) as Hm. unfold ath_reg_notifier_apply.
  set (w1 := ath_reg_apply_radar_flags w) in *.
  destruct request as [rq|]; [|by intros [= <- _]].
  assert (forall reg r, obind (ath_reg_dyn_country w1 reg rq)
    (fun '(w, reg) => Ok (w, common <| regulatory ::= fun reg0 => reg0 <| region := rq_dfs_region rq |> |>
       <| regulatory := reg |>)) = Ok r -> radar_marked (fst r)) as Hdyn.
  { intros reg r. destruct (ath_reg_dyn_country w1 reg rq) as [[w2 reg2]|] eqn:E; [|done].
    intros [= <-]. simpl. eapply radar_marked_keeps; [by eapply dyn_country_keeps|done]. }
  destruct (rq_initiator rq).
  - case_match; by intros [= <- _].
  - case_match; [|by intros [= <- _]]. intros E. by apply Hdyn in E.
  - by intros [= <- _].
  - intros E. by apply Hdyn in E.
Qed.

(** * Theorems: runs of the notifier *)

Fixpoint notify_all (rqs : list (option regulatory_request)) (s : wiphy * ath_common_reg)
  : outcome (wiphy * ath_common_reg) :=
  match rqs with
  | [] => Ok s
  | rq :: rqs => obind (ath_reg_notifier_apply (fst s) rq (snd s)) (notify_all rqs)
  end.

Lemma notifier_world_copy w rq common w' common' :
  ath_reg_notifier_apply w rq common = Ok (w', common') ->
  reg_world_copy common' = reg_world_copy common.
Proof.
  unfold ath_reg_notifier_apply. destruct rq as [rq|]; [|by intros [= _ <-]].
  destruct (rq_initiator rq); repeat case_match; try (by intros [= _ <-]);
    (destruct (ath_reg_dyn_country _ _ rq) as [[w2 reg2]|]; [by intros [= _ <-]|done]).
Qed.

Lemma notify_all_world_copy rqs : forall s w' common',
  notify_all rqs s = Ok (w', common') -> reg_world_copy common' = reg_world_copy (snd s).
Proof.
  induction rqs as [|rq rqs IH]; intros s w' common'; simpl; [by intros [= ->]|].
  destruct (ath_reg_notifier_apply (fst s) rq (snd s)) as [[w1 c1]|] eqn:E; [|done]. simpl.
  intros Hn. rewrite (IH _ _ _ Hn). by eapply notifier_world_copy.
Qed.

(** World roaming is restored: on a device whose EEPROM holds a world
    code, after any sequence of regulatory changes a reset by the core puts
    the regulatory data back to exactly what [ath_regd_init] had set up. *)
Theorem world_roaming_restored common w notifier w0 c0 rqs w1 c1 rq w2 c2 :
  ath_regd_init common w notifier = Ok (0, w0, c0) ->
  ath_is_world_regd (regulatory c0) = true ->
  notify_all rqs (w0, c0) = Ok (w1, c1) ->
  rq_initiator rq = NL80211_REGDOM_SET_BY_CORE ->
  ath_reg_notifier_apply w1 (Some rq) c1 = Ok (w2, c2) ->
  regulatory c2 = regulatory c0.
Proof.
  intros Hinit Hw Hrun Hcore. apply notify_all_world_copy in Hrun. simpl in Hrun.
  assert (reg_world_copy c0 = regulatory c0) as Hcopy.
  { unfold ath_regd_init in Hinit. destruct (__ath_regd_init _) as [r reg].
    destruct (Z.eqb_spec r 0) as [->|Hr]; cbn [negb] in Hinit; [|injection Hinit as ? _ _; congruence].
    destruct (ath_regd_init_wiphy reg w notifier); [|done]. injection Hinit as _ <-.
    destruct (ath_is_world_regd reg) eqn:E; simpl in *; congruence. }
  unfold ath_reg_notifier_apply. rewrite Hcore. simpl.
  rewrite Hrun, Hcopy, Hw. simpl. by intros [= _ <-].
Qed.

Lemma find_by_name_some a :
  ath_regd_find_country_by_name a <> u16 (-1) ->
  exists c, c ∈ allCountries /\ iso_eqb (isoName c) a = true /\
            countryCode c = ath_regd_find_country_by_name a.
Proof.
  unfold ath_regd_find_country_by_name. intros Hn.
  destruct (List.find _ allCountries) as [c|] eqn:E; [|done].
  apply find_some in E as [Hin Hiso]. exists c. split_and!; [by apply list_elem_of_In|done|done].
Qed.

(** Re-initialising for a country named by a request other than "DB"
    succeeds. *)
Lemma dyn_country_init_ok reg a :
  a <> iso_chars "DB" -> ath_regd_find_country_by_name a <> u16 (-1) ->
  is_Some (regpair (snd (__ath_regd_init
    (reg <| current_rd := COUNTRY_ERD_FLAG .| ath_regd_find_country_by_name a |>)))).
Proof.
  intros Ha (c & Hin & Hiso & Hc)%find_by_name_some. rewrite <- Hc.
  set (reg1 := reg <| current_rd := _ |>).
  pose proof (regd_init_eq reg1) as Heq. cbv zeta in Heq.
  destruct (allCountries_ok c Hin) as (Hr & _). destruct (erd_join _ Hr) as (H15 & Hclr & Hroam).
  pose proof (regd_select_supported (ath_regd_get_eepromRD (ath_regd_sanitize reg1))) as Hsup.
  assert (is_Some (regd_select (ath_regd_get_eepromRD (ath_regd_sanitize reg1)))) as [[[cc rp] a'] Hs].
  { unfold ath_regd_sanitize. subst reg1. simpl.
    destruct (Z.eqb_spec (COUNTRY_ERD_FLAG .| countryCode c) COUNTRY_ERD_FLAG) as [E|E]; cbn [negb].
    { vm_compute. by eexists. }
    apply regd_select_supported. right; right. exists c. unfold ath_regd_get_eepromRD. simpl.
    split_and!; [done|done| |].
    - intros E0. apply E. by rewrite E0.
    - intros Hd. apply Ha.
      rewrite (countryCode_inj c (country_of CTRY_DEBUG NO_ENUMRD "DB")) in Hiso; [|done|by left|done].
      destruct a as [x y]. unfold iso_eqb in Hiso. simpl in Hiso. ztest. simpl. congruence. }
  rewrite Hs in Heq. rewrite Heq. by eexists.
Qed.

Lemma notifier_regpair w rq common :
  is_Some (regpair (regulatory common)) -> is_Some (regpair (reg_world_copy common)) \/
    ath_is_world_regd (reg_world_copy common) = false ->
  (forall r, rq = Some r -> rq_alpha2 r <> iso_chars "DB") ->
  exists w' common', ath_reg_notifier_apply w rq common = Ok (w', common') /\
    is_Some (regpair (regulatory common')).
Proof.
  intros Hrp Hcopy Hdb. unfold ath_reg_notifier_apply.
  destruct rq as [rq|]; [|by eauto]. specialize (Hdb rq eq_refl).
  assert (forall w reg, is_Some (regpair reg) -> exists w' reg',
    ath_reg_dyn_country w reg rq = Ok (w', reg') /\ is_Some (regpair reg')) as Hdyn.
  { intros w0 reg Hreg. unfold ath_reg_dyn_country, __ath_reg_dyn_country.
    destruct (bool_decide _ && _); [by eauto|].
    destruct (Z.eqb_spec (ath_regd_find_country_by_name (rq_alpha2 rq)) (u16 (-1))) as [|Hn]; [by eauto|].
    pose proof (dyn_country_init_ok reg (rq_alpha2 rq) Hdb Hn) as Hok.
    simpl in *. destruct (__ath_regd_init _) as [r reg1]. simpl in Hok. destruct Hok as [rp Hok].
    unfold ath_reg_apply_world_flags. rewrite Hok. simpl. eauto. }
  simpl. destruct (rq_initiator rq).
  - destruct (ath_is_world_regd (reg_world_copy common)) eqn:E; simpl; [|by eauto].
    destruct Hcopy as [?|?]; [by eauto|done].
  - case_match; [|by eauto].
    match goal with |- context [ath_reg_dyn_country ?w0 ?reg rq] =>
      destruct (Hdyn w0 reg) as (w' & reg' & -> & ?); [exact Hrp|] end. simpl. by eauto.
  - by eauto.
  - match goal with |- context [ath_reg_dyn_country ?w0 ?reg rq] =>
      destruct (Hdyn w0 reg) as (w' & reg' & -> & ?); [exact Hrp|] end. simpl. by eauto.
Qed.

(** Fault freedom: after a successful [ath_regd_init] (whose world copy
    starts out zeroed), no sequence of regulatory requests that avoids the
    pseudo country "DB" makes the notifier follow a null pointer. *)
Theorem notifier_never_faults common w notifier w0 c0 rqs :
  ath_is_world_regd (reg_world_copy common) = false ->
  ath_regd_init common w notifier = Ok (0, w0, c0) ->
  Forall (fun rq => forall r, rq = Some r -> rq_alpha2 r <> iso_chars "DB") rqs ->
  exists w1 c1, notify_all rqs (w0, c0) = Ok (w1, c1).
Proof.
  intros Hz Hinit Hall.
  assert (is_Some (regpair (regulatory c0)) /\ (is_Some (regpair (reg_world_copy c0)) \/
    ath_is_world_regd (reg_world_copy c0) = false)) as [Hrp Hcopy].
  { unfold ath_regd_init in Hinit. pose proof (regd_init_eq (regulatory common)) as Heq. cbv zeta in Heq.
    destruct (__ath_regd_init (regulatory common)) as [r reg].
    destruct (Z.eqb_spec r 0) as [->|Hr]; cbn [negb] in Hinit; [|injection Hinit as ? _ _; congruence].
    destruct (regd_select _) as [[[cc rp] a]|]; [|done]. injection Heq as ->.
    destruct (ath_regd_init_wiphy _ w notifier); [|done]. injection Hinit as _ <-.
    split; [by case_match; eexists|]. case_match; [left; by eexists|right; done]. }
  clear Hinit Hz. revert w0 c0 Hrp Hcopy.
  induction Hall as [|rq rqs Hrq Hall IH]; intros w0 c0 Hrp Hcopy; simpl; [by eauto|].
  destruct (notifier_regpair w0 rq c0 Hrp Hcopy Hrq) as (w' & c' & E & Hrp'). rewrite E. simpl.
  apply IH; [done|]. by rewrite (notifier_world_copy _ _ _ _ _ E).
Qed.
End FlagTheorems.

(** The pseudo country "DB" crashes a world-roaming device: its entry has
    no regulatory domain pair, [__ath_reg_dyn_country] ignores the error of
    [__ath_regd_init] and [ath_reg_apply_world_flags] follows the null
    [regpair]. *)
Theorem dyn_country_db_faults `{Cfg80211} w reg rq :
  rq_initiator rq = NL80211_REGDOM_SET_BY_COUNTRY_IE -> rq_alpha2 rq = iso_chars "DB" ->
  ath_is_world_regd reg = true ->
  __ath_reg_dyn_country w reg rq = Oops.
Proof.
  intros Hi Ha Hw. unfold __ath_reg_dyn_country. rewrite Hw, andb_false_r, Ha.
  by vm_compute.
Qed.

(** A request for Colombia selects the world domain: the first entry with
    the name "CO" carries the code [CTRY_DEFAULT], so the code becomes 0x8000,
    which [ath_regd_sanitize] turns into the world domain 0x64; Colombia's own
    entry (FCC1_FCCA) is never used by name. *)
Theorem dyn_country_co_world `{Cfg80211} w reg rq w' reg' :
  rq_initiator rq = NL80211_REGDOM_SET_BY_USER -> rq_alpha2 rq = iso_chars "CO" ->
  __ath_reg_dyn_country w reg rq = Ok (0, w', reg') ->
  current_rd reg' = 0x64 /\ ath_is_world_regd reg' = true /\
  option_map reg_domain (regpair reg') <> Some (EnumRd_val FCC1_FCCA).
Proof.
  intros Hi Ha. unfold __ath_reg_dyn_country. rewrite Hi, Ha. cbn [bool_decide].
  replace (ath_regd_find_country_by_name (iso_chars "CO")) with CTRY_DEFAULT by (by vm_compute).
  replace (CTRY_DEFAULT =? u16 (-1)) with false by done. cbn [andb].
  match goal with |- context [__ath_regd_init ?r] =>
    assert (exists reg1, __ath_regd_init r = (0, reg1) /\ current_rd reg1 = 0x64 /\
      ath_is_world_regd reg1 = true /\
      option_map reg_domain (regpair reg1) <> Some (EnumRd_val FCC1_FCCA)) as (reg1 & -> & Hspec) end.
  { eexists. split; [vm_compute; reflexivity|]. by vm_compute. }
  destruct (ath_reg_apply_world_flags w _ reg1) as [w1|]; [|done]. simpl. by intros [= <- <-].
Qed.

(** * A concrete cfg80211

    A world-roaming device (EEPROM 0x60) with one 2.4 GHz and two 5 GHz
    channels. *)

Fixpoint index_of (f : Z) (chans : list ieee80211_channel) : option nat :=
  match chans with
  | [] => None
  | ch :: chans => if center_freq ch =? f then Some O else S <$> index_of f chans
  end.

Definition get_channel_in (w : wiphy) (f : Z) (b : nat) : option (nat * nat) :=
  match bands w !! b with
  | Some (Some chans) => pair b <$> index_of f chans
  | _ => None
  end.

Definition demo_cfg : Cfg80211 := {|
  freq_reg_info := fun _ _ => Some 0;
  ieee80211_get_channel := fun w f =>
    match get_channel_in w f 0 with Some p => Some p | None => get_channel_in w f 1 end;
  wiphy_apply_custom_regulatory := fun w _ => w;
  CONFIG_ATH_REG_DYNAMIC_USER_CERT_TESTING := false;
  CONFIG_ATH_REG_DYNAMIC_USER_REG_HINTS := true;
|}.

Lemma index_of_freq f chans : forall i ch,
  index_of f chans = Some i -> chans !! i = Some ch -> center_freq ch = f.
Proof.
  induction chans as [|c chans IH]; intros i ch; simpl; [done|].
  destruct (Z.eqb_spec (center_freq c) f); [intros [= <-] [= <-]; done|].
  destruct (index_of f chans); [|done]. intros [= <-]. by apply IH.
Qed.

Lemma demo_cfg_laws : @Cfg80211Laws demo_cfg.
Proof.
  assert (forall w f b0 b i ch, get_channel_in w f b0 = Some (b, i) -> chan_at w b i = Some ch ->
    center_freq ch = f) as Hg.
  { intros w f b0 b i ch. unfold get_channel_in.
    destruct (bands w !! b0) as [[chans|]|] eqn:E; [|done|done].
    destruct (index_of f chans) as [j|] eqn:Ej; [|done]. intros [= <- <-].
    unfold chan_at. rewrite E. by apply index_of_freq. }
  intros w f b i ch. simpl. destruct (get_channel_in w f 0) as [p|] eqn:E.
  - intros [= ->]. by eapply Hg.
  - by apply Hg.
Qed.

Definition demo_wiphy : wiphy :=
  let ch f fl := {| center_freq := f; ch_flags := fl; beacon_found := true |} in
  {| bands := [Some [ch 2467 2]; Some [ch 5180 2; ch 5300 0]; None];
     regulatory_flags := 0; reg_notifier := 0 |}.

Definition demo_reg (rd : Z) : ath_regulatory :=
  {| alpha2 := alpha2_00; region := NL80211_DFS_UNSET; country_code := 0; max_power_level := 0;
     current_rd := rd; power_limit := 0; regpair := None |}.

Definition demo_common (rd : Z) : ath_common_reg :=
  {| regulatory := demo_reg rd; reg_world_copy := demo_reg 0 |}.

Definition demo_request (i : nl80211_reg_initiator) (iso : string) : regulatory_request :=
  {| rq_initiator := i; rq_alpha2 := iso_chars iso; rq_dfs_region := NL80211_DFS_FCC |}.

(** The state after [ath_regd_init] on the demonstration device. *)
Definition demo_booted (rd : Z) : wiphy * ath_common_reg :=
  match @ath_regd_init demo_cfg (demo_common rd) demo_wiphy 7 with
  | Ok (_, w, c) => (w, c)
  | Oops => (demo_wiphy, demo_common rd)
  end.

Lemma regd_init_country_witness :
  exists rp, fst (__ath_regd_init (demo_reg 0xC348)) = 0 /\ reg_domain rp = FCC3_FCCA.
Proof.
  destruct (regd_init_country (demo_reg 0xC348) (country_of CTRY_UNITED_STATES FCC3_FCCA "US") true)
    as (rp & _ & Hd & ->).
  - apply (find_country_some CTRY_UNITED_STATES). vm_compute. reflexivity.
  - done.
  - done.
  - reflexivity.
  - by exists rp.
Defined.

Lemma regd_init_radar_protected_witness : radar_marked (fst (demo_booted 0x60)).
Proof.
  apply (@regd_init_radar_protected demo_cfg demo_cfg_laws (demo_common 0x60) demo_wiphy 7
    (fst (demo_booted 0x60)) (snd (demo_booted 0x60))). vm_compute. reflexivity.
Defined.

(** The state after a notification. *)
Definition demo_notified (rq : regulatory_request) (s : wiphy * ath_common_reg)
  : wiphy * ath_common_reg :=
  match @ath_reg_notifier_apply demo_cfg (fst s) (Some rq) (snd s) with
  | Ok s => s
  | Oops => s
  end.

Lemma notifier_radar_protected_witness :
  radar_marked (fst (demo_notified (demo_request NL80211_REGDOM_SET_BY_COUNTRY_IE "DE") (demo_booted 0x60))).
Proof.
  apply (@notifier_radar_protected demo_cfg demo_cfg_laws (fst (demo_booted 0x60))
    (Some (demo_request NL80211_REGDOM_SET_BY_COUNTRY_IE "DE")) (snd (demo_booted 0x60)) _
    (snd (demo_notified (demo_request NL80211_REGDOM_SET_BY_COUNTRY_IE "DE") (demo_booted 0x60)))).
  vm_compute. reflexivity.
Defined.

Lemma world_roaming_restored_witness :
  let de := demo_request NL80211_REGDOM_SET_BY_COUNTRY_IE "DE" in
  let core := demo_request NL80211_REGDOM_SET_BY_CORE "00" in
  regulatory (snd (demo_notified core (demo_notified de (demo_booted 0x60)))) =
  regulatory (snd (demo_booted 0x60)).
Proof.
  intros de core.
  apply (@world_roaming_restored demo_cfg (demo_common 0x60) demo_wiphy 7 (fst (demo_booted 0x60))
    (snd (demo_booted 0x60)) [Some de] (fst (demo_notified de (demo_booted 0x60)))
    (snd (demo_notified de (demo_booted 0x60))) core
    (fst (demo_notified core (demo_notified de (demo_booted 0x60)))));
    vm_compute; reflexivity.
Defined.

Lemma notifier_never_faults_witness :
  exists w1 c1, @notify_all demo_cfg [Some (demo_request NL80211_REGDOM_SET_BY_COUNTRY_IE "DE"); None]
    (demo_booted 0x60) = Ok (w1, c1).
Proof.
  apply (@notifier_never_faults demo_cfg (demo_common 0x60) demo_wiphy 7
    (fst (demo_booted 0x60)) (snd (demo_booted 0x60))).
  - vm_compute. reflexivity.
  - vm_compute. reflexivity.
  - repeat constructor; [|done]. intros r [= <-]. vm_compute. discriminate.
Defined.

Lemma dyn_country_db_faults_witness :
  @__ath_reg_dyn_country demo_cfg demo_wiphy (demo_reg 0x60)
    (demo_request NL80211_REGDOM_SET_BY_COUNTRY_IE "DB") = Oops.
Proof. apply (@dyn_country_db_faults demo_cfg); vm_compute; reflexivity. Defined.

Lemma dyn_country_co_world_witness :
  exists w' reg', @__ath_reg_dyn_country demo_cfg demo_wiphy (demo_reg 0x60)
    (demo_request NL80211_REGDOM_SET_BY_USER "CO") = Ok (0, w', reg') /\ current_rd reg' = 0x64.
Proof.
  destruct (@__ath_reg_dyn_country demo_cfg demo_wiphy (demo_reg 0x60)
    (demo_request NL80211_REGDOM_SET_BY_USER "CO")) as [[[r w'] reg']|] eqn:E; [|vm_compute in E; discriminate].
  assert (r = 0) as -> by (vm_compute in E; by injection E as <- _ _).
  exists w', reg'. split; [done|].
  by apply (@dyn_country_co_world demo_cfg demo_wiphy (demo_reg 0x60)
    (demo_request NL80211_REGDOM_SET_BY_USER "CO") w' reg').
Defined.
