(* ===== verification/KeyCache.v ===== *)
(** Hardware key cache and common register helpers (src/real/ath/key.c,
    src/real/ath/hw.c, src/real/ath/reg.h and the key fields of
    src/real/ath/ath.h).

    The register access functions of [common->ops] are supplied by the bus
    driver. Here a register write takes effect at once and is appended to a
    log, so that the order of the writes, which the hardware depends on, can
    be stated; the write buffer (enabled and flushed around groups of writes)
    delays writes but keeps their order, so it does not appear. *)

From S2P Require Import Prelude.

(** * Registers (reg.h) *)

Definition AR_MIBC : Z := 0x0040.
Definition AR_MIBC_FMC : Z := 2.
Definition AR_STA_ID0 : Z := 0x8000.
Definition AR_STA_ID1 : Z := 0x8004.
Definition AR_STA_ID1_SADH_MASK : Z := 0xffff.
Definition AR_BSSMSKL : Z := 0x80e0.
Definition AR_BSSMSKU : Z := 0x80e4.
Definition AR_TFCNT : Z := 0x80ec.
Definition AR_RFCNT : Z := 0x80f0.
Definition AR_RCCNT : Z := 0x80f4.
Definition AR_CCCNT : Z := 0x80f8.
Definition AR_KEYTABLE_0 : Z := 0x8800.
Definition AR_KEYTABLE (n : Z) : Z := AR_KEYTABLE_0 + n * 32.
Definition AR_KEYTABLE_TYPE_40 : Z := 0.
Definition AR_KEYTABLE_TYPE_104 : Z := 1.
Definition AR_KEYTABLE_TYPE_128 : Z := 3.
Definition AR_KEYTABLE_TYPE_TKIP : Z := 4.
Definition AR_KEYTABLE_TYPE_AES : Z := 5.
Definition AR_KEYTABLE_TYPE_CCM : Z := 6.
Definition AR_KEYTABLE_TYPE_CLR : Z := 7.
Definition AR_KEYTABLE_VALID : Z := 0x8000.
Definition AR_KEYTABLE_KEY0 (n : Z) : Z := AR_KEYTABLE n + 0.
Definition AR_KEYTABLE_KEY1 (n : Z) : Z := AR_KEYTABLE n + 4.
Definition AR_KEYTABLE_KEY2 (n : Z) : Z := AR_KEYTABLE n + 8.
Definition AR_KEYTABLE_KEY3 (n : Z) : Z := AR_KEYTABLE n + 12.
Definition AR_KEYTABLE_KEY4 (n : Z) : Z := AR_KEYTABLE n + 16.
Definition AR_KEYTABLE_TYPE (n : Z) : Z := AR_KEYTABLE n + 20.
Definition AR_KEYTABLE_MAC0 (n : Z) : Z := AR_KEYTABLE n + 24.
Definition AR_KEYTABLE_MAC1 (n : Z) : Z := AR_KEYTABLE n + 28.

(** * Data *)

Inductive ath_cipher := ATH_CIPHER_WEP | ATH_CIPHER_AES_OCB | ATH_CIPHER_AES_CCM
  | ATH_CIPHER_CKIP | ATH_CIPHER_TKIP | ATH_CIPHER_CLR | ATH_CIPHER_MIC.

(** [kv_data] are the 32 bytes of the three adjacent arrays [kv_val] (16),
    [kv_mic] (8) and [kv_txmic] (8): [ath_key_config] copies up to 32 bytes
    of key material across them with one [memcpy]. *)
Record ath_keyval := {
  kv_type : ath_cipher;
  kv_len : Z;           (* u16 *)
  kv_data : list Z;
}.
#[export] Instance eta_ath_keyval : Eta ath_keyval := fun r =>
  Build_ath_keyval (kv_type r) (kv_len r) (kv_data r).

Definition slice (off n : nat) (l : list Z) : list Z := take n (drop off l).
Definition kv_val (k : ath_keyval) : list Z := slice 0 16 (kv_data k).
Definition kv_mic (k : ath_keyval) : list Z := slice 16 8 (kv_data k).
Definition kv_txmic (k : ath_keyval) : list Z := slice 24 8 (kv_data k).

(** [memcpy] of 8 bytes into [kv_mic] or [kv_txmic]. *)
Definition set_mic (mic : list Z) (k : ath_keyval) : ath_keyval :=
  k <| kv_data := kv_val k ++ slice 0 8 mic ++ kv_txmic k |>.
Definition set_txmic (mic : list Z) (k : ath_keyval) : ath_keyval :=
  k <| kv_data := kv_val k ++ kv_mic k ++ slice 0 8 mic |>.

Definition ATH_CRYPT_CAP_CIPHER_AESCCM : Z := 1.
Definition ATH_CRYPT_CAP_MIC_COMBINED : Z := 2.
Definition ATH_KEYMAX : Z := 128.

Record ath_cycle_counters := {
  cc_cycles : Z; cc_rx_busy : Z; cc_rx_frame : Z; cc_tx_frame : Z; (* u32 *)
}.

(** The fields of [struct ath_common] used by key.c and hw.c, with the
    register file and the log of the writes (latest last). *)
Record ath_common := {
  macaddr : list Z;
  bssidmask : list Z;
  keymax : Z;
  keymap : Z;       (* bitmap of ATH_KEYMAX bits *)
  tkip_keymap : Z;
  ccmp_keymap : Z;
  crypt_caps : Z;
  clockrate : Z;
  cc_ani : ath_cycle_counters;
  cc_survey : ath_cycle_counters;
  regs : gmap Z Z;
  reg_log : list (Z * Z);
}.
#[export] Instance eta_ath_common : Eta ath_common := fun r =>
  Build_ath_common (macaddr r) (bssidmask r) (keymax r) (keymap r) (tkip_keymap r)
    (ccmp_keymap r) (crypt_caps r) (clockrate r) (cc_ani r) (cc_survey r) (regs r) (reg_log r).

Definition REG_READ (c : ath_common) (a : Z) : Z := default 0 (regs c !! a).
Definition REG_WRITE (a v : Z) (c : ath_common) : ath_common :=
  c <| regs ::= <[a := u32 v]> |> <| reg_log ::= fun l => l ++ [(a, u32 v)] |>.

(** * Bytes *)

Definition byte_at (l : list Z) (i : nat) : Z := default 0 (l !! i).
Definition get_unaligned_le16 (l : list Z) (off : nat) : Z :=
  byte_at l off + 256 * byte_at l (off + 1).
Definition get_unaligned_le32 (l : list Z) (off : nat) : Z :=
  get_unaligned_le16 l off + 65536 * get_unaligned_le16 l (off + 2).

(** * Key cache entries *)

Definition has_cap (c : ath_common) (cap : Z) : bool := has (crypt_caps c) cap.

Definition ath_hw_keyreset (c : ath_common) (entry : Z) : bool * ath_common :=
  if keymax c <=? entry then (false, c)
  else
    let keyType := REG_READ c (AR_KEYTABLE_TYPE entry) in
    let c := REG_WRITE (AR_KEYTABLE_KEY0 entry) 0 c in
    let c := REG_WRITE (AR_KEYTABLE_KEY1 entry) 0 c in
    let c := REG_WRITE (AR_KEYTABLE_KEY2 entry) 0 c in
    let c := REG_WRITE (AR_KEYTABLE_KEY3 entry) 0 c in
    let c := REG_WRITE (AR_KEYTABLE_KEY4 entry) 0 c in
    let c := REG_WRITE (AR_KEYTABLE_TYPE entry) AR_KEYTABLE_TYPE_CLR c in
    let c := REG_WRITE (AR_KEYTABLE_MAC0 entry) 0 c in
    let c := REG_WRITE (AR_KEYTABLE_MAC1 entry) 0 c in
    let c :=
      if keyType =? AR_KEYTABLE_TYPE_TKIP then
        let micentry := u16 (entry + 64) in
        let c := REG_WRITE (AR_KEYTABLE_KEY0 micentry) 0 c in
        let c := REG_WRITE (AR_KEYTABLE_KEY1 micentry) 0 c in
        let c := REG_WRITE (AR_KEYTABLE_KEY2 micentry) 0 c in
        let c := REG_WRITE (AR_KEYTABLE_KEY3 micentry) 0 c in
        if has_cap c ATH_CRYPT_CAP_MIC_COMBINED then
          let c := REG_WRITE (AR_KEYTABLE_KEY4 micentry) 0 c in
          REG_WRITE (AR_KEYTABLE_TYPE micentry) AR_KEYTABLE_TYPE_CLR c
        else c
      else c in
    (true, c).

(** The register image of a MAC address: [macLo] and [macHi | unicast_flag]. *)
Definition mac_image (mac : option (list Z)) : Z * Z :=
  match mac with
  | Some m =>
      let unicast_flag := if has (byte_at m 0) 1 then 0 else AR_KEYTABLE_VALID in
      let macLo := get_unaligned_le32 m 0 in
      let macHi := get_unaligned_le16 m 4 in
      let macLo := macLo .>> 1 in
      let macLo := macLo .| u32 ((macHi .& 1) .<< 31) in
      let macHi := macHi .>> 1 in
      (macLo, macHi .| unicast_flag)
  | None => (0, 0 .| AR_KEYTABLE_VALID)
  end.

Definition ath_hw_keysetmac (c : ath_common) (entry : Z) (mac : option (list Z))
  : bool * ath_common :=
  if keymax c <=? entry then (false, c)
  else
    let '(macLo, macHi) := mac_image mac in
    let c := REG_WRITE (AR_KEYTABLE_MAC0 entry) macLo c in
    let c := REG_WRITE (AR_KEYTABLE_MAC1 entry) macHi c in
    (true, c).

Definition WLAN_KEY_LEN_WEP40 : Z := 5.
Definition WLAN_KEY_LEN_WEP104 : Z := 13.

(** The [switch] on the cipher: the key type, or [None] for [return false]. *)
Definition key_type_of (c : ath_common) (entry : Z) (k : ath_keyval) : option Z :=
  match kv_type k with
  | ATH_CIPHER_AES_OCB => Some AR_KEYTABLE_TYPE_AES
  | ATH_CIPHER_AES_CCM =>
      if negb (has_cap c ATH_CRYPT_CAP_CIPHER_AESCCM) then None else Some AR_KEYTABLE_TYPE_CCM
  | ATH_CIPHER_TKIP =>
      if keymax c <=? entry + 64 then None else Some AR_KEYTABLE_TYPE_TKIP
  | ATH_CIPHER_WEP =>
      if kv_len k <? WLAN_KEY_LEN_WEP40 then None
      else if kv_len k <=? WLAN_KEY_LEN_WEP40 then Some AR_KEYTABLE_TYPE_40
      else if kv_len k <=? WLAN_KEY_LEN_WEP104 then Some AR_KEYTABLE_TYPE_104
      else Some AR_KEYTABLE_TYPE_128
  | ATH_CIPHER_CLR => Some AR_KEYTABLE_TYPE_CLR
  | ATH_CIPHER_CKIP | ATH_CIPHER_MIC => None
  end.

(** The five words of key material: 32, 16, 32, 16 and 32 bits. *)
Definition key_words (k : ath_keyval) : Z * Z * Z * Z * Z :=
  let key4 := get_unaligned_le32 (kv_val k) 12 in
  (get_unaligned_le32 (kv_val k) 0, get_unaligned_le16 (kv_val k) 4,
   get_unaligned_le32 (kv_val k) 6, get_unaligned_le16 (kv_val k) 10,
   if kv_len k <=? WLAN_KEY_LEN_WEP104 then key4 .& 0xff else key4).

Definition write_tkip_mic (c : ath_common) (micentry : Z) (k : ath_keyval) : ath_common :=
  if has_cap c ATH_CRYPT_CAP_MIC_COMBINED then
    let mic0 := get_unaligned_le32 (kv_mic k) 0 in
    let mic2 := get_unaligned_le32 (kv_mic k) 4 in
    let mic1 := get_unaligned_le16 (kv_txmic k) 2 .& 0xffff in
    let mic3 := get_unaligned_le16 (kv_txmic k) 0 .& 0xffff in
    let mic4 := get_unaligned_le32 (kv_txmic k) 4 in
    let c := REG_WRITE (AR_KEYTABLE_KEY0 micentry) mic0 c in
    let c := REG_WRITE (AR_KEYTABLE_KEY1 micentry) mic1 c in
    let c := REG_WRITE (AR_KEYTABLE_KEY2 micentry) mic2 c in
    let c := REG_WRITE (AR_KEYTABLE_KEY3 micentry) mic3 c in
    let c := REG_WRITE (AR_KEYTABLE_KEY4 micentry) mic4 c in
    REG_WRITE (AR_KEYTABLE_TYPE micentry) AR_KEYTABLE_TYPE_CLR c
  else
    let mic0 := get_unaligned_le32 (kv_mic k) 0 in
    let mic2 := get_unaligned_le32 (kv_mic k) 4 in
    let c := REG_WRITE (AR_KEYTABLE_KEY0 micentry) mic0 c in
    let c := REG_WRITE (AR_KEYTABLE_KEY1 micentry) 0 c in
    let c := REG_WRITE (AR_KEYTABLE_KEY2 micentry) mic2 c in
    let c := REG_WRITE (AR_KEYTABLE_KEY3 micentry) 0 c in
    let c := REG_WRITE (AR_KEYTABLE_KEY4 micentry) 0 c in
    REG_WRITE (AR_KEYTABLE_TYPE micentry) AR_KEYTABLE_TYPE_CLR c.

Definition ath_hw_set_keycache_entry (c : ath_common) (entry : Z) (k : ath_keyval)
    (mac : option (list Z)) : bool * ath_common :=
  if keymax c <=? entry then (false, c)
  else
    match key_type_of c entry k with
    | None => (false, c)
    | Some keyType =>
        let '(key0, key1, key2, key3, key4) := key_words k in
        if keyType =? AR_KEYTABLE_TYPE_TKIP then
          let micentry := u16 (entry + 64) in
          let c := REG_WRITE (AR_KEYTABLE_KEY0 entry) (Z.lnot key0) c in
          let c := REG_WRITE (AR_KEYTABLE_KEY1 entry) (Z.lnot key1) c in
          let c := REG_WRITE (AR_KEYTABLE_KEY2 entry) key2 c in
          let c := REG_WRITE (AR_KEYTABLE_KEY3 entry) key3 c in
          let c := REG_WRITE (AR_KEYTABLE_KEY4 entry) key4 c in
          let c := REG_WRITE (AR_KEYTABLE_TYPE entry) keyType c in
          let '(_, c) := ath_hw_keysetmac c entry mac in
          let c := write_tkip_mic c micentry k in
          let c := REG_WRITE (AR_KEYTABLE_MAC0 micentry) 0 c in
          let c := REG_WRITE (AR_KEYTABLE_MAC1 micentry) 0 c in
          let c := REG_WRITE (AR_KEYTABLE_KEY0 entry) key0 c in
          let c := REG_WRITE (AR_KEYTABLE_KEY1 entry) key1 c in
          (true, c)
        else
          let c := REG_WRITE (AR_KEYTABLE_KEY0 entry) key0 c in
          let c := REG_WRITE (AR_KEYTABLE_KEY1 entry) key1 c in
          let c := REG_WRITE (AR_KEYTABLE_KEY2 entry) key2 c in
          let c := REG_WRITE (AR_KEYTABLE_KEY3 entry) key3 c in
          let c := REG_WRITE (AR_KEYTABLE_KEY4 entry) key4 c in
          let c := REG_WRITE (AR_KEYTABLE_TYPE entry) keyType c in
          let '(_, c) := ath_hw_keysetmac c entry mac in
          (true, c)
    end.

Definition NL80211_TKIP_DATA_OFFSET_TX_MIC_KEY : nat := 16.
Definition NL80211_TKIP_DATA_OFFSET_RX_MIC_KEY : nat := 24.

Definition ath_setkey_tkip (c : ath_common) (keyix : Z) (key : list Z) (hk : ath_keyval)
    (addr : option (list Z)) (authenticator : bool) : bool * ath_common :=
  let key_txmic := drop NL80211_TKIP_DATA_OFFSET_TX_MIC_KEY key in
  let key_rxmic := drop NL80211_TKIP_DATA_OFFSET_RX_MIC_KEY key in
  match addr with
  | None =>
      let m := if authenticator then key_txmic else key_rxmic in
      ath_hw_set_keycache_entry c keyix (set_txmic m (set_mic m hk)) addr
  | Some _ =>
      if has_cap c ATH_CRYPT_CAP_MIC_COMBINED then
        ath_hw_set_keycache_entry c keyix (set_txmic key_txmic (set_mic key_rxmic hk)) addr
      else
        let hk := set_mic key_txmic hk in
        let '(ok, c) := ath_hw_set_keycache_entry c keyix hk None in
        if negb ok then (false, c)
        else
          let hk := set_mic key_rxmic hk in
          ath_hw_set_keycache_entry c (u16 (keyix + 32)) hk addr
  end.

(** * Slots *)

Definition IEEE80211_WEP_NKID : Z := 4.
Definition WLAN_CIPHER_SUITE_WEP40 : Z := 0x000FAC01.
Definition WLAN_CIPHER_SUITE_TKIP : Z := 0x000FAC02.
Definition WLAN_CIPHER_SUITE_CCMP : Z := 0x000FAC04.
Definition WLAN_CIPHER_SUITE_WEP104 : Z := 0x000FAC05.

(** [test_bit(i, common->keymap)]. The bitmaps are adjacent arrays of
    [ATH_KEYMAX] bits, so an index past the end of [keymap] reads a bit of
    [tkip_keymap]. *)
Definition test_bit (i : Z) (c : ath_common) : bool :=
  if i <? ATH_KEYMAX then Z.testbit (keymap c) i
  else Z.testbit (tkip_keymap c) (i - ATH_KEYMAX).

(** [for (i = lo; i < hi; i++)] with an early return. *)
Fixpoint first_from (f : Z -> option Z) (i : Z) (n : nat) : option Z :=
  match n with
  | O => None
  | S n => match f i with Some r => Some r | None => first_from f (i + 1) n end
  end.

Definition for_range (lo hi : Z) (f : Z -> option Z) : option Z :=
  first_from f lo (Z.to_nat (hi - lo)).

Definition ath_reserve_key_cache_slot_tkip (c : ath_common) : Z :=
  default (-1) (for_range IEEE80211_WEP_NKID (keymax c / 2) (fun i =>
    if test_bit i c || test_bit (i + 64) c then None
    else if negb (has_cap c ATH_CRYPT_CAP_MIC_COMBINED) &&
            (test_bit (i + 32) c || test_bit (i + 64 + 32) c) then None
    else Some i)).

(** A slot whose TKIP partner slots are already in use (split MIC). *)
Definition partial_slot_split (c : ath_common) (i : Z) : option Z :=
  if negb (test_bit i c) &&
     (test_bit (i + 32) c || test_bit (i + 64) c || test_bit (i + 64 + 32) c) then Some i
  else if negb (test_bit (i + 32) c) &&
     (test_bit i c || test_bit (i + 64) c || test_bit (i + 64 + 32) c) then Some (i + 32)
  else if negb (test_bit (i + 64) c) &&
     (test_bit i c || test_bit (i + 32) c || test_bit (i + 64 + 32) c) then Some (i + 64)
  else if negb (test_bit (i + 64 + 32) c) &&
     (test_bit i c || test_bit (i + 32) c || test_bit (i + 64) c) then Some (i + 64 + 32)
  else None.

(** The same with a combined MIC entry. *)
Definition partial_slot_combined (c : ath_common) (i : Z) : option Z :=
  if negb (test_bit i c) && test_bit (i + 64) c then Some i
  else if test_bit i c && negb (test_bit (i + 64) c) then Some (i + 64)
  else None.

Definition any_slot (c : ath_common) (i : Z) : option Z :=
  if (64 <=? i) && (i <? 64 + IEEE80211_WEP_NKID) then None
  else if negb (has_cap c ATH_CRYPT_CAP_MIC_COMBINED) &&
          (((32 <=? i) && (i <? 32 + IEEE80211_WEP_NKID)) ||
           ((64 + 32 <=? i) && (i <? 64 + 32 + IEEE80211_WEP_NKID))) then None
  else if negb (test_bit i c) then Some i
  else None.

Definition ath_reserve_key_cache_slot (c : ath_common) (cipher : Z) : Z :=
  if cipher =? WLAN_CIPHER_SUITE_TKIP then ath_reserve_key_cache_slot_tkip c
  else
    let partial :=
      if negb (has_cap c ATH_CRYPT_CAP_MIC_COMBINED) then
        for_range IEEE80211_WEP_NKID (keymax c / 4) (partial_slot_split c)
      else for_range IEEE80211_WEP_NKID (keymax c / 2) (partial_slot_combined c) in
    match partial with
    | Some i => i
    | None => default (-1) (for_range IEEE80211_WEP_NKID (keymax c) (any_slot c))
    end.

(** * mac80211 interface *)

Inductive nl80211_iftype := NL80211_IFTYPE_ADHOC | NL80211_IFTYPE_STATION | NL80211_IFTYPE_AP
  | NL80211_IFTYPE_OTHER.
#[export] Instance iftype_eq_dec : EqDecision nl80211_iftype.
Proof. solve_decision. Defined.

Record ieee80211_vif := { vif_type : nl80211_iftype; vif_addr : list Z }.

Record ieee80211_key_conf := {
  cipher : Z;
  keyidx : Z;
  pairwise : bool;     (* flags & IEEE80211_KEY_FLAG_PAIRWISE *)
  key : list Z;        (* keylen bytes *)
  hw_key_idx : Z;
}.
#[export] Instance eta_key_conf : Eta ieee80211_key_conf := fun r =>
  Build_ieee80211_key_conf (cipher r) (keyidx r) (pairwise r) (key r) (hw_key_idx r).

Definition EOPNOTSUPP : Z := 95.
Definition EIO : Z := 5.
Definition ENOSPC : Z := 28.

Definition cipher_of_suite (suite : Z) : option ath_cipher :=
  if suite =? 0 then Some ATH_CIPHER_CLR
  else if (suite =? WLAN_CIPHER_SUITE_WEP40) || (suite =? WLAN_CIPHER_SUITE_WEP104)
  then Some ATH_CIPHER_WEP
  else if suite =? WLAN_CIPHER_SUITE_TKIP then Some ATH_CIPHER_TKIP
  else if suite =? WLAN_CIPHER_SUITE_CCMP then Some ATH_CIPHER_AES_CCM
  else None.

(** [gmac[0] |= 0x01] *)
Definition group_mac (addr : list Z) : list Z :=
  match addr with
  | b :: rest => (b .| 1) :: rest
  | [] => []
  end.

(** The choice of the slot and of the MAC address: an error code, or the slot
    ([-1] when none is free) and the address. *)
Definition key_slot (c : ath_common) (vif : ieee80211_vif) (sta : option (list Z))
    (k : ieee80211_key_conf) : Z + (Z * option (list Z)) :=
  if negb (pairwise k) then
    match vif_type vif with
    | NL80211_IFTYPE_AP =>
        inr (ath_reserve_key_cache_slot c (cipher k), Some (group_mac (vif_addr vif)))
    | NL80211_IFTYPE_ADHOC =>
        match sta with
        | None => inr (keyidx k, None)
        | Some addr => inr (ath_reserve_key_cache_slot c (cipher k), Some (group_mac addr))
        end
    | _ => inr (keyidx k, None)
    end
  else
    match sta with
    | None => inl (- EOPNOTSUPP)
    | Some addr =>
        if negb (keyidx k =? 0) then
          if negb (bool_decide (vif_type vif = NL80211_IFTYPE_AP)) then inr (keyidx k, Some addr)
          else inl (- EIO)
        else inr (ath_reserve_key_cache_slot c (cipher k), Some addr)
    end.

(** The zeroed [struct ath_keyval] with the key copied in; a key of more than
    32 bytes would be copied past the end of the structure. *)
Definition keyval_of (t : ath_cipher) (k : list Z) : outcome ath_keyval :=
  if (32 <? length k)%nat then Oops
  else Ok {| kv_type := t; kv_len := u16 (Z.of_nat (length k));
             kv_data := k ++ replicate (32 - length k) 0 |}.

Definition set_bit (i m : Z) : Z := Z.setbit m i.
Definition clear_bit (i m : Z) : Z := Z.clearbit m i.

(** The bookkeeping at the end of [ath_key_config]. *)
Definition mark_key (c : ath_common) (suite idx : Z) : ath_common :=
  let c := c <| keymap ::= set_bit idx |> in
  let c := if suite =? WLAN_CIPHER_SUITE_CCMP then c <| ccmp_keymap ::= set_bit idx |> else c in
  if suite =? WLAN_CIPHER_SUITE_TKIP then
    let c := c <| keymap ::= set_bit (idx + 64) |> in
    let c := c <| tkip_keymap ::= set_bit idx |> in
    let c := c <| tkip_keymap ::= set_bit (idx + 64) |> in
    if negb (has_cap c ATH_CRYPT_CAP_MIC_COMBINED) then
      let c := c <| keymap ::= set_bit (idx + 32) |> in
      let c := c <| keymap ::= set_bit (idx + 64 + 32) |> in
      let c := c <| tkip_keymap ::= set_bit (idx + 32) |> in
      c <| tkip_keymap ::= set_bit (idx + 64 + 32) |>
    else c
  else c.

Definition ath_key_config (c : ath_common) (vif : ieee80211_vif) (sta : option (list Z))
    (k : ieee80211_key_conf) : outcome (Z * ath_common) :=
  match cipher_of_suite (cipher k) with
  | None => Ok (- EOPNOTSUPP, c)
  | Some t =>
      obind (keyval_of t (key k)) (fun hk =>
        match key_slot c vif sta k with
        | inl err => Ok (err, c)
        | inr (idx, mac) =>
            if idx <? 0 then Ok (- ENOSPC, c)
            else
              let '(ret, c) :=
                if cipher k =? WLAN_CIPHER_SUITE_TKIP then
                  ath_setkey_tkip c (u16 idx) (key k) hk mac
                    (bool_decide (vif_type vif = NL80211_IFTYPE_AP))
                else ath_hw_set_keycache_entry c (u16 idx) hk mac in
              if negb ret then Ok (- EIO, c) else Ok (idx, mark_key c (cipher k) idx)
        end)
  end.

Definition ath_key_delete (c : ath_common) (k : ieee80211_key_conf) : ath_common :=
  let idx := hw_key_idx k in
  let '(_, c) := ath_hw_keyreset c (u16 idx) in
  if idx <? IEEE80211_WEP_NKID then c
  else
    let c := c <| keymap ::= clear_bit idx |> in
    let c := c <| ccmp_keymap ::= clear_bit idx |> in
    if negb (cipher k =? WLAN_CIPHER_SUITE_TKIP) then c
    else
      let c := c <| keymap ::= clear_bit (idx + 64) |> in
      let c := c <| tkip_keymap ::= clear_bit idx |> in
      let c := c <| tkip_keymap ::= clear_bit (idx + 64) |> in
      if negb (has_cap c ATH_CRYPT_CAP_MIC_COMBINED) then
        let '(_, c) := ath_hw_keyreset c (u16 (idx + 32)) in
        let c := c <| keymap ::= clear_bit (idx + 32) |> in
        let c := c <| keymap ::= clear_bit (idx + 64 + 32) |> in
        let c := c <| tkip_keymap ::= clear_bit (idx + 32) |> in
        c <| tkip_keymap ::= clear_bit (idx + 64 + 32) |>
      else c.

(** * BSSID mask and cycle counters (hw.c) *)

Definition ath_hw_setbssidmask (c : ath_common) : ath_common :=
  let c := REG_WRITE AR_STA_ID0 (get_unaligned_le32 (macaddr c) 0) c in
  let id1 := clr (REG_READ c AR_STA_ID1) AR_STA_ID1_SADH_MASK in
  let id1 := id1 .| get_unaligned_le16 (macaddr c) 4 in
  let c := REG_WRITE AR_STA_ID1 id1 c in
  let c := REG_WRITE AR_BSSMSKL (get_unaligned_le32 (bssidmask c) 0) c in
  REG_WRITE AR_BSSMSKU (get_unaligned_le16 (bssidmask c) 4) c.

Definition cc_add (cc : ath_cycle_counters) (cycles busy rx tx : Z) : ath_cycle_counters :=
  {| cc_cycles := u32 (cc_cycles cc + cycles); cc_rx_busy := u32 (cc_rx_busy cc + busy);
     cc_rx_frame := u32 (cc_rx_frame cc + rx); cc_tx_frame := u32 (cc_tx_frame cc + tx) |}.

Definition ath_hw_cycle_counters_update (c : ath_common) : ath_common :=
  let c := REG_WRITE AR_MIBC AR_MIBC_FMC c in
  let cycles := REG_READ c AR_CCCNT in
  let busy := REG_READ c AR_RCCNT in
  let rx := REG_READ c AR_RFCNT in
  let tx := REG_READ c AR_TFCNT in
  let c := REG_WRITE AR_CCCNT 0 c in
  let c := REG_WRITE AR_RFCNT 0 c in
  let c := REG_WRITE AR_RCCNT 0 c in
  let c := REG_WRITE AR_TFCNT 0 c in
  let c := REG_WRITE AR_MIBC 0 c in
  let c := c <| cc_ani ::= fun cc => cc_add cc cycles busy rx tx |> in
  c <| cc_survey ::= fun cc => cc_add cc cycles busy rx tx |>.

(** Unsigned arithmetic; the quotient is stored into an [int32_t]. Division by
    zero (an unset [clockrate]) faults. *)
Definition ath_hw_get_listen_time (c : ath_common) : outcome (Z * ath_common) :=
  let cc := cc_ani c in
  let d := u32 (clockrate c * 1000) in
  if d =? 0 then Oops
  else
    let listen_time := s32 (u32 (cc_cycles cc - cc_rx_frame cc - cc_tx_frame cc) / d) in
    Ok (listen_time, c <| cc_ani := {| cc_cycles := 0; cc_rx_busy := 0; cc_rx_frame := 0; cc_tx_frame := 0 |} |>).

(** * Theorems: registers *)

Create Rewrite HintDb keyregs.

Lemma read_write_eq a v c : REG_READ (REG_WRITE a v c) a = u32 v.
Proof. unfold REG_READ, REG_WRITE. simpl. by rewrite lookup_insert_eq. Qed.
Lemma read_write_ne a b v c : a <> b -> REG_READ (REG_WRITE a v c) b = REG_READ c b.
Proof. intros. unfold REG_READ, REG_WRITE. simpl. by rewrite lookup_insert_ne. Qed.
Lemma log_write a v c : reg_log (REG_WRITE a v c) = reg_log c ++ [(a, u32 v)].
Proof. done. Qed.
Lemma keymax_write a v c : keymax (REG_WRITE a v c) = keymax c.
Proof. done. Qed.
Lemma has_cap_write a v c cap : has_cap (REG_WRITE a v c) cap = has_cap c cap.
Proof. done. Qed.
#[export] Hint Rewrite keymax_write has_cap_write : keyregs.

Ltac unfold_keyregs :=
  unfold AR_KEYTABLE_KEY0, AR_KEYTABLE_KEY1, AR_KEYTABLE_KEY2, AR_KEYTABLE_KEY3,
    AR_KEYTABLE_KEY4, AR_KEYTABLE_TYPE, AR_KEYTABLE_MAC0, AR_KEYTABLE_MAC1,
    AR_KEYTABLE, AR_KEYTABLE_0 in *.

(** Reads a register after a sequence of writes to key table registers. *)
Ltac read_back :=
  repeat first [ rewrite read_write_eq
               | rewrite read_write_ne by (unfold_keyregs; lia) ].

(** ** The writes come in pairs *)

(** The comment in [ath_hw_set_keycache_entry]: the key cache is updated by
    two 32-bit writes to the halves of an aligned 64-bit word, low half
    first. *)
Inductive paired : list (Z * Z) -> Prop :=
| paired_nil : paired []
| paired_cons a b v w l : (8 | a) -> b = a + 4 -> paired l -> paired ((a, v) :: (b, w) :: l).

Lemma paired_app l1 l2 : paired l1 -> paired l2 -> paired (l1 ++ l2).
Proof. induction 1; simpl; [done|]. intros. constructor; auto. Qed.

(** [c'] results from [c] by register writes that come in pairs and leave the
    registers outside [P] alone; nothing but registers changes. *)
Record pair_writes (P : Z -> Prop) (c c' : ath_common) : Prop := {
  pw_log : exists ws, reg_log c' = reg_log c ++ ws /\ paired ws;
  pw_frame : forall a, ~ P a -> REG_READ c' a = REG_READ c a;
  pw_keymax : keymax c' = keymax c;
  pw_caps : crypt_caps c' = crypt_caps c;
  pw_maps : keymap c' = keymap c /\ tkip_keymap c' = tkip_keymap c /\ ccmp_keymap c' = ccmp_keymap c;
}.

Lemma pair_writes_refl P c : pair_writes P c c.
Proof. constructor; try done. exists []. rewrite app_nil_r. split; [done|constructor]. Qed.

Lemma pair_writes_trans (P : Z -> Prop) c1 c2 c3 :
  pair_writes P c1 c2 -> pair_writes P c2 c3 -> pair_writes P c1 c3.
Proof.
  intros [(w1 & L1 & Hp1) F1 K1 C1 (M1 & T1 & S1)] [(w2 & L2 & Hp2) F2 K2 C2 (M2 & T2 & S2)].
  constructor; try congruence.
  - exists (w1 ++ w2). rewrite L2, L1, <- app_assoc. split; [done|by apply paired_app].
  - intros a Ha. by rewrite F2, F1.
  - split_and!; congruence.
Qed.

Lemma pair_writes_two (P : Z -> Prop) a b v w c :
  (8 | a) -> b = a + 4 -> P a -> P b -> pair_writes P c (REG_WRITE b w (REG_WRITE a v c)).
Proof.
  intros Ha -> Pa Pb. constructor; try done.
  - exists [(a, u32 v); (a + 4, u32 w)]. rewrite !log_write, <- app_assoc.
    split; [done|]. by repeat constructor.
  - intros x Hx. rewrite !read_write_ne; [done|congruence|congruence].
Qed.

Lemma pair_writes_weaken (P Q : Z -> Prop) c c' :
  (forall a, P a -> Q a) -> pair_writes P c c' -> pair_writes Q c c'.
Proof. intros HPQ []. constructor; try done. intros a Ha. apply pw_frame0. auto. Qed.

(** The registers of the key cache entry [n]. *)
Definition entry_regs (n a : Z) : Prop := AR_KEYTABLE n <= a < AR_KEYTABLE n + 32.

Ltac in_entry := unfold entry_regs; unfold_keyregs; lia.

Lemma keytable_aligned n k : (8 | k) -> (8 | AR_KEYTABLE n + k).
Proof.
  intros Hk. apply Z.divide_add_r; [|done]. unfold AR_KEYTABLE, AR_KEYTABLE_0.
  apply Z.divide_add_r; [by exists 4352|]. exists (n * 4). lia.
Qed.

(** Solves [pair_writes P c (REG_WRITE .. (REG_WRITE .. c))] chains. *)
Ltac pairs :=
  repeat (eapply pair_writes_trans;
    [|apply pair_writes_two;
      [apply keytable_aligned; first [by exists 0|by exists 1|by exists 2|by exists 3]
      |unfold_keyregs; lia|in_entry|in_entry]]);
  first [apply pair_writes_refl | idtac].

Lemma keysetmac_writes c e mac :
  pair_writes (entry_regs e) c (snd (ath_hw_keysetmac c e mac)).
Proof.
  unfold ath_hw_keysetmac. case_match; [apply pair_writes_refl|].
  destruct (mac_image mac) as [lo hi]. simpl. pairs.
Qed.

Lemma write_tkip_mic_writes c m k : pair_writes (entry_regs m) c (write_tkip_mic c m k).
Proof. unfold write_tkip_mic. case_match; cbv zeta; pairs. Qed.

(** The registers that loading the key [k] into entry [e] may change. *)
Definition load_regs (e : Z) (k : ath_keyval) (a : Z) : Prop :=
  entry_regs e a \/ (kv_type k = ATH_CIPHER_TKIP /\ entry_regs (e + 64) a).

Lemma key_type_tkip c e k t :
  key_type_of c e k = Some t ->
  (t = AR_KEYTABLE_TYPE_TKIP <-> kv_type k = ATH_CIPHER_TKIP) /\
  (kv_type k = ATH_CIPHER_TKIP -> e + 64 < keymax c) /\ in_u32 t.
Proof.
  unfold key_type_of, in_u32, AR_KEYTABLE_TYPE_AES, AR_KEYTABLE_TYPE_CCM, AR_KEYTABLE_TYPE_TKIP,
    AR_KEYTABLE_TYPE_40, AR_KEYTABLE_TYPE_104, AR_KEYTABLE_TYPE_128, AR_KEYTABLE_TYPE_CLR.
  destruct (kv_type k); repeat case_match; intros [= <-]; ztest; split_and!; try done; lia.
Qed.

(** What a key cache entry holds after a successful load. *)
Record key_loaded (c : ath_common) (e : Z) (k : ath_keyval) (mac : option (list Z)) : Prop := {
  kl_key0 : REG_READ c (AR_KEYTABLE_KEY0 e) = u32 (key_words k).1.1.1.1;
  kl_key1 : REG_READ c (AR_KEYTABLE_KEY1 e) = u32 (key_words k).1.1.1.2;
  kl_key2 : REG_READ c (AR_KEYTABLE_KEY2 e) = u32 (key_words k).1.1.2;
  kl_key3 : REG_READ c (AR_KEYTABLE_KEY3 e) = u32 (key_words k).1.2;
  kl_key4 : REG_READ c (AR_KEYTABLE_KEY4 e) = u32 (key_words k).2;
  kl_mac0 : REG_READ c (AR_KEYTABLE_MAC0 e) = u32 (mac_image mac).1;
  kl_mac1 : REG_READ c (AR_KEYTABLE_MAC1 e) = u32 (mac_image mac).2;
}.

Lemma keysetmac_in_range c e mac :
  e < keymax c ->
  ath_hw_keysetmac c e mac =
    (true, REG_WRITE (AR_KEYTABLE_MAC1 e) (mac_image mac).2
             (REG_WRITE (AR_KEYTABLE_MAC0 e) (mac_image mac).1 c)).
Proof.
  intros He. unfold ath_hw_keysetmac. destruct (Z.leb_spec (keymax c) e); [lia|].
  by destruct (mac_image mac).
Qed.

Lemma set_entry_spec c e k mac c' :
  0 <= e < 65536 - 64 ->
  ath_hw_set_keycache_entry c e k mac = (true, c') ->
  exists t, key_type_of c e k = Some t /\ e < keymax c /\ pair_writes (load_regs e k) c c' /\
    key_loaded c' e k mac /\ REG_READ c' (AR_KEYTABLE_TYPE e) = t.
Proof.
  intros He. unfold ath_hw_set_keycache_entry.
  destruct (Z.leb_spec (keymax c) e) as [|Hmax]; [done|].
  destruct (key_type_of c e k) as [t|] eqn:Et; [|done].
  destruct (key_type_tkip _ _ _ _ Et) as (Htk & _ & Htr).
  destruct (key_words k) as [[[[k0 k1] k2] k3] k4] eqn:Ek.
  destruct (Z.eqb_spec t AR_KEYTABLE_TYPE_TKIP) as [Ht|Ht].
  - rewrite keysetmac_in_range by done. rewrite (u16_id (e + 64)) by (unfold in_u16; lia).
    set (c1 := REG_WRITE (AR_KEYTABLE_MAC1 e) _ _).
    pose proof (write_tkip_mic_writes c1 (e + 64) k) as Hmic.
    intros [= <-]. exists t. split; [done|]. split; [done|]. apply Htk in Ht.
    assert (forall a, entry_regs e a -> REG_READ (write_tkip_mic c1 (e + 64) k) a = REG_READ c1 a) as Hfr.
    { intros a Ha. apply (pw_frame _ _ _ Hmic). unfold entry_regs, AR_KEYTABLE, AR_KEYTABLE_0 in *. lia. }
    split_and!.
    + eapply pair_writes_trans; [|eapply pair_writes_weaken; [|apply (pair_writes_two (entry_regs e))]].
      2: { intros a Ha. by left. }
      2: { apply keytable_aligned. by exists 0. }
      2: { unfold_keyregs; lia. }
      2, 3: in_entry.
      eapply pair_writes_trans; [|eapply pair_writes_weaken; [|apply (pair_writes_two (entry_regs (e + 64)))]].
      2: { intros a Ha. by right. }
      2: { apply keytable_aligned. by exists 3. }
      2: { unfold_keyregs; lia. }
      2, 3: in_entry.
      eapply pair_writes_trans; [|eapply pair_writes_weaken; [|exact Hmic]].
      2: { intros a Ha. by right. }
      subst c1. apply (pair_writes_weaken (entry_regs e)); [by left|]. pairs.
    + constructor; rewrite ?Ek; simpl; read_back; try done;
        (rewrite Hfr by in_entry); subst c1; by read_back.
    + read_back. rewrite Hfr by in_entry. subst c1. read_back. by apply u32_id.
  - rewrite keysetmac_in_range by done. intros [= <-]. exists t.
    split_and!; [done|done| | |].
    + apply (pair_writes_weaken (entry_regs e)); [by left|]. pairs.
    + constructor; rewrite ?Ek; simpl; by read_back.
    + read_back. by apply u32_id.
Qed.

Lemma set_entry_failed c e k mac c' :
  ath_hw_set_keycache_entry c e k mac = (false, c') -> c' = c.
Proof.
  unfold ath_hw_set_keycache_entry. case_match; [by intros [= <-]|].
  destruct (key_type_of c e k) as [t|]; [|by intros [= <-]].
  destruct (key_words k) as [[[[? ?] ?] ?] ?]. case_match.
  - by destruct (ath_hw_keysetmac _ e mac).
  - by destruct (ath_hw_keysetmac _ e mac).
Qed.

Lemma keyreset_spec c e b c' :
  0 <= e < 65536 - 64 -> ath_hw_keyreset c e = (b, c') ->
  b = (e <? keymax c) /\
  pair_writes (fun a => entry_regs e a \/
    (REG_READ c (AR_KEYTABLE_TYPE e) = AR_KEYTABLE_TYPE_TKIP /\ entry_regs (e + 64) a)) c c' /\
  (b = true ->
    REG_READ c' (AR_KEYTABLE_TYPE e) = AR_KEYTABLE_TYPE_CLR /\
    forall a, entry_regs e a -> a <> AR_KEYTABLE_TYPE e -> (4 | a) -> REG_READ c' a = 0).
Proof.
  intros He. unfold ath_hw_keyreset. rewrite Z.ltb_antisym.
  destruct (Z.leb_spec (keymax c) e) as [|Hmax].
  { intros [= <- <-]. split_and!; [done|apply pair_writes_refl|done]. }
  cbv zeta. set (c1 := REG_WRITE (AR_KEYTABLE_MAC1 e) 0 _).
  assert (pair_writes (entry_regs e) c c1) as H1 by (subst c1; pairs).
  assert (REG_READ c1 (AR_KEYTABLE_TYPE e) = AR_KEYTABLE_TYPE_CLR) as Ht by (subst c1; by read_back).
  assert (forall a, entry_regs e a -> a <> AR_KEYTABLE_TYPE e -> (4 | a) -> REG_READ c1 a = 0) as Hz.
  { intros a Ha Hne [q Hq]. unfold entry_regs in Ha. subst c1.
    assert (a = AR_KEYTABLE_KEY0 e \/ a = AR_KEYTABLE_KEY1 e \/ a = AR_KEYTABLE_KEY2 e \/
      a = AR_KEYTABLE_KEY3 e \/ a = AR_KEYTABLE_KEY4 e \/ a = AR_KEYTABLE_MAC0 e \/ a = AR_KEYTABLE_MAC1 e)
      as Hor by (unfold_keyregs; lia).
    clear Ha Hne Hq. by destruct Hor as [->|[->|[->|[->|[->|[->| ->]]]]]]; read_back. }
  destruct (Z.eqb_spec (REG_READ c (AR_KEYTABLE_TYPE e)) AR_KEYTABLE_TYPE_TKIP) as [Htk|Htk].
  - rewrite (u16_id (e + 64)) by (unfold in_u16; lia).
    match goal with |- context [if has_cap ?x _ then ?y else ?z] =>
      set (c2 := if has_cap x ATH_CRYPT_CAP_MIC_COMBINED then y else z) end.
    assert (pair_writes (entry_regs (e + 64)) c1 c2) as H2.
    { subst c2. case_match; pairs. }
    assert (forall a, entry_regs e a -> REG_READ c2 a = REG_READ c1 a) as Hfr.
    { intros a Ha. apply (pw_frame _ _ _ H2). unfold entry_regs, AR_KEYTABLE, AR_KEYTABLE_0 in *. lia. }
    intros [= <- <-]. split_and!; [done| |].
    + eapply pair_writes_trans; eapply pair_writes_weaken; [|exact H1| |exact H2]; [by left|by right].
    + intros _. split; [by rewrite Hfr by in_entry|]. intros a Ha. rewrite Hfr by done. by apply Hz.
  - intros [= <- <-]. split_and!; [done| |done].
    eapply pair_writes_weaken; [|exact H1]. by left.
Qed.

(** ** Reading an entry back *)

Fixpoint le_split (n : nat) (v : Z) : list Z :=
  match n with O => [] | S n => v mod 256 :: le_split n (v / 256) end.

(** The key bytes and the address held by an entry. The stored address lacks
    its lowest bit (the group bit), which is the inverse of the valid bit. *)
Definition entry_key (c : ath_common) (e : Z) : list Z :=
  le_split 4 (REG_READ c (AR_KEYTABLE_KEY0 e)) ++ le_split 2 (REG_READ c (AR_KEYTABLE_KEY1 e)) ++
  le_split 4 (REG_READ c (AR_KEYTABLE_KEY2 e)) ++ le_split 2 (REG_READ c (AR_KEYTABLE_KEY3 e)) ++
  le_split 4 (REG_READ c (AR_KEYTABLE_KEY4 e)).

Definition entry_mac (c : ath_common) (e : Z) : list Z :=
  let lo := REG_READ c (AR_KEYTABLE_MAC0 e) in
  let hi := REG_READ c (AR_KEYTABLE_MAC1 e) in
  le_split 6 (2 * (lo + 4294967296 * (hi mod 32768)) + (if has hi AR_KEYTABLE_VALID then 0 else 1)).

Definition bytes (n : nat) (l : list Z) : Prop := length l = n /\ Forall in_u8 l.

Lemma le_split_le16 l off :
  in_u8 (byte_at l off) -> in_u8 (byte_at l (off + 1)) ->
  in_u16 (get_unaligned_le16 l off) /\
  le_split 2 (u32 (get_unaligned_le16 l off)) = [byte_at l off; byte_at l (off + 1)].
Proof.
  unfold get_unaligned_le16, in_u8, in_u16. intros H0 H1. split; [lia|].
  rewrite u32_id by (unfold in_u32; lia). simpl. repeat f_equal; dlia.
Qed.

Lemma le_split_le32 l off :
  in_u8 (byte_at l off) -> in_u8 (byte_at l (off + 1)) ->
  in_u8 (byte_at l (off + 2)) -> in_u8 (byte_at l (off + 2 + 1)) ->
  in_u32 (get_unaligned_le32 l off) /\
  le_split 4 (u32 (get_unaligned_le32 l off)) =
    [byte_at l off; byte_at l (off + 1); byte_at l (off + 2); byte_at l (off + 2 + 1)].
Proof.
  unfold get_unaligned_le32, get_unaligned_le16, in_u8, in_u32. intros H0 H1 H2 H3. split; [lia|].
  rewrite u32_id by (unfold in_u32; lia). simpl. repeat f_equal; dlia.
Qed.

Lemma bytes_at n l i : bytes n l -> (i < n)%nat -> in_u8 (byte_at l i).
Proof.
  intros [Hlen Hall] Hi. unfold byte_at. destruct (l !! i) as [b|] eqn:E; simpl.
  - by eapply Forall_lookup_1.
  - apply lookup_ge_None in E. lia.
Qed.

Lemma bytes_list n l : bytes n l -> l = byte_at l <$> seq 0 n.
Proof.
  intros [Hlen _]. apply list_eq. intros i. rewrite list_lookup_fmap.
  destruct (decide (i < n)%nat).
  - rewrite lookup_seq_lt by done. simpl. unfold byte_at.
    destruct (l !! i) eqn:E; [done|]. apply lookup_ge_None in E. lia.
  - rewrite lookup_seq_ge by lia. apply lookup_ge_None. lia.
Qed.

Lemma entry_key_loaded c e k mac :
  key_loaded c e k mac -> bytes 16 (kv_val k) -> WLAN_KEY_LEN_WEP104 < kv_len k ->
  entry_key c e = kv_val k.
Proof.
  intros [H0 H1 H2 H3 H4 _ _] Hb Hlen. unfold entry_key. rewrite H0, H1, H2, H3, H4.
  unfold key_words. cbv zeta. simpl fst. simpl snd.
  destruct (Z.leb_spec (kv_len k) WLAN_KEY_LEN_WEP104); [lia|].
  assert (forall i, (i < 16)%nat -> in_u8 (byte_at (kv_val k) i)) as Hi
    by (intros; by eapply bytes_at).
  assert (forall off, (off + 3 < 16)%nat -> le_split 4 (u32 (get_unaligned_le32 (kv_val k) off)) =
    [byte_at (kv_val k) off; byte_at (kv_val k) (off + 1); byte_at (kv_val k) (off + 2);
     byte_at (kv_val k) (off + 2 + 1)]) as H32 by (intros off ?; apply le_split_le32; apply Hi; lia).
  assert (forall off, (off + 1 < 16)%nat -> le_split 2 (u32 (get_unaligned_le16 (kv_val k) off)) =
    [byte_at (kv_val k) off; byte_at (kv_val k) (off + 1)]) as H16
    by (intros off ?; apply le_split_le16; apply Hi; lia).
  rewrite !H32, !H16 by lia.
  symmetry. exact (bytes_list 16 (kv_val k) Hb).
Qed.

Lemma mac_image_value m :
  bytes 6 m ->
  let v := get_unaligned_le32 m 0 + 4294967296 * get_unaligned_le16 m 4 in
  let '(lo, hi) := mac_image (Some m) in
  in_u32 lo /\ in_u16 hi /\ has hi AR_KEYTABLE_VALID = negb (has v 1) /\
  lo + 4294967296 * (hi mod 32768) = v / 2.
Proof.
  intros Hb. pose proof (fun i => bytes_at 6 m i Hb) as Hi.
  assert (in_u8 (byte_at m 0)) as H0 by (apply Hi; lia).
  destruct (le_split_le32 m 0) as [Hlo _]; try (apply Hi; lia).
  destruct (le_split_le16 m 4) as [Hhi _]; try (apply Hi; lia).
  assert (get_unaligned_le32 m 0 mod 2 = byte_at m 0 mod 2) as Hpar.
  { unfold get_unaligned_le32, get_unaligned_le16. unfold in_u8 in *. clear. dlia. }
  cbv zeta. unfold mac_image. cbv zeta.
  set (lo := get_unaligned_le32 m 0) in *. set (hi := get_unaligned_le16 m 4) in *.
  assert (forall x, has x 1 = negb (x mod 2 =? 0)) as Hodd.
  { intros x. change 1 with (2 ^ 0). rewrite has_pow2, Z.bit0_odd by lia. rewrite Zmod_odd.
    by destruct (Z.odd x). }
  assert (hi .& 1 = hi mod 2) as -> by (change 1 with (Z.ones 1) at 1; by rewrite Z.land_ones).
  rewrite !Z.shiftr_div_pow2 by lia. change (2 ^ 1) with 2. unfold in_u32, in_u16 in *.
  rewrite u32_id by (unfold in_u32; rewrite Z.shiftl_mul_pow2; dlia).
  rewrite lor_shiftl_add by dlia. rewrite !Hodd.
  assert (forall f, (f = 0 \/ f = AR_KEYTABLE_VALID) -> hi / 2 .| f = hi / 2 + f) as Hf.
  { intros f [->| ->]; [by rewrite Z.lor_0_r, Z.add_0_r|].
    change AR_KEYTABLE_VALID with (1 .<< 15). rewrite lor_shiftl_add by dlia. done. }
  rewrite Hf by (destruct (negb _); auto).
  replace ((lo + 4294967296 * hi) mod 2) with (byte_at m 0 mod 2) by dlia.
  change AR_KEYTABLE_VALID with (2 ^ 15). rewrite has_pow2 by lia.
  destruct (Z.eqb_spec (byte_at m 0 mod 2) 0) as [E|E]; simpl negb; cbv iota.
  - split_and!; try dlia. apply Z.testbit_true; [lia|]. change (2 ^ 15) with 32768. dlia.
  - split_and!; try dlia. apply not_true_iff_false. rewrite Z.testbit_true by lia.
    change (2 ^ 15) with 32768. dlia.
Qed.

Lemma entry_mac_loaded c e k m :
  key_loaded c e k (Some m) -> bytes 6 m -> entry_mac c e = m.
Proof.
  intros [_ _ _ _ _ H0 H1] Hb. unfold entry_mac. rewrite H0, H1.
  pose proof (mac_image_value m Hb) as Hv. destruct (mac_image (Some m)) as [lo hi]. simpl.
  destruct Hv as (Hlo & Hhi & Hflag & Heq).
  rewrite !u32_id by (unfold in_u16, in_u32 in *; lia). rewrite Heq, Hflag.
  set (v := get_unaligned_le32 m 0 + 4294967296 * get_unaligned_le16 m 4).
  replace (2 * (v / 2) + (if negb (has v 1) then 0 else 1)) with v.
  2: { assert (has v 1 = Z.odd v) as -> by (rewrite <- Z.bit0_odd; by apply (has_pow2 v 0)).
       pose proof (Zmod_odd v). destruct (Z.odd v); simpl; dlia. }
  pose proof (fun i => bytes_at 6 m i Hb) as Hi.
  rewrite (bytes_list 6 m Hb). simpl.
  assert (forall i, (i < 6)%nat -> 0 <= byte_at m i < 256) as Hi' by exact Hi.
  pose proof (Hi' 0%nat ltac:(lia)). pose proof (Hi' 1%nat ltac:(lia)). pose proof (Hi' 2%nat ltac:(lia)).
  pose proof (Hi' 3%nat ltac:(lia)). pose proof (Hi' 4%nat ltac:(lia)). pose proof (Hi' 5%nat ltac:(lia)).
  subst v. unfold get_unaligned_le32, get_unaligned_le16. simpl. clear - H H2 H3 H4 H5 H6.
  repeat f_equal; dlia.
Qed.

(** C8. Loading a key: when [ath_hw_set_keycache_entry] succeeds for a key
    longer than a WEP-104 key and a station address, the entry read back
    holds exactly the 16 key bytes and the 6 address bytes (the group bit in
    the inverse of the valid bit), no register outside the entry (and, for
    TKIP, outside the MIC entry 64 above it) has changed, the bitmaps are
    untouched, and the writes came in the aligned pairs that the hardware
    needs. *)
Theorem key_load_roundtrip c e k mac c' :
  0 <= e < 65472 -> bytes 16 (kv_val k) -> bytes 6 mac -> WLAN_KEY_LEN_WEP104 < kv_len k ->
  ath_hw_set_keycache_entry c e k (Some mac) = (true, c') ->
  entry_key c' e = kv_val k /\ entry_mac c' e = mac /\
  key_type_of c e k = Some (REG_READ c' (AR_KEYTABLE_TYPE e)) /\
  (forall a, ~ load_regs e k a -> REG_READ c' a = REG_READ c a) /\
  (keymap c' = keymap c /\ tkip_keymap c' = tkip_keymap c /\ ccmp_keymap c' = ccmp_keymap c) /\
  exists ws, reg_log c' = reg_log c ++ ws /\ paired ws.
Proof.
  intros He Hk Hm Hlen E.
  destruct (set_entry_spec c e k (Some mac) c' ltac:(lia) E) as (t & Ht & _ & [Hl Hf _ _ Hmaps] & Hkl & <-).
  split_and!; try done; [by eapply entry_key_loaded|by eapply entry_mac_loaded|apply Hmaps..].
Qed.

(** TKIP ordering: loading a TKIP key ends with the two writes of the
    real key[47:0]; every earlier write to KEY0 of the entry stores the
    inverted word, so the entry cannot match a frame before its MIC entry is
    complete. *)
Theorem tkip_real_key_last c e k mac c' :
  0 <= e < 65472 -> kv_type k = ATH_CIPHER_TKIP ->
  ath_hw_set_keycache_entry c e k mac = (true, c') ->
  let key0 := get_unaligned_le32 (kv_val k) 0 in
  let key1 := get_unaligned_le16 (kv_val k) 4 in
  exists ws,
    reg_log c' = reg_log c ++ ws ++ [(AR_KEYTABLE_KEY0 e, u32 key0); (AR_KEYTABLE_KEY1 e, u32 key1)] /\
    (forall v, (AR_KEYTABLE_KEY0 e, v) ∈ ws -> v = u32 (Z.lnot key0)) /\
    (AR_KEYTABLE_KEY0 (e + 64), u32 (get_unaligned_le32 (kv_mic k) 0)) ∈ ws.
Proof.
  intros He Htk. unfold ath_hw_set_keycache_entry.
  destruct (Z.leb_spec (keymax c) e) as [|Hmax]; [done|].
  destruct (key_type_of c e k) as [t|] eqn:Et; [|done].
  destruct (key_type_tkip _ _ _ _ Et) as (Hiff & _ & _). rewrite (proj2 Hiff Htk), Z.eqb_refl.
  unfold key_words. cbv zeta. rewrite keysetmac_in_range by done.
  rewrite (u16_id (e + 64)) by (unfold in_u16; lia). intros [= <-].
  unfold write_tkip_mic. destruct (has_cap _ _); cbv zeta; rewrite !log_write, <- !app_assoc; simpl;
    (eexists (_ :: _ :: _ :: _ :: _ :: _ :: _ :: _ :: _ :: _ :: _ :: _ :: _ :: _ :: _ :: [_]);
     split_and!; [reflexivity| |by do 8 right; left]);
    intros v; rewrite !elem_of_cons, elem_of_nil; intros Hv; destruct_or?; simplify_eq; try done;
    unfold_keyregs; lia.
Qed.

(** * Theorems: slots *)

Lemma first_from_spec f n : forall lo,
  match first_from f lo n with
  | Some r => exists i, lo <= i < lo + Z.of_nat n /\ f i = Some r
  | None => forall i, lo <= i < lo + Z.of_nat n -> f i = None
  end.
Proof.
  induction n as [|n IH]; intros lo; cbn [first_from]; [intros; lia|].
  destruct (f lo) as [r|] eqn:E.
  - exists lo. split; [lia|done].
  - specialize (IH (lo + 1)). destruct (first_from f (lo + 1) n).
    + destruct IH as (i & Hi & Hf). exists i. split; [lia|done].
    + intros i Hi. destruct (Z.eq_dec i lo) as [->|]; [done|]. apply IH. lia.
Qed.

Lemma for_range_spec lo hi f :
  match for_range lo hi f with
  | Some r => exists i, lo <= i < hi /\ f i = Some r
  | None => forall i, lo <= i < hi -> f i = None
  end.
Proof.
  unfold for_range. pose proof (first_from_spec f (Z.to_nat (hi - lo)) lo) as H.
  destruct (first_from f lo _).
  - destruct H as (i & ? & ?). exists i. split; [lia|done].
  - intros i Hi. apply H. lia.
Qed.

(** The slots kept for TKIP group keys. *)
Definition group_slot (c : ath_common) (i : Z) : Prop :=
  64 <= i < 68 \/ (has_cap c ATH_CRYPT_CAP_MIC_COMBINED = false /\ (32 <= i < 36 \/ 96 <= i < 100)).

Lemma reserve_slot_correct_aux c suite :
  keymax c = ATH_KEYMAX -> suite <> WLAN_CIPHER_SUITE_TKIP ->
  let i := ath_reserve_key_cache_slot c suite in
  (4 <= i < ATH_KEYMAX /\ Z.testbit (keymap c) i = false) \/
  (i = -1 /\ forall j, 4 <= j < ATH_KEYMAX -> ~ group_slot c j -> Z.testbit (keymap c) j = true).
Proof.
  intros Hmax Hs. unfold ath_reserve_key_cache_slot.
  destruct (Z.eqb_spec suite WLAN_CIPHER_SUITE_TKIP); [done|]. rewrite Hmax.
  unfold ATH_KEYMAX, IEEE80211_WEP_NKID. change (128 / 4) with 32. change (128 / 2) with 64.
  assert (forall i, i < 128 -> test_bit i c = Z.testbit (keymap c) i) as Htb.
  { intros i Hi. unfold test_bit, ATH_KEYMAX. destruct (Z.ltb_spec i 128); [done|lia]. }
  set (p := if negb _ then _ else _).
  assert (forall r, p = Some r -> 4 <= r < 128 /\ Z.testbit (keymap c) r = false) as Hp.
  { intros r. subst p. destruct (has_cap c ATH_CRYPT_CAP_MIC_COMBINED); cbn [negb].
    - pose proof (for_range_spec 4 64 (partial_slot_combined c)) as Hr.
      destruct (for_range 4 64 _); [|done]. intros [= ->]. destruct Hr as (i & Hi & Hf).
      unfold partial_slot_combined in Hf. rewrite !Htb in Hf by lia.
      repeat case_match; simplify_eq; ztest; (split; [lia|done]).
    - pose proof (for_range_spec 4 32 (partial_slot_split c)) as Hr.
      destruct (for_range 4 32 _); [|done]. intros [= ->]. destruct Hr as (i & Hi & Hf).
      unfold partial_slot_split in Hf. rewrite !Htb in Hf by lia.
      repeat case_match; simplify_eq; ztest; (split; [lia|done]). }
  destruct p as [r|] eqn:Ep; [left; by apply Hp|]. clear Hp Ep p.
  pose proof (for_range_spec 4 128 (any_slot c)) as Hr.
  destruct (for_range 4 128 (any_slot c)) as [r|]; simpl.
  - left. destruct Hr as (i & Hi & Hf). unfold any_slot in Hf. rewrite Htb in Hf by lia.
    repeat case_match; simplify_eq; ztest. split; [lia|done].
  - right. split; [done|]. intros j Hj Hg. specialize (Hr j Hj). unfold any_slot, IEEE80211_WEP_NKID in Hr.
    rewrite Htb in Hr by lia. destruct (Z.testbit (keymap c) j); [done|]. exfalso. apply Hg.
    unfold group_slot. destruct (has_cap c ATH_CRYPT_CAP_MIC_COMBINED); simpl in Hr;
      repeat case_match; try done; ztest; lia.
Qed.

(** The partner slots of a TKIP slot. *)
Definition tkip_free (c : ath_common) (i : Z) : Prop :=
  Z.testbit (keymap c) i = false /\ Z.testbit (keymap c) (i + 64) = false /\
  (has_cap c ATH_CRYPT_CAP_MIC_COMBINED = false -> i < 32 ->
   Z.testbit (keymap c) (i + 32) = false /\ Z.testbit (keymap c) (i + 64 + 32) = false).

Lemma reserve_tkip_spec c :
  keymax c = ATH_KEYMAX ->
  let i := ath_reserve_key_cache_slot_tkip c in
  i = -1 \/ (4 <= i < 64 /\ tkip_free c i).
Proof.
  intros Hmax. unfold ath_reserve_key_cache_slot_tkip. rewrite Hmax.
  change (ATH_KEYMAX / 2) with 64. unfold IEEE80211_WEP_NKID.
  assert (forall i, i < 128 -> test_bit i c = Z.testbit (keymap c) i) as Htb.
  { intros i Hi. unfold test_bit, ATH_KEYMAX. destruct (Z.ltb_spec i 128); [done|lia]. }
  match goal with |- context [for_range 4 64 ?f] => pose proof (for_range_spec 4 64 f) as Hr;
    destruct (for_range 4 64 f) as [r|]; simpl; [|by left] end.
  right. destruct Hr as (i & Hi & Hf).
  destruct (test_bit i c || test_bit (i + 64) c) eqn:E1; [done|].
  destruct (negb _ && _) eqn:E2; [done|]. injection Hf as <-.
  rewrite !Htb in E1 by lia. ztest. split; [lia|]. split_and!; [done|done|].
  intros Hc Hi32. rewrite Hc, !Htb in E2 by lia. simpl in E2. by ztest.
Qed.

(** * Theorems: configuring and deleting keys *)

(** The TKIP and CCMP slots are among the used ones. *)
Record maps_ok (c : ath_common) : Prop := {
  mo_tkip : forall i, Z.testbit (tkip_keymap c) i = true -> Z.testbit (keymap c) i = true;
  mo_ccmp : forall i, Z.testbit (ccmp_keymap c) i = true -> Z.testbit (keymap c) i = true;
}.

Lemma maps_ok_free c i :
  maps_ok c -> Z.testbit (keymap c) i = false ->
  Z.testbit (tkip_keymap c) i = false /\ Z.testbit (ccmp_keymap c) i = false.
Proof.
  intros [Ht Hc] Hi. split; apply not_true_iff_false; intros H;
    [apply Ht in H|apply Hc in H]; congruence.
Qed.

Lemma setkey_tkip_spec c idx key hk mac auth ret c' :
  0 <= idx < 64 -> keymax c = ATH_KEYMAX -> kv_type hk = ATH_CIPHER_TKIP ->
  ath_setkey_tkip c idx key hk mac auth = (ret, c') ->
  keymap c' = keymap c /\ tkip_keymap c' = tkip_keymap c /\ ccmp_keymap c' = ccmp_keymap c /\
  keymax c' = keymax c /\ crypt_caps c' = crypt_caps c /\
  (ret = true -> mac <> None -> has_cap c ATH_CRYPT_CAP_MIC_COMBINED = false -> idx < 32).
Proof.
  intros Hidx Hmax Htk.
  assert (forall c e k m b c1, 0 <= e < 65472 -> ath_hw_set_keycache_entry c e k m = (b, c1) ->
    keymap c1 = keymap c /\ tkip_keymap c1 = tkip_keymap c /\ ccmp_keymap c1 = ccmp_keymap c /\
    keymax c1 = keymax c /\ crypt_caps c1 = crypt_caps c) as Hset.
  { intros c0 e k m b c1 He E. destruct b.
    - destruct (set_entry_spec c0 e _ _ _ ltac:(lia) E) as (_ & _ & _ & [_ _ ? ? (? & ? & ?)] & _). done.
    - by rewrite (set_entry_failed _ _ _ _ _ E). }
  unfold ath_setkey_tkip. destruct mac as [m|].
  - destruct (has_cap c ATH_CRYPT_CAP_MIC_COMBINED) eqn:Ecap.
    { intros E. destruct (Hset c idx _ _ _ _ ltac:(lia) E) as (? & ? & ? & ? & ?). split_and!; done. }
    destruct (ath_hw_set_keycache_entry c idx _ None) as [ok c1] eqn:E1.
    destruct (Hset c idx _ _ _ _ ltac:(lia) E1) as (? & ? & ? & ? & ?).
    destruct ok; cbn [negb]; [|intros [= <- <-]; split_and!; done].
    rewrite u16_id by (unfold in_u16; lia). intros E2.
    destruct (Hset c1 (idx + 32) _ _ _ _ ltac:(lia) E2) as (? & ? & ? & ? & ?).
    split_and!; try congruence. intros -> _ _.
    destruct (set_entry_spec c1 (idx + 32) _ _ _ ltac:(lia) E2) as (t & Ht & _).
    apply key_type_tkip in Ht as (_ & Hlt & _). simpl in Hlt. specialize (Hlt Htk).
    unfold ATH_KEYMAX in *. lia.
  - intros E. destruct (Hset c idx _ _ _ _ ltac:(lia) E) as (? & ? & ? & ? & ?). split_and!; done.
Qed.

(** A slot handed out by [key_slot] past the WEP slots comes from the
    allocator, together with an address. *)
Lemma key_slot_reserved c vif sta k idx mac :
  keyidx k < 4 -> key_slot c vif sta k = inr (idx, mac) -> 4 <= idx ->
  idx = ath_reserve_key_cache_slot c (cipher k) /\ mac <> None.
Proof.
  intros Hk. unfold key_slot. repeat case_match; intros; simplify_eq; try lia; done.
Qed.

Lemma keyreset_maps c e b c' :
  0 <= e < 65472 -> ath_hw_keyreset c e = (b, c') ->
  keymap c' = keymap c /\ tkip_keymap c' = tkip_keymap c /\ ccmp_keymap c' = ccmp_keymap c /\
  crypt_caps c' = crypt_caps c /\ keymax c' = keymax c.
Proof. intros He E. destruct (keyreset_spec c e _ _ ltac:(lia) E) as (_ & [_ _ ? ? (? & ? & ?)] & _). done. Qed.

Lemma delete_reads_cleared c e b c' :
  0 <= e < 128 -> keymax c = ATH_KEYMAX -> ath_hw_keyreset c e = (b, c') ->
  REG_READ c' (AR_KEYTABLE_TYPE e) = AR_KEYTABLE_TYPE_CLR /\ REG_READ c' (AR_KEYTABLE_KEY0 e) = 0.
Proof.
  intros He Hmax E. destruct (keyreset_spec c e _ _ ltac:(lia) E) as (-> & _ & Hz).
  rewrite Hmax in Hz. unfold ATH_KEYMAX in Hz.
  destruct (Z.ltb_spec e 128) as [_|]; [|lia]. destruct (Hz eq_refl) as [Ht Hk]. split; [done|].
  apply Hk; [in_entry|unfold_keyregs; lia|]. unfold_keyregs. exists (8704 + e * 8). lia.
Qed.

(** The slots a key takes. *)
Definition key_slots (c : ath_common) (suite idx : Z) : list Z :=
  idx :: if suite =? WLAN_CIPHER_SUITE_TKIP then
           (idx + 64) :: if has_cap c ATH_CRYPT_CAP_MIC_COMBINED then []
                         else [idx + 32; idx + 64 + 32]
         else [].

Definition slot_in (n : Z) (l : list Z) : bool := existsb (fun i => i =? n) l.

Ltac bits_of n :=
  unfold set_bit, clear_bit, key_slots, slot_in; simpl;
  rewrite ?Z.setbit_eqb, ?Z.clearbit_eqb by lia;
  repeat match goal with
  | |- context [?a =? n] => destruct (Z.eqb_spec a n); subst; simpl
  end; rewrite ?orb_false_r, ?orb_true_r, ?andb_true_r, ?andb_false_r; try done.

Lemma mark_key_bits c suite idx n :
  0 <= idx -> 0 <= n ->
  Z.testbit (keymap (mark_key c suite idx)) n = Z.testbit (keymap c) n || slot_in n (key_slots c suite idx) /\
  Z.testbit (tkip_keymap (mark_key c suite idx)) n =
    Z.testbit (tkip_keymap c) n || ((suite =? WLAN_CIPHER_SUITE_TKIP) && slot_in n (key_slots c suite idx)) /\
  Z.testbit (ccmp_keymap (mark_key c suite idx)) n =
    Z.testbit (ccmp_keymap c) n || ((suite =? WLAN_CIPHER_SUITE_CCMP) && (idx =? n)) /\
  crypt_caps (mark_key c suite idx) = crypt_caps c /\ keymax (mark_key c suite idx) = keymax c.
Proof.
  intros Hi Hn. unfold mark_key.
  destruct (Z.eqb_spec suite WLAN_CIPHER_SUITE_TKIP) as [->|Ht].
  - change (WLAN_CIPHER_SUITE_TKIP =? WLAN_CIPHER_SUITE_CCMP) with false. cbv iota zeta.
    match goal with |- context [negb (has_cap ?x _)] =>
      change (has_cap x ATH_CRYPT_CAP_MIC_COMBINED) with (has_cap c ATH_CRYPT_CAP_MIC_COMBINED) end.
    unfold key_slots. rewrite Z.eqb_refl.
    destruct (has_cap c ATH_CRYPT_CAP_MIC_COMBINED); cbn [negb]; split_and!; try done; bits_of n.
  - unfold key_slots. rewrite (proj2 (Z.eqb_neq _ _) Ht).
    destruct (suite =? WLAN_CIPHER_SUITE_CCMP); split_and!; try done; bits_of n.
Qed.

Lemma key_delete_bits c k idx n :
  4 <= idx < 128 -> hw_key_idx k = idx -> 0 <= n ->
  let c' := ath_key_delete c k in
  let gone := slot_in n (key_slots c (cipher k) idx) in
  Z.testbit (keymap c') n = Z.testbit (keymap c) n && negb gone /\
  Z.testbit (tkip_keymap c') n =
    Z.testbit (tkip_keymap c) n && negb ((cipher k =? WLAN_CIPHER_SUITE_TKIP) && gone) /\
  Z.testbit (ccmp_keymap c') n = Z.testbit (ccmp_keymap c) n && negb (idx =? n).
Proof.
  intros Hi Hidx Hn. unfold ath_key_delete. rewrite Hidx, u16_id by (unfold in_u16; lia).
  destruct (ath_hw_keyreset c idx) as [b c1] eqn:E1.
  destruct (keyreset_maps c idx b c1 ltac:(lia) E1) as (Hk & Ht & Hc & Hcap & Hmx).
  unfold IEEE80211_WEP_NKID. destruct (Z.ltb_spec idx 4); [lia|]. unfold key_slots.
  destruct (cipher k =? WLAN_CIPHER_SUITE_TKIP); cbn [negb]; cbv zeta.
  2: { simpl. rewrite Hk, Ht, Hc. split_and!; bits_of n. }
  match goal with |- context [negb (has_cap ?x _)] =>
    change (has_cap x ATH_CRYPT_CAP_MIC_COMBINED) with (has_cap c1 ATH_CRYPT_CAP_MIC_COMBINED) end.
  replace (has_cap c1 ATH_CRYPT_CAP_MIC_COMBINED) with (has_cap c ATH_CRYPT_CAP_MIC_COMBINED)
    by (unfold has_cap; by rewrite Hcap).
  destruct (has_cap c ATH_CRYPT_CAP_MIC_COMBINED); cbn [negb].
  { simpl. rewrite Hk, Ht, Hc. split_and!; bits_of n. }
  match goal with |- context [ath_hw_keyreset ?x ?e] => destruct (ath_hw_keyreset x e) as [b2 c2] eqn:E2 end.
  rewrite u16_id in E2 by (unfold in_u16; lia).
  destruct (keyreset_maps _ (idx + 32) b2 c2 ltac:(lia) E2) as (Hk2 & Ht2 & Hc2 & _). simpl in Hk2, Ht2, Hc2.
  simpl. rewrite Hk2, Ht2, Hc2, Hk, Ht, Hc. split_and!; bits_of n.
Qed.

(** The slots a successful configuration takes were free, and the bitmaps are
    those of the marking. *)
Lemma key_config_takes c vif sta k idx c1 :
  keymax c = ATH_KEYMAX -> keyidx k < 4 -> 4 <= idx ->
  ath_key_config c vif sta k = Ok (idx, c1) ->
  idx < 128 /\ (forall i, i ∈ key_slots c (cipher k) idx -> 0 <= i /\ Z.testbit (keymap c) i = false) /\
  exists c', c1 = mark_key c' (cipher k) idx /\ crypt_caps c' = crypt_caps c /\
    keymap c' = keymap c /\ tkip_keymap c' = tkip_keymap c /\ ccmp_keymap c' = ccmp_keymap c.
Proof.
  intros Hmax Hkid Hidx. unfold ath_key_config.
  destruct (cipher_of_suite (cipher k)) as [t|] eqn:Et; [|intros [= <- _]; unfold EOPNOTSUPP in *; lia].
  unfold keyval_of. destruct (_ <? _)%nat eqn:El; [done|]. cbn [obind].
  destruct (key_slot c vif sta k) as [err|[idx0 mac]] eqn:Es.
  { intros [= -> _]. unfold key_slot in Es. clear - Es Hidx.
    repeat case_match; simplify_eq; unfold EOPNOTSUPP, EIO in *; lia. }
  destruct (Z.ltb_spec idx0 0); [intros [= <- _]; unfold ENOSPC in *; lia|].
  set (hk := {| kv_type := t; kv_len := _; kv_data := _ |}).
  destruct (if cipher k =? WLAN_CIPHER_SUITE_TKIP then _ else _) as [ret c'] eqn:Eset.
  destruct ret; cbn [negb]; [|intros [= <- _]; unfold EIO in *; lia]. intros [= <- <-].
  destruct (key_slot_reserved _ _ _ _ _ _ Hkid Es Hidx) as [Hres Hmac]. unfold key_slots.
  destruct (Z.eqb_spec (cipher k) WLAN_CIPHER_SUITE_TKIP) as [Htk|Htk].
  - unfold ath_reserve_key_cache_slot in Hres. rewrite Htk, Z.eqb_refl in Hres.
    destruct (reserve_tkip_spec c Hmax) as [?|(Hr & Hf0 & Hf64 & Hf32)]; [lia|]. rewrite <- Hres in *.
    rewrite u16_id in Eset by (unfold in_u16; lia).
    assert (kv_type hk = ATH_CIPHER_TKIP) as Hhk by (subst hk; rewrite Htk in Et; by injection Et as <-).
    destruct (setkey_tkip_spec c idx0 _ _ _ _ _ _ ltac:(lia) Hmax Hhk Eset)
      as (? & ? & ? & _ & ? & Hlow). specialize (Hlow eq_refl Hmac).
    split; [lia|]. split; [|by exists c'].
    destruct (has_cap c ATH_CRYPT_CAP_MIC_COMBINED).
    + intros i Hi. rewrite !elem_of_cons, elem_of_nil in Hi.
      destruct_or? Hi; subst; (split; [lia|done]) || done.
    + specialize (Hlow eq_refl). destruct (Hf32 eq_refl Hlow).
      intros i Hi. rewrite !elem_of_cons, elem_of_nil in Hi.
      destruct_or? Hi; subst; (split; [lia|done]) || done.
  - destruct (reserve_slot_correct_aux c (cipher k) Hmax Htk) as [[Hr Hf]|[? _]]; [|lia].
    rewrite <- Hres in *. unfold ATH_KEYMAX in Hr.
    rewrite u16_id in Eset by (unfold in_u16; lia).
    destruct (set_entry_spec c idx0 _ _ _ ltac:(lia) Eset) as (_ & _ & _ & [_ _ ? ? (? & ? & ?)] & _).
    split; [lia|]. split; [|by exists c'].
    intros i Hi. rewrite elem_of_cons, elem_of_nil in Hi. destruct_or? Hi; subst; (split; [lia|done]) || done.
Qed.

Lemma key_slots_caps c c' suite idx :
  crypt_caps c' = crypt_caps c -> key_slots c' suite idx = key_slots c suite idx.
Proof. intros E. unfold key_slots, has_cap. by rewrite E. Qed.

Lemma slot_in_elem n l : slot_in n l = true <-> n ∈ l.
Proof.
  unfold slot_in. rewrite existsb_exists, list_elem_of_In. split.
  - intros (x & Hx & E). ztest. by subst.
  - intros Hin. exists n. split; [done|apply Z.eqb_refl].
Qed.

(** Key life cycle: configuring a key in a slot of the allocator and
    deleting it again restores the three bitmaps exactly (also those of the
    TKIP partner slots) and keeps the TKIP and CCMP bitmaps inside the bitmap
    of the used slots in between. *)
Theorem key_config_delete_roundtrip c vif sta k idx c1 :
  maps_ok c -> keymax c = ATH_KEYMAX -> keyidx k < 4 -> 4 <= idx ->
  ath_key_config c vif sta k = Ok (idx, c1) ->
  let c2 := ath_key_delete c1 (k <| hw_key_idx := idx |>) in
  maps_ok c1 /\ Z.testbit (keymap c1) idx = true /\
  keymap c2 = keymap c /\ tkip_keymap c2 = tkip_keymap c /\ ccmp_keymap c2 = ccmp_keymap c.
Proof.
  intros Hok Hmax Hkid Hidx E c2.
  destruct (key_config_takes c vif sta k idx c1 Hmax Hkid Hidx E)
    as (Hlt & Hfree & c' & -> & Hcap & Hk & Ht & Hc).
  assert (forall n, slot_in n (key_slots c (cipher k) idx) = true -> Z.testbit (keymap c) n = false /\
    Z.testbit (tkip_keymap c) n = false /\ Z.testbit (ccmp_keymap c) n = false) as Hfr.
  { intros n Hn%slot_in_elem. destruct (Hfree n Hn) as [_ Hf].
    destruct (maps_ok_free c n Hok Hf). done. }
  pose proof (key_slots_caps c c' (cipher k) idx Hcap) as Hks.
  assert (forall n, 0 <= n -> let s := slot_in n (key_slots c (cipher k) idx) in
    (idx =? n) = true -> s = true) as Hself.
  { intros n Hn s Hs. ztest. subst. apply slot_in_elem. by left. }
  assert (forall n, Z.testbit (keymap c2) n = Z.testbit (keymap c) n /\
    Z.testbit (tkip_keymap c2) n = Z.testbit (tkip_keymap c) n /\
    Z.testbit (ccmp_keymap c2) n = Z.testbit (ccmp_keymap c) n) as Hback.
  { intros n. destruct (Z.lt_ge_cases n 0) as [Hneg|Hn]; [by rewrite !Z.testbit_neg_r|].
    destruct (mark_key_bits c' (cipher k) idx n ltac:(lia) Hn) as (M1 & M2 & M3 & M4 & _).
    assert (hw_key_idx (k <| hw_key_idx := idx |>) = idx) as Hhw by done.
    destruct (key_delete_bits (mark_key c' (cipher k) idx) _ idx n ltac:(lia) Hhw Hn) as (D1 & D2 & D3).
    change (cipher (k <| hw_key_idx := idx |>)) with (cipher k) in *. subst c2.
    rewrite (key_slots_caps c' _ _ _ M4), Hks in D1, D2. rewrite Hks in M1, M2.
    rewrite D1, D2, D3, M1, M2, M3, Hk, Ht, Hc. specialize (Hfr n). specialize (Hself n Hn).
    destruct (slot_in n (key_slots c (cipher k) idx)).
    - destruct (Hfr eq_refl) as (-> & -> & ->).
      by destruct (cipher k =? WLAN_CIPHER_SUITE_TKIP), (cipher k =? WLAN_CIPHER_SUITE_CCMP), (idx =? n).
    - destruct (idx =? n); [by specialize (Hself eq_refl)|].
      by rewrite !andb_false_r, !orb_false_r, !andb_true_r. }
  split_and!; try (apply Z.bits_inj; intros n; by apply Hback).
  - constructor; intros n Hn; (destruct (Z.lt_ge_cases n 0) as [Hneg|Hge];
      [by rewrite Z.testbit_neg_r in Hn|]);
      destruct (mark_key_bits c' (cipher k) idx n ltac:(lia) Hge) as (M1 & M2 & M3 & _);
      rewrite M1; [rewrite M2 in Hn|rewrite M3 in Hn]; rewrite Hk; rewrite ?Ht, ?Hc in Hn;
      apply orb_true_iff in Hn as [Hn|Hn].
    + by rewrite (mo_tkip c Hok n Hn).
    + apply andb_true_iff in Hn as [_ ->]. apply orb_true_r.
    + by rewrite (mo_ccmp c Hok n Hn).
    + ztest. subst. rewrite Hks, (Hself n Hge), orb_true_r; [done|apply Z.eqb_refl].
  - destruct (mark_key_bits c' (cipher k) idx idx ltac:(lia) ltac:(lia)) as (-> & _).
    rewrite Hks, (Hself idx ltac:(lia)), orb_true_r; [done|apply Z.eqb_refl].
Qed.

Lemma set_entry_tkip_ok c e k mac :
  kv_type k = ATH_CIPHER_TKIP -> e + 64 < keymax c ->
  exists c', ath_hw_set_keycache_entry c e k mac = (true, c').
Proof.
  intros Ht He. unfold ath_hw_set_keycache_entry. destruct (Z.leb_spec (keymax c) e); [lia|].
  unfold key_type_of. rewrite Ht. destruct (Z.leb_spec (keymax c) (e + 64)); [lia|].
  destruct (key_words k) as [[[[? ?] ?] ?] ?]. rewrite Z.eqb_refl.
  match goal with |- context [ath_hw_keysetmac ?x e mac] => destruct (ath_hw_keysetmac x e mac) end.
  by eexists.
Qed.

(** The split-MIC allocator hands out slots that cannot be used: with the
    low slots taken it returns a slot of 32 or more (after testing bits past
    the end of [keymap]), for which loading the RX half always fails. The
    call then returns [-EIO], although the TX half has already been written
    to the hardware and stays there, in a slot that the bitmaps call free. *)
Theorem tkip_split_high_slot_fails c vif addr k :
  has_cap c ATH_CRYPT_CAP_MIC_COMBINED = false -> keymax c = ATH_KEYMAX ->
  cipher k = WLAN_CIPHER_SUITE_TKIP -> pairwise k = true -> keyidx k = 0 ->
  bytes 32 (key k) -> 32 <= ath_reserve_key_cache_slot_tkip c ->
  exists c', ath_key_config c vif (Some addr) k = Ok (- EIO, c') /\
    entry_key c' (ath_reserve_key_cache_slot_tkip c) = take 16 (key k) /\ keymap c' = keymap c.
Proof.
  intros Hcap Hmax Hs Hpw Hki [Hlen Hall] Hres.
  destruct (reserve_tkip_spec c Hmax) as [?|(Hr & _)]; [lia|].
  set (i := ath_reserve_key_cache_slot_tkip c) in *.
  unfold ath_key_config. rewrite Hs. cbn [cipher_of_suite Z.eqb orb].
  change (cipher_of_suite WLAN_CIPHER_SUITE_TKIP) with (Some ATH_CIPHER_TKIP). cbv iota.
  unfold keyval_of. rewrite Hlen. cbn [Nat.ltb Nat.leb obind].
  unfold key_slot. rewrite Hpw, Hki, Hs. cbn [negb Z.eqb].
  change (ath_reserve_key_cache_slot c WLAN_CIPHER_SUITE_TKIP) with i.
  destruct (Z.ltb_spec i 0); [lia|]. rewrite Z.eqb_refl. rewrite (u16_id i) by (unfold in_u16; lia).
  unfold ath_setkey_tkip. rewrite Hcap. set (hk := set_mic _ _).
  destruct (set_entry_tkip_ok c i hk None eq_refl) as (c1 & E1); [unfold ATH_KEYMAX in *; lia|]. rewrite E1.
  cbn [negb]. rewrite (u16_id (i + 32)) by (unfold in_u16; lia).
  destruct (set_entry_spec c i _ _ _ ltac:(lia) E1) as (t & _ & _ & [_ _ Hmx _ (Hkm & _)] & Hkl & _).
  assert (ath_hw_set_keycache_entry c1 (i + 32) (set_mic (drop 24 (key k)) hk) (Some addr) = (false, c1)) as E2.
  { unfold ath_hw_set_keycache_entry. rewrite Hmx, Hmax.
    destruct (Z.leb_spec ATH_KEYMAX (i + 32)); [done|].
    unfold key_type_of. simpl. rewrite Hmx, Hmax.
    destruct (Z.leb_spec ATH_KEYMAX (i + 32 + 64)); [done|]. unfold ATH_KEYMAX in *; lia. }
  unfold NL80211_TKIP_DATA_OFFSET_RX_MIC_KEY. rewrite E2. cbn [negb].
  exists c1. split; [done|]. split; [|done].
  assert (kv_val hk = take 16 (key k)) as Hval.
  { subst hk. unfold set_mic, kv_val, slice. simpl. rewrite !drop_0.
    rewrite take_app_le by (rewrite length_take, length_app; lia).
    rewrite take_take, take_app_le by lia. done. }
  rewrite <- Hval. eapply entry_key_loaded; [exact Hkl| |].
  - rewrite Hval. split; [rewrite length_take; lia|by apply Forall_take].
  - subst hk. simpl. vm_compute. done.
Qed.

(** Slot allocation: the slot returned lies past the WEP slots, inside
    the cache, and is free; for TKIP the partner slots 64 (and, with split
    MIC entries below slot 32, 32 and 96) above it are free as well. For the
    other ciphers [-1] is returned only when every slot that is not kept for
    TKIP group keys is taken. *)
Theorem reserve_slot_correct c suite :
  keymax c = ATH_KEYMAX ->
  let i := ath_reserve_key_cache_slot c suite in
  (4 <= i < ATH_KEYMAX /\ Z.testbit (keymap c) i = false /\
   (suite = WLAN_CIPHER_SUITE_TKIP -> tkip_free c i)) \/
  (i = -1 /\ (suite <> WLAN_CIPHER_SUITE_TKIP ->
     forall j, 4 <= j < ATH_KEYMAX -> ~ group_slot c j -> Z.testbit (keymap c) j = true)).
Proof.
  intros Hmax. destruct (Z.eq_dec suite WLAN_CIPHER_SUITE_TKIP) as [->|Hs].
  - change (ath_reserve_key_cache_slot c WLAN_CIPHER_SUITE_TKIP) with (ath_reserve_key_cache_slot_tkip c).
    destruct (reserve_tkip_spec c Hmax) as [Hn|[Hr Hf]]; cbv zeta; [by right|left].
    pose proof Hf as (Hf0 & _). unfold ATH_KEYMAX. split_and!; [lia|lia|done|done].
  - destruct (reserve_slot_correct_aux c suite Hmax Hs) as [[? ?]|[? ?]]; [by left|by right].
Qed.

(** * Theorems: BSSID mask and cycle counters *)

(** Programming the station address: [ath_hw_setbssidmask] stores the 6
    bytes of the address and of the mask so that they read back, and keeps
    the flags in the upper half of AR_STA_ID1. *)
Theorem setbssidmask_roundtrip c :
  bytes 6 (macaddr c) -> bytes 6 (bssidmask c) -> in_u32 (REG_READ c AR_STA_ID1) ->
  let c' := ath_hw_setbssidmask c in
  le_split 4 (REG_READ c' AR_STA_ID0) ++ le_split 2 (REG_READ c' AR_STA_ID1) = macaddr c /\
  le_split 4 (REG_READ c' AR_BSSMSKL) ++ le_split 2 (REG_READ c' AR_BSSMSKU) = bssidmask c /\
  REG_READ c' AR_STA_ID1 / 65536 = REG_READ c AR_STA_ID1 / 65536.
Proof.
  intros Hm Hb Hid. unfold ath_hw_setbssidmask.
  assert (forall l, bytes 6 l -> in_u16 (get_unaligned_le16 l 4) /\
    le_split 4 (u32 (get_unaligned_le32 l 0)) ++ le_split 2 (u32 (get_unaligned_le16 l 4)) = l) as Hl.
  { intros l Hl. pose proof (fun i => bytes_at 6 l i Hl) as Hi.
    destruct (le_split_le16 l 4) as [Hr ->]; try (apply Hi; lia). split; [done|].
    rewrite (proj2 (le_split_le32 l 0 (Hi 0%nat ltac:(lia)) (Hi 1%nat ltac:(lia))
      (Hi 2%nat ltac:(lia)) (Hi 3%nat ltac:(lia)))).
    symmetry. exact (bytes_list 6 l Hl). }
  destruct (Hl _ Hm) as [Hr16 Hmac]. destruct (Hl _ Hb) as [_ Hmask].
  set (w := get_unaligned_le16 (macaddr c) 4) in *. cbv zeta.
  change (macaddr (REG_WRITE AR_STA_ID0 _ c)) with (macaddr c). fold w.
  rewrite (read_write_ne AR_STA_ID0 AR_STA_ID1) by done.
  match goal with |- context [REG_WRITE AR_STA_ID1 _ ?x] => set (c1 := x) end.
  set (id := REG_READ c AR_STA_ID1) in *.
  assert (clr id AR_STA_ID1_SADH_MASK .| w = w + 65536 * (id / 65536)) as Hval.
  { unfold clr. change AR_STA_ID1_SADH_MASK with (Z.ones 16). rewrite Z.ldiff_ones_r, Z.lor_comm by lia.
    rewrite lor_shiftl_add by (unfold in_u16 in Hr16; lia). rewrite Z.shiftr_div_pow2 by lia.
    change (2 ^ 16) with 65536. lia. }
  rewrite Hval.
  change (bssidmask (REG_WRITE AR_STA_ID1 _ c1)) with (bssidmask c).
  change (bssidmask (REG_WRITE AR_BSSMSKL _ (REG_WRITE AR_STA_ID1 _ c1))) with (bssidmask c).
  subst c1. unfold AR_STA_ID0, AR_STA_ID1, AR_BSSMSKL, AR_BSSMSKU in *.
  repeat (rewrite read_write_eq || rewrite read_write_ne by lia).
  rewrite (u32_id (w + _)) by (unfold in_u32, in_u16 in *; dlia).
  split_and!; [|done|unfold in_u16 in *; dlia].
  etrans; [|exact Hmac]. f_equal. rewrite u32_id by (unfold in_u32, in_u16 in *; lia).
  generalize (id / 65536) as q. intros q. clear. cbn [le_split]. f_equal; [dlia|]. f_equal. dlia.
Qed.

Lemma read_ani f c a : REG_READ (c <| cc_ani ::= f |>) a = REG_READ c a.
Proof. done. Qed.
Lemma read_survey f c a : REG_READ (c <| cc_survey ::= f |>) a = REG_READ c a.
Proof. done. Qed.

(** Cycle accounting: an update moves the four hardware counters into
    both sets of software counters without losing a cycle (as long as the
    sums fit 32 bits), leaves the hardware counters at zero and the counters
    running again; the listen time then reported is the share of the cycles
    spent neither receiving nor sending, in milliseconds, and resets the ANI
    set. *)
Theorem cycle_counters_listen_time c :
  let cc := cc_ani c in
  let cycles := REG_READ c AR_CCCNT in let rx := REG_READ c AR_RFCNT in let tx := REG_READ c AR_TFCNT in
  0 <= cc_cycles cc + cycles < 4294967296 ->
  0 <= cc_rx_frame cc + rx /\ 0 <= cc_tx_frame cc + tx ->
  cc_rx_frame cc + rx + (cc_tx_frame cc + tx) <= cc_cycles cc + cycles ->
  0 < clockrate c <= 400 ->
  let c1 := ath_hw_cycle_counters_update c in
  REG_READ c1 AR_CCCNT = 0 /\ REG_READ c1 AR_RFCNT = 0 /\ REG_READ c1 AR_RCCNT = 0 /\
  REG_READ c1 AR_TFCNT = 0 /\ REG_READ c1 AR_MIBC = 0 /\
  exists c2, ath_hw_get_listen_time c1 =
    Ok ((cc_cycles cc + cycles - (cc_rx_frame cc + rx) - (cc_tx_frame cc + tx)) / (clockrate c * 1000), c2) /\
  cc_ani c2 = {| cc_cycles := 0; cc_rx_busy := 0; cc_rx_frame := 0; cc_tx_frame := 0 |} /\
  cc_survey c2 = cc_survey c1.
Proof.
  intros cc cycles rx tx Hcyc Hpos Hsum Hclk c1.
  assert (forall a, a <> AR_MIBC -> REG_READ (REG_WRITE AR_MIBC AR_MIBC_FMC c) a = REG_READ c a) as Hr
    by (intros; by rewrite read_write_ne).
  assert (cc_ani c1 = cc_add cc cycles (REG_READ c AR_RCCNT) rx tx) as Hani.
  { subst c1. unfold ath_hw_cycle_counters_update. cbv zeta. rewrite !Hr by done. done. }
  assert (clockrate c1 = clockrate c) as Hck by done.
  assert (exists x y, ath_hw_cycle_counters_update c = (REG_WRITE AR_MIBC 0 (REG_WRITE AR_TFCNT 0
    (REG_WRITE AR_RCCNT 0 (REG_WRITE AR_RFCNT 0 (REG_WRITE AR_CCCNT 0
      (REG_WRITE AR_MIBC AR_MIBC_FMC c)))))) <| cc_ani ::= x |> <| cc_survey ::= y |>) as (x & y & Hupd)
    by (eexists _, _; unfold ath_hw_cycle_counters_update; cbv zeta; reflexivity).
  assert (forall a, REG_READ c1 a = REG_READ (REG_WRITE AR_MIBC 0 (REG_WRITE AR_TFCNT 0
    (REG_WRITE AR_RCCNT 0 (REG_WRITE AR_RFCNT 0 (REG_WRITE AR_CCCNT 0
      (REG_WRITE AR_MIBC AR_MIBC_FMC c)))))) a) as Hc1.
  { intros a. subst c1. rewrite Hupd. by rewrite read_survey, read_ani. }
  rewrite !Hc1. clear Hc1 Hr.
  assert (AR_MIBC <> AR_TFCNT /\ AR_MIBC <> AR_RCCNT /\ AR_MIBC <> AR_RFCNT /\ AR_MIBC <> AR_CCCNT /\
    AR_TFCNT <> AR_RCCNT /\ AR_TFCNT <> AR_RFCNT /\ AR_TFCNT <> AR_CCCNT /\ AR_RCCNT <> AR_RFCNT /\
    AR_RCCNT <> AR_CCCNT /\ AR_RFCNT <> AR_CCCNT) as Hne by done. destruct_and!.
  repeat (rewrite read_write_eq || rewrite read_write_ne by congruence).
  do 5 (split; [done|]).
  unfold ath_hw_get_listen_time. rewrite Hani, Hck. unfold cc_add. simpl.
  rewrite (u32_id (clockrate c * 1000)) by (unfold in_u32; lia).
  destruct (Z.eqb_spec (clockrate c * 1000) 0); [lia|].
  set (q := u32 _ / _). assert (q = (cc_cycles cc + cycles - (cc_rx_frame cc + rx) - (cc_tx_frame cc + tx))
    / (clockrate c * 1000)) as ->.
  { subst q. autorewrite with c_arith. f_equal.
    rewrite (u32_id (cc_cycles cc + cycles)), (u32_id (cc_rx_frame cc + rx)) by (unfold in_u32; lia).
    apply u32_id. unfold in_u32. lia. }
  set (q := _ / _). assert (0 <= q < 2147483648) as Hq.
  { subst q. split; [apply Z.div_pos; lia|]. apply Z.div_lt_upper_bound; [lia|].
    assert (1000 <= clockrate c * 1000) by lia. nia. }
  assert (s32 q = q) as ->.
  { unfold s32. rewrite u32_id by (unfold in_u32; lia). destruct (Z.ltb_spec q 2147483648); lia. }
  eexists. split; [reflexivity|]. done.
Qed.

(** * Concrete devices *)

Definition demo_key_common (caps km : Z) : ath_common :=
  {| macaddr := [0; 3; 127; 1; 2; 3]; bssidmask := [255; 255; 255; 255; 255; 255];
     keymax := 128; keymap := km; tkip_keymap := 0; ccmp_keymap := 0; crypt_caps := caps;
     clockrate := 44;
     cc_ani := {| cc_cycles := 0; cc_rx_busy := 0; cc_rx_frame := 0; cc_tx_frame := 0 |};
     cc_survey := {| cc_cycles := 0; cc_rx_busy := 0; cc_rx_frame := 0; cc_tx_frame := 0 |};
     regs := {[ AR_CCCNT := 88000; AR_RFCNT := 1000; AR_TFCNT := 43000 ]}; reg_log := [] |}.

Definition demo_bytes (n : nat) : list Z := Z.of_nat <$> seq 1 n.

Definition demo_keyval (t : ath_cipher) : ath_keyval :=
  {| kv_type := t; kv_len := 16; kv_data := demo_bytes 32 |}.

Definition demo_key_conf (suite : Z) (n : nat) : ieee80211_key_conf :=
  {| cipher := suite; keyidx := 0; pairwise := true; key := demo_bytes n; hw_key_idx := 0 |}.

Definition demo_sta : list Z := [0; 1; 2; 3; 4; 5].

Lemma demo_bytes_ok n : (n < 255)%nat -> bytes n (demo_bytes n).
Proof.
  intros Hn. unfold demo_bytes. split; [by rewrite length_fmap, length_seq|].
  apply Forall_fmap, Forall_forall. intros x Hx%list_elem_of_In. apply in_seq in Hx.
  unfold in_u8. simpl. lia.
Qed.

Lemma key_load_roundtrip_witness :
  exists c', ath_hw_set_keycache_entry (demo_key_common 3 15) 7 (demo_keyval ATH_CIPHER_AES_CCM)
      (Some demo_sta) = (true, c') /\ entry_key c' 7 = demo_bytes 16 /\ entry_mac c' 7 = demo_sta.
Proof.
  destruct (ath_hw_set_keycache_entry (demo_key_common 3 15) 7 (demo_keyval ATH_CIPHER_AES_CCM)
    (Some demo_sta)) as [b c'] eqn:E.
  assert (b = true) as -> by (vm_compute in E; by injection E as <- _).
  exists c'. split; [done|].
  destruct (key_load_roundtrip (demo_key_common 3 15) 7 (demo_keyval ATH_CIPHER_AES_CCM) demo_sta c')
    as (Hk & Hm & _).
  - lia.
  - apply (demo_bytes_ok 16). lia.
  - split; [done|]. repeat constructor; unfold in_u8; lia.
  - reflexivity.
  - exact E.
  - by split.
Defined.

Lemma tkip_real_key_last_witness :
  exists c' ws, ath_hw_set_keycache_entry (demo_key_common 3 15) 7 (demo_keyval ATH_CIPHER_TKIP) None
      = (true, c') /\
    reg_log c' = ws ++ [(AR_KEYTABLE_KEY0 7, 67305985); (AR_KEYTABLE_KEY1 7, 1541)].
Proof.
  destruct (ath_hw_set_keycache_entry (demo_key_common 3 15) 7 (demo_keyval ATH_CIPHER_TKIP) None)
    as [b c'] eqn:E.
  assert (b = true) as -> by (vm_compute in E; by injection E as <- _). exists c'.
  destruct (tkip_real_key_last (demo_key_common 3 15) 7 (demo_keyval ATH_CIPHER_TKIP) None c')
    as (ws & Hlog & _).
  - lia.
  - reflexivity.
  - exact E.
  - exists ws. split; [done|exact Hlog].
Defined.

Lemma reserve_slot_correct_witness :
  ath_reserve_key_cache_slot (demo_key_common 3 31) WLAN_CIPHER_SUITE_CCMP = 68 /\
  Z.testbit (keymap (demo_key_common 3 31)) 68 = false.
Proof.
  split; [by vm_compute|].
  destruct (reserve_slot_correct (demo_key_common 3 31) WLAN_CIPHER_SUITE_CCMP eq_refl)
    as [(_ & Hf & _)|[Hn _]]; [exact Hf|vm_compute in Hn; discriminate].
Defined.

Lemma key_config_delete_roundtrip_witness :
  exists c1, ath_key_config (demo_key_common 3 15) {| vif_type := NL80211_IFTYPE_STATION; vif_addr := [] |}
      (Some demo_sta) (demo_key_conf WLAN_CIPHER_SUITE_TKIP 32) = Ok (4, c1) /\
    keymap (ath_key_delete c1 ((demo_key_conf WLAN_CIPHER_SUITE_TKIP 32) <| hw_key_idx := 4 |>)) = 15.
Proof.
  eexists. split; [vm_compute; reflexivity|].
  apply (key_config_delete_roundtrip (demo_key_common 3 15)
    {| vif_type := NL80211_IFTYPE_STATION; vif_addr := [] |} (Some demo_sta)
    (demo_key_conf WLAN_CIPHER_SUITE_TKIP 32) 4).
  - constructor; simpl; intros i Hi; by rewrite Z.bits_0 in Hi.
  - reflexivity.
  - reflexivity.
  - lia.
  - vm_compute. reflexivity.
Defined.

Lemma tkip_split_high_slot_fails_witness :
  exists c', ath_key_config (demo_key_common 1 (2 ^ 32 - 1))
    {| vif_type := NL80211_IFTYPE_STATION; vif_addr := [] |} (Some demo_sta)
    (demo_key_conf WLAN_CIPHER_SUITE_TKIP 32) = Ok (- EIO, c').
Proof.
  destruct (tkip_split_high_slot_fails (demo_key_common 1 (2 ^ 32 - 1))
    {| vif_type := NL80211_IFTYPE_STATION; vif_addr := [] |} demo_sta
    (demo_key_conf WLAN_CIPHER_SUITE_TKIP 32)) as (c' & E & _).
  - reflexivity.
  - reflexivity.
  - reflexivity.
  - reflexivity.
  - reflexivity.
  - apply demo_bytes_ok. lia.
  - vm_compute. discriminate.
  - by exists c'.
Defined.

Lemma setbssidmask_roundtrip_witness :
  le_split 4 (REG_READ (ath_hw_setbssidmask (demo_key_common 3 0)) AR_BSSMSKL) ++
  le_split 2 (REG_READ (ath_hw_setbssidmask (demo_key_common 3 0)) AR_BSSMSKU) = [255; 255; 255; 255; 255; 255].
Proof.
  apply (setbssidmask_roundtrip (demo_key_common 3 0)).
  - split; [done|]. repeat constructor; unfold in_u8; lia.
  - split; [done|]. repeat constructor; unfold in_u8; lia.
  - vm_compute. split; [discriminate|reflexivity].
Defined.

Lemma cycle_counters_listen_time_witness :
  exists c2, ath_hw_get_listen_time (ath_hw_cycle_counters_update (demo_key_common 3 0)) = Ok (1, c2).
Proof.
  destruct (cycle_counters_listen_time (demo_key_common 3 0)) as (_ & _ & _ & _ & _ & c2 & E & _).
  - vm_compute. split; [discriminate|reflexivity].
  - vm_compute. split; discriminate.
  - vm_compute. discriminate.
  - vm_compute. split; [reflexivity|discriminate].
  - exists c2. exact E.
Defined.
