(* ===== verification/Baw.v ===== *)
(** Block-ack window of a traffic identifier (src/real/ath/ath9k/xmit.c,
    ath9k.h, common.h): the sequence numbers sent but not yet acknowledged,
    kept in a ring of 128 bits.

    [ath_atx_tid] has the fields of the C structure that carry the window.
    The abstract specification is the set of outstanding sequence numbers;
    [baw_rep] relates the two, and every operation is shown to implement its
    effect on the set. *)

From S2P Require Import Prelude.

(** * Macros *)

Definition IEEE80211_SEQ_MAX : Z := 4096.
Definition WME_BA_BMP_SIZE : Z := 64.
Definition WME_MAX_BA : Z := WME_BA_BMP_SIZE.
Definition ATH_TID_MAX_BUFS : Z := 2 * WME_MAX_BA.

(** [INCR(_l, _sz)] with a power of two [_sz]. *)
Definition INCR (l sz : Z) : Z := (l + 1) .& (sz - 1).
Definition ATH_BA_INDEX (st seq : Z) : Z := (seq - st) .& (IEEE80211_SEQ_MAX - 1).
Definition ATH_BA_INDEX2SEQ (seq offset : Z) : Z := (seq + offset) .& (IEEE80211_SEQ_MAX - 1).
Definition BAW_WITHIN (start bawsz seqno : Z) : bool := ((seqno - start) .& 4095) <? bawsz.

(** [bm] are the two 32-bit words of the bitmap. *)
Definition ATH_BA_ISSET (bm : Z * Z) (n : Z) : bool :=
  (n <? WME_BA_BMP_SIZE) &&
  has (if n .>> 5 =? 0 then fst bm else snd bm) (1 .<< (n .& 31)).

(** * State *)

Record ath_atx_tid := {
  tx_buf : Z;        (* bitmap of ATH_TID_MAX_BUFS bits *)
  seq_start : Z;     (* u16 *)
  seq_next : Z;      (* u16 *)
  baw_size : Z;      (* u16 *)
  baw_head : Z;      (* int *)
  baw_tail : Z;      (* int *)
  bar_index : Z;     (* s8 *)
  active : bool;
}.
#[export] Instance eta_ath_atx_tid : Eta ath_atx_tid := fun r =>
  Build_ath_atx_tid (tx_buf r) (seq_start r) (seq_next r) (baw_size r) (baw_head r)
    (baw_tail r) (bar_index r) (active r).

(** * Operations *)

(** The body of [ath_tx_node_init] for one traffic identifier of a zeroed
    node. *)
Definition ath_tx_node_init_tid : ath_atx_tid :=
  {| tx_buf := 0; seq_start := 0; seq_next := 0; baw_size := WME_MAX_BA; baw_head := 0;
     baw_tail := 0; bar_index := 0; active := false |}.

(** The window part of [ath_tx_aggr_start]; the second result is [*ssn]. *)
Definition aggr_start_window (tid : ath_atx_tid) : ath_atx_tid * Z :=
  let tid := tid <| active := true |> in
  let tid := tid <| seq_start := seq_next tid |> in
  let tid := tid <| bar_index := -1 |> in
  let tid := tid <| tx_buf := 0 |> in
  let tid := tid <| baw_tail := 0 |> in
  let tid := tid <| baw_head := 0 |> in
  (tid, seq_start tid).

(** The sequence number that [ath_tx_setup_buffer] gives a data frame;
    [morefrags] is [ieee80211_has_morefrags]. *)
Definition setup_buffer_seqno (tid : ath_atx_tid) (morefrags : bool) : Z * ath_atx_tid :=
  let seqno := seq_next tid in
  (seqno, if negb morefrags then tid <| seq_next ::= fun s => INCR s IEEE80211_SEQ_MAX |> else tid).

(** The loop of [ath_tx_update_baw]; each iteration moves [baw_head] towards
    [baw_tail] in a ring of [ATH_TID_MAX_BUFS] positions, so this many
    iterations are enough. *)
Fixpoint update_baw_loop (fuel : nat) (tid : ath_atx_tid) : ath_atx_tid :=
  match fuel with
  | O => tid
  | S fuel =>
      if negb (baw_head tid =? baw_tail tid) && negb (Z.testbit (tx_buf tid) (baw_head tid)) then
        let tid := tid <| seq_start ::= fun s => INCR s IEEE80211_SEQ_MAX |> in
        let tid := tid <| baw_head ::= fun h => INCR h ATH_TID_MAX_BUFS |> in
        let tid := if 0 <=? bar_index tid then tid <| bar_index ::= fun b => s8 (b - 1) |> else tid in
        update_baw_loop fuel tid
      else tid
  end.

Definition ath_tx_update_baw (tid : ath_atx_tid) (seqno : Z) : ath_atx_tid :=
  let index := ATH_BA_INDEX (seq_start tid) seqno in
  let cindex := (baw_head tid + index) .& (ATH_TID_MAX_BUFS - 1) in
  let tid := tid <| tx_buf ::= fun b => Z.clearbit b cindex |> in
  update_baw_loop (Z.to_nat ATH_TID_MAX_BUFS) tid.

(** The frame's [baw_tracked] flag is the caller's to record. *)
Definition ath_tx_addto_baw (tid : ath_atx_tid) (seqno : Z) : ath_atx_tid :=
  let index := ATH_BA_INDEX (seq_start tid) seqno in
  let cindex := (baw_head tid + index) .& (ATH_TID_MAX_BUFS - 1) in
  let tid := tid <| tx_buf ::= fun b => Z.setbit b cindex |> in
  if ((baw_tail tid - baw_head tid) .& (ATH_TID_MAX_BUFS - 1)) <=? index then
    let tid := tid <| baw_tail := cindex |> in
    tid <| baw_tail ::= fun t => INCR t ATH_TID_MAX_BUFS |>
  else tid.

(** * Arithmetic of the ring *)

Lemma land_127 x : x .& (ATH_TID_MAX_BUFS - 1) = x mod 128.
Proof. change (ATH_TID_MAX_BUFS - 1) with (Z.ones 7). by rewrite Z.land_ones. Qed.
Lemma land_4095 x : x .& (IEEE80211_SEQ_MAX - 1) = x mod 4096.
Proof. change (IEEE80211_SEQ_MAX - 1) with (Z.ones 12). by rewrite Z.land_ones. Qed.
Lemma INCR_127 x : INCR x ATH_TID_MAX_BUFS = (x + 1) mod 128.
Proof. apply land_127. Qed.
Lemma INCR_4095 x : INCR x IEEE80211_SEQ_MAX = (x + 1) mod 4096.
Proof. apply land_4095. Qed.
Lemma BA_INDEX_mod st seq : ATH_BA_INDEX st seq = (seq - st) mod 4096.
Proof. apply land_4095. Qed.
Lemma BAW_WITHIN_mod st sz seq : BAW_WITHIN st sz seq = ((seq - st) mod 4096 <? sz).
Proof. unfold BAW_WITHIN. change 4095 with (IEEE80211_SEQ_MAX - 1). by rewrite land_4095. Qed.

Create Rewrite HintDb baw.
#[export] Hint Rewrite land_127 land_4095 INCR_127 INCR_4095 BA_INDEX_mod BAW_WITHIN_mod : baw.

(** * The window as a set *)

(** Number of ring positions in use. *)
Definition baw_len (tid : ath_atx_tid) : Z := (baw_tail tid - baw_head tid) mod 128.

(** [S] is the set of the outstanding sequence numbers: exactly they have
    their bit set, at their distance from [seq_start] after [baw_head]. *)
Record baw_rep (S : gset Z) (tid : ath_atx_tid) : Prop := {
  br_head : 0 <= baw_head tid < 128;
  br_tail : 0 <= baw_tail tid < 128;
  br_start : 0 <= seq_start tid < 4096;
  br_bits : forall o, 0 <= o < 128 ->
    Z.testbit (tx_buf tid) ((baw_head tid + o) mod 128) =
      bool_decide (o < baw_len tid /\ (seq_start tid + o) mod 4096 ∈ S);
  br_out : forall s, s ∈ S -> 0 <= s < 4096 /\ (s - seq_start tid) mod 4096 < baw_len tid;
}.

Lemma br_len S tid : baw_rep S tid -> 0 <= baw_len tid < 128.
Proof. intros _. unfold baw_len. dlia. Qed.

(** A sequence number is determined by its distance. *)
Lemma seq_of_index st s : 0 <= s < 4096 -> (st + (s - st) mod 4096) mod 4096 = s.
Proof. dlia. Qed.
Lemma index_of_seq st o : 0 <= o < 4096 -> ((st + o) mod 4096 - st) mod 4096 = o.
Proof. dlia. Qed.

(** Ring positions and distances are in bijection. *)
Lemma ring_pos h p : 0 <= h < 128 -> 0 <= p < 128 -> (h + (p - h) mod 128) mod 128 = p.
Proof. dlia. Qed.
Lemma ring_inj h o1 o2 : 0 <= o1 < 128 -> 0 <= o2 < 128 ->
  (h + o1) mod 128 = (h + o2) mod 128 -> o1 = o2.
Proof. dlia. Qed.

Lemma baw_rep_init tid :
  tx_buf tid = 0 -> baw_head tid = 0 -> baw_tail tid = 0 -> 0 <= seq_start tid < 4096 ->
  baw_rep ∅ tid.
Proof.
  intros Hb Hh Ht Hs. constructor; try lia; [|by intros s Hin%not_elem_of_empty].
  intros o Ho. rewrite Hb, Z.bits_0. symmetry. apply bool_decide_eq_false. set_solver.
Qed.

(** ** Adding a frame *)

Lemma addto_baw_rep S tid seqno :
  baw_rep S tid -> 0 <= seqno < 4096 -> (seqno - seq_start tid) mod 4096 < 127 ->
  baw_rep ({[seqno]} ∪ S) (ath_tx_addto_baw tid seqno) /\
  seq_start (ath_tx_addto_baw tid seqno) = seq_start tid /\
  baw_len (ath_tx_addto_baw tid seqno) = Z.max (baw_len tid) ((seqno - seq_start tid) mod 4096 + 1).
Proof.
  intros [Hh Ht Hs Hb Ho] Hq Hidx. unfold ath_tx_addto_baw. autorewrite with baw.
  set (i := (seqno - seq_start tid) mod 4096) in *. set (p := (baw_head tid + i) mod 128).
  assert (0 <= i < 127) as Hi by (subst i; dlia).
  assert (seqno = (seq_start tid + i) mod 4096) as Eq by (subst i; symmetry; by apply seq_of_index).
  match goal with |- baw_rep _ ?x /\ _ => set (tid' := x) end.
  assert (baw_head tid' = baw_head tid /\ seq_start tid' = seq_start tid /\
    tx_buf tid' = Z.setbit (tx_buf tid) p /\ 0 <= baw_tail tid' < 128 /\
    baw_len tid' = Z.max (baw_len tid) (i + 1)) as (E1 & E2 & E3 & E4 & E5).
  { subst tid'. simpl. unfold baw_len.
    destruct (Z.leb_spec ((baw_tail tid - baw_head tid) mod 128) i); simpl; autorewrite with baw;
      split_and!; try done; subst p; dlia. }
  split_and!; [|done|done]. constructor; rewrite ?E1, ?E2, ?E3, ?E5; try done.
  - intros o Hor. assert (0 <= p) by (subst p; dlia). rewrite Z.setbit_eqb by done.
    rewrite Hb by done. destruct (Z.eqb_spec p ((baw_head tid + o) mod 128)) as [E|E]; simpl.
    + symmetry. apply bool_decide_eq_true. apply ring_inj in E; [|lia|lia]. subst o.
      split; [lia|]. rewrite <- Eq. set_solver.
    + apply bool_decide_ext. rewrite elem_of_union, elem_of_singleton.
      assert ((seq_start tid + o) mod 4096 <> seqno) as Hne.
      { intros E'. apply E. subst p. f_equal. f_equal. subst i. rewrite <- E'. by rewrite index_of_seq by lia. }
      split; [intros [? ?]; split; [lia|by right]|]. intros [_ [?|Hin]]; [done|]. split; [|done].
      apply Ho in Hin as [_ Hin]. by rewrite index_of_seq in Hin by lia.
  - intros s [->%elem_of_singleton|Hin]%elem_of_union; [split; [done|subst i; lia]|].
    apply Ho in Hin as [? ?]. split; [done|lia].
Qed.

(** ** Removing a frame *)

Lemma clear_rep S tid seqno :
  baw_rep S tid -> 0 <= seqno < 4096 -> (seqno - seq_start tid) mod 4096 < 128 ->
  baw_rep (S ∖ {[seqno]})
    (tid <| tx_buf ::= fun b => Z.clearbit b ((baw_head tid + (seqno - seq_start tid) mod 4096) mod 128) |>).
Proof.
  intros [Hh Ht Hs Hb Ho] Hq Hidx. set (i := (seqno - seq_start tid) mod 4096) in *.
  assert (0 <= i) as Hi by (subst i; dlia).
  assert (seqno = (seq_start tid + i) mod 4096) as Eq by (subst i; symmetry; by apply seq_of_index).
  constructor; simpl; try done.
  - intros o Hor. rewrite Z.clearbit_eqb by dlia. rewrite Hb by done.
    change (baw_len _) with (baw_len tid).
    destruct (Z.eqb_spec ((baw_head tid + i) mod 128) ((baw_head tid + o) mod 128)) as [E|E]; simpl.
    + rewrite andb_false_r. symmetry. apply bool_decide_eq_false. apply ring_inj in E; [|lia|lia].
      subst o. rewrite <- Eq. set_solver.
    + rewrite andb_true_r. apply bool_decide_ext.
      assert ((seq_start tid + o) mod 4096 <> seqno) as Hne.
      { intros E'. apply E. f_equal. f_equal. subst i. rewrite <- E'. by rewrite index_of_seq by lia. }
      set_solver.
  - intros s Hin. apply Ho. set_solver.
Qed.

(** One iteration of the loop slides the window over a position that is not
    outstanding. *)
Lemma slide_rep S tid b :
  baw_rep S tid -> baw_head tid <> baw_tail tid -> Z.testbit (tx_buf tid) (baw_head tid) = false ->
  let tid' := tid <| seq_start ::= fun s => INCR s IEEE80211_SEQ_MAX |>
                  <| baw_head ::= fun h => INCR h ATH_TID_MAX_BUFS |> <| bar_index := b |> in
  baw_rep S tid' /\ baw_len tid' = baw_len tid - 1 /\ 0 < baw_len tid /\ seq_start tid ∉ S.
Proof.
  intros [Hh Ht Hs Hb Ho] Hne Hbit. simpl.
  assert (0 < baw_len tid < 128) as Hlen by (unfold baw_len; dlia).
  assert (seq_start tid ∉ S) as Hns.
  { intros Hin. specialize (Hb 0 ltac:(lia)). rewrite Z.add_0_r, Z.mod_small, Hbit in Hb by lia.
    symmetry in Hb. apply bool_decide_eq_false in Hb. apply Hb. split; [lia|].
    by rewrite Z.add_0_r, Z.mod_small by lia. }
  match goal with |- baw_rep _ ?x /\ _ => set (tid' := x) end.
  assert (baw_len tid' = baw_len tid - 1) as Hlen'.
  { subst tid'. unfold baw_len in *. simpl. autorewrite with baw. dlia. }
  split_and!; [|done|lia|done]. constructor; rewrite ?Hlen'; subst tid'; simpl; autorewrite with baw;
    try dlia.
  - intros o Hor. destruct (Z.eq_dec o 127) as [->|Hn127].
    + replace (((baw_head tid + 1) mod 128 + 127) mod 128) with (baw_head tid) by dlia.
      rewrite Hbit. symmetry. apply bool_decide_eq_false. intros [? _]. lia.
    + replace (((baw_head tid + 1) mod 128 + o) mod 128) with ((baw_head tid + (o + 1)) mod 128) by dlia.
      rewrite Hb by lia. apply bool_decide_ext.
      replace (((seq_start tid + 1) mod 4096 + o) mod 4096) with ((seq_start tid + (o + 1)) mod 4096) by dlia.
      split; intros [? ?]; split; try lia; done.
  - intros s Hin. apply Ho in Hin as Hx. destruct Hx as [Hsr Hi]. split; [done|].
    assert ((s - seq_start tid) mod 4096 <> 0) as Hnz by (intros E; apply Hns; replace (seq_start tid) with s by dlia; done).
    dlia.
Qed.

(** The position where the loop stops. *)
Definition baw_settled (tid : ath_atx_tid) : Prop :=
  baw_head tid = baw_tail tid \/ Z.testbit (tx_buf tid) (baw_head tid) = true.

Lemma update_loop_rep S fuel : forall tid,
  baw_rep S tid -> baw_len tid < Z.of_nat fuel ->
  let tid' := update_baw_loop fuel tid in
  baw_rep S tid' /\ baw_settled tid' /\
  exists k, 0 <= k <= baw_len tid /\ seq_start tid' = (seq_start tid + k) mod 4096 /\
    baw_len tid' = baw_len tid - k /\ forall o, 0 <= o < k -> (seq_start tid + o) mod 4096 ∉ S.
Proof.
  induction fuel as [|fuel IH]; intros tid Hr Hf; [pose proof (br_len _ _ Hr); lia|].
  pose proof (br_len _ _ Hr) as Hlen. cbn [update_baw_loop].
  destruct (Z.eqb_spec (baw_head tid) (baw_tail tid)) as [E|Hne]; cbn [negb andb].
  { split_and!; [done|by left|]. exists 0. split_and!; try lia.
    rewrite Z.add_0_r. symmetry. apply Z.mod_small. by apply (br_start _ _ Hr). }
  destruct (Z.testbit (tx_buf tid) (baw_head tid)) eqn:Eb; cbn [negb].
  { split_and!; [done|by right|]. exists 0. split_and!; try lia.
    rewrite Z.add_0_r. symmetry. apply Z.mod_small. by apply (br_start _ _ Hr). }
  match goal with |- context [update_baw_loop fuel ?x] => set (t1 := x) end.
  assert (exists b, t1 = tid <| seq_start ::= fun s => INCR s IEEE80211_SEQ_MAX |>
    <| baw_head ::= fun h => INCR h ATH_TID_MAX_BUFS |> <| bar_index := b |>) as [b Hb].
  { subst t1. simpl. case_match; by eexists. }
  destruct (slide_rep S tid b Hr Hne Eb) as (Hr1 & Hl1 & Hpos & Hns). rewrite <- Hb in Hr1, Hl1.
  assert (seq_start t1 = (seq_start tid + 1) mod 4096) as Hs1
    by (rewrite Hb; simpl; by autorewrite with baw).
  clearbody t1. clear Hb b.
  destruct (IH t1 Hr1 ltac:(lia)) as (Hr2 & Hset & k & Hk & Hst & Hl2 & Hno).
  split_and!; [done|done|]. exists (k + 1). split_and!; try lia.
  - rewrite Hst, Hs1. dlia.
  - intros o Ho. destruct (Z.eq_dec o 0) as [->|].
    + rewrite Z.add_0_r, Z.mod_small; [done|]. by apply (br_start _ _ Hr).
    + specialize (Hno (o - 1) ltac:(lia)). rewrite Hs1 in Hno.
      by replace ((seq_start tid + o) mod 4096) with (((seq_start tid + 1) mod 4096 + (o - 1)) mod 4096) by dlia.
Qed.

(** [ath_tx_update_baw] for a ring position that is the one of [s]. *)
Lemma update_baw_pos S tid seqno s :
  baw_rep S tid -> 0 <= s < 4096 -> (s - seq_start tid) mod 4096 < 128 ->
  ((seqno - seq_start tid) mod 4096) mod 128 = (s - seq_start tid) mod 4096 ->
  let tid' := ath_tx_update_baw tid seqno in
  baw_rep (S ∖ {[s]}) tid' /\ baw_settled tid' /\ baw_len tid' <= baw_len tid /\
  exists k, 0 <= k <= baw_len tid /\ seq_start tid' = (seq_start tid + k) mod 4096 /\
    forall o, 0 <= o < k -> (seq_start tid + o) mod 4096 ∉ S ∖ {[s]}.
Proof.
  intros Hr Hs Hi Hpos. unfold ath_tx_update_baw. autorewrite with baw. cbv zeta.
  replace ((baw_head tid + (seqno - seq_start tid) mod 4096) mod 128)
    with ((baw_head tid + (s - seq_start tid) mod 4096) mod 128) by dlia.
  pose proof (clear_rep S tid s Hr Hs Hi) as Hc.
  match type of Hc with baw_rep _ ?x => set (t1 := x) in *;
    change (seq_start tid) with (seq_start t1); change (baw_len tid) with (baw_len t1) end.
  pose proof (br_len _ _ Hc). change (Z.to_nat ATH_TID_MAX_BUFS) with 128%nat.
  destruct (update_loop_rep _ 128 t1 Hc ltac:(lia)) as (Hr2 & Hset & k & Hk & Hst & Hl & Hno).
  split_and!; [exact Hr2|exact Hset|lia|]. exists k. split_and!; try lia; done.
Qed.

(** The window always starts at an outstanding number, unless it is empty. *)
Lemma settled_start S tid :
  baw_rep S tid -> baw_settled tid -> S = ∅ \/ seq_start tid ∈ S.
Proof.
  intros [Hh Ht Hs Hb Ho] [E|E].
  - left. apply elem_of_equiv_empty_L. intros s Hin. apply Ho in Hin as [_ Hin].
    unfold baw_len in Hin. rewrite E, Z.sub_diag in Hin. dlia.
  - right. specialize (Hb 0 ltac:(lia)). rewrite Z.add_0_r, Z.mod_small, E in Hb by lia.
    symmetry in Hb. apply bool_decide_eq_true in Hb as [_ Hb]. by rewrite Z.add_0_r, Z.mod_small in Hb.
Qed.

(** * Runs of the window *)

(** The states of a traffic identifier with the set of sequence numbers that
    are outstanding: a session starts, a frame gets the next number, a frame
    inside the window is added, an outstanding frame is completed. *)
Inductive baw_reach : gset Z -> ath_atx_tid -> Prop :=
| reach_node_init : baw_reach ∅ ath_tx_node_init_tid
| reach_start S tid : baw_reach S tid -> baw_reach ∅ (aggr_start_window tid).1
| reach_seqno S tid mf : baw_reach S tid -> baw_reach S (setup_buffer_seqno tid mf).2
| reach_add S tid s : baw_reach S tid -> 0 <= s < 4096 ->
    BAW_WITHIN (seq_start tid) (baw_size tid) s = true ->
    baw_reach ({[s]} ∪ S) (ath_tx_addto_baw tid s)
| reach_done S tid s : baw_reach S tid -> s ∈ S -> baw_reach (S ∖ {[s]}) (ath_tx_update_baw tid s).

Lemma update_loop_size fuel : forall tid,
  baw_size (update_baw_loop fuel tid) = baw_size tid /\
  seq_next (update_baw_loop fuel tid) = seq_next tid.
Proof.
  induction fuel as [|fuel IH]; intros tid; cbn [update_baw_loop]; [done|].
  case_match; [|done]. match goal with |- context [update_baw_loop fuel ?x] => destruct (IH x) as [-> ->] end.
  simpl. by case_match.
Qed.

Lemma update_baw_size tid s :
  baw_size (ath_tx_update_baw tid s) = baw_size tid /\
  seq_next (ath_tx_update_baw tid s) = seq_next tid.
Proof.
  unfold ath_tx_update_baw. cbv zeta. generalize (Z.to_nat ATH_TID_MAX_BUFS) as fuel. intros fuel.
  match goal with |- context [update_baw_loop fuel ?x] => destruct (update_loop_size fuel x) as [-> ->] end.
  done.
Qed.

Lemma baw_reach_inv S tid :
  baw_reach S tid ->
  baw_rep S tid /\ baw_size tid = 64 /\ baw_len tid <= 64 /\ 0 <= seq_next tid < 4096.
Proof.
  induction 1 as [|S tid _ IH|S tid mf _ IH|S tid s _ IH Hs Hw|S tid s _ IH Hin].
  - split; [by apply baw_rep_init|done].
  - destruct IH as (_ & ? & _ & ?). split; [by apply baw_rep_init|done].
  - destruct IH as ([] & ? & ? & ?). unfold setup_buffer_seqno.
    split; [by destruct mf|]. split; [by destruct mf|]. split; [by destruct mf|].
    destruct mf; simpl; [done|]. autorewrite with baw. dlia.
  - destruct IH as (Hr & Hsz & Hl & Hn). autorewrite with baw in Hw. rewrite Hsz in Hw. ztest.
    destruct (addto_baw_rep S tid s Hr Hs ltac:(lia)) as (Hr' & Hst & Hl').
    split; [done|]. rewrite Hl'. split; [|split; [lia|]];
      unfold ath_tx_addto_baw; cbv zeta; by case_match.
  - destruct IH as (Hr & Hsz & Hl & Hn). pose proof (br_out _ _ Hr s Hin) as [Hs Hi].
    destruct (update_baw_pos S tid s s Hr Hs ltac:(lia)) as (Hr' & _ & Hl' & _).
    { rewrite Z.mod_small; [done|]. split; [dlia|lia]. }
    destruct (update_baw_size tid s) as [E1 E2]. rewrite E1, E2.
    split; [exact Hr'|]. split; [exact Hsz|]. split; [lia|exact Hn].
Qed.

(** C19. The bit ring implements the set of outstanding sequence numbers: in
    every reachable state a number has its bit (at its distance from
    [seq_start] after [baw_head]) exactly when it is outstanding, and every
    outstanding number lies inside the 64-entry block-ack window, so that the
    receiver's bitmap covers it. *)
Theorem baw_refines_set S tid :
  baw_reach S tid ->
  (forall s, 0 <= s < 4096 -> ATH_BA_INDEX (seq_start tid) s < ATH_TID_MAX_BUFS ->
     Z.testbit (tx_buf tid) ((baw_head tid + ATH_BA_INDEX (seq_start tid) s) .& (ATH_TID_MAX_BUFS - 1))
       = bool_decide (s ∈ S)) /\
  (forall s, s ∈ S -> 0 <= s < 4096 /\ BAW_WITHIN (seq_start tid) (baw_size tid) s = true).
Proof.
  intros (Hr & Hsz & Hl & _)%baw_reach_inv. destruct Hr as [Hh Ht Hst Hb Ho]. split.
  - intros s Hs. autorewrite with baw. change ATH_TID_MAX_BUFS with 128. intros Hi.
    rewrite Hb by dlia. apply bool_decide_ext. rewrite seq_of_index by done.
    split; [by intros [_ ?]|]. intros Hin. split; [|done]. by apply Ho.
  - intros s Hin. autorewrite with baw. destruct (Ho s Hin). split; [done|]. apply Z.ltb_lt. lia.
Qed.

(** Completing a frame: [ath_tx_update_baw] removes exactly the completed
    number, and moves the start of the window past completed numbers only, up
    to the oldest one that is still outstanding (its loop always gets there);
    when none is left the window is empty. *)
Theorem update_baw_advances S tid s :
  baw_reach S tid -> s ∈ S ->
  let tid' := ath_tx_update_baw tid s in
  let S' := S ∖ {[s]} in
  baw_rep S' tid' /\ (S' = ∅ \/ seq_start tid' ∈ S') /\
  exists k, 0 <= k < IEEE80211_SEQ_MAX /\ seq_start tid' = ATH_BA_INDEX2SEQ (seq_start tid) k /\
    forall o, 0 <= o < k -> ATH_BA_INDEX2SEQ (seq_start tid) o ∉ S'.
Proof.
  intros (Hr & _ & Hl & _)%baw_reach_inv Hin. pose proof (br_out _ _ Hr s Hin) as [Hs Hi].
  destruct (update_baw_pos S tid s s Hr Hs ltac:(lia)) as (Hr' & Hset & _ & k & Hk & Hst & Hno).
  { rewrite Z.mod_small; [done|]. split; [dlia|lia]. }
  cbv zeta. split_and!; [done|by apply settled_start|].
  exists k. unfold ATH_BA_INDEX2SEQ. autorewrite with baw. split_and!; try done; [lia|unfold IEEE80211_SEQ_MAX; lia|].
  intros o Ho. autorewrite with baw. by apply Hno.
Qed.

(** A stale completion corrupts the window: [ath_tx_complete_aggr] calls
    [ath_tx_update_baw] also for a frame that it has just found to lie
    outside the window (left over from an earlier session). The distance is
    reduced to a ring position without a check, so the bit of an outstanding
    number at the same position is cleared: that number is treated as
    completed, although its frame has not been. *)
Theorem stale_completion_drops_frame S tid s seqno :
  baw_reach S tid -> s ∈ S -> 0 <= seqno < 4096 ->
  BAW_WITHIN (seq_start tid) (baw_size tid) seqno = false ->
  (ATH_BA_INDEX (seq_start tid) seqno) mod ATH_TID_MAX_BUFS = ATH_BA_INDEX (seq_start tid) s ->
  (seqno ∉ S) /\ baw_rep (S ∖ {[s]}) (ath_tx_update_baw tid seqno).
Proof.
  intros (Hr & Hsz & Hl & _)%baw_reach_inv Hin Hq Hout Hpos. pose proof (br_out _ _ Hr s Hin) as [Hs Hi].
  autorewrite with baw in *. change ATH_TID_MAX_BUFS with 128 in Hpos. rewrite Hsz in Hout. ztest. split.
  - intros Hin'. apply (br_out _ _ Hr) in Hin'. lia.
  - destruct (update_baw_pos S tid seqno s Hr Hs ltac:(lia) Hpos) as (Hr' & _). exact Hr'.
Qed.

(** * A concrete session *)

Definition demo_tid : ath_atx_tid :=
  ath_tx_addto_baw (ath_tx_addto_baw (aggr_start_window ath_tx_node_init_tid).1 0) 1.

Lemma demo_tid_reach : baw_reach ({[1]} ∪ ({[0]} ∪ ∅)) demo_tid.
Proof.
  unfold demo_tid. apply reach_add; [|lia|reflexivity]. apply reach_add; [|lia|reflexivity].
  apply (reach_start ∅). apply reach_node_init.
Qed.

Lemma baw_refines_set_witness :
  Z.testbit (tx_buf demo_tid) 1 = true.
Proof.
  destruct (baw_refines_set _ _ demo_tid_reach) as [Hb _].
  etrans; [exact (Hb 1 ltac:(lia) eq_refl)|]. apply bool_decide_eq_true. set_solver.
Defined.

Lemma update_baw_advances_witness :
  baw_rep (({[1]} ∪ ({[0]} ∪ ∅)) ∖ {[0]}) (ath_tx_update_baw demo_tid 0) /\
  seq_start (ath_tx_update_baw demo_tid 0) = 1.
Proof.
  split; [|by vm_compute]. apply (update_baw_advances _ _ 0 demo_tid_reach). set_solver.
Defined.

Lemma stale_completion_drops_frame_witness :
  baw_rep (({[1]} ∪ ({[0]} ∪ ∅)) ∖ {[1]}) (ath_tx_update_baw demo_tid 129).
Proof.
  apply (stale_completion_drops_frame _ _ 1 129 demo_tid_reach); [set_solver|lia|reflexivity|reflexivity].
Defined.
