(* ===== verification/Airtime.v ===== *)
(** Air time and aggregate sizes (src/real/ath/ath9k/xmit.c): the duration of
    an HT frame, the longest frame that fits a transmit opportunity, the
    padding delimiters between subframes and the formation of aggregates. *)

From S2P Require Import Prelude Baw.

(** * Constants and macros *)

Definition BITS_PER_BYTE : Z := 8.
Definition OFDM_PLCP_BITS : Z := 22.
Definition HT_RC_2_STREAMS (rc : Z) : Z := ((rc .& 0x78) .>> 3) + 1.
Definition L_STF : Z := 8.
Definition L_LTF : Z := 8.
Definition L_SIG : Z := 4.
Definition HT_SIG : Z := 8.
Definition HT_STF : Z := 4.
Definition HT_LTF (ns : Z) : Z := 4 * ns.
Definition SYMBOL_TIME (ns : Z) : Z := ns .<< 2.
Definition SYMBOL_TIME_HALFGI (ns : Z) : Z := cdiv (ns * 18 + 4) 5.
Definition TIME_SYMBOLS (t : Z) : Z := t .>> 2.
Definition TIME_SYMBOLS_HALFGI (t : Z) : Z := cdiv (t * 5 - 4) 18.
Definition NUM_SYMBOLS_PER_USEC (usec : Z) : Z := usec .>> 2.
Definition NUM_SYMBOLS_PER_USEC_HALFGI (usec : Z) : Z := cdiv (usec * 5 - 4) 18.
Definition ATH_AMPDU_LIMIT_MAX : Z := 65535.
Definition ATH_AGGR_DELIM_SZ : Z := 4.
Definition ATH_AGGR_MINPLEN : Z := 256.
Definition ATH_AGGR_ENCRYPTDELIM : Z := 10.
Definition FIRST_DESC_NDELIMS : Z := 60.

Definition ATH_AGGR_GET_NDELIM (len : Z) : Z :=
  if ATH_AGGR_MINPLEN <=? len then 0
  else (ATH_AGGR_MINPLEN - len + ATH_AGGR_DELIM_SZ - 1) / ATH_AGGR_DELIM_SZ.

(** Rows by modulation; 20 MHz, 40 MHz. *)
Definition bits_per_symbol_table : list (Z * Z) :=
  [(26, 54); (52, 108); (78, 162); (104, 216); (156, 324); (208, 432); (234, 486); (260, 540)].

Definition bits_per_symbol (row : Z) (width : bool) : Z :=
  let '(ht20, ht40) := nth (Z.to_nat row) bits_per_symbol_table (0, 0) in
  if width then ht40 else ht20.

(** * Durations *)

Definition preamble (streams : Z) : Z :=
  L_STF + L_LTF + L_SIG + HT_SIG + HT_STF + HT_LTF streams.

Definition ath_pkt_duration (rix pktlen : Z) (width half_gi : bool) : Z :=
  let streams := HT_RC_2_STREAMS rix in
  let nbits := u32 ((pktlen .<< 3) + OFDM_PLCP_BITS) in
  let nsymbits := u32 (bits_per_symbol (rix mod 8) width * streams) in
  let nsymbols := u32 (nbits + nsymbits - 1) / nsymbits in
  let duration :=
    if negb half_gi then u32 (SYMBOL_TIME nsymbols) else u32 (nsymbols * 18 + 4) / 5 in
  u32 (duration + preamble streams).

(** Plain [int] arithmetic: the shift is arithmetic, the divisions truncate. *)
Definition ath_max_framelen (usec mcs : Z) (ht40 sgi : bool) : Z :=
  let streams := HT_RC_2_STREAMS mcs in
  let usec := usec - preamble streams in
  let symbols := if sgi then TIME_SYMBOLS_HALFGI usec else TIME_SYMBOLS usec in
  let bits := symbols * bits_per_symbol (mcs mod 8) ht40 * streams in
  let bits := bits - OFDM_PLCP_BITS in
  let bytes := cdiv bits 8 in
  if 65532 <? bytes then 65532 else bytes.

(** The four rows of [max_aggr_framelen[queue]] (u16 entries), each for the 32
    MCS values: HT20, HT20 short GI, HT40, HT40 short GI. *)
Definition ath_update_max_aggr_framelen (txop : Z) : list (list Z) :=
  let txop := if (txop =? 0) || (4096 <? txop) then 4096 else txop in
  let row ht40 sgi := (fun mcs => u16 (ath_max_framelen txop (Z.of_nat mcs) ht40 sgi)) <$> seq 0 32 in
  [row false false; row false true; row true false; row true true].

(** * Aggregation limits *)

(** One entry of a rate series: [count], [idx] and the three flags used. *)
Record tx_rate := {
  r_count : Z; r_idx : Z; r_mcs : bool; r_40mhz : bool; r_short_gi : bool;
}.

Definition ath_lookup_legacy (rates : list tx_rate) : bool :=
  (fix go (l : list tx_rate) : bool :=
     match l with
     | [] => false
     | r :: l =>
         if (r_count r =? 0) || (r_idx r <? 0) then false
         else if negb (r_mcs r) then true
         else go l
     end) (take 4 rates).

(** The loop over the rate series: the shortest limit and the legacy flag. *)
Fixpoint lookup_rate_loop (max_aggr_framelen : list (list Z)) (rates : list tx_rate)
    (max_4ms_framelen : Z) : Z * bool :=
  match rates with
  | [] => (max_4ms_framelen, false)
  | r :: rates =>
      if r_count r =? 0 then lookup_rate_loop max_aggr_framelen rates max_4ms_framelen
      else if negb (r_mcs r) then (max_4ms_framelen, true)
      else
        let modeidx := ((if r_40mhz r then 2 else 0) + (if r_short_gi r then 1 else 0))%nat in
        let frmlen := nth (Z.to_nat (r_idx r)) (nth modeidx max_aggr_framelen []) 0 in
        lookup_rate_loop max_aggr_framelen rates (Z.min max_4ms_framelen frmlen)
  end.

(** [probe]: IEEE80211_TX_CTL_RATE_CTRL_PROBE; [bt_aggr_limit]: the result of
    [ath9k_btcoex_aggr_limit]; [maxampdu]: [tid->an->maxampdu]. *)
Definition ath_lookup_rate (max_aggr_framelen : list (list Z)) (rates : list tx_rate)
    (probe : bool) (bt_aggr_limit : Z -> Z) (maxampdu : Z) : Z :=
  let '(max_4ms_framelen, legacy) :=
    lookup_rate_loop max_aggr_framelen (take 4 rates) ATH_AMPDU_LIMIT_MAX in
  if probe || legacy then 0
  else
    let aggr_limit := u16 (Z.min max_4ms_framelen ATH_AMPDU_LIMIT_MAX) in
    let bt := u16 (bt_aggr_limit max_4ms_framelen) in
    let aggr_limit := if negb (bt =? 0) then bt else aggr_limit in
    if negb (maxampdu =? 0) then Z.min aggr_limit maxampdu else aggr_limit.

(** The node and hardware properties that the delimiter count depends on. *)
Record delim_env := {
  de_encrypt_pad : bool;    (* keyix valid and no EDMA *)
  de_first_pad : bool;      (* not 9580 or later, and AR_ENT_OTP_MIN_PKT_SIZE_DISABLE *)
  de_mpdudensity : Z;       (* u8, microseconds *)
  de_rate : tx_rate;        (* bf->rates[0] *)
}.

(** The subframe length that the MPDU density demands. *)
Definition density_minlen (env : delim_env) : Z :=
  let r := de_rate env in
  let nsymbols := u32 (if r_short_gi r then NUM_SYMBOLS_PER_USEC_HALFGI (de_mpdudensity env)
                       else NUM_SYMBOLS_PER_USEC (de_mpdudensity env)) in
  let nsymbols := if nsymbols =? 0 then 1 else nsymbols in
  let rix := u8 (r_idx r) in
  let streams := HT_RC_2_STREAMS rix in
  let nsymbits := u32 (bits_per_symbol (rix mod 8) (r_40mhz r) * streams) in
  u16 (u32 (nsymbols * nsymbits) / BITS_PER_BYTE).

Definition ath_compute_num_delims (env : delim_env) (frmlen : Z) (first_subfrm : bool) : Z :=
  let ndelim := ATH_AGGR_GET_NDELIM frmlen in
  let ndelim := if de_encrypt_pad env then ndelim + ATH_AGGR_ENCRYPTDELIM else ndelim in
  let ndelim := if first_subfrm && de_first_pad env then Z.max ndelim FIRST_DESC_NDELIMS else ndelim in
  if de_mpdudensity env =? 0 then ndelim
  else
    let minlen := density_minlen env in
    if frmlen <? minlen then Z.max (cdiv (minlen - frmlen) ATH_AGGR_DELIM_SZ) ndelim
    else ndelim.

(** * Aggregates *)

(** A queued subframe: its length with FCS, whether its rate series contains a
    legacy rate, the probe and A-MPDU flags, its sequence number and whether
    the block-ack window tracks it already. *)
Record subframe := {
  sf_framelen : Z;   (* u16 *)
  sf_legacy : bool;
  sf_probe : bool;
  sf_ampdu : bool;
  sf_seqno : Z;      (* u16 *)
  sf_baw_tracked : bool;
}.

Definition PADBYTES (len : Z) : Z := (4 - len mod 4) mod 4.

(** The loop of [ath_tx_form_aggr]. [frames] are the subframes that
    [ath_tx_get_tid_subframe] returns one after the other; the loop takes the
    head if it may join, enters it into the block-ack window unless it is
    tracked, notes its delimiters (u8), and stops with [closed] when there is
    no further subframe. [al], [bpad] and [al_delta] are u16 variables. *)
Fixpoint form_aggr_loop (env : delim_env) (aggr_limit h_baw : Z) (frames : list subframe)
    (tid : ath_atx_tid) (nframes al bpad : Z) : list (subframe * Z) * ath_atx_tid * Z * bool :=
  match frames with
  | [] => ([], tid, al, true)
  | f :: rest =>
      let al_delta := u16 (ATH_AGGR_DELIM_SZ + sf_framelen f) in
      if negb (nframes =? 0) &&
         ((aggr_limit <? al + bpad + al_delta) || sf_legacy f || (h_baw <=? nframes) ||
          sf_probe f || negb (sf_ampdu f)) then ([], tid, al, false)
      else
        let al := u16 (al + (bpad + al_delta)) in
        let ndelim := ath_compute_num_delims env (sf_framelen f) (nframes =? 0) in
        let bpad := u16 (PADBYTES al_delta + (ndelim .<< 2)) in
        let tid := if sf_baw_tracked f then tid else ath_tx_addto_baw tid (sf_seqno f) in
        let '(taken, tid, al, closed) :=
          form_aggr_loop env aggr_limit h_baw rest tid (nframes + 1) al bpad in
        ((f, u8 ndelim) :: taken, tid, al, closed)
  end.

(** The subframes of the aggregate with their delimiters, the TID, [*aggr_len]
    and the result; a single subframe is sent as a plain A-MPDU frame with its
    own length. *)
Definition ath_tx_form_aggr (env : delim_env) (aggr_limit : Z) (tid : ath_atx_tid) (frames : list subframe)
  : list (subframe * Z) * ath_atx_tid * Z * bool :=
  let '(taken, tid, al, closed) := form_aggr_loop env aggr_limit (baw_size tid / 2) frames tid 0 0 0 in
  match taken with
  | [(f, _)] => (taken, tid, sf_framelen f, closed)
  | _ => (taken, tid, al, closed)
  end.

(** * Theorems: durations *)

Lemma streams_range mcs : 0 <= mcs < 32 -> 1 <= HT_RC_2_STREAMS mcs <= 4.
Proof.
  intros Hm. unfold HT_RC_2_STREAMS.
  replace (mcs .& 120) with (mcs / 8 * 8).
  - rewrite Z.shiftr_div_pow2 by lia. change (2 ^ 3) with 8. rewrite Z.div_mul by lia. dlia.
  - change 120 with (Z.ldiff (Z.ones 7) (Z.ones 3)).
    assert (mcs .& Z.ldiff (Z.ones 7) (Z.ones 3) = Z.ldiff mcs (Z.ones 3)) as ->.
    { apply Z.bits_inj'. intros n Hn. rewrite Z.land_spec, !Z.ldiff_spec.
      destruct (Z.lt_ge_cases n 7).
      - rewrite (Z.ones_spec_low 7 n) by lia. by destruct (Z.testbit mcs n).
      - rewrite (Z.bits_above_log2 mcs n); [done|lia|].
        destruct (Z.eq_dec mcs 0) as [->|]; [simpl; lia|].
        assert (Z.log2 mcs < 7) by (apply Z.log2_lt_pow2; lia). lia. }
    rewrite Z.ldiff_ones_r, Z.shiftl_mul_pow2, Z.shiftr_div_pow2 by lia. done.
Qed.

Lemma bits_range row width : 0 <= row < 8 -> 26 <= bits_per_symbol row width <= 540.
Proof.
  intros Hr. assert (row = 0 \/ row = 1 \/ row = 2 \/ row = 3 \/ row = 4 \/ row = 5 \/ row = 6 \/ row = 7)
    as Hor by lia.
  destruct_or! Hor; subst; destruct width; vm_compute; split; discriminate.
Qed.

(** The symbols that the driver allots to [t] microseconds take at most [t]. *)
Lemma symbols_fit (t : Z) (sgi : bool) :
  let s := if sgi then TIME_SYMBOLS_HALFGI t else TIME_SYMBOLS t in
  0 <= s -> (if negb sgi then SYMBOL_TIME s else (s * 18 + 4) / 5) <= Z.max t 0.
Proof.
  unfold TIME_SYMBOLS_HALFGI, TIME_SYMBOLS, SYMBOL_TIME. cbv zeta.
  rewrite Z.shiftr_div_pow2 by lia. change (2 ^ 2) with 4.
  destruct sgi; cbn [negb]; intros Hs.
  - destruct (Z.lt_ge_cases (t * 5 - 4) 0).
    + rewrite cdiv_neg in * by lia. dlia.
    + rewrite cdiv_nonneg in * by lia. dlia.
  - rewrite Z.shiftl_mul_pow2 by lia. change (2 ^ 2) with 4. dlia.
Qed.

(** The number of symbols of a frame, as [ath_pkt_duration] counts them. *)
Lemma pkt_duration_symbols mcs len width sgi B :
  0 <= mcs < 32 -> 0 <= len <= 65535 -> B = bits_per_symbol (mcs mod 8) width * HT_RC_2_STREAMS mcs ->
  let n := (8 * len + 22 + B - 1) / B in
  26 <= B <= 2160 /\ 0 <= n <= 30000 /\
  ath_pkt_duration mcs len width sgi =
    (if negb sgi then SYMBOL_TIME n else (n * 18 + 4) / 5) + preamble (HT_RC_2_STREAMS mcs).
Proof.
  intros Hm Hl HB n. pose proof (streams_range mcs Hm) as Hst.
  pose proof (bits_range (mcs mod 8) width ltac:(dlia)) as Hbits.
  assert (26 <= B <= 2160) as HBr by nia.
  assert (0 <= n <= 30000) as Hn.
  { subst n. split; [apply Z.div_pos; lia|]. apply Z.div_le_upper_bound; [lia|]. nia. }
  split_and!; try lia. unfold ath_pkt_duration. rewrite <- HB.
  rewrite Z.shiftl_mul_pow2 by lia. change (2 ^ 3) with 8. unfold OFDM_PLCP_BITS.
  rewrite (u32_id (len * 8 + 22)), (u32_id B) by (unfold in_u32; lia).
  rewrite (u32_id (len * 8 + 22 + B - 1)) by (unfold in_u32; lia).
  replace (len * 8 + 22 + B - 1) with (8 * len + 22 + B - 1) by lia. fold n.
  assert (in_u32 (SYMBOL_TIME n)) as H1.
  { unfold SYMBOL_TIME, in_u32. rewrite Z.shiftl_mul_pow2 by lia. change (2 ^ 2) with 4. lia. }
  rewrite (u32_id (SYMBOL_TIME n)), (u32_id (n * 18 + 4)) by (unfold in_u32 in *; lia).
  apply u32_id. unfold in_u32, SYMBOL_TIME, preamble, L_STF, L_LTF, L_SIG, HT_SIG, HT_STF, HT_LTF in *.
  rewrite Z.shiftl_mul_pow2 in * by lia. change (2 ^ 2) with 4 in *.
  destruct (negb sgi); dlia.
Qed.

Lemma max_framelen_value (usec mcs : Z) (ht40 sgi : bool) (B s : Z) :
  0 <= mcs < 32 -> B = bits_per_symbol (mcs mod 8) ht40 * HT_RC_2_STREAMS mcs -> 26 <= B ->
  s = (let t := usec - preamble (HT_RC_2_STREAMS mcs) in
       if sgi then TIME_SYMBOLS_HALFGI t else TIME_SYMBOLS t) ->
  (1 <= s -> ath_max_framelen usec mcs ht40 sgi = Z.min 65532 ((s * B - 22) / 8)) /\
  (s <= 0 -> ath_max_framelen usec mcs ht40 sgi < 0).
Proof.
  intros Hm HB HBr Hs. unfold ath_max_framelen. cbv zeta in *. rewrite <- Hs.
  replace (s * bits_per_symbol (mcs mod 8) ht40 * HT_RC_2_STREAMS mcs) with (s * B) by lia.
  unfold OFDM_PLCP_BITS. split; intros Hs1.
  - rewrite cdiv_nonneg by nia. destruct (Z.ltb_spec 65532 ((s * B - 22) / 8)); lia.
  - assert (s * B - 22 <= -22) by nia. rewrite cdiv_neg by lia.
    destruct (Z.ltb_spec 65532 (- (- (s * B - 22) / 8))); dlia.
Qed.

Lemma max_framelen_fits_aux usec mcs ht40 sgi :
  0 <= mcs < 32 -> 0 <= ath_max_framelen usec mcs ht40 sgi ->
  ath_pkt_duration mcs (ath_max_framelen usec mcs ht40 sgi) ht40 sgi <= usec.
Proof.
  intros Hm Hpos. set (B := bits_per_symbol (mcs mod 8) ht40 * HT_RC_2_STREAMS mcs).
  assert (26 <= B) as HB.
  { subst B. pose proof (streams_range mcs Hm). pose proof (bits_range (mcs mod 8) ht40 ltac:(dlia)). nia. }
  set (t := usec - preamble (HT_RC_2_STREAMS mcs)).
  set (s := if sgi then TIME_SYMBOLS_HALFGI t else TIME_SYMBOLS t).
  destruct (max_framelen_value usec mcs ht40 sgi B s Hm eq_refl HB eq_refl) as [Hpv Hnv].
  destruct (Z.le_gt_cases s 0) as [|Hs]; [specialize (Hnv ltac:(lia)); lia|].
  specialize (Hpv ltac:(lia)). set (len := ath_max_framelen usec mcs ht40 sgi) in *.
  destruct (pkt_duration_symbols mcs len ht40 sgi B Hm ltac:(lia) eq_refl) as (_ & Hn & ->).
  set (n := (8 * len + 22 + B - 1) / B) in *.
  assert (n <= s) as Hns.
  { subst n. apply Z.lt_succ_r. apply Z.div_lt_upper_bound; [lia|]. dlia || nia. }
  pose proof (symbols_fit t sgi) as Hfit. cbv zeta in Hfit. fold s in Hfit. specialize (Hfit ltac:(lia)).
  assert (0 <= t) as Ht.
  { destruct (Z.le_gt_cases 0 t); [done|]. exfalso. subst s. unfold TIME_SYMBOLS_HALFGI, TIME_SYMBOLS in Hs.
    rewrite Z.shiftr_div_pow2 in Hs by lia. change (2 ^ 2) with 4 in Hs.
    destruct sgi; [rewrite cdiv_neg in Hs by lia|]; dlia. }
  unfold SYMBOL_TIME in *. rewrite Z.shiftl_mul_pow2 in * by lia. change (2 ^ 2) with 4 in *.
  destruct sgi; cbn [negb] in *; dlia.
Qed.

(** Nothing is wasted: with the long guard interval, one byte more than
    [ath_max_framelen usec] (unless capped) no longer fits. *)
Theorem max_framelen_maximal usec mcs ht40 :
  0 <= mcs < 32 -> 0 <= ath_max_framelen usec mcs ht40 false < 65532 ->
  usec < ath_pkt_duration mcs (ath_max_framelen usec mcs ht40 false + 1) ht40 false.
Proof.
  intros Hm Hpos. set (B := bits_per_symbol (mcs mod 8) ht40 * HT_RC_2_STREAMS mcs).
  assert (26 <= B) as HB.
  { subst B. pose proof (streams_range mcs Hm). pose proof (bits_range (mcs mod 8) ht40 ltac:(dlia)). nia. }
  set (t := usec - preamble (HT_RC_2_STREAMS mcs)).
  destruct (max_framelen_value usec mcs ht40 false B (TIME_SYMBOLS t) Hm eq_refl HB eq_refl) as [Hpv Hnv].
  set (s := TIME_SYMBOLS t) in *.
  destruct (Z.le_gt_cases s 0) as [|Hs]; [specialize (Hnv ltac:(lia)); lia|].
  specialize (Hpv ltac:(lia)). set (len := ath_max_framelen usec mcs ht40 false) in *.
  destruct (pkt_duration_symbols mcs (len + 1) ht40 false B Hm ltac:(lia) eq_refl) as (_ & Hn & ->).
  set (n := (8 * (len + 1) + 22 + B - 1) / B) in *.
  assert (s + 1 <= n) as Hns.
  { subst n. apply Z.div_le_lower_bound; [lia|]. dlia || nia. }
  cbn [negb]. unfold SYMBOL_TIME. rewrite Z.shiftl_mul_pow2 by lia. change (2 ^ 2) with 4.
  subst s. unfold TIME_SYMBOLS in *. rewrite Z.shiftr_div_pow2 in * by lia. change (2 ^ 2) with 4 in *.
  dlia.
Qed.

(** The longest frame fits: a frame of [ath_max_framelen usec] bytes, when
    that is not negative, is on the air for at most [usec] microseconds, for
    every MCS, channel width and guard interval. *)
Theorem max_framelen_fits usec mcs ht40 sgi :
  0 <= mcs < 32 -> 0 <= ath_max_framelen usec mcs ht40 sgi ->
  ath_pkt_duration mcs (ath_max_framelen usec mcs ht40 sgi) ht40 sgi <= usec.
Proof. apply max_framelen_fits_aux. Qed.

(** ** The table of limits *)

(** Every limit in the table respects the transmit opportunity: for 64 us
    and more (0 and values above 4096 mean 4096), an aggregate as long as the
    16-bit entry of [max_aggr_framelen] is on the air for at most [txop]. *)
Theorem max_aggr_framelen_fits txop (ht40 sgi : bool) (mcs : nat) len :
  (txop = 0 \/ 64 <= txop) -> (mcs < 32)%nat ->
  nth mcs (nth ((if ht40 then 2 else 0) + (if sgi then 1 else 0))
             (ath_update_max_aggr_framelen txop) []) 0 = len ->
  ath_pkt_duration (Z.of_nat mcs) len ht40 sgi
    <= (if (txop =? 0) || (4096 <? txop) then 4096 else txop).
Proof.
  intros Htx Hm Hlen. unfold ath_update_max_aggr_framelen in Hlen.
  set (us := if (txop =? 0) || (4096 <? txop) then 4096 else txop) in *.
  assert (64 <= us <= 4096) as Hus.
  { subst us. destruct (Z.eqb_spec txop 0); simpl; [lia|]. destruct (Z.ltb_spec 4096 txop); lia. }
  assert (len = u16 (ath_max_framelen us (Z.of_nat mcs) ht40 sgi)) as ->.
  { rewrite <- Hlen. symmetry. destruct ht40, sgi; cbn [Nat.add nth];
      (erewrite nth_lookup_Some; [reflexivity|]); rewrite list_lookup_fmap, lookup_seq_lt by done; done. }
  set (B := bits_per_symbol (Z.of_nat mcs mod 8) ht40 * HT_RC_2_STREAMS (Z.of_nat mcs)).
  assert (0 <= Z.of_nat mcs < 32) as Hz by lia. pose proof (streams_range _ Hz) as Hst.
  assert (26 <= B) as HB.
  { subst B. pose proof (bits_range (Z.of_nat mcs mod 8) ht40 ltac:(dlia)). nia. }
  set (t := us - preamble (HT_RC_2_STREAMS (Z.of_nat mcs))).
  set (s := if sgi then TIME_SYMBOLS_HALFGI t else TIME_SYMBOLS t).
  assert (16 <= t) as Ht.
  { subst t. unfold preamble, L_STF, L_LTF, L_SIG, HT_SIG, HT_STF, HT_LTF. lia. }
  assert (4 <= s) as Hs.
  { subst s. unfold TIME_SYMBOLS_HALFGI, TIME_SYMBOLS. rewrite Z.shiftr_div_pow2 by lia.
    change (2 ^ 2) with 4. rewrite cdiv_nonneg by lia. destruct sgi; dlia. }
  destruct (max_framelen_value us (Z.of_nat mcs) ht40 sgi B s Hz eq_refl HB eq_refl) as [Hpv _].
  specialize (Hpv ltac:(lia)).
  assert (0 <= ath_max_framelen us (Z.of_nat mcs) ht40 sgi) as Hp.
  { rewrite Hpv. apply Z.min_glb; [lia|]. apply Z.div_pos; nia. }
  rewrite u16_id by (unfold in_u16; lia). by apply max_framelen_fits_aux.
Qed.

(** The smallest transmit opportunity is not enforced: for 32 us the
    preamble alone is longer, [ath_max_framelen] is negative for every rate,
    and stored into the unsigned 16-bit table it becomes a limit of more than
    64000 bytes, that is no limit at all. *)
Theorem smallest_txop_unlimited ht40 sgi (mcs : nat) :
  (mcs < 32)%nat ->
  ath_max_framelen 32 (Z.of_nat mcs) ht40 sgi < 0 /\
  64000 < nth mcs (nth ((if ht40 : bool then 2 else 0) + (if sgi : bool then 1 else 0))
                     (ath_update_max_aggr_framelen 32) []) 0.
Proof.
  intros Hm.
  assert (forallb (fun m => forallb (fun h => forallb (fun g =>
    (ath_max_framelen 32 (Z.of_nat m) h g <? 0) &&
    (64000 <? nth m (nth ((if h : bool then 2 else 0) + (if g : bool then 1 else 0))
                       (ath_update_max_aggr_framelen 32) []) 0)) [true; false]) [true; false])
    (seq 0 32) = true) as Hall by (vm_compute; reflexivity).
  rewrite forallb_forall in Hall. specialize (Hall mcs). rewrite in_seq in Hall.
  specialize (Hall ltac:(lia)). rewrite forallb_forall in Hall.
  specialize (Hall ht40 ltac:(destruct ht40; simpl; auto)). rewrite forallb_forall in Hall.
  specialize (Hall sgi ltac:(destruct sgi; simpl; auto)). by ztest.
Qed.

(** * Theorems: delimiters *)

(** Padding: with the delimiters of [ath_compute_num_delims] a subframe
    takes at least 256 bytes, with encryption padding 40 bytes more than the
    length rule alone, and, under an MPDU density restriction, less than one
    delimiter short of the number of bytes that the density demands at the
    first rate of the series. *)
Theorem num_delims_enough env frmlen first :
  0 <= frmlen ->
  let n := ath_compute_num_delims env frmlen first in
  ATH_AGGR_MINPLEN <= frmlen + ATH_AGGR_DELIM_SZ * n /\ 0 <= n /\
  (de_encrypt_pad env = true -> ATH_AGGR_GET_NDELIM frmlen + ATH_AGGR_ENCRYPTDELIM <= n) /\
  (first = true -> de_first_pad env = true -> FIRST_DESC_NDELIMS <= n) /\
  (de_mpdudensity env <> 0 ->
   density_minlen env < frmlen + ATH_AGGR_DELIM_SZ * n + ATH_AGGR_DELIM_SZ).
Proof.
  intros Hf n. subst n. unfold ath_compute_num_delims, ATH_AGGR_GET_NDELIM, ATH_AGGR_MINPLEN,
    ATH_AGGR_DELIM_SZ, ATH_AGGR_ENCRYPTDELIM, FIRST_DESC_NDELIMS.
  set (m := density_minlen env).
  set (base := if 256 <=? frmlen then 0 else (256 - frmlen + 4 - 1) / 4).
  assert (256 <= frmlen + 4 * base /\ 0 <= base) as [Hb1 Hb2].
  { subst base. destruct (Z.leb_spec 256 frmlen); dlia. }
  destruct (Z.eqb_spec (de_mpdudensity env) 0) as [|Hd], (Z.ltb_spec frmlen m);
    try rewrite cdiv_nonneg by lia;
    destruct (de_encrypt_pad env), first, (de_first_pad env); cbn [andb];
    split_and!; try done; intros; try lia; dlia.
Qed.

(** * Theorems: aggregates *)

Definition joins (f : subframe) : Prop :=
  sf_legacy f = false /\ sf_probe f = false /\ sf_ampdu f = true.

(** What the loop does to the block-ack window. *)
Definition track (tid : ath_atx_tid) (frames : list subframe) : ath_atx_tid :=
  foldl (fun tid f => if sf_baw_tracked f then tid else ath_tx_addto_baw tid (sf_seqno f)) tid frames.

Lemma form_aggr_loop_spec env lim h frames : forall tid n al bpad taken tid' al' closed,
  lim <= 65535 -> 0 < n -> 0 <= al -> 0 <= bpad ->
  Forall (fun f => 0 <= sf_framelen f < 65532) frames ->
  form_aggr_loop env lim h frames tid n al bpad = (taken, tid', al', closed) ->
  (exists rest, frames = taken.*1 ++ rest /\ closed = bool_decide (rest = [])) /\
  al + sumZ (fun f => ATH_AGGR_DELIM_SZ + sf_framelen f) taken.*1 <= al' /\
  (taken <> [] -> al' <= lim) /\ (taken = [] -> al' = al) /\
  (n + Z.of_nat (length taken) <= Z.max n h) /\ Forall joins taken.*1 /\ tid' = track tid taken.*1.
Proof.
  induction frames as [|f frames IH]; intros tid n al bpad taken tid' al' closed Hlim Hn Hal Hb Hlen; cbn [form_aggr_loop].
  { intros [= <- <- <- <-]. split_and!; try done; [by exists []|simpl; lia|simpl; lia]. }
  inversion Hlen as [|? ? Hf Hlen']; subst. unfold ATH_AGGR_DELIM_SZ in *.
  rewrite (u16_id (4 + sf_framelen f)) by (unfold in_u16; lia). cbv zeta.
  destruct (Z.eqb_spec n 0); [lia|]. cbn [negb andb].
  destruct (_ || _) eqn:Estop.
  { intros [= <- <- <- <-]. split_and!; try done; [by exists (f :: frames)|simpl; lia|simpl; lia]. }
  ztest. rewrite (u16_id (al + _)) by (unfold in_u16; lia).
  set (bpad' := u16 _). assert (0 <= bpad') by (subst bpad'; apply u16_range).
  destruct (form_aggr_loop env lim h frames _ (n + 1) _ bpad') as [[[tk tid1] al1] cl] eqn:E.
  intros [= <- <- <- <-].
  apply IH in E as ((rest & Hfr & Hcl) & Hsum & Hmax & Hnil & Hcnt & Hj & Ht); try done; try lia.
  rewrite fmap_cons. cbn [fst]. split_and!.
  - exists rest. by rewrite Hfr.
  - rewrite sumZ_cons. lia.
  - intros _. destruct tk; [rewrite Hnil by done; lia|]. by apply Hmax.
  - done.
  - simpl length. lia.
  - constructor; [|done]. by repeat split.
  - done.
Qed.

(** Aggregates respect their limits: [ath_tx_form_aggr] takes a prefix of
    the queued subframes and enters those that were not tracked into the
    block-ack window, in order; an aggregate of two or more has at most
    [baw_size / 2] subframes, every one after the first is an A-MPDU frame
    without probe or legacy rates, and its length, computed in 16 bits
    without wrapping around, covers all subframes with their delimiters and
    does not exceed the aggregation limit. *)
Theorem form_aggr_limits env lim tid frames taken tid' len closed :
  lim <= ATH_AMPDU_LIMIT_MAX -> 2 <= baw_size tid ->
  Forall (fun f => 0 <= sf_framelen f < 65532) frames ->
  ath_tx_form_aggr env lim tid frames = (taken, tid', len, closed) ->
  (exists rest, frames = taken.*1 ++ rest /\ closed = bool_decide (rest = [])) /\
  (frames <> [] -> taken <> []) /\ tid' = track tid taken.*1 /\
  (2 <= Z.of_nat (length taken) ->
    len <= lim /\ Z.of_nat (length taken) <= baw_size tid / 2 /\
    sumZ (fun f => ATH_AGGR_DELIM_SZ + sf_framelen f) taken.*1 <= len /\
    Forall joins (tail taken.*1)).
Proof.
  intros Hlim Hbaw Hlen. unfold ath_tx_form_aggr, ATH_AMPDU_LIMIT_MAX in *.
  destruct frames as [|f frames]; cbn [form_aggr_loop].
  { intros [= <- <- <- <-]. split_and!; [by exists []|done|done|simpl; lia]. }
  inversion Hlen as [|? ? Hf Hlen']; subst. rewrite Z.eqb_refl. cbn [negb andb].
  unfold ATH_AGGR_DELIM_SZ in *. rewrite !(u16_id (4 + sf_framelen f)) by (unfold in_u16; lia).
  set (bpad' := u16 (PADBYTES _ + _)). assert (0 <= bpad') by (subst bpad'; apply u16_range).
  rewrite (u16_id (0 + _)) by (unfold in_u16; lia).
  destruct (form_aggr_loop env lim (baw_size tid / 2) frames _ (0 + 1) _ bpad') as [[[tk tid1] al1] cl] eqn:E.
  apply form_aggr_loop_spec in E as ((rest & Hfr & Hcl) & Hsum & Hmax & Hnil & Hcnt & Hj & Ht);
    try done; try lia. unfold ATH_AGGR_DELIM_SZ in *.
  destruct tk as [|g tk]; intros [= <- <- <- <-].
  - split_and!; [exists rest; by rewrite Hfr|done|done|simpl; lia].
  - split_and!; [exists rest; by rewrite Hfr|done|done|]. intros _.
    assert (1 <= baw_size tid / 2) by dlia.
    split_and!; [by apply Hmax|simpl length in *; lia| |done].
    rewrite fmap_cons, sumZ_cons. cbn [fst]. lia.
Qed.

(** * Concrete inputs *)

Lemma max_framelen_fits_witness : ath_pkt_duration 7 (ath_max_framelen 4096 7 true true) true true <= 4096.
Proof. apply (max_framelen_fits 4096 7 true true); [lia|vm_compute; discriminate]. Defined.

Lemma max_framelen_maximal_witness :
  4096 < ath_pkt_duration 0 (ath_max_framelen 4096 0 false false + 1) false false.
Proof. apply (max_framelen_maximal 4096 0 false); [lia|vm_compute; split; [discriminate|reflexivity]]. Defined.

Lemma max_aggr_framelen_fits_witness :
  ath_pkt_duration (Z.of_nat 15) 54807 true true <= 1504.
Proof.
  apply (max_aggr_framelen_fits 1504 true true 15).
  - right. lia.
  - lia.
  - vm_compute. reflexivity.
Defined.

Lemma smallest_txop_unlimited_witness :
  64000 < nth 0 (nth 0 (ath_update_max_aggr_framelen 32) []) 0.
Proof. apply (smallest_txop_unlimited false false 0). lia. Defined.

Definition demo_env : delim_env :=
  {| de_encrypt_pad := true; de_first_pad := false; de_mpdudensity := 8;
     de_rate := {| r_count := 1; r_idx := 15; r_mcs := true; r_40mhz := true; r_short_gi := false |} |}.

Lemma num_delims_enough_witness : 256 <= 100 + 4 * ath_compute_num_delims demo_env 100 true.
Proof. apply (num_delims_enough demo_env 100 true). lia. Defined.

Definition demo_subframe (n : Z) : subframe :=
  {| sf_framelen := 1500; sf_legacy := false; sf_probe := false; sf_ampdu := true;
     sf_seqno := n; sf_baw_tracked := false |}.

Definition demo_aggr := ath_tx_form_aggr demo_env 5000 ath_tx_node_init_tid (demo_subframe <$> [0; 1; 2; 3]).

Lemma form_aggr_limits_witness : length demo_aggr.1.1.1 = 3%nat /\ demo_aggr.1.2 <= 5000.
Proof.
  split; [by vm_compute|].
  destruct (form_aggr_limits demo_env 5000 ath_tx_node_init_tid (demo_subframe <$> [0; 1; 2; 3])
    demo_aggr.1.1.1 demo_aggr.1.1.2 demo_aggr.1.2 demo_aggr.2) as (_ & _ & _ & Hl).
  - vm_compute. discriminate.
  - vm_compute. discriminate.
  - repeat constructor; simpl; lia.
  - vm_compute. reflexivity.
  - apply Hl. vm_compute. discriminate.
Defined.
