(* ===== verification/Dfs.v ===== *)
(** Radar PHY errors (src/real/ath/ath9k/dfs.c): the decoding of the radar
    report that the hardware appends to a PHY error, the chirp test on its FFT
    samples, and the hand-over of the pulse to a pattern detector, which is
    used through an interface and later instantiated with the one of
    dfs_pattern_detector.c. *)

From S2P Require Import Prelude DfsPri DfsPattern.

(** * The interface of a pattern detector

    [struct dfs_pattern_detector] carries its operations as function pointers;
    dfs.c calls [pd->add_pulse] only. *)

Class PatternDetector (D : Type) :=
  add_pulse : D -> pulse_event -> outcome (bool * D).

(** What a detector promises: [pd_ok h d] says that [d] is a state in which the
    pulses [h] have been handed over; a reported radar comes with evidence. *)
Class PatternDetectorLaws (D : Type) `{PatternDetector D} := {
  pd_ok : list pulse_event -> D -> Prop;
  pd_evidence : list pulse_event -> pulse_event -> D -> Prop;
  pd_step h d e r d' :
    pd_ok h d -> in_u64 (pe_ts e) -> add_pulse d e = Ok (r, d') ->
    pd_ok (e :: h) d' /\ (r = true -> pd_evidence h e d);
}.

(** * FFT samples

    Memory around [data] is a function from the offset to the byte. *)

Definition memory := Z -> Z.

Definition BIN_DELTA_MIN : Z := 1.
Definition BIN_DELTA_MAX : Z := 10.
Definition NUM_DIFFS : Z := 3.
Definition FFT_NUM_SAMPLES : Z := NUM_DIFFS + 1.
Definition MAX_DIFF : Z := 2.
Definition MIN_CHIRP_PULSE_WIDTH : Z := 20.
Definition MAX_CHIRP_PULSE_WIDTH : Z := 110.

(** [sizeof] and the offsets of the fields of [struct ath9k_dfs_fft_20] and
    [struct ath9k_dfs_fft_40] (both packed). *)
Definition sizeof_fft_20 : Z := 31.
Definition sizeof_fft_40 : Z := 70.
Definition fft_20_lower_bins : Z := 28.
Definition fft_40_lower_bins : Z := 64.
Definition fft_40_upper_bins : Z := 67.

(** [bins] is the offset of a triple of bytes. *)
Definition fft_max_index (m : memory) (bins : Z) : Z := (m (bins + 2) .& 0xfc) .>> 2.
Definition fft_max_magnitude (m : memory) (bins : Z) : Z :=
  ((m bins .& 0xc0) .>> 6) .| (m (bins + 1) .<< 2) .| ((m (bins + 2) .& 0x03) .<< 10).
Definition fft_bitmap_weight (m : memory) (bins : Z) : Z := m bins .& 0x3f.

Definition DFS_UPPER_BIN_OFFSET : Z := 64.

Definition ath9k_get_max_index_ht40 (m : memory) (fft : Z) (is_ctl is_ext : bool) : Z :=
  let lower_bins := fft + fft_40_lower_bins in
  let upper_bins := fft + fft_40_upper_bins in
  let is_ctl :=
    if is_ctl && is_ext then
      let is_ctl := negb (fft_bitmap_weight m lower_bins =? 0) in
      let is_ext := negb (fft_bitmap_weight m upper_bins =? 0) in
      if is_ctl && is_ext then
        let mag_lower := fft_max_magnitude m lower_bins in
        let mag_upper := fft_max_magnitude m upper_bins in
        negb (mag_lower <? mag_upper)
      else is_ctl
    else is_ctl in
  if is_ctl then fft_max_index m lower_bins
  else fft_max_index m upper_bins + DFS_UPPER_BIN_OFFSET.

(** * The channel and the capabilities that are looked at *)

Definition CHANNEL_5GHZ : Z := 1.
Definition CHANNEL_HT40PLUS : Z := 16.
Definition CHANNEL_HT40MINUS : Z := 32.
Definition ATH9K_HW_CAP_FASTCLOCK : Z := 128.

Record ath_hw := {
  curchan_channel : Z;       (* u16, MHz *)
  curchan_channelFlags : Z;
  hw_caps : Z;
}.

Definition IS_CHAN_5GHZ (ah : ath_hw) : bool := has (curchan_channelFlags ah) CHANNEL_5GHZ.
Definition IS_CHAN_A_FAST_CLOCK (ah : ath_hw) : bool :=
  IS_CHAN_5GHZ ah && has (hw_caps ah) ATH9K_HW_CAP_FASTCLOCK.
Definition IS_CHAN_HT40PLUS (ah : ath_hw) : bool := has (curchan_channelFlags ah) CHANNEL_HT40PLUS.
Definition IS_CHAN_HT40MINUS (ah : ath_hw) : bool := has (curchan_channelFlags ah) CHANNEL_HT40MINUS.
Definition IS_CHAN_HT40 (ah : ath_hw) : bool :=
  has (curchan_channelFlags ah) (CHANNEL_HT40PLUS .| CHANNEL_HT40MINUS).

(** * Chirps *)

(** The loop over the deltas; [prev] is [None] in the first round. *)
Fixpoint chirp_loop (prev_delta : option Z) (cur : Z) (rest : list Z) : bool :=
  match rest with
  | [] => true
  | next :: rest =>
      let delta := next - cur in
      if (Z.abs delta <? BIN_DELTA_MIN) || (BIN_DELTA_MAX <? Z.abs delta) then false
      else if match prev_delta with
              | None => false
              | Some prev => MAX_DIFF <? Z.abs (delta - prev)
              end then false
      else chirp_loop (Some delta) next rest
  end.

Definition chirp_bins (max_bin : list Z) : bool :=
  match max_bin with [] => true | b :: rest => chirp_loop None b rest end.

(** [datalen / sizeof(x)] is computed in the 64-bit [size_t] and stored in an [int]. *)
Definition num_fft_packets (datalen size : Z) : Z := s32 (u64 datalen / size).

(** The offsets of the samples: [fft], [fft + 1], ... *)
Definition samples (fft size : Z) : list Z := (fun i => fft + Z.of_nat i * size) <$> seq 0 (Z.to_nat FFT_NUM_SAMPLES).

Definition ath9k_check_chirping (ah : ath_hw) (m : memory) (datalen : Z) (is_ctl is_ext : bool) : bool :=
  if IS_CHAN_HT40 ah then
    let num := num_fft_packets datalen sizeof_fft_40 in
    if num =? 0 then false
    else if num <? FFT_NUM_SAMPLES then false
    else
      let fft := if u64 datalen mod sizeof_fft_40 =? 2 then 2 else 0 in
      let '(is_ctl, is_ext) := if IS_CHAN_HT40MINUS ah then (is_ext, is_ctl) else (is_ctl, is_ext) in
      chirp_bins ((fun fft => ath9k_get_max_index_ht40 m fft is_ctl is_ext) <$> samples fft sizeof_fft_40)
  else
    let num := num_fft_packets datalen sizeof_fft_20 in
    if num =? 0 then false
    else if num <? FFT_NUM_SAMPLES then false
    else
      chirp_bins ((fun fft => fft_max_index m (fft + fft_20_lower_bins) .^ 0x20) <$> samples 0 sizeof_fft_20).

(** * Radar events *)

Definition AR93X_NSECS_PER_DUR : Z := 800.
Definition AR93X_NSECS_PER_DUR_FAST : Z := 8000 / 11.

Definition dur_to_usecs (ah : ath_hw) (dur : Z) : Z :=
  let nsecs :=
    if IS_CHAN_A_FAST_CLOCK ah then u32 (dur * AR93X_NSECS_PER_DUR_FAST)
    else u32 (dur * AR93X_NSECS_PER_DUR) in
  u32 (nsecs + 500) / 1000.

Record ath_radar_data := {
  pulse_bw_info : Z; ard_rssi : Z; ard_ext_rssi : Z; pulse_length_ext : Z; pulse_length_pri : Z; (* u8 *)
}.

Record ath_dfs_stats := {
  pulses_total : Z; pulses_no_dfs : Z; pulses_detected : Z; datalen_discards : Z;
  rssi_discards : Z; bwinfo_discards : Z; pri_phy_errors : Z; ext_phy_errors : Z;
  dc_phy_errors : Z; pulses_processed : Z; radar_detected : Z; (* u32 *)
}.
#[export] Instance eta_ath_dfs_stats : Eta ath_dfs_stats := fun r =>
  Build_ath_dfs_stats (pulses_total r) (pulses_no_dfs r) (pulses_detected r) (datalen_discards r)
    (rssi_discards r) (bwinfo_discards r) (pri_phy_errors r) (ext_phy_errors r) (dc_phy_errors r)
    (pulses_processed r) (radar_detected r).

(** [DFS_STAT_INC] with CONFIG_ATH9K_DFS_DEBUGFS. *)
Definition inc (n : Z) : Z := u32 (n + 1).

Definition PRI_CH_RADAR_FOUND : Z := 1.
Definition EXT_CH_RADAR_FOUND : Z := 2.

(** The duration and the RSSI that the bandwidth information selects, and the
    counter that goes with the case; [None] for bogus information. *)
Definition select_channel (ard : ath_radar_data) (st : ath_dfs_stats)
  : option (Z * Z) * ath_dfs_stats :=
  let bw := pulse_bw_info ard .& 0x03 in
  if bw =? PRI_CH_RADAR_FOUND then
    (Some (pulse_length_pri ard,
           if ard_rssi ard + 3 <=? ard_ext_rssi ard then 0 else ard_rssi ard),
     st <| pri_phy_errors ::= inc |>)
  else if bw =? EXT_CH_RADAR_FOUND then
    (Some (pulse_length_ext ard,
           if ard_ext_rssi ard + 12 <=? ard_rssi ard then 0 else ard_ext_rssi ard),
     st <| ext_phy_errors ::= inc |>)
  else if bw =? PRI_CH_RADAR_FOUND .| EXT_CH_RADAR_FOUND then
    (Some (if pulse_length_pri ard <=? pulse_length_ext ard then pulse_length_ext ard
           else pulse_length_pri ard,
           if ard_rssi ard <? ard_ext_rssi ard then ard_ext_rssi ard else ard_rssi ard),
     st <| dc_phy_errors ::= inc |>)
  else (None, st <| bwinfo_discards ::= inc |>).

(** [Some (width, rssi)]: the fields stored into [pe]. *)
Definition ath9k_postprocess_radar_event (ah : ath_hw) (ard : ath_radar_data) (st : ath_dfs_stats)
  : option (Z * Z) * ath_dfs_stats :=
  match select_channel ard st with
  | (None, st) => (None, st)
  | (Some (dur, rssi), st) =>
      if rssi =? 0 then (None, st <| rssi_discards ::= inc |>)
      else (Some (u8 (dur_to_usecs ah dur), rssi), st <| pulses_detected ::= inc |>)
  end.

(** The fields of [struct ath_rx_status] that are used. *)
Record ath_rx_status := {
  rs_phyerr : Z;     (* u8 *)
  rs_datalen : Z;    (* u16 *)
  rs_rssi_ctl0 : Z;  (* int8_t *)
  rs_rssi_ext0 : Z;  (* int8_t *)
}.

Definition ATH9K_PHYERR_RADAR : Z := 5.
Definition ATH9K_PHYERR_FALSE_RADAR_EXT : Z := 36.

(** The part of [struct ath_softc] that is used; [radar_events] counts the
    calls of [ieee80211_radar_detected]. *)
Record ath_softc (D : Type) := {
  dfs_detector : option D;
  dfs_stats : ath_dfs_stats;
  dfs_prev_pulse_ts : Z;
  radar_events : Z;
}.
Arguments Build_ath_softc {D} _ _ _ _.
Arguments dfs_detector {D} _.
Arguments dfs_stats {D} _.
Arguments dfs_prev_pulse_ts {D} _.
Arguments radar_events {D} _.
#[export] Instance eta_ath_softc D : Eta (ath_softc D) := fun r =>
  Build_ath_softc (dfs_detector r) (dfs_stats r) (dfs_prev_pulse_ts r) (radar_events r).

Section Phyerr.
Context {D : Type} `{PatternDetector D}.

Definition ath9k_dfs_process_radar_pulse (sc : ath_softc D) (pe : pulse_event)
  : outcome (ath_softc D) :=
  let sc := sc <| dfs_stats ::= fun st => st <| pulses_processed ::= inc |> |> in
  match dfs_detector sc with
  | None => Ok sc
  | Some pd =>
      obind (add_pulse pd pe) (fun '(radar, pd) =>
        let sc := sc <| dfs_detector := Some pd |> in
        if negb radar then Ok sc
        else
          let sc := sc <| dfs_stats ::= fun st => st <| radar_detected ::= inc |> |> in
          Ok (sc <| radar_events ::= Z.succ |>))
  end.

(** The radar report: three bytes at the end of the data, and the RSSI capped at 0. *)
Definition radar_report (m : memory) (rs : ath_rx_status) : ath_radar_data :=
  let datalen := rs_datalen rs in
  let cap rssi := if has rssi 0x80 then 0 else rssi in
  {| ard_rssi := cap (u8 (rs_rssi_ctl0 rs)); ard_ext_rssi := cap (u8 (rs_rssi_ext0 rs));
     pulse_bw_info := m (datalen - 1); pulse_length_ext := m (datalen - 2);
     pulse_length_pri := m (datalen - 3) |}.

Definition ath9k_dfs_process_phyerr (ah : ath_hw) (sc : ath_softc D) (m : memory)
    (rs : ath_rx_status) (mactime : Z) : outcome (ath_softc D) :=
  let sc := sc <| dfs_stats ::= fun st => st <| pulses_total ::= inc |> |> in
  if negb (rs_phyerr rs =? ATH9K_PHYERR_RADAR) &&
     negb (rs_phyerr rs =? ATH9K_PHYERR_FALSE_RADAR_EXT) then
    Ok (sc <| dfs_stats ::= fun st => st <| pulses_no_dfs ::= inc |> |>)
  else if rs_datalen rs =? 0 then
    Ok (sc <| dfs_stats ::= fun st => st <| datalen_discards ::= inc |> |>)
  else
    let ard := radar_report m rs in
    let '(res, st) := ath9k_postprocess_radar_event ah ard (dfs_stats sc) in
    let sc := sc <| dfs_stats := st |> in
    match res with
    | None => Ok sc
    | Some (width, rssi) =>
        let bw := pulse_bw_info ard .& 0x03 in
        let chirp :=
          if (MIN_CHIRP_PULSE_WIDTH <? width) && (width <? MAX_CHIRP_PULSE_WIDTH) then
            ath9k_check_chirping ah m (rs_datalen rs - 3) (has bw PRI_CH_RADAR_FOUND) (has bw EXT_CH_RADAR_FOUND)
          else false in
        let pe := {| pe_ts := mactime; pe_freq := curchan_channel ah; pe_width := width;
                     pe_rssi := rssi; pe_chirp := chirp |} in
        let sc := sc <| dfs_prev_pulse_ts := mactime |> in
        obind (if has bw PRI_CH_RADAR_FOUND then ath9k_dfs_process_radar_pulse sc pe else Ok sc) (fun sc =>
          if IS_CHAN_HT40 ah && has bw EXT_CH_RADAR_FOUND then
            let pe := pe <| pe_freq ::= fun f => u16 (f + (if IS_CHAN_HT40PLUS ah then 20 else -20)) |> in
            ath9k_dfs_process_radar_pulse sc pe
          else Ok sc)
    end.

End Phyerr.

(** * Theorems: memory accesses *)

(** Two memories with the same [n] bytes at [data]. *)
Definition agree (n : Z) (m m' : memory) : Prop := forall i, 0 <= i < n -> m i = m' i.

Lemma num_fft_packets_spec clen size k :
  0 <= clen < 65536 -> 0 < size -> 0 < k -> (num_fft_packets clen size <? k) = false <-> k * size <= clen.
Proof.
  intros Hc Hs Hk. unfold num_fft_packets. rewrite u64_id by (unfold in_u64; lia).
  assert (0 <= clen / size < 65536) as Hd.
  { split; [by apply Z.div_pos; lia|]. apply Z.div_lt_upper_bound; nia. }
  unfold s32. rewrite u32_id by (unfold in_u32; lia).
  destruct (Z.ltb_spec (clen / size) 2147483648); [|lia]. rewrite Z.ltb_ge. split; intros.
  - pose proof (Z.mul_div_le clen size Hs). nia.
  - by apply Z.div_le_lower_bound; lia.
Qed.

Lemma elem_of_samples x fft size : x ∈ samples fft size -> exists i, 0 <= i < 4 /\ x = fft + i * size.
Proof.
  unfold samples. intros (i & -> & Hi)%list_elem_of_fmap. rewrite elem_of_seq in Hi.
  exists (Z.of_nat i). change (Z.to_nat FFT_NUM_SAMPLES) with 4%nat in Hi. split; [lia|done].
Qed.

Lemma map_samples_agree (f f' : Z -> Z) fft size :
  (forall i, 0 <= i < 4 -> f (fft + i * size) = f' (fft + i * size)) ->
  f <$> samples fft size = f' <$> samples fft size.
Proof.
  intros Hf. apply list_fmap_ext. intros i x Hx.
  destruct (elem_of_samples x fft size) as (k & Hk & ->); [by eapply list_elem_of_lookup_2|by apply Hf].
Qed.

Lemma max_index_ht40_agree m m' n fft is_ctl is_ext :
  agree n m m' -> 0 <= fft -> fft + sizeof_fft_40 <= n ->
  ath9k_get_max_index_ht40 m fft is_ctl is_ext = ath9k_get_max_index_ht40 m' fft is_ctl is_ext.
Proof.
  unfold sizeof_fft_40. intros Ha Hf Hn.
  unfold ath9k_get_max_index_ht40, fft_bitmap_weight, fft_max_magnitude, fft_max_index,
    fft_40_lower_bins, fft_40_upper_bins.
  by rewrite !(Ha (fft + 64)), !(Ha (fft + 64 + 1)), !(Ha (fft + 64 + 2)), !(Ha (fft + 67)),
    !(Ha (fft + 67 + 1)), !(Ha (fft + 67 + 2)) by lia.
Qed.

(** The chirp test reads the FFT data only. *)
Lemma check_chirping_agree ah m m' clen is_ctl is_ext :
  0 <= clen < 65536 -> agree clen m m' ->
  ath9k_check_chirping ah m clen is_ctl is_ext = ath9k_check_chirping ah m' clen is_ctl is_ext.
Proof.
  intros Hc Ha. unfold ath9k_check_chirping, sizeof_fft_40, sizeof_fft_20.
  destruct (IS_CHAN_HT40 ah).
  - destruct (_ =? 0); [done|]. destruct (_ <? FFT_NUM_SAMPLES) eqn:E; [done|].
    apply num_fft_packets_spec in E; [|lia|lia|unfold FFT_NUM_SAMPLES, NUM_DIFFS; lia].
    unfold FFT_NUM_SAMPLES, NUM_DIFFS in E. rewrite u64_id by (unfold in_u64; lia).
    assert (forall c x, (fun fft => ath9k_get_max_index_ht40 m fft c x) <$>
        samples (if clen mod 70 =? 2 then 2 else 0) 70 =
      (fun fft => ath9k_get_max_index_ht40 m' fft c x) <$>
        samples (if clen mod 70 =? 2 then 2 else 0) 70) as Heq.
    { intros c x. apply map_samples_agree. intros i Hi. apply (max_index_ht40_agree _ _ clen); [done|..];
        unfold sizeof_fft_40; destruct (Z.eqb_spec (clen mod 70) 2); dlia. }
    destruct (IS_CHAN_HT40MINUS ah); by rewrite Heq.
  - destruct (_ =? 0); [done|]. destruct (_ <? FFT_NUM_SAMPLES) eqn:E; [done|].
    apply num_fft_packets_spec in E; [|lia|lia|unfold FFT_NUM_SAMPLES, NUM_DIFFS; lia].
    unfold FFT_NUM_SAMPLES, NUM_DIFFS in E. f_equal. apply map_samples_agree. intros i Hi.
    unfold fft_max_index, fft_20_lower_bins. by rewrite (Ha (0 + i * 31 + 28 + 2)) by lia.
Qed.

Section Theorems.
Context {D : Type} `{PatternDetector D}.

(** Memory safety: a radar report of at least three bytes is processed
    within its bounds, that is the outcome does not depend on any byte outside
    the [rs_datalen] bytes of the report, for every channel width, also when
    the chirp test skips the two garbage bytes in front of the samples. *)
Theorem phyerr_in_bounds ah (sc : ath_softc D) m m' rs mactime :
  3 <= rs_datalen rs < 65536 -> agree (rs_datalen rs) m m' ->
  ath9k_dfs_process_phyerr ah sc m rs mactime = ath9k_dfs_process_phyerr ah sc m' rs mactime.
Proof.
  intros Hl Ha. assert (radar_report m rs = radar_report m' rs) as Hr.
  { unfold radar_report. by rewrite !(Ha (rs_datalen rs - 1)), !(Ha (rs_datalen rs - 2)), !(Ha (rs_datalen rs - 3)) by lia. }
  unfold ath9k_dfs_process_phyerr. rewrite Hr.
  assert (agree (rs_datalen rs - 3) m m') as Ha' by (intros i ?; apply Ha; lia).
  repeat (case_match; try done; []).
  destruct (ath9k_postprocess_radar_event _ _ _) as [[[w r]|] st]; [|done].
  by rewrite (check_chirping_agree ah m m') by (done || lia).
Qed.


(** ** Statistics *)

(** Every report is counted exactly once (modulo the 32-bit counters): as no
    DFS error, as too short, as discarded for its bandwidth information or
    RSSI, or as a detected pulse; and per channel. *)
Definition balanced (sc : ath_softc D) : Prop :=
  let st := dfs_stats sc in
  pulses_total st = u32 (pulses_no_dfs st + datalen_discards st + bwinfo_discards st +
                         rssi_discards st + pulses_detected st) /\
  u32 (pri_phy_errors st + ext_phy_errors st + dc_phy_errors st) =
    u32 (rssi_discards st + pulses_detected st) /\
  radar_detected st = u32 (radar_events sc).

Lemma radar_pulse_balanced sc pe sc' :
  balanced sc -> ath9k_dfs_process_radar_pulse sc pe = Ok sc' -> balanced sc'.
Proof.
  unfold balanced, ath9k_dfs_process_radar_pulse. cbv zeta. intros (H1 & H2 & H3).
  destruct sc as [det [] ts ev]; simpl in *.
  destruct det as [pd|]; [|by intros [= <-]].
  destruct (add_pulse pd pe) as [[radar pd']|]; cbn [obind]; [|done].
  destruct radar; cbn [negb]; intros [= <-]; simpl; [|done].
  split_and!; try done. subst. unfold inc, u32. dlia.
Qed.

(** The statistics add up after every report, whichever branch it takes. *)
Theorem phyerr_stats_balanced ah sc m rs mactime sc' :
  balanced sc -> ath9k_dfs_process_phyerr ah sc m rs mactime = Ok sc' -> balanced sc'.
Proof.
  intros Hb. unfold ath9k_dfs_process_phyerr. destruct sc as [det st ts ev].
  destruct (negb _ && negb _).
  { intros [= <-]. destruct st, Hb as (? & ? & ?); simpl in *. unfold balanced, inc, u32 in *; simpl in *. split_and!; dlia. }
  destruct (rs_datalen rs =? 0).
  { intros [= <-]. destruct st, Hb as (? & ? & ?); simpl in *. unfold balanced, inc, u32 in *; simpl in *. split_and!; dlia. }
  cbn [dfs_stats upd eta_ath_softc].
  match goal with |- context [ath9k_postprocess_radar_event ah ?a ?s] =>
    destruct (ath9k_postprocess_radar_event ah a s) as [res st'] eqn:E;
    assert (balanced (Build_ath_softc det st' ts ev)) as Hb'
  end.
  { unfold ath9k_postprocess_radar_event, select_channel in E. simpl in E.
    destruct st, Hb as (? & ? & ?); simpl in *.
    repeat match goal with H : context [if ?b then _ else _] |- _ => destruct b in E end;
      try injection E as <- <-; unfold balanced, inc, u32 in *; simpl in *; split_and!; dlia. }
  destruct res as [[w r]|]; [|by intros [= <-]].
  simpl. set (sc1 := Build_ath_softc _ _ mactime ev).
  assert (balanced sc1) as Hb1 by exact Hb'.
  destruct (has _ PRI_CH_RADAR_FOUND).
  - destruct (ath9k_dfs_process_radar_pulse sc1 _) as [sc2|] eqn:E2; cbn [obind]; [|done].
    apply radar_pulse_balanced in E2; [|done].
    destruct (_ && _); [by apply radar_pulse_balanced|by intros [= <-]].
  - cbn [obind]. destruct (_ && _); [by apply radar_pulse_balanced|by intros [= <-]].
Qed.


(** ** Pulses handed to the detector *)

Lemma radar_report_range m rs :
  (forall i, in_u8 (m i)) ->
  let ard := radar_report m rs in
  0 <= ard_rssi ard < 128 /\ 0 <= ard_ext_rssi ard < 128 /\
  in_u8 (pulse_length_ext ard) /\ in_u8 (pulse_length_pri ard).
Proof.
  intros Hm. unfold radar_report. simpl.
  assert (forall x, 0 <= (if has (u8 x) 128 then 0 else u8 x) < 128) as Hcap.
  { intros x. pose proof (u8_range x) as Hx. change (has (u8 x) 128) with (has (u8 x) (2 ^ 7)). rewrite has_pow2 by lia.
    destruct (Z.testbit (u8 x) 7) eqn:E; [lia|]. unfold in_u8 in Hx. split; [lia|].
    destruct (Z.lt_ge_cases (u8 x) 128); [done|]. exfalso.
    assert (Z.testbit (u8 x) 7 = true); [|congruence].
    rewrite Z.testbit_true by lia. change (2 ^ 7) with 128.
    by replace (u8 x / 128) with 1 by dlia. }
  split_and!; try apply Hcap; apply Hm.
Qed.

(** The width in microseconds fits the 8-bit field. *)
Lemma dur_to_usecs_range ah dur : in_u8 dur -> 0 <= dur_to_usecs ah dur <= 204.
Proof.
  unfold in_u8. intros Hd. unfold dur_to_usecs, AR93X_NSECS_PER_DUR_FAST, AR93X_NSECS_PER_DUR.
  change (8000 / 11) with 727.
  destruct (IS_CHAN_A_FAST_CLOCK ah);
    [rewrite (u32_id (dur * 727))|rewrite (u32_id (dur * 800))]; try (unfold in_u32; lia);
    rewrite u32_id by (unfold in_u32; lia); dlia.
Qed.

(** A pulse that a report with duration byte [dur] of channel [ah] can cause. *)
Definition pulse_from (ah : ath_hw) (m : memory) (rs : ath_rx_status) (mactime : Z) (e : pulse_event) : Prop :=
  pe_ts e = mactime /\ 0 < pe_rssi e < 128 /\
  (exists off, 2 <= off <= 3 /\ pe_width e = dur_to_usecs ah (m (rs_datalen rs - off))) /\
  (pe_freq e = curchan_channel ah \/
   IS_CHAN_HT40 ah = true /\
   pe_freq e = u16 (curchan_channel ah + (if IS_CHAN_HT40PLUS ah then 20 else -20))) /\
  (pe_chirp e = true -> 20 < pe_width e < 110).

Lemma postprocess_pulse ah m rs st width rssi st' :
  (forall i, in_u8 (m i)) ->
  ath9k_postprocess_radar_event ah (radar_report m rs) st = (Some (width, rssi), st') ->
  0 < rssi < 128 /\
  (exists off, 2 <= off <= 3 /\ width = dur_to_usecs ah (m (rs_datalen rs - off))).
Proof.
  intros Hm. destruct (radar_report_range m rs Hm) as (Hr & Hx & Hle & Hlp).
  assert (forall off, u8 (dur_to_usecs ah (m (rs_datalen rs - off))) =
                      dur_to_usecs ah (m (rs_datalen rs - off))) as Hw.
  { intros off. apply u8_id. pose proof (dur_to_usecs_range ah _ (Hm (rs_datalen rs - off))).
    unfold in_u8. lia. }
  unfold ath9k_postprocess_radar_event, select_channel.
  set (ard := radar_report m rs) in *.
  assert (pulse_length_ext ard = m (rs_datalen rs - 2)) as Ele by done.
  assert (pulse_length_pri ard = m (rs_datalen rs - 3)) as Elp by done.
  clearbody ard. rewrite Ele, Elp.
  repeat match goal with |- context [if ?b then _ else _] => destruct b eqn:? end;
    try done; intros [= <- <- <-]; ztest; rewrite Hw;
    (split; [lia|]); first [by exists 2|by exists 3].
Qed.

Context `{!PatternDetectorLaws D}.

(** The detector has been handed exactly the pulses [h], and a rise of the
    event counter comes with evidence for one of the pulses [new]. *)
Definition reported (h new : list pulse_event) (before : Z) (sc : ath_softc D) : Prop :=
  (exists d, dfs_detector sc = Some d /\ pd_ok (new ++ h) d) /\
  before <= radar_events sc /\
  (before < radar_events sc -> exists new1 e new2 d,
     new = new1 ++ e :: new2 /\ pd_ok (new2 ++ h) d /\ pd_evidence (new2 ++ h) e d).

Lemma radar_pulse_reported h new before sc pe sc' :
  reported h new before sc -> in_u64 (pe_ts pe) ->
  ath9k_dfs_process_radar_pulse sc pe = Ok sc' -> reported h (pe :: new) before sc'.
Proof.
  intros ((d & Hd & Hok) & Hle & Hev) Hts. unfold ath9k_dfs_process_radar_pulse.
  destruct sc as [det st ts ev]; simpl in *. subst det.
  destruct (add_pulse d pe) as [[radar d']|] eqn:E; cbn [obind]; [|done].
  destruct (pd_step _ _ _ _ _ Hok Hts E) as [Hok' Hevid].
  destruct radar; cbn [negb]; intros [= <-]; (split_and!; [by exists d'|simpl; lia|]); simpl.
  - intros _. exists [], pe, new, d. by split_and!; [| |apply Hevid].
  - intros Hlt. destruct (Hev Hlt) as (n1 & e & n2 & d0 & -> & ? & ?). by exists (pe :: n1), e, n2, d0.
Qed.

(** What reaches the detector, and when a radar is reported: processing a
    report hands at most two pulses to the detector, each with the time stamp
    of the report, a positive RSSI, the width of one of the two duration bytes
    in microseconds (not truncated by the 8-bit field), the frequency of the
    primary channel or, on a 40 MHz channel, of the extension channel, and a
    chirp flag only for widths between 21 and 109 us; and
    [ieee80211_radar_detected] is called only with the detector's evidence for
    one of them. *)
Lemma phyerr_evidence ah sc m rs mactime sc' h d :
  (forall i, in_u8 (m i)) -> in_u64 mactime -> dfs_detector sc = Some d -> pd_ok h d ->
  ath9k_dfs_process_phyerr ah sc m rs mactime = Ok sc' ->
  exists new, (length new <= 2)%nat /\ Forall (pulse_from ah m rs mactime) new /\
    reported h new (radar_events sc) sc'.
Proof.
  intros Hm Hts Hd Hok. unfold ath9k_dfs_process_phyerr. destruct sc as [det st ts ev]. simpl in Hd. subst det.
  assert (forall st' t, reported h [] ev (Build_ath_softc (Some d) st' t ev)) as Hr0.
  { intros st' t. split_and!; simpl; [by exists d|lia|lia]. }
  destruct (negb _ && negb _); [intros [= <-]; exists []; split_and!; [simpl; lia|done|apply Hr0]|].
  destruct (rs_datalen rs =? 0); [intros [= <-]; exists []; split_and!; [simpl; lia|done|apply Hr0]|].
  destruct (ath9k_postprocess_radar_event _ _ _) as [[[w r]|] st'] eqn:E;
    [|intros [= <-]; exists []; split_and!; [simpl; lia|done|apply Hr0]].
  destruct (postprocess_pulse _ _ _ _ _ _ _ Hm E) as (Hr & Hw).
  cbv zeta. match goal with |- context [Build_pulse_event ?a ?b ?c ?d ?e] => set (pe := Build_pulse_event a b c d e) end.
  assert (pe_chirp pe = true -> 20 < w < 110) as Hch.
  { simpl. unfold MIN_CHIRP_PULSE_WIDTH, MAX_CHIRP_PULSE_WIDTH.
    destruct (Z.ltb_spec 20 w), (Z.ltb_spec w 110); simpl; done || lia. }
  assert (pulse_from ah m rs mactime pe) as Hp1 by (unfold pulse_from; split_and!; [done|apply Hr|apply Hr|exact Hw|by left|exact Hch]).
  assert (forall new sc1, reported h new ev sc1 -> (length new <= 1)%nat -> Forall (pulse_from ah m rs mactime) new ->
    (if IS_CHAN_HT40 ah && has (pulse_bw_info (radar_report m rs) .& 3) EXT_CH_RADAR_FOUND
     then ath9k_dfs_process_radar_pulse sc1
       (pe <| pe_freq ::= fun f => u16 (f + (if IS_CHAN_HT40PLUS ah then 20 else -20)) |>)
     else Ok sc1) = Ok sc' ->
    exists new, (length new <= 2)%nat /\ Forall (pulse_from ah m rs mactime) new /\ reported h new ev sc') as Hext.
  { intros new sc1 Hrep Hl Hf. destruct (IS_CHAN_HT40 ah) eqn:E40; cbn [andb].
    2: { intros [= <-]. exists new. split_and!; [lia|done|done]. }
    destruct (has _ EXT_CH_RADAR_FOUND); [|intros [= <-]; exists new; split_and!; [lia|done|done]].
    intros E2. eapply radar_pulse_reported in E2; [|exact Hrep|exact Hts].
    eexists. split; [|split; [|exact E2]]; [simpl; lia|].
    constructor; [|done]. unfold pulse_from. split_and!; [done|apply Hr|apply Hr|exact Hw|by right|exact Hch]. }
  destruct (has _ PRI_CH_RADAR_FOUND).
  - destruct (ath9k_dfs_process_radar_pulse _ pe) as [sc2|] eqn:E2; cbn [obind]; [|done].
    apply (radar_pulse_reported h [] ev) in E2; [|apply Hr0|done].
    apply (Hext [pe]); [done|simpl; lia|by constructor].
  - cbn [obind]. apply (Hext []); [apply Hr0|simpl; lia|done].
Qed.

End Theorems.

(** * Theorems: the FFT samples *)

Lemma byte_fields b : in_u8 b ->
  (b .& 0xc0) .>> 6 = b / 64 /\ b .& 0x03 = b mod 4 /\ (b .& 0xfc) .>> 2 = b / 4 /\ b .& 0x3f = b mod 64.
Proof.
  unfold in_u8. intros Hb.
  assert (forallb (fun n => let b := Z.of_nat n in
    ((b .& 0xc0) .>> 6 =? b / 64) && (b .& 0x03 =? b mod 4) &&
    ((b .& 0xfc) .>> 2 =? b / 4) && (b .& 0x3f =? b mod 64)) (seq 0 256) = true) as Hall by (vm_compute; reflexivity).
  rewrite forallb_forall in Hall. specialize (Hall (Z.to_nat b)). rewrite in_seq in Hall.
  specialize (Hall ltac:(lia)). cbv zeta in Hall. rewrite Z2Nat.id in Hall by lia. by ztest.
Qed.

(** The three bytes of a sample in which the hardware packs the weight of the
    bitmap, the magnitude and the index of the strongest bin. *)
Definition pack_bins (weight mag idx : Z) : memory := fun i =>
  if i =? 0 then weight + 64 * (mag mod 4)
  else if i =? 1 then mag / 4 mod 256
  else 4 * idx + mag / 1024.

(** The accessors take a sample apart without loss: they recover the 6-bit
    weight, the 12-bit magnitude and the 6-bit index from the packed bytes. *)
Theorem fft_bins_roundtrip weight mag idx :
  0 <= weight < 64 -> 0 <= mag < 4096 -> 0 <= idx < 64 ->
  let m := pack_bins weight mag idx in
  fft_bitmap_weight m 0 = weight /\ fft_max_magnitude m 0 = mag /\ fft_max_index m 0 = idx.
Proof.
  intros Hw Hm Hi m. unfold fft_bitmap_weight, fft_max_magnitude, fft_max_index.
  change (m 0) with (weight + 64 * (mag mod 4)). change (m (0 + 1)) with (mag / 4 mod 256).
  change (m (0 + 2)) with (4 * idx + mag / 1024).
  destruct (byte_fields (weight + 64 * (mag mod 4))) as (-> & _ & _ & ->); [unfold in_u8; dlia|].
  destruct (byte_fields (4 * idx + mag / 1024)) as (_ & -> & -> & _); [unfold in_u8; dlia|].
  rewrite (lor_shiftl_add _ _ 2) by (change (2 ^ 2) with 4; dlia).
  rewrite lor_shiftl_add by (change (2 ^ 2) with 4; change (2 ^ 10) with 1024; dlia).
  change (2 ^ 2) with 4. change (2 ^ 10) with 1024. split_and!; dlia.
Qed.

(** The strongest bin of sample [i]. *)
Definition strongest_bin (ah : ath_hw) (m : memory) (clen : Z) (is_ctl is_ext : bool) (i : Z) : Z :=
  if IS_CHAN_HT40 ah then
    let fft := (if clen mod 70 =? 2 then 2 else 0) + i * 70 in
    if IS_CHAN_HT40MINUS ah then ath9k_get_max_index_ht40 m fft is_ext is_ctl
    else ath9k_get_max_index_ht40 m fft is_ctl is_ext
  else fft_max_index m (i * 31 + fft_20_lower_bins) .^ 0x20.

(** A chirp within the specification: every step of the strongest bin is
    between 1 and 10, and adjacent steps differ by at most 2. *)
Definition chirping (bin : Z -> Z) : Prop :=
  (forall i, 0 <= i < 3 -> 1 <= Z.abs (bin (i + 1) - bin i) <= 10) /\
  (forall i, 0 <= i < 2 -> Z.abs ((bin (i + 2) - bin (i + 1)) - (bin (i + 1) - bin i)) <= 2).

Ltac norm_sums :=
  change (0 + 1) with 1 in *; change (1 + 1) with 2 in *; change (2 + 1) with 3 in *;
  change (0 + 2) with 2 in *; change (1 + 2) with 3 in *.

Lemma chirp_bins_spec (bin : Z -> Z) :
  chirp_bins [bin 0; bin 1; bin 2; bin 3] = true <-> chirping bin.
Proof.
  unfold chirp_bins, chirping, BIN_DELTA_MIN, BIN_DELTA_MAX, MAX_DIFF. cbn [chirp_loop].
  unfold BIN_DELTA_MIN, BIN_DELTA_MAX, MAX_DIFF. split.
  - intros Hc. repeat match goal with H : context [if ?b then _ else _] |- _ => destruct b eqn:? end; try done.
    ztest. split; intros i Hi; [assert (i = 0 \/ i = 1 \/ i = 2) as Hor by lia|assert (i = 0 \/ i = 1) as Hor by lia];
      destruct_or! Hor; subst i; norm_sums; lia.
  - intros [H1 H2]. pose proof (H1 0 ltac:(lia)). pose proof (H1 1 ltac:(lia)). pose proof (H1 2 ltac:(lia)).
    pose proof (H2 0 ltac:(lia)). pose proof (H2 1 ltac:(lia)). norm_sums.
    repeat match goal with |- context [if ?b then _ else _] => destruct b eqn:? end; try done;
    repeat match goal with E : (_ || _) = true |- _ => apply orb_true_iff in E as [E|E] end; ztest; lia.
Qed.

(** The chirp test decides exactly whether the data hold at least four FFT
    samples of the channel width and the strongest bins of the first four form
    a chirp within the specification. *)
Theorem check_chirping_spec ah m clen is_ctl is_ext :
  0 <= clen < 65536 ->
  ath9k_check_chirping ah m clen is_ctl is_ext = true <->
  4 * (if IS_CHAN_HT40 ah then sizeof_fft_40 else sizeof_fft_20) <= clen /\
  chirping (strongest_bin ah m clen is_ctl is_ext).
Proof.
  intros Hc. rewrite <- chirp_bins_spec. unfold ath9k_check_chirping, strongest_bin.
  assert (forall s, 0 < s -> (num_fft_packets clen s =? 0) = true -> (num_fft_packets clen s <? 4) = true) as H0.
  { intros s Hs ->%Z.eqb_eq. done. }
  change FFT_NUM_SAMPLES with 4. unfold sizeof_fft_40, sizeof_fft_20. rewrite u64_id by (unfold in_u64; lia).
  destruct (IS_CHAN_HT40 ah).
  - pose proof (num_fft_packets_spec clen 70 4 Hc ltac:(lia) ltac:(lia)) as Hn.
    specialize (H0 70 ltac:(lia)). destruct (num_fft_packets clen 70 =? 0), (num_fft_packets clen 70 <? 4);
      try (split; [done|intros [?%Hn _]; done]); [by specialize (H0 eq_refl)|].
    assert (4 * 70 <= clen) by by apply Hn.
    destruct (IS_CHAN_HT40MINUS ah); (split; [intros E; split; [done|exact E]|intros [_ E]; exact E]).
  - pose proof (num_fft_packets_spec clen 31 4 Hc ltac:(lia) ltac:(lia)) as Hn.
    specialize (H0 31 ltac:(lia)). destruct (num_fft_packets clen 31 =? 0), (num_fft_packets clen 31 <? 4);
      try (split; [done|intros [?%Hn _]; done]); [by specialize (H0 eq_refl)|].
    assert (4 * 31 <= clen) by by apply Hn.
    split; [intros E; split; [done|exact E]|intros [_ E]; exact E].
Qed.

(** * The pattern detector of dfs_pattern_detector.c *)

#[export] Instance dpd_detector : PatternDetector (dfs_pattern_detector * dfs_pool) := fun d e =>
  obind (dpd_add_pulse d.1 e d.2) (fun '(r, dpd, g) => Ok (r, (dpd, g))).

Lemma dpd_add_pulse_region dpd e g r dpd' g' :
  dpd_add_pulse dpd e g = Ok (r, dpd', g') ->
  dpd_region dpd' = dpd_region dpd /\ dpd_radar_spec dpd' = dpd_radar_spec dpd.
Proof.
  unfold dpd_add_pulse. case_bool_decide; [by intros [= <- <- <-]|].
  destruct (channel_detector_get dpd (pe_freq e) g) as [[[i d1] g1]|] eqn:E; [|done].
  assert (dpd_region d1 = dpd_region dpd /\ dpd_radar_spec d1 = dpd_radar_spec dpd) as [H1 H2].
  { unfold channel_detector_get, channel_detector_create in E.
    repeat (case_match; simplify_eq/=; try done). }
  destruct i as [i|]; [|by intros [= <- <- <-]].
  destruct (if pe_ts e <? dpd_last_pulse_ts d1 then _ else _) as [d2 g2] eqn:E2.
  assert (dpd_region d2 = dpd_region d1 /\ dpd_radar_spec d2 = dpd_radar_spec d1) as [H3 H4].
  { unfold dpd_reset in E2. repeat (case_match; simplify_eq/=; try done). }
  simpl. destruct (dpd_channel_detectors d2 !! i); [|done].
  destruct (match_types _ _ _ _) as [[? ?] ?]. intros [= <- <- <-]. simpl. split; congruence.
Qed.

(** In the domain [rt], a reported radar is evidence of one of its types. *)
Definition dpd_ok (rt : radar_types) (h : list pulse_event) (d : dfs_pattern_detector * dfs_pool) : Prop :=
  dpd_inv h d.1 /\ dpd_region d.1 <> NL80211_DFS_UNSET /\ dpd_radar_spec d.1 = rt_radar_types rt.

Lemma dpd_step rt h (d : dfs_pattern_detector * dfs_pool) e r d' :
  dpd_ok rt h d -> in_u64 (pe_ts e) -> add_pulse d e = Ok (r, d') ->
  dpd_ok rt (e :: h) d' /\ (r = true -> detection_evidence (e :: h) (pe_freq e) (rt_radar_types rt)).
Proof.
  destruct d as [dpd g], d' as [dpd' g']. unfold dpd_ok, add_pulse, dpd_detector. simpl.
  intros (Hinv & Hreg & Hspec) Hts.
  destruct (dpd_add_pulse dpd e g) as [[[r1 d1] g1]|] eqn:E; cbn [obind]; [|done].
  intros [= <- <- <-]. destruct (dpd_add_pulse_inv _ _ _ _ _ _ _ Hinv Hts E) as [? Hev].
  destruct (dpd_add_pulse_region _ _ _ _ _ _ E) as [-> ->]. rewrite <- Hspec. split; [auto|]. intros Hr. destruct (Hev Hr Hreg) as (de & ps & _ & Hin & Hd). by exists (de_rs de), ps.
Qed.

#[export] Instance dpd_laws (rt : radar_types) :
  PatternDetectorLaws (dfs_pattern_detector * dfs_pool) := {|
  pd_ok := dpd_ok rt;
  pd_evidence h e _ := detection_evidence (e :: h) (pe_freq e) (rt_radar_types rt);
  pd_step := dpd_step rt;
|}.

(** C22. End to end: when processing a PHY error makes the driver report a
    radar to mac80211, in a device with a configured DFS domain, then the
    pulses received so far, with the at most two pulses of this report, hold
    a PRI sequence of one of the radar types of the domain, on the frequency
    of a pulse of this report. *)
Theorem phyerr_radar_sound env ah sc m rs mactime sc' h dpd g rt :
  (forall i, in_u8 (m i)) -> in_u64 mactime ->
  dfs_detector sc = Some (dpd, g) -> dpd_reach env h dpd g ->
  dpd_region dpd <> NL80211_DFS_UNSET -> get_dfs_domain_radar_types (dpd_region dpd) = Some rt ->
  ath9k_dfs_process_phyerr ah sc m rs mactime = Ok sc' -> radar_events sc < radar_events sc' ->
  exists e new, (length (e :: new) <= 2)%nat /\ Forall (pulse_from ah m rs mactime) (e :: new) /\
    detection_evidence (e :: new ++ h) (pe_freq e) (rt_radar_types rt).
Proof.
  intros Hm Hts Hd Hr Hreg Hrt E Hlt. pose proof (dpd_reach_inv _ _ _ _ Hr) as Hinv.
  destruct (di_region _ _ Hinv Hreg) as (rt' & Hrt' & Hspec).
  rewrite Hrt in Hrt'. injection Hrt' as <-.
  assert (pd_ok (PatternDetectorLaws := dpd_laws rt) h (dpd, g)) as Hok
    by exact (conj Hinv (conj Hreg Hspec)).
  destruct (phyerr_evidence ah sc m rs mactime sc' h (dpd, g) Hm Hts Hd Hok E)
    as (new & Hlen & Hf & _ & _ & Hev).
  destruct (Hev Hlt) as (new1 & e & new2 & d & -> & _ & Hevid). exists e, new2.
  rewrite length_app in Hlen. apply Forall_app in Hf as [_ Hf]. split_and!; [simpl in *; lia|done|done].
Qed.

(** * Concrete inputs *)

Definition zero_stats : ath_dfs_stats :=
  {| pulses_total := 0; pulses_no_dfs := 0; pulses_detected := 0; datalen_discards := 0;
     rssi_discards := 0; bwinfo_discards := 0; pri_phy_errors := 0; ext_phy_errors := 0;
     dc_phy_errors := 0; pulses_processed := 0; radar_detected := 0 |}.

(** A 20 MHz channel at 5500 MHz without the fast clock. *)
Definition demo_hw : ath_hw := {| curchan_channel := 5500; curchan_channelFlags := 1; hw_caps := 0 |}.

Definition demo_sc (d : dfs_pattern_detector * dfs_pool) : ath_softc (dfs_pattern_detector * dfs_pool) :=
  {| dfs_detector := Some d; dfs_stats := zero_stats; dfs_prev_pulse_ts := 0; radar_events := 0 |}.

Definition demo_status (len : Z) : ath_rx_status :=
  {| rs_phyerr := ATH9K_PHYERR_RADAR; rs_datalen := len; rs_rssi_ctl0 := 30; rs_rssi_ext0 := -5 |}.

(** A report that ends at offset [len]: radar in the primary channel, of [dur] units. *)
Definition demo_memory (len dur : Z) : memory := fun i =>
  if i =? len - 1 then 1 else if i =? len - 3 then dur else 0.

Lemma demo_memory_range len dur : in_u8 dur -> forall i, in_u8 (demo_memory len dur i).
Proof. intros ? i. unfold demo_memory, in_u8 in *. repeat case_match; lia. Qed.

(** The pulses that the detector of a device holds. *)
Definition pulses_held (sc : ath_softc (dfs_pattern_detector * dfs_pool)) : Z :=
  match dfs_detector sc with Some d => pulse_used (global_dfs_pool_stats d.2) | None => 0 end.

(** A report of two bytes is read beyond its start: [rs_datalen] is only
    compared with 0, so the duration byte of the primary channel comes from in
    front of the buffer. Two memories that agree on the whole report make the
    detector receive different pulses. *)
Theorem short_report_out_of_bounds :
  let run dur := ath9k_dfs_process_phyerr demo_hw (demo_sc (fcc_start [])) (demo_memory 2 dur)
                   (demo_status 2) 1000000 in
  agree 2 (demo_memory 2 1) (demo_memory 2 255) /\
  exists sc1 sc2, run 1 = Ok sc1 /\ run 255 = Ok sc2 /\ pulses_held sc1 <> pulses_held sc2.
Proof.
  intros run. split.
  { intros i Hi. unfold demo_memory. by destruct (Z.eqb_spec i (2 - 1)), (Z.eqb_spec i (2 - 3)); try lia. }
  destruct (run 1) as [sc1|] eqn:E1; [|vm_compute in E1; discriminate].
  destruct (run 255) as [sc2|] eqn:E2; [|vm_compute in E2; discriminate].
  exists sc1, sc2. split_and!; [done|done|]. subst run. vm_compute in E1, E2.
  injection E1 as <-. injection E2 as <-. vm_compute. discriminate.
Qed.

Lemma phyerr_in_bounds_witness :
  ath9k_dfs_process_phyerr demo_hw (demo_sc (fcc_start [])) (demo_memory 3 1) (demo_status 3) 1000000 =
  ath9k_dfs_process_phyerr demo_hw (demo_sc (fcc_start []))
    (fun i => if i <? 0 then 77 else demo_memory 3 1 i) (demo_status 3) 1000000.
Proof.
  apply (phyerr_in_bounds demo_hw (demo_sc (fcc_start []))); [simpl; lia|].
  intros i Hi. cbn beta. destruct (Z.ltb_spec i 0); [lia|done].
Defined.

Lemma phyerr_stats_balanced_witness :
  exists sc, ath9k_dfs_process_phyerr demo_hw (demo_sc (fcc_start [])) (demo_memory 3 1) (demo_status 3) 1000000
    = Ok sc /\ balanced sc.
Proof.
  destruct (ath9k_dfs_process_phyerr demo_hw (demo_sc (fcc_start [])) (demo_memory 3 1) (demo_status 3) 1000000)
    as [sc|] eqn:E; [|vm_compute in E; discriminate].
  exists sc. split; [done|].
  apply (phyerr_stats_balanced demo_hw (demo_sc (fcc_start [])) (demo_memory 3 1) (demo_status 3) 1000000 sc);
    [vm_compute; auto|exact E].
Defined.

(** Eight pulses of the FCC type 1 radar have been seen; the report of the
    ninth makes the driver report a radar. *)
Lemma phyerr_radar_sound_witness :
  exists h e new, detection_evidence (e :: new ++ h) (pe_freq e) fcc_radar_ref_types.
Proof.
  destruct (demo_reach (fun _ _ => False) 8) as (h & Hr). exists h.
  pose (ah := {| curchan_channel := pe_freq (demo_pulse 8); curchan_channelFlags := 1; hw_caps := 0 |}).
  destruct (ath9k_dfs_process_phyerr ah (demo_sc (demo_state 8)) (demo_memory 3 1) (demo_status 3)
    (pe_ts (demo_pulse 8))) as [sc'|] eqn:E; [|vm_compute in E; discriminate].
  destruct (phyerr_radar_sound (fun _ _ => False) ah (demo_sc (demo_state 8)) (demo_memory 3 1) (demo_status 3)
    (pe_ts (demo_pulse 8)) sc' h (fst (demo_state 8)) (snd (demo_state 8)) fcc_radar_types)
    as (e & new & _ & _ & Hev).
  - apply demo_memory_range. unfold in_u8. lia.
  - unfold in_u64. simpl. lia.
  - exact (f_equal Some (surjective_pairing (demo_state 8))).
  - exact Hr.
  - vm_compute. discriminate.
  - vm_compute. reflexivity.
  - exact E.
  - vm_compute in E. injection E as <-. vm_compute. reflexivity.
  - exists e, new. exact Hev.
Defined.

Lemma check_chirping_spec_witness :
  ath9k_check_chirping demo_hw (fun i => 12 * (i / 31)) 124 true false = true.
Proof.
  apply (check_chirping_spec demo_hw (fun i => 12 * (i / 31)) 124 true false); [lia|].
  split; [vm_compute; discriminate|]. split; intros i Hi.
  - assert (i = 0 \/ i = 1 \/ i = 2) as Hor by lia. destruct_or! Hor; subst i; vm_compute; split; discriminate.
  - assert (i = 0 \/ i = 1) as Hor by lia. destruct_or! Hor; subst i; vm_compute; discriminate.
Defined.

Lemma fft_bins_roundtrip_witness : fft_max_magnitude (pack_bins 5 3001 17) 0 = 3001.
Proof. apply (fft_bins_roundtrip 5 3001 17); lia. Defined.
