(* ===== verification/Desc.v ===== *)
(** Transmit and receive descriptors of the AR9003 family
    (src/real/ath/ath9k/ar9003_mac.c, mac.h) and the preformatted descriptors
    for the queue of the FPGA (src/real/ath/ath9k/xmit.c). *)

From S2P Require Import Prelude.

(** * Register and descriptor fields

    The macros [SM] and [MS] take a field by its mask and the [_S] shift. *)

Record field := { f_mask : Z; f_S : Z }.

Definition SM (v : Z) (f : field) : Z := u32 (v .<< f_S f) .& f_mask f.
Definition MS (v : Z) (f : field) : Z := (v .& f_mask f) .>> f_S f.

Definition ATHEROS_VENDOR_ID : Z := 0x168c.

(** ar9003_mac.h *)
Definition AR_DescId : field := {| f_mask := 0xffff0000; f_S := 16 |}.
Definition AR_CtrlStat : field := {| f_mask := 0x00004000; f_S := 14 |}.
Definition AR_TxRxDesc : field := {| f_mask := 0x00008000; f_S := 15 |}.
Definition AR_TxQcuNum : field := {| f_mask := 0x00000f00; f_S := 8 |}.
Definition AR_BufLen : field := {| f_mask := 0x0fff0000; f_S := 16 |}.
Definition AR_TxDescId : field := {| f_mask := 0xffff0000; f_S := 16 |}.
Definition AR_TxPtrChkSum : Z := 0x0000ffff.
Definition AR_LowRxChain : Z := 0x00004000.
Definition AR_Not_Sounding : Z := 0x20000000.
Definition AR_PAPRDChainMask : field := {| f_mask := 0x00000e00; f_S := 9 |}.

(** mac.h: transmit control *)
Definition AR_FrameLen : Z := 0x00000fff.
Definition AR_VirtMoreFrag : Z := 0x00001000.
Definition AR_XmitPower0 : field := {| f_mask := 0x003f0000; f_S := 16 |}.
Definition AR_XmitPower1 : field := {| f_mask := 0x3f000000; f_S := 24 |}.
Definition AR_XmitPower2 : field := {| f_mask := 0x3f000000; f_S := 24 |}.
Definition AR_XmitPower3 : field := {| f_mask := 0x3f000000; f_S := 24 |}.
Definition AR_VEOL : Z := 0x00800000.
Definition AR_ClrDestMask : Z := 0x01000000.
Definition AR_DestIdxValid : Z := 0x40000000.
Definition AR_TxMore : Z := 0x00001000.
Definition AR_DestIdx : field := {| f_mask := 0x000fe000; f_S := 13 |}.
Definition AR_FrameType : field := {| f_mask := 0x00f00000; f_S := 20 |}.
Definition AR_NoAck : Z := 0x01000000.
Definition AR_ExtOnly : Z := 0x08000000.
Definition AR_ExtAndCtl : Z := 0x10000000.
Definition AR_MoreAggr : Z := 0x20000000.
Definition AR_IsAggr : Z := 0x40000000.
Definition AR_DurUpdateEna : Z := 0x00008000.
Definition AR_XmitDataTries0 : field := {| f_mask := 0x000f0000; f_S := 16 |}.
Definition AR_XmitDataTries1 : field := {| f_mask := 0x00f00000; f_S := 20 |}.
Definition AR_XmitDataTries2 : field := {| f_mask := 0x0f000000; f_S := 24 |}.
Definition AR_XmitDataTries3 : field := {| f_mask := 0xf0000000; f_S := 28 |}.
Definition AR_XmitRate0 : field := {| f_mask := 0x000000ff; f_S := 0 |}.
Definition AR_PacketDur0 : field := {| f_mask := 0x00007fff; f_S := 0 |}.
Definition AR_RTSCTSQual0 : Z := 0x00008000.
Definition AR_PacketDur1 : field := {| f_mask := 0x7fff0000; f_S := 16 |}.
Definition AR_RTSCTSQual1 : Z := 0x80000000.
Definition AR_PacketDur2 : field := {| f_mask := 0x00007fff; f_S := 0 |}.
Definition AR_RTSCTSQual2 : Z := 0x00008000.
Definition AR_PacketDur3 : field := {| f_mask := 0x7fff0000; f_S := 16 |}.
Definition AR_RTSCTSQual3 : Z := 0x80000000.
Definition AR_AggrLen : field := {| f_mask := 0x0000ffff; f_S := 0 |}.
Definition AR_PadDelim : field := {| f_mask := 0x03fc0000; f_S := 18 |}.
Definition AR_EncrType : field := {| f_mask := 0x0c000000; f_S := 26 |}.
Definition AR_LDPC : Z := 0x80000000.
Definition AR_2040_0 : Z := 0x00000001.
Definition AR_GI0 : Z := 0x00000002.
Definition AR_ChainSel0 : field := {| f_mask := 0x0000001c; f_S := 2 |}.
Definition AR_2040_1 : Z := 0x00000020.
Definition AR_GI1 : Z := 0x00000040.
Definition AR_ChainSel1 : field := {| f_mask := 0x00000380; f_S := 7 |}.
Definition AR_2040_2 : Z := 0x00000400.
Definition AR_GI2 : Z := 0x00000800.
Definition AR_ChainSel2 : field := {| f_mask := 0x00007000; f_S := 12 |}.
Definition AR_2040_3 : Z := 0x00008000.
Definition AR_GI3 : Z := 0x00010000.
Definition AR_ChainSel3 : field := {| f_mask := 0x000e0000; f_S := 17 |}.
Definition AR_RTSCTSRate : field := {| f_mask := 0x0ff00000; f_S := 20 |}.
Definition AR_STBC0 : Z := 0x10000000.
Definition AR_STBC1 : Z := 0x20000000.
Definition AR_STBC2 : Z := 0x40000000.
Definition AR_STBC3 : Z := 0x80000000.

(** Flags of [struct ath_tx_info] *)
Definition ATH9K_TXDESC_VEOL : Z := 0x0020.
Definition ATH9K_TXDESC_EXT_ONLY : Z := 0x0040.
Definition ATH9K_TXDESC_EXT_AND_CTL : Z := 0x0080.
Definition ATH9K_TXDESC_VMF : Z := 0x0100.
Definition ATH9K_TXDESC_LOWRXCHAIN : Z := 0x0400.
Definition ATH9K_TXDESC_LDPC : Z := 0x0800.
Definition ATH9K_TXDESC_CLRDMASK : Z := 0x1000.
Definition ATH9K_TXDESC_PAPRD : field := {| f_mask := 0x70000; f_S := 16 |}.
Definition ATH9K_RATESERIES_RTS_CTS : Z := 0x0001.
Definition ATH9K_RATESERIES_2040 : Z := 0x0002.
Definition ATH9K_RATESERIES_HALFGI : Z := 0x0004.
Definition ATH9K_RATESERIES_STBC : Z := 0x0008.
Definition ATH9K_TXKEYIX_INVALID : Z := 255.
Definition ATH9K_RXKEYIX_INVALID : Z := 255.

(** * Transmit control descriptors *)

(** [struct ar9003_txc] without its padding; all fields are u32. *)
Record ar9003_txc := {
  info : Z; link : Z; data0 : Z; ctl3 : Z; data1 : Z; ctl5 : Z; data2 : Z; ctl7 : Z;
  data3 : Z; ctl9 : Z; ctl10 : Z; ctl11 : Z; ctl12 : Z; ctl13 : Z; ctl14 : Z; ctl15 : Z;
  ctl16 : Z; ctl17 : Z; ctl18 : Z; ctl19 : Z; ctl20 : Z; ctl21 : Z; ctl22 : Z; ctl23 : Z;
}.
#[export] Instance eta_ar9003_txc : Eta ar9003_txc := fun r =>
  Build_ar9003_txc (info r) (link r) (data0 r) (ctl3 r) (data1 r) (ctl5 r) (data2 r) (ctl7 r)
    (data3 r) (ctl9 r) (ctl10 r) (ctl11 r) (ctl12 r) (ctl13 r) (ctl14 r) (ctl15 r)
    (ctl16 r) (ctl17 r) (ctl18 r) (ctl19 r) (ctl20 r) (ctl21 r) (ctl22 r) (ctl23 r).

Inductive aggr_type := AGGR_BUF_NONE | AGGR_BUF_FIRST | AGGR_BUF_MIDDLE | AGGR_BUF_LAST.

Record ath9k_11n_rate_series := {
  Tries : Z; Rate : Z; PktDuration : Z; ChSel : Z; RateFlags : Z; (* u32 *)
}.

(** [struct ath_tx_info]; the arrays of four are functions of the index. *)
Record ath_tx_info := {
  i_qcu : Z;              (* u8 *)
  i_is_first : bool;
  i_is_last : bool;
  i_aggr : aggr_type;
  i_ndelim : Z;           (* u8 *)
  i_aggr_len : Z;         (* u16 *)
  i_link : Z;             (* dma_addr_t *)
  i_pkt_len : Z;          (* int *)
  i_flags : Z;            (* u32 *)
  i_buf_addr : nat -> Z;  (* dma_addr_t *)
  i_buf_len : nat -> Z;   (* int *)
  i_rates : nat -> ath9k_11n_rate_series;
  i_rtscts_rate : Z;      (* u8 *)
  i_type : Z;             (* enum ath9k_pkt_type *)
  i_keytype : Z;          (* enum ath9k_key_type *)
  i_keyix : Z;            (* u8 *)
  i_txpower : nat -> Z;   (* u8 *)
}.

Definition flag (b : bool) (bits : Z) : Z := if b then bits else 0.

Definition set11nPktDurRTSCTS (r : ath9k_11n_rate_series) (dur : field) (qual : Z) : Z :=
  SM (PktDuration r) dur .| flag (has (RateFlags r) ATH9K_RATESERIES_RTS_CTS) qual.

Definition set11nRateFlags (r : ath9k_11n_rate_series) (ht40 gi stbc : Z) (chain : field) : Z :=
  flag (has (RateFlags r) ATH9K_RATESERIES_2040) ht40
  .| flag (has (RateFlags r) ATH9K_RATESERIES_HALFGI) gi
  .| flag (has (RateFlags r) ATH9K_RATESERIES_STBC) stbc
  .| SM (ChSel r) chain.

(** The fold of the 32-bit sum (an [int], shifted arithmetically) into 16 bits. *)
Definition fold_chksum (sum : Z) : Z :=
  let checksum := s32 sum in
  u16 (((checksum .& 0xffff) + (checksum .>> 16)) .& 0xffff).

(** [wide_desc]: the chip is an AR9462 or AR9565. *)
Definition desc_info (wide_desc : bool) (qcu : Z) : Z :=
  (ATHEROS_VENDOR_ID .<< f_S AR_DescId) .| (1 .<< f_S AR_TxRxDesc) .| (1 .<< f_S AR_CtrlStat)
  .| (qcu .<< f_S AR_TxQcuNum) .| (if wide_desc then 0x18 else 0x17).

(** Words 12 and 17 of the first descriptor of a frame. *)
Definition txdesc_ctl12 (i : ath_tx_info) : Z :=
  let ctl12 :=
    (if negb (i_keyix i =? ATH9K_TXKEYIX_INVALID) then SM (i_keyix i) AR_DestIdx else 0)
    .| SM (i_type i) AR_FrameType
    .| AR_NoAck
    .| flag (has (i_flags i) ATH9K_TXDESC_EXT_ONLY) AR_ExtOnly
    .| flag (has (i_flags i) ATH9K_TXDESC_EXT_AND_CTL) AR_ExtAndCtl in
  let ctl12 :=
    match i_aggr i with
    | AGGR_BUF_FIRST | AGGR_BUF_MIDDLE => ctl12 .| (AR_IsAggr .| AR_MoreAggr)
    | AGGR_BUF_LAST => ctl12 .| AR_IsAggr
    | AGGR_BUF_NONE => ctl12
    end in
  ctl12 .| SM (MS (i_flags i) ATH9K_TXDESC_PAPRD) AR_PAPRDChainMask.

Definition txdesc_ctl17 (i : ath_tx_info) : Z :=
  let ctl17 := SM (i_keytype i) AR_EncrType .| flag (has (i_flags i) ATH9K_TXDESC_LDPC) AR_LDPC in
  match i_aggr i with
  | AGGR_BUF_FIRST => ctl17 .| SM (i_aggr_len i) AR_AggrLen .| SM (i_ndelim i) AR_PadDelim
  | AGGR_BUF_MIDDLE => ctl17 .| SM (i_ndelim i) AR_PadDelim
  | AGGR_BUF_LAST | AGGR_BUF_NONE => ctl17
  end.

Definition ar9003_set_txdesc (wide_desc : bool) (i : ath_tx_info) : ar9003_txc :=
  let val := desc_info wide_desc (i_qcu i) in
  let buf n := SM (i_buf_len i n) AR_BufLen in
  let addr n := u32 (i_buf_addr i n) in
  let checksum := u32 (val + u32 (i_link i) + addr 0%nat + addr 1%nat + addr 2%nat + addr 3%nat
                       + buf 0%nat + buf 1%nat + buf 2%nat + buf 3%nat) in
  let once := i_is_first i || i_is_last i in
  let ads := {|
    info := val; link := u32 (i_link i);
    data0 := addr 0%nat; data1 := addr 1%nat; data2 := addr 2%nat; data3 := addr 3%nat;
    ctl3 := buf 0%nat; ctl5 := buf 1%nat; ctl7 := buf 2%nat; ctl9 := buf 3%nat;
    ctl10 := fold_chksum checksum;
    ctl13 := if once then 0x18000 else 0;
    ctl14 := if once then 0x9 else 0;
    ctl20 := 0; ctl21 := 0; ctl22 := 0; ctl23 := 0;
    ctl11 := 0; ctl12 := if i_is_last i then 0 else AR_TxMore; ctl15 := 0; ctl16 := 0;
    ctl17 := SM (i_keytype i) AR_EncrType; ctl18 := 0; ctl19 := 0 |} in
  if negb (i_is_first i) then ads
  else
    let key := negb (i_keyix i =? ATH9K_TXKEYIX_INVALID) in
    let ads := ads <| ctl11 :=
      (u32 (i_pkt_len i) .& AR_FrameLen)
      .| flag (has (i_flags i) ATH9K_TXDESC_VMF) AR_VirtMoreFrag
      .| SM (i_txpower i 0%nat) AR_XmitPower0
      .| flag (has (i_flags i) ATH9K_TXDESC_VEOL) AR_VEOL
      .| flag key AR_DestIdxValid
      .| flag (has (i_flags i) ATH9K_TXDESC_LOWRXCHAIN) AR_LowRxChain
      .| flag (has (i_flags i) ATH9K_TXDESC_CLRDMASK) AR_ClrDestMask |> in
    let ads := ads <| ctl12 := txdesc_ctl12 i |> in
    let ads := ads <| ctl17 := txdesc_ctl17 i |> in
    let ads := ads <| ctl15 :=
      set11nPktDurRTSCTS (i_rates i 0%nat) AR_PacketDur0 AR_RTSCTSQual0
      .| set11nPktDurRTSCTS (i_rates i 1%nat) AR_PacketDur1 AR_RTSCTSQual1 |> in
    let ads := ads <| ctl16 :=
      set11nPktDurRTSCTS (i_rates i 2%nat) AR_PacketDur2 AR_RTSCTSQual2
      .| set11nPktDurRTSCTS (i_rates i 3%nat) AR_PacketDur3 AR_RTSCTSQual3 |> in
    let ads := ads <| ctl18 :=
      set11nRateFlags (i_rates i 0%nat) AR_2040_0 AR_GI0 AR_STBC0 AR_ChainSel0
      .| set11nRateFlags (i_rates i 1%nat) AR_2040_1 AR_GI1 AR_STBC1 AR_ChainSel1
      .| set11nRateFlags (i_rates i 2%nat) AR_2040_2 AR_GI2 AR_STBC2 AR_ChainSel2
      .| set11nRateFlags (i_rates i 3%nat) AR_2040_3 AR_GI3 AR_STBC3 AR_ChainSel3
      .| SM (i_rtscts_rate i) AR_RTSCTSRate |> in
    let ads := ads <| ctl19 := AR_Not_Sounding |> in
    let ads := ads <| ctl20 := SM (i_txpower i 1%nat) AR_XmitPower1 |> in
    let ads := ads <| ctl21 := SM (i_txpower i 2%nat) AR_XmitPower2 |> in
    ads <| ctl22 := SM (i_txpower i 3%nat) AR_XmitPower3 |>.

Definition ar9003_calc_ptr_chksum (ads : ar9003_txc) : Z :=
  let checksum := s32 (info ads + link ads + data0 ads + ctl3 ads + data1 ads + ctl5 ads
                       + data2 ads + ctl7 ads + data3 ads + ctl9 ads) in
  u16 (((checksum .& 0xffff) + (checksum .>> 16)) .& AR_TxPtrChkSum).

Definition ar9003_hw_set_desc_link (ads : ar9003_txc) (ds_link : Z) : ar9003_txc :=
  let ads := ads <| link := u32 ds_link |> in
  let ads := ads <| ctl10 ::= fun c => clr c AR_TxPtrChkSum |> in
  ads <| ctl10 ::= fun c => c .| ar9003_calc_ptr_chksum ads |>.

Definition ar9003_hw_get_duration (adc : ar9003_txc) (index : Z) : Z :=
  if index =? 0 then MS (ctl15 adc) AR_PacketDur0
  else if index =? 1 then MS (ctl15 adc) AR_PacketDur1
  else if index =? 2 then MS (ctl16 adc) AR_PacketDur2
  else if index =? 3 then MS (ctl16 adc) AR_PacketDur3
  else 0.

(** The descriptors that the FPGA sends by itself, on queue 6. *)
Definition fpga_set_txdesc (wide_desc : bool) (i : ath_tx_info) : ar9003_txc :=
  let val := desc_info wide_desc 6 in
  let buf := SM (i_buf_len i 0%nat) AR_BufLen in
  let addr := u32 (i_buf_addr i 0%nat) in
  let checksum := u32 (val + addr + buf) in
  {| info := val; link := 0; data0 := addr; ctl3 := buf; data1 := 0; ctl5 := 0; data2 := 0; ctl7 := 0;
     data3 := 0; ctl9 := 0; ctl10 := fold_chksum checksum;
     ctl11 := (u32 (i_pkt_len i) .& AR_FrameLen) .| 0x13f0000;
     ctl12 := 0x1000000; ctl13 := 0x18000; ctl14 := 0x9; ctl15 := 0xe8; ctl16 := 0; ctl17 := 0;
     ctl18 := 0xb0000c; ctl19 := 0x20000000; ctl20 := 0; ctl21 := 0; ctl22 := 0; ctl23 := 0 |}.

(** * Theorems: fields *)

Lemma MS_lor a b f : MS (a .| b) f = MS a f .| MS b f.
Proof. unfold MS. by rewrite Z.land_lor_distr_l, Z.shiftr_lor. Qed.

Lemma MS_SM_disjoint v f g : f_mask g .& f_mask f = 0 -> MS (SM v g) f = 0.
Proof. intros Hd. unfold MS, SM. by rewrite <- Z.land_assoc, Hd, Z.land_0_r, Z.shiftr_0_l. Qed.

(** A field holds its value as far as its width goes. *)
Lemma MS_SM v f w :
  f_mask f = Z.ones w .<< f_S f -> 0 <= w -> 0 <= f_S f -> f_S f + w <= 32 -> MS (SM v f) f = v mod 2 ^ w.
Proof.
  intros Hm Hw Hs Hr. unfold MS, SM. rewrite Hm, <- Z.land_assoc, Z.land_diag.
  rewrite Z.shiftr_land, Z.shiftr_shiftl_l, Z.sub_diag, Z.shiftl_0_r by lia.
  rewrite Z.land_ones by lia. unfold u32. change 4294967296 with (2 ^ 32).
  rewrite Z.shiftl_mul_pow2, Z.shiftr_div_pow2 by lia.
  replace (2 ^ 32) with (2 ^ f_S f * 2 ^ (32 - f_S f)) by (rewrite <- Z.pow_add_r by lia; f_equal; lia).
  rewrite (Z.mul_comm v), Z.mul_mod_distr_l, Z.mul_comm, Z.div_mul by (apply Z.pow_nonzero; lia).
  replace (2 ^ (32 - f_S f)) with (2 ^ w * 2 ^ (32 - f_S f - w)) by (rewrite <- Z.pow_add_r by lia; f_equal; lia).
  apply Z.mod_mod_divide. by exists (2 ^ (32 - f_S f - w)); rewrite Z.mul_comm.
Qed.

Lemma MS_flag b c f : c .& f_mask f = 0 -> MS (flag b c) f = 0.
Proof.
  intros Hc. unfold MS, flag. destruct b; [by rewrite Hc, Z.shiftr_0_l|].
  by rewrite Z.land_0_l, Z.shiftr_0_l.
Qed.

(** [field_simpl] reads a field out of a word composed of other fields and flags. *)
Ltac field_simpl :=
  repeat first
    [ rewrite MS_lor
    | match goal with |- context [MS (SM ?v ?g) ?f] => rewrite (MS_SM_disjoint v f g) by reflexivity end
    | match goal with |- context [MS (flag ?b ?c) ?f] => rewrite (MS_flag b c f) by reflexivity end
    | rewrite Z.lor_0_l | rewrite Z.lor_0_r ].

(** * Theorems: checksums *)

(** Word 10 agrees with the checksum over the first ten words. *)
Definition chksum_ok (ads : ar9003_txc) : Prop :=
  ctl10 ads .& AR_TxPtrChkSum = ar9003_calc_ptr_chksum ads.

Lemma s32_u32 x : s32 (u32 x) = s32 x.
Proof. unfold s32. by rewrite u32_idemp. Qed.

Lemma fold_chksum_land sum : fold_chksum sum .& AR_TxPtrChkSum = fold_chksum sum.
Proof.
  unfold fold_chksum, AR_TxPtrChkSum. change 65535 with (Z.ones 16). cbv zeta.
  rewrite !Z.land_ones by lia. change (2 ^ 16) with 65536. unfold u16. by rewrite !Z.mod_mod by lia.
Qed.

Lemma fold_chksum_calc ads sum :
  ctl10 ads = fold_chksum (u32 sum) ->
  sum = info ads + link ads + data0 ads + ctl3 ads + data1 ads + ctl5 ads + data2 ads + ctl7 ads
        + data3 ads + ctl9 ads ->
  chksum_ok ads.
Proof.
  intros Hc ->. unfold chksum_ok. rewrite Hc, fold_chksum_land. unfold fold_chksum, ar9003_calc_ptr_chksum.
  by rewrite s32_u32.
Qed.

(** The pointer checksum is always right: the descriptors built by
    [ar9003_set_txdesc] and by [fpga_set_txdesc], and any descriptor after
    [ar9003_hw_set_desc_link], carry in word 10 the checksum of their pointer
    and length words as [ar9003_calc_ptr_chksum] computes it. *)
Theorem txdesc_chksum_ok wide i ads ds_link :
  chksum_ok (ar9003_set_txdesc wide i) /\ chksum_ok (fpga_set_txdesc wide i) /\
  chksum_ok (ar9003_hw_set_desc_link ads ds_link).
Proof.
  split_and!.
  - unfold ar9003_set_txdesc. cbv zeta.
    destruct (negb (i_is_first i)); (eapply fold_chksum_calc; [reflexivity|simpl; lia]).
  - eapply fold_chksum_calc; [reflexivity|simpl; lia].
  - unfold chksum_ok, ar9003_hw_set_desc_link. destruct ads; simpl.
    unfold ar9003_calc_ptr_chksum at 2. simpl.
    set (c := ar9003_calc_ptr_chksum _).
    assert (c .& AR_TxPtrChkSum = c) as Hc.
    { subst c. unfold ar9003_calc_ptr_chksum, AR_TxPtrChkSum. change 65535 with (Z.ones 16).
      rewrite !Z.land_ones by lia. change (2 ^ 16) with 65536. unfold u16. by rewrite !Z.mod_mod by lia. }
    rewrite Z.land_lor_distr_l, Hc. unfold clr. rewrite Z.ldiff_land, <- Z.land_assoc.
    rewrite (Z.land_comm (Z.lnot _)), Z.land_lnot_diag, Z.land_0_r, Z.lor_0_l. done.
Qed.

(** * Theorems: transmit descriptors *)

Definition series (dur chsel : Z) : ath9k_11n_rate_series :=
  {| Tries := 0; Rate := 0; PktDuration := dur; ChSel := chsel; RateFlags := 0 |}.

(** A frame of the FPGA as the driver would describe it: queue 6, a single
    buffer, one descriptor, no key, full power, both chains. *)
Definition fpga_info (addr len pkt_len : Z) : ath_tx_info :=
  {| i_qcu := 6; i_is_first := true; i_is_last := true; i_aggr := AGGR_BUF_NONE;
     i_ndelim := 0; i_aggr_len := 0; i_link := 0; i_pkt_len := pkt_len;
     i_flags := ATH9K_TXDESC_CLRDMASK;
     i_buf_addr n := match n with O => addr | _ => 0 end;
     i_buf_len n := match n with O => len | _ => 0 end;
     i_rates n := match n with O => series 0xe8 3 | _ => series 0 0 end;
     i_rtscts_rate := 0xb; i_type := 0; i_keytype := 0; i_keyix := ATH9K_TXKEYIX_INVALID;
     i_txpower n := match n with O => 0x3f | _ => 0 end |}.

Lemma txc_ext (a b : ar9003_txc) :
  info a = info b /\ link a = link b /\ data0 a = data0 b /\ ctl3 a = ctl3 b /\
  data1 a = data1 b /\ ctl5 a = ctl5 b /\ data2 a = data2 b /\ ctl7 a = ctl7 b /\
  data3 a = data3 b /\ ctl9 a = ctl9 b /\ ctl10 a = ctl10 b /\ ctl11 a = ctl11 b /\
  ctl12 a = ctl12 b /\ ctl13 a = ctl13 b /\ ctl14 a = ctl14 b /\ ctl15 a = ctl15 b /\
  ctl16 a = ctl16 b /\ ctl17 a = ctl17 b /\ ctl18 a = ctl18 b /\ ctl19 a = ctl19 b /\
  ctl20 a = ctl20 b /\ ctl21 a = ctl21 b /\ ctl22 a = ctl22 b /\ ctl23 a = ctl23 b -> a = b.
Proof. destruct a, b. simpl. intros. by destruct_and!; subst. Qed.

(** C38. The preformatted descriptor of the FPGA is exactly the one that the
    driver's own [ar9003_set_txdesc] would build for the same buffer: the
    constants of [fpga_set_txdesc] mean queue 6, one buffer, no key, one try
    at 24 Mb/s without acknowledgement, power 0x3f and duration 0xe8. *)
Theorem fpga_txdesc_equiv wide i :
  fpga_set_txdesc wide i =
  ar9003_set_txdesc wide (fpga_info (i_buf_addr i 0%nat) (i_buf_len i 0%nat) (i_pkt_len i)).
Proof.
  set (f := fpga_info _ _ _).
  assert (ctl10 (ar9003_set_txdesc wide f) = ctl10 (fpga_set_txdesc wide i)) as H10.
  { unfold ar9003_set_txdesc, fpga_set_txdesc. cbv zeta. cbn [negb f i_is_first fpga_info].
    set (p := desc_info wide 6). set (x := u32 (i_buf_addr i 0%nat)). set (y := SM (i_buf_len i 0%nat) AR_BufLen).
    transitivity (fold_chksum (u32 (p + 0 + x + 0 + 0 + 0 + y + 0 + 0 + 0))); [reflexivity|].
    by rewrite !Z.add_0_r. }
  assert (ctl11 (ar9003_set_txdesc wide f) = ctl11 (fpga_set_txdesc wide i)) as H11.
  { set (p := u32 (i_pkt_len i) .& AR_FrameLen).
    transitivity (p .| 0 .| 0x3f0000 .| 0 .| 0 .| 0 .| 0x1000000); [reflexivity|].
    rewrite !Z.lor_0_r, <- Z.lor_assoc. reflexivity. }
  apply txc_ext; split_and!; try reflexivity; by rewrite ?H10, ?H11.
Qed.

(** The control words of the first descriptor of a frame. *)
Lemma set_txdesc_first wide i :
  i_is_first i = true ->
  let ads := ar9003_set_txdesc wide i in
  ctl12 ads = txdesc_ctl12 i /\ ctl17 ads = txdesc_ctl17 i /\
  ctl15 ads = set11nPktDurRTSCTS (i_rates i 0%nat) AR_PacketDur0 AR_RTSCTSQual0
              .| set11nPktDurRTSCTS (i_rates i 1%nat) AR_PacketDur1 AR_RTSCTSQual1 /\
  ctl16 ads = set11nPktDurRTSCTS (i_rates i 2%nat) AR_PacketDur2 AR_RTSCTSQual2
              .| set11nPktDurRTSCTS (i_rates i 3%nat) AR_PacketDur3 AR_RTSCTSQual3 /\
  ctl13 ads = 0x18000 /\ ctl14 ads = 9.
Proof. intros Hf ads. subst ads. unfold ar9003_set_txdesc. cbv zeta. by rewrite Hf. Qed.

(** Durations survive: [ar9003_hw_get_duration] recovers from the first
    descriptor of a frame the duration of each of its four rates (the low 15
    bits), whatever the RTS/CTS flags of the rates; later descriptors of the
    frame carry none. *)
Theorem duration_roundtrip wide i (k : nat) :
  (k < 4)%nat ->
  ar9003_hw_get_duration (ar9003_set_txdesc wide i) (Z.of_nat k) =
  if i_is_first i then PktDuration (i_rates i k) mod 2 ^ 15 else 0.
Proof.
  intros Hk. destruct (i_is_first i) eqn:Hf.
  - destruct (set_txdesc_first wide i Hf) as (_ & _ & H15 & H16 & _).
    assert (k = 0 \/ k = 1 \/ k = 2 \/ k = 3)%nat as Hor by lia.
    destruct_or! Hor; subst k; cbn [Z.of_nat]; unfold ar9003_hw_get_duration; cbn [Z.eqb Pos.eqb Pos.of_succ_nat Pos.succ];
      rewrite ?H15, ?H16; unfold set11nPktDurRTSCTS; field_simpl; by apply MS_SM.
  - unfold ar9003_set_txdesc. cbv zeta. rewrite Hf. cbn [negb].
    assert (k = 0 \/ k = 1 \/ k = 2 \/ k = 3)%nat as Hor by lia. by destruct_or! Hor; subst k.
Qed.

(** What the hardware reads from a descriptor: the vendor id, the type
    bits, the queue and the four buffers with their lengths as given (up to
    the 4 bits of the queue and the 12 bits of a length). *)
Theorem txdesc_buffers wide i :
  0 <= i_qcu i < 16 -> (forall n, 0 <= i_buf_len i n < 4096 /\ in_u32 (i_buf_addr i n)) ->
  let ads := ar9003_set_txdesc wide i in
  MS (info ads) AR_DescId = ATHEROS_VENDOR_ID /\ MS (info ads) AR_TxRxDesc = 1 /\
  MS (info ads) AR_CtrlStat = 1 /\ MS (info ads) AR_TxQcuNum = i_qcu i /\
  (data0 ads, MS (ctl3 ads) AR_BufLen) = (i_buf_addr i 0%nat, i_buf_len i 0%nat) /\
  (data1 ads, MS (ctl5 ads) AR_BufLen) = (i_buf_addr i 1%nat, i_buf_len i 1%nat) /\
  (data2 ads, MS (ctl7 ads) AR_BufLen) = (i_buf_addr i 2%nat, i_buf_len i 2%nat) /\
  (data3 ads, MS (ctl9 ads) AR_BufLen) = (i_buf_addr i 3%nat, i_buf_len i 3%nat).
Proof.
  intros Hq Hb ads.
  assert (forall n, (u32 (i_buf_addr i n), MS (SM (i_buf_len i n) AR_BufLen) AR_BufLen)
                    = (i_buf_addr i n, i_buf_len i n)) as Hbuf.
  { intros n. destruct (Hb n). rewrite u32_id by done. rewrite (MS_SM _ _ 12) by done.
    by rewrite Z.mod_small by done. }
  assert (info ads = desc_info wide (i_qcu i)) as ->.
  { subst ads. unfold ar9003_set_txdesc. cbv zeta. by destruct (negb _). }
  assert (forall q, 0 <= q < 16 -> let v := desc_info wide q in
    MS v AR_DescId = ATHEROS_VENDOR_ID /\ MS v AR_TxRxDesc = 1 /\ MS v AR_CtrlStat = 1 /\
    MS v AR_TxQcuNum = q) as Hinfo.
  { intros q Hq0. assert (forallb (fun n => let v := desc_info wide (Z.of_nat n) in
      (MS v AR_DescId =? ATHEROS_VENDOR_ID) && (MS v AR_TxRxDesc =? 1) && (MS v AR_CtrlStat =? 1) &&
      (MS v AR_TxQcuNum =? Z.of_nat n)) (seq 0 16) = true) as Hall by (destruct wide; vm_compute; reflexivity).
    rewrite forallb_forall in Hall. specialize (Hall (Z.to_nat q)). rewrite in_seq in Hall.
    specialize (Hall ltac:(lia)). cbv zeta in Hall. rewrite Z2Nat.id in Hall by lia. by ztest. }
  destruct (Hinfo _ Hq) as (? & ? & ? & ?). rewrite <- !Hbuf.
  subst ads. unfold ar9003_set_txdesc. cbv zeta. destruct (negb _); split_and!; done.
Qed.

(** The TDMA transmit policy: whatever rates, retries and acknowledgement
    mac80211 asked for, the first descriptor of every frame tells the hardware
    to send it exactly once (one try at the first rate, none at the others),
    at hardware rate 9 (24 Mb/s OFDM), and to expect no acknowledgement. *)
Theorem tdma_tx_policy wide i :
  i_is_first i = true ->
  let ads := ar9003_set_txdesc wide i in
  MS (ctl13 ads) AR_XmitDataTries0 = 1 /\ MS (ctl13 ads) AR_XmitDataTries1 = 0 /\
  MS (ctl13 ads) AR_XmitDataTries2 = 0 /\ MS (ctl13 ads) AR_XmitDataTries3 = 0 /\
  MS (ctl14 ads) AR_XmitRate0 = 9 /\ has (ctl12 ads) AR_NoAck = true /\
  has (ctl13 ads) AR_DurUpdateEna = true.
Proof.
  intros Hf ads. destruct (set_txdesc_first wide i Hf) as (H12 & _ & _ & _ & H13 & H14).
  subst ads. rewrite H12, H13, H14.
  split_and!; try done. unfold txdesc_ctl12. cbv zeta.
  assert (forall a b c d, has (a .| b .| AR_NoAck .| c .| d) AR_NoAck = true) as Hn.
  { intros. by apply has_lor_l, has_lor_l, has_lor_r. }
  apply has_lor_l. destruct (i_aggr i); first [apply Hn|apply has_lor_l, Hn].
Qed.

(** * Transmit status *)

(** mac.h: transmit status fields *)
Definition AR_TxRSSIAnt00 : field := {| f_mask := 0x000000ff; f_S := 0 |}.
Definition AR_TxRSSIAnt01 : field := {| f_mask := 0x0000ff00; f_S := 8 |}.
Definition AR_TxRSSIAnt02 : field := {| f_mask := 0x00ff0000; f_S := 16 |}.
Definition AR_TxBaStatus : Z := 0x40000000.
Definition AR_ExcessiveRetries : Z := 0x00000002.
Definition AR_FIFOUnderrun : Z := 0x00000004.
Definition AR_Filtered : Z := 0x00000008.
Definition AR_RTSFailCnt : field := {| f_mask := 0x000000f0; f_S := 4 |}.
Definition AR_DataFailCnt : field := {| f_mask := 0x00000f00; f_S := 8 |}.
Definition AR_VirtRetryCnt : field := {| f_mask := 0x0000f000; f_S := 12 |}.
Definition AR_TxDelimUnderrun : Z := 0x00010000.
Definition AR_TxDataUnderrun : Z := 0x00020000.
Definition AR_DescCfgErr : Z := 0x00040000.
Definition AR_TxTimerExpired : Z := 0x00080000.
Definition AR_TxRSSIAnt10 : field := {| f_mask := 0x000000ff; f_S := 0 |}.
Definition AR_TxRSSIAnt11 : field := {| f_mask := 0x0000ff00; f_S := 8 |}.
Definition AR_TxRSSIAnt12 : field := {| f_mask := 0x00ff0000; f_S := 16 |}.
Definition AR_TxRSSICombined : field := {| f_mask := 0xff000000; f_S := 24 |}.
Definition AR_TxTid : field := {| f_mask := 0xf0000000; f_S := 28 |}.
Definition AR_TxDone : Z := 0x00000001.
Definition AR_SeqNum : field := {| f_mask := 0x00001ffe; f_S := 1 |}.
Definition AR_TxOpExceeded : Z := 0x00020000.
Definition AR_FinalTxIdx : field := {| f_mask := 0x00600000; f_S := 21 |}.

Definition ATH9K_TXERR_XRETRY : Z := 0x01.
Definition ATH9K_TXERR_FILT : Z := 0x02.
Definition ATH9K_TXERR_FIFO : Z := 0x04.
Definition ATH9K_TXERR_XTXOP : Z := 0x08.
Definition ATH9K_TXERR_TIMER_EXPIRED : Z := 0x10.
Definition ATH9K_TX_FLUSH : Z := 0x40.
Definition ATH9K_TXERR_MASK : Z :=
  ATH9K_TXERR_XRETRY .| ATH9K_TXERR_FILT .| ATH9K_TXERR_FIFO .| ATH9K_TXERR_XTXOP
  .| ATH9K_TXERR_TIMER_EXPIRED .| ATH9K_TX_FLUSH.
Definition ATH9K_TX_BA : Z := 0x01.
Definition ATH9K_TX_DESC_CFG_ERR : Z := 0x04.
Definition ATH9K_TX_DATA_UNDERRUN : Z := 0x08.
Definition ATH9K_TX_DELIM_UNDERRUN : Z := 0x10.

(** [struct ar9003_txs], an entry of the status ring (u32 fields). *)
Record ar9003_txs := {
  ds_info : Z; status1 : Z; status2 : Z; status3 : Z; status4 : Z;
  status5 : Z; status6 : Z; status7 : Z; status8 : Z;
}.

Definition zero_txs : ar9003_txs :=
  {| ds_info := 0; status1 := 0; status2 := 0; status3 := 0; status4 := 0;
     status5 := 0; status6 := 0; status7 := 0; status8 := 0 |}.

(** [struct ath_tx_status], the fields that are filled in. *)
Record ath_tx_status := {
  ts_tstamp : Z; ts_seqnum : Z; ts_status : Z; ts_rateindex : Z; ts_rssi : Z;
  ts_shortretry : Z; ts_longretry : Z; ts_virtcol : Z; ts_flags : Z;
  ts_rssi_ctl0 : Z; ts_rssi_ctl1 : Z; ts_rssi_ctl2 : Z;
  ts_rssi_ext0 : Z; ts_rssi_ext1 : Z; ts_rssi_ext2 : Z;
  qid : Z; desc_id : Z; tid : Z; ba_low : Z; ba_high : Z;
}.

Inductive errno := OK | EINPROGRESS | EIO | EINVAL | ENOMEM.
#[export] Instance errno_eq_dec : EqDecision errno.
Proof. solve_decision. Defined.

(** [set_bits l]: the bits of the pairs whose condition holds. *)
Definition set_bits (l : list (bool * Z)) : Z := foldl (fun acc p => acc .| flag p.1 p.2) 0 l.

(** The status filled in from an entry; [ba_low] and [ba_high] keep their old
    values without a block-ack report. *)
Definition tx_status_of (ads : ar9003_txs) (ts : ath_tx_status) : ath_tx_status :=
  let s8_ := status8 ads in let s2 := status2 ads in
  let s3 := status3 ads in let s7 := status7 ads in
  {| ts_rateindex := MS s8_ AR_FinalTxIdx; ts_seqnum := MS s8_ AR_SeqNum; tid := MS s8_ AR_TxTid;
     qid := MS (ds_info ads) AR_TxQcuNum; desc_id := MS (status1 ads) AR_TxDescId;
     ts_tstamp := status4 ads;
     ts_status := set_bits [(has s8_ AR_TxOpExceeded, ATH9K_TXERR_XTXOP);
                            (has s3 AR_ExcessiveRetries, ATH9K_TXERR_XRETRY);
                            (has s3 AR_Filtered, ATH9K_TXERR_FILT);
                            (has s3 AR_FIFOUnderrun, ATH9K_TXERR_FIFO);
                            (has s3 AR_TxTimerExpired, ATH9K_TXERR_TIMER_EXPIRED)];
     ts_flags := set_bits [(has s2 AR_TxBaStatus, ATH9K_TX_BA);
                           (has s3 AR_DescCfgErr, ATH9K_TX_DESC_CFG_ERR);
                           (has s3 AR_TxDataUnderrun, ATH9K_TX_DATA_UNDERRUN);
                           (has s3 AR_TxDelimUnderrun, ATH9K_TX_DELIM_UNDERRUN)];
     ts_rssi_ctl0 := s8 (MS s2 AR_TxRSSIAnt00); ts_rssi_ctl1 := s8 (MS s2 AR_TxRSSIAnt01);
     ts_rssi_ctl2 := s8 (MS s2 AR_TxRSSIAnt02);
     ba_low := if has s2 AR_TxBaStatus then status5 ads else ba_low ts;
     ba_high := if has s2 AR_TxBaStatus then status6 ads else ba_high ts;
     ts_shortretry := MS s3 AR_RTSFailCnt; ts_longretry := MS s3 AR_DataFailCnt;
     ts_virtcol := MS s3 AR_VirtRetryCnt;
     ts_rssi := s8 (MS s7 AR_TxRSSICombined); ts_rssi_ext0 := s8 (MS s7 AR_TxRSSIAnt10);
     ts_rssi_ext1 := s8 (MS s7 AR_TxRSSIAnt11); ts_rssi_ext2 := s8 (MS s7 AR_TxRSSIAnt12) |}.

(** The calls of [ath9k_hw_updatetxtriglevel(ah, true)] that an entry causes. *)
Definition trig_updates (ads : ar9003_txs) : nat :=
  length (filter (fun b : bool => b = true)
    [has (status3 ads) AR_FIFOUnderrun; has (status3 ads) AR_TxDataUnderrun;
     has (status3 ads) AR_TxDelimUnderrun]).

(** [curr_pos] is the position handed over through [ds]; a position outside
    the ring is an access outside the array. *)
Definition ar9003_hw_proc_txdesc (ring : list ar9003_txs) (curr_pos : Z) (ts : ath_tx_status)
  : outcome (errno * ath_tx_status * list ar9003_txs * nat) :=
  match ring !! Z.to_nat curr_pos with
  | None => Oops
  | Some ads =>
      if negb (has (status8 ads) AR_TxDone) then Ok (EINPROGRESS, ts, ring, 0%nat)
      else if MS (ds_info ads) AR_TxQcuNum =? 6 then Ok (EINPROGRESS, ts, ring, 0%nat)
      else if negb (MS (ds_info ads) AR_DescId =? ATHEROS_VENDOR_ID) ||
              negb (MS (ds_info ads) AR_TxRxDesc =? 1) then
        Ok (EIO, ts, <[Z.to_nat curr_pos := zero_txs]> ring, 0%nat)
      else
        Ok (OK, tx_status_of ads ts, <[Z.to_nat curr_pos := zero_txs]> ring, trig_updates ads)
  end.

(** [sizeof(struct ar9003_txs)]. *)
Definition sizeof_txs : Z := 36.

(** The status ring of [struct ath_hw]. *)
Record status_ring := {
  ts_ring : list ar9003_txs; ts_paddr_start : Z; ts_paddr_end : Z; ts_tail : Z; ts_size : Z;
}.

(** The ring after the reset, and the values written to
    AR_Q_STATUS_RING_START and AR_Q_STATUS_RING_END. *)
Definition ath9k_hw_reset_txstatus_ring (r : status_ring) : status_ring * (Z * Z) :=
  ({| ts_tail := 0; ts_ring := replicate (Z.to_nat (ts_size r)) zero_txs;
      ts_paddr_start := ts_paddr_start r; ts_paddr_end := ts_paddr_end r; ts_size := ts_size r |},
   (ts_paddr_start r, ts_paddr_end r)).

Definition ath9k_hw_setup_statusring (ts_start : list ar9003_txs) (paddr size : Z)
  : status_ring * (Z * Z) :=
  ath9k_hw_reset_txstatus_ring
    {| ts_paddr_start := paddr; ts_paddr_end := u32 (paddr + size * sizeof_txs);
       ts_size := size; ts_ring := ts_start; ts_tail := 0 |}.

(** A status is delivered at most once: when [ar9003_hw_proc_txdesc]
    accepts or rejects an entry, that entry is cleared, no other entry
    changes, and asking again gives [-EINPROGRESS]; otherwise the ring and the
    status are left alone. *)
Theorem proc_txdesc_once ring pos ts r ts' ring' n ts2 :
  ar9003_hw_proc_txdesc ring pos ts = Ok (r, ts', ring', n) ->
  (r = EINPROGRESS /\ ring' = ring /\ ts' = ts) \/
  ((r = OK \/ r = EIO) /\ ring' = <[Z.to_nat pos := zero_txs]> ring /\
   ar9003_hw_proc_txdesc ring' pos ts2 = Ok (EINPROGRESS, ts2, ring', 0%nat)).
Proof.
  unfold ar9003_hw_proc_txdesc. destruct (ring !! Z.to_nat pos) as [ads|] eqn:E; [|done].
  assert (forall l : list ar9003_txs, (<[Z.to_nat pos := zero_txs]> ring) !! Z.to_nat pos = Some zero_txs) as Hz.
  { intros _. apply list_lookup_insert_eq. by eapply lookup_lt_Some. }
  destruct (negb _); [intros [= <- <- <- <-]; by left|].
  destruct (_ =? 6); [intros [= <- <- <- <-]; by left|].
  destruct (_ || _); intros [= <- <- <- <-]; right; rewrite (Hz ring);
    (split; [by auto|split; [done|]]); reflexivity.
Qed.

(** The FPGA's frames stay invisible: a finished frame of queue 6 is never
    delivered and its entry is kept. *)
Lemma proc_txdesc_skips_fpga ring pos ts ads :
  ring !! Z.to_nat pos = Some ads -> MS (ds_info ads) AR_TxQcuNum = 6 ->
  ar9003_hw_proc_txdesc ring pos ts = Ok (EINPROGRESS, ts, ring, 0%nat).
Proof.
  intros E Hq. unfold ar9003_hw_proc_txdesc. rewrite E, Hq. by destruct (negb _).
Qed.

(** * Receive status *)

(** mac.h: receive status fields *)
Definition AR_RxRSSIAnt00 : field := {| f_mask := 0x000000ff; f_S := 0 |}.
Definition AR_RxRSSIAnt01 : field := {| f_mask := 0x0000ff00; f_S := 8 |}.
Definition AR_RxRSSIAnt02 : field := {| f_mask := 0x00ff0000; f_S := 16 |}.
Definition AR_RxRate : field := {| f_mask := 0xff000000; f_S := 24 |}.
Definition AR_DataLen : Z := 0x00000fff.
Definition AR_RxMore : Z := 0x00001000.
Definition AR_GI : Z := 0x00000001.
Definition AR_2040 : Z := 0x00000002.
Definition AR_RxAntenna : field := {| f_mask := 0xffffff00; f_S := 8 |}.
Definition AR_RxRSSIAnt10 : field := {| f_mask := 0x000000ff; f_S := 0 |}.
Definition AR_RxRSSIAnt11 : field := {| f_mask := 0x0000ff00; f_S := 8 |}.
Definition AR_RxRSSIAnt12 : field := {| f_mask := 0x00ff0000; f_S := 16 |}.
Definition AR_RxRSSICombined : field := {| f_mask := 0xff000000; f_S := 24 |}.
Definition AR_RxDone : Z := 0x00000001.
Definition AR_RxFrameOK : Z := 0x00000002.
Definition AR_CRCErr : Z := 0x00000004.
Definition AR_DecryptCRCErr : Z := 0x00000008.
Definition AR_PHYErr : Z := 0x00000010.
Definition AR_MichaelErr : Z := 0x00000020.
Definition AR_PreDelimCRCErr : Z := 0x00000040.
Definition AR_RxKeyIdxValid : Z := 0x00000100.
Definition AR_KeyIdx : field := {| f_mask := 0x0000fe00; f_S := 9 |}.
Definition AR_PHYErrCode : field := {| f_mask := 0x0000ff00; f_S := 8 |}.
Definition AR_RxMoreAggr : Z := 0x00010000.
Definition AR_RxAggr : Z := 0x00020000.
Definition AR_PostDelimCRCErr : Z := 0x00040000.
Definition AR_RxFirstAggr : Z := 0x20000000.
Definition AR_DecryptBusyErr : Z := 0x40000000.
Definition AR_KeyMiss : Z := 0x80000000.

Definition ATH9K_RXERR_CRC : Z := 0x01.
Definition ATH9K_RXERR_PHY : Z := 0x02.
Definition ATH9K_RXERR_DECRYPT : Z := 0x08.
Definition ATH9K_RXERR_MIC : Z := 0x10.
Definition ATH9K_RXERR_KEYMISS : Z := 0x20.
Definition ATH9K_RX_DELIM_CRC_PRE : Z := 0x10.
Definition ATH9K_RX_DELIM_CRC_POST : Z := 0x20.
Definition ATH9K_RX_DECRYPT_BUSY : Z := 0x40.
Definition ATH9K_PHYERR_OFDM_RESTART : Z := 23.

(** [struct ar9003_rxs] (u32 fields). *)
Record ar9003_rxs := {
  rx_info : Z; rx_status1 : Z; rx_status2 : Z; rx_status3 : Z; rx_status4 : Z; rx_status5 : Z;
  rx_status6 : Z; rx_status7 : Z; rx_status8 : Z; rx_status9 : Z; rx_status10 : Z; rx_status11 : Z;
}.

(** [struct ath_rx_status], the fields that are filled in. *)
Record ath_rx_status := {
  rs_tstamp : Z; rs_datalen : Z; rs_status : Z; rs_phyerr : Z; rs_rssi : Z; rs_keyix : Z;
  rs_rate : Z; rs_antenna : Z; rs_more : Z;
  rs_rssi_ctl : Z * Z * Z; rs_rssi_ext : Z * Z * Z;
  rs_isaggr : Z; rs_firstaggr : Z; rs_moreaggr : Z; rs_flags : Z;
  evm0 : Z; evm1 : Z; evm2 : Z; evm3 : Z; evm4 : Z; rs_flag : Z;
}.

(** The error bits and the PHY error code of a frame that is not OK; the code
    keeps its old value [phyerr0] unless a PHY error is looked at. *)
Definition rx_errors (s11 : Z) (phyerr0 : Z) : Z * Z :=
  let status :=
    if has s11 AR_CRCErr then ATH9K_RXERR_CRC
    else if has s11 AR_DecryptCRCErr then ATH9K_RXERR_DECRYPT
    else if has s11 AR_MichaelErr then ATH9K_RXERR_MIC
    else 0 in
  if has s11 AR_PHYErr then
    let phyerr := MS s11 AR_PHYErrCode in
    if (phyerr =? ATH9K_PHYERR_OFDM_RESTART) && has s11 AR_PostDelimCRCErr then (status, 0)
    else (status .| ATH9K_RXERR_PHY, u8 phyerr)
  else (status, phyerr0).

Section Receive.
(** Flags of mac80211. *)
Context (RX_FLAG_SHORT_GI RX_FLAG_40MHZ : Z).

Definition ath9k_hw_process_rxdesc_edma (rxsp : ar9003_rxs) (rxs : ath_rx_status)
  : errno * ath_rx_status :=
  let s11 := rx_status11 rxsp in
  if negb (has s11 AR_RxDone) then (EINPROGRESS, rxs)
  else if negb (MS (rx_info rxsp) AR_DescId =? 0x168c) then (EINVAL, rxs)
  else if has (rx_info rxsp) (f_mask AR_TxRxDesc .| f_mask AR_CtrlStat) then (EINPROGRESS, rxs)
  else
    let bit w m := if has w m then 1 else 0 in
    let '(status, phyerr) :=
      if negb (has s11 AR_RxFrameOK) then rx_errors s11 (rs_phyerr rxs) else (0, rs_phyerr rxs) in
    (OK,
     {| rs_status := status .| flag (has s11 AR_KeyMiss) ATH9K_RXERR_KEYMISS;
        rs_phyerr := phyerr;
        rs_flags := set_bits [(has s11 AR_PreDelimCRCErr, ATH9K_RX_DELIM_CRC_PRE);
                              (has s11 AR_PostDelimCRCErr, ATH9K_RX_DELIM_CRC_POST);
                              (has s11 AR_DecryptBusyErr, ATH9K_RX_DECRYPT_BUSY)];
        rs_flag := flag (has (rx_status4 rxsp) AR_GI) RX_FLAG_SHORT_GI
                   .| flag (has (rx_status4 rxsp) AR_2040) RX_FLAG_40MHZ;
        rs_datalen := rx_status2 rxsp .& AR_DataLen;
        rs_tstamp := rx_status3 rxsp;
        rs_rssi := s8 (MS (rx_status5 rxsp) AR_RxRSSICombined);
        rs_rssi_ctl := (s8 (MS (rx_status1 rxsp) AR_RxRSSIAnt00), s8 (MS (rx_status1 rxsp) AR_RxRSSIAnt01),
                        s8 (MS (rx_status1 rxsp) AR_RxRSSIAnt02));
        rs_rssi_ext := (s8 (MS (rx_status5 rxsp) AR_RxRSSIAnt10), s8 (MS (rx_status5 rxsp) AR_RxRSSIAnt11),
                        s8 (MS (rx_status5 rxsp) AR_RxRSSIAnt12));
        rs_keyix := if has s11 AR_RxKeyIdxValid then MS s11 AR_KeyIdx else ATH9K_RXKEYIX_INVALID;
        rs_rate := MS (rx_status1 rxsp) AR_RxRate;
        rs_more := bit (rx_status2 rxsp) AR_RxMore;
        rs_firstaggr := bit s11 AR_RxFirstAggr;
        rs_isaggr := bit s11 AR_RxAggr;
        rs_moreaggr := bit s11 AR_RxMoreAggr;
        rs_antenna := MS (rx_status4 rxsp) AR_RxAntenna .& 0x7;
        evm0 := rx_status6 rxsp; evm1 := rx_status7 rxsp; evm2 := rx_status8 rxsp;
        evm3 := rx_status9 rxsp; evm4 := rx_status10 rxsp .& 0xffff |}).

(** Receive errors are classified without ambiguity: for a finished frame
    that the hardware marks OK only a key miss can be reported; otherwise at
    most one of CRC, decryption and MIC errors is, in this order of
    preference, and a PHY error exactly when the hardware reports one, except
    for an OFDM restart in a subframe that is not the last one, which is
    dropped and leaves the PHY error code 0. *)
Theorem rx_error_classification rxsp rxs rxs' :
  ath9k_hw_process_rxdesc_edma rxsp rxs = (OK, rxs') ->
  let s11 := rx_status11 rxsp in
  let ok := has s11 AR_RxFrameOK in
  let restart := (MS s11 AR_PHYErrCode =? ATH9K_PHYERR_OFDM_RESTART) && has s11 AR_PostDelimCRCErr in
  has (rs_status rxs') ATH9K_RXERR_CRC = negb ok && has s11 AR_CRCErr /\
  has (rs_status rxs') ATH9K_RXERR_DECRYPT = negb ok && negb (has s11 AR_CRCErr) && has s11 AR_DecryptCRCErr /\
  has (rs_status rxs') ATH9K_RXERR_MIC =
    negb ok && negb (has s11 AR_CRCErr) && negb (has s11 AR_DecryptCRCErr) && has s11 AR_MichaelErr /\
  has (rs_status rxs') ATH9K_RXERR_PHY = negb ok && has s11 AR_PHYErr && negb restart /\
  has (rs_status rxs') ATH9K_RXERR_KEYMISS = has s11 AR_KeyMiss /\
  (negb ok && has s11 AR_PHYErr = true ->
   rs_phyerr rxs' = if restart then 0 else MS s11 AR_PHYErrCode) /\
  0 <= rs_datalen rxs' < 4096.
Proof.
  unfold ath9k_hw_process_rxdesc_edma. cbv zeta.
  destruct (negb (has _ AR_RxDone)); [done|]. destruct (negb _); [done|]. destruct (has (rx_info rxsp) _); [done|].
  set (s := rx_status11 rxsp).
  assert (forall d, 0 <= d .& AR_DataLen < 4096) as Hlen.
  { intros d. change AR_DataLen with (Z.ones 12). rewrite Z.land_ones by lia. apply Z.mod_pos_bound. lia. }
  assert (u8 (MS s AR_PHYErrCode) = MS s AR_PHYErrCode) as Hu8.
  { apply u8_id. unfold in_u8, MS. change (f_mask AR_PHYErrCode) with (Z.ones 8 .<< 8). change (f_S AR_PHYErrCode) with 8.
    rewrite Z.shiftr_land, Z.shiftr_shiftl_l, Z.sub_diag, Z.shiftl_0_r, Z.land_ones by lia.
    apply Z.mod_pos_bound. lia. }
  unfold rx_errors. cbv zeta. rewrite Hu8.
  set (restart := _ && has s AR_PostDelimCRCErr). clearbody restart.
  destruct (has s AR_RxFrameOK), (has s AR_CRCErr), (has s AR_DecryptCRCErr), (has s AR_MichaelErr),
    (has s AR_PHYErr), restart, (has s AR_KeyMiss);
    cbn [negb andb]; intros [= <-]; split_and!; try reflexivity; try done; apply Hlen.
Qed.

End Receive.

(** * Concrete inputs *)

Definition demo_info : ath_tx_info := fpga_info 0x1f00d000 116 120.

Lemma duration_roundtrip_witness :
  ar9003_hw_get_duration (ar9003_set_txdesc false demo_info) 0 = 0xe8.
Proof. apply (duration_roundtrip false demo_info 0). lia. Defined.

Lemma txdesc_buffers_witness :
  let ads := ar9003_set_txdesc true demo_info in
  MS (info ads) AR_TxQcuNum = 6 /\ MS (ctl3 ads) AR_BufLen = 116.
Proof.
  destruct (txdesc_buffers true demo_info) as (_ & _ & _ & Hq & Hb & _).
  - simpl. lia.
  - intros [|n]; simpl; unfold in_u32; lia.
  - split; [exact Hq|]. exact (f_equal snd Hb).
Defined.

Lemma tdma_tx_policy_witness :
  MS (ctl14 (ar9003_set_txdesc false demo_info)) AR_XmitRate0 = 9.
Proof. apply (tdma_tx_policy false demo_info). reflexivity. Defined.

(** A finished frame of queue 1. *)
Definition demo_txs : ar9003_txs :=
  {| ds_info := 0x168c8109; status1 := 0; status2 := 0; status3 := 1; status4 := 77;
     status5 := 0; status6 := 0; status7 := 0; status8 := 1 |}.

Definition zero_status : ath_tx_status :=
  {| ts_tstamp := 0; ts_seqnum := 0; ts_status := 0; ts_rateindex := 0; ts_rssi := 0;
     ts_shortretry := 0; ts_longretry := 0; ts_virtcol := 0; ts_flags := 0;
     ts_rssi_ctl0 := 0; ts_rssi_ctl1 := 0; ts_rssi_ctl2 := 0;
     ts_rssi_ext0 := 0; ts_rssi_ext1 := 0; ts_rssi_ext2 := 0;
     qid := 0; desc_id := 0; tid := 0; ba_low := 0; ba_high := 0 |}.

Lemma proc_txdesc_once_witness :
  ar9003_hw_proc_txdesc [zero_txs; zero_txs] 1 zero_status =
    Ok (EINPROGRESS, zero_status, [zero_txs; zero_txs], 0%nat).
Proof.
  destruct (proc_txdesc_once [zero_txs; demo_txs] 1 zero_status OK (tx_status_of demo_txs zero_status)
    [zero_txs; zero_txs] 0 zero_status) as [(Hc & _)|(_ & _ & E)].
  - vm_compute. reflexivity.
  - discriminate Hc.
  - exact E.
Defined.

Definition zero_rx_status : ath_rx_status :=
  {| rs_tstamp := 0; rs_datalen := 0; rs_status := 0; rs_phyerr := 0; rs_rssi := 0; rs_keyix := 0;
     rs_rate := 0; rs_antenna := 0; rs_more := 0; rs_rssi_ctl := (0, 0, 0); rs_rssi_ext := (0, 0, 0);
     rs_isaggr := 0; rs_firstaggr := 0; rs_moreaggr := 0; rs_flags := 0;
     evm0 := 0; evm1 := 0; evm2 := 0; evm3 := 0; evm4 := 0; rs_flag := 0 |}.

(** A radar PHY error (code 5) that also has a CRC error. *)
Definition demo_rxs : ar9003_rxs :=
  {| rx_info := 0x168c0000; rx_status1 := 0; rx_status2 := 100; rx_status3 := 0; rx_status4 := 0;
     rx_status5 := 0; rx_status6 := 0; rx_status7 := 0; rx_status8 := 0; rx_status9 := 0;
     rx_status10 := 0; rx_status11 := 0x515 |}.

Lemma rx_error_classification_witness :
  rs_phyerr (snd (ath9k_hw_process_rxdesc_edma 1 2 demo_rxs zero_rx_status)) = 5.
Proof.
  destruct (rx_error_classification 1 2 demo_rxs zero_rx_status
    (snd (ath9k_hw_process_rxdesc_edma 1 2 demo_rxs zero_rx_status))) as (_ & _ & _ & _ & _ & Hp & _).
  - vm_compute. reflexivity.
  - rewrite Hp; vm_compute; reflexivity.
Defined.
