(* ===== verification/TxEdma.v ===== *)
(** Transmit queues with EDMA (src/real/ath/ath9k/xmit.c): the eight-entry
    FIFO of every hardware queue, submission, the tasklet that reads the
    status ring and completes frames, and draining. *)

From S2P Require Import Prelude Desc.

(** * Buffers and queues

    A buffer is known by [bf_id]; [bf_lastbf] and [bf_next] point to other
    buffers. A unit (a frame or an aggregate) is a run of buffers whose first
    one points to its last one. [bf_ampdu] is [bf_is_ampdu_not_probing]. *)
Record ath_buf := {
  bf_id : Z; bf_lastbf : Z; bf_next : option Z; bf_ampdu : bool; bf_stale : bool;
}.
#[export] Instance eta_ath_buf : Eta ath_buf := fun r =>
  Build_ath_buf (bf_id r) (bf_lastbf r) (bf_next r) (bf_ampdu r) (bf_stale r).

Definition ATH_TXFIFO_DEPTH : Z := 8.
Definition ATH9K_NUM_TX_QUEUES : Z := 10.

(** The increment with wrap-around of a [u8] index. *)
Definition INCR (l sz : Z) : Z := u8 (l + 1) .& (sz - 1).

Record ath_txq := {
  axq_link : option Z;
  axq_q : list ath_buf;
  axq_depth : Z;          (* u32 *)
  axq_ampdu_depth : Z;    (* u32 *)
  axq_tx_inprogress : bool;
  txq_fifo : list (list ath_buf);
  txq_headidx : Z;        (* u8 *)
  txq_tailidx : Z;        (* u8 *)
}.
#[export] Instance eta_ath_txq : Eta ath_txq := fun r =>
  Build_ath_txq (axq_link r) (axq_q r) (axq_depth r) (axq_ampdu_depth r) (axq_tx_inprogress r)
    (txq_fifo r) (txq_headidx r) (txq_tailidx r).

(** The queue part of [ath_txq_setup]. *)
Definition txq_init : ath_txq :=
  {| axq_link := None; axq_q := []; axq_depth := 0; axq_ampdu_depth := 0; axq_tx_inprogress := false;
     txq_fifo := replicate (Z.to_nat ATH_TXFIFO_DEPTH) []; txq_headidx := 0; txq_tailidx := 0 |}.

Definition fifo_at (q : ath_txq) (i : Z) : list ath_buf := nth (Z.to_nat i) (txq_fifo q) [].
Definition set_fifo (i : Z) (l : list ath_buf) (q : ath_txq) : ath_txq :=
  q <| txq_fifo ::= <[Z.to_nat i := l]> |>.

(** What the hardware is told. *)
Inductive hw_action := PutTxBuf (bf : Z) | SetLink (desc bf : Z) | TxStart.

(** Split a list at the buffer [id]: what precedes it, the buffer, the rest. *)
Fixpoint split_at (id : Z) (l : list ath_buf) : option (list ath_buf * ath_buf * list ath_buf) :=
  match l with
  | [] => None
  | bf :: l =>
      if bf_id bf =? id then Some ([], bf, l)
      else
        match split_at id l with
        | None => None
        | Some (pre, b, post) => Some (bf :: pre, b, post)
        end
  end.

(** The loop over the units of a submission: it counts them and cuts the chain
    behind the last buffer of each. A pointer out of the submitted buffers is
    outside the model. Every round leaves a unit behind, so the number of
    buffers bounds the rounds. *)
Fixpoint count_units (fuel : nat) (cur : Z) (bufs : list ath_buf) (depth ampdu : Z)
  : outcome (list ath_buf * Z * Z) :=
  match fuel with
  | O => Oops
  | S fuel =>
      match split_at cur bufs with
      | None => Oops
      | Some (_, bf, _) =>
          let depth := u32 (depth + 1) in
          let ampdu := if bf_ampdu bf then u32 (ampdu + 1) else ampdu in
          match split_at (bf_lastbf bf) bufs with
          | None => Oops
          | Some (pre, bf_last, post) =>
              let bufs := pre ++ (bf_last <| bf_next := None |>) :: post in
              match bf_next bf_last with
              | None => Ok (bufs, depth, ampdu)
              | Some next => count_units fuel next bufs depth ampdu
              end
          end
      end
  end.

Definition ath_tx_txqaddbuf (edma tx99 : bool) (txq : ath_txq) (head : list ath_buf) (internal : bool)
  : outcome (ath_txq * list hw_action) :=
  match head, last head with
  | bf :: _, Some bf_last =>
      obind (if internal then Ok (head, axq_depth txq, axq_ampdu_depth txq)
             else count_units (length head) (bf_id bf) head (axq_depth txq) (axq_ampdu_depth txq))
        (fun '(head, depth, ampdu) =>
      let '(txq, acts, puttxbuf) :=
        if edma && bool_decide (fifo_at txq (txq_headidx txq) = []) then
          let txq := set_fifo (txq_headidx txq) head txq in
          (txq <| txq_headidx ::= fun i => INCR i ATH_TXFIFO_DEPTH |>, [], true)
        else
          let txq := txq <| axq_q ::= fun l => l ++ head |> in
          let '(acts, puttxbuf) :=
            match axq_link txq with
            | Some l => ([SetLink l (bf_id bf)], false)
            | None => ([], negb edma)
            end in
          (txq <| axq_link := Some (bf_id bf_last) |>, acts, puttxbuf) in
      let acts := if puttxbuf then acts ++ [PutTxBuf (bf_id bf)] else acts in
      let acts := if negb edma || tx99 then acts ++ [TxStart] else acts in
      Ok (txq <| axq_depth := depth |> <| axq_ampdu_depth := ampdu |>, acts))
  | _, _ => Ok (txq, [])
  end.

(** * Completion *)

(** What a status takes off a queue: the holding descriptor that goes back to
    the free buffers, the first buffer of the unit, and the buffers handed to
    [ath_tx_process_buffer]. *)
Record completion := { c_held : list ath_buf; c_bf : ath_buf; c_head : list ath_buf }.

(** The bookkeeping at the start of [ath_tx_process_buffer]. *)
Definition process_buffer_counts (txq : ath_txq) (bf : ath_buf) : ath_txq :=
  let txq := txq <| axq_tx_inprogress := false |> in
  let txq := txq <| axq_depth ::= fun d => u32 (d - 1) |> in
  if bf_ampdu bf then txq <| axq_ampdu_depth ::= fun d => u32 (d - 1) |> else txq.

(** The body of the loop of [ath_tx_edma_tasklet] once the queue is known, up
    to the bookkeeping of [ath_tx_process_buffer]; [None] when the FIFO entry
    at the tail is empty. *)
Definition edma_complete (tx99 : bool) (txq : ath_txq)
  : outcome (option (completion * ath_txq * list hw_action)) :=
  let tail := txq_tailidx txq in
  match fifo_at txq tail with
  | [] => Ok None
  | b :: l =>
      let '(held, fifo_list) := if bf_stale b then ([b], l) else ([], b :: l) in
      match fifo_list, last fifo_list with
      | bf :: _, Some final =>
          if bf_id final =? bf_lastbf bf then
            let txq := set_fifo tail [] txq in
            let txq := txq <| txq_tailidx ::= fun i => INCR i ATH_TXFIFO_DEPTH |> in
            let refilled :=
              match axq_q txq with
              | [] => Ok (txq, [])
              | bf_q =>
                  let txq := txq <| axq_link := None |> in
                  let txq := txq <| axq_q := [] |> in
                  ath_tx_txqaddbuf true tx99 txq bf_q true
              end in
            obind refilled (fun '(txq, acts) =>
              Ok (Some ({| c_held := held; c_bf := bf; c_head := fifo_list |},
                        process_buffer_counts txq bf, acts)))
          else
            match split_at (bf_lastbf bf) fifo_list with
            | None => Oops
            | Some (pre, lastbf, post) =>
                let txq := set_fifo tail ((lastbf <| bf_stale := true |>) :: post) txq in
                Ok (Some ({| c_held := held; c_bf := bf; c_head := pre |},
                          process_buffer_counts txq bf, []))
            end
      | _, _ => Oops
      end
  end.

(** * Representation: a queue of units *)

(** A unit: its first buffer points to its last one; none is stale. *)
Definition unit_ok (u : list ath_buf) : Prop :=
  exists bf bl, head u = Some bf /\ last u = Some bl /\ bf_lastbf bf = bf_id bl /\
    Forall (fun b => bf_stale b = false) u.

Definition ids (l : list ath_buf) : list Z := bf_id <$> l.

(** An occupied FIFO entry: possibly a holding descriptor, then the units. *)
Definition slot_repr (l : list ath_buf) (us : list (list ath_buf)) : Prop :=
  us <> [] /\ Forall unit_ok us /\ NoDup (ids l) /\
  exists held, l = held ++ concat us /\ (length held <= 1)%nat /\
    Forall (fun b => bf_stale b = true) held.

(** The FIFO entry [j] steps behind the tail. *)
Definition slot (q : ath_txq) (j : Z) : list ath_buf := fifo_at q ((txq_tailidx q + j) mod 8).

(** [repr q us]: the queue holds the units [us], in order. The occupied FIFO
    entries are contiguous from the tail to the head; units wait outside the
    FIFO only while it is full; [axq_depth] counts the units. *)
Record repr_parts (q : ath_txq) (ss : list (list (list ath_buf))) (tl : list (list ath_buf)) : Prop := {
  rp_len : length (txq_fifo q) = 8%nat;
  rp_tail : 0 <= txq_tailidx q < 8;
  rp_full : (length ss <= 8)%nat;
  rp_head : txq_headidx q = (txq_tailidx q + Z.of_nat (length ss)) mod 8;
  rp_slots : forall j us, ss !! j = Some us -> slot_repr (slot q (Z.of_nat j)) us;
  rp_empty : forall j, (length ss <= j < 8)%nat -> slot q (Z.of_nat j) = [];
  rp_wait : axq_q q = concat tl;
  rp_wait_ok : Forall unit_ok tl /\ NoDup (ids (axq_q q));
  rp_wait_full : tl <> [] -> length ss = 8%nat;
}.
Definition repr (q : ath_txq) (us : list (list ath_buf)) : Prop :=
  exists ss tl, repr_parts q ss tl /\ us = concat ss ++ tl /\
    axq_depth q = u32 (Z.of_nat (length us)).

(** ** The ring *)

Lemma INCR_8 i : 0 <= i < 8 -> INCR i 8 = (i + 1) mod 8.
Proof.
  intros Hi. unfold INCR. rewrite u8_id by (unfold in_u8; lia).
  change (8 - 1) with (Z.ones 3). by rewrite Z.land_ones by lia.
Qed.

Lemma fifo_at_set_eq q i l : 0 <= i < 8 -> length (txq_fifo q) = 8%nat -> fifo_at (set_fifo i l q) i = l.
Proof.
  intros Hi Hl. unfold fifo_at, set_fifo. destruct q; simpl in *.
  apply nth_lookup_Some. apply list_lookup_insert_eq. lia.
Qed.

Lemma fifo_at_set_ne q i j l : 0 <= i -> 0 <= j -> i <> j -> fifo_at (set_fifo i l q) j = fifo_at q j.
Proof.
  intros Hi Hj Hne. unfold fifo_at, set_fifo. destruct q; simpl.
  rewrite !nth_lookup, list_lookup_insert_ne by lia. done.
Qed.

Lemma set_fifo_len q i l : length (txq_fifo (set_fifo i l q)) = length (txq_fifo q).
Proof. destruct q; simpl. apply length_insert. Qed.

Lemma mod8_inj t i j : 0 <= i < 8 -> 0 <= j < 8 -> (t + i) mod 8 = (t + j) mod 8 -> i = j.
Proof. intros. dlia. Qed.

Lemma slot_set q t i j l :
  txq_tailidx q = t -> length (txq_fifo q) = 8%nat -> 0 <= i < 8 -> 0 <= j < 8 ->
  fifo_at (set_fifo ((t + i) mod 8) l q) ((t + j) mod 8) = if i =? j then l else slot q j.
Proof.
  intros <- Hl Hi Hj. destruct (Z.eqb_spec i j) as [->|Hne].
  - apply fifo_at_set_eq; [|done]. apply Z.mod_pos_bound. lia.
  - apply fifo_at_set_ne; try (apply Z.mod_pos_bound; lia). intros E. by apply Hne, (mod8_inj (txq_tailidx q)).
Qed.

(** ** Units in lists *)

Lemma unit_nonempty u : unit_ok u -> u <> [].
Proof. intros (bf & bl & Hh & _) ->. done. Qed.

Lemma split_at_spec id l pre b post :
  split_at id l = Some (pre, b, post) -> l = pre ++ b :: post /\ bf_id b = id.
Proof.
  revert pre. induction l as [|x l IH]; intros pre; simpl; [done|].
  destruct (Z.eqb_spec (bf_id x) id); [by intros [= <- <- <-]|].
  destruct (split_at id l) as [[[p b'] q]|]; [|done]. intros [= <- <- <-].
  by destruct (IH _ eq_refl) as [-> ?].
Qed.

Lemma split_at_middle id pre b post :
  NoDup (ids (pre ++ b :: post)) -> bf_id b = id -> split_at id (pre ++ b :: post) = Some (pre, b, post).
Proof.
  intros Hnd Hid. induction pre as [|x pre IH]; simpl.
  - by rewrite Hid, Z.eqb_refl.
  - unfold ids in *. simpl in Hnd. apply NoDup_cons in Hnd as [Hx Hnd].
    destruct (Z.eqb_spec (bf_id x) id) as [E|]; [|by rewrite IH].
    exfalso. apply Hx. rewrite fmap_app, fmap_cons, E, <- Hid. apply elem_of_app. right. by left.
Qed.

(** A submission: units chained through the [bf_next] of their last buffers. *)
Inductive chain_ok : list (list ath_buf) -> Prop :=
| chain_one u bl : unit_ok u -> last u = Some bl -> bf_next bl = None -> chain_ok [u]
| chain_cons u bl v bf us : unit_ok u -> last u = Some bl -> head v = Some bf ->
    bf_next bl = Some (bf_id bf) -> chain_ok (v :: us) -> chain_ok (u :: v :: us).

(** The unit after its chain has been cut. *)
Definition cut (u : list ath_buf) : list ath_buf :=
  match last u with Some bl => removelast u ++ [bl <| bf_next := None |>] | None => u end.

Lemma ids_app l1 l2 : ids (l1 ++ l2) = ids l1 ++ ids l2.
Proof. apply fmap_app. Qed.

Lemma cut_ids u : ids (cut u) = ids u.
Proof.
  unfold cut. destruct (last u) as [bl|] eqn:E; [|done].
  rewrite (last_removelast _ _ E) at 2. by rewrite !ids_app.
Qed.

Lemma concat_cut_ids us : ids (concat (cut <$> us)) = ids (concat us).
Proof. induction us as [|u us IH]; [done|]. rewrite fmap_cons. cbn [concat]. by rewrite !ids_app, cut_ids, IH. Qed.

Lemma cut_unit_ok u : unit_ok u -> unit_ok (cut u).
Proof.
  intros (bf & bl & Hh & Hl & Hid & Hst). unfold cut. rewrite Hl.
  pose proof (last_removelast _ _ Hl) as Hu. set (u0 := removelast u) in *. rewrite Hu in Hh, Hst. clearbody u0. clear Hu Hl.
  apply Forall_app in Hst as [Hs0 Hs1]. inversion Hs1; subst.
  destruct u0 as [|x u0]; simpl in Hh; injection Hh as <-.
  - exists (bl <| bf_next := None |>), (bl <| bf_next := None |>). split_and!; try done. by repeat constructor.
  - exists x, (bl <| bf_next := None |>). split_and!; try done; [by rewrite last_snoc|].
    apply Forall_app. split; [done|]. by repeat constructor.
Qed.

(** The last buffer of a unit is found from its first one. *)
Lemma unit_last_found (pre post u : list ath_buf) bf bl :
  head u = Some bf -> last u = Some bl -> bf_lastbf bf = bf_id bl -> NoDup (ids (pre ++ u ++ post)) ->
  (exists a z, split_at (bf_id bf) (pre ++ u ++ post) = Some (a, bf, z)) /\
  split_at (bf_lastbf bf) (pre ++ u ++ post) = Some (pre ++ removelast u, bl, post).
Proof.
  intros Hh Hl Hid Hnd. split.
  - destruct u as [|x u]; [done|]. injection Hh as ->. eexists _, _. by apply split_at_middle.
  - pose proof (last_removelast _ _ Hl) as Hu. rewrite Hu in Hnd |- *. rewrite removelast_snoc.
    rewrite <- (app_assoc _ [bl]), (app_assoc pre) in Hnd |- *. by apply split_at_middle.
Qed.

Lemma count_units_chain us : chain_ok us -> forall pre bf depth ampdu fuel,
  head (concat us) = Some bf -> NoDup (ids (pre ++ concat us)) -> (length us <= fuel)%nat ->
  exists ampdu', count_units fuel (bf_id bf) (pre ++ concat us) depth ampdu =
    Ok (pre ++ concat (cut <$> us), u32 (depth + Z.of_nat (length us)), ampdu').
Proof.
  induction 1 as [u bl Hu Hl Hn|u bl v bf' us Hu Hl Hh' Hn Hch IH]; intros pre bf depth ampdu fuel Hh Hnd Hf;
    (destruct fuel as [|fuel]; [simpl in Hf; lia|]); cbn [count_units];
    destruct Hu as (bf0 & bl0 & Hbf0 & Hbl0 & Hid & _); rewrite Hl in Hbl0; injection Hbl0 as <-;
    (assert (bf0 = bf) as -> by (destruct u; [done|]; simpl in *; congruence)).
  - simpl concat in *. destruct (unit_last_found pre [] u bf bl Hbf0 Hl Hid Hnd) as [(a & z & ->) ->].
    rewrite Hn. eexists. f_equal. f_equal. f_equal. unfold cut. rewrite Hl, app_nil_r, <- app_assoc. done.
  - cbn [concat] in Hnd |- *. destruct (unit_last_found pre (v ++ concat us) u bf bl Hbf0 Hl Hid Hnd) as [(a & z & ->) ->].
    rewrite Hn.
    assert ((pre ++ removelast u) ++ bl <| bf_next := None |> :: v ++ concat us =
            (pre ++ cut u) ++ concat (v :: us)) as ->.
    { unfold cut. rewrite Hl. simpl. by rewrite <- !app_assoc. }
    match goal with |- context [count_units fuel _ _ ?d ?m] =>
      destruct (IH (pre ++ cut u) bf' d m fuel) as (ampdu' & ->) end.
    + destruct v; simpl in *; [done|congruence].
    + cbn [concat]. rewrite !ids_app, cut_ids, <- app_assoc. by rewrite !ids_app in Hnd.
    + simpl in *. lia.
    + exists ampdu'. rewrite fmap_cons. cbn [concat]. rewrite <- app_assoc, u32_add_l.
      do 3 f_equal. f_equal. cbn [length]. lia.
Qed.

Lemma chain_units us : chain_ok us -> us <> [] /\ Forall unit_ok us.
Proof. induction 1 as [u bl Hu|u bl v bf us Hu _ _ _ _ [_ IH]]; (split; [done|]); constructor; auto. Qed.

(** ** Submission *)

Lemma concat_units_nonempty us : us <> [] -> Forall unit_ok us -> concat us <> [].
Proof.
  destruct us as [|u us]; [done|]. intros _ Hf. inversion Hf; subst. simpl.
  pose proof (unit_nonempty u ltac:(done)). by destruct u.
Qed.

Lemma slot_nonempty l us : slot_repr l us -> l <> [].
Proof.
  intros (Hn & Hf & _ & held & -> & _) [_ E]%app_eq_nil. by apply (concat_units_nonempty us).
Qed.

(** The FIFO entry at the head is free exactly when the FIFO is not full. *)
Lemma head_free q ss tl : repr_parts q ss tl ->
  (length ss < 8)%nat <-> fifo_at q (txq_headidx q) = [].
Proof.
  intros [Hl Ht Hf Hh Hs He _ _ _]. rewrite Hh. split.
  - intros Hlt. apply (He (length ss)). lia.
  - intros E. destruct (decide (length ss = 8%nat)) as [E8|]; [|lia]. exfalso.
    destruct ss as [|us ss]; [done|]. apply (slot_nonempty (slot q 0) us); [by apply (Hs 0%nat)|].
    unfold slot. rewrite E8 in E. replace ((txq_tailidx q + Z.of_nat 8) mod 8) with ((txq_tailidx q + 0) mod 8) in E by dlia.
    done.
Qed.

(** Queues that differ in their counters and link only. *)
Lemma repr_parts_counters q ss tl lnk d a p :
  repr_parts q ss tl ->
  repr_parts (Build_ath_txq lnk (axq_q q) d a p (txq_fifo q) (txq_headidx q) (txq_tailidx q)) ss tl.
Proof. intros []. by constructor. Qed.

Lemma place_slot q ss l vs :
  repr_parts q ss [] -> (length ss < 8)%nat -> slot_repr l vs ->
  repr_parts ((set_fifo (txq_headidx q) l q) <| txq_headidx ::= fun i => INCR i 8 |>) (ss ++ [vs]) [].
Proof.
  intros [Hl Ht Hf Hh Hs He Hw Hwo _] Hlt Hr.
  set (q1 := (set_fifo (txq_headidx q) l q) <| txq_headidx ::= fun i => INCR i 8 |>).
  assert (forall j, 0 <= j < 8 -> slot q1 j = if Z.of_nat (length ss) =? j then l else slot q j) as Hsl.
  { intros j Hj. subst q1. rewrite Hh. apply (slot_set q (txq_tailidx q)); (done || lia). }
  constructor.
  - subst q1. unfold set_fifo. destruct q; simpl in *. by rewrite length_insert.
  - done.
  - rewrite length_app. simpl. lia.
  - subst q1. destruct q; simpl in *. rewrite INCR_8 by (subst; apply Z.mod_pos_bound; lia).
    rewrite length_app, Hh. simpl. dlia.
  - intros j us Hj. apply lookup_app_Some in Hj as [Hj|[Hge Hj]].
    + assert (j < length ss)%nat by by eapply lookup_lt_Some.
      rewrite Hsl by lia. destruct (Z.eqb_spec (Z.of_nat (length ss)) (Z.of_nat j)); [lia|]. by apply Hs.
    + apply list_lookup_singleton_Some in Hj as [Hj <-]. rewrite Hsl by lia.
      by replace (Z.of_nat (length ss) =? Z.of_nat j) with true by (symmetry; apply Z.eqb_eq; lia).
  - intros j. rewrite length_app. simpl. intros Hj. rewrite Hsl by lia.
    destruct (Z.eqb_spec (Z.of_nat (length ss)) (Z.of_nat j)); [lia|]. apply He. lia.
  - done.
  - done.
  - done.
Qed.

Lemma place_wait q ss tl vs :
  repr_parts q ss tl -> length ss = 8%nat -> Forall unit_ok vs -> NoDup (ids (axq_q q ++ concat vs)) ->
  repr_parts (q <| axq_q ::= fun l => l ++ concat vs |>) ss (tl ++ vs).
Proof.
  intros [Hl Ht Hf Hh Hs He Hw [Hwo _] _] H8 Hv Hnd. constructor; try done.
  - simpl. by rewrite Hw, concat_app.
  - split; [by apply Forall_app|done].
Qed.

(** The slot made of a submission. *)
Lemma units_slot vs : vs <> [] -> Forall unit_ok vs -> NoDup (ids (concat vs)) -> slot_repr (concat vs) vs.
Proof. intros. split_and!; try done. exists []. split_and!; [done|simpl; lia|done]. Qed.

(** Submitting a chain of units appends them to the queue. *)
Lemma submit_repr tx99 q us vs :
  repr q us -> chain_ok vs -> NoDup (ids (axq_q q ++ concat vs)) ->
  exists q' acts, ath_tx_txqaddbuf true tx99 q (concat vs) false = Ok (q', acts) /\
    repr q' (us ++ (cut <$> vs)).
Proof.
  intros (ss & tl & Hrp & -> & Hd) Hch Hnd. destruct (chain_units _ Hch) as [Hne Hok].
  pose proof (concat_units_nonempty vs Hne Hok) as Hcne.
  assert (Forall unit_ok (cut <$> vs)) as Hok'.
  { apply Forall_fmap. eapply Forall_impl; [exact Hok|]. intros u. apply cut_unit_ok. }
  assert (NoDup (ids (concat vs))) as Hnd1 by (rewrite ids_app in Hnd; by apply NoDup_app in Hnd as (_ & _ & ?)).
  unfold ath_tx_txqaddbuf. destruct (concat vs) as [|bf l] eqn:Ec; [done|].
  destruct (last (bf :: l)) as [bl|] eqn:El; [|by apply last_None in El].
  assert (length vs <= length (bf :: l))%nat as Hlen.
  { rewrite <- Ec. clear -Hok. induction Hok as [|u vs Hu _ IH]; simpl; [lia|].
    pose proof (unit_nonempty u Hu). rewrite length_app. destruct u; [done|simpl; lia]. }
  destruct (count_units_chain vs Hch [] bf (axq_depth q) (axq_ampdu_depth q) (length (bf :: l))) as (a & Ea);
    [by rewrite Ec|by rewrite Ec|done|].
  rewrite app_nil_l, Ec in Ea. rewrite Ea. cbn [obind app].
  assert (u32 (axq_depth q + Z.of_nat (length vs)) = u32 (Z.of_nat (length ((concat ss ++ tl) ++ (cut <$> vs))))) as Hdep.
  { rewrite Hd, u32_add_l, (length_app (concat ss ++ tl)), length_fmap. f_equal. lia. }
  pose proof (head_free q ss tl Hrp) as Hfree. cbn [andb].
  case_bool_decide as Hemp.
  - apply Hfree in Hemp. destruct tl as [|t tl]; [|exfalso; by pose proof (rp_wait_full _ _ _ Hrp ltac:(done)); lia].
    eexists _, _. split; [reflexivity|]. exists (ss ++ [cut <$> vs]), []. split_and!; [|by rewrite concat_app; simpl; rewrite !app_nil_r|exact Hdep].
    apply repr_parts_counters with (q := (set_fifo (txq_headidx q) (concat (cut <$> vs)) q) <| txq_headidx ::= fun i => INCR i 8 |>).
    apply place_slot; [done|done|]. apply units_slot; [by destruct vs|done|]. by rewrite concat_cut_ids, Ec.
  - destruct (decide (length ss = 8%nat)) as [H8|]; [|exfalso; apply Hemp, Hfree; pose proof (rp_full _ _ _ Hrp); lia].
    destruct (axq_link (q <| axq_q ::= fun l0 => l0 ++ concat (cut <$> vs) |>)) eqn:Elink;
      (eexists _, _; split; [reflexivity|]; exists ss, (tl ++ (cut <$> vs)); split_and!; [|by rewrite app_assoc|exact Hdep];
       apply repr_parts_counters with (q := q <| axq_q ::= fun l0 => l0 ++ concat (cut <$> vs) |>);
       apply place_wait; [done|done|done|]; rewrite ids_app, concat_cut_ids, Ec, <- ids_app; done).
Qed.

(** ** Completion *)

Lemma slot_0 q : 0 <= txq_tailidx q < 8 -> slot q 0 = fifo_at q (txq_tailidx q).
Proof. intros. unfold slot. f_equal. dlia. Qed.

(** The FIFO entry at the tail has been taken, the waiting units set aside. *)
Lemma advance_tail q s0 ss tl lnk :
  repr_parts q (s0 :: ss) tl ->
  repr_parts (((set_fifo (txq_tailidx q) [] q) <| txq_tailidx ::= fun i => INCR i 8 |>)
                <| axq_link := lnk |> <| axq_q := [] |>) ss [].
Proof.
  intros [Hl Ht Hf Hh Hs He Hw _ _]. simpl in Hf.
  set (q1 := ((set_fifo _ [] q) <| txq_tailidx ::= _ |>) <| axq_link := lnk |> <| axq_q := [] |>).
  assert (txq_tailidx q1 = (txq_tailidx q + 1) mod 8) as Ht1 by (subst q1; destruct q; simpl in *; by apply INCR_8).
  assert (forall j, 0 <= j < 8 -> slot q1 j = if j =? 7 then [] else slot q (j + 1)) as Hsl.
  { intros j Hj. unfold slot at 1. rewrite Ht1.
    transitivity (fifo_at (set_fifo ((txq_tailidx q + 0) mod 8) [] q) ((txq_tailidx q + (j + 1) mod 8) mod 8)).
    - subst q1. replace ((txq_tailidx q + 0) mod 8) with (txq_tailidx q) by dlia.
      replace (((txq_tailidx q + 1) mod 8 + j) mod 8) with ((txq_tailidx q + (j + 1) mod 8) mod 8) by dlia. done.
    - rewrite (slot_set q (txq_tailidx q)) by (done || dlia).
      destruct (Z.eqb_spec j 7) as [->|]; [done|].
      replace ((j + 1) mod 8) with (j + 1) by dlia. by destruct (Z.eqb_spec 0 (j + 1)); [lia|]. }
  constructor.
  - subst q1. destruct q; simpl in *. by rewrite length_insert.
  - rewrite Ht1. apply Z.mod_pos_bound. lia.
  - lia.
  - rewrite Ht1. subst q1. destruct q; simpl in *. rewrite Hh. dlia.
  - intros j us Hj. assert (j < length ss)%nat by by eapply lookup_lt_Some. rewrite Hsl by lia.
    destruct (Z.eqb_spec (Z.of_nat j) 7); [lia|]. replace (Z.of_nat j + 1) with (Z.of_nat (S j)) by lia. by apply Hs.
  - intros j Hj. rewrite Hsl by lia. destruct (Z.eqb_spec (Z.of_nat j) 7); [done|].
    replace (Z.of_nat j + 1) with (Z.of_nat (S j)) by lia. apply He. simpl. lia.
  - done.
  - split; [done|]. constructor.
  - done.
Qed.

(** The entry at the tail keeps a holding descriptor and its other units. *)
Lemma hold_last q s0 ss tl l s0' :
  repr_parts q (s0 :: ss) tl -> slot_repr l s0' ->
  repr_parts (set_fifo (txq_tailidx q) l q) (s0' :: ss) tl.
Proof.
  intros [Hl Ht Hf Hh Hs He Hw Hwo Hwf] Hr.
  assert (forall j, 0 <= j < 8 -> slot (set_fifo (txq_tailidx q) l q) j = if 0 =? j then l else slot q j) as Hsl.
  { intros j Hj. rewrite <- (slot_set q (txq_tailidx q)) by (done || lia).
    replace ((txq_tailidx q + 0) mod 8) with (txq_tailidx q) by dlia. done. }
  constructor; try done.
  - by rewrite set_fifo_len.
  - intros j us Hj. assert (j < length (s0' :: ss))%nat as Hlt by by eapply lookup_lt_Some.
    cbn [length] in Hlt, Hf. rewrite Hsl by lia. destruct j as [|j]; [by injection Hj as <-|].
    destruct (Z.eqb_spec 0 (Z.of_nat (S j))); [lia|]. by apply Hs.
  - intros j Hj. cbn [length] in Hj. rewrite Hsl by lia.
    destruct (Z.eqb_spec 0 (Z.of_nat j)); [lia|]. by apply He.
Qed.

Lemma process_counts_parts q bf ss tl :
  repr_parts q ss tl -> repr_parts (process_buffer_counts q bf) ss tl.
Proof.
  intros []. unfold process_buffer_counts. by destruct (bf_ampdu bf); constructor.
Qed.

Lemma process_counts_depth q bf : axq_depth (process_buffer_counts q bf) = u32 (axq_depth q - 1).
Proof. unfold process_buffer_counts. by destruct q, (bf_ampdu bf). Qed.

Lemma edma_complete_empty tx99 q : repr q [] -> edma_complete tx99 q = Ok None.
Proof.
  intros (ss & tl & Hrp & E & _). symmetry in E. apply app_eq_nil in E as [Ess Etl].
  destruct ss as [|s0 ss].
  - unfold edma_complete. rewrite <- slot_0 by apply Hrp. change 0 with (Z.of_nat 0).
    by rewrite (rp_empty _ _ _ Hrp 0%nat) by (simpl; lia).
  - exfalso. destruct (rp_slots _ _ _ Hrp 0%nat s0 eq_refl) as (Hn & _). simpl in Ess. by apply app_eq_nil in Ess as [-> _].
Qed.

Lemma unit_head_cons u : unit_ok u -> exists bf r bl,
  u = bf :: r /\ last u = Some bl /\ bf_lastbf bf = bf_id bl /\ bf_stale bf = false.
Proof.
  intros (bf & bl & Hh & Hl & Hid & Hst). destruct u as [|x r]; [done|]. injection Hh as <-.
  inversion Hst; subst. by exists x, r, bl.
Qed.

(** What remains of the tail entry after its holding descriptor is dropped. *)
Lemma tail_entry q s0 ss tl u us :
  repr_parts q (s0 :: ss) tl -> concat (s0 :: ss) ++ tl = u :: us ->
  exists s0' held, s0 = u :: s0' /\ us = s0' ++ concat ss ++ tl /\
    fifo_at q (txq_tailidx q) = held ++ concat s0 /\ unit_ok u /\ Forall unit_ok s0' /\
    NoDup (ids (held ++ concat s0)) /\ Forall (fun b => bf_stale b = true) held /\ (length held <= 1)%nat.
Proof.
  intros Hrp E. destruct (rp_slots _ _ _ Hrp 0%nat s0 eq_refl) as (Hn & Hf & Hnd & held & Hsl & Hlen & Hst).
  change (Z.of_nat 0) with 0 in *. rewrite slot_0 in Hsl, Hnd by apply Hrp.
  destruct s0 as [|u0 s0']; [done|]. simpl in E. injection E as -> <-.
  inversion Hf; subst. exists s0', held. rewrite Hsl in Hnd. split_and!; try done. by rewrite app_assoc.
Qed.

(** [edma_complete] once the buffers of the tail entry are known. *)
Lemma edma_complete_eq tx99 q held bf r fl final :
  fifo_at q (txq_tailidx q) = held ++ fl -> fl = bf :: r -> last fl = Some final ->
  Forall (fun b => bf_stale b = true) held -> (length held <= 1)%nat -> bf_stale bf = false ->
  edma_complete tx99 q =
    if bf_id final =? bf_lastbf bf then
      let txq := (set_fifo (txq_tailidx q) [] q) <| txq_tailidx ::= fun i => INCR i ATH_TXFIFO_DEPTH |> in
      obind (match axq_q q with
             | [] => Ok (txq, [])
             | bf_q => ath_tx_txqaddbuf true tx99 (txq <| axq_link := None |> <| axq_q := [] |>) bf_q true
             end)
        (fun '(txq, acts) =>
           Ok (Some ({| c_held := held; c_bf := bf; c_head := fl |}, process_buffer_counts txq bf, acts)))
    else
      match split_at (bf_lastbf bf) fl with
      | None => Oops
      | Some (pre, lastbf, post) =>
          Ok (Some ({| c_held := held; c_bf := bf; c_head := pre |},
                    process_buffer_counts (set_fifo (txq_tailidx q) ((lastbf <| bf_stale := true |>) :: post) q) bf, []))
      end.
Proof.
  intros Hat -> Hlast Hst Hlen Hbf. unfold edma_complete. rewrite Hat.
  destruct held as [|h [|]]; [| |simpl in Hlen; lia].
  - cbn [app]. rewrite Hbf, Hlast. done.
  - inversion Hst as [|? ? Hh]; subst. cbn [app]. rewrite Hh, Hlast. done.
Qed.

(** Moving the waiting units into the freed FIFO entry. *)
Lemma refill_repr tx99 q s0 ss tl :
  repr_parts q (s0 :: ss) tl ->
  let txq := (set_fifo (txq_tailidx q) [] q) <| txq_tailidx ::= fun i => INCR i ATH_TXFIFO_DEPTH |> in
  exists q' acts ss',
    match axq_q q with
    | [] => Ok (txq, [])
    | bf_q => ath_tx_txqaddbuf true tx99 (txq <| axq_link := None |> <| axq_q := [] |>) bf_q true
    end = Ok (q', acts) /\
    repr_parts q' ss' [] /\ concat ss' = concat ss ++ tl /\ axq_depth q' = axq_depth q.
Proof.
  intros Hrp txq. pose proof (rp_wait _ _ _ Hrp) as Hw. destruct (rp_wait_ok _ _ _ Hrp) as [Hwo Hwnd].
  pose proof (advance_tail q s0 ss tl (axq_link q) Hrp) as Hadv.
  destruct tl as [|t tl].
  - simpl in Hw. rewrite Hw. exists txq, [], ss. split_and!; [done| |by rewrite app_nil_r|done].
    subst txq. destruct q; simpl in *. subst. exact Hadv.
  - pose proof (concat_units_nonempty (t :: tl) ltac:(done) Hwo) as Hne. rewrite <- Hw in Hne.
    destruct (axq_q q) as [|bf l] eqn:Eq; [done|].
    pose proof (advance_tail q s0 ss (t :: tl) None Hrp) as Hadv'. fold txq in Hadv'.
    set (q1 := txq <| axq_link := None |> <| axq_q := [] |>) in *.
    assert (length ss < 8)%nat as Hlt by (pose proof (rp_full _ _ _ Hrp) as Hx; simpl in Hx; lia).
    pose proof (proj1 (head_free q1 ss [] Hadv') Hlt) as Hfree.
    unfold ath_tx_txqaddbuf. destruct (last (bf :: l)) as [bl|] eqn:El; [|by apply last_None in El].
    cbn [obind andb]. rewrite bool_decide_eq_true_2 by exact Hfree.
    eexists _, _, (ss ++ [t :: tl]). split; [reflexivity|]. split_and!; [| |done].
    + apply repr_parts_counters with (q := (set_fifo (txq_headidx q1) (bf :: l) q1) <| txq_headidx ::= fun i => INCR i 8 |>).
      apply place_slot; [done|done|]. rewrite Hw. apply units_slot; [done|done|]. by rewrite <- Hw.
    + rewrite concat_app. simpl. by rewrite !app_nil_r.
Qed.

(** Completing takes the oldest unit off the queue. *)
Lemma complete_repr tx99 q u us :
  repr q (u :: us) ->
  exists c q' acts, edma_complete tx99 q = Ok (Some (c, q', acts)) /\ repr q' us /\
    head u = Some (c_bf c) /\ (c_head c = u \/ c_head c = removelast u).
Proof.
  intros (ss & tl & Hrp & E & Hd).
  assert (forall n : nat, u32 (u32 (Z.of_nat (S n)) - 1) = u32 (Z.of_nat n)) as Hdec.
  { intros n. rewrite u32_sub_l. f_equal. lia. }
  destruct ss as [|s0 ss].
  { exfalso. simpl in E. subst tl. by pose proof (rp_wait_full _ _ _ Hrp ltac:(done)). }
  destruct (tail_entry q s0 ss tl u us Hrp (eq_sym E)) as (s0' & held & -> & -> & Hat & Hu & Hus & Hnd & Hst & Hhl).
  destruct (unit_head_cons u Hu) as (bf & r & bl & Hur & Hl & Hid & Hns).
  assert (NoDup (ids (concat (u :: s0')))) as Hnd1 by (rewrite ids_app in Hnd; by apply NoDup_app in Hnd as (_ & _ & ?)).
  assert (head (concat (u :: s0')) = Some bf) as Hhd by by rewrite Hur.
  destruct (last (concat (u :: s0'))) as [final|] eqn:Ef; [|by apply last_None in Ef; rewrite Ef in Hhd].
  assert (exists r', concat (u :: s0') = bf :: r') as (r' & Hr') by (rewrite Hur; simpl; eauto).
  rewrite (edma_complete_eq tx99 q held bf r' (concat (u :: s0')) final Hat Hr' Ef Hst Hhl Hns). rewrite Hid.
  destruct s0' as [|v s0'].
  - simpl concat in Ef |- *. rewrite app_nil_r in Ef |- *. rewrite Hl in Ef. injection Ef as <-.
    rewrite Z.eqb_refl. cbv zeta.
    destruct (refill_repr tx99 q [u] ss tl Hrp) as (q1 & acts & ss' & Eq & Hrp1 & Hss & Hd1). rewrite Eq.
    cbn [obind]. eexists _, _, _. split; [reflexivity|]. split_and!; [|by rewrite Hur|by left].
    exists ss', []. split_and!; [by apply process_counts_parts|by rewrite app_nil_r|].
    rewrite process_counts_depth, Hd1, Hd. simpl length. apply Hdec.
  - assert ((bf_id final =? bf_id bl) = false) as ->.
    { apply Z.eqb_neq. intros Heq. cbn [concat] in Ef, Hnd1. rewrite ids_app in Hnd1.
      apply NoDup_app in Hnd1 as (_ & Hdis & _). apply (Hdis (bf_id bl)).
      - apply list_elem_of_fmap. exists bl. split; [done|]. by apply last_Some_elem_of.
      - rewrite last_app in Ef. destruct (last (v ++ concat s0')) as [x|] eqn:Ex.
        + injection Ef as ->. rewrite <- Heq. apply list_elem_of_fmap. exists final. split; [done|]. by apply last_Some_elem_of.
        + apply last_None, app_eq_nil in Ex as [-> _]. inversion Hus as [|? ? Hv]; subst. by apply unit_nonempty in Hv. }
    cbn [concat] in *. destruct (unit_last_found [] (v ++ concat s0') u bf bl) as [_ Hsp];
      [by rewrite Hur|done|done|done|]. rewrite app_nil_l, Hid in Hsp. rewrite Hsp.
    eexists _, _, _. split; [reflexivity|]. split_and!; [|by rewrite Hur|by right].
    exists ((v :: s0') :: ss), tl. split_and!.
    + apply process_counts_parts. eapply hold_last; [exact Hrp|]. split_and!; [done|done| |].
      * rewrite (last_removelast _ _ Hl), <- app_assoc, ids_app in Hnd1. apply NoDup_app in Hnd1 as (_ & _ & Hx). exact Hx.
      * exists [bl <| bf_stale := true |>]. split_and!; [done|simpl; lia|]. by repeat constructor.
    + simpl. by rewrite <- !app_assoc.
    + rewrite process_counts_depth. simpl axq_depth at 1. rewrite Hd. simpl length. apply Hdec.
Qed.

(** * Draining *)

(** [ath_drain_txq_list]: stale buffers go back to the free list, the units
    are completed; every round removes a buffer, so their number bounds the
    rounds. *)
Fixpoint ath_drain_txq_list (fuel : nat) (txq : ath_txq) (l : list ath_buf)
  : outcome (ath_txq * list completion) :=
  match l, fuel with
  | [], _ => Ok (txq, [])
  | _, O => Oops
  | bf :: l', S fuel =>
      if bf_stale bf then ath_drain_txq_list fuel txq l'
      else
        match split_at (bf_lastbf bf) l with
        | None => Oops
        | Some (pre, lastbf, post) =>
            obind (ath_drain_txq_list fuel (process_buffer_counts txq bf) post) (fun '(txq, cs) =>
              Ok (txq, {| c_held := []; c_bf := bf; c_head := pre ++ [lastbf] |} :: cs))
        end
  end.

(** The loop over the FIFO entries; at most eight of them are occupied, and a
    drained one is empty. *)
Fixpoint drain_fifo (fuel : nat) (idx : Z) (txq : ath_txq) : outcome (Z * ath_txq * list completion) :=
  match fifo_at txq idx with
  | [] => Ok (idx, txq, [])
  | l =>
      match fuel with
      | O => Oops
      | S fuel =>
          obind (ath_drain_txq_list (length l) txq l) (fun '(txq, cs) =>
          obind (drain_fifo fuel (INCR idx ATH_TXFIFO_DEPTH) (set_fifo idx [] txq)) (fun '(idx, txq, cs') =>
          Ok (idx, txq, cs ++ cs')))
      end
  end.

Definition ath_draintxq (edma : bool) (txq : ath_txq) : outcome (ath_txq * list completion) :=
  obind (if edma then
           obind (drain_fifo (Z.to_nat ATH_TXFIFO_DEPTH) (txq_tailidx txq) txq) (fun '(idx, txq, cs) =>
             Ok (txq <| txq_tailidx := idx |>, cs))
         else Ok (txq, [])) (fun '(txq, cs) =>
  let txq := txq <| axq_link := None |> in
  let txq := txq <| axq_tx_inprogress := false |> in
  let l := axq_q txq in
  obind (ath_drain_txq_list (length l) txq l) (fun '(txq, cs') =>
  Ok (txq <| axq_q := [] |>, cs ++ cs'))).

(** The identity of the units by their first buffers. *)
Definition firsts (us : list (list ath_buf)) : list Z := omap (fun u => bf_id <$> head u) us.

Definition completed (cs : list completion) : list Z := (fun c => bf_id (c_bf c)) <$> cs.

(** [process_buffer_counts] and the drain of a list change the counters only. *)
Record same_lists (q q' : ath_txq) : Prop := {
  sl_q : axq_q q' = axq_q q; sl_fifo : txq_fifo q' = txq_fifo q;
  sl_head : txq_headidx q' = txq_headidx q; sl_tail : txq_tailidx q' = txq_tailidx q;
}.

Lemma same_lists_counts q bf : same_lists q (process_buffer_counts q bf).
Proof. unfold process_buffer_counts. by destruct q, (bf_ampdu bf). Qed.

Lemma same_lists_trans q1 q2 q3 : same_lists q1 q2 -> same_lists q2 q3 -> same_lists q1 q3.
Proof. intros [] []. constructor; congruence. Qed.

Lemma firsts_cons u us bf : head u = Some bf -> firsts (u :: us) = bf_id bf :: firsts us.
Proof. intros E. unfold firsts. cbn [omap list_omap]. by rewrite E. Qed.

(** A slot, or the waiting list, is drained unit by unit. *)
Lemma drain_list_spec us : forall held fuel q,
  Forall unit_ok us -> Forall (fun b => bf_stale b = true) held -> NoDup (ids (held ++ concat us)) ->
  (length (held ++ concat us) <= fuel)%nat ->
  exists q' cs, ath_drain_txq_list fuel q (held ++ concat us) = Ok (q', cs) /\ completed cs = firsts us /\
    concat (c_head <$> cs) = concat us /\
    same_lists q q' /\ (forall x, axq_depth q = u32 x -> axq_depth q' = u32 (x - Z.of_nat (length us))).
Proof.
  assert (forall us,
    (forall fuel q, Forall unit_ok us -> NoDup (ids (concat us)) -> (length (concat us) <= fuel)%nat ->
      exists q' cs, ath_drain_txq_list fuel q (concat us) = Ok (q', cs) /\ completed cs = firsts us /\
        concat (c_head <$> cs) = concat us /\
        same_lists q q' /\ (forall x, axq_depth q = u32 x -> axq_depth q' = u32 (x - Z.of_nat (length us))))) as Hbase.
  { clear us. induction us as [|u us IH]; intros fuel q Hok Hnd Hf.
    { exists q, []. destruct fuel; (split_and!; [done..|by constructor|]); intros x ->; f_equal; simpl; lia. }
    inversion Hok as [|? ? Hu Hus]; subst. destruct (unit_head_cons u Hu) as (bf & r & bl & Hur & Hl & Hid & Hns).
    cbn [concat] in *. destruct (unit_last_found [] (concat us) u bf bl) as [_ Hsp]; [by rewrite Hur|done|done|done|].
    rewrite !app_nil_l in Hsp. destruct fuel as [|fuel]; [rewrite Hur in Hf; simpl in Hf; lia|].
    assert (concat us = drop (length u) (u ++ concat us)) as Hdrop by by rewrite drop_app_length.
    destruct (IH fuel (process_buffer_counts q bf)) as (q' & cs & E & Hc & Hhd & Hsl & Hd); [done| | |].
    { rewrite ids_app in Hnd. by apply NoDup_app in Hnd as (_ & _ & ?). }
    { rewrite length_app, Hur in Hf. simpl in Hf. lia. }
    exists q', ({| c_held := []; c_bf := bf; c_head := removelast u ++ [bl] |} :: cs).
    assert (ath_drain_txq_list (S fuel) q (u ++ concat us) =
      obind (ath_drain_txq_list fuel (process_buffer_counts q bf) (concat us)) (fun '(txq, cs) =>
        Ok (txq, {| c_held := []; c_bf := bf; c_head := removelast u ++ [bl] |} :: cs))) as ->.
    { rewrite Hur. cbn [app ath_drain_txq_list]. rewrite Hns. rewrite Hur in Hsp. cbn [app] in Hsp. by rewrite Hsp. }
    rewrite E. cbn [obind]. split_and!; [done| | | |].
    - rewrite (firsts_cons u us bf) by by rewrite Hur. unfold completed in *. by rewrite fmap_cons, Hc.
    - rewrite fmap_cons. cbn [concat c_head]. by rewrite Hhd, <- (last_removelast _ _ Hl).
    - eapply same_lists_trans; [apply same_lists_counts|done].
    - intros x Hx. rewrite (Hd (x - 1)); [f_equal; simpl length; lia|]. by rewrite process_counts_depth, Hx, u32_sub_l. }
  intros held. induction held as [|h held IH]; intros fuel q Hok Hst Hnd Hf; [by apply Hbase|].
  inversion Hst; subst. simpl in Hf. destruct fuel as [|fuel]; [lia|]. cbn [app ath_drain_txq_list].
  change (NoDup (bf_id h :: ids (held ++ concat us))) in Hnd. apply NoDup_cons in Hnd as [_ Hnd].
  rewrite H1. apply IH; try done. lia.
Qed.

Lemma repr_parts_ext q q' ss tl : same_lists q q' -> repr_parts q ss tl -> repr_parts q' ss tl.
Proof.
  intros [E1 E2 E3 E4] []. constructor; rewrite ?E1, ?E2, ?E3, ?E4; try done;
    intros; unfold slot, fifo_at in *; rewrite E2, E4; eauto.
Qed.

(** The queue seen from FIFO entry [idx] on, without its waiting units. *)
Definition from_idx (idx : Z) (q : ath_txq) : ath_txq := (q <| txq_tailidx := idx |>) <| axq_q := [] |>.

Lemma firsts_app us vs : firsts (us ++ vs) = firsts us ++ firsts vs.
Proof. apply omap_app. Qed.

Lemma drain_fifo_spec ss : forall fuel idx q,
  repr_parts (from_idx idx q) ss [] -> (length ss <= fuel)%nat ->
  exists idx' q' cs, drain_fifo fuel idx q = Ok (idx', q', cs) /\ completed cs = firsts (concat ss) /\
    repr_parts (from_idx idx' q') [] [] /\ axq_q q' = axq_q q /\
    (forall x, axq_depth q = u32 x -> axq_depth q' = u32 (x - Z.of_nat (length (concat ss)))).
Proof.
  induction ss as [|s0 ss IH]; intros fuel idx q Hrp Hf.
  - exists idx, q, []. assert (fifo_at q idx = []) as E.
    { pose proof (rp_empty _ _ _ Hrp 0%nat ltac:(simpl; lia)) as E. change (Z.of_nat 0) with 0 in E.
      by rewrite slot_0 in E by apply Hrp. }
    split_and!; [|done|done|done|intros x ->; f_equal; simpl; lia]. destruct fuel; cbn [drain_fifo]; by rewrite E.
  - destruct fuel as [|fuel]; [simpl in Hf; lia|].
    pose proof (rp_slots _ _ _ Hrp 0%nat s0 eq_refl) as Hs. change (Z.of_nat 0) with 0 in Hs.
    rewrite slot_0 in Hs by apply Hrp. change (fifo_at (from_idx idx q) _) with (fifo_at q idx) in Hs.
    pose proof (slot_nonempty _ _ Hs) as Hne. destruct Hs as (_ & Hok & Hnd & held & Hl & _ & Hst).
    destruct (drain_list_spec s0 held (length (fifo_at q idx)) q Hok Hst) as (q0 & cs & E & Hc & _ & Hsl & Hd);
      [by rewrite <- Hl|by rewrite Hl|]. rewrite <- Hl in E.
    destruct (IH fuel (INCR idx 8) (set_fifo idx [] q0)) as (idx' & q' & cs' & E' & Hc' & Hrp' & Hq' & Hd').
    { eapply repr_parts_ext; [|exact (advance_tail _ _ _ _ None Hrp)].
      destruct Hsl as [? Hfi Hhi ?]. unfold from_idx, set_fifo. destruct q, q0; simpl in *. subst. by constructor. }
    { simpl in Hf. lia. }
    exists idx', q', (cs ++ cs'). split_and!.
    + cbn [drain_fifo]. destruct (fifo_at q idx) as [|b l]; [done|]. rewrite E. cbn [obind].
      unfold ATH_TXFIFO_DEPTH. rewrite E'. done.
    + unfold completed in *. cbn [concat]. by rewrite fmap_app, Hc, Hc', firsts_app.
    + done.
    + rewrite Hq'. apply Hsl.
    + intros x Hx. rewrite (Hd' (x - Z.of_nat (length s0))) by (by apply Hd).
      cbn [concat]. rewrite length_app. f_equal. lia.
Qed.

(** Draining completes every unit, in order, and leaves an empty queue. *)
Lemma drain_repr q us :
  repr q us -> exists q' cs, ath_draintxq true q = Ok (q', cs) /\ completed cs = firsts us /\ repr q' [].
Proof.
  intros (ss & tl & Hrp & -> & Hd). unfold ath_draintxq.
  assert (repr_parts (from_idx (txq_tailidx q) q) ss []) as Hrp0.
  { destruct Hrp as [? ? ? ? ? ? ? ? ?]. constructor; try done. split; [done|]. constructor. }
  destruct (drain_fifo_spec ss 8 (txq_tailidx q) q Hrp0) as (idx & q1 & cs & E & Hc & Hrp1 & Hq1 & Hd1);
    [apply Hrp|]. change (Z.to_nat ATH_TXFIFO_DEPTH) with 8%nat. rewrite E. cbn [obind].
  match goal with |- context [ath_drain_txq_list _ ?x _] => set (q2 := x) end.
  assert (axq_q q2 = concat tl) as -> by (rewrite <- (rp_wait _ _ _ Hrp), <- Hq1; done).
  destruct (rp_wait_ok _ _ _ Hrp) as [Hwo Hwnd]. rewrite (rp_wait _ _ _ Hrp) in Hwnd.
  destruct (drain_list_spec tl [] (length (concat tl)) q2 Hwo) as (q3 & cs' & E3 & Hc3 & _ & Hsl & Hd3); [done|done|done|].
  rewrite app_nil_l in E3. rewrite E3. cbn [obind]. eexists _, _. split; [reflexivity|]. split.
  { unfold completed in *. by rewrite fmap_app, Hc, Hc3, firsts_app. }
  exists [], []. split_and!; [|done|].
  - eapply repr_parts_ext; [|exact Hrp1]. destruct Hsl as [? Hfi Hhi Hti]. unfold from_idx.
    destruct q1, q3; simpl in *. subst. by constructor.
  - change (axq_depth q3 = u32 0). rewrite (Hd3 (Z.of_nat (length (concat ss ++ tl)) - Z.of_nat (length (concat ss)))).
    + f_equal. rewrite length_app. lia.
    + change (axq_depth q2) with (axq_depth q1). by apply Hd1.
Qed.

(** * Theorems: the life of a queue *)

(** [txq_run submitted done q]: from the set-up on, the units [submitted] were
    submitted and those starting with the buffers [done] were completed or
    flushed, in some interleaving; [q] is the queue now. The buffers of a
    submission are not among those still waiting. *)
Inductive txq_run : list (list ath_buf) -> list Z -> ath_txq -> Prop :=
| run_setup : txq_run [] [] txq_init
| run_submit s d q tx99 vs q' acts :
    txq_run s d q -> chain_ok vs -> NoDup (ids (axq_q q ++ concat vs)) ->
    ath_tx_txqaddbuf true tx99 q (concat vs) false = Ok (q', acts) -> txq_run (s ++ vs) d q'
| run_complete s d q tx99 c q' acts :
    txq_run s d q -> edma_complete tx99 q = Ok (Some (c, q', acts)) ->
    txq_run s (d ++ [bf_id (c_bf c)]) q'
| run_drain s d q q' cs :
    txq_run s d q -> ath_draintxq true q = Ok (q', cs) -> txq_run s (d ++ completed cs) q'.

Lemma init_repr : repr txq_init [].
Proof.
  exists [], []. split_and!; [|done|done].
  assert (forall j : nat, (j < 8)%nat -> slot txq_init (Z.of_nat j) = []) as He.
  { intros j Hj. do 8 (destruct j as [|j]; [done|]). lia. }
  constructor; try done.
  - simpl. lia.
  - intros j Hj. apply He. lia.
  - split; [done|constructor].
Qed.

Lemma firsts_cut us : Forall unit_ok us -> firsts (cut <$> us) = firsts us.
Proof.
  induction 1 as [|u us Hu _ IH]; [done|].
  assert (bf_id <$> head (cut u) = bf_id <$> head u) as Hc.
  { pose proof (cut_ids u) as Hi. unfold ids in Hi. destruct (cut u), u; simpl in *; congruence. }
  rewrite fmap_cons. unfold firsts in *. cbn [omap list_omap]. rewrite Hc, IH. done.
Qed.

Lemma run_repr s d q : txq_run s d q -> exists us, repr q us /\ firsts s = d ++ firsts us.
Proof.
  induction 1 as [|s d q tx99 vs q' acts _ (us & Hr & Hs) Hch Hnd E|s d q tx99 c q' acts _ (us & Hr & Hs) E
                 |s d q q' cs _ (us & Hr & Hs) E].
  - exists []. split; [apply init_repr|done].
  - destruct (submit_repr tx99 q us vs Hr Hch Hnd) as (q1 & a1 & E1 & Hr1). rewrite E in E1. injection E1 as <- <-.
    exists (us ++ (cut <$> vs)). split; [done|].
    destruct (chain_units _ Hch) as [_ Hok]. by rewrite !firsts_app, Hs, (firsts_cut vs Hok), app_assoc.
  - destruct us as [|u us]; [by rewrite (edma_complete_empty tx99 q Hr) in E|].
    destruct (complete_repr tx99 q u us Hr) as (c1 & q1 & a1 & E1 & Hr1 & Hh & _).
    rewrite E in E1. injection E1 as <- <- <-. exists us. split; [done|].
    by rewrite Hs, (firsts_cons _ _ _ Hh), <- app_assoc.
  - destruct (drain_repr q us Hr) as (q1 & cs1 & E1 & Hc & Hr1). rewrite E in E1. injection E1 as <- <-.
    exists []. split; [done|]. by rewrite Hs, Hc, app_nil_r.
Qed.

(** C6. A transmit queue is a FIFO of units: after any interleaving of
    submissions, completions and drains, the units completed so far followed
    by those still represented in the queue are the submitted units, in the
    order of submission (none lost, none duplicated, none reordered), and
    [axq_depth] is the number of units in the queue. *)
Theorem txq_is_fifo s d q :
  txq_run s d q ->
  exists us, repr q us /\ firsts s = d ++ firsts us /\ axq_depth q = u32 (Z.of_nat (length us)).
Proof.
  intros Hr. destruct (run_repr s d q Hr) as (us & Hrep & Hs). exists us. split_and!; [done|done|].
  by destruct Hrep as (ss & tl & _ & _ & ?).
Qed.

(** The operations never fail on a queue in use: a submission of fresh
    buffers, a completion and a drain all return, without following a dangling
    buffer pointer, and a completion finds a unit exactly when the queue is
    not empty. *)
Theorem txq_ops_return s d q tx99 vs :
  txq_run s d q -> chain_ok vs -> NoDup (ids (axq_q q ++ concat vs)) ->
  (exists q' acts, ath_tx_txqaddbuf true tx99 q (concat vs) false = Ok (q', acts)) /\
  (exists q' cs, ath_draintxq true q = Ok (q', cs)) /\
  ((length d < length (firsts s))%nat -> exists c q' acts, edma_complete tx99 q = Ok (Some (c, q', acts))) /\
  (firsts s = d -> edma_complete tx99 q = Ok None).
Proof.
  intros Hr Hch Hnd. destruct (run_repr s d q Hr) as (us & Hrep & Hs).
  assert (Forall unit_ok us) as Hok.
  { destruct Hrep as (ss & tl & Hrp & -> & _). apply Forall_app. split; [|apply Hrp].
    apply Forall_concat, Forall_lookup. intros j us Hj. apply (rp_slots _ _ _ Hrp j us Hj). }
  split_and!.
  - destruct (submit_repr tx99 q us vs Hrep Hch Hnd) as (q1 & a1 & E1 & _). by eauto.
  - destruct (drain_repr q us Hrep) as (q1 & cs1 & E1 & _). by eauto.
  - intros Hlt. destruct us as [|u us]; [rewrite Hs, length_app in Hlt; simpl in Hlt; lia|].
    destruct (complete_repr tx99 q u us Hrep) as (c1 & q1 & a1 & E1 & _). by eauto.
  - intros Hd. destruct us as [|u us]; [by apply edma_complete_empty|]. exfalso.
    apply Forall_cons in Hok as [Hu _]. destruct (unit_head_cons u Hu) as (bf & r & _ & Hur & _).
    rewrite Hs, (firsts_cons u us bf) in Hd by by rewrite Hur.
    apply (f_equal length) in Hd. rewrite length_app in Hd. simpl in Hd. lia.
Qed.

(** * The tasklet *)

Record edma_state := {
  es_ring : list ar9003_txs;
  es_ts : ath_tx_status;          (* the local variable [ts] *)
  es_txq : list ath_txq;          (* sc->tx.txq *)
  beacon_tx_processed : bool;
  beacon_tx_last : bool;
  es_log : list (Z * Z);          (* completions: queue, first buffer *)
}.
#[export] Instance eta_edma_state : Eta edma_state := fun r =>
  Build_edma_state (es_ring r) (es_ts r) (es_txq r) (beacon_tx_processed r) (beacon_tx_last r) (es_log r).

Section Tasklet.
(** [beaconq]: sc->beacon.beaconq. [process]: what the rest of
    [ath_tx_process_buffer] (delivery of the frames and [ath_txq_schedule],
    which may submit further units) does to the queues. *)
Context (tx99 : bool) (beaconq : Z) (process : completion -> ath_tx_status -> list ath_txq -> list ath_txq).

(** The [while] loop; [None]: not finished within the fuel. *)
Fixpoint edma_loop (fuel : nat) (curr_pos hw_pos size : Z) (s : edma_state)
  : option (outcome edma_state) :=
  if curr_pos =? hw_pos then Some (Ok s)
  else
    match fuel with
    | O => None
    | S fuel =>
        match ar9003_hw_proc_txdesc (es_ring s) curr_pos (es_ts s) with
        | Oops => Some Oops
        | Ok (status, ts, ring, _) =>
            let s := (s <| es_ring := ring |>) <| es_ts := ts |> in
            let curr_pos := u32 (curr_pos + 1) mod size in
            if bool_decide (status = EINPROGRESS) then edma_loop fuel curr_pos hw_pos size s
            else if qid ts =? beaconq then
              let s := s <| beacon_tx_processed := true |> in
              let s := s <| beacon_tx_last := negb (has (ts_status ts) ATH9K_TXERR_MASK) |> in
              edma_loop fuel curr_pos hw_pos size s
            else
              match es_txq s !! Z.to_nat (qid ts) with
              | None => Some Oops
              | Some txq =>
                  match edma_complete tx99 txq with
                  | Oops => Some Oops
                  | Ok None => Some (Ok s)
                  | Ok (Some (c, txq, _)) =>
                      let s := s <| es_log ::= fun l => l ++ [(qid ts, bf_id (c_bf c))] |> in
                      let s := s <| es_txq ::= fun qs => process c ts (<[Z.to_nat (qid ts) := txq]> qs) |> in
                      edma_loop fuel curr_pos hw_pos size s
                  end
              end
        end
    end.

(** [reg] is the value of register 0x0838, the hardware's position in the
    status ring as an address. *)
Definition ath_tx_edma_tasklet (fuel : nat) (hw_reset : bool) (reg paddr_start size : Z) (s : edma_state)
  : option (outcome edma_state) :=
  if hw_reset then Some (Ok s)
  else
    let hw_pos := u32 (reg - paddr_start) / 0x24 in
    let curr_pos := u32 (hw_pos - 7) mod size in
    edma_loop fuel curr_pos hw_pos size s.

(** ** Positions *)

Lemma next_pos_dist curr hw size :
  0 < size <= 65535 -> 0 <= curr < size -> 0 <= hw < size -> curr <> hw ->
  let curr' := u32 (curr + 1) mod size in
  0 <= curr' < size /\ (hw - curr') mod size = (hw - curr) mod size - 1 /\ 1 <= (hw - curr) mod size.
Proof.
  intros Hs Hc Hh Hne. cbv zeta. rewrite u32_id by (unfold in_u32; lia).
  assert (1 <= (hw - curr) mod size) as H1.
  { pose proof (Z.mod_pos_bound (hw - curr) size ltac:(lia)).
    assert ((hw - curr) mod size <> 0); [|lia]. intros E. apply Z.mod_divide in E as [k E]; [|lia].
    assert (k = 0 \/ 1 <= k \/ k <= -1) as Hk by lia. destruct_or! Hk; nia. }
  split_and!; [apply Z.mod_pos_bound; lia|apply Z.mod_pos_bound; lia| |done].
  rewrite Zminus_mod_idemp_r. replace (hw - (curr + 1)) with (hw - curr - 1) by lia.
  rewrite <- (Zminus_mod_idemp_l (hw - curr) 1). rewrite Z.mod_small; [done|].
  pose proof (Z.mod_pos_bound (hw - curr) size ltac:(lia)). lia.
Qed.

(** Started 7 positions behind the hardware. *)
Lemma start_dist hw size :
  7 < size <= 65535 -> 4294967296 mod size = 0 -> 0 <= hw < size ->
  let curr := u32 (hw - 7) mod size in 0 <= curr < size /\ (hw - curr) mod size = 7.
Proof.
  intros Hs Hp Hh. cbv zeta. split; [apply Z.mod_pos_bound; lia|].
  apply Z.mod_divide in Hp as [k Hk]; [|lia].
  assert (u32 (hw - 7) mod size = (hw - 7) mod size) as ->.
  { unfold u32. apply Z.mod_mod_divide. by exists k. }
  rewrite Zminus_mod_idemp_r. replace (hw - (hw - 7)) with 7 by lia. apply Z.mod_small. lia.
Qed.

(** Within the distance to the hardware's position the loop comes to an end,
    and it does not touch the entries outside that distance. *)
Lemma edma_loop_spec : forall fuel curr hw size s,
  0 < size <= 65535 -> 0 <= curr < size -> 0 <= hw < size -> (hw - curr) mod size <= Z.of_nat fuel ->
  exists r, edma_loop fuel curr hw size s = Some r /\
    forall s', r = Ok s' -> forall p, 0 <= p < size ->
      ((hw - p) mod size = 0 \/ (hw - curr) mod size < (hw - p) mod size) ->
      es_ring s' !! Z.to_nat p = es_ring s !! Z.to_nat p.
Proof.
  induction fuel as [|fuel IH]; intros curr hw size s Hs Hc Hh Hd; cbn [edma_loop];
    (destruct (Z.eqb_spec curr hw) as [|Hne]; [exists (Ok s); split; [done|by intros s' [= <-]]|]);
    destruct (next_pos_dist curr hw size Hs Hc Hh Hne) as (Hc' & Hd' & H1); [lia|].
  destruct (ar9003_hw_proc_txdesc (es_ring s) curr (es_ts s)) as [[[[status ts] ring] n]|] eqn:E;
    [|exists Oops; split; [done|intros; done]].
  assert (forall p, 0 <= p < size -> p <> curr -> ring !! Z.to_nat p = es_ring s !! Z.to_nat p) as Hring.
  { intros p Hp Hpc. unfold ar9003_hw_proc_txdesc in E. destruct (es_ring s !! Z.to_nat curr); [|done].
    repeat (case_match; simplify_eq; try done); rewrite list_lookup_insert_ne by lia; done. }
  assert (forall p, 0 <= p < size -> (hw - p) mod size = 0 \/ (hw - curr) mod size < (hw - p) mod size -> p <> curr) as Hpc.
  { intros p Hp [Hx|Hx] ->; lia. }
  assert (forall s1, es_ring s1 = ring ->
    exists r, edma_loop fuel (u32 (curr + 1) mod size) hw size s1 = Some r /\
    forall s', r = Ok s' -> forall p, 0 <= p < size ->
      ((hw - p) mod size = 0 \/ (hw - curr) mod size < (hw - p) mod size) ->
      es_ring s' !! Z.to_nat p = es_ring s !! Z.to_nat p) as Hgo.
  { intros s1 Hs1. destruct (IH (u32 (curr + 1) mod size) hw size s1) as (r & Er & Hr); try done; [lia|].
    exists r. split; [done|]. intros s' -> p Hp Hx. rewrite (Hr s' eq_refl p Hp) by lia.
    rewrite Hs1. apply Hring; [done|by apply Hpc]. }
  cbv zeta. case_bool_decide; [by apply Hgo|]. destruct (qid ts =? beaconq); [by apply Hgo|].
  match goal with |- context [es_txq ?x !! _] => change (es_txq x) with (es_txq s) end.
  destruct (es_txq s !! Z.to_nat (qid ts)) as [txq|]; [|exists Oops; split; [done|intros; done]].
  destruct (edma_complete tx99 txq) as [[[[c q'] acts]|]|]; [by apply Hgo| |exists Oops; split; [done|intros; done]].
  eexists. split; [reflexivity|]. intros s' [= <-] p Hp Hx. simpl. apply Hring; [done|by apply Hpc].
Qed.


(** ** Theorems *)

(** The tasklet terminates: with the 512 entries of the status ring and a
    hardware position inside the ring, the loop ends after at most seven
    entries, whatever they contain. *)
Theorem tasklet_returns hw_reset reg paddr_start s :
  u32 (reg - paddr_start) < 512 * sizeof_txs ->
  exists r, ath_tx_edma_tasklet 7 hw_reset reg paddr_start 512 s = Some r.
Proof.
  intros Hreg. unfold ath_tx_edma_tasklet. destruct hw_reset; [by eauto|]. cbv zeta. unfold sizeof_txs in Hreg.
  pose proof (u32_range (reg - paddr_start)) as [H0 _].
  assert (0 <= u32 (reg - paddr_start) / 36 < 512) as Hh by dlia.
  destruct (start_dist (u32 (reg - paddr_start) / 36) 512 ltac:(lia) eq_refl Hh) as [Hc Hd].
  destruct (edma_loop_spec 7 _ _ 512 s ltac:(lia) Hc Hh ltac:(lia)) as (r & Hr & _). by eauto.
Qed.

(** Completions can be missed: a status more than seven entries behind the
    hardware's position is not looked at, its entry stays as it is. (The
    function that this one replaced in the source kept its own position
    [ts_tail].) *)
Theorem old_status_missed reg paddr_start s s' p :
  u32 (reg - paddr_start) < 512 * sizeof_txs -> 0 <= p < 512 ->
  7 < (u32 (reg - paddr_start) / sizeof_txs - p) mod 512 ->
  ath_tx_edma_tasklet 7 false reg paddr_start 512 s = Some (Ok s') ->
  es_ring s' !! Z.to_nat p = es_ring s !! Z.to_nat p.
Proof.
  intros Hreg Hp Hold. unfold ath_tx_edma_tasklet. cbv zeta. unfold sizeof_txs in *.
  pose proof (u32_range (reg - paddr_start)) as [H0 _].
  assert (0 <= u32 (reg - paddr_start) / 36 < 512) as Hh by dlia.
  destruct (start_dist (u32 (reg - paddr_start) / 36) 512 ltac:(lia) eq_refl Hh) as [Hc Hd].
  destruct (edma_loop_spec 7 _ _ 512 s ltac:(lia) Hc Hh ltac:(lia)) as (r & Hr & Hring). rewrite Hr. intros [= ->].
  apply Hring; [done|done|]. right. rewrite Hd. exact Hold.
Qed.

(** The loop relies on the hardware's position being inside the ring: if
    the register stands at the end of the ring (position 512), no fuel is
    enough, the tasklet spins over the ring for as long as no status arrives. *)
Theorem end_of_ring_spins fuel paddr_start s :
  length (es_ring s) = 512%nat ->
  Forall (fun ads => has (status8 ads) AR_TxDone = false) (es_ring s) ->
  ath_tx_edma_tasklet fuel false (paddr_start + 512 * sizeof_txs) paddr_start 512 s = None.
Proof.
  intros Hlen Hall. unfold ath_tx_edma_tasklet, sizeof_txs. cbv zeta.
  replace (paddr_start + 512 * 36 - paddr_start) with (512 * 36) by lia.
  change (u32 (512 * 36) / 36) with 512. change (u32 (512 - 7) mod 512) with 505.
  assert (forall f c s, 0 <= c < 512 -> length (es_ring s) = 512%nat ->
    Forall (fun ads => has (status8 ads) AR_TxDone = false) (es_ring s) ->
    edma_loop f c 512 512 s = None) as Hgo; [|by apply Hgo].
  clear. induction f as [|f IH]; intros c s Hc Hlen Hall; cbn [edma_loop];
    (destruct (Z.eqb_spec c 512); [lia|]); [done|].
  unfold ar9003_hw_proc_txdesc.
  destruct (lookup_lt_is_Some_2 (es_ring s) (Z.to_nat c)) as [ads Hads]; [lia|].
  rewrite Hads, (Forall_lookup_1 _ _ _ _ Hall Hads). cbn [negb].
  rewrite bool_decide_eq_true_2 by done. apply IH; [apply Z.mod_pos_bound; lia|done..].
Qed.

(** A rejected entry is taken for a completion: [ar9003_hw_proc_txdesc]
    fails with [-EIO] for a finished entry with a foreign descriptor id and
    leaves [ts] alone, but the tasklet only tests for [-EINPROGRESS], so it
    completes the oldest unit of the queue named by the previous status. *)
Theorem rejected_entry_completes fuel curr hw size s ads q u us :
  curr <> hw -> es_ring s !! Z.to_nat curr = Some ads ->
  has (status8 ads) AR_TxDone = true -> MS (ds_info ads) AR_TxQcuNum <> 6 ->
  MS (ds_info ads) AR_DescId <> ATHEROS_VENDOR_ID -> qid (es_ts s) <> beaconq ->
  es_txq s !! Z.to_nat (qid (es_ts s)) = Some q -> repr q (u :: us) ->
  exists bf s', head u = Some bf /\ es_log s' = es_log s ++ [(qid (es_ts s), bf_id bf)] /\
    edma_loop (S fuel) curr hw size s = edma_loop fuel (u32 (curr + 1) mod size) hw size s'.
Proof.
  intros Hne Hads Hdone Hq6 Hid Hbq Hq Hrep. cbn [edma_loop]. destruct (Z.eqb_spec curr hw); [done|].
  assert (exists ring, ar9003_hw_proc_txdesc (es_ring s) curr (es_ts s) = Ok (EIO, es_ts s, ring, 0%nat)) as (ring & E).
  { unfold ar9003_hw_proc_txdesc. rewrite Hads, Hdone. cbn [negb].
    destruct (Z.eqb_spec (MS (ds_info ads) AR_TxQcuNum) 6); [done|].
    destruct (Z.eqb_spec (MS (ds_info ads) AR_DescId) ATHEROS_VENDOR_ID); [done|]. simpl. by eauto. }
  rewrite E. rewrite bool_decide_eq_false_2 by done. cbv zeta.
  destruct (Z.eqb_spec (qid (es_ts s)) beaconq); [done|].
  match goal with |- context [es_txq ?x !! _] => change (es_txq x) with (es_txq s) end. rewrite Hq.
  destruct (complete_repr tx99 q u us Hrep) as (c & q' & acts & Ec & _ & Hh & _). rewrite Ec.
  exists (c_bf c). eexists. split; [done|]. split; [|reflexivity]. done.
Qed.

(** *** Fault freedom *)

Definition queues_ok (qs : list ath_txq) : Prop :=
  Z.of_nat (length qs) = ATH9K_NUM_TX_QUEUES /\ Forall (fun q => exists us, repr q us) qs.

(** A status names one of the ten queues. *)
Definition entry_ok (ads : ar9003_txs) : Prop :=
  has (status8 ads) AR_TxDone = true -> 0 <= MS (ds_info ads) AR_TxQcuNum < ATH9K_NUM_TX_QUEUES.

(** It comes from the hardware: not rejected with [-EIO]. *)
Definition genuine (ads : ar9003_txs) : Prop :=
  has (status8 ads) AR_TxDone = true -> MS (ds_info ads) AR_TxQcuNum <> 6 ->
  MS (ds_info ads) AR_DescId = ATHEROS_VENDOR_ID /\ MS (ds_info ads) AR_TxRxDesc = 1.

(** The status that the tasklet looks at names a queue, or is not looked at before
    it has been written. *)
Definition status_ok (ts : ath_tx_status) (ring : list ar9003_txs) : Prop :=
  0 <= qid ts < ATH9K_NUM_TX_QUEUES \/ Forall genuine ring.

Lemma proc_txdesc_qid ring pos ts r ts' ring' n :
  Forall entry_ok ring -> status_ok ts ring ->
  ar9003_hw_proc_txdesc ring pos ts = Ok (r, ts', ring', n) ->
  Forall entry_ok ring' /\ status_ok ts' ring' /\ length ring' = length ring /\ (r <> EINPROGRESS -> 0 <= qid ts' < ATH9K_NUM_TX_QUEUES).
Proof.
  intros Hall Hts. unfold ar9003_hw_proc_txdesc. destruct (ring !! Z.to_nat pos) as [ads|] eqn:E; [|done].
  pose proof (Forall_lookup_1 _ _ _ _ Hall E) as Hok.
  assert (Forall entry_ok (<[Z.to_nat pos := zero_txs]> ring)) as Hz by (apply Forall_insert; [done|]; intros Hx; done).
  assert (status_ok ts (<[Z.to_nat pos := zero_txs]> ring)) as Hs.
  { destruct Hts as [Hts|Hts]; [by left|right]. apply Forall_insert; [done|]. by intros Hx. }
  assert (Forall genuine ring -> genuine ads) as Hg by (intros H; exact (Forall_lookup_1 _ _ _ _ H E)).
  destruct (negb _) eqn:Ed; [by intros [= <- <- <- <-]|]. ztest. destruct (Z.eqb_spec (MS (ds_info ads) AR_TxQcuNum) 6) as [|H6]; [by intros [= <- <- <- <-]|].
  destruct (_ || _) eqn:Er; intros [= <- <- <- <-]; (split; [done|]); rewrite length_insert.
  - split; [done|]. split; [done|]. intros _. destruct Hts as [Hts|Hts]; [done|]. destruct (Hg Hts Ed H6) as [G1 G2]. by rewrite G1, G2 in Er.
  - split; [left; by apply Hok|]. split; [done|]. intros _. by apply Hok.
Qed.

(** A frame is handed to a queue: the only way in which the rest of the driver
    lets a queue grow. *)
Inductive submission : list ath_txq -> list ath_txq -> Prop :=
| submission_intro i q vs q' acts qs :
    qs !! i = Some q -> chain_ok vs -> NoDup (ids (axq_q q ++ concat vs)) ->
    ath_tx_txqaddbuf true tx99 q (concat vs) false = Ok (q', acts) -> submission qs (<[i := q']> qs).

Lemma submissions_ok qs qs' : rtc submission qs qs' -> queues_ok qs -> queues_ok qs'.
Proof.
  induction 1 as [|x y z [i q vs q' acts qs0 Hq Hch Hnd E] _ IH]; [done|]. intros [Hl Hall]. apply IH.
  destruct (Forall_lookup_1 _ _ _ _ Hall Hq) as (us & Hr). destruct (submit_repr tx99 q us vs Hr Hch Hnd) as (q1 & a1 & E1 & Hr1).
  rewrite E in E1. injection E1 as <- <-. split; [by rewrite length_insert|]. apply Forall_insert; [done|]. by eauto.
Qed.

Lemma edma_loop_fault_free :
  (forall c ts qs, rtc submission qs (process c ts qs)) ->
  forall f c h s, 0 <= c < 512 -> 0 <= h < 512 -> (h - c) mod 512 <= Z.of_nat f ->
    queues_ok (es_txq s) -> Forall entry_ok (es_ring s) -> length (es_ring s) = 512%nat -> status_ok (es_ts s) (es_ring s) ->
    exists s', edma_loop f c h 512 s = Some (Ok s') /\ queues_ok (es_txq s').
Proof.
  intros Hproc. induction f as [|f IH]; intros c h s Hc Hh Hd Hqs Hring Hlen Hts; cbn [edma_loop];
    (destruct (Z.eqb_spec c h) as [|Hne]; [by eauto|]);
    destruct (next_pos_dist c h 512 ltac:(lia) Hc Hh Hne) as (Hc' & Hd' & H1); [lia|].
  destruct (ar9003_hw_proc_txdesc (es_ring s) c (es_ts s)) as [[[[status ts] ring] n]|] eqn:E.
  2: { exfalso. unfold ar9003_hw_proc_txdesc in E.
       destruct (lookup_lt_is_Some_2 (es_ring s) (Z.to_nat c)) as [ads Hads]; [lia|]. rewrite Hads in E.
       repeat case_match; done. }
  destruct (proc_txdesc_qid _ _ _ _ _ _ _ Hring Hts E) as (Hring' & Hts' & Hlen' & Hqid).
  assert (forall s1, es_ring s1 = ring -> es_ts s1 = ts -> queues_ok (es_txq s1) ->
    exists s', edma_loop f (u32 (c + 1) mod 512) h 512 s1 = Some (Ok s') /\ queues_ok (es_txq s')) as Hgo.
  { intros s1 H2 H3 H4. apply IH; rewrite ?H2, ?H3; try done; try lia. }
  cbv zeta. case_bool_decide as Hst; [by apply Hgo|]. specialize (Hqid Hst). destruct (qid ts =? beaconq); [by apply Hgo|].
  match goal with |- context [es_txq ?x !! _] => change (es_txq x) with (es_txq s) end.
  pose proof Hqs as [Hql Hqa].
  destruct (lookup_lt_is_Some_2 (es_txq s) (Z.to_nat (qid ts))) as [txq Htxq]; [lia|]. rewrite Htxq.
  destruct (Forall_lookup_1 _ _ _ _ Hqa Htxq) as (us & Hrep).
  destruct us as [|u us]; [rewrite (edma_complete_empty tx99 txq Hrep); eexists; split; [reflexivity|done]|].
  destruct (complete_repr tx99 txq u us Hrep) as (cc & q' & acts & Ec & Hrep' & _). rewrite Ec.
  apply Hgo; [done|done|]. simpl. eapply submissions_ok; [apply Hproc|]. split; [by rewrite length_insert|].
  apply Forall_insert; [done|]. by eauto.
Qed.

(** C37. The tasklet returns and does not fault: when every queue is in a state
    reachable by submissions and completions, the tasklet ends with the queues
    again in such states, with no access outside an array and no dangling buffer
    pointer. This is under three assumptions about what is not this function:
    the hardware position is inside the ring of 512 entries (at its end the
    tasklet would spin, [end_of_ring_spins]); every finished entry of the ring
    names one of the ten queues, and either all of them are genuine or the
    uninitialised status (xmit.c:2697), which a rejected entry makes the tasklet
    use ([rejected_entry_completes]), happens to name one of the ten queues too;
    and the delivery of the completed frames changes the queues by submitting
    chains of frames through [ath_tx_txqaddbuf] only. *)
Theorem tasklet_fault_free reg paddr_start s :
  (forall c ts qs, rtc submission qs (process c ts qs)) ->
  queues_ok (es_txq s) -> Forall entry_ok (es_ring s) -> length (es_ring s) = 512%nat ->
  status_ok (es_ts s) (es_ring s) -> u32 (reg - paddr_start) < 512 * sizeof_txs ->
  exists s', ath_tx_edma_tasklet 7 false reg paddr_start 512 s = Some (Ok s') /\ queues_ok (es_txq s').
Proof.
  intros Hproc Hqs Hring Hlen Hts Hreg. unfold ath_tx_edma_tasklet. cbv zeta. unfold sizeof_txs in Hreg.
  pose proof (u32_range (reg - paddr_start)) as [H0 _].
  assert (0 <= u32 (reg - paddr_start) / 36 < 512) as Hh by dlia.
  destruct (start_dist (u32 (reg - paddr_start) / 36) 512 ltac:(lia) eq_refl Hh) as [Hc Hd].
  apply edma_loop_fault_free; try done. lia.
Qed.

End Tasklet.

(** * Concrete inputs *)

Definition demo_buf (id : Z) (next : option Z) : ath_buf :=
  {| bf_id := id; bf_lastbf := id; bf_next := next; bf_ampdu := false; bf_stale := false |}.

(** Two frames in one submission. *)
Definition demo_units : list (list ath_buf) := [[demo_buf 1 (Some 2)]; [demo_buf 2 None]].

Lemma demo_chain : chain_ok demo_units.
Proof.
  assert (forall id n, unit_ok [demo_buf id n]) as Hu.
  { intros id n. exists (demo_buf id n), (demo_buf id n). split_and!; try done. by repeat constructor. }
  eapply chain_cons; [apply Hu|done..|]. eapply chain_one; [apply Hu|done..].
Qed.

Definition demo_queue : ath_txq :=
  match ath_tx_txqaddbuf true false txq_init (concat demo_units) false with Ok (q, _) => q | Oops => txq_init end.

Lemma demo_fresh : NoDup (ids (axq_q txq_init ++ concat demo_units)).
Proof. apply NoDup_ListNoDup. repeat constructor; simpl; intuition discriminate. Qed.

Lemma demo_run : txq_run demo_units [] demo_queue.
Proof.
  apply (run_submit [] [] txq_init false demo_units demo_queue [PutTxBuf 1]);
    [apply run_setup|apply demo_chain|apply demo_fresh|reflexivity].
Qed.

Lemma txq_is_fifo_witness : exists us, repr demo_queue us /\ firsts us = [1; 2].
Proof.
  destruct (txq_is_fifo demo_units [] demo_queue demo_run) as (us & Hr & Hf & _). by exists us.
Defined.

Lemma txq_ops_return_witness :
  exists q' cs, ath_draintxq true txq_init = Ok (q', cs).
Proof. apply (txq_ops_return [] [] txq_init false demo_units run_setup demo_chain demo_fresh). Defined.

(** The same with a foreign vendor id. *)
Definition foreign_txs : ar9003_txs :=
  {| ds_info := 0x00008109; status1 := 0; status2 := 0; status3 := 1; status4 := 77;
     status5 := 0; status6 := 0; status7 := 0; status8 := 1 |}.

(** A status ring with a frame of queue 1 at [pos]. *)
Definition demo_ring (pos : nat) (ads : ar9003_txs) : list ar9003_txs := <[pos := ads]> (replicate 512 zero_txs).

Definition demo_edma (ring : list ar9003_txs) : edma_state :=
  {| es_ring := ring; es_ts := tx_status_of demo_txs zero_status; es_txq := replicate 10 demo_queue;
     beacon_tx_processed := false; beacon_tx_last := false; es_log := [] |}.

Definition keep (_ : completion) (_ : ath_tx_status) (qs : list ath_txq) : list ath_txq := qs.

Lemma tasklet_returns_witness :
  exists r, ath_tx_edma_tasklet false 9 keep 7 false (0x1000 + 3 * 36) 0x1000 512
              (demo_edma (demo_ring 2 demo_txs)) = Some r.
Proof.
  apply (tasklet_returns false 9 keep false (0x1000 + 3 * 36) 0x1000 (demo_edma (demo_ring 2 demo_txs))).
  vm_compute. reflexivity.
Defined.

(** The finished frame at position 2 is missed when the hardware is at 20. *)
Lemma old_status_missed_witness :
  exists s', ath_tx_edma_tasklet false 9 keep 7 false (0x1000 + 20 * 36) 0x1000 512
               (demo_edma (demo_ring 2 demo_txs)) = Some (Ok s') /\
    es_ring s' !! 2%nat = Some demo_txs.
Proof.
  destruct (ath_tx_edma_tasklet false 9 keep 7 false (0x1000 + 20 * 36) 0x1000 512
               (demo_edma (demo_ring 2 demo_txs))) as [[s'|]|] eqn:E; [|vm_compute in E; discriminate..].
  exists s'. split; [done|].
  change (es_ring s' !! Z.to_nat 2 = es_ring (demo_edma (demo_ring 2 demo_txs)) !! Z.to_nat 2).
  apply (old_status_missed false 9 keep (0x1000 + 20 * 36) 0x1000 (demo_edma (demo_ring 2 demo_txs)) s' 2);
    [vm_compute; reflexivity|lia|vm_compute; reflexivity|exact E].
Defined.

Lemma end_of_ring_spins_witness :
  ath_tx_edma_tasklet false 9 keep 1000 false (0x1000 + 512 * 36) 0x1000 512
    (demo_edma (replicate 512 zero_txs)) = None.
Proof.
  apply (end_of_ring_spins false 9 keep 1000 0x1000 (demo_edma (replicate 512 zero_txs)));
    [reflexivity|]. by apply Forall_replicate.
Defined.

(** An entry with a foreign vendor id completes the frame of buffer 1. *)
Lemma rejected_entry_completes_witness :
  exists s', es_log s' = [(1, 1)] /\
    edma_loop false 9 keep 1 2 3 512 (demo_edma (demo_ring 2 foreign_txs)) =
    edma_loop false 9 keep 0 3 3 512 s'.
Proof.
  destruct (run_repr demo_units [] demo_queue demo_run) as (us & Hr & Hf).
  destruct us as [|u us]; [discriminate Hf|].
  destruct (rejected_entry_completes false 9 keep 0 2 3 512
    (demo_edma (demo_ring 2 foreign_txs)) foreign_txs demo_queue u us)
    as (bf & s' & Hh & Hlog & E); try (vm_compute; (reflexivity || discriminate)); [exact Hr|].
  exists s'. split; [|exact E]. rewrite Hlog. rewrite (firsts_cons u us bf Hh) in Hf. by injection Hf as <-.
Defined.

Lemma tasklet_fault_free_witness :
  exists s', ath_tx_edma_tasklet false 9 keep 7 false (0x1000 + 3 * 36) 0x1000 512
               (demo_edma (demo_ring 2 demo_txs)) = Some (Ok s') /\ queues_ok (es_txq s').
Proof.
  apply (tasklet_fault_free false 9 keep (0x1000 + 3 * 36) 0x1000 (demo_edma (demo_ring 2 demo_txs))).
  - intros c ts qs. apply rtc_refl.
  - split; [reflexivity|]. apply Forall_replicate.
    destruct (run_repr demo_units [] demo_queue demo_run) as (us & Hr & _). by exists us.
  - apply Forall_insert; [apply Forall_replicate; intros Hx; discriminate Hx|].
    intros _. vm_compute. split; [discriminate|reflexivity].
  - reflexivity.
  - right. apply Forall_insert; [apply Forall_replicate; intros Hx; discriminate Hx|]. intros _ _. vm_compute. split; reflexivity.
  - vm_compute. reflexivity.
Defined.
