(* ===== verification/TxTid.v ===== *)
(** A traffic identifier of the ath9k driver (src/real/ath/ath9k/xmit.c): its
    two software queues, the choice of the next subframe, the formation of
    aggregates from the queues, and what becomes of the subframes when the
    hardware reports the result of an aggregate: acknowledged, retried or
    given up.

    A frame is an [sk_buff] together with the driver's [ath_frame_info]; it
    owns an [ath_buf] once it has been set up. An aggregate is the list of its
    frames, in the order of the [bf_next] links. The free buffers are a pool
    shared by all queues; the identity of a buffer is [bf_id]. Calls into
    mac80211 are recorded in [events]. The test modes (tx99, PAPRD), the
    sampling of acknowledgement times and statistics are left out. Locks are
    not modelled: every operation is atomic. *)

From S2P Require Import Prelude Baw Airtime Desc.

(** * Buffers, frames, state *)

Record ath_buf := {
  bf_id : Z;
  bf_rates : list tx_rate;
  seqno : Z;           (* u16 *)
  isampdu : bool;      (* BUF_AMPDU *)
  isaggr : bool;       (* BUF_AGGR *)
  ndelim : Z;          (* u8 *)
  stale : bool;
}.
#[export] Instance eta_ath_buf : Eta ath_buf := fun r =>
  Build_ath_buf (bf_id r) (bf_rates r) (seqno r) (isampdu r) (isaggr r) (ndelim r) (stale r).

(** The rates are not reset. *)
Definition ATH_TXBUF_RESET (bf : ath_buf) : ath_buf :=
  bf <| seqno := 0 |> <| isampdu := false |> <| isaggr := false |> <| ndelim := 0 |> <| stale := false |>.

Record sk_buff := {
  sk_id : Z;
  tx_ampdu : bool;         (* IEEE80211_TX_CTL_AMPDU *)
  tx_probe : bool;         (* IEEE80211_TX_CTL_RATE_CTRL_PROBE *)
  tx_eosp : bool;          (* IEEE80211_TX_STATUS_EOSP *)
  tx_clear_ps_filt : bool; (* IEEE80211_TX_CTL_CLEAR_PS_FILT *)
  data_present : bool;     (* ieee80211_is_data_present *)
  morefrags : bool;        (* ieee80211_has_morefrags *)
  fctl_retry : bool;       (* IEEE80211_FCTL_RETRY *)
  seq_ctrl : Z;            (* le16, as a number *)
  framelen : Z;            (* u16 *)
  fi_txq : Z;              (* s8 *)
  retries : Z;             (* 7 bits *)
  baw_tracked : bool;
  control_rates : list tx_rate;   (* info->control.rates *)
  fi_bf : option ath_buf;
}.
#[export] Instance eta_sk_buff : Eta sk_buff := fun r =>
  Build_sk_buff (sk_id r) (tx_ampdu r) (tx_probe r) (tx_eosp r) (tx_clear_ps_filt r) (data_present r)
    (morefrags r) (fctl_retry r) (seq_ctrl r) (framelen r) (fi_txq r) (retries r) (baw_tracked r) (control_rates r) (fi_bf r).

(** Calls into mac80211. [TxStatus]: the frame is reported with
    [ieee80211_tx_status]. *)
Inductive tid_event :=
  | TxStatus (id : Z) (ok filtered : bool)
  | FreeSkb (id : Z)
  | RcStatus (id nframes nbad : Z) (ok : bool)
  | SendBar (ssn : Z)
  | StopQueue | WakeQueue | Eosp | SetBuffered (buffered : bool) | QueueReset.

(** [held]: buffers that stay in a hardware queue as holding descriptors. *)
Record tid_state := {
  win : ath_atx_tid;
  buf_q : list sk_buff;
  retry_q : list sk_buff;
  clear_ps_filter : bool;
  queued : bool;             (* the TID is in the list of its access category *)
  sleeping : bool;           (* an->sleeping *)
  txbuf : list ath_buf;      (* sc->tx.txbuf *)
  held : list ath_buf;
  pending_frames : Z;
  stopped : bool;
  events : list tid_event;
}.
#[export] Instance eta_tid_state : Eta tid_state := fun r =>
  Build_tid_state (win r) (buf_q r) (retry_q r) (clear_ps_filter r) (queued r) (sleeping r) (txbuf r) (held r)
    (pending_frames r) (stopped r) (events r).

Definition emit (e : tid_event) (s : tid_state) : tid_state := s <| events ::= fun l => l ++ [e] |>.

Definition ATH_MAX_SW_RETRIES : Z := 30.
Definition ATH_AGGR_MIN_QDEPTH : Z := 2.
Definition ATH_NON_AGGR_MIN_QDEPTH : Z := 8.

(** What the operations depend on: the TID and its node, and the hardware. *)
Record tid_env := {
  tidno : Z;
  an_sta : bool;                          (* tid->an->sta is set *)
  chanctx : bool;                         (* avp->chanctx is set *)
  no_ps_filter : bool;
  opmode_station : bool;
  txq_max_pending : Z;
  mpdudensity : Z;
  maxampdu : Z;
  max_aggr_framelen : list (list Z);
  bt_aggr_limit : Z -> Z;                 (* ath9k_btcoex_aggr_limit *)
  encrypt_pad : sk_buff -> bool;          (* keyix valid and no EDMA *)
  first_pad : bool;
  dma_mapping_error : sk_buff -> bool;
}.

Section Tid.
Context (env : tid_env).

(** * Small operations *)

Definition ath_tx_queue_tid (s : tid_state) : tid_state :=
  if chanctx env then s <| queued := true |> else s.

Definition ath_send_bar (ssn : Z) (s : tid_state) : tid_state :=
  if an_sta env then emit (SendBar ssn) s else s.

Definition ath_txq_skb_done (skb : sk_buff) (s : tid_state) : tid_state :=
  if fi_txq skb <? 0 then s
  else
    let s := s <| pending_frames ::= Z.pred |> in
    let s := if pending_frames s <? 0 then s <| pending_frames := 0 |> else s in
    if stopped s && (pending_frames s <? txq_max_pending env)
    then (emit WakeQueue s) <| stopped := false |> else s.

Definition ath_tid_has_buffered (s : tid_state) : bool :=
  negb (bool_decide (buf_q s = [])) || negb (bool_decide (retry_q s = [])).

Definition ath_tid_dequeue (s : tid_state) : option (sk_buff * tid_state) :=
  match retry_q s with
  | skb :: l => Some (skb, s <| retry_q := l |>)
  | [] =>
      match buf_q s with
      | skb :: l => Some (skb, s <| buf_q := l |>)
      | [] => None
      end
  end.

(** The frame is given back to mac80211. *)
Definition ath_tx_complete (skb : sk_buff) (ok filtered : bool) (s : tid_state) : tid_state :=
  ath_txq_skb_done skb (emit (TxStatus (sk_id skb) ok filtered) s).

(** [bf_q]: the buffers that go back to the pool. *)
Definition ath_tx_complete_buf (skb : sk_buff) (bf_q : list ath_buf) (ts_status : Z) (txok : bool) (s : tid_state)
  : tid_state :=
  (ath_tx_complete skb txok (has ts_status ATH9K_TXERR_FILT) s) <| txbuf ::= fun l => l ++ bf_q |>.

(** [__skb_unlink], [ath_txq_skb_done], [ieee80211_free_txskb]: the frame has
    been taken off its queue by the caller. *)
Definition free_skb (skb : sk_buff) (s : tid_state) : tid_state :=
  emit (FreeSkb (sk_id skb)) (ath_txq_skb_done skb s).

Definition ath_tx_update_baw' (n : Z) (s : tid_state) : tid_state :=
  s <| win ::= fun t => ath_tx_update_baw t n |>.

Definition ath_tx_addto_baw' (skb : sk_buff) (n : Z) (s : tid_state) : sk_buff * tid_state :=
  (skb <| baw_tracked := true |>, s <| win ::= fun t => ath_tx_addto_baw t n |>).

Definition ath_tx_get_buffer (s : tid_state) : option (ath_buf * tid_state) :=
  match txbuf s with
  | [] => None
  | bf :: l => Some (bf, s <| txbuf := l |>)
  end.

Definition ath_tx_return_buffer (bf : ath_buf) (s : tid_state) : tid_state :=
  s <| txbuf ::= fun l => l ++ [bf] |>.

(** The clone has the state of [bf], but the rates that its buffer had. *)
Definition ath_clone_txbuf (bf : ath_buf) (s : tid_state) : option (ath_buf * tid_state) :=
  match ath_tx_get_buffer s with
  | None => None
  | Some (tbf, s) => Some ((bf <| bf_id := bf_id tbf |> <| bf_rates := bf_rates tbf |> <| stale := false |>), s)
  end.

(** [count] is added in a field of seven bits. *)
Definition ath_tx_set_retry (count : Z) (skb : sk_buff) : sk_buff :=
  let prev := retries skb in
  let skb := skb <| retries := (retries skb + count) mod 128 |> in
  if 0 <? prev then skb else skb <| fctl_retry := true |>.

(** A buffer and, for data, a sequence number. When the frame cannot be
    mapped, the buffer is returned; the sequence number is used up. *)
Definition ath_tx_setup_buffer (skb : sk_buff) (s : tid_state) : option sk_buff * tid_state :=
  match ath_tx_get_buffer s with
  | None => (None, s)
  | Some (bf, s) =>
      let bf := ATH_TXBUF_RESET bf in
      let '(skb, bf, s) :=
        if data_present skb then
          let fragno := seq_ctrl skb .& 0xf in
          let '(n, t) := setup_buffer_seqno (win s) (morefrags skb) in
          let skb := skb <| seq_ctrl := u16 (n .<< 4) |> in
          let skb := if negb (fragno =? 0) then skb <| seq_ctrl ::= fun c => c .| fragno |> else skb in
          (skb, bf <| seqno := n |>, s <| win := t |>)
        else (skb, bf, s) in
      if dma_mapping_error env skb then (None, ath_tx_return_buffer bf s)
      else (Some (skb <| fi_bf := Some bf |>), s)
  end.

(** * Starting and stopping a session *)

(** The loop of [ath_tx_tid_change_state] over [buf_q]; the first result are
    the frames that stay. *)
Fixpoint change_state_loop (l : list sk_buff) (s : tid_state) : list sk_buff * tid_state :=
  match l with
  | [] => ([], s)
  | skb :: l =>
      let skb := skb <| tx_ampdu := false |> in
      match fi_bf skb with
      | Some _ => let '(l, s) := change_state_loop l s in (skb :: l, s)
      | None =>
          match ath_tx_setup_buffer skb s with
          | (None, s) => change_state_loop l (free_skb skb s)
          | (Some skb, s) => let '(l, s) := change_state_loop l s in (skb :: l, s)
          end
      end
  end.

Definition ath_tx_tid_change_state (s : tid_state) : tid_state :=
  let '(l, s) := change_state_loop (buf_q s) s in s <| buf_q := l |>.

(** The loop of [ath_tx_flush_tid] over [retry_q]. *)
Fixpoint flush_loop (l : list sk_buff) (sendbar : bool) (s : tid_state) : bool * tid_state :=
  match l with
  | [] => (sendbar, s)
  | skb :: l =>
      let s := s <| retry_q := l |> in
      match fi_bf skb with
      | None => flush_loop l sendbar (free_skb skb s)
      | Some bf =>
          let s := if baw_tracked skb then ath_tx_update_baw' (seqno bf) s else s in
          flush_loop l (sendbar || baw_tracked skb) (ath_tx_complete_buf skb [bf] 0 false s)
      end
  end.

Definition ath_tx_flush_tid (s : tid_state) : tid_state :=
  let '(sendbar, s) := flush_loop (retry_q s) false s in
  if sendbar : bool then ath_send_bar (seq_start (win s)) s else s.

(** [ath_tx_aggr_start], without the capabilities of the station; the second
    result is [*ssn]. *)
Definition ath_tx_aggr_start (s : tid_state) : tid_state * Z :=
  let s := ath_tx_tid_change_state s in
  let '(t, ssn) := aggr_start_window (win s) in
  (s <| win := t |>, ssn).

Definition ath_tx_aggr_stop (s : tid_state) : tid_state :=
  let s := s <| win ::= fun t => t <| active := false |> |> in
  ath_tx_tid_change_state (ath_tx_flush_tid s).

(** The loop of [ath_tid_drain]: [fuel] frames. *)
Fixpoint ath_tid_drain (fuel : nat) (s : tid_state) : tid_state :=
  match fuel with
  | O => s
  | S fuel =>
      match ath_tid_dequeue s with
      | None => s
      | Some (skb, s) =>
          ath_tid_drain fuel
            (match fi_bf skb with
             | None => ath_tx_complete skb false false s
             | Some bf => ath_tx_complete_buf skb [bf] 0 false s
             end)
      end
  end.

(** The body of [ath_tx_node_cleanup]. *)
Definition node_cleanup_tid (s : tid_state) : tid_state :=
  let s := s <| queued := false |> in
  let s := ath_tid_drain (length (retry_q s) + length (buf_q s)) s in
  s <| win ::= fun t => t <| active := false |> |>.

(** * Choosing subframes *)

(** [true]: retry_q, [false]: buf_q. *)
Definition which_q (s : tid_state) : bool := negb (bool_decide (retry_q s = [])).
Definition queue_of (q : bool) (s : tid_state) : list sk_buff := if q then retry_q s else buf_q s.
Definition set_queue (q : bool) (l : list sk_buff) (s : tid_state) : tid_state :=
  if q then s <| retry_q := l |> else s <| buf_q := l |>.

(** The buffer of the frame at the head of its queue. *)
Definition subframe_buffer (skb : sk_buff) (s : tid_state) : option sk_buff * tid_state :=
  match fi_bf skb with
  | None => ath_tx_setup_buffer skb s
  | Some bf => (Some (skb <| fi_bf := Some (bf <| stale := false |>) |>), s)
  end.

(** The loop of [ath_tx_get_tid_subframe], at most [fuel] rounds; every round
    but the last takes a frame off its queue. The result: the frame, which
    stays at the head of its queue, with the queue. *)
Fixpoint get_subframe_loop (fuel : nat) (s : tid_state) : outcome (option (sk_buff * bool) * tid_state) :=
  match fuel with
  | O => Oops
  | S fuel =>
      let q := which_q s in
      match queue_of q s with
      | [] => Ok (None, s)
      | skb :: l =>
          let '(skb', s) := subframe_buffer skb s in
          match skb' with
          | None => get_subframe_loop fuel (free_skb skb (set_queue q l s))
          | Some skb =>
              match fi_bf skb with
              | None => Oops
              | Some bf =>
                  let skb := skb <| tx_clear_ps_filt := false |> in
                  let skb := if negb (active (win s)) then skb <| tx_ampdu := false |> else skb in
                  if negb (tx_ampdu skb) then
                    let skb := skb <| fi_bf := Some (bf <| isampdu := false |> <| isaggr := false |>) |> in
                    Ok (Some (skb, q), set_queue q (skb :: l) s)
                  else
                    let skb := skb <| fi_bf := Some (bf <| isampdu := true |> <| isaggr := true |>) |> in
                    let t := win s in
                    if negb (BAW_WITHIN (seq_start t) (baw_size t) (seqno bf)) then
                      Ok (None, set_queue q (skb :: l) s)
                    else if ATH_BA_INDEX (seq_start t) (seqno bf) <? bar_index t then
                      get_subframe_loop fuel
                        (ath_tx_complete_buf skb [bf] 0 false
                           (ath_tx_update_baw' (seqno bf) (set_queue q l s)))
                    else Ok (Some (skb, q), set_queue q (skb :: l) s)
              end
          end
      end
  end.

Definition ath_tx_get_tid_subframe (s : tid_state) : outcome (option (sk_buff * bool) * tid_state) :=
  get_subframe_loop (S (length (retry_q s) + length (buf_q s))) s.

(** [__skb_unlink] of the head of a queue. *)
Definition unlink_head (q : bool) (s : tid_state) : tid_state := set_queue q (tail (queue_of q s)) s.

(** * Forming aggregates *)

Definition delims_of (skb_first : sk_buff) (rates : list tx_rate) : delim_env :=
  {| de_encrypt_pad := encrypt_pad env skb_first; de_first_pad := first_pad env;
     de_mpdudensity := mpdudensity env;
     de_rate := nth 0 rates {| r_count := 0; r_idx := 0; r_mcs := false; r_40mhz := false; r_short_gi := false |} |}.

(** The loop of [ath_tx_form_aggr] from the frame [skb] of queue [q] on. The
    result: the frames taken, [closed] and [al]. *)
Fixpoint form_aggr_loop (fuel : nat) (delims : delim_env) (aggr_limit h_baw : Z) (skb : sk_buff) (q : bool)
    (nframes al bpad : Z) (s : tid_state) : outcome (list sk_buff * bool * Z * tid_state) :=
  match fuel, fi_bf skb with
  | S fuel, Some bf =>
      let al_delta := u16 (ATH_AGGR_DELIM_SZ + framelen skb) in
      if negb (nframes =? 0) &&
         ((aggr_limit <? al + bpad + al_delta) || ath_lookup_legacy (control_rates skb) || (h_baw <=? nframes) ||
          tx_probe skb || negb (tx_ampdu skb)) then Ok ([], false, al, s)
      else
        let al := u16 (al + (bpad + al_delta)) in
        let nd := ath_compute_num_delims delims (framelen skb) (nframes =? 0) in
        let bpad := u16 (PADBYTES al_delta + (nd .<< 2)) in
        let '(skb, s) := if negb (baw_tracked skb) then ath_tx_addto_baw' skb (seqno bf) s else (skb, s) in
        let skb := skb <| fi_bf := Some (bf <| ndelim := u8 nd |>) |> in
        obind (ath_tx_get_tid_subframe (unlink_head q s)) (fun '(next, s) =>
        match next with
        | None => Ok ([skb], true, al, s)
        | Some (skb', q') =>
            if ath_tid_has_buffered s then
              obind (form_aggr_loop fuel delims aggr_limit h_baw skb' q' (nframes + 1) al bpad s)
                (fun '(taken, closed, al, s) => Ok (skb :: taken, closed, al, s))
            else Ok ([skb], false, al, s)
        end)
  | _, _ => Oops
  end.

(** The frames of the aggregate, its length and the new state. A single frame
    is sent as a plain A-MPDU frame with its own length. *)
Definition ath_tx_form_aggr (rates : list tx_rate) (skb : sk_buff) (q : bool) (s : tid_state)
  : outcome (list sk_buff * Z * bool * tid_state) :=
  let limit := ath_lookup_rate (max_aggr_framelen env) rates (tx_probe skb) (bt_aggr_limit env) (maxampdu env) in
  obind (form_aggr_loop (S (length (retry_q s) + length (buf_q s))) (delims_of skb rates) limit
           (baw_size (win s) / 2) skb q 0 0 0 s) (fun '(taken, closed, al, s) =>
  match taken with
  | [skb] =>
      match fi_bf skb with
      | Some bf => Ok ([skb <| fi_bf := Some (bf <| isampdu := true |> <| isaggr := false |>) |>], framelen skb, closed, s)
      | None => Oops
      end
  | _ => Ok (taken, al, closed, s)
  end).

(** [ath_tx_form_burst]: the loop always ends after the first frame. *)
Definition ath_tx_form_burst (skb : sk_buff) (q : bool) (s : tid_state) : list sk_buff * tid_state :=
  ([skb], unlink_head q s).

(** [rates]: the result of [ath_set_rates] for the first frame; the depths are
    those of the hardware queue. The result: the unit handed to
    [ath_tx_fill_desc] and [ath_tx_txqaddbuf], with its length, [*stop] and
    the new state. *)
Definition ath_tx_sched_aggr (rates : list tx_rate) (axq_depth axq_ampdu_depth : Z) (s : tid_state)
  : outcome (option (list sk_buff * Z) * bool * tid_state) :=
  if negb (ath_tid_has_buffered s) then Ok (None, false, s)
  else
    obind (ath_tx_get_tid_subframe s) (fun '(next, s) =>
    match next with
    | None => Ok (None, false, s)
    | Some (skb, q) =>
        let aggr := tx_ampdu skb in
        if (aggr && (ATH_AGGR_MIN_QDEPTH <=? axq_ampdu_depth)) || (negb aggr && (ATH_NON_AGGR_MIN_QDEPTH <=? axq_depth))
        then Ok (None, true, s)
        else
          let skb := skb <| fi_bf ::= fmap (fun bf => bf <| bf_rates := rates |>) |> in
          obind
            (if aggr then
               obind (ath_tx_form_aggr rates skb q s) (fun '(taken, len, _, s) => Ok (taken, len, s))
             else let '(taken, s) := ath_tx_form_burst skb q s in Ok (taken, 0, s))
            (fun '(taken, len, s) =>
          match taken with
          | [] => Ok (None, false, s)
          | first :: l =>
              if clear_ps_filter s || no_ps_filter env
              then Ok (Some ((first <| tx_clear_ps_filt := true |>) :: l, len), false, s <| clear_ps_filter := false |>)
              else Ok (Some (first :: l, len), false, s)
          end)
    end).

(** * Completing an aggregate *)

(** [ath_tx_count_frames]: the frames, and those without acknowledgement. *)
Definition ath_tx_count_frames (aggr : bool) (ts : ath_tx_status) (txok : bool) (unit : list ath_buf) : Z * Z :=
  let seq_st := if aggr then ts_seqnum ts else 0 in
  let bad bf := negb txok || (aggr && negb (ATH_BA_ISSET (ba_low ts, ba_high ts) (ATH_BA_INDEX seq_st (seqno bf)))) in
  (Z.of_nat (length unit), Z.of_nat (length (filter (fun bf => bad bf = true) unit))).

(** [BUG_ON (nbad > nframes)] stops the kernel. *)
Definition ath_tx_rc_status (skb : sk_buff) (nframes nbad : Z) (txok : bool) (s : tid_state) : outcome tid_state :=
  if tx_ampdu skb && (nframes <? nbad) then Oops else Ok (emit (RcStatus (sk_id skb) nframes nbad txok) s).

(** What the loop of [ath_tx_complete_aggr] knows before it starts. *)
Record aggr_status := {
  as_aggr : bool;         (* isaggr *)
  as_txok : bool;
  as_flush : bool;
  as_seq_st : Z;
  as_ba : Z * Z;
  as_seq_first : Z;
  as_retries : Z;
  as_nframes : Z;
  as_nbad : Z;
  as_stale : bool;        (* bf_last->bf_state.stale *)
  as_ts_status : Z;
}.

Record aggr_acc := {
  acc_s : tid_state;
  acked_cnt : Z;          (* u16 *)
  txfail_cnt : Z;         (* u16 *)
  rc_update : bool;
  acc_bar : Z;            (* bar_index *)
  bf_pending : list sk_buff;
}.
#[export] Instance eta_aggr_acc : Eta aggr_acc := fun r =>
  Build_aggr_acc (acc_s r) (acked_cnt r) (txfail_cnt r) (rc_update r) (acc_bar r) (bf_pending r).

(** The branches for a subframe: left over from another session, acknowledged,
    to be sent again (and whether this counts as a retry), given up. *)
Inductive fate := Foreign | Acked | Pending (counts : bool) | GivenUp.

Definition subframe_fate (a : aggr_status) (s : tid_state) (skb : sk_buff) (bf : ath_buf) : fate :=
  let t := win s in
  if negb (BAW_WITHIN (seq_start t) (baw_size t) (seqno bf)) || negb (active t) then Foreign
  else if ATH_BA_ISSET (as_ba a) (ATH_BA_INDEX (as_seq_st a) (seqno bf)) then Acked
  else if negb (as_aggr a) && as_txok a then Acked
  else if as_flush a then Pending false
  else if retries skb <? ATH_MAX_SW_RETRIES then Pending (as_txok a || negb (sleeping s))
  else GivenUp.

(** The branch for a frame that is done. *)
Definition complete_done (a : aggr_status) (f : fate) (skb : sk_buff) (bf : ath_buf) (bf_head : list ath_buf)
    (acc : aggr_acc) : outcome aggr_acc :=
  let acc :=
    match f with
    | Acked => acc <| acked_cnt ::= fun n => u16 (n + 1) |>
    | GivenUp =>
        acc <| txfail_cnt ::= fun n => u16 (n + 1) |>
            <| acc_bar ::= fun b => Z.max b (ATH_BA_INDEX (as_seq_first a) (seqno bf)) |>
    | _ => acc
    end in
  let s := ath_tx_update_baw' (seqno bf) (acc_s acc) in
  let first := rc_update acc && ((acked_cnt acc =? 1) || (txfail_cnt acc =? 1)) in
  obind (if first then ath_tx_rc_status skb (as_nframes a) (as_nbad a) (as_txok a) s else Ok s) (fun s =>
  let ok := match f with Acked => true | _ => false end in
  Ok (acc <| rc_update ::= fun b => b && negb first |>
          <| acc_s := ath_tx_complete_buf skb bf_head (as_ts_status a) ok s |>)).

(** The branch for a frame that is sent again. [last]: the last one; when its
    buffer has to stay in the hardware queue, the frame gets a copy. The second
    result: the loop is left, since there is no free buffer. *)
Definition complete_pending (a : aggr_status) (counts last : bool) (skb : sk_buff) (bf : ath_buf)
    (bf_head : list ath_buf) (acc : aggr_acc) : aggr_acc * bool :=
  let skb := if counts then ath_tx_set_retry (as_retries a) skb else skb in
  let s := acc_s acc in
  let '(skb, s) := if tx_eosp skb then (skb <| tx_eosp := false |>, emit Eosp s) else (skb, s) in
  if last && as_stale a then
    match ath_clone_txbuf bf s with
    | None =>
        let s := ath_tx_update_baw' (seqno bf) s in
        let s := ath_tx_complete_buf skb bf_head (as_ts_status a) false s in
        (acc <| acc_s := s |> <| acc_bar ::= fun b => Z.max b (ATH_BA_INDEX (as_seq_first a) (seqno bf)) |>, true)
    | Some (tbf, s) =>
        (acc <| acc_s := s |> <| bf_pending ::= fun l => l ++ [skb <| fi_bf := Some tbf |>] |>, false)
    end
  else (acc <| acc_s := s |> <| bf_pending ::= fun l => l ++ [skb] |>, false).

Fixpoint complete_loop (a : aggr_status) (l : list sk_buff) (acc : aggr_acc) : outcome aggr_acc :=
  match l with
  | [] => Ok acc
  | skb :: l =>
      match fi_bf skb with
      | None => Oops
      | Some bf =>
          let is_last := bool_decide (l = []) in
          let keep := is_last && as_stale a in
          let bf_head := if keep then [] else [bf] in
          let acc := if keep then acc <| acc_s ::= fun s => s <| held ::= fun h => h ++ [bf] |> |> else acc in
          match subframe_fate a (acc_s acc) skb bf with
          | Pending counts =>
              let '(acc, out) := complete_pending a counts is_last skb bf bf_head acc in
              if out : bool then Ok acc else complete_loop a l acc
          | f => obind (complete_done a f skb bf bf_head acc) (complete_loop a l)
          end
      end
  end.

(** The station is gone: all frames fail. *)
Fixpoint complete_no_sta (ts_status : Z) (l : list sk_buff) (s : tid_state) : outcome tid_state :=
  match l with
  | [] => Ok s
  | skb :: l =>
      match fi_bf skb with
      | None => Oops
      | Some bf =>
          let keep := stale bf && bool_decide (l = []) in
          let s := if keep then s <| held ::= fun h => h ++ [bf] |> else s in
          complete_no_sta ts_status l (ath_tx_complete_buf skb (if keep then [] else [bf]) ts_status false s)
      end
  end.

(** The frames that are sent again go to the retry queue. *)
Definition splice_pending (status : Z) (pending : list sk_buff) (s : tid_state) : tid_state :=
  if bool_decide (pending = []) then s
  else
    let s := if sleeping s then emit (SetBuffered true) s else s in
    let s := s <| retry_q ::= fun l => l ++ pending |> in
    if negb (sleeping s) then
      let s := ath_tx_queue_tid s in
      if has status (ATH9K_TXERR_FILT .| ATH9K_TXERR_XRETRY) then s <| clear_ps_filter := true |> else s
    else s.

(** The receiver's window is moved past the frames that are given up. *)
Definition update_bar (seq_first bar : Z) (s : tid_state) : tid_state :=
  if 0 <=? bar then
    let t := win s in
    let bar_seq := ATH_BA_INDEX2SEQ seq_first bar in
    let s :=
      if BAW_WITHIN (seq_start t) (baw_size t) bar_seq
      then s <| win ::= fun t => t <| bar_index := s8 (ATH_BA_INDEX (seq_start t) bar_seq) |> |> else s in
    ath_send_bar (ATH_BA_INDEX2SEQ seq_first (bar + 1)) s
  else s.

(** [sta]: [ieee80211_find_sta_by_ifaddr] finds the station. *)
Definition ath_tx_complete_aggr (sta : bool) (ts : ath_tx_status) (txok : bool) (unit : list sk_buff) (s : tid_state)
  : outcome tid_state :=
  match unit ≫= (fun skb => option_list (fi_bf skb)), last unit with
  | (first :: _) as bfs, Some lastskb =>
      if 4 <? ts_rateindex ts then Oops
      else if negb sta then complete_no_sta (ts_status ts) unit s
      else
        let isba := has (ts_flags ts) ATH9K_TX_BA in
        let txok := if isba && negb (tidno env =? tid ts) then false else txok in
        let isaggr := isaggr first in
        let seq_first := seq_start (win s) in
        let needreset := isaggr && txok && negb isba && opmode_station env in
        let '(seq_st, ba) := if isaggr && txok && isba then (ts_seqnum ts, (ba_low ts, ba_high ts)) else (0, (0, 0)) in
        let '(nframes, nbad) := ath_tx_count_frames isaggr ts txok bfs in
        let a := {| as_aggr := isaggr; as_txok := txok; as_flush := has (ts_status ts) ATH9K_TX_FLUSH;
                    as_seq_st := seq_st; as_ba := ba; as_seq_first := seq_first;
                    as_retries := ts_longretry ts + 1 + sumZ r_count (take (Z.to_nat (ts_rateindex ts)) (bf_rates first));
                    as_nframes := nframes; as_nbad := nbad;
                    as_stale := match fi_bf lastskb with Some bf => stale bf | None => false end;
                    as_ts_status := ts_status ts |} in
        obind (complete_loop a unit {| acc_s := s; acked_cnt := 0; txfail_cnt := 0; rc_update := true; acc_bar := -1;
                                       bf_pending := [] |}) (fun acc =>
        let s := update_bar seq_first (acc_bar acc) (splice_pending (ts_status ts) (bf_pending acc) (acc_s acc)) in
        Ok (if needreset then emit QueueReset s else s))
  | _, _ => Oops
  end.

(** [ath_tx_process_buffer], without the depths of the hardware queue (see
    TxEdma) and the scheduling that follows. *)
Definition ath_tx_process_buffer (sta : bool) (ts : ath_tx_status) (unit : list sk_buff) (s : tid_state)
  : outcome tid_state :=
  let txok := negb (has (ts_status ts) ATH9K_TXERR_MASK) in
  let flush := has (ts_status ts) ATH9K_TX_FLUSH in
  match unit with
  | [] => Oops
  | skb :: l =>
      match fi_bf skb with
      | None => Oops
      | Some bf =>
          if negb (isampdu bf) then
            obind (if negb flush then ath_tx_rc_status skb 1 (if txok then 0 else 1) txok s else Ok s) (fun s =>
            let keep := stale bf in
            let s := if keep then s <| held ::= fun h => h ++ [bf] |> else s in
            Ok (ath_tx_complete_buf skb (if keep then [] else [bf]) (ts_status ts) txok s))
          else ath_tx_complete_aggr sta ts txok unit s
      end
  end.

(** * New frames, power save, start *)

(** The part of [ath_tx_start] for a frame that goes to the software queue:
    [setup_frame_info] has cleared the frame information. [q]: the queue that
    mac80211 has chosen, [own]: it is the one of the transmission. *)
Definition ath_tx_start_queue (q : Z) (own : bool) (skb : sk_buff) (s : tid_state) : tid_state :=
  let skb := skb <| retries := 0 |> <| baw_tracked := false |> <| fi_bf := None |> <| fi_txq := -1 |> in
  let '(skb, s) :=
    if own then
      let s := s <| pending_frames ::= Z.succ |> in
      (skb <| fi_txq := q |>,
       if (txq_max_pending env <? pending_frames s) && negb (stopped s) then (emit StopQueue s) <| stopped := true |> else s)
    else (skb, s) in
  let s := if tx_clear_ps_filt skb then s <| clear_ps_filter := true |> else s in
  let s := s <| buf_q ::= fun l => l ++ [skb] |> in
  if negb (sleeping s) then ath_tx_queue_tid s else s.

(** The body of [ath_tx_aggr_sleep]. *)
Definition ath_tx_aggr_sleep (s : tid_state) : tid_state :=
  if negb (queued s) then s
  else
    let buffered := ath_tid_has_buffered s in
    emit (SetBuffered buffered) (s <| queued := false |>).

(** The body of [ath_tx_aggr_wakeup], up to the scheduling. *)
Definition ath_tx_aggr_wakeup (s : tid_state) : tid_state :=
  let s := s <| clear_ps_filter := true |> in
  if ath_tid_has_buffered s then ath_tx_queue_tid s else s.

(** [ath_tx_aggr_resume], up to the scheduling: the window of the receiver. *)
Definition IEEE80211_MIN_AMPDU_BUF : Z := 0x8.
Definition ath_tx_aggr_resume (ampdu_factor : Z) (s : tid_state) : tid_state :=
  let s := s <| win ::= fun t => t <| baw_size := u16 (IEEE80211_MIN_AMPDU_BUF .<< ampdu_factor) |> |> in
  if ath_tid_has_buffered s then ath_tx_queue_tid s else s.

(** One round of the inner loop of [ath9k_release_buffered_frames]: a frame
    for a sleeping station that has asked for it; [rates] as in
    [ath_tx_sched_aggr]. *)
Definition release_frame (rates : list tx_rate) (s : tid_state) : outcome (option sk_buff * tid_state) :=
  obind (ath_tx_get_tid_subframe s) (fun '(next, s) =>
  match next with
  | None => Ok (None, s)
  | Some (skb, q) =>
      let s := unlink_head q s in
      match fi_bf skb with
      | None => Oops
      | Some bf =>
          let bf := bf <| bf_rates := rates |> in
          let '(skb, s) :=
            if isampdu bf then
              let '(skb, s) := ath_tx_addto_baw' skb (seqno bf) s in
              (skb <| fi_bf := Some (bf <| isaggr := false |>) |>, s)
            else (skb <| fi_bf := Some bf |>, s) in
          Ok (Some skb, if an_sta env && negb (ath_tid_has_buffered s) then emit (SetBuffered false) s else s)
      end
  end).

(** [ath_tx_node_init] with the buffers of [ath_tx_init]. *)
Definition tid_init (pool : list ath_buf) : tid_state :=
  {| win := ath_tx_node_init_tid; buf_q := []; retry_q := []; clear_ps_filter := true; queued := false;
     sleeping := false; txbuf := pool; held := []; pending_frames := 0; stopped := false; events := [] |}.
End Tid.
