(* ===== verification/TxTidAcct.v ===== *)
(** Frames and buffers of a traffic identifier are neither lost nor
    duplicated, whatever operations run: every frame is in a queue, in flight
    or reported to mac80211, and every buffer belongs to a frame, is free or is
    a holding descriptor. *)

From S2P Require Import Prelude Baw Airtime Desc TxTid.

(** * Sequences of operations

    The state of a run: the traffic identifier and its units in flight. *)
Abbreviation tid_run_state := (tid_state * list (list sk_buff))%type.

Inductive tid_op :=
  | OpSubmit (q : Z) (own : bool) (k : sk_buff)
  | OpSched (rates : list tx_rate) (axq_depth axq_ampdu_depth : Z)
  | OpRelease (rates : list tx_rate)
  | OpComplete (n : nat) (sta holding : bool) (ts : ath_tx_status)
  | OpReclaim | OpStart | OpStop | OpCleanup | OpSleep | OpWakeup
  | OpResume (ampdu_factor : Z).

(** The tasklet marks the last buffer of a unit that stays as holding
    descriptor. *)
Definition mark_stale (b : bool) (u : list sk_buff) : list sk_buff :=
  match last u with
  | Some k => removelast u ++ [k <| fi_bf ::= fmap (fun bf => bf <| stale := b |>) |>]
  | None => []
  end.

(** [OpComplete]: the hardware reports the unit [n]; the units of several
    hardware queues are in flight, so it may be any of them. [OpReclaim]: a
    holding descriptor is free again. *)
Definition tid_exec (env : tid_env) (o : tid_op) (x : tid_run_state) : outcome tid_run_state :=
  let '(s, hw) := x in
  match o with
  | OpSubmit q own k => Ok (ath_tx_start_queue env q own k s, hw)
  | OpSched rates d da =>
      obind (ath_tx_sched_aggr env rates d da s) (fun '(r, _, s) => Ok (s, hw ++ option_list (fst <$> r)))
  | OpRelease rates =>
      obind (release_frame env rates s) (fun '(r, s) => Ok (s, hw ++ option_list ((fun k => [k]) <$> r)))
  | OpComplete n sta holding ts =>
      match hw !! n with
      | None => Ok x
      | Some u => obind (ath_tx_process_buffer env sta ts (mark_stale holding u) s) (fun s => Ok (s, delete n hw))
      end
  | OpReclaim =>
      match held s with
      | [] => Ok x
      | bf :: l => Ok (ath_tx_return_buffer bf (s <| held := l |>), hw)
      end
  | OpStart => Ok (fst (ath_tx_aggr_start env s), hw)
  | OpStop => Ok (ath_tx_aggr_stop env s, hw)
  | OpCleanup => Ok (node_cleanup_tid env s, hw)
  | OpSleep => Ok (ath_tx_aggr_sleep (s <| sleeping := true |>), hw)
  | OpWakeup => Ok (ath_tx_aggr_wakeup env (s <| sleeping := false |>), hw)
  | OpResume factor => Ok (ath_tx_aggr_resume env factor s, hw)
  end.

Fixpoint tid_run (env : tid_env) (l : list tid_op) (x : tid_run_state) : outcome tid_run_state :=
  match l with
  | [] => Ok x
  | o :: l => obind (tid_exec env o x) (tid_run env l)
  end.

Definition submitted (l : list tid_op) : list Z :=
  l ≫= fun o => match o with OpSubmit _ _ k => [sk_id k] | _ => [] end.

(** Reporting a frame changes nothing but the events, the pending count and the
    free buffers. *)
Record same_tid (s s' : tid_state) : Prop := {
  same_win : win s' = win s;
  same_buf_q : buf_q s' = buf_q s;
  same_retry_q : retry_q s' = retry_q s;
}.
#[export] Instance same_tid_preorder : PreOrder same_tid.
Proof. split; [by split|]. intros s1 s2 s3 [] []. split; congruence. Qed.

Lemma skb_done_same env k s : same_tid s (ath_txq_skb_done env k s) /\ txbuf (ath_txq_skb_done env k s) = txbuf s.
Proof. unfold ath_txq_skb_done, emit. repeat case_match; done. Qed.
Lemma free_skb_same env k s : same_tid s (free_skb env k s) /\ txbuf (free_skb env k s) = txbuf s.
Proof.
  unfold free_skb. destruct (skb_done_same env k s) as [[] E]. by repeat split.
Qed.
Lemma complete_same env k ok f s : same_tid s (ath_tx_complete env k ok f s) /\ txbuf (ath_tx_complete env k ok f s) = txbuf s.
Proof. unfold ath_tx_complete. destruct (skb_done_same env k (emit (TxStatus (sk_id k) ok f) s)) as [[] E]. by repeat split. Qed.
Lemma complete_buf_same env k l st ok s :
  same_tid s (ath_tx_complete_buf env k l st ok s) /\ txbuf (ath_tx_complete_buf env k l st ok s) = txbuf s ++ l.
Proof.
  unfold ath_tx_complete_buf. destruct (complete_same env k ok (has st ATH9K_TXERR_FILT) s) as [[] E].
  split; [by split|]. cbn. by rewrite E.
Qed.
Lemma setup_buffer_queues env k s :
  let s' := snd (ath_tx_setup_buffer env k s) in
  buf_q s' = buf_q s /\ retry_q s' = retry_q s /\ sleeping s' = sleeping s /\ held s' = held s.
Proof. unfold ath_tx_setup_buffer, ath_tx_get_buffer. by repeat (case_match; simplify_eq). Qed.
Lemma change_state_queues env l : forall s,
  let s' := snd (change_state_loop env l s) in buf_q s' = buf_q s /\ retry_q s' = retry_q s.
Proof.
  induction l as [|k l IH]; intros s; cbn [change_state_loop]; [done|]. cbv zeta in *. destruct (fi_bf _).
  - specialize (IH s). by destruct (change_state_loop env l s).
  - match goal with |- context [ath_tx_setup_buffer env ?k0 s] =>
      destruct (setup_buffer_queues env k0 s) as (E1 & E2 & _); destruct (ath_tx_setup_buffer env k0 s) as [[k1|] s1] end; cbn in E1, E2.
    + specialize (IH s1). destruct (change_state_loop env l s1). cbn in *. by rewrite <- E1, <- E2.
    + match goal with |- context [free_skb env ?k0 s1] => destruct (free_skb_same env k0 s1) as [[] _]; specialize (IH (free_skb env k0 s1)) end.
      destruct IH as [-> ->]. split; congruence.
Qed.

(** * Accounts *)

Abbreviation item := (Z + Z)%type.   (* a frame, a buffer *)
Definition skb_items (k : sk_buff) : list item := inl (sk_id k) :: (inr ∘ bf_id <$> option_list (fi_bf k)).
Definition event_items (e : tid_event) : list item :=
  match e with TxStatus id _ _ | FreeSkb id => [inl id] | _ => [] end.
Definition tid_items (s : tid_state) (hw : list (list sk_buff)) : list item :=
  (buf_q s ≫= skb_items) ++ (retry_q s ≫= skb_items) ++ (concat hw ≫= skb_items) ++
  (inr ∘ bf_id <$> txbuf s) ++ (inr ∘ bf_id <$> held s) ++ (events s ≫= event_items).

Section Acct.
Context (env : tid_env) (x : item).

(** The number of times that [x] occurs. *)
Definition occ (l : list item) : nat := length (filter (fun y => y = x) l).
Definition occ_skb (k : sk_buff) : nat := occ (skb_items k).
Definition occ_skbs (l : list sk_buff) : nat := occ (l ≫= skb_items).
Definition occ_bufs (l : list ath_buf) : nat := occ (inr ∘ bf_id <$> l).
Definition occ_events (l : list tid_event) : nat := occ (l ≫= event_items).
Definition occ_state (s : tid_state) : nat :=
  (occ_skbs (buf_q s) + occ_skbs (retry_q s) + occ_bufs (txbuf s) + occ_bufs (held s) + occ_events (events s))%nat.

Lemma occ_app l1 l2 : occ (l1 ++ l2) = (occ l1 + occ l2)%nat.
Proof using. unfold occ. by rewrite filter_app, length_app. Qed.
Lemma occ_nil : occ [] = 0%nat.
Proof using. done. Qed.
Lemma occ_cons y l : occ (y :: l) = (occ [y] + occ l)%nat.
Proof using. apply (occ_app [y] l). Qed.
Lemma occ_skbs_app l1 l2 : occ_skbs (l1 ++ l2) = (occ_skbs l1 + occ_skbs l2)%nat.
Proof using. unfold occ_skbs. by rewrite bind_app, occ_app. Qed.
Lemma occ_skbs_cons k l : occ_skbs (k :: l) = (occ_skb k + occ_skbs l)%nat.
Proof using. unfold occ_skbs, occ_skb. by rewrite bind_cons, occ_app. Qed.
Lemma occ_skbs_nil : occ_skbs [] = 0%nat.
Proof using. done. Qed.
Lemma occ_bufs_app l1 l2 : occ_bufs (l1 ++ l2) = (occ_bufs l1 + occ_bufs l2)%nat.
Proof using. unfold occ_bufs. by rewrite fmap_app, occ_app. Qed.
Lemma occ_bufs_cons bf l : occ_bufs (bf :: l) = (occ_bufs [bf] + occ_bufs l)%nat.
Proof using. apply (occ_bufs_app [bf] l). Qed.
Lemma occ_bufs_nil : occ_bufs [] = 0%nat.
Proof using. done. Qed.
Lemma occ_events_app l1 l2 : occ_events (l1 ++ l2) = (occ_events l1 + occ_events l2)%nat.
Proof using. unfold occ_events. by rewrite bind_app, occ_app. Qed.
Lemma occ_status id ok f : occ_events [TxStatus id ok f] = occ [inl id].
Proof using. done. Qed.
Lemma occ_other e : event_items e = [] -> occ_events [e] = 0%nat.
Proof using. intros E. unfold occ_events. cbn. by rewrite E. Qed.
Lemma occ_free id : occ_events [FreeSkb id] = occ [inl id].
Proof using. done. Qed.

(** A frame with and without its buffer. *)
Lemma occ_skb_some k bf : fi_bf k = Some bf -> occ_skb k = (occ [inl (sk_id k)] + occ_bufs [bf])%nat.
Proof using. intros E. unfold occ_skb, skb_items. rewrite E. apply (occ_app [inl (sk_id k)]). Qed.
Lemma occ_skb_none k : fi_bf k = None -> occ_skb k = occ [inl (sk_id k)].
Proof using. intros E. unfold occ_skb, skb_items. by rewrite E. Qed.
Lemma occ_skb_eq k k' : sk_id k = sk_id k' -> (bf_id <$> fi_bf k) = (bf_id <$> fi_bf k') -> occ_skb k = occ_skb k'.
Proof using.
  unfold occ_skb, skb_items. intros -> E. do 2 f_equal. destruct (fi_bf k), (fi_bf k'); cbn in *; congruence.
Qed.
Lemma occ_set_bf k bf bf' : fi_bf k = Some bf -> bf_id bf' = bf_id bf -> occ_skb (k <| fi_bf := Some bf' |>) = occ_skb k.
Proof using. intros E E'. apply occ_skb_eq; [done|]. rewrite E. cbn. by rewrite E'. Qed.
Lemma occ_bufs_eq bf bf' : bf_id bf = bf_id bf' -> occ_bufs [bf] = occ_bufs [bf'].
Proof using. intros E. unfold occ_bufs. cbn. by rewrite E. Qed.
End Acct.

Arguments occ : simpl never.
Arguments occ_skb : simpl never.
Arguments occ_skbs : simpl never.
Arguments occ_bufs : simpl never.
Arguments occ_events : simpl never.

Create Rewrite HintDb acct.
#[export] Hint Rewrite occ_nil occ_skbs_app occ_skbs_cons occ_skbs_nil occ_bufs_app occ_bufs_nil occ_events_app occ_status
  occ_free : acct.

(** [acct] computes both sides of an equation of accounts. *)
Ltac acct := unfold occ_state in *; cbn in *; autorewrite with acct in *; try lia.

(** A unit of several frames is one of A-MPDU frames. *)
Definition unit_ok (u : list sk_buff) : Prop :=
  match u with
  | k :: _ :: _ => forall bf, fi_bf k = Some bf -> isampdu bf = true
  | _ => True
  end.

Section Steps.
Context (env : tid_env) (x : item).
Abbreviation occs := (occ_state x).

Lemma emit_occ e s : occs (emit e s) = (occs s + occ_events x [e])%nat.
Proof using. unfold emit. acct. Qed.
Lemma skb_done_occ k s : occs (ath_txq_skb_done env k s) = occs s.
Proof using.
  unfold ath_txq_skb_done, emit. destruct (fi_txq k <? 0); [done|].
  repeat case_match; acct; by rewrite Nat.add_0_r.
Qed.
Lemma queue_tid_occ s : occs (ath_tx_queue_tid env s) = occs s.
Proof using. unfold ath_tx_queue_tid. by case_match. Qed.
Lemma update_baw_occ n s : occs (ath_tx_update_baw' n s) = occs s.
Proof using. done. Qed.
Lemma send_bar_occ n s : occs (ath_send_bar env n s) = occs s.
Proof using. unfold ath_send_bar. case_match; [|done]. rewrite emit_occ, occ_other by done. lia. Qed.
Lemma free_skb_occ k s : occs (free_skb env k s) = (occs s + occ x [inl (sk_id k)])%nat.
Proof using. unfold free_skb. rewrite emit_occ, skb_done_occ. done. Qed.
Lemma complete_occ k ok f s : occs (ath_tx_complete env k ok f s) = (occs s + occ x [inl (sk_id k)])%nat.
Proof using. unfold ath_tx_complete. rewrite skb_done_occ, emit_occ. done. Qed.
Lemma complete_buf_occ k l st ok s :
  occs (ath_tx_complete_buf env k l st ok s) = (occs s + occ x [inl (sk_id k)] + occ_bufs x l)%nat.
Proof using.
  unfold ath_tx_complete_buf. rewrite <- (complete_occ k ok (has st ATH9K_TXERR_FILT) s).
  generalize (ath_tx_complete env k ok (has st ATH9K_TXERR_FILT) s) as s'. intros s'. acct.
Qed.

(** [setup_buffer]: on success the frame has got a buffer. *)
Lemma setup_buffer_occ k s : fi_bf k = None ->
  match ath_tx_setup_buffer env k s with
  | (Some k', s') => occs s' + occ_skb x k' = occs s + occ_skb x k /\ sk_id k' = sk_id k /\ fi_bf k' <> None
  | (None, s') => occs s' = occs s
  end%nat.
Proof using.
  intros Hk. unfold ath_tx_setup_buffer, ath_tx_get_buffer. destruct (txbuf s) as [|bf l] eqn:E; [done|].
  match goal with |- context [if data_present k then ?a else ?b] =>
    destruct (if data_present k then a else b) as [[k1 bf1] s1] eqn:E1 end.
  assert (sk_id k1 = sk_id k /\ bf_id bf1 = bf_id bf /\ occs s = (occs s1 + occ_bufs x [bf])%nat) as (Hi & Hb & Ho).
  { destruct (data_present k); injection E1 as <- <- <-.
    - split; [by case_match|]. split; [done|]. unfold occ_state. rewrite E, occ_bufs_cons. cbn. lia.
    - split; [done|]. split; [done|]. unfold occ_state. rewrite E, occ_bufs_cons. cbn. lia. }
  clear E1. destruct (dma_mapping_error env k1).
  - unfold ath_tx_return_buffer. rewrite Ho, (occ_bufs_eq x bf bf1) by done. acct.
  - split; [|by cbn]. rewrite (occ_skb_some x _ bf1) by done. rewrite (occ_skb_none x k), Ho, (occ_bufs_eq x bf bf1) by done.
    cbn. rewrite Hi. lia.
Qed.

(** ** Sessions *)

Lemma change_state_occ l : forall s,
  let '(l', s') := change_state_loop env l s in (occs s' + occ_skbs x l' = occs s + occ_skbs x l)%nat.
Proof using.
  induction l as [|k l IH]; intros s; cbn [change_state_loop]; [done|].
  destruct (fi_bf _) as [bf|] eqn:Eb; cbn in Eb.
  - specialize (IH s). destruct (change_state_loop env l s) as [l' s']. autorewrite with acct.
    rewrite (occ_skb_eq x k (k <| tx_ampdu := false |>)) by done. lia.
  - match goal with |- context [ath_tx_setup_buffer env ?k0 s] => set (k1 := k0) in * end.
    pose proof (setup_buffer_occ k1 s Eb) as Hs. assert (occ_skb x k1 = occ_skb x k) as Ek by by apply occ_skb_eq.
    autorewrite with acct. destruct (ath_tx_setup_buffer env k1 s) as [[k'|] s'].
    + destruct Hs as (Hs & _). specialize (IH s'). destruct (change_state_loop env l s') as [l' s'']. autorewrite with acct. lia.
    + specialize (IH (free_skb env k1 s')). destruct (change_state_loop env l _) as [l' s''].
      rewrite free_skb_occ, Hs in IH. rewrite <- Ek, (occ_skb_none x k1) by done. lia.
Qed.

Lemma change_state_total s : occs (ath_tx_tid_change_state env s) = occs s.
Proof using.
  unfold ath_tx_tid_change_state. pose proof (change_state_occ (buf_q s) s) as H.
  destruct (change_state_queues env (buf_q s) s) as [Hq _].
  destruct (change_state_loop env (buf_q s) s) as [l s']. cbn in Hq. acct. rewrite Hq in H. lia.
Qed.

Lemma flush_loop_occ l : forall b s, retry_q s = l -> occs (snd (flush_loop env l b s)) = occs s.
Proof using.
  induction l as [|k l IH]; intros b s Hq; cbn [flush_loop]; [done|].
  destruct (fi_bf k) as [bf|] eqn:Eb.
  - set (s1 := s <| retry_q := l |>). set (s2 := if baw_tracked k then _ else _).
    assert (retry_q s2 = l /\ occs s2 = occs s1) as [Hq2 E2] by (subst s2; by case_match).
    rewrite IH; [|by rewrite (same_retry_q _ _ (proj1 (complete_buf_same env k [bf] 0 false s2)))].
    rewrite complete_buf_occ, E2. subst s1. clear s2 Hq2 E2. acct. rewrite Hq. acct. rewrite (occ_skb_some x k bf) by done. lia.
  - rewrite IH; [|exact (same_retry_q _ _ (proj1 (free_skb_same env k (s <| retry_q := l |>))))].
    rewrite free_skb_occ. acct. rewrite Hq. acct. rewrite (occ_skb_none x k) by done. lia.
Qed.

Lemma aggr_start_occ s : occs (fst (ath_tx_aggr_start env s)) = occs s.
Proof using. rewrite <- (change_state_total s). unfold ath_tx_aggr_start. by destruct (aggr_start_window _). Qed.

Lemma aggr_stop_occ s : occs (ath_tx_aggr_stop env s) = occs s.
Proof using.
  unfold ath_tx_aggr_stop, ath_tx_flush_tid. rewrite change_state_total. set (s1 := s <| win ::= _ |>).
  change (occs s) with (occs s1). pose proof (flush_loop_occ (retry_q s1) false s1 eq_refl) as H.
  destruct (flush_loop env (retry_q s1) false s1) as [[] s2]; [by rewrite send_bar_occ|done].
Qed.

Lemma drain_occ fuel : forall s, occs (ath_tid_drain env fuel s) = occs s.
Proof using.
  induction fuel as [|fuel IH]; intros s; cbn [ath_tid_drain]; [done|].
  destruct (ath_tid_dequeue s) as [[k s']|] eqn:E; [|done]. rewrite IH.
  assert (occs s = occs s' + occ_skb x k)%nat as ->.
  { unfold ath_tid_dequeue in E. destruct (retry_q s) eqn:E1; [destruct (buf_q s) eqn:E2; [done|]|]; injection E as <- <-; acct.
    - rewrite E1, E2. acct.
    - rewrite E1. acct. }
  destruct (fi_bf k) as [bf|] eqn:Eb.
  - rewrite complete_buf_occ, (occ_skb_some x k bf) by done. lia.
  - by rewrite complete_occ, (occ_skb_none x k).
Qed.

(** ** Sending *)

Lemma set_queue_occ q l s : (occs (set_queue q l s) + occ_skbs x (queue_of q s) = occs s + occ_skbs x l)%nat.
Proof using. unfold set_queue, queue_of. destruct q; acct. Qed.

Lemma set_head_occ q k k' l s : queue_of q s = k :: l ->
  (occs (set_queue q (k' :: l) s) + occ_skb x k = occs s + occ_skb x k')%nat.
Proof using. intros E. pose proof (set_queue_occ q (k' :: l) s) as H. rewrite E in H. autorewrite with acct in H. lia. Qed.
Lemma unlink_occ q k l s : queue_of q s = k :: l -> (occs (unlink_head q s) + occ_skb x k = occs s)%nat.
Proof using.
  intros E. unfold unlink_head. pose proof (set_queue_occ q (tail (queue_of q s)) s) as H. rewrite E in *. cbn [tail] in *.
  autorewrite with acct in H. lia.
Qed.
Lemma queue_of_set q l s : queue_of q (set_queue q l s) = l.
Proof using. by destruct q. Qed.

(** The result of choosing a subframe: the frame is the head of its queue. *)
Definition chosen (s : tid_state) (r : option (sk_buff * bool)) : Prop :=
  match r with
  | Some (k, q) => (exists l, queue_of q s = k :: l) /\ fi_bf k <> None
  | None => True
  end.

Lemma subframe_buffer_occ k s :
  match subframe_buffer env k s with
  | (Some k', s') => occs s' + occ_skb x k' = occs s + occ_skb x k /\ sk_id k' = sk_id k /\ fi_bf k' <> None
  | (None, s') => occs s' = occs s /\ fi_bf k = None
  end%nat.
Proof using.
  unfold subframe_buffer. destruct (fi_bf k) as [bf|] eqn:Eb.
  - split_and!; [|done|done]. f_equal. apply occ_skb_eq; [done|]. by rewrite Eb.
  - pose proof (setup_buffer_occ k s Eb) as H. by destruct (ath_tx_setup_buffer env k s) as [[k'|] s'].
Qed.
Lemma subframe_buffer_queues k s :
  let s' := snd (subframe_buffer env k s) in buf_q s' = buf_q s /\ retry_q s' = retry_q s.
Proof using.
  unfold subframe_buffer. destruct (fi_bf k); [done|]. by destruct (setup_buffer_queues env k s) as (E1 & E2 & _).
Qed.

Lemma get_loop_occ fuel : forall s r s',
  get_subframe_loop env fuel s = Ok (r, s') -> occs s' = occs s /\ chosen s' r.
Proof using.
  induction fuel as [|fuel IH]; intros s r s'; cbn [get_subframe_loop]; [done|].
  destruct (queue_of (which_q s) s) as [|k l] eqn:Eq; [by intros [= <- <-]|]. set (q := which_q s) in *.
  pose proof (subframe_buffer_occ k s) as Hb. destruct (subframe_buffer_queues k s) as [E1 E2].
  destruct (subframe_buffer env k s) as [k' s1]. cbn in E1, E2.
  assert (queue_of q s1 = k :: l) as Eq1 by (rewrite <- Eq; unfold queue_of; by rewrite E1, E2). clear E1 E2.
  destruct k' as [k'|].
  - destruct Hb as (Ho & Hi' & Hb).
    destruct (fi_bf k') as [bf|] eqn:Eb; [|done]. cbv zeta.
    match goal with |- context [if negb (active (win s1)) then ?a else ?b] => set (k1 := if negb (active (win s1)) then a else b) end.
    assert (sk_id k1 = sk_id k' /\ fi_bf k1 = Some bf) as [Hi Hb1] by (subst k1; by case_match). clearbody k1.
    assert (forall bf', bf_id bf' = bf_id bf -> occ_skb x (k1 <| fi_bf := Some bf' |>) = occ_skb x k') as Hk.
    { intros bf' E. apply occ_skb_eq; [done|]. rewrite Eb. cbn. by rewrite E. }
    assert (forall bf', bf_id bf' = bf_id bf -> let k2 := k1 <| fi_bf := Some bf' |> in
      occs (set_queue q (k2 :: l) s1) = occs s /\ queue_of q (set_queue q (k2 :: l) s1) = k2 :: l) as Hset.
    { intros bf' E k2. pose proof (set_head_occ q k k2 l s1 Eq1) as H. subst k2. rewrite Hk in H by done.
      rewrite queue_of_set. split; [lia|done]. }
    destruct (tx_ampdu k1); cbn [negb].
    + destruct (BAW_WITHIN _ _ _); cbn [negb].
      2: { intros [= <- <-]. split; [by apply Hset|done]. }
      destruct (_ <? bar_index _).
      * intros [E Hch]%IH. split; [|done]. rewrite E. rewrite complete_buf_occ, update_baw_occ.
        pose proof (set_queue_occ q l s1) as H. rewrite Eq1 in H. autorewrite with acct in H.
        rewrite (occ_skb_some x k' bf) in Ho by done. cbn. rewrite Hi. lia.
      * intros [= <- <-]. split; [by apply Hset|]. split; [eexists; by apply Hset|done].
    + intros [= <- <-]. split; [by apply Hset|]. split; [eexists; by apply Hset|done].
  - intros [E Hch]%IH. split; [|done]. rewrite E, free_skb_occ. pose proof (set_queue_occ q l s1) as H. rewrite Eq1 in H.
    autorewrite with acct in H. destruct Hb as [Hb Eb]. rewrite (occ_skb_none x k) in H by done. lia.
Qed.

Lemma get_subframe_occ s r s' : ath_tx_get_tid_subframe env s = Ok (r, s') -> occs s' = occs s /\ chosen s' r.
Proof using. apply get_loop_occ. Qed.

Lemma form_aggr_loop_occ fuel d lim h : forall k q n al bp s taken closed al' s' k0 l,
  form_aggr_loop env fuel d lim h k q n al bp s = Ok (taken, closed, al', s') ->
  queue_of q s = k0 :: l -> occ_skb x k0 = occ_skb x k ->
  (occs s' + occ_skbs x taken = occs s)%nat.
Proof using.
  induction fuel as [|fuel IH]; intros k q n al bp s taken closed al' s' k0 l; cbn [form_aggr_loop]; [done|].
  destruct (fi_bf k) as [bf|] eqn:Eb; [|done]. destruct (_ && _); [by intros [= <- <- <- <-]|].
  match goal with |- context [if negb (baw_tracked k) then ?a else ?b] =>
    destruct (if negb (baw_tracked k) then a else b) as [k1 s1] eqn:E1 end.
  assert (queue_of q s1 = queue_of q s /\ occs s1 = occs s /\ sk_id k1 = sk_id k) as (Eq & Eo & Ei).
  { destruct (negb _); injection E1 as <- <-; [by destruct q|done]. }
  clear E1. intros E Hq Hk. set (k2 := k1 <| fi_bf := _ |>) in E.
  assert (occ_skb x k2 = occ_skb x k) as Hk2 by (apply occ_skb_eq; [done|by rewrite Eb]). clearbody k2.
  destruct (ath_tx_get_tid_subframe env (unlink_head q s1)) as [[next s2]|] eqn:E2; [|done]. cbn [obind] in E.
  apply get_subframe_occ in E2 as [E2 Hc]. pose proof (unlink_occ q k0 l s1 (eq_trans Eq Hq)) as Hu.
  destruct next as [[k3 q3]|]; [|injection E as <- <- <- <-; autorewrite with acct; lia].
  destruct (ath_tid_has_buffered s2); [|injection E as <- <- <- <-; autorewrite with acct; lia].
  destruct (form_aggr_loop env fuel _ _ _ k3 q3 _ _ _ s2) as [[[[tk cl] a1] s3]|] eqn:E3; [|done].
  injection E as <- <- <- <-. destruct Hc as [[l3 Hl3] _]. eapply IH in E3; [|exact Hl3|done]. autorewrite with acct. lia.
Qed.

Lemma concat_unit (u : list sk_buff) (len : Z) : concat (option_list (fst <$> Some (u, len))) = u.
Proof using. cbn. apply app_nil_r. Qed.

Lemma sched_aggr_occ rates d da s r stop s' : ath_tx_sched_aggr env rates d da s = Ok (r, stop, s') ->
  (occs s' + occ_skbs x (concat (option_list (fst <$> r))) = occs s)%nat.
Proof using.
  unfold ath_tx_sched_aggr. destruct (negb _); [by intros [= <- <- <-]|].
  destruct (ath_tx_get_tid_subframe env s) as [[next s1]|] eqn:E1; [|done]. cbn [obind].
  apply get_subframe_occ in E1 as [E1 Hc]. destruct next as [[k q]|]; [|intros [= <- <- <-]; acct].
  destruct (_ || _); [intros [= <- <- <-]; acct|]. destruct Hc as [[l Hl] Hb].
  set (k1 := k <| fi_bf ::= _ |>). assert (occ_skb x k = occ_skb x k1) as Hk.
  { apply occ_skb_eq; [done|]. cbn. by destruct (fi_bf k). }
  clearbody k1. cbv zeta.
  match goal with |- obind ?a _ = _ -> _ => destruct a as [[[taken len] s2]|] eqn:E2; [|done] end. cbn [obind].
  assert (occs s2 + occ_skbs x taken = occs s1)%nat as Ho.
  { destruct (tx_ampdu k).
    - unfold ath_tx_form_aggr in E2.
      match type of E2 with context [form_aggr_loop env ?f ?d ?m ?h k1 q 0 0 0 s1] =>
        destruct (form_aggr_loop env f d m h k1 q 0 0 0 s1) as [[[[tk cl] a1] s3]|] eqn:E3; [|done] end. cbn [obind] in E2.
      eapply form_aggr_loop_occ in E3; [|exact Hl|done]. destruct tk as [|k2 [|k3 tk]]; cbn [obind] in E2; [simplify_eq/=; lia| |simplify_eq/=; lia].
      destruct (fi_bf k2) as [bf|] eqn:Eb; [|done]. cbn [obind] in E2. injection E2 as <- <- <-. autorewrite with acct in *.
      match goal with |- context [occ_skb x ?r] => rewrite (occ_skb_eq x r k2); [lia|done|by rewrite Eb] end.
    - unfold ath_tx_form_burst in E2. injection E2 as <- <- <-. pose proof (unlink_occ q k l s1 Hl). autorewrite with acct. lia. }
  rewrite <- E1, <- Ho. destruct taken as [|k2 tk]; [intros [= <- <- <-]; acct|].
  destruct (_ || _); intros [= <- <- <-]; rewrite concat_unit.
  - autorewrite with acct. match goal with |- context [(occ_skb x ?r + _)%nat] => by rewrite (occ_skb_eq x r k2) end.
  - done.
Qed.

Lemma release_frame_occ rates s r s' : release_frame env rates s = Ok (r, s') ->
  (occs s' + occ_skbs x (option_list r) = occs s)%nat.
Proof using.
  unfold release_frame. destruct (ath_tx_get_tid_subframe env s) as [[next s1]|] eqn:E1; [|done]. cbn [obind].
  apply get_subframe_occ in E1 as [E1 Hc]. destruct next as [[k q]|]; [|intros [= <- <-]; acct].
  destruct Hc as [[l Hl] _]. destruct (fi_bf k) as [bf|] eqn:Eb; [|done]. pose proof (unlink_occ q k l s1 Hl) as Hu.
  match goal with |- context [if isampdu ?b then ?a else ?c] => destruct (if isampdu b then a else c) as [k1 s2] eqn:E2 end.
  assert (occs s2 = occs (unlink_head q s1) /\ occ_skb x k1 = occ_skb x k) as [E3 E4].
  { destruct (isampdu _); injection E2 as <- <-; (split; [done|]); (apply occ_skb_eq; [done|by rewrite Eb]). }
  match goal with |- Ok (_, ?t) = _ -> _ => set (s3 := t) end.
  assert (occs s3 = occs s2) by (subst s3; destruct (_ && _); [rewrite emit_occ, occ_other by done; lia|done]). clearbody s3.
  intros [= <- <-]. change (option_list (Some k1)) with [k1]. autorewrite with acct. lia.
Qed.

(** ** Completion *)

Definition occ_acc (acc : aggr_acc) : nat := (occs (acc_s acc) + occ_skbs x (bf_pending acc))%nat.

Lemma rc_status_occ k n b ok s s' : ath_tx_rc_status k n b ok s = Ok s' -> occs s' = occs s.
Proof using.
  unfold ath_tx_rc_status. destruct (_ && _); [done|]. intros [= <-]. change (occs (emit (RcStatus (sk_id k) n b ok) s) = occs s).
  rewrite emit_occ, occ_other by done. lia.
Qed.

Lemma complete_done_occ a f k bf hd acc acc' : complete_done env a f k bf hd acc = Ok acc' ->
  occ_acc acc' = (occ_acc acc + occ x [inl (sk_id k)] + occ_bufs x hd)%nat.
Proof using.
  unfold complete_done. set (acc1 := match f with Foreign => _ | _ => _ end). intros E.
  assert (acc_s acc1 = acc_s acc /\ bf_pending acc1 = bf_pending acc) as [E1 E2] by (subst acc1; by destruct f).
  clearbody acc1. cbv zeta in E.
  match type of E with obind ?o _ = _ => destruct o as [s1|] eqn:E3; [|done] end. cbn [obind] in E.
  assert (occs s1 = occs (acc_s acc1)) as E4.
  { destruct (_ && _); [apply rc_status_occ in E3; by rewrite E3|by injection E3 as <-]. }
  match type of E with context [ath_tx_complete_buf env k hd ?st ?ok s1] =>
    pose proof (complete_buf_occ k hd st ok s1) as E5; set (s2 := ath_tx_complete_buf env k hd st ok s1) in * end.
  clearbody s2. injection E as <-. unfold occ_acc. cbn. rewrite E5, E4, E1, E2. lia.
Qed.

(** A frame that is sent again is in the pending list with [bf] or a copy of
    it, or is reported for want of a buffer. *)
Lemma complete_pending_occ a c last k bf hd acc acc' out :
  complete_pending env a c last k bf hd acc = (acc', out) -> fi_bf k = Some bf -> hd = (if last && as_stale a then [] else [bf]) ->
  occ_acc acc' = (occ_acc acc + occ x [inl (sk_id k)] + occ_bufs x hd)%nat /\ (out = true -> last = true).
Proof using.
  unfold complete_pending. intros E Hb ->. set (k1 := if c then _ else k) in E.
  assert (sk_id k1 = sk_id k /\ fi_bf k1 = Some bf) as [H1 H2].
  { subst k1. destruct c; [|done]. unfold ath_tx_set_retry. by destruct (0 <? retries k). }
  clearbody k1. match type of E with (let '(_, _) := ?p in _) = _ => destruct p as [k2 s1] eqn:E1 end.
  assert (sk_id k2 = sk_id k /\ fi_bf k2 = Some bf /\ occs s1 = occs (acc_s acc)) as (H3 & H4 & H5).
  { destruct (tx_eosp k1); injection E1 as <- <-; [|by split_and!].
    split_and!; [done|done|]. change (occs (emit Eosp (acc_s acc)) = occs (acc_s acc)). rewrite emit_occ, occ_other by done. lia. }
  clear E1. destruct last; cbn [andb] in *; [destruct (as_stale a)|].
  - unfold ath_clone_txbuf, ath_tx_get_buffer in E. destruct (txbuf s1) as [|tbf l] eqn:Et.
    + match type of E with context [ath_tx_complete_buf env k2 [] ?st ?ok ?s] =>
        pose proof (complete_buf_occ k2 [] st ok s) as E5; set (s2 := ath_tx_complete_buf env k2 [] st ok s) in * end.
      clearbody s2. rewrite update_baw_occ in E5. injection E as <- <-. unfold occ_acc. cbn. rewrite <- H3. split; [lia|done].
    + injection E as <- <-. unfold occ_acc. cbn [acc_s bf_pending]. split; [|done]. autorewrite with acct.
      match goal with |- context [occ_skb x ?r] => rewrite (occ_skb_some x r _ eq_refl) end. cbn [sk_id].
      match goal with |- context [occ_bufs x [?b]] => rewrite (occ_bufs_eq x b tbf) by done end.
      rewrite H3, <- H5. unfold occ_state. rewrite Et, (occ_bufs_cons x tbf l). cbn. lia.
  - injection E as <- <-. unfold occ_acc. cbn. autorewrite with acct. rewrite (occ_skb_some x k2 bf), H3, H5 by done. split; [lia|done].
  - injection E as <- <-. unfold occ_acc. cbn. autorewrite with acct. rewrite (occ_skb_some x k2 bf), H3, H5 by done. split; [lia|done].
Qed.

Lemma complete_loop_occ a l : forall acc acc',
  complete_loop env a l acc = Ok acc' -> occ_acc acc' = (occ_acc acc + occ_skbs x l)%nat.
Proof using.
  induction l as [|k l IH]; intros acc acc'; cbn [complete_loop]; [intros [= <-]; autorewrite with acct; lia|].
  destruct (fi_bf k) as [bf|] eqn:Eb; [|done]. cbv zeta. set (keep := bool_decide (l = []) && as_stale a).
  set (acc1 := if keep then _ else acc). set (hd := if keep then [] else [bf]).
  assert (occ_acc acc1 + occ_bufs x hd = occ_acc acc + occ_bufs x [bf])%nat as E1.
  { subst acc1 hd. destruct keep; [|done]. unfold occ_acc. acct. }
  clearbody acc1. autorewrite with acct. rewrite (occ_skb_some x k bf) by done.
  assert (forall f, obind (complete_done env a f k bf hd acc1) (complete_loop env a l) = Ok acc' ->
    occ_acc acc' = (occ_acc acc + (occ x [inl (sk_id k)] + occ_bufs x [bf] + occ_skbs x l))%nat) as Hdone.
  { intros f. destruct (complete_done env a f k bf hd acc1) as [acc2|] eqn:E2; [|done]. cbn [obind].
    intros E%IH. apply complete_done_occ in E2. lia. }
  destruct (subframe_fate _ _ _ _); try apply Hdone.
  destruct (complete_pending env a counts (bool_decide (l = [])) k bf hd acc1) as [acc2 out] eqn:E2.
  apply complete_pending_occ in E2 as [E2 Hout]; [|done|done]. destruct out.
  - intros [= <-]. apply bool_decide_eq_true in Hout; [|done]. subst l. autorewrite with acct. lia.
  - intros E%IH. lia.
Qed.

Lemma no_sta_occ st l : forall s s', complete_no_sta env st l s = Ok s' -> occs s' = (occs s + occ_skbs x l)%nat.
Proof using.
  induction l as [|k l IH]; intros s s'; cbn [complete_no_sta]; [intros [= <-]; autorewrite with acct; lia|].
  destruct (fi_bf k) as [bf|] eqn:Eb; [|done]. cbv zeta. set (keep := stale bf && _). set (s1 := if keep then _ else s).
  set (hd := if keep then [] else [bf]).
  assert (occs s1 + occ_bufs x hd = occs s + occ_bufs x [bf])%nat as E1 by (subst s1 hd; destruct keep; acct).
  intros E%IH. rewrite complete_buf_occ in E. autorewrite with acct. rewrite (occ_skb_some x k bf) by done. lia.
Qed.

Lemma splice_pending_occ st l s : occs (splice_pending env st l s) = (occs s + occ_skbs x l)%nat.
Proof using.
  unfold splice_pending. destruct (bool_decide_reflect (l = [])) as [->|_]; [autorewrite with acct; lia|].
  set (s1 := if sleeping s then _ else s). assert (occs s1 = occs s) as <-.
  { subst s1. case_match; [|done]. rewrite emit_occ, occ_other by done. lia. }
  clearbody s1. cbv zeta. set (s2 := s1 <| retry_q ::= _ |>). assert (occs s2 = occs s1 + occ_skbs x l)%nat as <- by (subst s2; acct).
  clearbody s2. destruct (negb _); [|done]. rewrite <- (queue_tid_occ s2). generalize (ath_tx_queue_tid env s2) as s3. intros s3. by case_match.
Qed.

Lemma update_bar_occ sf b s : occs (update_bar env sf b s) = occs s.
Proof using. unfold update_bar. destruct (0 <=? b); [|done]. cbv zeta. rewrite send_bar_occ. by case_match. Qed.

Lemma complete_aggr_occ sta ts ok u s s' :
  ath_tx_complete_aggr env sta ts ok u s = Ok s' -> occs s' = (occs s + occ_skbs x u)%nat.
Proof using.
  unfold ath_tx_complete_aggr. destruct (u ≫= _) as [|first bfs]; [done|]. destruct (last u) as [lastskb|]; [|done].
  destruct (4 <? _); [done|]. destruct sta; cbn [negb]; [|apply no_sta_occ].
  cbv zeta. match goal with |- (let '(_, _) := ?p in _) = _ -> _ => destruct p as [seq_st ba] end. destruct (ath_tx_count_frames _ _ _ _) as [nf nb].
  match goal with |- context [complete_loop env ?a u ?c] => destruct (complete_loop env a u c) as [acc|] eqn:E1; [|done] end.
  apply complete_loop_occ in E1. cbn [obind]. unfold occ_acc in E1. cbn [acc_s bf_pending] in E1. autorewrite with acct in E1.
  set (s1 := update_bar _ _ _ _).
  assert (occs s1 = occs s + occ_skbs x u)%nat as E2.
  { subst s1. rewrite update_bar_occ, splice_pending_occ. lia. }
  clearbody s1. destruct (_ && _ && _).
  - match goal with |- Ok ?t = _ -> _ => set (s2 := t) end. assert (occs s2 = occs s1) as E3 by (subst s2; rewrite emit_occ, occ_other by done; lia).
    clearbody s2. intros [= <-]. lia.
  - by intros [= <-].
Qed.

Lemma mark_stale_occ b u : occ_skbs x (mark_stale b u) = occ_skbs x u.
Proof using.
  unfold mark_stale. destruct u as [|k u _] using rev_ind; [done|]. rewrite last_snoc, removelast_last. autorewrite with acct.
  f_equal. match goal with |- context [(occ_skb x ?r + _)%nat] => rewrite (occ_skb_eq x r k); [done|done|] end.
  cbn. by destruct (fi_bf k).
Qed.

Lemma process_buffer_occ sta ts u s s' :
  ath_tx_process_buffer env sta ts u s = Ok s' -> unit_ok u -> occs s' = (occs s + occ_skbs x u)%nat.
Proof using.
  unfold ath_tx_process_buffer, unit_ok. destruct u as [|k u]; [done|]. destruct (fi_bf k) as [bf|] eqn:Eb; [|done].
  destruct (isampdu bf) eqn:Ea; cbn [negb].
  { intros E _. by apply complete_aggr_occ in E. }
  match goal with |- obind ?o _ = _ -> _ => destruct o as [s1|] eqn:E1; [|done] end. cbn [obind].
  assert (occs s1 = occs s) as <-. { destruct (negb _); [by apply rc_status_occ in E1|by injection E1 as <-]. }
  cbv zeta. intros E Hu. assert (u = []) as ->. { destruct u; [done|]. specialize (Hu bf eq_refl). congruence. }
  match type of E with Ok (ath_tx_complete_buf env k ?l ?st ?ok ?t) = _ =>
    pose proof (complete_buf_occ k l st ok t) as E2; set (s2 := ath_tx_complete_buf env k l st ok t) in * end.
  clearbody s2. injection E as <-. rewrite E2. autorewrite with acct. rewrite (occ_skb_some x k bf) by done.
  destruct (stale bf); acct.
Qed.

(** ** Submitting, power save, cleanup *)

Lemma start_queue_occ q own k s : occs (ath_tx_start_queue env q own k s) = (occs s + occ x [inl (sk_id k)])%nat.
Proof using.
  unfold ath_tx_start_queue. cbv zeta.
  match goal with |- context [if own then ?a else ?b] => destruct (if own then a else b) as [k1 s1] eqn:E1 end.
  assert (sk_id k1 = sk_id k /\ fi_bf k1 = None /\ occs s1 = occs s) as (H1 & H2 & <-).
  { destruct own; injection E1 as <- <-; [|done]. split_and!; [done|done|].
    destruct (_ && _); [|done]. unfold emit. acct. rewrite occ_other by done. lia. }
  clear E1. set (s2 := if tx_clear_ps_filt k1 then _ else s1). assert (occs s2 = occs s1) as <- by (subst s2; by case_match).
  clearbody s2. set (s3 := s2 <| buf_q ::= _ |>).
  assert (occs s3 = occs s2 + occ x [inl (sk_id k)])%nat as <-.
  { subst s3. acct. rewrite (occ_skb_none x k1), H1 by done. lia. }
  clearbody s3. destruct (negb _); [by rewrite queue_tid_occ|done].
Qed.

Lemma sleep_occ s : occs (ath_tx_aggr_sleep s) = occs s.
Proof using.
  unfold ath_tx_aggr_sleep. destruct (negb _); [done|]. cbv zeta. rewrite emit_occ, occ_other by done. acct.
Qed.
Lemma wakeup_occ s : occs (ath_tx_aggr_wakeup env s) = occs s.
Proof using. unfold ath_tx_aggr_wakeup. cbv zeta. destruct (ath_tid_has_buffered _); [by rewrite queue_tid_occ|done]. Qed.
Lemma resume_occ f s : occs (ath_tx_aggr_resume env f s) = occs s.
Proof using. unfold ath_tx_aggr_resume. cbv zeta. destruct (ath_tid_has_buffered _); [by rewrite queue_tid_occ|done]. Qed.
Lemma cleanup_occ s : occs (node_cleanup_tid env s) = occs s.
Proof using.
  unfold node_cleanup_tid. cbv zeta. match goal with |- context [ath_tid_drain env ?n ?t] => pose proof (drain_occ n t) as E end.
  exact E.
Qed.
End Steps.


(** * Subframes that may be sent *)

(** What holds of a frame that [ath_tx_get_tid_subframe] returns. *)
Definition ready (s : tid_state) (k : sk_buff) : Prop :=
  exists bf, fi_bf k = Some bf /\ isampdu bf = tx_ampdu k /\ isaggr bf = tx_ampdu k /\
    (tx_ampdu k = true -> active (win s) = true /\
       BAW_WITHIN (seq_start (win s)) (baw_size (win s)) (seqno bf) = true /\
       bar_index (win s) <= ATH_BA_INDEX (seq_start (win s)) (seqno bf)).

Section Ready.
Context (env : tid_env).

Lemma get_loop_ready fuel : forall s k q s', get_subframe_loop env fuel s = Ok (Some (k, q), s') -> ready s' k.
Proof using.
  induction fuel as [|fuel IH]; intros s k q s'; cbn [get_subframe_loop]; [done|].
  destruct (queue_of (which_q s) s) as [|k0 l] eqn:Eq; [done|]. set (q0 := which_q s) in *.
  destruct (subframe_buffer env k0 s) as [[k'|] s1]; [|apply IH].
  destruct (fi_bf k') as [bf|] eqn:Eb; [|done]. cbv zeta.
  match goal with |- context [if negb (active (win s1)) then ?a else ?b] => set (k1 := if negb (active (win s1)) then a else b) end.
  assert (tx_ampdu k1 = true -> active (win s1) = true) as Ha.
  { subst k1. by destruct (active (win s1)). }
  clearbody k1. destruct (tx_ampdu k1) eqn:Et; cbn [negb].
  - destruct (BAW_WITHIN _ _ _) eqn:Ew; cbn [negb]; [|done]. destruct (_ <? bar_index _) eqn:Ei; [apply IH|].
    match goal with |- Ok (Some (?k, _), ?t) = _ -> _ => set (s2 := t); set (k2 := k) end.
    assert (win s2 = win s1) as E by (subst s2; by destruct q0). clearbody s2. intros [= <- <- <-]. apply Z.ltb_ge in Ei.
    eexists. split_and!; [done|done|done|]. intros _. rewrite E. split_and!; [by apply Ha|done|exact Ei].
  - intros [= <- <- <-]. unfold ready. cbn. eexists. split_and!; [done|done|done|]. congruence.
Qed.

Lemma form_aggr_loop_hd fuel d lim h k q n al bp s taken closed al' s' :
  form_aggr_loop env fuel d lim h k q n al bp s = Ok (taken, closed, al', s') ->
  match taken with
  | [] => True
  | k1 :: _ => exists bf bf1, fi_bf k = Some bf /\ fi_bf k1 = Some bf1 /\ isampdu bf1 = isampdu bf /\ isaggr bf1 = isaggr bf
  end.
Proof using.
  destruct fuel as [|fuel]; cbn [form_aggr_loop]; [done|].
  destruct (fi_bf k) as [bf|] eqn:Eb; [|done]. destruct (_ && _); [by intros [= <- <- <- <-]|].
  cbv zeta. match goal with |- context [if negb (baw_tracked k) then ?a else ?b] =>
    destruct (if negb (baw_tracked k) then a else b) as [k1 s1] eqn:E1 end.
  intros E. match type of E with obind ?o _ = _ => destruct o as [[next s2]|]; [|done] end. cbn [obind] in E.
  destruct next as [[k3 q3]|]; [|injection E as <- <- <- <-; by eexists _, _].
  destruct (ath_tid_has_buffered s2); [|injection E as <- <- <- <-; by eexists _, _].
  destruct (form_aggr_loop env fuel _ _ _ k3 q3 _ _ _ s2) as [[[[tk cl] a1] s3]|]; [|done].
  injection E as <- <- <- <-. by eexists _, _.
Qed.

Lemma sched_aggr_unit_ok rates d da s r stop s' :
  ath_tx_sched_aggr env rates d da s = Ok (r, stop, s') -> Forall unit_ok (option_list (fst <$> r)).
Proof using.
  unfold ath_tx_sched_aggr. destruct (negb _); [intros [= <- <- <-]; constructor|].
  destruct (ath_tx_get_tid_subframe env s) as [[next s1]|] eqn:E1; [|done]. cbn [obind].
  destruct next as [[k q]|]; [|intros [= <- <- <-]; constructor].
  destruct (_ || _); [intros [= <- <- <-]; constructor|]. cbv zeta.
  destruct (get_loop_ready _ _ _ _ _ E1) as (bf & Eb & Ea & Eg & _).
  match goal with |- obind ?a _ = _ -> _ => destruct a as [[[taken len] s2]|] eqn:E2; [|done] end. cbn [obind].
  assert (unit_ok taken) as Hu.
  { destruct (tx_ampdu k) eqn:Et.
    - unfold ath_tx_form_aggr in E2.
      match type of E2 with context [form_aggr_loop env ?f ?d ?m ?h ?k1 q 0 0 0 s1] =>
        destruct (form_aggr_loop env f d m h k1 q 0 0 0 s1) as [[[[tk cl] a1] s3]|] eqn:E3; [|done] end. cbn [obind] in E2.
      apply form_aggr_loop_hd in E3. destruct tk as [|k2 [|k3 tk]]; cbn [obind] in E2; [by simplify_eq/=| |].
      + destruct (fi_bf k2); [|done]. cbn [obind] in E2. by simplify_eq/=.
      + destruct E3 as (b & b1 & H1 & H2 & H3 & _). injection E2 as <- <- <-. intros b2 E. rewrite H2 in E. injection E as <-.
        cbn in H1. rewrite Eb in H1. injection H1 as <-. by rewrite H3.
    - unfold ath_tx_form_burst in E2. by injection E2 as <- <- <-. }
  destruct taken as [|k2 tk]; [intros [= <- <- <-]; constructor|]. clear E2.
  destruct (_ || _); intros [= <- <- <-]; (constructor; [|constructor]); [|done].
  cbn. unfold unit_ok in *. by destruct tk.
Qed.

Lemma mark_stale_ok b u : unit_ok u -> unit_ok (mark_stale b u).
Proof using.
  unfold mark_stale. destruct u as [|k u _] using rev_ind; [done|]. rewrite last_snoc, removelast_last.
  by destruct u as [|k1 [|k2 u]].
Qed.
End Ready.

(** * Conservation *)

Section Conservation.
Context (env : tid_env) (pool : list ath_buf).

Lemma occ_concat_app x hw1 hw2 : occ_skbs x (concat (hw1 ++ hw2)) = (occ_skbs x (concat hw1) + occ_skbs x (concat hw2))%nat.
Proof using. by rewrite concat_app, occ_skbs_app. Qed.

Lemma exec_ok o x y : tid_exec env o x = Ok y -> Forall unit_ok (snd x) -> Forall unit_ok (snd y).
Proof using.
  destruct x as [s hw]. cbn [snd]. intros E Hu. destruct o; cbn [tid_exec] in E; try by injection E as <-.
  - destruct (ath_tx_sched_aggr _ _ _ _ s) as [[[r stop] s']|] eqn:E1; [|done]. injection E as <-. cbn.
    apply Forall_app_2; [done|]. by eapply sched_aggr_unit_ok.
  - destruct (release_frame _ _ s) as [[r s']|]; [|done]. injection E as <-. cbn. apply Forall_app_2; [done|].
    destruct r; by repeat constructor.
  - destruct (hw !! n) as [u|]; [|by injection E as <-].
    destruct (ath_tx_process_buffer _ _ _ _ s); [|done]. injection E as <-. by apply Forall_delete.
  - by destruct (held s); injection E as <-.
Qed.

Lemma exec_occ i o x y : tid_exec env o x = Ok y -> Forall unit_ok (snd x) ->
  (occ_state i (fst y) + occ_skbs i (concat (snd y)) =
   occ i (inl <$> submitted [o]) + (occ_state i (fst x) + occ_skbs i (concat (snd x))))%nat.
Proof using.
  destruct x as [s hw]. cbn [fst snd]. intros E Hu.
  assert (forall s', occ_state i s' = occ_state i s -> Ok (s', hw) = Ok y -> submitted [o] = [] ->
    (occ_state i (fst y) + occ_skbs i (concat (snd y)) =
     occ i (inl <$> submitted [o]) + (occ_state i s + occ_skbs i (concat hw)))%nat) as Hsame.
  { intros s' E1 [= <-] ->. cbn. autorewrite with acct. by rewrite E1. }
  destruct o; cbn [tid_exec] in E.
  - injection E as <-. cbn [fst snd]. rewrite start_queue_occ. cbn. autorewrite with acct. lia.
  - destruct (ath_tx_sched_aggr _ _ _ _ s) as [[[r stop] s']|] eqn:E1; [|done]. injection E as <-. cbn [fst snd].
    apply (sched_aggr_occ env i) in E1. rewrite occ_concat_app. cbn. autorewrite with acct. lia.
  - destruct (release_frame _ _ s) as [[r s']|] eqn:E1; [|done]. injection E as <-. cbn [fst snd].
    apply (release_frame_occ env i) in E1. rewrite occ_concat_app.
    assert (concat (option_list ((fun k => [k]) <$> r)) = option_list r) as -> by by destruct r. cbn. autorewrite with acct. lia.
  - destruct (hw !! n) as [u|] eqn:En; [|by eapply Hsame].
    destruct (ath_tx_process_buffer _ _ _ _ s) as [s'|] eqn:E1; [|done]. injection E as <-. cbn [fst snd].
    apply (process_buffer_occ env i) in E1; [|by apply mark_stale_ok; eapply Forall_lookup_1]. rewrite E1, mark_stale_occ.
    assert (occ_skbs i (concat hw) = occ_skbs i (concat (delete n hw)) + occ_skbs i u)%nat as ->.
    { rewrite delete_take_drop, occ_concat_app, <- (take_drop_middle hw n u En) at 1. rewrite occ_concat_app. cbn [concat].
      autorewrite with acct. lia. }
    cbn. autorewrite with acct. lia.
  - destruct (held s) as [|bf l] eqn:Eh; [by eapply Hsame|]. eapply Hsame; [|done|done].
    unfold ath_tx_return_buffer, occ_state. cbn. rewrite Eh. autorewrite with acct. rewrite (occ_bufs_cons i bf l). lia.
  - eapply Hsame; [|done|done]. apply aggr_start_occ.
  - eapply Hsame; [|done|done]. apply aggr_stop_occ.
  - eapply Hsame; [|done|done]. apply cleanup_occ.
  - eapply Hsame; [|done|done]. by rewrite sleep_occ.
  - eapply Hsame; [|done|done]. by rewrite wakeup_occ.
  - eapply Hsame; [|done|done]. apply resume_occ.
Qed.

Lemma run_occ i l : forall x y, tid_run env l x = Ok y -> Forall unit_ok (snd x) ->
  (occ_state i (fst y) + occ_skbs i (concat (snd y)) =
   occ i (inl <$> submitted l) + (occ_state i (fst x) + occ_skbs i (concat (snd x))))%nat.
Proof using.
  induction l as [|o l IH]; intros x y; cbn [tid_run]; [by intros [= <-]|].
  destruct (tid_exec env o x) as [z|] eqn:E; [|done]. cbn [obind]. intros Hr Hu.
  rewrite (IH z y Hr) by by eapply exec_ok. rewrite (exec_occ i o x z E Hu).
  assert (submitted (o :: l) = submitted [o] ++ submitted l) as -> by by destruct o.
  rewrite fmap_app, occ_app. lia.
Qed.

Lemma occ_items i s hw : occ i (tid_items s hw) = (occ_state i s + occ_skbs i (concat hw))%nat.
Proof using. unfold tid_items. rewrite !occ_app. unfold occ_state, occ_skbs, occ_bufs, occ_events. lia. Qed.

Lemma occ_permutation (l1 l2 : list item) : (forall i, occ i l1 = occ i l2) -> l1 ≡ₚ l2.
Proof using.
  revert l2. induction l1 as [|a l1 IH]; intros l2 H.
  - destruct l2 as [|a l2]; [done|]. specialize (H a). unfold occ in H. rewrite filter_cons_True in H by done. done.
  - assert (a ∈ l2) as Ha.
    { specialize (H a). unfold occ in H. rewrite filter_cons_True in H by done. cbn in H.
      destruct (filter (fun y => y = a) l2) as [|b l] eqn:E; [done|]. assert (b ∈ filter (fun y => y = a) l2) as Hb by (rewrite E; left).
      apply list_elem_of_filter in Hb as [-> Hb]. done. }
    apply list_elem_of_split in Ha as (l3 & l4 & ->). rewrite <- Permutation_middle. constructor. apply IH. intros i. specialize (H i).
    rewrite occ_app in H. rewrite (occ_cons i a l1), (occ_cons i a l4) in H. rewrite occ_app. lia.
Qed.

(** C7. Whatever sequence of operations runs, the frames submitted and the buffers
    of the pool are exactly those in the queues, in flight, held or free, and
    reported to mac80211: none is lost, leaked or duplicated. *)
Theorem tid_conservation l s hw :
  tid_run env l (tid_init pool, []) = Ok (s, hw) ->
  tid_items s hw ≡ₚ (inl <$> submitted l) ++ (inr ∘ bf_id <$> pool).
Proof using.
  intros H. apply occ_permutation. intros i. rewrite occ_items, occ_app.
  apply (run_occ i) in H; [|constructor]. cbn [fst snd concat] in H. rewrite H. f_equal.
  unfold tid_init, occ_state, occ_bufs, occ_skbs, occ_events. cbn. rewrite !occ_nil. lia.
Qed.
End Conservation.
