(* ===== verification/TxTidSafe.v ===== *)
(** The operations of a traffic identifier never fail: no frame is reached
    without its buffer, the choice of subframes and the formation of
    aggregates end, and the consistency check of the rate feedback holds. *)

From S2P Require Import Prelude Baw Airtime Desc TxTid TxTidAcct.

Definition has_buf (k : sk_buff) : Prop := fi_bf k <> None.
Definition unit_bufs (u : list sk_buff) : Prop := u <> [] /\ Forall has_buf u.

(** The number of frames in the queues. *)
Definition backlog (s : tid_state) : nat := (length (retry_q s) + length (buf_q s))%nat.

Section Total.
Context (env : tid_env).

(** * Choosing *)

Lemma set_queue_backlog q l s : (backlog (set_queue q l s) + length (queue_of q s) = backlog s + length l)%nat.
Proof using. unfold backlog, set_queue, queue_of. destruct q; cbn; lia. Qed.
Lemma same_backlog s s' : same_tid s s' -> backlog s' = backlog s.
Proof using. intros []. unfold backlog. congruence. Qed.
Lemma unlink_backlog q k l s : queue_of q s = k :: l -> backlog s = S (backlog (unlink_head q s)).
Proof using. intros E. unfold unlink_head. pose proof (set_queue_backlog q (tail (queue_of q s)) s) as H. rewrite E in *. cbn in *. lia. Qed.

(** Enough fuel: one round for each frame in the queues, and one more. *)
Lemma get_loop_total fuel : forall s, (backlog s < fuel)%nat ->
  exists r s', get_subframe_loop env fuel s = Ok (r, s') /\ (backlog s' <= backlog s)%nat.
Proof using.
  induction fuel as [|fuel IH]; intros s Hf; [lia|]. cbn [get_subframe_loop].
  destruct (queue_of (which_q s) s) as [|k l] eqn:Eq; [by eexists _, s|]. set (q := which_q s) in *.
  pose proof (subframe_buffer_occ env (inl 0) k s) as Hb. destruct (subframe_buffer_queues env k s) as [E1 E2].
  destruct (subframe_buffer env k s) as [k' s1]. cbn in E1, E2.
  assert (backlog s1 = backlog s) as Es by (unfold backlog; by rewrite E1, E2).
  assert (queue_of q s1 = k :: l) as Eq1 by (rewrite <- Eq; unfold queue_of; by rewrite E1, E2). clear E1 E2.
  assert (forall k2, backlog (set_queue q (k2 :: l) s1) = backlog s /\ S (backlog (set_queue q l s1)) = backlog s) as Hset.
  { intros k2. pose proof (set_queue_backlog q (k2 :: l) s1) as H1. pose proof (set_queue_backlog q l s1) as H2.
    rewrite Eq1 in H1, H2. cbn in H1, H2. lia. }
  destruct k' as [k'|].
  - destruct Hb as (_ & _ & Hb). destruct (fi_bf k') as [bf|]; [|done]. cbv zeta.
    destruct (tx_ampdu _); cbn [negb]; [destruct (negb _); [|destruct (_ <? bar_index _)]|].
    1, 3, 4: eexists _, _; split; [reflexivity|]; by rewrite (proj1 (Hset _)).
    match goal with |- context [get_subframe_loop env fuel (ath_tx_complete_buf env ?k0 ?b 0 false ?t)] =>
      pose proof (same_backlog _ _ (proj1 (complete_buf_same env k0 b 0 false t))) as E3; pose proof (proj2 (Hset k0)) as E4;
      change (backlog t) with (backlog (set_queue q l s1)) in E3;
      destruct (IH (ath_tx_complete_buf env k0 b 0 false t)) as (r & s' & -> & Hle); [lia|] end.
    exists r, s'. split; [done|lia].
  - pose proof (same_backlog _ _ (proj1 (free_skb_same env k (set_queue q l s1)))) as E3. pose proof (proj2 (Hset k)) as E4.
    destruct (IH (free_skb env k (set_queue q l s1))) as (r & s' & -> & Hle); [lia|]. exists r, s'. split; [done|lia].
Qed.

Lemma get_subframe_total s :
  exists r s', ath_tx_get_tid_subframe env s = Ok (r, s') /\ (backlog s' <= backlog s)%nat /\ chosen s' r.
Proof using.
  destruct (get_loop_total (S (backlog s)) s) as (r & s' & E & Hle); [lia|]. exists r, s'.
  split; [exact E|]. split; [done|]. by apply (get_loop_occ env (inl 0)) in E as [_ E].
Qed.

(** * Sending *)

Lemma form_aggr_loop_total fuel d lim h : forall k q n al bp s k0 l,
  has_buf k -> queue_of q s = k0 :: l -> (backlog s < fuel)%nat ->
  exists taken closed al' s', form_aggr_loop env fuel d lim h k q n al bp s = Ok (taken, closed, al', s') /\
    Forall has_buf taken /\ (n = 0 -> taken <> []).
Proof using.
  induction fuel as [|fuel IH]; intros k q n al bp s k0 l Hk Hq Hf; [lia|]. cbn [form_aggr_loop].
  unfold has_buf in Hk. destruct (fi_bf k) as [bf|] eqn:Eb; [|done].
  destruct (negb (n =? 0) && _) eqn:En.
  { eexists _, _, _, _. split; [reflexivity|]. split; [constructor|]. intros ->. done. }
  clear En. cbv zeta. match goal with |- context [if negb (baw_tracked k) then ?a else ?b] =>
    destruct (if negb (baw_tracked k) then a else b) as [k1 s1] eqn:E1 end.
  assert (queue_of q s1 = queue_of q s /\ backlog s1 = backlog s) as [Eq Eo].
  { destruct (negb _); injection E1 as <- <-; [by destruct q|done]. }
  clear E1. pose proof (unlink_backlog q k0 l s1 (eq_trans Eq Hq)) as Hu.
  destruct (get_subframe_total (unlink_head q s1)) as (next & s2 & -> & Hle & Hc); cbn [obind].
  destruct next as [[k3 q3]|]; [|eexists _, _, _, _; split; [reflexivity|]; by repeat constructor].
  destruct (ath_tid_has_buffered s2); [|eexists _, _, _, _; split; [reflexivity|]; by repeat constructor].
  destruct Hc as [[l3 Hl3] Hb3].
  edestruct (IH k3 q3) as (tk & cl & a1 & s3 & -> & Hall & _); [exact Hb3|exact Hl3|lia|]. cbn [obind].
  eexists _, _, _, _; split; [reflexivity|]; by repeat constructor.
Qed.

Lemma sched_aggr_total rates d da s :
  exists r stop s', ath_tx_sched_aggr env rates d da s = Ok (r, stop, s') /\ Forall unit_bufs (option_list (fst <$> r)).
Proof using.
  unfold ath_tx_sched_aggr. destruct (negb _); [eexists _, _, _; split; [reflexivity|constructor]|].
  destruct (get_subframe_total s) as (next & s1 & -> & _ & Hc). cbn [obind].
  destruct next as [[k q]|]; [|eexists _, _, _; split; [reflexivity|constructor]].
  destruct (_ || _); [eexists _, _, _; split; [reflexivity|constructor]|]. cbv zeta. destruct Hc as [[l Hl] Hb].
  set (k1 := k <| fi_bf ::= _ |>). assert (has_buf k1) as Hk1. { unfold has_buf. cbn. by destruct (fi_bf k). }
  clearbody k1.
  assert (exists taken len s2, (if tx_ampdu k then
             obind (ath_tx_form_aggr env rates k1 q s1) (fun '(taken, len, _, s) => Ok (taken, len, s))
           else let '(taken, s) := ath_tx_form_burst k1 q s1 in Ok (taken, 0, s)) = Ok (taken, len, s2) /\ unit_bufs taken) as
    (taken & len & s2 & -> & Hne & Hall).
  { destruct (tx_ampdu k); [|eexists _, _, _; split; [reflexivity|]; by repeat constructor].
    unfold ath_tx_form_aggr.
    match goal with |- context [form_aggr_loop env ?f ?d ?m ?h k1 q 0 0 0 s1] =>
      destruct (form_aggr_loop_total f d m h k1 q 0 0 0 s1 k l) as (tk & cl & a1 & s3 & -> & Hall & Hne);
        [done|done|unfold backlog; lia|] end. cbn [obind]. specialize (Hne eq_refl).
    destruct tk as [|k2 [|k3 tk]]; [done| |eexists _, _, _; split; [reflexivity|done]].
    inversion_clear Hall as [|? ? Hk2 _]. unfold has_buf in Hk2. destruct (fi_bf k2); [|done].
    eexists _, _, _; split; [reflexivity|]. by repeat constructor. }
  cbn [obind]. destruct taken as [|k2 tk]; [done|]. inversion_clear Hall as [|? ? Hk2 Htk].
  destruct (_ || _); eexists _, _, _; (split; [reflexivity|]); constructor; try constructor; by repeat constructor.
Qed.

Lemma release_frame_total rates s :
  exists r s', release_frame env rates s = Ok (r, s') /\ Forall has_buf (option_list r).
Proof using.
  unfold release_frame. destruct (get_subframe_total s) as (next & s1 & -> & _ & Hc). cbn [obind].
  destruct next as [[k q]|]; [|eexists _, _; split; [reflexivity|constructor]]. destruct Hc as [_ Hb].
  destruct (fi_bf k) as [bf|]; [|done].
  destruct (isampdu _); eexists _, _; (split; [reflexivity|]); constructor; try constructor; done.
Qed.

(** * Completion *)

Lemma count_frames_le aggr ts ok l : snd (ath_tx_count_frames aggr ts ok l) <= fst (ath_tx_count_frames aggr ts ok l).
Proof using. unfold ath_tx_count_frames. cbn [fst snd]. apply inj_le, length_filter. Qed.

Lemma rc_status_total k n b ok s : b <= n -> exists s', ath_tx_rc_status k n b ok s = Ok s'.
Proof using. intros H. unfold ath_tx_rc_status. rewrite (proj2 (Z.ltb_ge n b)) by done. rewrite andb_false_r. by eexists. Qed.

Lemma complete_loop_total a l : as_nbad a <= as_nframes a ->
  forall acc, Forall has_buf l -> exists acc', complete_loop env a l acc = Ok acc'.
Proof using.
  intros Ha. induction l as [|k l IH]; intros acc Hl; cbn [complete_loop]; [by eexists|].
  inversion_clear Hl as [|? ? Hk Hl']. unfold has_buf in Hk. destruct (fi_bf k) as [bf|]; [|done]. cbv zeta.
  match goal with |- context [subframe_fate a (acc_s ?t) k bf] => generalize t as acc1 end. intros acc1.
  match goal with |- context [complete_done env a _ k bf ?t acc1] => generalize t as hd end. intros hd.
  assert (forall f, exists acc', obind (complete_done env a f k bf hd acc1) (complete_loop env a l) = Ok acc') as Hdone.
  { intros f. assert (exists acc2, complete_done env a f k bf hd acc1 = Ok acc2) as [acc2 ->]; [|by apply IH].
    unfold complete_done. set (acc3 := match f with Foreign => _ | _ => _ end). clearbody acc3. cbv zeta. destruct (_ && _).
    - destruct (rc_status_total k (as_nframes a) (as_nbad a) (as_txok a) (ath_tx_update_baw' (seqno bf) (acc_s acc3)) Ha) as [s' ->].
      by eexists.
    - by eexists. }
  destruct (subframe_fate _ _ _ _); try apply Hdone.
  destruct (complete_pending env a counts _ k bf hd acc1) as [acc2 out]. destruct out; [by eexists|by apply IH].
Qed.

Lemma no_sta_total st l : forall s, Forall has_buf l -> exists s', complete_no_sta env st l s = Ok s'.
Proof using.
  induction l as [|k l IH]; intros s Hl; cbn [complete_no_sta]; [by eexists|].
  inversion_clear Hl as [|? ? Hk Hl']. unfold has_buf in Hk. destruct (fi_bf k); [|done]. cbv zeta. by apply IH.
Qed.

Lemma process_buffer_total sta ts u s : ts_rateindex ts <= 4 -> unit_bufs u ->
  exists s', ath_tx_process_buffer env sta ts u s = Ok s'.
Proof using.
  intros Hts [Hne Hall]. unfold ath_tx_process_buffer. destruct u as [|k u]; [done|].
  pose proof Hall as Hall'. inversion_clear Hall' as [|? ? Hk Hu]. unfold has_buf in Hk. destruct (fi_bf k) as [bf|] eqn:Eb; [|done].
  destruct (negb (isampdu bf)).
  - destruct (negb (has (ts_status ts) ATH9K_TX_FLUSH)); [|by eexists].
    match goal with |- context [ath_tx_rc_status k 1 ?b ?ok s] => destruct (rc_status_total k 1 b ok s) as [s1 ->] end; [by case_match|].
    by eexists.
  - unfold ath_tx_complete_aggr. rewrite bind_cons, Eb. match goal with |- context [option_list (Some bf) ++ ?r] => change (option_list (Some bf) ++ r) with (bf :: r) end.
    destruct (last (k :: u)) as [lastskb|] eqn:El; [|by apply last_None in El]. rewrite (proj2 (Z.ltb_ge 4 _)) by done.
    destruct sta; cbn [negb]; [|by apply no_sta_total]. cbv zeta.
    match goal with |- context [if ?c then (ts_seqnum ts, (ba_low ts, ba_high ts)) else (0, (0, 0))] =>
      destruct (if c then (ts_seqnum ts, (ba_low ts, ba_high ts)) else (0, (0, 0))) as [seq_st ba] end.
    match goal with |- context [ath_tx_count_frames ?g ?t ?ok ?l] => pose proof (count_frames_le g t ok l) as Hc;
      destruct (ath_tx_count_frames g t ok l) as [nf nb] end. cbn in Hc.
    match goal with |- context [complete_loop env ?a (k :: u) ?c] => destruct (complete_loop_total a (k :: u) Hc c Hall) as [acc ->] end.
    by eexists.
Qed.

Lemma mark_stale_bufs b u : unit_bufs u -> unit_bufs (mark_stale b u).
Proof using.
  intros [Hne Hall]. unfold mark_stale. destruct u as [|k u _] using rev_ind; [done|]. rewrite last_snoc, removelast_last.
  apply Forall_app in Hall as [H1 H2]. inversion_clear H2 as [|? ? Hk _]. split; [by destruct u|]. apply Forall_app_2; [done|].
  constructor; [|done]. unfold has_buf in *. cbn. by destruct (fi_bf k).
Qed.

(** * Runs *)

(** The index of the rate that succeeded lies in the table of four rates. *)
Definition status_ok (o : tid_op) : Prop := match o with OpComplete _ _ _ ts => ts_rateindex ts <= 4 | _ => True end.

Lemma exec_total o x : status_ok o -> Forall unit_bufs (snd x) ->
  exists y, tid_exec env o x = Ok y /\ Forall unit_bufs (snd y).
Proof using.
  destruct x as [s hw]. cbn [snd]. intros Ho Hu. destruct o; cbn [tid_exec]; try by eexists.
  - destruct (sched_aggr_total rates axq_depth axq_ampdu_depth s) as (r & stop & s' & -> & Hr). cbn [obind].
    eexists; split; [reflexivity|]. by apply Forall_app_2.
  - destruct (release_frame_total rates s) as (r & s' & -> & Hr). cbn [obind]. eexists; split; [reflexivity|].
    apply Forall_app_2; [done|]. destruct r; [|constructor]. inversion_clear Hr. by repeat constructor.
  - destruct (hw !! n) as [u|] eqn:En; [|by eexists]. assert (unit_bufs u) as Hn by by eapply Forall_lookup_1.
    destruct (process_buffer_total sta ts (mark_stale holding u) s Ho) as [s' ->]; [by apply mark_stale_bufs|]. cbn [obind].
    eexists; split; [reflexivity|]. by apply Forall_delete.
  - destruct (held s); by eexists.
Qed.

Lemma run_total l : Forall status_ok l -> forall x, Forall unit_bufs (snd x) ->
  exists y, tid_run env l x = Ok y /\ Forall unit_bufs (snd y).
Proof using.
  induction 1 as [|o l Ho _ IH]; intros x Hx; cbn [tid_run]; [by exists x|].
  destruct (exec_total o x Ho Hx) as (y & -> & Hy). by apply IH.
Qed.

(** C14. Every sequence of operations from the initial state runs to its end,
    whatever the hardware reports, and the units it leaves in flight have a
    buffer for each frame. *)
Theorem tid_run_safe pool l : Forall status_ok l ->
  exists s hw, tid_run env l (tid_init pool, []) = Ok (s, hw) /\ Forall unit_bufs hw.
Proof using. intros H. destruct (run_total l H (tid_init pool, [])) as ([s hw] & E & Hu); [constructor|]. by exists s, hw. Qed.
End Total.
