(* ===== verification/TxTidWin.v ===== *)
(** The block-ack window of a running session as the list of the sequence
    numbers that are outstanding: the effect of each window operation on the
    list, with the bounds of the window, of the next number and of the index
    of the last block-ack request. *)

From S2P Require Import Prelude Baw.

Lemma s8_id x : -128 <= x < 128 -> s8 x = x.
Proof. intros H. unfold s8, u8. destruct (Z.ltb_spec (x mod 256) 128); dlia. Qed.

(** [T]: the outstanding numbers; [n]: how many numbers (0 or 1) have been
    given to a frame that has not been added yet. *)
Record session_window (T : list Z) (n : Z) (t : ath_atx_tid) : Prop := {
  sw_rep : baw_rep (list_to_set T) t;
  sw_nodup : NoDup T;
  sw_size : 0 <= baw_size t <= 64;
  sw_len : baw_len t <= baw_size t;
  sw_next : (seq_next t - seq_start t) mod 4096 = baw_len t + n;
  sw_n : 0 <= n <= 1;
  sw_next_range : 0 <= seq_next t < 4096;
  sw_bar : -1 <= bar_index t < baw_len t;
  sw_active : active t = true;
}.

Lemma sw_range T n t : session_window T n t -> 0 <= baw_len t <= 64.
Proof. intros [Hr]. pose proof (br_len _ _ Hr). lia. Qed.

Lemma sw_perm T T' n t : T ≡ₚ T' -> session_window T n t -> session_window T' n t.
Proof.
  intros HT []. split; try done; [|by rewrite <- HT].
  assert (list_to_set T' = (list_to_set T : gset Z)) as -> by (apply set_eq; intros x; rewrite !elem_of_list_to_set; by rewrite HT). done.
Qed.

Lemma sw_in T n t s : session_window T n t -> s ∈ T -> 0 <= s < 4096 /\ (s - seq_start t) mod 4096 < baw_len t.
Proof. intros H Hs. apply (br_out _ _ (sw_rep _ _ _ H)). by apply elem_of_list_to_set. Qed.

Lemma sw_within T n t s : session_window T n t -> s ∈ T -> BAW_WITHIN (seq_start t) (baw_size t) s = true.
Proof. intros H Hs. pose proof (sw_in _ _ _ _ H Hs). pose proof (sw_len _ _ _ H). autorewrite with baw. apply Z.ltb_lt. lia. Qed.

(** A session starts with an empty window. *)
Lemma sw_start t : 0 <= seq_next t < 4096 -> 0 <= baw_size t <= 64 -> session_window [] 0 (fst (aggr_start_window t)).
Proof.
  intros Hn Hs. split; cbn; try done; try lia; [by apply baw_rep_init|by apply NoDup_nil|..]; unfold baw_len; cbn; dlia.
Qed.

(** Changing the size of an empty window. *)
Lemma sw_resize T n t z : session_window T n t -> 0 <= z <= 64 -> baw_len t <= z -> session_window T n (t <| baw_size := z |>).
Proof. by intros [[]] Hz Hl. Qed.

(** A frame gets the next number. *)
Lemma sw_seqno T t : session_window T 0 t ->
  let '(s, t') := setup_buffer_seqno t false in
  session_window T 1 t' /\ s = (seq_next t' - 1) mod 4096 /\ 0 <= s < 4096 /\ seq_start t' = seq_start t /\ baw_len t' = baw_len t.
Proof.
  intros H. pose proof (sw_range _ _ _ H) as Hl. destruct H as [Hr Hd Hsz Hlen Hnext Hn Hnr Hb Ha]. cbn. split_and!; try done.
  - split; try done; cbn; autorewrite with baw; try dlia.
    + destruct Hr. by split.
    + change (baw_len _) with (baw_len t). pose proof (br_start _ _ Hr). dlia.
  - autorewrite with baw. dlia.
  - lia.
  - lia.
Qed.

(** The number is added to the window. *)
Lemma sw_add T t s : session_window T 1 t -> s = (seq_next t - 1) mod 4096 -> BAW_WITHIN (seq_start t) (baw_size t) s = true ->
  session_window (s :: T) 0 (ath_tx_addto_baw t s).
Proof.
  intros H -> Hw. pose proof (sw_range _ _ _ H) as Hl. destruct H as [Hr Hd Hsz Hlen Hnext Hn Hnr Hb Ha].
  pose proof (br_start _ _ Hr) as Hst. set (s := (seq_next t - 1) mod 4096) in *.
  assert (0 <= s < 4096) as Hs by (subst s; dlia).
  assert ((s - seq_start t) mod 4096 = baw_len t) as Hi by (subst s; dlia).
  autorewrite with baw in Hw. rewrite Hi in Hw. apply Z.ltb_lt in Hw.
  destruct (addto_baw_rep _ t s Hr Hs ltac:(lia)) as (Hr' & Es & El). rewrite Hi in El.
  assert (baw_size (ath_tx_addto_baw t s) = baw_size t /\ seq_next (ath_tx_addto_baw t s) = seq_next t /\
    bar_index (ath_tx_addto_baw t s) = bar_index t /\ active (ath_tx_addto_baw t s) = active t) as (E1 & E2 & E3 & E4)
    by (unfold ath_tx_addto_baw; cbv zeta; by case_match).
  split; rewrite ?E1, ?E2, ?E3, ?E4, ?Es; try done; try lia.
  - constructor; [|done]. intros Hin. apply (elem_of_list_to_set (C := gset Z)), (br_out _ _ Hr) in Hin. lia.
Qed.

(** Adding a number again changes nothing. *)
Lemma sw_add_again T n t s : session_window T n t -> s ∈ T -> session_window T n (ath_tx_addto_baw t s).
Proof.
  intros H Hin. destruct (sw_in _ _ _ _ H Hin) as [Hs Hi]. pose proof (sw_range _ _ _ H) as Hl.
  destruct H as [Hr Hd Hsz Hlen Hnext Hn Hnr Hb Ha].
  destruct (addto_baw_rep _ t s Hr Hs ltac:(lia)) as (Hr' & Es & El).
  assert ({[s]} ∪ list_to_set T = (list_to_set T : gset Z)) as E by (apply subseteq_union_1_L, singleton_subseteq_l; by apply elem_of_list_to_set).
  rewrite E in Hr'. rewrite Z.max_l in El by lia.
  assert (baw_size (ath_tx_addto_baw t s) = baw_size t /\ seq_next (ath_tx_addto_baw t s) = seq_next t /\
    bar_index (ath_tx_addto_baw t s) = bar_index t /\ active (ath_tx_addto_baw t s) = active t) as (E1 & E2 & E3 & E4)
    by (unfold ath_tx_addto_baw; cbv zeta; by case_match).
  split; rewrite ?E1, ?E2, ?E3, ?E4, ?Es, ?El; done.
Qed.

(** ** Completing a number *)

(** The index of the last request stays inside the window. *)
Lemma update_loop_bar fuel : forall t,
  0 <= baw_head t < 128 -> 0 <= baw_tail t < 128 -> -1 <= bar_index t < baw_len t ->
  let t' := update_baw_loop fuel t in -1 <= bar_index t' < baw_len t' /\ active t' = active t.
Proof.
  induction fuel as [|fuel IH]; intros t Hh Ht Hb; cbn [update_baw_loop]; [done|].
  destruct (Z.eqb_spec (baw_head t) (baw_tail t)) as [E|Hne]; cbn [negb andb]; [done|].
  destruct (Z.testbit _ _); cbn [negb]; [done|].
  match goal with |- context [update_baw_loop fuel ?x] => set (t1 := x) end.
  assert (0 < baw_len t < 128) as Hl by (unfold baw_len; dlia).
  assert (baw_len t1 = baw_len t - 1 /\ baw_head t1 = (baw_head t + 1) mod 128 /\ baw_tail t1 = baw_tail t /\ active t1 = active t /\
    bar_index t1 = (if 0 <=? bar_index t then bar_index t - 1 else bar_index t)) as (E1 & E2 & E3 & E4 & E5).
  { subst t1. unfold baw_len in *. cbn. destruct (Z.leb_spec 0 (bar_index t)); cbn; autorewrite with baw.
    - split_and!; try done; [dlia|]. rewrite s8_id by lia. done.
    - split_and!; try done. dlia. }
  destruct (IH t1) as (H1 & H2).
  - rewrite E2. dlia.
  - by rewrite E3.
  - rewrite E1, E5. destruct (Z.leb_spec 0 (bar_index t)); lia.
  - split; [done|]. by rewrite H2.
Qed.

(** A number is completed: it leaves the list, and the window moves by [k]. *)
Lemma sw_done T n t s : session_window (s :: T) n t ->
  session_window T n (ath_tx_update_baw t s) /\ baw_size (ath_tx_update_baw t s) = baw_size t /\
  exists k, 0 <= k <= baw_len t /\ baw_len (ath_tx_update_baw t s) = baw_len t - k /\
    seq_start (ath_tx_update_baw t s) = (seq_start t + k) mod 4096.
Proof.
  intros H. pose proof (sw_range _ _ _ H) as Hl. destruct (sw_in _ _ _ s H) as [Hs Hi]; [left|].
  destruct H as [Hr Hd Hsz Hlen Hnext Hn Hnr Hb Ha]. destruct (update_baw_size t s) as [E1 E2].
  pose proof (clear_rep _ t s Hr Hs ltac:(lia)) as Hc. revert E1 E2. unfold ath_tx_update_baw. autorewrite with baw. cbv zeta.
  replace ((baw_head t + (s - seq_start t) mod 4096) mod 128) with ((baw_head t + (s - seq_start t) mod 4096) mod 128) by done.
  match type of Hc with baw_rep _ ?x => set (t1 := x) in * end. change (Z.to_nat ATH_TID_MAX_BUFS) with 128%nat. intros E1 E2.
  pose proof (br_len _ _ Hc) as Hl1. change (baw_len t1) with (baw_len t) in Hl1.
  destruct (update_loop_rep _ 128 t1 Hc ltac:(change (baw_len t1) with (baw_len t); lia)) as (Hr2 & _ & k & Hk & Hst & Hl2 & _).
  destruct (update_loop_bar 128 t1 (br_head _ _ Hc) (br_tail _ _ Hc) Hb) as [Hb2 Ha2].
  set (t2 := update_baw_loop 128 t1) in *. clearbody t2. change (baw_len t1) with (baw_len t) in *. change (seq_start t1) with (seq_start t) in *.
  split_and!; [|done|by exists k]. apply NoDup_cons in Hd as [Hs' Hd]. split; rewrite ?E1, ?E2, ?Hl2; try done; try lia.
  - assert (list_to_set (s :: T) ∖ {[s]} = (list_to_set T : gset Z)) as <-; [|done].
    apply set_eq. intros y. rewrite list_to_set_cons. rewrite <- (elem_of_list_to_set (C := gset Z)) in Hs'. set_solver.
  - rewrite Hst. pose proof (br_start _ _ Hr). dlia.
  - by rewrite Ha2.
Qed.

(** The request for the block-ack window was for a number that was
    outstanding when the window was at [st] with [len] numbers. *)
Lemma sw_bar_set T n t st len b k : session_window T n t -> 0 <= len <= 64 -> 0 <= st < 4096 -> 0 <= k <= len ->
  seq_start t = (st + k) mod 4096 -> baw_len t = len - k -> 0 <= b < len ->
  BAW_WITHIN (seq_start t) (baw_size t) (ATH_BA_INDEX2SEQ st b) = true ->
  session_window T n (t <| bar_index := s8 (ATH_BA_INDEX (seq_start t) (ATH_BA_INDEX2SEQ st b)) |>).
Proof.
  intros [Hr Hd Hsz Hlen Hnext Hn Hnr Hb Ha] Hl Hst Hk Es El Hbl Hw. unfold ATH_BA_INDEX2SEQ in *. autorewrite with baw in *.
  apply Z.ltb_lt in Hw. rewrite Es in *.
  assert ((((st + b) mod 4096 - (st + k) mod 4096) mod 4096) = (b - k) mod 4096) as E by dlia. rewrite E in *.
  assert (k <= b) as Hkb by dlia. rewrite (Z.mod_small (b - k)) in * by lia.
  rewrite s8_id by lia.
  split; cbn; try done; [|by rewrite Es|unfold baw_len in *; cbn; lia].
  destruct Hr. by split.
Qed.
