(* ===== verification/TxTidInv.v ===== *)
(** The invariant of a block-ack session: the sequence numbers of the frames
    that wait to be sent again and of the A-MPDU frames in flight are exactly
    those that the window has outstanding. *)

From S2P Require Import Prelude Baw Airtime Desc TxTid TxTidAcct TxTidSafe TxTidWin.

(** * Frames of a session *)

Definition kseq (k : sk_buff) : Z := from_option seqno 0 (fi_bf k).

(** A frame that has been sent, waiting to be sent again. *)
Definition retry_ok (k : sk_buff) : Prop := fi_bf k <> None /\ tx_ampdu k = true /\ baw_tracked k = true.
(** Left in the queue from the time before the session. *)
Definition old_ok (k : sk_buff) : Prop := fi_bf k <> None /\ tx_ampdu k = false.
(** It has got its number, but has not been sent. *)
Definition peek_ok (t : ath_atx_tid) (k : sk_buff) : Prop :=
  fi_bf k <> None /\ tx_ampdu k = true /\ baw_tracked k = false /\ kseq k = (seq_next t - 1) mod 4096.
(** It has no number yet. *)
Definition fresh_ok (k : sk_buff) : Prop :=
  fi_bf k = None /\ tx_ampdu k = true /\ data_present k = true /\ morefrags k = false /\ baw_tracked k = false.

(** [T]: the numbers of the A-MPDU frames in flight. *)
Record session (s : tid_state) (T : list Z) (old peek fresh : list sk_buff) : Prop := {
  se_queue : buf_q s = old ++ peek ++ fresh;
  se_old : Forall old_ok old;
  se_peek : Forall (peek_ok (win s)) peek;
  se_fresh : Forall fresh_ok fresh;
  se_retry : Forall retry_ok (retry_q s);
  se_win : session_window ((kseq <$> retry_q s) ++ T) (Z.of_nat (length peek)) (win s);
}.
Definition in_session (s : tid_state) (T : list Z) : Prop := exists old peek fresh, session s T old peek fresh.

Lemma session_same s s' T : same_tid s s' -> in_session s T -> in_session s' T.
Proof.
  intros [E1 E2 E3] (old & peek & fresh & []). exists old, peek, fresh. split; rewrite ?E1, ?E2, ?E3; done.
Qed.
Lemma session_perm s T T' : T ≡ₚ T' -> in_session s T -> in_session s T'.
Proof.
  intros HT (old & peek & fresh & []). exists old, peek, fresh. split; try done. eapply sw_perm; [|done]. by rewrite HT.
Qed.
Lemma session_window_of s T : in_session s T -> exists n, session_window ((kseq <$> retry_q s) ++ T) n (win s).
Proof. intros (old & peek & fresh & []). by eexists. Qed.
Lemma session_active s T : in_session s T -> active (win s) = true.
Proof. intros (old & peek & fresh & []). by eapply sw_active. Qed.

(** Two versions of a frame that are the same for the session. *)
Definition alike (k k' : sk_buff) : Prop :=
  tx_ampdu k' = tx_ampdu k /\ baw_tracked k' = baw_tracked k /\ (seqno <$> fi_bf k') = (seqno <$> fi_bf k).
Lemma alike_seq k k' : alike k k' -> kseq k' = kseq k.
Proof. intros (_ & _ & E). unfold kseq. destruct (fi_bf k), (fi_bf k'); cbn in *; congruence. Qed.
Lemma alike_buf k k' : alike k k' -> fi_bf k <> None -> fi_bf k' <> None.
Proof. intros (_ & _ & E). destruct (fi_bf k), (fi_bf k'); cbn in *; congruence. Qed.
Lemma alike_retry k k' : alike k k' -> retry_ok k -> retry_ok k'.
Proof. intros H (H1 & H2 & H3). pose proof (alike_buf _ _ H H1). destruct H as (E1 & E2 & _). split_and!; congruence. Qed.
Lemma alike_old k k' : alike k k' -> old_ok k -> old_ok k'.
Proof. intros H (H1 & H2). pose proof (alike_buf _ _ H H1). destruct H as (E1 & E2 & _). split; congruence. Qed.
Lemma alike_peek t k k' : alike k k' -> peek_ok t k -> peek_ok t k'.
Proof.
  intros H (H1 & H2 & H3 & H4). pose proof (alike_buf _ _ H H1). pose proof (alike_seq _ _ H). destruct H as (E1 & E2 & _).
  split_and!; congruence.
Qed.

(** * Queues *)

(** The head of a queue is replaced by a version of it. *)
Lemma session_set_head q k k' l s T :
  in_session s T -> queue_of q s = k :: l -> fi_bf k <> None -> alike k k' -> in_session (set_queue q (k' :: l) s) T.
Proof.
  intros (old & peek & fresh & [Hq Ho Hp Hf Hr Hw]) E Hb Ha. destruct q; cbn in E.
  - exists old, peek, fresh. split; try done; cbn.
    + rewrite E in Hr. inversion_clear Hr as [|? ? Hk Hl]. constructor; [by eapply alike_retry|done].
    + rewrite E in Hw. cbn in Hw. by rewrite (alike_seq k k').
  - rewrite Hq in E. destruct old as [|k0 old]; [destruct peek as [|k0 peek]; [destruct fresh as [|k0 fresh]; [done|]|]|];
      cbn in E; injection E as -> E.
    + inversion_clear Hf as [|? ? Hk]. by destruct Hk.
    + inversion_clear Hp as [|? ? Hk Hl]. exists [], (k' :: peek), fresh. split; try done; cbn; [by rewrite <- E|].
      constructor; [by eapply alike_peek|done].
    + inversion_clear Ho as [|? ? Hk Hl]. exists (k' :: old), peek, fresh. split; try done; cbn; [by rewrite <- E|].
      constructor; [by eapply alike_old|done].
Qed.

(** The head of the retry queue leaves it. *)
Lemma session_take_retry k l s T : in_session s T -> queue_of true s = k :: l ->
  retry_ok k /\ in_session (set_queue true l s) (kseq k :: T).
Proof.
  intros (old & peek & fresh & [Hq Ho Hp Hf Hr Hw]) E. cbn in E. rewrite E in Hr, Hw. inversion_clear Hr as [|? ? Hk Hl].
  split; [done|]. exists old, peek, fresh. split; try done; cbn. eapply sw_perm; [|exact Hw]. cbn. by rewrite <- Permutation_middle.
Qed.

(** The head of the frame queue: what it may be. *)
Lemma session_head_buf k l s T : in_session s T -> queue_of false s = k :: l -> fi_bf k <> None ->
  (old_ok k /\ in_session (set_queue false l s) T) \/ peek_ok (win s) k.
Proof.
  intros (old & peek & fresh & [Hq Ho Hp Hf Hr Hw]) E Hb. cbn in E. rewrite Hq in E.
  destruct old as [|k0 old]; [destruct peek as [|k0 peek]; [destruct fresh as [|k0 fresh]; [done|]|]|]; cbn in E; injection E as -> E.
  - inversion_clear Hf as [|? ? Hk]. by destruct Hk.
  - right. by inversion_clear Hp.
  - left. inversion_clear Ho as [|? ? Hk Hl]. split; [done|]. exists old, peek, fresh. split; done.
Qed.

(** A frame with a number that has not been sent is the only one, and the
    window is about to take its number. *)
Lemma session_peek k l s T : in_session s T -> queue_of false s = k :: l -> peek_ok (win s) k ->
  exists fresh, Forall fresh_ok fresh /\ l = fresh /\ Forall retry_ok (retry_q s) /\
    session_window ((kseq <$> retry_q s) ++ T) 1 (win s).
Proof.
  intros (old & peek & fresh & [Hq Ho Hp Hf Hr Hw]) E (Hb & Ht & Hu & Hs). cbn in E. rewrite Hq in E.
  destruct old as [|k0 old].
  - destruct peek as [|k0 peek].
    + destruct fresh as [|k0 fresh]; [done|]. cbn in E. injection E as -> E. inversion_clear Hf as [|? ? Hk]. by destruct Hk.
    + cbn in E. injection E as -> E. pose proof (sw_n _ _ _ Hw) as Hn. cbn in Hn. assert (peek = []) as -> by (destruct peek; [done|cbn in Hn; lia]).
      exists fresh. by rewrite <- E.
  - cbn in E. injection E as -> E. inversion_clear Ho as [|? ? Hk]. destruct Hk. congruence.
Qed.

Lemma session_take_peek k l s T : in_session s T -> queue_of false s = k :: l -> peek_ok (win s) k ->
  BAW_WITHIN (seq_start (win s)) (baw_size (win s)) (kseq k) = true ->
  in_session (set_queue false l (s <| win ::= fun t => ath_tx_addto_baw t (kseq k) |>)) (kseq k :: T).
Proof.
  intros H E Hp Hw. destruct (session_peek k l s T H E Hp) as (fresh & Hf & -> & Hr & Hs).
  destruct Hp as (_ & _ & _ & Hk). exists [], [], fresh. split; try done. cbn.
  eapply sw_perm; [|eapply sw_add; [exact Hs|exact Hk|exact Hw]]. by rewrite Permutation_middle.
Qed.

(** A number in flight is completed. *)
Lemma session_done s n T : in_session s (n :: T) -> in_session (ath_tx_update_baw' n s) T.
Proof.
  intros (old & peek & fresh & [Hq Ho Hp Hf Hr Hw]). exists old, peek, fresh.
  assert (session_window (n :: (kseq <$> retry_q s) ++ T) (Z.of_nat (length peek)) (win s)) as Hw'.
  { eapply sw_perm; [|exact Hw]. by rewrite <- Permutation_middle. }
  destruct (sw_done _ _ _ _ Hw') as (Hw2 & _). split; try done; cbn.
  eapply Forall_impl; [exact Hp|]. intros k (H1 & H2 & H3 & H4). split_and!; try done. by rewrite (proj2 (update_baw_size _ _)).
Qed.

Section Session.
Context (env : tid_env) (Hdma : forall k, dma_mapping_error env k = false).

(** A new frame at the head of the queue gets its number, or is dropped when
    there is no buffer. *)
Lemma session_setup k l s T : in_session s T -> queue_of false s = k :: l -> fi_bf k = None ->
  match ath_tx_setup_buffer env k s with
  | (Some k', s1) => peek_ok (win s1) k' /\ in_session (set_queue false (k' :: l) s1) T /\ tx_ampdu k' = true
  | (None, s1) => in_session (set_queue false l s1) T
  end.
Proof using Hdma.
  intros (old & peek & fresh & [Hq Ho Hp Hf Hr Hw]) E Hb. cbn in E. rewrite Hq in E.
  destruct old as [|k0 old]; [|cbn in E; injection E as -> E; inversion_clear Ho as [|? ? Hk]; by destruct Hk].
  destruct peek as [|k0 peek]; [|cbn in E; injection E as -> E; inversion_clear Hp as [|? ? Hk]; by destruct Hk].
  cbn in E. subst fresh. inversion_clear Hf as [|? ? Hk Hl]. destruct Hk as (_ & Hk1 & Hk2 & Hk3 & Hk4).
  unfold ath_tx_setup_buffer, ath_tx_get_buffer. destruct (txbuf s) as [|bf bl].
  - exists [], [], l. by split.
  - rewrite Hk2, Hk3. cbn [negb]. pose proof (sw_seqno _ _ Hw) as Hs. cbn [win upd] in *.
    destruct (setup_buffer_seqno (win s) false) as [n t] eqn:En. destruct Hs as (Hs1 & Hs2 & Hs3 & _). rewrite Hdma.
    set (k1 := if negb _ then _ else _). assert (tx_ampdu k1 = true /\ baw_tracked k1 = false) as [E1 E2] by (subst k1; by case_match).
    clearbody k1. match goal with |- peek_ok ?t ?k2 /\ _ => assert (peek_ok t k2) as Hk by (unfold peek_ok; cbn; by split_and!) end.
    split_and!; [done| |exact E1]. eexists [], [_], l. split; [done|constructor|by constructor|done|done|exact Hs1].
Qed.

(** ** Choosing *)

Lemma get_loop_session fuel : forall s r s' T,
  get_subframe_loop env fuel s = Ok (r, s') -> in_session s T -> in_session s' T.
Proof using Hdma.
  induction fuel as [|fuel IH]; intros s r s' T; cbn [get_subframe_loop]; [done|].
  destruct (queue_of (which_q s) s) as [|k l] eqn:Eq; [by intros [= <- <-]|]. set (q := which_q s) in *.
  intros E H.
  assert (match subframe_buffer env k s with
    | (Some k', s1) => queue_of q s1 = k :: l /\ in_session (set_queue q (k' :: l) s1) T /\
        (q = false -> tx_ampdu k' = true -> peek_ok (win s1) k')
    | (None, s1) => in_session (set_queue q l s1) T
    end) as Hs.
  { destruct (subframe_buffer_queues env k s) as [E1 E2]. unfold subframe_buffer in *. destruct (fi_bf k) as [bf|] eqn:Eb.
    - split; [done|]. split.
      + eapply session_set_head; [done|done|congruence|]. split_and!; try done. cbn. by rewrite Eb.
      + intros Hq Ht. rewrite Hq in Eq. cbn in Ht. destruct (session_head_buf k l s T H Eq) as [[[_ Hk] _]|Hk]; [congruence|congruence|].
        eapply alike_peek; [|exact Hk]. split_and!; try done. cbn. by rewrite Eb.
    - assert (q = false) as Hq.
      { destruct q eqn:Hq; [|done]. destruct (session_take_retry k l s T H Eq) as [[Hk _] _]. congruence. }
      rewrite Hq in *. pose proof (session_setup k l s T H Eq Eb) as Hs.
      destruct (ath_tx_setup_buffer env k s) as [[k'|] s1]; [|done]. destruct Hs as (H1 & H2 & _). cbn in E1, E2.
      split; [by rewrite <- Eq; cbn; rewrite E1|]. done. }
  destruct (subframe_buffer env k s) as [[k'|] s1].
  2: { eapply IH in E; [done|]. eapply session_same; [|exact Hs]. apply free_skb_same. }
  destruct Hs as (Eq1 & Hs & Hpk). destruct (fi_bf k') as [bf|] eqn:Eb; [|done]. cbv zeta in E.
  assert (win (set_queue q (k' :: l) s1) = win s1) as Ew by by destruct q.
  pose proof (session_active _ _ Hs) as Hact. rewrite Ew in Hact. rewrite Hact in E. cbn [negb] in E.
  match type of E with context [tx_ampdu ?x] => set (k1 := x) in * end.
  assert (alike k' k1 /\ fi_bf k1 = Some bf) as [Hal Eb1] by by split_and!. clearbody k1.
  assert (forall bf', seqno bf' = seqno bf -> in_session (set_queue q ((k1 <| fi_bf := Some bf' |>) :: l) s1) T) as Hset.
  { intros bf' Ebf. assert (alike k' (k1 <| fi_bf := Some bf' |>)) as Ha.
    { destruct Hal as (A1 & A2 & A3). split_and!; [done|done|]. cbn. by rewrite Eb, Ebf. }
    eapply (session_set_head q k' _ l) in Hs; [|by destruct q|congruence|exact Ha]. by destruct q. }
  destruct (tx_ampdu k1) eqn:Et; cbn [negb] in E; [|injection E as _ <-; by apply Hset].
  destruct (BAW_WITHIN _ _ _); cbn [negb] in E; [|injection E as _ <-; by apply Hset].
  destruct (_ <? bar_index _) eqn:Ebar; [|injection E as _ <-; by apply Hset].
  apply Z.ltb_lt in Ebar. destruct q eqn:Hq.
  - eapply IH in E; [done|]. eapply session_same; [apply complete_buf_same|]. apply session_done.
    assert (queue_of true (set_queue true (k' :: l) s1) = k' :: l) as E1 by done.
    destruct (session_take_retry k' l _ T Hs E1) as [_ H1]. unfold kseq in H1. by rewrite Eb in H1.
  - exfalso. destruct Hal as (A1 & _). assert (tx_ampdu k' = true) as At by congruence. specialize (Hpk eq_refl At).
    destruct (session_peek k' l _ T Hs) as (_ & _ & _ & _ & Hw); [done|by rewrite Ew|]. rewrite Ew in Hw.
    destruct Hpk as (_ & _ & _ & Hk). unfold kseq in Hk. rewrite Eb in Hk. cbn in Hk.
    pose proof (sw_bar _ _ _ Hw). pose proof (sw_next _ _ _ Hw). pose proof (sw_range _ _ _ Hw). autorewrite with baw in Ebar.
    rewrite Hk in Ebar. dlia.
Qed.

(** ** Sending *)

(** An A-MPDU frame that has been sent. *)
Definition flight_ok (k : sk_buff) : Prop :=
  (exists bf, fi_bf k = Some bf /\ isampdu bf = true) /\ tx_ampdu k = true /\ baw_tracked k = true.

(** The frame at the head of a queue is sent. *)
Lemma session_send q k l s T bf : in_session s T -> queue_of q s = k :: l -> fi_bf k = Some bf -> tx_ampdu k = true ->
  BAW_WITHIN (seq_start (win s)) (baw_size (win s)) (seqno bf) = true ->
  in_session (set_queue q l (if baw_tracked k then s else s <| win ::= fun t => ath_tx_addto_baw t (seqno bf) |>)) (seqno bf :: T).
Proof using.
  intros H E Hb Ht Hw. assert (seqno bf = kseq k) as Hk by (unfold kseq; by rewrite Hb). rewrite Hk in *. destruct q.
  - destruct (session_take_retry k l s T H E) as [(_ & _ & ->) Hs]. exact Hs.
  - destruct (session_head_buf k l s T H E) as [[[_ Ho] _]|Hp]; [congruence|congruence|].
    pose proof Hp as (_ & _ & -> & _). by apply session_take_peek.
Qed.

Lemma form_aggr_loop_session fuel d lim h : forall k q n al bp s taken closed al' s' k0 l T,
  form_aggr_loop env fuel d lim h k q n al bp s = Ok (taken, closed, al', s') -> in_session s T ->
  queue_of q s = k0 :: l -> ready s k0 -> alike k0 k -> (isampdu <$> fi_bf k) = (isampdu <$> fi_bf k0) -> 0 <= n -> (n = 0 -> tx_ampdu k = true) ->
  in_session s' ((kseq <$> taken) ++ T) /\ Forall flight_ok taken.
Proof using Hdma.
  induction fuel as [|fuel IH]; intros k q n al bp s taken closed al' s' k0 l T; cbn [form_aggr_loop]; [done|].
  destruct (fi_bf k) as [bf|] eqn:Eb; [|done]. intros E H Hq Hrdy Hal Hia Hn0 Hn.
  destruct (negb (n =? 0) && _) eqn:Estop; [injection E as <- _ _ <-; by split|].
  assert (tx_ampdu k = true) as Ht.
  { destruct (Z.eqb_spec n 0) as [->|Hne]; [by apply Hn|]. cbn [negb andb] in Estop. apply orb_false_iff in Estop as [_ Estop].
    by apply negb_false_iff in Estop. }
  destruct Hrdy as (bf0 & Eb0 & Ei0 & _ & Hw). destruct Hal as (A1 & A2 & A3). rewrite Eb, Eb0 in A3. rewrite Eb0 in Hia. injection A3 as A3. injection Hia as Hia.
  destruct Hw as (_ & Hw & _); [congruence|]. pose proof (session_send q k0 l s T bf0 H Hq Eb0 ltac:(congruence) Hw) as Hs.
  cbv zeta in E. match type of E with context [if negb (baw_tracked k) then ?a else ?b] =>
    destruct (if negb (baw_tracked k) then a else b) as [k1 s1] eqn:E1 end.
  assert (unlink_head q s1 = set_queue q l (if baw_tracked k0 then s else s <| win ::= fun t => ath_tx_addto_baw t (seqno bf0) |>) /\
    tx_ampdu k1 = true /\ baw_tracked k1 = true) as (Eu & E2 & E3).
  { rewrite <- A2, <- A3. unfold unlink_head. destruct (baw_tracked k) eqn:Etr; cbn [negb] in E1; injection E1 as <- <-.
    - by rewrite Hq.
    - split; [|done]. by destruct q; cbn in *; rewrite Hq. }
  rewrite Eu in E. clear E1 Eu. destruct (ath_tx_get_tid_subframe env _) as [[next s2]|] eqn:E4; [|done]. cbn [obind] in E.
  pose proof (get_loop_session _ _ _ _ _ E4 Hs) as Hs2. destruct (get_subframe_occ env (inl 0) _ _ _ E4) as [_ Hc].
  match type of E with context [[?kk]] => set (k2 := kk) in E end.
  assert (flight_ok k2 /\ kseq k2 = seqno bf0) as [Hf2 Hk2].
  { split; [|subst k2; unfold kseq; cbn; congruence]. split; [|done]. eexists. split; [done|]. cbn. congruence. }
  clearbody k2. destruct next as [[k3 q3]|].
  2: { injection E as <- _ _ <-. cbn. rewrite Hk2. split; [exact Hs2|by constructor]. }
  destruct (ath_tid_has_buffered s2).
  2: { injection E as <- _ _ <-. cbn. rewrite Hk2. split; [exact Hs2|by constructor]. }
  destruct (form_aggr_loop env fuel _ _ _ k3 q3 _ _ _ s2) as [[[[tk cl] a1] s3]|] eqn:E5; [|done]. cbn [obind] in E.
  injection E as <- _ _ <-. destruct Hc as [[l3 Hl3] _]. pose proof (get_loop_ready _ _ _ _ _ _ E4) as Hr3.
  eapply IH in E5 as [H5 Hf5]; [|exact Hs2|exact Hl3|exact Hr3|done|done|lia|lia].
  split; [|by constructor]. eapply session_perm; [|exact H5]. cbn. rewrite Hk2. by rewrite Permutation_middle.
Qed.

(** The numbers of a unit in flight. *)
Definition out_seq (k : sk_buff) : list Z :=
  match fi_bf k with Some bf => if isampdu bf then [seqno bf] else [] | None => [] end.

(** A unit consists of A-MPDU frames, or is a single other frame. *)
Definition unit_inv (u : list sk_buff) : Prop :=
  (u <> [] /\ Forall flight_ok u) \/ exists k bf, u = [k] /\ fi_bf k = Some bf /\ isampdu bf = false.

Lemma flight_seqs u : Forall flight_ok u -> u ≫= out_seq = kseq <$> u.
Proof using.
  induction 1 as [|k u Hk _ IH]; [done|]. destruct Hk as [(bf & E1 & E2) _]. rewrite bind_cons, IH, fmap_cons. unfold out_seq, kseq.
  by rewrite E1, E2.
Qed.

(** Chosen frames that are no A-MPDU frames leave the window alone. *)
Lemma session_take_other q k l s T : in_session s T -> queue_of q s = k :: l -> fi_bf k <> None -> tx_ampdu k = false ->
  in_session (set_queue q l s) T.
Proof using.
  intros H E Hb Ht. destruct q.
  - destruct (session_take_retry k l s T H E) as [(_ & Hk & _) _]. congruence.
  - destruct (session_head_buf k l s T H E Hb) as [[_ Hs]|(_ & Hk & _)]; [done|congruence].
Qed.

Lemma sched_aggr_session rates d da s r stop s' T :
  ath_tx_sched_aggr env rates d da s = Ok (r, stop, s') -> in_session s T ->
  in_session s' ((concat (option_list (fst <$> r)) ≫= out_seq) ++ T) /\ Forall unit_inv (option_list (fst <$> r)).
Proof using Hdma.
  unfold ath_tx_sched_aggr. intros E H. destruct (negb _); [injection E as <- <- <-; by split|].
  destruct (ath_tx_get_tid_subframe env s) as [[next s1]|] eqn:E1; [|done]. cbn [obind] in E.
  pose proof (get_loop_session _ _ _ _ _ E1 H) as Hs1. destruct next as [[k q]|]; [|injection E as <- <- <-; by split].
  destruct (get_subframe_occ env (inl 0) _ _ _ E1) as [_ [[l Hl] Hb]]. pose proof (get_loop_ready _ _ _ _ _ _ E1) as Hrdy.
  destruct (_ || _); [injection E as <- <- <-; by split|]. cbv zeta in E. set (k1 := k <| fi_bf ::= _ |>) in E.
  assert (alike k k1 /\ isampdu <$> fi_bf k1 = isampdu <$> fi_bf k) as [Hal Hia].
  { subst k1. split; [split_and!; try done|]; cbn; by destruct (fi_bf k). }
  clearbody k1. match type of E with obind ?a _ = _ => destruct a as [[[taken len] s2]|] eqn:E2; [|done] end. cbn [obind] in E.
  assert (in_session s2 ((taken ≫= out_seq) ++ T) /\ (taken <> [] -> unit_inv taken)) as [Hs2 Hu].
  { destruct (tx_ampdu k) eqn:Et.
    - unfold ath_tx_form_aggr in E2.
      match type of E2 with context [form_aggr_loop env ?f ?d ?m ?h k1 q 0 0 0 s1] =>
        destruct (form_aggr_loop env f d m h k1 q 0 0 0 s1) as [[[[tk cl] a1] s3]|] eqn:E3; [|done] end. cbn [obind] in E2.
      eapply form_aggr_loop_session in E3 as [H3 Hf3]; [|exact Hs1|exact Hl|exact Hrdy|exact Hal|exact Hia|lia|].
      2: { intros _. destruct Hal as (-> & _). done. }
      destruct tk as [|k2 [|k3 tk]]; cbn [obind] in E2; [injection E2 as <- <- <-; by split| |].
      + inversion_clear Hf3 as [|? ? Hk2 _]. pose proof Hk2 as [(bf & Eb & Ea) [Ht2 Htr2]]. rewrite Eb in E2. cbn [obind] in E2.
        injection E2 as <- _ <-. unfold kseq in H3. cbn in H3. rewrite Eb in H3. split; [exact H3|]. intros _. left. split; [done|].
        constructor; [|constructor]. by split; [eexists|].
      + injection E2 as <- _ <-. rewrite <- (flight_seqs _ Hf3) in H3. split; [done|]. intros _. by left.
    - unfold ath_tx_form_burst in E2. injection E2 as <- _ <-. destruct Hrdy as (bf & Eb & Ea & _). rewrite Eb in Hia. rewrite Et in Ea.
      destruct (fi_bf k1) as [bf1|] eqn:Eb1; [|done]. cbn in Hia. injection Hia as Hia. assert (isampdu bf1 = false) as Ha1 by congruence.
      split; [|by intros _; right; eexists _, _]. cbn. unfold out_seq. rewrite Eb1, Ha1. cbn. unfold unlink_head. rewrite Hl.
      by eapply session_take_other. }
  destruct taken as [|k2 tk]; [injection E as <- _ <-; by split|]. specialize (Hu ltac:(done)).
  destruct (_ || _); injection E as <- _ <-; rewrite concat_unit.
  - assert (forall f, in_session s2 f -> in_session (s2 <| clear_ps_filter := false |>) f) as Hsame by (intros f; by apply session_same).
    apply Hsame in Hs2. split; [exact Hs2|]. constructor; [|constructor]. destruct Hu as [[_ Hf]|(k3 & bf & E3 & E4 & E5)].
    + left. split; [done|]. inversion_clear Hf as [|? ? Hk Htk]. by constructor.
    + right. injection E3 as -> ->. by eexists _, _.
  - split; [exact Hs2|]. by constructor.
Qed.

Lemma addto_baw_fields t n : seq_next (ath_tx_addto_baw t n) = seq_next t.
Proof using. unfold ath_tx_addto_baw. cbv zeta. by case_match. Qed.

Lemma session_add_again s T n : in_session s T -> n ∈ T -> in_session (s <| win ::= fun t => ath_tx_addto_baw t n |>) T.
Proof using.
  intros (old & peek & fresh & [Hq Ho Hp Hf Hr Hw]) Hn. exists old, peek, fresh. split; try done; cbn.
  - eapply Forall_impl; [exact Hp|]. intros k (H1 & H2 & H3 & H4). split_and!; try done. by rewrite addto_baw_fields.
  - apply sw_add_again; [done|]. apply elem_of_app. by right.
Qed.

Lemma release_frame_session rates s r s' T : release_frame env rates s = Ok (r, s') -> in_session s T ->
  in_session s' ((option_list r ≫= out_seq) ++ T) /\ Forall unit_inv (option_list ((fun k => [k]) <$> r)).
Proof using Hdma.
  unfold release_frame. intros E H. destruct (ath_tx_get_tid_subframe env s) as [[next s1]|] eqn:E1; [|done]. cbn [obind] in E.
  pose proof (get_loop_session _ _ _ _ _ E1 H) as Hs1. destruct next as [[k q]|]; [|injection E as <- <-; by split].
  destruct (get_subframe_occ env (inl 0) _ _ _ E1) as [_ [[l Hl] Hb]]. pose proof (get_loop_ready _ _ _ _ _ _ E1) as Hrdy.
  destruct Hrdy as (bf & Eb & Ea & _ & Hw). rewrite Eb in E. cbv zeta in E.
  assert (unlink_head q s1 = set_queue q l s1) as Eu by (unfold unlink_head; by rewrite Hl). rewrite Eu in E.
  match type of E with context [if isampdu ?b then ?a else ?c] => destruct (if isampdu b then a else c) as [k1 s2] eqn:E2 end.
  assert (in_session s2 (out_seq k1 ++ T) /\ unit_inv [k1]) as [Hs2 Hu].
  { change (isampdu (bf <| bf_rates := rates |>)) with (isampdu bf) in E2. rewrite Ea in E2. destruct (tx_ampdu k) eqn:Et.
    - destruct Hw as (_ & Hw & _); [done|]. unfold ath_tx_addto_baw' in E2. injection E2 as <- <-. unfold out_seq. cbn. rewrite Ea. cbn.
      split; [|left; split; [done|]; constructor; [|constructor]; split; [eexists; split; [done|cbn; congruence]|done]].
      assert (kseq k = seqno bf) as Hk by (unfold kseq; by rewrite Eb). rewrite <- Hk in *. destruct q.
      + destruct (session_take_retry k l s1 T Hs1 Hl) as [_ Hs]. apply session_add_again; [exact Hs|left].
      + destruct (session_head_buf k l s1 T Hs1 Hl Hb) as [[[_ Ho] _]|Hp]; [congruence|]. exact (session_take_peek k l s1 T Hs1 Hl Hp Hw).
    - injection E2 as <- <-. unfold out_seq. cbn. rewrite Ea. cbn. split; [exact (session_take_other q k l s1 T Hs1 Hl Hb Et)|]. right. by eexists _, _. }
  match type of E with Ok (_, ?t) = _ => set (s3 := t) in E end. assert (same_tid s2 s3) as Hs3 by (subst s3; by destruct (_ && _)).
  clearbody s3. injection E as <- <-. split; [|by constructor]. cbn. rewrite app_nil_r. by eapply session_same.
Qed.

(** ** Completion *)

(** The window has moved by some numbers since it was at [st] with [len]. *)
Definition moved (st len : Z) (s : tid_state) : Prop :=
  exists k, 0 <= k <= len /\ seq_start (win s) = (st + k) mod 4096 /\ baw_len (win s) = len - k.

Lemma moved_same st len s s' : same_tid s s' -> moved st len s -> moved st len s'.
Proof using. intros [E _ _]. unfold moved. by rewrite E. Qed.

Lemma moved_done st len s n T : in_session s (n :: T) -> moved st len s -> moved st len (ath_tx_update_baw' n s).
Proof using.
  intros (old & peek & fresh & H) (k & Hk & E1 & E2). pose proof (se_win _ _ _ _ _ H) as Hw.
  eapply sw_perm in Hw; [|symmetry; apply Permutation_middle]. destruct (sw_done _ _ _ _ Hw) as (_ & _ & k' & Hk' & E3 & E4).
  exists (k + k'). unfold ath_tx_update_baw'. cbn. rewrite E3, E4, E1. split_and!; [lia|lia|dlia|lia].
Qed.

(** A number in flight is inside the window as it was. *)
Lemma moved_index st len s n T : in_session s (n :: T) -> moved st len s -> 0 <= len <= 64 -> 0 <= ATH_BA_INDEX st n < len.
Proof using.
  intros H (k & Hk & E1 & E2) Hl. destruct (session_window_of _ _ H) as [m Hw].
  destruct (sw_in _ _ _ n Hw) as [Hn Hi]; [apply elem_of_app; right; left|]. autorewrite with baw. rewrite E1, E2 in Hi. dlia.
Qed.

Lemma rc_status_same k n b ok s s' : ath_tx_rc_status k n b ok s = Ok s' -> same_tid s s'.
Proof using. unfold ath_tx_rc_status. destruct (_ && _); [done|]. intros E. by injection E as <-. Qed.

(** What holds of the loop that goes through the frames of a unit. *)
Record loop_inv (a : aggr_status) (st len : Z) (l : list sk_buff) (T : list Z) (acc : aggr_acc) : Prop := {
  li_session : in_session (acc_s acc) ((kseq <$> l) ++ (kseq <$> bf_pending acc) ++ T);
  li_retry : Forall retry_ok (bf_pending acc);
  li_moved : moved st len (acc_s acc);
  li_bar : -1 <= acc_bar acc < len;
}.

Section Loop.
Context (a : aggr_status) (st len : Z) (T : list Z) (Hlen : 0 <= len <= 64) (Hst : as_seq_first a = st).

Lemma complete_done_inv f k bf hd l acc acc' :
  complete_done env a f k bf hd acc = Ok acc' -> fi_bf k = Some bf -> loop_inv a st len (k :: l) T acc -> loop_inv a st len l T acc'.
Proof using Hlen Hst.
  intros E Hb [H1 H2 H3 H4]. unfold complete_done in E. set (acc1 := match f with Foreign => _ | _ => _ end) in E.
  assert (seqno bf = kseq k) as Hk by (unfold kseq; by rewrite Hb). cbn in H1.
  assert (acc_s acc1 = acc_s acc /\ bf_pending acc1 = bf_pending acc /\ -1 <= acc_bar acc1 < len) as (E1 & E2 & E3).
  { subst acc1. destruct f; [done|done|done|]. cbn. split_and!; [done|done|lia|].
    pose proof (moved_index _ _ _ _ _ H1 H3 Hlen) as Hi. rewrite Hst, Hk. lia. }
  clearbody acc1. cbv zeta in E. rewrite Hk, E1 in E.
  pose proof (session_done _ _ _ H1) as Hs. pose proof (moved_done _ _ _ _ _ H1 H3) as Hm. set (s1 := ath_tx_update_baw' (kseq k) (acc_s acc)) in *.
  match type of E with obind ?o _ = _ => destruct o as [s2|] eqn:E4; [|done] end. cbn [obind] in E.
  assert (same_tid s1 s2) as Hs2. { destruct (_ && _); [by apply rc_status_same in E4|by injection E4 as <-]. }
  match type of E with context [ath_tx_complete_buf env k hd ?x ?y s2] =>
    pose proof (proj1 (complete_buf_same env k hd x y s2)) as Hs3; set (s3 := ath_tx_complete_buf env k hd x y s2) in * end.
  clearbody s1 s3. injection E as <-. assert (same_tid s1 s3) as Hs13 by by etrans.
  split; cbn; [|by rewrite E2|by eapply moved_same|done]. rewrite E2. by eapply session_same.
Qed.

Lemma complete_pending_inv c last k bf hd l acc acc' out :
  complete_pending env a c last k bf hd acc = (acc', out) -> fi_bf k = Some bf -> flight_ok k ->
  loop_inv a st len (k :: l) T acc -> loop_inv a st len l T acc'.
Proof using Hlen Hst.
  intros E Hb (_ & Ht & Htr) [H1 H2 H3 H4]. unfold complete_pending in E. set (k1 := if c then _ else k) in E.
  assert (alike k k1 /\ fi_bf k1 = Some bf) as [A1 B1].
  { subst k1. destruct c; [|done]. unfold ath_tx_set_retry. destruct (0 <? retries k); by split. }
  clearbody k1. match type of E with (let '(_, _) := ?p in _) = _ => destruct p as [k2 s1] eqn:E1 end.
  assert (alike k k2 /\ fi_bf k2 = Some bf /\ same_tid (acc_s acc) s1) as (A2 & B2 & Hs1).
  { destruct A1 as (? & ? & ?). destruct (tx_eosp k1); injection E1 as <- <-; by split_and!. }
  clear E1 A1 B1 k1. assert (seqno bf = kseq k) as Hk by (unfold kseq; by rewrite Hb). cbn in H1.
  eapply session_same in H1; [|exact Hs1]. eapply moved_same in H3; [|exact Hs1].
  assert (forall k' s', alike k k' -> same_tid s1 s' ->
    loop_inv a st len l T (acc <| acc_s := s' |> <| bf_pending ::= fun l => l ++ [k'] |>)) as Hkeep.
  { intros k' s' Ha Hs'. split; cbn; [|apply Forall_app_2; [done|]|by eapply moved_same|done].
    - eapply session_perm; [|eapply session_same; [exact Hs'|exact H1]]. rewrite fmap_app. cbn. rewrite (alike_seq _ _ Ha).
      solve_Permutation.
    - constructor; [|constructor]. eapply alike_retry; [exact Ha|]. split_and!; congruence. }
  destruct (last && as_stale a); [|injection E as <- _; by apply Hkeep].
  unfold ath_clone_txbuf, ath_tx_get_buffer in E. destruct (txbuf s1) as [|tbf l1].
  - rewrite Hk in E. pose proof (session_done _ _ _ H1) as Hs. pose proof (moved_done _ _ _ _ _ H1 H3) as Hm.
    set (s2 := ath_tx_update_baw' (kseq k) s1) in *.
    match type of E with context [ath_tx_complete_buf env k2 hd ?x ?y s2] =>
      pose proof (proj1 (complete_buf_same env k2 hd x y s2)) as Hs3; set (s3 := ath_tx_complete_buf env k2 hd x y s2) in * end.
    clearbody s2 s3. injection E as <- _. split; cbn; [by eapply session_same|done|by eapply moved_same|].
    pose proof (moved_index _ _ _ _ _ H1 H3 Hlen) as Hi. rewrite Hst. lia.
  - match type of E with (acc <| acc_s := ?s2 |> <| bf_pending ::= fun l => l ++ [?k3] |>, _) = _ => pose proof (Hkeep k3 s2) as Hkp end.
    injection E as <- _. apply Hkp; [|by split]. destruct A2 as (? & ? & E3). split_and!; [done|done|]. rewrite <- E3, B2. done.
Qed.

Lemma complete_loop_inv l : forall acc acc', Forall flight_ok l -> loop_inv a st len l T acc ->
  complete_loop env a l acc = Ok acc' -> loop_inv a st len [] T acc'.
Proof using Hlen Hst.
  induction l as [|k l IH]; intros acc acc' Hf Hi E; cbn [complete_loop] in E; [by injection E as <-|].
  inversion_clear Hf as [|? ? Hk Hl]. pose proof Hk as [(bf & Hb & _) _]. rewrite Hb in E. cbv zeta in E.
  match type of E with context [subframe_fate a (acc_s ?t) k bf] => set (acc1 := t) in E end.
  match type of E with context [complete_done env a _ k bf ?t acc1] => set (hd := t) in E end.
  assert (loop_inv a st len (k :: l) T acc1) as Hi1.
  { subst acc1. destruct (_ && _); [|done]. destruct Hi as [H1 H2 H3 H4]. split; [|done| |done].
    - eapply session_same; [|exact H1]. by split.
    - eapply moved_same; [|exact H3]. by split. }
  clearbody acc1 hd. assert (forall f, obind (complete_done env a f k bf hd acc1) (complete_loop env a l) = Ok acc' -> loop_inv a st len [] T acc') as Hdone.
  { intros f Ef. destruct (complete_done env a f k bf hd acc1) as [acc2|] eqn:E2; [|done]. eapply IH; [done| |exact Ef].
    by eapply complete_done_inv. }
  destruct (subframe_fate _ _ _ _) eqn:Efate; try (by apply (Hdone _ E)).
  destruct (complete_pending env a counts _ k bf hd acc1) as [acc2 out] eqn:E2.
  apply (complete_pending_inv _ _ _ _ _ l) in E2 as Hi2; [|done|done|done]. destruct out; [|by eapply IH].
  assert (l = []) as ->; [|by injection E as <-].
  assert (out_last : forall last acc2, complete_pending env a counts last k bf hd acc1 = (acc2, true) -> last = true); [|by apply out_last, bool_decide_eq_true in E2].
  clear. intros last acc2. unfold complete_pending. destruct (if tx_eosp _ then _ else _). destruct last; [done|]. by intros [= ?].
Qed.
End Loop.

Lemma session_retry_app s l T : in_session s ((kseq <$> l) ++ T) -> Forall retry_ok l ->
  in_session (s <| retry_q ::= fun q => q ++ l |>) T.
Proof using.
  intros (old & peek & fresh & [Hq Ho Hp Hf Hr Hw]) Hl. exists old, peek, fresh. split; try done; cbn; [by apply Forall_app_2|].
  by rewrite fmap_app, <- app_assoc.
Qed.

Lemma queue_tid_same s : same_tid s (ath_tx_queue_tid env s).
Proof using. unfold ath_tx_queue_tid. by destruct (chanctx env). Qed.
Lemma send_bar_same n s : same_tid s (ath_send_bar env n s).
Proof using. unfold ath_send_bar, emit. by destruct (an_sta env). Qed.

(** Moving the pending frames changes the retry queue only. *)
Lemma splice_pending_same st l s : same_tid (s <| retry_q ::= fun q => q ++ l |>) (splice_pending env st l s).
Proof using.
  unfold splice_pending. destruct (bool_decide_reflect (l = [])) as [->|_]; [by split; cbn; rewrite ?app_nil_r|].
  set (s1 := if sleeping s then _ else s). assert (same_tid s s1) as [E1 E2 E3] by (subst s1; by destruct (sleeping s)). clearbody s1.
  cbv zeta. set (s2 := s1 <| retry_q ::= _ |>). assert (same_tid (s <| retry_q ::= fun q => q ++ l |>) s2) as H2.
  { split; cbn; congruence. }
  clearbody s2. destruct (negb _); [|done]. etrans; [exact H2|]. etrans; [apply queue_tid_same|]. generalize (ath_tx_queue_tid env s2).
  intros s3. by destruct (has _ _).
Qed.

Lemma update_bar_session st len b s T : in_session s T -> moved st len s -> 0 <= len <= 64 -> 0 <= st < 4096 -> -1 <= b < len ->
  in_session (update_bar env st b s) T.
Proof using.
  intros H (k & Hk & Es & El) Hl Hst Hb. unfold update_bar. destruct (Z.leb_spec 0 b); [|done]. cbv zeta.
  eapply session_same; [apply send_bar_same|]. destruct (BAW_WITHIN _ _ _) eqn:Ew; [|done].
  destruct H as (old & peek & fresh & [Hq Ho Hp Hf Hr Hw]). exists old, peek, fresh. split; try done. cbn.
  eapply sw_bar_set; [exact Hw|exact Hl|exact Hst|exact Hk|exact Es|exact El|lia|exact Ew].
Qed.

Lemma unit_bind u : Forall flight_ok u -> length (u ≫= (fun k => option_list (fi_bf k))) = length u.
Proof using. induction 1 as [|k u [(bf & E & _) _] _ IH]; [done|]. rewrite bind_cons, E. cbn. by rewrite <- IH. Qed.

Lemma complete_aggr_session ts ok u s s' T : Forall flight_ok u -> in_session s ((kseq <$> u) ++ T) ->
  ath_tx_complete_aggr env true ts ok u s = Ok s' -> in_session s' T.
Proof using.
  intros Hf H. unfold ath_tx_complete_aggr. destruct (u ≫= _) as [|first bfs]; [done|]. destruct (last u) as [lastskb|]; [|done].
  destruct (4 <? _); [done|]. cbn [negb]. cbv zeta.
  match goal with |- (let '(_, _) := ?p in _) = _ -> _ => destruct p as [seq_st ba] end. destruct (ath_tx_count_frames _ _ _ _) as [nf nb].
  destruct (session_window_of _ _ H) as [m Hw]. pose proof (sw_range _ _ _ Hw) as Hlen. pose proof (br_start _ _ (sw_rep _ _ _ Hw)) as Hst.
  match goal with |- context [complete_loop env ?a u ?c] => destruct (complete_loop env a u c) as [acc|] eqn:E1; [|done] end.
  eapply (complete_loop_inv _ (seq_start (win s)) (baw_len (win s)) T Hlen) in E1 as [H1 H2 H3 H4]; [|done|done|].
  2: { split; cbn; [done|done| |lia]. exists 0. split_and!; try lia. dlia. }
  cbn [obind]. set (s1 := update_bar _ _ _ _). assert (in_session s1 T) as Hs1.
  { subst s1. eapply update_bar_session; [|eapply moved_same; [apply splice_pending_same|exact H3]|done|done|done].
    eapply session_same; [apply splice_pending_same|]. by apply session_retry_app. }
  clearbody s1. intros [= <-]. destruct (_ && _ && _); [|done]. by eapply session_same; [|exact Hs1].
Qed.

Lemma mark_stale_flight b u : Forall flight_ok u -> Forall flight_ok (mark_stale b u).
Proof using.
  unfold mark_stale. destruct u as [|k u _] using rev_ind; [done|]. rewrite last_snoc, removelast_last.
  intros [H1 H2]%Forall_app. apply Forall_app_2; [done|]. constructor; [|constructor]. inversion_clear H2 as [|? ? Hk _].
  destruct Hk as [(bf & E & Ha) Hk]. split; [|done]. cbn. rewrite E. by eexists.
Qed.
Lemma mark_stale_seqs b u : kseq <$> mark_stale b u = kseq <$> u.
Proof using.
  unfold mark_stale. destruct u as [|k u _] using rev_ind; [done|]. rewrite last_snoc, removelast_last, !fmap_app. f_equal.
  cbn. unfold kseq. cbn. by destruct (fi_bf k).
Qed.

Lemma process_buffer_session b ts u s s' T : unit_inv u -> in_session s ((u ≫= out_seq) ++ T) ->
  ath_tx_process_buffer env true ts (mark_stale b u) s = Ok s' -> in_session s' T.
Proof using.
  intros [[Hne Hf]|(k & bf & -> & Eb & Ea)] H E.
  - rewrite flight_seqs in H by done. apply (mark_stale_flight b) in Hf. rewrite <- (mark_stale_seqs b) in H.
    unfold ath_tx_process_buffer in E. destruct (mark_stale b u) as [|k u']; [done|]. pose proof Hf as Hf'.
    inversion_clear Hf' as [|? ? Hk _]. destruct Hk as [(bf & Eb & Ea) _]. rewrite Eb, Ea in E. cbn [negb] in E. by eapply complete_aggr_session.
  - unfold out_seq in H. cbn in H. rewrite Eb, Ea in H. cbn in H. unfold ath_tx_process_buffer, mark_stale in E. cbn in E. rewrite Eb in E. cbn in E.
    rewrite Ea in E. cbn [negb] in E. match type of E with obind ?o _ = _ => destruct o as [s1|] eqn:E1; [|done] end. cbn [obind] in E.
    assert (same_tid s s1) as Hs1. { destruct (negb _); [by apply rc_status_same in E1|by injection E1 as <-]. }
    match type of E with Ok (ath_tx_complete_buf env ?k1 ?l ?x ?y ?t) = _ => pose proof (proj1 (complete_buf_same env k1 l x y t)) as Hs2;
      set (s3 := ath_tx_complete_buf env k1 l x y t) in *; assert (same_tid s1 t) as Hs3 by by destruct b end.
    clearbody s3. injection E as <-. eapply session_same; [|exact H]. etrans; [exact Hs1|]. by etrans.
Qed.
End Session.

(** * Outside a session *)

(** What the window keeps while no session runs. *)
Record window_keeps (t t' : ath_atx_tid) : Prop := {
  wk_active : active t' = active t;
  wk_size : baw_size t' = baw_size t;
  wk_next : 0 <= seq_next t < 4096 -> 0 <= seq_next t' < 4096;
}.
#[export] Instance window_keeps_preorder : PreOrder window_keeps.
Proof. split; [by split|]. intros t1 t2 t3 [] []. split; [congruence|congruence|tauto]. Qed.

Definition idle (s : tid_state) : Prop :=
  active (win s) = false /\ retry_q s = [] /\ 0 <= seq_next (win s) < 4096 /\ 0 <= baw_size (win s) <= 64.

Lemma idle_keeps s s' : window_keeps (win s) (win s') -> retry_q s' = [] -> idle s -> idle s'.
Proof. intros [E1 E2 E3] E (H1 & H2 & H3 & H4). split_and!; rewrite ?E1, ?E2; tauto. Qed.
Lemma idle_same s s' : same_tid s s' -> idle s -> idle s'.
Proof. intros [E1 E2 E3] H. apply (idle_keeps s s'); [by rewrite E1| |done]. rewrite E3. apply H. Qed.

Lemma update_loop_keeps fuel : forall t, window_keeps t (update_baw_loop fuel t).
Proof.
  induction fuel as [|fuel IH]; intros t; cbn [update_baw_loop]; [done|]. case_match; [|done]. etrans; [|apply IH].
  by destruct (0 <=? _).
Qed.
Lemma update_baw_keeps t n : window_keeps t (ath_tx_update_baw t n).
Proof. unfold ath_tx_update_baw. cbv zeta. etrans; [|apply update_loop_keeps]. by split. Qed.

Section Idle.
Context (env : tid_env).

Lemma seqno_keeps t mf : window_keeps t (snd (setup_buffer_seqno t mf)).
Proof using. unfold setup_buffer_seqno. destruct mf; cbn; [done|]. split; try done. cbn. intros _. autorewrite with baw. dlia. Qed.

Lemma setup_keeps k s : window_keeps (win s) (win (snd (ath_tx_setup_buffer env k s))).
Proof using.
  unfold ath_tx_setup_buffer. destruct (ath_tx_get_buffer s) as [[bf s1]|] eqn:E; [|done].
  assert (win s1 = win s) as <- by (unfold ath_tx_get_buffer in E; destruct (txbuf s); [done|]; by injection E as _ <-).
  destruct (data_present k); [|by destruct (dma_mapping_error env k)]. pose proof (seqno_keeps (win s1) (morefrags k)) as H.
  destruct (setup_buffer_seqno (win s1) (morefrags k)) as [n t]. cbv zeta. by destruct (dma_mapping_error env _).
Qed.

Lemma setup_buffer_ampdu k s : match fst (ath_tx_setup_buffer env k s) with Some k' => tx_ampdu k' = tx_ampdu k | None => True end.
Proof using.
  unfold ath_tx_setup_buffer. destruct (ath_tx_get_buffer s) as [[bf s1]|]; [|done]. destruct (data_present k).
  - destruct (setup_buffer_seqno _ _) as [n t]. destruct (dma_mapping_error _ _); [done|]. cbn. by destruct (negb _).
  - by destruct (dma_mapping_error _ _).
Qed.

Lemma change_state_keeps l : forall s,
  let '(l', s') := change_state_loop env l s in window_keeps (win s) (win s') /\ Forall old_ok l'.
Proof using.
  induction l as [|k l IH]; intros s; cbn [change_state_loop]; [done|].
  destruct (fi_bf _) as [bf|] eqn:Eb; cbn in Eb.
  - specialize (IH s). destruct (change_state_loop env l s) as [l' s']. destruct IH as [H1 H2]. split; [done|].
    constructor; [|done]. split; [|done]. cbn. congruence.
  - match goal with |- context [ath_tx_setup_buffer env ?k0 s] => set (k1 := k0) in *; pose proof (setup_keeps k1 s) as Hk;
      pose proof (setup_buffer_occ env (inl 0) k1 s Eb) as Ho; pose proof (setup_buffer_ampdu k1 s) as Ha end.
    destruct (ath_tx_setup_buffer env k1 s) as [[k'|] s1]; cbn in Hk.
    + specialize (IH s1). destruct (change_state_loop env l s1) as [l' s2]. destruct IH as [H1 H2]. split; [by etrans|].
      constructor; [|done]. split; [apply Ho|]. by rewrite Ha.
    + specialize (IH (free_skb env k1 s1)). destruct (change_state_loop env l _) as [l' s2]. destruct IH as [H1 H2]. split; [|done].
      etrans; [exact Hk|]. by rewrite <- (same_win _ _ (proj1 (free_skb_same env k1 s1))).
Qed.

Lemma get_loop_idle fuel : forall s r s', get_subframe_loop env fuel s = Ok (r, s') -> idle s -> idle s'.
Proof using.
  induction fuel as [|fuel IH]; intros s r s'; cbn [get_subframe_loop]; [done|]. intros E H.
  pose proof H as (Ha & Hr & _). assert (which_q s = false) as Eq by (unfold which_q; by rewrite Hr). rewrite Eq in E.
  destruct (queue_of false s) as [|k l]; [by injection E as _ <-|]. destruct (subframe_buffer_queues env k s) as [_ E2].
  assert (idle (snd (subframe_buffer env k s))) as H1.
  { eapply idle_keeps; [|by rewrite E2|exact H]. unfold subframe_buffer. destruct (fi_bf k); [done|]. apply setup_keeps. }
  destruct (subframe_buffer env k s) as [[k'|] s1]; cbn in H1.
  2: { eapply IH; [exact E|]. eapply idle_same; [apply free_skb_same|exact H1]. }
  destruct (fi_bf k'); [|done]. cbv zeta in E. rewrite (proj1 H1) in E. cbn in E. by injection E as _ <-.
Qed.

(** Outside a session no A-MPDU frame is chosen. *)
Lemma get_subframe_idle s k q s' : ath_tx_get_tid_subframe env s = Ok (Some (k, q), s') -> idle s -> tx_ampdu k = false /\ q = false.
Proof using.
  intros E H. pose proof (get_loop_idle _ _ _ _ E H) as H'. destruct (get_loop_ready _ _ _ _ _ _ E) as (bf & _ & _ & _ & Hw).
  split.
  - destruct (tx_ampdu k); [|done]. destruct Hw as [Hw _]; [done|]. destruct H'. congruence.
  - destruct q; [|done]. destruct (get_subframe_occ env (inl 0) _ _ _ E) as [_ [[l Hl] _]]. cbn in Hl. destruct H' as (_ & H' & _). congruence.
Qed.

Lemma sched_aggr_idle rates d da s r stop s' :
  ath_tx_sched_aggr env rates d da s = Ok (r, stop, s') -> idle s -> idle s' /\ Forall unit_inv (option_list (fst <$> r)).
Proof using.
  unfold ath_tx_sched_aggr. intros E H. destruct (negb _); [injection E as <- <- <-; by split|].
  destruct (ath_tx_get_tid_subframe env s) as [[next s1]|] eqn:E1; [|done]. cbn [obind] in E.
  pose proof (get_loop_idle _ _ _ _ E1 H) as Hs1. destruct next as [[k q]|]; [|injection E as <- <- <-; by split].
  destruct (get_loop_ready _ _ _ _ _ _ E1) as (bf & Eb & Ea & _ & _). destruct (get_subframe_idle _ _ _ _ E1 H) as [Ht ->]. rewrite Ht in *.
  destruct (_ || _); [injection E as <- <- <-; by split|]. cbv zeta in E. cbn [obind ath_tx_form_burst] in E.
  assert (forall b, idle (unlink_head false s1 <| clear_ps_filter := b |>) /\ idle (unlink_head false s1)) as Hi by (intros b; by split).
  destruct (_ || _); injection E as <- _ <-; (split; [by apply (Hi false)|]); (constructor; [|constructor]); right.
  - eexists _, (bf <| bf_rates := rates |>). split; [reflexivity|]. cbn. by rewrite Eb.
  - eexists _, (bf <| bf_rates := rates |>). split; [reflexivity|]. cbn. by rewrite Eb.
Qed.

Lemma release_frame_idle rates s r s' : release_frame env rates s = Ok (r, s') -> idle s ->
  idle s' /\ Forall unit_inv (option_list ((fun k => [k]) <$> r)).
Proof using.
  unfold release_frame. intros E H. destruct (ath_tx_get_tid_subframe env s) as [[next s1]|] eqn:E1; [|done]. cbn [obind] in E.
  pose proof (get_loop_idle _ _ _ _ E1 H) as Hs1. destruct next as [[k q]|]; [|injection E as <- <-; by split].
  destruct (get_loop_ready _ _ _ _ _ _ E1) as (bf & Eb & Ea & _ & _). destruct (get_subframe_idle _ _ _ _ E1 H) as [Ht ->]. rewrite Eb in E.
  cbv zeta in E. change (isampdu (bf <| bf_rates := rates |>)) with (isampdu bf) in E. rewrite Ea, Ht in E.
  assert (idle (unlink_head false s1)) as Hi by done. split.
  - match type of E with Ok (_, ?t) = _ => assert (same_tid (unlink_head false s1) t) as Hs by by destruct (_ && _) end.
    pose proof (idle_same _ _ Hs Hi) as Hj. match type of Hj with idle ?t => set (s2 := t) in * end. clearbody s2. by injection E as _ <-.
  - injection E as <- _. constructor; [|constructor]. right. eexists _, (bf <| bf_rates := rates |>). split; [reflexivity|]. cbn. split; [done|]. congruence.
Qed.

(** ** Completion *)

Lemma complete_done_idle a f k bf hd acc acc' : complete_done env a f k bf hd acc = Ok acc' ->
  idle (acc_s acc) -> f = Foreign -> idle (acc_s acc') /\ bf_pending acc' = bf_pending acc /\ acc_bar acc' = acc_bar acc.
Proof using.
  intros E H ->. unfold complete_done in E. cbv zeta in E.
  match type of E with obind ?o _ = _ => destruct o as [s1|] eqn:E3; [|done] end. cbn [obind] in E.
  assert (idle (ath_tx_update_baw' (seqno bf) (acc_s acc))) as H1.
  { eapply idle_keeps; [apply update_baw_keeps|apply H|exact H]. }
  assert (idle s1) as H2.
  { destruct (_ && _); [|injection E3 as <-; exact H1]. apply rc_status_same in E3. by eapply idle_same. }
  match type of E with context [ath_tx_complete_buf env k hd ?st ?ok s1] =>
    pose proof (idle_same _ _ (proj1 (complete_buf_same env k hd st ok s1)) H2) as H3; set (s2 := ath_tx_complete_buf env k hd st ok s1) in * end.
  clearbody s2. by injection E as <-.
Qed.

Lemma complete_loop_idle a l : forall acc acc', complete_loop env a l acc = Ok acc' ->
  idle (acc_s acc) -> idle (acc_s acc') /\ bf_pending acc' = bf_pending acc /\ acc_bar acc' = acc_bar acc.
Proof using.
  induction l as [|k l IH]; intros acc acc' E H; cbn [complete_loop] in E; [by injection E as <-|].
  destruct (fi_bf k) as [bf|]; [|done]. cbv zeta in E.
  match type of E with context [subframe_fate a (acc_s ?t) k bf] => set (acc1 := t) in E end.
  match type of E with context [complete_done env a _ k bf ?t acc1] => set (hd := t) in E end.
  assert (idle (acc_s acc1) /\ bf_pending acc1 = bf_pending acc /\ acc_bar acc1 = acc_bar acc) as (H1 & E1 & E2).
  { subst acc1. by destruct (_ && _). }
  clearbody acc1 hd. assert (subframe_fate a (acc_s acc1) k bf = Foreign) as Ef.
  { unfold subframe_fate. cbv zeta. by rewrite (proj1 H1), orb_true_r. }
  rewrite Ef in E. destruct (complete_done env a Foreign k bf hd acc1) as [acc2|] eqn:E3; [|done]. cbn [obind] in E.
  apply complete_done_idle in E3 as (H3 & E4 & E5); [|done|done]. apply IH in E as (H4 & E6 & E7); [|done]. split; [done|]. split; congruence.
Qed.

Lemma no_sta_same st l : forall s s', complete_no_sta env st l s = Ok s' -> same_tid s s'.
Proof using.
  induction l as [|k l IH]; intros s s' E; cbn [complete_no_sta] in E; [by injection E as <-|].
  destruct (fi_bf k) as [bf|]; [|done]. cbv zeta in E. apply IH in E. etrans; [|exact E]. etrans; [|apply complete_buf_same].
  by destruct (_ && _).
Qed.

Lemma process_buffer_idle sta ts u s s' : ath_tx_process_buffer env sta ts u s = Ok s' -> idle s -> idle s'.
Proof using.
  unfold ath_tx_process_buffer. intros E H. destruct u as [|k u]; [done|]. destruct (fi_bf k) as [bf|] eqn:Eb; [|done].
  destruct (negb (isampdu bf)).
  - match type of E with obind ?o _ = _ => destruct o as [s1|] eqn:E1; [|done] end. cbn [obind] in E.
    assert (same_tid s s1) as Hs1. { destruct (negb _); [by apply rc_status_same in E1|by injection E1 as <-]. }
    match type of E with Ok (ath_tx_complete_buf env ?k1 ?l ?x ?y ?t) = _ => pose proof (proj1 (complete_buf_same env k1 l x y t)) as Hs2;
      set (s3 := ath_tx_complete_buf env k1 l x y t) in *; assert (same_tid s1 t) as Hs3 by by destruct (stale bf) end.
    clearbody s3. injection E as <-. eapply idle_same; [|exact H]. etrans; [exact Hs1|]. by etrans.
  - unfold ath_tx_complete_aggr in E. destruct (_ ≫= _) as [|first bfs]; [done|]. destruct (last _) as [lastskb|]; [|done].
    destruct (4 <? _); [done|]. destruct sta; cbn [negb] in E; [|apply no_sta_same in E; by eapply idle_same]. cbv zeta in E.
    match type of E with (let '(_, _) := ?p in _) = _ => destruct p as [seq_st ba] end. destruct (ath_tx_count_frames _ _ _ _) as [nf nb].
    match type of E with context [complete_loop env ?a ?u ?c] => destruct (complete_loop env a u c) as [acc|] eqn:E1; [|done] end.
    apply complete_loop_idle in E1 as (H1 & E2 & E3); [|done]. cbn [obind] in E. cbn in E2, E3. rewrite E2, E3 in E.
    unfold update_bar, splice_pending in E. cbn [Z.leb Z.compare] in E. rewrite bool_decide_eq_true_2 in E by done.
    injection E as <-. destruct (_ && _ && _); [|done]. by eapply idle_same; [|exact H1].
Qed.

(** ** Sessions start and stop *)

Lemma flush_loop_keeps l : forall b s, retry_q s = l ->
  window_keeps (win s) (win (snd (flush_loop env l b s))) /\ retry_q (snd (flush_loop env l b s)) = [].
Proof using.
  induction l as [|k l IH]; intros b s Hq; cbn [flush_loop]; [done|]. cbv zeta. destruct (fi_bf k) as [bf|].
  - set (s2 := if baw_tracked k then _ else _).
    assert (retry_q s2 = l /\ window_keeps (win s) (win s2)) as [Hq2 Hk].
    { subst s2. destruct (baw_tracked k); cbn; [|done]. split; [done|apply update_baw_keeps]. }
    clearbody s2. destruct (complete_buf_same env k [bf] 0 false s2) as [[E1 _ E3] _].
    destruct (IH (b || baw_tracked k) (ath_tx_complete_buf env k [bf] 0 false s2)) as [H1 H2]; [congruence|]. rewrite E1 in H1.
    split; [by etrans|done].
  - set (s2 := s <| retry_q := l |>). destruct (free_skb_same env k s2) as [[E1 _ E3] _].
    destruct (IH b (free_skb env k s2)) as [H1 H2]; [by rewrite E3|]. rewrite E1 in H1. done.
Qed.

(** The window that a state leaves to the next session. *)
Definition window_ready (s : tid_state) : Prop := 0 <= seq_next (win s) < 4096 /\ 0 <= baw_size (win s) <= 64.

Lemma aggr_stop_idle s : window_ready s -> idle (ath_tx_aggr_stop env s).
Proof using.
  intros [H1 H2]. unfold ath_tx_aggr_stop, ath_tx_flush_tid. set (s1 := s <| win ::= _ |>).
  destruct (flush_loop_keeps (retry_q s1) false s1 eq_refl) as [[K1 K2 K3] Hr].
  destruct (flush_loop env (retry_q s1) false s1) as [b s2]. cbn [snd] in *.
  assert (idle s2) as Hi by (unfold idle; rewrite K1, K2; tauto).
  assert (idle (if b then ath_send_bar env (seq_start (win s2)) s2 else s2)) as Hi2.
  { destruct b; [|done]. eapply idle_same; [apply send_bar_same|done]. }
  generalize dependent (if b then ath_send_bar env (seq_start (win s2)) s2 else s2). intros s3 Hi3.
  unfold ath_tx_tid_change_state. pose proof (change_state_keeps (buf_q s3) s3) as H. destruct (change_state_queues env (buf_q s3) s3) as [_ Hq].
  destruct (change_state_loop env (buf_q s3) s3) as [l s4]. destruct H as [H _]. cbn in Hq.
  eapply idle_keeps; [exact H| |exact Hi3]. cbn. rewrite Hq. apply Hi3.
Qed.

Lemma drain_empties fuel : forall s, (backlog s <= fuel)%nat ->
  win (ath_tid_drain env fuel s) = win s /\ retry_q (ath_tid_drain env fuel s) = [].
Proof using.
  induction fuel as [|fuel IH]; intros s Hf; cbn [ath_tid_drain].
  { unfold backlog in Hf. split; [done|]. destruct (retry_q s); [done|cbn in Hf; lia]. }
  destruct (ath_tid_dequeue s) as [[k s']|] eqn:E.
  2: { split; [done|]. unfold ath_tid_dequeue in E. by destruct (retry_q s). }
  assert (win s' = win s /\ S (backlog s') = backlog s) as [E1 E2].
  { unfold ath_tid_dequeue, backlog in *. destruct (retry_q s) eqn:Er; [destruct (buf_q s) eqn:Eq; [done|]|]; injection E as <- <-; cbn.
    - by rewrite Er.
    - split; [done|lia]. }
  match goal with |- context [ath_tid_drain env fuel ?t] => assert (same_tid s' t) as Hs end.
  { destruct (fi_bf k); [apply complete_buf_same|apply complete_same]. }
  match goal with |- context [ath_tid_drain env fuel ?t] => destruct (IH t) as [-> ->] end; [rewrite (same_backlog _ _ Hs); lia|].
  by rewrite (same_win _ _ Hs).
Qed.

Lemma cleanup_idle s : window_ready s -> idle (node_cleanup_tid env s).
Proof using.
  intros [H1 H2]. unfold node_cleanup_tid. cbv zeta. set (s1 := s <| queued := false |>).
  destruct (drain_empties (backlog s1) s1) as [Ew Er]; [done|]. change (length (retry_q s1) + length (buf_q s1))%nat with (backlog s1).
  set (s2 := ath_tid_drain env (backlog s1) s1) in *. clearbody s2. unfold idle. cbn. rewrite Ew, Er. done.
Qed.

Lemma aggr_start_session s : idle s -> in_session (fst (ath_tx_aggr_start env s)) [].
Proof using.
  intros (Ha & Hr & Hn & Hs). unfold ath_tx_aggr_start, ath_tx_tid_change_state.
  pose proof (change_state_keeps (buf_q s) s) as H. destruct (change_state_queues env (buf_q s) s) as [_ Hq].
  destruct (change_state_loop env (buf_q s) s) as [l s1]. destruct H as [[K1 K2 K3] Ho]. cbn in Hq.
  pose proof (sw_start (win s1) (K3 Hn) ltac:(rewrite K2; exact Hs)) as Hw. cbn [win upd]. 
  exists l, [], []. unfold aggr_start_window in *. split; cbn; try done; [by rewrite app_nil_r|by rewrite Hq, Hr|].
  rewrite Hq, Hr. exact Hw.
Qed.
End Idle.

(** * Runs *)

Definition hw_seqs (hw : list (list sk_buff)) : list Z := concat hw ≫= out_seq.

Definition run_inv (x : tid_run_state) : Prop :=
  Forall unit_inv (snd x) /\
  if active (win (fst x)) then in_session (fst x) (hw_seqs (snd x)) else idle (fst x).

(** What the model relies on. While a session runs, mac80211 marks the data
    frames of the identifier as A-MPDU frames and does not fragment them, and
    the station exists. A session starts when the A-MPDU frames of the last one
    have been reported, and its window size is set before its first frame is
    sent. *)
Definition orderly (o : tid_op) (x : tid_run_state) : Prop :=
  let '(s, hw) := x in
  match o with
  | OpSubmit _ _ k => active (win s) = true -> tx_ampdu k = true /\ data_present k = true /\ morefrags k = false
  | OpComplete _ sta _ _ => active (win s) = true -> sta = true
  | OpStart => active (win s) = false /\ hw_seqs hw = []
  | OpResume factor => 0 <= factor <= 3 /\ (active (win s) = true -> baw_len (win s) = 0)
  | _ => True
  end.

Fixpoint orderly_run (env : tid_env) (l : list tid_op) (x : tid_run_state) : Prop :=
  match l with
  | [] => True
  | o :: l => orderly o x /\ match tid_exec env o x with Ok y => orderly_run env l y | Oops => True end
  end.

Section Run.
Context (env : tid_env) (Hdma : forall k, dma_mapping_error env k = false).

Lemma hw_seqs_app hw1 hw2 : hw_seqs (hw1 ++ hw2) = hw_seqs hw1 ++ hw_seqs hw2.
Proof using. unfold hw_seqs. by rewrite concat_app, bind_app. Qed.

Lemma hw_seqs_delete hw n u : hw !! n = Some u -> hw_seqs hw ≡ₚ (u ≫= out_seq) ++ hw_seqs (delete n hw).
Proof using.
  intros H. rewrite delete_take_drop, hw_seqs_app, <- (take_drop_middle hw n u H) at 1. rewrite hw_seqs_app.
  unfold hw_seqs at 2. cbn [concat]. rewrite bind_app. solve_Permutation.
Qed.

Lemma run_inv_ready s hw : run_inv (s, hw) -> window_ready s.
Proof using.
  intros [_ H]. cbn in H. destruct (active (win s)).
  - destruct H as (old & peek & fresh & [_ _ _ _ _ Hw]). split; [by eapply sw_next_range|by eapply sw_size].
  - split; apply H.
Qed.

(** A state with the window of a session or an idle one. *)
Lemma run_inv_session s hw : Forall unit_inv hw -> in_session s (hw_seqs hw) -> run_inv (s, hw).
Proof using. intros Hu H. split; [done|]. cbn. by rewrite (session_active _ _ H). Qed.
Lemma run_inv_idle s hw : Forall unit_inv hw -> idle s -> run_inv (s, hw).
Proof using. intros Hu H. split; [done|]. cbn. by rewrite (proj1 H). Qed.

Lemma run_inv_same s s' hw : same_tid s s' -> run_inv (s, hw) -> run_inv (s', hw).
Proof using.
  intros Hs [Hu H]. split; [done|]. cbn in *. rewrite (same_win _ _ Hs). destruct (active (win s)); [by eapply session_same|by eapply idle_same].
Qed.

Lemma start_queue_inv q own k s hw : run_inv (s, hw) ->
  (active (win s) = true -> tx_ampdu k = true /\ data_present k = true /\ morefrags k = false) ->
  run_inv (ath_tx_start_queue env q own k s, hw).
Proof using.
  intros H Hk. unfold ath_tx_start_queue. cbv zeta.
  match goal with |- context [if own then ?a else ?b] => destruct (if own then a else b) as [k1 s1] eqn:E1 end.
  assert (same_tid s s1 /\ fi_bf k1 = None /\ tx_ampdu k1 = tx_ampdu k /\ data_present k1 = data_present k /\ morefrags k1 = morefrags k /\
    baw_tracked k1 = false) as (Hs & E2 & E3 & E4 & E5 & E6).
  { destruct own; injection E1 as <- <-; [|done]. split_and!; try done. by destruct (_ && _). }
  clear E1. set (s2 := if tx_clear_ps_filt k1 then _ else s1). assert (same_tid s s2) as Hs2 by (etrans; [exact Hs|]; subst s2; by case_match).
  clearbody s2. apply (run_inv_same _ _ _ Hs2) in H. rewrite <- (same_win _ _ Hs2) in Hk. clear Hs Hs2 s1 s.
  set (s3 := s2 <| buf_q ::= _ |>). assert (run_inv (s3, hw)) as H3.
  { destruct H as [Hu H]. split; [done|]. cbn in *. destruct (active (win s2)) eqn:Ea; [|done]. specialize (Hk eq_refl) as (K1 & K2 & K3).
    destruct H as (old & peek & fresh & [Hq Ho Hp Hf Hr Hw]). exists old, peek, (fresh ++ [k1]). split; try done; cbn.
    - by rewrite Hq, <- !app_assoc.
    - apply Forall_app_2; [done|]. constructor; [|constructor]. unfold fresh_ok. by rewrite E2, E3, E4, E5, E6. }
  destruct (negb _); [|done]. eapply run_inv_same; [apply queue_tid_same|done].
Qed.

Lemma resume_inv f s hw : run_inv (s, hw) -> 0 <= f <= 3 -> (active (win s) = true -> baw_len (win s) = 0) -> run_inv (ath_tx_aggr_resume env f s, hw).
Proof using.
  intros [Hu H] Hf Hl. unfold ath_tx_aggr_resume. cbv zeta. set (z := u16 _).
  assert (0 <= z <= 64). { subst z. assert (f = 0 \/ f = 1 \/ f = 2 \/ f = 3) as [-> | [-> | [-> | -> ]]] by lia; vm_compute; split; discriminate. }
  set (s1 := s <| win ::= _ |>). assert (win s1 = (win s) <| baw_size := z |> /\ buf_q s1 = buf_q s /\ retry_q s1 = retry_q s) as (E1 & E2 & E3) by done.
  assert (run_inv (s1, hw)) as H1.
  { clearbody s1. split; [done|]. cbn [fst snd] in *. rewrite E1. cbn [active upd]. destruct (active (win s)).
    - destruct H as (old & peek & fresh & [Hq Ho Hp Hfr Hr Hw]). exists old, peek, fresh. split; rewrite ?E1, ?E2, ?E3; try done.
      apply sw_resize; [done|done|]. rewrite Hl by done. lia.
    - destruct H as (H1 & H2 & H3 & H4). unfold idle. by rewrite E1, E3. }
  destruct (ath_tid_has_buffered _); [|done]. eapply run_inv_same; [apply queue_tid_same|done].
Qed.

Lemma exec_inv o x y : orderly o x -> tid_exec env o x = Ok y -> run_inv x -> run_inv y.
Proof using Hdma.
  destruct x as [s hw]. intros Ho E H. pose proof H as [Hu Ha]. cbn [fst snd] in Ha.
  destruct o; cbn [tid_exec] in E; cbn [orderly] in Ho.
  - injection E as <-. by apply start_queue_inv.
  - destruct (ath_tx_sched_aggr _ _ _ _ s) as [[[r stop] s']|] eqn:E1; [|done]. injection E as <-. destruct (active (win s)).
    + eapply sched_aggr_session in E1 as [H1 H2]; [|done|exact Ha]. apply run_inv_session; [by apply Forall_app_2|].
      rewrite hw_seqs_app. eapply session_perm; [|exact H1]. unfold hw_seqs. solve_Permutation.
    + apply sched_aggr_idle in E1 as [H1 H2]; [|done]. apply run_inv_idle; [by apply Forall_app_2|done].
  - destruct (release_frame _ _ s) as [[r s']|] eqn:E1; [|done]. injection E as <-. destruct (active (win s)).
    + eapply release_frame_session in E1 as [H1 H2]; [|done|exact Ha]. apply run_inv_session; [by apply Forall_app_2|].
      rewrite hw_seqs_app. eapply session_perm; [|exact H1]. unfold hw_seqs.
      assert (concat (option_list ((fun k => [k]) <$> r)) = option_list r) as -> by by destruct r. solve_Permutation.
    + apply release_frame_idle in E1 as [H1 H2]; [|done]. apply run_inv_idle; [by apply Forall_app_2|done].
  - destruct (hw !! n) as [u|] eqn:En; [|by injection E as <-]. destruct (ath_tx_process_buffer _ _ _ _ s) as [s'|] eqn:E1; [|done].
    injection E as <-. assert (unit_inv u) as Hun by by eapply Forall_lookup_1. destruct (active (win s)).
    + rewrite Ho in E1 by done. apply run_inv_session; [by apply Forall_delete|]. eapply process_buffer_session; [exact Hun| |exact E1].
      eapply session_perm; [|exact Ha]. by apply hw_seqs_delete.
    + apply run_inv_idle; [by apply Forall_delete|]. by eapply process_buffer_idle.
  - destruct (held s); injection E as <-; [done|]. by apply (run_inv_same s).
  - injection E as <-. destruct Ho as [Hi Hn]. rewrite Hi in Ha. apply run_inv_session; [done|]. rewrite Hn. by apply aggr_start_session.
  - injection E as <-. apply run_inv_idle; [done|]. by apply aggr_stop_idle, (run_inv_ready s hw).
  - injection E as <-. apply run_inv_idle; [done|]. by apply cleanup_idle, (run_inv_ready s hw).
  - injection E as <-. apply (run_inv_same s); [|done]. unfold ath_tx_aggr_sleep. by destruct (negb _).
  - injection E as <-. apply (run_inv_same s); [|done]. unfold ath_tx_aggr_wakeup. cbv zeta.
    destruct (ath_tid_has_buffered _); [|done]. etrans; [|apply queue_tid_same]. done.
  - injection E as <-. destruct Ho. by apply resume_inv.
Qed.
End Run.

Lemma tid_init_inv pool : run_inv (tid_init pool, []).
Proof. split; [constructor|]. cbn. done. Qed.

Lemma run_inv_run env l : (forall k, dma_mapping_error env k = false) -> forall x y, orderly_run env l x -> tid_run env l x = Ok y -> run_inv x -> run_inv y.
Proof.
  intros Hdma. induction l as [|o l IH]; intros x y Ho E Hx; cbn [tid_run orderly_run] in *; [by injection E as <-|].
  destruct Ho as [Ho Hl]. destruct (tid_exec env o x) as [z|] eqn:Ez; [|done]. eapply IH; [exact Hl|exact E|]. by eapply exec_inv.
Qed.
