(* ===== verification/TxTidProps.v ===== *)
(** The properties of a traffic identifier: nothing is lost, nothing faults,
    the block-ack window is exact, and a completed aggregate treats each of its
    frames as the report of the hardware says. *)

From S2P Require Import Prelude Baw Airtime Desc TxTid TxTidAcct TxTidSafe TxTidWin TxTidInv.

(** * The window *)

(** The numbers that wait for an acknowledgement. *)
Definition outstanding (x : tid_run_state) : list Z := (kseq <$> retry_q (fst x)) ++ hw_seqs (snd x).

(** C3. In every [orderly] run in which no frame fails to be mapped for DMA: while a
    session runs, the window has exactly the numbers of the frames that are in
    flight or wait to be sent again, each of them once and inside the window of the
    receiver; the number that is given out next is not among them. A run is orderly
    when, during a session, mac80211 submits unfragmented A-MPDU data frames and the
    station exists when a unit is reported, when a session starts only after the
    A-MPDU frames of the one before have been reported, and when its window size is
    set, from a factor up to 3, before its first frame is sent. Outside these runs
    the code breaks it: a frame of an old session that is reported late clears the
    bit of a new one (xmit.c:574, [stale_completion_drops_frame]), and a frame that
    cannot be mapped uses up a number without ever being sent (xmit.c:2192). *)
Theorem tid_window_exact env pool l s hw :
  (forall k, dma_mapping_error env k = false) ->
  orderly_run env l (tid_init pool, []) -> tid_run env l (tid_init pool, []) = Ok (s, hw) -> active (win s) = true ->
  baw_rep (list_to_set (outstanding (s, hw))) (win s) /\ NoDup (outstanding (s, hw)) /\
  (forall n, n ∈ outstanding (s, hw) -> BAW_WITHIN (seq_start (win s)) (baw_size (win s)) n = true) /\
  seq_next (win s) ∉ outstanding (s, hw).
Proof.
  intros Hdma Ho E Ha. destruct (run_inv_run env l Hdma _ _ Ho E (tid_init_inv pool)) as [_ H]. cbn in H. rewrite Ha in H.
  destruct (session_window_of _ _ H) as [n Hw]. split_and!; [apply Hw|apply Hw|intros m Hm; by eapply sw_within|].
  intros Hin. destruct (sw_in _ _ _ _ Hw Hin) as [_ Hi]. pose proof (sw_next _ _ _ Hw). pose proof (sw_n _ _ _ Hw). lia.
Qed.

(** * Completed aggregates *)


Section Outcome.
Context (env : tid_env) (ts : ath_tx_status) (first : ath_buf).



End Outcome.



Section Verdict.
Context (env : tid_env) (a : aggr_status) (st len : Z) (T : list Z) (Hlen : 0 <= len <= 64) (Hst : as_seq_first a = st).








End Verdict.







(** * The size of aggregates *)

(** What the limits look at. *)
Definition sub_of (k : sk_buff) : subframe :=
  {| sf_framelen := framelen k; sf_legacy := ath_lookup_legacy (control_rates k);
     sf_probe := tx_probe k; sf_ampdu := tx_ampdu k; sf_seqno := 0; sf_baw_tracked := false |}.

Lemma lookup_rate_le m rates p bt mx : ath_lookup_rate m rates p bt mx <= ATH_AMPDU_LIMIT_MAX.
Proof.
  unfold ath_lookup_rate, ATH_AMPDU_LIMIT_MAX. destruct (lookup_rate_loop _ _ _) as [f l]. destruct (_ || _); [lia|]. cbv zeta.
  pose proof (u16_range (bt f)). pose proof (u16_range (Z.min f 65535)). unfold in_u16 in *. repeat case_match; lia.
Qed.

(** The loop over the queues does what the loop over the frames that it takes
    would do. *)
Lemma form_aggr_loop_sim env fuel d lim h : forall k q n al bp s taken closed al' s' tid,
  TxTid.form_aggr_loop env fuel d lim h k q n al bp s = Ok (taken, closed, al', s') ->
  exists tk tid', Airtime.form_aggr_loop d lim h (sub_of <$> taken) tid n al bp = (tk, tid', al', true) /\ tk.*1 = sub_of <$> taken.
Proof.
  induction fuel as [|fuel IH]; intros k q n al bp s taken closed al' s' tid; cbn [TxTid.form_aggr_loop]; [done|].
  destruct (fi_bf k) as [bf|] eqn:Eb; [|done]. destruct (negb (n =? 0) && _) eqn:Ec; [intros [= <- _ <- _]; by exists [], tid|].
  cbv zeta. intros E.
  match type of E with context [if negb (baw_tracked k) then ?a else ?b] =>
    destruct (if negb (baw_tracked k) then a else b) as [k1 s1] eqn:E1 end.
  assert (framelen k1 = framelen k /\ tx_probe k1 = tx_probe k /\ tx_ampdu k1 = tx_ampdu k /\ control_rates k1 = control_rates k) as (E2 & E3 & E4 & E4') by (destruct (baw_tracked k); cbn in E1; by injection E1 as <- <-).
  set (k2 := k1 <| fi_bf := _ |>) in E.
  assert (sub_of k2 = {| sf_framelen := framelen k; sf_legacy := ath_lookup_legacy (control_rates k); sf_probe := tx_probe k; sf_ampdu := tx_ampdu k;
                         sf_seqno := 0; sf_baw_tracked := false |}) as Ek by (unfold sub_of; cbn; by rewrite E2, E3, E4, E4').
  clearbody k2. clear E1 E2 E3 E4 E4'.
  assert (forall l, (forall t, exists tk tid', Airtime.form_aggr_loop d lim h (sub_of <$> l) t (n + 1)
      (u16 (al + (bp + u16 (ATH_AGGR_DELIM_SZ + framelen k)))) (u16 (PADBYTES (u16 (ATH_AGGR_DELIM_SZ + framelen k)) +
         (ath_compute_num_delims d (framelen k) (n =? 0) .<< 2))) = (tk, tid', al', true) /\ tk.*1 = sub_of <$> l) ->
    exists tk tid', Airtime.form_aggr_loop d lim h (sub_of <$> k2 :: l) tid n al bp = (tk, tid', al', true) /\ tk.*1 = sub_of <$> k2 :: l) as Hstep.
  { intros l Hl. rewrite fmap_cons. cbn [Airtime.form_aggr_loop]. rewrite Ek. cbn [sf_framelen sf_legacy sf_probe sf_ampdu sf_seqno sf_baw_tracked].
    rewrite Ec. cbv zeta. edestruct Hl as (tk & tid' & E1 & E2). rewrite E1. eexists _, _. split; [done|]. cbn. by rewrite E2. }
  destruct (ath_tx_get_tid_subframe env (unlink_head q s1)) as [[next s2]|]; [|done]. cbn [obind] in E.
  destruct next as [[k3 q3]|]; [|injection E as <- _ <- _; apply Hstep; intros t; by eexists _, _].
  destruct (ath_tid_has_buffered s2); [|injection E as <- _ <- _; apply Hstep; intros t; by eexists _, _].
  destruct (TxTid.form_aggr_loop env fuel _ _ _ k3 q3 _ _ _ s2) as [[[[tk cl] a1] s3]|] eqn:E5; [|done]. cbn [obind] in E.
  injection E as <- _ <- _. apply Hstep. intros t. by eapply IH.
Qed.

(** The length of an aggregate with frames of lengths [lens]: delimiter, frame,
    padding and extra delimiters, the last two not after the last frame. *)
Fixpoint aggr_bytes (d : delim_env) (first : bool) (lens : list Z) : Z :=
  match lens with
  | [] => 0
  | l :: rest =>
      ATH_AGGR_DELIM_SZ + l +
      match rest with
      | [] => 0
      | _ => PADBYTES (ATH_AGGR_DELIM_SZ + l) + 4 * ath_compute_num_delims d l first + aggr_bytes d false rest
      end
  end.

Lemma num_delims_le d l first : 0 <= l -> 0 <= ath_compute_num_delims d l first <= 16383.
Proof.
  intros Hl. destruct (num_delims_enough d l first Hl) as (_ & H0 & _). split; [exact H0|]. clear H0.
  unfold ath_compute_num_delims, ATH_AGGR_GET_NDELIM, ATH_AGGR_MINPLEN, ATH_AGGR_DELIM_SZ, ATH_AGGR_ENCRYPTDELIM, FIRST_DESC_NDELIMS. cbv zeta.
  assert (0 <= density_minlen d < 65536) as Hm by (unfold density_minlen; cbv zeta; apply u16_range).
  set (m := density_minlen d) in *. clearbody m.
  set (base := if 256 <=? l then 0 else (256 - l + 4 - 1) / 4). assert (base <= 65) by (subst base; destruct (Z.leb_spec 256 l); dlia).
  destruct (Z.eqb_spec (de_mpdudensity d) 0), (Z.ltb_spec l m); try rewrite cdiv_nonneg by lia;
    destruct (de_encrypt_pad d), (first && de_first_pad d); dlia.
Qed.

(** What the loop adds to [al], and the delimiters that it records. *)
Lemma form_aggr_loop_bytes env fuel d lim h : lim <= 65535 -> forall k q n al bp s taken closed al' s',
  0 <= n -> 0 <= al -> 0 <= bp -> (n = 0 -> al = 0 /\ bp = 0) -> Forall (fun k => 0 <= framelen k < 65532) taken ->
  TxTid.form_aggr_loop env fuel d lim h k q n al bp s = Ok (taken, closed, al', s') ->
  al' = (match taken with [] => al | _ => al + bp + aggr_bytes d (n =? 0) (framelen <$> taken) end) /\
  ((fun k => ndelim <$> fi_bf k) <$> taken) =
    imap (fun i k => Some (u8 (ath_compute_num_delims d (framelen k) ((n =? 0) && (i =? 0)%nat)))) taken.
Proof.
  intros Hlim. induction fuel as [|fuel IH]; intros k q n al bp s taken closed al' s' Hn Hal Hbp H0 Hlen; cbn [TxTid.form_aggr_loop]; [done|].
  destruct (fi_bf k) as [bf|] eqn:Eb; [|done].
  destruct (negb (n =? 0) && _) eqn:Ec; [by intros [= <- _ <- _]|].
  cbv zeta. intros E.
  match type of E with context [if negb (baw_tracked k) then ?a else ?b] =>
    destruct (if negb (baw_tracked k) then a else b) as [k1 s1] eqn:E1 end.
  assert (framelen k1 = framelen k) as E2 by (destruct (baw_tracked k); cbn in E1; by injection E1 as <- <-).
  set (nd := ath_compute_num_delims d (framelen k) (n =? 0)) in E. set (k2 := k1 <| fi_bf := _ |>) in E.
  assert (framelen k2 = framelen k /\ ndelim <$> fi_bf k2 = Some (u8 nd)) as [K1 K2] by done. clearbody k2. clear E1 E2.
  assert (0 <= framelen k < 65532 -> u16 (ATH_AGGR_DELIM_SZ + framelen k) = ATH_AGGR_DELIM_SZ + framelen k /\
    u16 (al + (bp + (ATH_AGGR_DELIM_SZ + framelen k))) = al + bp + (ATH_AGGR_DELIM_SZ + framelen k)) as Hw.
  { intros Hk. unfold ATH_AGGR_DELIM_SZ in *. assert (u16 (4 + framelen k) = 4 + framelen k) as Hd by (apply u16_id; unfold in_u16; lia).
    split; [exact Hd|]. rewrite u16_id; [lia|]. unfold in_u16. destruct (Z.eqb_spec n 0) as [E0|N0]; [specialize (H0 E0); lia|].
    rewrite Hd in Ec. cbn [negb andb] in Ec. ztest. lia. }
  (* the frame is the last one *)
  assert (al' = u16 (al + (bp + u16 (ATH_AGGR_DELIM_SZ + framelen k))) -> taken = [k2] ->
    al' = al + bp + aggr_bytes d (n =? 0) (framelen <$> taken) /\
    ((fun k => ndelim <$> fi_bf k) <$> taken) = imap (fun i k => Some (u8 (ath_compute_num_delims d (framelen k) ((n =? 0) && (i =? 0)%nat)))) taken) as Hlast.
  { intros -> ->. apply Forall_cons in Hlen as [Hk _]. rewrite K1 in Hk. destruct (Hw Hk) as [-> ->]. cbn. rewrite K1, K2, andb_true_r. fold nd. split; [lia|done]. }
  destruct (ath_tx_get_tid_subframe env (unlink_head q s1)) as [[next s2]|]; [|done]. cbn [obind] in E.
  destruct next as [[k3 q3]|]; [|injection E as <- _ <- _; by apply Hlast].
  destruct (ath_tid_has_buffered s2); [|injection E as <- _ <- _; by apply Hlast].
  destruct (TxTid.form_aggr_loop env fuel _ _ _ k3 q3 _ _ _ s2) as [[[[tk cl] a1] s3]|] eqn:E5; [|done]. cbn [obind] in E.
  injection E as <- _ <- _. clear Hlast. apply Forall_cons in Hlen as [Hk Htk]. rewrite K1 in Hk. destruct (Hw Hk) as [W1 W2].
  rewrite W1, W2 in E5. pose proof (num_delims_le d (framelen k) (n =? 0) (proj1 Hk)) as Hnd. fold nd in Hnd.
  assert (0 <= PADBYTES (ATH_AGGR_DELIM_SZ + framelen k) <= 3) as Hp by (unfold PADBYTES; dlia).
  rewrite (u16_id (PADBYTES _ + _)) in E5 by (unfold in_u16; rewrite Z.shiftl_mul_pow2 by lia; lia).
  unfold ATH_AGGR_DELIM_SZ in *. rewrite Z.shiftl_mul_pow2 in E5 by lia. change (2 ^ 2) with 4 in E5.
  apply IH in E5 as [I1 I2]; [|lia..|exact Htk]. rewrite (proj2 (Z.eqb_neq (n + 1) 0)) in I1, I2 by lia. split.
  - rewrite fmap_cons, K1. cbn [aggr_bytes]. destruct tk as [|k4 tk]; [cbn; unfold ATH_AGGR_DELIM_SZ; lia|].
    rewrite I1. rewrite fmap_cons. unfold ATH_AGGR_DELIM_SZ. fold nd. lia.
  - rewrite fmap_cons, I2, K2. cbn [imap]. rewrite K1, andb_true_r. fold nd. f_equal. apply imap_ext. intros i k' _. cbn. by rewrite andb_false_r.
Qed.

(** C26. Aggregates respect their limits: an aggregate of two or more frames has at
    most half as many as the window of the receiver; every one after the first is
    an A-MPDU frame that is no probe and for which mac80211 gave no legacy rate; its
    length, computed in 16 bits, is exactly that of the frames with their
    delimiters, the padding between them and the extra delimiters of each frame but
    the last, and does not exceed the limit for the rates; and each frame is marked
    with its number of extra delimiters (as a byte). Frame lengths are those of
    16-bit numbers below 65532. *)
Theorem aggregate_limits env rates skb q s taken len closed s' :
  2 <= baw_size (win s) -> Forall (fun k => 0 <= framelen k < 65532) taken ->
  TxTid.ath_tx_form_aggr env rates skb q s = Ok (taken, len, closed, s') -> 2 <= Z.of_nat (length taken) ->
  len <= ath_lookup_rate (max_aggr_framelen env) rates (tx_probe skb) (bt_aggr_limit env) (maxampdu env) /\
  Z.of_nat (length taken) <= baw_size (win s) / 2 /\
  len = aggr_bytes (delims_of env skb rates) true (framelen <$> taken) /\
  ((fun k => ndelim <$> fi_bf k) <$> taken) =
    imap (fun i k => Some (u8 (ath_compute_num_delims (delims_of env skb rates) (framelen k) (i =? 0)%nat))) taken /\
  Forall (fun k => tx_ampdu k = true /\ tx_probe k = false /\ ath_lookup_legacy (control_rates k) = false) (tail taken).
Proof.
  intros Hw Hlen E Hn. unfold TxTid.ath_tx_form_aggr in E. set (lim := ath_lookup_rate _ _ _ _ _) in *.
  match type of E with context [TxTid.form_aggr_loop env ?f ?d lim ?h skb q 0 0 0 s] =>
    destruct (TxTid.form_aggr_loop env f d lim h skb q 0 0 0 s) as [[[[tk cl] a1] s3]|] eqn:E3; [|done]; set (dl := d) in * end. cbn [obind] in E.
  assert (taken = tk /\ len = a1) as [-> ->].
  { destruct tk as [|k2 [|k3 tk]]; cbn in E; [by injection E as <- <- _ _| |by injection E as <- <- _ _].
    destruct (fi_bf k2); [|done]. injection E as <- <- _ _. cbn in Hn. lia. }
  clear E. pose proof (lookup_rate_le (max_aggr_framelen env) rates (tx_probe skb) (bt_aggr_limit env) (maxampdu env)) as Hlim. fold lim in Hlim.
  assert (lim <= 65535) as Hlim' by (unfold ATH_AMPDU_LIMIT_MAX in Hlim; lia).
  pose proof (form_aggr_loop_bytes _ _ _ _ _ Hlim' _ _ _ _ _ _ _ _ _ _ ltac:(done) ltac:(done) ltac:(done) ltac:(done) Hlen E3) as [Hb Hd].
  destruct (form_aggr_loop_sim _ _ _ _ _ _ _ _ _ _ _ _ _ _ _ (win s) E3) as (tk1 & tid' & E1 & E2).
  destruct (form_aggr_limits dl lim (win s) (sub_of <$> tk) tk1 tid' a1 true) as (_ & _ & _ & H).
  - exact Hlim.
  - done.
  - by apply Forall_fmap.
  - unfold Airtime.ath_tx_form_aggr. rewrite E1. destruct tk1 as [|[f x] [|]]; [done| |done].
    apply (f_equal length) in E2. rewrite !length_fmap in E2. cbn in E2. rewrite <- E2 in Hn. cbn in Hn. lia.
  - rewrite E2 in H. apply (f_equal length) in E2. rewrite !length_fmap in E2. rewrite E2 in H. destruct (H Hn) as (H1 & H2 & _ & H4).
    destruct tk as [|k tk]; [cbn in Hn; lia|]. split_and!; [done|done|exact Hb|exact Hd|].
    rewrite fmap_cons in H4. cbn [tail] in *. rewrite Forall_fmap in H4. eapply Forall_impl; [exact H4|]. by intros k' (L1 & L2 & L3).
Qed.

(** * A concrete session *)

Definition demo_env : tid_env :=
  {| tidno := 0; an_sta := true; chanctx := true; no_ps_filter := false; opmode_station := false; txq_max_pending := 100;
     mpdudensity := 0; maxampdu := 65535; max_aggr_framelen := replicate 4 (replicate 32 32000); bt_aggr_limit := fun x => x; encrypt_pad := fun _ => false;
     first_pad := false; dma_mapping_error := fun _ => false |}.
Definition demo_buf (i : Z) : ath_buf :=
  {| bf_id := i; bf_rates := []; seqno := 0; isampdu := false; isaggr := false; ndelim := 0; stale := false |}.
Definition demo_skb (i : Z) : sk_buff :=
  {| sk_id := i; tx_ampdu := true; tx_probe := false; tx_eosp := false; tx_clear_ps_filt := false; data_present := true;
     morefrags := false; fctl_retry := false; seq_ctrl := 0; framelen := 100; fi_txq := -1; retries := 0; baw_tracked := false; control_rates := []; fi_bf := None |}.
Definition demo_rates : list tx_rate := [{| r_count := 2; r_idx := 0; r_mcs := true; r_40mhz := false; r_short_gi := false |}].
Definition demo_pool : list ath_buf := [demo_buf 10; demo_buf 11; demo_buf 12; demo_buf 13].
Definition demo_ops : list tid_op :=
  [OpStart; OpSubmit 0 true (demo_skb 1); OpSubmit 0 true (demo_skb 2); OpSubmit 0 true (demo_skb 3); OpSched demo_rates 0 0].
Definition demo_ts : ath_tx_status :=
  {| ts_tstamp := 0; ts_seqnum := 0; ts_status := 0; ts_rateindex := 0; ts_rssi := 0; ts_shortretry := 0; ts_longretry := 0;
     ts_virtcol := 0; ts_flags := ATH9K_TX_BA; ts_rssi_ctl0 := 0; ts_rssi_ctl1 := 0; ts_rssi_ctl2 := 0; ts_rssi_ext0 := 0;
     ts_rssi_ext1 := 0; ts_rssi_ext2 := 0; qid := 0; desc_id := 0; tid := 0; ba_low := 0x5; ba_high := 0 |}.
Definition demo_state : tid_run_state :=
  match tid_run demo_env demo_ops (tid_init demo_pool, []) with Ok x => x | Oops => (tid_init demo_pool, []) end.

Lemma demo_dma k : dma_mapping_error demo_env k = false.
Proof. done. Qed.

Lemma demo_orderly : orderly_run demo_env demo_ops (tid_init demo_pool, []).
Proof. vm_compute. split_and!; try done; intros _; by split_and!. Qed.

Lemma demo_tid_run : tid_run demo_env demo_ops (tid_init demo_pool, []) = Ok (fst demo_state, snd demo_state).
Proof. vm_compute. reflexivity. Qed.
Lemma demo_active : active (win (fst demo_state)) = true.
Proof. vm_compute. reflexivity. Qed.

Lemma tid_window_exact_witness :
  NoDup (outstanding (fst demo_state, snd demo_state)) /\ outstanding (fst demo_state, snd demo_state) = [0; 1; 2].
Proof.
  split; [|vm_compute; reflexivity].
  exact (proj1 (proj2 (tid_window_exact demo_env demo_pool demo_ops _ _ demo_dma demo_orderly demo_tid_run demo_active))).
Defined.

Lemma tid_conservation_witness : exists s hw,
  tid_run demo_env (demo_ops ++ [OpComplete 0 true true demo_ts]) (tid_init demo_pool, []) = Ok (s, hw) /\
  tid_items s hw ≡ₚ (inl <$> [1; 2; 3]) ++ (inr <$> [10; 11; 12; 13]).
Proof.
  destruct (tid_run demo_env (demo_ops ++ [OpComplete 0 true true demo_ts]) (tid_init demo_pool, [])) as [[s hw]|] eqn:E.
  - exists s, hw. split; [done|]. exact (tid_conservation demo_env demo_pool (demo_ops ++ [OpComplete 0 true true demo_ts]) s hw E).
  - vm_compute in E. discriminate E.
Defined.

Lemma tid_run_safe_witness : exists s hw,
  tid_run demo_env (demo_ops ++ [OpComplete 0 true true demo_ts]) (tid_init demo_pool, []) = Ok (s, hw) /\ Forall unit_bufs hw.
Proof. apply (tid_run_safe demo_env demo_pool). repeat (constructor; [cbn; done || lia|]). constructor. Defined.



Definition demo_forming : option (sk_buff * bool * tid_state) :=
  match tid_run demo_env (take 4 demo_ops) (tid_init demo_pool, []) with
  | Ok (s, _) =>
      match ath_tx_get_tid_subframe demo_env s with
      | Ok (Some (k, q), s) => Some (k <| fi_bf ::= fmap (fun bf => bf <| bf_rates := demo_rates |>) |>, q, s)
      | _ => None
      end
  | Oops => None
  end.

(** Three frames of 100 bytes. *)
Lemma aggregate_limits_witness : exists k q s taken len closed s',
  demo_forming = Some (k, q, s) /\ TxTid.ath_tx_form_aggr demo_env demo_rates k q s = Ok (taken, len, closed, s') /\
  (sk_id <$> taken) = [1; 2; 3] /\ len = aggr_bytes (delims_of demo_env k demo_rates) true (framelen <$> taken).
Proof.
  destruct demo_forming as [[[k q] s]|] eqn:E1; [|by vm_compute in E1].
  assert (2 <= baw_size (win s)) as Hw by (vm_compute in E1; injection E1 as <- <- <-; by vm_compute).
  destruct (TxTid.ath_tx_form_aggr demo_env demo_rates k q s) as [[[[taken len] closed] s']|] eqn:E2.
  - exists k, q, s, taken, len, closed, s'. split; [done|]. split; [done|].
    assert (Forall (fun k => 0 <= framelen k < 65532) taken /\ (sk_id <$> taken) = [1; 2; 3]) as [Hf Hi].
    { vm_compute in E1. injection E1 as <- <- <-. vm_compute in E2. injection E2 as <- <- <- <-.
      split; [|done]. repeat (constructor; [cbn; lia|]). constructor. }
    split; [done|]. destruct (aggregate_limits demo_env demo_rates k q s taken len closed s' Hw Hf E2) as (_ & _ & H & _); [|exact H].
    apply (f_equal length) in Hi. rewrite length_fmap in Hi. rewrite Hi. by vm_compute.
  - exfalso. vm_compute in E1. injection E1 as <- <- <-. by vm_compute in E2.
Defined.
