(* ===== verification/TxSched.v ===== *)
(** The transmit scheduler of the ath9k driver ([ath_txq_schedule] and
    [ath_txq_schedule_all] of src/real/ath/ath9k/xmit.c): a round robin over the
    traffic identifiers of an access category.

    The identifiers are behind an interface, [TidSched]: what a call of
    [ath_tx_sched_aggr] does to an identifier and to what the identifiers share
    (the hardware queue, the free buffers), and its laws. The scheduler is
    proved against the interface; TxTid is an instance. *)

From S2P Require Import Prelude Baw Airtime Desc TxTid TxTidAcct TxTidSafe TxTidProps.

(** [frames]: the frames in the software queues of an identifier. *)
Class TidSched (G T : Type) := {
  sched_aggr : G -> T -> bool * bool * G * T;    (* sent, *stop *)
  has_buffered : T -> bool;
  in_context : T -> bool;                         (* avp->chanctx *)
  frames : T -> nat;
}.
(** A call that sends takes frames away; no call adds any. *)
Class TidSchedLaws {G T} (C : TidSched G T) : Prop := {
  sched_frames : forall g t sent stop g' t', sched_aggr g t = (sent, stop, g', t') ->
    if sent : bool then (frames t' < frames t)%nat else (frames t' <= frames t)%nat;
}.

Section Sched.
Context {G T : Type} `{C : TidSched G T}.

(** [acq]: the list of the access category, of the indices of identifiers in
    [tids]; [trace]: the identifiers that have been scheduled. *)
Record sched_state := {
  shared : G;
  tids : list T;
  acq : list nat;
  trace : list nat;
}.
#[export] Instance eta_sched_state : Eta sched_state := fun r => Build_sched_state (shared r) (tids r) (acq r) (trace r).

(** [ath_tx_queue_tid] for an identifier that is not in the list. *)
Definition queue_tid (i : nat) (t : T) (s : sched_state) : sched_state :=
  if in_context t then s <| acq ::= fun l => l ++ [i] |> else s.

(** One round of the loop for the first identifier [i]; the result is [sent]
    and [stop]. *)
Definition sched_round (i : nat) (s : sched_state) : option (bool * bool * sched_state) :=
  t ← tids s !! i;
  let s := s <| acq ::= tail |> <| trace ::= fun l => l ++ [i] |> in
  let '(sent, stop, g, t) := sched_aggr (shared s) t in
  let s := s <| shared := g |> <| tids ::= <[i := t]> |> in
  Some (sent, stop, if has_buffered t then queue_tid i t s else s).

(** The loop; [None]: out of fuel, or an index without identifier. The first
    result: an identifier has asked to stop. *)
Fixpoint sched_loop (fuel : nat) (stopped : bool) (last_tid : option nat) (sent : bool) (s : sched_state) : option (bool * sched_state) :=
  match fuel with
  | O => None
  | S fuel =>
      match acq s with
      | [] => Some (false, s)
      | i :: _ =>
          if stopped then Some (false, s)
          else
            '(sent', stop, s) ← sched_round i s;
            let sent := sent || sent' in
            if stop : bool then Some (true, s)
            else if bool_decide (Some i = last_tid) then
              if negb sent then Some (false, s) else sched_loop fuel stopped (last (acq s)) false s
            else sched_loop fuel stopped last_tid sent s
      end
  end.

Definition all_frames (s : sched_state) : nat := sum_list_with frames (tids s).

(** Enough rounds: see [sched_loop_ends]. *)
Definition sched_fuel (s : sched_state) : nat := (S (all_frames s) * S (length (acq s)))%nat.

Definition ath_txq_schedule (mac80211_qnum : Z) (hw_reset stopped : bool) (s : sched_state) : option (bool * sched_state) :=
  if mac80211_qnum <? 0 then Some (false, s)
  else if hw_reset then Some (false, s)
  else if bool_decide (acq s = []) then Some (false, s)
  else sched_loop (sched_fuel s) stopped (last (acq s)) false s.

(** * The loop ends *)

Definition sched_ok (s : sched_state) : Prop := NoDup (acq s) /\ Forall (fun i => (i < length (tids s))%nat) (acq s).

Context `{L : !TidSchedLaws C}.

Lemma sum_frames_insert i t t' l : l !! i = Some t -> (sum_list_with frames (<[i := t']> l) + frames t = sum_list_with frames l + frames t')%nat.
Proof using.
  intros E. rewrite insert_take_drop by (by eapply lookup_lt_Some). rewrite <- (take_drop_middle l i t E) at 3.
  rewrite !sum_list_with_app. cbn. lia.
Qed.

Lemma sched_round_spec i l s : sched_ok s -> acq s = i :: l ->
  exists sent stop s', sched_round i s = Some (sent, stop, s') /\ sched_ok s' /\ (acq s' = l \/ acq s' = l ++ [i]) /\
    trace s' = trace s ++ [i] /\ length (tids s') = length (tids s) /\
    (if sent : bool then (all_frames s' < all_frames s)%nat else (all_frames s' <= all_frames s)%nat).
Proof using L.
  intros [Hd Hb] E. rewrite E in Hd, Hb. apply NoDup_cons in Hd as [Hi Hd]. inversion_clear Hb as [|? ? Hil Hl]. unfold sched_round.
  destruct (lookup_lt_is_Some_2 _ _ Hil) as [t Et]. rewrite Et. cbn [mbind option_bind].
  cbn [shared upd]. destruct (sched_aggr (shared s) t) as [[[sent stop] g] t'] eqn:Es. apply sched_frames in Es. cbn.
  eexists sent, stop, _. split; [reflexivity|].
  assert (forall b : bool, let s' := if b then {| shared := g; tids := <[i:=t']> (tids s); acq := l ++ [i]; trace := trace s ++ [i] |}
                      else {| shared := g; tids := <[i:=t']> (tids s); acq := l; trace := trace s ++ [i] |} in
    sched_ok s' /\ (acq s' = l \/ acq s' = l ++ [i]) /\ trace s' = trace s ++ [i] /\ length (tids s') = length (tids s) /\
    (if sent : bool then (all_frames s' < all_frames s)%nat else (all_frames s' <= all_frames s)%nat)) as H.
  { intros b. unfold all_frames. pose proof (sum_frames_insert i t t' (tids s) Et) as Hsum.
    assert (if sent : bool then (sum_list_with frames (<[i:=t']> (tids s)) < sum_list_with frames (tids s))%nat
            else (sum_list_with frames (<[i:=t']> (tids s)) <= sum_list_with frames (tids s))%nat) as Hf by (destruct sent; lia).
    destruct b; cbn; (split; [split; cbn; rewrite ?length_insert|split; [tauto|split; [done|split; [apply length_insert|done]]]]); try done.
    - apply NoDup_app. split; [done|]. split; [|apply NoDup_singleton]. intros j Hj Hn. apply list_elem_of_singleton in Hn as ->. done.
    - apply Forall_app_2; [done|]. by constructor. }
  unfold queue_tid. rewrite E. cbn. destruct (has_buffered t'); [destruct (in_context t'); [apply (H true)|apply (H false)]|apply (H false)].
Qed.

(** [n] bounds the length of the list, [l1] are the identifiers before the last
    one of the pass. *)
Lemma sched_loop_ends n fuel : forall x sent s l1 l2, sched_ok s -> acq s = l1 ++ x :: l2 -> (length (acq s) <= n)%nat ->
  ((all_frames s + (if sent : bool then 1 else 0)) * S n + length l1 < fuel)%nat ->
  exists stop s', sched_loop fuel false (Some x) sent s = Some (stop, s') /\ sched_ok s' /\ (all_frames s' <= all_frames s)%nat.
Proof using L.
  induction fuel as [|fuel IH]; intros x sent s l1 l2 Hok E Hn Hf; [lia|]. cbn [sched_loop].
  destruct l1 as [|i l1]; cbn [app] in E; rewrite E.
  - destruct (sched_round_spec x l2 s Hok E) as (sent' & stop & s1 & -> & Hok1 & Hacq & _ & _ & Hfr). cbn [mbind option_bind].
    assert (all_frames s1 <= all_frames s)%nat as Hle by (destruct sent'; lia).
    destruct stop; [by exists true, s1|]. rewrite bool_decide_eq_true_2 by done.
    destruct (sent || sent') eqn:Es; cbn [negb]; [|by exists false, s1].
    assert (length (acq s1) <= n)%nat as Hn1. { rewrite E in Hn. cbn in Hn. destruct Hacq as [-> | ->]; rewrite ?length_app; cbn; lia. }
    destruct (acq s1) as [|y l] eqn:E1.
    + destruct fuel as [|fuel]; cbn [sched_loop]; [|rewrite E1; by exists false, s1].
      exfalso. destruct sent, sent'; cbn in *; try done; lia.
    + destruct (exists_last (l := y :: l)) as (l3 & z & E3); [done|]. rewrite E3 in *. rewrite last_snoc.
      assert (length (l3 ++ [z]) = S (length l3)) as El by (rewrite length_app; cbn; lia).
      destruct (IH z false s1 l3 [] Hok1 E1) as (stop & s' & -> & H1 & H2); [by rewrite E1| |exists stop, s'; split; [done|split; [done|lia]]].
      destruct sent, sent'; cbn in *; try done; nia.
  - destruct (sched_round_spec i (l1 ++ x :: l2) s Hok E) as (sent' & stop & s1 & -> & Hok1 & Hacq & _ & _ & Hfr). cbn [mbind option_bind].
    assert (all_frames s1 <= all_frames s)%nat as Hle by (destruct sent'; lia).
    destruct stop; [by exists true, s1|]. destruct Hok as [Hd _]. rewrite E in Hd. apply NoDup_cons in Hd as [Hi _].
    rewrite bool_decide_eq_false_2 by (intros [= ->]; apply Hi, elem_of_app; right; left).
    assert (exists l3, acq s1 = l1 ++ x :: l3) as [l3 E1]. { destruct Hacq as [-> | ->]; [by eexists|]. exists (l2 ++ [i]). by rewrite <- app_assoc. }
    assert (length (acq s1) <= n)%nat as Hn1. { rewrite E in Hn. cbn in Hn. destruct Hacq as [-> | ->]; rewrite ?length_app in *; cbn in *; lia. }
    destruct (IH x (sent || sent') s1 l1 l3 Hok1 E1 Hn1) as (stop & s' & -> & H1 & H2); [|exists stop, s'; split; [done|split; [done|lia]]].
    cbn [length] in Hf. destruct sent, sent'; cbn in *; nia.
Qed.

(** The identifiers are served in the order of the list: [rest] are those of
    the first pass that are still to come. *)
Lemma sched_loop_order fuel : forall last_tid sent s stop s' rest extra, sched_ok s -> acq s = rest ++ extra ->
  (rest <> [] -> last_tid = last rest) -> sched_loop fuel false last_tid sent s = Some (stop, s') ->
  exists tr, trace s' = trace s ++ tr /\ (if stop : bool then tr `prefix_of` rest \/ rest `prefix_of` tr else rest `prefix_of` tr).
Proof using L.
  induction fuel as [|fuel IH]; intros last_tid sent s stop s' rest extra Hok E Hlast Hl; [done|]. cbn [sched_loop] in Hl.
  destruct (acq s) as [|i l] eqn:Ea.
  { injection Hl as <- <-. exists []. rewrite app_nil_r. split; [done|]. by destruct rest. }
  destruct (sched_round_spec i l s Hok Ea) as (sent' & stop1 & s1 & Er & Hok1 & Hacq & Htr & _ & _). rewrite Er in Hl. cbn [mbind option_bind] in Hl.
  destruct rest as [|j rest].
  - assert (forall b : bool, exists tr, trace s1 = trace s ++ tr /\ (if b then tr `prefix_of` [] \/ [] `prefix_of` tr else [] `prefix_of` tr)) as Hone.
    { intros b. exists [i]. split; [done|]. destruct b; [right|]; apply prefix_nil. }
    assert (forall lt se, sched_loop fuel false lt se s1 = Some (stop, s') -> exists tr, trace s' = trace s ++ tr /\ (if stop : bool then tr `prefix_of` [] \/ [] `prefix_of` tr else [] `prefix_of` tr)) as Hmore.
    { intros lt se Hx. destruct (IH lt se s1 stop s' [] (acq s1) Hok1 eq_refl ltac:(done) Hx) as (tr & Et & _). exists (i :: tr).
      rewrite Et, Htr, <- app_assoc. split; [done|]. destruct stop; [right|]; apply prefix_nil. }
    destruct stop1; [injection Hl as <- <-; apply (Hone true)|]. destruct (bool_decide _); [destruct (negb _)|];
      [injection Hl as <- <-; apply (Hone false)|by eapply Hmore|by eapply Hmore].
  - cbn in E. injection E as <- ->. specialize (Hlast ltac:(done)). destruct stop1.
    { injection Hl as <- <-. exists [i]. split; [done|]. left. by exists rest. }
    destruct rest as [|k rest].
    + cbn in Hlast. subst last_tid. rewrite bool_decide_eq_true_2 in Hl by done. destruct (negb _).
      * injection Hl as <- <-. exists [i]. split; [done|]. done.
      * destruct (IH (last (acq s1)) false s1 stop s' [] (acq s1) Hok1 eq_refl ltac:(done) Hl) as (tr & Et & _). exists (i :: tr).
        rewrite Et, Htr, <- app_assoc. split; [done|]. destruct stop; [right|]; by exists tr.
    + destruct Hok as [Hd _]. rewrite Ea in Hd. apply NoDup_cons in Hd as [Hi _].
      rewrite bool_decide_eq_false_2 in Hl.
      2: { intros Ei. apply Hi. apply elem_of_app. left. rewrite last_cons_cons in Hlast. rewrite Hlast in Ei. symmetry in Ei. by apply last_Some_elem_of in Ei. }
      assert (exists ex, acq s1 = (k :: rest) ++ ex) as [ex Ex]. { destruct Hacq as [-> | ->]; [by eexists|]. rewrite <- app_assoc. by eexists. }
      destruct (IH last_tid (sent || sent') s1 stop s' (k :: rest) ex Hok1 Ex) as (tr & Et & Hp); [|done|].
      { intros _. rewrite Hlast. by rewrite last_cons_cons. }
      exists (i :: tr). rewrite Et, Htr, <- app_assoc. split; [done|]. destruct stop; [destruct Hp as [Hp|Hp]; [left|right]|]; by apply prefix_cons.
Qed.

(** C10. The scheduler ends, and it is fair: unless an identifier asks to stop,
    every identifier of the list is served, in the order of the list. *)
Theorem txq_schedule_fair qnum s : 0 <= qnum -> sched_ok s ->
  exists stop s' tr, ath_txq_schedule qnum false false s = Some (stop, s') /\ sched_ok s' /\ (all_frames s' <= all_frames s)%nat /\
    trace s' = trace s ++ tr /\ (if stop : bool then tr `prefix_of` acq s \/ acq s `prefix_of` tr else acq s `prefix_of` tr).
Proof using L.
  intros Hq Hok. unfold ath_txq_schedule. rewrite (proj2 (Z.ltb_ge _ _) Hq). destruct (bool_decide_reflect (acq s = [])) as [E|Hne].
  { exists false, s, []. rewrite app_nil_r, E. by split_and!. }
  destruct (exists_last Hne) as (l & x & E). destruct (sched_loop_ends (length (acq s)) (sched_fuel s) x false s l [] Hok E) as (stop & s' & El & H1 & H2);
    [done| |].
  { unfold sched_fuel. assert (length (acq s) = S (length l)) as -> by (rewrite E, length_app; cbn; lia). nia. }
  assert (last (acq s) = Some x) as Hlast by (by rewrite E, last_snoc). rewrite Hlast.
  destruct (sched_loop_order (sched_fuel s) (Some x) false s stop s' (acq s) [] Hok) as (tr & Ht & Hp); [by rewrite app_nil_r|by intros _|done|].
  by exists stop, s', tr.
Qed.
End Sched.

(** * The instance *)

Section Backlog.
Context (env : tid_env).

Lemma get_subframe_backlog s r s' : ath_tx_get_tid_subframe env s = Ok (r, s') -> (backlog s' <= backlog s)%nat /\ chosen s' r.
Proof using. intros E. destruct (get_subframe_total env s) as (r1 & s1 & E1 & H). rewrite E in E1. by injection E1 as <- <-. Qed.

Lemma form_aggr_loop_backlog fuel d lim h : forall k q n al bp s taken closed al' s' k0 l,
  form_aggr_loop env fuel d lim h k q n al bp s = Ok (taken, closed, al', s') -> queue_of q s = k0 :: l ->
  (backlog s' <= backlog s)%nat /\ (taken <> [] -> (backlog s' < backlog s)%nat).
Proof using.
  induction fuel as [|fuel IH]; intros k q n al bp s taken closed al' s' k0 l; cbn [form_aggr_loop]; [done|].
  destruct (fi_bf k) as [bf|]; [|done]. destruct (_ && _); [by intros [= <- _ _ <-]|]. cbv zeta. intros E Hq.
  match type of E with context [if negb (baw_tracked k) then ?a else ?b] =>
    destruct (if negb (baw_tracked k) then a else b) as [k1 s1] eqn:E1 end.
  assert (queue_of q s1 = k0 :: l /\ backlog s1 = backlog s) as [Eq Eo].
  { rewrite <- Hq. destruct (negb _); injection E1 as <- <-; [by destruct q|done]. }
  clear E1. pose proof (unlink_backlog q k0 l s1 Eq) as Hu.
  destruct (ath_tx_get_tid_subframe env (unlink_head q s1)) as [[next s2]|] eqn:E2; [|done]. cbn [obind] in E.
  apply get_subframe_backlog in E2 as [Hle Hc]. destruct next as [[k3 q3]|]; [|injection E as _ _ _ <-; lia].
  destruct (ath_tid_has_buffered s2); [|injection E as _ _ _ <-; lia].
  destruct (form_aggr_loop env fuel _ _ _ k3 q3 _ _ _ s2) as [[[[tk cl] a1] s3]|] eqn:E3; [|done].
  injection E as _ _ _ <-. destruct Hc as [[l3 Hl3] _]. eapply IH in E3 as [E3 _]; [|exact Hl3]. lia.
Qed.

Lemma sched_aggr_backlog rates d da s r stop s' : ath_tx_sched_aggr env rates d da s = Ok (r, stop, s') ->
  if r is Some _ then (backlog s' < backlog s)%nat else (backlog s' <= backlog s)%nat.
Proof using.
  unfold ath_tx_sched_aggr. intros E. destruct (negb _); [by injection E as <- <- <-|].
  destruct (ath_tx_get_tid_subframe env s) as [[next s1]|] eqn:E1; [|done]. cbn [obind] in E.
  apply get_subframe_backlog in E1 as [Hle Hc]. destruct next as [[k q]|]; [|by injection E as <- <- <-].
  destruct (_ || _); [by injection E as <- <- <-|]. cbv zeta in E. destruct Hc as [[l Hl] _].
  match type of E with obind ?a _ = _ => destruct a as [[[taken len] s2]|] eqn:E2; [|done] end. cbn [obind] in E.
  assert ((backlog s2 <= backlog s1)%nat /\ (taken <> [] -> (backlog s2 < backlog s1)%nat)) as [H1 H2].
  { destruct (tx_ampdu k).
    - unfold ath_tx_form_aggr in E2.
      match type of E2 with context [form_aggr_loop env ?f ?d ?m ?h ?k1 q 0 0 0 s1] =>
        destruct (form_aggr_loop env f d m h k1 q 0 0 0 s1) as [[[[tk cl] a1] s3]|] eqn:E3; [|done] end. cbn [obind] in E2.
      eapply form_aggr_loop_backlog in E3 as [H1 H2]; [|exact Hl].
      destruct tk as [|k2 [|k3 tk]]; cbn [obind] in E2; [by injection E2 as <- _ <-| |by injection E2 as <- _ <-; split; [|intros _; apply H2]].
      destruct (fi_bf k2); [|done]. cbn [obind] in E2. injection E2 as <- _ <-. split; [done|]. intros _. by apply H2.
    - unfold ath_tx_form_burst in E2. injection E2 as <- _ <-. pose proof (unlink_backlog q k l s1 Hl). lia. }
  destruct taken as [|k2 tk]; [injection E as <- _ <-; lia|]. specialize (H2 ltac:(done)).
  assert (forall b, backlog (s2 <| clear_ps_filter := b |>) = backlog s2) as Hb by done.
  destruct (_ || _).
  - match type of E with Ok (_, _, ?t) = _ => assert (backlog t = backlog s2) as Hs3 by done; set (s3 := t) in * end.
    clearbody s3. injection E as <- _ <-. lia.
  - injection E as <- _ <-. lia.
Qed.
End Backlog.

(** What the identifiers of a queue share, and what is their own. *)
Record tid_shared := {
  sh_txbuf : list ath_buf;
  sh_held : list ath_buf;
  sh_pending : Z;
  sh_stopped : bool;
  sh_events : list tid_event;
  sh_units : list (list sk_buff);      (* handed to the hardware queue *)
  axq_depth : Z;
  axq_ampdu_depth : Z;
}.
Record tid_own := {
  own_env : tid_env;
  own_state : tid_state;               (* its shared fields are not used *)
}.
Definition join (g : tid_shared) (t : tid_own) : tid_state :=
  (own_state t) <| txbuf := sh_txbuf g |> <| held := sh_held g |> <| pending_frames := sh_pending g |> <| stopped := sh_stopped g |>
    <| events := sh_events g |>.

(** The depths that [ath_tx_txqaddbuf] counts for a unit. *)
Definition is_ampdu_not_probing (k : sk_buff) : bool := from_option isampdu false (fi_bf k) && negb (tx_probe k).
Definition share (u : option (list sk_buff)) (s : tid_state) (g : tid_shared) : tid_shared :=
  {| sh_txbuf := txbuf s; sh_held := held s; sh_pending := pending_frames s; sh_stopped := stopped s; sh_events := events s;
     sh_units := sh_units g ++ option_list u;
     axq_depth := if u is Some _ then axq_depth g + 1 else axq_depth g;
     axq_ampdu_depth := if from_option is_ampdu_not_probing false (u ≫= head) then axq_ampdu_depth g + 1 else axq_ampdu_depth g |}.

#[export] Instance tid_sched (rates : list tx_rate) : TidSched tid_shared tid_own := {
  sched_aggr g t :=
    match ath_tx_sched_aggr (own_env t) rates (axq_depth g) (axq_ampdu_depth g) (join g t) with
    | Ok (r, stop, s) => (bool_decide (is_Some r), stop, share (fst <$> r) s g, {| own_env := own_env t; own_state := s |})
    | Oops => (false, true, g, t)
    end;
  has_buffered t := ath_tid_has_buffered (own_state t);
  in_context t := chanctx (own_env t);
  frames t := backlog (own_state t);
}.

#[export] Instance tid_sched_laws rates : TidSchedLaws (tid_sched rates).
Proof.
  split. intros g t sent stop g' t'. cbn. destruct (sched_aggr_total (own_env t) rates (axq_depth g) (axq_ampdu_depth g) (join g t)) as (r & stop1 & s & E & _).
  rewrite E. apply sched_aggr_backlog in E. intros [= <- _ _ <-]. cbn. change (backlog (join g t)) with (backlog (own_state t)) in E. by destruct r.
Qed.

(** * A queue with two identifiers *)

Definition demo_waiting : tid_run_state :=
  match tid_run demo_env (take 4 demo_ops) (tid_init demo_pool, []) with Ok x => x | Oops => (tid_init demo_pool, []) end.
Definition demo_queue : sched_state (G := tid_shared) (T := tid_own) :=
  let s := fst demo_waiting in
  {| shared := {| sh_txbuf := txbuf s; sh_held := held s; sh_pending := pending_frames s; sh_stopped := stopped s; sh_events := [];
                  sh_units := []; axq_depth := 0; axq_ampdu_depth := 0 |};
     tids := [ {| own_env := demo_env; own_state := s |}; {| own_env := demo_env; own_state := s |} ];
     acq := [1; 0]%nat; trace := [] |}.

#[local] Instance demo_sched : TidSched tid_shared tid_own := tid_sched demo_rates.

Lemma demo_sched_queue_ok : sched_ok demo_queue /\ all_frames demo_queue = 6%nat.
Proof. split; [|by vm_compute]. split; [apply (bool_decide_unpack _); by vm_compute|]. repeat constructor. Qed.

(** Both identifiers are served, and none asks to stop. *)
Lemma demo_queue_served :
  match ath_txq_schedule 0 false false demo_queue with
  | Some (stop, s) => (stop, trace s, acq s, all_frames s, length (sh_units (shared s)))
  | None => (true, [], [], 0%nat, 0%nat)
  end = (false, [1; 0]%nat, [], 0%nat, 2%nat).
Proof. by vm_compute. Qed.

Lemma txq_schedule_fair_witness : exists stop s' tr,
  ath_txq_schedule 0 false false demo_queue = Some (stop, s') /\ sched_ok s' /\ (all_frames s' <= all_frames demo_queue)%nat /\
  trace s' = trace demo_queue ++ tr /\
  (if stop : bool then tr `prefix_of` acq demo_queue \/ acq demo_queue `prefix_of` tr else acq demo_queue `prefix_of` tr).
Proof. apply (txq_schedule_fair (L := tid_sched_laws demo_rates) 0 demo_queue); [lia | apply demo_sched_queue_ok]. Defined.
