(* ===== verification/RxFrame.v ===== *)
(** The treatment of one received frame in the ath9k driver (src/real/ath/
    ath9k/recv.c and common.c): the time of reception, acceptance by error
    bits and keys, rate and signal, the removal of padding, the traffic
    indication of beacons and power save.

    A frame is the list of the bytes behind [skb->data] up to the end of its
    buffer; a read behind the end is [Oops]. Channel contexts and Bluetooth
    coexistence are not compiled in; statistics are left out. The header
    lengths of mac80211 are a parameter. *)

From S2P Require Import Prelude KeyCache Desc.

(** * Constants of mac80211 *)

Definition IEEE80211_FCTL_FTYPE : Z := 0x000c.
Definition IEEE80211_FCTL_STYPE : Z := 0x00f0.
Definition IEEE80211_FCTL_MOREFRAGS : Z := 0x0400.
Definition IEEE80211_FCTL_MOREDATA : Z := 0x2000.
Definition IEEE80211_FCTL_PROTECTED : Z := 0x4000.
Definition IEEE80211_SCTL_FRAG : Z := 0x000f.
Definition ieee80211_is_mgmt (fc : Z) : bool := fc .& IEEE80211_FCTL_FTYPE =? 0x0000.
Definition ieee80211_is_ctl (fc : Z) : bool := fc .& IEEE80211_FCTL_FTYPE =? 0x0004.
Definition ieee80211_is_data (fc : Z) : bool := fc .& IEEE80211_FCTL_FTYPE =? 0x0008.
Definition ieee80211_is_beacon (fc : Z) : bool := fc .& (IEEE80211_FCTL_FTYPE .| IEEE80211_FCTL_STYPE) =? 0x0080.
Definition ieee80211_is_action (fc : Z) : bool := fc .& (IEEE80211_FCTL_FTYPE .| IEEE80211_FCTL_STYPE) =? 0x00d0.
Definition ieee80211_is_ack (fc : Z) : bool := fc .& (IEEE80211_FCTL_FTYPE .| IEEE80211_FCTL_STYPE) =? 0x00d4.
Definition ieee80211_has_morefrags (fc : Z) : bool := has fc IEEE80211_FCTL_MOREFRAGS.
Definition ieee80211_has_moredata (fc : Z) : bool := has fc IEEE80211_FCTL_MOREDATA.
Definition ieee80211_has_protected (fc : Z) : bool := has fc IEEE80211_FCTL_PROTECTED.
Definition is_multicast_ether_addr (a : list Z) : bool := has (byte_at a 0) 0x01.
Definition is_zero_ether_addr (a : list Z) : bool := bool_decide (Forall (fun b => b = 0) a).
Definition WLAN_EID_TIM : Z := 5.
Definition FCS_LEN : Z := 4.

Definition BIT (n : Z) : Z := 1 .<< n.
Definition RX_FLAG_MMIC_ERROR : Z := BIT 0.
Definition RX_FLAG_DECRYPTED : Z := BIT 1.
Definition RX_FLAG_MMIC_STRIPPED : Z := BIT 3.
Definition RX_FLAG_FAILED_FCS_CRC : Z := BIT 5.
Definition RX_FLAG_SHORTPRE : Z := BIT 8.
Definition RX_FLAG_HT : Z := BIT 9.
Definition RX_FLAG_40MHZ : Z := BIT 10.
Definition RX_FLAG_SHORT_GI : Z := BIT 11.
Definition RX_FLAG_NO_SIGNAL_VAL : Z := BIT 12.
Definition RX_FLAG_AMPDU_DETAILS : Z := BIT 14.
Definition RX_FLAG_AMPDU_LAST_KNOWN : Z := BIT 17.
Definition RX_FLAG_AMPDU_IS_LAST : Z := BIT 18.
Definition RX_FLAG_AMPDU_DELIM_CRC_ERROR : Z := BIT 19.
Definition RX_FLAG_MACTIME_END : Z := BIT 21.
Definition RX_FLAG_10MHZ : Z := BIT 28.
Definition RX_FLAG_5MHZ : Z := BIT 29.

Definition FIF_FCSFAIL : Z := BIT 2.
Definition FIF_BCN_PRBRESP_PROMISC : Z := BIT 4.
Definition FIF_CONTROL : Z := BIT 5.
Definition FIF_OTHER_BSS : Z := BIT 6.
Definition FIF_PSPOLL : Z := BIT 7.
Definition FIF_PROBE_REQ : Z := BIT 8.

Inductive rx_opmode := OpStation | OpAdhoc | OpAp | OpOcb | OpOther.
#[export] Instance rx_opmode_eq_dec : EqDecision rx_opmode.
Proof. solve_decision. Defined.

(** [struct ieee80211_rx_status], the fields that the driver fills in. *)
Record ieee80211_rx_status := {
  mactime : Z;              (* u64 *)
  rx_flag : Z;              (* u32 *)
  rate_idx : Z;
  rx_band : Z;
  freq : Z;
  rx_antenna : Z;
  signal : Z;               (* s8 *)
  chains : Z;               (* u8 *)
  chain_signal : Z -> Z;    (* s8 *)
  ampdu_reference : Z;      (* u32 *)
}.
#[export] Instance eta_ieee80211_rx_status : Eta ieee80211_rx_status := fun r =>
  Build_ieee80211_rx_status (mactime r) (rx_flag r) (rate_idx r) (rx_band r) (freq r) (rx_antenna r) (signal r) (chains r)
    (chain_signal r) (ampdu_reference r).
Definition zero_rxs : ieee80211_rx_status :=
  {| mactime := 0; rx_flag := 0; rate_idx := 0; rx_band := 0; freq := 0; rx_antenna := 0; signal := 0; chains := 0;
     chain_signal := fun _ => 0; ampdu_reference := 0 |}.

#[export] Instance eta_ath_rx_status : Eta ath_rx_status := fun r =>
  Build_ath_rx_status (rs_tstamp r) (rs_datalen r) (rs_status r) (rs_phyerr r) (rs_rssi r) (rs_keyix r) (rs_rate r)
    (rs_antenna r) (rs_more r) (rs_rssi_ctl r) (rs_rssi_ext r) (rs_isaggr r) (rs_firstaggr r) (rs_moreaggr r) (rs_flags r)
    (evm0 r) (evm1 r) (evm2 r) (evm3 r) (evm4 r) (rs_flag r).

(** * What the receive path depends on *)

Record rx_env := {
  rx_common : ath_common;                 (* the key bitmaps *)
  curbssid : list Z;
  is_monitoring : bool;
  opmode : rx_opmode;
  rxfilter : Z;                           (* cur_chan->rxfilter *)
  nvifs : Z;                              (* cur_chan->nvifs *)
  radar_enabled : bool;
  dynack_enabled : bool;
  chandef_noht : bool;                    (* NL80211_CHAN_WIDTH_20_NOHT *)
  old_chip : bool;                        (* macVersion <= AR_SREV_VERSION_9160 *)
  four_address : bool;                    (* 9550, 9531 or 9561 *)
  rxchainmask : Z;
  noise : Z;                              (* s8 *)
  chan_quarter : bool;
  chan_half : bool;
  band_rates : list (Z * Z);              (* hw_value, hw_value_short of each bit rate *)
  curchan_band : Z;
  curchan_freq : Z;
  sw_mgmt_crypto_rx : bool;
  check_auto_sleep : bool;                (* ath9k_check_auto_sleep *)
  beacon_interval : Z;
  ieee80211_hdrlen : Z -> Z;
  ieee80211_get_hdrlen_from_skb : list Z -> Z;
}.

#[export] Instance eta_rx_env : Eta rx_env := fun r =>
  Build_rx_env (rx_common r) (curbssid r) (is_monitoring r) (opmode r) (rxfilter r) (nvifs r) (radar_enabled r) (dynack_enabled r)
    (chandef_noht r) (old_chip r) (four_address r) (rxchainmask r) (noise r) (chan_quarter r) (chan_half r) (band_rates r) (curchan_band r)
    (curchan_freq r) (sw_mgmt_crypto_rx r) (check_auto_sleep r) (beacon_interval r) (ieee80211_hdrlen r) (ieee80211_get_hdrlen_from_skb r).

(** The state of the driver that these functions change. [rx_events]: calls
    into other parts. *)
Inductive rx_event :=
  | PhyErr (rs : ath_rx_status) (tsf : Z) (frame : list Z)   (* ath9k_dfs_process_phyerr, ath_cmn_process_fft *)
  | SetBeacon                                                 (* ath9k_set_beacon *)
  | AckSample (tstamp : Z)                                    (* ath_dynack_sample_ack_ts *)
  | DeliverFrame (id : Z) (frame : list Z) (rxs : ieee80211_rx_status)   (* ieee80211_rx *)
  | KfreeSkb (id : Z)                                         (* dev_kfree_skb *)
  | PushRx (hp : bool) (id : Z).                              (* ath9k_hw_addrxbuf_edma *)

Record rx_soft := {
  discard_next : bool;
  ampdu_ref : Z;            (* u32 *)
  ps_flags : Z;
  last_rssi : Z;            (* int *)
  avgbrssi : Z;             (* u32 *)
  rx_events : list rx_event;
}.
#[export] Instance eta_rx_soft : Eta rx_soft := fun r =>
  Build_rx_soft (discard_next r) (ampdu_ref r) (ps_flags r) (last_rssi r) (avgbrssi r) (rx_events r).
Definition rx_emit (e : rx_event) (s : rx_soft) : rx_soft := s <| rx_events ::= fun l => l ++ [e] |>.

Section Frame.
Context (e : rx_env).

(** * The header *)

Record ieee80211_hdr := { frame_control : Z; addr1 : list Z; addr3 : list Z; seq_ctrl : Z }.

(** The fields of the header at [skb->data + off]. *)
Definition read_hdr (off : nat) (mem : list Z) : outcome ieee80211_hdr :=
  if (length mem <? off + 24)%nat then Oops
  else Ok {| frame_control := get_unaligned_le16 mem off; addr1 := slice (off + 4) 6 mem; addr3 := slice (off + 16) 6 mem;
             seq_ctrl := get_unaligned_le16 mem (off + 22) |}.

Definition ath_is_mybeacon (hdr : ieee80211_hdr) : bool :=
  ieee80211_is_beacon (frame_control hdr) && negb (is_zero_ether_addr (curbssid e)) && bool_decide (addr3 hdr = curbssid e).

(** * Time of reception *)

(** [tsf]: the clock when the tasklet runs; [rs_tstamp] has 32 bits. *)
Definition ath9k_process_tsf (rs_tstamp tsf : Z) : Z :=
  let tsf_lower := tsf .& 0xffffffff in
  let m := clr tsf 0xffffffff .| rs_tstamp in
  let m := if (tsf_lower <? rs_tstamp) && (0x10000000 <? u32 (rs_tstamp - tsf_lower)) then u64 (m - 0x100000000) else m in
  if (rs_tstamp <? tsf_lower) && (0x10000000 <? u32 (tsf_lower - rs_tstamp)) then u64 (m + 0x100000000) else m.

(** * Acceptance *)

Definition keymap_bit (i map : Z) : bool := Z.testbit map i.

(** The result, [*decrypt_error], and the changed statuses. *)
Definition ath9k_cmn_rx_accept (hdr : ieee80211_hdr) (rxs : ieee80211_rx_status) (rs : ath_rx_status)
  : bool * bool * ieee80211_rx_status * ath_rx_status :=
  let fc := frame_control hdr in
  let is_mc := is_multicast_ether_addr (addr1 hdr) in
  let keyix := rs_keyix rs in
  let is_valid_tkip := negb (keyix =? ATH9K_RXKEYIX_INVALID) && keymap_bit keyix (tkip_keymap (rx_common e)) in
  let strip_mic := is_valid_tkip && ieee80211_is_data fc && ieee80211_has_protected fc &&
    negb (has (rs_status rs) (ATH9K_RXERR_DECRYPT .| ATH9K_RXERR_CRC .| ATH9K_RXERR_MIC .| ATH9K_RXERR_KEYMISS)) in
  let rs :=
    if (keyix =? ATH9K_RXKEYIX_INVALID) || negb (keymap_bit keyix (ccmp_keymap (rx_common e)))
    then rs <| rs_status ::= fun x => clr x ATH9K_RXERR_KEYMISS |> else rs in
  let mic_error := is_valid_tkip && negb (ieee80211_is_ctl fc) && negb (ieee80211_has_morefrags fc) &&
    (seq_ctrl hdr .& IEEE80211_SCTL_FRAG =? 0) && has (rs_status rs) ATH9K_RXERR_MIC in
  let status := rs_status rs in
  let crc := has status ATH9K_RXERR_CRC in
  let decrypt := has status ATH9K_RXERR_DECRYPT || (negb is_mc && has status ATH9K_RXERR_KEYMISS) in
  let rxs := if crc then rxs <| rx_flag ::= fun f => f .| RX_FLAG_FAILED_FCS_CRC |> else rxs in
  let mic_error := mic_error && negb crc && negb decrypt in
  let status_mask := ATH9K_RXERR_DECRYPT .| ATH9K_RXERR_MIC .| ATH9K_RXERR_KEYMISS
    .| (if is_monitoring e && has (rxfilter e) FIF_FCSFAIL then ATH9K_RXERR_CRC else 0) in
  if negb (clr status status_mask =? 0) then (false, decrypt, rxs, rs)
  else
    let rxs :=
      if strip_mic then rxs <| rx_flag ::= fun f => f .| RX_FLAG_MMIC_STRIPPED |>
      else if is_mc && mic_error then rxs <| rx_flag ::= fun f => f .| RX_FLAG_MMIC_ERROR |> else rxs in
    (true, decrypt, rxs, rs).

(** * Rate and signal *)

(** The loop over the bit rates: the index, and whether the preamble is short. *)
Fixpoint find_rate (i : Z) (rate : Z) (l : list (Z * Z)) : option (Z * bool) :=
  match l with
  | [] => None
  | (hw_value, hw_value_short) :: l =>
      if hw_value =? rate then Some (i, false)
      else if hw_value_short =? rate then Some (i, true)
      else find_rate (i + 1) rate l
  end.

(** [None] is [-EINVAL]. *)
Definition ath9k_cmn_process_rate (rs : ath_rx_status) (rxs : ieee80211_rx_status) : option ieee80211_rx_status :=
  let rxs :=
    if chan_quarter e then rxs <| rx_flag ::= fun f => f .| RX_FLAG_5MHZ |>
    else if chan_half e then rxs <| rx_flag ::= fun f => f .| RX_FLAG_10MHZ |> else rxs in
  if has (rs_rate rs) 0x80 then
    Some (rxs <| rx_flag ::= fun f => f .| RX_FLAG_HT .| rs_flag rs |> <| rate_idx := rs_rate rs .& 0x7f |>)
  else
    match find_rate 0 (rs_rate rs) (band_rates e) with
    | Some (i, short) =>
        Some ((if short : bool then rxs <| rx_flag ::= fun f => f .| RX_FLAG_SHORTPRE |> else rxs) <| rate_idx := i |>)
    | None => None
    end.

Definition ATH_RSSI_DUMMY_MARKER : Z := 127.
Definition ATH_RSSI_LPF_LEN : Z := 10.
Definition RSSI_LPF_THRESHOLD : Z := -20.
Definition ATH_RSSI_EP_MULTIPLIER : Z := 1 .<< 7.
Definition ATH_EP_MUL (x mul : Z) : Z := x * mul.
Definition ATH_RSSI_IN (x : Z) : Z := ATH_EP_MUL x ATH_RSSI_EP_MULTIPLIER.
Definition ATH_LPF_RSSI (x y len : Z) : Z := if negb (x =? ATH_RSSI_DUMMY_MARKER) then cdiv (x * (len - 1) + y) len else y.
Definition ATH_RSSI_LPF (x y : Z) : Z := if RSSI_LPF_THRESHOLD <=? y then ATH_LPF_RSSI x (ATH_RSSI_IN y) ATH_RSSI_LPF_LEN else x.
Definition ATH_EP_RND (x mul : Z) : Z := cdiv (x + mul / 2) mul.
Definition ATH9K_RSSI_BAD : Z := -128.

(** The signals of the chains in use, numbered without gaps. *)
Fixpoint chain_loop (i j : Z) (rssi : list Z) (rxs : ieee80211_rx_status) : ieee80211_rx_status :=
  match rssi with
  | [] => rxs
  | r :: rssi =>
      if negb (has (rxchainmask e) (BIT i)) then chain_loop (i + 1) j rssi rxs
      else
        let rxs :=
          if negb (r =? ATH9K_RSSI_BAD)
          then rxs <| chains ::= fun c => u8 (c .| BIT j) |> <| chain_signal ::= fun f k => if k =? j then s8 (noise e + r) else f k |>
          else rxs in
        chain_loop (i + 1) (j + 1) rssi rxs
  end.

Definition ath9k_cmn_process_rssi (is_mybeacon : bool) (rs : ath_rx_status) (rxs : ieee80211_rx_status) (s : rx_soft)
  : ieee80211_rx_status * rx_soft :=
  if negb (rs_moreaggr rs =? 0) then (rxs <| rx_flag ::= fun f => f .| RX_FLAG_NO_SIGNAL_VAL |>, s)
  else if rs_rssi rs =? ATH9K_RSSI_BAD then (rxs <| rx_flag ::= fun f => f .| RX_FLAG_NO_SIGNAL_VAL |>, s)
  else
    let '(r0, r1, r2) := rs_rssi_ctl rs in
    let rxs := chain_loop 0 0 [r0; r1; r2] rxs in
    let s :=
      if is_mybeacon && (bool_decide (opmode e = OpStation) || bool_decide (opmode e = OpAdhoc)) then
        let s := s <| last_rssi ::= fun x => ATH_RSSI_LPF x (rs_rssi rs) |> in
        let rssi := if negb (last_rssi s =? ATH_RSSI_DUMMY_MARKER) then ATH_EP_RND (last_rssi s) ATH_RSSI_EP_MULTIPLIER else rs_rssi rs in
        s <| avgbrssi := if rssi <? 0 then 0 else rssi |>
      else s in
    (rxs <| signal := s8 (noise e + rs_rssi rs) |>, s).

(** * Padding and decryption *)

(** [memmove] of [n] bytes from the start of the frame to [off]. *)
Definition memmove_up (off n : nat) (mem : list Z) : list Z := take off mem ++ take n mem ++ drop (off + n) mem.

(** The frame with its length, and the status for mac80211. *)
Definition ath9k_cmn_rx_skb_postprocess (mem : list Z) (len : Z) (rs : ath_rx_status) (rxs : ieee80211_rx_status) (decrypt_error : bool)
  : outcome (list Z * Z * ieee80211_rx_status) :=
  obind (read_hdr 0 mem) (fun hdr =>
  let hdrlen := ieee80211_get_hdrlen_from_skb e (take (Z.to_nat len) mem) in
  let fc := frame_control hdr in
  let padpos := ieee80211_hdrlen e fc in
  let padsize := padpos .& 3 in
  let '(mem, len) :=
    if negb (padsize =? 0) && (padpos + padsize + FCS_LEN <=? len)
    then (drop (Z.to_nat padsize) (memmove_up (Z.to_nat padsize) (Z.to_nat padpos) mem), len - padsize)
    else (mem, len) in
  obind
    (if negb (rs_keyix rs =? ATH9K_RXKEYIX_INVALID) && negb decrypt_error && ieee80211_has_protected fc
     then Ok (rxs <| rx_flag ::= fun f => f .| RX_FLAG_DECRYPTED |>)
     else if ieee80211_has_protected fc && negb decrypt_error && (hdrlen + 4 <=? len) then
       match mem !! Z.to_nat (hdrlen + 3) with
       | None => Oops
       | Some b =>
           if keymap_bit (b .>> 6) (keymap (rx_common e)) then Ok (rxs <| rx_flag ::= fun f => f .| RX_FLAG_DECRYPTED |>) else Ok rxs
       end
     else Ok rxs)
    (fun rxs =>
  Ok (mem, len,
      if sw_mgmt_crypto_rx e && has (rx_flag rxs) RX_FLAG_DECRYPTED && ieee80211_is_mgmt fc
      then rxs <| rx_flag ::= fun f => clr f RX_FLAG_DECRYPTED |> else rxs))).

(** * Beacons and power save *)

(** The loop over the elements of a beacon: [l] are the bytes from [pos] to
    the end of the frame. Every round takes two bytes at least. *)
Fixpoint tim_loop (fuel : nat) (l : list Z) : outcome bool :=
  match fuel with
  | O => Oops
  | S fuel =>
      match l with
      | id :: elen :: ((_ :: _) as l) =>
          if Z.of_nat (length l) <? elen then Ok false
          else if id =? WLAN_EID_TIM then
            if elen <? 4 then Ok false
            else
              match l with
              | dtim_count :: _ :: bitmap_ctrl :: _ => if negb (dtim_count =? 0) then Ok false else Ok (has bitmap_ctrl 0x01)
              | _ => Oops
              end
          else tim_loop fuel (drop (Z.to_nat elen) l)
      | _ => Ok false
      end
  end.

(** [frame]: the bytes of the frame; the elements of a beacon begin at 36. *)
Definition ath_beacon_dtim_pending_cab (frame : list Z) : outcome bool :=
  let l := drop 36 frame in tim_loop (S (length l)) l.

Definition PS_WAIT_FOR_BEACON : Z := BIT 0.
Definition PS_WAIT_FOR_CAB : Z := BIT 1.
Definition PS_WAIT_FOR_PSPOLL_DATA : Z := BIT 2.
Definition PS_BEACON_SYNC : Z := BIT 4.

Definition ath_rx_ps_beacon (frame : list Z) (s : rx_soft) : outcome rx_soft :=
  if (length frame <? 24 + 8 + 2 + 2)%nat then Ok s
  else
    let s := s <| ps_flags ::= fun f => clr f PS_WAIT_FOR_BEACON |> in
    let s :=
      if has (ps_flags s) PS_BEACON_SYNC then
        let s := s <| ps_flags ::= fun f => clr f PS_BEACON_SYNC |> in
        if beacon_interval e =? 0 then s else rx_emit SetBeacon s
      else s in
    obind (ath_beacon_dtim_pending_cab frame) (fun pending =>
    if pending : bool then Ok (s <| ps_flags ::= fun f => f .| (PS_WAIT_FOR_CAB .| PS_WAIT_FOR_BEACON) |>)
    else if has (ps_flags s) PS_WAIT_FOR_CAB then Ok (s <| ps_flags ::= fun f => clr f PS_WAIT_FOR_CAB |>) else Ok s).

Definition ath_rx_ps (frame : list Z) (hdr : ieee80211_hdr) (mybeacon : bool) (s : rx_soft) : outcome rx_soft :=
  let fc := frame_control hdr in
  if (has (ps_flags s) PS_WAIT_FOR_BEACON || check_auto_sleep e) && mybeacon then ath_rx_ps_beacon frame s
  else if has (ps_flags s) PS_WAIT_FOR_CAB && (ieee80211_is_data fc || ieee80211_is_action fc) &&
          is_multicast_ether_addr (addr1 hdr) && negb (ieee80211_has_moredata fc)
  then Ok (s <| ps_flags ::= fun f => clr f (PS_WAIT_FOR_CAB .| PS_WAIT_FOR_BEACON) |>)
  else if has (ps_flags s) PS_WAIT_FOR_PSPOLL_DATA && negb (is_multicast_ether_addr (addr1 hdr)) && negb (ieee80211_has_morefrags fc)
  then Ok (s <| ps_flags ::= fun f => clr f PS_WAIT_FOR_PSPOLL_DATA |>)
  else Ok s.

(** * The first look at a frame *)

Definition ATH9K_RXERR_CORRUPT_DESC : Z := 0x40.
Definition rx_status_len : nat := 48.
Definition IEEE80211_MAX_MPDU_LEN : Z := 3840 + FCS_LEN + (3 + 1 + 4).
(** The size of a buffer, set by [ath_rx_init]. *)
Definition rx_bufsize : Z := IEEE80211_MAX_MPDU_LEN / 2 + Z.of_nat rx_status_len.

Record preprocessed := {
  pp_ok : bool;                 (* the result is 0 *)
  pp_rs : ath_rx_status;
  pp_rxs : ieee80211_rx_status;
  pp_decrypt_error : bool;
  pp_mybeacon : bool;           (* rs->is_mybeacon *)
}.

(** [mem]: the frame whose header counts, the first fragment if there are
    several. The header is always looked for behind the space of the hardware
    status. *)
Definition ath9k_rx_skb_preprocess (tsf : Z) (mem : list Z) (rs : ath_rx_status) (s : rx_soft)
  : outcome (preprocessed * rx_soft) :=
  let fail rs rxs d b s := Ok ({| pp_ok := false; pp_rs := rs; pp_rxs := rxs; pp_decrypt_error := d; pp_mybeacon := b |}, s) in
  let corrupt rs rxs s := fail rs rxs false false (s <| discard_next := negb (rs_more rs =? 0) |>) in
  if discard_next s then corrupt rs zero_rxs s
  else
    let s := s <| discard_next := false |> in
    if rs_datalen rs =? 0 then corrupt rs zero_rxs s
    else if rx_bufsize - Z.of_nat rx_status_len <? rs_datalen rs then corrupt rs zero_rxs s
    else if negb (rs_more rs =? 0) then
      Ok ({| pp_ok := true; pp_rs := rs; pp_rxs := zero_rxs; pp_decrypt_error := false; pp_mybeacon := false |}, s)
    else if has (rs_status rs) ATH9K_RXERR_CORRUPT_DESC then corrupt rs zero_rxs s
    else
      let rxs := zero_rxs <| mactime := ath9k_process_tsf (rs_tstamp rs) tsf |> in
      if has (rs_status rs) ATH9K_RXERR_PHY then
        fail rs rxs false false (rx_emit (PhyErr rs (mactime rxs) (drop rx_status_len mem)) s)
      else
        obind (read_hdr rx_status_len mem) (fun hdr =>
        let '(ok, decrypt_error, rxs, rs) := ath9k_cmn_rx_accept hdr rxs rs in
        if negb ok then fail rs rxs decrypt_error false s
        else
          let b := ath_is_mybeacon hdr in
          match ath9k_cmn_process_rate rs rxs with
          | None => fail rs rxs decrypt_error b s
          | Some rxs =>
              let '(rxs, s) := ath9k_cmn_process_rssi b rs rxs s in
              let rxs := rxs <| rx_band := curchan_band e |> <| freq := curchan_freq e |> <| rx_antenna := rs_antenna rs |>
                             <| rx_flag ::= fun f => f .| RX_FLAG_MACTIME_END |> in
              Ok ({| pp_ok := true; pp_rs := rs; pp_rxs := rxs; pp_decrypt_error := decrypt_error; pp_mybeacon := b |}, s)
          end).

Definition ath9k_apply_ampdu_details (rs : ath_rx_status) (rxs : ieee80211_rx_status) (s : rx_soft) : ieee80211_rx_status * rx_soft :=
  if negb (rs_isaggr rs =? 0) then
    let rxs := rxs <| rx_flag ::= fun f => f .| (RX_FLAG_AMPDU_DETAILS .| RX_FLAG_AMPDU_LAST_KNOWN) |> <| ampdu_reference := ampdu_ref s |> in
    let '(rxs, s) :=
      if rs_moreaggr rs =? 0
      then (rxs <| rx_flag ::= fun f => f .| RX_FLAG_AMPDU_IS_LAST |>, s <| ampdu_ref ::= fun n => u32 (n + 1) |>) else (rxs, s) in
    (if has (rs_flags rs) ATH9K_RX_DELIM_CRC_PRE then rxs <| rx_flag ::= fun f => f .| RX_FLAG_AMPDU_DELIM_CRC_ERROR |> else rxs, s)
  else (rxs, s).
End Frame.

(** * The receive filter

    Scanning in a channel context and tx99 are not compiled in. *)

Definition ATH9K_RX_FILTER_UCAST : Z := 0x00000001.
Definition ATH9K_RX_FILTER_MCAST : Z := 0x00000002.
Definition ATH9K_RX_FILTER_BCAST : Z := 0x00000004.
Definition ATH9K_RX_FILTER_CONTROL : Z := 0x00000008.
Definition ATH9K_RX_FILTER_BEACON : Z := 0x00000010.
Definition ATH9K_RX_FILTER_PROM : Z := 0x00000020.
Definition ATH9K_RX_FILTER_PROBEREQ : Z := 0x00000080.
Definition ATH9K_RX_FILTER_PHYERR : Z := 0x00000100.
Definition ATH9K_RX_FILTER_MYBEACON : Z := 0x00000200.
Definition ATH9K_RX_FILTER_COMP_BAR : Z := 0x00000400.
Definition ATH9K_RX_FILTER_PSPOLL : Z := 0x00004000.
Definition ATH9K_RX_FILTER_PHYRADAR : Z := 0x00002000.
Definition ATH9K_RX_FILTER_MCAST_BCAST_ALL : Z := 0x00008000.
Definition ATH9K_RX_FILTER_4ADDRESS : Z := 0x00100000.

Definition ath_calcrxfilter (e : rx_env) : Z :=
  let set (b : bool) (mask rfilt : Z) := if b then rfilt .| mask else rfilt in
  let rfilt := ATH9K_RX_FILTER_UCAST .| ATH9K_RX_FILTER_BCAST .| ATH9K_RX_FILTER_MCAST in
  let rfilt := set (radar_enabled e) (ATH9K_RX_FILTER_PHYRADAR .| ATH9K_RX_FILTER_PHYERR) rfilt in
  let rfilt := set (has (rxfilter e) FIF_PROBE_REQ) ATH9K_RX_FILTER_PROBEREQ rfilt in
  let rfilt := set (is_monitoring e) ATH9K_RX_FILTER_PROM rfilt in
  let rfilt := set (has (rxfilter e) FIF_CONTROL || dynack_enabled e) ATH9K_RX_FILTER_CONTROL rfilt in
  let rfilt :=
    if bool_decide (opmode e = OpStation) && (nvifs e <=? 1) && negb (has (rxfilter e) FIF_BCN_PRBRESP_PROMISC)
    then rfilt .| ATH9K_RX_FILTER_MYBEACON
    else set (negb (bool_decide (opmode e = OpOcb))) ATH9K_RX_FILTER_BEACON rfilt in
  let rfilt := set (bool_decide (opmode e = OpAp) || has (rxfilter e) FIF_PSPOLL) ATH9K_RX_FILTER_PSPOLL rfilt in
  let rfilt := set (negb (chandef_noht e)) ATH9K_RX_FILTER_COMP_BAR rfilt in
  let rfilt := if (1 <? nvifs e) || has (rxfilter e) FIF_OTHER_BSS
    then set (old_chip e) ATH9K_RX_FILTER_PROM rfilt .| ATH9K_RX_FILTER_MCAST_BCAST_ALL else rfilt in
  set (four_address e) ATH9K_RX_FILTER_4ADDRESS rfilt.

(** An OCB interface hears no beacons through the filter; every other one hears
    either those of its own network or all of them. *)
Lemma calcrxfilter_beacons e :
  has (ath_calcrxfilter e) ATH9K_RX_FILTER_BEACON && has (ath_calcrxfilter e) ATH9K_RX_FILTER_MYBEACON = false /\
  (has (ath_calcrxfilter e) ATH9K_RX_FILTER_BEACON || has (ath_calcrxfilter e) ATH9K_RX_FILTER_MYBEACON
    = negb (bool_decide (opmode e = OpOcb))).
Proof.
  assert (forall (b : bool) m f q, has (if b then f .| m else f) q = has f q || (b && has m q)) as Hs.
  { intros [] m f q; [apply has_lor|by rewrite andb_false_l, orb_false_r]. }
  unfold ath_calcrxfilter. cbv zeta.
  rewrite !(Hs (four_address e)).
  destruct ((1 <? nvifs e) || has (rxfilter e) FIF_OTHER_BSS); rewrite ?has_lor, !Hs;
    destruct (bool_decide (opmode e = OpStation) && _ && _) eqn:E; rewrite ?has_lor, ?Hs;
    repeat match goal with |- context [?b && has ?m ?q] => let v := eval vm_compute in (has m q) in change (has m q) with v end;
    rewrite ?andb_false_r, ?orb_false_r; destruct (opmode e); try discriminate E; done.
Qed.
