(* ===== verification/Rx.v ===== *)
(** The receive path of the ath9k driver with EDMA (src/real/ath/ath9k/recv.c):
    the buffers, the two software queues that mirror the receive FIFOs of the
    hardware, the tasklet, and the joining of frames that fill two buffers.

    A buffer [ath_rxbuf] owns an [rx_skb]; the hardware writes its status and
    the frame into it. [SKB_CB_ATHBUF] leads from the skb in a queue back to its
    buffer, so the queues hold buffers here. Allocations may fail: [rx_faults].
    The contents of new memory are arbitrary ([junk]). Antenna diversity is left
    out: the platform's cards do not have it. The receive path without EDMA is
    not modelled. *)

From S2P Require Import Prelude KeyCache Desc RxFrame.

(** * State *)

(** [mem]: the bytes from [skb->data] to the end of the buffer. *)
Record rx_skb := { sk_id : Z; mem : list Z; sk_len : Z }.
#[export] Instance eta_rx_skb : Eta rx_skb := fun r => Build_rx_skb (sk_id r) (mem r) (sk_len r).

Record ath_rxbuf := { rb_id : Z; bf_mpdu : option rx_skb }.
#[export] Instance eta_ath_rxbuf : Eta ath_rxbuf := fun r => Build_ath_rxbuf (rb_id r) (bf_mpdu r).

Definition ATH9K_INT_RXEOL : Z := 0x00000010.
Definition ATH9K_INT_RXORN : Z := 0x00000020.
Definition ATH9K_HW_RX_HP_QDEPTH : nat := 16.
Definition ATH9K_HW_RX_LP_QDEPTH : nat := 128.

Record rx_state := {
  rxbuf : list ath_rxbuf;         (* sc->rx.rxbuf, free buffers *)
  fifo_hp : list ath_rxbuf;       (* rx_edma[ATH9K_RX_QUEUE_HP].rx_fifo *)
  fifo_lp : list ath_rxbuf;
  frag : option rx_skb;           (* the first part of a frame *)
  soft : rx_soft;
  next_skb : Z;                   (* identity of the next new skb *)
  rx_faults : list bool;          (* which of the coming allocations fail *)
  imask : Z;
}.
#[export] Instance eta_rx_state : Eta rx_state := fun r =>
  Build_rx_state (rxbuf r) (fifo_hp r) (fifo_lp r) (frag r) (soft r) (next_skb r) (rx_faults r) (imask r).

Definition emit_rx (ev : rx_event) (st : rx_state) : rx_state := st <| soft ::= rx_emit ev |>.
Definition fifo (hp : bool) (st : rx_state) : list ath_rxbuf := if hp then fifo_hp st else fifo_lp st.
Definition set_fifo (hp : bool) (l : list ath_rxbuf) (st : rx_state) : rx_state :=
  if hp then st <| fifo_hp := l |> else st <| fifo_lp := l |>.
Definition rx_fifo_hwsize (hp : bool) : nat := if hp then ATH9K_HW_RX_HP_QDEPTH else ATH9K_HW_RX_LP_QDEPTH.

(** An allocation: [false] when it fails. *)
Definition allocate (st : rx_state) : bool * rx_state :=
  match rx_faults st with
  | [] => (true, st)
  | b :: l => (negb b, st <| rx_faults := l |>)
  end.

(** * Buffers of the kernel *)

(** [None]: [skb_over_panic]. *)
Definition skb_put (n : Z) (k : rx_skb) : option rx_skb :=
  if Z.of_nat (length (mem k)) <? sk_len k + n then None else Some (k <| sk_len ::= fun l => l + n |>).
Definition skb_pull (n : nat) (k : rx_skb) : rx_skb :=
  if sk_len k <? Z.of_nat n then k else k <| mem ::= drop n |> <| sk_len ::= fun l => l - Z.of_nat n |>.
(** [len] is unsigned: behind zero it is very large. *)
Definition skb_trim (len : Z) (k : rx_skb) : rx_skb := if (0 <=? len) && (len <? sk_len k) then k <| sk_len := len |> else k.
Definition skb_tailroom (k : rx_skb) : Z := Z.of_nat (length (mem k)) - sk_len k.
Definition skb_frame (k : rx_skb) : list Z := take (Z.to_nat (sk_len k)) (mem k).
(** [pskb_expand_head] with [space] more bytes at the end. When [space] is
    negative, there is room enough, and the size does not matter. *)
Definition expand_tail (space : Z) (k : rx_skb) : rx_skb := k <| mem ::= fun m => m ++ replicate (Z.to_nat space) 0 |>.
(** The bytes [l] are written behind the frame. *)
Definition append_data (l : list Z) (k : rx_skb) : option rx_skb :=
  match skb_put (Z.of_nat (length l)) k with
  | None => None
  | Some k' => Some (k' <| mem ::= fun m => take (Z.to_nat (sk_len k)) m ++ l ++ drop (Z.to_nat (sk_len k) + length l) m |>)
  end.

Section Rx.
Context (e : rx_env) (junk : Z -> Z -> Z).

(** [ath_rxbuf_alloc] and the mapping for DMA. *)
Definition new_skb (id : Z) : rx_skb := {| sk_id := id; mem := junk id <$> seqZ 0 rx_bufsize; sk_len := 0 |}.

(** * The software queues *)

(** [None]: [list_first_entry] of an empty list, or a buffer without skb. *)
Definition ath_rx_edma_buf_link (hp : bool) (st : rx_state) : outcome (bool * rx_state) :=
  if (rx_fifo_hwsize hp <=? length (fifo hp st))%nat then Ok (false, st)
  else
    match rxbuf st with
    | [] => Oops
    | bf :: l =>
        match bf_mpdu bf with
        | None => Oops
        | Some skb =>
            let skb := skb <| mem ::= fun m => replicate rx_status_len 0 ++ drop rx_status_len m |> in
            let st := emit_rx (PushRx hp (rb_id bf)) (st <| rxbuf := l |>) in
            Ok (true, set_fifo hp (fifo hp st ++ [bf <| bf_mpdu := Some skb |>]) st)
        end
    end.

(** The loop over the free buffers: every round links the first one. *)
Fixpoint addbuffer_loop (hp : bool) (n : nat) (st : rx_state) : outcome rx_state :=
  match n with
  | O => Ok st
  | S n => obind (ath_rx_edma_buf_link hp st) (fun '(linked, st) => if linked : bool then addbuffer_loop hp n st else Ok st)
  end.
Definition ath_rx_addbuffer_edma (hp : bool) (st : rx_state) : outcome rx_state :=
  if bool_decide (rxbuf st = []) then Ok st else addbuffer_loop hp (length (rxbuf st)) st.

Definition ath_rx_remove_buffer (hp : bool) (st : rx_state) : rx_state :=
  set_fifo hp [] (st <| rxbuf ::= fun l => l ++ fifo hp st |>).

Definition free_mpdu (bf : ath_rxbuf) (st : rx_state) : rx_state :=
  match bf_mpdu bf with Some skb => emit_rx (KfreeSkb (sk_id skb)) st | None => st end.
Definition ath_rx_edma_cleanup (st : rx_state) : rx_state :=
  let st := ath_rx_remove_buffer true (ath_rx_remove_buffer false st) in
  (foldl (fun st bf => free_mpdu bf st) st (rxbuf st)) <| rxbuf ::= fmap (fun bf => bf <| bf_mpdu := None |>) |>.

(** A new skb and its mapping; when the mapping fails, the skb is freed. *)
Definition alloc_skb (st : rx_state) : option rx_skb * rx_state :=
  let '(ok, st) := allocate st in
  if negb ok then (None, st)
  else
    let skb := new_skb (next_skb st) in
    let st := st <| next_skb ::= Z.succ |> in
    let '(mapped, st) := allocate st in
    if negb mapped then (None, emit_rx (KfreeSkb (sk_id skb)) st) else (Some skb, st).

(** The loop of [ath_rx_edma_init]; [false] when an allocation fails. *)
Fixpoint edma_init_loop (i : Z) (n : nat) (st : rx_state) : bool * rx_state :=
  match n with
  | O => (true, st)
  | S n =>
      let '(skb, st) := alloc_skb st in
      match skb with
      | None => (false, st)
      | Some skb =>
          let skb := skb <| mem := replicate (Z.to_nat rx_bufsize) 0 |> in
          edma_init_loop (i + 1) n (st <| rxbuf ::= fun l => l ++ [{| rb_id := i; bf_mpdu := Some skb |}] |>)
      end
  end.
Definition ath_rx_edma_init (nbufs : nat) (st : rx_state) : errno * rx_state :=
  let st := st <| fifo_lp := [] |> <| fifo_hp := [] |> in
  let '(ok, st) := allocate st in
  if negb ok then (ENOMEM, st)
  else
    let '(ok, st) := edma_init_loop 0 nbufs (st <| rxbuf := [] |>) in
    if ok : bool then (OK, st) else (ENOMEM, ath_rx_edma_cleanup st).

(** * The tasklet *)

(** The status that the hardware has written at the start of the buffer:
    twelve little-endian words. *)
Definition status_words (m : list Z) : ar9003_rxs :=
  let w i := get_unaligned_le32 m (4 * i) in
  {| rx_info := w 0%nat; rx_status1 := w 1%nat; rx_status2 := w 2%nat; rx_status3 := w 3%nat; rx_status4 := w 4%nat; rx_status5 := w 5%nat;
     rx_status6 := w 6%nat; rx_status7 := w 7%nat; rx_status8 := w 8%nat; rx_status9 := w 9%nat; rx_status10 := w 10%nat; rx_status11 := w 11%nat |}.
Definition process_rxdesc (m : list Z) (rs : ath_rx_status) : errno * ath_rx_status :=
  ath9k_hw_process_rxdesc_edma RX_FLAG_SHORT_GI RX_FLAG_40MHZ (status_words m) rs.

(** The result, [*dest], [*rs] and the new state. *)
Definition ath_edma_get_buffers (hp : bool) (rs : ath_rx_status) (st : rx_state)
  : outcome (bool * option ath_rxbuf * ath_rx_status * rx_state) :=
  match fifo hp st with
  | [] => Ok (false, None, rs, st)
  | bf :: l =>
      match bf_mpdu bf with
      | None => Oops
      | Some skb =>
          let '(ret, rs) := process_rxdesc (mem skb) rs in
          match ret with
          | EINPROGRESS => Ok (false, None, rs, st)
          | EINVAL =>
              let st := set_fifo hp l st <| rxbuf ::= fun b => b ++ [bf] |> in
              obind (ath_rx_edma_buf_link hp st) (fun '(_, st) =>
              match fifo hp st with
              | [] => Ok (true, None, rs, st)
              | bf :: l =>
                  let st := set_fifo hp l st <| rxbuf ::= fun b => b ++ [bf] |> in
                  obind (ath_rx_edma_buf_link hp st) (fun '(_, st) => Ok (true, None, rs, st))
              end)
          | _ => Ok (true, Some bf, rs, set_fifo hp l st)
          end
      end
  end.

Fixpoint ath_edma_get_next_rx_buf (fuel : nat) (hp : bool) (rs : ath_rx_status) (st : rx_state)
  : outcome (option ath_rxbuf * ath_rx_status * rx_state) :=
  match fuel with
  | O => Oops
  | S fuel =>
      obind (ath_edma_get_buffers hp rs st) (fun '(again, bf, rs, st) =>
      if negb again then Ok (None, rs, st)
      else match bf with Some bf => Ok (Some bf, rs, st) | None => ath_edma_get_next_rx_buf fuel hp rs st end)
  end.

(** The labels [requeue_drop_frag] and [requeue]. *)
Definition requeue (flush hp : bool) (bf : ath_rxbuf) (st : rx_state) : outcome rx_state :=
  let st := st <| rxbuf ::= fun l => l ++ [bf] |> in
  if negb flush then obind (ath_rx_edma_buf_link hp st) (fun '(_, st) => Ok st) else Ok st.
Definition drop_frag (st : rx_state) : rx_state :=
  match frag st with
  | Some f => emit_rx (KfreeSkb (sk_id f)) st <| frag := None |>
  | None => st
  end.
Definition requeue_drop_frag (flush hp : bool) (bf : ath_rxbuf) (st : rx_state) : outcome rx_state :=
  requeue flush hp bf (drop_frag st).

(** A complete frame [skb] goes to mac80211. *)
Definition deliver (pp : preprocessed) (rxs : ieee80211_rx_status) (skb : rx_skb) (st : rx_state) : outcome rx_state :=
  let skb := if has (rx_flag rxs) RX_FLAG_MMIC_STRIPPED then skb_trim (sk_len skb - 8) skb else skb in
  obind (read_hdr 0 (mem skb)) (fun hdr =>
  obind
    (if has (ps_flags (soft st)) (PS_WAIT_FOR_BEACON .| PS_WAIT_FOR_CAB .| PS_WAIT_FOR_PSPOLL_DATA) || check_auto_sleep e
     then ath_rx_ps e (skb_frame skb) hdr (pp_mybeacon pp) (soft st) else Ok (soft st)) (fun s =>
  let '(rxs, s) := ath9k_apply_ampdu_details (pp_rs pp) rxs s in
  let s := if ieee80211_is_ack (frame_control hdr) then rx_emit (AckSample (rs_tstamp (pp_rs pp))) s else s in
  Ok (st <| soft := rx_emit (DeliverFrame (sk_id skb) (skb_frame skb) rxs) s |>))).

(** Joining the second part [skb] of a frame to the first one; [None] when
    there is no memory. *)
Definition join_frag (first skb : rx_skb) (st : rx_state) : outcome (option rx_skb * rx_state) :=
  let space := sk_len skb - skb_tailroom first in
  let '(ok, st) := allocate st in
  if negb ok then Ok (None, emit_rx (KfreeSkb (sk_id skb)) st)
  else
    match append_data (skb_frame skb) (expand_tail space first) with
    | None => Oops
    | Some first => Ok (Some first, emit_rx (KfreeSkb (sk_id skb)) (st <| frag := None |>))
    end.

(** The part of a round after the new skb [fresh] has been put into the buffer
    [bf]; [skb] is the received one. *)
Definition rx_frame (flush hp : bool) (bf : ath_rxbuf) (pp : preprocessed) (skb : rx_skb) (st : rx_state) : outcome rx_state :=
  let rs := pp_rs pp in
  match skb_put (rs_datalen rs + Z.of_nat rx_status_len) skb with
  | None => Oops
  | Some skb =>
      let skb := skb_pull rx_status_len skb in
      if negb (rs_more rs =? 0) then
        match frag st with
        | Some f => requeue flush hp bf (emit_rx (KfreeSkb (sk_id skb)) (emit_rx (KfreeSkb (sk_id f)) st) <| frag := None |>)
        | None => requeue flush hp bf (st <| frag := Some skb |>)
        end
      else
        let hdr_skb := default skb (frag st) in
        obind (ath9k_cmn_rx_skb_postprocess e (mem hdr_skb) (sk_len hdr_skb) rs (pp_rxs pp) (pp_decrypt_error pp)) (fun '(m, len, rxs) =>
        let hdr_skb := hdr_skb <| mem := m |> <| sk_len := len |> in
        match frag st with
        | None => obind (deliver pp rxs hdr_skb st) (requeue_drop_frag flush hp bf)
        | Some _ =>
            obind (join_frag hdr_skb skb (st <| frag := Some hdr_skb |>)) (fun '(joined, st) =>
            match joined with
            | None => requeue_drop_frag flush hp bf st
            | Some k => obind (deliver pp rxs k st) (requeue_drop_frag flush hp bf)
            end)
        end)
  end.

(** A round of the tasklet's loop. *)
Inductive rx_verdict := RxDone | RxSkipped | RxNext.

Definition rx_round (flush hp : bool) (tsf : Z) (st : rx_state) : outcome (rx_verdict * rx_state) :=
  obind (ath_edma_get_next_rx_buf (S (length (fifo hp st))) hp zero_rx_status st) (fun '(bf, rs, st) =>
  match bf with
  | None => Ok (RxDone, st)
  | Some bf =>
      match bf_mpdu bf with
      | None => Ok (RxSkipped, st)
      | Some skb =>
          let hdr_skb := default skb (frag st) in
          obind (ath9k_rx_skb_preprocess e tsf (mem hdr_skb) rs (soft st)) (fun '(pp, s) =>
          let st := st <| soft := s |> in
          if negb (pp_ok pp) then obind (requeue_drop_frag flush hp bf st) (fun st => Ok (RxNext, st))
          else
            let '(fresh, st) := alloc_skb st in
            match fresh with
            | None => obind (requeue_drop_frag flush hp bf st) (fun st => Ok (RxNext, st))
            | Some fresh =>
                obind (rx_frame flush hp (bf <| bf_mpdu := Some fresh |>) pp skb st) (fun st => Ok (RxNext, st))
            end)
      end
  end).

(** The loop ends when no finished buffer is left, or after 513 frames. *)
Fixpoint rx_loop (fuel budget : nat) (flush hp : bool) (tsf : Z) (st : rx_state) : outcome rx_state :=
  match fuel with
  | O => Oops
  | S fuel =>
      obind (rx_round flush hp tsf st) (fun '(v, st) =>
      match v with
      | RxDone => Ok st
      | RxSkipped => rx_loop fuel budget flush hp tsf st
      | RxNext => match budget with O => Ok st | S budget => rx_loop fuel budget flush hp tsf st end
      end)
  end.

Definition ath_rx_tasklet (flush hp : bool) (tsf : Z) (st : rx_state) : outcome rx_state :=
  obind (rx_loop (S (length (fifo hp st))) 512 flush hp tsf st) (fun st =>
  Ok (if negb (has (imask st) ATH9K_INT_RXEOL) then st <| imask ::= fun m => m .| (ATH9K_INT_RXEOL .| ATH9K_INT_RXORN) |> else st)).

(** * Start and stop *)

Definition ath_edma_start_recv (st : rx_state) : outcome rx_state :=
  obind (ath_rx_addbuffer_edma true st) (ath_rx_addbuffer_edma false).
Definition ath_edma_stop_recv (st : rx_state) : rx_state := ath_rx_remove_buffer false (ath_rx_remove_buffer true st).
Definition ath_flushrecv (tsf : Z) (st : rx_state) : outcome rx_state :=
  obind (ath_rx_tasklet true true tsf st) (ath_rx_tasklet true false tsf).
Definition ath_stoprecv (tsf : Z) (st : rx_state) : outcome rx_state :=
  obind (ath_flushrecv tsf st) (fun st => Ok (ath_edma_stop_recv st)).
End Rx.
