(* ===== verification/RxInv.v ===== *)
(** Safety of the receive path: whatever the hardware writes into its buffers
    and whichever allocations fail, the tasklet returns without a fault, and
    every buffer and every skb is accounted for. *)

From S2P Require Import Prelude KeyCache Desc RxFrame Rx.

(** * Accounts

    [inl]: the identity of an skb, [inr]: that of a buffer. *)
Abbreviation rx_item := (Z + Z)%type.

Definition skb_items (o : option rx_skb) : list rx_item := match o with Some k => [inl (sk_id k)] | None => [] end.
Definition buf_items (bf : ath_rxbuf) : list rx_item := inr (rb_id bf) :: skb_items (bf_mpdu bf).
(** An skb leaves the driver when it is delivered or freed. *)
Definition gone (ev : rx_event) : list rx_item :=
  match ev with DeliverFrame id _ _ | KfreeSkb id => [inl id] | _ => [] end.
Definition all_bufs (st : rx_state) : list ath_rxbuf := rxbuf st ++ fifo_hp st ++ fifo_lp st.
Definition rx_items (st : rx_state) : list rx_item :=
  (all_bufs st ≫= buf_items) ++ skb_items (frag st) ++ (rx_events (soft st) ≫= gone).

Definition buf_ok (bf : ath_rxbuf) : Prop :=
  exists k, bf_mpdu bf = Some k /\ length (mem k) = Z.to_nat rx_bufsize /\ sk_len k = 0.
Definition frag_ok (st : rx_state) : Prop :=
  forall f, frag st = Some f -> length (mem f) = (Z.to_nat rx_bufsize - rx_status_len)%nat /\ 0 <= sk_len f <= Z.of_nat (length (mem f)).

(** [K]: what the code holds in its variables. *)
Record rx_inv (N : Z) (K : list rx_item) (st : rx_state) : Prop := {
  ri_items : K ++ rx_items st ≡ₚ (inl <$> seqZ 0 (next_skb st)) ++ (inr <$> seqZ 0 N);
  ri_bufs : Forall buf_ok (all_bufs st);
  ri_next : 0 <= next_skb st;
  ri_hp : (length (fifo_hp st) <= ATH9K_HW_RX_HP_QDEPTH)%nat;
  ri_lp : (length (fifo_lp st) <= ATH9K_HW_RX_LP_QDEPTH)%nat;
}.

(** The buffers of a queue that the hardware has finished. *)
Definition finished (bf : ath_rxbuf) : bool :=
  match bf_mpdu bf with
  | Some k => negb (bool_decide (fst (process_rxdesc (mem k) zero_rx_status) = EINPROGRESS))
  | None => true
  end.
Definition ready (hp : bool) (st : rx_state) : nat := length (filter (fun bf => finished bf = true) (fifo hp st)).

Lemma rxdesc_errno m rs rs' : fst (process_rxdesc m rs) = fst (process_rxdesc m rs').
Proof.
  unfold process_rxdesc, ath9k_hw_process_rxdesc_edma. cbv zeta. destruct (negb (has _ _)); [done|]. destruct (negb _); [done|]. destruct (has _ _); [done|].
  by destruct (if negb _ then _ else _), (if negb _ then _ else _).
Qed.

Lemma rxdesc_datalen m rs : 0 <= rs_datalen rs -> 0 <= rs_datalen (snd (process_rxdesc m rs)).
Proof.
  intros H. unfold process_rxdesc, ath9k_hw_process_rxdesc_edma. cbv zeta. destruct (negb (has _ _)); [done|]. destruct (negb _); [done|].
  destruct (has _ _); [done|]. destruct (if negb _ then _ else _). cbn. apply Z.land_nonneg. by right.
Qed.

Lemma rxdesc_zero m : length m = Z.to_nat rx_bufsize ->
  fst (process_rxdesc (replicate rx_status_len 0 ++ drop rx_status_len m) zero_rx_status) = EINPROGRESS.
Proof. intros _. by vm_compute. Qed.

Lemma bind_nil {A B} (f : A -> list B) : [] ≫= f = [].
Proof. done. Qed.

Section Safe.
Context (N : Z).

Lemma seqZ_next n : 0 <= n -> (inl <$> seqZ 0 (Z.succ n) : list rx_item) ≡ₚ inl n :: (inl <$> seqZ 0 n).
Proof using. intros H. rewrite <- Z.add_1_r, seqZ_app by lia. rewrite fmap_app. cbn. rewrite Z.add_0_l. solve_Permutation. Qed.

Lemma fifo_set hp l st : fifo hp (set_fifo hp l st) = l.
Proof using. by destruct hp. Qed.

Lemma requeue_front K bf st : rx_inv N (buf_items bf ++ K) st -> buf_ok bf ->
  rx_inv N K (st <| rxbuf ::= fun l => l ++ [bf] |>).
Proof using.
  intros [H1 H2 H3 H4 H5] Hb. split; try done.
  - etrans; [|exact H1]. unfold rx_items, all_bufs. cbn. rewrite !bind_app, bind_cons, bind_nil. solve_Permutation.
  - unfold all_bufs in *. cbn. rewrite !Forall_app in *. naive_solver.
Qed.

Lemma take_front K hp bf l st : rx_inv N K st -> fifo hp st = bf :: l ->
  rx_inv N (buf_items bf ++ K) (set_fifo hp l st) /\ buf_ok bf.
Proof using.
  intros [H1 H2 H3 H4 H5] E. split.
  - split; [|..].
    + unfold rx_items, all_bufs in *. destruct hp; cbn in E |- *; (etrans; [|exact H1]); rewrite E, !bind_app, bind_cons; solve_Permutation.
    + unfold all_bufs in *. destruct hp; cbn in E |- *; rewrite E in H2; rewrite !Forall_app in *; rewrite Forall_cons in H2; naive_solver.
    + by destruct hp.
    + destruct hp; cbn in E |- *; [rewrite E in H4; cbn in H4; lia|done].
    + destruct hp; cbn in E |- *; [done|rewrite E in H5; cbn in H5; lia].
  - unfold all_bufs in H2. destruct hp; cbn in E; rewrite E in H2; rewrite !Forall_app, Forall_cons in H2; naive_solver.
Qed.

Lemma buf_link_inv K hp st : rx_inv N K st -> rxbuf st <> [] ->
  exists b st', ath_rx_edma_buf_link hp st = Ok (b, st') /\ rx_inv N K st' /\ ready hp st' = ready hp st /\
    frag st' = frag st /\ discard_next (soft st') = discard_next (soft st) /\
    (b = false -> st' = st) /\ (b = true -> length (rxbuf st) = S (length (rxbuf st'))).
Proof using.
  intros H Hne. unfold ath_rx_edma_buf_link. destruct (Nat.leb_spec (rx_fifo_hwsize hp) (length (fifo hp st))); [by exists false, st|].
  destruct (rxbuf st) as [|bf l] eqn:E; [done|]. destruct H as [H1 H2 H3 H4 H5].
  assert (buf_ok bf) as (k & Ek & Hk & Hz) by (unfold all_bufs in H2; rewrite E in H2; rewrite !Forall_app, Forall_cons in H2; naive_solver).
  rewrite Ek. set (k' := k <| mem ::= _ |>). set (bf' := bf <| bf_mpdu := Some k' |>).
  assert (buf_items bf' = buf_items bf) as Ei by (unfold buf_items; cbn; by rewrite Ek).
  assert (buf_ok bf') as Hb'.
  { exists k'. split; [done|]. split; [|done]. change (length (replicate rx_status_len 0 ++ drop rx_status_len (mem k)) = Z.to_nat rx_bufsize).
    by rewrite length_app, length_replicate, length_drop, Hk. }
  assert (finished bf' = false) as Hf.
  { change (finished bf') with (negb (bool_decide (fst (process_rxdesc (replicate rx_status_len 0 ++ drop rx_status_len (mem k)) zero_rx_status) = EINPROGRESS))).
    by rewrite bool_decide_eq_true_2 by by apply rxdesc_zero. }
  clearbody bf'. clear k'. eexists true, _. split; [done|]. unfold rx_fifo_hwsize in *.
  split; [|split; [|by destruct hp]].
  - split.
    + unfold rx_items, all_bufs, emit_rx, rx_emit in *. destruct hp; cbn; (etrans; [|exact H1]); rewrite E, !bind_app, !bind_cons, !bind_nil, Ei; solve_Permutation.
    + unfold all_bufs, emit_rx in *. rewrite E in H2. destruct hp; cbn; rewrite !Forall_app, ?Forall_cons in *; naive_solver.
    + by destruct hp.
    + destruct hp; cbn in *; rewrite ?length_app; cbn; lia.
    + destruct hp; cbn in *; rewrite ?length_app; cbn; lia.
  - unfold ready. rewrite fifo_set, filter_app, length_app. rewrite (filter_cons_False _ bf') by (by rewrite Hf). cbn. by destruct hp; cbn; lia.
Qed.

Lemma requeue_inv K flush hp bf st : rx_inv N (buf_items bf ++ K) st -> buf_ok bf ->
  exists st', requeue flush hp bf st = Ok st' /\ rx_inv N K st' /\ ready hp st' = ready hp st /\ frag st' = frag st /\
    discard_next (soft st') = discard_next (soft st).
Proof using.
  intros H Hb. unfold requeue. apply requeue_front in H; [|done]. set (st1 := st <| rxbuf ::= _ |>) in *.
  assert (ready hp st1 = ready hp st /\ frag st1 = frag st /\ soft st1 = soft st) as (E1 & E2 & E3) by (by destruct hp).
  destruct flush; cbn [negb]; [exists st1; by rewrite E3|].
  destruct (buf_link_inv K hp st1 H) as (b & st' & -> & H1 & H2 & H3 & H4 & _).
  { cbn. by destruct (rxbuf st). }
  exists st'. cbn [obind]. split_and!; congruence.
Qed.

(** * Fetching finished buffers *)

Lemma ready_tail hp bf l st : fifo hp st = bf :: l ->
  ready hp st = ((if finished bf then 1 else 0) + ready hp (set_fifo hp l st))%nat.
Proof using.
  intros E. unfold ready. rewrite E, fifo_set. destruct (finished bf) eqn:F.
  - by rewrite filter_cons_True.
  - by rewrite filter_cons_False by (by rewrite F).
Qed.

(** The discarding of a corrupt buffer. *)
Lemma skip_inv K hp bf l st : rx_inv N K st -> fifo hp st = bf :: l ->
  exists b st', ath_rx_edma_buf_link hp (set_fifo hp l st <| rxbuf ::= fun b => b ++ [bf] |>) = Ok (b, st') /\ rx_inv N K st' /\
    (ready hp st' + (if finished bf then 1 else 0) = ready hp st)%nat /\ frag st' = frag st /\ discard_next (soft st') = discard_next (soft st).
Proof using.
  intros H E. destruct (take_front K hp bf l st H E) as [H1 Hb]. apply requeue_front in H1; [|done].
  change (set_fifo hp l st <| rxbuf ::= fun b => b ++ [bf] |>) with (set_fifo hp l (st <| rxbuf ::= fun b => b ++ [bf] |>)).
  replace (set_fifo hp l st <| rxbuf ::= (fun l => l ++ [bf]) |>) with (set_fifo hp l (st <| rxbuf ::= fun b => b ++ [bf] |>)) in H1 by (by destruct hp).
  destruct (buf_link_inv K hp _ H1) as (b & st' & E1 & H2 & H3 & H4 & H5 & _); [by destruct hp; cbn; destruct (rxbuf st)|].
  exists b, st'. rewrite (ready_tail hp bf l st E), H3, H4, H5. split_and!; try done; destruct hp; cbn; try done; unfold ready; cbn; lia.
Qed.

Lemma get_buffers_inv hp rs st : rx_inv N [] st -> exists again dest rs' st',
  ath_edma_get_buffers hp rs st = Ok (again, dest, rs', st') /\ frag st' = frag st /\ discard_next (soft st') = discard_next (soft st) /\
  (0 <= rs_datalen rs -> 0 <= rs_datalen rs') /\
  match again, dest with
  | false, _ => dest = None /\ st' = st
  | true, None => rx_inv N [] st' /\ (ready hp st' < ready hp st)%nat
  | true, Some bf => rx_inv N (buf_items bf ++ []) st' /\ buf_ok bf /\ (ready hp st' < ready hp st)%nat
  end.
Proof using.
  intros H. unfold ath_edma_get_buffers. destruct (fifo hp st) as [|bf l] eqn:E; [by exists false, None, rs, st|].
  destruct (take_front [] hp bf l st H E) as [H1 Hb]. destruct Hb as (k & Ek & Hk). rewrite Ek.
  assert (finished bf = negb (bool_decide (fst (process_rxdesc (mem k) rs) = EINPROGRESS))) as Hf.
  { unfold finished. rewrite Ek. by rewrite (rxdesc_errno (mem k) zero_rx_status rs). }
  destruct (process_rxdesc (mem k) rs) as [ret rs'] eqn:Er. cbn [fst] in Hf.
  assert (ret <> EINPROGRESS -> finished bf = true) as Hfin by (intros Hn; rewrite Hf, bool_decide_eq_false_2; done).
  pose proof (ready_tail hp bf l st E) as Hr.
  assert (0 <= rs_datalen rs -> 0 <= rs_datalen rs') as Hd by (intros; replace rs' with (snd (process_rxdesc (mem k) rs)) by (by rewrite Er); by apply rxdesc_datalen).
  assert (ret <> EINPROGRESS -> exists again dest rs'' st', Ok (true, Some bf, rs', set_fifo hp l st) = Ok (again, dest, rs'', st') /\
      frag st' = frag st /\ discard_next (soft st') = discard_next (soft st) /\ (0 <= rs_datalen rs -> 0 <= rs_datalen rs'') /\
      match again, dest with
      | false, _ => dest = None /\ st' = st
      | true, None => rx_inv N [] st' /\ (ready hp st' < ready hp st)%nat
      | true, Some bf => rx_inv N (buf_items bf ++ []) st' /\ buf_ok bf /\ (ready hp st' < ready hp st)%nat
      end) as Htake.
  { intros Hn. exists true, (Some bf), rs', (set_fifo hp l st). rewrite Hfin in Hr by done. split_and!; [done|by destruct hp|by destruct hp|done|done|by exists k|lia]. }
  destruct ret; try by apply Htake.
  - by exists false, None, rs', st.
  - destruct (skip_inv [] hp bf l st H E) as (b & st2 & -> & H2 & H3 & H4 & H5). cbn [obind]. rewrite Hfin in H3 by done.
    destruct (fifo hp st2) as [|bf2 l2] eqn:E2.
    { exists true, None, rs', st2. split_and!; try done. lia. }
    destruct (skip_inv [] hp bf2 l2 st2 H2 E2) as (b2 & st3 & -> & H6 & H7 & H8 & H9). cbn [obind].
    exists true, None, rs', st3. split_and!; try congruence; try done. destruct (finished bf2); lia.
Qed.

Lemma get_next_inv fuel hp : forall rs st, rx_inv N [] st -> (ready hp st < fuel)%nat -> exists dest rs' st',
  ath_edma_get_next_rx_buf fuel hp rs st = Ok (dest, rs', st') /\ frag st' = frag st /\ discard_next (soft st') = discard_next (soft st) /\
  (0 <= rs_datalen rs -> 0 <= rs_datalen rs') /\
  match dest with
  | None => rx_inv N [] st'
  | Some bf => rx_inv N (buf_items bf ++ []) st' /\ buf_ok bf /\ (ready hp st' < ready hp st)%nat
  end.
Proof using.
  induction fuel as [|fuel IH]; intros rs st H Hf; [lia|]. cbn [ath_edma_get_next_rx_buf].
  destruct (get_buffers_inv hp rs st H) as (again & dest & rs1 & st1 & -> & E1 & E2 & Hd & H1). cbn [obind].
  destruct again; cbn [negb]; [|destruct H1 as [-> ->]; by exists None, rs1, st].
  destruct dest as [bf|]; [by exists (Some bf), rs1, st1|]. destruct H1 as [H1 Hr].
  destruct (IH rs1 st1 H1) as (dest & rs2 & st2 & -> & E3 & E4 & Hd2 & H2); [lia|]. exists dest, rs2, st2. split; [done|].
  split; [congruence|]. split; [congruence|]. split; [auto|]. destruct dest as [bf|]; [|done]. destruct H2 as (H2 & H3 & H4). split_and!; try done. lia.
Qed.
End Safe.

(** * The treatment of a frame does not fault *)

Lemma tim_loop_total fuel : forall l, (length l < fuel)%nat -> exists b, tim_loop fuel l = Ok b.
Proof.
  induction fuel as [|fuel IH]; intros l H; [lia|]. cbn [tim_loop]. destruct l as [|id [|elen [|x l]]]; try by eexists.
  destruct (Z.ltb_spec (Z.of_nat (length (x :: l))) elen) as [|Hle]; [by eexists|]. destruct (id =? WLAN_EID_TIM).
  - destruct (Z.ltb_spec elen 4) as [|H4]; [by eexists|]. cbn in Hle. destruct l as [|y [|z l]]; cbn in Hle; [lia|lia|].
    destruct (negb _); by eexists.
  - apply IH. rewrite length_drop. cbn in H |- *. lia.
Qed.

Lemma dtim_pending_total frame : exists b, ath_beacon_dtim_pending_cab frame = Ok b.
Proof. apply tim_loop_total. lia. Qed.

(** No event of these parts concerns an skb. *)
Definition keeps_gone (s s' : rx_soft) : Prop := (rx_events s' ≫= gone) = (rx_events s ≫= gone).
Lemma emit_keeps ev s : gone ev = [] -> keeps_gone s (rx_emit ev s).
Proof. intros E. unfold keeps_gone, rx_emit. cbn. rewrite bind_app, bind_cons, bind_nil, E. by rewrite !app_nil_r. Qed.

Section Frame.
Context (e : rx_env) (hdrlen_nonneg : forall fc, 0 <= ieee80211_hdrlen e fc).

Lemma rx_ps_total frame hdr b s : exists s', ath_rx_ps e frame hdr b s = Ok s' /\ keeps_gone s s'.
Proof using.
  unfold ath_rx_ps. destruct (_ && b).
  - unfold ath_rx_ps_beacon. destruct (_ <? _)%nat; [by exists s|]. cbv zeta. set (s1 := s <| ps_flags ::= _ |>).
    match goal with |- context [if has (ps_flags s1) PS_BEACON_SYNC then ?x else s1] => set (s2 := if has (ps_flags s1) PS_BEACON_SYNC then x else s1) end.
    assert (keeps_gone s s2) as Hk.
    { subst s2. destruct (has _ _); [|done]. destruct (_ =? _); [done|]. etrans; [by apply (emit_keeps SetBeacon)|done]. }
    clearbody s2. destruct (dtim_pending_total frame) as [pend ->]. cbn [obind]. destruct pend; [by eexists|]. destruct (has _ _); by eexists.
  - destruct (_ && _ && _ && _); [by eexists|]. destruct (_ && _ && _); by eexists.
Qed.

Lemma read_hdr_total off m : (off + 24 <= length m)%nat -> exists hdr, read_hdr off m = Ok hdr.
Proof using. intros H. unfold read_hdr. rewrite (proj2 (Nat.ltb_ge _ _)) by lia. by eexists. Qed.

Lemma rx_accept_keeps hdr rxs rs ok d rxs' rs' : ath9k_cmn_rx_accept e hdr rxs rs = (ok, d, rxs', rs') ->
  rs_datalen rs' = rs_datalen rs /\ rs_more rs' = rs_more rs.
Proof using.
  unfold ath9k_cmn_rx_accept. cbv zeta. set (rs1 := if _ || _ then _ else rs).
  assert (rs_datalen rs1 = rs_datalen rs /\ rs_more rs1 = rs_more rs) as H by (subst rs1; by destruct (_ || _)). clearbody rs1.
  destruct (negb (clr _ _ =? 0)); by intros [= _ _ _ <-].
Qed.

Lemma process_rssi_keeps b rs rxs s rxs' s' : ath9k_cmn_process_rssi e b rs rxs s = (rxs', s') ->
  rx_events s' = rx_events s /\ discard_next s' = discard_next s.
Proof using.
  unfold ath9k_cmn_process_rssi. destruct (negb _); [by intros [= _ <-]|]. destruct (_ =? _); [by intros [= _ <-]|].
  destruct (rs_rssi_ctl rs) as [[r0 r1] r2]. destruct (_ && _); by intros [= _ <-].
Qed.

Lemma preprocess_total tsf m rs s : (rx_status_len + 24 <= length m)%nat -> 0 <= rs_datalen rs ->
  exists pp s', ath9k_rx_skb_preprocess e tsf m rs s = Ok (pp, s') /\ keeps_gone s s' /\
    (pp_ok pp = true -> 0 < rs_datalen (pp_rs pp) <= rx_bufsize - Z.of_nat rx_status_len).
Proof using.
  intros Hm Hd. unfold ath9k_rx_skb_preprocess. destruct (discard_next s); [by eexists _, _|]. cbv zeta.
  destruct (Z.eqb_spec (rs_datalen rs) 0); [by eexists _, _|]. destruct (Z.ltb_spec (rx_bufsize - Z.of_nat rx_status_len) (rs_datalen rs)); [by eexists _, _|].
  destruct (negb _); [eexists _, _; split; [done|]; split; [done|]; cbn; lia|]. destruct (has _ _); [by eexists _, _|].
  destruct (has _ _). { eexists _, _. split; [done|]. split; [|done]. etrans; [by apply emit_keeps|done]. }
  destruct (read_hdr_total rx_status_len m Hm) as [hdr ->]. cbn [obind]. set (s1 := s <| discard_next := false |>).
  match goal with |- context [ath9k_cmn_rx_accept e hdr ?r rs] => destruct (ath9k_cmn_rx_accept e hdr r rs) as [[[ok d] rxs] rs1] eqn:E end.
  apply rx_accept_keeps in E as [Ed _]. destruct ok; cbn [negb]; [|by eexists _, _].
  destruct (ath9k_cmn_process_rate _ _ _) as [rxs1|]; [|by eexists _, _].
  destruct (ath9k_cmn_process_rssi e (ath_is_mybeacon e hdr) rs1 rxs1 s1) as [rxs2 s2] eqn:E2. apply process_rssi_keeps in E2 as [E2 _].
  eexists _, _. split; [done|]. split; [unfold keeps_gone; by rewrite E2|]. cbn [pp_ok pp_rs]. lia.
Qed.

Lemma memmove_up_length off n m : (off + n <= length m)%nat -> length (memmove_up off n m) = length m.
Proof using. intros H. unfold memmove_up. rewrite !length_app, !length_take, length_drop. lia. Qed.

Lemma postprocess_total m len rs rxs d : (24 <= length m)%nat -> 0 <= len <= Z.of_nat (length m) ->
  exists m' len' rxs', ath9k_cmn_rx_skb_postprocess e m len rs rxs d = Ok (m', len', rxs') /\ 0 <= len' <= Z.of_nat (length m') /\
    (length m <= length m' + 3)%nat.
Proof using hdrlen_nonneg.
  intros Hm Hl. unfold ath9k_cmn_rx_skb_postprocess. destruct (read_hdr_total 0 m) as [hdr ->]; [lia|]. cbn [obind]. cbv zeta.
  set (padpos := ieee80211_hdrlen e _). pose proof (hdrlen_nonneg (frame_control hdr)) as Hp. fold padpos in Hp.
  assert (0 <= padpos .& 3 <= 3) as Hs by (change 3 with (Z.ones 2) at 1 2; rewrite Z.land_ones by lia; pose proof (Z.mod_pos_bound padpos (2 ^ 2)); lia).
  set (padsize := padpos .& 3) in *. clearbody padsize padpos.
  match goal with |- context [let '(_, _) := ?x in _] => assert (exists m1 len1, x = (m1, len1) /\ 0 <= len1 <= Z.of_nat (length m1) /\ (length m <= length m1 + 3)%nat) as (m1 & len1 & -> & H1 & H2) end.
  { destruct (_ && _) eqn:E; [|exists m, len; split; [done|]; lia]. ztest. unfold FCS_LEN in *. eexists _, _. split; [done|].
    rewrite length_drop, memmove_up_length by lia. lia. }
  match goal with |- context [obind ?x _] => assert (exists rxs1, x = Ok rxs1) as [rxs1 ->] end.
  { destruct (_ && _ && _); [by eexists|]. destruct (_ && _ && _) eqn:E; [|by eexists]. ztest.
    set (h := ieee80211_get_hdrlen_from_skb e _) in *. destruct (lookup_lt_is_Some_2 m1 (Z.to_nat (h + 3))) as [b ->]; [|destruct (keymap_bit _ _); by eexists].
    destruct (decide (0 <= h + 3)); lia. }
  cbn [obind]. eexists _, _, _. split; [done|]. done.
Qed.
End Frame.

(** * The tasklet *)

Section Tasklet.
Context (e : rx_env) (junk : Z -> Z -> Z) (N : Z) (hdrlen_nonneg : forall fc, 0 <= ieee80211_hdrlen e fc).

(** [st'] has the same buffers in the same places. *)
Definition same_bufs (st st' : rx_state) : Prop :=
  rxbuf st' = rxbuf st /\ fifo_hp st' = fifo_hp st /\ fifo_lp st' = fifo_lp st.
Lemma same_ready st st' hp : same_bufs st st' -> ready hp st' = ready hp st.
Proof using. intros (H1 & H2 & H3). unfold ready, fifo. destruct hp; by rewrite ?H2, ?H3. Qed.

Lemma inv_items K K' st st' : rx_inv N K st -> same_bufs st st' -> next_skb st' = next_skb st ->
  K' ++ skb_items (frag st') ++ (rx_events (soft st') ≫= gone) ≡ₚ K ++ skb_items (frag st) ++ (rx_events (soft st) ≫= gone) ->
  rx_inv N K' st'.
Proof using.
  intros [H1 H2 H3 H4 H5] (B1 & B2 & B3) En HK.
  assert (all_bufs st' = all_bufs st) as Ea by (unfold all_bufs; by rewrite B1, B2, B3).
  split; rewrite ?Ea, ?En, ?B2, ?B3; try done. rewrite <- H1. unfold rx_items. rewrite Ea.
  set (b := all_bufs st ≫= buf_items). transitivity (b ++ (K' ++ skb_items (frag st') ++ (rx_events (soft st') ≫= gone))); [solve_Permutation|].
  rewrite HK. solve_Permutation.
Qed.

Lemma soft_inv K st s : rx_inv N K st -> keeps_gone (soft st) s -> rx_inv N K (st <| soft := s |>).
Proof using. intros H Hk. eapply inv_items; [exact H|done|done|]. cbn. by rewrite Hk. Qed.

Lemma free_inv K st id : rx_inv N (inl id :: K) st -> rx_inv N K (emit_rx (KfreeSkb id) st).
Proof using. intros H. eapply inv_items; [exact H|done|done|]. cbn. rewrite bind_app, bind_cons, bind_nil. cbn. solve_Permutation. Qed.

Lemma allocate_inv K st : rx_inv N K st -> exists ok st', allocate st = (ok, st') /\ rx_inv N K st' /\ same_bufs st st' /\
  frag st' = frag st /\ soft st' = soft st /\ next_skb st' = next_skb st.
Proof using.
  intros H. unfold allocate. destruct (rx_faults st) as [|b l]; [by exists true, st|]. eexists _, _. split; [done|].
  split; [|done]. eapply inv_items; [exact H|done|done|done].
Qed.

Lemma alloc_skb_inv K st : rx_inv N K st -> exists r st', alloc_skb junk st = (r, st') /\ same_bufs st st' /\ frag st' = frag st /\
  match r with
  | None => rx_inv N K st'
  | Some k => rx_inv N (inl (sk_id k) :: K) st' /\ length (mem k) = Z.to_nat rx_bufsize /\ sk_len k = 0
  end.
Proof using.
  intros H. unfold alloc_skb. destruct (allocate_inv K st H) as (ok & st1 & -> & H1 & B1 & F1 & S1 & N1). destruct ok; cbn [negb]; [|by exists None, st1].
  set (k := new_skb junk (next_skb st1)). set (st2 := st1 <| next_skb ::= Z.succ |>).
  assert (rx_inv N (inl (sk_id k) :: K) st2) as H2.
  { destruct H1 as [I1 I2 I3 I4 I5]. split; try done; [|cbn; lia]. change (next_skb st2) with (Z.succ (next_skb st1)).
    rewrite (seqZ_next (next_skb st1)) by done. cbn [app]. rewrite <- I1. done. }
  destruct (allocate_inv _ st2 H2) as (ok & st3 & -> & H3 & B3 & F3 & S3 & N3).
  assert (same_bufs st st3) as B by (destruct B1 as (? & ? & ?), B3 as (? & ? & ?); by split_and!; etrans).
  assert (frag st3 = frag st) as F by (by rewrite F3, <- F1).
  destruct ok; cbn [negb].
  - exists (Some k), st3. by split_and!.
  - eexists None, _. split; [done|]. split; [done|]. split; [done|]. by apply free_inv.
Qed.

Lemma deliver_inv K pp rxs k st : rx_inv N (inl (sk_id k) :: K) st -> (24 <= length (mem k))%nat ->
  exists st', deliver e pp rxs k st = Ok st' /\ rx_inv N K st' /\ same_bufs st st' /\ frag st' = frag st.
Proof using.
  intros H Hm. unfold deliver. set (k' := if has _ _ then _ else k).
  assert (sk_id k' = sk_id k /\ mem k' = mem k) as [Ei Em] by (subst k'; destruct (has _ _); [|done]; unfold skb_trim; by destruct (_ && _)).
  clearbody k'. cbv zeta. rewrite Em. destruct (read_hdr_total 0 (mem k)) as [hdr ->]; [lia|]. cbn [obind].
  match goal with |- context [obind ?x _] => assert (exists s1, x = Ok s1 /\ keeps_gone (soft st) s1) as (s1 & -> & Hk) end.
  { destruct (_ || _); [|by eexists]. apply rx_ps_total. }
  cbn [obind]. destruct (ath9k_apply_ampdu_details (pp_rs pp) rxs s1) as [rxs2 s2] eqn:E2.
  assert (rx_events s2 = rx_events s1) as Ev.
  { unfold ath9k_apply_ampdu_details in E2. destruct (negb _); [|by injection E2 as _ <-]. destruct (_ =? _); by injection E2 as _ <-. }
  set (s3 := if ieee80211_is_ack _ then _ else s2).
  assert (keeps_gone (soft st) s3) as Hk3.
  { unfold keeps_gone in *. rewrite <- Hk, <- Ev. subst s3. destruct (ieee80211_is_ack _); [|done]. by apply emit_keeps. }
  clearbody s3. eexists. split; [done|]. split; [|done]. eapply inv_items; [exact H|done|done|]. cbn. rewrite bind_app, bind_cons, bind_nil, Hk3. cbn.
  rewrite Ei. solve_Permutation.
Qed.

Lemma join_frag_inv K first skb st : rx_inv N (inl (sk_id skb) :: K) st -> frag st = Some first ->
  0 <= sk_len first <= Z.of_nat (length (mem first)) -> 0 <= sk_len skb <= Z.of_nat (length (mem skb)) ->
  exists r st', join_frag first skb st = Ok (r, st') /\ same_bufs st st' /\
    match r with
    | None => rx_inv N K st' /\ frag st' = Some first
    | Some k => rx_inv N (inl (sk_id k) :: K) st' /\ frag st' = None /\ (length (mem first) <= length (mem k))%nat
    end.
Proof using.
  intros H Ef Hf Hs. unfold join_frag. cbv zeta. destruct (allocate_inv _ st H) as (ok & st1 & -> & H1 & B1 & F1 & S1 & N1).
  destruct ok; cbn [negb].
  - set (space := sk_len skb - skb_tailroom first). unfold append_data, skb_put, expand_tail. cbn [mem sk_len upd].
    assert (Z.of_nat (length (skb_frame skb)) = sk_len skb) as El by (unfold skb_frame; rewrite length_take; lia).
    rewrite length_app, length_replicate, El. unfold skb_tailroom in space. rewrite (proj2 (Z.ltb_ge _ _)) by lia.
    eexists _, _. split; [done|]. split; [done|]. split; [|split; [done|]].
    + eapply inv_items; [exact H1|done|done|]. cbn. rewrite F1, Ef, bind_app, bind_cons, bind_nil. cbn. solve_Permutation.
    + cbn. rewrite !length_app, length_take, length_drop, !length_app, length_replicate. lia.
  - eexists None, _. split; [done|]. split; [done|]. split; [by apply free_inv|]. cbn. congruence.
Qed.

Lemma drop_frag_inv K st : rx_inv N K st -> rx_inv N K (drop_frag st) /\ frag (drop_frag st) = None /\ same_bufs st (drop_frag st).
Proof using.
  intros H. unfold drop_frag. destruct (frag st) as [f|] eqn:E; [|done]. split; [|done]. eapply inv_items; [exact H|done|done|]. cbn.
  rewrite E, bind_app, bind_cons, bind_nil. cbn. solve_Permutation.
Qed.

(** What a round leaves behind. *)
Definition round_ok (hp : bool) (n : nat) (st : rx_state) : Prop := rx_inv N [] st /\ frag_ok st /\ ready hp st = n.

Lemma frag_ok_eq st st' : frag st' = frag st -> frag_ok st -> frag_ok st'.
Proof using. intros E H f. rewrite E. apply H. Qed.

Lemma requeue_round flush hp bf st : rx_inv N (buf_items bf ++ []) st -> buf_ok bf -> frag_ok st ->
  exists st', requeue flush hp bf st = Ok st' /\ round_ok hp (ready hp st) st'.
Proof using.
  intros H Hb Hf. destruct (requeue_inv N [] flush hp bf st H Hb) as (st' & -> & H1 & H2 & H3 & _). exists st'. split; [done|].
  split; [done|]. split; [by eapply frag_ok_eq|done].
Qed.

Lemma requeue_drop_round flush hp bf st : rx_inv N (buf_items bf ++ []) st -> buf_ok bf ->
  exists st', requeue_drop_frag flush hp bf st = Ok st' /\ round_ok hp (ready hp st) st'.
Proof using.
  intros H Hb. unfold requeue_drop_frag. destruct (drop_frag_inv _ st H) as (H1 & H2 & H3). rewrite <- (same_ready _ _ hp H3).
  apply requeue_round; [done|done|]. intros f. by rewrite H2.
Qed.


Lemma inv_perm K K' st : rx_inv N K st -> K' ≡ₚ K -> rx_inv N K' st.
Proof using. intros H HK. eapply inv_items; [exact H|done|done|]. by rewrite HK. Qed.

Lemma rx_frame_round flush hp bf pp skb st :
  rx_inv N (buf_items bf ++ [inl (sk_id skb)]) st -> buf_ok bf -> frag_ok st -> length (mem skb) = Z.to_nat rx_bufsize -> sk_len skb = 0 ->
  0 < rs_datalen (pp_rs pp) <= rx_bufsize - Z.of_nat rx_status_len ->
  exists st', rx_frame e flush hp bf pp skb st = Ok st' /\ round_ok hp (ready hp st) st'.
Proof using hdrlen_nonneg.
  intros H Hb Hf Hm Hz Hd. unfold rx_frame, skb_put. cbv zeta. rewrite Hm, Hz, (proj2 (Z.ltb_ge _ _)) by (unfold rx_status_len in *; lia).
  set (k := skb_pull rx_status_len _).
  assert (sk_id k = sk_id skb /\ length (mem k) = (Z.to_nat rx_bufsize - rx_status_len)%nat /\ sk_len k = rs_datalen (pp_rs pp)) as (Ek & Hk & Hkl).
  { subst k. unfold skb_pull. cbn [sk_len upd]. rewrite Hz, (proj2 (Z.ltb_ge _ _)) by lia. cbn [sk_id mem sk_len upd].
    rewrite length_drop, Hm. split_and!; try done. lia. }
  clearbody k. assert (Z.of_nat (length (mem k)) = 1926) as Hk1 by (rewrite Hk; done). assert (rx_bufsize - Z.of_nat rx_status_len = 1926) as Hbs by done.
  rewrite <- Ek in H. destruct (negb (rs_more (pp_rs pp) =? 0)).
  - destruct (frag st) as [f|] eqn:Ef.
    + match goal with |- context [requeue _ _ _ ?x] => set (st1 := x) end.
      assert (rx_inv N (buf_items bf ++ []) st1 /\ same_bufs st st1 /\ frag st1 = None) as (H1 & B & F1).
      { split; [|done]. eapply inv_items; [exact H|done|done|]. cbn. rewrite Ef, !bind_app, !bind_cons, !bind_nil. cbn. solve_Permutation. }
      rewrite <- (same_ready _ _ hp B). clearbody st1. apply requeue_round; [done|done|]. intros f'. by rewrite F1.
    + rewrite <- (same_ready st (st <| frag := Some k |>) hp) by done. apply requeue_round; [|done|].
      * eapply inv_items; [exact H|done|done|]. cbn. rewrite Ef. cbn. solve_Permutation.
      * intros f [= <-]. split; [done|]. rewrite Hkl. lia.
  - destruct (frag st) as [f|] eqn:Ef; cbn [default from_option id].
    + destruct (Hf f Ef) as [Hfm Hfl]. assert (Z.of_nat (length (mem f)) = 1926) as Hf1 by (rewrite Hfm; done).
      destruct (postprocess_total e hdrlen_nonneg (mem f) (sk_len f) (pp_rs pp) (pp_rxs pp) (pp_decrypt_error pp)) as (m & len & rxs & -> & Hl & Hlm); [lia|done|].
      cbn [obind]. set (first := f <| mem := m |> <| sk_len := len |>). set (st1 := st <| frag := Some first |>).
      assert (rx_inv N (inl (sk_id k) :: buf_items bf ++ []) st1) as H1.
      { eapply inv_items; [exact H|done|done|]. cbn. rewrite Ef. cbn. solve_Permutation. }
      destruct (join_frag_inv _ first k st1 H1 eq_refl Hl) as (r & st2 & -> & B2 & H2); [lia|]. cbn [obind].
      rewrite <- (same_ready st st1 hp) by done. rewrite <- (same_ready _ _ hp B2). destruct r as [j|].
      * destruct H2 as (H2 & F2 & Hj). cbn in Hj. destruct (deliver_inv _ pp rxs j st2 H2) as (st3 & -> & H3 & B3 & F3); [lia|]. cbn [obind].
        rewrite <- (same_ready _ _ hp B3). by apply requeue_drop_round.
      * destruct H2 as [H2 F2]. by apply requeue_drop_round.
    + destruct (postprocess_total e hdrlen_nonneg (mem k) (sk_len k) (pp_rs pp) (pp_rxs pp) (pp_decrypt_error pp)) as (m & len & rxs & -> & Hl & Hlm); [lia|lia|].
      cbn [obind]. set (k1 := k <| mem := m |> <| sk_len := len |>).
      assert (rx_inv N (inl (sk_id k1) :: buf_items bf ++ []) st) as H1 by (eapply inv_perm; [exact H|]; cbn; solve_Permutation).
      destruct (deliver_inv _ pp rxs k1 st H1) as (st3 & -> & H3 & B3 & F3); [cbn; lia|]. cbn [obind].
      rewrite <- (same_ready _ _ hp B3). by apply requeue_drop_round.
Qed.

Lemma rx_round_inv flush hp tsf st : rx_inv N [] st -> frag_ok st -> exists v st', rx_round e junk flush hp tsf st = Ok (v, st') /\
  rx_inv N [] st' /\ frag_ok st' /\ v <> RxSkipped /\ (v = RxNext -> (ready hp st' < ready hp st)%nat).
Proof using hdrlen_nonneg.
  intros H Hf. unfold rx_round.
  destruct (get_next_inv N (S (length (fifo hp st))) hp zero_rx_status st H) as (dest & rs & st1 & -> & F1 & _ & Hd & H1).
  { unfold ready. pose proof (length_filter (fun bf => finished bf = true) (fifo hp st)). lia. }
  cbn [obind]. specialize (Hd ltac:(done)). destruct dest as [bf|]; [|exists RxDone, st1; split_and!; try done; by eapply frag_ok_eq].
  destruct H1 as (H1 & (k & Ek & Hk & Hz) & Hr). rewrite Ek. assert (frag_ok st1) as Hf1 by by eapply frag_ok_eq. cbv zeta.
  destruct (preprocess_total e tsf (mem (default k (frag st1))) rs (soft st1)) as (pp & s & -> & Hkeep & Hpp); [|done|].
  { destruct (frag st1) as [f|] eqn:E; cbn; [rewrite (proj1 (Hf1 f E))|rewrite Hk]; apply Nat.leb_le; by vm_compute. }
  cbn [obind]. set (st2 := st1 <| soft := s |>). assert (rx_inv N (buf_items bf ++ []) st2) as H2 by by apply soft_inv.
  assert (ready hp st2 = ready hp st1) as Hr2 by (by apply same_ready). assert (frag_ok st2) as Hf2 by done.
  assert (forall st3, rx_inv N (buf_items bf ++ []) st3 -> same_bufs st2 st3 -> exists v st', obind (requeue_drop_frag flush hp bf st3) (fun st => Ok (RxNext, st)) = Ok (v, st') /\
    rx_inv N [] st' /\ frag_ok st' /\ v <> RxSkipped /\ (v = RxNext -> (ready hp st' < ready hp st)%nat)) as Hdrop.
  { intros st3 H3 B3. destruct (requeue_drop_round flush hp bf st3 H3) as (st4 & -> & R1 & R2 & R3); [by exists k|]. rewrite (same_ready _ _ hp B3) in R3.
    exists RxNext, st4. cbn [obind]. split_and!; try done. intros _. lia. }
  destruct (pp_ok pp) eqn:Ep; cbn [negb]; [|by apply Hdrop].
  destruct (alloc_skb_inv _ st2 H2) as (r & st3 & -> & B3 & F3 & H3). destruct r as [fresh|]; [|by apply Hdrop].
  destruct H3 as (H3 & Hfm & Hfz).
  destruct (rx_frame_round flush hp (bf <| bf_mpdu := Some fresh |>) pp k st3) as (st4 & -> & R1 & R2 & R3); try done.
  - eapply inv_perm; [exact H3|]. unfold buf_items. cbn. rewrite Ek. cbn. solve_Permutation.
  - by exists fresh.
  - eapply frag_ok_eq; [|exact Hf2]. done.
  - by apply Hpp.
  - rewrite (same_ready _ _ hp B3) in R3. exists RxNext, st4. cbn [obind]. split_and!; try done. intros _. lia.
Qed.

Lemma rx_loop_inv flush hp tsf fuel : forall budget st, rx_inv N [] st -> frag_ok st -> (ready hp st < fuel)%nat ->
  exists st', rx_loop e junk fuel budget flush hp tsf st = Ok st' /\ rx_inv N [] st' /\ frag_ok st'.
Proof using hdrlen_nonneg.
  induction fuel as [|fuel IH]; intros budget st H Hf Hr; [lia|]. cbn [rx_loop].
  destruct (rx_round_inv flush hp tsf st H Hf) as (v & st1 & -> & H1 & Hf1 & Hv & Hn). cbn [obind].
  destruct v; [by exists st1|done|]. specialize (Hn eq_refl). destruct budget as [|budget]; [by exists st1|]. apply IH; [done|done|lia].
Qed.

Lemma tasklet_inv flush hp tsf st : rx_inv N [] st -> frag_ok st ->
  exists st', ath_rx_tasklet e junk flush hp tsf st = Ok st' /\ rx_inv N [] st' /\ frag_ok st'.
Proof using hdrlen_nonneg.
  intros H Hf. unfold ath_rx_tasklet. destruct (rx_loop_inv flush hp tsf (S (length (fifo hp st))) 512 st H Hf) as (st1 & -> & H1 & Hf1).
  { unfold ready. pose proof (length_filter (fun bf => finished bf = true) (fifo hp st)). lia. }
  cbn [obind]. eexists. split; [done|]. destruct (negb _); [|done]. split; [|done]. eapply inv_items; [exact H1|done..].
Qed.
End Tasklet.

(** * Sequences of operations

    [HwWrite]: the hardware writes [m] into the [i]-th buffer of a queue;
    [SetFaults]: which allocations fail from now on. *)
Inductive rx_op :=
  | HwWrite (hp : bool) (i : nat) (m : list Z)
  | SetFaults (l : list bool)
  | Tasklet (flush hp : bool) (tsf : Z)
  | StartRecv
  | StopRecv (tsf : Z).

Definition hw_write (m : list Z) (bf : ath_rxbuf) : ath_rxbuf :=
  bf <| bf_mpdu ::= fmap (fun k => k <| mem ::= fun old => take (length old) m ++ drop (length m) old |>) |>.

Definition rx_exec (e : rx_env) (junk : Z -> Z -> Z) (o : rx_op) (st : rx_state) : outcome rx_state :=
  match o with
  | HwWrite hp i m => Ok (set_fifo hp (alter (hw_write m) i (fifo hp st)) st)
  | SetFaults l => Ok (st <| rx_faults := l |>)
  | Tasklet flush hp tsf => ath_rx_tasklet e junk flush hp tsf st
  | StartRecv => ath_edma_start_recv st
  | StopRecv tsf => ath_stoprecv e junk tsf st
  end.

Fixpoint rx_run (e : rx_env) (junk : Z -> Z -> Z) (l : list rx_op) (st : rx_state) : outcome rx_state :=
  match l with
  | [] => Ok st
  | o :: l => obind (rx_exec e junk o st) (rx_run e junk l)
  end.

(** Before [ath_rx_init]. *)
Definition rx_start (faults : list bool) : rx_state :=
  {| rxbuf := []; fifo_hp := []; fifo_lp := []; frag := None;
     soft := {| discard_next := false; ampdu_ref := 0; ps_flags := 0; last_rssi := ATH_RSSI_DUMMY_MARKER; avgbrssi := 0; rx_events := [] |};
     next_skb := 0; rx_faults := faults; imask := 0 |}.

Lemma hw_write_items m bf : buf_items (hw_write m bf) = buf_items bf.
Proof. unfold buf_items, hw_write. cbn. by destruct (bf_mpdu bf). Qed.
Lemma hw_write_ok m bf : buf_ok bf -> buf_ok (hw_write m bf).
Proof.
  intros (k & Ek & Hk & Hz). eexists. unfold hw_write. cbn. rewrite Ek. split; [done|]. split; [|done]. cbn.
  rewrite length_app, length_take, length_drop. lia.
Qed.

Lemma alter_items m i l : (alter (hw_write m) i l ≫= buf_items) = (l ≫= buf_items).
Proof.
  revert i. induction l as [|bf l IH]; intros i; [done|]. destruct i as [|i]; cbn [alter list_alter]; rewrite !bind_cons.
  - by rewrite hw_write_items.
  - f_equal. apply IH.
Qed.
Lemma alter_ok m i l : Forall buf_ok l -> Forall buf_ok (alter (hw_write m) i l).
Proof.
  intros H. apply Forall_alter; [done|]. intros bf _ Hb. by apply hw_write_ok.
Qed.

Lemma set_fifo_inv N K hp l st : rx_inv N K st -> (l ≫= buf_items) = (fifo hp st ≫= buf_items) -> Forall buf_ok l ->
  length l = length (fifo hp st) -> rx_inv N K (set_fifo hp l st).
Proof.
  intros [H1 H2 H3 H4 H5] Hi Hl Hn. destruct hp; split; try done; unfold rx_items, all_bufs in *; cbn in Hi, Hn |- *;
    rewrite ?bind_app, ?Hi, <- ?bind_app, ?Hn; try done; rewrite !Forall_app in *; tauto.
Qed.

Lemma addbuffer_inv N hp n : forall st, rx_inv N [] st -> (n <= length (rxbuf st))%nat ->
  exists st', addbuffer_loop hp n st = Ok st' /\ rx_inv N [] st' /\ frag st' = frag st.
Proof.
  induction n as [|n IH]; intros st H Hn; [by exists st|]. cbn [addbuffer_loop].
  destruct (buf_link_inv N [] hp st H) as (b & st1 & -> & H1 & _ & F1 & _ & _ & Hb); [intros E0; rewrite E0 in Hn; cbn in Hn; lia|]. cbn [obind].
  destruct b; [|by exists st1]. specialize (Hb eq_refl). destruct (IH st1 H1) as (st2 & -> & H2 & F2); [lia|]. exists st2. split_and!; [done|done|congruence].
Qed.
Lemma add_all_inv N hp st : rx_inv N [] st -> exists st', ath_rx_addbuffer_edma hp st = Ok st' /\ rx_inv N [] st' /\ frag st' = frag st.
Proof. intros H. unfold ath_rx_addbuffer_edma. destruct (bool_decide _); [by exists st|]. by apply addbuffer_inv. Qed.

Lemma remove_inv N K hp st : rx_inv N K st -> rx_inv N K (ath_rx_remove_buffer hp st).
Proof.
  intros [H1 H2 H3 H4 H5]. unfold ath_rx_remove_buffer. destruct hp; split; try done; try (cbn; lia); unfold rx_items, all_bufs in *; cbn.
  - rewrite <- H1. rewrite !bind_app. solve_Permutation.
  - rewrite !Forall_app in *. pose proof (Forall_nil_2 buf_ok). tauto.
  - rewrite <- H1. rewrite !bind_app. solve_Permutation.
  - rewrite !Forall_app in *. pose proof (Forall_nil_2 buf_ok). tauto.
Qed.
Lemma remove_frag hp st : frag (ath_rx_remove_buffer hp st) = frag st.
Proof. by destruct hp. Qed.

Section Run.
Context (e : rx_env) (junk : Z -> Z -> Z) (hdrlen_nonneg : forall fc, 0 <= ieee80211_hdrlen e fc).

Lemma rx_exec_inv N o st : rx_inv N [] st -> frag_ok st -> exists st', rx_exec e junk o st = Ok st' /\ rx_inv N [] st' /\ frag_ok st'.
Proof using hdrlen_nonneg.
  intros H Hf. destruct o as [hp i m|l|flush hp tsf| |tsf]; cbn [rx_exec].
  - eexists. split; [done|]. split; [|eapply frag_ok_eq; [|exact Hf]; by destruct hp]. apply set_fifo_inv; [done|apply alter_items| |apply length_alter].
    apply alter_ok. destruct H as [_ H _ _ _]. unfold all_bufs in H. rewrite !Forall_app in H. by destruct hp; tauto.
  - eexists. split; [done|]. split; [|done]. eapply inv_items; [exact H|done..].
  - by apply tasklet_inv.
  - unfold ath_edma_start_recv. destruct (add_all_inv N true st H) as (st1 & -> & H1 & F1). cbn [obind].
    destruct (add_all_inv N false st1 H1) as (st2 & -> & H2 & F2). exists st2. split_and!; [done|done|]. eapply frag_ok_eq; [|exact Hf]. congruence.
  - unfold ath_stoprecv, ath_flushrecv. destruct (tasklet_inv e junk N hdrlen_nonneg true true tsf st H Hf) as (st1 & -> & H1 & Hf1). cbn [obind].
    destruct (tasklet_inv e junk N hdrlen_nonneg true false tsf st1 H1 Hf1) as (st2 & -> & H2 & Hf2). cbn [obind].
    eexists. split; [done|]. unfold ath_edma_stop_recv. split; [by do 2 apply remove_inv|]. eapply frag_ok_eq; [|exact Hf2]. by rewrite !remove_frag.
Qed.

Lemma rx_run_inv N l : forall st, rx_inv N [] st -> frag_ok st -> exists st', rx_run e junk l st = Ok st' /\ rx_inv N [] st' /\ frag_ok st'.
Proof using hdrlen_nonneg.
  induction l as [|o l IH]; intros st H Hf; cbn [rx_run]; [by exists st|].
  destruct (rx_exec_inv N o st H Hf) as (st1 & -> & H1 & Hf1). by apply IH.
Qed.

(** * Initialisation *)

Lemma init_loop_inv n : forall i st, 0 <= i -> rx_inv i [] st -> frag st = None ->
  exists ok st' i', edma_init_loop junk i n st = (ok, st') /\ rx_inv i' [] st' /\ frag st' = None /\ (ok = true -> i' = i + Z.of_nat n).
Proof using.
  induction n as [|n IH]; intros i st Hi H Hf; cbn [edma_init_loop]; [exists true, st, i; split_and!; try done; lia|].
  destruct (alloc_skb_inv junk i [] st H) as (r & st1 & -> & B1 & F1 & H1). destruct r as [k|]; [|exists false, st1, i; split_and!; try done; congruence].
  destruct H1 as (H1 & Hk & Hz). set (bf := {| rb_id := i; bf_mpdu := Some (k <| mem := replicate (Z.to_nat rx_bufsize) 0 |>) |}).
  assert (buf_ok bf) as Hb by (eexists; split; [done|]; by rewrite <- Hz).
  assert (rx_inv (i + 1) (buf_items bf ++ []) st1) as H2.
  { destruct H1 as [I1 I2 I3 I4 I5]. split; try done. rewrite seqZ_app, fmap_app by lia. cbn [buf_items bf rb_id bf_mpdu skb_items app] in *.
    rewrite app_assoc, <- I1. cbn. rewrite Z.add_0_l. solve_Permutation. }
  apply requeue_front in H2; [|done]. destruct (IH (i + 1) (st1 <| rxbuf ::= fun l => l ++ [bf] |>)) as (ok & st' & i' & E & H3 & F3 & Ho); [lia|done|by rewrite <- Hf, <- F1|].
  rewrite E. exists ok, st', i'. split_and!; try done. intros Hok. rewrite (Ho Hok). lia.
Qed.

Lemma free_mpdu_events l : forall st, Forall buf_ok l ->
  (rx_events (soft (foldl (fun st bf => free_mpdu bf st) st l)) ≫= gone) = (rx_events (soft st) ≫= gone) ++ (l ≫= fun bf => skb_items (bf_mpdu bf)) /\
  next_skb (foldl (fun st bf => free_mpdu bf st) st l) = next_skb st.
Proof using.
  induction l as [|bf l IH]; intros st H; cbn [foldl]; [by rewrite bind_nil, app_nil_r|]. inversion_clear H as [|? ? (k & Ek & _) Hl].
  destruct (IH (free_mpdu bf st) Hl) as [-> ->]. unfold free_mpdu. rewrite Ek, bind_cons, Ek. cbn. rewrite bind_app. cbn. split; [|done]. by rewrite <- app_assoc.
Qed.

(** The identities of the buffers and of their skbs. *)
Lemma buf_items_split l : (l ≫= buf_items) ≡ₚ (inr ∘ rb_id <$> l) ++ (l ≫= fun bf => skb_items (bf_mpdu bf)).
Proof using. induction l as [|bf l IH]; [done|]. rewrite !bind_cons, fmap_cons, IH. unfold buf_items. cbn. solve_Permutation. Qed.

(** The skbs among the items. *)
Definition skb_of (x : rx_item) : option Z := match x with inl i => Some i | inr _ => None end.
Lemma skbs_of_inl (l : list Z) : omap skb_of (inl <$> l) = l.
Proof using. induction l as [|i l IH]; [done|]. cbn. by f_equal. Qed.
Lemma skbs_of_inr {A} (f : A -> Z) (l : list A) : omap skb_of (inr ∘ f <$> l) = [].
Proof using. induction l as [|i l IH]; [done|]. cbn. exact IH. Qed.

Lemma cleanup_frees N st : rx_inv N [] st -> frag st = None ->
  omap skb_of (rx_events (soft (ath_rx_edma_cleanup st)) ≫= gone) ≡ₚ seqZ 0 (next_skb (ath_rx_edma_cleanup st)).
Proof using.
  intros H Hf. unfold ath_rx_edma_cleanup. cbv zeta. apply (remove_inv N [] false) in H. apply (remove_inv N [] true) in H.
  assert (frag (ath_rx_remove_buffer true (ath_rx_remove_buffer false st)) = None /\
    fifo_hp (ath_rx_remove_buffer true (ath_rx_remove_buffer false st)) = [] /\ fifo_lp (ath_rx_remove_buffer true (ath_rx_remove_buffer false st)) = [])
    as (F & E1 & E2) by done.
  set (st1 := ath_rx_remove_buffer true _) in *. clearbody st1. destruct H as [H1 H2 _ _ _].
  unfold rx_items, all_bufs in *. rewrite E1, E2, F, !app_nil_r in *. cbn [app skb_items] in H1.
  destruct (free_mpdu_events (rxbuf st1) st1 H2) as [E3 E4].
  cbn [soft next_skb upd]. rewrite E3, E4. rewrite <- (skbs_of_inl (seqZ 0 (next_skb st1))), <- (app_nil_r (omap skb_of (inl <$> _))).
  rewrite <- (skbs_of_inr id (seqZ 0 N)), <- omap_app. change (inr ∘ id <$> seqZ 0 N) with ((inr <$> seqZ 0 N) : list rx_item).
  rewrite <- H1, buf_items_split, !omap_app, skbs_of_inr. cbn [app]. solve_Permutation.
Qed.

(** C17. Whatever the hardware writes and whichever allocations fail: if the
    initialisation fails, every skb that was allocated is free again; otherwise
    every sequence of operations runs to its end without a fault, and then
    every skb is in one buffer, is the first part of a frame, has been
    delivered once or freed once, and every buffer is in exactly one list. *)
Theorem rx_run_safe nbufs faults l :
  match ath_rx_edma_init junk nbufs (rx_start faults) with
  | (OK, st0) => exists st, rx_run e junk l st0 = Ok st /\
      rx_items st ≡ₚ (inl <$> seqZ 0 (next_skb st)) ++ (inr <$> seqZ 0 (Z.of_nat nbufs)) /\
      (length (fifo_hp st) <= ATH9K_HW_RX_HP_QDEPTH)%nat /\ (length (fifo_lp st) <= ATH9K_HW_RX_LP_QDEPTH)%nat
  | (_, st0) => omap skb_of (rx_events (soft st0) ≫= gone) ≡ₚ seqZ 0 (next_skb st0)
  end.
Proof using hdrlen_nonneg.
  unfold ath_rx_edma_init. set (s0 := (rx_start faults) <| fifo_lp := [] |> <| fifo_hp := [] |>).
  assert (rx_inv 0 [] s0) as H0 by (split; try done; cbn; lia).
  destruct (allocate_inv 0 [] s0 H0) as (ok & st1 & E1 & H1 & B1 & F1 & S1 & N1). rewrite E1. destruct ok; cbn [negb].
  - destruct (init_loop_inv nbufs 0 (st1 <| rxbuf := [] |>)) as (ok & st2 & i & E2 & H2 & F2 & Ho); [lia| |done|].
    { eapply inv_items; [exact H1|split; [by rewrite (proj1 B1)|done]|done|done]. }
    rewrite E2. destruct ok; [|by eapply cleanup_frees].
    destruct (rx_run_inv i l st2 H2) as (st & E3 & [H3 _ _ H4 H5] & _); [intros f; by rewrite F2|]. exists st. rewrite (Ho eq_refl) in H3. split_and!; done.
  - by rewrite S1, N1.
Qed.
End Run.
