(* ===== verification/RxProps.v ===== *)
(** What the receive path promises: the time of reception, the traffic
    indication of beacons, and which frames are delivered. *)

From S2P Require Import Prelude KeyCache Desc RxFrame Rx RxInv.

(** * Time of reception *)

(** The time of reception is exact: the 32 bits that the hardware reports are
    completed to the 64 bits of any time not more than 2^28 microseconds away
    from the clock. *)
Theorem process_tsf_correct t tsf : in_u64 t -> in_u64 tsf -> Z.abs (t - tsf) <= 0x10000000 ->
  ath9k_process_tsf (u32 t) tsf = t.
Proof.
  unfold in_u64. intros Ht Hc Hd. unfold ath9k_process_tsf. change 0xffffffff with (Z.ones 32). rewrite Z.land_ones by lia.
  assert (clr tsf (Z.ones 32) .| u32 t = tsf / 2 ^ 32 * 2 ^ 32 + u32 t) as ->.
  { unfold clr. rewrite Z.ldiff_ones_r by lia. rewrite Z.lor_comm, lor_shiftl_add, Z.shiftr_div_pow2; [lia|lia|lia|].
    pose proof (u32_range t). unfold in_u32 in *. lia. }
  unfold u32, u64 in *. change (2 ^ 32) with 4294967296 in *. cbv zeta.
  destruct (Z.ltb_spec (tsf mod 4294967296) (t mod 4294967296)), (Z.ltb_spec (t mod 4294967296) (tsf mod 4294967296)); cbn [andb]; try lia.
  - destruct (Z.ltb_spec 268435456 ((t mod 4294967296 - tsf mod 4294967296) mod 4294967296)); dlia.
  - destruct (Z.ltb_spec 268435456 ((tsf mod 4294967296 - t mod 4294967296) mod 4294967296)); dlia.
  - dlia.
Qed.

(** * The traffic indication *)

Definition put_element (x : Z * list Z) : list Z := fst x :: Z.of_nat (length (snd x)) :: snd x.

(** [l] is a list of complete elements of which the first TIM says that
    multicast frames follow. *)
Definition tim_pending (l : list Z) : Prop := exists es tim rest,
  l = (es ≫= put_element) ++ put_element (WLAN_EID_TIM, tim) ++ rest /\ Forall (fun x => fst x <> WLAN_EID_TIM) es /\
  (4 <= length tim)%nat /\ byte_at tim 0 = 0 /\ has (byte_at tim 2) 0x01 = true.

Lemma tim_pending_skip id data l : id <> WLAN_EID_TIM -> tim_pending (put_element (id, data) ++ l) <-> tim_pending l.
Proof.
  intros Hid. split.
  - intros (es & tim & rest & E & He & H). destruct es as [|[id' data'] es].
    + cbn in E. injection E as E _. done.
    + rewrite bind_cons in E. cbn in E. injection E as <- E1 E2. assert (length data = length data') as El by lia.
      rewrite <- !app_assoc in E2. apply app_inj_1 in E2 as [<- ->]; [|done]. inversion_clear He. by exists es, tim, rest.
  - intros (es & tim & rest & -> & He & H). exists ((id, data) :: es), tim, rest. rewrite bind_cons, <- app_assoc. split; [done|].
    split; [by constructor|done].
Qed.

Lemma tim_loop_spec fuel : forall l, Forall (fun b => 0 <= b) l -> (length l < fuel)%nat -> tim_loop fuel l = Ok true <-> tim_pending l.
Proof.
  induction fuel as [|fuel IH]; intros l Hl Hf; [lia|]. cbn [tim_loop].
  assert (forall l, (length l <= 2)%nat -> ~ tim_pending l) as Hshort.
  { intros l' Hs (es & tim & rest & -> & _ & Ht & _). rewrite !length_app in Hs. cbn in Hs. lia. }
  destruct l as [|id [|elen [|x l]]]; try (split; [done|intros H; exfalso; eapply Hshort; [|exact H]; cbn; lia]).
  set (l1 := x :: l) in *. inversion_clear Hl as [|? ? Hid Hl1]. inversion_clear Hl1 as [|? ? Helen Hl2].
  assert (forall es tim rest, id :: elen :: l1 = (es ≫= put_element) ++ put_element (WLAN_EID_TIM, tim) ++ rest -> elen <= Z.of_nat (length l1)) as Hfit.
  { intros [|[i d] es] tim rest E; [|rewrite bind_cons in E]; cbn in E; injection E as _ -> ->; rewrite ?length_app; lia. }
  destruct (Z.ltb_spec (Z.of_nat (length l1)) elen) as [Hlt|Hle].
  { split; [done|]. intros (es & tim & rest & E & _). specialize (Hfit _ _ _ E). lia. }
  remember (take (Z.to_nat elen) l1) as data eqn:Edata. assert (length data = Z.to_nat elen) as Hd by (rewrite Edata, length_take; lia).
  assert (id :: elen :: l1 = put_element (id, data) ++ drop (Z.to_nat elen) l1) as E.
  { unfold put_element. cbn [fst snd]. rewrite Hd, Z2Nat.id by lia. cbn. do 2 f_equal. by rewrite Edata, take_drop. }
  destruct (Z.eqb_spec id WLAN_EID_TIM) as [->|Hn].
  - assert (tim_pending (WLAN_EID_TIM :: elen :: l1) <-> ((4 <= length data)%nat /\ byte_at data 0 = 0 /\ has (byte_at data 2) 0x01 = true)) as ->.
    { rewrite E. split.
      - intros (es & tim & rest & E1 & He & H). destruct es as [|[i d] es].
        + cbn in E1. injection E1 as E1 E2. assert (length data = length tim) as El by lia. apply app_inj_1 in E2 as [-> _]; [by apply H|done].
        + rewrite bind_cons in E1. cbn in E1. injection E1 as <- _ _. by inversion_clear He.
      - intros H. exists [], data, (drop (Z.to_nat elen) l1). done. }
    destruct (Z.ltb_spec elen 4) as [|H4]; [split; [done|lia]|].
    destruct l as [|b [|c r]]; [cbn in Hle; lia..|].
    assert (byte_at data 0 = x /\ byte_at data 2 = c) as [-> ->] by (unfold byte_at; rewrite Edata, !lookup_take_lt by lia; done).
    cbv iota. destruct (Z.eqb_spec x 0) as [->|]; cbn [negb]; [|split; [done|tauto]].
    split; [intros [= H]; split_and!; [lia|done|done]|intros (_ & _ & ->); done].
  - rewrite E, tim_pending_skip by done. apply IH; [by apply Forall_drop|]. rewrite length_drop. cbn in Hf |- *. lia.
Qed.

(** C34. The search for the traffic indication of a beacon stays inside the frame
    and agrees with the format of the elements: it finds pending multicast
    frames exactly if the complete elements before the first TIM are followed by
    a TIM of at least four bytes with DTIM count 0 and the multicast bit. *)
Theorem dtim_pending_correct frame : Forall (fun b => 0 <= b < 256) frame ->
  exists b, ath_beacon_dtim_pending_cab frame = Ok b /\ (b = true <-> tim_pending (drop 36 frame)).
Proof.
  intros H. destruct (dtim_pending_total frame) as [b E]. exists b. split; [done|]. unfold ath_beacon_dtim_pending_cab in E.
  rewrite <- (tim_loop_spec (S (length (drop 36 frame)))), E; [|apply Forall_drop; eapply Forall_impl; [exact H|intros x Hx; cbn in Hx |- *; lia]|lia].
  split; [by intros ->|by intros [= ->]].
Qed.

(** * Joining frames *)

(** The frames that have been delivered. *)
Definition delivery (ev : rx_event) : option (list Z) := match ev with DeliverFrame _ frame _ => Some frame | _ => None end.
Definition deliveries (st : rx_state) : list (list Z) := omap delivery (rx_events (soft st)).

(** The received bytes behind the status of the hardware. *)
Definition payload (pp : preprocessed) (skb : rx_skb) : list Z :=
  take (Z.to_nat (rs_datalen (pp_rs pp))) (drop rx_status_len (mem skb)).
(** The Michael code, if the hardware has left it. *)
Definition trimmed (rxs : ieee80211_rx_status) (l : list Z) : list Z :=
  if has (rx_flag rxs) RX_FLAG_MMIC_STRIPPED then take (length l - (if (length l <? 8)%nat then 0 else 8)) l else l.

Section Join.
Context (e : rx_env) (junk : Z -> Z -> Z) (hdrlen_nonneg : forall fc, 0 <= ieee80211_hdrlen e fc).

Lemma emit_deliveries ev st : deliveries (emit_rx ev st) = deliveries st ++ option_list (delivery ev).
Proof using. unfold deliveries, emit_rx, rx_emit. cbn. rewrite omap_app. cbn. by destruct (delivery ev). Qed.

Lemma buf_link_deliveries hp st b st' : ath_rx_edma_buf_link hp st = Ok (b, st') -> deliveries st' = deliveries st /\ frag st' = frag st.
Proof using.
  unfold ath_rx_edma_buf_link. destruct (_ <=? _)%nat; [by intros [= _ <-]|]. destruct (rxbuf st) as [|bf l]; [done|]. destruct (bf_mpdu bf); [|done].
  intros [= _ <-]. destruct hp; (split; [|done]); unfold deliveries, emit_rx, rx_emit; cbn; rewrite omap_app; cbn; by rewrite app_nil_r.
Qed.
Lemma requeue_deliveries flush hp bf st st' : requeue flush hp bf st = Ok st' -> deliveries st' = deliveries st /\ frag st' = frag st.
Proof using.
  unfold requeue. destruct (negb flush); [|by intros [= <-]]. destruct (ath_rx_edma_buf_link _ _) as [[b st1]|] eqn:E; [|done].
  cbn [obind]. intros [= <-]. apply buf_link_deliveries in E. exact E.
Qed.
Lemma requeue_drop_deliveries flush hp bf st st' : requeue_drop_frag flush hp bf st = Ok st' -> deliveries st' = deliveries st /\ frag st' = None.
Proof using.
  intros E. apply requeue_deliveries in E as [-> ->]. unfold drop_frag. destruct (frag st) as [r|] eqn:Ef; [|done]. split; [|done].
  change (deliveries (emit_rx (KfreeSkb (sk_id r)) st) = deliveries st). rewrite emit_deliveries. cbn. by rewrite app_nil_r.
Qed.

Lemma quiet_events s s' : rx_events s' = rx_events s -> omap delivery (rx_events s') = omap delivery (rx_events s).
Proof using. by intros ->. Qed.

Lemma rx_ps_deliveries frame hdr b s s' : ath_rx_ps e frame hdr b s = Ok s' -> omap delivery (rx_events s') = omap delivery (rx_events s).
Proof using.
  unfold ath_rx_ps. destruct (_ && b).
  - unfold ath_rx_ps_beacon. destruct (_ <? _)%nat; [by intros [= <-]|]. cbv zeta. set (s1 := s <| ps_flags ::= _ |>).
    match goal with |- context [if has (ps_flags s1) PS_BEACON_SYNC then ?x else s1] => set (s2 := if has (ps_flags s1) PS_BEACON_SYNC then x else s1) end.
    assert (omap delivery (rx_events s2) = omap delivery (rx_events s)) as Hk.
    { subst s2. destruct (has _ _); [|done]. destruct (_ =? _); [done|]. unfold rx_emit. cbn. rewrite omap_app. cbn. by rewrite app_nil_r. }
    clearbody s2. destruct (ath_beacon_dtim_pending_cab frame) as [pend|]; [|done]. cbn [obind].
    destruct pend; [by intros [= <-]|]. destruct (has _ _); by intros [= <-].
  - destruct (_ && _ && _ && _); [by intros [= <-]|]. destruct (_ && _ && _); by intros [= <-].
Qed.

Lemma trim_frame rxs k : 0 <= sk_len k <= Z.of_nat (length (mem k)) ->
  skb_frame (if has (rx_flag rxs) RX_FLAG_MMIC_STRIPPED then skb_trim (sk_len k - 8) k else k) = trimmed rxs (skb_frame k).
Proof using.
  intros Hk. unfold trimmed. destruct (has _ _); [|done]. unfold skb_trim, skb_frame. rewrite length_take.
  destruct (Z.leb_spec 0 (sk_len k - 8)); cbn [andb].
  - rewrite (proj2 (Z.ltb_lt _ _)) by lia. cbn [mem sk_len upd]. rewrite take_take. f_equal.
    destruct (Nat.ltb_spec (Z.to_nat (sk_len k) `min` length (mem k)) 8); lia.
  - rewrite take_take. f_equal. destruct (Nat.ltb_spec (Z.to_nat (sk_len k) `min` length (mem k)) 8); lia.
Qed.

Lemma deliver_deliveries pp rxs k st st' : deliver e pp rxs k st = Ok st' -> 0 <= sk_len k <= Z.of_nat (length (mem k)) ->
  deliveries st' = deliveries st ++ [trimmed rxs (skb_frame k)] /\ frag st' = frag st.
Proof using.
  intros E Hk. unfold deliver in E. cbv zeta in E. rewrite trim_frame in E by done. set (k' := if has _ _ then _ else k) in E. clearbody k'.
  destruct (read_hdr 0 (mem k')) as [hdr|]; [|done]. cbn [obind] in E.
  match type of E with obind ?x _ = _ => destruct x as [s1|] eqn:E1; [|done] end. cbn [obind] in E.
  assert (omap delivery (rx_events s1) = deliveries st) as H1.
  { destruct (_ || _); [by apply rx_ps_deliveries in E1|by injection E1 as <-]. }
  destruct (ath9k_apply_ampdu_details (pp_rs pp) rxs s1) as [rxs2 s2] eqn:E2.
  assert (rx_events s2 = rx_events s1) as Ev.
  { unfold ath9k_apply_ampdu_details in E2. destruct (negb _); [|by injection E2 as _ <-]. destruct (_ =? _); by injection E2 as _ <-. }
  injection E as <-. split; [|done]. unfold deliveries. cbn. rewrite omap_app. cbn. f_equal. unfold deliveries in H1. rewrite <- H1, <- Ev.
  destruct (ieee80211_is_ack _); [|done]. unfold rx_emit. cbn. rewrite omap_app. cbn. by rewrite app_nil_r.
Qed.

(** The part with the header of the frame, and its length. *)
Definition header_part (pp : preprocessed) (skb : rx_skb) (st : rx_state) : list Z * Z :=
  match frag st with
  | Some f => (mem f, sk_len f)
  | None => (drop rx_status_len (mem skb), rs_datalen (pp_rs pp))
  end.

Lemma join_frame first skb k : append_data (skb_frame skb) (expand_tail (sk_len skb - skb_tailroom first) first) = Some k ->
  0 <= sk_len first <= Z.of_nat (length (mem first)) -> 0 <= sk_len skb <= Z.of_nat (length (mem skb)) ->
  skb_frame k = skb_frame first ++ skb_frame skb /\ 0 <= sk_len k <= Z.of_nat (length (mem k)).
Proof using.
  intros E Hf Hs. assert (length (skb_frame skb) = Z.to_nat (sk_len skb)) as El by (unfold skb_frame; rewrite length_take; lia).
  unfold append_data, skb_put in E. destruct (Z.ltb_spec (Z.of_nat (length (mem (expand_tail (sk_len skb - skb_tailroom first) first))))
    (sk_len (expand_tail (sk_len skb - skb_tailroom first) first) + Z.of_nat (length (skb_frame skb)))) as [|Hle]; [done|].
  injection E as <-. unfold skb_frame at 1. unfold expand_tail in *. cbn [mem sk_len upd] in *. rewrite El in *. set (m := mem first ++ _) in *.
  assert (Z.to_nat (sk_len first) <= length (mem first))%nat as Hn by lia. split.
  - rewrite app_assoc, take_app_le; [|rewrite length_app, length_take, El; lia].
    rewrite take_ge by (rewrite length_app, length_take, El; lia). f_equal. unfold m, skb_frame. by rewrite take_app_le.
  - rewrite !length_app, length_take, length_drop, El. lia.
Qed.

(** C27. What becomes of one received buffer. With "more" set, it is kept as the first
    part of a frame when no part is waiting; when one is waiting, both are freed
    and nothing is delivered. Without "more", it is delivered as a frame, without
    the padding of its header, when no part is waiting; when one is waiting, the
    two are joined and delivered as one frame, or both freed if memory runs out.
    This is a statement about each buffer, not about whole frames: after the
    second buffer with "more" the code no longer knows that it is inside a frame,
    and delivers the last part of such a frame as a frame of its own
    ([long_frame_tail], recv.c:1098). *)
Theorem rx_frame_outcome N flush hp bf pp skb st :
  rx_inv N (buf_items bf ++ [inl (sk_id skb)]) st -> buf_ok bf -> frag_ok st -> length (mem skb) = Z.to_nat rx_bufsize -> sk_len skb = 0 ->
  0 < rs_datalen (pp_rs pp) <= rx_bufsize - Z.of_nat rx_status_len ->
  exists st', rx_frame e flush hp bf pp skb st = Ok st' /\
    if rs_more (pp_rs pp) =? 0 then
      exists m len rxs,
        ath9k_cmn_rx_skb_postprocess e (fst (header_part pp skb st)) (snd (header_part pp skb st)) (pp_rs pp) (pp_rxs pp) (pp_decrypt_error pp)
          = Ok (m, len, rxs) /\ frag st' = None /\
        deliveries st' = deliveries st ++
          match frag st, head (rx_faults st) with
          | None, _ => [trimmed rxs (take (Z.to_nat len) m)]
          | Some _, Some true => []
          | Some _, _ => [trimmed rxs (take (Z.to_nat len) m ++ payload pp skb)]
          end
    else deliveries st' = deliveries st /\
      match frag st with
      | None => exists k, frag st' = Some k /\ skb_frame k = payload pp skb
      | Some _ => frag st' = None
      end.
Proof using hdrlen_nonneg.
  intros H Hb Hf Hm Hz Hd. destruct (rx_frame_round e N hdrlen_nonneg flush hp bf pp skb st H Hb Hf Hm Hz Hd) as (st' & E & _).
  exists st'. split; [done|]. unfold rx_frame, skb_put in E. cbv zeta in E. rewrite Hm, Hz, (proj2 (Z.ltb_ge _ _)) in E by (unfold rx_status_len in *; lia).
  set (k := skb_pull rx_status_len _) in E.
  assert (mem k = drop rx_status_len (mem skb) /\ sk_len k = rs_datalen (pp_rs pp)) as (Hkm & Hkl).
  { subst k. unfold skb_pull. cbn [sk_len upd]. rewrite Hz, (proj2 (Z.ltb_ge _ _)) by lia. cbn [mem sk_len upd]. split; [done|]. lia. }
  assert (skb_frame k = payload pp skb) as Hkf by (unfold skb_frame, payload; by rewrite Hkm, Hkl).
  clearbody k. assert (Z.of_nat (length (mem k)) = 1926) as Hk1 by (rewrite Hkm, length_drop, Hm; done).
  assert (rx_bufsize - Z.of_nat rx_status_len = 1926) as Hbs by done. unfold header_part.
  destruct (Z.eqb_spec (rs_more (pp_rs pp)) 0) as [Em|Em]; cbn [negb] in E.
  - destruct (frag st) as [f|] eqn:Ef; cbn [default from_option id fst snd] in *.
    + destruct (Hf f Ef) as [Hfm Hfl]. assert (Z.of_nat (length (mem f)) = 1926) as Hf1 by (rewrite Hfm; done).
      destruct (postprocess_total e hdrlen_nonneg (mem f) (sk_len f) (pp_rs pp) (pp_rxs pp) (pp_decrypt_error pp)) as (m & len & rxs & Ep & Hl & _); [lia|done|].
      rewrite Ep in *. cbn [obind] in E. exists m, len, rxs. split; [done|]. unfold join_frag, allocate in E. cbn [frag upd rx_faults] in E.
      destruct (rx_faults st) as [|b fl]; [|destruct b]; cbn [negb head] in *.
      * destruct (append_data _ _) as [j|] eqn:Ej; [|done]. apply join_frame in Ej as [Ej Hj]; [|done|lia]. cbn [obind] in E.
        destruct (deliver _ _ _ _ _) as [st2|] eqn:E2; [|done]. cbn [obind] in E. apply requeue_drop_deliveries in E as [-> ->].
        apply deliver_deliveries in E2 as [-> _]; [|done]. split; [done|]. rewrite Ej, <- Hkf, emit_deliveries. cbn. by rewrite app_nil_r.
      * cbn [obind] in E. apply requeue_drop_deliveries in E as [-> ->]. split; [done|]. rewrite emit_deliveries. done.
      * destruct (append_data _ _) as [j|] eqn:Ej; [|done]. apply join_frame in Ej as [Ej Hj]; [|done|lia]. cbn [obind] in E.
        destruct (deliver _ _ _ _ _) as [st2|] eqn:E2; [|done]. cbn [obind] in E. apply requeue_drop_deliveries in E as [-> ->].
        apply deliver_deliveries in E2 as [-> _]; [|done]. split; [done|]. rewrite Ej, <- Hkf, emit_deliveries. cbn. by rewrite app_nil_r.
    + rewrite <- Hkm, <- Hkl.
      destruct (postprocess_total e hdrlen_nonneg (mem k) (sk_len k) (pp_rs pp) (pp_rxs pp) (pp_decrypt_error pp)) as (m & len & rxs & Ep & Hl & _); [lia|lia|].
      rewrite Ep in *. cbn [obind] in E. exists m, len, rxs. split; [done|].
      destruct (deliver _ _ _ _ _) as [st2|] eqn:E2; [|done]. cbn [obind] in E. apply requeue_drop_deliveries in E as [-> ->].
      by apply deliver_deliveries in E2 as [-> _].
  - destruct (frag st) as [f|] eqn:Ef.
    + apply requeue_deliveries in E as [-> ->]. split; [|done]. rewrite emit_deliveries. cbn. rewrite app_nil_r.
      change (deliveries (emit_rx (KfreeSkb (sk_id f)) st) = deliveries st). rewrite emit_deliveries. cbn. by rewrite app_nil_r.
    + apply requeue_deliveries in E as [-> ->]. split; [done|]. by exists k.
Qed.
End Join.

(** * Concrete runs

    A platform with a CCMP key in slot 5 and three receive buffers. *)

Definition demo_common : ath_common :=
  {| macaddr := []; bssidmask := []; keymax := 128; keymap := BIT 5; tkip_keymap := 0; ccmp_keymap := BIT 5; crypt_caps := 0; clockrate := 0;
     cc_ani := {| cc_cycles := 0; cc_rx_busy := 0; cc_rx_frame := 0; cc_tx_frame := 0 |};
     cc_survey := {| cc_cycles := 0; cc_rx_busy := 0; cc_rx_frame := 0; cc_tx_frame := 0 |}; regs := ∅; reg_log := [] |}.
Definition demo_rx_env : rx_env :=
  {| rx_common := demo_common; curbssid := replicate 6 0; is_monitoring := false; opmode := OpOcb; rxfilter := 0; nvifs := 1;
     radar_enabled := false; dynack_enabled := false; chandef_noht := true; old_chip := false; four_address := false; rxchainmask := 1; noise := -95;
     chan_quarter := false; chan_half := true; band_rates := [(0, 0)]; curchan_band := 1; curchan_freq := 5900; sw_mgmt_crypto_rx := false;
     check_auto_sleep := false; beacon_interval := 100; ieee80211_hdrlen := fun _ => 24; ieee80211_get_hdrlen_from_skb := fun _ => 24 |}.
Definition demo_junk (_ _ : Z) : Z := 0.

(** What the hardware writes: the status words, then [l]. *)
Definition le32 (w : Z) : list Z := [u8 w; u8 (w .>> 8); u8 (w .>> 16); u8 (w .>> 24)].
Definition demo_piece (info s11 more : Z) (l : list Z) : list Z :=
  concat (le32 <$> [info; 0; Z.of_nat (length l) .| (more * AR_RxMore); 0; 0; 0; 0; 0; 0; 0; 0; s11]) ++ l.
Definition demo_good : Z := 0x168c0000.
(** A key miss for key 5. *)
Definition demo_key_miss : Z := AR_RxDone .| AR_RxFrameOK .| AR_RxKeyIdxValid .| AR_KeyMiss .| (5 .<< 9).

(** A protected data frame to one receiver; the byte at 52 is odd. *)
Definition demo_frame : list Z := [0x08; 0x40; 0; 0; 2; 0; 0; 0; 0; 1; 2; 0; 0; 0; 0; 2; 2; 0; 0; 0; 0; 3; 0; 0] ++ replicate 28 0 ++ [1] ++ replicate 67 0.

Definition demo_rx_run (l : list rx_op) : outcome rx_state :=
  rx_run demo_rx_env demo_junk (StartRecv :: l) (snd (ath_rx_edma_init demo_junk 3 (rx_start []))).
Definition delivered_flags (st : rx_state) : list (list Z * bool) :=
  omap (fun ev => match ev with DeliverFrame _ frame rxs => Some (frame, has (rx_flag rxs) RX_FLAG_DECRYPTED) | _ => None end) (rx_events (soft st)).
Definition pushed (st : rx_state) : list Z := omap (fun ev => match ev with PushRx _ id => Some id | _ => None end) (rx_events (soft st)).
Definition observe {A} (f : rx_state -> A) (o : outcome rx_state) : option A := match o with Ok st => Some (f st) | Oops => None end.

(** A frame that fills two buffers is judged by the wrong header: the header is
    looked for behind the space of the status, which has been removed from the
    first part already. Here the hardware reports that it had no key for a
    frame; in one buffer the frame is delivered as not decrypted, in two
    buffers the same frame is delivered as decrypted, because a byte of its
    body makes it look like a multicast frame. *)
Theorem split_key_miss :
  observe delivered_flags (demo_rx_run [HwWrite true 0 (demo_piece demo_good demo_key_miss 0 demo_frame); Tasklet false true 0])
    = Some [(demo_frame, false)] /\
  observe delivered_flags (demo_rx_run
      [HwWrite true 0 (demo_piece demo_good demo_key_miss 1 (take 100 demo_frame));
       HwWrite true 1 (demo_piece demo_good demo_key_miss 0 (drop 100 demo_frame)); Tasklet false true 0])
    = Some [(demo_frame, true)].
Proof. split; by vm_compute. Qed.

(** The end of a frame of three parts is delivered as a frame of its own. *)
Theorem long_frame_tail :
  observe deliveries (demo_rx_run
      [HwWrite true 0 (demo_piece demo_good demo_key_miss 1 (take 80 demo_frame));
       HwWrite true 1 (demo_piece demo_good demo_key_miss 1 (take 10 (drop 80 demo_frame)));
       HwWrite true 2 (demo_piece demo_good demo_key_miss 0 (drop 90 demo_frame)); Tasklet false true 0])
    = Some [drop 90 demo_frame].
Proof. by vm_compute. Qed.

(** When a corrupt status stands in the only buffer of a queue, the buffer is
    linked, fetched as the one that follows and linked again: the hardware has
    it twice, the software queue once. *)
Theorem corrupt_double_push :
  observe (fun st => (pushed st, rb_id <$> fifo_hp st))
    (rx_run demo_rx_env demo_junk [StartRecv; HwWrite true 0 (demo_piece 0 AR_RxDone 0 []); Tasklet false true 0]
       (snd (ath_rx_edma_init demo_junk 1 (rx_start []))))
    = Some ([0; 0; 0], [0]).
Proof. by vm_compute. Qed.

Lemma process_tsf_correct_witness : ath9k_process_tsf (u32 0x1fffffff0) 0x200000010 = 0x1fffffff0.
Proof. apply (process_tsf_correct 0x1fffffff0 0x200000010); unfold in_u64; lia. Defined.

Definition demo_beacon : list Z := replicate 36 0 ++ [0; 2; 65; 66] ++ [5; 4; 0; 1; 1; 0].
Lemma dtim_pending_correct_witness : ath_beacon_dtim_pending_cab demo_beacon = Ok true /\ tim_pending (drop 36 demo_beacon).
Proof.
  destruct (dtim_pending_correct demo_beacon) as (b & E & H); [apply Forall_lookup_2; intros i x Hi; apply list_elem_of_lookup_2 in Hi;
    repeat (apply elem_of_cons in Hi as [->|Hi]; [lia|]); by apply elem_of_nil in Hi|].
  assert (b = true) as -> by (vm_compute in E; by injection E as <-). split; [exact E|by apply H].
Defined.

Lemma rx_run_safe_witness : exists st,
  demo_rx_run [HwWrite true 0 [1; 2; 3]; HwWrite true 1 (demo_piece demo_good demo_key_miss 1 demo_frame); SetFaults [true]; Tasklet false true 7; StopRecv 8]
    = Ok st /\
  rx_items st ≡ₚ (inl <$> seqZ 0 (next_skb st)) ++ (inr <$> seqZ 0 3).
Proof.
  pose proof (rx_run_safe demo_rx_env demo_junk (fun _ => ltac:(cbn; lia)) 3 []
    [StartRecv; HwWrite true 0 [1; 2; 3]; HwWrite true 1 (demo_piece demo_good demo_key_miss 1 demo_frame); SetFaults [true]; Tasklet false true 7; StopRecv 8]) as H.
  unfold demo_rx_run. destruct (ath_rx_edma_init demo_junk 3 (rx_start [])) as [r st0] eqn:E.
  assert (r = OK) as -> by (transitivity (fst (ath_rx_edma_init demo_junk 3 (rx_start []))); [by rewrite E|by vm_compute]). destruct H as (st & E1 & E2 & _). by exists st.
Defined.

Definition demo_fresh (id : Z) : rx_skb := new_skb demo_junk id.
Definition demo_received : rx_skb := (demo_fresh 0) <| mem ::= fun m => demo_piece demo_good demo_key_miss 0 demo_frame ++ drop 168 m |>.
Definition demo_rxbuf : ath_rxbuf := {| rb_id := 0; bf_mpdu := Some (demo_fresh 1) |}.
Definition demo_pp : preprocessed :=
  {| pp_ok := true; pp_rs := zero_rx_status <| rs_datalen := 120 |>; pp_rxs := zero_rxs; pp_decrypt_error := false; pp_mybeacon := false |}.
Definition demo_taken : rx_state := (rx_start []) <| next_skb := 2 |>.

Lemma rx_frame_outcome_witness : exists st', rx_frame demo_rx_env false true demo_rxbuf demo_pp demo_received demo_taken = Ok st' /\
  deliveries st' = [demo_frame].
Proof.
  destruct (rx_frame_outcome demo_rx_env (fun _ => ltac:(cbn; lia)) 1 false true demo_rxbuf demo_pp demo_received demo_taken) as (st' & E & H).
  - split; try done; [|cbn; lia..].
    change (([inr 0; inl 1; inl 0] : list rx_item) ≡ₚ rev [inr 0; inl 1; inl 0]). apply Permutation_rev.
  - by exists (demo_fresh 1).
  - done.
  - by vm_compute.
  - done.
  - by vm_compute.
  - exists st'. split; [exact E|]. cbn in H. destruct H as (m & len & rxs & Ep & _ & ->). vm_compute in Ep. injection Ep as <- <- <-. by vm_compute.
Defined.
