(* ===== verification/HwTiming.v ===== *)
(** The times that the hardware waits for (src/real/ath/ath9k/hw.c): clock
    rate, slot time, inter-frame space, ACK and CTS timeouts, and the registers
    of the receive filter; with the data of the dynamic ACK timeout (dynack.h),
    which the settings depend on. *)

From S2P Require Import Prelude KeyCache Desc RxFrame.

(** * Registers *)

Definition AR_RXCFG : Z := 0x0034.
Definition AR_RXCFG_ZLFDMA : Z := 0x00000010.
Definition AR_GTXTO : Z := 0x0064.
Definition AR_GTXTO_TIMEOUT_LIMIT : field := {| f_mask := 0xFFFF0000; f_S := 16 |}.
Definition AR_D_GBL_IFS_SIFS : Z := 0x1030.
Definition AR_D_GBL_IFS_SLOT : Z := 0x1070.
Definition AR_D_GBL_IFS_EIFS : Z := 0x10b0.
Definition AR_D_GBL_IFS_EIFS_ASYNC_FIFO : Z := 363.
Definition AR_TIME_OUT : Z := 0x8014.
Definition AR_TIME_OUT_ACK : field := {| f_mask := 0x00003FFF; f_S := 0 |}.
Definition AR_TIME_OUT_CTS : field := {| f_mask := 0x3FFF0000; f_S := 16 |}.
Definition AR_USEC : Z := 0x801c.
Definition AR_USEC_USEC : Z := 0x0000007F.
Definition AR_USEC_TX_LAT : field := {| f_mask := 0x007FC000; f_S := 14 |}.
Definition AR_USEC_RX_LAT : field := {| f_mask := 0x1F800000; f_S := 23 |}.
Definition AR_USEC_ASYNC_FIFO : Z := 0x12E00074.
Definition AR_RX_FILTER : Z := 0x803C.
Definition AR_PHY_ERR : Z := 0x810c.
Definition AR_PHY_ERR_RADAR : Z := 0x00000020.
Definition AR_PHY_ERR_OFDM_TIMING : Z := 0x00020000.
Definition AR_PHY_ERR_CCK_TIMING : Z := 0x02000000.
Definition AR_PCU_MISC : Z := 0x8120.

Definition REG_RMW (a set clear : Z) (c : ath_common) : ath_common := REG_WRITE a (clr (REG_READ c a) clear .| set) c.
Definition REG_RMW_FIELD (a : Z) (f : field) (v : Z) : ath_common -> ath_common := REG_RMW a (SM v f) (f_mask f).
Definition REG_SET_BIT (a f : Z) : ath_common -> ath_common := REG_RMW a f 0.
Definition REG_CLR_BIT (a f : Z) : ath_common -> ath_common := REG_RMW a 0 f.

(** * Channels *)

Definition CHANNEL_5GHZ : Z := BIT 0.
Definition CHANNEL_HALF : Z := BIT 1.
Definition CHANNEL_QUARTER : Z := BIT 2.
Definition CHANNEL_HT40PLUS : Z := BIT 4.
Definition CHANNEL_HT40MINUS : Z := BIT 5.
Definition IS_CHAN_5GHZ (channelFlags : Z) : bool := has channelFlags CHANNEL_5GHZ.
Definition IS_CHAN_2GHZ (channelFlags : Z) : bool := negb (IS_CHAN_5GHZ channelFlags).
Definition IS_CHAN_HALF_RATE (channelFlags : Z) : bool := has channelFlags CHANNEL_HALF.
Definition IS_CHAN_QUARTER_RATE (channelFlags : Z) : bool := has channelFlags CHANNEL_QUARTER.
Definition IS_CHAN_HT40 (channelFlags : Z) : bool := has channelFlags (CHANNEL_HT40PLUS .| CHANNEL_HT40MINUS).

(** * State *)

(** [struct ath_dyn_rxbuf], [struct ath_dyn_txbuf] with their entries, and
    [struct ath_dynack] of dynack.h. *)
Record ath_dyn_rxbuf := { rx_h_rb : Z; rx_t_rb : Z; rx_tstamp : list Z }.
#[export] Instance eta_ath_dyn_rxbuf : Eta ath_dyn_rxbuf := fun r => Build_ath_dyn_rxbuf (rx_h_rb r) (rx_t_rb r) (rx_tstamp r).
Record ts_info := { tstamp : Z; dur : Z }.
Record haddr_pair := { h_dest : list Z; h_src : list Z }.
Record ath_dyn_txbuf := { tx_h_rb : Z; tx_t_rb : Z; tx_addr : list haddr_pair; tx_ts : list ts_info }.
#[export] Instance eta_ath_dyn_txbuf : Eta ath_dyn_txbuf := fun r => Build_ath_dyn_txbuf (tx_h_rb r) (tx_t_rb r) (tx_addr r) (tx_ts r).

Record ath_dynack := {
  da_enabled : bool;
  da_ackto : Z;                (* int *)
  da_lto : Z;                  (* unsigned long, 32 bits on the platform *)
  da_nodes : list Z;           (* the nodes of the list *)
  ack_rbf : ath_dyn_rxbuf;
  st_rbf : ath_dyn_txbuf;
}.
#[export] Instance eta_ath_dynack : Eta ath_dynack := fun r =>
  Build_ath_dynack (da_enabled r) (da_ackto r) (da_lto r) (da_nodes r) (ack_rbf r) (st_rbf r).

(** The fields of [struct ath_hw] used here; [curchan] is [channelFlags] of the
    channel. *)
Record ath_hw := {
  ah_common : ath_common;
  curchan : option Z;
  async_fifo : bool;           (* AR9287 from version 1.3 *)
  fastclock : bool;            (* ATH9K_HW_CAP_FASTCLOCK *)
  control_wrapper : bool;      (* AR9462 or AR9565 *)
  misc_mode : Z;
  coverage_class : Z;
  slottime : Z;                (* u32 *)
  globaltxtimeout : Z;         (* u32 *)
  dynack : ath_dynack;
}.
#[export] Instance eta_ath_hw : Eta ath_hw := fun r =>
  Build_ath_hw (ah_common r) (curchan r) (async_fifo r) (fastclock r) (control_wrapper r) (misc_mode r) (coverage_class r) (slottime r)
    (globaltxtimeout r) (dynack r).

(** * Clock *)

Definition ATH9K_CLOCK_RATE_CCK : Z := 22.
Definition ATH9K_CLOCK_RATE_5GHZ_OFDM : Z := 40.
Definition ATH9K_CLOCK_RATE_2GHZ_OFDM : Z := 44.
Definition ATH9K_CLOCK_FAST_RATE_5GHZ_OFDM : Z := 44.

Definition ath9k_hw_set_clockrate (ah : ath_hw) : ath_hw :=
  let rate :=
    if async_fifo ah then 117
    else match curchan ah with
         | None => ATH9K_CLOCK_RATE_CCK
         | Some chan => if IS_CHAN_2GHZ chan then ATH9K_CLOCK_RATE_2GHZ_OFDM
                        else if fastclock ah then ATH9K_CLOCK_FAST_RATE_5GHZ_OFDM else ATH9K_CLOCK_RATE_5GHZ_OFDM
         end in
  let rate :=
    match curchan ah with
    | None => rate
    | Some chan =>
        let rate := if IS_CHAN_HT40 chan then rate * 2 else rate in
        let rate := if IS_CHAN_HALF_RATE chan then cdiv rate 2 else rate in
        if IS_CHAN_QUARTER_RATE chan then cdiv rate 4 else rate
    end in
  ah <| ah_common ::= fun c => c <| clockrate := rate |> |>.

Definition ath9k_hw_mac_to_clks (c : ath_common) (usecs : Z) : Z := u32 (u32 usecs * clockrate c).

(** * Times *)

Definition ath9k_hw_set_sifs_time (us : Z) (c : ath_common) : ath_common :=
  REG_WRITE AR_D_GBL_IFS_SIFS (Z.min (ath9k_hw_mac_to_clks c (us - 2)) 0xFFFF) c.
Definition ath9k_hw_setslottime (us : Z) (c : ath_common) : ath_common :=
  REG_WRITE AR_D_GBL_IFS_SLOT (Z.min (ath9k_hw_mac_to_clks c us) 0xFFFF) c.
Definition ath9k_hw_set_ack_timeout (us : Z) (c : ath_common) : ath_common :=
  REG_RMW_FIELD AR_TIME_OUT AR_TIME_OUT_ACK (Z.min (ath9k_hw_mac_to_clks c us) (MS 0xFFFFFFFF AR_TIME_OUT_ACK)) c.
Definition ath9k_hw_set_cts_timeout (us : Z) (c : ath_common) : ath_common :=
  REG_RMW_FIELD AR_TIME_OUT AR_TIME_OUT_CTS (Z.min (ath9k_hw_mac_to_clks c us) (MS 0xFFFFFFFF AR_TIME_OUT_CTS)) c.

Definition ath9k_hw_set_global_txtimeout (tu : Z) (ah : ath_hw) : bool * ath_hw :=
  if 0xFFFF <? tu then (false, ah <| globaltxtimeout := u32 (-1) |>)
  else (true, ah <| ah_common ::= REG_RMW_FIELD AR_GTXTO AR_GTXTO_TIMEOUT_LIMIT tu |> <| globaltxtimeout := tu |>).

(** Latencies, inter-frame spaces and the slot time of a channel. *)
Record chan_times := { rx_lat : Z; tx_lat : Z; eifs : Z; sifstime : Z; ack_offset : Z; ct_slottime : Z }.

Definition channel_times (ah : ath_hw) (chan : Z) : outcome chan_times :=
  let fast := IS_CHAN_5GHZ chan && fastclock ah in
  let rx := if fast then 41 else 37 in
  let tx := 54 in
  if IS_CHAN_HALF_RATE chan then
    Ok {| rx_lat := rx * 2; tx_lat := if fast then tx * 2 + 11 else tx * 2; eifs := 175; sifstime := 32; ack_offset := 16; ct_slottime := 13 |}
  else if IS_CHAN_QUARTER_RATE chan then
    Ok {| rx_lat := rx * 4 - 1; tx_lat := if fast then tx * 4 + 22 else tx * 4; eifs := 340; sifstime := 64; ack_offset := 32; ct_slottime := 21 |}
  else if negb (async_fifo ah) && (clockrate (ah_common ah) =? 0) then Oops
  else
    let '(ei, reg) :=
      if async_fifo ah then (AR_D_GBL_IFS_EIFS_ASYNC_FIFO, AR_USEC_ASYNC_FIFO)
      else (cdiv (REG_READ (ah_common ah) AR_D_GBL_IFS_EIFS) (clockrate (ah_common ah)), REG_READ (ah_common ah) AR_USEC) in
    Ok {| rx_lat := MS reg AR_USEC_RX_LAT; tx_lat := MS reg AR_USEC_TX_LAT; eifs := ei; sifstime := if IS_CHAN_5GHZ chan then 16 else 10;
          ack_offset := 0; ct_slottime := s32 (slottime ah) |}.

Definition ath9k_hw_init_global_settings (ah : ath_hw) : outcome ath_hw :=
  match curchan ah with
  | None => Ok ah
  | Some chan =>
      let ah := if negb (misc_mode ah =? 0) then ah <| ah_common ::= REG_SET_BIT AR_PCU_MISC (misc_mode ah) |> else ah in
      obind (channel_times ah chan) (fun t =>
      let slot := ct_slottime t + 3 * coverage_class ah in
      let acktimeout := slot + sifstime t + ack_offset t in
      let ctstimeout := acktimeout in
      let '(acktimeout, ctstimeout) :=
        if IS_CHAN_2GHZ chan && negb (IS_CHAN_HALF_RATE chan) && negb (IS_CHAN_QUARTER_RATE chan)
        then (s32 (acktimeout + 64 - sifstime t - slottime ah), s32 (ctstimeout + 48 - sifstime t - slottime ah)) else (acktimeout, ctstimeout) in
      let '(acktimeout, ctstimeout, slot, ah) :=
        if da_enabled (dynack ah) then
          let acktimeout := da_ackto (dynack ah) in (acktimeout, acktimeout, cdiv (acktimeout - 3) 2, ah)
        else (acktimeout, ctstimeout, slot, ah <| dynack ::= fun d => d <| da_ackto := acktimeout |> |>) in
      let ah := ah <| ah_common ::= fun c =>
        ath9k_hw_set_cts_timeout ctstimeout (ath9k_hw_set_ack_timeout acktimeout (ath9k_hw_setslottime slot (ath9k_hw_set_sifs_time (sifstime t) c))) |> in
      let ah := if negb (globaltxtimeout ah =? u32 (-1)) then snd (ath9k_hw_set_global_txtimeout (globaltxtimeout ah) ah) else ah in
      Ok (ah <| ah_common ::= fun c =>
        let c := REG_WRITE AR_D_GBL_IFS_EIFS (ath9k_hw_mac_to_clks c (eifs t)) c in
        REG_RMW AR_USEC (u32 (clockrate c - 1) .| SM (rx_lat t) AR_USEC_RX_LAT .| SM (tx_lat t) AR_USEC_TX_LAT)
          (f_mask AR_USEC_TX_LAT .| f_mask AR_USEC_RX_LAT .| AR_USEC_USEC) c |>))
  end.

(** * The registers of the receive filter *)

Definition ATH9K_RX_FILTER_CONTROL_WRAPPER : Z := 0x00080000.

Definition ath9k_hw_getrxfilter (c : ath_common) : Z :=
  let bits := REG_READ c AR_RX_FILTER in
  let phybits := REG_READ c AR_PHY_ERR in
  let bits := if has phybits AR_PHY_ERR_RADAR then bits .| ATH9K_RX_FILTER_PHYRADAR else bits in
  if has phybits (AR_PHY_ERR_OFDM_TIMING .| AR_PHY_ERR_CCK_TIMING) then bits .| ATH9K_RX_FILTER_PHYERR else bits.

Definition ath9k_hw_setrxfilter (bits : Z) (ah : ath_hw) : ath_hw :=
  let bits := if control_wrapper ah then bits .| ATH9K_RX_FILTER_CONTROL_WRAPPER else bits in
  ah <| ah_common ::= fun c =>
    let c := REG_WRITE AR_RX_FILTER bits c in
    let phybits := if has bits ATH9K_RX_FILTER_PHYRADAR then AR_PHY_ERR_RADAR else 0 in
    let phybits := if has bits ATH9K_RX_FILTER_PHYERR then phybits .| (AR_PHY_ERR_OFDM_TIMING .| AR_PHY_ERR_CCK_TIMING) else phybits in
    let c := REG_WRITE AR_PHY_ERR phybits c in
    if negb (phybits =? 0) then REG_SET_BIT AR_RXCFG AR_RXCFG_ZLFDMA c else REG_CLR_BIT AR_RXCFG AR_RXCFG_ZLFDMA c |>.

(** * The registers after an operation *)

(** A field is updated alone. *)
Lemma rmw_read a f v c : f_mask f = Z.ones 32 .& f_mask f ->
  REG_READ (REG_RMW_FIELD a f v c) a = u32 (clr (REG_READ c a) (f_mask f)) .| SM v f.
Proof.
  intros Hf. unfold REG_RMW_FIELD, REG_RMW. rewrite read_write_eq. unfold u32. change 4294967296 with (2 ^ 32).
  rewrite <- !Z.land_ones by lia. rewrite Z.land_lor_distr_l. f_equal.
  unfold SM. by rewrite <- Z.land_assoc, (Z.land_comm (f_mask f)), <- Hf.
Qed.

Lemma rmw_same a f v c w : f_mask f = Z.ones w .<< f_S f -> 0 <= f_S f -> 0 <= w -> f_S f + w <= 32 -> 0 <= v < 2 ^ w ->
  MS (REG_READ (REG_RMW_FIELD a f v c) a) f = v.
Proof.
  intros Hf HS Hw H32 Hv.
  assert (f_mask f = Z.ones 32 .& f_mask f) as Hm.
  { rewrite Hf. apply Z.bits_inj'. intros n Hn. rewrite Z.land_spec, Z.shiftl_spec by lia.
    destruct (Z.testbit (Z.ones w) (n - f_S f)) eqn:E; [|by rewrite andb_false_r]. rewrite Z.testbit_ones in E by lia. rewrite Z.testbit_ones by lia.
    symmetry. rewrite andb_true_r. apply andb_true_intro; split; [apply Z.leb_le|apply Z.ltb_lt]; lia. }
  rewrite rmw_read by done. rewrite MS_lor, (MS_SM v f w) by lia.
  rewrite (Z.mod_small v) by lia. replace (MS _ f) with 0; [done|]. symmetry. unfold MS, clr, u32. change 4294967296 with (2 ^ 32). rewrite <- Z.land_ones by lia.
  rewrite <- Z.land_assoc, <- Hm. rewrite Z.land_ldiff. by rewrite Z.shiftr_0_l.
Qed.

Lemma rmw_other a f g v c : f_mask f .& f_mask g = 0 -> f_mask f = Z.ones 32 .& f_mask f -> f_mask g = Z.ones 32 .& f_mask g ->
  MS (REG_READ (REG_RMW_FIELD a f v c) a) g = MS (REG_READ c a) g.
Proof.
  intros Hd Hf Hg. rewrite rmw_read by done. rewrite MS_lor, MS_SM_disjoint, Z.lor_0_r by done.
  unfold MS, clr, u32. f_equal. change 4294967296 with (2 ^ 32). rewrite <- Z.land_ones by lia. rewrite <- Z.land_assoc, <- Hg.
  apply Z.bits_inj'. intros n Hn. rewrite !Z.land_spec, Z.ldiff_spec.
  assert (Z.testbit (f_mask f) n && Z.testbit (f_mask g) n = false) as H by (by rewrite <- Z.land_spec, Hd, Z.bits_0).
  by destruct (Z.testbit (REG_READ c a) n), (Z.testbit (f_mask f) n), (Z.testbit (f_mask g) n).
Qed.

Lemma ticks_small c us : 0 <= us -> 0 <= clockrate c -> us * clockrate c < 2 ^ 32 -> us < 2 ^ 32 -> ath9k_hw_mac_to_clks c us = us * clockrate c.
Proof. intros. unfold ath9k_hw_mac_to_clks. rewrite (u32_id us) by (unfold in_u32; lia). apply u32_id. unfold in_u32. nia. Qed.

Lemma rmw_inside r M K F : F .& M = F -> F = Z.ones 32 .& F -> u32 (clr r M .| K) .& F = K .& F.
Proof.
  intros HM HF. unfold u32, clr. change 4294967296 with (2 ^ 32). rewrite <- Z.land_ones, <- Z.land_assoc, <- HF by lia.
  rewrite Z.land_lor_distr_l. replace (Z.ldiff r M .& F) with 0; [done|].
  rewrite <- HM, (Z.land_comm F), Z.land_assoc, Z.land_ldiff. by rewrite Z.land_0_l.
Qed.

Definition ticks (c : ath_common) (us bound : Z) : Z := Z.min (ath9k_hw_mac_to_clks c us) bound.

(** Where the settings go. *)
Lemma set_times_registers us_sifs us_slot us_ack us_cts c :
  let c' := ath9k_hw_set_cts_timeout us_cts (ath9k_hw_set_ack_timeout us_ack (ath9k_hw_setslottime us_slot (ath9k_hw_set_sifs_time us_sifs c))) in
  REG_READ c' AR_D_GBL_IFS_SIFS = ticks c (us_sifs - 2) 0xFFFF /\ REG_READ c' AR_D_GBL_IFS_SLOT = ticks c us_slot 0xFFFF /\
  MS (REG_READ c' AR_TIME_OUT) AR_TIME_OUT_ACK = ticks c us_ack 0x3FFF /\ MS (REG_READ c' AR_TIME_OUT) AR_TIME_OUT_CTS = ticks c us_cts 0x3FFF /\
  clockrate c' = clockrate c /\
  forall a, a <> AR_D_GBL_IFS_SIFS -> a <> AR_D_GBL_IFS_SLOT -> a <> AR_TIME_OUT -> REG_READ c' a = REG_READ c a.
Proof.
  intros c'. assert (forall us b c1, 0 <= b -> 0 <= ticks c1 us b <= b) as Hr.
  { intros us b c1 Hb. unfold ticks, ath9k_hw_mac_to_clks. pose proof (u32_range (u32 us * clockrate c1)). unfold in_u32 in *. lia. }
  assert (forall us b c1, 0 <= b < 65536 -> u32 (ticks c1 us b) = ticks c1 us b) as Hu by (intros us b c1 Hb; apply u32_id; pose proof (Hr us b c1); unfold in_u32; lia).
  set (c1 := ath9k_hw_set_sifs_time us_sifs c) in *. set (c2 := ath9k_hw_setslottime us_slot c1) in *. set (c3 := ath9k_hw_set_ack_timeout us_ack c2) in *.
  assert (forall a, a <> AR_TIME_OUT -> REG_READ c' a = REG_READ c2 a) as H2.
  { intros a Ha. unfold c', ath9k_hw_set_cts_timeout, REG_RMW_FIELD, REG_RMW. rewrite read_write_ne by done.
    unfold c3, ath9k_hw_set_ack_timeout, REG_RMW_FIELD, REG_RMW. by rewrite read_write_ne. }
  assert (forall us w, w = 14 -> 0 <= ticks c us (2 ^ w - 1) < 2 ^ w) as Hw by (intros us w ->; pose proof (Hr us (2 ^ 14 - 1) c); lia).
  split_and!.
  - rewrite H2 by done. unfold c2, ath9k_hw_setslottime. rewrite read_write_ne by done. unfold c1, ath9k_hw_set_sifs_time. rewrite read_write_eq. exact (Hu _ 65535 c ltac:(lia)).
  - rewrite H2 by done. unfold c2, ath9k_hw_setslottime. rewrite read_write_eq. exact (Hu _ 65535 c ltac:(lia)).
  - unfold c', ath9k_hw_set_cts_timeout. rewrite rmw_other by done. unfold c3, ath9k_hw_set_ack_timeout.
    apply (rmw_same _ _ _ _ 14); [done|done|lia|done|]. exact (Hw us_ack 14 eq_refl).
  - unfold c', ath9k_hw_set_cts_timeout. apply (rmw_same _ _ _ _ 14); [done|done|lia|done|]. exact (Hw us_cts 14 eq_refl).
  - done.
  - intros a Ha Hb Hc. rewrite H2 by done. unfold c2, ath9k_hw_setslottime. rewrite read_write_ne by done. unfold c1, ath9k_hw_set_sifs_time. by rewrite read_write_ne.
Qed.

Lemma keep_global_txtimeout ah :
  let ah' := if negb (globaltxtimeout ah =? u32 (-1)) then snd (ath9k_hw_set_global_txtimeout (globaltxtimeout ah) ah) else ah in
  (forall a, a <> AR_GTXTO -> REG_READ (ah_common ah') a = REG_READ (ah_common ah) a) /\
  clockrate (ah_common ah') = clockrate (ah_common ah) /\ dynack ah' = dynack ah.
Proof.
  unfold ath9k_hw_set_global_txtimeout. destruct (negb _); [|done]. destruct (0xFFFF <? _); [done|]. split; [|done]. intros a Hn.
  cbn [snd ah_common upd]. unfold REG_RMW_FIELD, REG_RMW. by rewrite read_write_ne.
Qed.

Lemma set_latencies ei rx tx c : let K := u32 (clockrate c - 1) .| SM rx AR_USEC_RX_LAT .| SM tx AR_USEC_TX_LAT in
  let c' := REG_RMW AR_USEC K (f_mask AR_USEC_TX_LAT .| f_mask AR_USEC_RX_LAT .| AR_USEC_USEC) (REG_WRITE AR_D_GBL_IFS_EIFS ei c) in
  clockrate c' = clockrate c /\ REG_READ c' AR_D_GBL_IFS_EIFS = u32 ei /\ REG_READ c' AR_USEC .& AR_USEC_USEC = K .& AR_USEC_USEC /\
  MS (REG_READ c' AR_USEC) AR_USEC_TX_LAT = MS K AR_USEC_TX_LAT /\ MS (REG_READ c' AR_USEC) AR_USEC_RX_LAT = MS K AR_USEC_RX_LAT /\
  forall a, a <> AR_USEC -> a <> AR_D_GBL_IFS_EIFS -> REG_READ c' a = REG_READ c a.
Proof.
  intros K c'. assert (forall a, a <> AR_USEC -> REG_READ c' a = REG_READ (REG_WRITE AR_D_GBL_IFS_EIFS ei c) a) as H
    by (intros a Ha; unfold c', REG_RMW; by rewrite read_write_ne).
  unfold MS. unfold c' at 3 4 5. unfold REG_RMW. rewrite !read_write_eq, !rmw_inside by done. split_and!; try done.
  - rewrite H by done. by rewrite read_write_eq.
  - intros a Ha Hb. rewrite H by done. by rewrite read_write_ne.
Qed.

(** A channel of 10 MHz at 5.9 GHz, as the platform uses it: the clock is set
    to 22 MHz, and the times of 802.11p are written in ticks of this clock. But
    the latency of the receiver, 82, is wider than its field and is written as
    18. *)
Theorem half_rate_settings ah chan :
  curchan ah = Some chan -> IS_CHAN_5GHZ chan = true -> IS_CHAN_HALF_RATE chan = true -> IS_CHAN_QUARTER_RATE chan = false -> IS_CHAN_HT40 chan = false ->
  fastclock ah = true -> async_fifo ah = false -> da_enabled (dynack ah) = false -> 0 <= coverage_class ah <= 200 ->
  exists ah', ath9k_hw_init_global_settings (ath9k_hw_set_clockrate ah) = Ok ah' /\
    let c := ah_common ah' in let slot := 13 + 3 * coverage_class ah in
    clockrate c = 22 /\ REG_READ c AR_D_GBL_IFS_SIFS = 30 * 22 /\ REG_READ c AR_D_GBL_IFS_SLOT = slot * 22 /\
    MS (REG_READ c AR_TIME_OUT) AR_TIME_OUT_ACK = (slot + 48) * 22 /\ MS (REG_READ c AR_TIME_OUT) AR_TIME_OUT_CTS = (slot + 48) * 22 /\
    REG_READ c AR_D_GBL_IFS_EIFS = 175 * 22 /\ REG_READ c AR_USEC .& AR_USEC_USEC = 21 /\ MS (REG_READ c AR_USEC) AR_USEC_TX_LAT = 119 /\
    MS (REG_READ c AR_USEC) AR_USEC_RX_LAT = 18 /\ da_ackto (dynack ah') = slot + 48.
Proof.
  intros Hc H5 Hh Hq H40 Hf Ha Hd Hcov.
  assert (ath9k_hw_set_clockrate ah = ah <| ah_common ::= fun c => c <| clockrate := 22 |> |>) as ->.
  { unfold ath9k_hw_set_clockrate, IS_CHAN_2GHZ. by rewrite Ha, Hc, H5, Hf, H40, Hh, Hq. }
  set (ah1 := ah <| ah_common ::= _ |>). unfold ath9k_hw_init_global_settings. change (curchan ah1) with (curchan ah). rewrite Hc.
  set (ah2 := if negb (misc_mode ah1 =? 0) then _ else ah1).
  assert (fastclock ah2 = true /\ coverage_class ah2 = coverage_class ah /\ dynack ah2 = dynack ah /\ clockrate (ah_common ah2) = 22)
    as (Hf2 & Hc2 & Hd2 & Hr2) by (unfold ah2; by destruct (negb _)).
  assert (channel_times ah2 chan = Ok {| rx_lat := 82; tx_lat := 119; eifs := 175; sifstime := 32; ack_offset := 16; ct_slottime := 13 |}) as ->
    by (unfold channel_times; by rewrite Hh, H5, Hf2).
  cbn [obind rx_lat tx_lat eifs sifstime ack_offset ct_slottime]. unfold IS_CHAN_2GHZ. rewrite H5, Hd2, Hd, Hc2. cbn [negb andb].
  set (slot := 13 + 3 * coverage_class ah). clearbody ah2.
  destruct (set_times_registers 32 slot (slot + 32 + 16) (slot + 32 + 16) (ah_common ah2)) as (R1 & R2 & R3 & R4 & R5 & _).
  set (c1 := ath9k_hw_set_cts_timeout _ _) in *.
  assert (forall us b, 0 <= us <= 1000 -> us * 22 <= b -> ticks (ah_common ah2) us b = us * 22) as Ht.
  { intros us b Hus Hb. unfold ticks. rewrite ticks_small by (rewrite ?Hr2; lia). rewrite Hr2. lia. }
  rewrite Ht in R1, R2, R3, R4 by lia. rewrite Hr2 in R5.
  set (ah3 := (ah2 <| dynack ::= _ |>) <| ah_common ::= _ |>). destruct (keep_global_txtimeout ah3) as (R & R6 & R7). set (ah4 := if negb _ then _ else ah3) in *.
  change (ah_common ah3) with c1 in *. change (dynack ah3) with ((dynack ah2) <| da_ackto := slot + 32 + 16 |>) in *. clearbody ah4.
  destruct (set_latencies (ath9k_hw_mac_to_clks (ah_common ah4) 175) 82 119 (ah_common ah4)) as (S1 & S2 & S3 & S4 & S5 & S).
  eexists. split; [reflexivity|]. cbv zeta. cbn [ah_common dynack upd].
  match goal with |- clockrate ?c = _ /\ _ => change c with (REG_RMW AR_USEC (u32 (clockrate (ah_common ah4) - 1) .| SM 82 AR_USEC_RX_LAT .| SM 119 AR_USEC_TX_LAT)
    (f_mask AR_USEC_TX_LAT .| f_mask AR_USEC_RX_LAT .| AR_USEC_USEC) (REG_WRITE AR_D_GBL_IFS_EIFS (ath9k_hw_mac_to_clks (ah_common ah4) 175) (ah_common ah4))) end.
  set (c6 := REG_RMW _ _ _ _) in *. clearbody c6.
  rewrite S1, S2, S3, S4, S5, !S, !R, R6, R5, R1, R2, R3, R4, R7 by done. unfold ath9k_hw_mac_to_clks. rewrite R6, R5.
  split_and!; try reflexivity; cbn [da_ackto upd]; lia.
Qed.

Lemma lor_present x n : 0 <= n -> has x (2 ^ n) = true -> x .| 2 ^ n = x.
Proof.
  intros Hn H. rewrite has_pow2 in H by done. apply Z.bits_inj'. intros i Hi. rewrite Z.lor_spec, Z.pow2_bits_eqb by done.
  destruct (Z.eqb_spec n i) as [->|]; [by rewrite H|by rewrite orb_false_r].
Qed.

(** The receive filter that has been set is read back. *)
Theorem rxfilter_roundtrip bits ah : in_u32 bits ->
  ath9k_hw_getrxfilter (ah_common (ath9k_hw_setrxfilter bits ah)) = if control_wrapper ah then bits .| ATH9K_RX_FILTER_CONTROL_WRAPPER else bits.
Proof.
  intros Hb. unfold ath9k_hw_setrxfilter. cbn [ah_common upd]. set (b := if control_wrapper ah then _ else bits).
  assert (in_u32 b) as Hb'.
  { unfold b. destruct (control_wrapper ah); [|done]. unfold in_u32 in *. split; [apply Z.lor_nonneg; split; [lia|done]|].
    change 4294967296 with (2 ^ 32). destruct (Z.eq_dec (bits .| ATH9K_RX_FILTER_CONTROL_WRAPPER) 0) as [->|]; [lia|].
    apply Z.log2_lt_pow2; [pose proof (Z.lor_nonneg bits ATH9K_RX_FILTER_CONTROL_WRAPPER); assert (0 <= ATH9K_RX_FILTER_CONTROL_WRAPPER) by done; lia|].
    rewrite Z.log2_lor by (done || lia). apply Z.max_lub_lt; [|reflexivity]. destruct (Z.eq_dec bits 0) as [->|]; [reflexivity|]. apply Z.log2_lt_pow2; lia. }
  set (phy := if has b ATH9K_RX_FILTER_PHYERR then _ else _).
  assert (forall c, ath9k_hw_getrxfilter (if negb (phy =? 0) then REG_SET_BIT AR_RXCFG AR_RXCFG_ZLFDMA (REG_WRITE AR_PHY_ERR phy (REG_WRITE AR_RX_FILTER b c))
      else REG_CLR_BIT AR_RXCFG AR_RXCFG_ZLFDMA (REG_WRITE AR_PHY_ERR phy (REG_WRITE AR_RX_FILTER b c))) =
    let bits := if has (u32 phy) AR_PHY_ERR_RADAR then b .| ATH9K_RX_FILTER_PHYRADAR else b in
    if has (u32 phy) (AR_PHY_ERR_OFDM_TIMING .| AR_PHY_ERR_CCK_TIMING) then bits .| ATH9K_RX_FILTER_PHYERR else bits) as ->.
  { intros c. unfold ath9k_hw_getrxfilter, REG_SET_BIT, REG_CLR_BIT, REG_RMW.
    destruct (negb _); rewrite !(read_write_ne AR_RXCFG), read_write_eq, (read_write_ne AR_PHY_ERR), read_write_eq, (u32_id b) by done; done. }
  unfold phy. clear phy. clearbody b. cbv zeta.
  destruct (has b ATH9K_RX_FILTER_PHYRADAR) eqn:E1, (has b ATH9K_RX_FILTER_PHYERR) eqn:E2;
    repeat match goal with |- context [has (u32 ?x) ?m] => let v := eval vm_compute in (has (u32 x) m) in change (has (u32 x) m) with v end; cbv iota;
    change ATH9K_RX_FILTER_PHYRADAR with (2 ^ 13) in *; change ATH9K_RX_FILTER_PHYERR with (2 ^ 8) in *; rewrite ?(lor_present b 13), ?(lor_present b 8) by done; done.
Qed.

(** * Witnesses *)

Definition hw_common : ath_common :=
  {| macaddr := [2; 0; 0; 0; 0; 2]; bssidmask := replicate 6 255; keymax := 128; keymap := 0; tkip_keymap := 0; ccmp_keymap := 0; crypt_caps := 0; clockrate := 0;
     cc_ani := {| cc_cycles := 0; cc_rx_busy := 0; cc_rx_frame := 0; cc_tx_frame := 0 |};
     cc_survey := {| cc_cycles := 0; cc_rx_busy := 0; cc_rx_frame := 0; cc_tx_frame := 0 |}; regs := ∅; reg_log := [] |}.
Definition zero_dynack : ath_dynack :=
  {| da_enabled := false; da_ackto := 0; da_lto := 0; da_nodes := []; ack_rbf := {| rx_h_rb := 0; rx_t_rb := 0; rx_tstamp := replicate 64 0 |};
     st_rbf := {| tx_h_rb := 0; tx_t_rb := 0; tx_addr := replicate 64 {| h_dest := []; h_src := [] |}; tx_ts := replicate 64 {| tstamp := 0; dur := 0 |} |} |}.
(** An AR9300 on a channel of 10 MHz at 5.9 GHz. *)
Definition hw_11p : ath_hw :=
  {| ah_common := hw_common; curchan := Some (CHANNEL_5GHZ .| CHANNEL_HALF); async_fifo := false; fastclock := true; control_wrapper := false;
     misc_mode := 0; coverage_class := 0; slottime := 9; globaltxtimeout := u32 (-1); dynack := zero_dynack |}.

Lemma half_rate_settings_witness : exists ah', ath9k_hw_init_global_settings (ath9k_hw_set_clockrate hw_11p) = Ok ah' /\
  REG_READ (ah_common ah') AR_D_GBL_IFS_SLOT = 286 /\ MS (REG_READ (ah_common ah') AR_USEC) AR_USEC_RX_LAT = 18.
Proof.
  destruct (half_rate_settings hw_11p (CHANNEL_5GHZ .| CHANNEL_HALF)) as (ah' & E & _ & _ & H1 & _ & _ & _ & _ & _ & H2 & _); try done.
  exists ah'. by split_and!.
Defined.

Lemma rxfilter_roundtrip_witness : ath9k_hw_getrxfilter (ah_common (ath9k_hw_setrxfilter 0x2107 hw_11p)) = 0x2107.
Proof. apply (rxfilter_roundtrip 0x2107 hw_11p). unfold in_u32. lia. Defined.
