(* ===== verification/Dynack.v ===== *)
(** The dynamic ACK timeout (src/real/ath/ath9k/dynack.c) and its switching
    (main.c): for every station the time between the end of a transmission and
    its ACK is estimated, and the largest estimate becomes the ACK timeout of
    the hardware.

    The time stamps of transmissions and of received ACKs wait in two rings of
    64 entries; [ath_dynack_compute_to] pairs them. [jiffies] is a clock of 32
    bits that advances with [HZ] ticks per second. The station table of
    mac80211, the flags of the bit rates of a band, and the state of the receive
    filter are parameters. *)

From S2P Require Import Prelude KeyCache Desc RxFrame HwTiming.

Definition ATH_DYN_BUF : Z := 64.
Definition LATEACK_TO : Z := 256.
Definition MAX_DELAY : Z := 300.
Definition EWMA_LEVEL : Z := 96.
Definition EWMA_DIV : Z := 128.
Definition CCK_SIFS_TIME : Z := 10.
Definition OFDM_SIFS_TIME : Z := 16.
Definition OFDM_SIFS_TIME_HALF : Z := 32.
Definition OFDM_SIFS_TIME_QUARTER : Z := 64.
Definition ATH9K_SLOT_TIME_9 : Z := 9.

(** [INCR(_l, _sz)] on a [u16]. *)
Definition INCR (l sz : Z) : Z := u16 (l + 1) .& (sz - 1).

(** mac80211 *)
Definition IEEE80211_BAND_2GHZ : Z := 0.
Definition IEEE80211_TX_RC_MCS : Z := BIT 3.
Definition IEEE80211_RATE_ERP_G : Z := BIT 4.
Definition ieee80211_is_assoc_req (fc : Z) : bool := fc .& (IEEE80211_FCTL_FTYPE .| IEEE80211_FCTL_STYPE) =? 0x0000.
Definition ieee80211_is_assoc_resp (fc : Z) : bool := fc .& (IEEE80211_FCTL_FTYPE .| IEEE80211_FCTL_STYPE) =? 0x0010.

(** What [ath_dynack_sample_tx_ts] is told about a frame: header, the control
    information of mac80211, and the transmit status. *)
Record tx_report := {
  no_ack : bool;               (* IEEE80211_TX_CTL_NO_ACK *)
  tx_frame_control : Z;
  tx_addr1 : list Z;
  tx_addr2 : list Z;
  tx_rates : list (Z * Z);     (* idx and flags of status.rates *)
  tx_band : Z;
  tx_status : ath_tx_status;
  duration : Z;                (* u32 *)
}.

(** The driver: [node_ackto] holds [ackto] of every [struct ath_node]; the
    memory of a new node is zero. *)
Record dyn_state := { hw : ath_hw; node_ackto : gmap Z Z; jiffies : Z }.
#[export] Instance eta_dyn_state : Eta dyn_state := fun r => Build_dyn_state (hw r) (node_ackto r) (jiffies r).
Definition ackto_of (an : Z) (s : dyn_state) : Z := default 0 (node_ackto s !! an).
Definition da (s : dyn_state) : ath_dynack := dynack (hw s).

(** [a] lies before [b] on the clock. *)
Definition time_is_before (a b : Z) : bool := s32 (a - b) <? 0.

Definition ath_dynack_ewma (old new : Z) : Z := cdiv (u32 (new * (EWMA_DIV - EWMA_LEVEL) + old * EWMA_LEVEL)) EWMA_DIV.

Inductive rc_phy := WLAN_RC_PHY_OFDM | WLAN_RC_PHY_CCK.
(** [curchan] is not null while frames are sent. *)
Definition ath_dynack_get_sifs (ah : ath_hw) (phy : rc_phy) : outcome Z :=
  match phy with
  | WLAN_RC_PHY_CCK => Ok CCK_SIFS_TIME
  | WLAN_RC_PHY_OFDM =>
      match curchan ah with
      | None => Oops
      | Some chan => Ok (if IS_CHAN_QUARTER_RATE chan then OFDM_SIFS_TIME_QUARTER
                         else if IS_CHAN_HALF_RATE chan then OFDM_SIFS_TIME_HALF else OFDM_SIFS_TIME)
      end
  end.

Definition ath_dynack_bssidmask (c : ath_common) (mac : list Z) : bool :=
  forallb (fun i => byte_at (macaddr c) i .& byte_at (bssidmask c) i =? byte_at mac i .& byte_at (bssidmask c) i) (seq 0 6).

(** * The timeout of the hardware *)

Definition set_timeouts (slot to : Z) (ah : ath_hw) : ath_hw :=
  ah <| ah_common ::= fun c => ath9k_hw_set_cts_timeout to (ath9k_hw_set_ack_timeout to (ath9k_hw_setslottime slot c)) |>.

Definition ath_dynack_compute_ackto (s : dyn_state) : dyn_state :=
  let to := foldl (fun to an => if to <? ackto_of an s then ackto_of an s else to) 0 (da_nodes (da s)) in
  if negb (to =? 0) && negb (u32 (da_ackto (da s)) =? to) then
    let slottime := cdiv (u32 (to - 3)) 2 in
    let s := s <| hw ::= fun ah => ah <| dynack ::= fun d => d <| da_ackto := s32 to |> |> |> in
    s <| hw ::= set_timeouts slottime (da_ackto (da s)) |>
  else s.

Section Dynack.
Context (HZ : Z) (rate_flags : Z -> Z -> option Z).

Definition COMPUTE_TO : Z := 5 * HZ.
Definition LATEACK_DELAY : Z := 10 * HZ.

Section Find.
Context (ieee80211_find_sta_by_ifaddr : list Z -> list Z -> option Z).

Definition rb_next_ack (s : dyn_state) : dyn_state :=
  s <| hw ::= fun ah => ah <| dynack ::= fun d => d <| ack_rbf ::= fun r => r <| rx_h_rb ::= fun h => INCR h ATH_DYN_BUF |> |> |> |>.
Definition rb_next_st (s : dyn_state) : dyn_state :=
  s <| hw ::= fun ah => ah <| dynack ::= fun d => d <| st_rbf ::= fun r => r <| tx_h_rb ::= fun h => INCR h ATH_DYN_BUF |> |> |> |>.

(** A station that has been found gets the new sample. *)
Definition sample_station (an ackto : Z) (s : dyn_state) : dyn_state :=
  let s := s <| node_ackto ::= <[an := ath_dynack_ewma (ackto_of an s) ackto]> |> in
  if time_is_before (da_lto (da s)) (jiffies s) then
    let s := ath_dynack_compute_ackto s in
    s <| hw ::= fun ah => ah <| dynack ::= fun d => d <| da_lto := u32 (jiffies s + COMPUTE_TO) |> |> |>
  else s.

(** The loop of [ath_dynack_compute_to]. *)
Fixpoint compute_to_loop (fuel : nat) (s : dyn_state) : outcome dyn_state :=
  let st := st_rbf (da s) in let ack := ack_rbf (da s) in
  if (tx_h_rb st =? tx_t_rb st) || (rx_h_rb ack =? rx_t_rb ack) then Ok s
  else
    match fuel with
    | O => Oops
    | S fuel =>
        match rx_tstamp ack !! Z.to_nat (rx_h_rb ack), tx_ts st !! Z.to_nat (tx_h_rb st), tx_addr st !! Z.to_nat (tx_h_rb st) with
        | Some ack_ts, Some st_ts, Some addr =>
            if u32 (tstamp st_ts + dur st_ts) <? ack_ts then
              let ackto := u32 (ack_ts - tstamp st_ts - dur st_ts) in
              let s :=
                if ackto <? MAX_DELAY then
                  rb_next_ack match ieee80211_find_sta_by_ifaddr (h_dest addr) (h_src addr) with
                              | Some an => sample_station an ackto s
                              | None => s
                              end
                else s in
              compute_to_loop fuel (rb_next_st s)
            else compute_to_loop fuel (rb_next_ack s)
        | _, _, _ => Oops
        end
    end.
(** Every round takes an entry from one of the rings. *)
Definition ath_dynack_compute_to (s : dyn_state) : outcome dyn_state := compute_to_loop 126 s.

(** * Samples *)

(** The duration that the hardware reports includes the inter-frame space
    unless the rate is one of 802.11n. *)
Definition sample_duration (r : tx_report) (ah : ath_hw) : outcome Z :=
  match tx_rates r !! Z.to_nat (ts_rateindex (tx_status r)) with
  | None => Oops
  | Some (idx, flags) =>
      if has flags IEEE80211_TX_RC_MCS then Ok (duration r)
      else
        match rate_flags (tx_band r) idx with
        | None => Oops
        | Some rate =>
            let phy := if (tx_band r =? IEEE80211_BAND_2GHZ) && negb (has rate IEEE80211_RATE_ERP_G) then WLAN_RC_PHY_CCK else WLAN_RC_PHY_OFDM in
            obind (ath_dynack_get_sifs ah phy) (fun sifs => Ok (u32 (duration r - sifs)))
        end
  end.

Definition push_st (x : ts_info) (addr : haddr_pair) (r : ath_dyn_txbuf) : ath_dyn_txbuf :=
  let r := r <| tx_ts ::= <[Z.to_nat (tx_t_rb r) := x]> |> <| tx_addr ::= <[Z.to_nat (tx_t_rb r) := addr]> |> in
  let r := r <| tx_t_rb ::= fun t => INCR t ATH_DYN_BUF |> in
  if tx_t_rb r =? tx_h_rb r then r <| tx_h_rb ::= fun h => INCR h ATH_DYN_BUF |> else r.
Definition push_ack (x : Z) (r : ath_dyn_rxbuf) : ath_dyn_rxbuf :=
  let r := r <| rx_tstamp ::= <[Z.to_nat (rx_t_rb r) := x]> |> in
  let r := r <| rx_t_rb ::= fun t => INCR t ATH_DYN_BUF |> in
  if rx_t_rb r =? rx_h_rb r then r <| rx_h_rb ::= fun h => INCR h ATH_DYN_BUF |> else r.

Definition ath_dynack_sample_tx_ts (r : tx_report) (s : dyn_state) : outcome dyn_state :=
  if no_ack r || negb (da_enabled (da s)) then Ok s
  else if has (ts_status (tx_status r)) ATH9K_TXERR_XRETRY then
    if ieee80211_is_assoc_req (tx_frame_control r) || ieee80211_is_assoc_resp (tx_frame_control r) then
      let s := s <| hw ::= set_timeouts (cdiv (LATEACK_TO - 3) 2) LATEACK_TO |> in
      Ok (s <| hw ::= fun ah => ah <| dynack ::= fun d => d <| da_lto := u32 (jiffies s + LATEACK_DELAY) |> |> |>)
    else Ok s
  else
    obind (sample_duration r (hw s)) (fun d =>
    let st := {| tstamp := ts_tstamp (tx_status r); dur := d |} in
    let addr := {| h_dest := tx_addr1 r; h_src := tx_addr2 r |} in
    ath_dynack_compute_to (s <| hw ::= fun ah => ah <| dynack ::= fun d => d <| st_rbf ::= push_st st addr |> |> |>)).

(** [addr1]: the receiver of the ACK frame. *)
Definition ath_dynack_sample_ack_ts (addr1 : list Z) (ts : Z) (s : dyn_state) : outcome dyn_state :=
  if negb (ath_dynack_bssidmask (ah_common (hw s)) addr1) || negb (da_enabled (da s)) then Ok s
  else ath_dynack_compute_to (s <| hw ::= fun ah => ah <| dynack ::= fun d => d <| ack_rbf ::= push_ack ts |> |> |>).
End Find.

(** * Nodes and switching *)

Definition INITIAL_ACKTO : Z := ATH9K_SLOT_TIME_9 + 16 + 64.

(** [list_add_tail] of a node that is in the list already, and [list_del] of
    one that is not, destroy the list. *)
Definition ath_dynack_node_init (an : Z) (s : dyn_state) : outcome dyn_state :=
  if decide (an ∈ da_nodes (da s)) then Oops
  else Ok (s <| node_ackto ::= <[an := INITIAL_ACKTO]> |> <| hw ::= fun ah => ah <| dynack ::= fun d => d <| da_nodes ::= fun l => l ++ [an] |> |> |>).
Definition ath_dynack_node_deinit (an : Z) (s : dyn_state) : outcome dyn_state :=
  if decide (an ∈ da_nodes (da s))
  then Ok (s <| hw ::= fun ah => ah <| dynack ::= fun d => d <| da_nodes ::= filter (fun x => x <> an) |> |> |>) else Oops.

Definition ath_dynack_reset (s : dyn_state) : dyn_state :=
  let s := s <| hw ::= fun ah => ah <| dynack ::= fun d =>
    d <| da_lto := jiffies s |> <| da_ackto := INITIAL_ACKTO |>
      <| st_rbf ::= fun r => r <| tx_t_rb := 0 |> <| tx_h_rb := 0 |> |> <| ack_rbf ::= fun r => r <| rx_t_rb := 0 |> <| rx_h_rb := 0 |> |> |> |> in
  s <| hw ::= set_timeouts (cdiv (INITIAL_ACKTO - 3) 2) INITIAL_ACKTO |>.

Definition ath_dynack_init : ath_dynack :=
  {| da_enabled := false; da_ackto := 0; da_lto := 0; da_nodes := [];
     ack_rbf := {| rx_h_rb := 0; rx_t_rb := 0; rx_tstamp := replicate 64 0 |};
     st_rbf := {| tx_h_rb := 0; tx_t_rb := 0; tx_addr := replicate 64 {| h_dest := replicate 6 0; h_src := replicate 6 0 |};
                  tx_ts := replicate 64 {| tstamp := 0; dur := 0 |} |} |}.

(** [rx]: the state that the receive filter is computed from. *)
Definition update_rxfilter (rx : rx_env) (s : dyn_state) : dyn_state :=
  s <| hw ::= ath9k_hw_setrxfilter (ath_calcrxfilter (rx <| dynack_enabled := da_enabled (da s) |>)) |>.
Definition ath9k_enable_dynack (rx : rx_env) (s : dyn_state) : dyn_state :=
  let s := ath_dynack_reset s in
  update_rxfilter rx (s <| hw ::= fun ah => ah <| dynack ::= fun d => d <| da_enabled := true |> |> |>).
Definition ath9k_set_coverage_class (rx : rx_env) (class : Z) (s : dyn_state) : outcome dyn_state :=
  if 0 <=? class then
    let s := s <| hw ::= fun ah => ah <| coverage_class := class |> |> in
    let s :=
      if da_enabled (da s)
      then update_rxfilter rx (s <| hw ::= fun ah => ah <| dynack ::= fun d => d <| da_enabled := false |> |> |>) else s in
    obind (ath9k_hw_init_global_settings (hw s)) (fun ah => Ok (s <| hw := ah |>))
  else if negb (da_enabled (da s)) then Ok (ath9k_enable_dynack rx s)
  else Ok s.
End Dynack.

(** * The rings as queues *)

#[local] Ltac Zify.zify_post_hook ::= Z.to_euclidean_division_equations.

(** The [n] entries from position [h] on. *)
Definition ring {A} `{Inhabited A} (h n : nat) (l : list A) : list A := (fun i => l !!! ((h + i) `mod` 64)%nat) <$> seq 0 n.

Section Ring.
Context {A : Type} `{Inhabited A}.
Implicit Types l : list A.

Lemma ring_length h n l : length (ring h n l) = n.
Proof. unfold ring. by rewrite length_fmap, length_seq. Qed.

Lemma ring_shift h n l : ring h n l = ring (h `mod` 64) n l.
Proof. unfold ring. apply list_fmap_ext. intros _ i _. by rewrite Nat.Div0.add_mod_idemp_l. Qed.

Lemma ring_cons h n l : ring h (S n) l = l !!! (h `mod` 64)%nat :: ring (S h) n l.
Proof.
  unfold ring. cbn [seq fmap list_fmap]. rewrite Nat.add_0_r. f_equal. rewrite <- fmap_S_seq, <- list_fmap_compose.
  apply list_fmap_ext. intros _ i _. cbn [compose]. f_equal. f_equal. lia.
Qed.

Lemma ring_snoc h n l x : length l = 64%nat -> (n < 64)%nat ->
  ring h (S n) (<[((h + n) `mod` 64)%nat := x]> l) = ring h n l ++ [x].
Proof.
  intros Hl Hn. unfold ring. rewrite seq_S, fmap_app. cbn [fmap list_fmap]. rewrite Nat.add_0_l.
  assert ((h + n) `mod` 64 < 64)%nat by (apply Nat.mod_upper_bound; lia).
  f_equal; [|by rewrite list_lookup_total_insert_eq by lia].
  apply list_fmap_ext. intros k i [-> Hi]%lookup_seq. rewrite Nat.add_0_l. apply list_lookup_total_insert_ne.
  intros E. apply (f_equal Z.of_nat) in E. rewrite !Nat2Z.inj_mod, !Nat2Z.inj_add in E. change (Z.of_nat 64) with 64 in E. lia.
Qed.
End Ring.

Lemma INCR_mod i : 0 <= i < 64 -> INCR i ATH_DYN_BUF = (i + 1) mod 64.
Proof. intros Hi. unfold INCR, ATH_DYN_BUF. rewrite u16_id by (unfold in_u16; lia). change (64 - 1) with (Z.ones 6). by rewrite Z.land_ones. Qed.

(** The number of entries of a ring. *)
Definition rlen (h t : Z) : nat := Z.to_nat ((t - h) mod 64).
Definition ring_at {A} `{Inhabited A} (h t : Z) (l : list A) : list A := ring (Z.to_nat h) (rlen h t) l.
Definition at_ok (i : Z) : Prop := 0 <= i < 64.
(** The last 63 entries. *)
Definition keep {A} (l : list A) : list A := drop (length l - 63) l.

Section RingAt.
Context {A : Type} `{Inhabited A}.
Implicit Types l : list A.

Lemma rlen_le h t : (rlen h t <= 63)%nat.
Proof. unfold rlen. lia. Qed.
Lemma rlen_pop h t : at_ok h -> at_ok t -> h <> t -> rlen h t = S (rlen (INCR h ATH_DYN_BUF) t).
Proof. unfold at_ok, rlen. intros. rewrite INCR_mod by done. lia. Qed.
Lemma INCR_ok h : at_ok h -> at_ok (INCR h ATH_DYN_BUF).
Proof. unfold at_ok. intros. rewrite INCR_mod by done. lia. Qed.

Lemma ring_at_nil h l : ring_at h h l = [].
Proof. unfold ring_at, rlen. by rewrite Z.sub_diag. Qed.

Lemma ring_at_incr h n l : at_ok h -> ring (Z.to_nat (INCR h ATH_DYN_BUF)) n l = ring (S (Z.to_nat h)) n l.
Proof.
  intros Hh. rewrite (ring_shift (S _)). f_equal. rewrite INCR_mod by done. unfold at_ok in Hh.
  apply Nat2Z.inj. rewrite Nat2Z.inj_mod, Nat2Z.inj_succ, !Z2Nat.id by lia. done.
Qed.

Lemma ring_at_pop h t l : at_ok h -> at_ok t -> length l = 64%nat -> h <> t ->
  exists x, l !! Z.to_nat h = Some x /\ ring_at h t l = x :: ring_at (INCR h ATH_DYN_BUF) t l.
Proof.
  intros Hh Ht Hl Hn. unfold ring_at. rewrite rlen_pop, ring_cons, ring_at_incr by done. unfold at_ok in Hh.
  rewrite Nat.mod_small by lia. destruct (lookup_lt_is_Some_2 l (Z.to_nat h)) as [x Hx]; [lia|]. exists x. split; [done|]. f_equal. by apply list_lookup_total_correct.
Qed.

Lemma ring_at_push h t l x : at_ok h -> at_ok t -> length l = 64%nat ->
  let t' := INCR t ATH_DYN_BUF in let l' := <[Z.to_nat t := x]> l in
  ring_at (if t' =? h then INCR h ATH_DYN_BUF else h) t' l' = keep (ring_at h t l ++ [x]).
Proof.
  intros Hh Ht Hl t' l'.
  assert (ring (Z.to_nat h) (S (rlen h t)) l' = ring_at h t l ++ [x]) as Hs.
  { unfold ring_at, l'. rewrite <- (ring_snoc _ _ _ x) by (try done; pose proof (rlen_le h t); lia). f_equal. f_equal.
    apply Nat2Z.inj. unfold rlen, at_ok in *. rewrite Nat2Z.inj_mod, Nat2Z.inj_add, !Z2Nat.id by lia. change (Z.of_nat 64) with 64. lia. }
  unfold keep. rewrite length_app. unfold ring_at at 2. rewrite ring_length. cbn [length].
  pose proof (INCR_ok t Ht) as Ht'. destruct (Z.eqb_spec t' h) as [E|E].
  - assert (rlen h t = 63%nat) as Hr by (unfold rlen, t', at_ok in *; rewrite INCR_mod in E by done; lia). rewrite Hr in *.
    rewrite <- Hs, ring_cons. change (63 + 1 - 63)%nat with 1%nat. cbn [drop]. rewrite drop_0. unfold ring_at. rewrite ring_at_incr by done. f_equal.
    rewrite E. clear -Hh. unfold rlen, at_ok in *. rewrite INCR_mod by done. lia.
  - assert (rlen h t' = S (rlen h t) /\ rlen h t < 63)%nat as (Hr & Hr2) by (unfold rlen, t', at_ok in *; rewrite INCR_mod in * by done; lia).
    rewrite <- Hs. replace (rlen h t + 1 - 63)%nat with 0%nat by lia. unfold ring_at. by rewrite Hr.
Qed.
End RingAt.

(** * Pairing *)

#[export] Instance ts_info_inhabited : Inhabited ts_info := populate {| tstamp := 0; dur := 0 |}.
#[export] Instance haddr_pair_inhabited : Inhabited haddr_pair := populate {| h_dest := []; h_src := [] |}.

(** A transmission with its addresses. *)
Definition sample : Type := ts_info * haddr_pair.

Record rings_ok (s : dyn_state) : Prop := {
  ro_sth : at_ok (tx_h_rb (st_rbf (da s))); ro_stt : at_ok (tx_t_rb (st_rbf (da s)));
  ro_ackh : at_ok (rx_h_rb (ack_rbf (da s))); ro_ackt : at_ok (rx_t_rb (ack_rbf (da s)));
  ro_ts : length (tx_ts (st_rbf (da s))) = 64%nat; ro_addr : length (tx_addr (st_rbf (da s))) = 64%nat;
  ro_acks : length (rx_tstamp (ack_rbf (da s))) = 64%nat;
}.
Definition tx_items (r : ath_dyn_txbuf) : list sample :=
  zip (ring_at (tx_h_rb r) (tx_t_rb r) (tx_ts r)) (ring_at (tx_h_rb r) (tx_t_rb r) (tx_addr r)).
Definition rx_items (r : ath_dyn_rxbuf) : list Z := ring_at (rx_h_rb r) (rx_t_rb r) (rx_tstamp r).
Definition st_items (s : dyn_state) : list sample := tx_items (st_rbf (da s)).
Definition ack_items (s : dyn_state) : list Z := rx_items (ack_rbf (da s)).

(** The ACK [t] lies after the end of [x], by the returned delay. *)
Definition after (x : ts_info) (t : Z) : bool := u32 (tstamp x + dur x) <? t.
Definition delay (x : ts_info) (t : Z) : Z := u32 (t - tstamp x - dur x).

(** How waiting transmissions and ACKs are paired: [ps] are the pairs, and what
    is left over stays in the queues. *)
Inductive pairing : list sample -> list Z -> list (sample * Z) -> list sample -> list Z -> Prop :=
  | pair_stop q a : q = [] \/ a = [] -> pairing q a [] q a
  | pair_hit x q t a ps q' a' : after x.1 t = true -> delay x.1 t < MAX_DELAY ->
      pairing q a ps q' a' -> pairing (x :: q) (t :: a) ((x, t) :: ps) q' a'
  | pair_lost x q t a ps q' a' : after x.1 t = true -> MAX_DELAY <= delay x.1 t ->
      pairing q (t :: a) ps q' a' -> pairing (x :: q) (t :: a) ps q' a'
  | pair_early x q t a ps q' a' : after x.1 t = false ->
      pairing (x :: q) a ps q' a' -> pairing (x :: q) (t :: a) ps q' a'.

Definition with_heads (h1 h2 : Z) (s : dyn_state) : dyn_state :=
  s <| hw ::= fun ah => ah <| dynack ::= fun d => d <| st_rbf ::= fun r => r <| tx_h_rb := h1 |> |> <| ack_rbf ::= fun r => r <| rx_h_rb := h2 |> |> |> |>.

Section Pairing.
Context (HZ : Z) (find : list Z -> list Z -> option Z).

Definition sample_pair (s : dyn_state) (p : sample * Z) : dyn_state :=
  match find (h_dest p.1.2) (h_src p.1.2) with
  | Some an => sample_station HZ an (delay p.1.1 p.2) s
  | None => s
  end.

Lemma sample_rings s p : st_rbf (da (sample_pair s p)) = st_rbf (da s) /\ ack_rbf (da (sample_pair s p)) = ack_rbf (da s).
Proof.
  unfold sample_pair, sample_station. destruct (find _ _); [|done]. destruct (time_is_before _ _); [|done].
  unfold ath_dynack_compute_ackto. destruct (negb _ && negb _); done.
Qed.

Lemma sample_heads h1 h2 s p : sample_pair (with_heads h1 h2 s) p = with_heads h1 h2 (sample_pair s p).
Proof.
  destruct s as [[c ch af fc cw mm cov sl gt [en ak lt nd [rh rt rs] [th tt ta ts]]] nodes j].
  unfold sample_pair, sample_station, ath_dynack_compute_ackto, with_heads, da, ackto_of. destruct (find _ _) as [an|]; [|done].
  cbn [hw dynack upd node_ackto jiffies da_lto da_nodes da_ackto eta eta_dyn_state eta_ath_hw eta_ath_dynack eta_ath_dyn_txbuf eta_ath_dyn_rxbuf ack_rbf st_rbf
    ah_common curchan async_fifo fastclock control_wrapper misc_mode coverage_class slottime globaltxtimeout da_enabled].
  destruct (time_is_before lt j); [|done]. set (to := foldl _ 0 nd). destruct (negb (to =? 0) && negb (u32 ak =? to)); done.
Qed.

Lemma heads_twice a b c d s : with_heads a b (with_heads c d s) = with_heads a b s.
Proof. done. Qed.
Lemma heads_id s : with_heads (tx_h_rb (st_rbf (da s))) (rx_h_rb (ack_rbf (da s))) s = s.
Proof. by destruct s as [[c ch af fc cw mm cov sl gt [en ak lt nd [rh rt rs] [th tt ta ts]]] nodes j]. Qed.
Lemma fold_heads h1 h2 s ps : foldl sample_pair (with_heads h1 h2 s) ps = with_heads h1 h2 (foldl sample_pair s ps).
Proof. revert s. induction ps as [|p ps IH]; intros s; [done|]. cbn [foldl]. by rewrite sample_heads, IH. Qed.
Lemma next_ack_heads s : rb_next_ack s = with_heads (tx_h_rb (st_rbf (da s))) (INCR (rx_h_rb (ack_rbf (da s))) ATH_DYN_BUF) s.
Proof. by destruct s as [[c ch af fc cw mm cov sl gt [en ak lt nd [rh rt rs] [th tt ta ts]]] nodes j]. Qed.
Lemma next_st_heads s : rb_next_st s = with_heads (INCR (tx_h_rb (st_rbf (da s))) ATH_DYN_BUF) (rx_h_rb (ack_rbf (da s))) s.
Proof. by destruct s as [[c ch af fc cw mm cov sl gt [en ak lt nd [rh rt rs] [th tt ta ts]]] nodes j]. Qed.

(** What the loop looks at. *)
Lemma st_items_pop s : rings_ok s -> tx_h_rb (st_rbf (da s)) <> tx_t_rb (st_rbf (da s)) -> exists x ad q,
  tx_ts (st_rbf (da s)) !! Z.to_nat (tx_h_rb (st_rbf (da s))) = Some x /\ tx_addr (st_rbf (da s)) !! Z.to_nat (tx_h_rb (st_rbf (da s))) = Some ad /\
  st_items s = (x, ad) :: q /\ st_items (rb_next_st s) = q /\ ack_items (rb_next_st s) = ack_items s /\ rings_ok (rb_next_st s).
Proof.
  intros [H1 H2 H3 H4 H5 H6 H7] Hn.
  destruct (ring_at_pop _ _ _ H1 H2 H5 Hn) as (x & Hx & Ex). destruct (ring_at_pop _ _ _ H1 H2 H6 Hn) as (ad & Ha & Ea).
  eexists x, ad, _. unfold st_items, tx_items. rewrite Ex, Ea. split_and!; try done.
  split; try done. cbn. by apply INCR_ok.
Qed.
Lemma ack_items_pop s : rings_ok s -> rx_h_rb (ack_rbf (da s)) <> rx_t_rb (ack_rbf (da s)) -> exists t a,
  rx_tstamp (ack_rbf (da s)) !! Z.to_nat (rx_h_rb (ack_rbf (da s))) = Some t /\ ack_items s = t :: a /\
  ack_items (rb_next_ack s) = a /\ st_items (rb_next_ack s) = st_items s /\ rings_ok (rb_next_ack s).
Proof.
  intros [H1 H2 H3 H4 H5 H6 H7] Hn. destruct (ring_at_pop _ _ _ H3 H4 H7 Hn) as (t & Ht & Et).
  eexists t, _. unfold ack_items, rx_items. rewrite Et. split_and!; try done. split; try done. cbn. by apply INCR_ok.
Qed.

Lemma sample_items s p : rings_ok s ->
  rings_ok (sample_pair s p) /\ st_items (sample_pair s p) = st_items s /\ ack_items (sample_pair s p) = ack_items s.
Proof.
  intros [H1 H2 H3 H4 H5 H6 H7]. destruct (sample_rings s p) as [E1 E2]. unfold st_items, ack_items. rewrite E1, E2.
  split; [|done]. split; rewrite ?E1, ?E2; done.
Qed.

(** The loop ends, and pairs what waits in the rings. *)
Lemma compute_to_loop_spec fuel : forall s, rings_ok s -> (length (st_items s) + length (ack_items s) <= fuel)%nat ->
  exists s' ps h1 h2, compute_to_loop HZ find fuel s = Ok s' /\ rings_ok s' /\
    pairing (st_items s) (ack_items s) ps (st_items s') (ack_items s') /\ s' = with_heads h1 h2 (foldl sample_pair s ps).
Proof.
  induction fuel as [|fuel IH]; intros s H Hf; cbn [compute_to_loop].
  all: destruct ((tx_h_rb (st_rbf (da s)) =? tx_t_rb (st_rbf (da s))) || (rx_h_rb (ack_rbf (da s)) =? rx_t_rb (ack_rbf (da s)))) eqn:E.
  1, 3: exists s, []; do 2 eexists; split_and!; [done|done| |symmetry; apply heads_id]; constructor;
    apply orb_true_iff in E as [E|E]; apply Z.eqb_eq in E; [left; unfold st_items, tx_items|right; unfold ack_items, rx_items]; by rewrite E, !ring_at_nil.
  all: apply orb_false_iff in E as [E1%Z.eqb_neq E2%Z.eqb_neq];
    destruct (st_items_pop s H E1) as (x & ad & q & Hx & Had & Eq & Eq' & Ea' & Hs), (ack_items_pop s H E2) as (t & a & Ht & Ea & Ea2 & Eq2 & Hk).
  { rewrite Eq, Ea in Hf. cbn in Hf. lia. }
  rewrite Ht, Hx, Had. rewrite Eq, Ea in *. cbn [length] in Hf. change (u32 (tstamp x + dur x) <? t) with (after x t). destruct (after x t) eqn:Ex.
  - change (u32 (t - tstamp x - dur x)) with (delay x t). destruct (Z.ltb_spec (delay x t) MAX_DELAY) as [Hd|Hd].
    + fold (sample_pair s (x, ad, t)). set (s1 := rb_next_st (rb_next_ack _)).
      destruct (sample_items s (x, ad, t) H) as (Hp & Ep1 & Ep2). destruct (sample_rings s (x, ad, t)) as [R1 R2].
      assert (rings_ok s1 /\ st_items s1 = q /\ ack_items s1 = a) as (H1 & Eq1 & Ea1).
      { destruct (ack_items_pop _ Hp) as (t2 & a2 & _ & Et2 & Ea3 & Eq3 & Hk3); [by rewrite R2|]. rewrite Ep2, Ea in Et2. injection Et2 as <- <-.
        destruct (st_items_pop _ Hk3) as (x2 & ad2 & q2 & _ & _ & Ex2 & Eq4 & Ea4 & Hs4); [change (tx_h_rb (st_rbf (da (sample_pair s (x, ad, t)))) <> tx_t_rb (st_rbf (da (sample_pair s (x, ad, t))))); by rewrite R1|].
        rewrite Eq3, Ep1, Eq in Ex2. injection Ex2 as <- <- <-. split_and!; [done|done|exact (eq_trans Ea4 Ea3)]. }
      destruct (IH s1 H1) as (s' & ps & h1 & h2 & E & Hs' & Hp' & Es'); [rewrite Eq1, Ea1; lia|].
      exists s', ((x, ad, t) :: ps), h1, h2. split_and!; [done|done|rewrite Eq1, Ea1 in Hp'; by constructor|].
      cbn [foldl]. rewrite Es'. unfold s1. rewrite next_st_heads, next_ack_heads, heads_twice, fold_heads, heads_twice. done.
    + destruct (IH (rb_next_st s) Hs) as (s' & ps & h1 & h2 & E & Hs' & Hp' & Es'); [rewrite Eq', Ea'; cbn; lia|].
      exists s', ps, h1, h2. split_and!; [done|done|rewrite Eq', Ea' in Hp'; by constructor|].
      rewrite Es', next_st_heads, fold_heads. apply heads_twice.
  - destruct (IH (rb_next_ack s) Hk) as (s' & ps & h1 & h2 & E & Hs' & Hp' & Es'); [rewrite Ea2, Eq2; cbn; lia|].
    exists s', ps, h1, h2. split_and!; [done|done|rewrite Ea2, Eq2 in Hp'; by constructor|].
    rewrite Es', next_ack_heads, fold_heads. apply heads_twice.
Qed.

Lemma items_length s : rings_ok s -> (length (st_items s) <= 63 /\ length (ack_items s) <= 63)%nat.
Proof.
  intros H. unfold st_items, tx_items, ack_items, rx_items, ring_at. rewrite length_zip_with, !ring_length.
  pose proof (rlen_le (tx_h_rb (st_rbf (da s))) (tx_t_rb (st_rbf (da s)))). pose proof (rlen_le (rx_h_rb (ack_rbf (da s))) (rx_t_rb (ack_rbf (da s)))). lia.
Qed.
End Pairing.

(** * Refinement *)

(** What an operation on samples leaves alone. *)
Record keeps (s s' : dyn_state) : Prop := {
  kp_chan : curchan (hw s') = curchan (hw s);
  kp_mac : macaddr (ah_common (hw s')) = macaddr (ah_common (hw s));
  kp_mask : bssidmask (ah_common (hw s')) = bssidmask (ah_common (hw s));
  kp_enabled : da_enabled (da s') = da_enabled (da s);
  kp_nodes : da_nodes (da s') = da_nodes (da s);
  kp_time : jiffies s' = jiffies s;
}.
#[export] Instance keeps_preorder : PreOrder keeps.
Proof. split; [by split|]. intros s1 s2 s3 [] []. split; congruence. Qed.

Lemma sample_duration_chan rf r s s' : keeps s s' -> sample_duration rf r (hw s') = sample_duration rf r (hw s).
Proof. intros [E _ _ _ _ _]. unfold sample_duration, ath_dynack_get_sifs. by rewrite E. Qed.
Lemma bssidmask_keeps s s' mac : keeps s s' -> ath_dynack_bssidmask (ah_common (hw s')) mac = ath_dynack_bssidmask (ah_common (hw s)) mac.
Proof. intros [_ E1 E2 _ _ _]. unfold ath_dynack_bssidmask. by rewrite E1, E2. Qed.

(** The abstract machine: two queues of at most 63 samples, and the estimates. *)
Record dyn_abs := { ab_tx : list sample; ab_ack : list Z; ab_est : gmap Z Z }.
Inductive dyn_event := TxReport (r : tx_report) | AckFrame (addr1 : list Z) (ts : Z).

Section Refine.
Context (HZ : Z) (rate_flags : Z -> Z -> option Z) (find : list Z -> list Z -> option Z).

Definition est_pair (m : gmap Z Z) (p : sample * Z) : gmap Z Z :=
  match find (h_dest p.1.2) (h_src p.1.2) with
  | Some an => <[an := ath_dynack_ewma (default 0 (m !! an)) (delay p.1.1 p.2)]> m
  | None => m
  end.

(** [s0]: the hardware state, of which only the channel and the addresses
    matter. *)
Inductive abs_step (s0 : dyn_state) : dyn_event -> dyn_abs -> dyn_abs -> Prop :=
  | abs_ignored_tx r a : no_ack r = true \/ has (ts_status (tx_status r)) ATH9K_TXERR_XRETRY = true -> abs_step s0 (TxReport r) a a
  | abs_ignored_ack addr1 ts a : ath_dynack_bssidmask (ah_common (hw s0)) addr1 = false -> abs_step s0 (AckFrame addr1 ts) a a
  | abs_tx r d a q' a' ps : no_ack r = false -> has (ts_status (tx_status r)) ATH9K_TXERR_XRETRY = false ->
      sample_duration rate_flags r (hw s0) = Ok d ->
      pairing (keep (ab_tx a ++ [({| tstamp := ts_tstamp (tx_status r); dur := d |}, {| h_dest := tx_addr1 r; h_src := tx_addr2 r |})])) (ab_ack a) ps q' a' ->
      abs_step s0 (TxReport r) a {| ab_tx := q'; ab_ack := a'; ab_est := foldl est_pair (ab_est a) ps |}
  | abs_ack addr1 ts a q' a' ps : ath_dynack_bssidmask (ah_common (hw s0)) addr1 = true ->
      pairing (ab_tx a) (keep (ab_ack a ++ [ts])) ps q' a' ->
      abs_step s0 (AckFrame addr1 ts) a {| ab_tx := q'; ab_ack := a'; ab_est := foldl est_pair (ab_est a) ps |}.
Inductive abs_run (s0 : dyn_state) : list dyn_event -> dyn_abs -> dyn_abs -> Prop :=
  | abs_nil a : abs_run s0 [] a a
  | abs_cons ev l a1 a2 a3 : abs_step s0 ev a1 a2 -> abs_run s0 l a2 a3 -> abs_run s0 (ev :: l) a1 a3.

Definition dyn_exec (ev : dyn_event) (s : dyn_state) : outcome dyn_state :=
  match ev with
  | TxReport r => ath_dynack_sample_tx_ts HZ rate_flags find r s
  | AckFrame addr1 ts => ath_dynack_sample_ack_ts HZ find addr1 ts s
  end.
Definition dyn_run (l : list dyn_event) (s : dyn_state) : outcome dyn_state := foldl (fun o ev => obind o (dyn_exec ev)) (Ok s) l.
Definition abs_of (s : dyn_state) : dyn_abs := {| ab_tx := st_items s; ab_ack := ack_items s; ab_est := node_ackto s |}.

(** The rate of a reported frame is known. *)
Definition event_ok (s0 : dyn_state) (ev : dyn_event) : Prop :=
  match ev with TxReport r => exists d, sample_duration rate_flags r (hw s0) = Ok d | AckFrame _ _ => True end.

Lemma sample_keeps s p : keeps s (sample_pair HZ find s p) /\ node_ackto (sample_pair HZ find s p) = est_pair (node_ackto s) p.
Proof.
  unfold sample_pair, est_pair, sample_station. destruct (find _ _) as [an|]; [|by split].
  destruct (time_is_before _ _); [|by split]. unfold ath_dynack_compute_ackto. destruct (negb _ && negb _); by split.
Qed.
Lemma fold_keeps ps : forall s, keeps s (foldl (sample_pair HZ find) s ps) /\ node_ackto (foldl (sample_pair HZ find) s ps) = foldl est_pair (node_ackto s) ps.
Proof.
  induction ps as [|p ps IH]; intros s; cbn [foldl]; [by split|]. destruct (sample_keeps s p) as [K E], (IH (sample_pair HZ find s p)) as [K' E'].
  split; [by transitivity (sample_pair HZ find s p)|]. by rewrite E', E.
Qed.

Lemma compute_to_spec s : rings_ok s -> exists s' ps, ath_dynack_compute_to HZ find s = Ok s' /\ rings_ok s' /\ keeps s s' /\
  pairing (st_items s) (ack_items s) ps (st_items s') (ack_items s') /\ node_ackto s' = foldl est_pair (node_ackto s) ps.
Proof.
  intros H. destruct (items_length s H). destruct (compute_to_loop_spec HZ find 126 s H) as (s' & ps & h1 & h2 & E & Hs & Hp & Es); [lia|].
  exists s', ps. destruct (fold_keeps ps s) as [[] E']. subst s'. split_and!; try done.
Qed.

Definition push_tx (x : ts_info) (ad : haddr_pair) (s : dyn_state) : dyn_state := s <| hw ::= fun ah => ah <| dynack ::= fun d => d <| st_rbf ::= push_st x ad |> |> |>.
Definition push_rx (t : Z) (s : dyn_state) : dyn_state := s <| hw ::= fun ah => ah <| dynack ::= fun d => d <| ack_rbf ::= push_ack t |> |> |>.

Lemma keep_zip {A B} (l : list A) (k : list B) x y : length l = length k -> zip (keep (l ++ [x])) (keep (k ++ [y])) = keep (zip l k ++ [(x, y)]).
Proof.
  intros E. unfold keep. rewrite !length_app, length_zip_with, <- E, Nat.min_id, <- zip_with_drop, zip_with_app by done. done.
Qed.

Lemma push_st_eq x ad r : push_st x ad r =
  {| tx_h_rb := if INCR (tx_t_rb r) ATH_DYN_BUF =? tx_h_rb r then INCR (tx_h_rb r) ATH_DYN_BUF else tx_h_rb r; tx_t_rb := INCR (tx_t_rb r) ATH_DYN_BUF;
     tx_addr := <[Z.to_nat (tx_t_rb r) := ad]> (tx_addr r); tx_ts := <[Z.to_nat (tx_t_rb r) := x]> (tx_ts r) |}.
Proof. destruct r as [h t a l]. unfold push_st. cbn. by destruct (INCR t ATH_DYN_BUF =? h). Qed.
Lemma push_ack_eq t r : push_ack t r =
  {| rx_h_rb := if INCR (rx_t_rb r) ATH_DYN_BUF =? rx_h_rb r then INCR (rx_h_rb r) ATH_DYN_BUF else rx_h_rb r; rx_t_rb := INCR (rx_t_rb r) ATH_DYN_BUF;
     rx_tstamp := <[Z.to_nat (rx_t_rb r) := t]> (rx_tstamp r) |}.
Proof. destruct r as [h u l]. unfold push_ack. cbn. by destruct (INCR u ATH_DYN_BUF =? h). Qed.

Lemma push_tx_spec x ad s : rings_ok s ->
  rings_ok (push_tx x ad s) /\ st_items (push_tx x ad s) = keep (st_items s ++ [(x, ad)]) /\ ack_items (push_tx x ad s) = ack_items s.
Proof.
  intros [H1 H2 H3 H4 H5 H6 H7].
  assert (st_rbf (da (push_tx x ad s)) = push_st x ad (st_rbf (da s))) as E by done. rewrite push_st_eq in E.
  pose proof (INCR_ok _ H1). pose proof (INCR_ok _ H2). split; [|split; [|done]].
  - split; rewrite ?E; cbn [tx_h_rb tx_t_rb tx_ts tx_addr]; try done; rewrite ?length_insert; try done. by destruct (_ =? _).
  - unfold st_items, tx_items. rewrite E. cbn [tx_h_rb tx_t_rb tx_ts tx_addr]. rewrite !ring_at_push by done. apply keep_zip. unfold ring_at. by rewrite !ring_length.
Qed.
Lemma push_rx_spec t s : rings_ok s ->
  rings_ok (push_rx t s) /\ ack_items (push_rx t s) = keep (ack_items s ++ [t]) /\ st_items (push_rx t s) = st_items s.
Proof.
  intros [H1 H2 H3 H4 H5 H6 H7].
  assert (ack_rbf (da (push_rx t s)) = push_ack t (ack_rbf (da s))) as E by done. rewrite push_ack_eq in E.
  pose proof (INCR_ok _ H3). pose proof (INCR_ok _ H4). split; [|split; [|done]].
  - split; rewrite ?E; cbn [rx_h_rb rx_t_rb rx_tstamp]; try done; rewrite ?length_insert; try done. by destruct (_ =? _).
  - unfold ack_items, rx_items. rewrite E. cbn [rx_h_rb rx_t_rb rx_tstamp]. by rewrite ring_at_push.
Qed.

Lemma late_ack_keeps s : rings_ok s -> let s' := (s <| hw ::= set_timeouts (cdiv (LATEACK_TO - 3) 2) LATEACK_TO |>)
    <| hw ::= fun ah => ah <| dynack ::= fun d => d <| da_lto := u32 (jiffies s + LATEACK_DELAY HZ) |> |> |> in
  keeps s s' /\ rings_ok s' /\ abs_of s' = abs_of s.
Proof. intros []. by split_and!. Qed.

(** One event on the rings is one event on the queues. *)
Lemma exec_refines s0 s ev : keeps s0 s -> rings_ok s -> da_enabled (da s) = true -> event_ok s0 ev ->
  exists s', dyn_exec ev s = Ok s' /\ keeps s s' /\ rings_ok s' /\ abs_step s0 ev (abs_of s) (abs_of s').
Proof.
  intros K H En Hok. destruct ev as [r|mac t]; cbn [dyn_exec].
  - unfold ath_dynack_sample_tx_ts. rewrite En. cbn [negb]. rewrite orb_false_r.
    destruct (no_ack r) eqn:Na; [exists s; split_and!; [done|done|done|constructor; by left]|].
    destruct (has _ ATH9K_TXERR_XRETRY) eqn:Ex.
    { destruct (_ || _).
      - destruct (late_ack_keeps s H) as (K' & H' & E'). eexists. split; [reflexivity|]. split_and!; [done|done|].
        change (abs_step s0 (TxReport r) (abs_of s) (abs_of s)). constructor. by right.
      - exists s. split_and!; [done|done|done|constructor; by right]. }
    destruct Hok as [d Hd]. rewrite (sample_duration_chan _ _ s0 s K), Hd. cbn [obind].
    fold (push_tx {| tstamp := ts_tstamp (tx_status r); dur := d |} {| h_dest := tx_addr1 r; h_src := tx_addr2 r |} s).
    set (x := {| tstamp := _; dur := d |}). set (ad := {| h_dest := _; h_src := _ |}). destruct (push_tx_spec x ad s H) as (H1 & E1 & E2).
    destruct (compute_to_spec _ H1) as (s' & ps & E & H' & K' & Hp & Ee). exists s'. split_and!; [done| |done|].
    + transitivity (push_tx x ad s); [by split|done].
    + unfold abs_of at 2. rewrite Ee. apply (abs_tx s0 r d (abs_of s)); [done|done|done|]. by rewrite E1, E2 in Hp.
  - unfold ath_dynack_sample_ack_ts. rewrite En, (bssidmask_keeps s0 s mac K). cbn [negb]. rewrite orb_false_r.
    destruct (ath_dynack_bssidmask _ mac) eqn:Eb; cbn [negb]; [|exists s; split_and!; [done|done|done|by constructor]].
    fold (push_rx t s). destruct (push_rx_spec t s H) as (H1 & E1 & E2).
    destruct (compute_to_spec _ H1) as (s' & ps & E & H' & K' & Hp & Ee). exists s'. split_and!; [done| |done|].
    + transitivity (push_rx t s); [by split|done].
    + unfold abs_of at 2. rewrite Ee. apply (abs_ack s0 mac t (abs_of s)); [done|]. by rewrite E1, E2 in Hp.
Qed.

Lemma dyn_run_cons ev l s : dyn_run (ev :: l) s = obind (dyn_exec ev s) (dyn_run l).
Proof.
  unfold dyn_run. cbn [foldl obind]. destruct (dyn_exec ev s) as [s'|]; [done|]. cbn [obind]. induction l as [|e l IH]; [done|]. exact IH.
Qed.

(** A run of the code is a run of the abstract machine. *)
Lemma dyn_run_simulates s l : rings_ok s -> da_enabled (da s) = true -> Forall (event_ok s) l ->
  exists s', dyn_run l s = Ok s' /\ rings_ok s' /\ keeps s s' /\ abs_run s l (abs_of s) (abs_of s').
Proof.
  intros H En Hl. assert (forall s1, keeps s s1 -> rings_ok s1 ->
    exists s', dyn_run l s1 = Ok s' /\ rings_ok s' /\ keeps s1 s' /\ abs_run s l (abs_of s1) (abs_of s')) as G; [|by apply G].
  induction l as [|ev l IH]; intros s1 K H1; [exists s1; split_and!; [done|done|done|constructor]|].
  apply Forall_cons in Hl as [Hev Hl]. destruct (exec_refines s s1 ev K H1) as (s2 & E & K2 & H2 & A); [by rewrite (kp_enabled _ _ K)|done|].
  destruct (IH Hl s2) as (s' & E' & H' & K' & A'); [by transitivity s1|done|].
  exists s'. rewrite dyn_run_cons, E. split_and!; [done|done|by transitivity s2|by econstructor].
Qed.

(** C29. The rings of 64 entries are queues that keep the latest 63 samples, and
    every call returns: a run of reports and ACKs is a run of the abstract
    machine, in which each ACK is paired with at most one transmission that ended
    less than 300 microseconds before. *)
Theorem dynack_refines s l : rings_ok s -> da_enabled (da s) = true -> Forall (event_ok s) l ->
  exists s', dyn_run l s = Ok s' /\ rings_ok s' /\ keeps s s' /\ abs_run s l (abs_of s) (abs_of s').
Proof. apply dyn_run_simulates. Qed.
End Refine.

Lemma pairing_sound q a ps q' a' : pairing q a ps q' a' ->
  sublist ps.*1 q /\ sublist ps.*2 a /\ (q' = [] \/ a' = []) /\ Forall (fun p => after p.1.1 p.2 = true /\ delay p.1.1 p.2 < MAX_DELAY) ps.
Proof.
  induction 1 as [q a Hn|x q t a ps q' a' H1 H2 Hp (I1 & I2 & I3 & I4)|x q t a ps q' a' H1 H2 Hp (I1 & I2 & I3 & I4)|x q t a ps q' a' H1 Hp (I1 & I2 & I3 & I4)].
  - split_and!; [apply sublist_nil_l|apply sublist_nil_l|done|constructor].
  - split_and!; [by apply sublist_skip|by apply sublist_skip|done|by constructor].
  - split_and!; [by apply sublist_cons|done|done|done].
  - split_and!; [done|by apply sublist_cons|done|done].
Qed.

(** * The estimates *)

Lemma ewma_eq old new : 0 <= old < 300 -> 0 <= new < 300 -> ath_dynack_ewma old new = (new * 32 + old * 96) / 128.
Proof. intros. unfold ath_dynack_ewma, EWMA_DIV, EWMA_LEVEL. rewrite u32_id by (unfold in_u32; lia). apply cdiv_nonneg; lia. Qed.

(** An estimate moves towards the sample: from above at every step, from below
    as long as it is more than three away. *)
Lemma ewma_step old new : 0 <= old < 300 -> 0 <= new < 300 ->
  let r := ath_dynack_ewma old new in
  (new <= old -> new <= r /\ (new < old -> r < old) /\ r <= old) /\ (old < new -> old <= r <= new /\ (old + 4 <= new -> old < r)).
Proof. intros H1 H2 r. unfold r. rewrite ewma_eq by done. lia. Qed.

Lemma ewma_iter d n : forall o, 0 <= d < 300 -> 0 <= o < 300 ->
  let r := Nat.iter n (fun o => ath_dynack_ewma o d) o in
  0 <= r < 300 /\ (d <= o -> d <= r <= Z.max d (o - Z.of_nat n)) /\ (o < d -> Z.min (d - 3) (o + Z.of_nat n) <= r <= d).
Proof.
  induction n as [|n IH]; intros o Hd Ho r; [cbn in *; lia|]. unfold r. rewrite Nat.iter_succ.
  destruct (IH o Hd Ho) as (I1 & I2 & I3). set (x := Nat.iter n _ o) in *. clearbody x.
  destruct (ewma_step x d I1 Hd) as [S1 S2]. cbv zeta in *. lia.
Qed.

Section Converge.
Context (HZ : Z) (rate_flags : Z -> Z -> option Z) (find : list Z -> list Z -> option Z).

(** A frame to the station [an] that is acknowledged after [d]. *)
Definition good_round (s : dyn_state) (an d : Z) (x : tx_report * list Z * Z) : Prop :=
  let '(r, mac, t) := x in
  no_ack r = false /\ has (ts_status (tx_status r)) ATH9K_TXERR_XRETRY = false /\ find (tx_addr1 r) (tx_addr2 r) = Some an /\
  ath_dynack_bssidmask (ah_common (hw s)) mac = true /\
  exists dd, sample_duration rate_flags r (hw s) = Ok dd /\ let x := {| tstamp := ts_tstamp (tx_status r); dur := dd |} in after x t = true /\ delay x t = d.
Definition round_events (x : tx_report * list Z * Z) : list dyn_event := let '(r, mac, t) := x in [TxReport r; AckFrame mac t].

Lemma abs_round s an d x l m a : d < MAX_DELAY -> good_round s an d x ->
  abs_run rate_flags find s (round_events x ++ l) {| ab_tx := []; ab_ack := []; ab_est := m |} a ->
  abs_run rate_flags find s l {| ab_tx := []; ab_ack := []; ab_est := <[an := ath_dynack_ewma (default 0 (m !! an)) d]> m |} a.
Proof.
  intros Hd. destruct x as [[r mac] t]. intros (G1 & G2 & G3 & G4 & dd & G5 & G6 & G7) R. cbn [round_events app] in R.
  inversion R as [|? ? ? a1 ? S1 R1]; subst. inversion R1 as [|? ? ? a2 ? S2 R2]; subst. clear R R1.
  inversion S1 as [? ? [|]| |? d1 ? q1 k1 ps1 _ _ E1 P1|]; subst; [congruence|congruence|]. clear S1.
  rewrite G5 in E1. injection E1 as <-. cbn [ab_tx ab_ack ab_est app] in *. change (keep [?y]) with [y] in P1.
  inversion P1; subst; cbn [foldl] in *.
  inversion S2 as [|? ? ? Hb| |? ? ? q2 k2 ps2 _ P2]; subst; [congruence|]. clear S2 P1. cbn [ab_tx ab_ack ab_est app] in *. change (keep [?y]) with [y] in P2.
  inversion P2 as [? ? [|]|? ? ? ? ps3 ? ? Ha Hl P3|? ? ? ? ? ? ? Ha Hl|? ? ? ? ? ? ? Ha]; subst; cbn [fst] in *; try congruence; try lia.
  inversion P3; subst. cbn [foldl] in R2. unfold est_pair in R2. cbn [fst snd h_dest h_src] in R2. by rewrite G3 in R2.
Qed.

(** C30. Rounds of a frame to a station and its ACK: the report of the frame comes
    first, then the ACK, with nothing between them, on empty rings. When in every
    round the ACK comes the same [d] microseconds after the end of the frame,
    where d is below the 300 microseconds up to which the code takes a sample and
    the 32-bit clock does not wrap from the end of the frame to the ACK, then the
    station's estimate, from any start below 300, reaches [d]: after 300 rounds it
    is d, or at most three microseconds less. *)
Theorem estimate_converges s an d rounds : rings_ok s -> da_enabled (da s) = true -> st_items s = [] -> ack_items s = [] ->
  0 <= ackto_of an s < 300 -> 0 <= d < 300 -> Forall (good_round s an d) rounds -> (300 <= length rounds)%nat ->
  exists s', dyn_run HZ rate_flags find (rounds ≫= round_events) s = Ok s' /\ d - 3 <= ackto_of an s' <= d.
Proof.
  intros H En Eq Ea Ho Hd Hg Hn.
  destruct (dyn_run_simulates HZ rate_flags find s (rounds ≫= round_events) H En) as (s' & E & _ & _ & R).
  { apply Forall_forall. intros ev (x & Hx & Hin)%list_elem_of_bind. rewrite Forall_forall in Hg. specialize (Hg x Hin).
    destruct x as [[r mac] t], Hg as (_ & _ & _ & _ & dd & G & _). cbn in Hx. apply elem_of_cons in Hx as [->|Hx]; [by exists dd|].
    apply list_elem_of_singleton in Hx as ->. done. }
  exists s'. split; [done|]. unfold abs_of in R. rewrite Eq, Ea in R. clear E H En Eq Ea. unfold ackto_of in *.
  assert (forall m, abs_run rate_flags find s (rounds ≫= round_events) {| ab_tx := []; ab_ack := []; ab_est := m |} (abs_of s') ->
    default 0 (node_ackto s' !! an) = Nat.iter (length rounds) (fun o => ath_dynack_ewma o d) (default 0 (m !! an))) as G.
  { clear R Hn. induction Hg as [|x rounds G Hg IH]; intros m R; [by inversion R|].
    rewrite bind_cons in R. apply (abs_round s an d) in R; [|unfold MAX_DELAY; lia|done]. rewrite (IH _ R), lookup_insert_eq. cbn [length default]. by rewrite Nat.iter_succ_r. }
  rewrite (G _ R). destruct (ewma_iter d (length rounds) (default 0 (node_ackto s !! an)) Hd Ho) as (I1 & I2 & I3). cbv zeta in *. lia.
Qed.
End Converge.

(** * Bounds *)

Inductive dyn_op :=
  | Sample (find : list Z -> list Z -> option Z) (ev : dyn_event)
  | Join (an : Z) | Leave (an : Z) | Tick (j : Z) | Coverage (rx : rx_env) (class : Z).

Section Bounds.
Context (HZ : Z).

Record bounded (s : dyn_state) : Prop := {
  bd_all : forall an, 0 <= ackto_of an s < 300;
  bd_ackto : da_enabled (da s) = true -> 1 <= da_ackto (da s) < 300;
}.

Lemma max_ackto s l : forall to, 0 <= to < 300 -> (forall an, 0 <= ackto_of an s < 300) ->
  let m := foldl (fun to an => if to <? ackto_of an s then ackto_of an s else to) to l in
  0 <= m < 300 /\ to <= m /\ (forall an, an ∈ l -> ackto_of an s <= m) /\ (m = to \/ exists an, an ∈ l /\ m = ackto_of an s).
Proof.
  induction l as [|an l IH]; intros to Ht Ha m.
  - cbn in m. subst m. split_and!; [lia|lia|lia|intros an []%not_elem_of_nil|by left].
  - unfold m. cbn [foldl]. set (to' := if to <? ackto_of an s then _ else _). specialize (Ha an) as Han.
    assert (0 <= to' < 300 /\ to <= to' /\ ackto_of an s <= to' /\ (to' = to \/ to' = ackto_of an s)) as (H1 & H2 & H3 & H4).
    { unfold to'. destruct (Z.ltb_spec to (ackto_of an s)); lia. }
    destruct (IH to' H1 Ha) as (I1 & I2 & I3 & I4). split_and!; [lia|lia|lia| |].
    + intros x [->|Hx]%elem_of_cons; [lia|by apply I3].
    + destruct I4 as [->|(x & Hx & Ex)]; [destruct H4 as [->| ->]; [by left|right; exists an; split; [apply elem_of_cons; by left|done]]|].
      right. exists x. split; [apply elem_of_cons; by right|done].
Qed.

(** The timeout becomes the largest estimate. *)
Lemma compute_ackto_max s : (forall an, 0 <= ackto_of an s < 300) -> let m := foldl (fun to an => if to <? ackto_of an s then ackto_of an s else to) 0 (da_nodes (da s)) in
  node_ackto (ath_dynack_compute_ackto s) = node_ackto s /\ da_enabled (da (ath_dynack_compute_ackto s)) = da_enabled (da s) /\
  st_rbf (da (ath_dynack_compute_ackto s)) = st_rbf (da s) /\ ack_rbf (da (ath_dynack_compute_ackto s)) = ack_rbf (da s) /\
  ((0 < m < 300 /\ da_ackto (da (ath_dynack_compute_ackto s)) = m) \/ da_ackto (da (ath_dynack_compute_ackto s)) = da_ackto (da s)).
Proof.
  intros Ha m. destruct (max_ackto s (da_nodes (da s)) 0 ltac:(lia) Ha) as (M1 & _). fold m in M1. unfold ath_dynack_compute_ackto. fold m.
  destruct (negb (m =? 0) && _) eqn:E; [|split_and!; try done; by right]. apply andb_true_iff in E as [E _]. apply negb_true_iff, Z.eqb_neq in E.
  split_and!; try done. left. split; [lia|]. change (s32 m = m). unfold s32. rewrite (u32_id m) by (unfold in_u32; lia). by rewrite (proj2 (Z.ltb_lt _ _)) by lia.
Qed.

Lemma sample_bounded find s p : bounded s -> delay p.1.1 p.2 < 300 -> bounded (sample_pair HZ find s p).
Proof.
  intros [B1 B2] Hd. unfold sample_pair. destruct (find _ _) as [an|]; [|done].
  assert (0 <= delay p.1.1 p.2 < 300) as Hd' by (unfold delay in *; pose proof (u32_range (p.2 - tstamp p.1.1 - dur p.1.1)); unfold in_u32 in *; lia).
  set (s1 := s <| node_ackto ::= <[an := ath_dynack_ewma (ackto_of an s) (delay p.1.1 p.2)]> |>).
  assert (forall x, 0 <= ackto_of x s1 < 300) as H1.
  { intros x. unfold ackto_of, s1. cbn [node_ackto upd eta eta_dyn_state]. destruct (decide (an = x)) as [<-|Hn]; [|rewrite lookup_insert_ne by done; apply B1].
    rewrite lookup_insert_eq. change (0 <= ath_dynack_ewma (ackto_of an s) (delay p.1.1 p.2) < 300).
    pose proof (ewma_step _ _ (B1 an) Hd'). pose proof (B1 an). cbv zeta in *. lia. }
  unfold sample_station. fold s1. destruct (time_is_before _ _); [|by split].
  destruct (compute_ackto_max s1 H1) as (E1 & E2 & _ & _ & E3). split.
  - intros x. unfold ackto_of. change (0 <= default 0 (node_ackto (ath_dynack_compute_ackto s1) !! x) < 300). rewrite E1. apply H1.
  - change (da_enabled (da (ath_dynack_compute_ackto s1)) = true -> 1 <= da_ackto (da (ath_dynack_compute_ackto s1)) < 300).
    rewrite E2. intros En. destruct E3 as [[H ->]| ->]; [lia|by apply B2].
Qed.

Lemma rings_same s s' : st_rbf (da s') = st_rbf (da s) -> ack_rbf (da s') = ack_rbf (da s) -> rings_ok s -> rings_ok s'.
Proof. intros E1 E2 []. split; by rewrite ?E1, ?E2. Qed.
Lemma heads_bounded h1 h2 s : bounded s -> bounded (with_heads h1 h2 s).
Proof. intros []. by split. Qed.
Lemma fold_bounded find q a ps q' a' s : pairing q a ps q' a' -> bounded s -> bounded (foldl (sample_pair HZ find) s ps).
Proof.
  intros (_ & _ & _ & Hp)%pairing_sound B. revert s B. induction Hp as [|p ps [_ Hd] _ IH]; intros s B; [done|]. cbn [foldl].
  apply IH, sample_bounded; [done|exact Hd].
Qed.
Lemma compute_to_bounded find s s' : rings_ok s -> bounded s -> ath_dynack_compute_to HZ find s = Ok s' -> rings_ok s' /\ bounded s'.
Proof.
  intros H B E. destruct (items_length s H). destruct (compute_to_loop_spec HZ find 126 s H) as (s1 & ps & h1 & h2 & E1 & Hs & Hp & Es); [lia|].
  assert (ath_dynack_compute_to HZ find s = Ok s1) as E2 by exact E1. clear E1. rewrite E2 in E. injection E as E. subst s'.
  split; [exact Hs|]. rewrite Es. eapply heads_bounded, fold_bounded; [exact Hp|exact B].
Qed.

Lemma global_settings_dynack ah ah' : ath9k_hw_init_global_settings ah = Ok ah' ->
  da_enabled (dynack ah') = da_enabled (dynack ah) /\ st_rbf (dynack ah') = st_rbf (dynack ah) /\ ack_rbf (dynack ah') = ack_rbf (dynack ah).
Proof.
  unfold ath9k_hw_init_global_settings. destruct (curchan ah) as [chan|]; [|by intros [= <-]].
  set (ah2 := if negb (misc_mode ah =? 0) then _ else ah). assert (dynack ah2 = dynack ah) as E2 by (unfold ah2; by destruct (negb _)). clearbody ah2.
  destruct (channel_times ah2 chan) as [t|]; [|done]. cbn [obind]. set (pair := if IS_CHAN_2GHZ chan && _ && _ then _ else _). destruct pair as [ackt ctst].
  rewrite E2. intros E.
  assert (forall ah3 f, (da_enabled (dynack ah3) = da_enabled (dynack ah) /\ st_rbf (dynack ah3) = st_rbf (dynack ah) /\ ack_rbf (dynack ah3) = ack_rbf (dynack ah)) ->
    Ok ((if negb (globaltxtimeout ah3 =? u32 (-1)) then snd (ath9k_hw_set_global_txtimeout (globaltxtimeout ah3) ah3) else ah3) <| ah_common ::= f |>) = Ok ah' ->
    da_enabled (dynack ah') = da_enabled (dynack ah) /\ st_rbf (dynack ah') = st_rbf (dynack ah) /\ ack_rbf (dynack ah') = ack_rbf (dynack ah)) as G.
  { intros ah3 f H [= <-]. destruct (keep_global_txtimeout ah3) as (_ & _ & Ek). cbv zeta in Ek.
    change (dynack (?x <| ah_common ::= f |>)) with (dynack x). by rewrite Ek. }
  destruct (da_enabled (dynack ah)) eqn:En; cbv beta iota zeta in E; eapply G in E; try done; cbn [dynack upd eta eta_ath_hw]; rewrite E2; done.
Qed.

End Bounds.

Section Reach.
Context (HZ : Z) (rate_flags : Z -> Z -> option Z).

Definition op_exec (op : dyn_op) (s : dyn_state) : outcome dyn_state :=
  match op with
  | Sample find ev => dyn_exec HZ rate_flags find ev s
  | Join an => ath_dynack_node_init an s
  | Leave an => ath_dynack_node_deinit an s
  | Tick j => Ok (s <| jiffies := j |>)
  | Coverage rx class => ath9k_set_coverage_class rx class s
  end.

(** The driver from [ath_dynack_init] on, with any hardware. *)
Inductive dyn_reach : dyn_state -> Prop :=
  | reach_init ah j : dyn_reach {| hw := ah <| dynack := ath_dynack_init |>; node_ackto := ∅; jiffies := j |}
  | reach_step s op s' : dyn_reach s -> op_exec op s = Ok s' -> dyn_reach s'.

Definition late_ack (s : dyn_state) : dyn_state :=
  let s := s <| hw ::= set_timeouts (cdiv (LATEACK_TO - 3) 2) LATEACK_TO |> in
  s <| hw ::= fun ah => ah <| dynack ::= fun d => d <| da_lto := u32 (jiffies s + LATEACK_DELAY HZ) |> |> |>.
Lemma exec_cases find ev s :
  dyn_exec HZ rate_flags find ev s = Ok s \/ dyn_exec HZ rate_flags find ev s = Ok (late_ack s) \/ dyn_exec HZ rate_flags find ev s = Oops \/
  (exists x ad, dyn_exec HZ rate_flags find ev s = ath_dynack_compute_to HZ find (push_tx x ad s)) \/
  (exists t, dyn_exec HZ rate_flags find ev s = ath_dynack_compute_to HZ find (push_rx t s)).
Proof.
  destruct ev as [r|mac t]; cbn [dyn_exec].
  - unfold ath_dynack_sample_tx_ts. destruct (_ || _); [by left|]. destruct (has _ _); [destruct (_ || _); [right; by left|by left]|].
    destruct (sample_duration _ _ _) as [d|]; [|do 2 right; by left]. cbn [obind]. do 3 right. left. by do 2 eexists.
  - unfold ath_dynack_sample_ack_ts. destruct (_ || _); [by left|]. do 4 right. by eexists.
Qed.

Lemma event_bounded find ev s s' : rings_ok s -> bounded s -> dyn_exec HZ rate_flags find ev s = Ok s' -> rings_ok s' /\ bounded s'.
Proof.
  intros H [B1 B2]. destruct (exec_cases find ev s) as [->|[->|[->|[(x & ad & ->)|(t & ->)]]]].
  - by intros [= <-].
  - intros E. injection E as <-. split; [by apply (rings_same s)|by split].
  - done.
  - intros E. apply compute_to_bounded in E; [done|by apply push_tx_spec|by split].
  - intros E. apply compute_to_bounded in E; [done|by apply push_rx_spec|by split].
Qed.

Lemma node_init_bounded an s s' : rings_ok s -> bounded s -> ath_dynack_node_init an s = Ok s' -> rings_ok s' /\ bounded s'.
Proof.
  intros H [B1 B2] E. unfold ath_dynack_node_init in E. destruct (decide _); [done|]. injection E as <-. split; [by apply (rings_same s)|]. split; [|done].
  intros x. unfold ackto_of. cbn [node_ackto upd eta eta_dyn_state]. destruct (decide (an = x)) as [<-|Hn]; [by rewrite lookup_insert_eq|rewrite lookup_insert_ne by done; apply B1].
Qed.

Lemma enable_dynack_da rx s : exists d, da (ath9k_enable_dynack rx s) = d /\ da_ackto d = INITIAL_ACKTO /\
  st_rbf d = (st_rbf (da s)) <| tx_t_rb := 0 |> <| tx_h_rb := 0 |> /\ ack_rbf d = (ack_rbf (da s)) <| rx_t_rb := 0 |> <| rx_h_rb := 0 |> /\
  node_ackto (ath9k_enable_dynack rx s) = node_ackto s.
Proof. eexists. split; [reflexivity|]. split_and!; reflexivity. Qed.

Lemma disable_dynack_da rx s : let s1 := if da_enabled (da s) then update_rxfilter rx (s <| hw ::= fun ah => ah <| dynack ::= fun d => d <| da_enabled := false |> |> |>) else s in
  st_rbf (da s1) = st_rbf (da s) /\ ack_rbf (da s1) = ack_rbf (da s) /\ node_ackto s1 = node_ackto s /\ da_enabled (da s1) = false.
Proof. destruct (da_enabled (da s)) eqn:E; done. Qed.

Lemma coverage_bounded rx class s s' : rings_ok s -> bounded s -> ath9k_set_coverage_class rx class s = Ok s' -> rings_ok s' /\ bounded s'.
Proof.
  intros H [B1 B2] E. unfold ath9k_set_coverage_class in E. destruct (0 <=? class).
  - set (s0 := s <| hw ::= _ |>) in E. destruct (disable_dynack_da rx s0) as (F1 & F2 & F3 & F4). set (s1 := if da_enabled (da s0) then _ else s0) in *.
    change (st_rbf (da s0)) with (st_rbf (da s)) in F1. change (ack_rbf (da s0)) with (ack_rbf (da s)) in F2. change (node_ackto s0) with (node_ackto s) in F3. clearbody s1.
    destruct (ath9k_hw_init_global_settings (hw s1)) as [ah|] eqn:Eg; [|done]. cbn [obind] in E. injection E as E. apply global_settings_dynack in Eg as (G1 & G2 & G3).
    assert (da s' = dynack ah /\ node_ackto s' = node_ackto s1) as [D1 D2] by (subst s'; by split).
    split; [apply (rings_same s); [by rewrite D1, G2|by rewrite D1, G3|done]|]. split.
    + intros x. unfold ackto_of. rewrite D2, F3. apply B1.
    + rewrite D1, G1. unfold da in F4. by rewrite F4.
  - destruct (negb _); injection E as E; subst s'; [|by split]. destruct (enable_dynack_da rx s) as (d & D1 & D2 & D3 & D4 & D5). split.
    + destruct H. split; rewrite ?D1, ?D3, ?D4; done.
    + split; [intros x; unfold ackto_of; rewrite D5; apply B1|]. intros _. by rewrite D1, D2.
Qed.

Lemma op_bounded op s s' : rings_ok s -> bounded s -> op_exec op s = Ok s' -> rings_ok s' /\ bounded s'.
Proof.
  intros H B E. destruct op as [find ev|an|an|j|rx class]; cbn [op_exec] in E.
  - by eapply event_bounded.
  - by eapply node_init_bounded.
  - unfold ath_dynack_node_deinit in E. destruct (decide _); [|done]. injection E as <-. destruct B. split; [by apply (rings_same s)|by split].
  - injection E as <-. destruct B. split; [by apply (rings_same s)|by split].
  - by eapply coverage_bounded.
Qed.

(** Whatever happens, every estimate stays below 300 microseconds, and so does
    the timeout of the hardware while it is computed from them; the rings stay
    in shape, so that every sample of a frame with a known rate is taken. *)
Theorem ackto_bounds s : dyn_reach s ->
  rings_ok s /\ (forall an, 0 <= ackto_of an s < 300) /\ (da_enabled (da s) = true -> 1 <= da_ackto (da s) < 300) /\
  forall find ev, event_ok rate_flags s ev -> exists s', op_exec (Sample find ev) s = Ok s'.
Proof.
  intros R. assert (rings_ok s /\ bounded s) as [H [B1 B2]].
  { induction R as [ah j|s op s' _ [IH1 IH2] E]; [|by eapply op_bounded]. split; [by split|]. split; [|done]. intros an. unfold ackto_of. cbn. by rewrite lookup_empty. }
  split_and!; try done. intros find ev He. cbn [op_exec]. destruct (da_enabled (da s)) eqn:En.
  - destruct (exec_refines HZ rate_flags find s s ev) as (s' & E & _); [done|done|done|done|by exists s'].
  - exists s. destruct ev; cbn [dyn_exec]; [unfold ath_dynack_sample_tx_ts|unfold ath_dynack_sample_ack_ts]; rewrite En; by rewrite orb_true_r.
Qed.
End Reach.

(** * Concrete runs

    A station (node 7) on the channel of 10 MHz; frames end 100 microseconds
    after their time stamp. *)

Definition demo_flags (_ _ : Z) : option Z := Some 0.
Definition demo_find (_ _ : list Z) : option Z := Some 7.
Definition dynack_rx_env : rx_env :=
  {| rx_common := hw_common; curbssid := replicate 6 0; is_monitoring := false; opmode := OpOcb; rxfilter := 0; nvifs := 1;
     radar_enabled := false; dynack_enabled := false; chandef_noht := true; old_chip := false; four_address := false; rxchainmask := 1; noise := -95;
     chan_quarter := false; chan_half := true; band_rates := [(0, 0)]; curchan_band := 1; curchan_freq := 5900; sw_mgmt_crypto_rx := false;
     check_auto_sleep := false; beacon_interval := 100; ieee80211_hdrlen := fun _ => 24; ieee80211_get_hdrlen_from_skb := fun _ => 24 |}.
Definition status_at (t : Z) : ath_tx_status :=
  {| ts_tstamp := t; ts_seqnum := 0; ts_status := 0; ts_rateindex := 0; ts_rssi := 0; ts_shortretry := 0; ts_longretry := 0; ts_virtcol := 0; ts_flags := 0;
     ts_rssi_ctl0 := 0; ts_rssi_ctl1 := 0; ts_rssi_ctl2 := 0; ts_rssi_ext0 := 0; ts_rssi_ext1 := 0; ts_rssi_ext2 := 0;
     qid := 0; desc_id := 0; tid := 0; ba_low := 0; ba_high := 0 |}.
Definition demo_report (t : Z) : tx_report :=
  {| no_ack := false; tx_frame_control := 0x0008; tx_addr1 := [2; 0; 0; 0; 0; 7]; tx_addr2 := [2; 0; 0; 0; 0; 2]; tx_rates := [(0, 0)]; tx_band := 1;
     tx_status := status_at t; duration := 132 |}.
Definition demo_round (d t : Z) : tx_report * list Z * Z := (demo_report t, [2; 0; 0; 0; 0; 2], t + 100 + d).

Definition ops_run (l : list dyn_op) (s : dyn_state) : outcome dyn_state := foldl (fun o op => obind o (op_exec 100 demo_flags op)) (Ok s) l.
Definition demo_init : dyn_state :=
  {| hw := ath9k_hw_set_clockrate (hw_11p <| dynack := ath_dynack_init |>); node_ackto := ∅; jiffies := 0 |}.
Definition demo_frames (n : nat) (d t : Z) : list dyn_op := replicate n (demo_round d t) ≫= (fun x => Sample demo_find <$> round_events x).
Definition observed {A} (f : dyn_state -> A) (o : outcome dyn_state) : option A := match o with Ok s => Some (f s) | Oops => None end.

(** The estimate of a station that answers after 100 microseconds stops at 97:
    the timeout ends before the ACK arrives. *)
Theorem estimate_stays_below :
  observed (fun s => (ackto_of 7 s, da_ackto (da s)))
    (ops_run (Coverage dynack_rx_env (-1) :: Join 7 :: demo_frames 300 100 1000 ++ Tick 10000 :: demo_frames 1 100 1000) demo_init) = Some (97, 97).
Proof. by vm_compute. Qed.

(** With an estimate of 1 or 2 the slot time wraps around: the hardware gets its
    longest slot, 65535 ticks of the clock of 22 MHz. *)
Theorem tiny_ackto_wraps :
  observed (fun s => (da_ackto (da s), REG_READ (ah_common (hw s)) AR_D_GBL_IFS_SLOT))
    (ops_run (Coverage dynack_rx_env (-1) :: Join 7 :: demo_frames 300 2 1000 ++ Tick 10000 :: demo_frames 1 2 1000) demo_init) = Some (2, 0xFFFF).
Proof. by vm_compute. Qed.

(** * Witnesses *)

Definition demo_ready : dyn_state :=
  default demo_init (observed id (ops_run [Coverage dynack_rx_env (-1); Join 7] demo_init)).
Lemma demo_ready_ok : rings_ok demo_ready /\ da_enabled (da demo_ready) = true /\ st_items demo_ready = [] /\ ack_items demo_ready = [] /\ ackto_of 7 demo_ready = 89.
Proof. split_and!; [|by vm_compute..]. by split; vm_compute. Qed.

Lemma demo_round_good d t : 0 < d < 300 -> 0 <= t <= 10000 -> good_round demo_flags demo_find demo_ready 7 d (demo_round d t).
Proof.
  intros Hd Ht. unfold good_round, demo_round. split_and!; [done|done|done|by vm_compute|]. exists 100. split; [by vm_compute|]. cbn [tstamp dur]. unfold after, delay. cbn [tstamp dur ts_tstamp tx_status demo_report status_at].
  rewrite (u32_id (t + 100)) by (unfold in_u32; lia). rewrite u32_id by (unfold in_u32; lia). split; [apply Z.ltb_lt|]; lia.
Qed.

Lemma estimate_converges_witness : exists s',
  dyn_run 100 demo_flags demo_find (replicate 300 (demo_round 50 1000) ≫= round_events) demo_ready = Ok s' /\ 47 <= ackto_of 7 s' <= 50.
Proof.
  destruct demo_ready_ok as (H1 & H2 & H3 & H4 & H5).
  apply (estimate_converges 100 demo_flags demo_find demo_ready 7 50 (replicate 300 (demo_round 50 1000)) H1 H2 H3 H4).
  - by rewrite H5.
  - lia.
  - apply Forall_replicate, demo_round_good; lia.
  - by rewrite length_replicate.
Defined.

Lemma dynack_refines_witness : exists s',
  dyn_run 100 demo_flags demo_find [TxReport (demo_report 1000); AckFrame [2; 0; 0; 0; 0; 2] 1150] demo_ready = Ok s' /\
  abs_run demo_flags demo_find demo_ready [TxReport (demo_report 1000); AckFrame [2; 0; 0; 0; 0; 2] 1150] (abs_of demo_ready) (abs_of s').
Proof.
  destruct demo_ready_ok as (H1 & H2 & _).
  destruct (dynack_refines 100 demo_flags demo_find demo_ready [TxReport (demo_report 1000); AckFrame [2; 0; 0; 0; 0; 2] 1150] H1 H2) as (s' & E & _ & _ & R).
  - constructor; [by exists 100|]. constructor; [done|constructor].
  - by exists s'.
Defined.

Lemma ackto_bounds_witness : 0 <= ackto_of 7 demo_ready < 300 /\ 1 <= da_ackto (da demo_ready) < 300.
Proof.
  assert (dyn_reach 100 demo_flags demo_ready) as R.
  { apply (reach_step _ _ (default demo_init (observed id (ops_run [Coverage dynack_rx_env (-1)] demo_init))) (Join 7)); [|by vm_compute].
    apply (reach_step _ _ demo_init (Coverage dynack_rx_env (-1))); [|by vm_compute].
    apply (reach_init _ _ (ath9k_hw_set_clockrate (hw_11p <| dynack := ath_dynack_init |>)) 0). }
  destruct (ackto_bounds 100 demo_flags demo_ready R) as (_ & H1 & H2 & _). split; [apply H1|apply H2]. by vm_compute.
Defined.
