(* ===== verification/HwMac.v ===== *)
(** Transmit queue properties and interrupts of the hardware (src/real/ath/
    ath9k/mac.c, the interrupt status of ar9003_mac.c and the interrupt handler
    of main.c).

    The TDMA platform changes three things here: every reset of a queue ends by
    switching random backoff off, for the queue and for the one of the FPGA;
    the causes of an interrupt are read from the FPGA middleware; and interrupts
    stay enabled while they are handled. Registers are plain words, so the
    functions that wait for the hardware to stop are not modelled. *)

From S2P Require Import Prelude KeyCache Desc RxFrame HwTiming.

(** * Registers *)

Definition AR_IER : Z := 0x0024.
Definition AR_IER_ENABLE : Z := 0x00000001.
Definition AR_IER_DISABLE : Z := 0x00000000.
Definition AR_TXCFG : Z := 0x0030.
Definition AR_FTRIG : field := {| f_mask := 0x000003F0; f_S := 4 |}.
Definition AR_ISR_S0 : Z := 0x0084.
Definition AR_ISR_S1 : Z := 0x0088.
Definition AR_ISR_S5 : Z := 0x0098.
Definition AR_ISR_S5_S : Z := 0x00dc.
Definition AR_ISR_S5_GENTIMER_TRIG : field := {| f_mask := 0x0000FF80; f_S := 0 |}.
Definition AR_ISR_S5_GENTIMER_THRESH : field := {| f_mask := 0xFF800000; f_S := 16 |}.
Definition AR_ISR_HP_RXOK : Z := 0x00000001.
Definition AR_ISR_LP_RXOK : Z := 0x00000002.
Definition AR_ISR_RXERR : Z := 0x00000004.
Definition AR_ISR_TXOK : Z := 0x00000040.
Definition AR_ISR_TXERR : Z := 0x00000100.
Definition AR_ISR_TXEOL : Z := 0x00000400.
Definition AR_ISR_TXMINTR : Z := 0x00080000.
Definition AR_ISR_RXMINTR : Z := 0x01000000.
Definition AR_ISR_GENTMR : Z := 0x10000000.
Definition AR_ISR_TXINTM : Z := 0x40000000.
Definition AR_ISR_RXINTM : Z := 0x80000000.
Definition AR_IMR : Z := 0x00a0.
Definition AR_IMR_RXOK : Z := 0x00000001.
Definition AR_IMR_RXDESC : Z := 0x00000002.
Definition AR_IMR_RXOK_HP : Z := 0x00000001.
Definition AR_IMR_RXOK_LP : Z := 0x00000002.
Definition AR_IMR_RXERR : Z := 0x00000004.
Definition AR_IMR_TXOK : Z := 0x00000040.
Definition AR_IMR_TXDESC : Z := 0x00000080.
Definition AR_IMR_TXERR : Z := 0x00000100.
Definition AR_IMR_TXEOL : Z := 0x00000400.
Definition AR_IMR_GENTMR : Z := 0x10000000.
Definition AR_IMR_TXMINTR : Z := 0x00080000.
Definition AR_IMR_RXMINTR : Z := 0x01000000.
Definition AR_IMR_TXINTM : Z := 0x40000000.
Definition AR_IMR_RXINTM : Z := 0x80000000.
Definition AR_IMR_S0 : Z := 0x00a4.
Definition AR_IMR_S0_QCU_TXOK : field := {| f_mask := 0x000003FF; f_S := 0 |}.
Definition AR_IMR_S0_QCU_TXDESC : field := {| f_mask := 0x03FF0000; f_S := 16 |}.
Definition AR_IMR_S1 : Z := 0x00a8.
Definition AR_IMR_S1_QCU_TXERR : field := {| f_mask := 0x000003FF; f_S := 0 |}.
Definition AR_IMR_S1_QCU_TXEOL : field := {| f_mask := 0x03FF0000; f_S := 16 |}.
Definition AR_IMR_S2 : Z := 0x00ac.
Definition AR_IMR_S2_QCU_TXURN : Z := 0x000003FF.
Definition AR_IMR_S2_CST : Z := 0x00400000.
Definition AR_IMR_S2_GTT : Z := 0x00800000.
Definition AR_IMR_S2_TIM : Z := 0x01000000.
Definition AR_IMR_S2_CABEND : Z := 0x02000000.
Definition AR_IMR_S2_DTIMSYNC : Z := 0x04000000.
Definition AR_IMR_S2_CABTO : Z := 0x10000000.
Definition AR_IMR_S2_DTIM : Z := 0x20000000.
Definition AR_IMR_S2_TSFOOR : Z := 0x40000000.
Definition AR_IMR_S5 : Z := 0x00b8.
Definition AR_IMR_S5_TIM_TIMER : Z := 0x00000010.
Definition AR_Q_TXE : Z := 0x0840.
Definition AR_QCBRCFG (i : Z) : Z := 0x08c0 + (i .<< 2).
Definition AR_Q_CBRCFG_INTERVAL : field := {| f_mask := 0x00FFFFFF; f_S := 0 |}.
Definition AR_Q_CBRCFG_OVF_THRESH : field := {| f_mask := 0xFF000000; f_S := 24 |}.
Definition AR_QRDYTIMECFG (i : Z) : Z := 0x0900 + (i .<< 2).
Definition AR_Q_RDYTIMECFG_DURATION : field := {| f_mask := 0x00FFFFFF; f_S := 0 |}.
Definition AR_Q_RDYTIMECFG_EN : Z := 0x01000000.
Definition AR_QMISC (i : Z) : Z := 0x09c0 + (i .<< 2).
Definition AR_Q_MISC_FSP_CBR : Z := 1.
Definition AR_Q_MISC_FSP_DBA_GATED : Z := 2.
Definition AR_Q_MISC_CBR_INCR_DIS1 : Z := 0x00000020.
Definition AR_Q_MISC_CBR_INCR_DIS0 : Z := 0x00000040.
Definition AR_Q_MISC_BEACON_USE : Z := 0x00000080.
Definition AR_Q_MISC_CBR_EXP_CNTR_LIMIT_EN : Z := 0x00000100.
Definition AR_Q_MISC_RDYTIME_EXP_POLICY : Z := 0x00000200.
Definition AR_Q_MISC_DCU_EARLY_TERM_REQ : Z := 0x00000800.
Definition AR_QSTS (i : Z) : Z := 0x0a00 + (i .<< 2).
Definition AR_Q_STS_PEND_FR_CNT : Z := 0x00000003.
Definition AR_Q_DESC_CRCCHK : Z := 0xa44.
Definition AR_Q_DESC_CRCCHK_EN : Z := 1.
Definition AR_DLCL_IFS (i : Z) : Z := 0x1040 + (i .<< 2).
Definition AR_D_LCL_IFS_CWMIN : field := {| f_mask := 0x000003FF; f_S := 0 |}.
Definition AR_D_LCL_IFS_CWMAX : field := {| f_mask := 0x000FFC00; f_S := 10 |}.
Definition AR_D_LCL_IFS_AIFS : field := {| f_mask := 0x0FF00000; f_S := 20 |}.
Definition AR_DRETRY_LIMIT (i : Z) : Z := 0x1080 + (i .<< 2).
Definition AR_D_RETRY_LIMIT_FR_SH : field := {| f_mask := 0x0000000F; f_S := 0 |}.
Definition AR_D_RETRY_LIMIT_STA_SH : field := {| f_mask := 0x00003F00; f_S := 8 |}.
Definition AR_D_RETRY_LIMIT_STA_LG : field := {| f_mask := 0x000FC000; f_S := 14 |}.
Definition AR_DCHNTIME (i : Z) : Z := 0x10c0 + (i .<< 2).
Definition AR_D_CHNTIME_DUR : field := {| f_mask := 0x000FFFFF; f_S := 0 |}.
Definition AR_D_CHNTIME_EN : Z := 0x00100000.
Definition AR_DMISC (i : Z) : Z := 0x1100 + (i .<< 2).
Definition AR_D_MISC_FRAG_WAIT_EN : Z := 0x00000100.
Definition AR_D_MISC_FRAG_BKOFF_EN : Z := 0x00000200.
Definition AR_D_MISC_CW_BKOFF_EN : Z := 0x00001000.
Definition AR_D_MISC_BEACON_USE : Z := 0x00010000.
Definition AR_D_MISC_ARB_LOCKOUT_CNTRL : field := {| f_mask := 0x00060000; f_S := 17 |}.
Definition AR_D_MISC_ARB_LOCKOUT_CNTRL_GLOBAL : Z := 2.
Definition AR_D_MISC_POST_FR_BKOFF_DIS : Z := 0x00200000.
Definition AR_D_TXBLK_BASE : Z := 0x1038.
Definition AR_D_TXBLK_WRITE_SLICE : field := {| f_mask := 0x000F0000; f_S := 16 |}.
Definition AR_D_TXBLK_WRITE_DCU : field := {| f_mask := 0x00F00000; f_S := 20 |}.
Definition AR_D_TXBLK_WRITE_COMMAND : field := {| f_mask := 0x0F000000; f_S := 24 |}.
Definition AR_INTR_SYNC_HOST1_FATAL : Z := 0x00000020.
Definition AR_INTR_SYNC_DEFAULT : Z :=
  AR_INTR_SYNC_HOST1_FATAL .| 0x00000040 .| 0x00000100 .| 0x00000200 .| 0x00000400 .| 0x00000800 .| 0x00001000 .| 0x00002000 .| 0x00020000.
Definition AR_INTR_MAC_IRQ : Z := 0x00000002.
Definition AR_INTR_ASYNC_MASK_MCI : Z := 0x00000080.

(** * Data *)

Inductive ath9k_tx_queue :=
  | ATH9K_TX_QUEUE_INACTIVE | ATH9K_TX_QUEUE_DATA | ATH9K_TX_QUEUE_BEACON | ATH9K_TX_QUEUE_CAB | ATH9K_TX_QUEUE_UAPSD | ATH9K_TX_QUEUE_PSPOLL.
#[export] Instance ath9k_tx_queue_eq_dec : EqDecision ath9k_tx_queue.
Proof. solve_decision. Defined.

Definition ATH9K_NUM_TX_QUEUES : Z := 10.
Definition ATH9K_WME_UPSD : Z := 4.
Definition TXQ_FLAG_TXINT_ENABLE : Z := 0x0001.
Definition TXQ_FLAG_TXDESCINT_ENABLE : Z := 0x0002.
Definition TXQ_FLAG_TXEOLINT_ENABLE : Z := 0x0004.
Definition TXQ_FLAG_TXURNINT_ENABLE : Z := 0x0008.
Definition TXQ_FLAG_BACKOFF_DISABLE : Z := 0x0010.
Definition TXQ_FLAG_RDYTIME_EXP_POLICY_ENABLE : Z := 0x0040.
Definition TXQ_FLAG_FRAG_BURST_BACKOFF_ENABLE : Z := 0x0080.
Definition ATH9K_TXQ_USEDEFAULT : Z := u32 (-1).
Definition ATH9K_TXQ_USE_LOCKOUT_BKOFF_DIS : Z := 0x00000001.
Definition INIT_AIFS : Z := 2.
Definition INIT_CWMIN : Z := 15.
Definition INIT_CWMAX : Z := 1023.
Definition INIT_SH_RETRY : Z := 10.
Definition INIT_LG_RETRY : Z := 10.
Definition INIT_SSH_RETRY : Z := 32.
Definition INIT_SLG_RETRY : Z := 32.
Definition MIN_TX_FIFO_THRESHOLD : Z := 0x1.

Record ath9k_tx_queue_info := {
  tqi_ver : Z; tqi_type : ath9k_tx_queue; tqi_subtype : Z; tqi_qflags : Z; tqi_priority : Z;
  tqi_aifs : Z; tqi_cwmin : Z; tqi_cwmax : Z; tqi_shretry : Z; tqi_lgretry : Z;
  tqi_cbrPeriod : Z; tqi_cbrOverflowLimit : Z; tqi_burstTime : Z; tqi_readyTime : Z;
  tqi_physCompBuf : Z; tqi_intFlags : Z;
}.
#[export] Instance eta_ath9k_tx_queue_info : Eta ath9k_tx_queue_info := fun r =>
  Build_ath9k_tx_queue_info (tqi_ver r) (tqi_type r) (tqi_subtype r) (tqi_qflags r) (tqi_priority r) (tqi_aifs r) (tqi_cwmin r) (tqi_cwmax r)
    (tqi_shretry r) (tqi_lgretry r) (tqi_cbrPeriod r) (tqi_cbrOverflowLimit r) (tqi_burstTime r) (tqi_readyTime r) (tqi_physCompBuf r) (tqi_intFlags r).
Definition zero_qi : ath9k_tx_queue_info :=
  {| tqi_ver := 0; tqi_type := ATH9K_TX_QUEUE_INACTIVE; tqi_subtype := 0; tqi_qflags := 0; tqi_priority := 0; tqi_aifs := 0; tqi_cwmin := 0; tqi_cwmax := 0;
     tqi_shretry := 0; tqi_lgretry := 0; tqi_cbrPeriod := 0; tqi_cbrOverflowLimit := 0; tqi_burstTime := 0; tqi_readyTime := 0; tqi_physCompBuf := 0; tqi_intFlags := 0 |}.

(** The fields of [struct ath_hw] used here, for the chips with EDMA (AR9300 and
    later). *)
Record mac_hw := {
  mh_common : ath_common;
  txq : list ath9k_tx_queue_info;        (* ATH9K_NUM_TX_QUEUES entries *)
  txok_interrupt_mask : Z;
  txerr_interrupt_mask : Z;
  txdesc_interrupt_mask : Z;
  txeol_interrupt_mask : Z;
  txurn_interrupt_mask : Z;
  imrs2_reg : Z;
  imask : Z;                             (* enum ath9k_int *)
  intr_ref_cnt : Z;                      (* atomic_t *)
  tx_trig_level : Z;                     (* u16 *)
  max_txtrig_level : Z;
  rx_intr_mitigation : bool;
  tx_intr_mitigation : bool;
  sw_beacon_response_time : Z;
  dma_beacon_response_time : Z;
  adhoc : bool;                          (* opmode == NL80211_IFTYPE_ADHOC *)
  sr_9340 : bool;
  sr_9340_13 : bool;
  sr_host1_quiet : bool;                 (* 9340, 9550, 9531 or 9561 *)
  autosleep : bool;                      (* ATH9K_HW_CAP_AUTOSLEEP *)
  rac_supported : bool;                  (* ATH9K_HW_CAP_RAC_SUPPORTED *)
  intr_gen_timer_trigger : Z;
  intr_gen_timer_thresh : Z;
}.
#[export] Instance eta_mac_hw : Eta mac_hw := fun r =>
  Build_mac_hw (mh_common r) (txq r) (txok_interrupt_mask r) (txerr_interrupt_mask r) (txdesc_interrupt_mask r) (txeol_interrupt_mask r)
    (txurn_interrupt_mask r) (imrs2_reg r) (imask r) (intr_ref_cnt r) (tx_trig_level r) (max_txtrig_level r) (rx_intr_mitigation r)
    (tx_intr_mitigation r) (sw_beacon_response_time r) (dma_beacon_response_time r) (adhoc r) (sr_9340 r) (sr_9340_13 r) (sr_host1_quiet r)
    (autosleep r) (rac_supported r) (intr_gen_timer_trigger r) (intr_gen_timer_thresh r).

Definition AR_INTR_SYNC_ENABLE (ah : mac_hw) : Z := if sr_9340 ah then 0x4014 else 0x402c.
Definition AR_INTR_ASYNC_MASK (ah : mac_hw) : Z := if sr_9340 ah then 0x4018 else 0x4030.
Definition AR_INTR_SYNC_MASK (ah : mac_hw) : Z := if sr_9340 ah then 0x401c else 0x4034.
Definition AR_INTR_ASYNC_ENABLE (ah : mac_hw) : Z := if sr_9340 ah then 0x4024 else 0x403c.

Definition on_regs (f : ath_common -> ath_common) (ah : mac_hw) : mac_hw := ah <| mh_common ::= f |>.
Definition hw_write (a v : Z) : mac_hw -> mac_hw := on_regs (REG_WRITE a v).
Definition set_bit (a f : Z) : mac_hw -> mac_hw := on_regs (REG_SET_BIT a f).
Definition clr_bit (a f : Z) : mac_hw -> mac_hw := on_regs (REG_CLR_BIT a f).

(** * Interrupts *)

Definition ath9k_hw_set_txq_interrupts (ah : mac_hw) : mac_hw :=
  let ah := hw_write AR_IMR_S0 (SM (txok_interrupt_mask ah) AR_IMR_S0_QCU_TXOK .| SM (txdesc_interrupt_mask ah) AR_IMR_S0_QCU_TXDESC) ah in
  let ah := hw_write AR_IMR_S1 (SM (txerr_interrupt_mask ah) AR_IMR_S1_QCU_TXERR .| SM (txeol_interrupt_mask ah) AR_IMR_S1_QCU_TXEOL) ah in
  let ah := ah <| imrs2_reg ::= fun r => clr r AR_IMR_S2_QCU_TXURN .| (txurn_interrupt_mask ah .& AR_IMR_S2_QCU_TXURN) |> in
  hw_write AR_IMR_S2 (imrs2_reg ah) ah.

Definition ath9k_hw_clear_queue_interrupts (q : Z) (ah : mac_hw) : mac_hw :=
  let drop m := clr m (1 .<< q) in
  ah <| txok_interrupt_mask ::= drop |> <| txerr_interrupt_mask ::= drop |> <| txdesc_interrupt_mask ::= drop |>
     <| txeol_interrupt_mask ::= drop |> <| txurn_interrupt_mask ::= drop |>.

Definition ATH9K_INT_RX : Z := 0x00000001.
Definition ATH9K_INT_RXHP : Z := 0x00000001.
Definition ATH9K_INT_RXLP : Z := 0x00000002.
Definition ATH9K_INT_RXERR : Z := 0x00000004.
Definition ATH9K_INT_RXEOL : Z := 0x00000010.
Definition ATH9K_INT_RXORN : Z := 0x00000020.
Definition ATH9K_INT_TX : Z := 0x00000040.
Definition ATH9K_INT_TIM_TIMER : Z := 0x00000100.
Definition ATH9K_INT_MCI : Z := 0x00000200.
Definition ATH9K_INT_BB_WATCHDOG : Z := 0x00000400.
Definition ATH9K_INT_TXURN : Z := 0x00000800.
Definition ATH9K_INT_SWBA : Z := 0x00010000.
Definition ATH9K_INT_BMISS : Z := 0x00040000.
Definition ATH9K_INT_TSFOOR : Z := 0x04000000.
Definition ATH9K_INT_GENTIMER : Z := 0x08000000.
Definition ATH9K_INT_CST : Z := 0x10000000.
Definition ATH9K_INT_GTT : Z := 0x20000000.
Definition ATH9K_INT_FATAL : Z := 0x40000000.
Definition ATH9K_INT_GLOBAL : Z := 0x80000000.
Definition ATH9K_INT_COMMON : Z :=
  0x00000008 .| 0x00000002 .| ATH9K_INT_RXEOL .| ATH9K_INT_RXORN .| ATH9K_INT_TXURN .| 0x00000080 .| 0x00001000 .| 0x00004000 .| 0x00008000 .|
  ATH9K_INT_SWBA .| ATH9K_INT_BMISS .| 0x01000000.

Definition ath9k_hw_kill_interrupts (ah : mac_hw) : mac_hw :=
  hw_write (AR_INTR_SYNC_ENABLE ah) 0 (hw_write (AR_INTR_ASYNC_ENABLE ah) 0 (hw_write AR_IER AR_IER_DISABLE ah)).

Definition ath9k_hw_disable_interrupts (ah : mac_hw) : mac_hw :=
  ath9k_hw_kill_interrupts (ah <| intr_ref_cnt ::= fun n => if negb (has (imask ah) ATH9K_INT_GLOBAL) then -1 else s32 (n - 1) |>).

Definition ath9k_hw_enable_interrupts (ah : mac_hw) : mac_hw :=
  if negb (has (imask ah) ATH9K_INT_GLOBAL) then ah
  else
    let ah := ah <| intr_ref_cnt ::= fun n => s32 (n + 1) |> in
    if negb (intr_ref_cnt ah =? 0) then ah
    else
      let sync_default := if sr_host1_quiet ah then clr AR_INTR_SYNC_DEFAULT AR_INTR_SYNC_HOST1_FATAL else AR_INTR_SYNC_DEFAULT in
      let async_mask := if has (imask ah) ATH9K_INT_MCI then AR_INTR_MAC_IRQ .| AR_INTR_ASYNC_MASK_MCI else AR_INTR_MAC_IRQ in
      let ah := hw_write AR_IER AR_IER_ENABLE ah in
      let ah := hw_write (AR_INTR_ASYNC_MASK ah) async_mask (hw_write (AR_INTR_ASYNC_ENABLE ah) async_mask ah) in
      hw_write (AR_INTR_SYNC_MASK ah) sync_default (hw_write (AR_INTR_SYNC_ENABLE ah) sync_default ah).

Definition ath9k_hw_set_interrupts (ah : mac_hw) : mac_hw :=
  let ints := imask ah in
  let ah := if negb (has ints ATH9K_INT_GLOBAL) then ath9k_hw_disable_interrupts ah else ah in
  let add (b : bool) (bits mask : Z) := if b then mask .| bits else mask in
  let mask := ints .& ATH9K_INT_COMMON in
  let mask :=
    if has ints ATH9K_INT_TX then
      let mask :=
        if tx_intr_mitigation ah then mask .| (AR_IMR_TXMINTR .| AR_IMR_TXINTM)
        else add (negb (txdesc_interrupt_mask ah =? 0)) AR_IMR_TXDESC (add (negb (txok_interrupt_mask ah =? 0)) AR_IMR_TXOK mask) in
      add (negb (txeol_interrupt_mask ah =? 0)) AR_IMR_TXEOL (add (negb (txerr_interrupt_mask ah =? 0)) AR_IMR_TXERR mask)
    else mask in
  let mask :=
    if has ints ATH9K_INT_RX then
      let mask := mask .| (AR_IMR_RXERR .| AR_IMR_RXOK_HP) in
      let mask := if rx_intr_mitigation ah then clr mask AR_IMR_RXOK_LP .| (AR_IMR_RXMINTR .| AR_IMR_RXINTM) else mask .| AR_IMR_RXOK_LP in
      add (negb (autosleep ah)) AR_IMR_GENTMR mask
    else mask in
  let mask := add (has ints ATH9K_INT_GENTIMER) AR_IMR_GENTMR mask in
  let ah := hw_write AR_IMR mask ah in
  let ah := ah <| imrs2_reg ::= fun r => clr r (AR_IMR_S2_TIM .| AR_IMR_S2_DTIM .| AR_IMR_S2_DTIMSYNC .| AR_IMR_S2_CABEND .| AR_IMR_S2_CABTO .|
                                               AR_IMR_S2_TSFOOR .| AR_IMR_S2_GTT .| AR_IMR_S2_CST) |> in
  let ah := hw_write AR_IMR_S2 (imrs2_reg ah) ah in
  if negb (autosleep ah) then
    if has ints ATH9K_INT_TIM_TIMER then set_bit AR_IMR_S5 AR_IMR_S5_TIM_TIMER ah else clr_bit AR_IMR_S5 AR_IMR_S5_TIM_TIMER ah
  else ah.


(** * Queues *)

Definition set_qi (q : Z) (qi : ath9k_tx_queue_info) (ah : mac_hw) : mac_hw := ah <| txq ::= <[Z.to_nat q := qi]> |>.

(** The entry of a queue; [None] where the code would leave the array. *)
Definition get_qi (ah : mac_hw) (q : Z) : option ath9k_tx_queue_info := if 0 <=? q then txq ah !! Z.to_nat q else None.

(** [for (x = 1; x < cw; x = (x << 1) | 1)], the loop of both bounds of the
    contention window; eleven steps are enough as [cw] is at most 1024
    ([cw_round_enough]). *)
Fixpoint cw_loop (fuel : nat) (cw x : Z) : option Z :=
  if x <? cw then match fuel with O => None | S fuel => cw_loop fuel cw (u32 (x .<< 1) .| 1) end else Some x.
Definition cw_round (cw : Z) : option Z := cw_loop 11 cw 1.

(** The assignments to the entry [qi] of a queue, the bounds of the contention
    window being computed already. *)
Definition store_props (qinfo : ath9k_tx_queue_info) (cwmin cwmax : Z) (qi : ath9k_tx_queue_info) : ath9k_tx_queue_info :=
  {| tqi_ver := tqi_ver qinfo; tqi_type := tqi_type qi; tqi_subtype := tqi_subtype qinfo; tqi_qflags := tqi_qflags qinfo; tqi_priority := tqi_priority qinfo;
     tqi_aifs := if negb (tqi_aifs qinfo =? ATH9K_TXQ_USEDEFAULT) then Z.min (tqi_aifs qinfo) 255 else INIT_AIFS;
     tqi_cwmin := cwmin; tqi_cwmax := cwmax;
     tqi_shretry := if negb (tqi_shretry qinfo =? 0) then Z.min (tqi_shretry qinfo) 15 else INIT_SH_RETRY;
     tqi_lgretry := if negb (tqi_lgretry qinfo =? 0) then Z.min (tqi_lgretry qinfo) 15 else INIT_LG_RETRY;
     tqi_cbrPeriod := tqi_cbrPeriod qinfo; tqi_cbrOverflowLimit := tqi_cbrOverflowLimit qinfo;
     tqi_burstTime := tqi_burstTime qinfo; tqi_readyTime := tqi_readyTime qinfo; tqi_physCompBuf := tqi_physCompBuf qi;
     tqi_intFlags := if (tqi_subtype qinfo =? ATH9K_WME_UPSD) && bool_decide (tqi_type qi = ATH9K_TX_QUEUE_DATA)
                     then ATH9K_TXQ_USE_LOCKOUT_BKOFF_DIS else tqi_intFlags qi |}.

Definition ath9k_hw_set_txq_props (q : Z) (qinfo : ath9k_tx_queue_info) (ah : mac_hw) : option (bool * mac_hw) :=
  qi ← get_qi ah q;
  if bool_decide (tqi_type qi = ATH9K_TX_QUEUE_INACTIVE) then Some (false, ah)
  else
    let bound x d := if negb (x =? ATH9K_TXQ_USEDEFAULT) then cw_round (Z.min x 1024) else Some d in
    cwmin ← bound (tqi_cwmin qinfo) (tqi_cwmin qinfo);
    cwmax ← bound (tqi_cwmax qinfo) INIT_CWMAX;
    Some (true, set_qi q (store_props qinfo cwmin cwmax qi) ah).

(** [qinfo] is the structure of the caller, which keeps its other fields. *)
Definition ath9k_hw_get_txq_props (q : Z) (qinfo : ath9k_tx_queue_info) (ah : mac_hw) : option (bool * ath9k_tx_queue_info) :=
  qi ← get_qi ah q;
  if bool_decide (tqi_type qi = ATH9K_TX_QUEUE_INACTIVE) then Some (false, qinfo)
  else Some (true, qi <| tqi_type := tqi_type qinfo |> <| tqi_physCompBuf := tqi_physCompBuf qinfo |> <| tqi_intFlags := tqi_intFlags qinfo |>).

Definition ath9k_hw_setuptxqueue (type : ath9k_tx_queue) (qinfo : ath9k_tx_queue_info) (ah : mac_hw) : option (Z * mac_hw) :=
  let q := match type with
           | ATH9K_TX_QUEUE_BEACON => Some (ATH9K_NUM_TX_QUEUES - 1)
           | ATH9K_TX_QUEUE_CAB => Some (ATH9K_NUM_TX_QUEUES - 2)
           | ATH9K_TX_QUEUE_PSPOLL => Some 1
           | ATH9K_TX_QUEUE_UAPSD => Some (ATH9K_NUM_TX_QUEUES - 3)
           | ATH9K_TX_QUEUE_DATA => Some (tqi_subtype qinfo)
           | ATH9K_TX_QUEUE_INACTIVE => None
           end in
  match q with
  | None => Some (-1, ah)
  | Some q =>
      qi ← get_qi ah q;
      if negb (bool_decide (tqi_type qi = ATH9K_TX_QUEUE_INACTIVE)) then Some (-1, ah)
      else
        let ah := set_qi q (zero_qi <| tqi_type := type |> <| tqi_physCompBuf := tqi_physCompBuf qinfo |>) ah in
        '(_, ah) ← ath9k_hw_set_txq_props q qinfo ah;
        Some (q, ah)
  end.

Definition ath9k_hw_releasetxqueue (q : Z) (ah : mac_hw) : option (bool * mac_hw) :=
  qi ← get_qi ah q;
  if bool_decide (tqi_type qi = ATH9K_TX_QUEUE_INACTIVE) then Some (false, ah)
  else Some (true, ath9k_hw_set_txq_interrupts (ath9k_hw_clear_queue_interrupts q (set_qi q (qi <| tqi_type := ATH9K_TX_QUEUE_INACTIVE |>) ah))).

Definition ath9k_hw_beaconq_setup : mac_hw -> option (Z * mac_hw) :=
  ath9k_hw_setuptxqueue ATH9K_TX_QUEUE_BEACON (zero_qi <| tqi_aifs := 1 |> <| tqi_cwmin := 0 |> <| tqi_cwmax := 0 |> <| tqi_qflags := TXQ_FLAG_TXINT_ENABLE |>).

(** The end of a reset that the TDMA platform adds: no inter-frame space, no
    contention window and no random backoff. *)
Definition no_backoff (q : Z) (ah : mac_hw) : mac_hw :=
  let ah := hw_write (AR_DLCL_IFS q) (SM 0 AR_D_LCL_IFS_CWMIN .| SM 0 AR_D_LCL_IFS_CWMAX .| SM 0 AR_D_LCL_IFS_AIFS) ah in
  clr_bit (AR_DMISC q) AR_D_MISC_CW_BKOFF_EN (set_bit (AR_DMISC q) AR_D_MISC_POST_FR_BKOFF_DIS ah).

(** What the type of the queue adds ([switch (qi->tqi_type)]). *)
Definition reset_by_type (q : Z) (qi : ath9k_tx_queue_info) (ah : mac_hw) : mac_hw :=
  let lockout := AR_D_MISC_ARB_LOCKOUT_CNTRL_GLOBAL .<< f_S AR_D_MISC_ARB_LOCKOUT_CNTRL in
  match tqi_type qi with
  | ATH9K_TX_QUEUE_BEACON =>
      let ah := set_bit (AR_QMISC q) (AR_Q_MISC_FSP_DBA_GATED .| AR_Q_MISC_BEACON_USE .| AR_Q_MISC_CBR_INCR_DIS1) ah in
      let ah := set_bit (AR_DMISC q) (lockout .| AR_D_MISC_BEACON_USE .| AR_D_MISC_POST_FR_BKOFF_DIS) ah in
      if negb (adhoc ah) then
        hw_write (AR_DLCL_IFS q) (SM 0 AR_D_LCL_IFS_CWMIN .| SM 0 AR_D_LCL_IFS_CWMAX .| SM (tqi_aifs qi) AR_D_LCL_IFS_AIFS) ah
      else ah
  | ATH9K_TX_QUEUE_CAB =>
      let ah := set_bit (AR_QMISC q) (AR_Q_MISC_FSP_DBA_GATED .| AR_Q_MISC_CBR_INCR_DIS1 .| AR_Q_MISC_CBR_INCR_DIS0) ah in
      let value := u32 ((tqi_readyTime qi - (sw_beacon_response_time ah - dma_beacon_response_time ah)) * 1024) in
      let ah := hw_write (AR_QRDYTIMECFG q) (value .| AR_Q_RDYTIMECFG_EN) ah in
      set_bit (AR_DMISC q) lockout ah
  | ATH9K_TX_QUEUE_PSPOLL => set_bit (AR_QMISC q) AR_Q_MISC_CBR_INCR_DIS1 ah
  | ATH9K_TX_QUEUE_UAPSD => set_bit (AR_DMISC q) AR_D_MISC_POST_FR_BKOFF_DIS ah
  | _ => ah
  end.

(** The masks of the interrupts of a queue, from its flags. *)
Definition reset_masks (q : Z) (qflags : Z) (ah : mac_hw) : mac_hw :=
  let add f m := if has qflags f then m .| (1 .<< q) else m in
  (ath9k_hw_clear_queue_interrupts q ah)
    <| txok_interrupt_mask ::= add TXQ_FLAG_TXINT_ENABLE |> <| txerr_interrupt_mask ::= add TXQ_FLAG_TXINT_ENABLE |>
    <| txdesc_interrupt_mask ::= add TXQ_FLAG_TXDESCINT_ENABLE |> <| txeol_interrupt_mask ::= add TXQ_FLAG_TXEOLINT_ENABLE |>
    <| txurn_interrupt_mask ::= add TXQ_FLAG_TXURNINT_ENABLE |>.

(** The registers of a queue from its properties: the part of a reset before
    [switch (qi->tqi_type)], without the contention window. *)
Definition reset_registers (q : Z) (qi : ath9k_tx_queue_info) (ah : mac_hw) : mac_hw :=
  let ah := hw_write (AR_DRETRY_LIMIT q)
              (SM INIT_SSH_RETRY AR_D_RETRY_LIMIT_STA_SH .| SM INIT_SLG_RETRY AR_D_RETRY_LIMIT_STA_LG .| SM (tqi_shretry qi) AR_D_RETRY_LIMIT_FR_SH) ah in
  let ah := hw_write (AR_QMISC q) AR_Q_MISC_DCU_EARLY_TERM_REQ ah in
  let ah := hw_write (AR_DMISC q) (AR_D_MISC_CW_BKOFF_EN .| AR_D_MISC_FRAG_WAIT_EN .| (if sr_9340 ah && negb (sr_9340_13 ah) then 0x1 else 0x2)) ah in
  let ah :=
    if negb (tqi_cbrPeriod qi =? 0) then
      let ah := hw_write (AR_QCBRCFG q) (SM (tqi_cbrPeriod qi) AR_Q_CBRCFG_INTERVAL .| SM (tqi_cbrOverflowLimit qi) AR_Q_CBRCFG_OVF_THRESH) ah in
      set_bit (AR_QMISC q) (AR_Q_MISC_FSP_CBR .| (if negb (tqi_cbrOverflowLimit qi =? 0) then AR_Q_MISC_CBR_EXP_CNTR_LIMIT_EN else 0)) ah
    else ah in
  let ah :=
    if negb (tqi_readyTime qi =? 0) && negb (bool_decide (tqi_type qi = ATH9K_TX_QUEUE_CAB)) then
      hw_write (AR_QRDYTIMECFG q) (SM (tqi_readyTime qi) AR_Q_RDYTIMECFG_DURATION .| AR_Q_RDYTIMECFG_EN) ah
    else ah in
  let ah := hw_write (AR_DCHNTIME q) (SM (tqi_burstTime qi) AR_D_CHNTIME_DUR .| (if negb (tqi_burstTime qi =? 0) then AR_D_CHNTIME_EN else 0)) ah in
  let ah := if negb (tqi_burstTime qi =? 0) && has (tqi_qflags qi) TXQ_FLAG_RDYTIME_EXP_POLICY_ENABLE
            then set_bit (AR_QMISC q) AR_Q_MISC_RDYTIME_EXP_POLICY ah else ah in
  let ah := if has (tqi_qflags qi) TXQ_FLAG_BACKOFF_DISABLE then set_bit (AR_DMISC q) AR_D_MISC_POST_FR_BKOFF_DIS ah else ah in
  if has (tqi_qflags qi) TXQ_FLAG_FRAG_BURST_BACKOFF_ENABLE then set_bit (AR_DMISC q) AR_D_MISC_FRAG_BKOFF_EN ah else ah.

Definition ath9k_hw_resettxqueue (q : Z) (ah : mac_hw) : option (bool * mac_hw) :=
  qi ← get_qi ah q;
  if bool_decide (tqi_type qi = ATH9K_TX_QUEUE_INACTIVE) then Some (true, ah)
  else
    cwMin ← (if tqi_cwmin qi =? ATH9K_TXQ_USEDEFAULT then cw_round INIT_CWMIN else Some (tqi_cwmin qi));
    let ah := hw_write (AR_DLCL_IFS q) (SM cwMin AR_D_LCL_IFS_CWMIN .| SM (tqi_cwmax qi) AR_D_LCL_IFS_CWMAX .| SM (tqi_aifs qi) AR_D_LCL_IFS_AIFS) ah in
    let ah := reset_by_type q qi (reset_registers q qi ah) in
    let ah := if has (tqi_intFlags qi) ATH9K_TXQ_USE_LOCKOUT_BKOFF_DIS
              then set_bit (AR_DMISC q) (SM AR_D_MISC_ARB_LOCKOUT_CNTRL_GLOBAL AR_D_MISC_ARB_LOCKOUT_CNTRL .| AR_D_MISC_POST_FR_BKOFF_DIS) ah else ah in
    let ah := hw_write AR_Q_DESC_CRCCHK AR_Q_DESC_CRCCHK_EN ah in
    let ah := ath9k_hw_set_txq_interrupts (reset_masks q (tqi_qflags qi) ah) in
    Some (true, no_backoff 6 (no_backoff q ah)).

Definition ath9k_hw_numtxpending (q : Z) (ah : mac_hw) : Z :=
  let npend := REG_READ (mh_common ah) (AR_QSTS q) .& AR_Q_STS_PEND_FR_CNT in
  if (npend =? 0) && has (REG_READ (mh_common ah) AR_Q_TXE) (1 .<< q) then 1 else npend.

Definition ath9k_hw_updatetxtriglevel (bIncTrigLevel : bool) (ah : mac_hw) : bool * mac_hw :=
  if max_txtrig_level ah <=? tx_trig_level ah then (false, ah)
  else
    let ah := ath9k_hw_disable_interrupts ah in
    let txcfg := REG_READ (mh_common ah) AR_TXCFG in
    let curLevel := MS txcfg AR_FTRIG in
    let newLevel :=
      if bIncTrigLevel then if curLevel <? max_txtrig_level ah then curLevel + 1 else curLevel
      else if MIN_TX_FIFO_THRESHOLD <? curLevel then curLevel - 1 else curLevel in
    let ah := if negb (newLevel =? curLevel) then hw_write AR_TXCFG (clr txcfg (f_mask AR_FTRIG) .| SM newLevel AR_FTRIG) ah else ah in
    let ah := ath9k_hw_enable_interrupts ah in
    (negb (newLevel =? curLevel), ah <| tx_trig_level := newLevel |>).

(** The words written to block or unblock a destination, one per queue. *)
Definition tx_filter_word (destidx : Z) (set : bool) (dcu_idx : Z) : Z :=
  SM (Z.b2z set) AR_D_TXBLK_WRITE_COMMAND .| SM dcu_idx AR_D_TXBLK_WRITE_DCU .| SM (cdiv destidx 16) AR_D_TXBLK_WRITE_SLICE .| BIT (crem destidx 16).
Definition ath9k_hw_set_tx_filter (destidx : Z) (set : bool) (ah : mac_hw) : mac_hw :=
  fold_left (fun ah i => hw_write AR_D_TXBLK_BASE (tx_filter_word destidx set i) ah) (seqZ 0 10) ah.


(** * The causes of an interrupt

    [isr] is the word that the FPGA middleware reports
    ([REG_MIDDLEWARE_READ_RST_IRQ]), [status] the word of the caller that the
    causes are written to: it is left as it is when no cause is reported. The
    variables [sync_cause], [async_cause] and [mask2] are 0 here, and the code
    that depends on them never runs. *)
Definition ar9003_hw_get_isr (isr status : Z) (ah : mac_hw) : Z * mac_hw :=
  if isr =? 0 then (status, ah)
  else
    let add (b : bool) (bits masked : Z) := if b then masked .| bits else masked in
    let masked := isr .& ATH9K_INT_COMMON in
    let masked := add (rx_intr_mitigation ah && has isr (AR_ISR_RXMINTR .| AR_ISR_RXINTM)) ATH9K_INT_RXLP masked in
    let masked := add (tx_intr_mitigation ah && has isr (AR_ISR_TXMINTR .| AR_ISR_TXINTM)) ATH9K_INT_TX masked in
    let masked := add (has isr AR_ISR_LP_RXOK) ATH9K_INT_RXLP masked in
    let masked := add (has isr AR_ISR_RXERR) ATH9K_INT_RXERR masked in
    let masked := add (has isr AR_ISR_HP_RXOK) ATH9K_INT_RXHP masked in
    let '(masked, ah) :=
      if has isr (AR_ISR_TXOK .| AR_ISR_TXERR .| AR_ISR_TXEOL) then
        (masked .| ATH9K_INT_TX,
         if negb (rac_supported ah) then
           let ah := hw_write AR_ISR_S0 (REG_READ (mh_common ah) AR_ISR_S0) ah in
           hw_write AR_ISR_S1 (REG_READ (mh_common ah) AR_ISR_S1) ah
         else ah)
      else (masked, ah) in
    if has isr AR_ISR_GENTMR then
      let s5 := REG_READ (mh_common ah) (if rac_supported ah then AR_ISR_S5_S else AR_ISR_S5) in
      let ah := ah <| intr_gen_timer_trigger := MS s5 AR_ISR_S5_GENTIMER_TRIG |> <| intr_gen_timer_thresh := MS s5 AR_ISR_S5_GENTIMER_THRESH |> in
      let masked := add (negb (intr_gen_timer_trigger ah =? 0)) ATH9K_INT_GENTIMER masked in
      (masked, if negb (rac_supported ah) then hw_write AR_ISR_S5 s5 ah else ah)
    else (masked, ah).

(** * The interrupt handler and its tasklet *)

Definition AR_DIAG_SW : Z := 0x8048.
Definition AR_DIAG_RX_DIS : Z := 0x00000020.
Definition AR_DIAG_RX_ABORT : Z := 0x02000000.
Definition PS_WAIT_FOR_BEACON : Z := BIT 0.
Definition PS_BEACON_SYNC : Z := BIT 4.
Definition MAX_GTT_CNT : Z := 5.
Definition SCHED_INTR : Z :=
  ATH9K_INT_FATAL .| ATH9K_INT_BB_WATCHDOG .| ATH9K_INT_RXORN .| ATH9K_INT_RXEOL .| ATH9K_INT_RX .| ATH9K_INT_RXLP .| ATH9K_INT_RXHP .|
  ATH9K_INT_RXERR .| ATH9K_INT_TX .| ATH9K_INT_BMISS .| ATH9K_INT_CST .| ATH9K_INT_GTT .| ATH9K_INT_TSFOOR .| ATH9K_INT_GENTIMER .| ATH9K_INT_MCI.

Inductive irqreturn_t := IRQ_NONE | IRQ_HANDLED.
Inductive ath_reset_type := RESET_TYPE_BB_WATCHDOG | RESET_TYPE_FATAL_INT | RESET_TYPE_TX_GTT.

(** What the handlers ask the rest of the driver to do. *)
Inductive drv_call :=
  | BconTasklet                          (* tasklet_schedule(&sc->bcon_tasklet) *)
  | IntrTasklet                          (* tasklet_schedule(&sc->intr_tq) *)
  | SetPowerAwake                        (* ath9k_setpower *)
  | QueueReset (type : ath_reset_type)   (* the work item of ath9k_queue_reset *)
  | RxTasklet (hp : bool)                (* ath_rx_tasklet *)
  | TxEdmaTasklet                        (* ath_tx_edma_tasklet *)
  | GenTimerIsr                          (* ath_gen_timer_isr *)
  | BtcoexInterrupt (status : Z).        (* ath9k_btcoex_handle_interrupt *)

Record isr_softc := {
  sc_ah : mac_hw;
  intrstatus : Z;
  op_invalid : bool;                     (* ATH_OP_INVALID *)
  op_hw_reset : bool;                    (* ATH_OP_HW_RESET *)
  bb_watchdog : bool;                    (* hw_hang_checks & HW_BB_WATCHDOG *)
  gtt_cnt : Z;
  ps_idle : bool;
  ps_enabled : bool;
  isr_ps_flags : Z;
  calls : list drv_call;
}.
#[export] Instance eta_isr_softc : Eta isr_softc := fun r =>
  Build_isr_softc (sc_ah r) (intrstatus r) (op_invalid r) (op_hw_reset r) (bb_watchdog r) (gtt_cnt r) (ps_idle r) (ps_enabled r) (isr_ps_flags r) (calls r).

Definition call (c : drv_call) (sc : isr_softc) : isr_softc := sc <| calls ::= fun l => l ++ [c] |>.

Definition ath9k_queue_reset (type : ath_reset_type) (sc : isr_softc) : isr_softc :=
  call (QueueReset type) (sc <| sc_ah ::= ath9k_hw_kill_interrupts |> <| op_hw_reset := true |>).

(** The causes that the handler itself deals with; a fatal one goes straight to
    the end ([goto chip_reset]). *)
Definition isr_causes (status : Z) (sc : isr_softc) : isr_softc :=
  if has status ATH9K_INT_FATAL then sc
  else if bb_watchdog sc && has status ATH9K_INT_BB_WATCHDOG then sc
  else
    let sc := if has status ATH9K_INT_SWBA then call BconTasklet sc else sc in
    let sc := if has status ATH9K_INT_TXURN then sc <| sc_ah ::= fun ah => snd (ath9k_hw_updatetxtriglevel true ah) |> else sc in
    let sc := if has status ATH9K_INT_RXEOL
              then sc <| sc_ah ::= fun ah => ath9k_hw_set_interrupts (ah <| imask ::= fun m => clr m (ATH9K_INT_RXEOL .| ATH9K_INT_RXORN) |>) |>
              else sc in
    if negb (autosleep (sc_ah sc)) && has status ATH9K_INT_TIM_TIMER && negb (ps_idle sc) then
      call SetPowerAwake (sc <| sc_ah ::= clr_bit AR_DIAG_SW (AR_DIAG_RX_DIS .| AR_DIAG_RX_ABORT) |> <| isr_ps_flags ::= fun f => f .| PS_WAIT_FOR_BEACON |>)
    else sc.

(** [status] is what the variable of that name holds on entry: it is not
    initialised. *)
Definition ath_isr (isr status : Z) (sc : isr_softc) : irqreturn_t * isr_softc :=
  if op_invalid sc then (IRQ_NONE, sc)
  else
    let '(status, ah) := ar9003_hw_get_isr isr status (sc_ah sc) in
    let sc := sc <| sc_ah := ah |> in
    if op_hw_reset sc then (IRQ_HANDLED, sc)
    else if status =? 0 then (IRQ_NONE, sc)
    else
      let sc := isr_causes status (sc <| intrstatus := status |>) in
      (IRQ_HANDLED, if has status SCHED_INTR then call IntrTasklet sc else sc).

Definition INTR_RXMASK : Z := ATH9K_INT_RXHP .| ATH9K_INT_RXLP .| ATH9K_INT_RXEOL .| ATH9K_INT_RXORN .| ATH9K_INT_RXERR.

(** A reset replaces the work of the tasklet; it counts once more in the
    reference counter "so that interrupts are enabled in the reset routine". *)
Definition skip_interrupts (type : ath_reset_type) (sc : isr_softc) : isr_softc :=
  (ath9k_queue_reset type sc) <| sc_ah ::= fun ah => ah <| intr_ref_cnt ::= fun n => s32 (n + 1) |> |>.

(** [alive] is the result of [ath9k_hw_check_alive], [hung] that of
    [ar9003_hw_bb_watchdog_check]. The update of the cycle counters and the
    debugging output before the latter are left out. *)
Definition ath9k_tasklet (alive hung : bool) (sc : isr_softc) : isr_softc :=
  let status := intrstatus sc in
  if has status ATH9K_INT_FATAL then skip_interrupts RESET_TYPE_FATAL_INT sc
  else if bb_watchdog sc && has status ATH9K_INT_BB_WATCHDOG && hung then skip_interrupts RESET_TYPE_BB_WATCHDOG sc
  else
    let sc := if has status ATH9K_INT_GTT then sc <| gtt_cnt ::= fun n => u8 (n + 1) |> else sc in
    if has status ATH9K_INT_GTT && (MAX_GTT_CNT <=? gtt_cnt sc) && negb alive then skip_interrupts RESET_TYPE_TX_GTT sc
    else
      let sc := if has status ATH9K_INT_TSFOOR && ps_enabled sc then sc <| isr_ps_flags ::= fun f => f .| (PS_WAIT_FOR_BEACON .| PS_BEACON_SYNC) |> else sc in
      let sc := if has status INTR_RXMASK
                then call (RxTasklet false) (if has status ATH9K_INT_RXHP then call (RxTasklet true) sc else sc) else sc in
      let sc := if has status ATH9K_INT_TX then call TxEdmaTasklet (sc <| gtt_cnt := 0 |>) else sc in
      let sc := if has status ATH9K_INT_GENTIMER then call GenTimerIsr sc else sc in
      call (BtcoexInterrupt status) sc.

(** What a reset does to the interrupts: [ath_prepare_reset] disables them, the
    end of [ath_complete_reset] enables them. *)
Definition reset_interrupts (ah : mac_hw) : mac_hw := ath9k_hw_enable_interrupts (ath9k_hw_set_interrupts (ath9k_hw_disable_interrupts ah)).

(** * Registers after an operation *)

Definition hw_read (ah : mac_hw) (a : Z) : Z := REG_READ (mh_common ah) a.

Lemma hw_write_eq a v ah : hw_read (hw_write a v ah) a = u32 v.
Proof. unfold hw_read, hw_write, on_regs. cbn [mh_common upd]. by rewrite read_write_eq. Qed.

Lemma set_bit_eq a f ah : hw_read (set_bit a f ah) a = u32 (hw_read ah a .| f).
Proof. unfold hw_read, set_bit, on_regs, REG_SET_BIT, REG_RMW, clr. cbn [mh_common upd]. by rewrite read_write_eq, Z.ldiff_0_r. Qed.

Lemma clr_bit_eq a f ah : hw_read (clr_bit a f ah) a = u32 (clr (hw_read ah a) f).
Proof. unfold hw_read, clr_bit, on_regs, REG_CLR_BIT, REG_RMW. cbn [mh_common upd]. by rewrite read_write_eq, Z.lor_0_r. Qed.

(** [frames l ah ah']: only registers of [l] differ. *)
Definition frames (l : list Z) (ah ah' : mac_hw) : Prop := forall a, a ∉ l -> hw_read ah' a = hw_read ah a.

#[export] Instance frames_preorder l : PreOrder (frames l).
Proof. split; [done|]. intros x y z H1 H2 a Ha. by rewrite H2, H1. Qed.

Lemma frames_write l a v ah0 ah : a ∈ l -> frames l ah0 ah -> frames l ah0 (hw_write a v ah).
Proof.
  intros Hin Hf b Hb. rewrite <- (Hf b Hb). unfold hw_read, hw_write, on_regs. cbn [mh_common upd].
  rewrite read_write_ne; [done|]. by intros <-.
Qed.
Lemma frames_set l a v ah0 ah : a ∈ l -> frames l ah0 ah -> frames l ah0 (set_bit a v ah).
Proof. exact (frames_write l a _ ah0 ah). Qed.
Lemma frames_clr l a v ah0 ah : a ∈ l -> frames l ah0 ah -> frames l ah0 (clr_bit a v ah).
Proof. exact (frames_write l a _ ah0 ah). Qed.
Lemma frames_if l (b : bool) ah0 x y : frames l ah0 x -> frames l ah0 y -> frames l ah0 (if b then x else y).
Proof. by destruct b. Qed.
Lemma frames_same l ah0 ah ah' : mh_common ah' = mh_common ah -> frames l ah0 ah -> frames l ah0 ah'.
Proof. intros He Hf a Ha. unfold hw_read. rewrite He. exact (Hf a Ha). Qed.
Lemma frames_weaken l l' ah ah' : l ⊆ l' -> frames l ah ah' -> frames l' ah ah'.
Proof. intros Hl Hf a Ha. apply Hf. set_solver. Qed.

Create HintDb regs discriminated.
#[export] Hint Resolve frames_write frames_set frames_clr frames_if : regs.
#[export] Hint Extern 0 (frames _ ?x ?x) => reflexivity : regs.
#[export] Hint Extern 1 (_ ∈ _) => repeat first [apply list_elem_of_here | apply list_elem_of_further] : regs.

(** The registers of a queue that a reset writes. *)
Definition queue_regs (q : Z) : list Z :=
  [AR_DLCL_IFS q; AR_DMISC q; AR_DRETRY_LIMIT q; AR_QMISC q; AR_QCBRCFG q; AR_QRDYTIMECFG q; AR_DCHNTIME q].
Definition mask_regs : list Z := [AR_IMR_S0; AR_IMR_S1; AR_IMR_S2].

Lemma reset_registers_frame q qi ah : frames (queue_regs q) ah (reset_registers q qi ah).
Proof. unfold reset_registers, queue_regs. auto 20 with regs. Qed.

Lemma reset_by_type_frame q qi ah : frames (queue_regs q) ah (reset_by_type q qi ah).
Proof. unfold reset_by_type, queue_regs. destruct (tqi_type qi); auto 20 with regs. Qed.

Lemma no_backoff_frame q ah : frames [AR_DLCL_IFS q; AR_DMISC q] ah (no_backoff q ah).
Proof. unfold no_backoff. auto 20 with regs. Qed.

Lemma txq_interrupts_frame ah : frames mask_regs ah (ath9k_hw_set_txq_interrupts ah).
Proof.
  unfold ath9k_hw_set_txq_interrupts, mask_regs. apply frames_write; [auto with regs|].
  set (x := hw_write AR_IMR_S1 _ _). apply (frames_same _ _ x); [done|]. unfold x. auto 20 with regs.
Qed.

Lemma reset_masks_frame q f ah : frames [] ah (reset_masks q f ah).
Proof. by apply (frames_same _ _ ah). Qed.

Lemma no_backoff_read q ah : let ah' := no_backoff q ah in
  hw_read ah' (AR_DLCL_IFS q) = 0 /\ has (hw_read ah' (AR_DMISC q)) AR_D_MISC_POST_FR_BKOFF_DIS = true /\
  has (hw_read ah' (AR_DMISC q)) AR_D_MISC_CW_BKOFF_EN = false.
Proof.
  intros ah'. unfold ah', no_backoff. split; [|rewrite clr_bit_eq, set_bit_eq; set (w := hw_read _ _); split].
  - set (x := hw_write _ _ _). transitivity (hw_read x (AR_DLCL_IFS q)).
    + assert (AR_DLCL_IFS q <> AR_DMISC q) by (unfold AR_DLCL_IFS, AR_DMISC; lia).
      apply (frames_clr [AR_DMISC q]); [by left| |set_solver]. apply frames_set; [by left|reflexivity].
    + unfold x. by rewrite hw_write_eq.
  - unfold has, clr, u32, AR_D_MISC_POST_FR_BKOFF_DIS, AR_D_MISC_CW_BKOFF_EN. change 4294967296 with (2 ^ 32).
    change 2097152 with (1 .<< 21). change 0x00200000 with (1 .<< 21). apply negb_true_iff, Z.eqb_neq. intros H.
    apply (f_equal (fun z => Z.testbit z 21)) in H. rewrite <- !Z.land_ones in H by lia.
    by rewrite !Z.land_spec, Z.ldiff_spec, Z.land_spec, Z.lor_spec, orb_true_r in H.
  - unfold has, clr, u32. change 4294967296 with (2 ^ 32). apply negb_false_iff, Z.eqb_eq. apply Z.bits_inj'. intros n Hn.
    rewrite <- !Z.land_ones by lia. rewrite !Z.land_spec, Z.ldiff_spec, Z.bits_0.
    destruct (Z.testbit AR_D_MISC_CW_BKOFF_EN n); by rewrite ?andb_false_r.
Qed.

(** The last writes of a reset win over those for the type of the queue. *)
Lemma reset_registers_zero q qi ah :
  0 <= q < ATH9K_NUM_TX_QUEUES -> get_qi ah q = Some qi -> tqi_type qi <> ATH9K_TX_QUEUE_INACTIVE ->
  exists ah', ath9k_hw_resettxqueue q ah = Some (true, ah') /\
    (forall p, p = q \/ p = 6 ->
       hw_read ah' (AR_DLCL_IFS p) = 0 /\ has (hw_read ah' (AR_DMISC p)) AR_D_MISC_POST_FR_BKOFF_DIS = true /\
       has (hw_read ah' (AR_DMISC p)) AR_D_MISC_CW_BKOFF_EN = false) /\
    (forall p a, 0 <= p < ATH9K_NUM_TX_QUEUES -> p <> q -> p <> 6 -> a ∈ queue_regs p -> hw_read ah' a = hw_read ah a).
Proof.
  intros Hq Hg Ha. unfold ath9k_hw_resettxqueue. rewrite Hg. cbn [mbind option_bind]. rewrite bool_decide_false by done.
  assert (exists cw, (if tqi_cwmin qi =? ATH9K_TXQ_USEDEFAULT then cw_round INIT_CWMIN else Some (tqi_cwmin qi)) = Some cw) as [cw ->]
    by (destruct (_ =? _); [by exists 15|by eexists]).
  cbn [mbind option_bind]. eexists. split; [reflexivity|].
  set (ah1 := if has (tqi_intFlags qi) _ then _ else _).
  assert (frames (queue_regs q) ah ah1) as H1.
  { unfold ah1. set (ah2 := reset_by_type _ _ _). assert (frames (queue_regs q) ah ah2) as H2.
    { unfold ah2. etransitivity; [|apply reset_by_type_frame]. etransitivity; [|apply reset_registers_frame].
      unfold queue_regs. auto 10 with regs. }
    apply frames_if; [|done]. apply frames_set; [|done]. unfold queue_regs. auto 10 with regs. }
  clearbody ah1. set (ah2 := ath9k_hw_set_txq_interrupts _).
  assert (frames (AR_Q_DESC_CRCCHK :: mask_regs) ah1 ah2) as H2.
  { unfold ah2. etransitivity; [|eapply frames_weaken; [|apply txq_interrupts_frame]; set_solver].
    etransitivity; [|eapply frames_weaken; [|apply reset_masks_frame]; set_solver]. auto 10 with regs. }
  clearbody ah2. assert (0 <= q <= 9) as Hq' by (unfold ATH9K_NUM_TX_QUEUES in Hq; lia). split.
  - intros p [-> | ->]; [|apply no_backoff_read]. destruct (decide (q = 6)) as [->|Hn]; [apply no_backoff_read|].
    rewrite !(no_backoff_frame 6); [apply no_backoff_read|..];
      unfold AR_DLCL_IFS, AR_DMISC; rewrite !Z.shiftl_mul_pow2 by lia; rewrite !not_elem_of_cons, elem_of_nil; lia.
  - intros p a Hp Hn H6 Hin. assert (0 <= p <= 9) by (unfold ATH9K_NUM_TX_QUEUES in Hp; lia).
    unfold queue_regs in Hin. rewrite !elem_of_cons, elem_of_nil in Hin.
    unfold AR_DLCL_IFS, AR_DMISC, AR_DRETRY_LIMIT, AR_QMISC, AR_QCBRCFG, AR_QRDYTIMECFG, AR_DCHNTIME in Hin.
    rewrite !Z.shiftl_mul_pow2 in Hin by lia.
    rewrite (no_backoff_frame 6), (no_backoff_frame q), H2, H1; [done|..];
      unfold queue_regs, mask_regs, AR_DLCL_IFS, AR_DMISC, AR_DRETRY_LIMIT, AR_QMISC, AR_QCBRCFG, AR_QRDYTIMECFG, AR_DCHNTIME,
        AR_Q_DESC_CRCCHK, AR_IMR_S0, AR_IMR_S1, AR_IMR_S2; rewrite ?Z.shiftl_mul_pow2 by lia; rewrite !not_elem_of_cons, elem_of_nil; lia.
Qed.

(** The beacon queue of an ad-hoc network. *)
Definition ibss_beacon (ah : mac_hw) (p : Z) : Prop :=
  adhoc ah = true /\ exists qi, get_qi ah p = Some qi /\ tqi_type qi = ATH9K_TX_QUEUE_BEACON.

(** C25. Random backoff is off where the TDMA platform needs it off: after the
    reset of an active queue, whatever its properties are, the queue and the queue
    of the FPGA have no inter-frame space, no contention window and no backoff,
    and the registers of the other queues are as they were. Not claimed is this
    for the beacon queue of an ad-hoc network, which the comment at mac.c:459
    wants to keep its contention window (see [ibss_beacon_zeroed]). *)
Theorem backoff_disabled q qi ah :
  0 <= q < ATH9K_NUM_TX_QUEUES -> get_qi ah q = Some qi -> tqi_type qi <> ATH9K_TX_QUEUE_INACTIVE ->
  exists ah', ath9k_hw_resettxqueue q ah = Some (true, ah') /\
    (forall p, p = q \/ p = 6 -> ~ ibss_beacon ah p ->
       hw_read ah' (AR_DLCL_IFS p) = 0 /\ has (hw_read ah' (AR_DMISC p)) AR_D_MISC_POST_FR_BKOFF_DIS = true /\
       has (hw_read ah' (AR_DMISC p)) AR_D_MISC_CW_BKOFF_EN = false) /\
    (forall p a, 0 <= p < ATH9K_NUM_TX_QUEUES -> p <> q -> p <> 6 -> a ∈ queue_regs p -> hw_read ah' a = hw_read ah a).
Proof.
  intros Hq Hg Ha. destruct (reset_registers_zero q qi ah Hq Hg Ha) as (ah' & E & H & H'). exists ah'. split_and!; auto.
Qed.

(** The beacon queue of an ad-hoc network loses its contention window as well,
    although [reset_by_type] takes care to leave it. *)
Theorem ibss_beacon_zeroed q ah : 0 <= q < ATH9K_NUM_TX_QUEUES -> ibss_beacon ah q ->
  exists ah', ath9k_hw_resettxqueue q ah = Some (true, ah') /\ hw_read ah' (AR_DLCL_IFS q) = 0.
Proof.
  intros Hq (_ & qi & Hg & Hb). destruct (reset_registers_zero q qi ah Hq Hg ltac:(by rewrite Hb)) as (ah' & E & H & _).
  exists ah'. split; [done|]. by apply H; left.
Qed.

(** * The reference counter of the interrupts *)

(** Interrupts are on: the mask has its global bit, nobody holds them off and
    the hardware delivers them. *)
Record interrupts_on (ah : mac_hw) : Prop := {
  on_global : has (imask ah) ATH9K_INT_GLOBAL = true;
  on_ref : intr_ref_cnt ah = 0;
  on_ier : hw_read ah AR_IER = AR_IER_ENABLE;
}.

Definition async_regs (ah : mac_hw) : list Z := [AR_INTR_ASYNC_ENABLE ah; AR_INTR_ASYNC_MASK ah; AR_INTR_SYNC_ENABLE ah; AR_INTR_SYNC_MASK ah].

Lemma ier_not_async ah : AR_IER ∉ async_regs ah.
Proof.
  unfold async_regs, AR_INTR_ASYNC_ENABLE, AR_INTR_ASYNC_MASK, AR_INTR_SYNC_ENABLE, AR_INTR_SYNC_MASK, AR_IER.
  rewrite !not_elem_of_cons, elem_of_nil. destruct (sr_9340 ah); lia.
Qed.

Lemma kill_reads ah : let ah' := ath9k_hw_kill_interrupts ah in
  hw_read ah' AR_IER = AR_IER_DISABLE /\ intr_ref_cnt ah' = intr_ref_cnt ah /\ imask ah' = imask ah.
Proof.
  intros ah'. split; [|done]. unfold ah', ath9k_hw_kill_interrupts. set (x := hw_write AR_IER _ ah).
  transitivity (hw_read x AR_IER); [|unfold x; by rewrite hw_write_eq].
  assert (frames (async_regs ah) x (hw_write (AR_INTR_SYNC_ENABLE ah) 0 (hw_write (AR_INTR_ASYNC_ENABLE ah) 0 x))) as H
    by (unfold async_regs; auto 10 with regs).
  apply H, ier_not_async.
Qed.

Lemma disable_reads ah : has (imask ah) ATH9K_INT_GLOBAL = true -> let ah' := ath9k_hw_disable_interrupts ah in
  hw_read ah' AR_IER = AR_IER_DISABLE /\ intr_ref_cnt ah' = s32 (intr_ref_cnt ah - 1) /\ imask ah' = imask ah.
Proof.
  intros Hg ah'. unfold ah', ath9k_hw_disable_interrupts. rewrite Hg. cbn [negb].
  destruct (kill_reads (ah <| intr_ref_cnt ::= fun n => s32 (n - 1) |>)) as (-> & -> & ->). done.
Qed.

Lemma enable_reads ah : has (imask ah) ATH9K_INT_GLOBAL = true -> let ah' := ath9k_hw_enable_interrupts ah in
  let n := s32 (intr_ref_cnt ah + 1) in
  intr_ref_cnt ah' = n /\ imask ah' = imask ah /\ hw_read ah' AR_IER = if n =? 0 then AR_IER_ENABLE else hw_read ah AR_IER.
Proof.
  intros Hg ah' n. unfold ah', ath9k_hw_enable_interrupts. rewrite Hg. cbn [negb].
  set (ah1 := ah <| intr_ref_cnt ::= _ |>). assert (intr_ref_cnt ah1 = n) as -> by done.
  destruct (n =? 0); cbn [negb]; [|done]. split; [done|]. split; [done|].
  set (x := hw_write AR_IER _ ah1). match goal with |- hw_read ?y _ = _ => assert (frames (async_regs ah1) x y) as H end.
  { unfold async_regs. auto 10 with regs. }
  rewrite H by apply ier_not_async. unfold x. by rewrite hw_write_eq.
Qed.

Lemma s32_id z : - 2147483648 <= z < 2147483648 -> s32 z = z.
Proof. intros. unfold s32, u32. destruct (Z.ltb_spec (z mod 4294967296) 2147483648); Z.to_euclidean_division_equations; lia. Qed.

(** Disabling and enabling, as the driver nests them. *)
Inductive intr_op := IntrDisable | IntrEnable.
Definition run_intr (ah : mac_hw) (o : intr_op) : mac_hw :=
  match o with IntrDisable => ath9k_hw_disable_interrupts ah | IntrEnable => ath9k_hw_enable_interrupts ah end.
Definition intr_ops (ops : list intr_op) (ah : mac_hw) : mac_hw := fold_left run_intr ops ah.
Fixpoint pending (ops : list intr_op) : Z :=
  match ops with [] => 0 | IntrDisable :: ops => 1 + pending ops | IntrEnable :: ops => pending ops - 1 end.

Lemma pending_app l k : pending (l ++ k) = pending l + pending k.
Proof. induction l as [|[] l IH]; simpl; lia. Qed.
Lemma pending_le l : - Z.of_nat (length l) <= pending l <= Z.of_nat (length l).
Proof. induction l as [|[] l IH]; simpl; lia. Qed.

(** Sections without interrupts nest: while every enabling matches an
    earlier disabling, the hardware delivers interrupts exactly when all are
    matched. *)
Theorem interrupts_nest ops ah :
  interrupts_on ah -> Z.of_nat (length ops) < 2147483648 -> (forall k, 0 <= pending (take k ops)) ->
  let ah' := intr_ops ops ah in
  intr_ref_cnt ah' = - pending ops /\ hw_read ah' AR_IER = if pending ops =? 0 then AR_IER_ENABLE else AR_IER_DISABLE.
Proof.
  intros [Hg Hr Hi] Hl Hp. assert (let ah' := intr_ops ops ah in has (imask ah') ATH9K_INT_GLOBAL = true /\
    intr_ref_cnt ah' = - pending ops /\ hw_read ah' AR_IER = if pending ops =? 0 then AR_IER_ENABLE else AR_IER_DISABLE) as H; [|by destruct H as (_ & H)].
  induction ops as [|o ops IH] using rev_ind; [done|]. intros ah'. rewrite length_app in Hl. simpl in Hl.
  destruct IH as (IHg & IHr & IHi); [lia| |].
  { intros k. destruct (decide (k <= length ops)%nat); [specialize (Hp k); by rewrite take_app_le in Hp|].
    specialize (Hp (length ops)). rewrite take_app_length in Hp. by rewrite take_ge by lia. }
  assert (0 <= pending ops) as H0 by (specialize (Hp (length ops)); by rewrite take_app_length in Hp).
  assert (0 <= pending (ops ++ [o])) as H1 by (specialize (Hp (S (length ops))); rewrite take_ge in Hp by (rewrite length_app; simpl; lia); done).
  pose proof (pending_le ops). unfold ah', intr_ops in *. rewrite fold_left_app. cbn [fold_left].
  set (x := fold_left run_intr ops ah) in *. clearbody x. rewrite pending_app in *. destruct o; cbn [run_intr pending] in *.
  - destruct (disable_reads x IHg) as (-> & -> & ->). rewrite IHr, s32_id by lia. split_and!; [done|lia|].
    by destruct (Z.eqb_spec (pending ops + (1 + 0)) 0); [lia|].
  - destruct (enable_reads x IHg) as (-> & -> & ->). rewrite IHr, s32_id, IHi by lia. split_and!; [done|lia|].
    destruct (Z.eqb_spec (- pending ops + 1) 0), (Z.eqb_spec (pending ops + (0 - 1)) 0), (Z.eqb_spec (pending ops) 0); lia.
Qed.

(** * An interrupt *)

Lemma on_frames l ah ah' : interrupts_on ah -> frames l ah ah' -> AR_IER ∉ l -> intr_ref_cnt ah' = intr_ref_cnt ah ->
  has (imask ah') ATH9K_INT_GLOBAL = has (imask ah) ATH9K_INT_GLOBAL -> interrupts_on ah'.
Proof. intros [] Hf Hl Hr Hm. split; [by rewrite Hm|by rewrite Hr|by rewrite Hf]. Qed.

Lemma has_if (b : bool) m bits F : has (if b then m .| bits else m) F = has m F || (b && has bits F).
Proof. destruct b; [apply has_lor|]. by rewrite orb_false_r. Qed.
Lemma has_and m k F : has (m .& k) F = has m (k .& F).
Proof. unfold has. by rewrite Z.land_assoc. Qed.

(** Every cause of a reported word. *)
Lemma isr_status isr status ah F : isr <> 0 ->
  has (fst (ar9003_hw_get_isr isr status ah)) F =
    has isr (ATH9K_INT_COMMON .& F) || (rx_intr_mitigation ah && has isr (AR_ISR_RXMINTR .| AR_ISR_RXINTM) && has ATH9K_INT_RXLP F) ||
    (tx_intr_mitigation ah && has isr (AR_ISR_TXMINTR .| AR_ISR_TXINTM) && has ATH9K_INT_TX F) || (has isr AR_ISR_LP_RXOK && has ATH9K_INT_RXLP F) ||
    (has isr AR_ISR_RXERR && has ATH9K_INT_RXERR F) || (has isr AR_ISR_HP_RXOK && has ATH9K_INT_RXHP F) ||
    (has isr (AR_ISR_TXOK .| AR_ISR_TXERR .| AR_ISR_TXEOL) && has ATH9K_INT_TX F) ||
    (has isr AR_ISR_GENTMR && negb (intr_gen_timer_trigger (snd (ar9003_hw_get_isr isr status ah)) =? 0) && has ATH9K_INT_GENTIMER F).
Proof.
  intros Hn. unfold ar9003_hw_get_isr. rewrite (proj2 (Z.eqb_neq isr 0) Hn).
  destruct (has isr (_ .| _ .| _)), (has isr AR_ISR_GENTMR); cbn [fst snd andb]; rewrite ?has_lor, ?has_if, ?has_lor, ?has_if, ?has_and;
    rewrite ?andb_true_l, ?andb_false_l, ?orb_false_r; try reflexivity;
    (f_equal; f_equal; f_equal; f_equal; repeat case_match; reflexivity).
Qed.

Lemma isr_keeps isr status ah : let ah' := snd (ar9003_hw_get_isr isr status ah) in
  frames [AR_ISR_S0; AR_ISR_S1; AR_ISR_S5] ah ah' /\ imask ah' = imask ah /\ intr_ref_cnt ah' = intr_ref_cnt ah /\ autosleep ah' = autosleep ah.
Proof.
  intros ah'. unfold ah', ar9003_hw_get_isr. destruct (isr =? 0); [done|].
  set (ah1 := if negb (rac_supported ah) then _ else ah).
  assert (frames [AR_ISR_S0; AR_ISR_S1; AR_ISR_S5] ah ah1 /\ imask ah1 = imask ah /\ intr_ref_cnt ah1 = intr_ref_cnt ah /\ autosleep ah1 = autosleep ah) as H1.
  { unfold ah1. destruct (negb _); (split; [auto 10 with regs|done]). }
  clearbody ah1. set (masked := if has isr AR_ISR_HP_RXOK then _ else _). clearbody masked.
  assert (exists m ah2, (if has isr (AR_ISR_TXOK .| AR_ISR_TXERR .| AR_ISR_TXEOL) then (masked .| ATH9K_INT_TX, ah1) else (masked, ah)) = (m, ah2) /\
    frames [AR_ISR_S0; AR_ISR_S1; AR_ISR_S5] ah ah2 /\ imask ah2 = imask ah /\ intr_ref_cnt ah2 = intr_ref_cnt ah /\ autosleep ah2 = autosleep ah)
    as (m & ah2 & -> & H2) by (destruct (has isr _); by do 2 eexists).
  destruct (has isr AR_ISR_GENTMR); [|done]. cbn [snd]. set (ah3 := (ah2 <| intr_gen_timer_trigger := _ |>) <| intr_gen_timer_thresh := _ |>).
  destruct H2 as (Hf & H2). split; [|by destruct (negb (rac_supported ah3))].
  apply frames_if; [apply frames_write; [auto 10 with regs|]|]; by apply (frames_same _ _ ah2).
Qed.

Lemma trig_keeps b ah : interrupts_on ah -> interrupts_on (snd (ath9k_hw_updatetxtriglevel b ah)).
Proof.
  intros Hon. unfold ath9k_hw_updatetxtriglevel. destruct (_ <=? _); [done|]. cbn [snd]. destruct Hon as [Hg Hr Hi].
  destruct (disable_reads ah Hg) as (D1 & D2 & D3). set (ah1 := ath9k_hw_disable_interrupts ah) in *. clearbody ah1.
  set (new := if b then _ else _). set (ah2 := if negb _ then _ else ah1).
  assert (intr_ref_cnt ah2 = intr_ref_cnt ah1 /\ imask ah2 = imask ah1) as [E1 E2] by (unfold ah2; by destruct (negb _)).
  clearbody ah2. rewrite D3 in E2. rewrite Hr in D2. rewrite D2 in E1. destruct (enable_reads ah2) as (F1 & F2 & F3); [by rewrite E2|].
  rewrite E1 in F1, F3. split; [|exact F1|exact F3].
  change (imask _) with (imask (ath9k_hw_enable_interrupts ah2)). by rewrite F2, E2.
Qed.

Lemma set_interrupts_frame ah : has (imask ah) ATH9K_INT_GLOBAL = true ->
  frames [AR_IMR; AR_IMR_S2; AR_IMR_S5] ah (ath9k_hw_set_interrupts ah) /\
  imask (ath9k_hw_set_interrupts ah) = imask ah /\ intr_ref_cnt (ath9k_hw_set_interrupts ah) = intr_ref_cnt ah.
Proof.
  intros Hg. unfold ath9k_hw_set_interrupts. rewrite Hg. cbn [negb].
  match goal with |- context [hw_write AR_IMR ?m ah] => set (mask := m) end. clearbody mask.
  set (ah1 := hw_write AR_IMR_S2 _ _). assert (frames [AR_IMR; AR_IMR_S2; AR_IMR_S5] ah ah1) as H1.
  { unfold ah1. apply frames_write; [auto 10 with regs|]. apply (frames_same _ _ (hw_write AR_IMR mask ah)); [done|]. auto 10 with regs. }
  assert (imask ah1 = imask ah /\ intr_ref_cnt ah1 = intr_ref_cnt ah) as H2 by done. clearbody ah1.
  split; [|by repeat case_match]. repeat apply frames_if; auto 10 with regs.
Qed.

Lemma isr_on isr status ah : interrupts_on ah -> interrupts_on (snd (ar9003_hw_get_isr isr status ah)).
Proof.
  intros Hon. destruct (isr_keeps isr status ah) as (Hf & Hm & Hr & _). apply (on_frames _ _ _ Hon Hf); [|done|by rewrite Hm].
  unfold AR_IER, AR_ISR_S0, AR_ISR_S1, AR_ISR_S5. rewrite !not_elem_of_cons, elem_of_nil. lia.
Qed.

(** The interrupt handler, and the tasklet if the handler asked for it.
    [status] is what the uninitialised variable holds. *)
#[export] Instance drv_call_eq_dec : EqDecision drv_call.
Proof. intros x y. assert (EqDecision ath_reset_type) by (intros [] []; by (left + right)). solve_decision. Defined.
Definition interrupt (isr status : Z) (alive hung : bool) (sc : isr_softc) : isr_softc :=
  let sc := snd (ath_isr isr status sc) in
  if bool_decide (IntrTasklet ∈ calls sc) then ath9k_tasklet alive hung sc else sc.

Lemma clr_global m : has (clr m (ATH9K_INT_RXEOL .| ATH9K_INT_RXORN)) ATH9K_INT_GLOBAL = has m ATH9K_INT_GLOBAL.
Proof.
  unfold has, clr. do 2 f_equal. apply Z.bits_inj'. intros n Hn. rewrite !Z.land_spec, Z.ldiff_spec.
  destruct (decide (n = 31)) as [->|]; [by rewrite andb_true_r|].
  change ATH9K_INT_GLOBAL with (2 ^ 31). rewrite Z.pow2_bits_false by lia. by rewrite !andb_false_r.
Qed.

Lemma rxeol_keeps ah : interrupts_on ah ->
  interrupts_on (ath9k_hw_set_interrupts (ah <| imask ::= fun m => clr m (ATH9K_INT_RXEOL .| ATH9K_INT_RXORN) |>)).
Proof.
  intros Hon. set (ah1 := ah <| imask ::= _ |>). assert (has (imask ah1) ATH9K_INT_GLOBAL = true) as Hg by (unfold ah1; cbn [imask upd]; rewrite clr_global; apply Hon).
  destruct (set_interrupts_frame ah1 Hg) as (Hf & Hm & Hr). assert (interrupts_on ah1) as H1 by (destruct Hon; by split).
  apply (on_frames _ _ _ H1 Hf); [|done|by rewrite Hm].
  unfold AR_IER, AR_IMR, AR_IMR_S2, AR_IMR_S5. rewrite !not_elem_of_cons, elem_of_nil. lia.
Qed.

(** What holds while the handler runs: [st] is the word of causes. *)
Definition handling (st : Z) (sc s : isr_softc) : Prop :=
  interrupts_on (sc_ah s) /\ op_hw_reset s = false /\ bb_watchdog s = bb_watchdog sc /\ intrstatus s = st /\ gtt_cnt s = gtt_cnt sc /\
  exists l, calls s = calls sc ++ l /\ l ⊆ [BconTasklet; SetPowerAwake].

Lemma handling_call st sc s c : c ∈ [BconTasklet; SetPowerAwake] -> handling st sc s -> handling st sc (call c s).
Proof.
  intros Hc (A & B & C & D & G & l & E & F). do 5 (split; [done|]). exists (l ++ [c]). cbn [calls call upd]. rewrite E, app_assoc. split; [done|]. set_solver.
Qed.
Lemma handling_ah st sc s f : interrupts_on (f (sc_ah s)) -> handling st sc s -> handling st sc (s <| sc_ah ::= f |>).
Proof. intros Hc (A & B & C & D & E). by do 4 (split; [done|]). Qed.
Lemma handling_if st sc (b : bool) x y : handling st sc x -> handling st sc y -> handling st sc (if b then x else y).
Proof. by destruct b. Qed.

Lemma isr_causes_frame st sc s : has st ATH9K_INT_FATAL = false -> handling st sc s -> handling st sc (isr_causes st s).
Proof.
  intros Hf Hs. unfold isr_causes. rewrite Hf. apply handling_if; [done|].
  set (s1 := if has st ATH9K_INT_SWBA then _ else _). assert (handling st sc s1) as Q1 by (apply handling_if; [apply handling_call; [by left|done]|done]). clearbody s1.
  set (s2 := if has st ATH9K_INT_TXURN then _ else _).
  assert (handling st sc s2) as Q2 by (apply handling_if; [apply handling_ah; [apply trig_keeps, Q1|done]|done]). clearbody s2.
  set (s3 := if has st ATH9K_INT_RXEOL then _ else _).
  assert (handling st sc s3) as Q3 by (apply handling_if; [apply handling_ah; [apply rxeol_keeps, Q2|done]|done]). clearbody s3.
  apply handling_if; [|done]. apply handling_call; [by right; left|].
  apply (handling_ah st sc s3 (clr_bit AR_DIAG_SW (AR_DIAG_RX_DIS .| AR_DIAG_RX_ABORT))); [|done].
  eapply on_frames; [apply Q3|apply frames_clr; [by left|reflexivity]|by apply not_elem_of_cons; split; [|apply not_elem_of_nil]|done|done].
Qed.

Lemma handling_start st sc ah : interrupts_on ah -> op_hw_reset sc = false -> handling st sc ((sc <| sc_ah := ah |>) <| intrstatus := st |>).
Proof. intros Ha Hr. do 5 (split; [done|]). exists []. rewrite app_nil_r. split; [done|set_solver]. Qed.

Lemma has_or m a b : has m (a .| b) = has m a || has m b.
Proof. unfold has. rewrite !(Z.land_comm m). apply (has_lor a b m). Qed.
Lemma has_sub m a b : a .& b = a -> has m a = true -> has m b = true.
Proof. intros <-. rewrite <- has_and. unfold has. rewrite !negb_true_iff, !Z.eqb_neq. intros H Hm. apply H. by rewrite <- Z.land_assoc, (Z.land_comm a), Z.land_assoc, Hm, Z.land_0_l. Qed.
Lemma has_none m : has m 0 = false.
Proof. unfold has. by rewrite Z.land_0_r. Qed.

(** The tasklet without a reset. *)
Lemma tasklet_calls alive hung sc : let st := intrstatus sc in
  has st ATH9K_INT_FATAL = false -> has st ATH9K_INT_BB_WATCHDOG = false -> has st ATH9K_INT_GTT = false ->
  let sc' := ath9k_tasklet alive hung sc in
  sc_ah sc' = sc_ah sc /\ op_hw_reset sc' = op_hw_reset sc /\
  calls sc' = calls sc ++ (if has st INTR_RXMASK then (if has st ATH9K_INT_RXHP then [RxTasklet true] else []) ++ [RxTasklet false] else []) ++
                (if has st ATH9K_INT_TX then [TxEdmaTasklet] else []) ++ (if has st ATH9K_INT_GENTIMER then [GenTimerIsr] else []) ++ [BtcoexInterrupt st].
Proof.
  intros st Hf Hb Hg. cbv zeta. unfold ath9k_tasklet. fold st. rewrite Hf, Hb, Hg, andb_false_r. cbn [andb].
  set (sc1 := if has st ATH9K_INT_TSFOOR && ps_enabled sc then _ else sc).
  assert (sc_ah sc1 = sc_ah sc /\ op_hw_reset sc1 = op_hw_reset sc /\ calls sc1 = calls sc) as (A & B & C) by (unfold sc1; by destruct (_ && _)).
  clearbody sc1. rewrite <- A, <- B, <- C.
  destruct (has st INTR_RXMASK), (has st ATH9K_INT_RXHP), (has st ATH9K_INT_TX), (has st ATH9K_INT_GENTIMER); cbn [sc_ah op_hw_reset calls call upd app];
    rewrite <- ?app_assoc; done.
Qed.

(** The causes that reach the handler. *)
Lemma isr_bits isr status ah : isr <> 0 -> let st := fst (ar9003_hw_get_isr isr status ah) in
  has st ATH9K_INT_FATAL = false /\ has st ATH9K_INT_BB_WATCHDOG = false /\ has st ATH9K_INT_GTT = false /\
  has st ATH9K_INT_RXHP = has isr AR_ISR_HP_RXOK /\
  has st INTR_RXMASK = has isr INTR_RXMASK || (rx_intr_mitigation ah && has isr (AR_ISR_RXMINTR .| AR_ISR_RXINTM)) /\
  has st ATH9K_INT_TX = has isr (AR_ISR_TXOK .| AR_ISR_TXERR .| AR_ISR_TXEOL) || (tx_intr_mitigation ah && has isr (AR_ISR_TXMINTR .| AR_ISR_TXINTM)).
Proof.
  intros Hn st. unfold st. rewrite !isr_status by done.
  set (g := negb (intr_gen_timer_trigger _ =? 0)). clearbody g.
  set (r := rx_intr_mitigation ah && _). set (t := tx_intr_mitigation ah && _). set (x := has isr (AR_ISR_TXOK .| AR_ISR_TXERR .| AR_ISR_TXEOL)).
  assert (forall F, ATH9K_INT_COMMON .& F = 0 -> has isr (ATH9K_INT_COMMON .& F) = false) as H0 by (intros F ->; apply has_none).
  rewrite (H0 ATH9K_INT_FATAL), (H0 ATH9K_INT_BB_WATCHDOG), (H0 ATH9K_INT_GTT), (H0 ATH9K_INT_RXHP), (H0 ATH9K_INT_TX) by done.
  assert (has isr INTR_RXMASK = has isr (ATH9K_INT_COMMON .& INTR_RXMASK) || has isr AR_ISR_LP_RXOK || has isr AR_ISR_RXERR || has isr AR_ISR_HP_RXOK) as ->.
  { rewrite <- !has_or. by apply (f_equal (has isr)). }
  repeat match goal with |- context [has ?a ?b] => is_const a;
    let v := eval vm_compute in (has a b) in change (has a b) with v end.
  generalize (has isr (ATH9K_INT_COMMON .& INTR_RXMASK)) (has isr AR_ISR_LP_RXOK) (has isr AR_ISR_RXERR) (has isr AR_ISR_HP_RXOK) (has isr AR_ISR_GENTMR).
  clearbody r t x. intros a b c d e. destruct r, t, x, a, b, c, d, e, g; done.
Qed.

(** Membership in a list of calls. *)
Ltac member := rewrite ?elem_of_cons, ?elem_of_nil; clear; intuition congruence.

(** C20. An interrupt reaches the work it stands for, and nothing else: for every
    word of at least one cause that the FPGA reports, with whatever the
    uninitialised variable holds, arriving while the device runs with its
    interrupts on and no reset is pending, the receive tasklet runs for a queue
    exactly when a receive cause is set, the transmit tasklet exactly when a
    transmit cause is set, no reset is queued, and interrupts are on afterwards.
    When the FPGA reports no cause (isr = 0) the claim fails: the uninitialised
    status is taken for the causes, and may queue a reset ([spurious_interrupt],
    main.c:562). *)
Theorem interrupt_dispatch isr status alive hung sc :
  isr <> 0 -> op_invalid sc = false -> op_hw_reset sc = false -> interrupts_on (sc_ah sc) -> calls sc = [] ->
  let sc' := interrupt isr status alive hung sc in
  interrupts_on (sc_ah sc') /\ op_hw_reset sc' = false /\ (forall t, QueueReset t ∉ calls sc') /\
  (RxTasklet true ∈ calls sc' <-> has isr AR_ISR_HP_RXOK = true) /\
  (RxTasklet false ∈ calls sc' <-> has isr INTR_RXMASK || (rx_intr_mitigation (sc_ah sc) && has isr (AR_ISR_RXMINTR .| AR_ISR_RXINTM)) = true) /\
  (TxEdmaTasklet ∈ calls sc' <->
     has isr (AR_ISR_TXOK .| AR_ISR_TXERR .| AR_ISR_TXEOL) || (tx_intr_mitigation (sc_ah sc) && has isr (AR_ISR_TXMINTR .| AR_ISR_TXINTM)) = true).
Proof.
  intros Hn Hi Hr Hon Hc sc'. destruct (isr_bits isr status (sc_ah sc) Hn) as (Bf & Bb & Bg & <- & <- & <-).
  pose proof (isr_on isr status _ Hon) as Ho. unfold sc', interrupt. clear sc'. set (sc1 := snd (ath_isr isr status sc)).
  assert (exists l, l ⊆ [BconTasklet; SetPowerAwake] /\ let st := fst (ar9003_hw_get_isr isr status (sc_ah sc)) in
    interrupts_on (sc_ah sc1) /\ op_hw_reset sc1 = false /\ calls sc1 = l ++ (if has st SCHED_INTR then [IntrTasklet] else []) /\
    (st <> 0 -> intrstatus sc1 = st)) as (l & Hl & H).
  { unfold sc1, ath_isr. rewrite Hi. destruct (ar9003_hw_get_isr isr status (sc_ah sc)) as [st ah]. cbn [fst snd] in *.
    change (op_hw_reset (sc <| sc_ah := ah |>)) with (op_hw_reset sc). rewrite Hr. destruct (Z.eqb_spec st 0) as [->|Hs].
    { exists []. split; [set_solver|]. by split_and!. }
    destruct (isr_causes_frame st sc _ Bf (handling_start st sc ah Ho Hr)) as (A & B & C & D & _ & l & E & F).
    exists l. split; [done|]. cbn [snd]. set (sc2 := isr_causes st _) in *. clearbody sc2. rewrite Hc in E. cbn [app] in E.
    destruct (has st SCHED_INTR); cbn [sc_ah op_hw_reset calls intrstatus call upd]; by rewrite E, ?app_nil_r. }
  set (st := fst _) in *. clearbody sc1 st. destruct H as (A & B & C & D).
  assert (has st INTR_RXMASK = true -> has st SCHED_INTR = true) as S1 by (by apply has_sub).
  assert (has st ATH9K_INT_TX = true -> has st SCHED_INTR = true) as S2 by (by apply has_sub).
  assert (has st ATH9K_INT_RXHP = true -> has st INTR_RXMASK = true) as S3 by (by apply has_sub).
  destruct (has st SCHED_INTR) eqn:Es.
  - rewrite bool_decide_true by (rewrite C; set_solver).
    assert (st <> 0) as Hs by (intros ->; done). specialize (D Hs).
    destruct (tasklet_calls alive hung sc1) as (E1 & E2 & E3); [by rewrite D..|]. rewrite E1, E2, E3, C, D.
    set (R := _ ++ _ ++ _ ++ [BtcoexInterrupt st]). assert (forall c, c ∉ [BconTasklet; SetPowerAwake; IntrTasklet] ->
      c ∈ (l ++ [IntrTasklet]) ++ R <-> c ∈ R) as HR.
    { intros c Hx. rewrite !elem_of_app. split; [|by right]. intros [[Hy|Hy]|]; [..|done]; destruct Hx; [apply Hl in Hy|]; set_solver. }
    split; [done|]. split; [done|].
    split; [intros t; rewrite HR by member|rewrite !HR by member];
    unfold R; destruct (has st INTR_RXMASK), (has st ATH9K_INT_RXHP), (has st ATH9K_INT_TX), (has st ATH9K_INT_GENTIMER);
      try (by specialize (S3 eq_refl)); cbn [app]; member.
  - assert (forall c, c ∉ [BconTasklet; SetPowerAwake] -> c ∉ l) as HR by (intros c Hx Hy; destruct Hx; by apply Hl).
    rewrite bool_decide_false by (rewrite C, app_nil_r; apply HR; member).
    split; [done|]. split; [done|]. rewrite C, app_nil_r.
    destruct (has st ATH9K_INT_TX); [by specialize (S2 eq_refl)|]. destruct (has st INTR_RXMASK); [by specialize (S1 eq_refl)|].
    destruct (has st ATH9K_INT_RXHP); [by specialize (S3 eq_refl)|].
    split; [intros t; apply HR; member|].
    split_and!; (split; [intros Hin; exfalso; revert Hin; apply HR; member|done]).
Qed.

(** A fatal cause leaves the interrupts off: the tasklet counts a disabling that
    the handler no longer does, so the reset that it queues never reaches the
    point where it enables them. *)
Lemma fatal_leaves_off alive hung sc : interrupts_on (sc_ah sc) -> has (intrstatus sc) ATH9K_INT_FATAL = true ->
  let sc' := ath9k_tasklet alive hung sc in
  calls sc' = calls sc ++ [QueueReset RESET_TYPE_FATAL_INT] /\
  hw_read (reset_interrupts (sc_ah sc')) AR_IER = AR_IER_DISABLE /\ intr_ref_cnt (reset_interrupts (sc_ah sc')) = 1.
Proof.
  intros [Hg Hr Hi] Hf sc'. unfold sc', ath9k_tasklet. rewrite Hf. split; [done|].
  set (ah1 := (ath9k_hw_kill_interrupts (sc_ah sc)) <| intr_ref_cnt ::= fun n => s32 (n + 1) |>).
  change (sc_ah (skip_interrupts _ sc)) with ah1.
  assert (intr_ref_cnt ah1 = 1 /\ has (imask ah1) ATH9K_INT_GLOBAL = true) as [R1 G1].
  { unfold ah1. destruct (kill_reads (sc_ah sc)) as (_ & K1 & K2). cbn [intr_ref_cnt imask upd]. by rewrite K1, K2, Hr, Hg. }
  clearbody ah1. unfold reset_interrupts. destruct (disable_reads ah1 G1) as (I2 & R2 & M2). set (ah2 := ath9k_hw_disable_interrupts ah1) in *. clearbody ah2.
  rewrite R1 in R2. assert (has (imask ah2) ATH9K_INT_GLOBAL = true) as G2 by (by rewrite M2).
  destruct (set_interrupts_frame ah2 G2) as (F3 & M3 & R3). set (ah3 := ath9k_hw_set_interrupts ah2) in *. clearbody ah3.
  assert (has (imask ah3) ATH9K_INT_GLOBAL = true) as G3 by (by rewrite M3). destruct (enable_reads ah3 G3) as (R4 & _ & I4).
  rewrite R3, R2 in R4, I4. rewrite R4, I4, F3, I2 by (unfold AR_IER, AR_IMR, AR_IMR_S2, AR_IMR_S5; rewrite !not_elem_of_cons, elem_of_nil; lia).
  done.
Qed.

(** An interrupt without a cause reads a variable that was never written:
    when its value happens to have the fatal bit, a reset is queued, and after
    this reset the hardware delivers no interrupts any more. *)
Theorem spurious_interrupt status alive hung sc :
  op_invalid sc = false -> op_hw_reset sc = false -> interrupts_on (sc_ah sc) -> has status ATH9K_INT_FATAL = true ->
  let sc' := interrupt 0 status alive hung sc in
  QueueReset RESET_TYPE_FATAL_INT ∈ calls sc' /\ op_hw_reset sc' = true /\ hw_read (reset_interrupts (sc_ah sc')) AR_IER = AR_IER_DISABLE.
Proof.
  intros Hi Hr Hon Hf sc'. unfold sc', interrupt. clear sc'. set (sc1 := snd (ath_isr 0 status sc)).
  assert (interrupts_on (sc_ah sc1) /\ intrstatus sc1 = status /\ calls sc1 = calls sc ++ [IntrTasklet]) as (A & B & C).
  { unfold sc1, ath_isr. rewrite Hi. cbn [ar9003_hw_get_isr Z.eqb]. change (op_hw_reset (sc <| sc_ah := sc_ah sc |>)) with (op_hw_reset sc). rewrite Hr.
    destruct (Z.eqb_spec status 0) as [->|_]; [done|]. unfold isr_causes. rewrite Hf. cbn [snd].
    assert (has status SCHED_INTR = true) as -> by (by apply (has_sub _ ATH9K_INT_FATAL)). by split_and!. }
  clearbody sc1. rewrite bool_decide_true by (rewrite C; set_solver). rewrite <- B in Hf.
  destruct (fatal_leaves_off alive hung sc1 A Hf) as (D & E & _). split_and!; [rewrite D; set_solver| |done].
  unfold ath9k_tasklet. by rewrite Hf.
Qed.

(** * Properties of a queue *)

(** The contention window is rounded up to the next word of ones. *)
Definition cw_rounded (cw m : Z) : Prop := exists k, 1 <= k <= 11 /\ m = 2 ^ k - 1 /\ cw <= m /\ (k = 1 \/ 2 ^ (k - 1) - 1 < cw).

Definition cw_check (cw : Z) : bool :=
  match cw_round cw with
  | Some m => (cw <=? m) && existsb (fun k => (m =? 2 ^ k - 1) && ((k =? 1) || (2 ^ (k - 1) - 1 <? cw))) (seqZ 1 11) && bool_decide (cw_round (Z.min m 1024) = Some m)
  | None => false
  end.

Lemma cw_round_enough cw : 0 <= cw <= 1024 -> exists m, cw_round cw = Some m /\ cw_rounded cw m /\ cw_round (Z.min m 1024) = Some m.
Proof.
  intros Hcw. assert (forallb cw_check (seqZ 0 1025) = true) as H by (vm_compute; reflexivity).
  rewrite forallb_forall in H. specialize (H cw). rewrite <- list_elem_of_In, elem_of_seqZ in H. specialize (H ltac:(lia)).
  unfold cw_check in H. destruct (cw_round cw) as [m|]; [|done]. apply andb_prop in H as [H Hi%bool_decide_eq_true]. apply andb_prop in H as [Hc H].
  exists m. split; [done|]. split; [|done]. apply existsb_exists in H as (k & Hk & H). rewrite <- list_elem_of_In, elem_of_seqZ in Hk.
  apply andb_prop in H as [Hm H]. exists k. split_and!; [lia..|]. apply orb_prop in H. lia.
Qed.

(** What the driver accepts as properties: 32-bit words. *)
Definition valid_props (qi : ath9k_tx_queue_info) : Prop :=
  0 <= tqi_aifs qi /\ 0 <= tqi_cwmin qi /\ 0 <= tqi_cwmax qi /\ 0 <= tqi_shretry qi /\ 0 <= tqi_lgretry qi.

Lemma get_set_qi q qi qi' ah : get_qi ah q = Some qi -> get_qi (set_qi q qi' ah) q = Some qi'.
Proof. unfold get_qi. destruct (0 <=? q); [|done]. intros Hl. cbn [txq set_qi upd]. apply list_lookup_insert_eq. by eapply lookup_lt_Some. Qed.
Lemma set_qi_same q qi ah : get_qi ah q = Some qi -> set_qi q qi ah = ah.
Proof. unfold get_qi, set_qi. destruct (0 <=? q); [|done]. intros Hl. destruct ah. cbn [upd txq] in *. f_equal. by apply list_insert_id. Qed.

(** One bound of the contention window: the value that is stored, and storing it
    again. *)
Lemma cw_bound x d : 0 <= x -> d = ATH9K_TXQ_USEDEFAULT \/ cw_round (Z.min d 1024) = Some d /\ d <> ATH9K_TXQ_USEDEFAULT ->
  exists m, (if negb (x =? ATH9K_TXQ_USEDEFAULT) then cw_round (Z.min x 1024) else Some d) = Some m /\
    (if x =? ATH9K_TXQ_USEDEFAULT then m = d else cw_rounded (Z.min x 1024) m) /\
    (if negb (m =? ATH9K_TXQ_USEDEFAULT) then cw_round (Z.min m 1024) else Some d) = Some m.
Proof.
  intros Hx Hd. destruct (x =? ATH9K_TXQ_USEDEFAULT); cbn [negb].
  - exists d. split; [done|]. split; [done|]. destruct (Z.eqb_spec d ATH9K_TXQ_USEDEFAULT); [done|]. destruct Hd as [?|[? _]]; done.
  - destruct (cw_round_enough (Z.min x 1024)) as (m & Hm & Hr & Hs); [lia|]. exists m. split; [done|]. split; [done|].
    destruct Hr as (k & Hk & -> & _). destruct (Z.eqb_spec (2 ^ k - 1) ATH9K_TXQ_USEDEFAULT) as [E|]; [|done].
    exfalso. assert (2 ^ k <= 2 ^ 11) by (apply Z.pow_le_mono_r; lia). unfold ATH9K_TXQ_USEDEFAULT, u32 in E. vm_compute (-1 mod _) in E. lia.
Qed.

Lemma set_txq_props_active q qi info mn mx ah : get_qi ah q = Some qi -> tqi_type qi <> ATH9K_TX_QUEUE_INACTIVE ->
  (if negb (tqi_cwmin info =? ATH9K_TXQ_USEDEFAULT) then cw_round (Z.min (tqi_cwmin info) 1024) else Some ATH9K_TXQ_USEDEFAULT) = Some mn ->
  (if negb (tqi_cwmax info =? ATH9K_TXQ_USEDEFAULT) then cw_round (Z.min (tqi_cwmax info) 1024) else Some INIT_CWMAX) = Some mx ->
  ath9k_hw_set_txq_props q info ah = Some (true, set_qi q (store_props info mn mx qi) ah).
Proof.
  intros Hg Ha H1 H2. unfold ath9k_hw_set_txq_props. rewrite Hg. cbn [mbind option_bind]. rewrite bool_decide_false by done. rewrite H2.
  assert ((if negb (tqi_cwmin info =? ATH9K_TXQ_USEDEFAULT) then cw_round (Z.min (tqi_cwmin info) 1024) else Some (tqi_cwmin info)) = Some mn) as ->; [|done].
  rewrite <- H1. destruct (Z.eqb_spec (tqi_cwmin info) ATH9K_TXQ_USEDEFAULT) as [->|]; done.
Qed.

(** Storing what is stored changes nothing. *)
Lemma store_props_id qi t b f : 0 <= tqi_aifs qi <= 255 -> 1 <= tqi_shretry qi <= 15 -> 1 <= tqi_lgretry qi <= 15 ->
  (tqi_subtype qi = ATH9K_WME_UPSD -> tqi_type qi = ATH9K_TX_QUEUE_DATA -> tqi_intFlags qi = ATH9K_TXQ_USE_LOCKOUT_BKOFF_DIS) ->
  store_props (qi <| tqi_type := t |> <| tqi_physCompBuf := b |> <| tqi_intFlags := f |>) (tqi_cwmin qi) (tqi_cwmax qi) qi = qi.
Proof.
  intros B1 B2 B3 Hf.
  assert (negb (tqi_aifs qi =? ATH9K_TXQ_USEDEFAULT) = true) as Ha
    by (apply negb_true_iff, Z.eqb_neq; unfold ATH9K_TXQ_USEDEFAULT, u32; intros E; vm_compute (-1 mod 4294967296) in E; lia).
  assert (forall v, 1 <= v <= 15 -> negb (v =? 0) = true) as Hx by (intros; apply negb_true_iff, Z.eqb_neq; lia).
  destruct qi as [v ty st qf p ai cn cx sr lr cp co bt rt pb fl]. unfold store_props. cbn in B1, B2, B3, Hf, Ha |- *.
  rewrite Ha, !Hx, !Z.min_l by lia. f_equal.
  destruct (Z.eqb_spec st ATH9K_WME_UPSD) as [Es|]; [|done]. destruct (decide (ty = ATH9K_TX_QUEUE_DATA)) as [Ed|Ed].
  - rewrite bool_decide_true by done. by rewrite (Hf Es Ed).
  - by rewrite bool_decide_false.
Qed.

(** The properties of an active queue can be read back and set again: the
    bounds of the contention window become the next words of ones and the other
    values respect their limits, and what is read is stored unchanged when it is
    set. *)
Theorem props_roundtrip q qi info z ah :
  get_qi ah q = Some qi -> tqi_type qi <> ATH9K_TX_QUEUE_INACTIVE -> valid_props info ->
  exists ah' got, ath9k_hw_set_txq_props q info ah = Some (true, ah') /\ ath9k_hw_get_txq_props q z ah' = Some (true, got) /\
    ath9k_hw_set_txq_props q got ah' = Some (true, ah') /\
    (tqi_qflags got, tqi_priority got, tqi_cbrPeriod got, tqi_cbrOverflowLimit got, tqi_burstTime got, tqi_readyTime got) =
      (tqi_qflags info, tqi_priority info, tqi_cbrPeriod info, tqi_cbrOverflowLimit info, tqi_burstTime info, tqi_readyTime info) /\
    (if tqi_cwmin info =? ATH9K_TXQ_USEDEFAULT then tqi_cwmin got = ATH9K_TXQ_USEDEFAULT else cw_rounded (Z.min (tqi_cwmin info) 1024) (tqi_cwmin got)) /\
    (if tqi_cwmax info =? ATH9K_TXQ_USEDEFAULT then tqi_cwmax got = INIT_CWMAX else cw_rounded (Z.min (tqi_cwmax info) 1024) (tqi_cwmax got)) /\
    0 <= tqi_aifs got <= 255 /\ 1 <= tqi_shretry got <= 15 /\ 1 <= tqi_lgretry got <= 15.
Proof.
  intros Hg Ha (V1 & V2 & V3 & V4 & V5).
  destruct (cw_bound (tqi_cwmin info) ATH9K_TXQ_USEDEFAULT V2 (or_introl eq_refl)) as (mn & E1 & C1 & S1).
  destruct (cw_bound (tqi_cwmax info) INIT_CWMAX V3) as (mx & E2 & C2 & S2); [by right|].
  set (qi1 := store_props info mn mx qi).
  assert (0 <= tqi_aifs qi1 <= 255 /\ 1 <= tqi_shretry qi1 <= 15 /\ 1 <= tqi_lgretry qi1 <= 15) as (B1 & B2 & B3).
  { unfold qi1, store_props. cbn [tqi_aifs tqi_shretry tqi_lgretry].
    destruct (negb (tqi_aifs info =? _)), (Z.eqb_spec (tqi_shretry info) 0), (Z.eqb_spec (tqi_lgretry info) 0); cbn [negb]; unfold INIT_AIFS, INIT_SH_RETRY, INIT_LG_RETRY; lia. }
  pose proof (get_set_qi q qi qi1 ah Hg) as Hg1. set (ah1 := set_qi q qi1 ah) in *.
  exists ah1. eexists. split; [by apply set_txq_props_active|].
  unfold ath9k_hw_get_txq_props. rewrite Hg1. cbn [mbind option_bind]. rewrite bool_decide_false by done. split; [reflexivity|]. clearbody ah1.
  split; [|done].
  rewrite (set_txq_props_active _ qi1 _ mn mx) by done.
  assert (forall x, x = qi1 -> Some (true, set_qi q x ah1) = Some (true, ah1)) as Hx by (intros x ->; by rewrite (set_qi_same q qi1 ah1 Hg1)).
  apply Hx. apply (store_props_id qi1); [done..|]. unfold qi1, store_props. cbn [tqi_subtype tqi_type tqi_intFlags]. intros -> ->.
  by rewrite Z.eqb_refl, bool_decide_true.
Qed.

(** * The interrupt masks of the queues *)

Definition masks (ah : mac_hw) : list Z :=
  [txok_interrupt_mask ah; txerr_interrupt_mask ah; txdesc_interrupt_mask ah; txeol_interrupt_mask ah; txurn_interrupt_mask ah].
Definition active (ah : mac_hw) (q : Z) : Prop := exists qi, get_qi ah q = Some qi /\ tqi_type qi <> ATH9K_TX_QUEUE_INACTIVE.

(** Only active queues raise interrupts. *)
Definition masks_active (ah : mac_hw) : Prop := forall m n, m ∈ masks ah -> 0 <= n -> Z.testbit m n = true -> active ah n.

Inductive queue_op :=
  | QSetup (type : ath9k_tx_queue) (qinfo : ath9k_tx_queue_info)
  | QProps (q : Z) (qinfo : ath9k_tx_queue_info)
  | QReset (q : Z)
  | QRelease (q : Z).
Definition run_queue (o : queue_op) (ah : mac_hw) : option mac_hw :=
  match o with
  | QSetup type qinfo => snd <$> ath9k_hw_setuptxqueue type qinfo ah
  | QProps q qinfo => snd <$> ath9k_hw_set_txq_props q qinfo ah
  | QReset q => snd <$> ath9k_hw_resettxqueue q ah
  | QRelease q => snd <$> ath9k_hw_releasetxqueue q ah
  end.

Lemma get_set_qi_ne q n qi ah : 0 <= q -> 0 <= n -> n <> q -> get_qi (set_qi q qi ah) n = get_qi ah n.
Proof. intros Hq Hn Hne. unfold get_qi. destruct (0 <=? n); [|done]. cbn [txq set_qi upd]. apply list_lookup_insert_ne. lia. Qed.

Lemma get_qi_nonneg ah q qi : get_qi ah q = Some qi -> 0 <= q.
Proof. unfold get_qi. destruct (Z.leb_spec 0 q); done. Qed.

(** Replacing an entry by one that is active, or one whose bits are clear. *)
Lemma masks_set_qi q old qi ah : get_qi ah q = Some old -> tqi_type qi <> ATH9K_TX_QUEUE_INACTIVE -> masks_active ah -> masks_active (set_qi q qi ah).
Proof.
  intros Hg Ha Hm m n Hin Hn Hb. specialize (Hm m n Hin Hn Hb). pose proof (get_qi_nonneg _ _ _ Hg). destruct (decide (n = q)) as [->|Hne].
  - exists qi. split; [by eapply get_set_qi|done].
  - destruct Hm as (x & Hx & Hxa). exists x. by rewrite get_set_qi_ne.
Qed.

(** The masks after the bits of a queue have been dropped. *)
Lemma masks_clear q ah m n : m ∈ masks (ath9k_hw_clear_queue_interrupts q ah) -> 0 <= n -> 0 <= q -> Z.testbit m n = true ->
  n <> q /\ exists m', m' ∈ masks ah /\ Z.testbit m' n = true.
Proof.
  unfold masks, ath9k_hw_clear_queue_interrupts.
  cbn [upd txok_interrupt_mask txerr_interrupt_mask txdesc_interrupt_mask txeol_interrupt_mask txurn_interrupt_mask]. intros Hin Hn Hq Hb.
  assert (exists m', m' ∈ masks ah /\ m = clr m' (1 .<< q)) as (m' & Hm' & ->).
  { unfold masks. rewrite !elem_of_cons, elem_of_nil in Hin. destruct Hin as [->|[->|[->|[->|[->|[]]]]]]; eexists; (split; [|reflexivity]); set_solver. }
  unfold clr in Hb. rewrite Z.ldiff_spec in Hb. apply andb_prop in Hb as [H1 H2%negb_true_iff]. split; [|by exists m'].
  intros ->. rewrite Z.shiftl_spec in H2 by lia. by rewrite Z.sub_diag in H2.
Qed.

Lemma masks_props q info ah b ah' : ath9k_hw_set_txq_props q info ah = Some (b, ah') -> masks_active ah -> masks_active ah'.
Proof.
  unfold ath9k_hw_set_txq_props. destruct (get_qi ah q) as [qi|] eqn:Hg; [|done]. cbn [mbind option_bind].
  case_bool_decide as Ha; [by intros [= _ <-]|]. destruct (if negb (tqi_cwmin info =? _) then _ else _) as [mn|]; [|done]. cbn [mbind option_bind].
  destruct (if negb (tqi_cwmax info =? _) then _ else _) as [mx|]; [|done]. cbn [mbind option_bind]. intros [= _ <-]. by eapply masks_set_qi.
Qed.

(** The masks after a reset: the bits of the other queues stay. *)
Lemma masks_reset q f ah m n : m ∈ masks (reset_masks q f ah) -> 0 <= n -> 0 <= q -> Z.testbit m n = true ->
  n = q \/ exists m', m' ∈ masks ah /\ Z.testbit m' n = true.
Proof.
  intros Hin Hn Hq Hb. destruct (decide (n = q)) as [->|Hne]; [by left|right].
  assert (exists m0 (b : bool), m0 ∈ masks (ath9k_hw_clear_queue_interrupts q ah) /\ m = if b then m0 .| (1 .<< q) else m0) as (m0 & b & H0 & ->).
  { unfold reset_masks in Hin. set (ah0 := ath9k_hw_clear_queue_interrupts q ah) in *. clearbody ah0. unfold masks in *.
    cbn [upd txok_interrupt_mask txerr_interrupt_mask txdesc_interrupt_mask txeol_interrupt_mask txurn_interrupt_mask] in Hin.
    rewrite !elem_of_cons, elem_of_nil in Hin. destruct Hin as [->|[->|[->|[->|[->|[]]]]]]; do 2 eexists; (split; [|reflexivity]); set_solver. }
  apply (masks_clear q ah m0 n); [done..|]. destruct b; [|done]. rewrite Z.lor_spec, Z.shiftl_spec in Hb by lia.
  change 1 with (2 ^ 0) in Hb. rewrite Z.pow2_bits_false, orb_false_r in Hb by lia. done.
Qed.

Lemma reset_registers_state q qi ah : masks (reset_registers q qi ah) = masks ah /\ txq (reset_registers q qi ah) = txq ah.
Proof.
  unfold reset_registers.
  destruct (negb (tqi_cbrPeriod qi =? 0)), (_ && negb _), (_ && has _ TXQ_FLAG_RDYTIME_EXP_POLICY_ENABLE), (has _ TXQ_FLAG_BACKOFF_DISABLE), (has _ TXQ_FLAG_FRAG_BURST_BACKOFF_ENABLE); done.
Qed.
Lemma reset_by_type_state q qi ah : masks (reset_by_type q qi ah) = masks ah /\ txq (reset_by_type q qi ah) = txq ah.
Proof. unfold reset_by_type. destruct (tqi_type qi); try done. by destruct (negb _). Qed.
Lemma txq_interrupts_state ah : masks (ath9k_hw_set_txq_interrupts ah) = masks ah /\ txq (ath9k_hw_set_txq_interrupts ah) = txq ah.
Proof. done. Qed.

Lemma no_backoff_state q ah : masks (no_backoff q ah) = masks ah /\ txq (no_backoff q ah) = txq ah.
Proof. done. Qed.

Lemma masks_active_same ah ah' : masks ah' = masks ah -> txq ah' = txq ah -> masks_active ah -> masks_active ah'.
Proof. intros Hm Ht H m n. unfold active, get_qi. rewrite Hm, Ht. apply H. Qed.

(** Only active queues raise transmit interrupts, whatever is set up, reset
    and released: the invariant holds after every operation. *)
Theorem queue_masks_active o ah ah' : run_queue o ah = Some ah' -> masks_active ah -> masks_active ah'.
Proof.
  intros Hr Hm. destruct o as [ty info|q info|q|q]; cbn [run_queue] in Hr; apply fmap_Some in Hr as ([b x] & Hr & ->); cbn [snd].
  - unfold ath9k_hw_setuptxqueue in Hr. destruct (match ty with ATH9K_TX_QUEUE_INACTIVE => None | _ => _ end) as [q|] eqn:Eq; [|by injection Hr as <- <-].
    destruct (get_qi ah q) as [qi|] eqn:Hg; [|done]. cbn [mbind option_bind] in Hr. case_bool_decide as Ha; cbn [negb] in Hr; [|by injection Hr as <- <-].
    set (ah1 := set_qi q _ ah) in Hr. destruct (ath9k_hw_set_txq_props q info ah1) as [[b' ah2]|] eqn:Hp; [|done]. injection Hr as <- <-.
    eapply masks_props; [exact Hp|]. eapply masks_set_qi; [exact Hg| |done]. cbn [tqi_type upd]. by destruct ty.
  - by eapply masks_props.
  - unfold ath9k_hw_resettxqueue in Hr. destruct (get_qi ah q) as [qi|] eqn:Hg; [|done]. cbn [mbind option_bind] in Hr.
    case_bool_decide as Ha; [by injection Hr as <- <-|]. destruct (if tqi_cwmin qi =? _ then _ else _) as [cw|]; [|done]. cbn [mbind option_bind] in Hr.
    set (ah1 := if has (tqi_intFlags qi) _ then _ else _) in Hr.
    assert (masks ah1 = masks ah /\ txq ah1 = txq ah) as [M1 T1].
    { unfold ah1. set (ah0 := hw_write (AR_DLCL_IFS q) _ ah).
      destruct (reset_registers_state q qi ah0) as [A B]. destruct (reset_by_type_state q qi (reset_registers q qi ah0)) as [C D].
      set (ah2 := reset_by_type q qi _) in *. clearbody ah2.
      rewrite A in C. rewrite B in D. destruct (has (tqi_intFlags qi) _); (split; [exact C|exact D]). }
    clearbody ah1. injection Hr as <- <-. pose proof (get_qi_nonneg _ _ _ Hg) as Hq.
    set (ah2 := reset_masks q (tqi_qflags qi) _). assert (txq ah2 = txq ah1) as T2 by done.
    do 2 apply (masks_active_same _ _ (proj1 (no_backoff_state _ _)) (proj2 (no_backoff_state _ _))).
    apply (masks_active_same ah2 _ (proj1 (txq_interrupts_state _)) (proj2 (txq_interrupts_state _))).
    intros m n Hin Hn Hb. assert (forall k, active ah k -> active ah2 k) as Hk.
    { intros k Hk. unfold active, get_qi. rewrite T2, T1. exact Hk. }
    apply Hk. destruct (masks_reset q (tqi_qflags qi) _ m n Hin Hn Hq Hb) as [->|(m' & Hm' & Hb')]; [by exists qi|].
    apply (Hm m' n); [|done..]. change (masks (hw_write AR_Q_DESC_CRCCHK AR_Q_DESC_CRCCHK_EN ah1)) with (masks ah1) in Hm'. by rewrite M1 in Hm'.
  - unfold ath9k_hw_releasetxqueue in Hr. destruct (get_qi ah q) as [qi|] eqn:Hg; [|done]. cbn [mbind option_bind] in Hr.
    case_bool_decide as Ha; [by injection Hr as <- <-|]. injection Hr as <- <-. pose proof (get_qi_nonneg _ _ _ Hg) as Hq.
    set (ah1 := set_qi q _ ah). set (ah2 := ath9k_hw_clear_queue_interrupts q ah1). apply (masks_active_same ah2); [done|done|].
    intros m n Hin Hn Hb. destruct (masks_clear q ah1 m n Hin Hn Hq Hb) as (Hne & m' & Hm' & Hb').
    destruct (Hm m' n Hm' Hn Hb') as (x & Hx & Hxa). exists x. split; [|done]. change (get_qi ah2 n) with (get_qi ah1 n). unfold ah1. by rewrite get_set_qi_ne.
Qed.

(** * Concrete runs *)

(** A card with all queues inactive, interrupts on. *)
Definition mac0 : mac_hw :=
  {| mh_common := REG_WRITE AR_IER AR_IER_ENABLE (ah_common hw_11p); txq := replicate 10 zero_qi;
     txok_interrupt_mask := 0; txerr_interrupt_mask := 0; txdesc_interrupt_mask := 0; txeol_interrupt_mask := 0; txurn_interrupt_mask := 0; imrs2_reg := 0;
     imask := ATH9K_INT_TX .| ATH9K_INT_RXEOL .| ATH9K_INT_RXORN .| ATH9K_INT_FATAL .| ATH9K_INT_GLOBAL .| ATH9K_INT_RXHP .| ATH9K_INT_RXLP;
     intr_ref_cnt := 0; tx_trig_level := 1; max_txtrig_level := 63; rx_intr_mitigation := false; tx_intr_mitigation := false;
     sw_beacon_response_time := 6; dma_beacon_response_time := 1; adhoc := false; sr_9340 := false; sr_9340_13 := false; sr_host1_quiet := false;
     autosleep := true; rac_supported := true; intr_gen_timer_trigger := 0; intr_gen_timer_thresh := 0 |}.
Definition data_info : ath9k_tx_queue_info :=
  zero_qi <| tqi_subtype := 2 |> <| tqi_aifs := 2 |> <| tqi_cwmin := 100 |> <| tqi_cwmax := 1024 |> <| tqi_qflags := TXQ_FLAG_TXINT_ENABLE |>.
(** The same card with the data queue 2. *)
Definition mac1 : mac_hw := match ath9k_hw_setuptxqueue ATH9K_TX_QUEUE_DATA data_info mac0 with Some (_, ah) => ah | None => mac0 end.
Definition sc0 : isr_softc :=
  {| sc_ah := mac1; intrstatus := 0; op_invalid := false; op_hw_reset := false; bb_watchdog := true; gtt_cnt := 0; ps_idle := false; ps_enabled := false;
     isr_ps_flags := 0; calls := [] |}.

Lemma mac1_on : interrupts_on mac1.
Proof. split; vm_compute; reflexivity. Qed.

Definition qi1 : ath9k_tx_queue_info := default zero_qi (get_qi mac1 2).

Lemma backoff_disabled_witness : exists ah', ath9k_hw_resettxqueue 2 mac1 = Some (true, ah') /\ hw_read ah' (AR_DLCL_IFS 2) = 0 /\ hw_read ah' (AR_DLCL_IFS 6) = 0.
Proof.
  destruct (backoff_disabled 2 qi1 mac1) as (ah' & E & H & _); [done|vm_compute; reflexivity|vm_compute; discriminate|].
  exists ah'. split; [exact E|]. split; [apply (H 2)|apply (H 6)]; [tauto|intros (Ad & _)|tauto|intros (Ad & _)]; vm_compute in Ad; discriminate.
Defined.

Lemma interrupts_nest_witness : intr_ref_cnt (intr_ops [IntrDisable; IntrDisable; IntrEnable] mac1) = -1 /\
  hw_read (intr_ops [IntrDisable; IntrDisable; IntrEnable] mac1) AR_IER = AR_IER_DISABLE.
Proof.
  apply (interrupts_nest [IntrDisable; IntrDisable; IntrEnable] mac1); [exact mac1_on|done|]. intros k. destruct k as [|[|[|k]]]; [cbn; lia..|].
  rewrite take_ge by (cbn; lia). cbn. lia.
Defined.

Lemma interrupt_dispatch_witness : RxTasklet false ∈ calls (interrupt AR_ISR_RXERR 0 true false sc0).
Proof.
  destruct (interrupt_dispatch AR_ISR_RXERR 0 true false sc0) as (_ & _ & _ & _ & H & _); [done|done|done|exact mac1_on|done|].
  by apply H.
Defined.

Lemma spurious_interrupt_witness : QueueReset RESET_TYPE_FATAL_INT ∈ calls (interrupt 0 0xdeadbeef true false sc0).
Proof. destruct (spurious_interrupt 0xdeadbeef true false sc0) as (H & _); [done|done|exact mac1_on|done|exact H]. Defined.

Lemma props_roundtrip_witness : exists ah', ath9k_hw_set_txq_props 2 data_info mac1 = Some (true, ah') /\
  exists got, ath9k_hw_get_txq_props 2 zero_qi ah' = Some (true, got) /\ cw_rounded 100 (tqi_cwmin got).
Proof.
  destruct (props_roundtrip 2 qi1 data_info zero_qi mac1) as (ah' & got & E & G & _ & _ & H & _); [vm_compute; reflexivity|vm_compute; discriminate| |].
  { vm_compute. repeat split; discriminate. }
  exists ah'. split; [exact E|]. exists got. split; [exact G|exact H].
Defined.

Lemma queue_masks_active_witness : exists ah', run_queue (QReset 2) mac1 = Some ah' /\ masks_active ah'.
Proof.
  destruct (run_queue (QReset 2) mac1) as [ah'|] eqn:E; [|vm_compute in E; discriminate]. exists ah'. split; [reflexivity|].
  apply (queue_masks_active (QReset 2) mac1 ah' E). intros m n Hin _ Hb. exfalso.
  assert (m = 0) as -> by (unfold masks in Hin; rewrite !elem_of_cons, elem_of_nil in Hin; destruct Hin as [->|[->|[->|[->|[->|[]]]]]]; reflexivity).
  by rewrite Z.bits_0 in Hb.
Defined.

(** The bounds of the contention window: 100 becomes 127, 1024 becomes 2047. *)
Example cw_examples : (tqi_cwmin qi1, tqi_cwmax qi1, tqi_shretry qi1) = (127, 2047, 10).
Proof. vm_compute. reflexivity. Qed.
