(* ===== verification/EepLayout.v ===== *)
(** The calibration structure of the AR9300 chips in memory (src/real/ath/ath9k/
    ar9003_eeprom.h): its parts as records, its packed layout as bytes, and that
    the two correspond.

    The EEPROM is restored as bytes, copied from a template and patched; the rest
    of the driver reads fields. A layout says how a value is laid out; layouts of
    structures are composed from those of their fields. *)

From S2P Require Import Prelude.

(** * Layouts *)

Record codec (A : Type) := {
  csize : nat;                  (* sizeof *)
  enc : A -> list Z;
  dec : list Z -> A;
  cvalid : A -> bool;
}.
Arguments csize {A} c.
Arguments enc {A} c a.
Arguments dec {A} c l.
Arguments cvalid {A} c a.

Definition bytes_ok (l : list Z) : Prop := Forall in_u8 l.

(** What a layout promises. *)
Class CodecLaws {A : Type} (c : codec A) : Prop := {
  enc_size a : cvalid c a = true -> length (enc c a) = csize c;
  enc_bytes a : cvalid c a = true -> bytes_ok (enc c a);
  dec_enc a : cvalid c a = true -> dec c (enc c a) = a;
  dec_valid l : length l = csize c -> bytes_ok l -> cvalid c (dec c l) = true;
  enc_dec l : length l = csize c -> bytes_ok l -> enc c (dec c l) = l;
}.

Definition in_range (lo hi x : Z) : bool := (lo <=? x) && (x <? hi).

Definition u8c : codec Z := {| csize := 1; enc x := [x]; dec l := nth 0 l 0; cvalid := in_range 0 256 |}.
Definition s8c : codec Z := {| csize := 1; enc x := [u8 x]; dec l := s8 (nth 0 l 0); cvalid := in_range (-128) 128 |}.
Definition le16 : codec Z :=
  {| csize := 2; enc x := [u8 x; u8 (x .>> 8)]; dec l := nth 0 l 0 + 256 * nth 1 l 0; cvalid := in_range 0 65536 |}.
Definition le32 : codec Z :=
  {| csize := 4; enc x := [u8 x; u8 (x .>> 8); u8 (x .>> 16); u8 (x .>> 24)];
     dec l := nth 0 l 0 + 256 * (nth 1 l 0 + 256 * (nth 2 l 0 + 256 * nth 3 l 0)); cvalid := in_range 0 4294967296 |}.

Definition both {A B} (c : codec A) (d : codec B) : codec (A * B) :=
  {| csize := csize c + csize d; enc p := enc c (fst p) ++ enc d (snd p);
     dec l := (dec c (take (csize c) l), dec d (drop (csize c) l)); cvalid p := cvalid c (fst p) && cvalid d (snd p) |}.
Infix "**" := both (at level 40, left associativity).

Fixpoint dec_vec {A} (n : nat) (c : codec A) (l : list Z) : list A :=
  match n with O => [] | S n => dec c (take (csize c) l) :: dec_vec n c (drop (csize c) l) end.
Definition vec {A} (n : nat) (c : codec A) : codec (list A) :=
  {| csize := n * csize c; enc v := concat (enc c <$> v); dec := dec_vec n c;
     cvalid v := (length v =? n)%nat && forallb (cvalid c) v |}.

(** A layout through a bijection: a structure and the tuple of its fields. *)
Definition conv {A B} (c : codec A) (f : A -> B) (g : B -> A) : codec B :=
  {| csize := csize c; enc b := enc c (g b); dec l := f (dec c l); cvalid b := cvalid c (g b) |}.

(** * The structures *)

Record ar9300_base_eep_hdr := {
  regDmn : list Z; txrxMask : Z; opFlags : Z; eepMisc : Z; rfSilent : Z; blueToothOptions : Z; deviceCap : Z; deviceType : Z; pwrTableOffset : Z;
  params_for_tuning_caps : list Z; featureEnable : Z; miscConfiguration : Z; eepromWriteEnableGpio : Z; wlanDisableGpio : Z; wlanLedGpio : Z;
  rxBandSelectGpio : Z; txrxgain : Z; swreg : Z
}.

Record ar9300_modal_eep_header := {
  antCtrlCommon : Z; antCtrlCommon2 : Z; antCtrlChain : list Z; xatten1DB : list Z; xatten1Margin : list Z; tempSlope : Z; voltSlope : Z;
  spurChans : list Z; noiseFloorThreshCh : list Z; reserved : list Z; quick_drop : Z; xpaBiasLvl : Z; txFrameToDataStart : Z; txFrameToPaOn : Z;
  txClip : Z; antennaGain : Z; switchSettling : Z; adcDesiredSize : Z; txEndToXpaOff : Z; txEndToRxOn : Z; txFrameToXpaOn : Z; thresh62 : Z;
  papdRateMaskHt20 : Z; papdRateMaskHt40 : Z; switchcomspdt : Z; xlna_bias_strength : Z; futureModal : list Z
}.

Record ar9300_cal_data_per_freq_op_loop := {
  refPower : Z; voltMeas : Z; tempMeas : Z; rxNoisefloorCal : Z; rxNoisefloorPower : Z; rxTempMeas : Z
}.

Record ar9300_BaseExtension_1 := {
  ant_div_control : Z; future : list Z; misc_enable : Z; tempslopextension : list Z; quick_drop_low : Z; quick_drop_high : Z
}.

Record ar9300_BaseExtension_2 := {
  tempSlopeLow : Z; tempSlopeHigh : Z; xatten1DBLow : list Z; xatten1MarginLow : list Z; xatten1DBHigh : list Z; xatten1MarginHigh : list Z
}.

Record ar9300_eeprom := {
  eepromVersion : Z; templateVersion : Z; macAddr : list Z; custData : list Z; baseEepHeader : ar9300_base_eep_hdr;
  modalHeader2G : ar9300_modal_eep_header; base_ext1 : ar9300_BaseExtension_1; calFreqPier2G : list Z;
  calPierData2G : list (list ar9300_cal_data_per_freq_op_loop); calTarget_freqbin_Cck : list Z; calTarget_freqbin_2G : list Z;
  calTarget_freqbin_2GHT20 : list Z; calTarget_freqbin_2GHT40 : list Z; calTargetPowerCck : list (list Z); calTargetPower2G : list (list Z);
  calTargetPower2GHT20 : list (list Z); calTargetPower2GHT40 : list (list Z); ctlIndex_2G : list Z; ctl_freqbin_2G : list (list Z);
  ctlPowerData_2G : list (list Z); modalHeader5G : ar9300_modal_eep_header; base_ext2 : ar9300_BaseExtension_2; calFreqPier5G : list Z;
  calPierData5G : list (list ar9300_cal_data_per_freq_op_loop); calTarget_freqbin_5G : list Z; calTarget_freqbin_5GHT20 : list Z;
  calTarget_freqbin_5GHT40 : list Z; calTargetPower5G : list (list Z); calTargetPower5GHT20 : list (list Z); calTargetPower5GHT40 : list (list Z);
  ctlIndex_5G : list Z; ctl_freqbin_5G : list (list Z); ctlPowerData_5G : list (list Z)
}.

(** ** Layouts

    Each structure is packed: its fields follow each other. *)

Definition ar9300_base_eep_hdr_c : codec ar9300_base_eep_hdr :=
  conv (vec 2 le16 ** u8c ** u8c ** u8c ** u8c ** u8c ** u8c ** u8c ** s8c ** vec 2 u8c ** u8c ** u8c ** u8c ** u8c ** u8c ** u8c ** u8c ** le32)
    (fun '(x0, x1, x2, x3, x4, x5, x6, x7, x8, x9, x10, x11, x12, x13, x14, x15, x16, x17) =>
       Build_ar9300_base_eep_hdr x0 x1 x2 x3 x4 x5 x6 x7 x8 x9 x10 x11 x12 x13 x14 x15 x16 x17)
    (fun r =>
       (regDmn r, txrxMask r, opFlags r, eepMisc r, rfSilent r, blueToothOptions r, deviceCap r, deviceType r, pwrTableOffset r,
       params_for_tuning_caps r, featureEnable r, miscConfiguration r, eepromWriteEnableGpio r, wlanDisableGpio r, wlanLedGpio r, rxBandSelectGpio r,
       txrxgain r, swreg r)).

Definition ar9300_modal_eep_header_c : codec ar9300_modal_eep_header :=
  conv (le32 ** le32 ** vec 3 le16 ** vec 3 u8c ** vec 3 u8c ** s8c ** s8c ** vec 5 u8c ** vec 3 s8c ** vec 11 u8c ** s8c ** u8c ** u8c ** u8c ** u8c **
  s8c ** u8c ** s8c ** u8c ** u8c ** u8c ** u8c ** le32 ** le32 ** le16 ** u8c ** vec 7 u8c)
    (fun '(x0, x1, x2, x3, x4, x5, x6, x7, x8, x9, x10, x11, x12, x13, x14, x15, x16, x17, x18, x19, x20, x21, x22, x23, x24, x25, x26) =>
       Build_ar9300_modal_eep_header x0 x1 x2 x3 x4 x5 x6 x7 x8 x9 x10 x11 x12 x13 x14 x15 x16 x17 x18 x19 x20 x21 x22 x23 x24 x25 x26)
    (fun r =>
       (antCtrlCommon r, antCtrlCommon2 r, antCtrlChain r, xatten1DB r, xatten1Margin r, tempSlope r, voltSlope r, spurChans r, noiseFloorThreshCh r,
       reserved r, quick_drop r, xpaBiasLvl r, txFrameToDataStart r, txFrameToPaOn r, txClip r, antennaGain r, switchSettling r, adcDesiredSize r,
       txEndToXpaOff r, txEndToRxOn r, txFrameToXpaOn r, thresh62 r, papdRateMaskHt20 r, papdRateMaskHt40 r, switchcomspdt r, xlna_bias_strength r,
       futureModal r)).

Definition ar9300_cal_data_per_freq_op_loop_c : codec ar9300_cal_data_per_freq_op_loop :=
  conv (s8c ** u8c ** u8c ** s8c ** s8c ** u8c)
    (fun '(x0, x1, x2, x3, x4, x5) =>
       Build_ar9300_cal_data_per_freq_op_loop x0 x1 x2 x3 x4 x5)
    (fun r =>
       (refPower r, voltMeas r, tempMeas r, rxNoisefloorCal r, rxNoisefloorPower r, rxTempMeas r)).

Definition ar9300_BaseExtension_1_c : codec ar9300_BaseExtension_1 :=
  conv (u8c ** vec 2 u8c ** u8c ** vec 8 s8c ** s8c ** s8c)
    (fun '(x0, x1, x2, x3, x4, x5) =>
       Build_ar9300_BaseExtension_1 x0 x1 x2 x3 x4 x5)
    (fun r =>
       (ant_div_control r, future r, misc_enable r, tempslopextension r, quick_drop_low r, quick_drop_high r)).

Definition ar9300_BaseExtension_2_c : codec ar9300_BaseExtension_2 :=
  conv (s8c ** s8c ** vec 3 u8c ** vec 3 u8c ** vec 3 u8c ** vec 3 u8c)
    (fun '(x0, x1, x2, x3, x4, x5) =>
       Build_ar9300_BaseExtension_2 x0 x1 x2 x3 x4 x5)
    (fun r =>
       (tempSlopeLow r, tempSlopeHigh r, xatten1DBLow r, xatten1MarginLow r, xatten1DBHigh r, xatten1MarginHigh r)).

Definition ar9300_eeprom_c : codec ar9300_eeprom :=
  conv (u8c ** u8c ** vec 6 u8c ** vec 20 u8c ** ar9300_base_eep_hdr_c ** ar9300_modal_eep_header_c ** ar9300_BaseExtension_1_c ** vec 3 u8c **
  vec 3 (vec 3 ar9300_cal_data_per_freq_op_loop_c) ** vec 2 u8c ** vec 3 u8c ** vec 3 u8c ** vec 3 u8c ** vec 2 (vec 4 u8c) ** vec 3 (vec 4 u8c) **
  vec 3 (vec 14 u8c) ** vec 3 (vec 14 u8c) ** vec 12 u8c ** vec 12 (vec 4 u8c) ** vec 12 (vec 4 u8c) ** ar9300_modal_eep_header_c **
  ar9300_BaseExtension_2_c ** vec 8 u8c ** vec 3 (vec 8 ar9300_cal_data_per_freq_op_loop_c) ** vec 8 u8c ** vec 8 u8c ** vec 8 u8c **
  vec 8 (vec 4 u8c) ** vec 8 (vec 14 u8c) ** vec 8 (vec 14 u8c) ** vec 9 u8c ** vec 9 (vec 8 u8c) ** vec 9 (vec 8 u8c))
    (fun '(x0, x1, x2, x3, x4, x5, x6, x7, x8, x9, x10, x11, x12, x13, x14, x15, x16, x17, x18, x19, x20, x21, x22, x23, x24, x25, x26, x27, x28, x29, x30, x31, x32) =>
       Build_ar9300_eeprom x0 x1 x2 x3 x4 x5 x6 x7 x8 x9 x10 x11 x12 x13 x14 x15 x16 x17 x18 x19 x20 x21 x22 x23 x24 x25 x26 x27 x28 x29 x30 x31 x32)
    (fun r =>
       (eepromVersion r, templateVersion r, macAddr r, custData r, baseEepHeader r, modalHeader2G r, base_ext1 r, calFreqPier2G r, calPierData2G r,
       calTarget_freqbin_Cck r, calTarget_freqbin_2G r, calTarget_freqbin_2GHT20 r, calTarget_freqbin_2GHT40 r, calTargetPowerCck r,
       calTargetPower2G r, calTargetPower2GHT20 r, calTargetPower2GHT40 r, ctlIndex_2G r, ctl_freqbin_2G r, ctlPowerData_2G r, modalHeader5G r,
       base_ext2 r, calFreqPier5G r, calPierData5G r, calTarget_freqbin_5G r, calTarget_freqbin_5GHT20 r, calTarget_freqbin_5GHT40 r,
       calTargetPower5G r, calTargetPower5GHT20 r, calTargetPower5GHT40 r, ctlIndex_5G r, ctl_freqbin_5G r, ctlPowerData_5G r)).


(** * The layouts are correct *)

Lemma in_range_spec lo hi x : in_range lo hi x = true <-> lo <= x < hi.
Proof. unfold in_range. rewrite andb_true_iff, Z.leb_le, Z.ltb_lt. done. Qed.

Lemma u8_shift x k : 0 <= k -> u8 (x .>> k) = x / 2 ^ k mod 256.
Proof. intros. unfold u8. by rewrite Z.shiftr_div_pow2. Qed.

Lemma bytes_nth l i : bytes_ok l -> 0 <= nth i l 0 < 256.
Proof.
  intros H. destruct (decide (i < length l)%nat) as [Hi|Hi].
  - unfold bytes_ok in H. rewrite Forall_forall in H. apply (H (nth i l 0)), list_elem_of_In, nth_In. done.
  - rewrite nth_overflow by lia. lia.
Qed.

#[export] Instance u8c_laws : CodecLaws u8c.
Proof.
  split; cbn [enc dec cvalid csize u8c]; intros x; rewrite ?in_range_spec; try done.
  - intros Hx. by constructor.
  - intros _ Hb. by apply bytes_nth.
  - by destruct x as [|y [|]].
Qed.

Lemma s8_u8 x : -128 <= x < 128 -> s8 (u8 x) = x.
Proof. intros. unfold s8, u8. destruct (Z.ltb_spec (x mod 256 mod 256) 128); Z.to_euclidean_division_equations; lia. Qed.
Lemma u8_s8 x : 0 <= x < 256 -> u8 (s8 x) = x.
Proof. intros. unfold s8, u8. destruct (Z.ltb_spec (x mod 256) 128); Z.to_euclidean_division_equations; lia. Qed.

#[export] Instance s8c_laws : CodecLaws s8c.
Proof.
  split; cbn [enc dec cvalid csize s8c]; intros x; rewrite ?in_range_spec; try done.
  - intros Hx. constructor; [apply u8_range|constructor].
  - apply s8_u8.
  - intros _ Hb. pose proof (bytes_nth x 0 Hb). unfold s8, u8. destruct (Z.ltb_spec (nth 0 x 0 mod 256) 128); Z.to_euclidean_division_equations; lia.
  - destruct x as [|y [|]]; try done. intros _ Hb. cbn. rewrite u8_s8; [done|]. by inversion Hb.
Qed.

#[export] Instance le16_laws : CodecLaws le16.
Proof.
  split; cbn [enc dec cvalid csize le16]; intros x; rewrite ?in_range_spec; try done.
  - intros Hx. repeat constructor; apply u8_range.
  - intros Hx. cbn. rewrite u8_shift by lia. unfold u8. Z.to_euclidean_division_equations; lia.
  - intros _ Hb. pose proof (bytes_nth x 0 Hb). pose proof (bytes_nth x 1 Hb). lia.
  - destruct x as [|a [|b [|]]]; try done. intros _ Hb. inversion Hb as [|? ? Ha Hb1]; subst. inversion Hb1 as [|? ? Hb2 _]; subst. unfold in_u8 in *. cbn.
    rewrite u8_shift by lia. unfold u8. f_equal; [|f_equal]; Z.to_euclidean_division_equations; lia.
Qed.

#[export] Instance le32_laws : CodecLaws le32.
Proof.
  split; cbn [enc dec cvalid csize le32]; intros x; rewrite ?in_range_spec; try done.
  - intros Hx. repeat constructor; apply u8_range.
  - intros Hx. cbn. rewrite !u8_shift by lia. unfold u8. Z.to_euclidean_division_equations; lia.
  - intros _ Hb. pose proof (bytes_nth x 0 Hb). pose proof (bytes_nth x 1 Hb). pose proof (bytes_nth x 2 Hb). pose proof (bytes_nth x 3 Hb). lia.
  - destruct x as [|a [|b [|c [|d [|]]]]]; try done. intros _ Hb. unfold bytes_ok in Hb. rewrite !Forall_cons in Hb. destruct Hb as (Ha & Hb & Hc & Hd & _). unfold in_u8 in *. cbn.
    rewrite !u8_shift by lia. unfold u8. f_equal; [|f_equal; [|f_equal; [|f_equal]]]; Z.to_euclidean_division_equations; lia.
Qed.

#[export] Instance both_laws {A B} (c : codec A) (d : codec B) : CodecLaws c -> CodecLaws d -> CodecLaws (c ** d).
Proof.
  intros Hc Hd. split; cbn [enc dec cvalid csize both]; [intros [a b] [H1 H2]%andb_prop ..|intros l Hl Hb|intros l Hl Hb]; cbn [fst snd] in *.
  - by rewrite length_app, !enc_size.
  - apply Forall_app. split; by apply enc_bytes.
  - rewrite take_app_length', drop_app_length' by (by rewrite enc_size). by rewrite !dec_enc.
  - rewrite !dec_valid; [done|rewrite length_drop; lia|by apply Forall_drop|rewrite length_take; lia|by apply Forall_take].
  - rewrite !enc_dec; [apply take_drop|rewrite length_drop; lia|by apply Forall_drop|rewrite length_take; lia|by apply Forall_take].
Qed.

#[export] Instance vec_laws {A} (n : nat) (c : codec A) : CodecLaws c -> CodecLaws (vec n c).
Proof.
  intros Hc. split; cbn [enc dec cvalid csize vec]; [intros v [Hl%Nat.eqb_eq Hv]%andb_prop; subst n ..|intros l; revert l|intros l; revert l].
  - induction v as [|a v IH]; [done|]. cbn in *. apply andb_prop in Hv as [H1 H2]. rewrite length_app, enc_size, IH by done. lia.
  - induction v as [|a v IH]; [constructor|]. cbn in *. apply andb_prop in Hv as [H1 H2]. apply Forall_app. split; [by apply enc_bytes|by apply IH].
  - induction v as [|a v IH]; [done|]. cbn in *. apply andb_prop in Hv as [H1 H2]. rewrite take_app_length', drop_app_length' by (by rewrite enc_size).
    by rewrite dec_enc, IH.
  - induction n as [|n IH]; intros l Hl Hb; [done|]. cbn in *.
    assert (length (drop (csize c) l) = n * csize c)%nat as Hd by (rewrite length_drop; lia).
    specialize (IH _ Hd (Forall_drop _ _ _ Hb)). apply andb_prop in IH as [I1 I2]. rewrite I2, andb_true_r. apply andb_true_intro. split; [done|].
    apply dec_valid; [rewrite length_take; lia|by apply Forall_take].
  - induction n as [|n IH]; intros l Hl Hb; [by destruct l|]. cbn in *.
    rewrite enc_dec; [|rewrite length_take; lia|by apply Forall_take]. rewrite IH; [apply take_drop|rewrite length_drop; lia|by apply Forall_drop].
Qed.

Lemma conv_laws {A B} (c : codec A) (f : A -> B) (g : B -> A) : CodecLaws c -> (forall b, f (g b) = b) -> (forall a, g (f a) = a) -> CodecLaws (conv c f g).
Proof.
  intros Hc Hfg Hgf. split; cbn [enc dec cvalid csize conv]; intros x; rewrite ?Hgf; [apply enc_size|apply enc_bytes| |apply dec_valid|apply enc_dec].
  intros Hv. by rewrite dec_enc, Hfg.
Qed.

(** A structure and the tuple of its fields correspond. *)
Ltac struct_laws := apply conv_laws; [apply _|by intros []|intros; repeat match goal with p : _ * _ |- _ => destruct p end; reflexivity].
#[export] Instance base_hdr_laws : CodecLaws ar9300_base_eep_hdr_c.
Proof. struct_laws. Qed.
#[export] Instance modal_hdr_laws : CodecLaws ar9300_modal_eep_header_c.
Proof. struct_laws. Qed.
#[export] Instance cal_data_laws : CodecLaws ar9300_cal_data_per_freq_op_loop_c.
Proof. struct_laws. Qed.
#[export] Instance base_ext1_laws : CodecLaws ar9300_BaseExtension_1_c.
Proof. struct_laws. Qed.
#[export] Instance base_ext2_laws : CodecLaws ar9300_BaseExtension_2_c.
Proof. struct_laws. Qed.
#[export] Instance eeprom_laws : CodecLaws ar9300_eeprom_c.
Proof. struct_laws. Qed.

(** [sizeof(struct ar9300_eeprom)]. *)
Lemma eeprom_size : csize ar9300_eeprom_c = 1088%nat.
Proof. vm_compute. reflexivity. Qed.
