(* ===== verification/EepTemplates.v ===== *)
(** The calibration structures that the driver comes with (src/real/ath/ath9k/
    ar9003_eeprom.c): the default one and the templates that blocks of an EEPROM
    refer to. The elements of an array that an initialiser leaves out are 0. *)

From S2P Require Import Prelude EepLayout.

Definition AR5416_OPFLAGS_11A : Z := 0x01.
Definition AR5416_OPFLAGS_11G : Z := 0x02.
Definition AR9300_PWR_TABLE_OFFSET : Z := 0.

(** A frequency as it is stored in a byte, and back. *)
Definition FREQ2FBIN (x : Z) (y : bool) : Z := if y then x - 2300 else cdiv (x - 4800) 5.
Definition AR5416_BCHAN_UNUSED : Z := 0xFF.
Definition ath9k_hw_fbin2freq (fbin : Z) (is2GHz : bool) : Z :=
  if fbin =? AR5416_BCHAN_UNUSED then fbin else u16 (if is2GHz then 2300 + fbin else 4800 + 5 * fbin).

(** The power at the edge of a band, with its in-band flag. *)
Definition CTL (tpower flag : Z) : Z := tpower .| (flag .<< 6).
Definition CTL_EDGE_TPOWER (ctl : Z) : Z := ctl .& 0x3f.
Definition CTL_EDGE_FLAGS (ctl : Z) : Z := (ctl .>> 6) .& 0x03.

Definition cal_data : Z -> Z -> Z -> Z -> Z -> Z -> ar9300_cal_data_per_freq_op_loop := Build_ar9300_cal_data_per_freq_op_loop.

(** * The structures *)

Definition ar9300_default : ar9300_eeprom :=
  {| eepromVersion := 2; templateVersion := 2; macAddr := [0; 2; 3; 4; 5; 6];
     custData := [0; 0; 0; 0; 0; 0; 0; 0; 0; 0; 0; 0; 0; 0; 0; 0; 0; 0; 0; 0];
     baseEepHeader := {| regDmn := [0; 0x1f]; txrxMask := 0x77; opFlags := AR5416_OPFLAGS_11G .| AR5416_OPFLAGS_11A; eepMisc := 0; rfSilent := 0;
       blueToothOptions := 0; deviceCap := 0; deviceType := 5; pwrTableOffset := AR9300_PWR_TABLE_OFFSET; params_for_tuning_caps := [0; 0];
       featureEnable := 0x0c; miscConfiguration := 0; eepromWriteEnableGpio := 3; wlanDisableGpio := 0; wlanLedGpio := 8; rxBandSelectGpio := 0xff;
       txrxgain := 0; swreg := 0 |};
     modalHeader2G := {| antCtrlCommon := 0x110; antCtrlCommon2 := 0x22222; antCtrlChain := [0x150; 0x150; 0x150]; xatten1DB := [0; 0; 0];
       xatten1Margin := [0; 0; 0]; tempSlope := 36; voltSlope := 0; spurChans := [0; 0; 0; 0; 0]; noiseFloorThreshCh := [(-1); 0; 0];
       reserved := [0; 0; 0; 0; 0; 0; 0; 0; 0; 0; 0]; quick_drop := 0; xpaBiasLvl := 0; txFrameToDataStart := 0x0e; txFrameToPaOn := 0x0e;
       txClip := 3; antennaGain := 0; switchSettling := 0x2c; adcDesiredSize := (-30); txEndToXpaOff := 0; txEndToRxOn := 0x2;
       txFrameToXpaOn := 0xe; thresh62 := 28; papdRateMaskHt20 := 0x0cf0e0e0; papdRateMaskHt40 := 0x6cf0e0e0; switchcomspdt := 0;
       xlna_bias_strength := 0; futureModal := [0; 0; 0; 0; 0; 0; 0] |};
     base_ext1 := {| ant_div_control := 0; future := [0; 0]; misc_enable := 0; tempslopextension := [0; 0; 0; 0; 0; 0; 0; 0]; quick_drop_low := 0;
       quick_drop_high := 0 |};
     calFreqPier2G := [FREQ2FBIN 2412 true; FREQ2FBIN 2437 true; FREQ2FBIN 2472 true];
     calPierData2G := [[cal_data 0 0 0 0 0 0; cal_data 0 0 0 0 0 0; cal_data 0 0 0 0 0 0];
     [cal_data 0 0 0 0 0 0; cal_data 0 0 0 0 0 0; cal_data 0 0 0 0 0 0];
     [cal_data 0 0 0 0 0 0; cal_data 0 0 0 0 0 0; cal_data 0 0 0 0 0 0]];
     calTarget_freqbin_Cck := [FREQ2FBIN 2412 true; FREQ2FBIN 2484 true];
     calTarget_freqbin_2G := [FREQ2FBIN 2412 true; FREQ2FBIN 2437 true; FREQ2FBIN 2472 true];
     calTarget_freqbin_2GHT20 := [FREQ2FBIN 2412 true; FREQ2FBIN 2437 true; FREQ2FBIN 2472 true];
     calTarget_freqbin_2GHT40 := [FREQ2FBIN 2412 true; FREQ2FBIN 2437 true; FREQ2FBIN 2472 true];
     calTargetPowerCck := [[36; 36; 36; 36]; [36; 36; 36; 36]]; calTargetPower2G := [[32; 32; 28; 24]; [32; 32; 28; 24]; [32; 32; 28; 24]];
     calTargetPower2GHT20 := [[32; 32; 32; 32; 28; 20; 32; 32; 28; 20; 32; 32; 28; 20];
     [32; 32; 32; 32; 28; 20; 32; 32; 28; 20; 32; 32; 28; 20];
     [32; 32; 32; 32; 28; 20; 32; 32; 28; 20; 32; 32; 28; 20]];
     calTargetPower2GHT40 := [[32; 32; 32; 32; 28; 20; 32; 32; 28; 20; 32; 32; 28; 20];
     [32; 32; 32; 32; 28; 20; 32; 32; 28; 20; 32; 32; 28; 20];
     [32; 32; 32; 32; 28; 20; 32; 32; 28; 20; 32; 32; 28; 20]];
     ctlIndex_2G := [0x11; 0x12; 0x15; 0x17; 0x41; 0x42; 0x45; 0x47; 0x31; 0x32; 0x35; 0x37];
     ctl_freqbin_2G := [[FREQ2FBIN 2412 true; FREQ2FBIN 2417 true; FREQ2FBIN 2457 true; FREQ2FBIN 2462 true];
     [FREQ2FBIN 2412 true; FREQ2FBIN 2417 true; FREQ2FBIN 2462 true; 0xFF];
     [FREQ2FBIN 2412 true; FREQ2FBIN 2417 true; FREQ2FBIN 2462 true; 0xFF];
     [FREQ2FBIN 2422 true; FREQ2FBIN 2427 true; FREQ2FBIN 2447 true; FREQ2FBIN 2452 true];
     [FREQ2FBIN 2412 true; FREQ2FBIN 2417 true; FREQ2FBIN 2472 true; FREQ2FBIN 2484 true];
     [FREQ2FBIN 2412 true; FREQ2FBIN 2417 true; FREQ2FBIN 2472 true; 0];
     [FREQ2FBIN 2412 true; FREQ2FBIN 2417 true; FREQ2FBIN 2472 true; 0];
     [FREQ2FBIN 2422 true; FREQ2FBIN 2427 true; FREQ2FBIN 2447 true; FREQ2FBIN 2462 true];
     [FREQ2FBIN 2412 true; FREQ2FBIN 2417 true; FREQ2FBIN 2472 true; 0];
     [FREQ2FBIN 2412 true; FREQ2FBIN 2417 true; FREQ2FBIN 2472 true; 0];
     [FREQ2FBIN 2412 true; FREQ2FBIN 2417 true; FREQ2FBIN 2472 true; 0];
     [FREQ2FBIN 2422 true; FREQ2FBIN 2427 true; FREQ2FBIN 2447 true; FREQ2FBIN 2462 true]];
     ctlPowerData_2G := [[CTL 60 0; CTL 60 1; CTL 60 0; CTL 60 0];
     [CTL 60 0; CTL 60 1; CTL 60 0; CTL 60 0];
     [CTL 60 1; CTL 60 0; CTL 60 0; CTL 60 1];
     [CTL 60 1; CTL 60 0; CTL 60 0; CTL 60 0];
     [CTL 60 0; CTL 60 1; CTL 60 0; CTL 60 0];
     [CTL 60 0; CTL 60 1; CTL 60 0; CTL 60 0];
     [CTL 60 0; CTL 60 1; CTL 60 1; CTL 60 0];
     [CTL 60 0; CTL 60 1; CTL 60 0; CTL 60 0];
     [CTL 60 0; CTL 60 1; CTL 60 0; CTL 60 0];
     [CTL 60 0; CTL 60 1; CTL 60 0; CTL 60 0];
     [CTL 60 0; CTL 60 1; CTL 60 1; CTL 60 1];
     [CTL 60 0; CTL 60 1; CTL 60 1; CTL 60 1]];
     modalHeader5G := {| antCtrlCommon := 0x110; antCtrlCommon2 := 0x22222; antCtrlChain := [0x000; 0x000; 0x000]; xatten1DB := [0; 0; 0];
       xatten1Margin := [0; 0; 0]; tempSlope := 68; voltSlope := 0; spurChans := [0; 0; 0; 0; 0]; noiseFloorThreshCh := [(-1); 0; 0];
       reserved := [0; 0; 0; 0; 0; 0; 0; 0; 0; 0; 0]; quick_drop := 0; xpaBiasLvl := 0; txFrameToDataStart := 0x0e; txFrameToPaOn := 0x0e;
       txClip := 3; antennaGain := 0; switchSettling := 0x2d; adcDesiredSize := (-30); txEndToXpaOff := 0; txEndToRxOn := 0x2;
       txFrameToXpaOn := 0xe; thresh62 := 28; papdRateMaskHt20 := 0x0c80c080; papdRateMaskHt40 := 0x0080c080; switchcomspdt := 0;
       xlna_bias_strength := 0; futureModal := [0; 0; 0; 0; 0; 0; 0] |};
     base_ext2 := {| tempSlopeLow := 0; tempSlopeHigh := 0; xatten1DBLow := [0; 0; 0]; xatten1MarginLow := [0; 0; 0]; xatten1DBHigh := [0; 0; 0];
       xatten1MarginHigh := [0; 0; 0] |};
     calFreqPier5G := [FREQ2FBIN 5180 false;
     FREQ2FBIN 5220 false;
     FREQ2FBIN 5320 false;
     FREQ2FBIN 5400 false;
     FREQ2FBIN 5500 false;
     FREQ2FBIN 5600 false;
     FREQ2FBIN 5725 false;
     FREQ2FBIN 5825 false];
     calPierData5G := [[cal_data 0 0 0 0 0 0;
       cal_data 0 0 0 0 0 0;
       cal_data 0 0 0 0 0 0;
       cal_data 0 0 0 0 0 0;
       cal_data 0 0 0 0 0 0;
       cal_data 0 0 0 0 0 0;
       cal_data 0 0 0 0 0 0;
       cal_data 0 0 0 0 0 0];
     [cal_data 0 0 0 0 0 0;
       cal_data 0 0 0 0 0 0;
       cal_data 0 0 0 0 0 0;
       cal_data 0 0 0 0 0 0;
       cal_data 0 0 0 0 0 0;
       cal_data 0 0 0 0 0 0;
       cal_data 0 0 0 0 0 0;
       cal_data 0 0 0 0 0 0];
     [cal_data 0 0 0 0 0 0;
       cal_data 0 0 0 0 0 0;
       cal_data 0 0 0 0 0 0;
       cal_data 0 0 0 0 0 0;
       cal_data 0 0 0 0 0 0;
       cal_data 0 0 0 0 0 0;
       cal_data 0 0 0 0 0 0;
       cal_data 0 0 0 0 0 0]];
     calTarget_freqbin_5G := [FREQ2FBIN 5180 false;
     FREQ2FBIN 5220 false;
     FREQ2FBIN 5320 false;
     FREQ2FBIN 5400 false;
     FREQ2FBIN 5500 false;
     FREQ2FBIN 5600 false;
     FREQ2FBIN 5725 false;
     FREQ2FBIN 5825 false];
     calTarget_freqbin_5GHT20 := [FREQ2FBIN 5180 false;
     FREQ2FBIN 5240 false;
     FREQ2FBIN 5320 false;
     FREQ2FBIN 5500 false;
     FREQ2FBIN 5700 false;
     FREQ2FBIN 5745 false;
     FREQ2FBIN 5725 false;
     FREQ2FBIN 5825 false];
     calTarget_freqbin_5GHT40 := [FREQ2FBIN 5180 false;
     FREQ2FBIN 5240 false;
     FREQ2FBIN 5320 false;
     FREQ2FBIN 5500 false;
     FREQ2FBIN 5700 false;
     FREQ2FBIN 5745 false;
     FREQ2FBIN 5725 false;
     FREQ2FBIN 5825 false];
     calTargetPower5G := [[20; 20; 20; 10];
     [20; 20; 20; 10];
     [20; 20; 20; 10];
     [20; 20; 20; 10];
     [20; 20; 20; 10];
     [20; 20; 20; 10];
     [20; 20; 20; 10];
     [20; 20; 20; 10]];
     calTargetPower5GHT20 := [[20; 20; 10; 10; 0; 0; 10; 10; 0; 0; 10; 10; 0; 0];
     [20; 20; 10; 10; 0; 0; 10; 10; 0; 0; 10; 10; 0; 0];
     [20; 20; 10; 10; 0; 0; 10; 10; 0; 0; 10; 10; 0; 0];
     [20; 20; 10; 10; 0; 0; 10; 10; 0; 0; 10; 10; 0; 0];
     [20; 20; 10; 10; 0; 0; 10; 10; 0; 0; 10; 10; 0; 0];
     [20; 20; 10; 10; 0; 0; 10; 10; 0; 0; 10; 10; 0; 0];
     [20; 20; 10; 10; 0; 0; 10; 10; 0; 0; 10; 10; 0; 0];
     [20; 20; 10; 10; 0; 0; 10; 10; 0; 0; 10; 10; 0; 0]];
     calTargetPower5GHT40 := [[20; 20; 10; 10; 0; 0; 10; 10; 0; 0; 10; 10; 0; 0];
     [20; 20; 10; 10; 0; 0; 10; 10; 0; 0; 10; 10; 0; 0];
     [20; 20; 10; 10; 0; 0; 10; 10; 0; 0; 10; 10; 0; 0];
     [20; 20; 10; 10; 0; 0; 10; 10; 0; 0; 10; 10; 0; 0];
     [20; 20; 10; 10; 0; 0; 10; 10; 0; 0; 10; 10; 0; 0];
     [20; 20; 10; 10; 0; 0; 10; 10; 0; 0; 10; 10; 0; 0];
     [20; 20; 10; 10; 0; 0; 10; 10; 0; 0; 10; 10; 0; 0];
     [20; 20; 10; 10; 0; 0; 10; 10; 0; 0; 10; 10; 0; 0]];
     ctlIndex_5G := [0x10; 0x16; 0x18; 0x40; 0x46; 0x48; 0x30; 0x36; 0x38];
     ctl_freqbin_5G := [[FREQ2FBIN 5180 false;
       FREQ2FBIN 5260 false;
       FREQ2FBIN 5280 false;
       FREQ2FBIN 5500 false;
       FREQ2FBIN 5600 false;
       FREQ2FBIN 5700 false;
       FREQ2FBIN 5745 false;
       FREQ2FBIN 5825 false];
     [FREQ2FBIN 5180 false;
       FREQ2FBIN 5260 false;
       FREQ2FBIN 5280 false;
       FREQ2FBIN 5500 false;
       FREQ2FBIN 5520 false;
       FREQ2FBIN 5700 false;
       FREQ2FBIN 5745 false;
       FREQ2FBIN 5825 false];
     [FREQ2FBIN 5190 false;
       FREQ2FBIN 5230 false;
       FREQ2FBIN 5270 false;
       FREQ2FBIN 5310 false;
       FREQ2FBIN 5510 false;
       FREQ2FBIN 5550 false;
       FREQ2FBIN 5670 false;
       FREQ2FBIN 5755 false];
     [FREQ2FBIN 5180 false;
       FREQ2FBIN 5200 false;
       FREQ2FBIN 5260 false;
       FREQ2FBIN 5320 false;
       FREQ2FBIN 5500 false;
       FREQ2FBIN 5700 false;
       0xFF;
       0xFF];
     [FREQ2FBIN 5180 false; FREQ2FBIN 5260 false; FREQ2FBIN 5500 false; FREQ2FBIN 5700 false; 0xFF; 0xFF; 0xFF; 0xFF];
     [FREQ2FBIN 5190 false;
       FREQ2FBIN 5270 false;
       FREQ2FBIN 5310 false;
       FREQ2FBIN 5510 false;
       FREQ2FBIN 5590 false;
       FREQ2FBIN 5670 false;
       0xFF;
       0xFF];
     [FREQ2FBIN 5180 false;
       FREQ2FBIN 5200 false;
       FREQ2FBIN 5220 false;
       FREQ2FBIN 5260 false;
       FREQ2FBIN 5500 false;
       FREQ2FBIN 5600 false;
       FREQ2FBIN 5700 false;
       FREQ2FBIN 5745 false];
     [FREQ2FBIN 5180 false;
       FREQ2FBIN 5260 false;
       FREQ2FBIN 5320 false;
       FREQ2FBIN 5500 false;
       FREQ2FBIN 5560 false;
       FREQ2FBIN 5700 false;
       FREQ2FBIN 5745 false;
       FREQ2FBIN 5825 false];
     [FREQ2FBIN 5190 false;
       FREQ2FBIN 5230 false;
       FREQ2FBIN 5270 false;
       FREQ2FBIN 5510 false;
       FREQ2FBIN 5550 false;
       FREQ2FBIN 5670 false;
       FREQ2FBIN 5755 false;
       FREQ2FBIN 5795 false]];
     ctlPowerData_5G := [[CTL 60 1; CTL 60 1; CTL 60 1; CTL 60 1; CTL 60 1; CTL 60 1; CTL 60 1; CTL 60 0];
     [CTL 60 1; CTL 60 1; CTL 60 1; CTL 60 1; CTL 60 1; CTL 60 1; CTL 60 1; CTL 60 0];
     [CTL 60 0; CTL 60 1; CTL 60 0; CTL 60 1; CTL 60 1; CTL 60 1; CTL 60 1; CTL 60 1];
     [CTL 60 0; CTL 60 1; CTL 60 1; CTL 60 0; CTL 60 1; CTL 60 0; CTL 60 0; CTL 60 0];
     [CTL 60 1; CTL 60 1; CTL 60 1; CTL 60 0; CTL 60 0; CTL 60 0; CTL 60 0; CTL 60 0];
     [CTL 60 1; CTL 60 1; CTL 60 1; CTL 60 1; CTL 60 1; CTL 60 0; CTL 60 0; CTL 60 0];
     [CTL 60 1; CTL 60 1; CTL 60 1; CTL 60 1; CTL 60 1; CTL 60 1; CTL 60 1; CTL 60 1];
     [CTL 60 1; CTL 60 1; CTL 60 0; CTL 60 1; CTL 60 1; CTL 60 1; CTL 60 1; CTL 60 0];
     [CTL 60 1; CTL 60 0; CTL 60 1; CTL 60 1; CTL 60 1; CTL 60 1; CTL 60 0; CTL 60 1]] |}.

Definition ar9300_x113 : ar9300_eeprom :=
  {| eepromVersion := 2; templateVersion := 6; macAddr := [0x00; 0x03; 0x7f; 0x0; 0x0; 0x0];
     custData := [120; 49; 49; 51; 45; 48; 50; 51; 45; 102; 48; 48; 48; 48; 0; 0; 0; 0; 0; 0];
     baseEepHeader := {| regDmn := [0; 0x1f]; txrxMask := 0x77; opFlags := AR5416_OPFLAGS_11A; eepMisc := 0; rfSilent := 0; blueToothOptions := 0; deviceCap := 0;
       deviceType := 5; pwrTableOffset := AR9300_PWR_TABLE_OFFSET; params_for_tuning_caps := [0; 0]; featureEnable := 0x0d; miscConfiguration := 0;
       eepromWriteEnableGpio := 6; wlanDisableGpio := 0; wlanLedGpio := 8; rxBandSelectGpio := 0xff; txrxgain := 0x21; swreg := 0 |};
     modalHeader2G := {| antCtrlCommon := 0x110; antCtrlCommon2 := 0x44444; antCtrlChain := [0x150; 0x150; 0x150]; xatten1DB := [0; 0; 0];
       xatten1Margin := [0; 0; 0]; tempSlope := 25; voltSlope := 0; spurChans := [FREQ2FBIN 2464 true; 0; 0; 0; 0];
       noiseFloorThreshCh := [(-1); 0; 0]; reserved := [0; 0; 0; 0; 0; 0; 0; 0; 0; 0; 0]; quick_drop := 0; xpaBiasLvl := 0;
       txFrameToDataStart := 0x0e; txFrameToPaOn := 0x0e; txClip := 3; antennaGain := 0; switchSettling := 0x2c; adcDesiredSize := (-30);
       txEndToXpaOff := 0; txEndToRxOn := 0x2; txFrameToXpaOn := 0xe; thresh62 := 28; papdRateMaskHt20 := 0x0c80c080;
       papdRateMaskHt40 := 0x0080c080; switchcomspdt := 0; xlna_bias_strength := 0; futureModal := [0; 0; 0; 0; 0; 0; 0] |};
     base_ext1 := {| ant_div_control := 0; future := [0; 0]; misc_enable := 0; tempslopextension := [0; 0; 0; 0; 0; 0; 0; 0]; quick_drop_low := 0;
       quick_drop_high := 0 |};
     calFreqPier2G := [FREQ2FBIN 2412 true; FREQ2FBIN 2437 true; FREQ2FBIN 2472 true];
     calPierData2G := [[cal_data 0 0 0 0 0 0; cal_data 0 0 0 0 0 0; cal_data 0 0 0 0 0 0];
     [cal_data 0 0 0 0 0 0; cal_data 0 0 0 0 0 0; cal_data 0 0 0 0 0 0];
     [cal_data 0 0 0 0 0 0; cal_data 0 0 0 0 0 0; cal_data 0 0 0 0 0 0]];
     calTarget_freqbin_Cck := [FREQ2FBIN 2412 true; FREQ2FBIN 2472 true];
     calTarget_freqbin_2G := [FREQ2FBIN 2412 true; FREQ2FBIN 2437 true; FREQ2FBIN 2472 true];
     calTarget_freqbin_2GHT20 := [FREQ2FBIN 2412 true; FREQ2FBIN 2437 true; FREQ2FBIN 2472 true];
     calTarget_freqbin_2GHT40 := [FREQ2FBIN 2412 true; FREQ2FBIN 2437 true; FREQ2FBIN 2472 true];
     calTargetPowerCck := [[34; 34; 34; 34]; [34; 34; 34; 34]]; calTargetPower2G := [[34; 34; 32; 32]; [34; 34; 32; 32]; [34; 34; 32; 32]];
     calTargetPower2GHT20 := [[32; 32; 32; 32; 32; 28; 32; 32; 30; 28; 0; 0; 0; 0];
     [32; 32; 32; 32; 32; 28; 32; 32; 30; 28; 0; 0; 0; 0];
     [32; 32; 32; 32; 32; 28; 32; 32; 30; 28; 0; 0; 0; 0]];
     calTargetPower2GHT40 := [[30; 30; 30; 30; 30; 28; 30; 30; 28; 26; 0; 0; 0; 0];
     [30; 30; 30; 30; 30; 28; 30; 30; 28; 26; 0; 0; 0; 0];
     [30; 30; 30; 30; 30; 28; 30; 30; 28; 26; 0; 0; 0; 0]];
     ctlIndex_2G := [0x11; 0x12; 0x15; 0x17; 0x41; 0x42; 0x45; 0x47; 0x31; 0x32; 0x35; 0x37];
     ctl_freqbin_2G := [[FREQ2FBIN 2412 true; FREQ2FBIN 2417 true; FREQ2FBIN 2457 true; FREQ2FBIN 2462 true];
     [FREQ2FBIN 2412 true; FREQ2FBIN 2417 true; FREQ2FBIN 2462 true; 0xFF];
     [FREQ2FBIN 2412 true; FREQ2FBIN 2417 true; FREQ2FBIN 2462 true; 0xFF];
     [FREQ2FBIN 2422 true; FREQ2FBIN 2427 true; FREQ2FBIN 2447 true; FREQ2FBIN 2452 true];
     [FREQ2FBIN 2412 true; FREQ2FBIN 2417 true; FREQ2FBIN 2472 true; FREQ2FBIN 2484 true];
     [FREQ2FBIN 2412 true; FREQ2FBIN 2417 true; FREQ2FBIN 2472 true; 0];
     [FREQ2FBIN 2412 true; FREQ2FBIN 2417 true; FREQ2FBIN 2472 true; 0];
     [FREQ2FBIN 2422 true; FREQ2FBIN 2427 true; FREQ2FBIN 2447 true; FREQ2FBIN 2462 true];
     [FREQ2FBIN 2412 true; FREQ2FBIN 2417 true; FREQ2FBIN 2472 true; 0];
     [FREQ2FBIN 2412 true; FREQ2FBIN 2417 true; FREQ2FBIN 2472 true; 0];
     [FREQ2FBIN 2412 true; FREQ2FBIN 2417 true; FREQ2FBIN 2472 true; 0];
     [FREQ2FBIN 2422 true; FREQ2FBIN 2427 true; FREQ2FBIN 2447 true; FREQ2FBIN 2462 true]];
     ctlPowerData_2G := [[CTL 60 0; CTL 60 1; CTL 60 0; CTL 60 0];
     [CTL 60 0; CTL 60 1; CTL 60 0; CTL 60 0];
     [CTL 60 1; CTL 60 0; CTL 60 0; CTL 60 1];
     [CTL 60 1; CTL 60 0; CTL 60 0; CTL 60 0];
     [CTL 60 0; CTL 60 1; CTL 60 0; CTL 60 0];
     [CTL 60 0; CTL 60 1; CTL 60 0; CTL 60 0];
     [CTL 60 0; CTL 60 1; CTL 60 1; CTL 60 0];
     [CTL 60 0; CTL 60 1; CTL 60 0; CTL 60 0];
     [CTL 60 0; CTL 60 1; CTL 60 0; CTL 60 0];
     [CTL 60 0; CTL 60 1; CTL 60 0; CTL 60 0];
     [CTL 60 0; CTL 60 1; CTL 60 1; CTL 60 1];
     [CTL 60 0; CTL 60 1; CTL 60 1; CTL 60 1]];
     modalHeader5G := {| antCtrlCommon := 0x220; antCtrlCommon2 := 0x11111; antCtrlChain := [0x150; 0x150; 0x150]; xatten1DB := [0; 0; 0];
       xatten1Margin := [0; 0; 0]; tempSlope := 68; voltSlope := 0; spurChans := [FREQ2FBIN 5500 false; 0; 0; 0; 0];
       noiseFloorThreshCh := [(-1); 0; 0]; reserved := [0; 0; 0; 0; 0; 0; 0; 0; 0; 0; 0]; quick_drop := 0; xpaBiasLvl := 0xf;
       txFrameToDataStart := 0x0e; txFrameToPaOn := 0x0e; txClip := 3; antennaGain := 0; switchSettling := 0x2d; adcDesiredSize := (-30);
       txEndToXpaOff := 0; txEndToRxOn := 0x2; txFrameToXpaOn := 0xe; thresh62 := 28; papdRateMaskHt20 := 0x0cf0e0e0;
       papdRateMaskHt40 := 0x6cf0e0e0; switchcomspdt := 0; xlna_bias_strength := 0; futureModal := [0; 0; 0; 0; 0; 0; 0] |};
     base_ext2 := {| tempSlopeLow := 72; tempSlopeHigh := 105; xatten1DBLow := [0; 0; 0]; xatten1MarginLow := [0; 0; 0]; xatten1DBHigh := [0; 0; 0];
       xatten1MarginHigh := [0; 0; 0] |};
     calFreqPier5G := [FREQ2FBIN 5180 false;
     FREQ2FBIN 5240 false;
     FREQ2FBIN 5320 false;
     FREQ2FBIN 5400 false;
     FREQ2FBIN 5500 false;
     FREQ2FBIN 5600 false;
     FREQ2FBIN 5745 false;
     FREQ2FBIN 5785 false];
     calPierData5G := [[cal_data 0 0 0 0 0 0;
       cal_data 0 0 0 0 0 0;
       cal_data 0 0 0 0 0 0;
       cal_data 0 0 0 0 0 0;
       cal_data 0 0 0 0 0 0;
       cal_data 0 0 0 0 0 0;
       cal_data 0 0 0 0 0 0;
       cal_data 0 0 0 0 0 0];
     [cal_data 0 0 0 0 0 0;
       cal_data 0 0 0 0 0 0;
       cal_data 0 0 0 0 0 0;
       cal_data 0 0 0 0 0 0;
       cal_data 0 0 0 0 0 0;
       cal_data 0 0 0 0 0 0;
       cal_data 0 0 0 0 0 0;
       cal_data 0 0 0 0 0 0];
     [cal_data 0 0 0 0 0 0;
       cal_data 0 0 0 0 0 0;
       cal_data 0 0 0 0 0 0;
       cal_data 0 0 0 0 0 0;
       cal_data 0 0 0 0 0 0;
       cal_data 0 0 0 0 0 0;
       cal_data 0 0 0 0 0 0;
       cal_data 0 0 0 0 0 0]];
     calTarget_freqbin_5G := [FREQ2FBIN 5180 false;
     FREQ2FBIN 5220 false;
     FREQ2FBIN 5320 false;
     FREQ2FBIN 5400 false;
     FREQ2FBIN 5500 false;
     FREQ2FBIN 5600 false;
     FREQ2FBIN 5745 false;
     FREQ2FBIN 5785 false];
     calTarget_freqbin_5GHT20 := [FREQ2FBIN 5180 false;
     FREQ2FBIN 5240 false;
     FREQ2FBIN 5320 false;
     FREQ2FBIN 5400 false;
     FREQ2FBIN 5500 false;
     FREQ2FBIN 5700 false;
     FREQ2FBIN 5745 false;
     FREQ2FBIN 5825 false];
     calTarget_freqbin_5GHT40 := [FREQ2FBIN 5190 false;
     FREQ2FBIN 5230 false;
     FREQ2FBIN 5320 false;
     FREQ2FBIN 5410 false;
     FREQ2FBIN 5510 false;
     FREQ2FBIN 5670 false;
     FREQ2FBIN 5755 false;
     FREQ2FBIN 5825 false];
     calTargetPower5G := [[42; 40; 40; 34];
     [42; 40; 40; 34];
     [42; 40; 40; 34];
     [42; 40; 40; 34];
     [42; 40; 40; 34];
     [42; 40; 40; 34];
     [42; 40; 40; 34];
     [42; 40; 40; 34]];
     calTargetPower5GHT20 := [[40; 40; 40; 40; 32; 28; 40; 40; 32; 28; 40; 40; 32; 20];
     [40; 40; 40; 40; 32; 28; 40; 40; 32; 28; 40; 40; 32; 20];
     [40; 40; 40; 40; 32; 28; 40; 40; 32; 28; 40; 40; 32; 20];
     [40; 40; 40; 40; 32; 28; 40; 40; 32; 28; 40; 40; 32; 20];
     [40; 40; 40; 40; 32; 28; 40; 40; 32; 28; 40; 40; 32; 20];
     [40; 40; 40; 40; 32; 28; 40; 40; 32; 28; 40; 40; 32; 20];
     [38; 38; 38; 38; 32; 28; 38; 38; 32; 28; 38; 38; 32; 26];
     [36; 36; 36; 36; 32; 28; 36; 36; 32; 28; 36; 36; 32; 26]];
     calTargetPower5GHT40 := [[40; 40; 40; 38; 30; 26; 40; 40; 30; 26; 40; 40; 30; 24];
     [40; 40; 40; 38; 30; 26; 40; 40; 30; 26; 40; 40; 30; 24];
     [40; 40; 40; 38; 30; 26; 40; 40; 30; 26; 40; 40; 30; 24];
     [40; 40; 40; 38; 30; 26; 40; 40; 30; 26; 40; 40; 30; 24];
     [40; 40; 40; 38; 30; 26; 40; 40; 30; 26; 40; 40; 30; 24];
     [40; 40; 40; 38; 30; 26; 40; 40; 30; 26; 40; 40; 30; 24];
     [36; 36; 36; 36; 30; 26; 36; 36; 30; 26; 36; 36; 30; 24];
     [34; 34; 34; 34; 30; 26; 34; 34; 30; 26; 34; 34; 30; 24]];
     ctlIndex_5G := [0x10; 0x16; 0x18; 0x40; 0x46; 0x48; 0x30; 0x36; 0x38];
     ctl_freqbin_5G := [[FREQ2FBIN 5180 false;
       FREQ2FBIN 5260 false;
       FREQ2FBIN 5280 false;
       FREQ2FBIN 5500 false;
       FREQ2FBIN 5600 false;
       FREQ2FBIN 5700 false;
       FREQ2FBIN 5745 false;
       FREQ2FBIN 5825 false];
     [FREQ2FBIN 5180 false;
       FREQ2FBIN 5260 false;
       FREQ2FBIN 5280 false;
       FREQ2FBIN 5500 false;
       FREQ2FBIN 5520 false;
       FREQ2FBIN 5700 false;
       FREQ2FBIN 5745 false;
       FREQ2FBIN 5825 false];
     [FREQ2FBIN 5190 false;
       FREQ2FBIN 5230 false;
       FREQ2FBIN 5270 false;
       FREQ2FBIN 5310 false;
       FREQ2FBIN 5510 false;
       FREQ2FBIN 5550 false;
       FREQ2FBIN 5670 false;
       FREQ2FBIN 5755 false];
     [FREQ2FBIN 5180 false;
       FREQ2FBIN 5200 false;
       FREQ2FBIN 5260 false;
       FREQ2FBIN 5320 false;
       FREQ2FBIN 5500 false;
       FREQ2FBIN 5700 false;
       0xFF;
       0xFF];
     [FREQ2FBIN 5180 false; FREQ2FBIN 5260 false; FREQ2FBIN 5500 false; FREQ2FBIN 5700 false; 0xFF; 0xFF; 0xFF; 0xFF];
     [FREQ2FBIN 5190 false;
       FREQ2FBIN 5270 false;
       FREQ2FBIN 5310 false;
       FREQ2FBIN 5510 false;
       FREQ2FBIN 5590 false;
       FREQ2FBIN 5670 false;
       0xFF;
       0xFF];
     [FREQ2FBIN 5180 false;
       FREQ2FBIN 5200 false;
       FREQ2FBIN 5220 false;
       FREQ2FBIN 5260 false;
       FREQ2FBIN 5500 false;
       FREQ2FBIN 5600 false;
       FREQ2FBIN 5700 false;
       FREQ2FBIN 5745 false];
     [FREQ2FBIN 5180 false;
       FREQ2FBIN 5260 false;
       FREQ2FBIN 5320 false;
       FREQ2FBIN 5500 false;
       FREQ2FBIN 5560 false;
       FREQ2FBIN 5700 false;
       FREQ2FBIN 5745 false;
       FREQ2FBIN 5825 false];
     [FREQ2FBIN 5190 false;
       FREQ2FBIN 5230 false;
       FREQ2FBIN 5270 false;
       FREQ2FBIN 5510 false;
       FREQ2FBIN 5550 false;
       FREQ2FBIN 5670 false;
       FREQ2FBIN 5755 false;
       FREQ2FBIN 5795 false]];
     ctlPowerData_5G := [[CTL 60 1; CTL 60 1; CTL 60 1; CTL 60 1; CTL 60 1; CTL 60 1; CTL 60 1; CTL 60 0];
     [CTL 60 1; CTL 60 1; CTL 60 1; CTL 60 1; CTL 60 1; CTL 60 1; CTL 60 1; CTL 60 0];
     [CTL 60 0; CTL 60 1; CTL 60 0; CTL 60 1; CTL 60 1; CTL 60 1; CTL 60 1; CTL 60 1];
     [CTL 60 0; CTL 60 1; CTL 60 1; CTL 60 0; CTL 60 1; CTL 60 0; CTL 60 0; CTL 60 0];
     [CTL 60 1; CTL 60 1; CTL 60 1; CTL 60 0; CTL 60 0; CTL 60 0; CTL 60 0; CTL 60 0];
     [CTL 60 1; CTL 60 1; CTL 60 1; CTL 60 1; CTL 60 1; CTL 60 0; CTL 60 0; CTL 60 0];
     [CTL 60 1; CTL 60 1; CTL 60 1; CTL 60 1; CTL 60 1; CTL 60 1; CTL 60 1; CTL 60 1];
     [CTL 60 1; CTL 60 1; CTL 60 0; CTL 60 1; CTL 60 1; CTL 60 1; CTL 60 1; CTL 60 0];
     [CTL 60 1; CTL 60 0; CTL 60 1; CTL 60 1; CTL 60 1; CTL 60 1; CTL 60 0; CTL 60 1]] |}.

Definition ar9300_h112 : ar9300_eeprom :=
  {| eepromVersion := 2; templateVersion := 3; macAddr := [0x00; 0x03; 0x7f; 0x0; 0x0; 0x0];
     custData := [104; 49; 49; 50; 45; 50; 52; 49; 45; 102; 48; 48; 48; 48; 0; 0; 0; 0; 0; 0];
     baseEepHeader := {| regDmn := [0; 0x1f]; txrxMask := 0x77; opFlags := AR5416_OPFLAGS_11G .| AR5416_OPFLAGS_11A; eepMisc := 0; rfSilent := 0;
       blueToothOptions := 0; deviceCap := 0; deviceType := 5; pwrTableOffset := AR9300_PWR_TABLE_OFFSET; params_for_tuning_caps := [0; 0];
       featureEnable := 0x0d; miscConfiguration := 0; eepromWriteEnableGpio := 6; wlanDisableGpio := 0; wlanLedGpio := 8; rxBandSelectGpio := 0xff;
       txrxgain := 0x10; swreg := 0 |};
     modalHeader2G := {| antCtrlCommon := 0x110; antCtrlCommon2 := 0x44444; antCtrlChain := [0x150; 0x150; 0x150]; xatten1DB := [0; 0; 0];
       xatten1Margin := [0; 0; 0]; tempSlope := 25; voltSlope := 0; spurChans := [FREQ2FBIN 2464 true; 0; 0; 0; 0];
       noiseFloorThreshCh := [(-1); 0; 0]; reserved := [0; 0; 0; 0; 0; 0; 0; 0; 0; 0; 0]; quick_drop := 0; xpaBiasLvl := 0;
       txFrameToDataStart := 0x0e; txFrameToPaOn := 0x0e; txClip := 3; antennaGain := 0; switchSettling := 0x2c; adcDesiredSize := (-30);
       txEndToXpaOff := 0; txEndToRxOn := 0x2; txFrameToXpaOn := 0xe; thresh62 := 28; papdRateMaskHt20 := 0x0c80c080;
       papdRateMaskHt40 := 0x0080c080; switchcomspdt := 0; xlna_bias_strength := 0; futureModal := [0; 0; 0; 0; 0; 0; 0] |};
     base_ext1 := {| ant_div_control := 0; future := [0; 0]; misc_enable := 0; tempslopextension := [0; 0; 0; 0; 0; 0; 0; 0]; quick_drop_low := 0;
       quick_drop_high := 0 |};
     calFreqPier2G := [FREQ2FBIN 2412 true; FREQ2FBIN 2437 true; FREQ2FBIN 2462 true];
     calPierData2G := [[cal_data 0 0 0 0 0 0; cal_data 0 0 0 0 0 0; cal_data 0 0 0 0 0 0];
     [cal_data 0 0 0 0 0 0; cal_data 0 0 0 0 0 0; cal_data 0 0 0 0 0 0];
     [cal_data 0 0 0 0 0 0; cal_data 0 0 0 0 0 0; cal_data 0 0 0 0 0 0]];
     calTarget_freqbin_Cck := [FREQ2FBIN 2412 true; FREQ2FBIN 2472 true];
     calTarget_freqbin_2G := [FREQ2FBIN 2412 true; FREQ2FBIN 2437 true; FREQ2FBIN 2472 true];
     calTarget_freqbin_2GHT20 := [FREQ2FBIN 2412 true; FREQ2FBIN 2437 true; FREQ2FBIN 2472 true];
     calTarget_freqbin_2GHT40 := [FREQ2FBIN 2412 true; FREQ2FBIN 2437 true; FREQ2FBIN 2472 true];
     calTargetPowerCck := [[34; 34; 34; 34]; [34; 34; 34; 34]]; calTargetPower2G := [[34; 34; 32; 32]; [34; 34; 32; 32]; [34; 34; 32; 32]];
     calTargetPower2GHT20 := [[32; 32; 32; 32; 32; 30; 32; 32; 30; 28; 28; 28; 28; 24];
     [32; 32; 32; 32; 32; 30; 32; 32; 30; 28; 28; 28; 28; 24];
     [32; 32; 32; 32; 32; 30; 32; 32; 30; 28; 28; 28; 28; 24]];
     calTargetPower2GHT40 := [[30; 30; 30; 30; 30; 28; 30; 30; 28; 26; 26; 26; 26; 22];
     [30; 30; 30; 30; 30; 28; 30; 30; 28; 26; 26; 26; 26; 22];
     [30; 30; 30; 30; 30; 28; 30; 30; 28; 26; 26; 26; 26; 22]];
     ctlIndex_2G := [0x11; 0x12; 0x15; 0x17; 0x41; 0x42; 0x45; 0x47; 0x31; 0x32; 0x35; 0x37];
     ctl_freqbin_2G := [[FREQ2FBIN 2412 true; FREQ2FBIN 2417 true; FREQ2FBIN 2457 true; FREQ2FBIN 2462 true];
     [FREQ2FBIN 2412 true; FREQ2FBIN 2417 true; FREQ2FBIN 2462 true; 0xFF];
     [FREQ2FBIN 2412 true; FREQ2FBIN 2417 true; FREQ2FBIN 2462 true; 0xFF];
     [FREQ2FBIN 2422 true; FREQ2FBIN 2427 true; FREQ2FBIN 2447 true; FREQ2FBIN 2452 true];
     [FREQ2FBIN 2412 true; FREQ2FBIN 2417 true; FREQ2FBIN 2472 true; FREQ2FBIN 2484 true];
     [FREQ2FBIN 2412 true; FREQ2FBIN 2417 true; FREQ2FBIN 2472 true; 0];
     [FREQ2FBIN 2412 true; FREQ2FBIN 2417 true; FREQ2FBIN 2472 true; 0];
     [FREQ2FBIN 2422 true; FREQ2FBIN 2427 true; FREQ2FBIN 2447 true; FREQ2FBIN 2462 true];
     [FREQ2FBIN 2412 true; FREQ2FBIN 2417 true; FREQ2FBIN 2472 true; 0];
     [FREQ2FBIN 2412 true; FREQ2FBIN 2417 true; FREQ2FBIN 2472 true; 0];
     [FREQ2FBIN 2412 true; FREQ2FBIN 2417 true; FREQ2FBIN 2472 true; 0];
     [FREQ2FBIN 2422 true; FREQ2FBIN 2427 true; FREQ2FBIN 2447 true; FREQ2FBIN 2462 true]];
     ctlPowerData_2G := [[CTL 60 0; CTL 60 1; CTL 60 0; CTL 60 0];
     [CTL 60 0; CTL 60 1; CTL 60 0; CTL 60 0];
     [CTL 60 1; CTL 60 0; CTL 60 0; CTL 60 1];
     [CTL 60 1; CTL 60 0; CTL 60 0; CTL 60 0];
     [CTL 60 0; CTL 60 1; CTL 60 0; CTL 60 0];
     [CTL 60 0; CTL 60 1; CTL 60 0; CTL 60 0];
     [CTL 60 0; CTL 60 1; CTL 60 1; CTL 60 0];
     [CTL 60 0; CTL 60 1; CTL 60 0; CTL 60 0];
     [CTL 60 0; CTL 60 1; CTL 60 0; CTL 60 0];
     [CTL 60 0; CTL 60 1; CTL 60 0; CTL 60 0];
     [CTL 60 0; CTL 60 1; CTL 60 1; CTL 60 1];
     [CTL 60 0; CTL 60 1; CTL 60 1; CTL 60 1]];
     modalHeader5G := {| antCtrlCommon := 0x220; antCtrlCommon2 := 0x44444; antCtrlChain := [0x150; 0x150; 0x150]; xatten1DB := [0; 0; 0];
       xatten1Margin := [0; 0; 0]; tempSlope := 45; voltSlope := 0; spurChans := [0; 0; 0; 0; 0]; noiseFloorThreshCh := [(-1); 0; 0];
       reserved := [0; 0; 0; 0; 0; 0; 0; 0; 0; 0; 0]; quick_drop := 0; xpaBiasLvl := 0; txFrameToDataStart := 0x0e; txFrameToPaOn := 0x0e;
       txClip := 3; antennaGain := 0; switchSettling := 0x2d; adcDesiredSize := (-30); txEndToXpaOff := 0; txEndToRxOn := 0x2;
       txFrameToXpaOn := 0xe; thresh62 := 28; papdRateMaskHt20 := 0x0cf0e0e0; papdRateMaskHt40 := 0x6cf0e0e0; switchcomspdt := 0;
       xlna_bias_strength := 0; futureModal := [0; 0; 0; 0; 0; 0; 0] |};
     base_ext2 := {| tempSlopeLow := 40; tempSlopeHigh := 50; xatten1DBLow := [0; 0; 0]; xatten1MarginLow := [0; 0; 0]; xatten1DBHigh := [0; 0; 0];
       xatten1MarginHigh := [0; 0; 0] |};
     calFreqPier5G := [FREQ2FBIN 5180 false;
     FREQ2FBIN 5220 false;
     FREQ2FBIN 5320 false;
     FREQ2FBIN 5400 false;
     FREQ2FBIN 5500 false;
     FREQ2FBIN 5600 false;
     FREQ2FBIN 5700 false;
     FREQ2FBIN 5785 false];
     calPierData5G := [[cal_data 0 0 0 0 0 0;
       cal_data 0 0 0 0 0 0;
       cal_data 0 0 0 0 0 0;
       cal_data 0 0 0 0 0 0;
       cal_data 0 0 0 0 0 0;
       cal_data 0 0 0 0 0 0;
       cal_data 0 0 0 0 0 0;
       cal_data 0 0 0 0 0 0];
     [cal_data 0 0 0 0 0 0;
       cal_data 0 0 0 0 0 0;
       cal_data 0 0 0 0 0 0;
       cal_data 0 0 0 0 0 0;
       cal_data 0 0 0 0 0 0;
       cal_data 0 0 0 0 0 0;
       cal_data 0 0 0 0 0 0;
       cal_data 0 0 0 0 0 0];
     [cal_data 0 0 0 0 0 0;
       cal_data 0 0 0 0 0 0;
       cal_data 0 0 0 0 0 0;
       cal_data 0 0 0 0 0 0;
       cal_data 0 0 0 0 0 0;
       cal_data 0 0 0 0 0 0;
       cal_data 0 0 0 0 0 0;
       cal_data 0 0 0 0 0 0]];
     calTarget_freqbin_5G := [FREQ2FBIN 5180 false;
     FREQ2FBIN 5240 false;
     FREQ2FBIN 5320 false;
     FREQ2FBIN 5400 false;
     FREQ2FBIN 5500 false;
     FREQ2FBIN 5600 false;
     FREQ2FBIN 5700 false;
     FREQ2FBIN 5825 false];
     calTarget_freqbin_5GHT20 := [FREQ2FBIN 5180 false;
     FREQ2FBIN 5240 false;
     FREQ2FBIN 5320 false;
     FREQ2FBIN 5400 false;
     FREQ2FBIN 5500 false;
     FREQ2FBIN 5700 false;
     FREQ2FBIN 5745 false;
     FREQ2FBIN 5825 false];
     calTarget_freqbin_5GHT40 := [FREQ2FBIN 5180 false;
     FREQ2FBIN 5240 false;
     FREQ2FBIN 5320 false;
     FREQ2FBIN 5400 false;
     FREQ2FBIN 5500 false;
     FREQ2FBIN 5700 false;
     FREQ2FBIN 5745 false;
     FREQ2FBIN 5825 false];
     calTargetPower5G := [[30; 30; 28; 24];
     [30; 30; 28; 24];
     [30; 30; 28; 24];
     [30; 30; 28; 24];
     [30; 30; 28; 24];
     [30; 30; 28; 24];
     [30; 30; 28; 24];
     [30; 30; 28; 24]];
     calTargetPower5GHT20 := [[30; 30; 30; 28; 24; 20; 30; 28; 24; 20; 20; 20; 20; 16];
     [30; 30; 30; 28; 24; 20; 30; 28; 24; 20; 20; 20; 20; 16];
     [30; 30; 30; 26; 22; 18; 30; 26; 22; 18; 18; 18; 18; 16];
     [30; 30; 30; 26; 22; 18; 30; 26; 22; 18; 18; 18; 18; 16];
     [30; 30; 30; 24; 20; 16; 30; 24; 20; 16; 16; 16; 16; 14];
     [30; 30; 30; 24; 20; 16; 30; 24; 20; 16; 16; 16; 16; 14];
     [30; 30; 30; 22; 18; 14; 30; 22; 18; 14; 14; 14; 14; 12];
     [30; 30; 30; 22; 18; 14; 30; 22; 18; 14; 14; 14; 14; 12]];
     calTargetPower5GHT40 := [[28; 28; 28; 26; 22; 18; 28; 26; 22; 18; 18; 18; 18; 14];
     [28; 28; 28; 26; 22; 18; 28; 26; 22; 18; 18; 18; 18; 14];
     [28; 28; 28; 24; 20; 16; 28; 24; 20; 16; 16; 16; 16; 12];
     [28; 28; 28; 24; 20; 16; 28; 24; 20; 16; 16; 16; 16; 12];
     [28; 28; 28; 22; 18; 14; 28; 22; 18; 14; 14; 14; 14; 10];
     [28; 28; 28; 22; 18; 14; 28; 22; 18; 14; 14; 14; 14; 10];
     [28; 28; 28; 20; 16; 12; 28; 20; 16; 12; 12; 12; 12; 8];
     [28; 28; 28; 20; 16; 12; 28; 20; 16; 12; 12; 12; 12; 8]];
     ctlIndex_5G := [0x10; 0x16; 0x18; 0x40; 0x46; 0x48; 0x30; 0x36; 0x38];
     ctl_freqbin_5G := [[FREQ2FBIN 5180 false;
       FREQ2FBIN 5260 false;
       FREQ2FBIN 5280 false;
       FREQ2FBIN 5500 false;
       FREQ2FBIN 5600 false;
       FREQ2FBIN 5700 false;
       FREQ2FBIN 5745 false;
       FREQ2FBIN 5825 false];
     [FREQ2FBIN 5180 false;
       FREQ2FBIN 5260 false;
       FREQ2FBIN 5280 false;
       FREQ2FBIN 5500 false;
       FREQ2FBIN 5520 false;
       FREQ2FBIN 5700 false;
       FREQ2FBIN 5745 false;
       FREQ2FBIN 5825 false];
     [FREQ2FBIN 5190 false;
       FREQ2FBIN 5230 false;
       FREQ2FBIN 5270 false;
       FREQ2FBIN 5310 false;
       FREQ2FBIN 5510 false;
       FREQ2FBIN 5550 false;
       FREQ2FBIN 5670 false;
       FREQ2FBIN 5755 false];
     [FREQ2FBIN 5180 false;
       FREQ2FBIN 5200 false;
       FREQ2FBIN 5260 false;
       FREQ2FBIN 5320 false;
       FREQ2FBIN 5500 false;
       FREQ2FBIN 5700 false;
       0xFF;
       0xFF];
     [FREQ2FBIN 5180 false; FREQ2FBIN 5260 false; FREQ2FBIN 5500 false; FREQ2FBIN 5700 false; 0xFF; 0xFF; 0xFF; 0xFF];
     [FREQ2FBIN 5190 false;
       FREQ2FBIN 5270 false;
       FREQ2FBIN 5310 false;
       FREQ2FBIN 5510 false;
       FREQ2FBIN 5590 false;
       FREQ2FBIN 5670 false;
       0xFF;
       0xFF];
     [FREQ2FBIN 5180 false;
       FREQ2FBIN 5200 false;
       FREQ2FBIN 5220 false;
       FREQ2FBIN 5260 false;
       FREQ2FBIN 5500 false;
       FREQ2FBIN 5600 false;
       FREQ2FBIN 5700 false;
       FREQ2FBIN 5745 false];
     [FREQ2FBIN 5180 false;
       FREQ2FBIN 5260 false;
       FREQ2FBIN 5320 false;
       FREQ2FBIN 5500 false;
       FREQ2FBIN 5560 false;
       FREQ2FBIN 5700 false;
       FREQ2FBIN 5745 false;
       FREQ2FBIN 5825 false];
     [FREQ2FBIN 5190 false;
       FREQ2FBIN 5230 false;
       FREQ2FBIN 5270 false;
       FREQ2FBIN 5510 false;
       FREQ2FBIN 5550 false;
       FREQ2FBIN 5670 false;
       FREQ2FBIN 5755 false;
       FREQ2FBIN 5795 false]];
     ctlPowerData_5G := [[CTL 60 1; CTL 60 1; CTL 60 1; CTL 60 1; CTL 60 1; CTL 60 1; CTL 60 1; CTL 60 0];
     [CTL 60 1; CTL 60 1; CTL 60 1; CTL 60 1; CTL 60 1; CTL 60 1; CTL 60 1; CTL 60 0];
     [CTL 60 0; CTL 60 1; CTL 60 0; CTL 60 1; CTL 60 1; CTL 60 1; CTL 60 1; CTL 60 1];
     [CTL 60 0; CTL 60 1; CTL 60 1; CTL 60 0; CTL 60 1; CTL 60 0; CTL 60 0; CTL 60 0];
     [CTL 60 1; CTL 60 1; CTL 60 1; CTL 60 0; CTL 60 0; CTL 60 0; CTL 60 0; CTL 60 0];
     [CTL 60 1; CTL 60 1; CTL 60 1; CTL 60 1; CTL 60 1; CTL 60 0; CTL 60 0; CTL 60 0];
     [CTL 60 1; CTL 60 1; CTL 60 1; CTL 60 1; CTL 60 1; CTL 60 1; CTL 60 1; CTL 60 1];
     [CTL 60 1; CTL 60 1; CTL 60 0; CTL 60 1; CTL 60 1; CTL 60 1; CTL 60 1; CTL 60 0];
     [CTL 60 1; CTL 60 0; CTL 60 1; CTL 60 1; CTL 60 1; CTL 60 1; CTL 60 0; CTL 60 1]] |}.

Definition ar9300_x112 : ar9300_eeprom :=
  {| eepromVersion := 2; templateVersion := 5; macAddr := [0x00; 0x03; 0x7f; 0x0; 0x0; 0x0];
     custData := [120; 49; 49; 50; 45; 48; 52; 49; 45; 102; 48; 48; 48; 48; 0; 0; 0; 0; 0; 0];
     baseEepHeader := {| regDmn := [0; 0x1f]; txrxMask := 0x77; opFlags := AR5416_OPFLAGS_11G .| AR5416_OPFLAGS_11A; eepMisc := 0; rfSilent := 0;
       blueToothOptions := 0; deviceCap := 0; deviceType := 5; pwrTableOffset := AR9300_PWR_TABLE_OFFSET; params_for_tuning_caps := [0; 0];
       featureEnable := 0x0d; miscConfiguration := 0; eepromWriteEnableGpio := 6; wlanDisableGpio := 0; wlanLedGpio := 8; rxBandSelectGpio := 0xff;
       txrxgain := 0x0; swreg := 0 |};
     modalHeader2G := {| antCtrlCommon := 0x110; antCtrlCommon2 := 0x22222; antCtrlChain := [0x10; 0x10; 0x10]; xatten1DB := [0x1b; 0x1b; 0x1b];
       xatten1Margin := [0x15; 0x15; 0x15]; tempSlope := 50; voltSlope := 0; spurChans := [FREQ2FBIN 2464 true; 0; 0; 0; 0];
       noiseFloorThreshCh := [(-1); 0; 0]; reserved := [0; 0; 0; 0; 0; 0; 0; 0; 0; 0; 0]; quick_drop := 0; xpaBiasLvl := 0;
       txFrameToDataStart := 0x0e; txFrameToPaOn := 0x0e; txClip := 3; antennaGain := 0; switchSettling := 0x2c; adcDesiredSize := (-30);
       txEndToXpaOff := 0; txEndToRxOn := 0x2; txFrameToXpaOn := 0xe; thresh62 := 28; papdRateMaskHt20 := 0x0c80c080;
       papdRateMaskHt40 := 0x0080c080; switchcomspdt := 0; xlna_bias_strength := 0; futureModal := [0; 0; 0; 0; 0; 0; 0] |};
     base_ext1 := {| ant_div_control := 0; future := [0; 0]; misc_enable := 0; tempslopextension := [0; 0; 0; 0; 0; 0; 0; 0]; quick_drop_low := 0;
       quick_drop_high := 0 |};
     calFreqPier2G := [FREQ2FBIN 2412 true; FREQ2FBIN 2437 true; FREQ2FBIN 2472 true];
     calPierData2G := [[cal_data 0 0 0 0 0 0; cal_data 0 0 0 0 0 0; cal_data 0 0 0 0 0 0];
     [cal_data 0 0 0 0 0 0; cal_data 0 0 0 0 0 0; cal_data 0 0 0 0 0 0];
     [cal_data 0 0 0 0 0 0; cal_data 0 0 0 0 0 0; cal_data 0 0 0 0 0 0]];
     calTarget_freqbin_Cck := [FREQ2FBIN 2412 true; FREQ2FBIN 2472 true];
     calTarget_freqbin_2G := [FREQ2FBIN 2412 true; FREQ2FBIN 2437 true; FREQ2FBIN 2472 true];
     calTarget_freqbin_2GHT20 := [FREQ2FBIN 2412 true; FREQ2FBIN 2437 true; FREQ2FBIN 2472 true];
     calTarget_freqbin_2GHT40 := [FREQ2FBIN 2412 true; FREQ2FBIN 2437 true; FREQ2FBIN 2472 true];
     calTargetPowerCck := [[38; 38; 38; 38]; [38; 38; 38; 38]]; calTargetPower2G := [[38; 38; 36; 34]; [38; 38; 36; 34]; [38; 38; 34; 32]];
     calTargetPower2GHT20 := [[36; 36; 36; 36; 36; 34; 34; 32; 30; 28; 28; 28; 28; 26];
     [36; 36; 36; 36; 36; 34; 36; 34; 32; 30; 30; 30; 28; 26];
     [36; 36; 36; 36; 36; 34; 34; 32; 30; 28; 28; 28; 28; 26]];
     calTargetPower2GHT40 := [[36; 36; 36; 36; 34; 32; 32; 30; 28; 26; 26; 26; 26; 24];
     [36; 36; 36; 36; 34; 32; 34; 32; 30; 28; 28; 28; 28; 24];
     [36; 36; 36; 36; 34; 32; 32; 30; 28; 26; 26; 26; 26; 24]];
     ctlIndex_2G := [0x11; 0x12; 0x15; 0x17; 0x41; 0x42; 0x45; 0x47; 0x31; 0x32; 0x35; 0x37];
     ctl_freqbin_2G := [[FREQ2FBIN 2412 true; FREQ2FBIN 2417 true; FREQ2FBIN 2457 true; FREQ2FBIN 2462 true];
     [FREQ2FBIN 2412 true; FREQ2FBIN 2417 true; FREQ2FBIN 2462 true; 0xFF];
     [FREQ2FBIN 2412 true; FREQ2FBIN 2417 true; FREQ2FBIN 2462 true; 0xFF];
     [FREQ2FBIN 2422 true; FREQ2FBIN 2427 true; FREQ2FBIN 2447 true; FREQ2FBIN 2452 true];
     [FREQ2FBIN 2412 true; FREQ2FBIN 2417 true; FREQ2FBIN 2472 true; FREQ2FBIN 2484 true];
     [FREQ2FBIN 2412 true; FREQ2FBIN 2417 true; FREQ2FBIN 2472 true; 0];
     [FREQ2FBIN 2412 true; FREQ2FBIN 2417 true; FREQ2FBIN 2472 true; 0];
     [FREQ2FBIN 2422 true; FREQ2FBIN 2427 true; FREQ2FBIN 2447 true; FREQ2FBIN 2462 true];
     [FREQ2FBIN 2412 true; FREQ2FBIN 2417 true; FREQ2FBIN 2472 true; 0];
     [FREQ2FBIN 2412 true; FREQ2FBIN 2417 true; FREQ2FBIN 2472 true; 0];
     [FREQ2FBIN 2412 true; FREQ2FBIN 2417 true; FREQ2FBIN 2472 true; 0];
     [FREQ2FBIN 2422 true; FREQ2FBIN 2427 true; FREQ2FBIN 2447 true; FREQ2FBIN 2462 true]];
     ctlPowerData_2G := [[CTL 60 0; CTL 60 1; CTL 60 0; CTL 60 0];
     [CTL 60 0; CTL 60 1; CTL 60 0; CTL 60 0];
     [CTL 60 1; CTL 60 0; CTL 60 0; CTL 60 1];
     [CTL 60 1; CTL 60 0; CTL 60 0; CTL 60 0];
     [CTL 60 0; CTL 60 1; CTL 60 0; CTL 60 0];
     [CTL 60 0; CTL 60 1; CTL 60 0; CTL 60 0];
     [CTL 60 0; CTL 60 1; CTL 60 1; CTL 60 0];
     [CTL 60 0; CTL 60 1; CTL 60 0; CTL 60 0];
     [CTL 60 0; CTL 60 1; CTL 60 0; CTL 60 0];
     [CTL 60 0; CTL 60 1; CTL 60 0; CTL 60 0];
     [CTL 60 0; CTL 60 1; CTL 60 1; CTL 60 1];
     [CTL 60 0; CTL 60 1; CTL 60 1; CTL 60 1]];
     modalHeader5G := {| antCtrlCommon := 0x110; antCtrlCommon2 := 0x22222; antCtrlChain := [0x0; 0x0; 0x0]; xatten1DB := [0x13; 0x19; 0x17];
       xatten1Margin := [0x19; 0x19; 0x19]; tempSlope := 70; voltSlope := 15; spurChans := [0; 0; 0; 0; 0]; noiseFloorThreshCh := [(-1); 0; 0];
       reserved := [0; 0; 0; 0; 0; 0; 0; 0; 0; 0; 0]; quick_drop := 0; xpaBiasLvl := 0; txFrameToDataStart := 0x0e; txFrameToPaOn := 0x0e;
       txClip := 3; antennaGain := 0; switchSettling := 0x2d; adcDesiredSize := (-30); txEndToXpaOff := 0; txEndToRxOn := 0x2;
       txFrameToXpaOn := 0xe; thresh62 := 28; papdRateMaskHt20 := 0x0cf0e0e0; papdRateMaskHt40 := 0x6cf0e0e0; switchcomspdt := 0;
       xlna_bias_strength := 0; futureModal := [0; 0; 0; 0; 0; 0; 0] |};
     base_ext2 := {| tempSlopeLow := 72; tempSlopeHigh := 105; xatten1DBLow := [0x10; 0x14; 0x10]; xatten1MarginLow := [0x19; 0x19; 0x19];
       xatten1DBHigh := [0x1d; 0x20; 0x24]; xatten1MarginHigh := [0x10; 0x10; 0x10] |};
     calFreqPier5G := [FREQ2FBIN 5180 false;
     FREQ2FBIN 5220 false;
     FREQ2FBIN 5320 false;
     FREQ2FBIN 5400 false;
     FREQ2FBIN 5500 false;
     FREQ2FBIN 5600 false;
     FREQ2FBIN 5700 false;
     FREQ2FBIN 5785 false];
     calPierData5G := [[cal_data 0 0 0 0 0 0;
       cal_data 0 0 0 0 0 0;
       cal_data 0 0 0 0 0 0;
       cal_data 0 0 0 0 0 0;
       cal_data 0 0 0 0 0 0;
       cal_data 0 0 0 0 0 0;
       cal_data 0 0 0 0 0 0;
       cal_data 0 0 0 0 0 0];
     [cal_data 0 0 0 0 0 0;
       cal_data 0 0 0 0 0 0;
       cal_data 0 0 0 0 0 0;
       cal_data 0 0 0 0 0 0;
       cal_data 0 0 0 0 0 0;
       cal_data 0 0 0 0 0 0;
       cal_data 0 0 0 0 0 0;
       cal_data 0 0 0 0 0 0];
     [cal_data 0 0 0 0 0 0;
       cal_data 0 0 0 0 0 0;
       cal_data 0 0 0 0 0 0;
       cal_data 0 0 0 0 0 0;
       cal_data 0 0 0 0 0 0;
       cal_data 0 0 0 0 0 0;
       cal_data 0 0 0 0 0 0;
       cal_data 0 0 0 0 0 0]];
     calTarget_freqbin_5G := [FREQ2FBIN 5180 false;
     FREQ2FBIN 5220 false;
     FREQ2FBIN 5320 false;
     FREQ2FBIN 5400 false;
     FREQ2FBIN 5500 false;
     FREQ2FBIN 5600 false;
     FREQ2FBIN 5725 false;
     FREQ2FBIN 5825 false];
     calTarget_freqbin_5GHT20 := [FREQ2FBIN 5180 false;
     FREQ2FBIN 5220 false;
     FREQ2FBIN 5320 false;
     FREQ2FBIN 5400 false;
     FREQ2FBIN 5500 false;
     FREQ2FBIN 5600 false;
     FREQ2FBIN 5725 false;
     FREQ2FBIN 5825 false];
     calTarget_freqbin_5GHT40 := [FREQ2FBIN 5180 false;
     FREQ2FBIN 5220 false;
     FREQ2FBIN 5320 false;
     FREQ2FBIN 5400 false;
     FREQ2FBIN 5500 false;
     FREQ2FBIN 5600 false;
     FREQ2FBIN 5725 false;
     FREQ2FBIN 5825 false];
     calTargetPower5G := [[32; 32; 28; 26];
     [32; 32; 28; 26];
     [32; 32; 28; 26];
     [32; 32; 26; 24];
     [32; 32; 26; 24];
     [32; 32; 24; 22];
     [30; 30; 24; 22];
     [30; 30; 24; 22]];
     calTargetPower5GHT20 := [[32; 32; 32; 32; 28; 26; 32; 28; 26; 24; 24; 24; 22; 22];
     [32; 32; 32; 32; 28; 26; 32; 28; 26; 24; 24; 24; 22; 22];
     [32; 32; 32; 32; 28; 26; 32; 28; 26; 24; 24; 24; 22; 22];
     [32; 32; 32; 32; 28; 26; 32; 26; 24; 22; 22; 22; 20; 20];
     [32; 32; 32; 32; 28; 26; 32; 26; 24; 22; 20; 18; 16; 16];
     [32; 32; 32; 32; 28; 26; 32; 24; 20; 16; 18; 16; 14; 14];
     [30; 30; 30; 30; 28; 26; 30; 24; 20; 16; 18; 16; 14; 14];
     [30; 30; 30; 30; 28; 26; 30; 24; 20; 16; 18; 16; 14; 14]];
     calTargetPower5GHT40 := [[32; 32; 32; 30; 28; 26; 30; 28; 26; 24; 24; 24; 22; 22];
     [32; 32; 32; 30; 28; 26; 30; 28; 26; 24; 24; 24; 22; 22];
     [32; 32; 32; 30; 28; 26; 30; 28; 26; 24; 24; 24; 22; 22];
     [32; 32; 32; 30; 28; 26; 30; 26; 24; 22; 22; 22; 20; 20];
     [32; 32; 32; 30; 28; 26; 30; 26; 24; 22; 20; 18; 16; 16];
     [32; 32; 32; 30; 28; 26; 30; 22; 20; 16; 18; 16; 14; 14];
     [30; 30; 30; 30; 28; 26; 30; 22; 20; 16; 18; 16; 14; 14];
     [30; 30; 30; 30; 28; 26; 30; 22; 20; 16; 18; 16; 14; 14]];
     ctlIndex_5G := [0x10; 0x16; 0x18; 0x40; 0x46; 0x48; 0x30; 0x36; 0x38];
     ctl_freqbin_5G := [[FREQ2FBIN 5180 false;
       FREQ2FBIN 5260 false;
       FREQ2FBIN 5280 false;
       FREQ2FBIN 5500 false;
       FREQ2FBIN 5600 false;
       FREQ2FBIN 5700 false;
       FREQ2FBIN 5745 false;
       FREQ2FBIN 5825 false];
     [FREQ2FBIN 5180 false;
       FREQ2FBIN 5260 false;
       FREQ2FBIN 5280 false;
       FREQ2FBIN 5500 false;
       FREQ2FBIN 5520 false;
       FREQ2FBIN 5700 false;
       FREQ2FBIN 5745 false;
       FREQ2FBIN 5825 false];
     [FREQ2FBIN 5190 false;
       FREQ2FBIN 5230 false;
       FREQ2FBIN 5270 false;
       FREQ2FBIN 5310 false;
       FREQ2FBIN 5510 false;
       FREQ2FBIN 5550 false;
       FREQ2FBIN 5670 false;
       FREQ2FBIN 5755 false];
     [FREQ2FBIN 5180 false;
       FREQ2FBIN 5200 false;
       FREQ2FBIN 5260 false;
       FREQ2FBIN 5320 false;
       FREQ2FBIN 5500 false;
       FREQ2FBIN 5700 false;
       0xFF;
       0xFF];
     [FREQ2FBIN 5180 false; FREQ2FBIN 5260 false; FREQ2FBIN 5500 false; FREQ2FBIN 5700 false; 0xFF; 0xFF; 0xFF; 0xFF];
     [FREQ2FBIN 5190 false;
       FREQ2FBIN 5270 false;
       FREQ2FBIN 5310 false;
       FREQ2FBIN 5510 false;
       FREQ2FBIN 5590 false;
       FREQ2FBIN 5670 false;
       0xFF;
       0xFF];
     [FREQ2FBIN 5180 false;
       FREQ2FBIN 5200 false;
       FREQ2FBIN 5220 false;
       FREQ2FBIN 5260 false;
       FREQ2FBIN 5500 false;
       FREQ2FBIN 5600 false;
       FREQ2FBIN 5700 false;
       FREQ2FBIN 5745 false];
     [FREQ2FBIN 5180 false;
       FREQ2FBIN 5260 false;
       FREQ2FBIN 5320 false;
       FREQ2FBIN 5500 false;
       FREQ2FBIN 5560 false;
       FREQ2FBIN 5700 false;
       FREQ2FBIN 5745 false;
       FREQ2FBIN 5825 false];
     [FREQ2FBIN 5190 false;
       FREQ2FBIN 5230 false;
       FREQ2FBIN 5270 false;
       FREQ2FBIN 5510 false;
       FREQ2FBIN 5550 false;
       FREQ2FBIN 5670 false;
       FREQ2FBIN 5755 false;
       FREQ2FBIN 5795 false]];
     ctlPowerData_5G := [[CTL 60 1; CTL 60 1; CTL 60 1; CTL 60 1; CTL 60 1; CTL 60 1; CTL 60 1; CTL 60 0];
     [CTL 60 1; CTL 60 1; CTL 60 1; CTL 60 1; CTL 60 1; CTL 60 1; CTL 60 1; CTL 60 0];
     [CTL 60 0; CTL 60 1; CTL 60 0; CTL 60 1; CTL 60 1; CTL 60 1; CTL 60 1; CTL 60 1];
     [CTL 60 0; CTL 60 1; CTL 60 1; CTL 60 0; CTL 60 1; CTL 60 0; CTL 60 0; CTL 60 0];
     [CTL 60 1; CTL 60 1; CTL 60 1; CTL 60 0; CTL 60 0; CTL 60 0; CTL 60 0; CTL 60 0];
     [CTL 60 1; CTL 60 1; CTL 60 1; CTL 60 1; CTL 60 1; CTL 60 0; CTL 60 0; CTL 60 0];
     [CTL 60 1; CTL 60 1; CTL 60 1; CTL 60 1; CTL 60 1; CTL 60 1; CTL 60 1; CTL 60 1];
     [CTL 60 1; CTL 60 1; CTL 60 0; CTL 60 1; CTL 60 1; CTL 60 1; CTL 60 1; CTL 60 0];
     [CTL 60 1; CTL 60 0; CTL 60 1; CTL 60 1; CTL 60 1; CTL 60 1; CTL 60 0; CTL 60 1]] |}.

Definition ar9300_h116 : ar9300_eeprom :=
  {| eepromVersion := 2; templateVersion := 4; macAddr := [0x00; 0x03; 0x7f; 0x0; 0x0; 0x0];
     custData := [104; 49; 49; 54; 45; 48; 52; 49; 45; 102; 48; 48; 48; 48; 0; 0; 0; 0; 0; 0];
     baseEepHeader := {| regDmn := [0; 0x1f]; txrxMask := 0x33; opFlags := AR5416_OPFLAGS_11G .| AR5416_OPFLAGS_11A; eepMisc := 0; rfSilent := 0;
       blueToothOptions := 0; deviceCap := 0; deviceType := 5; pwrTableOffset := AR9300_PWR_TABLE_OFFSET; params_for_tuning_caps := [0; 0];
       featureEnable := 0x0d; miscConfiguration := 0; eepromWriteEnableGpio := 6; wlanDisableGpio := 0; wlanLedGpio := 8; rxBandSelectGpio := 0xff;
       txrxgain := 0x10; swreg := 0 |};
     modalHeader2G := {| antCtrlCommon := 0x110; antCtrlCommon2 := 0x44444; antCtrlChain := [0x10; 0x10; 0x10]; xatten1DB := [0x1f; 0x1f; 0x1f];
       xatten1Margin := [0x12; 0x12; 0x12]; tempSlope := 25; voltSlope := 0; spurChans := [FREQ2FBIN 2464 true; 0; 0; 0; 0];
       noiseFloorThreshCh := [(-1); 0; 0]; reserved := [0; 0; 0; 0; 0; 0; 0; 0; 0; 0; 0]; quick_drop := 0; xpaBiasLvl := 0;
       txFrameToDataStart := 0x0e; txFrameToPaOn := 0x0e; txClip := 3; antennaGain := 0; switchSettling := 0x2c; adcDesiredSize := (-30);
       txEndToXpaOff := 0; txEndToRxOn := 0x2; txFrameToXpaOn := 0xe; thresh62 := 28; papdRateMaskHt20 := 0x0c80C080;
       papdRateMaskHt40 := 0x0080C080; switchcomspdt := 0; xlna_bias_strength := 0; futureModal := [0; 0; 0; 0; 0; 0; 0] |};
     base_ext1 := {| ant_div_control := 0; future := [0; 0]; misc_enable := 0; tempslopextension := [0; 0; 0; 0; 0; 0; 0; 0]; quick_drop_low := 0;
       quick_drop_high := 0 |};
     calFreqPier2G := [FREQ2FBIN 2412 true; FREQ2FBIN 2437 true; FREQ2FBIN 2462 true];
     calPierData2G := [[cal_data 0 0 0 0 0 0; cal_data 0 0 0 0 0 0; cal_data 0 0 0 0 0 0];
     [cal_data 0 0 0 0 0 0; cal_data 0 0 0 0 0 0; cal_data 0 0 0 0 0 0];
     [cal_data 0 0 0 0 0 0; cal_data 0 0 0 0 0 0; cal_data 0 0 0 0 0 0]];
     calTarget_freqbin_Cck := [FREQ2FBIN 2412 true; FREQ2FBIN 2472 true];
     calTarget_freqbin_2G := [FREQ2FBIN 2412 true; FREQ2FBIN 2437 true; FREQ2FBIN 2472 true];
     calTarget_freqbin_2GHT20 := [FREQ2FBIN 2412 true; FREQ2FBIN 2437 true; FREQ2FBIN 2472 true];
     calTarget_freqbin_2GHT40 := [FREQ2FBIN 2412 true; FREQ2FBIN 2437 true; FREQ2FBIN 2472 true];
     calTargetPowerCck := [[34; 34; 34; 34]; [34; 34; 34; 34]]; calTargetPower2G := [[34; 34; 32; 32]; [34; 34; 32; 32]; [34; 34; 32; 32]];
     calTargetPower2GHT20 := [[32; 32; 32; 32; 32; 30; 32; 32; 30; 28; 0; 0; 0; 0];
     [32; 32; 32; 32; 32; 30; 32; 32; 30; 28; 0; 0; 0; 0];
     [32; 32; 32; 32; 32; 30; 32; 32; 30; 28; 0; 0; 0; 0]];
     calTargetPower2GHT40 := [[30; 30; 30; 30; 30; 28; 30; 30; 28; 26; 0; 0; 0; 0];
     [30; 30; 30; 30; 30; 28; 30; 30; 28; 26; 0; 0; 0; 0];
     [30; 30; 30; 30; 30; 28; 30; 30; 28; 26; 0; 0; 0; 0]];
     ctlIndex_2G := [0x11; 0x12; 0x15; 0x17; 0x41; 0x42; 0x45; 0x47; 0x31; 0x32; 0x35; 0x37];
     ctl_freqbin_2G := [[FREQ2FBIN 2412 true; FREQ2FBIN 2417 true; FREQ2FBIN 2457 true; FREQ2FBIN 2462 true];
     [FREQ2FBIN 2412 true; FREQ2FBIN 2417 true; FREQ2FBIN 2462 true; 0xFF];
     [FREQ2FBIN 2412 true; FREQ2FBIN 2417 true; FREQ2FBIN 2462 true; 0xFF];
     [FREQ2FBIN 2422 true; FREQ2FBIN 2427 true; FREQ2FBIN 2447 true; FREQ2FBIN 2452 true];
     [FREQ2FBIN 2412 true; FREQ2FBIN 2417 true; FREQ2FBIN 2472 true; FREQ2FBIN 2484 true];
     [FREQ2FBIN 2412 true; FREQ2FBIN 2417 true; FREQ2FBIN 2472 true; 0];
     [FREQ2FBIN 2412 true; FREQ2FBIN 2417 true; FREQ2FBIN 2472 true; 0];
     [FREQ2FBIN 2422 true; FREQ2FBIN 2427 true; FREQ2FBIN 2447 true; FREQ2FBIN 2462 true];
     [FREQ2FBIN 2412 true; FREQ2FBIN 2417 true; FREQ2FBIN 2472 true; 0];
     [FREQ2FBIN 2412 true; FREQ2FBIN 2417 true; FREQ2FBIN 2472 true; 0];
     [FREQ2FBIN 2412 true; FREQ2FBIN 2417 true; FREQ2FBIN 2472 true; 0];
     [FREQ2FBIN 2422 true; FREQ2FBIN 2427 true; FREQ2FBIN 2447 true; FREQ2FBIN 2462 true]];
     ctlPowerData_2G := [[CTL 60 0; CTL 60 1; CTL 60 0; CTL 60 0];
     [CTL 60 0; CTL 60 1; CTL 60 0; CTL 60 0];
     [CTL 60 1; CTL 60 0; CTL 60 0; CTL 60 1];
     [CTL 60 1; CTL 60 0; CTL 60 0; CTL 60 0];
     [CTL 60 0; CTL 60 1; CTL 60 0; CTL 60 0];
     [CTL 60 0; CTL 60 1; CTL 60 0; CTL 60 0];
     [CTL 60 0; CTL 60 1; CTL 60 1; CTL 60 0];
     [CTL 60 0; CTL 60 1; CTL 60 0; CTL 60 0];
     [CTL 60 0; CTL 60 1; CTL 60 0; CTL 60 0];
     [CTL 60 0; CTL 60 1; CTL 60 0; CTL 60 0];
     [CTL 60 0; CTL 60 1; CTL 60 1; CTL 60 1];
     [CTL 60 0; CTL 60 1; CTL 60 1; CTL 60 1]];
     modalHeader5G := {| antCtrlCommon := 0x220; antCtrlCommon2 := 0x44444; antCtrlChain := [0x150; 0x150; 0x150]; xatten1DB := [0x19; 0x19; 0x19];
       xatten1Margin := [0x14; 0x14; 0x14]; tempSlope := 70; voltSlope := 0; spurChans := [0; 0; 0; 0; 0]; noiseFloorThreshCh := [(-1); 0; 0];
       reserved := [0; 0; 0; 0; 0; 0; 0; 0; 0; 0; 0]; quick_drop := 0; xpaBiasLvl := 0; txFrameToDataStart := 0x0e; txFrameToPaOn := 0x0e;
       txClip := 3; antennaGain := 0; switchSettling := 0x2d; adcDesiredSize := (-30); txEndToXpaOff := 0; txEndToRxOn := 0x2;
       txFrameToXpaOn := 0xe; thresh62 := 28; papdRateMaskHt20 := 0x0cf0e0e0; papdRateMaskHt40 := 0x6cf0e0e0; switchcomspdt := 0;
       xlna_bias_strength := 0; futureModal := [0; 0; 0; 0; 0; 0; 0] |};
     base_ext2 := {| tempSlopeLow := 35; tempSlopeHigh := 50; xatten1DBLow := [0; 0; 0]; xatten1MarginLow := [0; 0; 0]; xatten1DBHigh := [0; 0; 0];
       xatten1MarginHigh := [0; 0; 0] |};
     calFreqPier5G := [FREQ2FBIN 5160 false;
     FREQ2FBIN 5220 false;
     FREQ2FBIN 5320 false;
     FREQ2FBIN 5400 false;
     FREQ2FBIN 5500 false;
     FREQ2FBIN 5600 false;
     FREQ2FBIN 5700 false;
     FREQ2FBIN 5785 false];
     calPierData5G := [[cal_data 0 0 0 0 0 0;
       cal_data 0 0 0 0 0 0;
       cal_data 0 0 0 0 0 0;
       cal_data 0 0 0 0 0 0;
       cal_data 0 0 0 0 0 0;
       cal_data 0 0 0 0 0 0;
       cal_data 0 0 0 0 0 0;
       cal_data 0 0 0 0 0 0];
     [cal_data 0 0 0 0 0 0;
       cal_data 0 0 0 0 0 0;
       cal_data 0 0 0 0 0 0;
       cal_data 0 0 0 0 0 0;
       cal_data 0 0 0 0 0 0;
       cal_data 0 0 0 0 0 0;
       cal_data 0 0 0 0 0 0;
       cal_data 0 0 0 0 0 0];
     [cal_data 0 0 0 0 0 0;
       cal_data 0 0 0 0 0 0;
       cal_data 0 0 0 0 0 0;
       cal_data 0 0 0 0 0 0;
       cal_data 0 0 0 0 0 0;
       cal_data 0 0 0 0 0 0;
       cal_data 0 0 0 0 0 0;
       cal_data 0 0 0 0 0 0]];
     calTarget_freqbin_5G := [FREQ2FBIN 5180 false;
     FREQ2FBIN 5240 false;
     FREQ2FBIN 5320 false;
     FREQ2FBIN 5400 false;
     FREQ2FBIN 5500 false;
     FREQ2FBIN 5600 false;
     FREQ2FBIN 5700 false;
     FREQ2FBIN 5825 false];
     calTarget_freqbin_5GHT20 := [FREQ2FBIN 5180 false;
     FREQ2FBIN 5240 false;
     FREQ2FBIN 5320 false;
     FREQ2FBIN 5400 false;
     FREQ2FBIN 5500 false;
     FREQ2FBIN 5700 false;
     FREQ2FBIN 5745 false;
     FREQ2FBIN 5825 false];
     calTarget_freqbin_5GHT40 := [FREQ2FBIN 5180 false;
     FREQ2FBIN 5240 false;
     FREQ2FBIN 5320 false;
     FREQ2FBIN 5400 false;
     FREQ2FBIN 5500 false;
     FREQ2FBIN 5700 false;
     FREQ2FBIN 5745 false;
     FREQ2FBIN 5825 false];
     calTargetPower5G := [[30; 30; 28; 24];
     [30; 30; 28; 24];
     [30; 30; 28; 24];
     [30; 30; 28; 24];
     [30; 30; 28; 24];
     [30; 30; 28; 24];
     [30; 30; 28; 24];
     [30; 30; 28; 24]];
     calTargetPower5GHT20 := [[30; 30; 30; 28; 24; 20; 30; 28; 24; 20; 0; 0; 0; 0];
     [30; 30; 30; 28; 24; 20; 30; 28; 24; 20; 0; 0; 0; 0];
     [30; 30; 30; 26; 22; 18; 30; 26; 22; 18; 0; 0; 0; 0];
     [30; 30; 30; 26; 22; 18; 30; 26; 22; 18; 0; 0; 0; 0];
     [30; 30; 30; 24; 20; 16; 30; 24; 20; 16; 0; 0; 0; 0];
     [30; 30; 30; 24; 20; 16; 30; 24; 20; 16; 0; 0; 0; 0];
     [30; 30; 30; 22; 18; 14; 30; 22; 18; 14; 0; 0; 0; 0];
     [30; 30; 30; 22; 18; 14; 30; 22; 18; 14; 0; 0; 0; 0]];
     calTargetPower5GHT40 := [[28; 28; 28; 26; 22; 18; 28; 26; 22; 18; 0; 0; 0; 0];
     [28; 28; 28; 26; 22; 18; 28; 26; 22; 18; 0; 0; 0; 0];
     [28; 28; 28; 24; 20; 16; 28; 24; 20; 16; 0; 0; 0; 0];
     [28; 28; 28; 24; 20; 16; 28; 24; 20; 16; 0; 0; 0; 0];
     [28; 28; 28; 22; 18; 14; 28; 22; 18; 14; 0; 0; 0; 0];
     [28; 28; 28; 22; 18; 14; 28; 22; 18; 14; 0; 0; 0; 0];
     [28; 28; 28; 20; 16; 12; 28; 20; 16; 12; 0; 0; 0; 0];
     [28; 28; 28; 20; 16; 12; 28; 20; 16; 12; 0; 0; 0; 0]];
     ctlIndex_5G := [0x10; 0x16; 0x18; 0x40; 0x46; 0x48; 0x30; 0x36; 0x38];
     ctl_freqbin_5G := [[FREQ2FBIN 5180 false;
       FREQ2FBIN 5260 false;
       FREQ2FBIN 5280 false;
       FREQ2FBIN 5500 false;
       FREQ2FBIN 5600 false;
       FREQ2FBIN 5700 false;
       FREQ2FBIN 5745 false;
       FREQ2FBIN 5825 false];
     [FREQ2FBIN 5180 false;
       FREQ2FBIN 5260 false;
       FREQ2FBIN 5280 false;
       FREQ2FBIN 5500 false;
       FREQ2FBIN 5520 false;
       FREQ2FBIN 5700 false;
       FREQ2FBIN 5745 false;
       FREQ2FBIN 5825 false];
     [FREQ2FBIN 5190 false;
       FREQ2FBIN 5230 false;
       FREQ2FBIN 5270 false;
       FREQ2FBIN 5310 false;
       FREQ2FBIN 5510 false;
       FREQ2FBIN 5550 false;
       FREQ2FBIN 5670 false;
       FREQ2FBIN 5755 false];
     [FREQ2FBIN 5180 false;
       FREQ2FBIN 5200 false;
       FREQ2FBIN 5260 false;
       FREQ2FBIN 5320 false;
       FREQ2FBIN 5500 false;
       FREQ2FBIN 5700 false;
       0xFF;
       0xFF];
     [FREQ2FBIN 5180 false; FREQ2FBIN 5260 false; FREQ2FBIN 5500 false; FREQ2FBIN 5700 false; 0xFF; 0xFF; 0xFF; 0xFF];
     [FREQ2FBIN 5190 false;
       FREQ2FBIN 5270 false;
       FREQ2FBIN 5310 false;
       FREQ2FBIN 5510 false;
       FREQ2FBIN 5590 false;
       FREQ2FBIN 5670 false;
       0xFF;
       0xFF];
     [FREQ2FBIN 5180 false;
       FREQ2FBIN 5200 false;
       FREQ2FBIN 5220 false;
       FREQ2FBIN 5260 false;
       FREQ2FBIN 5500 false;
       FREQ2FBIN 5600 false;
       FREQ2FBIN 5700 false;
       FREQ2FBIN 5745 false];
     [FREQ2FBIN 5180 false;
       FREQ2FBIN 5260 false;
       FREQ2FBIN 5320 false;
       FREQ2FBIN 5500 false;
       FREQ2FBIN 5560 false;
       FREQ2FBIN 5700 false;
       FREQ2FBIN 5745 false;
       FREQ2FBIN 5825 false];
     [FREQ2FBIN 5190 false;
       FREQ2FBIN 5230 false;
       FREQ2FBIN 5270 false;
       FREQ2FBIN 5510 false;
       FREQ2FBIN 5550 false;
       FREQ2FBIN 5670 false;
       FREQ2FBIN 5755 false;
       FREQ2FBIN 5795 false]];
     ctlPowerData_5G := [[CTL 60 1; CTL 60 1; CTL 60 1; CTL 60 1; CTL 60 1; CTL 60 1; CTL 60 1; CTL 60 0];
     [CTL 60 1; CTL 60 1; CTL 60 1; CTL 60 1; CTL 60 1; CTL 60 1; CTL 60 1; CTL 60 0];
     [CTL 60 0; CTL 60 1; CTL 60 0; CTL 60 1; CTL 60 1; CTL 60 1; CTL 60 1; CTL 60 1];
     [CTL 60 0; CTL 60 1; CTL 60 1; CTL 60 0; CTL 60 1; CTL 60 0; CTL 60 0; CTL 60 0];
     [CTL 60 1; CTL 60 1; CTL 60 1; CTL 60 0; CTL 60 0; CTL 60 0; CTL 60 0; CTL 60 0];
     [CTL 60 1; CTL 60 1; CTL 60 1; CTL 60 1; CTL 60 1; CTL 60 0; CTL 60 0; CTL 60 0];
     [CTL 60 1; CTL 60 1; CTL 60 1; CTL 60 1; CTL 60 1; CTL 60 1; CTL 60 1; CTL 60 1];
     [CTL 60 1; CTL 60 1; CTL 60 0; CTL 60 1; CTL 60 1; CTL 60 1; CTL 60 1; CTL 60 0];
     [CTL 60 1; CTL 60 0; CTL 60 1; CTL 60 1; CTL 60 1; CTL 60 1; CTL 60 0; CTL 60 1]] |}.

Definition ar9300_eep_templates : list ar9300_eeprom := [ar9300_default; ar9300_x112; ar9300_h116; ar9300_h112; ar9300_x113].

(** The first template with the number [id]. *)
Definition ar9003_eeprom_struct_find_by_id (id : Z) : option ar9300_eeprom :=
  head (filter (fun t => templateVersion t = id) ar9300_eep_templates).

