(* ===== verification/Eeprom.v ===== *)
(** Reading and restoring the calibration data of the AR9300 chips (src/real/
    ath/ath9k/ar9003_eeprom.c, with the access to the EEPROM from eeprom.c, pci.c
    and ahb.c).

    The data is a chain of blocks that grows towards lower addresses, in an EEPROM
    or in one-time programmable memory. Each block patches the structure that the
    previous ones left, or a template. The model keeps the bytes of the structure
    and of the buffer; an access outside a buffer and a shift by a negative amount
    are [Oops]. *)

From S2P Require Import Prelude KeyCache EepLayout EepTemplates.

Definition AR9300_EEPROM_SIZE : Z := 16 * 1024.
Definition AR9300_BASE_ADDR_4K : Z := 0xfff.
Definition AR9300_BASE_ADDR : Z := 0x3ff.
Definition AR9300_BASE_ADDR_512 : Z := 0x1ff.
Definition COMP_HDR_LEN : Z := 4.
Definition COMP_CKSUM_LEN : Z := 2.
Definition EEPROM_DATA_LEN_9485 : Z := 1088.
Definition MSTATE : nat := 100.
Definition _CompressNone : Z := 0.
Definition _CompressBlock : Z := 3.
Definition ENOMEM : Z := 12.

(** * Words *)

(** Where the words of the EEPROM come from: a firmware blob of [size] bytes;
    the platform data of a PCI device; the EEPROM of a PCI card, whose reads may
    time out; the platform data of a device on the AHB bus. *)
Inductive nvram_src :=
  | Blob (blob_data : list Z) (size : Z)
  | PciData (eeprom_data : list Z)
  | PciCard (card_read : Z -> option Z)
  | AhbData (eeprom_data : list Z).

Definition word_at (l : list Z) (off : Z) : outcome (option Z) :=
  match l !! Z.to_nat off with Some w => Ok (Some w) | None => Oops end.

(** [off] is a [u32]; [size_t] has 32 bits on the platform (ARM). *)
Definition ath9k_hw_nvram_read_blob (data : list Z) (size off : Z) : outcome (option Z) :=
  if size <? u32 (off * 2) then Ok None else word_at data off.
Definition ath_pci_eeprom_read (data : list Z) (off : Z) : outcome (option Z) := word_at data off.
Definition ath_ahb_eeprom_read (data : list Z) (off : Z) : outcome (option Z) :=
  if Z.of_nat (length data) <=? off then Ok None else word_at data off.
Definition ath9k_hw_nvram_read (src : nvram_src) (off : Z) : outcome (option Z) :=
  let off := u32 off in
  match src with
  | Blob data size => ath9k_hw_nvram_read_blob data size off
  | PciData data => ath_pci_eeprom_read data off
  | PciCard card_read => Ok (card_read off)
  | AhbData data => ath_ahb_eeprom_read data off
  end.

(** * Bytes *)

(** [buffer[pos ..] = bs]. *)
Definition put (bs : list Z) (pos : nat) (buffer : list Z) : outcome (list Z) :=
  if (pos + length bs <=? length buffer)%nat then Ok (take pos buffer ++ bs ++ drop (pos + length bs) buffer) else Oops.

(** [v >> (8 * k)], for [k] of a C remainder. *)
Definition byte_of (v k : Z) : outcome Z := if k <? 0 then Oops else Ok ((v .>> (8 * k)) .& 0xff).

Definition ar9300_eeprom_read_byte (src : nvram_src) (address : Z) (pos : nat) (buffer : list Z) : outcome (bool * list Z) :=
  obind (ath9k_hw_nvram_read src (cdiv address 2)) (fun r =>
  match r with
  | None => Ok (false, buffer)
  | Some val => obind (byte_of val (crem address 2)) (fun b => obind (put [b] pos buffer) (fun buffer => Ok (true, buffer)))
  end).

Definition ar9300_eeprom_read_word (src : nvram_src) (address : Z) (pos : nat) (buffer : list Z) : outcome (bool * list Z) :=
  obind (ath9k_hw_nvram_read src (cdiv address 2)) (fun r =>
  match r with
  | None => Ok (false, buffer)
  | Some val => obind (put [val .>> 8; val .& 0xff] pos buffer) (fun buffer => Ok (true, buffer))
  end).

(** The loop over the [n] words, which goes on with [k] at the byte after. *)
Fixpoint read_words (src : nvram_src) (n : nat) (address : Z) (pos : nat) (buffer : list Z) (k : Z -> nat -> list Z -> outcome (bool * list Z))
  : outcome (bool * list Z) :=
  match n with
  | O => k address pos buffer
  | S n => obind (ar9300_eeprom_read_word src address pos buffer) (fun '(ok, buffer) =>
           if ok then read_words src n (address - 2) (pos + 2) buffer k else Ok (false, buffer))
  end.

Definition ar9300_read_eeprom (src : nvram_src) (address : Z) (buffer : list Z) (count : Z) : outcome (bool * list Z) :=
  if (address <? 0) || (AR9300_EEPROM_SIZE - 1 <? cdiv (address + count) 2) then Ok (false, buffer)
  else
    let rest address pos count buffer :=
      read_words src (Z.to_nat (cdiv count 2)) address pos buffer (fun address pos buffer =>
        if negb (crem count 2 =? 0) then ar9300_eeprom_read_byte src address pos buffer else Ok (true, buffer)) in
    if crem address 2 =? 0 then
      obind (ar9300_eeprom_read_byte src address 0 buffer) (fun '(ok, buffer) =>
      if ok then rest (address - 1) 1%nat (count - 1) buffer else Ok (false, buffer))
    else rest address O count buffer.

(** [otp] reads a word of the one-time programmable memory ([None] when it is
    not valid in time). *)
Fixpoint read_otp_loop (otp : Z -> option Z) (n : nat) (address : Z) (pos : nat) (buffer : list Z) : outcome (bool * list Z) :=
  match n with
  | O => Ok (true, buffer)
  | S n =>
      match otp (cdiv address 4) with
      | None => Ok (false, buffer)
      | Some data => obind (byte_of data (crem address 4)) (fun b => obind (put [b] pos buffer) (fun buffer =>
                     read_otp_loop otp n (address - 1) (S pos) buffer))
      end
  end.
Definition ar9300_read_otp (otp : Z -> option Z) (address : Z) (buffer : list Z) (count : Z) : outcome (bool * list Z) :=
  read_otp_loop otp (Z.to_nat count) address 0 buffer.

(** * Blocks *)

Record comp_hdr := { h_code : Z; h_reference : Z; h_length : Z; h_major : Z; h_minor : Z }.
Definition ar9300_comp_hdr_unpack (best : list Z) : comp_hdr :=
  let value i := nth i best 0 in
  {| h_code := (value 0%nat .>> 5) .& 0x0007; h_reference := (value 0%nat .& 0x001f) .| ((value 1%nat .>> 2) .& 0x0020);
     h_length := ((value 1%nat .<< 4) .& 0x07f0) .| ((value 2%nat .>> 4) .& 0x000f); h_major := value 2%nat .& 0x000f; h_minor := value 3%nat .& 0x00ff |}.

(** The sum of the first [dsize] bytes of [data]. *)
Definition ar9300_comp_cksum (data : list Z) (dsize : Z) : Z := fold_left (fun c b => (c + b) .& 0xffff) (take (Z.to_nat dsize) data) 0.

(** Every round goes at least two bytes further, so [size] rounds are enough. *)
Fixpoint uncompress_loop (fuel : nat) (mdataSize : Z) (block : list Z) (size it spot : Z) (mptr : list Z) : outcome (bool * list Z) :=
  if size <=? it then Ok (true, mptr)
  else
    match fuel, block !! Z.to_nat it, block !! Z.to_nat (it + 1) with
    | S fuel, Some offset, Some length =>
        let spot := spot + offset in
        if 0 <? length then
          if (0 <=? spot) && (spot + length <=? mdataSize) then
            let bs := take (Z.to_nat length) (drop (Z.to_nat (it + 2)) block) in
            if (List.length bs <? Z.to_nat length)%nat then Oops
            else obind (put bs (Z.to_nat spot) mptr) (fun mptr => uncompress_loop fuel mdataSize block size (it + (length + 2)) (spot + length) mptr)
          else Ok (false, mptr)
        else uncompress_loop fuel mdataSize block size (it + (length + 2)) spot mptr
    | _, _, _ => Oops
    end.
Definition ar9300_uncompress_block (mptr : list Z) (mdataSize : Z) (block : list Z) (size : Z) : outcome (bool * list Z) :=
  uncompress_loop (Z.to_nat size) mdataSize block size 0 0 mptr.

(** The structure in memory. *)
Definition eep_bytes : ar9300_eeprom -> list Z := enc ar9300_eeprom_c.
Definition mdata_size : Z := Z.of_nat (csize ar9300_eeprom_c).

(** The result of the uncompression is not used. *)
Definition ar9300_compress_decision (code reference : Z) (mptr word : list Z) (length : Z) : outcome (Z * list Z) :=
  if code =? _CompressNone then
    if negb (length =? mdata_size) then Ok (-1, mptr)
    else obind (put (take (Z.to_nat length) (drop 4 word)) 0 mptr) (fun mptr => Ok (0, mptr))
  else if code =? _CompressBlock then
    let uncompress mptr := obind (ar9300_uncompress_block mptr mdata_size (drop 4 word) length) (fun '(_, mptr) => Ok (0, mptr)) in
    if reference =? 0 then uncompress mptr
    else
      match ar9003_eeprom_struct_find_by_id reference with
      | None => Ok (-1, mptr)
      | Some eep => uncompress (eep_bytes eep)
      end
  else Ok (-1, mptr).

(** * Restoring *)

Definition eeprom_read_op : Type := Z -> list Z -> Z -> outcome (bool * list Z).

(** The four bytes as a word: neither 0 nor all ones. *)
Definition ar9300_check_header (data : list Z) : bool :=
  let word := get_unaligned_le32 data 0 in negb ((word =? 0) || (word =? u32 (-1))).

(** [header] is not initialised, but a read that succeeds fills it. *)
Definition ar9300_check_eeprom_header (read : eeprom_read_op) (base_addr : Z) : outcome bool :=
  obind (read base_addr (replicate 4 0) 4) (fun '(ok, header) => Ok (ok && ar9300_check_header header)).

Record eep_hw := {
  use_flash : bool;
  nvram : nvram_src;
  otp : Z -> option Z;
  eep_9485 : bool;
  eep_9330 : bool;
  word_alloc : bool;                     (* kzalloc succeeds *)
}.

(** A failed read leaves the two bytes as they are. *)
Fixpoint restore_flash_loop (src : nvram_src) (n : nat) (i : Z) (mptr : list Z) : outcome (list Z) :=
  match n with
  | O => Ok mptr
  | S n =>
      obind (ath9k_hw_nvram_read src i) (fun r =>
      obind (match r with None => Ok mptr | Some w => put (enc le16 w) (Z.to_nat (2 * i)) mptr end) (fun mptr =>
      restore_flash_loop src n (i + 1) mptr))
  end.
Definition ar9300_eeprom_restore_flash (src : nvram_src) (mptr : list Z) : outcome (list Z) :=
  restore_flash_loop src (Z.to_nat (cdiv mdata_size 2)) 0 mptr.

(** The places that are tried, in their order. *)
Definition probes (hw : eep_hw) : list (eeprom_read_op * Z) :=
  [(ar9300_read_eeprom (nvram hw), if eep_9485 hw then AR9300_BASE_ADDR_4K else if eep_9330 hw then AR9300_BASE_ADDR_512 else AR9300_BASE_ADDR);
   (ar9300_read_eeprom (nvram hw), AR9300_BASE_ADDR_512);
   (ar9300_read_otp (otp hw), AR9300_BASE_ADDR);
   (ar9300_read_otp (otp hw), AR9300_BASE_ADDR_512)].
Fixpoint probe (l : list (eeprom_read_op * Z)) : outcome (option (eeprom_read_op * Z)) :=
  match l with
  | [] => Ok None
  | (read, cptr) :: l => obind (ar9300_check_eeprom_header read cptr) (fun ok : bool => if ok then Ok (Some (read, cptr)) else probe l)
  end.

Definition bad_length (hw : eep_hw) (length : Z) : bool :=
  (negb (eep_9485 hw) && (1024 <=? length)) || (eep_9485 hw && (EEPROM_DATA_LEN_9485 <? length)).

(** The loop over the blocks. The result and the structure; a failure leaves
    what has been restored so far. *)
Fixpoint restore_loop (hw : eep_hw) (read : eeprom_read_op) (n : nat) (cptr : Z) (word mptr : list Z) : outcome (Z * list Z) :=
  match n with
  | O => Ok (cptr, mptr)
  | S n =>
      obind (read cptr word COMP_HDR_LEN) (fun '(ok, word) =>
      if negb ok then Ok (-1, mptr)
      else if negb (ar9300_check_header word) then Ok (cptr, mptr)
      else
        let h := ar9300_comp_hdr_unpack word in
        let osize := h_length h in
        if bad_length hw osize then restore_loop hw read n (cptr - COMP_HDR_LEN) word mptr
        else
          obind (read cptr word (COMP_HDR_LEN + osize + COMP_CKSUM_LEN)) (fun '(_, word) =>
          let checksum := ar9300_comp_cksum (drop 4 word) osize in
          let mchecksum := get_unaligned_le16 word (Z.to_nat (COMP_HDR_LEN + osize)) in
          obind (if checksum =? mchecksum then ar9300_compress_decision (h_code h) (h_reference h) mptr word osize else Ok (0, mptr)) (fun '(_, mptr) =>
          restore_loop hw read n (cptr - (COMP_HDR_LEN + osize + COMP_CKSUM_LEN)) word mptr)))
  end.

Definition restore_blocks (hw : eep_hw) (mptr : list Z) : outcome (Z * list Z) :=
  if negb (word_alloc hw) then Ok (- ENOMEM, mptr)
  else
    let mptr := eep_bytes ar9300_default in
    obind (probe (probes hw)) (fun found =>
    match found with
    | None => Ok (-1, mptr)
    | Some (read, cptr) => restore_loop hw read MSTATE cptr (replicate 2048 0) mptr
    end).

Definition ar9300_eeprom_restore_internal (hw : eep_hw) (mptr : list Z) : outcome (Z * list Z) :=
  if use_flash hw then
    obind (ar9300_eeprom_restore_flash (nvram hw) mptr) (fun mptr =>
    let txrx := txrxMask (baseEepHeader (dec ar9300_eeprom_c mptr)) in
    if negb (txrx =? 0) && negb (txrx =? 0xff) then Ok (0, mptr) else restore_blocks hw mptr)
  else restore_blocks hw mptr.

Definition ath9k_hw_ar9300_fill_eeprom (hw : eep_hw) (eep : list Z) : outcome (bool * list Z) :=
  obind (ar9300_eeprom_restore_internal hw eep) (fun '(r, eep) => Ok (negb (r <? 0), eep)).

(** * Fields *)

Inductive eeprom_param :=
  | EEP_MAC_LSW | EEP_MAC_MID | EEP_MAC_MSW | EEP_REG_0 | EEP_OP_CAP | EEP_OP_MODE | EEP_RF_SILENT | EEP_TX_MASK | EEP_RX_MASK | EEP_PAPRD
  | EEP_CHAIN_MASK_REDUCE | EEP_ANT_DIV_CTL1 | EEP_ANTENNA_GAIN_5G | EEP_ANTENNA_GAIN_2G.
Definition get_unaligned_be16 (l : list Z) (off : nat) : Z := 256 * byte_at l off + byte_at l (off + 1).

(** The result is a [u32]. *)
Definition ath9k_hw_ar9300_get_eeprom (sr_9565 : bool) (eep : ar9300_eeprom) (param : eeprom_param) : Z :=
  let pBase := baseEepHeader eep in
  match param with
  | EEP_MAC_LSW => get_unaligned_be16 (macAddr eep) 0
  | EEP_MAC_MID => get_unaligned_be16 (macAddr eep) 2
  | EEP_MAC_MSW => get_unaligned_be16 (macAddr eep) 4
  | EEP_REG_0 => nth 0 (regDmn pBase) 0
  | EEP_OP_CAP => deviceCap pBase
  | EEP_OP_MODE => opFlags pBase
  | EEP_RF_SILENT => rfSilent pBase
  | EEP_TX_MASK => (txrxMask pBase .>> 4) .& 0xf
  | EEP_RX_MASK => txrxMask pBase .& 0xf
  | EEP_PAPRD => Z.b2z (has (featureEnable pBase) (1 .<< 5))
  | EEP_CHAIN_MASK_REDUCE => (miscConfiguration pBase .>> 0x3) .& 0x1
  | EEP_ANT_DIV_CTL1 => if sr_9565 then 0xc9 else ant_div_control (base_ext1 eep)
  | EEP_ANTENNA_GAIN_5G => u32 (antennaGain (modalHeader5G eep))
  | EEP_ANTENNA_GAIN_2G => u32 (antennaGain (modalHeader2G eep))
  end.

(** * Reading bytes *)

(** The [n] bytes of a memory from an address downwards. *)
Fixpoint span (m : Z -> Z) (a : Z) (n : nat) : list Z := match n with O => [] | S n => m a :: span m (a - 1) n end.

Lemma span_length m a n : length (span m a n) = n.
Proof. revert a. induction n as [|n IH]; intros a; cbn; [done|]. by rewrite IH. Qed.
Lemma span_app m a n k : span m a (n + k) = span m a n ++ span m (a - Z.of_nat n) k.
Proof.
  revert a. induction n as [|n IH]; intros a; cbn [span Nat.add app]; [by rewrite Z.sub_0_r|]. rewrite IH. do 3 f_equal. lia.
Qed.

(** A reader fetches the bytes of the memory [m] up to the address [top]. *)
Class Reader (read : eeprom_read_op) (m : Z -> Z) (top : Z) : Prop :=
  reads address buffer count : 1 <= count -> count - 1 <= address <= top -> (Z.to_nat count <= length buffer)%nat ->
    read address buffer count = Ok (true, span m address (Z.to_nat count) ++ drop (Z.to_nat count) buffer).

Lemma put_app bs pre rest : (length bs <= length rest)%nat -> put bs (length pre) (pre ++ rest) = Ok (pre ++ bs ++ drop (length bs) rest).
Proof.
  intros Hl. unfold put. rewrite (proj2 (Nat.leb_le _ _)) by (rewrite length_app; lia).
  by rewrite take_app_length, drop_app_add.
Qed.

(** Bytes of a memory of words of [k] bytes. *)
Definition byte_of_words (k : Z) (w : Z -> Z) (a : Z) : Z := (w (a / k) .>> (8 * (a mod k))) .& 0xff.

Lemma quot_rem a k : 0 <= a -> 0 < k -> cdiv a k = a / k /\ crem a k = a mod k.
Proof. intros. unfold cdiv, crem. rewrite Z.quot_div_nonneg, Z.rem_mod_nonneg by lia. done. Qed.

Lemma read_byte_at src w a pre rest : (forall off, 0 <= off <= a / 2 -> ath9k_hw_nvram_read src off = Ok (Some (w off))) -> 0 <= a -> (1 <= length rest)%nat ->
  ar9300_eeprom_read_byte src a (length pre) (pre ++ rest) = Ok (true, pre ++ [byte_of_words 2 w a] ++ drop 1 rest).
Proof.
  intros Hw Ha Hl. unfold ar9300_eeprom_read_byte. destruct (quot_rem a 2 Ha) as [-> ->]; [lia|]. rewrite Hw by (split; [apply Z.div_pos|]; lia). cbn [obind].
  unfold byte_of. pose proof (Z.mod_pos_bound a 2). rewrite (proj2 (Z.ltb_ge _ 0)) by lia. cbn [obind]. by rewrite (put_app [_]).
Qed.

Lemma read_word_at src w a pre rest : (forall off, 0 <= off <= a / 2 -> ath9k_hw_nvram_read src off = Ok (Some (w off)) /\ in_u16 (w off)) -> 0 <= a -> a mod 2 = 1 ->
  (2 <= length rest)%nat -> ar9300_eeprom_read_word src a (length pre) (pre ++ rest) = Ok (true, pre ++ span (byte_of_words 2 w) a 2 ++ drop 2 rest).
Proof.
  intros Hw Ha Hm Hl. unfold ar9300_eeprom_read_word. destruct (quot_rem a 2 Ha) as [-> _]; [lia|].
  destruct (Hw (a / 2)) as [-> Hr]; [split; [apply Z.div_pos|]; lia|]. cbn [obind]. rewrite (put_app [_; _]) by done. cbn [obind span]. do 5 f_equal.
  - unfold byte_of_words. rewrite Hm. change 0xff with (Z.ones 8). rewrite Z.land_ones by lia. rewrite Z.mod_small; [done|].
    rewrite Z.shiftr_div_pow2 by lia. unfold in_u16 in Hr. change (2 ^ (8 * 1)) with 256. change (2 ^ 8) with 256. split; [apply Z.div_pos; lia|apply Z.div_lt_upper_bound; lia].
  - unfold byte_of_words. assert ((a - 1) / 2 = a / 2 /\ (a - 1) mod 2 = 0) as [-> ->] by (split; Z.to_euclidean_division_equations; lia). by rewrite Z.mul_0_r, Z.shiftr_0_r.
Qed.

Lemma read_words_at src w n a pre rest k : (forall off, 0 <= off <= a / 2 -> ath9k_hw_nvram_read src off = Ok (Some (w off)) /\ in_u16 (w off)) ->
  (n = O \/ a mod 2 = 1) -> 2 * Z.of_nat n - 1 <= a -> (2 * n <= length rest)%nat ->
  read_words src n a (length pre) (pre ++ rest) k =
    k (a - 2 * Z.of_nat n) (length pre + 2 * n)%nat (pre ++ span (byte_of_words 2 w) a (2 * n) ++ drop (2 * n) rest).
Proof.
  revert a pre rest. induction n as [|n IH]; intros a pre rest Hw Ho Ha Hl.
  - cbn [read_words Z.of_nat Nat.mul span app]. rewrite Z.sub_0_r, Nat.add_0_r, drop_0. done.
  - destruct Ho as [|Ho]; [done|]. cbn [read_words]. rewrite (read_word_at src w) by (done || lia). cbn [obind].
    rewrite app_assoc. replace (length pre + 2)%nat with (length (pre ++ span (byte_of_words 2 w) a 2)) by (rewrite length_app, span_length; done).
    rewrite IH; [|intros off Hoff; apply Hw; split; [lia|]; transitivity ((a - 2) / 2); [lia|apply Z.div_le_mono; lia]|right; Z.to_euclidean_division_equations; lia|lia|rewrite length_drop; lia].
    rewrite length_app, span_length, drop_drop, <- !app_assoc. replace (2 * S n)%nat with (2 + 2 * n)%nat by lia. rewrite span_app, <- app_assoc.
    replace (a - 2 * Z.of_nat (S n)) with (a - 2 - 2 * Z.of_nat n) by lia. rewrite Nat.add_assoc. done.
Qed.

(** The EEPROM: all words below the top can be read. *)
Lemma read_eeprom_reads src w top : top < AR9300_EEPROM_SIZE - 1 ->
  (forall off, 0 <= off <= top / 2 -> ath9k_hw_nvram_read src off = Ok (Some (w off)) /\ in_u16 (w off)) ->
  Reader (ar9300_read_eeprom src) (byte_of_words 2 w) top.
Proof.
  intros Ht Hw a buffer count Hc Ha Hl. unfold ar9300_read_eeprom.
  assert (forall off, 0 <= off <= a / 2 -> ath9k_hw_nvram_read src off = Ok (Some (w off)) /\ in_u16 (w off)) as Hwa.
  { intros off Ho. apply Hw. split; [lia|]. transitivity (a / 2); [lia|apply Z.div_le_mono; lia]. }
  destruct (quot_rem (a + count) 2) as [-> _]; [lia..|]. rewrite (proj2 (Z.ltb_ge a 0)), (proj2 (Z.ltb_ge _ _)) by (unfold AR9300_EEPROM_SIZE in *; Z.to_euclidean_division_equations; lia). cbn [orb].
  destruct (quot_rem a 2) as [_ ->]; [lia..|].
  (* reading [count] bytes from an odd address, or none *)
  assert (forall a' pre rest c, 0 <= c -> c - 1 <= a' -> a' <= a -> (c = 0 \/ a' mod 2 = 1) -> (Z.to_nat c <= length rest)%nat ->
    read_words src (Z.to_nat (cdiv c 2)) a' (length pre) (pre ++ rest) (fun address pos buffer =>
      if negb (crem c 2 =? 0) then ar9300_eeprom_read_byte src address pos buffer else Ok (true, buffer)) =
    Ok (true, pre ++ span (byte_of_words 2 w) a' (Z.to_nat c) ++ drop (Z.to_nat c) rest)) as Hodd.
  { intros a' pre rest c Hc0 Hca Haa Ho Hr. destruct (quot_rem c 2) as [-> ->]; [lia..|]. set (n := Z.to_nat (c / 2)).
    assert (2 * Z.of_nat n = c - c mod 2) as Hn by (unfold n; Z.to_euclidean_division_equations; lia).
    assert (forall off, 0 <= off <= a' / 2 -> ath9k_hw_nvram_read src off = Ok (Some (w off)) /\ in_u16 (w off)) as Hwb.
    { intros off Hoff. apply Hwa. split; [lia|]. transitivity (a' / 2); [lia|apply Z.div_le_mono; lia]. }
    pose proof (Z.mod_pos_bound c 2 ltac:(lia)) as Hb.
    rewrite (read_words_at src w) by (done || lia || (destruct Ho as [->|]; [left; done|by right])).
    destruct (Z.eqb_spec (c mod 2) 0) as [Ez|Ez]; cbn [negb].
    - replace (2 * n)%nat with (Z.to_nat c) by lia. done.
    - rewrite app_assoc. replace (length pre + 2 * n)%nat with (length (pre ++ span (byte_of_words 2 w) a' (2 * n))) by (rewrite length_app, span_length; done).
      rewrite (read_byte_at src w); [|intros off Hoff; apply Hwb; split; [lia|]; etransitivity; [apply Hoff|apply Z.div_le_mono; lia]|lia|rewrite length_drop; lia].
      replace (Z.to_nat c) with (2 * n + 1)%nat by lia. rewrite span_app, drop_drop, <- !app_assoc. do 3 f_equal. cbn [span]. do 4 f_equal; lia. }
  destruct (Z.eqb_spec (a mod 2) 0) as [Ez|Ez].
  - change 0%nat with (length (@nil Z)) at 1. change buffer with ([] ++ buffer) at 1.
    rewrite (read_byte_at src w a [] buffer); [|intros off Hoff; by apply Hwa|lia|lia]. cbn [obind app].
    etransitivity; [apply (Hodd (a - 1) [byte_of_words 2 w a] (drop 1 buffer) (count - 1)); [lia..|right; Z.to_euclidean_division_equations; lia|rewrite length_drop; lia]|].
    replace (Z.to_nat count) with (S (Z.to_nat (count - 1))) by lia. cbn [span app]. rewrite drop_drop. do 4 f_equal.
  - apply (Hodd a [] buffer count); [lia..|right; Z.to_euclidean_division_equations; lia|done].
Qed.

Lemma read_otp_loop_at w otp n a pre rest : (forall off, 0 <= off <= a / 4 -> otp off = Some (w off)) -> Z.of_nat n - 1 <= a -> (n <= length rest)%nat ->
  read_otp_loop otp n a (length pre) (pre ++ rest) = Ok (true, pre ++ span (byte_of_words 4 w) a n ++ drop n rest).
Proof.
  revert a pre rest. induction n as [|n IH]; intros a pre rest Hw Ha Hl; [done|]. cbn [read_otp_loop].
  destruct (quot_rem a 4) as [-> ->]; [lia..|]. rewrite Hw by (split; [apply Z.div_pos|]; lia). unfold byte_of.
  pose proof (Z.mod_pos_bound a 4). rewrite (proj2 (Z.ltb_ge _ 0)) by lia. cbn [obind]. fold (byte_of_words 4 w a). rewrite (put_app [_]) by (cbn; lia). cbn [obind length].
  rewrite app_assoc. replace (S (length pre)) with (length (pre ++ [byte_of_words 4 w a])) by (rewrite length_app; cbn; lia).
  rewrite IH; [|intros off Ho; apply Hw; split; [lia|]; etransitivity; [apply Ho|apply Z.div_le_mono; lia]|lia|rewrite length_drop; lia].
  rewrite drop_drop, <- !app_assoc. done.
Qed.

(** The one-time programmable memory. *)
Lemma read_otp_reads otp w top : (forall off, 0 <= off <= top / 4 -> otp off = Some (w off)) -> Reader (ar9300_read_otp otp) (byte_of_words 4 w) top.
Proof.
  intros Hw a buffer count Hc Ha Hl. unfold ar9300_read_otp. apply (read_otp_loop_at w otp _ a [] buffer); [|lia|done].
  intros off Ho. apply Hw. split; [lia|]. etransitivity; [apply Ho|apply Z.div_le_mono; lia].
Qed.

(** * The image of an EEPROM *)

(** A patch: how far to go on in the structure, and the bytes to write there.
    A block patches the structure, or the template [b_ref]. *)
Definition patch : Type := Z * list Z.
Record block := { b_ref : Z; b_major : Z; b_minor : Z; b_patches : list patch }.

Definition enc_patch (p : patch) : list Z := fst p :: Z.of_nat (length (snd p)) :: snd p.
Definition enc_patches (ps : list patch) : list Z := concat (enc_patch <$> ps).
Definition comp_hdr_pack (h : comp_hdr) : list Z :=
  [(h_code h .<< 5) .| (h_reference h .& 0x1f); ((h_reference h .& 0x20) .<< 2) .| (h_length h .>> 4); ((h_length h .& 0xf) .<< 4) .| h_major h; h_minor h].
Definition body (b : block) : list Z := enc_patches (b_patches b).
Definition block_len (b : block) : Z := Z.of_nat (length (body b)).
Definition block_hdr (b : block) : comp_hdr :=
  {| h_code := _CompressBlock; h_reference := b_ref b; h_length := block_len b; h_major := b_major b; h_minor := b_minor b |}.
Definition block_image (b : block) : list Z := comp_hdr_pack (block_hdr b) ++ body b ++ enc le16 (ar9300_comp_cksum (body b) (block_len b)).
Definition image (bs : list block) (fill : Z) : list Z := concat (block_image <$> bs) ++ replicate 4 fill.

(** What the blocks make of a structure. *)
Definition write_at (spot : nat) (bs mptr : list Z) : list Z := take spot mptr ++ bs ++ drop (spot + length bs) mptr.
Fixpoint apply_patches (spot : Z) (ps : list patch) (mptr : list Z) : list Z :=
  match ps with
  | [] => mptr
  | (o, bs) :: ps => apply_patches (spot + o + Z.of_nat (length bs)) ps (write_at (Z.to_nat (spot + o)) bs mptr)
  end.
Definition apply_block (mptr : list Z) (b : block) : list Z :=
  apply_patches 0 (b_patches b) (if b_ref b =? 0 then mptr else default mptr (eep_bytes <$> ar9003_eeprom_struct_find_by_id (b_ref b))).

(** Patches inside the structure; blocks that the format can express. *)
Fixpoint patches_fit (spot : Z) (ps : list patch) : Prop :=
  match ps with
  | [] => True
  | (o, bs) :: ps => in_u8 o /\ 0 < Z.of_nat (length bs) < 256 /\ bytes_ok bs /\ spot + o + Z.of_nat (length bs) <= mdata_size /\
                     patches_fit (spot + o + Z.of_nat (length bs)) ps
  end.
Definition block_ok (b : block) : Prop :=
  patches_fit 0 (b_patches b) /\ block_len b < 1024 /\ 0 <= b_major b < 16 /\ in_u8 (b_minor b) /\
  (b_ref b = 0 \/ 0 <= b_ref b < 64 /\ ar9003_eeprom_struct_find_by_id (b_ref b) <> None).

(** ** Headers *)

Definition hdr_ok (h : comp_hdr) : Prop := 0 <= h_code h < 8 /\ 0 <= h_reference h < 64 /\ 0 <= h_length h < 2048 /\ 0 <= h_major h < 16 /\ 0 <= h_minor h < 256.

(** A field in the middle of a word. *)
Lemma land_field x w s : 0 <= w -> 0 <= s -> x .& (Z.ones w .<< s) = ((x / 2 ^ s) mod 2 ^ w) * 2 ^ s.
Proof.
  intros Hw Hs. rewrite <- Z.shiftl_mul_pow2, <- Z.land_ones, <- Z.shiftr_div_pow2 by done. apply Z.bits_inj'. intros n Hn.
  rewrite Z.land_spec, !Z.shiftl_spec by lia. destruct (Z.ltb_spec n s).
  - rewrite !(Z.testbit_neg_r _ (n - s)) by lia. apply andb_false_r.
  - by rewrite Z.land_spec, Z.shiftr_spec, Z.sub_add by lia.
Qed.
(** The masks of the header. *)
Lemma hdr_masks x : x .& 0x1f = x mod 32 /\ x .& 0x0f = x mod 16 /\ x .& 0x07 = x mod 8 /\ x .& 0xff = x mod 256 /\
  x .& 0x20 = (x / 32) mod 2 * 32 /\ x .& 0x7f0 = (x / 16) mod 128 * 16.
Proof. split_and!; [by apply (Z.land_ones x 5)|by apply (Z.land_ones x 4)|by apply (Z.land_ones x 3)|by apply (Z.land_ones x 8)|by apply (land_field x 1 5)|by apply (land_field x 7 4)]. Qed.
Ltac hdr_masks := repeat match goal with
  | |- context [?x .& 0x1f] => rewrite (proj1 (hdr_masks x))
  | |- context [?x .& 0x0f] => rewrite (proj1 (proj2 (hdr_masks x)))
  | |- context [?x .& 0x07] => rewrite (proj1 (proj2 (proj2 (hdr_masks x))))
  | |- context [?x .& 0xff] => rewrite (proj1 (proj2 (proj2 (proj2 (hdr_masks x)))))
  | |- context [?x .& 0x20] => rewrite (proj1 (proj2 (proj2 (proj2 (proj2 (hdr_masks x))))))
  | |- context [?x .& 0x7f0] => rewrite (proj2 (proj2 (proj2 (proj2 (proj2 (hdr_masks x))))))
  end.

Lemma hdr_bytes h : hdr_ok h -> comp_hdr_pack h =
  [h_code h * 32 + h_reference h mod 32; h_reference h / 32 * 128 + h_length h / 16; h_length h mod 16 * 16 + h_major h; h_minor h].
Proof.
  intros (H1 & H2 & H3 & H4 & H5). unfold comp_hdr_pack. hdr_masks. rewrite Z.shiftr_div_pow2 by lia. change (2 ^ 4) with 16.
  assert (h_reference h / 32 < 2 /\ h_length h / 16 < 128) as [Ha Hb] by (split; apply Z.div_lt_upper_bound; lia).
  assert (0 <= h_reference h / 32 /\ 0 <= h_length h / 16) as [Hc Hd] by (split; apply Z.div_pos; lia).
  rewrite (Z.mod_small (_ / 32)) by lia. rewrite Z.lor_comm, (Z.lor_comm _ (_ / 16)), (Z.lor_comm (_ .<< 4)).
  pose proof (Z.mod_pos_bound (h_reference h) 32). rewrite lor_shiftl_add by (change (2 ^ 5) with 32; lia).
  replace ((h_reference h / 32 * 32) .<< 2) with ((h_reference h / 32) .<< 7) by (rewrite !Z.shiftl_mul_pow2 by lia; change (2 ^ 2) with 4; change (2 ^ 7) with 128; ring).
  rewrite lor_shiftl_add by (change (2 ^ 7) with 128; lia). rewrite lor_shiftl_add by (change (2 ^ 4) with 16; lia).
  change (2 ^ 7) with 128. change (2 ^ 4) with 16. change (2 ^ 5) with 32.
  assert (forall a b c d a' b' c' d' : Z, a = a' -> b = b' -> c = c' -> d = d' -> [a; b; c; d] = [a'; b'; c'; d']) as Hl by (by intros; subst).
  apply Hl; lia.
Qed.

(** Unpacking a header gives what was packed. *)
Lemma hdr_roundtrip h rest : hdr_ok h -> ar9300_comp_hdr_unpack (comp_hdr_pack h ++ rest) = h.
Proof.
  intros Hh. rewrite (hdr_bytes h Hh). destruct Hh as (H1 & H2 & H3 & H4 & H5). destruct h as [c r l a b].
  cbn [h_code h_reference h_length h_major h_minor] in *. unfold ar9300_comp_hdr_unpack. cbn [nth app].
  assert (r / 32 < 2 /\ l / 16 < 128 /\ 0 <= r / 32 /\ 0 <= l / 16) as (Ha & Hb & Hc & Hd) by (split_and!; [apply Z.div_lt_upper_bound; lia..|apply Z.div_pos; lia|apply Z.div_pos; lia]).
  pose proof (Z.mod_pos_bound r 32 ltac:(lia)). pose proof (Z.mod_pos_bound l 16 ltac:(lia)).
  pose proof (Z.div_mod r 32 ltac:(lia)). pose proof (Z.div_mod l 16 ltac:(lia)).
  hdr_masks. rewrite !Z.shiftr_div_pow2, Z.shiftl_mul_pow2 by lia. change (2 ^ 5) with 32. change (2 ^ 4) with 16. change (2 ^ 2) with 4.
  set (rl := r mod 32) in *. set (rh := r / 32) in *. set (ll := l mod 16) in *. set (lh := l / 16) in *.
  replace ((c * 32 + rl) / 32) with c by (apply (Z.div_unique _ _ _ rl); lia). rewrite (Z.mod_small c) by lia.
  replace ((c * 32 + rl) mod 32) with rl by (apply (Z.mod_unique _ _ c); lia).
  replace ((rh * 128 + lh) / 4 / 32) with rh by (rewrite Z.div_div by lia; apply (Z.div_unique _ _ _ lh); lia). rewrite (Z.mod_small rh) by lia.
  replace ((rh * 128 + lh) * 16 / 16) with (rh * 128 + lh) by (rewrite Z.div_mul; lia).
  replace ((rh * 128 + lh) mod 128) with lh by (apply (Z.mod_unique _ _ rh); lia).
  replace ((ll * 16 + a) / 16) with ll by (apply (Z.div_unique _ _ _ a); lia). rewrite (Z.mod_small ll) by lia.
  replace ((ll * 16 + a) mod 16) with a by (apply (Z.mod_unique _ _ ll); lia). rewrite (Z.mod_small b) by lia.
  replace (rh * 32) with (rh .<< 5) by (by rewrite Z.shiftl_mul_pow2). replace (lh * 16) with (lh .<< 4) by (by rewrite Z.shiftl_mul_pow2).
  rewrite (lor_shiftl_add rl) by (change (2 ^ 5) with 32; lia). rewrite (Z.lor_comm _ ll), (lor_shiftl_add ll) by (change (2 ^ 4) with 16; lia).
  change (2 ^ 5) with 32. change (2 ^ 4) with 16. f_equal; lia.
Qed.

(** ** Patches *)

Lemma put_at bs spot mptr : (Z.to_nat spot + length bs <= length mptr)%nat -> put bs (Z.to_nat spot) mptr = Ok (write_at (Z.to_nat spot) bs mptr).
Proof. intros. unfold put, write_at. by rewrite (proj2 (Nat.leb_le _ _)). Qed.
Lemma write_at_length spot bs mptr : (spot + length bs <= length mptr)%nat -> length (write_at spot bs mptr) = length mptr.
Proof. intros. unfold write_at. rewrite !length_app, length_take, length_drop. lia. Qed.

(** The uncompression writes the patches. *)
Lemma uncompress_patches ps : forall fuel spot mptr pre rest, patches_fit spot ps -> 0 <= spot -> length mptr = Z.to_nat mdata_size ->
  (length (enc_patches ps) <= fuel)%nat ->
  uncompress_loop fuel mdata_size (pre ++ enc_patches ps ++ rest) (Z.of_nat (length pre + length (enc_patches ps))) (Z.of_nat (length pre)) spot mptr =
    Ok (true, apply_patches spot ps mptr).
Proof.
  induction ps as [|[o bs] ps IH]; intros fuel spot mptr pre rest Hfit Hs Hm Hf.
  - cbn [enc_patches length concat fmap list_fmap]. rewrite Nat.add_0_r. destruct fuel; cbn [uncompress_loop]; by rewrite Z.leb_refl.
  - destruct Hfit as (Ho & Hlen & Hbs & Hin & Hfit). unfold in_u8 in Ho. cbn [enc_patches fmap list_fmap concat] in *. fold (enc_patches ps) in *.
    unfold enc_patch in Hf |- *. cbn [fst snd] in *. rewrite length_app in *. cbn [length] in Hf |- *.
    destruct fuel as [|fuel]; [lia|]. cbn [uncompress_loop]. rewrite (proj2 (Z.leb_gt _ _)) by lia.
    rewrite Nat2Z.id. replace (Z.to_nat (Z.of_nat (length pre) + 1)) with (length pre + 1)%nat by lia.
    rewrite <- app_assoc. cbn [app]. rewrite (list_lookup_middle pre _ o) by done.
    assert ((pre ++ o :: Z.of_nat (length bs) :: bs ++ enc_patches ps ++ rest) !! (length pre + 1)%nat = Some (Z.of_nat (length bs))) as ->
      by (rewrite lookup_app_r by lia; by replace (length pre + 1 - length pre)%nat with 1%nat by lia).
    rewrite (proj2 (Z.ltb_lt _ _)), (proj2 (Z.leb_le 0 _)), (proj2 (Z.leb_le _ _)) by lia. cbn [andb].
    assert (take (Z.to_nat (Z.of_nat (length bs))) (drop (Z.to_nat (Z.of_nat (length pre) + 2)) (pre ++ o :: Z.of_nat (length bs) :: bs ++ enc_patches ps ++ rest)) = bs) as ->.
    { replace (Z.to_nat (Z.of_nat (length pre) + 2)) with (length pre + 2)%nat by lia. rewrite drop_app_add. cbn [drop]. rewrite Nat2Z.id. apply take_app_length. }
    rewrite Nat2Z.id, Nat.ltb_irrefl. rewrite put_at by (rewrite Hm; unfold mdata_size in *; lia). cbn [obind apply_patches].
    replace (Z.of_nat (length pre) + (Z.of_nat (length bs) + 2)) with (Z.of_nat (length (pre ++ o :: Z.of_nat (length bs) :: bs))) by (rewrite length_app; cbn [length]; lia).
    replace (Z.of_nat (length pre + (S (S (length bs)) + length (enc_patches ps)))) with (Z.of_nat (length (pre ++ o :: Z.of_nat (length bs) :: bs) + length (enc_patches ps)))
      by (rewrite length_app; cbn [length]; lia).
    replace (pre ++ o :: Z.of_nat (length bs) :: bs ++ enc_patches ps ++ rest) with ((pre ++ o :: Z.of_nat (length bs) :: bs) ++ enc_patches ps ++ rest) by (rewrite <- app_assoc; done).
    apply IH; [done|lia| |lia]. rewrite write_at_length; [done|]. rewrite Hm. unfold mdata_size in *. lia.
Qed.

Lemma eep_bytes_length e : cvalid ar9300_eeprom_c e = true -> length (eep_bytes e) = Z.to_nat mdata_size.
Proof. intros. unfold eep_bytes, mdata_size. rewrite enc_size by done. lia. Qed.

Lemma templates_valid : forallb (cvalid ar9300_eeprom_c) ar9300_eep_templates = true.
Proof. vm_compute. reflexivity. Qed.

Lemma find_valid id e : ar9003_eeprom_struct_find_by_id id = Some e -> cvalid ar9300_eeprom_c e = true.
Proof.
  unfold ar9003_eeprom_struct_find_by_id. intros He. apply head_Some in He as [l Hl].
  assert (e ∈ filter (fun t => templateVersion t = id) ar9300_eep_templates) as Hin by (rewrite Hl; by left).
  apply list_elem_of_filter in Hin as [_ Hin]. pose proof templates_valid as Ht. rewrite forallb_forall in Ht. apply Ht. by apply list_elem_of_In.
Qed.

Lemma apply_patches_length ps : forall spot mptr, patches_fit spot ps -> 0 <= spot -> length mptr = Z.to_nat mdata_size -> length (apply_patches spot ps mptr) = Z.to_nat mdata_size.
Proof.
  induction ps as [|[o bs] ps IH]; intros spot mptr Hfit Hs Hm; [done|]. destruct Hfit as (Ho & Hlen & _ & Hin & Hfit). unfold in_u8 in Ho. cbn [apply_patches].
  apply IH; [done|lia|]. rewrite write_at_length; [done|]. rewrite Hm. unfold mdata_size in *. lia.
Qed.

Lemma block_base_length mptr b : length mptr = Z.to_nat mdata_size ->
  length (if b_ref b =? 0 then mptr else default mptr (eep_bytes <$> ar9003_eeprom_struct_find_by_id (b_ref b))) = Z.to_nat mdata_size.
Proof.
  intros Hm. destruct (b_ref b =? 0); [done|]. destruct (ar9003_eeprom_struct_find_by_id (b_ref b)) as [e|] eqn:E; [|done].
  cbn. by eapply eep_bytes_length, find_valid.
Qed.

(** A block is applied. *)
Lemma decision_block b mptr rest hdr : block_ok b -> length mptr = Z.to_nat mdata_size -> length hdr = 4%nat ->
  ar9300_compress_decision _CompressBlock (b_ref b) mptr (hdr ++ body b ++ rest) (block_len b) = Ok (0, apply_block mptr b).
Proof.
  intros (Hfit & Hlen & _ & _ & Href) Hm Hh. unfold ar9300_compress_decision. cbn [_CompressBlock _CompressNone Z.eqb]. change (drop 4) with (drop (A := Z) 4). rewrite <- Hh.
  rewrite drop_app_length. pose proof (block_base_length mptr b Hm) as Hb. unfold apply_block in *.
  assert (forall m, length m = Z.to_nat mdata_size -> ar9300_uncompress_block m mdata_size (body b ++ rest) (block_len b) = Ok (true, apply_patches 0 (b_patches b) m)) as Hu.
  { intros m Hm'. unfold ar9300_uncompress_block, block_len, body. rewrite Nat2Z.id. by apply (uncompress_patches (b_patches b) _ 0 m [] rest). }
  destruct (Z.eqb_spec (b_ref b) 0) as [E|E]; [by rewrite Hu|]. destruct Href as [|[_ Href]]; [done|].
  destruct (ar9003_eeprom_struct_find_by_id (b_ref b)); [|done]. cbn [fmap option_fmap option_map default] in *. by rewrite Hu.
Qed.

(** ** The chain of blocks *)

Lemma span_split m a l1 l2 : span m a (length (l1 ++ l2)) = l1 ++ l2 -> span m a (length l1) = l1 /\ span m (a - Z.of_nat (length l1)) (length l2) = l2.
Proof. intros H. rewrite length_app, span_app in H. apply app_inj_1 in H; [done|]. by rewrite span_length. Qed.

Lemma cksum_range data n : 0 <= ar9300_comp_cksum data n < 65536.
Proof.
  unfold ar9300_comp_cksum. generalize (take (Z.to_nat n) data). intros l. assert (forall c, 0 <= c < 65536 -> 0 <= fold_left (fun c b => (c + b) .& 0xffff) l c < 65536) as H; [|by apply H].
  induction l as [|b l IH]; intros c Hc; [done|]. cbn [fold_left]. apply IH. change 0xffff with (Z.ones 16). rewrite Z.land_ones by lia. apply Z.mod_pos_bound. lia.
Qed.

Lemma pack_length h : length (comp_hdr_pack h) = 4%nat.
Proof. done. Qed.
Lemma block_image_length b : length (block_image b) = (4 + length (body b) + 2)%nat.
Proof. unfold block_image. by rewrite !length_app, pack_length, Nat.add_assoc. Qed.

Lemma block_hdr_ok b : block_ok b -> hdr_ok (block_hdr b).
Proof.
  intros (_ & Hl & Hma & Hmi & Hr). unfold hdr_ok, block_hdr, in_u8, block_len in *. cbn. split; [done|]. split; [destruct Hr as [->|[? _]]; lia|]. lia.
Qed.

(** The header of a block looks like one. *)
Lemma block_hdr_seen b rest : block_ok b -> ar9300_check_header (comp_hdr_pack (block_hdr b) ++ rest) = true.
Proof.
  intros Hb. pose proof (block_hdr_ok b Hb) as Hh. rewrite (hdr_bytes _ Hh). destruct Hh as (H1 & H2 & H3 & H4 & H5).
  unfold ar9300_check_header, get_unaligned_le32, get_unaligned_le16, byte_at. cbn [lookup list_lookup app Nat.add default]. change (h_code (block_hdr b)) with 3.
  set (h := block_hdr b) in *. clearbody h.
  assert (0 <= h_reference h / 32 < 2 /\ 0 <= h_length h / 16 < 128) as [Ha Hc] by (split; (split; [apply Z.div_pos|apply Z.div_lt_upper_bound]; lia)).
  pose proof (Z.mod_pos_bound (h_reference h) 32). pose proof (Z.mod_pos_bound (h_length h) 16).
  apply negb_true_iff, orb_false_iff. change (u32 (-1)) with 4294967295. rewrite !Z.eqb_neq. cbn. lia.
Qed.

Lemma fill_not_seen fill rest : fill = 0 \/ fill = 255 -> ar9300_check_header (replicate 4 fill ++ rest) = false.
Proof. by intros [-> | ->]. Qed.

Lemma le16_at l x rest : 0 <= x < 65536 -> get_unaligned_le16 (l ++ enc le16 x ++ rest) (length l) = x.
Proof.
  intros Hx. unfold get_unaligned_le16, byte_at. cbn [enc le16]. rewrite (lookup_app_r l _ (length l)), (lookup_app_r l _ (length l + 1)) by lia. rewrite Nat.sub_diag. replace (length l + 1 - length l)%nat with 1%nat by lia.
  cbn. rewrite u8_shift by lia. unfold u8. Z.to_euclidean_division_equations; lia.
Qed.

Section image.
Context (hw : eep_hw) (read : eeprom_read_op) (m : Z -> Z) (top : Z) `{!Reader read m top}.

Lemma restore_loop_image bs fill : fill = 0 \/ fill = 255 -> Forall block_ok bs -> forall n cptr word mptr,
  span m cptr (length (image bs fill)) = image bs fill -> Z.of_nat (length (image bs fill)) - 1 <= cptr <= top ->
  length word = 2048%nat -> length mptr = Z.to_nat mdata_size -> (length bs <= n)%nat ->
  restore_loop hw read n cptr word mptr = Ok (cptr - (Z.of_nat (length (image bs fill)) - 4), fold_left apply_block bs mptr).
Proof.
  intros Hfill Hbs. induction Hbs as [|b bs Hb Hbs IH]; intros n cptr word mptr Hs Hc Hw Hm Hn.
  - cbn [fold_left]. unfold image in *. cbn [fmap list_fmap concat app] in *. rewrite length_replicate in *. rewrite Z.sub_diag, Z.sub_0_r.
    destruct n as [|n]; [done|]. cbn [restore_loop]. unfold COMP_HDR_LEN. rewrite reads by lia. cbn [obind negb]. change (Z.to_nat 4) with 4%nat. rewrite Hs.
    by rewrite fill_not_seen.
  - assert (image (b :: bs) fill = block_image b ++ image bs fill) as Himg by (unfold image; cbn [fmap list_fmap concat]; by rewrite <- app_assoc).
    rewrite Himg in *. apply span_split in Hs as [Hs1 Hs2]. rewrite length_app in Hc |- *. pose proof (block_image_length b) as Hbl.
    destruct n as [|n]; [cbn in Hn; lia|]. cbn [length] in Hn. cbn [restore_loop fold_left]. unfold COMP_HDR_LEN, COMP_CKSUM_LEN.
    rewrite reads by lia. cbn [obind negb]. change (Z.to_nat 4) with 4%nat.
    assert (span m cptr 4 = comp_hdr_pack (block_hdr b)) as Hh.
    { unfold block_image in Hs1. by apply span_split in Hs1 as [? _]. }
    rewrite Hh, block_hdr_seen by done. cbn [negb]. rewrite (hdr_roundtrip _ _ (block_hdr_ok b Hb)). change (h_length (block_hdr b)) with (block_len b).
    change (h_code (block_hdr b)) with _CompressBlock. change (h_reference (block_hdr b)) with (b_ref b).
    pose proof Hb as (_ & Hlen & _). assert (0 <= block_len b) as H0 by (unfold block_len; lia).
    assert (bad_length hw (block_len b) = false) as ->.
    { unfold bad_length. rewrite (proj2 (Z.leb_gt 1024 _)) by lia. rewrite (proj2 (Z.ltb_ge _ _)) by (unfold EEPROM_DATA_LEN_9485; lia). by destruct (eep_9485 hw). }
    assert (Z.to_nat (4 + block_len b + 2) = length (block_image b)) as Hcount by (unfold block_len in *; lia).
    assert (length (comp_hdr_pack (block_hdr b) ++ drop 4 word) = 2048%nat) as Hw1 by (rewrite length_app, pack_length, length_drop; lia).
    rewrite reads by (unfold block_len in *; lia). cbn [obind]. rewrite Hcount, Hs1. set (word2 := drop (length (block_image b)) _).
    assert (length word2 = 2048 - length (block_image b))%nat as Hw2 by (unfold word2; rewrite length_drop; lia). clearbody word2.
    assert (block_image b ++ word2 = comp_hdr_pack (block_hdr b) ++ body b ++ enc le16 (ar9300_comp_cksum (body b) (block_len b)) ++ word2) as Hwd
      by (unfold block_image; by rewrite <- !app_assoc).
    assert (ar9300_comp_cksum (drop 4 (block_image b ++ word2)) (block_len b) = ar9300_comp_cksum (body b) (block_len b)) as ->.
    { rewrite Hwd. change 4%nat with (length (comp_hdr_pack (block_hdr b))). rewrite drop_app_length. unfold ar9300_comp_cksum, block_len. rewrite Nat2Z.id, take_app_length. by rewrite take_ge. }
    assert (get_unaligned_le16 (block_image b ++ word2) (Z.to_nat (4 + block_len b)) = ar9300_comp_cksum (body b) (block_len b)) as ->.
    { rewrite Hwd, app_assoc. replace (Z.to_nat (4 + block_len b)) with (length (comp_hdr_pack (block_hdr b) ++ body b)) by (rewrite length_app, pack_length; unfold block_len; lia).
      apply le16_at, cksum_range. }
    rewrite Z.eqb_refl, Hwd, decision_block by done. cbn [obind]. rewrite <- Hwd.
    replace (cptr - (4 + block_len b + 2)) with (cptr - Z.of_nat (length (block_image b))) by (unfold block_len; lia).
    rewrite IH; [do 2 f_equal; lia|done|lia|rewrite length_app; lia| |lia].
    unfold apply_block. apply apply_patches_length; [by destruct Hb|lia|by apply block_base_length].
Qed.

(** The image is found at the first place and restored. *)
Lemma restore_image bs fill : fill = 0 \/ fill = 255 -> bs <> [] -> Forall block_ok bs -> (length bs <= MSTATE)%nat -> word_alloc hw = true ->
  forall base rest, probes hw = (read, base) :: rest -> span m base (length (image bs fill)) = image bs fill ->
  Z.of_nat (length (image bs fill)) - 1 <= base <= top ->
  forall eep, restore_blocks hw eep = Ok (base - (Z.of_nat (length (image bs fill)) - 4), fold_left apply_block bs (eep_bytes ar9300_default)).
Proof.
  intros Hfill Hne Hbs Hn Ha base rest Hp Hs Hb eep. unfold restore_blocks. rewrite Ha, Hp. cbn [negb probe]. unfold ar9300_check_eeprom_header.
  destruct bs as [|b bs]; [done|]. inversion Hbs as [|? ? Hb1 _]; subst.
  assert (span m base 4 = comp_hdr_pack (block_hdr b)) as Hh.
  { unfold image, block_image in Hs. cbn [fmap list_fmap concat] in Hs. rewrite <- !app_assoc in Hs. by apply span_split in Hs as [? _]. }
  assert (4 <= length (image (b :: bs) fill))%nat by (unfold image; rewrite length_app, length_replicate; lia).
  rewrite reads by (rewrite ?length_replicate; lia). cbn [obind andb]. change (Z.to_nat 4) with 4%nat. rewrite Hh, block_hdr_seen by done. cbn [obind].
  apply restore_loop_image; try done.
Qed.
End image.

(** C15. The calibration data is restored exactly: when the words of the EEPROM
    can be read and hold the image of any blocks that the format can express, the
    driver ends with what these blocks make of the default structure, and with the
    address of the end of the chain. *)
Theorem eeprom_restored hw w bs fill base eep :
  use_flash hw = false -> word_alloc hw = true -> fill = 0 \/ fill = 255 -> bs <> [] -> Forall block_ok bs -> (length bs <= MSTATE)%nat ->
  base = (if eep_9485 hw then AR9300_BASE_ADDR_4K else if eep_9330 hw then AR9300_BASE_ADDR_512 else AR9300_BASE_ADDR) ->
  (forall off, 0 <= off <= base / 2 -> ath9k_hw_nvram_read (nvram hw) off = Ok (Some (w off)) /\ in_u16 (w off)) ->
  span (byte_of_words 2 w) base (length (image bs fill)) = image bs fill -> Z.of_nat (length (image bs fill)) - 1 <= base ->
  ar9300_eeprom_restore_internal hw eep =
    Ok (base - (Z.of_nat (length (image bs fill)) - 4), fold_left apply_block bs (eep_bytes ar9300_default)).
Proof.
  intros Hf Ha Hfill Hne Hbs Hn -> Hw Hs Hb. set (base := if eep_9485 hw then _ else _) in *. unfold ar9300_eeprom_restore_internal. rewrite Hf.
  assert (0 <= base < AR9300_EEPROM_SIZE - 1) by (unfold base; by destruct (eep_9485 hw), (eep_9330 hw)).
  pose proof (read_eeprom_reads (nvram hw) w base ltac:(lia) Hw) as Hr.
  by apply (restore_image hw (ar9300_read_eeprom (nvram hw)) (byte_of_words 2 w) base bs fill Hfill Hne Hbs Hn Ha base _ eq_refl Hs).
Qed.

(** The structure and its bytes correspond: every structure with fields in
    their ranges is read back from its 1088 bytes, and every 1088 bytes are the
    bytes of such a structure. *)
Theorem eeprom_layout e l : cvalid ar9300_eeprom_c e = true -> length l = 1088%nat -> bytes_ok l ->
  length (eep_bytes e) = 1088%nat /\ bytes_ok (eep_bytes e) /\ dec ar9300_eeprom_c (eep_bytes e) = e /\
  cvalid ar9300_eeprom_c (dec ar9300_eeprom_c l) = true /\ eep_bytes (dec ar9300_eeprom_c l) = l.
Proof.
  intros He Hl Hb. rewrite <- eeprom_size in Hl |- *. unfold eep_bytes. split_and!; [by apply enc_size|by apply enc_bytes|by apply dec_enc|by apply dec_valid|by apply enc_dec].
Qed.

(** * Any content *)

(** Reads that never leave the buffer nor go below the address 0, with the bytes
    of the buffer. *)
Class SafeReader (read : eeprom_read_op) : Prop :=
  read_safe address buffer count : (Z.to_nat count <= length buffer)%nat -> bytes_ok buffer -> 1 <= count -> count - 1 <= address ->
    exists ok buffer', read address buffer count = Ok (ok, buffer') /\ length buffer' = length buffer /\ bytes_ok buffer'.

(** The range check that the code means to do: the bytes are read downwards. *)
Definition guarded (read : eeprom_read_op) : eeprom_read_op :=
  fun address buffer count => if count - 1 <=? address then read address buffer count else Ok (false, buffer).

Lemma put_safe bs pos mptr : bytes_ok bs -> bytes_ok mptr -> (pos + length bs <= length mptr)%nat ->
  exists mptr', put bs pos mptr = Ok mptr' /\ length mptr' = length mptr /\ bytes_ok mptr'.
Proof.
  intros Hbs Hm Hl. unfold put. rewrite (proj2 (Nat.leb_le _ _)) by done. eexists. split; [done|]. split.
  - rewrite !length_app, length_take, length_drop. lia.
  - apply Forall_app; split; [by apply Forall_take|]. apply Forall_app; split; [done|by apply Forall_drop].
Qed.

(** The uncompression writes inside the structure, whatever the block holds,
    when 257 bytes after the block belong to the buffer. *)
Lemma uncompress_safe fuel : forall block size it spot mptr, bytes_ok block -> bytes_ok mptr -> length mptr = Z.to_nat mdata_size ->
  0 <= it -> 0 <= spot -> size + 257 <= Z.of_nat (length block) -> size - it <= Z.of_nat fuel ->
  exists ok mptr', uncompress_loop fuel mdata_size block size it spot mptr = Ok (ok, mptr') /\ length mptr' = Z.to_nat mdata_size /\ bytes_ok mptr'.
Proof.
  induction fuel as [|fuel IH]; intros block size it spot mptr Hb Hm Hl Hi Hs Hsz Hf; cbn [uncompress_loop].
  - rewrite (proj2 (Z.leb_le _ _)) by lia. by do 2 eexists.
  - destruct (Z.leb_spec size it); [by do 2 eexists|].
    destruct (lookup_lt_is_Some_2 block (Z.to_nat it)) as [o Ho]; [lia|]. destruct (lookup_lt_is_Some_2 block (Z.to_nat (it + 1))) as [len Hlen]; [lia|]. rewrite Ho, Hlen.
    assert (in_u8 o /\ in_u8 len) as [Bo Bl] by (unfold bytes_ok in Hb; rewrite Forall_lookup in Hb; split; by eapply Hb). unfold in_u8 in *.
    destruct (Z.ltb_spec 0 len); [|apply IH; lia || done].
    destruct ((0 <=? spot + o) && (spot + o + len <=? mdata_size)) eqn:Ec; [|by do 2 eexists]. apply andb_prop in Ec as [_ Ec%Z.leb_le].
    set (bs := take _ _). assert (length bs = Z.to_nat len) as Hbs by (unfold bs; rewrite length_take, length_drop; lia). rewrite (proj2 (Nat.ltb_ge _ _)) by lia.
    destruct (put_safe bs (Z.to_nat (spot + o)) mptr) as (mptr' & -> & Hl' & Hm'); [unfold bs; by apply Forall_take, Forall_drop|done|rewrite Hl; unfold mdata_size in *; lia|].
    cbn [obind]. apply IH; done || lia.
Qed.

Lemma decision_safe code reference mptr word len : bytes_ok mptr -> length mptr = Z.to_nat mdata_size -> bytes_ok word -> length word = 2048%nat -> 0 <= len <= 1088 ->
  exists r mptr', ar9300_compress_decision code reference mptr word len = Ok (r, mptr') /\ length mptr' = Z.to_nat mdata_size /\ bytes_ok mptr'.
Proof.
  intros Hm Hl Hw Hwl Hlen. unfold ar9300_compress_decision.
  assert (mdata_size = 1088) as Hsz by (unfold mdata_size; by rewrite eeprom_size).
  destruct (code =? _CompressNone).
  { destruct (Z.eqb_spec len mdata_size) as [->|]; cbn [negb]; [|by do 2 eexists].
    destruct (put_safe (take (Z.to_nat mdata_size) (drop 4 word)) 0 mptr) as (mptr' & -> & Hl' & Hm');
      [by apply Forall_take, Forall_drop|done|rewrite length_take, length_drop, Hl; lia|]. cbn [obind]. do 2 eexists. split_and!; [done|by rewrite Hl'|done]. }
  destruct (code =? _CompressBlock); [|by do 2 eexists].
  assert (forall m, bytes_ok m -> length m = Z.to_nat mdata_size -> exists r mptr',
    obind (ar9300_uncompress_block m mdata_size (drop 4 word) len) (fun '(_, mptr) => Ok (0, mptr)) = Ok (r, mptr') /\ length mptr' = Z.to_nat mdata_size /\ bytes_ok mptr') as Hu.
  { intros m Hb Hml. unfold ar9300_uncompress_block.
    destruct (uncompress_safe (Z.to_nat len) (drop 4 word) len 0 0 m) as (ok & mptr' & -> & H1 & H2); [by apply Forall_drop|done|done|lia|lia|rewrite length_drop; lia|lia|].
    cbn [obind]. by do 2 eexists. }
  destruct (reference =? 0); [by apply Hu|]. destruct (ar9003_eeprom_struct_find_by_id reference) as [e|] eqn:E; [|by do 2 eexists].
  pose proof (find_valid _ _ E) as Hv. apply Hu; [by apply enc_bytes|by apply eep_bytes_length].
Qed.

Lemma length_field word : bytes_ok word -> 0 <= h_length (ar9300_comp_hdr_unpack word).
Proof.
  intros H. cbn [h_length ar9300_comp_hdr_unpack]. pose proof (bytes_nth word 1 H). pose proof (bytes_nth word 2 H).
  apply Z.lor_nonneg. split; apply Z.land_nonneg; right; done.
Qed.

(** C31. Whatever the memory holds, the restored structure stays inside its 1088
    bytes and every access to the buffers is in bounds, when the bytes below the
    address 0 are never asked for. *)
Theorem restore_safe hw read `{!SafeReader read} n : forall cptr word mptr, bytes_ok word -> length word = 2048%nat ->
  bytes_ok mptr -> length mptr = 1088%nat ->
  exists r mptr', restore_loop hw (guarded read) n cptr word mptr = Ok (r, mptr') /\ length mptr' = 1088%nat /\ bytes_ok mptr'.
Proof.
  assert (Z.to_nat mdata_size = 1088%nat) as Hsz by (unfold mdata_size; rewrite eeprom_size; done). rewrite <- !Hsz.
  induction n as [|n IH]; intros cptr word mptr Hw Hwl Hm Hl; cbn [restore_loop]; [by do 2 eexists|].
  assert (forall c buf, bytes_ok buf -> length buf = 2048%nat -> 1 <= c <= 2048 ->
    exists ok buf', guarded read cptr buf c = Ok (ok, buf') /\ length buf' = 2048%nat /\ bytes_ok buf') as Hr.
  { intros c buf Hb Hbl Hc. unfold guarded. destruct (Z.leb_spec (c - 1) cptr); [|by do 2 eexists]. rewrite <- Hbl. apply read_safe; [lia|done|lia|lia]. }
  destruct (Hr COMP_HDR_LEN word Hw Hwl) as (ok & word1 & -> & Hl1 & Hb1); [unfold COMP_HDR_LEN; lia|]. cbn [obind]. destruct ok; cbn [negb]; [|by do 2 eexists].
  destruct (ar9300_check_header word1); cbn [negb]; [|by do 2 eexists].
  pose proof (length_field word1 Hb1) as H0. set (h := ar9300_comp_hdr_unpack word1) in *. clearbody h.
  destruct (bad_length hw (h_length h)) eqn:Eb; [by apply IH|].
  assert (h_length h <= 1088) as H1.
  { unfold bad_length, EEPROM_DATA_LEN_9485 in Eb. destruct (eep_9485 hw); cbn [negb andb orb] in Eb; [apply Z.ltb_ge in Eb; lia|]. rewrite orb_false_r in Eb. apply Z.leb_gt in Eb. lia. }
  destruct (Hr (COMP_HDR_LEN + h_length h + COMP_CKSUM_LEN) word1 Hb1 Hl1) as (ok2 & word2 & -> & Hl2 & Hb2); [unfold COMP_HDR_LEN, COMP_CKSUM_LEN; lia|]. cbn [obind].
  destruct (ar9300_comp_cksum (drop 4 word2) (h_length h) =? _).
  - destruct (decision_safe (h_code h) (h_reference h) mptr word2 (h_length h)) as (r & mptr' & -> & Hl' & Hm'); [done..|]. cbn [obind]. by apply IH.
  - cbn [obind]. by apply IH.
Qed.

(** ** Readers that are safe above the address 0 *)

Lemma byte_of_safe v k : 0 <= k -> exists b, byte_of v k = Ok b /\ in_u8 b.
Proof.
  intros. unfold byte_of. rewrite (proj2 (Z.ltb_ge _ 0)) by done. eexists. split; [done|]. change 0xff with (Z.ones 8). rewrite Z.land_ones by lia.
  unfold in_u8. change 256 with (2 ^ 8). apply Z.mod_pos_bound. lia.
Qed.

#[export] Instance otp_safe (otp : Z -> option Z) : SafeReader (ar9300_read_otp otp).
Proof.
  intros a buffer count Hl Hb Hc Ha. unfold ar9300_read_otp.
  assert (forall n a pos buffer, (pos + n <= length buffer)%nat -> bytes_ok buffer -> Z.of_nat n - 1 <= a ->
    exists ok buffer', read_otp_loop otp n a pos buffer = Ok (ok, buffer') /\ length buffer' = length buffer /\ bytes_ok buffer') as H; [|apply H; [done|done|lia]].
  clear. induction n as [|n IH]; intros a pos buffer Hl Hb Ha; cbn [read_otp_loop]; [by do 2 eexists|].
  destruct (otp (cdiv a 4)) as [v|]; [|by do 2 eexists]. destruct (quot_rem a 4) as [_ ->]; [lia..|].
  destruct (byte_of_safe v (a mod 4)) as (b & -> & Hu); [apply Z.mod_pos_bound; lia|]. cbn [obind].
  destruct (put_safe [b] pos buffer) as (b1 & -> & Hl1 & Hb1); [by apply Forall_singleton|done|cbn; lia|]. cbn [obind]. rewrite <- Hl1. apply IH; [lia|done|lia].
Qed.

(** Words that can be read, or not, but without leaving an array. *)
Definition nvram_safe (src : nvram_src) : Prop := forall off, exists r, ath9k_hw_nvram_read src off = Ok r /\ forall v, r = Some v -> in_u16 v.

Lemma read_byte_safe src a pos buffer : nvram_safe src -> 0 <= a -> bytes_ok buffer -> (pos + 1 <= length buffer)%nat ->
  exists ok buffer', ar9300_eeprom_read_byte src a pos buffer = Ok (ok, buffer') /\ length buffer' = length buffer /\ bytes_ok buffer'.
Proof.
  intros Hs Ha Hb Hl. unfold ar9300_eeprom_read_byte. destruct (Hs (cdiv a 2)) as (r & -> & _). cbn [obind]. destruct r as [v|]; [|by do 2 eexists].
  destruct (quot_rem a 2) as [_ ->]; [lia..|]. destruct (byte_of_safe v (a mod 2)) as (b & -> & Hu); [apply Z.mod_pos_bound; lia|]. cbn [obind].
  destruct (put_safe [b] pos buffer) as (b1 & -> & Hl1 & Hb1); [by apply Forall_singleton|done|cbn; lia|]. cbn [obind]. by do 2 eexists.
Qed.

Lemma read_words_safe src n : nvram_safe src -> forall a pos buffer k, bytes_ok buffer -> (pos + 2 * n <= length buffer)%nat ->
  (forall buffer', length buffer' = length buffer -> bytes_ok buffer' ->
     exists ok b, k (a - 2 * Z.of_nat n) (pos + 2 * n)%nat buffer' = Ok (ok, b) /\ length b = length buffer /\ bytes_ok b) ->
  exists ok b, read_words src n a pos buffer k = Ok (ok, b) /\ length b = length buffer /\ bytes_ok b.
Proof.
  intros Hs. induction n as [|n IH]; intros a pos buffer k Hb Hl Hk; cbn [read_words].
  - specialize (Hk buffer eq_refl Hb). rewrite Z.sub_0_r, Nat.add_0_r in Hk. exact Hk.
  - unfold ar9300_eeprom_read_word. destruct (Hs (cdiv a 2)) as (r & -> & Hr). cbn [obind]. destruct r as [v|]; [|by do 2 eexists].
    specialize (Hr v eq_refl). unfold in_u16 in Hr.
    destruct (put_safe [v .>> 8; v .& 0xff] pos buffer) as (b1 & -> & Hl1 & Hb1); [|done|cbn; lia|].
    { constructor; [|constructor; [|constructor]]; unfold in_u8.
      - rewrite Z.shiftr_div_pow2 by lia. change (2 ^ 8) with 256. split; [apply Z.div_pos; lia|apply Z.div_lt_upper_bound; lia].
      - change 0xff with (Z.ones 8). rewrite Z.land_ones by lia. change 256 with (2 ^ 8). apply Z.mod_pos_bound. lia. }
    cbn [obind]. rewrite <- Hl1 in Hk, Hl |- *. apply IH; [done|lia|]. intros b' Hl' Hb'.
    replace (a - 2 - 2 * Z.of_nat n) with (a - 2 * Z.of_nat (S n)) by lia. replace (pos + 2 + 2 * n)%nat with (pos + 2 * S n)%nat by lia. by apply Hk.
Qed.

#[export] Instance eeprom_safe (src : nvram_src) : nvram_safe src -> SafeReader (ar9300_read_eeprom src).
Proof.
  intros Hs a buffer count Hl Hb Hc Ha. unfold ar9300_read_eeprom. destruct (Z.ltb_spec a 0); [by do 2 eexists|]. cbn [orb].
  destruct (_ <? _); [by do 2 eexists|].
  assert (forall a pos c buffer, bytes_ok buffer -> (pos + Z.to_nat c <= length buffer)%nat -> 0 <= c -> c - 1 <= a ->
    exists ok b, read_words src (Z.to_nat (cdiv c 2)) a pos buffer (fun address pos buffer =>
      if negb (crem c 2 =? 0) then ar9300_eeprom_read_byte src address pos buffer else Ok (true, buffer)) = Ok (ok, b) /\ length b = length buffer /\ bytes_ok b) as Hrest.
  { clear - Hs. intros a pos c buffer Hb Hl Hc Ha. destruct (quot_rem c 2) as [-> ->]; [lia..|]. pose proof (Z.mod_pos_bound c 2 ltac:(lia)). pose proof (Z.div_mod c 2 ltac:(lia)).
    assert (0 <= c / 2) by (apply Z.div_pos; lia).
    apply read_words_safe; [done|done|lia|]. intros b' Hl' Hb'. destruct (Z.eqb_spec (c mod 2) 0); cbn [negb]; [by do 2 eexists|]. rewrite <- Hl'.
    apply read_byte_safe; [done|lia|done|lia]. }
  destruct (Z.eqb_spec (crem a 2) 0) as [_|_]; [|apply (Hrest a O count buffer); [done|done|lia|lia]].
  destruct (read_byte_safe src a 0 buffer Hs) as (ok & b1 & -> & Hl1 & Hb1); [lia|done|lia|]. cbn [obind]. destruct ok; [|by do 2 eexists].
  rewrite <- Hl1. apply Hrest; [done|lia|lia|lia].
Qed.

Lemma card_safe card : (forall off v, card off = Some v -> in_u16 v) -> nvram_safe (PciCard card).
Proof. intros H off. eexists. split; [done|]. intros v. apply H. Qed.

(** * Defects *)

(** The range check looks at the address after the block, but the bytes before it
    are read: a chain of blocks that ends just above the address 0 makes the
    driver shift by a negative amount. *)
Definition low_chain (off : Z) : option Z :=
  (* a block without patches of 1015 bytes, then words of ones below it *)
  Some (if off =? 511 then 0x603f else if off =? 510 then 0x7000 else if off <? 4 then 0x0101 else 0).
Definition card_hw (card : Z -> option Z) : eep_hw :=
  {| use_flash := false; nvram := PciCard card; otp := fun _ => None; eep_9485 := false; eep_9330 := false; word_alloc := true |}.

(** There is an EEPROM whose reads all succeed on which restoring faults. *)
Theorem chain_below_zero : (forall off v, low_chain off = Some v -> in_u16 v) /\
  ar9300_eeprom_restore_internal (card_hw low_chain) (replicate 1088 0) = Oops.
Proof.
  split; [|vm_compute; reflexivity]. unfold low_chain, in_u16. intros off v [= <-].
  repeat match goal with |- context [if ?b then _ else _] => destruct b end; lia.
Qed.

(** The platform data of a PCI device is read behind its end; a blob is read
    behind its end at its size. *)
Lemma platform_data_overrun data off : 0 <= off < 4294967296 -> Z.of_nat (length data) <= off ->
  ath9k_hw_nvram_read (PciData data) off = Oops /\ ath9k_hw_nvram_read (AhbData data) off = Ok None.
Proof.
  intros Ho Hl. unfold ath9k_hw_nvram_read. rewrite u32_id by done. cbn. unfold ath_pci_eeprom_read, ath_ahb_eeprom_read, word_at.
  rewrite (proj2 (Z.leb_le _ _)) by done. by rewrite lookup_ge_None_2 by lia.
Qed.
Lemma blob_overrun data : Z.of_nat (length data) < 1073741824 ->
  ath9k_hw_nvram_read (Blob data (2 * Z.of_nat (length data))) (Z.of_nat (length data)) = Oops.
Proof.
  intros Hl. unfold ath9k_hw_nvram_read. rewrite u32_id by (unfold in_u32; lia). unfold ath9k_hw_nvram_read_blob. rewrite u32_id by (unfold in_u32; lia).
  rewrite (proj2 (Z.ltb_ge _ _)) by lia. unfold word_at. by rewrite lookup_ge_None_2 by lia.
Qed.

(** A block whose patches leave the structure has already changed it, and it
    counts as applied: the result of the uncompression is not used. *)
Definition bad_block : list Z := [2; 1; 0x55] ++ concat (replicate 3 (255 :: 255 :: replicate 255 7)).
Example bad_block_applied :
  (exists m, ar9300_uncompress_block (replicate 1088 0) mdata_size bad_block 774 = Ok (false, m)) /\
  (exists m, ar9300_compress_decision _CompressBlock 0 (replicate 1088 0) ([0; 0; 0; 0] ++ bad_block) 774 = Ok (0, m) /\ m !! 2%nat = Some 0x55).
Proof. split; eexists; [vm_compute; reflexivity|split; vm_compute; reflexivity]. Qed.

(** ** An EEPROM *)

Lemma bytes_ok_b l : forallb (in_range 0 256) l = true -> bytes_ok l.
Proof. rewrite forallb_forall. intros H. apply Forall_forall. intros x Hx. apply in_range_spec, H. by apply list_elem_of_In. Qed.

(** Two blocks: one patches the default structure, one the template 5. *)
Definition demo_blocks : list block :=
  [{| b_ref := 0; b_major := 1; b_minor := 2; b_patches := [(2, [0x00; 0x03; 0x7f; 0x11; 0x22; 0x33])] |};
   {| b_ref := 5; b_major := 1; b_minor := 3; b_patches := [(2, [0x00; 0x03; 0x7f; 0x44; 0x55; 0x66]); (20, [0x1f; 0x00])] |}].
Definition demo_bytes (a : Z) : Z := nth (Z.to_nat (AR9300_BASE_ADDR - a)) (image demo_blocks 255) 255.
Definition demo_word (off : Z) : Z := 256 * demo_bytes (2 * off + 1) + demo_bytes (2 * off).

Lemma demo_blocks_ok : Forall block_ok demo_blocks.
Proof.
  assert (mdata_size = 1088) as Hm by (unfold mdata_size; by rewrite eeprom_size).
  unfold demo_blocks. rewrite !Forall_cons, Forall_nil. unfold block_ok, block_len, body. cbn. rewrite Hm. unfold in_u8.
  split_and!; try lia; try (apply bytes_ok_b; reflexivity). right. split; [lia|]. vm_compute. discriminate.
Qed.

Lemma eeprom_restored_witness : exists eep, ar9300_eeprom_restore_internal (card_hw (fun off => Some (demo_word off))) [] = Ok (AR9300_BASE_ADDR - (Z.of_nat (length (image demo_blocks 255)) - 4), eep) /\
  macAddr (dec ar9300_eeprom_c eep) = [0x00; 0x03; 0x7f; 0x44; 0x55; 0x66].
Proof.
  eexists. split.
  - apply (eeprom_restored (card_hw (fun off => Some (demo_word off))) demo_word demo_blocks 255 AR9300_BASE_ADDR []);
      [done|done|by right|discriminate|exact demo_blocks_ok|cbv; lia|done| |vm_compute; reflexivity|vm_compute; discriminate].
    intros off Hoff. assert (0 <= off <= 511) as Ho by (change (AR9300_BASE_ADDR / 2) with 511 in Hoff; lia). split.
    + unfold ath9k_hw_nvram_read. cbn [nvram card_hw]. by rewrite u32_id by (unfold in_u32; lia).
    + assert (forallb (fun o => in_range 0 65536 (demo_word o)) (seqZ 0 512) = true) as H by (vm_compute; reflexivity).
      rewrite forallb_forall in H. specialize (H off). rewrite <- list_elem_of_In, elem_of_seqZ, in_range_spec in H. apply H. lia.
  - vm_compute. reflexivity.
Defined.

Lemma eeprom_layout_witness : dec ar9300_eeprom_c (eep_bytes ar9300_default) = ar9300_default.
Proof. apply (eeprom_layout ar9300_default (replicate 1088 0)); [vm_compute; reflexivity|done|]. apply Forall_replicate. split; done. Defined.

Lemma low_chain_safe : SafeReader (ar9300_read_eeprom (PciCard low_chain)).
Proof.
  apply eeprom_safe, card_safe. unfold low_chain, in_u16. intros off v [= <-].
  repeat match goal with |- context [if ?b then _ else _] => destruct b end; lia.
Qed.
Lemma restore_safe_witness : exists r mptr', restore_loop (card_hw low_chain) (guarded (ar9300_read_eeprom (PciCard low_chain))) MSTATE AR9300_BASE_ADDR
  (replicate 2048 0) (replicate 1088 0) = Ok (r, mptr') /\ length mptr' = 1088%nat.
Proof.
  pose proof low_chain_safe as HS.
  assert (forall n, bytes_ok (replicate n 0)) as H0 by (intros; apply Forall_replicate; split; done).
  destruct (restore_safe (card_hw low_chain) (ar9300_read_eeprom (PciCard low_chain)) MSTATE AR9300_BASE_ADDR (replicate 2048 0) (replicate 1088 0))
    as (r & m & E & L & _); [apply H0|apply length_replicate|apply H0|apply length_replicate|].
  exists r, m. split; assumption.
Defined.
