(* ===== verification/TxPower.v ===== *)
(** The transmit power of the AR9300 chips (src/real/ath/ath9k/ar9003_eeprom.c,
    with the limits of eeprom.c, the table of rates of ar9003_phy.c and the choice
    of the power of a frame in xmit.c).

    Powers are in half dB. The target power of a rate is interpolated between the
    piers of the EEPROM; the conformance limits (CTL) of the regulatory domain, the
    number of chains and the limit of the caller lower it; the result goes into
    registers and into the table for the power of single frames. *)

From S2P Require Import Prelude KeyCache Desc RxFrame HwTiming EepLayout EepTemplates.

(** * Rates *)

Definition ALL_TARGET_LEGACY_6_24 : nat := 0.
Definition ALL_TARGET_LEGACY_36 : nat := 1.
Definition ALL_TARGET_LEGACY_48 : nat := 2.
Definition ALL_TARGET_LEGACY_54 : nat := 3.
Definition ALL_TARGET_LEGACY_1L_5L : nat := 4.
Definition ALL_TARGET_LEGACY_5S : nat := 5.
Definition ALL_TARGET_LEGACY_11L : nat := 6.
Definition ALL_TARGET_LEGACY_11S : nat := 7.
Definition ALL_TARGET_HT20_0_8_16 : nat := 8.
Definition ALL_TARGET_HT20_1_3_9_11_17_19 : nat := 9.
Definition ALL_TARGET_HT20_4 : nat := 10.
Definition ALL_TARGET_HT20_5 : nat := 11.
Definition ALL_TARGET_HT20_6 : nat := 12.
Definition ALL_TARGET_HT20_7 : nat := 13.
Definition ALL_TARGET_HT20_12 : nat := 14.
Definition ALL_TARGET_HT20_13 : nat := 15.
Definition ALL_TARGET_HT20_14 : nat := 16.
Definition ALL_TARGET_HT20_15 : nat := 17.
Definition ALL_TARGET_HT20_20 : nat := 18.
Definition ALL_TARGET_HT20_21 : nat := 19.
Definition ALL_TARGET_HT20_22 : nat := 20.
Definition ALL_TARGET_HT20_23 : nat := 21.
Definition ALL_TARGET_HT40_0_8_16 : nat := 22.
Definition ALL_TARGET_HT40_1_3_9_11_17_19 : nat := 23.
Definition ALL_TARGET_HT40_4 : nat := 24.
Definition ALL_TARGET_HT40_5 : nat := 25.
Definition ALL_TARGET_HT40_6 : nat := 26.
Definition ALL_TARGET_HT40_7 : nat := 27.
Definition ALL_TARGET_HT40_12 : nat := 28.
Definition ALL_TARGET_HT40_13 : nat := 29.
Definition ALL_TARGET_HT40_14 : nat := 30.
Definition ALL_TARGET_HT40_15 : nat := 31.
Definition ALL_TARGET_HT40_20 : nat := 32.
Definition ALL_TARGET_HT40_21 : nat := 33.
Definition ALL_TARGET_HT40_22 : nat := 34.
Definition ALL_TARGET_HT40_23 : nat := 35.
Definition ar9300RateSize : nat := 36.
Definition LEGACY_TARGET_RATE_6_24 : nat := 0.
Definition LEGACY_TARGET_RATE_36 : nat := 1.
Definition LEGACY_TARGET_RATE_48 : nat := 2.
Definition LEGACY_TARGET_RATE_54 : nat := 3.
Definition LEGACY_TARGET_RATE_1L_5L : nat := 0.
Definition LEGACY_TARGET_RATE_5S : nat := 1.
Definition LEGACY_TARGET_RATE_11L : nat := 2.
Definition LEGACY_TARGET_RATE_11S : nat := 3.
Definition HT_TARGET_RATE_0_8_16 : nat := 0.
Definition HT_TARGET_RATE_1_3_9_11_17_19 : nat := 1.
Definition HT_TARGET_RATE_4 : nat := 2.
Definition HT_TARGET_RATE_5 : nat := 3.
Definition HT_TARGET_RATE_6 : nat := 4.
Definition HT_TARGET_RATE_7 : nat := 5.
Definition HT_TARGET_RATE_12 : nat := 6.
Definition HT_TARGET_RATE_13 : nat := 7.
Definition HT_TARGET_RATE_14 : nat := 8.
Definition HT_TARGET_RATE_15 : nat := 9.
Definition HT_TARGET_RATE_20 : nat := 10.
Definition HT_TARGET_RATE_21 : nat := 11.
Definition HT_TARGET_RATE_22 : nat := 12.
Definition HT_TARGET_RATE_23 : nat := 13.

Definition AR9300_NUM_5G_CAL_PIERS : nat := 8.
Definition AR9300_NUM_2G_CAL_PIERS : nat := 3.
Definition AR9300_NUM_BAND_EDGES_5G : nat := 8.
Definition AR9300_NUM_BAND_EDGES_2G : nat := 4.
Definition AR9300_MAX_CHAINS : nat := 3.
Definition MAX_RATE_POWER : Z := 63.
Definition SD_NO_CTL : Z := 0xE0.
Definition CTL_MODE_M : Z := 0xf.
Definition CTL_11A : Z := 0.
Definition CTL_11B : Z := 1.
Definition CTL_11G : Z := 2.
Definition CTL_2GHT20 : Z := 5.
Definition CTL_5GHT20 : Z := 6.
Definition CTL_2GHT40 : Z := 7.
Definition CTL_5GHT40 : Z := 8.
Definition EXT_ADDITIVE : Z := 0x8000.
Definition CTL_11A_EXT : Z := CTL_11A .| EXT_ADDITIVE.
Definition CTL_11G_EXT : Z := CTL_11G .| EXT_ADDITIVE.
Definition CTL_11B_EXT : Z := CTL_11B .| EXT_ADDITIVE.
Definition SUB_NUM_CTL_MODES_AT_5G_40 : nat := 2.
Definition SUB_NUM_CTL_MODES_AT_2G_40 : nat := 3.
Definition POWER_CORRECTION_FOR_TWO_CHAIN : Z := 6.
Definition POWER_CORRECTION_FOR_THREE_CHAIN : Z := 10.
Definition HT40_CHANNEL_CENTER_SHIFT : Z := 10.
Definition CHANNEL_HT : Z := BIT 3.

Record ath9k_channel := { channel : Z; channelFlags : Z }.
Definition chan_2ghz (chan : ath9k_channel) : bool := IS_CHAN_2GHZ (channelFlags chan).
Definition chan_ht40 (chan : ath9k_channel) : bool := IS_CHAN_HT40 (channelFlags chan).
Definition chan_ht20 (chan : ath9k_channel) : bool := has (channelFlags chan) CHANNEL_HT && negb (chan_ht40 chan).

(** * Interpolation *)

Definition interpolate (x xa xb ya yb : Z) : Z :=
  let bf := cdiv (2 * (yb - ya) * (x - xa)) (xb - xa) in
  ya + cdiv bf 2 + crem bf 2.

(** The best piers so far below and above the frequency, each with its value. *)
Record neighbours := { lower : option (Z * Z); higher : option (Z * Z) }.
Definition pier_round (x : Z) (s : neighbours) (p : Z * Z) : neighbours :=
  let dx := x - fst p in
  {| higher := if (dx <=? 0) && match higher s with None => true | Some h => x - fst h <? dx end then Some p else higher s;
     lower := if (0 <=? dx) && match lower s with None => true | Some l => dx <? x - fst l end then Some p else lower s |}.
Definition ar9003_hw_power_interpolate (x : Z) (px py : list Z) : Z :=
  let s := fold_left (pier_round x) (zip px py) {| lower := None; higher := None |} in
  match lower s, higher s with
  | Some l, Some h => if fst h =? fst l then snd l else interpolate x (fst l) (fst h) (snd l) (snd h)
  | Some l, None => snd l
  | None, Some h => snd h
  | None, None => - 2 ^ 30
  end.

(** * Target powers *)

Definition tgt_pwr (pFreqBin : list Z) (pEepromTargetPwr : list (list Z)) (rateIndex : nat) (freq : Z) (is2GHz : bool) : Z :=
  u8 (ar9003_hw_power_interpolate freq ((fun b => ath9k_hw_fbin2freq b is2GHz) <$> pFreqBin) ((fun t => nth rateIndex t 0) <$> pEepromTargetPwr)).
Definition ar9003_hw_eeprom_get_tgt_pwr (eep : ar9300_eeprom) (rateIndex : nat) (freq : Z) (is2GHz : bool) : Z :=
  if is2GHz then tgt_pwr (calTarget_freqbin_2G eep) (calTargetPower2G eep) rateIndex freq is2GHz
  else tgt_pwr (calTarget_freqbin_5G eep) (calTargetPower5G eep) rateIndex freq is2GHz.
Definition ar9003_hw_eeprom_get_ht20_tgt_pwr (eep : ar9300_eeprom) (rateIndex : nat) (freq : Z) (is2GHz : bool) : Z :=
  if is2GHz then tgt_pwr (calTarget_freqbin_2GHT20 eep) (calTargetPower2GHT20 eep) rateIndex freq is2GHz
  else tgt_pwr (calTarget_freqbin_5GHT20 eep) (calTargetPower5GHT20 eep) rateIndex freq is2GHz.
Definition ar9003_hw_eeprom_get_ht40_tgt_pwr (eep : ar9300_eeprom) (rateIndex : nat) (freq : Z) (is2GHz : bool) : Z :=
  if is2GHz then tgt_pwr (calTarget_freqbin_2GHT40 eep) (calTargetPower2GHT40 eep) rateIndex freq is2GHz
  else tgt_pwr (calTarget_freqbin_5GHT40 eep) (calTargetPower5GHT40 eep) rateIndex freq is2GHz.
Definition ar9003_hw_eeprom_get_cck_tgt_pwr (eep : ar9300_eeprom) (rateIndex : nat) (freq : Z) : Z :=
  tgt_pwr (calTarget_freqbin_Cck eep) (calTargetPowerCck eep) rateIndex freq true.

(** The assignments [targetPowerValT2[ALL_TARGET_...] = ...(..._TARGET_RATE_...)]. *)
Definition set_rates (get : nat -> Z) (rates : list (nat * nat)) (pwr : list Z) : list Z :=
  fold_left (fun pwr r => <[fst r := get (snd r)]> pwr) rates pwr.
Definition legacy_rates : list (nat * nat) :=
  [(ALL_TARGET_LEGACY_6_24, LEGACY_TARGET_RATE_6_24); (ALL_TARGET_LEGACY_36, LEGACY_TARGET_RATE_36);
   (ALL_TARGET_LEGACY_48, LEGACY_TARGET_RATE_48); (ALL_TARGET_LEGACY_54, LEGACY_TARGET_RATE_54)].
Definition cck_rates : list (nat * nat) :=
  [(ALL_TARGET_LEGACY_1L_5L, LEGACY_TARGET_RATE_1L_5L); (ALL_TARGET_LEGACY_5S, LEGACY_TARGET_RATE_5S);
   (ALL_TARGET_LEGACY_11L, LEGACY_TARGET_RATE_11L); (ALL_TARGET_LEGACY_11S, LEGACY_TARGET_RATE_11S)].
Definition ht20_rates : list (nat * nat) :=
  [(ALL_TARGET_HT20_0_8_16, HT_TARGET_RATE_0_8_16); (ALL_TARGET_HT20_1_3_9_11_17_19, HT_TARGET_RATE_1_3_9_11_17_19);
   (ALL_TARGET_HT20_4, HT_TARGET_RATE_4); (ALL_TARGET_HT20_5, HT_TARGET_RATE_5); (ALL_TARGET_HT20_6, HT_TARGET_RATE_6);
   (ALL_TARGET_HT20_7, HT_TARGET_RATE_7); (ALL_TARGET_HT20_12, HT_TARGET_RATE_12); (ALL_TARGET_HT20_13, HT_TARGET_RATE_13);
   (ALL_TARGET_HT20_14, HT_TARGET_RATE_14); (ALL_TARGET_HT20_15, HT_TARGET_RATE_15); (ALL_TARGET_HT20_20, HT_TARGET_RATE_20);
   (ALL_TARGET_HT20_21, HT_TARGET_RATE_21); (ALL_TARGET_HT20_22, HT_TARGET_RATE_22); (ALL_TARGET_HT20_23, HT_TARGET_RATE_23)].
Definition ht40_rates : list (nat * nat) :=
  [(ALL_TARGET_HT40_0_8_16, HT_TARGET_RATE_0_8_16); (ALL_TARGET_HT40_1_3_9_11_17_19, HT_TARGET_RATE_1_3_9_11_17_19);
   (ALL_TARGET_HT40_4, HT_TARGET_RATE_4); (ALL_TARGET_HT40_5, HT_TARGET_RATE_5); (ALL_TARGET_HT40_6, HT_TARGET_RATE_6);
   (ALL_TARGET_HT40_7, HT_TARGET_RATE_7); (ALL_TARGET_HT40_12, HT_TARGET_RATE_12); (ALL_TARGET_HT40_13, HT_TARGET_RATE_13);
   (ALL_TARGET_HT40_14, HT_TARGET_RATE_14); (ALL_TARGET_HT40_15, HT_TARGET_RATE_15); (ALL_TARGET_HT40_20, HT_TARGET_RATE_20);
   (ALL_TARGET_HT40_21, HT_TARGET_RATE_21); (ALL_TARGET_HT40_22, HT_TARGET_RATE_22); (ALL_TARGET_HT40_23, HT_TARGET_RATE_23)].
Definition ar9003_hw_get_legacy_target_powers (eep : ar9300_eeprom) (freq : Z) (is2GHz : bool) : list Z -> list Z :=
  set_rates (fun r => ar9003_hw_eeprom_get_tgt_pwr eep r freq is2GHz) legacy_rates.
Definition ar9003_hw_get_cck_target_powers (eep : ar9300_eeprom) (freq : Z) : list Z -> list Z :=
  set_rates (fun r => ar9003_hw_eeprom_get_cck_tgt_pwr eep r freq) cck_rates.
Definition ar9003_hw_get_ht20_target_powers (eep : ar9300_eeprom) (freq : Z) (is2GHz : bool) : list Z -> list Z :=
  set_rates (fun r => ar9003_hw_eeprom_get_ht20_tgt_pwr eep r freq is2GHz) ht20_rates.
Definition ar9003_hw_get_ht40_target_powers (eep : ar9300_eeprom) (freq : Z) (is2GHz : bool) : list Z -> list Z :=
  let ht40PowerIncForPdadc := 0 in
  set_rates (fun r => u8 (ar9003_hw_eeprom_get_ht40_tgt_pwr eep r freq is2GHz + ht40PowerIncForPdadc)) ht40_rates.
Definition ar9003_hw_get_target_power_eeprom (eep : ar9300_eeprom) (chan : ath9k_channel) (pwr : list Z) : list Z :=
  let is2GHz := chan_2ghz chan in
  let freq := channel chan in
  let pwr := if is2GHz then ar9003_hw_get_cck_target_powers eep freq pwr else pwr in
  let pwr := ar9003_hw_get_legacy_target_powers eep freq is2GHz pwr in
  let pwr := ar9003_hw_get_ht20_target_powers eep freq is2GHz pwr in
  if chan_ht40 chan then ar9003_hw_get_ht40_target_powers eep freq is2GHz pwr else pwr.

(** * Conformance limits *)

Definition ctl_edges (eep : ar9300_eeprom) (idx : nat) (is2GHz : bool) : list Z :=
  nth idx (if is2GHz then ctlPowerData_2G eep else ctlPowerData_5G eep) [].
Definition ctl_freqbin (eep : ar9300_eeprom) (idx : nat) (is2GHz : bool) : list Z :=
  nth idx (if is2GHz then ctl_freqbin_2G eep else ctl_freqbin_5G eep) [].

Definition ar9003_hw_get_direct_edge_power (eep : ar9300_eeprom) (idx edge : nat) (is2GHz : bool) : Z :=
  CTL_EDGE_TPOWER (nth edge (ctl_edges eep idx is2GHz) 0).
Definition ar9003_hw_get_indirect_edge_power (eep : ar9300_eeprom) (idx edge : nat) (freq : Z) (is2GHz : bool) : Z :=
  let ctl := nth (edge - 1) (ctl_edges eep idx is2GHz) 0 in
  if (ath9k_hw_fbin2freq (nth (edge - 1) (ctl_freqbin eep idx is2GHz) 0) is2GHz <? freq) && negb (CTL_EDGE_FLAGS ctl =? 0) then CTL_EDGE_TPOWER ctl
  else MAX_RATE_POWER.

(** The loop from [edge] on, with [n] edges left. *)
Fixpoint edge_loop (eep : ar9300_eeprom) (freq : Z) (idx : nat) (is2GHz : bool) (n edge : nat) : Z :=
  match n with
  | O => MAX_RATE_POWER
  | S n =>
      let bin := nth edge (ctl_freqbin eep idx is2GHz) 0 in
      if bin =? AR5416_BCHAN_UNUSED then MAX_RATE_POWER
      else if freq =? ath9k_hw_fbin2freq bin is2GHz then ar9003_hw_get_direct_edge_power eep idx edge is2GHz
      else if (0 <? edge)%nat && (freq <? ath9k_hw_fbin2freq bin is2GHz) then ar9003_hw_get_indirect_edge_power eep idx edge freq is2GHz
      else edge_loop eep freq idx is2GHz n (S edge)
  end.
Definition ar9003_hw_get_max_edge_power (eep : ar9300_eeprom) (freq : Z) (idx : nat) (is2GHz : bool) : Z :=
  let num_edges := if is2GHz then AR9300_NUM_BAND_EDGES_2G else AR9300_NUM_BAND_EDGES_5G in
  let twiceMaxEdgePower := edge_loop eep freq idx is2GHz num_edges 0 in
  if is2GHz && (twiceMaxEdgePower =? 0) then 60 else twiceMaxEdgePower.

(** The loop over the indices [ctlIndex[i ..]]. *)
Definition ctl_matches (cfgCtl mode ctl : Z) : bool :=
  let group := clr cfgCtl CTL_MODE_M .| (mode .& CTL_MODE_M) in
  (group =? ctl) || (group =? ((ctl .& CTL_MODE_M) .| SD_NO_CTL)).
Fixpoint ctl_loop (eep : ar9300_eeprom) (freq : Z) (is2GHz : bool) (cfgCtl mode : Z) (ctlIndex : list Z) (i : nat) (twiceMaxEdgePower : Z) : Z :=
  match ctlIndex with
  | [] => twiceMaxEdgePower
  | ctl :: rest =>
      if ctl =? 0 then twiceMaxEdgePower
      else if ctl_matches cfgCtl mode ctl then
        let twiceMinEdgePower := ar9003_hw_get_max_edge_power eep freq i is2GHz in
        if clr cfgCtl CTL_MODE_M =? SD_NO_CTL then
          ctl_loop eep freq is2GHz cfgCtl mode rest (S i) (Z.min twiceMaxEdgePower twiceMinEdgePower)
        else twiceMinEdgePower
      else ctl_loop eep freq is2GHz cfgCtl mode rest (S i) twiceMaxEdgePower
  end.

Record chan_centers := { synth_center : Z; ctl_center : Z; ext_center : Z }.
Definition ath9k_hw_get_channel_centers (chan : ath9k_channel) : chan_centers :=
  if negb (chan_ht40 chan) then {| synth_center := channel chan; ctl_center := channel chan; ext_center := channel chan |}
  else
    let '(synth, extoff) := if has (channelFlags chan) CHANNEL_HT40PLUS then (u16 (channel chan + HT40_CHANNEL_CENTER_SHIFT), 1)
                            else (u16 (channel chan - HT40_CHANNEL_CENTER_SHIFT), -1) in
    {| synth_center := synth; ctl_center := u16 (synth - extoff * HT40_CHANNEL_CENTER_SHIFT); ext_center := u16 (synth + extoff * HT40_CHANNEL_CENTER_SHIFT) |}.

Definition ar5416_get_ntxchains (txchainmask : Z) : Z := (txchainmask .>> 2 .& 1) + (txchainmask .>> 1 .& 1) + (txchainmask .& 1).
Definition power_correction (txchainmask : Z) : Z :=
  let n := ar5416_get_ntxchains txchainmask in
  if n =? 2 then POWER_CORRECTION_FOR_TWO_CHAIN else if n =? 3 then POWER_CORRECTION_FOR_THREE_CHAIN else 0.
Definition ath9k_hw_get_scaled_power (txchainmask power_limit antenna_reduction : Z) : Z :=
  let reduction := u16 (antenna_reduction + power_correction txchainmask) in
  if reduction <? power_limit then power_limit - reduction else 0.

(** * The state *)

Record pwr_hw := {
  pw_common : ath_common;
  ar9300_eep : ar9300_eeprom;
  txchainmask : Z;
  caps_tx_chainmask : Z;
  pw_9340 : bool;
  pw_9550 : bool;
  pw_9531_9561 : bool;                   (* AR_SREV_9531 || AR_SREV_9561 *)
  pw_9462_20 : bool;                     (* AR_SREV_9462_20_OR_LATER *)
  paprd_mcs7 : bool;                     (* AR_SREV_9330, 9340, 9462 or 9565 *)
  mci_enabled : bool;                    (* ath9k_hw_mci_is_enabled *)
  concur_tx : bool;                      (* btcoex_hw.mci.concur_tx *)
  paprd_enabled : bool;                  (* ar9003_is_paprd_enabled *)
  paprd_table_write_done : bool;
  paprd_ratemask : Z;
  paprd_ratemask_ht40 : Z;
  paprd_target_power : Z;
  tpc_enabled : bool;
  tx_power : list Z;                     (* Ar5416RateSize entries *)
  tx_power_stbc : list Z;
  max_power_level : Z;                   (* of struct ath_regulatory, u16 *)
}.
#[export] Instance eta_pwr_hw : Eta pwr_hw := fun r =>
  Build_pwr_hw (pw_common r) (ar9300_eep r) (txchainmask r) (caps_tx_chainmask r) (pw_9340 r) (pw_9550 r) (pw_9531_9561 r) (pw_9462_20 r) (paprd_mcs7 r)
    (mci_enabled r) (concur_tx r) (paprd_enabled r) (paprd_table_write_done r) (paprd_ratemask r) (paprd_ratemask_ht40 r) (paprd_target_power r)
    (tpc_enabled r) (tx_power r) (tx_power_stbc r) (max_power_level r).

Definition ar9003_mci_get_max_txpower (concur_tx : bool) (ctlmode : Z) : Z :=
  if negb concur_tx then u16 (-1)
  else if ctlmode =? CTL_2GHT20 then 0x14 else if ctlmode =? CTL_2GHT40 then 0x10 else u16 (-1).

(** * The limited powers *)

(** [for (i = first; i <= last; i++) pPwrArray[i] = f(pPwrArray[i])]. *)
Definition map_rates (first last : nat) (f : Z -> Z) (pwr : list Z) : list Z := fold_left (fun pwr i => alter f i pwr) (seq first (S last - first)) pwr.

Definition ctlModesFor11a : list Z := [CTL_11A; CTL_5GHT20; CTL_11A_EXT; CTL_5GHT40].
Definition ctlModesFor11g : list Z := [CTL_11B; CTL_11G; CTL_2GHT20; CTL_11B_EXT; CTL_11G_EXT; CTL_2GHT40].
Definition ctl_modes (chan : ath9k_channel) : list Z :=
  let '(modes, sub) := if chan_2ghz chan then (ctlModesFor11g, SUB_NUM_CTL_MODES_AT_2G_40) else (ctlModesFor11a, SUB_NUM_CTL_MODES_AT_5G_40) in
  if chan_ht40 chan then modes else take (length modes - sub) modes.

Definition is_ht40_mode (mode : Z) : bool := (mode =? CTL_5GHT40) || (mode =? CTL_2GHT40).
Definition is_ht20_mode (mode : Z) : bool := (mode =? CTL_5GHT20) || (mode =? CTL_2GHT20).
Definition ctl_freq (c : chan_centers) (mode : Z) : Z :=
  if is_ht40_mode mode then synth_center c else if has mode EXT_ADDITIVE then ext_center c else ctl_center c.

(** [minCtlPower]: the limit of a mode. *)
Definition min_ctl_power (eep : ar9300_eeprom) (chan : ath9k_channel) (cfgCtl scaledPower mode : Z) : Z :=
  let is2ghz := chan_2ghz chan in
  let freq := ctl_freq (ath9k_hw_get_channel_centers chan) mode in
  u8 (Z.min (ctl_loop eep freq is2ghz cfgCtl mode (if is2ghz then ctlIndex_2G eep else ctlIndex_5G eep) 0 MAX_RATE_POWER) scaledPower).

Definition ctl_mode_round (ah : pwr_hw) (chan : ath9k_channel) (cfgCtl scaledPower : Z) (pwr : list Z) (mode : Z) : list Z :=
  let minCtlPower := min_ctl_power (ar9300_eep ah) chan cfgCtl scaledPower mode in
  let lower p := u8 (Z.min p minCtlPower) in
  let lower_ht p := if mci_enabled ah then u8 (Z.min (lower p) (ar9003_mci_get_max_txpower (concur_tx ah) (u8 mode))) else lower p in
  if mode =? CTL_11B then map_rates ALL_TARGET_LEGACY_1L_5L ALL_TARGET_LEGACY_11S lower pwr
  else if (mode =? CTL_11A) || (mode =? CTL_11G) then map_rates ALL_TARGET_LEGACY_6_24 ALL_TARGET_LEGACY_54 lower pwr
  else if is_ht20_mode mode then map_rates ALL_TARGET_HT20_0_8_16 ALL_TARGET_HT20_23 lower_ht pwr
  else if is_ht40_mode mode then map_rates ALL_TARGET_HT40_0_8_16 ALL_TARGET_HT40_23 lower_ht pwr
  else pwr.
Definition ar9003_hw_set_power_per_rate_table (ah : pwr_hw) (chan : ath9k_channel) (cfgCtl antenna_reduction powerLimit : Z) (pwr : list Z) : list Z :=
  let scaledPower := ath9k_hw_get_scaled_power (txchainmask ah) powerLimit antenna_reduction in
  fold_left (ctl_mode_round ah chan cfgCtl scaledPower) (ctl_modes chan) pwr.

(** * Calibration *)

Definition AR_SM_BASE : Z := 0xa200.
Definition AR_SM1_BASE : Z := 0xb200.
Definition AR_SM2_BASE : Z := 0xc200.
Definition AR_PHY_POWER_TX_RATE (d : Z) : Z := AR_SM_BASE + 0x1c0 + (d .<< 2).
Definition AR_PHY_PWRTX_MAX : Z := AR_SM_BASE + 0x1f0.
Definition AR_PHY_POWER_TX_SUB : Z := AR_SM_BASE + 0x1f4.
Definition AR_PHY_POWER_TX_RATE_MAX_TPC_ENABLE : Z := 0x00000040.
Definition AR_PHY_TPC_6_B0 : Z := AR_SM_BASE + 0x20c.
Definition AR_PHY_TPC_6_B1 : Z := AR_SM1_BASE + 0x20c.
Definition AR_PHY_TPC_6_B2 : Z := AR_SM2_BASE + 0x20c.
Definition AR_PHY_TPC_6_ERROR_EST_MODE : field := {| f_mask := 0x03000000; f_S := 24 |}.
Definition AR_PHY_TPC_11_B0 : Z := AR_SM_BASE + 0x220.
Definition AR_PHY_TPC_11_B1 : Z := AR_SM1_BASE + 0x220.
Definition AR_PHY_TPC_11_B2 : Z := AR_SM2_BASE + 0x220.
Definition AR_PHY_TPC_OLPC_GAIN_DELTA : field := {| f_mask := 0x00FF0000; f_S := 16 |}.
Definition AR_PHY_TPC_OLPC_GAIN_DELTA_PAL_ON : field := {| f_mask := 0xFF000000; f_S := 24 |}.
Definition AR_PHY_TPC_18 : Z := AR_SM_BASE + 0x23c.
Definition AR_PHY_TPC_18_THERM_CAL_VALUE : field := {| f_mask := 0x000000ff; f_S := 0 |}.
Definition AR_PHY_TPC_19 : Z := AR_SM_BASE + 0x240.
Definition AR_PHY_TPC_19_B1 : Z := AR_SM1_BASE + 0x240.
Definition AR_PHY_TPC_19_B2 : Z := AR_SM2_BASE + 0x240.
Definition AR_PHY_TPC_19_ALPHA_THERM : field := {| f_mask := 0xff; f_S := 0 |}.
Definition AR_PHY_TPC_19_B1_ALPHA_THERM : field := {| f_mask := 0xff; f_S := 0 |}.
Definition AR_PHY_TX_FORCED_GAIN : Z := AR_SM_BASE + 0x258.
Definition AR_TPC : Z := 0x80e8.
Definition AR_TPC_ACK : field := {| f_mask := 0x0000003f; f_S := 0 |}.
Definition AR_TPC_CTS : field := {| f_mask := 0x00003f00; f_S := 8 |}.
Definition AR_TPC_CHIRP : field := {| f_mask := 0x003f0000; f_S := 16 |}.
Definition AR_TPC_RPT : field := {| f_mask := 0x3f000000; f_S := 24 |}.

(** A pier: its frequency, correction, temperature and voltage. *)
Record cal_pier := { p_freq : Z; p_correction : Z; p_temperature : Z; p_voltage : Z }.
Definition zero_cal : ar9300_cal_data_per_freq_op_loop := cal_data 0 0 0 0 0 0.
Definition ar9003_hw_cal_pier_get (eep : ar9300_eeprom) (mode : bool) (ipier ichain : nat) : option cal_pier :=
  if (AR9300_MAX_CHAINS <=? ichain)%nat then None
  else if ((if mode then AR9300_NUM_5G_CAL_PIERS else AR9300_NUM_2G_CAL_PIERS) <=? ipier)%nat then None
  else
    let pCalPier := nth ipier (if mode then calFreqPier5G eep else calFreqPier2G eep) 0 in
    let s := nth ipier (nth ichain (if mode then calPierData5G eep else calPierData2G eep) []) zero_cal in
    Some {| p_freq := ath9k_hw_fbin2freq pCalPier (negb mode); p_correction := refPower s; p_temperature := tempMeas s; p_voltage := voltMeas s |}.

(** The best piers of a chain; the values of a pier that has not been found are
    not initialised. *)
Record cal_search := { lfrequency : Z; ldata : option cal_pier; hfrequency : Z; hdata : option cal_pier }.
Definition cal_round (frequency : Z) (s : cal_search) (p : cal_pier) : cal_search :=
  let fdiff := frequency - p_freq p in
  let h := (fdiff <=? 0) && ((hfrequency s <=? 0) || (100000 <=? hfrequency s) || (frequency - hfrequency s <? fdiff)) in
  let l := (0 <=? fdiff) && ((lfrequency s <=? 0) || (fdiff <? frequency - lfrequency s)) in
  {| hfrequency := if h then p_freq p else hfrequency s; hdata := if h then Some p else hdata s;
     lfrequency := if l then p_freq p else lfrequency s; ldata := if l then Some p else ldata s |}.
Definition find_piers (eep : ar9300_eeprom) (frequency : Z) (mode : bool) (ichain : nat) : cal_search :=
  fold_left (fun s ipier => match ar9003_hw_cal_pier_get eep mode ipier ichain with Some p => cal_round frequency s p | None => s end)
    (seq 0 (if mode then AR9300_NUM_5G_CAL_PIERS else AR9300_NUM_2G_CAL_PIERS))
    {| lfrequency := 0; ldata := None; hfrequency := 100000; hdata := None |}.

(** The value [get] of the piers at the frequency; [Oops] when an array entry is
    used that was not written. *)
Definition initialised (o : option cal_pier) : outcome cal_pier := match o with Some p => Ok p | None => Oops end.
Definition cal_value (frequency : Z) (s : cal_search) (get : cal_pier -> Z) : outcome Z :=
  if hfrequency s =? lfrequency s then obind (initialised (ldata s)) (fun l => Ok (get l))
  else if frequency - lfrequency s <? 1000 then
    if hfrequency s - frequency <? 1000 then
      obind (initialised (ldata s)) (fun l => obind (initialised (hdata s)) (fun h =>
      Ok (interpolate frequency (lfrequency s) (hfrequency s) (get l) (get h))))
    else obind (initialised (ldata s)) (fun l => Ok (get l))
  else if hfrequency s - frequency <? 1000 then obind (initialised (hdata s)) (fun h => Ok (get h))
  else Ok 0.

(** [temp_slope], [temp_slope1] and [temp_slope2]. *)
Definition temp_slopes (ah : pwr_hw) (frequency : Z) : Z * Z * Z :=
  let eep := ar9300_eep ah in
  let ext i := nth i (tempslopextension (base_ext1 eep)) 0 in
  let main := tempSlope (modalHeader5G eep) in
  if frequency <? 4000 then (tempSlope (modalHeader2G eep), 0, 0)
  else if pw_9550 ah then
    let f := [5180; 5500; 5785] in
    (ar9003_hw_power_interpolate frequency f [ext 2%nat; main; ext 5%nat],
     ar9003_hw_power_interpolate frequency f [ext 3%nat; ext 0%nat; ext 6%nat],
     ar9003_hw_power_interpolate frequency f [ext 4%nat; ext 1%nat; ext 7%nat])
  else if has (miscConfiguration (baseEepHeader eep)) 0x20 then
    (ar9003_hw_power_interpolate frequency ((fun b => 4800 + 5 * b) <$> calFreqPier5G eep) (tempslopextension (base_ext1 eep)), 0, 0)
  else if negb (tempSlopeLow (base_ext2 eep) =? 0) then
    (ar9003_hw_power_interpolate frequency [5180; 5500; 5785] [tempSlopeLow (base_ext2 eep); main; tempSlopeHigh (base_ext2 eep)], 0, 0)
  else (main, 0, 0).

Definition on (b : bool) (f : ath_common -> ath_common) (c : ath_common) : ath_common := if b then f c else c.

(** The slopes of the three chains of an AR955x. *)
Definition chain_slopes (ah : pwr_hw) (frequency : Z) : Z * Z * Z :=
  let eep := ar9300_eep ah in
  if has (featureEnable (baseEepHeader eep)) 0x1 then
    let '(temp_slope, temp_slope1, temp_slope2) := temp_slopes ah frequency in
    if frequency <? 4000 then (tempSlopeLow (base_ext2 eep), temp_slope, tempSlopeHigh (base_ext2 eep)) else (temp_slope, temp_slope1, temp_slope2)
  else (0, 0, 0).

(** [correction[i] << ..._S] is not masked. *)
Definition ar9003_hw_power_control_override (ah : pwr_hw) (frequency : Z) (correction voltage temperature : list Z) (c : ath_common) : ath_common :=
  let mask i := has (caps_tx_chainmask ah) (BIT i) in
  let delta a i := REG_RMW a (nth i correction 0 .<< f_S AR_PHY_TPC_OLPC_GAIN_DELTA) (f_mask AR_PHY_TPC_OLPC_GAIN_DELTA) in
  let c := delta AR_PHY_TPC_11_B0 0%nat c in
  let c := on (mask 1) (delta AR_PHY_TPC_11_B1 1%nat) c in
  let c := on (mask 2) (delta AR_PHY_TPC_11_B2 2%nat) c in
  let open_loop a := REG_RMW a (3 .<< f_S AR_PHY_TPC_6_ERROR_EST_MODE) (f_mask AR_PHY_TPC_6_ERROR_EST_MODE) in
  let c := open_loop AR_PHY_TPC_6_B0 c in
  let c := on (mask 1) (open_loop AR_PHY_TPC_6_B1) c in
  let c := on (mask 2) (open_loop AR_PHY_TPC_6_B2) c in
  let '(temp_slope, _, _) := temp_slopes ah frequency in
  let c :=
    if pw_9550 ah || pw_9531_9561 ah then
      let txmask := (txrxMask (baseEepHeader (ar9300_eep ah)) .& 0xf0) .>> 4 in
      let '(s0, s1, s2) := chain_slopes ah frequency in
      let c := on (has txmask (BIT 0)) (REG_RMW_FIELD AR_PHY_TPC_19 AR_PHY_TPC_19_ALPHA_THERM s0) c in
      let c := on (has txmask (BIT 1)) (REG_RMW_FIELD AR_PHY_TPC_19_B1 AR_PHY_TPC_19_ALPHA_THERM s1) c in
      on (has txmask (BIT 2)) (REG_RMW_FIELD AR_PHY_TPC_19_B2 AR_PHY_TPC_19_ALPHA_THERM s2) c
    else REG_RMW_FIELD AR_PHY_TPC_19 AR_PHY_TPC_19_ALPHA_THERM temp_slope c in
  let c := on (pw_9462_20 ah) (REG_RMW_FIELD AR_PHY_TPC_19_B1 AR_PHY_TPC_19_B1_ALPHA_THERM temp_slope) c in
  REG_RMW_FIELD AR_PHY_TPC_18 AR_PHY_TPC_18_THERM_CAL_VALUE (nth 0 temperature 0) c.

(** The loop over the chains for the values [get]. *)
Fixpoint cal_values (eep : ar9300_eeprom) (frequency : Z) (mode : bool) (get : cal_pier -> Z) (n ichain : nat) : outcome (list Z) :=
  match n with
  | O => Ok []
  | S n => obind (cal_value frequency (find_piers eep frequency mode ichain) get) (fun v =>
           obind (cal_values eep frequency mode get n (S ichain)) (fun l => Ok (v :: l)))
  end.
Definition ar9003_hw_calibration_apply (ah : pwr_hw) (frequency : Z) (c : ath_common) : outcome ath_common :=
  let mode := 4000 <=? frequency in
  let values get := cal_values (ar9300_eep ah) frequency mode get AR9300_MAX_CHAINS 0 in
  obind (values p_correction) (fun correction =>
  obind (values p_temperature) (fun temperature =>
  obind (values p_voltage) (fun voltage =>
  Ok (ar9003_hw_power_control_override ah frequency correction voltage temperature c)))).

(** * Registers and tables *)

Definition POW_SM (r s : Z) : Z := (r .& 0x3f) .<< s.
Definition rate_at (pPwrArray : list Z) (i : nat) : Z := nth i pPwrArray 0.

(** [REG_WRITE(ah, AR_PHY_POWER_TX_RATE(d), ...)] for four rates, the most
    significant first. *)
Definition write_rates (pPwrArray : list Z) (d : Z) (r3 r2 r1 r0 : nat) : ath_common -> ath_common :=
  REG_WRITE (AR_PHY_POWER_TX_RATE d)
    (POW_SM (rate_at pPwrArray r3) 24 .| POW_SM (rate_at pPwrArray r2) 16 .| POW_SM (rate_at pPwrArray r1) 8 .| POW_SM (rate_at pPwrArray r0) 0).
Definition ar9003_hw_tx_power_regwrite (pPwrArray : list Z) (c : ath_common) : ath_common :=
  let c := REG_WRITE AR_PHY_TX_FORCED_GAIN 0 c in
  let c := write_rates pPwrArray 0 ALL_TARGET_LEGACY_6_24 ALL_TARGET_LEGACY_6_24 ALL_TARGET_LEGACY_6_24 ALL_TARGET_LEGACY_6_24 c in
  let c := write_rates pPwrArray 1 ALL_TARGET_LEGACY_54 ALL_TARGET_LEGACY_48 ALL_TARGET_LEGACY_36 ALL_TARGET_LEGACY_6_24 c in
  let c := REG_WRITE (AR_PHY_POWER_TX_RATE 2)
             (POW_SM (rate_at pPwrArray ALL_TARGET_LEGACY_1L_5L) 24 .| POW_SM (rate_at pPwrArray ALL_TARGET_LEGACY_1L_5L) 16
              .| POW_SM (rate_at pPwrArray ALL_TARGET_LEGACY_1L_5L) 0) c in
  let c := write_rates pPwrArray 3 ALL_TARGET_LEGACY_11S ALL_TARGET_LEGACY_11L ALL_TARGET_LEGACY_5S ALL_TARGET_LEGACY_1L_5L c in
  let c := write_rates pPwrArray 8 ALL_TARGET_LEGACY_6_24 ALL_TARGET_LEGACY_1L_5L ALL_TARGET_LEGACY_6_24 ALL_TARGET_LEGACY_1L_5L c in
  let c := write_rates pPwrArray 4 ALL_TARGET_HT20_5 ALL_TARGET_HT20_4 ALL_TARGET_HT20_1_3_9_11_17_19 ALL_TARGET_HT20_0_8_16 c in
  let c := write_rates pPwrArray 5 ALL_TARGET_HT20_13 ALL_TARGET_HT20_12 ALL_TARGET_HT20_7 ALL_TARGET_HT20_6 c in
  let c := write_rates pPwrArray 9 ALL_TARGET_HT20_21 ALL_TARGET_HT20_20 ALL_TARGET_HT20_15 ALL_TARGET_HT20_14 c in
  let c := write_rates pPwrArray 10 ALL_TARGET_HT40_23 ALL_TARGET_HT40_22 ALL_TARGET_HT20_23 ALL_TARGET_HT20_22 c in
  let c := write_rates pPwrArray 6 ALL_TARGET_HT40_5 ALL_TARGET_HT40_4 ALL_TARGET_HT40_1_3_9_11_17_19 ALL_TARGET_HT40_0_8_16 c in
  let c := write_rates pPwrArray 7 ALL_TARGET_HT40_13 ALL_TARGET_HT40_12 ALL_TARGET_HT40_7 ALL_TARGET_HT40_6 c in
  write_rates pPwrArray 11 ALL_TARGET_HT40_21 ALL_TARGET_HT40_20 ALL_TARGET_HT40_15 ALL_TARGET_HT40_14 c.

Definition ar9003_hw_selfgen_tpc_txpower (chan : ath9k_channel) (pwr_array : list Z) : ath_common -> ath_common :=
  let p := rate_at pwr_array (if chan_2ghz chan then ALL_TARGET_LEGACY_1L_5L else ALL_TARGET_LEGACY_6_24) in
  REG_WRITE AR_TPC (SM p AR_TPC_ACK .| SM p AR_TPC_CTS .| SM 0x3f AR_TPC_CHIRP .| SM 0x3f AR_TPC_RPT).

Definition ofdm2pwr : list nat :=
  [ALL_TARGET_LEGACY_6_24; ALL_TARGET_LEGACY_6_24; ALL_TARGET_LEGACY_6_24; ALL_TARGET_LEGACY_6_24; ALL_TARGET_LEGACY_6_24;
   ALL_TARGET_LEGACY_36; ALL_TARGET_LEGACY_48; ALL_TARGET_LEGACY_54].
Definition mcs2pwr_ht20 : list nat :=
  [ALL_TARGET_HT20_0_8_16; ALL_TARGET_HT20_1_3_9_11_17_19; ALL_TARGET_HT20_1_3_9_11_17_19; ALL_TARGET_HT20_1_3_9_11_17_19; ALL_TARGET_HT20_4;
   ALL_TARGET_HT20_5; ALL_TARGET_HT20_6; ALL_TARGET_HT20_7; ALL_TARGET_HT20_0_8_16; ALL_TARGET_HT20_1_3_9_11_17_19;
   ALL_TARGET_HT20_1_3_9_11_17_19; ALL_TARGET_HT20_1_3_9_11_17_19; ALL_TARGET_HT20_12; ALL_TARGET_HT20_13; ALL_TARGET_HT20_14;
   ALL_TARGET_HT20_15; ALL_TARGET_HT20_0_8_16; ALL_TARGET_HT20_1_3_9_11_17_19; ALL_TARGET_HT20_1_3_9_11_17_19; ALL_TARGET_HT20_1_3_9_11_17_19;
   ALL_TARGET_HT20_20; ALL_TARGET_HT20_21; ALL_TARGET_HT20_22; ALL_TARGET_HT20_23].
Definition mcs2pwr_ht40 : list nat :=
  [ALL_TARGET_HT40_0_8_16; ALL_TARGET_HT40_1_3_9_11_17_19; ALL_TARGET_HT40_1_3_9_11_17_19; ALL_TARGET_HT40_1_3_9_11_17_19; ALL_TARGET_HT40_4;
   ALL_TARGET_HT40_5; ALL_TARGET_HT40_6; ALL_TARGET_HT40_7; ALL_TARGET_HT40_0_8_16; ALL_TARGET_HT40_1_3_9_11_17_19;
   ALL_TARGET_HT40_1_3_9_11_17_19; ALL_TARGET_HT40_1_3_9_11_17_19; ALL_TARGET_HT40_12; ALL_TARGET_HT40_13; ALL_TARGET_HT40_14;
   ALL_TARGET_HT40_15; ALL_TARGET_HT40_0_8_16; ALL_TARGET_HT40_1_3_9_11_17_19; ALL_TARGET_HT40_1_3_9_11_17_19; ALL_TARGET_HT40_1_3_9_11_17_19;
   ALL_TARGET_HT40_20; ALL_TARGET_HT40_21; ALL_TARGET_HT40_22; ALL_TARGET_HT40_23].

Definition AR9300_11NA_OFDM_SHIFT : nat := 0.
Definition AR9300_11NA_HT_SS_SHIFT : nat := 8.
Definition AR9300_11NA_HT_DS_SHIFT : nat := 16.
Definition AR9300_11NA_HT_TS_SHIFT : nat := 24.
Definition AR9300_11NG_OFDM_SHIFT : nat := 4.
Definition AR9300_11NG_HT_SS_SHIFT : nat := 12.
Definition AR9300_11NG_HT_DS_SHIFT : nat := 20.
Definition AR9300_11NG_HT_TS_SHIFT : nat := 28.

Definition ar9003_hw_init_txpower_cck (rate_array tx : list Z) : list Z :=
  let r := rate_at rate_array in
  <[3%nat := Z.min (r ALL_TARGET_LEGACY_11L) (r ALL_TARGET_LEGACY_11S)]>
    (<[2%nat := Z.min (r ALL_TARGET_LEGACY_1L_5L) (r ALL_TARGET_LEGACY_5S)]>
      (<[1%nat := r ALL_TARGET_LEGACY_1L_5L]> (<[0%nat := r ALL_TARGET_LEGACY_1L_5L]> tx))).

(** [for (i = offset; ...) ah->tx_power[i] = rate_array[table[i - offset]]]. *)
Fixpoint copy_rates (rate_array : list Z) (table : list nat) (i : nat) (tx : list Z) : list Z :=
  match table with [] => tx | j :: table => copy_rates rate_array table (S i) (<[i := rate_at rate_array j]> tx) end.
Definition ar9003_hw_init_txpower_ofdm (rate_array : list Z) (offset : nat) : list Z -> list Z := copy_rates rate_array ofdm2pwr offset.
Definition ar9003_hw_init_txpower_ht (rate_array : list Z) (ss_offset ds_offset ts_offset : nat) (is_40 : bool) (tx : list Z) : list Z :=
  let mcs2pwr := if is_40 then mcs2pwr_ht40 else mcs2pwr_ht20 in
  copy_rates rate_array (drop 16 mcs2pwr) ts_offset
    (copy_rates rate_array (take 8 (drop 8 mcs2pwr)) ds_offset (copy_rates rate_array (take 8 mcs2pwr) ss_offset tx)).

(** [memcpy(&stbc[offset], &tx[offset], 8)], three times. *)
Definition copy_span (tx : list Z) (offset : nat) (stbc : list Z) : list Z := take offset stbc ++ take 8 (drop offset tx) ++ drop (offset + 8) stbc.
Definition ar9003_hw_init_txpower_stbc (ss_offset ds_offset ts_offset : nat) (tx stbc : list Z) : list Z :=
  copy_span tx ts_offset (copy_span tx ds_offset (copy_span tx ss_offset stbc)).

Definition ar9003_hw_init_rate_txpower (rate_array : list Z) (chan : ath9k_channel) (ah : pwr_hw) : pwr_hw :=
  let '(tx, ofdm, ss, ds, ts) :=
    if chan_2ghz chan then (ar9003_hw_init_txpower_cck rate_array (tx_power ah), AR9300_11NG_OFDM_SHIFT, AR9300_11NG_HT_SS_SHIFT, AR9300_11NG_HT_DS_SHIFT, AR9300_11NG_HT_TS_SHIFT)
    else (tx_power ah, AR9300_11NA_OFDM_SHIFT, AR9300_11NA_HT_SS_SHIFT, AR9300_11NA_HT_DS_SHIFT, AR9300_11NA_HT_TS_SHIFT) in
  let tx := ar9003_hw_init_txpower_ofdm rate_array ofdm tx in
  if chan_ht20 chan || chan_ht40 chan then
    let tx := ar9003_hw_init_txpower_ht rate_array ss ds ts (chan_ht40 chan) tx in
    ah <| tx_power := tx |> <| tx_power_stbc ::= ar9003_hw_init_txpower_stbc ss ds ts tx |>
  else ah <| tx_power := tx |>.

(** * Predistortion *)

Definition AR9300_PAPRD_RATE_MASK : Z := 0x01ffffff.
Definition AR9300_PAPRD_SCALE_1 : field := {| f_mask := 0x0e000000; f_S := 25 |}.
Definition AR9300_PAPRD_SCALE_2 : field := {| f_mask := 0x70000000; f_S := 28 |}.

Definition ar9003_get_paprd_scale_factor (eep : ar9300_eeprom) (chan : ath9k_channel) : Z :=
  if chan_2ghz chan then MS (papdRateMaskHt20 (modalHeader2G eep)) AR9300_PAPRD_SCALE_1
  else if 5700 <=? channel chan then MS (papdRateMaskHt20 (modalHeader5G eep)) AR9300_PAPRD_SCALE_1
  else if 5400 <=? channel chan then MS (papdRateMaskHt40 (modalHeader5G eep)) AR9300_PAPRD_SCALE_2
  else MS (papdRateMaskHt40 (modalHeader5G eep)) AR9300_PAPRD_SCALE_1.

Definition mcsidx_to_tgtpwridx (mcs_idx base_pwridx : Z) : Z :=
  let mod_idx := mcs_idx mod 8 in
  u8 (if mod_idx <=? 3 then (if negb (mod_idx =? 0) then base_pwridx + 1 else base_pwridx) else base_pwridx + 4 * (mcs_idx / 8) + mod_idx - 2).

Definition ar9003_paprd_set_txpower (chan : ath9k_channel) (targetPowerValT2 : list Z) (ah : pwr_hw) : pwr_hw :=
  if negb (paprd_enabled ah) then ah
  else
    let i := if chan_2ghz chan && negb (paprd_mcs7 ah) then (if chan_ht40 chan then ALL_TARGET_HT40_0_8_16 else ALL_TARGET_HT20_0_8_16)
             else (if chan_ht40 chan then ALL_TARGET_HT40_7 else ALL_TARGET_HT20_7) in
    ah <| paprd_target_power := rate_at targetPowerValT2 i |>.

(** The power of the rates with predistortion is lowered, each once. *)
Definition paprd_lower (eep_pwr : list Z) (ratemask scale min_pwridx : Z) (pwr : list Z) (i : nat) : list Z :=
  let pwr_idx := Z.to_nat (mcsidx_to_tgtpwridx (Z.of_nat i) min_pwridx) in
  if has ratemask (1 .<< Z.of_nat i) && negb (rate_at pwr pwr_idx =? 0) && (rate_at pwr pwr_idx =? rate_at eep_pwr pwr_idx)
  then <[pwr_idx := u8 (rate_at pwr pwr_idx - scale)]> pwr else pwr.
(** The shift by 32 and more of [1 << i] is taken to give 0, as on ARM. *)
Definition paprd_disable (pwr eep_pwr : list Z) (scale ratemask : Z) (i : nat) : Z :=
  let bit := u32 (1 .<< Z.of_nat i) in
  if has ratemask bit && (scale <? Z.abs (rate_at pwr i - rate_at eep_pwr i)) then clr ratemask bit else ratemask.

(** * The whole *)

Definition ath9k_hw_update_regulatory_maxpower (ah : pwr_hw) : pwr_hw := ah <| max_power_level ::= fun m => u16 (m + power_correction (txchainmask ah)) |>.

(** The powers with the masks of predistortion, before any limit. *)
Definition baseline_power (chan : ath9k_channel) (ah : pwr_hw) : list Z * Z * pwr_hw :=
  let eep := ar9300_eep ah in
  let pwr := ar9003_hw_get_target_power_eeprom eep chan (replicate ar9300RateSize 0) in
  if paprd_enabled ah then
    let modal_hdr := if chan_2ghz chan then modalHeader2G eep else modalHeader5G eep in
    let ah := ah <| paprd_ratemask := papdRateMaskHt20 modal_hdr .& AR9300_PAPRD_RATE_MASK |>
                 <| paprd_ratemask_ht40 := papdRateMaskHt40 modal_hdr .& AR9300_PAPRD_RATE_MASK |> in
    let scale := ar9003_get_paprd_scale_factor eep chan in
    let min_pwridx := Z.of_nat (if chan_ht40 chan then ALL_TARGET_HT40_0_8_16 else ALL_TARGET_HT20_0_8_16) in
    let pwr := if negb (paprd_table_write_done ah) then fold_left (paprd_lower pwr (paprd_ratemask ah) scale min_pwridx) (seq 0 24) pwr else pwr in
    (pwr, scale, ah)
  else (pwr, 0, ah).

(** The powers, with the rates that lose predistortion and the new power level. *)
Definition limit_power (chan : ath9k_channel) (cfgCtl twiceAntennaReduction powerLimit : Z) (ah : pwr_hw) : list Z * pwr_hw :=
  let '(base, scale, ah) := baseline_power chan ah in
  let pwr := ar9003_hw_set_power_per_rate_table ah chan cfgCtl twiceAntennaReduction powerLimit base in
  let ah := if paprd_enabled ah then ah <| paprd_ratemask ::= fun m => fold_left (paprd_disable pwr base scale) (seq 0 ar9300RateSize) m |> else ah in
  let ah := ah <| max_power_level := fold_left (fun m i => if m <? rate_at pwr i then rate_at pwr i else m) (seq 0 ar9300RateSize) 0 |> in
  (pwr, ath9k_hw_update_regulatory_maxpower ah).

(** The initialisation for powers of single frames. *)
Definition init_tpc (chan : ath9k_channel) (pwr : list Z) (ah : pwr_hw) : pwr_hw :=
  if tpc_enabled ah then
    let ah := ar9003_hw_init_rate_txpower pwr chan ah in
    let ah := ah <| pw_common ::= REG_WRITE AR_PHY_PWRTX_MAX AR_PHY_POWER_TX_RATE_MAX_TPC_ENABLE |> in
    let val := REG_READ (pw_common ah) AR_PHY_POWER_TX_SUB in
    ah <| pw_common ::= REG_WRITE AR_PHY_POWER_TX_SUB (val .& (if pw_9340 ah then 0xFFFFFFC0 else 0xFFFFF000)) |>
  else ah <| pw_common ::= REG_WRITE AR_PHY_PWRTX_MAX 0 |>.

Definition ath9k_hw_ar9300_set_txpower (chan : ath9k_channel) (cfgCtl twiceAntennaReduction powerLimit : Z) (test : bool) (ah : pwr_hw) : outcome pwr_hw :=
  let '(pwr, ah) := limit_power chan cfgCtl twiceAntennaReduction powerLimit ah in
  if test then Ok ah
  else
    let ah := ah <| pw_common ::= ar9003_hw_tx_power_regwrite pwr |> in
    obind (ar9003_hw_calibration_apply ah (channel chan) (pw_common ah)) (fun c =>
    let ah := ar9003_paprd_set_txpower chan pwr (ah <| pw_common := c |>) in
    Ok (init_tpc chan pwr (ah <| pw_common ::= ar9003_hw_selfgen_tpc_txpower chan pwr |>))).

(** The power in the descriptor of a frame (on the AR9300); [training] is
    [Some power] while the amplifier is trained. *)
Definition ath_get_rate_txpower (ah : pwr_hw) (tx99 : bool) (fi_tx_power : Z) (stbc : bool) (training : option Z) (rateidx : nat) : Z :=
  if tx99 || negb (tpc_enabled ah) then MAX_RATE_POWER
  else
    match training with
    | None => if (rateidx <? 8)%nat && stbc then Z.min (rate_at (tx_power_stbc ah) rateidx) fi_tx_power else Z.min (rate_at (tx_power ah) rateidx) fi_tx_power
    | Some paprd_training_power => paprd_training_power
    end.

(** * Interpolation is the rounded line *)

Lemma interpolate_up xa xb x ya yb : xa < xb -> xa <= x <= xb -> ya <= yb ->
  let y := interpolate x xa xb ya yb in
  ya <= y <= yb /\ 2 * Z.abs ((y - ya) * (xb - xa) - (yb - ya) * (x - xa)) <= xb - xa.
Proof.
  intros H1 H2 H3. unfold interpolate, cdiv, crem. set (X := xb - xa). set (A := (yb - ya) * (x - xa)). set (D := yb - ya) in *.
  assert (0 < X) by lia. assert (0 <= A <= D * X) by (subst A X D; split; [apply Z.mul_nonneg_nonneg; lia|apply Z.mul_le_mono_nonneg_l; lia]).
  replace (2 * D * (x - xa)) with (2 * A) by lia. rewrite (Z.quot_div_nonneg (2 * A) X) by lia.
  set (b := 2 * A / X). assert (b * X <= 2 * A < b * X + X) as Hb by (pose proof (Z.div_mod (2 * A) X); pose proof (Z.mod_pos_bound (2 * A) X); lia).
  assert (0 <= b <= 2 * D) by (split; [apply Z.div_pos; lia|apply Z.div_le_upper_bound; lia]).
  rewrite Z.quot_div_nonneg, Z.rem_mod_nonneg by lia.
  pose proof (Z.div_mod b 2 ltac:(lia)) as Hm. pose proof (Z.mod_pos_bound b 2 ltac:(lia)). set (k := b / 2) in *. set (e := b mod 2) in *. clearbody k e b. subst b.
  cbn zeta. split; [lia|]. replace (ya + k + e - ya) with (k + e) by lia. assert (e = 0 \/ e = 1) as [->| ->] by lia; lia.
Qed.

Lemma interpolate_opp x xa xb ya yb : xa < xb -> interpolate x xa xb (- ya) (- yb) = - interpolate x xa xb ya yb.
Proof.
  intros Hx. unfold interpolate, cdiv, crem. replace (2 * (- yb - - ya) * (x - xa)) with (- (2 * (yb - ya) * (x - xa))) by lia.
  rewrite Z.quot_opp_l by lia. rewrite Z.quot_opp_l, Z.rem_opp_l by lia. lia.
Qed.

(** The value at [x] of the line through two points, rounded to the nearest. *)
Definition near_line (x : Z) (l h : Z * Z) (y : Z) : Prop :=
  Z.min (snd l) (snd h) <= y <= Z.max (snd l) (snd h) /\
  2 * Z.abs ((y - snd l) * (fst h - fst l) - (snd h - snd l) * (x - fst l)) <= fst h - fst l.

Lemma interpolate_near x l h : fst l < fst h -> fst l <= x <= fst h -> near_line x l h (interpolate x (fst l) (fst h) (snd l) (snd h)).
Proof.
  destruct l as [xa ya], h as [xb yb]. cbn. intros H1 H2. unfold near_line. cbn. destruct (Z.le_ge_cases ya yb) as [H|H].
  - destruct (interpolate_up xa xb x ya yb H1 H2 H) as [Hr Hd]. split; [lia|exact Hd].
  - destruct (interpolate_up xa xb x (- ya) (- yb) H1 H2) as [Hr Hd]; [lia|]. rewrite interpolate_opp in Hr, Hd by done. split; [lia|].
    match goal with |- 2 * Z.abs ?u <= _ => match type of Hd with 2 * Z.abs ?v <= _ => replace u with (- v) by lia end end. by rewrite Z.abs_opp.
Qed.

(** * The search for the neighbours *)

Definition search (x : Z) (l : list (Z * Z)) : neighbours := fold_left (pier_round x) l {| lower := None; higher := None |}.

Lemma search_snoc x l p : search x (l ++ [p]) = pier_round x (search x l) p.
Proof. unfold search. by rewrite fold_left_app. Qed.

(** The nearest pier below (the first of several at the same frequency). *)
Definition nearest_lower (x : Z) (l : list (Z * Z)) (o : option (Z * Z)) : Prop :=
  match o with
  | Some p => p ∈ l /\ fst p <= x /\ forall q, q ∈ l -> fst q <= x -> fst q <= fst p
  | None => forall q, q ∈ l -> x < fst q
  end.
Definition nearest_higher (x : Z) (l : list (Z * Z)) (o : option (Z * Z)) : Prop :=
  match o with
  | Some p => p ∈ l /\ x <= fst p /\ forall q, q ∈ l -> x <= fst q -> fst p <= fst q
  | None => forall q, q ∈ l -> fst q < x
  end.

Lemma search_nearest x l : nearest_lower x l (lower (search x l)) /\ nearest_higher x l (higher (search x l)).
Proof.
  induction l as [|p l [IHl IHh]] using rev_ind; [cbn; split; set_solver|]. rewrite search_snoc. unfold pier_round. cbn [lower higher].
  assert (forall (P : Z * Z -> Prop), (forall q, q ∈ l ++ [p] -> P q) <-> (forall q, q ∈ l -> P q) /\ P p) as Hall by set_solver.
  split.
  - destruct (Z.leb_spec 0 (x - fst p)); cbn [andb]; [|destruct (lower (search x l)) as [q|]; cbn in *; rewrite Hall; split_and!; try set_solver; intuition lia].
    destruct (lower (search x l)) as [q|]; cbn in *; [destruct (Z.ltb_spec (x - fst p) (x - fst q))|]; cbn; rewrite Hall.
    + split_and!; [set_solver|lia| |lia]. intros r Hr Hx. destruct IHl as (_ & _ & Hq). specialize (Hq r Hr Hx). lia.
    + split_and!; [set_solver|lia|naive_solver|lia].
    + split_and!; [set_solver|lia| |lia]. intros r Hr Hx. specialize (IHl r Hr). lia.
  - destruct (Z.leb_spec (x - fst p) 0); cbn [andb]; [|destruct (higher (search x l)) as [q|]; cbn in *; rewrite Hall; split_and!; try set_solver; intuition lia].
    destruct (higher (search x l)) as [q|]; cbn in *; [destruct (Z.ltb_spec (x - fst q) (x - fst p))|]; cbn; rewrite Hall.
    + split_and!; [set_solver|lia| |lia]. intros r Hr Hx. destruct IHh as (_ & _ & Hq). specialize (Hq r Hr Hx). lia.
    + split_and!; [set_solver|lia|naive_solver|lia].
    + split_and!; [set_solver|lia| |lia]. intros r Hr Hx. specialize (IHh r Hr). lia.
Qed.

(** What the interpolation gives, by the neighbours. *)
Definition interpolated (x : Z) (l : list (Z * Z)) (y : Z) : Prop :=
  exists lo hi, nearest_lower x l lo /\ nearest_higher x l hi /\
    match lo, hi with
    | Some l, Some h => if fst h =? fst l then y = snd l else near_line x l h y
    | Some l, None => y = snd l
    | None, Some h => y = snd h
    | None, None => y = - 2 ^ 30
    end.

Lemma power_interpolated x px py : interpolated x (zip px py) (ar9003_hw_power_interpolate x px py).
Proof.
  destruct (search_nearest x (zip px py)) as [Hl Hh]. exists (lower (search x (zip px py))), (higher (search x (zip px py))). split; [done|]. split; [done|].
  unfold ar9003_hw_power_interpolate. fold (search x (zip px py)). destruct (lower _) as [l|], (higher _) as [h|]; cbn in Hl, Hh; try done.
  destruct (Z.eqb_spec (fst h) (fst l)); [done|]. apply interpolate_near; lia.
Qed.

(** The interpolation stays within the values of the piers. *)
Lemma interpolate_range x px py a b : zip px py <> [] -> Forall (fun y => a <= y <= b) py -> a <= ar9003_hw_power_interpolate x px py <= b.
Proof.
  intros Hne Hy. destruct (power_interpolated x px py) as (lo & hi & Hl & Hh & H).
  assert (forall p, p ∈ zip px py -> a <= snd p <= b) as Hin.
  { intros [u v] Hp. rewrite Forall_forall in Hy. apply Hy. rewrite list_elem_of_lookup in Hp. destruct Hp as [i Hi]. rewrite list_elem_of_lookup. exists i.
    apply lookup_zip_with_Some in Hi. naive_solver. }
  destruct lo as [l|], hi as [h|]; cbn in Hl, Hh.
  - destruct (Hin l ltac:(tauto)), (Hin h ltac:(tauto)). destruct (fst h =? fst l); [lia|]. destruct H as [Hb _]. lia.
  - destruct (Hin l ltac:(tauto)). lia.
  - destruct (Hin h ltac:(tauto)). lia.
  - destruct (zip px py) as [|p]; [done|]. specialize (Hl p). specialize (Hh p). set_solver by lia.
Qed.

(** * The calibration is an interpolation of the piers within 1000 MHz *)

(** [within x l]: the piers that count. *)
Definition within (x : Z) (p : Z * Z) : bool := Z.abs (x - fst p) <? 1000.
Definition keep_within (x : Z) (o : option (Z * Z)) : option (Z * Z) :=
  match o with Some p => if within x p then Some p else None | None => None end.

Lemma search_within x l : search x (List.filter (within x) l) =
  {| lower := keep_within x (lower (search x l)); higher := keep_within x (higher (search x l)) |}.
Proof.
  induction l as [|p l IH] using rev_ind; [done|]. rewrite List.filter_app. cbn [List.filter]. rewrite search_snoc.
  destruct (search_nearest x l) as [Hl Hh]. unfold within at 2. destruct (Z.ltb_spec (Z.abs (x - fst p)) 1000) as [Hp|Hp].
  - rewrite search_snoc, IH. unfold pier_round. cbn [lower higher]. f_equal.
    + destruct (Z.leb_spec 0 (x - fst p)); cbn [andb]; [|done]. destruct (lower (search x l)) as [q|] eqn:E; cbn [keep_within]; cbn in Hl.
      * unfold within. destruct (Z.ltb_spec (Z.abs (x - fst q)) 1000), (Z.ltb_spec (x - fst p) (x - fst q)); cbn [keep_within]; unfold within;
          repeat match goal with |- context [?a <? ?b] => destruct (Z.ltb_spec a b) end; try done; lia.
      * cbn. unfold within. by rewrite (proj2 (Z.ltb_lt _ _)) by lia.
    + destruct (Z.leb_spec (x - fst p) 0); cbn [andb]; [|done]. destruct (higher (search x l)) as [q|] eqn:E; cbn [keep_within]; cbn in Hh.
      * unfold within. destruct (Z.ltb_spec (Z.abs (x - fst q)) 1000), (Z.ltb_spec (x - fst q) (x - fst p)); cbn [keep_within]; unfold within;
          repeat match goal with |- context [?a <? ?b] => destruct (Z.ltb_spec a b) end; try done; lia.
      * cbn. unfold within. by rewrite (proj2 (Z.ltb_lt _ _)) by lia.
  - rewrite app_nil_r, IH. unfold pier_round. cbn [lower higher].
    f_equal.
    + destruct (Z.leb_spec 0 (x - fst p)); cbn [andb]; [|done]. destruct (lower (search x l)) as [q|] eqn:E; cbn in Hl.
      * destruct (Z.ltb_spec (x - fst p) (x - fst q)); [|done]. cbn. unfold within. by rewrite !(proj2 (Z.ltb_ge _ _)) by lia.
      * cbn. unfold within. by rewrite (proj2 (Z.ltb_ge _ _)) by lia.
    + destruct (Z.leb_spec (x - fst p) 0); cbn [andb]; [|done]. destruct (higher (search x l)) as [q|] eqn:E; cbn in Hh.
      * destruct (Z.ltb_spec (x - fst q) (x - fst p)); [|done]. cbn. unfold within. by rewrite !(proj2 (Z.ltb_ge _ _)) by lia.
      * cbn. unfold within. by rewrite (proj2 (Z.ltb_ge _ _)) by lia.
Qed.

(** The piers of a chain. *)
Definition cal_piers (eep : ar9300_eeprom) (mode : bool) (ichain : nat) : list cal_pier :=
  omap (fun ipier => ar9003_hw_cal_pier_get eep mode ipier ichain) (seq 0 (if mode then AR9300_NUM_5G_CAL_PIERS else AR9300_NUM_2G_CAL_PIERS)).

Lemma find_piers_fold eep f mode ichain :
  find_piers eep f mode ichain = fold_left (cal_round f) (cal_piers eep mode ichain) {| lfrequency := 0; ldata := None; hfrequency := 100000; hdata := None |}.
Proof.
  unfold find_piers, cal_piers. generalize {| lfrequency := 0; ldata := None; hfrequency := 100000; hdata := None |}.
  induction (seq _ _) as [|i l IH]; intros s; cbn; [done|]. destruct (ar9003_hw_cal_pier_get eep mode i ichain); cbn; apply IH.
Qed.

(** The two searches agree. *)
Definition as_pier (get : cal_pier -> Z) (p : cal_pier) : Z * Z := (p_freq p, get p).
Definition freq_ok (p : cal_pier) : Prop := 0 < p_freq p < 100000.
Record same_search (get : cal_pier -> Z) (s : cal_search) (n : neighbours) : Prop := {
  same_lower : lower n = as_pier get <$> ldata s;
  same_higher : higher n = as_pier get <$> hdata s;
  same_lfreq : lfrequency s = from_option p_freq 0 (ldata s);
  same_hfreq : hfrequency s = from_option p_freq 100000 (hdata s);
  same_lok : from_option freq_ok True (ldata s);
  same_hok : from_option freq_ok True (hdata s);
}.

Lemma same_round get f s n p : freq_ok p -> same_search get s n -> same_search get (cal_round f s p) (pier_round f n (as_pier get p)).
Proof.
  intros Hp [Hl Hh Hlf Hhf Hlo Hho]. unfold freq_ok in *. unfold cal_round, pier_round. rewrite Hl, Hh, Hlf, Hhf.
  assert (((f - p_freq p <=? 0) && ((from_option p_freq 100000 (hdata s) <=? 0) || (100000 <=? from_option p_freq 100000 (hdata s)) || (f - from_option p_freq 100000 (hdata s) <? f - p_freq p)))
    = ((f - fst (as_pier get p) <=? 0) && match as_pier get <$> hdata s with None => true | Some h => f - fst h <? f - fst (as_pier get p) end)) as ->.
  { cbn. f_equal. destruct (hdata s) as [q|]; cbn in *; [|done]. unfold freq_ok in *. by rewrite (proj2 (Z.leb_gt _ _)), (proj2 (Z.leb_gt _ _)) by lia. }
  assert (((0 <=? f - p_freq p) && ((from_option p_freq 0 (ldata s) <=? 0) || (f - p_freq p <? f - from_option p_freq 0 (ldata s))))
    = ((0 <=? f - fst (as_pier get p)) && match as_pier get <$> ldata s with None => true | Some l => f - fst (as_pier get p) <? f - fst l end)) as ->.
  { cbn. f_equal. destruct (ldata s) as [q|]; cbn in *; [|done]. unfold freq_ok in *. by rewrite (proj2 (Z.leb_gt _ _)) by lia. }
  split; cbn [lower higher ldata hdata lfrequency hfrequency]; repeat match goal with |- context [if ?b then _ else _] => destruct b end; first [done|exact Hp].
Qed.

Lemma same_searches get f l : Forall freq_ok l ->
  same_search get (fold_left (cal_round f) l {| lfrequency := 0; ldata := None; hfrequency := 100000; hdata := None |}) (search f (as_pier get <$> l)).
Proof.
  induction l as [|p l IH] using rev_ind; intros Hl; [by split|]. apply Forall_app in Hl as [Hl Hp]. apply Forall_cons in Hp as [Hp _].
  rewrite fold_left_app, fmap_app. cbn [fold_left fmap list_fmap]. rewrite search_snoc. exact (same_round get f _ _ p Hp (IH Hl)).
Qed.

(** The value of a calibration at a frequency. *)
Definition calibrated (f : Z) (piers : list cal_pier) (get : cal_pier -> Z) : Z :=
  let near := List.filter (fun p => within f (as_pier get p)) piers in
  match near with [] => 0 | _ => ar9003_hw_power_interpolate f (p_freq <$> near) (get <$> near) end.

Lemma filter_fmap_pier get f l : as_pier get <$> List.filter (fun p => within f (as_pier get p)) l = List.filter (within f) (as_pier get <$> l).
Proof. induction l as [|p l IH]; cbn [List.filter fmap list_fmap]; [done|]. destruct (within f (as_pier get p)); cbn [fmap list_fmap]; by rewrite IH. Qed.
Lemma zip_as_pier get l : zip (p_freq <$> l) (get <$> l) = as_pier get <$> l.
Proof. induction l as [|p l IH]; cbn; [done|]. by rewrite IH. Qed.

Lemma cal_value_calibrated f piers get : 1000 <= f <= 99000 -> Forall freq_ok piers ->
  cal_value f (fold_left (cal_round f) piers {| lfrequency := 0; ldata := None; hfrequency := 100000; hdata := None |}) get = Ok (calibrated f piers get).
Proof.
  intros Hf Hp. destruct (same_searches get f piers Hp) as [Hl Hh Hlf Hhf Hlo Hho]. set (s := fold_left _ _ _) in *.
  pose proof (search_within f (as_pier get <$> piers)) as Hw. rewrite Hl, Hh in Hw.
  assert (calibrated f piers get = match keep_within f (as_pier get <$> ldata s), keep_within f (as_pier get <$> hdata s) with
    | Some l, Some h => if fst h =? fst l then snd l else interpolate f (fst l) (fst h) (snd l) (snd h)
    | Some l, None => snd l | None, Some h => snd h | None, None => 0 end) as ->.
  { unfold calibrated, ar9003_hw_power_interpolate. rewrite zip_as_pier. fold (search f (as_pier get <$> List.filter (fun p => within f (as_pier get p)) piers)).
    rewrite filter_fmap_pier, Hw. cbn [lower higher].
    destruct (List.filter (fun p => within f (as_pier get p)) piers) as [|p near] eqn:E.
    - rewrite <- filter_fmap_pier, E in Hw. cbn in Hw. by injection Hw as <- <-.
    - destruct (keep_within f (as_pier get <$> ldata s)) eqn:E1, (keep_within f (as_pier get <$> hdata s)) eqn:E2; try done.
      exfalso. rewrite <- filter_fmap_pier, E in Hw. destruct (search_nearest f (as_pier get <$> p :: near)) as [N1 N2]. rewrite Hw in N1, N2. cbn in N1, N2.
      specialize (N1 (as_pier get p) ltac:(set_solver)). specialize (N2 (as_pier get p) ltac:(set_solver)). lia. }
  pose proof (search_nearest f (as_pier get <$> piers)) as [N1 N2]. rewrite Hl in N1. rewrite Hh in N2.
  unfold cal_value. rewrite Hlf, Hhf.
  destruct (ldata s) as [l|], (hdata s) as [h|]; cbn [fmap option_fmap option_map from_option keep_within as_pier fst snd initialised obind nearest_lower nearest_higher] in *; unfold within; cbn [as_pier fst snd] in *; unfold freq_ok in *.
  - destruct (Z.eqb_spec (p_freq h) (p_freq l)) as [E|E].
    + rewrite E, !(proj2 (Z.ltb_lt (Z.abs (f - p_freq l)) 1000)) by lia. cbn. by rewrite E, Z.eqb_refl.
    + destruct (Z.ltb_spec (f - p_freq l) 1000), (Z.ltb_spec (p_freq h - f) 1000);
        repeat match goal with |- context [Z.abs ?a <? ?b] => destruct (Z.ltb_spec (Z.abs a) b); try lia end; cbn; try done.
      by rewrite (proj2 (Z.eqb_neq _ _)) by lia.
  - rewrite (proj2 (Z.eqb_neq _ _)) by lia. rewrite (proj2 (Z.ltb_ge (100000 - f) _)) by lia.
    destruct (Z.ltb_spec (f - p_freq l) 1000), (Z.ltb_spec (Z.abs (f - p_freq l)) 1000); cbn; try done; lia.
  - rewrite (proj2 (Z.eqb_neq _ _)) by lia. rewrite (proj2 (Z.ltb_ge (f - 0) _)) by lia.
    destruct (Z.ltb_spec (p_freq h - f) 1000), (Z.ltb_spec (Z.abs (f - p_freq h)) 1000); cbn; try done; lia.
  - cbn. by rewrite (proj2 (Z.ltb_ge (f - 0) _)), (proj2 (Z.ltb_ge (100000 - f) _)) by lia.
Qed.

Lemma fbin2freq_range b is2GHz : in_u8 b -> 0 < ath9k_hw_fbin2freq b is2GHz < 100000.
Proof.
  intros H. unfold in_u8 in H. unfold ath9k_hw_fbin2freq, AR5416_BCHAN_UNUSED. destruct (Z.eqb_spec b 0xFF); [lia|]. rewrite u16_id; [destruct is2GHz; lia|].
  unfold in_u16. destruct is2GHz; lia.
Qed.

(** The piers of the EEPROM are stored in bytes. *)
Definition piers_ok (eep : ar9300_eeprom) : Prop := Forall in_u8 (calFreqPier2G eep) /\ Forall in_u8 (calFreqPier5G eep).

Lemma cal_piers_ok eep mode ichain : piers_ok eep -> Forall freq_ok (cal_piers eep mode ichain).
Proof.
  intros [H2 H5]. unfold cal_piers. induction (seq _ _) as [|i l IH]; cbn; [constructor|].
  destruct (ar9003_hw_cal_pier_get eep mode i ichain) as [p|] eqn:E; [|exact IH]. constructor; [|exact IH].
  unfold ar9003_hw_cal_pier_get in E. destruct (_ <=? ichain)%nat; [done|]. destruct (_ <=? i)%nat; [done|]. injection E as <-. unfold freq_ok. cbn [p_freq].
  apply fbin2freq_range. assert (forall l, Forall in_u8 l -> in_u8 (nth i l 0)) as Hn.
  { intros l0 Hl. destruct (Nat.lt_ge_cases i (length l0)); [|rewrite nth_overflow by lia; unfold in_u8; lia].
    rewrite Forall_forall in Hl. apply Hl. by apply list_elem_of_In, nth_In. }
  destruct mode; by apply Hn.
Qed.

Lemma cal_values_ok eep f mode get n ichain : 1000 <= f <= 99000 -> piers_ok eep ->
  cal_values eep f mode get n ichain = Ok ((fun i => calibrated f (cal_piers eep mode i) get) <$> seq ichain n).
Proof.
  intros Hf Hp. revert ichain. induction n as [|n IH]; intros ichain; cbn [cal_values seq fmap list_fmap]; [done|].
  rewrite find_piers_fold, cal_value_calibrated by (done || by apply cal_piers_ok). cbn [obind]. by rewrite IH.
Qed.
