(* ===== verification/TxPowerProps.v ===== *)
(** The limits of the transmit power: no rate and no frame exceeds them, the
    registers hold what was computed, the calibration is an interpolation; and the
    defects of the code around them. *)

From S2P Require Import Prelude KeyCache Desc RxFrame HwTiming EepLayout EepTemplates TxPower.

(** * The limits *)

Lemma map_rates_lookup first last f l i : (map_rates first last f l) !! i = (if (first <=? i)%nat && (i <=? last)%nat then f else id) <$> l !! i.
Proof.
  unfold map_rates. assert (forall n k (l : list Z), fold_left (fun pwr i => alter f i pwr) (seq k n) l !! i = (if (k <=? i)%nat && (i <? k + n)%nat then f else id) <$> l !! i) as H.
  { clear. induction n as [|n IH]; intros k l; cbn [seq fold_left].
    - destruct (Nat.leb_spec k i), (Nat.ltb_spec i (k + 0)); cbn; try lia; by rewrite ?option_fmap_id.
    - rewrite IH. destruct (decide (k = i)) as [->|Hne].
      + rewrite list_lookup_alter_eq. rewrite (proj2 (Nat.leb_gt (S i) i)) by lia. rewrite (proj2 (Nat.leb_le i i)), (proj2 (Nat.ltb_lt i (i + S n))) by lia. cbn [andb]. by rewrite option_fmap_id.
      + rewrite list_lookup_alter_ne by done. f_equal.
        destruct (Nat.leb_spec k i), (Nat.leb_spec (S k) i), (Nat.ltb_spec i (k + S n)), (Nat.ltb_spec i (S k + n)); cbn; try done; lia. }
  rewrite H. f_equal. destruct (Nat.leb_spec first i), (Nat.ltb_spec i (first + (S last - first))), (Nat.leb_spec i last); cbn; try done; lia.
Qed.

Lemma map_rates_length first last f l : length (map_rates first last f l) = length l.
Proof.
  unfold map_rates. revert l. induction (seq _ _) as [|i r IH]; intros l; cbn; [done|]. by rewrite IH, length_alter.
Qed.

(** The rates that a mode limits. *)
Definition covers (mode : Z) (i : nat) : bool :=
  let '(first, last) :=
    if mode =? CTL_11B then (ALL_TARGET_LEGACY_1L_5L, ALL_TARGET_LEGACY_11S)
    else if (mode =? CTL_11A) || (mode =? CTL_11G) then (ALL_TARGET_LEGACY_6_24, ALL_TARGET_LEGACY_54)
    else if is_ht20_mode mode then (ALL_TARGET_HT20_0_8_16, ALL_TARGET_HT20_23)
    else if is_ht40_mode mode then (ALL_TARGET_HT40_0_8_16, ALL_TARGET_HT40_23)
    else (1%nat, 0%nat) in
  (first <=? i)%nat && (i <=? last)%nat.

Lemma ctl_modes_cases chan : ctl_modes chan =
  if chan_2ghz chan then [CTL_11B; CTL_11G; CTL_2GHT20] ++ (if chan_ht40 chan then [CTL_11B_EXT; CTL_11G_EXT; CTL_2GHT40] else [])
  else [CTL_11A; CTL_5GHT20] ++ (if chan_ht40 chan then [CTL_11A_EXT; CTL_5GHT40] else []).
Proof. unfold ctl_modes. by destruct (chan_2ghz chan), (chan_ht40 chan). Qed.

(** The limit of Bluetooth coexistence. *)
Definition mci_limit (ah : pwr_hw) (mode p : Z) : Z :=
  if mci_enabled ah && (is_ht20_mode mode || is_ht40_mode mode) then Z.min p (ar9003_mci_get_max_txpower (concur_tx ah) mode) else p.

Lemma edge_power_range eep freq idx is2GHz n edge : 0 <= edge_loop eep freq idx is2GHz n edge <= MAX_RATE_POWER.
Proof.
  assert (forall c, 0 <= CTL_EDGE_TPOWER c <= MAX_RATE_POWER) as H.
  { intros c. unfold CTL_EDGE_TPOWER. change 0x3f with (Z.ones 6). rewrite Z.land_ones by lia. change (2 ^ 6) with 64. pose proof (Z.mod_pos_bound c 64 ltac:(lia)). unfold MAX_RATE_POWER. lia. }
  revert edge. induction n as [|n IH]; intros edge; cbn [edge_loop]; [unfold MAX_RATE_POWER; lia|].
  repeat match goal with |- context [if ?b then _ else _] => destruct b end; try apply IH; try apply H; unfold MAX_RATE_POWER; try lia.
  unfold ar9003_hw_get_indirect_edge_power. destruct (_ && _); [apply H|unfold MAX_RATE_POWER; lia].
Qed.
Lemma max_edge_range eep freq idx is2GHz : 0 <= ar9003_hw_get_max_edge_power eep freq idx is2GHz <= MAX_RATE_POWER.
Proof.
  unfold ar9003_hw_get_max_edge_power. destruct (_ && _); [unfold MAX_RATE_POWER; lia|apply edge_power_range].
Qed.
Lemma ctl_limit_range eep freq is2GHz cfgCtl mode l i acc : 0 <= acc <= MAX_RATE_POWER ->
  0 <= ctl_loop eep freq is2GHz cfgCtl mode l i acc <= MAX_RATE_POWER.
Proof.
  revert i acc. induction l as [|c l IH]; intros i acc Ha; cbn [ctl_loop]; [done|]. pose proof (max_edge_range eep freq i is2GHz).
  destruct (c =? 0); [done|]. destruct (ctl_matches cfgCtl mode c); [|by apply IH]. destruct (_ =? SD_NO_CTL); [apply IH; lia|done].
Qed.

Lemma scaled_range mask limit red : in_u8 limit -> in_u8 red -> 0 <= ath9k_hw_get_scaled_power mask limit red <= limit.
Proof.
  intros Hl Hr. unfold in_u8 in *. unfold ath9k_hw_get_scaled_power. pose proof (u16_range (red + power_correction mask)) as Hu. unfold in_u16 in Hu.
  destruct (Z.ltb_spec (u16 (red + power_correction mask)) limit); lia.
Qed.

(** The limit of a mode: the conformance limit and the scaled limit of the caller. *)
Definition ctl_limit (eep : ar9300_eeprom) (chan : ath9k_channel) (cfgCtl mode : Z) : Z :=
  ctl_loop eep (ctl_freq (ath9k_hw_get_channel_centers chan) mode) (chan_2ghz chan) cfgCtl mode
    (if chan_2ghz chan then ctlIndex_2G eep else ctlIndex_5G eep) 0 MAX_RATE_POWER.
Lemma min_ctl_is_min eep chan cfgCtl scaled mode : in_u8 scaled ->
  min_ctl_power eep chan cfgCtl scaled mode = Z.min (ctl_limit eep chan cfgCtl mode) scaled.
Proof.
  intros Hs. unfold min_ctl_power. fold (ctl_limit eep chan cfgCtl mode). apply u8_id. unfold in_u8 in *.
  assert (0 <= ctl_limit eep chan cfgCtl mode <= MAX_RATE_POWER) by (apply ctl_limit_range; unfold MAX_RATE_POWER; lia). unfold MAX_RATE_POWER in *. lia.
Qed.

Lemma mode_round_length ah chan cfgCtl scaled pwr mode : length (ctl_mode_round ah chan cfgCtl scaled pwr mode) = length pwr.
Proof. unfold ctl_mode_round. repeat match goal with |- context [if ?b then _ else _] => destruct b end; rewrite ?map_rates_length; done. Qed.

Lemma mode_round_rate ah chan cfgCtl scaled pwr mode i p : mode ∈ ctl_modes chan -> in_u8 scaled -> pwr !! i = Some p -> in_u8 p ->
  (ctl_mode_round ah chan cfgCtl scaled pwr mode) !! i =
    Some (if covers mode i then mci_limit ah mode (Z.min p (Z.min (ctl_limit (ar9300_eep ah) chan cfgCtl mode) scaled)) else p).
Proof.
  intros Hm Hs Hi Hp. unfold ctl_mode_round. rewrite min_ctl_is_min by done.
  set (m := Z.min (ctl_limit _ _ _ _) scaled).
  assert (in_u8 m) as Hmr.
  { assert (0 <= ctl_limit (ar9300_eep ah) chan cfgCtl mode <= MAX_RATE_POWER) by (apply ctl_limit_range; unfold MAX_RATE_POWER; lia). unfold in_u8, m, MAX_RATE_POWER in *. lia. }
  clearbody m. assert (u8 (Z.min p m) = Z.min p m) as Hu by (apply u8_id; unfold in_u8 in *; lia).
  assert (u8 mode = mode \/ negb (is_ht20_mode mode || is_ht40_mode mode) = true) as Hmode.
  { rewrite ctl_modes_cases in Hm. destruct (chan_2ghz chan), (chan_ht40 chan); cbn [app] in Hm;
      repeat (apply elem_of_cons in Hm as [->|Hm]; [by (left + right)|]); by apply elem_of_nil in Hm. }
  assert (forall x, 0 <= x <= 65535 -> u8 (Z.min (Z.min p m) x) = Z.min (Z.min p m) x) as Hu2 by (intros x Hx; apply u8_id; unfold in_u8 in *; lia).
  assert (forall x, 0 <= ar9003_mci_get_max_txpower (concur_tx ah) x <= 65535) as Hmci.
  { intros x. unfold ar9003_mci_get_max_txpower. change (u16 (-1)) with 65535. repeat match goal with |- context [if ?b then _ else _] => destruct b end; lia. }
  unfold covers, mci_limit.
  assert ((mode =? CTL_11B) = true -> is_ht20_mode mode || is_ht40_mode mode = false) as N1 by (unfold CTL_11B; intros ->%Z.eqb_eq; done).
  assert ((mode =? CTL_11A) || (mode =? CTL_11G) = true -> is_ht20_mode mode || is_ht40_mode mode = false) as N2.
  { unfold CTL_11A, CTL_11G. rewrite orb_true_iff. by intros [->%Z.eqb_eq| ->%Z.eqb_eq]. }
  destruct (mode =? CTL_11B); [|destruct ((mode =? CTL_11A) || (mode =? CTL_11G)); [|destruct (is_ht20_mode mode) eqn:E20; [|destruct (is_ht40_mode mode) eqn:E40]]].
  - rewrite map_rates_lookup, Hi, N1, andb_false_r by done. destruct (_ && _); cbn; by rewrite ?Hu.
  - rewrite map_rates_lookup, Hi, N2, andb_false_r by done. destruct (_ && _); cbn; by rewrite ?Hu.
  - rewrite map_rates_lookup, Hi. destruct Hmode as [->|Hmode]; [|done]. destruct (_ && (i <=? _)%nat); cbn; [|done].
    rewrite andb_true_r. destruct (mci_enabled ah); by rewrite Hu, ?Hu2.
  - rewrite map_rates_lookup, Hi. destruct Hmode as [->|Hmode]; [|done]. destruct (_ && (i <=? _)%nat); cbn; [|done].
    rewrite andb_true_r. destruct (mci_enabled ah); by rewrite Hu, ?Hu2.
  - rewrite Hi. by destruct i as [|[|i]].
Qed.

(** The mode that limits a rate on a channel. *)
Definition mode_of (chan : ath9k_channel) (i : nat) : option Z :=
  List.find (fun m => covers m i) (ctl_modes chan).

(** The power that is allowed for a rate with the target [p]. *)
Definition allowed (ah : pwr_hw) (chan : ath9k_channel) (cfgCtl scaled : Z) (i : nat) (p : Z) : Z :=
  match mode_of chan i with
  | Some m => mci_limit ah m (Z.min p (Z.min (ctl_limit (ar9300_eep ah) chan cfgCtl m) scaled))
  | None => p
  end.

Lemma covers_modes i :
  covers CTL_11B i = ((4 <=? i) && (i <=? 7))%nat /\ covers CTL_11G i = ((0 <=? i) && (i <=? 3))%nat /\ covers CTL_11A i = ((0 <=? i) && (i <=? 3))%nat /\
  covers CTL_2GHT20 i = ((8 <=? i) && (i <=? 21))%nat /\ covers CTL_5GHT20 i = ((8 <=? i) && (i <=? 21))%nat /\
  covers CTL_2GHT40 i = ((22 <=? i) && (i <=? 35))%nat /\ covers CTL_5GHT40 i = ((22 <=? i) && (i <=? 35))%nat /\
  covers CTL_11A_EXT i = ((1 <=? i) && (i <=? 0))%nat /\ covers CTL_11B_EXT i = ((1 <=? i) && (i <=? 0))%nat /\ covers CTL_11G_EXT i = ((1 <=? i) && (i <=? 0))%nat.
Proof. repeat split. Qed.
Ltac covered i := destruct (covers_modes i) as (C1 & C2 & C3 & C4 & C5 & C6 & C7 & C8 & C9 & C10); rewrite ?C1, ?C2, ?C3, ?C4, ?C5, ?C6, ?C7, ?C8, ?C9, ?C10 in *.

(** Two modes of a channel never limit the same rate. *)
Lemma modes_disjoint chan : ForallOrdPairs (fun m m' => forall i, covers m i = true -> covers m' i = false) (ctl_modes chan).
Proof.
  rewrite ctl_modes_cases. destruct (chan_2ghz chan), (chan_ht40 chan); cbn [app];
    repeat first [apply FOP_nil | apply FOP_cons | apply List.Forall_cons | apply List.Forall_nil];
    intros i; covered i; rewrite ?andb_true_iff, ?andb_false_iff, ?Nat.leb_le, ?Nat.leb_gt; lia.
Qed.

Lemma mci_range ah m p : 0 <= p -> 0 <= mci_limit ah m p <= p.
Proof.
  intros Hp. unfold mci_limit. destruct (_ && _); [|lia].
  unfold ar9003_mci_get_max_txpower. change (u16 (-1)) with 65535. repeat match goal with |- context [if ?b then _ else _] => destruct b end; lia.
Qed.

Lemma ctl_limit_u8 eep chan cfgCtl mode : 0 <= ctl_limit eep chan cfgCtl mode <= MAX_RATE_POWER.
Proof. apply ctl_limit_range. unfold MAX_RATE_POWER. lia. Qed.

Lemma limited_range ah chan cfgCtl scaled m p : 0 <= p -> 0 <= scaled ->
  0 <= mci_limit ah m (Z.min p (Z.min (ctl_limit (ar9300_eep ah) chan cfgCtl m) scaled)) <= Z.min p (Z.min MAX_RATE_POWER scaled).
Proof.
  intros. pose proof (ctl_limit_u8 (ar9300_eep ah) chan cfgCtl m).
  pose proof (mci_range ah m (Z.min p (Z.min (ctl_limit (ar9300_eep ah) chan cfgCtl m) scaled)) ltac:(lia)). lia.
Qed.

Lemma table_length ah chan cfgCtl red limit pwr : length (ar9003_hw_set_power_per_rate_table ah chan cfgCtl red limit pwr) = length pwr.
Proof.
  unfold ar9003_hw_set_power_per_rate_table. revert pwr. induction (ctl_modes chan) as [|m ms IH]; intros pwr; cbn; [done|]. by rewrite IH, mode_round_length.
Qed.

Lemma table_rate ah chan cfgCtl red limit pwr i p : in_u8 limit -> in_u8 red -> pwr !! i = Some p -> in_u8 p ->
  (ar9003_hw_set_power_per_rate_table ah chan cfgCtl red limit pwr) !! i =
    Some (allowed ah chan cfgCtl (ath9k_hw_get_scaled_power (txchainmask ah) limit red) i p).
Proof.
  intros Hl Hr Hi Hp. pose proof (scaled_range (txchainmask ah) limit red Hl Hr) as Hs.
  unfold ar9003_hw_set_power_per_rate_table, allowed, mode_of. set (scaled := ath9k_hw_get_scaled_power _ _ _) in *. clearbody scaled.
  assert (in_u8 scaled) as Hsu by (unfold in_u8 in *; lia).
  assert (forall ms p pwr, (forall m, m ∈ ms -> m ∈ ctl_modes chan) -> ForallOrdPairs (fun m m' => forall i, covers m i = true -> covers m' i = false) ms ->
    pwr !! i = Some p -> in_u8 p ->
    fold_left (ctl_mode_round ah chan cfgCtl scaled) ms pwr !! i = Some (match List.find (fun m => covers m i) ms with
      | Some m => mci_limit ah m (Z.min p (Z.min (ctl_limit (ar9300_eep ah) chan cfgCtl m) scaled)) | None => p end)) as H; [|apply H; [done|apply modes_disjoint|done|done]].
  clear Hi Hp p pwr. intros ms. induction ms as [|m ms IH]; intros p pwr Hin Hd Hi Hp; cbn [fold_left List.find]; [done|]. inversion Hd as [|? ? Hm Hd']; subst.
  pose proof (mode_round_rate ah chan cfgCtl scaled pwr m i p (Hin m ltac:(set_solver)) Hsu Hi Hp) as Hrd.
  pose proof (limited_range ah chan cfgCtl scaled m p ltac:(unfold in_u8 in *; lia) ltac:(lia)) as Hlr.
  destruct (covers m i) eqn:Ec.
  - rewrite (IH _ _ ltac:(set_solver) Hd' Hrd ltac:(unfold in_u8 in *; lia)). destruct (List.find (fun m => covers m i) ms) as [m'|] eqn:Ef; [|done].
    exfalso. apply find_some in Ef as [Hin' Hc']. rewrite List.Forall_forall in Hm. by rewrite (Hm m' Hin' i Ec) in Hc'.
  - exact (IH _ _ ltac:(set_solver) Hd' Hrd Hp).
Qed.

(** ** The base *)

Lemma set_rates_u8 get rates pwr : (forall r, in_u8 (get r)) -> Forall in_u8 pwr -> Forall in_u8 (set_rates get rates pwr).
Proof.
  intros Hg. unfold set_rates. revert pwr. induction rates as [|[i r] rates IH]; intros pwr Hp; cbn; [done|]. apply IH. by apply Forall_insert.
Qed.
Lemma set_rates_length get rates pwr : length (set_rates get rates pwr) = length pwr.
Proof. unfold set_rates. revert pwr. induction rates as [|[i r] rates IH]; intros pwr; cbn; [done|]. by rewrite IH, length_insert. Qed.
Lemma set_rates_other get rates pwr j : j ∉ fst <$> rates -> set_rates get rates pwr !! j = pwr !! j.
Proof.
  unfold set_rates. revert pwr. induction rates as [|[i r] rates IH]; intros pwr Hj; cbn; [done|]. cbn in Hj. rewrite not_elem_of_cons in Hj.
  rewrite IH by tauto. by rewrite list_lookup_insert_ne by naive_solver.
Qed.

Lemma tgt_u8 bins powers r freq g : in_u8 (tgt_pwr bins powers r freq g).
Proof. apply u8_range. Qed.

Lemma target_power_u8 eep chan pwr : Forall in_u8 pwr -> Forall in_u8 (ar9003_hw_get_target_power_eeprom eep chan pwr).
Proof.
  intros Hp. unfold ar9003_hw_get_target_power_eeprom.
  unfold ar9003_hw_get_ht40_target_powers, ar9003_hw_get_ht20_target_powers, ar9003_hw_get_legacy_target_powers, ar9003_hw_get_cck_target_powers.
  assert (forall r f g, in_u8 (ar9003_hw_eeprom_get_tgt_pwr eep r f g)) by (intros r f []; apply tgt_u8).
  assert (forall r f g, in_u8 (ar9003_hw_eeprom_get_ht20_tgt_pwr eep r f g)) by (intros r f []; apply tgt_u8).
  assert (forall r f, in_u8 (ar9003_hw_eeprom_get_cck_tgt_pwr eep r f)) by (intros r f; apply tgt_u8).
  destruct (chan_ht40 chan), (chan_2ghz chan); repeat (apply set_rates_u8; [intros; first [apply u8_range|done]|]); done.
Qed.
Lemma target_power_length eep chan pwr : length (ar9003_hw_get_target_power_eeprom eep chan pwr) = length pwr.
Proof.
  unfold ar9003_hw_get_target_power_eeprom.
  unfold ar9003_hw_get_ht40_target_powers, ar9003_hw_get_ht20_target_powers, ar9003_hw_get_legacy_target_powers, ar9003_hw_get_cck_target_powers.
  destruct (chan_ht40 chan), (chan_2ghz chan); by rewrite !set_rates_length.
Qed.

(** A rate that no mode limits has no target either. *)
Lemma no_mode chan i : (i < 36)%nat -> mode_of chan i = None ->
  (chan_2ghz chan = false /\ (4 <= i < 8)%nat) \/ (chan_ht40 chan = false /\ (22 <= i)%nat).
Proof.
  intros Hi. unfold mode_of. rewrite ctl_modes_cases.
  assert (forall m ms, List.find (fun m => covers m i) (m :: ms) = None -> covers m i = false /\ List.find (fun m => covers m i) ms = None) as H.
  { intros m ms. cbn. by destruct (covers m i). }
  destruct (chan_2ghz chan), (chan_ht40 chan); cbn [app]; intros Hf;
    repeat match type of Hf with List.find _ (_ :: _) = None => apply H in Hf as [? Hf] end;
    covered i; repeat match goal with Hc : (_ && _)%nat = false |- _ => rewrite andb_false_iff, !Nat.leb_gt in Hc end; lia.
Qed.
Lemma target_unused eep chan i : (i < 36)%nat -> mode_of chan i = None -> ar9003_hw_get_target_power_eeprom eep chan (replicate 36 0) !! i = Some 0.
Proof.
  intros Hi Hm. rewrite <- (lookup_replicate_2 36 0 i Hi). unfold ar9003_hw_get_target_power_eeprom.
  unfold ar9003_hw_get_ht40_target_powers, ar9003_hw_get_ht20_target_powers, ar9003_hw_get_legacy_target_powers, ar9003_hw_get_cck_target_powers.
  assert (fst <$> legacy_rates = seq 0 4) as E1 by done. assert (fst <$> cck_rates = seq 4 4) as E2 by done.
  assert (fst <$> ht20_rates = seq 8 14) as E3 by done. assert (fst <$> ht40_rates = seq 22 14) as E4 by done.
  destruct (no_mode chan i Hi Hm) as [[-> Hr]|[-> Hr]]; [destruct (chan_ht40 chan)|destruct (chan_2ghz chan)];
    repeat (rewrite set_rates_other; [|rewrite ?E1, ?E2, ?E3, ?E4, elem_of_seq; lia]); done.
Qed.

Lemma rate_at_lookup l i : (i < length l)%nat -> l !! i = Some (rate_at l i).
Proof. intros H. unfold rate_at. destruct (lookup_lt_is_Some_2 l i H) as [x Hx]. by rewrite (nth_lookup_Some l i 0 x Hx). Qed.
Lemma rate_at_u8 l i : Forall in_u8 l -> in_u8 (rate_at l i).
Proof.
  intros H. unfold rate_at. destruct (Nat.lt_ge_cases i (length l)); [|rewrite nth_overflow by lia; unfold in_u8; lia].
  rewrite Forall_forall in H. apply H. by apply list_elem_of_In, nth_In.
Qed.

(** What every list of powers before the limits satisfies. *)
Record base_ok (chan : ath9k_channel) (pwr : list Z) : Prop := {
  base_length : length pwr = 36%nat;
  base_u8 : Forall in_u8 pwr;
  base_unused : forall i, (i < 36)%nat -> mode_of chan i = None -> rate_at pwr i = 0;
}.

Lemma lower_ok chan eep_pwr mask scale min pwr i : base_ok chan pwr -> base_ok chan (paprd_lower eep_pwr mask scale min pwr i).
Proof.
  intros [Hl Hu H0]. unfold paprd_lower. set (j := Z.to_nat _). destruct (has _ _); cbn [andb]; [|done].
  destruct (Z.eqb_spec (rate_at pwr j) 0) as [E|E]; cbn [negb andb]; [done|]. destruct (_ =? _); [|done]. split.
  - by rewrite length_insert.
  - apply Forall_insert; [done|apply u8_range].
  - intros k Hk Hm. destruct (decide (j = k)) as [->|Hne]; [by destruct E; apply H0|]. rewrite <- (H0 k Hk Hm). unfold rate_at. by rewrite !nth_lookup, list_lookup_insert_ne.
Qed.

Lemma baseline_ok chan ah : base_ok chan (fst (fst (baseline_power chan ah))).
Proof.
  assert (base_ok chan (ar9003_hw_get_target_power_eeprom (ar9300_eep ah) chan (replicate ar9300RateSize 0))) as Hb.
  { split.
    - by rewrite target_power_length.
    - apply target_power_u8. apply Forall_replicate. unfold in_u8. lia.
    - intros i Hi Hm. pose proof (target_unused (ar9300_eep ah) chan i Hi Hm) as H. rewrite rate_at_lookup in H; [by injection H|]. by rewrite target_power_length. }
  unfold baseline_power. destruct (paprd_enabled ah); [|exact Hb]. cbn [fst]. destruct (negb _); [|exact Hb].
  set (e := ar9003_hw_get_target_power_eeprom _ _ _) in *. generalize e at 1. revert Hb. generalize e. clear e. intros e Hb e'. revert e Hb.
  induction (seq 0 24) as [|i l IH]; intros e Hb; cbn [fold_left]; [done|]. apply IH. by apply lower_ok.
Qed.

(** * Registers *)

Lemma read_rmw_ne a b s m c : a <> b -> REG_READ (REG_RMW a s m c) b = REG_READ c b.
Proof. apply read_write_ne. Qed.
Lemma read_field_ne a b f v c : a <> b -> REG_READ (REG_RMW_FIELD a f v c) b = REG_READ c b.
Proof. apply read_write_ne. Qed.

(** The registers of the calibration. *)
Definition tpc_regs : list Z :=
  [AR_PHY_TPC_11_B0; AR_PHY_TPC_11_B1; AR_PHY_TPC_11_B2; AR_PHY_TPC_6_B0; AR_PHY_TPC_6_B1; AR_PHY_TPC_6_B2; AR_PHY_TPC_19; AR_PHY_TPC_19_B1; AR_PHY_TPC_19_B2; AR_PHY_TPC_18].
Lemma read_on_field_ne (b : bool) r a f v c : r <> a -> REG_READ (on b (REG_RMW_FIELD r f v) c) a = REG_READ c a.
Proof. destruct b; [apply read_field_ne|done]. Qed.
Lemma read_on_rmw_ne (b : bool) r a s m c : r <> a -> REG_READ (on b (REG_RMW r s m) c) a = REG_READ c a.
Proof. destruct b; [apply read_rmw_ne|done]. Qed.
Ltac keep_step :=
  match goal with
  | |- REG_READ (REG_RMW_FIELD ?r ?f ?v ?c) ?a = _ => refine (eq_trans (read_field_ne r a f v c _) _)
  | |- REG_READ (REG_RMW ?r ?s ?m ?c) ?a = _ => refine (eq_trans (read_rmw_ne r a s m c _) _)
  | |- REG_READ (on ?b (REG_RMW_FIELD ?r ?f ?v) ?c) ?a = _ => refine (eq_trans (read_on_field_ne b r a f v c _) _)
  | |- REG_READ (on ?b (REG_RMW ?r ?s ?m) ?c) ?a = _ => refine (eq_trans (read_on_rmw_ne b r a s m c _) _)
  end.
Lemma override_keeps ah f cor volt temp c a : a ∉ tpc_regs -> REG_READ (ar9003_hw_power_control_override ah f cor volt temp c) a = REG_READ c a.
Proof.
  intros Ha. unfold tpc_regs in Ha. rewrite !not_elem_of_cons in Ha. unfold ar9003_hw_power_control_override.
  destruct (temp_slopes ah f) as [[t0 t1] t2], (chain_slopes ah f) as [[s0 s1] s2]. cbv zeta.
  destruct (_ || _); repeat (keep_step; [intros <-; clear - Ha; tauto|]); done.
Qed.
Lemma calibration_keeps ah f c c' a : ar9003_hw_calibration_apply ah f c = Ok c' -> a ∉ tpc_regs -> REG_READ c' a = REG_READ c a.
Proof.
  intros E Ha. unfold ar9003_hw_calibration_apply in E.
  destruct (cal_values _ _ _ p_correction _ _); [|done]. cbn [obind] in E. destruct (cal_values _ _ _ p_temperature _ _); [|done]. cbn [obind] in E.
  destruct (cal_values _ _ _ p_voltage _ _); [|done]. cbn [obind] in E. injection E as <-. by apply override_keeps.
Qed.

(** The rates of each register, the lowest byte first. *)
Definition power_words : list (Z * list (option nat)) :=
  let s := Some in
  [(0, [s ALL_TARGET_LEGACY_6_24; s ALL_TARGET_LEGACY_6_24; s ALL_TARGET_LEGACY_6_24; s ALL_TARGET_LEGACY_6_24]);
   (1, [s ALL_TARGET_LEGACY_6_24; s ALL_TARGET_LEGACY_36; s ALL_TARGET_LEGACY_48; s ALL_TARGET_LEGACY_54]);
   (2, [s ALL_TARGET_LEGACY_1L_5L; None; s ALL_TARGET_LEGACY_1L_5L; s ALL_TARGET_LEGACY_1L_5L]);
   (3, [s ALL_TARGET_LEGACY_1L_5L; s ALL_TARGET_LEGACY_5S; s ALL_TARGET_LEGACY_11L; s ALL_TARGET_LEGACY_11S]);
   (4, [s ALL_TARGET_HT20_0_8_16; s ALL_TARGET_HT20_1_3_9_11_17_19; s ALL_TARGET_HT20_4; s ALL_TARGET_HT20_5]);
   (5, [s ALL_TARGET_HT20_6; s ALL_TARGET_HT20_7; s ALL_TARGET_HT20_12; s ALL_TARGET_HT20_13]);
   (6, [s ALL_TARGET_HT40_0_8_16; s ALL_TARGET_HT40_1_3_9_11_17_19; s ALL_TARGET_HT40_4; s ALL_TARGET_HT40_5]);
   (7, [s ALL_TARGET_HT40_6; s ALL_TARGET_HT40_7; s ALL_TARGET_HT40_12; s ALL_TARGET_HT40_13]);
   (8, [s ALL_TARGET_LEGACY_1L_5L; s ALL_TARGET_LEGACY_6_24; s ALL_TARGET_LEGACY_1L_5L; s ALL_TARGET_LEGACY_6_24]);
   (9, [s ALL_TARGET_HT20_14; s ALL_TARGET_HT20_15; s ALL_TARGET_HT20_20; s ALL_TARGET_HT20_21]);
   (10, [s ALL_TARGET_HT20_22; s ALL_TARGET_HT20_23; s ALL_TARGET_HT40_22; s ALL_TARGET_HT40_23]);
   (11, [s ALL_TARGET_HT40_14; s ALL_TARGET_HT40_15; s ALL_TARGET_HT40_20; s ALL_TARGET_HT40_21])].
Definition power_byte (w : Z) (k : nat) : Z := (w .>> (8 * Z.of_nat k)) .& 0xff.
Definition word_rate (pwr : list Z) (o : option nat) : Z := match o with Some r => rate_at pwr r | None => 0 end.

Lemma pow_byte r s k : 0 <= r < 64 -> (s < 4)%nat -> (k < 4)%nat -> power_byte (POW_SM r (8 * Z.of_nat s)) k = if decide (s = k) then r else 0.
Proof.
  intros Hr Hs Hk. unfold power_byte, POW_SM. change 0x3f with (Z.ones 6). rewrite (Z.land_ones r) by lia. rewrite Z.mod_small by (change (2 ^ 6) with 64; lia).
  assert (forallb (fun r => forallb (fun s => forallb (fun k => ((r .<< (8 * Z.of_nat s)) .>> (8 * Z.of_nat k)) .& 0xff =? if decide (s = k) then r else 0) (seq 0 4)) (seq 0 4)) (seqZ 0 64) = true) as H
    by (vm_compute; reflexivity).
  rewrite forallb_forall in H. specialize (H r ltac:(apply list_elem_of_In, elem_of_seqZ; lia)).
  rewrite forallb_forall in H. specialize (H s ltac:(apply list_elem_of_In, elem_of_seq; lia)).
  rewrite forallb_forall in H. specialize (H k ltac:(apply list_elem_of_In, elem_of_seq; lia)). by apply Z.eqb_eq in H.
Qed.
Lemma byte_lor a b k : power_byte (a .| b) k = power_byte a k .| power_byte b k.
Proof. unfold power_byte. by rewrite Z.shiftr_lor, Z.land_lor_distr_l. Qed.
Lemma byte_u32 w k : (k < 4)%nat -> power_byte (u32 w) k = power_byte w k.
Proof.
  intros Hk. unfold power_byte, u32. change 4294967296 with (2 ^ 32). rewrite <- Z.land_ones by lia. apply Z.bits_inj'. intros n Hn.
  rewrite !Z.land_spec. destruct (Z.ltb_spec n 8).
  - rewrite !Z.shiftr_spec, Z.land_spec by lia. rewrite (Z.ones_spec_low 32) by lia. by rewrite andb_true_r.
  - change 0xff with (Z.ones 8). rewrite (Z.ones_spec_high 8 n) by lia. by rewrite !andb_false_r.
Qed.

Lemma tx_rate_inj d d' : AR_PHY_POWER_TX_RATE d = AR_PHY_POWER_TX_RATE d' -> d = d'.
Proof. unfold AR_PHY_POWER_TX_RATE. rewrite !Z.shiftl_mul_pow2 by lia. lia. Qed.
Lemma write_rates_ne pwr d d' r3 r2 r1 r0 c : (d' =? d) = false -> REG_READ (write_rates pwr d' r3 r2 r1 r0 c) (AR_PHY_POWER_TX_RATE d) = REG_READ c (AR_PHY_POWER_TX_RATE d).
Proof. intros H%Z.eqb_neq. apply read_write_ne. by intros ?%tx_rate_inj. Qed.
Lemma write_other_ne d d' v c : (d' =? d) = false -> REG_READ (REG_WRITE (AR_PHY_POWER_TX_RATE d') v c) (AR_PHY_POWER_TX_RATE d) = REG_READ c (AR_PHY_POWER_TX_RATE d).
Proof. intros H%Z.eqb_neq. apply read_write_ne. by intros ?%tx_rate_inj. Qed.
Lemma pow_word a b x y k : 0 <= a < 64 -> 0 <= b < 64 -> 0 <= x < 64 -> 0 <= y < 64 -> (k < 4)%nat ->
  power_byte (POW_SM a 24 .| POW_SM b 16 .| POW_SM x 8 .| POW_SM y 0) k = nth k [y; x; b; a] 0.
Proof.
  intros Ha Hb Hx Hy Hk. rewrite !byte_lor, (pow_byte a 3), (pow_byte b 2), (pow_byte x 1), (pow_byte y 0) by (done || lia).
  destruct k as [|[|[|[|k]]]]; cbn; rewrite ?Z.lor_0_r; done || lia.
Qed.
Lemma write_rates_eq pwr d r3 r2 r1 r0 c k : (forall i, 0 <= rate_at pwr i < 64) -> (k < 4)%nat ->
  power_byte (REG_READ (write_rates pwr d r3 r2 r1 r0 c) (AR_PHY_POWER_TX_RATE d)) k = rate_at pwr (nth k [r0; r1; r2; r3] 0%nat).
Proof.
  intros Hp Hk. unfold write_rates. rewrite read_write_eq, byte_u32, pow_word by done. destruct k as [|[|[|[|k]]]]; done || lia.
Qed.

Lemma word2_eq pwr c k : (forall i, 0 <= rate_at pwr i < 64) -> (k < 4)%nat ->
  power_byte (REG_READ (REG_WRITE (AR_PHY_POWER_TX_RATE 2) (POW_SM (rate_at pwr ALL_TARGET_LEGACY_1L_5L) 24 .| POW_SM (rate_at pwr ALL_TARGET_LEGACY_1L_5L) 16
    .| POW_SM (rate_at pwr ALL_TARGET_LEGACY_1L_5L) 0) c) (AR_PHY_POWER_TX_RATE 2)) k
  = word_rate pwr (nth k [Some ALL_TARGET_LEGACY_1L_5L; None; Some ALL_TARGET_LEGACY_1L_5L; Some ALL_TARGET_LEGACY_1L_5L] None).
Proof.
  intros Hp Hk. rewrite read_write_eq, byte_u32 by done. pose proof (Hp ALL_TARGET_LEGACY_1L_5L) as H1. set (p := rate_at pwr ALL_TARGET_LEGACY_1L_5L) in *.
  pose proof (pow_word p p 0 p k H1 H1 ltac:(lia) H1 Hk) as Hw. change (POW_SM 0 8) with 0 in Hw. rewrite Z.lor_0_r in Hw. rewrite Hw.
  destruct k as [|[|[|[|k]]]]; done || lia.
Qed.

Lemma regwrite_words pwr c d rs k o : (forall i, 0 <= rate_at pwr i < 64) -> (d, rs) ∈ power_words -> rs !! k = Some o ->
  power_byte (REG_READ (ar9003_hw_tx_power_regwrite pwr c) (AR_PHY_POWER_TX_RATE d)) k = word_rate pwr o.
Proof.
  intros Hp Hd Hk. unfold ar9003_hw_tx_power_regwrite. cbv zeta. pose proof (lookup_lt_Some _ _ _ Hk) as Hl. unfold power_words in Hd.
  repeat (apply elem_of_cons in Hd as [[= -> ->]|Hd]; [
    cbn in Hl; repeat first [rewrite write_rates_ne by reflexivity | rewrite write_other_ne by reflexivity];
    first [rewrite write_rates_eq by done | rewrite word2_eq by done]; clear - Hl Hk; destruct k as [|[|[|[|k]]]]; [by injection Hk as <-..|lia] |]).
  by apply elem_of_nil in Hd.
Qed.

(** The largest power of a list. *)
Definition is_max_rate (pwr : list Z) (m : Z) : Prop := (forall i, (i < 36)%nat -> rate_at pwr i <= m) /\ (m = 0 \/ exists i, (i < 36)%nat /\ m = rate_at pwr i).
Lemma max_rate_fold pwr : is_max_rate pwr (fold_left (fun m i => if m <? rate_at pwr i then rate_at pwr i else m) (seq 0 ar9300RateSize) 0).
Proof.
  unfold is_max_rate, ar9300RateSize.
  assert (forall n, let m := fold_left (fun m i => if m <? rate_at pwr i then rate_at pwr i else m) (seq 0 n) 0 in
    (forall i, (i < n)%nat -> rate_at pwr i <= m) /\ (m = 0 \/ exists i, (i < n)%nat /\ m = rate_at pwr i)) as H; [|exact (H 36%nat)].
  induction n as [|n [IH1 IH2]]; [cbn; split; [lia|by left]|]. rewrite seq_S, fold_left_app. cbn [fold_left Nat.add]. set (m := fold_left _ _ 0) in *. clearbody m.
  destruct (Z.ltb_spec m (rate_at pwr n)); cbn zeta; split.
  - intros i Hi. destruct (decide (i = n)) as [->|]; [lia|]. specialize (IH1 i ltac:(lia)). lia.
  - right. exists n. split; [lia|done].
  - intros i Hi. destruct (decide (i = n)) as [->|]; [lia|]. apply IH1. lia.
  - destruct IH2 as [->|(i & Hi & ->)]; [by left|]. right. exists i. split; [lia|done].
Qed.

Lemma calibration_ok ah f c : piers_ok (ar9300_eep ah) -> 1000 <= f <= 99000 ->
  let value get i := calibrated f (cal_piers (ar9300_eep ah) (4000 <=? f) i) get in
  ar9003_hw_calibration_apply ah f c =
    Ok (ar9003_hw_power_control_override ah f (value p_correction <$> seq 0 3) (value p_voltage <$> seq 0 3) (value p_temperature <$> seq 0 3) c).
Proof. intros Hp Hf. unfold ar9003_hw_calibration_apply. by rewrite !cal_values_ok. Qed.

(** The state after the powers have been limited, and the rest of the setting. *)
Definition powers (chan : ath9k_channel) (cfgCtl red limit : Z) (ah : pwr_hw) : list Z :=
  ar9003_hw_set_power_per_rate_table (snd (baseline_power chan ah)) chan cfgCtl red limit (fst (fst (baseline_power chan ah))).

Lemma baseline_fixed chan ah : let ah' := snd (baseline_power chan ah) in
  ar9300_eep ah' = ar9300_eep ah /\ txchainmask ah' = txchainmask ah /\ mci_enabled ah' = mci_enabled ah /\ concur_tx ah' = concur_tx ah /\ pw_common ah' = pw_common ah /\
  tpc_enabled ah' = tpc_enabled ah /\ tx_power ah' = tx_power ah /\ tx_power_stbc ah' = tx_power_stbc ah.
Proof. unfold baseline_power. by destruct (paprd_enabled ah). Qed.

Lemma allowed_same ah ah' chan cfgCtl scaled i p : ar9300_eep ah' = ar9300_eep ah -> mci_enabled ah' = mci_enabled ah -> concur_tx ah' = concur_tx ah ->
  allowed ah' chan cfgCtl scaled i p = allowed ah chan cfgCtl scaled i p.
Proof. intros H1 H2 H3. unfold allowed, mci_limit. by rewrite H1, H2, H3. Qed.

(** Every power: what is allowed, and at most the limits. *)
Lemma powers_limited chan cfgCtl red limit ah i : in_u8 red -> in_u8 limit -> (i < 36)%nat ->
  let scaled := ath9k_hw_get_scaled_power (txchainmask ah) limit red in
  rate_at (powers chan cfgCtl red limit ah) i = allowed ah chan cfgCtl scaled i (rate_at (fst (fst (baseline_power chan ah))) i) /\
  0 <= rate_at (powers chan cfgCtl red limit ah) i <= Z.min MAX_RATE_POWER scaled.
Proof.
  intros Hr Hl Hi scaled. destruct (baseline_ok chan ah) as [Hbl Hbu Hb0]. destruct (baseline_fixed chan ah) as (E1 & E2 & E3 & E4 & _).
  assert (powers chan cfgCtl red limit ah !! i = Some (allowed ah chan cfgCtl scaled i (rate_at (fst (fst (baseline_power chan ah))) i))) as H.
  { unfold powers. rewrite (table_rate _ chan cfgCtl red limit _ i (rate_at (fst (fst (baseline_power chan ah))) i)); [|done|done|apply rate_at_lookup; lia|by apply rate_at_u8].
    rewrite E2. by rewrite (allowed_same ah) by done. }
  assert (rate_at (powers chan cfgCtl red limit ah) i = allowed ah chan cfgCtl scaled i (rate_at (fst (fst (baseline_power chan ah))) i)) as E.
  { unfold rate_at at 1. by rewrite (nth_lookup_Some _ _ 0 _ H). }
  rewrite E. split; [done|]. pose proof (scaled_range (txchainmask ah) limit red Hl Hr) as Hs. fold scaled in Hs. clear E H.
  pose proof (rate_at_u8 _ i Hbu) as Hu. specialize (Hb0 i Hi). unfold allowed. destruct (mode_of chan i) as [m|].
  - pose proof (limited_range ah chan cfgCtl scaled m (rate_at (fst (fst (baseline_power chan ah))) i) ltac:(unfold in_u8 in *; lia) ltac:(lia)). lia.
  - rewrite Hb0 by done. unfold MAX_RATE_POWER. lia.
Qed.

Lemma rate_at_out l i : length l = 36%nat -> (36 <= i)%nat -> rate_at l i = 0.
Proof. intros. unfold rate_at. by rewrite nth_overflow by lia. Qed.
Lemma powers_length chan cfgCtl red limit ah : length (powers chan cfgCtl red limit ah) = 36%nat.
Proof. unfold powers. rewrite table_length. by destruct (baseline_ok chan ah). Qed.
Lemma powers_small chan cfgCtl red limit ah i : in_u8 red -> in_u8 limit -> 0 <= rate_at (powers chan cfgCtl red limit ah) i < 64.
Proof.
  intros Hr Hl. destruct (Nat.lt_ge_cases i 36); [|rewrite rate_at_out by (apply powers_length || lia); lia].
  destruct (powers_limited chan cfgCtl red limit ah i Hr Hl) as [_ H0]; [done|]. unfold MAX_RATE_POWER in H0. lia.
Qed.

(** The registers and tables at the end. *)
Record power_set (ah ah' : pwr_hw) (chan : ath9k_channel) (pwr : list Z) : Prop := {
  set_words d rs k o : (d, rs) ∈ power_words -> rs !! k = Some o -> power_byte (REG_READ (pw_common ah') (AR_PHY_POWER_TX_RATE d)) k = word_rate pwr o;
  set_max : exists m, is_max_rate pwr m /\ max_power_level ah' = u16 (m + power_correction (txchainmask ah));
  set_table : if tpc_enabled ah then tx_power ah' = tx_power (ar9003_hw_init_rate_txpower pwr chan ah) /\ tx_power_stbc ah' = tx_power_stbc (ar9003_hw_init_rate_txpower pwr chan ah)
              else tx_power ah' = tx_power ah /\ tx_power_stbc ah' = tx_power_stbc ah;
  set_tpc : tpc_enabled ah' = tpc_enabled ah;
}.

Lemma word_addr d rs : (d, rs) ∈ power_words -> 0 <= d <= 11.
Proof. unfold power_words. intros H. repeat (apply elem_of_cons in H as [[= -> _]|H]; [lia|]). by apply elem_of_nil in H. Qed.
Lemma word_apart d rs a : (d, rs) ∈ power_words -> a < 0xa3c0 \/ 0xa3f0 <= a -> a <> AR_PHY_POWER_TX_RATE d.
Proof. intros Hd%word_addr Ha. unfold AR_PHY_POWER_TX_RATE, AR_SM_BASE. rewrite Z.shiftl_mul_pow2 by lia. lia. Qed.
Lemma word_not_tpc d rs : (d, rs) ∈ power_words -> AR_PHY_POWER_TX_RATE d ∉ tpc_regs.
Proof.
  intros Hd%word_addr H. unfold AR_PHY_POWER_TX_RATE, AR_SM_BASE in H. rewrite Z.shiftl_mul_pow2 in H by lia.
  replace tpc_regs with [0xa420; 0xb420; 0xc420; 0xa40c; 0xb40c; 0xc40c; 0xa440; 0xb440; 0xc440; 0xa43c] in H by reflexivity.
  repeat (apply elem_of_cons in H as [H|H]; [lia|]). by apply elem_of_nil in H.
Qed.

Lemma init_rate_other pwr chan ah : pw_common (ar9003_hw_init_rate_txpower pwr chan ah) = pw_common ah /\
  max_power_level (ar9003_hw_init_rate_txpower pwr chan ah) = max_power_level ah /\ tpc_enabled (ar9003_hw_init_rate_txpower pwr chan ah) = tpc_enabled ah.
Proof. unfold ar9003_hw_init_rate_txpower. by destruct (chan_2ghz chan), (chan_ht20 chan || chan_ht40 chan). Qed.
Lemma init_rate_same pwr chan ah ah0 : tx_power ah0 = tx_power ah -> tx_power_stbc ah0 = tx_power_stbc ah ->
  tx_power (ar9003_hw_init_rate_txpower pwr chan ah0) = tx_power (ar9003_hw_init_rate_txpower pwr chan ah) /\
  tx_power_stbc (ar9003_hw_init_rate_txpower pwr chan ah0) = tx_power_stbc (ar9003_hw_init_rate_txpower pwr chan ah).
Proof.
  intros H1 H2. unfold ar9003_hw_init_rate_txpower. rewrite H1. destruct (chan_2ghz chan), (chan_ht20 chan || chan_ht40 chan); cbn; by rewrite ?H2.
Qed.

(** The fields that the steps leave alone. *)
Record same_settings (ah ah' : pwr_hw) : Prop := {
  same_eep : ar9300_eep ah' = ar9300_eep ah;
  same_tpc : tpc_enabled ah' = tpc_enabled ah;
  same_tx : tx_power ah' = tx_power ah;
  same_stbc : tx_power_stbc ah' = tx_power_stbc ah;
}.
Lemma same_trans ah1 ah2 ah3 : same_settings ah1 ah2 -> same_settings ah2 ah3 -> same_settings ah1 ah3.
Proof. intros [H1 H2 H3 H4] [K1 K2 K3 K4]. split; congruence. Qed.
Lemma regs_same f ah : same_settings ah (ah <| pw_common ::= f |>) /\ max_power_level (ah <| pw_common ::= f |>) = max_power_level ah /\
  pw_common (ah <| pw_common ::= f |>) = f (pw_common ah).
Proof. by repeat split. Qed.
Lemma paprd_same chan pwr ah : same_settings ah (ar9003_paprd_set_txpower chan pwr ah) /\ max_power_level (ar9003_paprd_set_txpower chan pwr ah) = max_power_level ah /\
  pw_common (ar9003_paprd_set_txpower chan pwr ah) = pw_common ah.
Proof. unfold ar9003_paprd_set_txpower. destruct (negb _); by repeat split. Qed.
Lemma ratemask_same v ah : same_settings ah (ah <| paprd_ratemask := v |>) /\ txchainmask (ah <| paprd_ratemask := v |>) = txchainmask ah.
Proof. by repeat split. Qed.
Lemma level_same v ah : same_settings ah (ath9k_hw_update_regulatory_maxpower (ah <| max_power_level := v |>)) /\
  max_power_level (ath9k_hw_update_regulatory_maxpower (ah <| max_power_level := v |>)) = u16 (v + power_correction (txchainmask ah)).
Proof. by repeat split. Qed.

Lemma limit_power_sets chan cfgCtl red limit ah : let '(pwr, ah') := limit_power chan cfgCtl red limit ah in
  pwr = powers chan cfgCtl red limit ah /\ same_settings ah ah' /\ exists m, is_max_rate pwr m /\ max_power_level ah' = u16 (m + power_correction (txchainmask ah)).
Proof.
  destruct (baseline_fixed chan ah) as (E1 & E2 & _ & _ & _ & E6 & E7 & E8). unfold limit_power, powers.
  destruct (baseline_power chan ah) as [[base scale] ah1]. cbn [fst snd] in *. set (pwr := ar9003_hw_set_power_per_rate_table _ _ _ _ _ _).
  split; [done|]. pose proof (max_rate_fold pwr) as Hmax. set (m := fold_left _ (seq 0 ar9300RateSize) 0) in *. clearbody m pwr.
  set (ah2 := if paprd_enabled ah1 then _ else ah1). assert (same_settings ah1 ah2 /\ txchainmask ah2 = txchainmask ah1) as [H1 H2].
  { subst ah2. destruct (paprd_enabled ah1); [apply ratemask_same|by repeat split]. }
  clearbody ah2. destruct (level_same m ah2) as [H3 H4]. split; [|exists m; rewrite H4, H2, E2; done].
  apply (same_trans _ ah1); [by split|]. by apply (same_trans _ ah2).
Qed.

Lemma init_tpc_sets chan pwr ah0 ah : same_settings ah0 ah ->
  (forall d rs k o, (d, rs) ∈ power_words -> rs !! k = Some o -> power_byte (REG_READ (pw_common ah) (AR_PHY_POWER_TX_RATE d)) k = word_rate pwr o) ->
  (exists m, is_max_rate pwr m /\ max_power_level ah = u16 (m + power_correction (txchainmask ah0))) -> power_set ah0 (init_tpc chan pwr ah) chan pwr.
Proof.
  intros [S1 S2 S3 S4] Hw (m & Hm & Hmax). unfold init_tpc. rewrite S2. destruct (tpc_enabled ah0) eqn:Et.
  - destruct (init_rate_other pwr chan ah) as (I1 & I2 & I3). destruct (init_rate_same pwr chan ah0 ah S3 S4) as (I4 & I5).
    set (ah7 := ar9003_hw_init_rate_txpower pwr chan ah) in *. clearbody ah7. cbv zeta.
    destruct (regs_same (REG_WRITE AR_PHY_PWRTX_MAX AR_PHY_POWER_TX_RATE_MAX_TPC_ENABLE) ah7) as ([_ K2 K3 K4] & K5 & K6). set (ah8 := ah7 <| pw_common ::= _ |>) in *. clearbody ah8.
    match goal with |- power_set _ (_ <| pw_common ::= ?f |>) _ _ => destruct (regs_same f ah8) as ([_ L2 L3 L4] & L5 & L6) end.
    set (ah9 := ah8 <| pw_common ::= _ |>) in *. clearbody ah9. split.
    + intros d rs k o Hd Hk. rewrite L6, K6. rewrite !read_write_ne by (apply (word_apart d rs); [done|vm_compute; by right]). rewrite I1. by apply (Hw d rs).
    + exists m. split; [done|]. congruence.
    + rewrite Et. split; congruence.
    + congruence.
  - match goal with |- power_set _ (_ <| pw_common ::= ?f |>) _ _ => destruct (regs_same f ah) as ([_ L2 L3 L4] & L5 & L6) end.
    set (ah9 := ah <| pw_common ::= _ |>) in *. clearbody ah9. split.
    + intros d rs k o Hd Hk. rewrite L6. rewrite !read_write_ne by (apply (word_apart d rs); [done|vm_compute; by right]). by apply (Hw d rs).
    + exists m. split; [done|]. congruence.
    + rewrite Et. split; congruence.
    + congruence.
Qed.

(** The whole setting, as a chain of states. *)
Lemma set_txpower_sets chan cfgCtl red limit ah : in_u8 red -> in_u8 limit -> piers_ok (ar9300_eep ah) -> 1000 <= channel chan <= 65535 ->
  exists ah', ath9k_hw_ar9300_set_txpower chan cfgCtl red limit false ah = Ok ah' /\ power_set ah ah' chan (powers chan cfgCtl red limit ah).
Proof.
  intros Hr Hl Hp Hc. pose proof (fun i => powers_small chan cfgCtl red limit ah i Hr Hl) as Hsm. pose proof (limit_power_sets chan cfgCtl red limit ah) as HL.
  unfold ath9k_hw_ar9300_set_txpower. destruct (limit_power chan cfgCtl red limit ah) as [pwr ah3]. destruct HL as (Epwr & HS3 & Hm). rewrite <- Epwr in *. clear Epwr.
  destruct (regs_same (ar9003_hw_tx_power_regwrite pwr) ah3) as (HS4 & HM4 & HC4). cbv zeta. set (ah4 := ah3 <| pw_common ::= _ |>) in *. clearbody ah4.
  destruct (ar9003_hw_calibration_apply ah4 (channel chan) (pw_common ah4)) as [c|] eqn:Ec.
  2:{ rewrite calibration_ok in Ec; [done|rewrite (same_eep _ _ HS4), (same_eep _ _ HS3); done|lia]. }
  cbn [obind].
  assert (forall d rs k o, (d, rs) ∈ power_words -> rs !! k = Some o -> power_byte (REG_READ c (AR_PHY_POWER_TX_RATE d)) k = word_rate pwr o) as D1.
  { intros d rs k o Hd Hk. rewrite (calibration_keeps _ _ _ _ _ Ec) by (by apply word_not_tpc in Hd). rewrite HC4. by apply (regwrite_words pwr _ d rs). }
  clear Ec. destruct (regs_same (fun _ => c) ah4) as (HS5 & HM5 & HC5). set (ah5 := ah4 <| pw_common := c |>) in *. clearbody ah5.
  destruct (paprd_same chan pwr ah5) as (HS6 & HM6 & HC6). set (ah6 := ar9003_paprd_set_txpower chan pwr ah5) in *. clearbody ah6.
  destruct (regs_same (ar9003_hw_selfgen_tpc_txpower chan pwr) ah6) as (HS7 & HM7 & HC7). set (ah7 := ah6 <| pw_common ::= _ |>) in *. clearbody ah7.
  eexists. split; [reflexivity|]. apply init_tpc_sets.
  - eauto using same_trans.
  - intros d rs k o Hd Hk. rewrite HC7, HC6, HC5. unfold ar9003_hw_selfgen_tpc_txpower.
    rewrite read_write_ne by (apply (word_apart d rs); [done|unfold AR_TPC; lia]). by apply (D1 d rs).
  - destruct Hm as (m & Hm & Hmax). exists m. split; [done|]. congruence.
Qed.

(** The target of a rate in the calibration data, and whether predistortion
    lowers it: it is on, its tables have not been written, the target is not 0,
    and the mask has a rate with this target. *)
Definition eep_targets (chan : ath9k_channel) (ah : pwr_hw) : list Z :=
  ar9003_hw_get_target_power_eeprom (ar9300_eep ah) chan (replicate ar9300RateSize 0).
Definition masked (mask min : Z) (l : list nat) (j : nat) : bool :=
  existsb (fun i => has mask (1 .<< Z.of_nat i) && (Z.to_nat (mcsidx_to_tgtpwridx (Z.of_nat i) min) =? j)%nat) l.
Definition lowers (chan : ath9k_channel) (ah : pwr_hw) (j : nat) : bool :=
  let modal := if chan_2ghz chan then modalHeader2G (ar9300_eep ah) else modalHeader5G (ar9300_eep ah) in
  let min := Z.of_nat (if chan_ht40 chan then ALL_TARGET_HT40_0_8_16 else ALL_TARGET_HT20_0_8_16) in
  paprd_enabled ah && negb (paprd_table_write_done ah) && negb (rate_at (eep_targets chan ah) j =? 0) &&
  masked (papdRateMaskHt20 modal .& AR9300_PAPRD_RATE_MASK) min (seq 0 24) j.
Definition target (chan : ath9k_channel) (ah : pwr_hw) (j : nat) : Z :=
  let t := rate_at (eep_targets chan ah) j in
  if lowers chan ah j then u8 (t - ar9003_get_paprd_scale_factor (ar9300_eep ah) chan) else t.

Lemma lower_one e mask scale min pwr i j : (j < length pwr)%nat -> rate_at e j <> 0 ->
  rate_at pwr j = rate_at e j \/ rate_at pwr j = u8 (rate_at e j - scale) ->
  rate_at (paprd_lower e mask scale min pwr i) j =
    if has mask (1 .<< Z.of_nat i) && (Z.to_nat (mcsidx_to_tgtpwridx (Z.of_nat i) min) =? j)%nat then u8 (rate_at e j - scale) else rate_at pwr j.
Proof.
  intros Hj He Hp. unfold paprd_lower. set (k := Z.to_nat _). destruct (has _ _); cbn [andb]; [|done]. destruct (Nat.eqb_spec k j) as [->|Hk].
  - destruct (Z.eqb_spec (rate_at pwr j) (rate_at e j)) as [E|E].
    + rewrite E, (proj2 (Z.eqb_neq _ _) He). cbn [negb andb]. unfold rate_at at 1. by rewrite (nth_lookup_Some _ _ 0 _ (list_lookup_insert_eq _ _ _ Hj)).
    + rewrite andb_false_r. by destruct Hp as [| ->].
  - destruct (_ && _); [|done]. unfold rate_at. by rewrite !nth_lookup, list_lookup_insert_ne.
Qed.
Lemma lower_length e mask scale min pwr i : length (paprd_lower e mask scale min pwr i) = length pwr.
Proof. unfold paprd_lower. destruct (_ && _); [apply length_insert|done]. Qed.
Lemma lower_zero e mask scale min pwr i j : rate_at pwr j = 0 -> rate_at (paprd_lower e mask scale min pwr i) j = 0.
Proof.
  intros H. unfold paprd_lower. set (k := Z.to_nat _). destruct (decide (k = j)) as [->|Hk].
  - rewrite H. cbn [Z.eqb negb]. by rewrite andb_false_r.
  - destruct (_ && _); [|done]. rewrite <- H. unfold rate_at. by rewrite !nth_lookup, list_lookup_insert_ne.
Qed.
Lemma lower_all e mask scale min l : forall pwr j, (j < length pwr)%nat -> rate_at e j <> 0 ->
  rate_at pwr j = rate_at e j \/ rate_at pwr j = u8 (rate_at e j - scale) ->
  rate_at (fold_left (paprd_lower e mask scale min) l pwr) j = if masked mask min l j then u8 (rate_at e j - scale) else rate_at pwr j.
Proof.
  induction l as [|i l IH]; intros pwr j Hj He Hp; [done|]. unfold masked. cbn [fold_left existsb].
  pose proof (lower_one e mask scale min pwr i j Hj He Hp) as H1. rewrite IH; [|by rewrite lower_length|done|].
  - fold (masked mask min l j). destruct (_ && _), (masked _ _ _ _); try done; by rewrite H1.
  - rewrite H1. destruct (_ && _); [by right|done].
Qed.

Lemma lower_all_zero e mask scale min l j : forall pwr, rate_at pwr j = 0 -> rate_at (fold_left (paprd_lower e mask scale min) l pwr) j = 0.
Proof. induction l as [|i l IH]; intros pwr H; [done|]. cbn [fold_left]. apply IH. by apply lower_zero. Qed.

(** The power before the limits. *)
Lemma baseline_target chan ah j : (j < 36)%nat -> rate_at (fst (fst (baseline_power chan ah))) j = target chan ah j.
Proof.
  intros Hj. unfold baseline_power, target, lowers, eep_targets. destruct (paprd_enabled ah); cbn [fst andb]; [|done].
  set (e := ar9003_hw_get_target_power_eeprom _ _ _). cbv zeta.
  match goal with |- context [negb (paprd_table_write_done ?x)] => change (paprd_table_write_done x) with (paprd_table_write_done ah) end.
  destruct (paprd_table_write_done ah); cbn [negb andb]; [done|].
  match goal with |- context [paprd_lower e (paprd_ratemask ?x)] =>
    change (paprd_ratemask x) with (papdRateMaskHt20 (if chan_2ghz chan then modalHeader2G (ar9300_eep ah) else modalHeader5G (ar9300_eep ah)) .& AR9300_PAPRD_RATE_MASK) end.
  destruct (Z.eqb_spec (rate_at e j) 0) as [E|E]; cbn [negb andb].
  - rewrite E. by apply lower_all_zero.
  - apply lower_all; [|done|by left]. unfold e. by rewrite target_power_length.
Qed.

(** C16. The power is limited: each rate gets its target of the calibration data,
    less the amount of the predistortion where that lowers it, and then brought
    down to the conformance limit of its mode, to the scaled limit of the caller
    and, for the HT rates with Bluetooth coexistence, to the limit of that; no
    power is above 31.5 dBm or above the scaled limit. These powers are what the
    registers hold, byte by byte. The level reported to the regulatory code is the
    largest of them plus the correction for the chains (0, 6 for two, 10 for
    three, in half dBm). The subtraction of the predistortion is one of bytes: a
    target below the amount wraps around to a large one, which leaves the limits
    as the power ([paprd_wraps], ar9003_eeprom.c:5377). The limits given are
    bytes, the frequency is at least 1000 MHz, and the calibration piers are those
    of [piers_ok]. *)
Theorem txpower_limited chan cfgCtl red limit ah : in_u8 red -> in_u8 limit -> piers_ok (ar9300_eep ah) -> 1000 <= channel chan <= 65535 ->
  let scaled := ath9k_hw_get_scaled_power (txchainmask ah) limit red in
  exists ah' pwr, ath9k_hw_ar9300_set_txpower chan cfgCtl red limit false ah = Ok ah' /\
    (forall i, (i < 36)%nat -> rate_at pwr i = allowed ah chan cfgCtl scaled i (target chan ah i) /\ 0 <= rate_at pwr i <= Z.min MAX_RATE_POWER scaled) /\
    (forall d rs k o, (d, rs) ∈ power_words -> rs !! k = Some o -> power_byte (REG_READ (pw_common ah') (AR_PHY_POWER_TX_RATE d)) k = word_rate pwr o) /\
    exists m, is_max_rate pwr m /\ max_power_level ah' = m + power_correction (txchainmask ah).
Proof.
  intros Hr Hl Hp Hc scaled. destruct (set_txpower_sets chan cfgCtl red limit ah Hr Hl Hp Hc) as (ah' & E & [Hw (m & Hm & Hmax) _ _]).
  exists ah', (powers chan cfgCtl red limit ah). split; [done|]. split; [intros i Hi; rewrite <- baseline_target by done; by apply powers_limited|]. split; [done|]. exists m. split; [done|]. rewrite Hmax. apply u16_id.
  assert (0 <= m < 64) as H.
  { destruct Hm as [_ [->|(i & _ & ->)]]; [lia|]. by apply powers_small. }
  assert (0 <= power_correction (txchainmask ah) <= 10) by (unfold power_correction, POWER_CORRECTION_FOR_TWO_CHAIN, POWER_CORRECTION_FOR_THREE_CHAIN; repeat destruct (_ =? _); lia).
  unfold in_u16. lia.
Qed.

(** C32. The calibration of a chain is the interpolation routine applied to the
    piers within 1000 MHz (0 without such a pier); no value is used that was not
    set. *)
Theorem calibration_interpolates ah f c : piers_ok (ar9300_eep ah) -> 1000 <= f <= 99000 ->
  let value get i := calibrated f (cal_piers (ar9300_eep ah) (4000 <=? f) i) get in
  ar9003_hw_calibration_apply ah f c =
    Ok (ar9003_hw_power_control_override ah f (value p_correction <$> seq 0 3) (value p_voltage <$> seq 0 3) (value p_temperature <$> seq 0 3) c) /\
  forall get i, interpolated f (as_pier get <$> List.filter (fun p => within f (as_pier get p)) (cal_piers (ar9300_eep ah) (4000 <=? f) i))
                  (if decide (List.filter (fun p => within f (as_pier get p)) (cal_piers (ar9300_eep ah) (4000 <=? f) i) = []) then - 2 ^ 30 else value get i).
Proof.
  intros Hp Hf value. split; [by apply calibration_ok|]. intros get i. unfold value, calibrated.
  set (near := List.filter _ _). rewrite <- zip_as_pier. destruct near as [|p near]; cbn [decide]; [|destruct (decide _); [done|apply power_interpolated]].
  destruct (decide _); [|done]. exact (power_interpolated f [] []).
Qed.

(** * The power of a frame *)

Lemma copy_rates_length arr table i tx : length (copy_rates arr table i tx) = length tx.
Proof. revert i tx. induction table as [|j table IH]; intros i tx; cbn; [done|]. by rewrite IH, length_insert. Qed.
Lemma copy_rates_lookup arr table i tx j : (j < length tx)%nat ->
  copy_rates arr table i tx !! j = if decide (i <= j < i + length table)%nat then Some (rate_at arr (nth (j - i) table 0%nat)) else tx !! j.
Proof.
  revert i tx. induction table as [|r table IH]; intros i tx Hj; cbn [copy_rates length]; [destruct (decide _); [lia|done]|].
  rewrite IH by (by rewrite length_insert). destruct (decide (S i <= j < S i + length table)%nat), (decide (i <= j < i + S (length table))%nat); try lia.
  - replace (j - i)%nat with (S (j - S i)) by lia. done.
  - assert (j = i) as -> by lia. rewrite Nat.sub_diag. by rewrite list_lookup_insert_eq.
  - by rewrite list_lookup_insert_ne by lia.
Qed.

(** Entries that are copies of powers are within the same bounds. *)
Definition entry_le (b : Z) (tx : list Z) (j : nat) : Prop := exists v, tx !! j = Some v /\ 0 <= v <= b.
Lemma copy_rates_le b arr table i tx j : (forall k, 0 <= rate_at arr k <= b) -> (j < length tx)%nat ->
  (i <= j < i + length table)%nat \/ entry_le b tx j -> entry_le b (copy_rates arr table i tx) j.
Proof.
  intros Ha Hj H. unfold entry_le. rewrite copy_rates_lookup by done. destruct (decide _) as [Hd|Hd]; [by eexists|]. destruct H as [H|H]; [by destruct Hd|done].
Qed.
(** The entries of the table that are set on a channel. *)
Definition table_size (chan : ath9k_channel) : nat :=
  let legacy := if chan_2ghz chan then 12%nat else 8%nat in if chan_ht20 chan || chan_ht40 chan then (legacy + 24)%nat else legacy.

Lemma init_rate_le b pwr chan ah j : (forall k, 0 <= rate_at pwr k <= b) -> length (tx_power ah) = 36%nat -> (j < table_size chan)%nat ->
  entry_le b (tx_power (ar9003_hw_init_rate_txpower pwr chan ah)) j.
Proof.
  intros Hp Hl Hj. unfold ar9003_hw_init_rate_txpower, table_size in *.
  assert (forall tx o, length tx = 36%nat -> (j < 36)%nat -> (o <= j < o + 8)%nat \/ entry_le b tx j -> entry_le b (ar9003_hw_init_txpower_ofdm pwr o tx) j) as Hof.
  { intros tx o Htx H36 H. unfold ar9003_hw_init_txpower_ofdm. apply copy_rates_le; [done|lia|exact H]. }
  assert (forall tx, length tx = 36%nat -> (j < 36)%nat -> (j < 4)%nat -> entry_le b (ar9003_hw_init_txpower_cck pwr tx) j) as Hcck.
  { intros tx Htx H36 H. pose proof (Hp ALL_TARGET_LEGACY_1L_5L). pose proof (Hp ALL_TARGET_LEGACY_5S). pose proof (Hp ALL_TARGET_LEGACY_11L). pose proof (Hp ALL_TARGET_LEGACY_11S).
    destruct tx as [|a0 [|a1 [|a2 [|a3 tx]]]]; try done. destruct j as [|[|[|[|j]]]]; try lia; (eexists; split; [reflexivity|lia]). }
  assert (forall tx ss is40, length tx = 36%nat -> (j < 36)%nat -> (ss <= j < ss + 24)%nat \/ entry_le b tx j -> entry_le b (ar9003_hw_init_txpower_ht pwr ss (ss + 8) (ss + 16) is40 tx) j) as Hht.
  { intros tx ss is40 Htx H36 H. unfold ar9003_hw_init_txpower_ht. set (m := if is40 then _ else _). assert (length m = 24%nat) as Hm by (by subst m; destruct is40).
    apply copy_rates_le; [done|rewrite !copy_rates_length; lia|]. rewrite length_drop, Hm. destruct (decide (ss + 16 <= j < ss + 24)%nat); [left; lia|right].
    apply copy_rates_le; [done|rewrite !copy_rates_length; lia|]. rewrite length_take, length_drop, Hm. destruct (decide (ss + 8 <= j < ss + 16)%nat); [left; lia|right].
    apply copy_rates_le; [done|lia|]. rewrite length_take, Hm. destruct H as [H|H]; [left; lia|by right]. }
  assert (forall tx, length (ar9003_hw_init_txpower_cck pwr tx) = length tx) as Lcck by (intros; unfold ar9003_hw_init_txpower_cck; by rewrite !length_insert).
  assert (forall tx o, length (ar9003_hw_init_txpower_ofdm pwr o tx) = length tx) as Lof by (intros; apply copy_rates_length).
  destruct (chan_2ghz chan) eqn:E2, (chan_ht20 chan || chan_ht40 chan); cbn [tx_power upd]; cbn in Hj.
  - destruct (decide (12 <= j)%nat); [apply (Hht _ 12%nat); [by rewrite Lof, Lcck|lia|left; lia]|]. apply (Hht _ 12%nat); [by rewrite Lof, Lcck|lia|right].
    destruct (decide (4 <= j)%nat); apply (Hof _ 4%nat); rewrite ?Lcck; try lia. right. apply Hcck; lia.
  - destruct (decide (4 <= j)%nat); apply (Hof _ 4%nat); rewrite ?Lcck; try lia. right. apply Hcck; lia.
  - destruct (decide (8 <= j)%nat); [apply (Hht _ 8%nat); [by rewrite Lof|lia|left; lia]|]. apply (Hht _ 8%nat); [by rewrite Lof|lia|right]. apply (Hof _ 0%nat); lia.
  - apply (Hof _ 0%nat); lia.
Qed.

(** No frame is sent with more power than the limit allows: with power control
    per frame, whatever mac80211 asks for, for every entry of the table that belongs
    to the channel. *)
Theorem frame_power_limited chan cfgCtl red limit ah ah' fi_tx_power rateidx : in_u8 red -> in_u8 limit -> piers_ok (ar9300_eep ah) -> 1000 <= channel chan <= 65535 ->
  tpc_enabled ah = true -> length (tx_power ah) = 36%nat -> 0 <= fi_tx_power -> (rateidx < table_size chan)%nat ->
  ath9k_hw_ar9300_set_txpower chan cfgCtl red limit false ah = Ok ah' ->
  0 <= ath_get_rate_txpower ah' false fi_tx_power false None rateidx <= Z.min fi_tx_power (Z.min MAX_RATE_POWER (ath9k_hw_get_scaled_power (txchainmask ah) limit red)).
Proof.
  intros Hr Hl Hp Hc Ht Hlen Hfi Hj E. destruct (set_txpower_sets chan cfgCtl red limit ah Hr Hl Hp Hc) as (ah0 & E0 & [_ _ Htab Htpc]).
  rewrite E in E0. injection E0 as <-. rewrite Ht in Htab, Htpc. destruct Htab as [Htx _]. unfold ath_get_rate_txpower. rewrite Htpc, andb_false_r. cbn [negb orb].
  set (scaled := ath9k_hw_get_scaled_power _ _ _).
  destruct (init_rate_le (Z.min MAX_RATE_POWER scaled) (powers chan cfgCtl red limit ah) chan ah rateidx) as (v & Hv & Hb); [|done|done|].
  - intros k. destruct (Nat.lt_ge_cases k 36); [by apply powers_limited|]. rewrite rate_at_out by (apply powers_length || done).
    pose proof (scaled_range (txchainmask ah) limit red Hl Hr). subst scaled. unfold MAX_RATE_POWER. lia.
  - rewrite Htx. unfold rate_at. rewrite (nth_lookup_Some _ _ 0 _ Hv). lia.
Qed.

(** * Defects *)

(** A negative correction also sets the field above its own: the shifted value is
    not masked. *)
Theorem negative_correction_spills ah f correction voltage temperature c : -256 <= nth 0 correction 0 < 0 ->
  MS (REG_READ (ar9003_hw_power_control_override ah f correction voltage temperature c) AR_PHY_TPC_11_B0) AR_PHY_TPC_OLPC_GAIN_DELTA_PAL_ON = 0xff.
Proof.
  intros Hcor. assert (exists c0, REG_READ (ar9003_hw_power_control_override ah f correction voltage temperature c) AR_PHY_TPC_11_B0 =
    u32 (c0 .| (nth 0 correction 0 .<< 16))) as [c0 ->].
  { unfold ar9003_hw_power_control_override. destruct (temp_slopes ah f) as [[t0 t1] t2], (chain_slopes ah f) as [[s0 s1] s2]. cbv zeta. eexists.
    destruct (_ || _); do 2 (repeat (keep_step; [vm_compute; discriminate|])); apply read_write_eq. }
  unfold MS. cbn [f_mask f_S AR_PHY_TPC_OLPC_GAIN_DELTA_PAL_ON]. change 0xff with (Z.ones 8). apply Z.bits_inj'. intros n Hn.
  rewrite Z.shiftr_spec by lia. rewrite Z.land_spec. unfold u32. change 4294967296 with (2 ^ 32). rewrite <- Z.land_ones by lia. rewrite Z.land_spec, Z.lor_spec.
  change 0xFF000000 with (Z.ones 8 .<< 24). rewrite (Z.shiftl_spec (Z.ones 8)) by lia. replace (n + 24 - 24) with n by lia.
  destruct (Z.ltb_spec n 8); [|rewrite (Z.ones_spec_high 8) by lia; by rewrite andb_false_r].
  rewrite (Z.ones_spec_low 8), (Z.ones_spec_low 32) by lia. rewrite Z.shiftl_spec by lia. replace (n + 24 - 16) with (8 + n) by lia.
  assert (Z.testbit (nth 0 correction 0) (8 + n) = true) as ->; [|by rewrite orb_true_r].
  replace (8 + n) with (n + 8) by lia. rewrite <- Z.shiftr_spec by lia. rewrite Z.shiftr_div_pow2 by lia. change (2 ^ 8) with 256.
  replace (nth 0 correction 0 / 256) with (-1) by (apply (Z.div_unique _ _ _ (nth 0 correction 0 + 256)); lia). by rewrite Z.bits_m1 by lia.
Qed.

(** Predistortion lowers a target below its own amount to more than 31.5 dBm: the
    byte wraps around, and only the limits are left. *)
Lemma paprd_wraps pwr mask scale min i : let j := Z.to_nat (mcsidx_to_tgtpwridx (Z.of_nat i) min) in
  (j < length pwr)%nat -> has mask (1 .<< Z.of_nat i) = true -> 0 < rate_at pwr j < scale -> scale <= 7 ->
  rate_at (paprd_lower pwr mask scale min pwr i) j = 256 + rate_at pwr j - scale /\ 249 < rate_at (paprd_lower pwr mask scale min pwr i) j.
Proof.
  intros j Hj Hm Hr Hs. assert (rate_at (paprd_lower pwr mask scale min pwr i) j = 256 + rate_at pwr j - scale) as ->; [|lia].
  unfold paprd_lower. fold j. rewrite Hm, Z.eqb_refl. rewrite (proj2 (Z.eqb_neq _ _)) by lia. cbn [negb andb].
  unfold rate_at at 1. rewrite (nth_lookup_Some _ _ 0 (u8 (rate_at pwr j - scale))) by (by apply list_lookup_insert_eq).
  unfold u8. symmetry. apply (Z.mod_unique _ _ (-1)); lia.
Qed.

(** The table for space-time block codes is set from the HT entries on, but read
    at the index of the rate, below 8: such frames get the power 0. *)
Lemma copy_span_below tx o stbc j : (8 <= o)%nat -> (o <= length stbc)%nat -> (j < 8)%nat -> copy_span tx o stbc !! j = stbc !! j.
Proof.
  intros Ho Hl Hj. unfold copy_span. rewrite lookup_app_l by (rewrite length_take; lia). by rewrite lookup_take_lt by lia.
Qed.
Lemma copy_span_length tx o stbc : (o + 8 <= length stbc)%nat -> (o + 8 <= length tx)%nat -> length (copy_span tx o stbc) = length stbc.
Proof. intros Hl Ht. unfold copy_span. rewrite !length_app, !length_take, !length_drop. lia. Qed.
Lemma stbc_power_unset pwr chan ah fi rateidx : length (tx_power ah) = 36%nat -> tx_power_stbc ah = replicate 36 0 -> (rateidx < 8)%nat -> tpc_enabled ah = true -> 0 <= fi ->
  ath_get_rate_txpower (ar9003_hw_init_rate_txpower pwr chan ah) false fi true None rateidx = 0.
Proof.
  intros Hl Hs Hj Ht Hfi. unfold ath_get_rate_txpower. destruct (init_rate_other pwr chan ah) as (_ & _ & ->). rewrite Ht, (proj2 (Nat.ltb_lt _ _)) by done. cbn [negb orb andb].
  assert (tx_power_stbc (ar9003_hw_init_rate_txpower pwr chan ah) !! rateidx = Some 0) as E.
  { assert (forall tx ss, length tx = 36%nat -> (8 <= ss)%nat -> (ss + 24 <= 36)%nat -> ar9003_hw_init_txpower_stbc ss (ss + 8) (ss + 16) tx (replicate 36 0) !! rateidx = Some 0) as H.
    { intros tx ss Htx H8 H36. unfold ar9003_hw_init_txpower_stbc.
      assert (length (copy_span tx ss (replicate 36 0)) = 36%nat) as L1 by (rewrite copy_span_length; rewrite ?length_replicate; lia).
      assert (length (copy_span tx (ss + 8) (copy_span tx ss (replicate 36 0))) = 36%nat) as L2 by (rewrite copy_span_length; lia).
      rewrite !copy_span_below by (rewrite ?length_replicate; lia). apply lookup_replicate_2. lia. }
    assert (forall o tx, length tx = 36%nat -> length (ar9003_hw_init_txpower_ofdm pwr o tx) = 36%nat) as Lof by (intros o tx Htx; unfold ar9003_hw_init_txpower_ofdm; by rewrite copy_rates_length).
    assert (forall o1 o2 o3 b tx, length tx = 36%nat -> length (ar9003_hw_init_txpower_ht pwr o1 o2 o3 b tx) = 36%nat) as Lht
      by (intros o1 o2 o3 b tx Htx; unfold ar9003_hw_init_txpower_ht; by rewrite !copy_rates_length).
    assert (length (ar9003_hw_init_txpower_cck pwr (tx_power ah)) = 36%nat) as Lcck by (unfold ar9003_hw_init_txpower_cck; by rewrite !length_insert).
    unfold ar9003_hw_init_rate_txpower. destruct (chan_2ghz chan), (chan_ht20 chan || chan_ht40 chan); cbn [tx_power_stbc upd]; rewrite ?Hs.
    - apply (H _ 12%nat); [apply Lht, Lof, Lcck|lia..].
    - apply lookup_replicate_2. lia.
    - apply (H _ 8%nat); [by apply Lht, Lof|lia..].
    - apply lookup_replicate_2. lia. }
  unfold rate_at. rewrite (nth_lookup_Some _ _ 0 _ E). lia.
Qed.

(** * A card *)

Definition demo_pwr : pwr_hw :=
  {| pw_common := ah_common hw_11p; ar9300_eep := ar9300_default; txchainmask := 3; caps_tx_chainmask := 7; pw_9340 := false; pw_9550 := false; pw_9531_9561 := false;
     pw_9462_20 := false; paprd_mcs7 := false; mci_enabled := false; concur_tx := false; paprd_enabled := false; paprd_table_write_done := false;
     paprd_ratemask := 0; paprd_ratemask_ht40 := 0; paprd_target_power := 0; tpc_enabled := true; tx_power := replicate 36 0; tx_power_stbc := replicate 36 0;
     max_power_level := 0 |}.
Definition demo_chan : ath9k_channel := {| channel := 2437; channelFlags := CHANNEL_HT .| CHANNEL_HT40PLUS |}.
Definition piers_okb (eep : ar9300_eeprom) : bool := forallb (in_range 0 256) (calFreqPier2G eep ++ calFreqPier5G eep).
Lemma piers_okb_ok eep : piers_okb eep = true -> piers_ok eep.
Proof.
  unfold piers_okb, piers_ok. rewrite forallb_app, andb_true_iff, !forallb_forall.
  intros [H1 H2]. split; apply Forall_forall; intros x Hx; apply in_range_spec; [apply H1|apply H2]; by apply list_elem_of_In.
Qed.

(** The limit of 20 dBm with two chains leaves 17 dBm for each; the level reported
    is that of both. *)
Lemma txpower_limited_witness : exists ah' pwr, ath9k_hw_ar9300_set_txpower demo_chan 0x10 0 40 false demo_pwr = Ok ah' /\ (forall i, (i < 36)%nat -> 0 <= rate_at pwr i <= 34) /\
  power_byte (REG_READ (pw_common ah') (AR_PHY_POWER_TX_RATE 6)) 0 = rate_at pwr ALL_TARGET_HT40_0_8_16 /\
  exists m, is_max_rate pwr m /\ max_power_level ah' = m + 6.
Proof.
  destruct (txpower_limited demo_chan 0x10 0 40 demo_pwr) as (ah' & pwr & E & Hp & Hw & Hm).
  - unfold in_u8. lia.
  - unfold in_u8. lia.
  - apply piers_okb_ok. reflexivity.
  - cbn. lia.
  - exists ah', pwr. split; [exact E|]. split; [|split; [|exact Hm]].
    + intros i Hi. destruct (Hp i Hi) as [_ H]. replace (Z.min MAX_RATE_POWER (ath9k_hw_get_scaled_power (txchainmask demo_pwr) 40 0)) with 34 in H by reflexivity. exact H.
    + refine (Hw 6 [Some ALL_TARGET_HT40_0_8_16; Some ALL_TARGET_HT40_1_3_9_11_17_19; Some ALL_TARGET_HT40_4; Some ALL_TARGET_HT40_5] 0%nat
        (Some ALL_TARGET_HT40_0_8_16) _ eq_refl). unfold power_words. do 6 apply list_elem_of_further. apply list_elem_of_here.
Defined.

Lemma calibration_interpolates_witness : exists c, ar9003_hw_calibration_apply demo_pwr 2437 (ah_common hw_11p) = Ok c.
Proof.
  destruct (calibration_interpolates demo_pwr 2437 (ah_common hw_11p)) as [H _].
  - apply piers_okb_ok. reflexivity.
  - lia.
  - eexists. exact H.
Defined.

Lemma frame_power_limited_witness : exists ah', ath9k_hw_ar9300_set_txpower demo_chan 0x10 0 40 false demo_pwr = Ok ah' /\ 0 <= ath_get_rate_txpower ah' false 60 false None 35 <= 34.
Proof.
  destruct (ath9k_hw_ar9300_set_txpower demo_chan 0x10 0 40 false demo_pwr) as [ah'|] eqn:E; [|vm_compute in E; discriminate].
  exists ah'. split; [reflexivity|].
  replace 34 with (Z.min 60 (Z.min MAX_RATE_POWER (ath9k_hw_get_scaled_power (txchainmask demo_pwr) 40 0))) by reflexivity.
  apply (frame_power_limited demo_chan 0x10 0 40 demo_pwr ah' 60 35).
  - unfold in_u8. lia.
  - unfold in_u8. lia.
  - apply piers_okb_ok. reflexivity.
  - cbn. lia.
  - reflexivity.
  - reflexivity.
  - lia.
  - vm_compute. lia.
  - exact E.
Defined.

Lemma negative_correction_spills_witness :
  MS (REG_READ (ar9003_hw_power_control_override demo_pwr 2437 [-3; 0; 0] [0; 0; 0] [0; 0; 0] (ah_common hw_11p)) AR_PHY_TPC_11_B0) AR_PHY_TPC_OLPC_GAIN_DELTA_PAL_ON = 0xff.
Proof. apply negative_correction_spills. cbn. lia. Defined.
