(* ===== verification/TxDesc.v ===== *)
(** The description of frames to the hardware (src/real/ath/ath9k/xmit.c, with
    the air time of a legacy rate from hw.c): what [ath_tx_prepare] records about a
    frame, the rate series, the flags of a unit, and one descriptor per frame
    ([ath_tx_fill_desc]); multicast after a beacon ([ath_tx_cabq]).

    A chain is the list of frames linked by [bf_next]; a unit of a chain ends at the
    frame that [bf_lastbf] of its first frame points to. A frame is named by the
    address of its descriptor. The descriptors are those of the TDMA driver, which
    fixes rate and number of tries (Desc), so [dur_update] has no reader. *)

From S2P Require Import Prelude KeyCache Airtime Desc RxFrame HwTiming Dynack EepLayout EepTemplates TxPower.

(** * Constants *)

Definition ATH9K_TXDESC_NOACK : Z := 0x0002.
Definition ATH9K_TXDESC_RTSENA : Z := 0x0004.
Definition ATH9K_TXDESC_CTSENA : Z := 0x0008.
Definition ATH9K_TXDESC_INTREQ : Z := 0x0010.
Definition ATH9K_PKT_TYPE_NORMAL : Z := 0.
Definition ATH9K_PKT_TYPE_ATIM : Z := 1.
Definition ATH9K_PKT_TYPE_PSPOLL : Z := 2.
Definition ATH9K_PKT_TYPE_BEACON : Z := 3.
Definition ATH9K_PKT_TYPE_PROBE_RESP : Z := 4.
Definition ATH9K_KEY_TYPE_CLEAR : Z := 0.
Definition ATH9K_KEY_TYPE_WEP : Z := 1.
Definition ATH9K_KEY_TYPE_AES : Z := 2.
Definition ATH9K_KEY_TYPE_TKIP : Z := 3.
Definition CCK_PREAMBLE_BITS : Z := 144.
Definition CCK_PLCP_BITS : Z := 48.
Definition OFDM_PREAMBLE_TIME : Z := 20.
Definition OFDM_SYMBOL_TIME : Z := 4.
Definition OFDM_PREAMBLE_TIME_HALF : Z := 40.
Definition OFDM_SYMBOL_TIME_HALF : Z := 8.
Definition OFDM_PREAMBLE_TIME_QUARTER : Z := 80.
Definition OFDM_SYMBOL_TIME_QUARTER : Z := 16.
Definition IS_CCK_RATE (rate : Z) : bool := (0x18 <=? rate) && (rate <=? 0x1e).

(** mac80211 *)
Definition IEEE80211_TX_RC_USE_RTS_CTS : Z := BIT 0.
Definition IEEE80211_TX_RC_USE_CTS_PROTECT : Z := BIT 1.
Definition IEEE80211_TX_RC_USE_SHORT_PREAMBLE : Z := BIT 2.
Definition IEEE80211_TX_RC_40_MHZ_WIDTH : Z := BIT 5.
Definition IEEE80211_TX_RC_SHORT_GI : Z := BIT 7.
Definition is_type (fc t : Z) : bool := fc .& (IEEE80211_FCTL_FTYPE .| IEEE80211_FCTL_STYPE) =? t.
Definition ieee80211_is_probe_resp (fc : Z) : bool := is_type fc 0x0050.
Definition ieee80211_is_atim (fc : Z) : bool := is_type fc 0x0090.
Definition ieee80211_is_pspoll (fc : Z) : bool := is_type fc 0x00a4.

Record ieee80211_rate := { rate_flags : Z; bitrate : Z; hw_value : Z; hw_value_short : Z }.
Record ieee80211_tx_rate := { idx : Z; count : Z; rc_flags : Z }.

(** * Air time of a legacy rate *)

Definition DIV_ROUND_UP (n d : Z) : Z := u32 (u32 (n + d) - 1) / d.

(** The time of a frame on an OFDM channel, from the times of a symbol, of the
    inter-frame space and of the preamble. *)
Definition ofdm_txtime (kbps frameLen symbol sifs preamble : Z) : outcome Z :=
  let bitsPerSymbol := kbps * symbol / 1000 in
  let numBits := u32 (OFDM_PLCP_BITS + (frameLen .<< 3)) in
  if bitsPerSymbol =? 0 then Oops
  else
    let numSymbols := DIV_ROUND_UP numBits bitsPerSymbol in
    Ok (u32 (sifs + preamble + numSymbols * symbol)).
Definition cck_txtime (kbps frameLen : Z) (shortPreamble : bool) : Z :=
  let phyTime := CCK_PREAMBLE_BITS + CCK_PLCP_BITS in
  let phyTime := if shortPreamble then phyTime .>> 1 else phyTime in
  let numBits := u32 (frameLen .<< 3) in
  u32 (CCK_SIFS_TIME + phyTime + u32 (numBits * 1000) / kbps).
Definition ath9k_hw_computetxtime (curchan : option Z) (phy : rc_phy) (kbps frameLen : Z) (shortPreamble : bool) : outcome Z :=
  if kbps =? 0 then Ok 0
  else
    let on f := match curchan with Some flags => f flags | None => false end in
    obind
      match phy with
      | WLAN_RC_PHY_CCK => Ok (cck_txtime kbps frameLen shortPreamble)
      | WLAN_RC_PHY_OFDM =>
          if on IS_CHAN_QUARTER_RATE then ofdm_txtime kbps frameLen OFDM_SYMBOL_TIME_QUARTER OFDM_SIFS_TIME_QUARTER OFDM_PREAMBLE_TIME_QUARTER
          else if on IS_CHAN_HALF_RATE then ofdm_txtime kbps frameLen OFDM_SYMBOL_TIME_HALF OFDM_SIFS_TIME_HALF OFDM_PREAMBLE_TIME_HALF
          else ofdm_txtime kbps frameLen OFDM_SYMBOL_TIME OFDM_SIFS_TIME OFDM_PREAMBLE_TIME
      end (fun txTime => Ok (u16 txTime)).

(** * Frames *)

Record ath_frame_info := { fi_framelen : Z; fi_keyix : Z; fi_rtscts_rate : Z; fi_tx_power : Z; fi_keytype : Z }.

(** A buffer with its frame: the parts of [struct ath_buf], of the control
    information of mac80211 and of the header that the description uses. *)
Record tx_frame := {
  bf_daddr : Z;                (* address of the descriptor *)
  bf_buf_addr : Z;
  bf_lastbf : Z;               (* bf_daddr of the last frame of the unit *)
  bf_aggr : bool;              (* BUF_AGGR *)
  bf_ampdu : bool;             (* BUF_AMPDU *)
  bf_ndelim : Z;
  bfs_paprd : Z;
  bf_rates : list ieee80211_tx_rate;
  skb_len : Z;
  hdr_fc : Z;                  (* frame_control *)
  ctl_stbc : bool;             (* IEEE80211_TX_CTL_STBC *)
  ctl_no_ack : bool;           (* IEEE80211_TX_CTL_NO_ACK *)
  ctl_ldpc : bool;             (* IEEE80211_TX_CTL_LDPC *)
  ctl_clear_ps_filt : bool;    (* IEEE80211_TX_CTL_CLEAR_PS_FILT *)
  ctl_band : Z;
  frame_info : ath_frame_info;
}.
#[export] Instance eta_tx_frame : Eta tx_frame := fun r =>
  Build_tx_frame (bf_daddr r) (bf_buf_addr r) (bf_lastbf r) (bf_aggr r) (bf_ampdu r) (bf_ndelim r) (bfs_paprd r) (bf_rates r) (skb_len r) (hdr_fc r)
    (ctl_stbc r) (ctl_no_ack r) (ctl_ldpc r) (ctl_clear_ps_filt r) (ctl_band r) (frame_info r).

(** What the description reads of the device. *)
Record desc_env := {
  rts_threshold : Z;           (* u32, -1 for none *)
  rts_aggr_limit : Z;          (* caps.rts_aggr_limit *)
  de_tx99 : bool;
  de_uapsd : bool;             (* txq == sc->tx.uapsdq *)
  de_qnum : Z;                 (* axq_qnum *)
  cap_apm : bool;              (* ATH9K_HW_CAP_APM *)
  de_curchan : option Z;       (* flags of ah->curchan *)
  cck_second_chain : bool;     (* AR_SREV_9462 && ath9k_hw_btcoex_is_enabled *)
  bitrates : Z -> list ieee80211_rate;
  paprd_training_power : Z;
  pwr : pwr_hw;
  de_wide : bool;              (* the descriptors have 24 words *)
}.

Definition ath_txchainmask_reduction (e : desc_env) (chainmask rate : Z) : outcome Z :=
  let apm := if cap_apm e then match de_curchan e with Some flags => Ok (negb (IS_CHAN_2GHZ flags)) | None => Oops end else Ok false in
  obind apm (fun apm =>
    Ok (if apm && (chainmask =? 0x7) && (rate <? 0x90) then 0x3
        else if cck_second_chain e && IS_CCK_RATE rate then 0x2
        else chainmask)).

(** [ath_get_rate_txpower] with the bounds of its tables. *)
Definition rate_txpower (e : desc_env) (f : tx_frame) (rateidx : Z) : outcome Z :=
  let training := if bfs_paprd f =? 0 then None else Some (paprd_training_power e) in
  let fits := rateidx <? Z.of_nat (length (tx_power (pwr e))) in
  if de_tx99 e || negb (tpc_enabled (pwr e)) || negb (bfs_paprd f =? 0) || fits
  then Ok (ath_get_rate_txpower (pwr e) (de_tx99 e) (fi_tx_power (frame_info f)) (ctl_stbc f) training (Z.to_nat rateidx))
  else Oops.

(** * The rate series *)

Definition set_nth {A} (i : nat) (v : A) (f : nat -> A) : nat -> A := fun j => if (j =? i)%nat then v else f j.
#[export] Instance eta_series : Eta ath9k_11n_rate_series := fun r => Build_ath9k_11n_rate_series (Tries r) (Rate r) (PktDuration r) (ChSel r) (RateFlags r).
#[export] Instance eta_tx_info : Eta ath_tx_info := fun r =>
  Build_ath_tx_info (i_qcu r) (i_is_first r) (i_is_last r) (i_aggr r) (i_ndelim r) (i_aggr_len r) (i_link r) (i_pkt_len r) (i_flags r) (i_buf_addr r)
    (i_buf_len r) (i_rates r) (i_rtscts_rate r) (i_type r) (i_keytype r) (i_keyix r) (i_txpower r).

(** [rts_thresh != -1 && (!rts_thresh || len > rts_thresh)]; the comparison is
    unsigned. *)
Definition above_threshold (e : desc_env) (len : Z) : bool :=
  negb (rts_threshold e =? 0xffffffff) && ((rts_threshold e =? 0) || (rts_threshold e <? u32 len)).

(** The flags of one rate: [RateFlags], and the flags of the descriptor. *)
Definition protection (rts : bool) (flags : Z) : Z * Z :=
  if rts || has flags IEEE80211_TX_RC_USE_RTS_CTS then (ATH9K_RATESERIES_RTS_CTS, ATH9K_TXDESC_RTSENA)
  else if has flags IEEE80211_TX_RC_USE_CTS_PROTECT then (ATH9K_RATESERIES_RTS_CTS, ATH9K_TXDESC_CTSENA)
  else (0, 0).
Definition width_flags (flags : Z) : Z :=
  flag (has flags IEEE80211_TX_RC_40_MHZ_WIDTH) ATH9K_RATESERIES_2040 .| flag (has flags IEEE80211_TX_RC_SHORT_GI) ATH9K_RATESERIES_HALFGI.

(** The part of a round for an MCS rate. *)
Definition mcs_rate (e : desc_env) (f : tx_frame) (len rix flags : Z) (s : ath9k_11n_rate_series) : outcome (ath9k_11n_rate_series * Z) :=
  let rate := rix .| 0x80 in
  obind (ath_txchainmask_reduction e (txchainmask (pwr e)) rate) (fun chsel =>
  obind (rate_txpower e f rix) (fun power =>
    let s := s <| Rate := rate |> <| ChSel := chsel |>
               <| PktDuration := ath_pkt_duration rix len (has flags IEEE80211_TX_RC_40_MHZ_WIDTH) (has flags IEEE80211_TX_RC_SHORT_GI) |> in
    Ok (if (rix <? 8) && ctl_stbc f then s <| RateFlags ::= fun x => x .| ATH9K_RATESERIES_STBC |> else s, power))).

(** The part of a round for a legacy rate. *)
Definition legacy_rate (e : desc_env) (f : tx_frame) (len rix flags : Z) (s : ath9k_11n_rate_series) : outcome (ath9k_11n_rate_series * Z) :=
  match bitrates e (ctl_band f) !! Z.to_nat rix with
  | None => Oops
  | Some rate =>
      let phy := if (ctl_band f =? IEEE80211_BAND_2GHZ) && negb (has (rate_flags rate) IEEE80211_RATE_ERP_G) then WLAN_RC_PHY_CCK else WLAN_RC_PHY_OFDM in
      let short := has flags IEEE80211_TX_RC_USE_SHORT_PREAMBLE in
      let code := if negb (hw_value_short rate =? 0) && short then hw_value rate .| hw_value_short rate else hw_value rate in
      let is_sp := negb (hw_value_short rate =? 0) && short in
      obind (if negb (bfs_paprd f =? 0) then Ok (txchainmask (pwr e)) else ath_txchainmask_reduction e (txchainmask (pwr e)) code) (fun chsel =>
      obind (ath9k_hw_computetxtime (de_curchan e) phy (bitrate rate * 100) len is_sp) (fun dur =>
      obind (rate_txpower e f rix) (fun power =>
        Ok (s <| Rate := code |> <| ChSel := chsel |> <| PktDuration := dur |>, power))))
  end.

(** One round of the loop over [bf->rates]. *)
Definition rate_round (e : desc_env) (f : tx_frame) (len : Z) (i : nat) (r : ieee80211_tx_rate) (st : bool * ath_tx_info) : outcome (bool * ath_tx_info) :=
  let '(rts, info) := st in
  if (count r =? 0) || (idx r <? 0) then Ok st
  else
    let rix := idx r in
    let flags := rc_flags r in
    let mcs := has flags IEEE80211_TX_RC_MCS in
    let rts := rts || (bf_ampdu f && negb (bf_aggr f) && mcs && above_threshold e len) in
    let '(series_flag, desc_flag) := protection rts flags in
    let s := i_rates info i in
    let s := s <| Tries := count r |> <| RateFlags ::= fun x => x .| series_flag .| width_flags flags |> in
    obind ((if mcs then mcs_rate else legacy_rate) e f len rix flags s) (fun '(s, power) =>
      Ok (rts, info <| i_flags ::= fun x => x .| desc_flag |> <| i_rates ::= set_nth i s |> <| i_txpower ::= set_nth i power |>)).

Fixpoint rates_loop (e : desc_env) (f : tx_frame) (len : Z) (i : nat) (rates : list ieee80211_tx_rate) (st : bool * ath_tx_info) : outcome (bool * ath_tx_info) :=
  match rates with
  | [] => Ok st
  | r :: rates => obind (rate_round e f len i r st) (rates_loop e f len (S i) rates)
  end.

Definition ath_buf_set_rate (e : desc_env) (f : tx_frame) (info : ath_tx_info) (len : Z) (rts : bool) : outcome ath_tx_info :=
  let info := info <| i_rtscts_rate := fi_rtscts_rate (frame_info f) |> in
  obind (rates_loop e f len 0 (take 4 (bf_rates f)) (rts, info)) (fun '(_, info) =>
    (* AR5416: RTS cannot be followed by a frame larger than 8K *)
    let info := if bf_aggr f && (rts_aggr_limit e <? len) then info <| i_flags ::= fun x => clr x ATH9K_TXDESC_RTSENA |> else info in
    Ok (if has (i_flags info) ATH9K_TXDESC_RTSENA then info <| i_flags ::= fun x => clr x ATH9K_TXDESC_CTSENA |> else info)).

(** * Descriptors of a chain *)

Definition get_hw_packet_type (fc : Z) : Z :=
  if ieee80211_is_beacon fc then ATH9K_PKT_TYPE_BEACON
  else if ieee80211_is_probe_resp fc then ATH9K_PKT_TYPE_PROBE_RESP
  else if ieee80211_is_atim fc then ATH9K_PKT_TYPE_ATIM
  else if ieee80211_is_pspoll fc then ATH9K_PKT_TYPE_PSPOLL
  else ATH9K_PKT_TYPE_NORMAL.

Definition zero_series : ath9k_11n_rate_series := {| Tries := 0; Rate := 0; PktDuration := 0; ChSel := 0; RateFlags := 0 |}.
Definition empty_info : ath_tx_info :=
  {| i_qcu := 0; i_is_first := false; i_is_last := false; i_aggr := AGGR_BUF_NONE; i_ndelim := 0; i_aggr_len := 0; i_link := 0; i_pkt_len := 0;
     i_flags := 0; i_buf_addr := fun _ => 0; i_buf_len := fun _ => 0; i_rates := fun _ => zero_series; i_rtscts_rate := 0; i_type := 0; i_keytype := 0;
     i_keyix := 0; i_txpower := fun _ => 0 |}.
Definition initial_info (qnum : Z) : ath_tx_info := empty_info <| i_is_first := true |> <| i_is_last := true |> <| i_qcu := qnum |>.

(** The local variables of [ath_tx_fill_desc]. *)
Record fill_state := { fs_info : ath_tx_info; fs_first : option tx_frame; fs_len : Z; fs_rts : bool }.

(** The flags at the first frame of a unit. *)
Definition unit_flags (e : desc_env) (f : tx_frame) (old : Z) : Z :=
  (if de_tx99 e then old else ATH9K_TXDESC_INTREQ)
  .| flag (ctl_clear_ps_filt f || de_uapsd e) ATH9K_TXDESC_CLRDMASK
  .| flag (ctl_no_ack f) ATH9K_TXDESC_NOACK
  .| flag (ctl_ldpc f) ATH9K_TXDESC_LDPC
  .| u32 (bfs_paprd f .<< f_S ATH9K_TXDESC_PAPRD).

(** [if (!bf_first)] *)
Definition start_unit (e : desc_env) (f : tx_frame) (st : fill_state) : outcome fill_state :=
  match fs_first st with
  | Some _ => Ok st
  | None =>
      let rts := fs_rts st || (bf_aggr f && above_threshold e (fs_len st)) in
      let len := if bf_aggr f then fs_len st else fi_framelen (frame_info f) in
      obind (ath_buf_set_rate e f ((fs_info st) <| i_flags ::= unit_flags e f |>) len rts) (fun info =>
        Ok {| fs_info := info; fs_first := Some f; fs_len := len; fs_rts := rts |})
  end.

Definition aggr_position (first f : tx_frame) : aggr_type :=
  if bf_daddr f =? bf_daddr first then AGGR_BUF_FIRST
  else if bf_daddr f =? bf_lastbf first then AGGR_BUF_LAST
  else AGGR_BUF_MIDDLE.

(** One round: the descriptor of [f], which [next] follows. *)
Definition fill_round (e : desc_env) (f : tx_frame) (next : option tx_frame) (st : fill_state) : outcome (ar9003_txc * fill_state) :=
  let fi := frame_info f in
  let link := match next with Some n => bf_daddr n | None => if de_tx99 e then bf_daddr f else 0 end in
  let st := {| fs_info := (fs_info st) <| i_type := get_hw_packet_type (hdr_fc f) |> <| i_link := link |>; fs_first := fs_first st; fs_len := fs_len st; fs_rts := fs_rts st |} in
  obind (start_unit e f st) (fun st =>
    match fs_first st with
    | None => Oops
    | Some first =>
        let info := (fs_info st) <| i_buf_addr ::= set_nth 0 (bf_buf_addr f) |> <| i_buf_len ::= set_nth 0 (skb_len f) |> <| i_pkt_len := fi_framelen fi |>
                               <| i_keyix := fi_keyix fi |> <| i_keytype := fi_keytype fi |> in
        let info := if bf_aggr f then info <| i_aggr := aggr_position first f |> <| i_ndelim := bf_ndelim f |> <| i_aggr_len := u16 (fs_len st) |> else info in
        Ok (ar9003_set_txdesc (de_wide e) info,
            {| fs_info := info; fs_first := if bf_daddr f =? bf_lastbf first then None else Some first; fs_len := fs_len st; fs_rts := fs_rts st |})
    end).

Fixpoint fill_loop (e : desc_env) (chain : list tx_frame) (st : fill_state) : outcome (list ar9003_txc) :=
  match chain with
  | [] => Ok []
  | f :: chain => obind (fill_round e f (head chain) st) (fun '(d, st) => obind (fill_loop e chain st) (fun ds => Ok (d :: ds)))
  end.
Definition ath_tx_fill_desc (e : desc_env) (chain : list tx_frame) (len : Z) : outcome (list ar9003_txc) :=
  fill_loop e chain {| fs_info := initial_info (de_qnum e); fs_first := None; fs_len := len; fs_rts := false |}.

(** * Preparing a frame *)

(** [memmove(skb->data, skb->data + padsize, padpos)] after [skb_push]: [mem] is
    the memory from the new start of the data. *)
Definition memmove_down (padsize padpos : nat) (mem : list Z) : list Z := take padpos (drop padsize mem) ++ drop padpos mem.

Inductive cipher := WLAN_CIPHER_SUITE_WEP40 | WLAN_CIPHER_SUITE_WEP104 | WLAN_CIPHER_SUITE_TKIP | WLAN_CIPHER_SUITE_CCMP | CipherOther.
Record ieee80211_key_conf := { k_cipher : cipher; hw_key_idx : Z; icv_len : Z }.

(** A frame from mac80211 with its control information. *)
Record tx_skb := {
  sk_data : list Z;
  sk_headroom : list Z;             (* the bytes before the data *)
  assign_seq : bool;                (* IEEE80211_TX_CTL_ASSIGN_SEQ *)
  first_fragment : bool;            (* IEEE80211_TX_CTL_FIRST_FRAGMENT *)
  clear_ps_filt : bool;             (* IEEE80211_TX_CTL_CLEAR_PS_FILT *)
  stbc : bool; ldpc : bool; skb_no_ack : bool; sk_band : Z;
  hw_key : option ieee80211_key_conf;
  rts_cts_rate : option ieee80211_rate;   (* ieee80211_get_rts_cts_rate *)
  sk_rates : list ieee80211_tx_rate;      (* ieee80211_get_tx_rates *)
}.
#[export] Instance eta_tx_skb : Eta tx_skb := fun r =>
  Build_tx_skb (sk_data r) (sk_headroom r) (assign_seq r) (first_fragment r) (clear_ps_filt r) (stbc r) (ldpc r) (skb_no_ack r) (sk_band r) (hw_key r) (rts_cts_rate r) (sk_rates r).

(** The interface ([info->control.vif] and [struct ath_vif]). *)
Record tx_vif := { vif_is_ap : bool (* AP or AP_VLAN *); vif_txpower : Z; use_short_preamble : bool; vif_seq_no : Z }.
#[export] Instance eta_tx_vif : Eta tx_vif := fun r => Build_tx_vif (vif_is_ap r) (vif_txpower r) (use_short_preamble r) (vif_seq_no r).

Definition ath9k_cmn_get_hw_crypto_keytype (k : option ieee80211_key_conf) : Z :=
  match k with
  | Some k =>
      match k_cipher k with
      | WLAN_CIPHER_SUITE_WEP40 | WLAN_CIPHER_SUITE_WEP104 => ATH9K_KEY_TYPE_WEP
      | WLAN_CIPHER_SUITE_TKIP => ATH9K_KEY_TYPE_TKIP
      | WLAN_CIPHER_SUITE_CCMP => ATH9K_KEY_TYPE_AES
      | CipherOther => ATH9K_KEY_TYPE_CLEAR
      end
  | None => ATH9K_KEY_TYPE_CLEAR
  end.

(** [sta]: [ps_key] of the node of the station; [cur_txpower]: of the channel. *)
Definition setup_frame_info (vif : option tx_vif) (sta : option Z) (cur_txpower : Z) (fc : Z) (skb : tx_skb) (framelen : Z) : ath_frame_info :=
  let short_preamble := match vif with Some v => use_short_preamble v | None => false end in
  let keyix := match hw_key skb, sta with
               | Some k, _ => u8 (hw_key_idx k)
               | None, Some ps_key => if ieee80211_is_data fc && (0 <? ps_key) then u8 ps_key else ATH9K_TXKEYIX_INVALID
               | None, None => ATH9K_TXKEYIX_INVALID
               end in
  {| fi_framelen := u16 framelen; fi_keyix := keyix; fi_keytype := ath9k_cmn_get_hw_crypto_keytype (hw_key skb);
     fi_tx_power := u8 match vif with Some v => 2 * vif_txpower v | None => cur_txpower end;
     fi_rtscts_rate := match rts_cts_rate skb with
                       | None => 0
                       | Some r => u8 (if short_preamble then hw_value r .| hw_value_short r else hw_value r)
                       end |}.

Definition hdr_le16 (i : nat) (l : list Z) : outcome Z := if (length l <? i + 2)%nat then Oops else Ok (get_unaligned_le16 l i).
Definition put_le16 (i : nat) (v : Z) (l : list Z) : list Z := <[S i := (v .>> 8) .& 0xff]> (<[i := v .& 0xff]> l).

(** Offset of [seq_ctrl] in a header. *)
Definition SEQ_CTRL : nat := 22.
Definition ath_assign_seq (vif : option tx_vif) (skb : tx_skb) : outcome (option tx_vif * tx_skb) :=
  match vif with
  | Some v =>
      if negb (assign_seq skb) then Ok (vif, skb)
      else
        let v := if first_fragment skb then v <| vif_seq_no ::= fun n => u16 (n + 0x10) |> else v in
        obind (hdr_le16 SEQ_CTRL (sk_data skb)) (fun seq_ctrl =>
          Ok (Some v, skb <| sk_data ::= put_le16 SEQ_CTRL ((seq_ctrl .& IEEE80211_SCTL_FRAG) .| vif_seq_no v) |>))
  | None => Ok (vif, skb)
  end.

Section Prepare.

(** [ieee80211_hdrlen] of mac80211; [cur_txpower] of the current channel. *)
Context (hdrlen : Z -> Z) (cur_txpower : Z).

(** The interface afterwards, and the frame; [None] is [-ENOMEM]. *)
Definition ath_tx_prepare (vif : option tx_vif) (sta : option Z) (skb : tx_skb) : outcome (option tx_vif * option (tx_skb * ath_frame_info)) :=
  let frmlen := Z.of_nat (length (sk_data skb)) + FCS_LEN + match hw_key skb with Some k => icv_len k | None => 0 end in
  obind (ath_assign_seq vif skb) (fun '(vif, skb) =>
  obind (hdr_le16 0 (sk_data skb)) (fun fc =>
    let skb := if match vif with Some v => negb (vif_is_ap v) | None => false end || negb (ieee80211_is_data fc) then skb <| clear_ps_filt := true |> else skb in
    let padpos := hdrlen fc in
    let padsize := padpos .& 3 in
    if negb (padsize =? 0) && (padpos <? Z.of_nat (length (sk_data skb))) then
      if Z.of_nat (length (sk_headroom skb)) <? padsize then Ok (vif, None)
      else
        let n := (length (sk_headroom skb) - Z.to_nat padsize)%nat in
        let skb := skb <| sk_data := memmove_down (Z.to_nat padsize) (Z.to_nat padpos) (drop n (sk_headroom skb) ++ sk_data skb) |>
                       <| sk_headroom := take n (sk_headroom skb) |> in
        Ok (vif, Some (skb, setup_frame_info vif sta cur_txpower fc skb frmlen))
    else Ok (vif, Some (skb, setup_frame_info vif sta cur_txpower fc skb frmlen)))).

(** * Multicast after a beacon *)

Definition ATH_BCBUF : Z := 8.

(** [ath_tx_setup_buffer] without a traffic identifier: a buffer of the pool (its
    descriptor address), and the result of the DMA mapping; and the fields that
    [ath_tx_cabq] sets. *)
Definition cab_buffer (pool : list (Z * option Z)) (skb : tx_skb) (fi : ath_frame_info) : outcome (option tx_frame * list (Z * option Z)) :=
  match pool with
  | [] => Ok (None, [])
  | (daddr, None) :: pool => Ok (None, pool ++ [(daddr, None)])
  | (daddr, Some addr) :: pool =>
      obind (hdr_le16 0 (sk_data skb)) (fun fc =>
        Ok (Some {| bf_daddr := daddr; bf_buf_addr := addr; bf_lastbf := daddr; bf_aggr := false; bf_ampdu := false; bf_ndelim := 0; bfs_paprd := 0;
                    bf_rates := sk_rates skb; skb_len := Z.of_nat (length (sk_data skb)); hdr_fc := fc; ctl_stbc := stbc skb; ctl_no_ack := skb_no_ack skb;
                    ctl_ldpc := ldpc skb; ctl_clear_ps_filt := clear_ps_filt skb; ctl_band := sk_band skb; frame_info := fi |}, pool))
  end.

(** The local variables of [ath_tx_cabq]; [cb_freed] are the frames given to
    [ieee80211_free_txskb]. *)
Record cab_state := {
  cb_vif : option tx_vif;
  cb_pool : list (Z * option Z);
  cb_info : ath_tx_info;
  cb_duration : Z;
  cb_queue : list (tx_skb * tx_frame);
  cb_freed : list tx_skb;
}.
#[export] Instance eta_cab_state : Eta cab_state := fun r =>
  Build_cab_state (cb_vif r) (cb_pool r) (cb_info r) (cb_duration r) (cb_queue r) (cb_freed r).

(** The loop; [buffered] are the frames that [ieee80211_get_buffered_bc] has. The
    result names the ones that are still there. *)
Fixpoint cab_loop (e : desc_env) (max_duration : Z) (skb : tx_skb) (buffered : list tx_skb) (st : cab_state) : outcome (cab_state * list tx_skb) :=
  obind (ath_tx_prepare (cb_vif st) None skb) (fun '(vif, r) =>
    let st := st <| cb_vif := vif |> in
    match r with
    | None => Ok (st <| cb_freed ::= fun l => l ++ [skb] |>, buffered)
    | Some (skb, fi) =>
        obind (cab_buffer (cb_pool st) skb fi) (fun '(bf, pool) =>
          let st := st <| cb_pool := pool |> in
          match bf with
          | None => Ok (st <| cb_freed ::= fun l => l ++ [skb] |>, buffered)
          | Some bf =>
              obind (ath_buf_set_rate e bf (cb_info st) (fi_framelen fi) false) (fun info =>
                let st := st <| cb_info := info |> <| cb_duration ::= fun d => s32 (d + PktDuration (i_rates info 0%nat)) |>
                             <| cb_queue ::= fun l => l ++ [(skb, bf)] |> in
                if max_duration <? cb_duration st then Ok (st, buffered)
                else match buffered with
                     | [] => Ok (st, [])
                     | next :: buffered => cab_loop e max_duration next buffered st
                     end)
          end)
    end).

(** The frame control of a frame in memory and in its buffer. *)
Definition set_fc (fc : Z) (q : tx_skb * tx_frame) : tx_skb * tx_frame :=
  (q.1 <| sk_data ::= put_le16 0 fc |>, q.2 <| hdr_fc := fc |>).

(** The frames with their descriptors, the state of the loop and the frames left
    in mac80211. *)
Definition ath_tx_cabq (e : desc_env) (beacon_interval dtim_period : Z) (vif : option tx_vif) (pool : list (Z * option Z)) (skb : tx_skb) (buffered : list tx_skb)
  : outcome (list ar9003_txc * cab_state * list tx_skb) :=
  let max_duration := cdiv (beacon_interval * 1000 * dtim_period) ATH_BCBUF in
  obind (cab_loop e max_duration skb buffered
           {| cb_vif := vif; cb_pool := pool; cb_info := empty_info; cb_duration := 0; cb_queue := []; cb_freed := [] |}) (fun '(st, buffered) =>
    match cb_queue st with
    | [] => Ok ([], st, buffered)
    | q :: rest =>
        let q := if ieee80211_has_moredata (hdr_fc q.2) then set_fc (clr (hdr_fc q.2) IEEE80211_FCTL_MOREDATA) q else q in
        let st := st <| cb_queue := q :: rest |> in
        obind (ath_tx_fill_desc e (snd <$> cb_queue st) 0) (fun ds => Ok (ds, st, buffered))
    end).

End Prepare.
