(* ===== verification/TxDescProps.v ===== *)
(** The descriptors of frames: an aggregate is described as one, padding is undone by
    the receiver, the rate series says what mac80211 asked for, air times are exact
    on channels of 20 MHz, multicast frames are accounted for; and the defects of the
    code around them. *)

From S2P Require Import Prelude KeyCache Airtime Desc RxFrame Rx RxInv RxProps HwTiming Dynack EepLayout EepTemplates TxPower TxDesc.

(** * Descriptors up to the functions in the information *)

(** The information is a structure of arrays; the arrays are functions here, so
    equality of two pieces of information is pointwise. *)
Record info_eq (a b : ath_tx_info) : Prop := {
  eq_qcu : i_qcu a = i_qcu b; eq_isf : i_is_first a = i_is_first b; eq_isl : i_is_last a = i_is_last b; eq_aggr : i_aggr a = i_aggr b;
  eq_ndelim : i_ndelim a = i_ndelim b; eq_aggr_len : i_aggr_len a = i_aggr_len b; eq_link : i_link a = i_link b; eq_pkt_len : i_pkt_len a = i_pkt_len b;
  eq_flags : i_flags a = i_flags b; eq_buf_addr : forall n, i_buf_addr a n = i_buf_addr b n; eq_buf_len : forall n, i_buf_len a n = i_buf_len b n;
  eq_rates : forall n, i_rates a n = i_rates b n; eq_rtscts : i_rtscts_rate a = i_rtscts_rate b; eq_type : i_type a = i_type b;
  eq_keytype : i_keytype a = i_keytype b; eq_keyix : i_keyix a = i_keyix b; eq_txpower : forall n, i_txpower a n = i_txpower b n;
}.
#[export] Instance info_eq_equiv : Equivalence info_eq.
Proof.
  split.
  - intros a. by split.
  - intros a b []. by split.
  - intros a b c [] []. split; intros; congruence.
Qed.

#[export] Instance set_txdesc_proper wide : Proper (info_eq ==> eq) (ar9003_set_txdesc wide).
Proof.
  intros a b [H1 H2 H3 H4 H5 H6 H7 H8 H9 HA HB HC H10 H11 H12 H13 HD].
  unfold ar9003_set_txdesc, txdesc_ctl12, txdesc_ctl17. rewrite H1, H2, H3, H4, H5, H6, H7, H8, H9, H10, H11, H12, H13, !HA, !HB, !HC, !HD. reflexivity.
Qed.

(** What stays the same in a unit: queue, flags, rates, power. *)
Record same_unit (a b : ath_tx_info) : Prop := {
  su_qcu : i_qcu a = i_qcu b; su_isf : i_is_first a = i_is_first b; su_isl : i_is_last a = i_is_last b; su_flags : i_flags a = i_flags b;
  su_rates : forall n, i_rates a n = i_rates b n; su_rtscts : i_rtscts_rate a = i_rtscts_rate b; su_txpower : forall n, i_txpower a n = i_txpower b n;
  su_addr : forall n, i_buf_addr a (S n) = i_buf_addr b (S n); su_len : forall n, i_buf_len a (S n) = i_buf_len b (S n);
}.

(** The frame [f] of a unit of an aggregate described with the rates of [base]. *)
Definition describe (base : ath_tx_info) (f : tx_frame) (link : Z) (pos : aggr_type) (len : Z) : ath_tx_info :=
  {| i_qcu := i_qcu base; i_is_first := i_is_first base; i_is_last := i_is_last base; i_aggr := pos; i_ndelim := bf_ndelim f; i_aggr_len := u16 len;
     i_link := link; i_pkt_len := fi_framelen (frame_info f); i_flags := i_flags base; i_buf_addr := set_nth 0 (bf_buf_addr f) (i_buf_addr base);
     i_buf_len := set_nth 0 (skb_len f) (i_buf_len base); i_rates := i_rates base; i_rtscts_rate := i_rtscts_rate base;
     i_type := get_hw_packet_type (hdr_fc f); i_keytype := fi_keytype (frame_info f); i_keyix := fi_keyix (frame_info f); i_txpower := i_txpower base |}.

Definition next_link (e : desc_env) (f : tx_frame) (next : option tx_frame) : Z :=
  match next with Some n => bf_daddr n | None => if de_tx99 e then bf_daddr f else 0 end.

(** A round inside a unit. *)
Lemma fill_round_inside e f next first base info len rts :
  same_unit info base -> bf_aggr f = true ->
  exists info', same_unit info' base /\
    fill_round e f next {| fs_info := info; fs_first := Some first; fs_len := len; fs_rts := rts |} =
      Ok (ar9003_set_txdesc (de_wide e) (describe base f (next_link e f next) (aggr_position first f) len),
          {| fs_info := info'; fs_first := if bf_daddr f =? bf_lastbf first then None else Some first; fs_len := len; fs_rts := rts |}).
Proof.
  intros [] Ha. eexists. split; [|unfold fill_round, start_unit; cbn [obind fs_first fs_info fs_len fs_rts]; rewrite Ha; f_equal; f_equal].
  - split; cbn; done.
  - apply set_txdesc_proper. split; cbn; try done.
    + intros [|n]; cbn; [done|]. apply su_addr0.
    + intros [|n]; cbn; [done|]. apply su_len0.
Qed.

(** The descriptors of the frames of an aggregate after its first one. *)
Fixpoint described (e : desc_env) (base : ath_tx_info) (first : tx_frame) (len : Z) (l : list tx_frame) : list ar9003_txc :=
  match l with
  | [] => []
  | f :: l => ar9003_set_txdesc (de_wide e) (describe base f (next_link e f (head l)) (aggr_position first f) len) :: described e base first len l
  end.

Lemma fill_loop_inside e first base len rts l : forall info,
  same_unit info base -> Forall (fun f => bf_aggr f = true) l -> Forall (fun f => bf_daddr f <> bf_lastbf first) (removelast l) ->
  fill_loop e l {| fs_info := info; fs_first := Some first; fs_len := len; fs_rts := rts |} = Ok (described e base first len l).
Proof.
  induction l as [|f l IH]; intros info Hs Ha Hl; [done|]. apply Forall_cons in Ha as [Hf Ha].
  destruct (fill_round_inside e f (head l) first base info len rts Hs Hf) as (info' & Hs' & E). cbn [fill_loop]. rewrite E. cbn [obind].
  destruct l as [|g l]; [done|]. change (removelast (f :: g :: l)) with (f :: removelast (g :: l)) in Hl. apply Forall_cons in Hl as [Hne Hl].
  rewrite (proj2 (Z.eqb_neq _ _) Hne). by rewrite (IH info') by done.
Qed.

(** * The rate series *)

(** Only the rates, the power, the flags and the protection rate change. *)
Record rates_frame (a b : ath_tx_info) : Prop := {
  rf_qcu : i_qcu a = i_qcu b; rf_isf : i_is_first a = i_is_first b; rf_isl : i_is_last a = i_is_last b; rf_link : i_link a = i_link b; rf_type : i_type a = i_type b;
  rf_addr : i_buf_addr a = i_buf_addr b; rf_len : i_buf_len a = i_buf_len b; rf_aggr : i_aggr a = i_aggr b; rf_rts : i_rtscts_rate a = i_rtscts_rate b;
}.
#[export] Instance rates_frame_trans : Transitive rates_frame.
Proof. intros a b c [] []. split; congruence. Qed.

Lemma rate_round_frame e f len i r st st' : rate_round e f len i r st = Ok st' -> rates_frame (snd st') (snd st).
Proof.
  destruct st as [rts info]. unfold rate_round. destruct (_ || _); [by intros [= <-]|]. destruct (protection _ _) as [sf df].
  destruct ((if has _ _ then mcs_rate else legacy_rate) _ _ _ _ _ _) as [[s p]|]; [|done]. cbn [obind]. intros [= <-]. by split.
Qed.
Lemma rates_loop_frame e f len l : forall i st st', rates_loop e f len i l st = Ok st' -> rates_frame (snd st') (snd st).
Proof.
  induction l as [|r l IH]; intros i st st'; cbn [rates_loop]; [intros [= <-]; by split|].
  destruct (rate_round e f len i r st) as [st1|] eqn:E; [|done]. cbn [obind]. intros H. apply IH in H. apply rate_round_frame in E. by transitivity (snd st1).
Qed.
Lemma set_rate_frame e f info len rts info' : ath_buf_set_rate e f info len rts = Ok info' ->
  rates_frame info' (info <| i_rtscts_rate := fi_rtscts_rate (frame_info f) |>).
Proof.
  unfold ath_buf_set_rate. destruct (rates_loop _ _ _ _ _ _) as [[rts' info1]|] eqn:E; [|done]. apply rates_loop_frame in E. cbn [obind snd] in *.
  intros [= <-]. destruct E as [E1 E2 E3 E4 E5 E6 E7 E8 E9]. destruct (bf_aggr f && _); destruct (has _ _); by split.
Qed.

(** A rate that the tables have. *)
Definition rate_valid (e : desc_env) (f : tx_frame) (r : ieee80211_tx_rate) : Prop :=
  count r = 0 \/ idx r < 0 \/
  (idx r < Z.of_nat (length (tx_power (pwr e))) /\
   (has (rc_flags r) IEEE80211_TX_RC_MCS = true \/ exists rate, bitrates e (ctl_band f) !! Z.to_nat (idx r) = Some rate /\ 3 <= bitrate rate)).
Definition rates_valid (e : desc_env) (f : tx_frame) : Prop := is_Some (de_curchan e) /\ Forall (rate_valid e f) (bf_rates f).

Lemma chainmask_ok e mask rate : is_Some (de_curchan e) -> exists m, ath_txchainmask_reduction e mask rate = Ok m.
Proof. intros [c Hc]. unfold ath_txchainmask_reduction. rewrite Hc. destruct (cap_apm e); by eexists. Qed.
Lemma rate_txpower_ok e f i : i < Z.of_nat (length (tx_power (pwr e))) -> exists p, rate_txpower e f i = Ok p.
Proof. intros Hi. unfold rate_txpower. rewrite (proj2 (Z.ltb_lt _ _) Hi), orb_true_r. by eexists. Qed.
Lemma ofdm_txtime_ok kbps len symbol sifs pre : 300 <= kbps -> 4 <= symbol -> exists t, ofdm_txtime kbps len symbol sifs pre = Ok t.
Proof.
  intros Hk Hs. unfold ofdm_txtime. destruct (Z.eqb_spec (kbps * symbol / 1000) 0) as [E|]; [|by eexists].
  assert (1 <= kbps * symbol / 1000) by (apply Z.div_le_lower_bound; nia). lia.
Qed.
Lemma txtime_ok c phy kbps len sp : 300 <= kbps -> exists t, ath9k_hw_computetxtime c phy kbps len sp = Ok t.
Proof.
  intros Hk. unfold ath9k_hw_computetxtime. rewrite (proj2 (Z.eqb_neq _ _)) by lia.
  assert (forall s a b, 4 <= s -> exists t, ofdm_txtime kbps len s a b = Ok t) as H by (intros; by apply ofdm_txtime_ok).
  destruct phy; [|by eexists].
  destruct c as [c|]; repeat case_match; match goal with |- context [ofdm_txtime _ _ ?s ?a ?b] => destruct (H s a b) as [t ->]; [done|] end; by eexists.
Qed.

Lemma rate_round_ok e f len i r st : is_Some (de_curchan e) -> rate_valid e f r -> exists st', rate_round e f len i r st = Ok st'.
Proof.
  intros Hc Hr. destruct st as [rts info]. unfold rate_round. destruct (Z.eqb_spec (count r) 0) as [|Hn]; [by eexists|].
  destruct (Z.ltb_spec (idx r) 0) as [|Hi]; [by eexists|]. cbn [orb]. destruct Hr as [?|[?|[Hl Hm]]]; [done|lia|].
  destruct (protection _ _) as [sf df]. destruct (has (rc_flags r) IEEE80211_TX_RC_MCS) eqn:Em.
  - unfold mcs_rate. edestruct chainmask_ok as [m ->]; [done|]. destruct (rate_txpower_ok e f (idx r) Hl) as [p ->]. by eexists.
  - destruct Hm as [?|(rate & Er & Hb)]; [done|]. unfold legacy_rate. rewrite Er. cbv zeta.
    assert (exists m, (if negb (bfs_paprd f =? 0) then Ok (txchainmask (pwr e)) else ath_txchainmask_reduction e (txchainmask (pwr e))
      (if negb (hw_value_short rate =? 0) && has (rc_flags r) IEEE80211_TX_RC_USE_SHORT_PREAMBLE then hw_value rate .| hw_value_short rate else hw_value rate)) = Ok m) as [m ->].
    { destruct (negb _); [by eexists|]. by apply chainmask_ok. }
    cbn [obind]. edestruct txtime_ok as [t ->]; [|cbn [obind]; destruct (rate_txpower_ok e f (idx r) Hl) as [p ->]; by eexists]. lia.
Qed.
Lemma rates_loop_ok e f len l : is_Some (de_curchan e) -> Forall (rate_valid e f) l -> forall i st, exists st', rates_loop e f len i l st = Ok st'.
Proof.
  intros Hc Hl. induction Hl as [|r l Hr Hl IH]; intros i st; cbn [rates_loop]; [by eexists|].
  destruct (rate_round_ok e f len i r st Hc Hr) as [st1 ->]. apply IH.
Qed.
Lemma set_rate_ok e f info len rts : rates_valid e f -> exists info', ath_buf_set_rate e f info len rts = Ok info'.
Proof.
  intros [Hc Hv]. unfold ath_buf_set_rate. edestruct (rates_loop_ok e f len (take 4 (bf_rates f))) as [[rts' info1] ->]; [done|by apply Forall_take|]. by eexists.
Qed.

(** * Aggregates *)

Record aggregate (first : tx_frame) (rest : list tx_frame) : Prop := {
  ag_more : rest <> [];
  ag_marked : Forall (fun f => bf_aggr f = true) (first :: rest);
  ag_nodup : NoDup (bf_daddr <$> first :: rest);
  ag_last : forall l, last rest = Some l -> bf_lastbf first = bf_daddr l;
}.

(** The rates of an aggregate are those of its first frame, for its whole length. *)
Definition aggregate_rates (e : desc_env) (first : tx_frame) (len : Z) : outcome ath_tx_info :=
  ath_buf_set_rate e first ((initial_info (de_qnum e)) <| i_flags := unit_flags e first 0 |>) len (above_threshold e len).

Lemma rate_round_ext e f len i r rts a b st : same_unit a b -> rate_round e f len i r (rts, a) = Ok st ->
  exists b', rate_round e f len i r (rts, b) = Ok (fst st, b') /\ same_unit (snd st) b'.
Proof.
  intros Hab. unfold rate_round. destruct (_ || _); [intros [= <-]; by eexists|]. destruct (protection _ _) as [sf df].
  destruct Hab as [H1 H2 H3 H4 H5 H6 H7 H8 H9]. rewrite <- (H5 i). destruct ((if has _ _ then mcs_rate else legacy_rate) _ _ _ _ _ _) as [[s p]|]; [|done]. cbn [obind].
  intros [= <-]. eexists. split; [done|]. split; cbn; try done; try congruence; intros n; unfold set_nth; by destruct (_ =? _)%nat.
Qed.
Lemma rates_loop_ext e f len l : forall i rts a b st, same_unit a b -> rates_loop e f len i l (rts, a) = Ok st ->
  exists b', rates_loop e f len i l (rts, b) = Ok (fst st, b') /\ same_unit (snd st) b'.
Proof.
  induction l as [|r l IH]; intros i rts a b st Hab; cbn [rates_loop]; [intros [= <-]; by eexists|].
  destruct (rate_round e f len i r (rts, a)) as [[rts1 a1]|] eqn:E; [|done]. cbn [obind].
  destruct (rate_round_ext _ _ _ _ _ _ _ _ _ Hab E) as (b1 & -> & Hb). by apply IH.
Qed.
Lemma set_rate_ext e f a b len rts a' : same_unit a b -> ath_buf_set_rate e f a len rts = Ok a' ->
  exists b', ath_buf_set_rate e f b len rts = Ok b' /\ same_unit a' b'.
Proof.
  intros Hab. unfold ath_buf_set_rate. destruct (rates_loop _ _ _ _ _ (_, a <| _ := _ |>)) as [[rts' a1]|] eqn:E; [|done]. cbn [obind]. intros [= <-].
  edestruct rates_loop_ext as (b1 & Eb & Hb); [|exact E|].
  { instantiate (1 := b <| i_rtscts_rate := fi_rtscts_rate (frame_info f) |>). by destruct Hab; split. }
  rewrite Eb. cbn [obind fst snd] in *. eexists. split; [done|]. clear -Hb. destruct Hb as [H1 H2 H3 H4 H5 H6 H7 H8 H9].
  destruct (bf_aggr f && _); cbn [i_flags upd]; rewrite <- ?H4; destruct (has _ _); split; cbn; try done; congruence.
Qed.

(** The first round of an aggregate. *)
Lemma fill_round_first e f next len base :
  bf_aggr f = true -> bf_daddr f <> bf_lastbf f -> aggregate_rates e f len = Ok base ->
  exists info, same_unit info base /\
    fill_round e f next {| fs_info := initial_info (de_qnum e); fs_first := None; fs_len := len; fs_rts := false |} =
      Ok (ar9003_set_txdesc (de_wide e) (describe base f (next_link e f next) AGGR_BUF_FIRST len),
          {| fs_info := info; fs_first := Some f; fs_len := len; fs_rts := above_threshold e len |}).
Proof.
  intros Ha Hd Hb. unfold fill_round, start_unit. cbn [fs_first fs_info fs_len fs_rts]. rewrite Ha. cbn [orb andb].
  set (info0 := _ <| i_flags ::= _ |>). destruct (set_rate_ext e f ((initial_info (de_qnum e)) <| i_flags := unit_flags e f 0 |>) info0 len (above_threshold e len) base ltac:(by split) Hb) as (info & E & Hs). rewrite E.
  pose proof (set_rate_frame _ _ _ _ _ _ E) as [_ _ _ G4 G5 _ _ _ _].
  pose proof (set_rate_frame _ _ _ _ _ _ Hb) as [F1 F2 F3 F4 F5 F6 F7 F8 F9]. cbn [obind fs_first fs_info fs_len].
  unfold aggr_position. rewrite Z.eqb_refl, (proj2 (Z.eqb_neq _ _) Hd). destruct Hs as [H1 H2 H3 H4 H5 H6 H7 H8 H9].
  eexists. split; [|f_equal; f_equal; apply set_txdesc_proper].
  - split; cbn; try done.
  - split; cbn; try done; try (by intros [|n]; cbn).
Qed.

Lemma has_SM v f m : f_mask f .& m = 0 -> has (SM v f) m = false.
Proof. intros H. unfold has, SM. by rewrite <- Z.land_assoc, H, Z.land_0_r. Qed.
Lemma has_flag b c m : c .& m = 0 -> has (flag b c) m = false.
Proof. intros H. unfold has, flag. destruct b; [by rewrite H|by rewrite Z.land_0_l]. Qed.
Lemma has_ite (b : bool) x y m : has (if b then x else y) m = if b then has x m else has y m.
Proof. by destruct b. Qed.

(** [flags_simpl] decides a flag of a word composed of fields and flags. *)
Ltac flags_simpl :=
  repeat first
    [ rewrite has_lor
    | match goal with |- context [has (SM ?v ?g) ?m] => rewrite (has_SM v g m) by reflexivity end
    | match goal with |- context [has (flag ?b ?c) ?m] => rewrite (has_flag b c m) by reflexivity end
    | rewrite has_ite ];
  rewrite ?orb_false_l, ?orb_false_r.

(** What the hardware reads about one frame of an aggregate of [len] bytes that is
    followed by [next]. *)
Record reads (e : desc_env) (f : tx_frame) (is_first : bool) (next : option tx_frame) (len : Z) (d : ar9003_txc) : Prop := {
  rd_link : link d = u32 (next_link e f next);
  rd_data : data0 d = u32 (bf_buf_addr f) /\ MS (ctl3 d) AR_BufLen = skb_len f mod 4096;
  rd_len : ctl11 d .& AR_FrameLen = fi_framelen (frame_info f) mod 4096;
  rd_key : fi_keyix (frame_info f) <> ATH9K_TXKEYIX_INVALID -> MS (ctl12 d) AR_DestIdx = fi_keyix (frame_info f) mod 128;
  rd_aggr : has (ctl12 d) AR_IsAggr = true /\ has (ctl12 d) AR_MoreAggr = match next with Some _ => true | None => false end;
  rd_aggr_len : MS (ctl17 d) AR_AggrLen = if is_first then u16 len else 0;
  rd_delim : MS (ctl17 d) AR_PadDelim = match next with Some _ => bf_ndelim f mod 256 | None => 0 end;
  rd_chksum : chksum_ok d;
}.

Lemma describe_reads e base f is_first next len : i_is_first base = true -> (is_first = true -> is_Some next) ->
  reads e f is_first next len (ar9003_set_txdesc (de_wide e) (describe base f (next_link e f next)
    (if is_first then AGGR_BUF_FIRST else match next with Some _ => AGGR_BUF_MIDDLE | None => AGGR_BUF_LAST end) len)).
Proof.
  intros Hf Hn. set (pos := if is_first then _ else _). set (i := describe _ _ _ _ _).
  assert (i_is_first i = true) as Hi by done. destruct (set_txdesc_first (de_wide e) i Hi) as (E12 & E17 & _).
  assert (forall P : aggr_type -> bool -> option tx_frame -> Prop, (forall n, P AGGR_BUF_FIRST true (Some n)) -> (forall n, P AGGR_BUF_MIDDLE false (Some n)) ->
    P AGGR_BUF_LAST false None -> P pos is_first next) as Hpos.
  { intros P H1 H2 H3. unfold pos. destruct is_first, next; [apply H1|by destruct (Hn eq_refl)|apply H2|apply H3]. }
  assert (ctl11 (ar9003_set_txdesc (de_wide e) i) .& AR_FrameLen = fi_framelen (frame_info f) mod 4096) as E11.
  { unfold ar9003_set_txdesc. rewrite Hi. cbv zeta. cbn [negb ctl11 upd i_pkt_len i describe]. change AR_FrameLen with (Z.ones 12).
    rewrite !Z.land_lor_distr_l. replace (u32 _ .& Z.ones 12 .& Z.ones 12) with (fi_framelen (frame_info f) mod 4096).
    2:{ rewrite <- Z.land_assoc, Z.land_diag, Z.land_ones by lia. unfold u32. change (2 ^ 12) with 4096. symmetry. apply Z.mod_mod_divide. by exists 1048576. }
    assert (forall b c, c .& Z.ones 12 = 0 -> flag b c .& Z.ones 12 = 0) as Hflag by (intros [|] c Hc; [done|by rewrite Z.land_0_l]).
    assert (forall v g, f_mask g .& Z.ones 12 = 0 -> SM v g .& Z.ones 12 = 0) as HSM by (intros v g Hg; unfold SM; by rewrite <- Z.land_assoc, Hg, Z.land_0_r).
    rewrite !Hflag, HSM by done. by rewrite !Z.lor_0_r. }
  split; try done.
  - unfold ar9003_set_txdesc. by rewrite Hi.
  - unfold ar9003_set_txdesc. rewrite Hi. cbv zeta. cbn [negb data0 ctl3 upd]. split; [done|]. by apply (MS_SM _ _ 12).
  - intros Hk. rewrite E12. unfold txdesc_ctl12. cbn [i_keyix i_aggr i describe]. rewrite (proj2 (Z.eqb_neq _ _) Hk). cbn [negb].
    pattern pos, is_first, next. apply Hpos; [intros n|intros n|]; field_simpl; by apply (MS_SM _ _ 7).
  - rewrite E12. unfold txdesc_ctl12. cbn [i_keyix i_aggr i describe].
    pattern pos, is_first, next. apply Hpos; [intros n|intros n|]; split; flags_simpl; try done; by destruct (_ =? _).
  - rewrite E17. unfold txdesc_ctl17. cbn [i_aggr i_aggr_len i describe]. assert (u16 (u16 len) = u16 len) as Hu by (pose proof (u16_range len); by apply u16_id).
    assert (MS (flag (has (i_flags base) ATH9K_TXDESC_LDPC) AR_LDPC) AR_AggrLen = 0) as A by (by apply MS_flag).
    pattern pos, is_first, next. apply Hpos; [intros n|intros n|]; field_simpl; rewrite ?A, ?Z.lor_0_r; try done. rewrite (MS_SM _ _ 16) by done. exact Hu.
  - rewrite E17. unfold txdesc_ctl17. cbn [i_aggr i_ndelim i describe].
    assert (MS (flag (has (i_flags base) ATH9K_TXDESC_LDPC) AR_LDPC) AR_PadDelim = 0) as A by (by apply MS_flag).
    pattern pos, is_first, next. apply Hpos; [intros n|intros n|]; field_simpl; rewrite ?A, ?Z.lor_0_r, ?Z.lor_0_l; try done; by apply (MS_SM _ _ 8).
  - apply txdesc_chksum_ok; [exact (ar9003_set_txdesc (de_wide e) i)|exact 0].
Qed.

Lemma described_lookup e base first len l k : described e base first len l !! k =
  (fun f => ar9003_set_txdesc (de_wide e) (describe base f (next_link e f (l !! S k)) (aggr_position first f) len)) <$> l !! k.
Proof. revert k. induction l as [|f l IH]; intros [|k]; cbn; [done|done| |apply IH]. by rewrite head_lookup. Qed.

Lemma described_length e base first len l : length (described e base first len l) = length l.
Proof. induction l; cbn; by f_equal. Qed.

(** The words for rates and power do not depend on the frame of a unit. *)
Definition rate_words (d : ar9003_txc) : list Z := [ctl13 d; ctl14 d; ctl15 d; ctl16 d; ctl18 d; ctl19 d; ctl20 d; ctl21 d; ctl22 d].
Lemma describe_words wide base f g l m p q len : i_is_first base = true ->
  rate_words (ar9003_set_txdesc wide (describe base f l p len)) = rate_words (ar9003_set_txdesc wide (describe base g m q len)).
Proof.
  intros Hf. unfold rate_words, ar9003_set_txdesc. cbn [i_is_first i_is_last describe]. rewrite Hf. cbv zeta.
  cbn [negb orb ctl13 ctl14 ctl15 ctl16 ctl18 ctl19 ctl20 ctl21 ctl22 upd i_rates i_rtscts_rate i_txpower describe]. reflexivity.
Qed.

Lemma fill_aggregate e first rest len base : aggregate first rest -> aggregate_rates e first len = Ok base ->
  ath_tx_fill_desc e (first :: rest) len =
    Ok (ar9003_set_txdesc (de_wide e) (describe base first (next_link e first (head rest)) AGGR_BUF_FIRST len) :: described e base first len rest).
Proof.
  intros [Hm Ha Hd Hl] Hb. destruct (exists_last Hm) as (mid & l & ->). rewrite last_snoc in Hl. specialize (Hl l eq_refl).
  apply Forall_cons in Ha as [Hf Ha]. rewrite fmap_cons in Hd. apply NoDup_cons in Hd as [Hn Hd]. rewrite fmap_app in Hn, Hd.
  assert (bf_daddr first <> bf_lastbf first) as Hne by (rewrite Hl; intros E; apply Hn; rewrite E; apply elem_of_app; right; by apply list_elem_of_singleton).
  unfold ath_tx_fill_desc. cbn [fill_loop]. destruct (fill_round_first e first (head (mid ++ [l])) len base Hf Hne Hb) as (info & Hs & E). rewrite E. cbn [obind].
  erewrite fill_loop_inside; [done|exact Hs|done|].
  rewrite removelast_snoc, Hl, Forall_forall. intros g Hg Eg. apply NoDup_app in Hd as (_ & Hd & _).
  apply (Hd (bf_daddr g)); [by apply list_elem_of_fmap_2|]. rewrite Eg. by apply list_elem_of_singleton.
Qed.

(** C18. An aggregate is described as one: the descriptors are linked in order and
    end with the last frame; each names the buffer, length and key of its frame,
    marks it as part of an aggregate, and all but the last one announce more; the
    length of the whole is in the first one, the delimiters in all but the last;
    all carry the rate words of the first frame and a right checksum. *)
Theorem aggregate_described e first rest len : aggregate first rest -> rates_valid e first ->
  exists ds d0, ath_tx_fill_desc e (first :: rest) len = Ok ds /\ ds !! 0%nat = Some d0 /\ length ds = length (first :: rest) /\
    forall k f d, (first :: rest) !! k = Some f -> ds !! k = Some d ->
      reads e f (k =? 0)%nat ((first :: rest) !! S k) len d /\ rate_words d = rate_words d0.
Proof.
  intros Hag Hv. destruct (set_rate_ok e first ((initial_info (de_qnum e)) <| i_flags := unit_flags e first 0 |>) len (above_threshold e len) Hv) as [base Hb].
  pose proof (set_rate_frame _ _ _ _ _ _ Hb) as [_ Hf _ _ _ _ _ _ _]. change (i_is_first base = true) in Hf.
  eexists _, _. split; [by apply (fill_aggregate e first rest len base)|]. split; [done|]. split; [cbn; by rewrite described_length|].
  destruct Hag as [Hm _ Hd Hl]. intros [|k] f d; cbn [lookup list_lookup Nat.eqb].
  - intros [= <-] [= <-]. split; [|done]. rewrite head_lookup. apply (describe_reads e base first true); [done|]. intros _. by destruct rest; [|eexists].
  - intros Ef. change (described e base first len rest !! k = Some d -> reads e f false (rest !! S k) len d /\ rate_words d = rate_words (ar9003_set_txdesc (de_wide e) (describe base first (next_link e first (head rest)) AGGR_BUF_FIRST len))).
    rewrite described_lookup. change (rest !! k = Some f) in Ef. rewrite Ef. intros [= <-]. split; [|by apply describe_words].
    pose proof (describe_reads e base f false (rest !! S k) len Hf ltac:(done)) as Hr. cbv beta iota in Hr.
    replace (aggr_position first f) with (match rest !! S k with Some _ => AGGR_BUF_MIDDLE | None => AGGR_BUF_LAST end); [done|].
    unfold aggr_position. rewrite (proj2 (Z.eqb_neq _ _)).
    2:{ intros E. rewrite fmap_cons in Hd. apply NoDup_cons in Hd as [Hn _]. apply Hn. rewrite <- E. apply list_elem_of_fmap_2. by eapply list_elem_of_lookup_2. }
    destruct (last rest) as [l|] eqn:El; [|by apply last_None in El]. rewrite (Hl l) by done. rewrite last_lookup in El. pose proof (lookup_lt_Some _ _ _ Ef).
    destruct (rest !! S k) as [n|] eqn:En.
    + rewrite (proj2 (Z.eqb_neq _ _)); [done|]. intros E. rewrite fmap_cons in Hd. apply NoDup_cons in Hd as [_ Hd].
      apply lookup_lt_Some in En. assert (k = pred (length rest)); [|lia].
      apply (NoDup_lookup _ _ _ (bf_daddr f) Hd); rewrite list_lookup_fmap; [by rewrite Ef|by rewrite El, E].
    + apply lookup_ge_None in En. replace (pred (length rest)) with k in El by lia. rewrite Ef in El. injection El as ->. by rewrite Z.eqb_refl.
Qed.

(** * Padding *)

Lemma put_le16_length i v l : length (put_le16 i v l) = length l.
Proof. unfold put_le16. by rewrite !length_insert. Qed.
Lemma put_le16_other i v l j : (j + 1 < i)%nat -> get_unaligned_le16 (put_le16 i v l) j = get_unaligned_le16 l j.
Proof. intros H. unfold get_unaligned_le16, byte_at, put_le16. by rewrite !list_lookup_insert_ne by lia. Qed.

(** A sequence number does not change the length or the frame control. *)
Lemma assign_seq_keeps vif skb vif' skb' : ath_assign_seq vif skb = Ok (vif', skb') ->
  length (sk_data skb') = length (sk_data skb) /\ get_unaligned_le16 (sk_data skb') 0 = get_unaligned_le16 (sk_data skb) 0 /\ sk_headroom skb' = sk_headroom skb /\ hw_key skb' = hw_key skb.
Proof.
  unfold ath_assign_seq. destruct vif as [v|]; [|by intros [= <- <-]]. destruct (negb (assign_seq skb)); [by intros [= <- <-]|]. unfold hdr_le16.
  destruct (_ <? _)%nat; [done|]. cbn [obind]. intros [= <- <-]. cbn [sk_data sk_headroom hw_key upd]. split_and!; [apply put_le16_length|apply put_le16_other; unfold SEQ_CTRL; lia|done|done].
Qed.

Lemma take_drop_pad (p s : nat) (h d fcs : list Z) : length h = s -> (p <= length d)%nat -> (s <= p)%nat ->
  drop s (memmove_up s p ((memmove_down s p (h ++ d)) ++ fcs)) = d ++ fcs.
Proof.
  intros Hh Hp Hs. unfold memmove_up, memmove_down. assert (drop s (h ++ d) = d) as -> by (rewrite <- Hh; apply drop_app_length).
  set (x := take p d ++ drop p (h ++ d)). assert (length x = (length d + s)%nat) as Hx by (unfold x; rewrite length_app, length_take, length_drop, length_app; lia).
  rewrite drop_app_le by (rewrite length_take, length_app; lia). rewrite (drop_ge (take s _)) by (rewrite length_take; lia). cbn [app].
  rewrite drop_app_le, take_app_le by lia. unfold x. rewrite take_app_le by (rewrite length_take; lia). rewrite take_take, Nat.min_id.
  rewrite drop_app_ge by (rewrite length_take; lia). rewrite length_take, drop_drop, app_assoc. replace (p + (s + p - p `min` length d))%nat with (p + s)%nat by lia.
  rewrite drop_app_ge by lia. replace (p + s - length h)%nat with p by lia. by rewrite take_drop.
Qed.

Lemma memmove_down_length p s m : (p + s <= length m)%nat -> length (memmove_down s p m) = length m.
Proof. intros H. unfold memmove_down. rewrite length_app, length_take, !length_drop. lia. Qed.

(** What [ath_tx_prepare] makes of a frame: the padding, or nothing. *)
Lemma prepare_cases hdrlen cur vif sta skb vif' skb' fi : ath_tx_prepare hdrlen cur vif sta skb = Ok (vif', Some (skb', fi)) ->
  exists skb1, ath_assign_seq vif skb = Ok (vif', skb1) /\
    fi_framelen fi = u16 (Z.of_nat (length (sk_data skb)) + FCS_LEN + match hw_key skb with Some k => icv_len k | None => 0 end) /\
    let padpos := hdrlen (get_unaligned_le16 (sk_data skb) 0) in
    if negb (padpos .& 3 =? 0) && (padpos <? Z.of_nat (length (sk_data skb))) then
      exists h, Z.of_nat (length h) = padpos .& 3 /\ sk_data skb' = memmove_down (Z.to_nat (padpos .& 3)) (Z.to_nat padpos) (h ++ sk_data skb1)
    else sk_data skb' = sk_data skb1.
Proof.
  unfold ath_tx_prepare. destruct (ath_assign_seq vif skb) as [[vif1 skb1]|] eqn:E; [|done]. destruct (assign_seq_keeps _ _ _ _ E) as (El & Ef & Eh & Ek).
  cbn [obind]. unfold hdr_le16. rewrite El, Ef. destruct (_ <? _)%nat; [done|]. cbn [obind]. cbv zeta.
  set (fc := get_unaligned_le16 (sk_data skb) 0). set (padpos := hdrlen fc).
  set (skb2 := if _ || _ then _ else skb1). assert (sk_data skb2 = sk_data skb1 /\ sk_headroom skb2 = sk_headroom skb1) as [D H] by (unfold skb2; by destruct (_ || _)).
  clearbody skb2. rewrite D, H, El, Eh.
  assert (0 <= padpos .& 3) as Hp by (apply Z.land_nonneg; right; lia). set (s := padpos .& 3) in *. clearbody s.
  destruct (negb (s =? 0) && _) eqn:Ep.
  - destruct (Z.ltb_spec (Z.of_nat (length (sk_headroom skb))) s) as [|Hle]; [done|]. intros [= <- <- <-]. exists skb1. split; [done|]. split; [done|].
    eexists. split; [|done]. rewrite length_drop. lia.
  - intros [= <- <- <-]. exists skb1. by split; [done|]; split.
Qed.

Lemma le16_take_app l m p r : (2 <= p <= length l)%nat -> get_unaligned_le16 (take p l ++ m ++ r) 0 = get_unaligned_le16 l 0.
Proof.
  intros Hp. unfold get_unaligned_le16, byte_at. assert (forall j, (j < 2)%nat -> (take p l ++ m ++ r) !! j = l !! j) as H.
  { intros j Hj. rewrite lookup_app_l by (rewrite length_take; lia). by rewrite lookup_take_lt by lia. }
  by rewrite !H by lia.
Qed.

(** C28. Padding is undone: what one node prepares for sending, with its checksum
    behind it, another node receives as it was before the padding, and its length
    is recorded without the padding. *)
Theorem padding_roundtrip (e : rx_env) cur vif sta skb vif' skb' fi fcs rs rxs decrypt_error :
  (forall l, 0 <= ieee80211_get_hdrlen_from_skb e l) -> 24 <= ieee80211_hdrlen e (get_unaligned_le16 (sk_data skb) 0) ->
  (24 <= length (sk_data skb))%nat -> length fcs = 4%nat ->
  ath_tx_prepare (ieee80211_hdrlen e) cur vif sta skb = Ok (vif', Some (skb', fi)) ->
  let air := sk_data skb' ++ fcs in
  exists skb1 rxs', ath_assign_seq vif skb = Ok (vif', skb1) /\
    ath9k_cmn_rx_skb_postprocess e air (Z.of_nat (length air)) rs rxs decrypt_error = Ok (sk_data skb1 ++ fcs, Z.of_nat (length (sk_data skb1 ++ fcs)), rxs') /\
    fi_framelen fi = u16 (Z.of_nat (length (sk_data skb1 ++ fcs)) + match hw_key skb with Some k => icv_len k | None => 0 end).
Proof.
  intros Hg Hh Hl Hfcs E air. destruct (prepare_cases _ _ _ _ _ _ _ _ E) as (skb1 & E1 & Efi & Epad). destruct (assign_seq_keeps _ _ _ _ E1) as (El & Ef & _ & _).
  set (fc := get_unaligned_le16 (sk_data skb) 0) in *. set (padpos := ieee80211_hdrlen e fc) in *. cbv zeta in Epad.
  assert (0 <= padpos .& 3 <= 3) as Hs by (change 3 with (Z.ones 2) at 1 2; rewrite Z.land_ones by lia; pose proof (Z.mod_pos_bound padpos (2 ^ 2)); lia).
  assert (get_unaligned_le16 air 0 = fc /\ (24 <= length air)%nat /\
    (if negb (padpos .& 3 =? 0) && (padpos + padpos .& 3 + FCS_LEN <=? Z.of_nat (length air))
     then (drop (Z.to_nat (padpos .& 3)) (memmove_up (Z.to_nat (padpos .& 3)) (Z.to_nat padpos) air), Z.of_nat (length air) - padpos .& 3)
     else (air, Z.of_nat (length air))) = (sk_data skb1 ++ fcs, Z.of_nat (length (sk_data skb1 ++ fcs)))) as (A1 & A2 & A3).
  { unfold FCS_LEN. remember (padpos .& 3) as s eqn:Es in *. clear Es. destruct (Z.eqb_spec s 0) as [Es0|Hs0]; cbn [negb andb] in *.
    - subst air. rewrite Epad. split_and!; [|rewrite length_app; lia|done]. unfold get_unaligned_le16, byte_at in *. by rewrite !lookup_app_l by lia.
    - destruct (Z.ltb_spec padpos (Z.of_nat (length (sk_data skb)))) as [Hlt|Hge].
      + destruct Epad as (h & Lh & Ed). assert (length (memmove_down (Z.to_nat s) (Z.to_nat padpos) (h ++ sk_data skb1)) = (length h + length (sk_data skb1))%nat) as Lm by (rewrite memmove_down_length; rewrite length_app; lia).
        assert (length air = (length h + length (sk_data skb1) + 4)%nat) as La by (subst air; rewrite length_app, Ed, Lm, Hfcs; lia).
        split_and!; [|lia|].
        * subst air. rewrite Ed. unfold memmove_down. rewrite <- app_assoc. replace (drop (Z.to_nat s) (h ++ sk_data skb1)) with (sk_data skb1) by (replace (Z.to_nat s) with (length h) by lia; by rewrite drop_app_length).
          rewrite le16_take_app by lia. exact Ef.
        * rewrite (proj2 (Z.leb_le _ _)) by lia. subst air. rewrite Ed in *. f_equal; [apply take_drop_pad; lia|]. rewrite La, length_app, Hfcs. lia.
      + subst air. rewrite Epad in *. rewrite (proj2 (Z.leb_gt _ _)) by (rewrite length_app; lia). split_and!; [|rewrite length_app; lia|done].
        unfold get_unaligned_le16, byte_at in *. by rewrite !lookup_app_l by lia. }
  assert (length (sk_data skb1 ++ fcs) = (length (sk_data skb) + 4)%nat) as L1 by (rewrite length_app; lia).
  unfold ath9k_cmn_rx_skb_postprocess, read_hdr. rewrite (proj2 (Nat.ltb_ge _ _)) by lia. cbn [obind frame_control]. rewrite A1. fold padpos. cbv zeta. rewrite A3.
  match goal with |- context [obind ?x _] => assert (exists rxs1, x = Ok rxs1) as [rxs1 ->] end.
  { destruct (_ && _ && _); [by eexists|]. destruct (_ && _ && _) eqn:Ec; [|by eexists]. ztest.
    set (hl := ieee80211_get_hdrlen_from_skb e _) in *. pose proof (Hg (take (Z.to_nat (Z.of_nat (length air))) air)) as Hg'. fold hl in Hg'.
    destruct (lookup_lt_is_Some_2 (sk_data skb1 ++ fcs) (Z.to_nat (hl + 3))) as [b ->]; [lia|destruct (keymap_bit _ _); by eexists]. }
  cbn [obind]. eexists _, _. split; [done|]. split; [done|]. rewrite Efi. f_equal. unfold FCS_LEN. lia.
Qed.

(** * What a rate series says *)

(** The rate is protected by the request of mac80211 or because the frame is above
    the RTS threshold. *)
Definition protected_rate (rts : bool) (r : ieee80211_tx_rate) : bool :=
  rts || has (rc_flags r) (IEEE80211_TX_RC_USE_RTS_CTS .| IEEE80211_TX_RC_USE_CTS_PROTECT).
Definition skipped (r : ieee80211_tx_rate) : bool := (count r =? 0) || (idx r <? 0).
(** One entry of the series: [s] was there before. *)
Record series_ok (f : tx_frame) (rts : bool) (r : ieee80211_tx_rate) (s s' : ath9k_11n_rate_series) : Prop := {
  so_tries : Tries s' = count r;
  so_rts : has (RateFlags s') ATH9K_RATESERIES_RTS_CTS = has (RateFlags s) ATH9K_RATESERIES_RTS_CTS || protected_rate rts r;
  so_40 : has (RateFlags s') ATH9K_RATESERIES_2040 = has (RateFlags s) ATH9K_RATESERIES_2040 || has (rc_flags r) IEEE80211_TX_RC_40_MHZ_WIDTH;
  so_gi : has (RateFlags s') ATH9K_RATESERIES_HALFGI = has (RateFlags s) ATH9K_RATESERIES_HALFGI || has (rc_flags r) IEEE80211_TX_RC_SHORT_GI;
  so_stbc : has (RateFlags s') ATH9K_RATESERIES_STBC = has (RateFlags s) ATH9K_RATESERIES_STBC || (has (rc_flags r) IEEE80211_TX_RC_MCS && (idx r <? 8) && ctl_stbc f);
}.

Lemma has_mask_lor flags a b : has flags (a .| b) = has flags a || has flags b.
Proof. unfold has. rewrite (Z.land_comm _ (a .| b)), (Z.land_comm _ a), (Z.land_comm _ b). exact (has_lor a b flags). Qed.

Lemma protection_flag rts flags : fst (protection rts flags) = flag (rts || has flags (IEEE80211_TX_RC_USE_RTS_CTS .| IEEE80211_TX_RC_USE_CTS_PROTECT)) ATH9K_RATESERIES_RTS_CTS.
Proof.
  unfold protection, flag. rewrite has_mask_lor. destruct rts, (has flags IEEE80211_TX_RC_USE_RTS_CTS), (has flags IEEE80211_TX_RC_USE_CTS_PROTECT); done.
Qed.

(** The threshold makes protection stick for the rates that follow. *)
Definition rts_after (e : desc_env) (f : tx_frame) (len : Z) (rts : bool) (r : ieee80211_tx_rate) : bool :=
  rts || (negb (skipped r) && (bf_ampdu f && negb (bf_aggr f) && has (rc_flags r) IEEE80211_TX_RC_MCS && above_threshold e len)).

Lemma rate_series e f len rix flags s s' power (mcs := has flags IEEE80211_TX_RC_MCS) :
  (if mcs then mcs_rate else legacy_rate) e f len rix flags s = Ok (s', power) ->
  Tries s' = Tries s /\ RateFlags s' = RateFlags s .| flag (mcs && (rix <? 8) && ctl_stbc f) ATH9K_RATESERIES_STBC.
Proof.
  destruct mcs; cbn [andb].
  - unfold mcs_rate. destruct (ath_txchainmask_reduction _ _ _); [|done]. cbn [obind]. destruct (rate_txpower _ _ _); [|done]. cbn [obind].
    intros [= <- _]. destruct (_ && _); cbn; by rewrite ?Z.lor_0_r.
  - unfold legacy_rate. destruct (bitrates _ _ !! _); [|done]. cbv zeta. destruct (if negb _ then _ else _); [|done]. cbn [obind].
    destruct (ath9k_hw_computetxtime _ _ _ _ _); [|done]. cbn [obind]. destruct (rate_txpower _ _ _); [|done]. cbn [obind]. intros [= <- _]. cbn. by rewrite Z.lor_0_r.
Qed.

Lemma rate_round_series e f len i r rts info rts' info' : rate_round e f len i r (rts, info) = Ok (rts', info') ->
  rts' = rts_after e f len rts r /\ (forall j, j <> i -> i_rates info' j = i_rates info j) /\
  (if skipped r then i_rates info' i = i_rates info i else series_ok f rts' r (i_rates info i) (i_rates info' i)).
Proof.
  unfold rate_round, rts_after, skipped. destruct (_ || _) eqn:Esk.
  - intros [= <- <-]. by rewrite orb_false_r.
  - set (rts1 := rts || _). pose proof (protection_flag rts1 (rc_flags r)) as Hp. destruct (protection rts1 (rc_flags r)) as [sf df]. cbn [fst] in Hp. subst sf.
    match goal with |- obind ?x _ = _ -> _ => destruct x as [[s p]|] eqn:E end; [|done]. cbn [obind]. intros [= <- <-].
    apply rate_series in E as [E1 E2]. split; [done|]. split; [intros j Hj; cbn; unfold set_nth; by rewrite (proj2 (Nat.eqb_neq _ _) Hj)|].
    cbn [i_rates upd]. unfold set_nth. rewrite Nat.eqb_refl. cbn [Tries RateFlags upd] in E1, E2.
    assert (forall (b : bool) c m, has (flag b c) m = b && has c m) as Hfl by (intros [|] c m; cbn; [done|unfold has, flag; by rewrite Z.land_0_l]).
    unfold width_flags in E2. split; [done|..]; rewrite E2, !has_lor, !Hfl;

      repeat match goal with |- context [has ?c ?m] => let v := eval vm_compute in (has c m) in lazymatch v with true => idtac | false => idtac end; change (has c m) with v end;
      by rewrite ?andb_true_r, ?andb_false_r, ?orb_false_r.
Qed.

Lemma rates_loop_series e f len l : forall i rts info rts' info', rates_loop e f len i l (rts, info) = Ok (rts', info') ->
  (forall j, (j < i)%nat -> i_rates info' j = i_rates info j) /\
  forall k r, l !! k = Some r ->
    if skipped r then i_rates info' (i + k)%nat = i_rates info (i + k)%nat
    else series_ok f (fold_left (rts_after e f len) (take (S k) l) rts) r (i_rates info (i + k)%nat) (i_rates info' (i + k)%nat).
Proof.
  induction l as [|r0 l IH]; intros i rts info rts' info'; cbn [rates_loop]; [by intros [= <- <-]|].
  destruct (rate_round e f len i r0 (rts, info)) as [[rts1 info1]|] eqn:E; [|done]. cbn [obind]. intros E'.
  apply rate_round_series in E as (-> & Ho & Hi). apply IH in E' as (Hlow & Hs). split.
  - intros j Hj. rewrite Hlow, Ho by lia. done.
  - intros [|k] r; cbn [lookup list_lookup].
    + intros [= <-]. rewrite Nat.add_0_r. rewrite Hlow by lia. cbn [take fold_left]. by destruct (skipped r0).
    + intros Er. specialize (Hs k r Er). replace (i + S k)%nat with (S i + k)%nat by lia.
      rewrite (Ho (S i + k)%nat) in Hs by lia. exact Hs.
Qed.

(** The series says what mac80211 asked for: every rate that is used has its number
    of tries, the width and guard interval of the request, space-time coding where
    it applies, and protection when it is requested or the frame is above the RTS
    threshold; unused entries are left alone. *)
Theorem series_described e f info len rts info' k r : ath_buf_set_rate e f info len rts = Ok info' -> (k < 4)%nat -> bf_rates f !! k = Some r ->
  if skipped r then i_rates info' k = i_rates info k
  else series_ok f (fold_left (rts_after e f len) (take (S k) (bf_rates f)) rts) r (i_rates info k) (i_rates info' k).
Proof.
  unfold ath_buf_set_rate. intros E Hk Hr. destruct (rates_loop _ _ _ _ _ _) as [[rts' info1]|] eqn:El; [|done]. cbn [obind] in E. injection E as <-.
  apply rates_loop_series in El as [_ Hs]. specialize (Hs k r). rewrite lookup_take_lt in Hs by lia. specialize (Hs Hr). rewrite take_take in Hs.
  replace (S k `min` 4)%nat with (S k) in Hs by lia. cbn [Nat.add i_rates upd] in Hs. destruct (bf_aggr f && _); destruct (has (i_flags _) _); exact Hs.
Qed.

(** Never both kinds of protection, and no RTS before an aggregate that is too long
    for it. *)
Theorem protection_exclusive e f info len rts info' : ath_buf_set_rate e f info len rts = Ok info' ->
  has (i_flags info') ATH9K_TXDESC_RTSENA && has (i_flags info') ATH9K_TXDESC_CTSENA = false /\
  (bf_aggr f = true -> rts_aggr_limit e < len -> has (i_flags info') ATH9K_TXDESC_RTSENA = false).
Proof.
  assert (forall x m, has (clr x m) m = false) as Hclr by (intros x m; unfold has, clr; by rewrite Z.land_ldiff).
  assert (forall x m n, n .& m = 0 -> has (clr x m) n = has x n) as Hkeep.
  { intros x m n Hn. unfold has, clr. rewrite Z.ldiff_land, <- Z.land_assoc, (Z.land_comm (Z.lnot m)). replace (n .& Z.lnot m) with n; [done|].
    rewrite <- Z.ldiff_land. symmetry. apply Z.bits_inj'. intros i Hi. rewrite Z.ldiff_spec. apply (f_equal (fun z => Z.testbit z i)) in Hn. rewrite Z.land_spec, Z.bits_0 in Hn.
    destruct (Z.testbit n i); [|done]. cbn in *. by rewrite Hn. }
  unfold ath_buf_set_rate. destruct (rates_loop _ _ _ _ _ _) as [[rts' info1]|]; [|done]. cbn [obind]. intros [= <-].
  set (info2 := if bf_aggr f && _ then _ else _).
  assert (bf_aggr f = true -> rts_aggr_limit e < len -> has (i_flags info2) ATH9K_TXDESC_RTSENA = false) as H2.
  { intros Ha Hl. unfold info2. rewrite Ha, (proj2 (Z.ltb_lt _ _) Hl). cbn. apply Hclr. }
  clearbody info2. destruct (has (i_flags info2) ATH9K_TXDESC_RTSENA) eqn:E; cbn [i_flags upd].
  - rewrite Hkeep, Hclr, andb_false_r by done. split; [done|]. intros Ha Hl. by rewrite H2 in E.
  - by rewrite E.
Qed.

(** * Frames in a burst *)

Record single (f : tx_frame) : Prop := { si_aggr : bf_aggr f = false; si_last : bf_lastbf f = bf_daddr f; si_rates : length (bf_rates f) = 4%nat }.

(** The information after one frame, and its descriptor. *)
Lemma fill_single e f next info len d st : single f -> fill_round e f next {| fs_info := info; fs_first := None; fs_len := len; fs_rts := false |} = Ok (d, st) ->
  exists info1 info2, ath_buf_set_rate e f (info1 <| i_flags ::= unit_flags e f |>) (fi_framelen (frame_info f)) false = Ok info2 /\
    i_rates info1 = i_rates info /\ i_is_first info1 = i_is_first info /\ fs_first st = None /\ fs_rts st = false /\ i_rates (fs_info st) = i_rates info2 /\ i_is_first (fs_info st) = i_is_first info /\
    (i_is_first info = true -> ctl15 d = set11nPktDurRTSCTS (i_rates info2 0%nat) AR_PacketDur0 AR_RTSCTSQual0 .| set11nPktDurRTSCTS (i_rates info2 1%nat) AR_PacketDur1 AR_RTSCTSQual1 /\
       MS (ctl18 d) {| f_mask := AR_2040_0; f_S := 0 |} = flag (has (RateFlags (i_rates info2 0%nat)) ATH9K_RATESERIES_2040) AR_2040_0).
Proof.
  intros [Ha Hl _]. unfold fill_round, start_unit. cbn [fs_first fs_info fs_len fs_rts]. rewrite Ha. cbn [orb andb].
  match goal with |- context [ath_buf_set_rate _ _ (?i <| i_flags ::= _ |>)] => set (info1 := i) end.
  destruct (ath_buf_set_rate _ _ _ _ _) as [info2|] eqn:E; [|done]. pose proof (set_rate_frame _ _ _ _ _ _ E) as [_ F _ _ _ _ _ _ _].
  cbn [obind fs_first fs_info fs_len fs_rts]. rewrite Hl, Z.eqb_refl. intros [= <- <-]. exists info1, info2. split; [done|]. split_and!; try done.
  intros Hi. match goal with |- context [ar9003_set_txdesc ?w ?i] => assert (i_is_first i = true) as Hf by (cbn; by rewrite F); destruct (set_txdesc_first w i Hf) as (_ & _ & H15 & _) end.
  split; [by rewrite H15|]. unfold ar9003_set_txdesc. rewrite Hf. cbv zeta. cbn [negb ctl18 upd i_rates]. unfold set11nRateFlags.
  field_simpl. unfold MS. cbn [f_mask f_S]. rewrite Z.shiftr_0_r. by destruct (has _ _).
Qed.

(** A burst of frames shares one description: a frame that follows a protected one
    with 40 MHz is marked as protected and 40 MHz wide too, whatever its own rates
    ask for. *)
Theorem burst_inherits e f1 f2 len r ds : single f1 -> single f2 -> bf_rates f1 !! 0%nat = Some r -> skipped r = false ->
  protected_rate false r = true -> has (rc_flags r) IEEE80211_TX_RC_40_MHZ_WIDTH = true -> ath_tx_fill_desc e [f1; f2] len = Ok ds ->
  exists d2, ds !! 1%nat = Some d2 /\ has (ctl15 d2) AR_RTSCTSQual0 = true /\ MS (ctl18 d2) {| f_mask := AR_2040_0; f_S := 0 |} = 1.
Proof.
  intros H1 H2 Hr Hsk Hp H40. unfold ath_tx_fill_desc. cbn [fill_loop].
  destruct (fill_round e f1 _ _) as [[d1 st1]|] eqn:E1; [|done]. cbn [obind]. apply fill_single in E1 as (ia & ib & S1 & Ra & Fa & N1 & T1 & R1 & F1 & _); [|done].
  destruct st1 as [info1 first1 len1 rts1]. cbn [fs_first fs_rts fs_info] in *. subst first1 rts1.
  destruct (fill_round e f2 _ _) as [[d2 st2]|] eqn:E2; [|done]. cbn [obind]. intros [= <-]. exists d2. split; [done|].
  apply fill_single in E2 as (ic & id & S2 & Rc & Fc & _ & _ & R2 & F2 & W); [|done]. destruct (W ltac:(by rewrite F1)) as [W1 W2]. rewrite W1, W2. clear W W1 W2.
  pose proof (series_described _ _ _ _ _ _ 0 r S1 ltac:(lia) Hr) as Q1. rewrite Hsk in Q1. destruct Q1 as [_ A B _ _].
  assert (has (RateFlags (i_rates ib 0%nat)) ATH9K_RATESERIES_RTS_CTS = true /\ has (RateFlags (i_rates ib 0%nat)) ATH9K_RATESERIES_2040 = true) as [A1 B1].
  { rewrite A, B, H40. split; [|apply orb_true_r]. unfold protected_rate in *. cbn [orb] in Hp. by rewrite Hp, !orb_true_r. }
  destruct (lookup_lt_is_Some_2 (bf_rates f2) 0) as [r2 Hr2]; [rewrite (si_rates f2 H2); lia|].
  pose proof (series_described _ _ _ _ _ _ 0 r2 S2 ltac:(lia) Hr2) as Q2. cbn [i_rates upd] in Q2. rewrite Rc, R1 in Q2.
  assert (has (RateFlags (i_rates id 0%nat)) ATH9K_RATESERIES_RTS_CTS = true /\ has (RateFlags (i_rates id 0%nat)) ATH9K_RATESERIES_2040 = true) as [A2 B2].
  { destruct (skipped r2); [by rewrite Q2|]. destruct Q2 as [_ C D _ _]. by rewrite C, D, A1, B1. }
  rewrite B2. split; [|done]. unfold set11nPktDurRTSCTS. rewrite A2. rewrite !has_lor. cbn [flag]. by rewrite orb_true_r.
Qed.

(** * Air time *)

(** [n] symbols of [per] bits are just enough for [bits]. *)
Definition just_enough (n per bits : Z) : Prop := (n - 1) * per < bits <= n * per.

Lemma ofdm_txtime_exact kbps len symbol sifs pre : 6000 <= kbps <= 54000 -> 0 <= len <= 4095 -> 4 <= symbol <= 16 -> 0 <= sifs <= 64 -> 0 <= pre <= 80 ->
  exists n, ofdm_txtime kbps len symbol sifs pre = Ok (sifs + pre + n * symbol) /\ just_enough n (kbps * symbol / 1000) (22 + 8 * len) /\ 0 <= sifs + pre + n * symbol < 65536.
Proof.
  intros Hk Hl Hs H1 H2. unfold ofdm_txtime, DIV_ROUND_UP, OFDM_PLCP_BITS. set (per := kbps * symbol / 1000).
  assert (24 <= per <= 864) as Hp by (unfold per; split; [apply Z.div_le_lower_bound|apply Z.div_le_upper_bound]; nia).
  assert (kbps * symbol < 1000 * per + 1000) as Hk' by (unfold per; pose proof (Z.div_mod (kbps * symbol) 1000); pose proof (Z.mod_pos_bound (kbps * symbol) 1000); lia).
  clearbody per. rewrite (proj2 (Z.eqb_neq _ _)) by lia. rewrite Z.shiftl_mul_pow2 by lia. change (2 ^ 3) with 8. csimp.
  set (b := 22 + len * 8). assert (b = 22 + 8 * len) as <- by (unfold b; lia). assert (22 <= b <= 32782) as Hb by (unfold b; lia). clearbody b.
  set (n := (b + per - 1) / per). assert (n * per <= b + per - 1 < n * per + per) as Hn by (unfold n; pose proof (Z.div_mod (b + per - 1) per); pose proof (Z.mod_pos_bound (b + per - 1) per); lia).
  clearbody n. assert (0 <= n) by nia. assert (n * symbol <= 16000) as Hu.
  { assert (n * per <= 33645) by lia. assert (n * symbol * 6000 <= n * symbol * kbps) by nia. assert (n * (kbps * symbol) <= n * (1000 * per + 1000)) by nia.
    assert (n <= 1402) by nia. nia. }
  exists n. csimp. unfold just_enough. split; [done|]. nia.
Qed.

Definition plain_width (c : option Z) : Prop := match c with Some flags => IS_CHAN_QUARTER_RATE flags = false /\ IS_CHAN_HALF_RATE flags = false | None => True end.

(** The air time of an OFDM frame is exact on a channel of 20 MHz: inter-frame
    space, preamble, and the least number of symbols that hold its bits. *)
Theorem txtime_exact c kbps len sp : plain_width c -> 6000 <= kbps <= 54000 -> 0 <= len <= 4095 ->
  exists n, ath9k_hw_computetxtime c WLAN_RC_PHY_OFDM kbps len sp = Ok (16 + 20 + n * 4) /\ just_enough n (kbps * 4 / 1000) (22 + 8 * len).
Proof.
  intros Hc Hk Hl. destruct (ofdm_txtime_exact kbps len 4 16 20) as (n & E & Hn & Hr); try lia. exists n. split; [|done].
  unfold ath9k_hw_computetxtime. rewrite (proj2 (Z.eqb_neq _ _)) by lia. cbv zeta.
  assert (forall A (a b d : A), (if match c with Some flags => IS_CHAN_QUARTER_RATE flags | None => false end then a else if match c with Some flags => IS_CHAN_HALF_RATE flags | None => false end then b else d) = d) as -> by (destruct c as [f|]; [destruct Hc as [-> ->]|]; done).
  unfold OFDM_SYMBOL_TIME, OFDM_SIFS_TIME, OFDM_PREAMBLE_TIME. rewrite E. cbn [obind]. by rewrite u16_id by (unfold_ranges; lia).
Qed.

(** On the channels of 10 MHz of the platform it is not: the rate passed in is that
    of a channel of 20 MHz, and with symbols of twice the length only half of the
    symbols that the hardware needs are counted. *)
Theorem half_rate_short flags kbps len sp : IS_CHAN_QUARTER_RATE flags = false -> IS_CHAN_HALF_RATE flags = true ->
  6000 <= kbps <= 54000 -> kbps mod 250 = 0 -> 0 <= len <= 4095 -> kbps * 4 / 1000 < 22 + 8 * len ->
  exists t n, ath9k_hw_computetxtime (Some flags) WLAN_RC_PHY_OFDM kbps len sp = Ok t /\ just_enough n (kbps / 2 * 8 / 1000) (22 + 8 * len) /\
    t - (32 + 40) < n * 8.
Proof.
  intros Hq Hh Hk Hm Hl Hb. destruct (ofdm_txtime_exact kbps len 8 32 40) as (m & E & Hn & Hr); try lia.
  pose proof (Z.div_mod kbps 250 ltac:(lia)) as Hd. rewrite Hm in Hd. set (p := kbps / 250) in *.
  assert (kbps * 4 / 1000 = p) as E4 by (replace (kbps * 4) with (p * 1000) by lia; by apply Z.div_mul).
  assert (kbps * 8 / 1000 = 2 * p) as E8 by (replace (kbps * 8) with (2 * p * 1000) by lia; by apply Z.div_mul).
  assert (kbps / 2 * 8 / 1000 = p) as E2 by (replace (kbps / 2 * 8) with (p * 1000) by (replace kbps with (p * 125 * 2) by lia; rewrite Z.div_mul by lia; lia); by apply Z.div_mul).
  rewrite E4 in Hb. rewrite E8 in Hn. rewrite E2. clearbody p. set (b := 22 + 8 * len) in *. clearbody b.
  exists (32 + 40 + m * 8), ((b + p - 1) / p). unfold ath9k_hw_computetxtime. rewrite (proj2 (Z.eqb_neq _ _)) by lia. cbv zeta. rewrite Hq, Hh.
  unfold OFDM_SYMBOL_TIME_HALF, OFDM_SIFS_TIME_HALF, OFDM_PREAMBLE_TIME_HALF. rewrite E. cbn [obind]. rewrite u16_id by (unfold_ranges; lia). split; [done|].
  assert (0 < p) by lia. pose proof (Z.div_mod (b + p - 1) p ltac:(lia)) as Hx. pose proof (Z.mod_pos_bound (b + p - 1) p ltac:(lia)) as Hy.
  set (n := (b + p - 1) / p) in *. clearbody n. unfold just_enough in *. split; [nia|]. assert (2 <= n) as H2 by nia.
  destruct (Z.lt_ge_cases m n) as [|Hge]; [lia|]. assert ((n - 1) * p <= (m - 1) * p) by (apply Z.mul_le_mono_nonneg_r; lia). nia.
Qed.

(** * Multicast after a beacon *)

(** The buffers with their frames are those the pool lost; nothing is lost or
    doubled. *)
Lemma cab_buffer_pool pool skb fi bf pool' : cab_buffer pool skb fi = Ok (bf, pool') ->
  match bf with
  | None => pool' ≡ₚ pool
  | Some f => exists p, pool ≡ₚ (bf_daddr f, p) :: pool' /\ bf_lastbf f = bf_daddr f /\ bf_aggr f = false
  end.
Proof.
  unfold cab_buffer. destruct pool as [|[d [a|]] pool]; [by intros [= <- <-]| |].
  - destruct (hdr_le16 _ _); [|done]. cbn [obind]. intros [= <- <-]. by exists (Some a).
  - intros [= <- <-]. symmetry. apply Permutation_cons_append.
Qed.

Definition cab_inv (n : nat) (pool : list Z) (st : cab_state) : Prop :=
  n = (length (cb_queue st) + length (cb_freed st))%nat /\
  pool ≡ₚ ((fun q => bf_daddr q.2) <$> cb_queue st) ++ (fst <$> cb_pool st) /\
  Forall (fun q => bf_lastbf q.2 = bf_daddr q.2 /\ bf_aggr q.2 = false) (cb_queue st).

Lemma cab_loop_inv hdrlen cur e maxd pool : forall buffered skb st st' left n,
  cab_loop hdrlen cur e maxd skb buffered st = Ok (st', left) -> cab_inv n pool st ->
  exists sent, buffered = sent ++ left /\ cab_inv (S n + length sent) pool st' /\ (length (cb_freed st') <= S (length (cb_freed st)))%nat /\
    cb_queue st `prefix_of` cb_queue st'.
Proof.
  induction buffered as [|next buffered IH]; intros skb st st' left n; cbn [cab_loop].
  all: destruct (ath_tx_prepare _ _ _ _ _) as [[vif [[skb1 fi]|]]|]; [| |done]; cbn [obind].
  2,4: intros [= <- <-] (Hn & Hp & Hf); exists []; split; [done|]; unfold cab_inv; cbn [cb_queue cb_freed cb_pool upd]; rewrite !length_app; cbn [length]; split_and!; try done; lia.
  all: cbn [cb_pool upd]; destruct (cab_buffer _ _ _) as [[[bf|] pool']|] eqn:Eb; [| |done]; cbn [obind]; apply cab_buffer_pool in Eb.
  2,4: intros [= <- <-] (Hn & Hp & Hf); exists []; split; [done|]; unfold cab_inv; cbn [cb_queue cb_freed cb_pool upd]; rewrite !length_app; cbn [length];
       split_and!; try done; [lia| |lia]; by rewrite Eb.
  all: destruct (ath_buf_set_rate _ _ _ _ _) as [info|]; [|done]; cbn [obind]; destruct Eb as (p & Eb & B1 & B2); intros H (Hn & Hp & Hf).
  all: match type of H with (if _ then Ok (?s, _) else _) = _ => set (st1 := s) in * end.
  all: assert (cab_inv (S n) pool st1 /\ length (cb_freed st1) = length (cb_freed st) /\ cb_queue st `prefix_of` cb_queue st1) as (I1 & L1 & P1).
  1,3: unfold cab_inv, st1; cbn [cb_queue cb_freed cb_pool upd]; rewrite length_app, fmap_app; cbn [length fmap list_fmap]; split_and!;
    [lia|rewrite Hp, Eb; cbn; by rewrite <- app_assoc|apply Forall_app; by rewrite Forall_singleton|done|by apply prefix_app_r].
  all: clearbody st1; destruct (_ <? _); [injection H as <- <-; exists []; split; [done|]; replace (S n + length [])%nat with (S n) by (cbn; lia); split_and!; [done|lia|done]|].
  - injection H as <- <-. exists []. split; [done|]. replace (S n + length [])%nat with (S n) by (cbn; lia). split_and!; [done|lia|done].
  - apply (IH _ _ _ _ (S n)) in H as (sent & -> & I2 & L2 & P2); [|done]. exists (next :: sent). split; [done|]. cbn [length]. replace (S n + S (length sent))%nat with (S (S n) + length sent)%nat by lia.
    split_and!; [done|lia|]. by trans (cb_queue st1).
Qed.

Lemma fill_loop_length e chain : forall st ds, fill_loop e chain st = Ok ds -> length ds = length chain.
Proof.
  induction chain as [|f chain IH]; intros st ds; cbn [fill_loop]; [by intros [= <-]|]. destruct (fill_round _ _ _ _) as [[d st1]|]; [|done]. cbn [obind].
  destruct (fill_loop e chain st1) as [ds1|] eqn:E; [|done]. intros [= <-]. cbn. f_equal. by eapply IH.
Qed.

(** No frame for multicast is lost: each one taken from mac80211 is in the queue for
    the hardware or, at most one, freed; each queued frame has a buffer of the pool
    of its own and a descriptor. *)
Theorem cabq_accounts hdrlen cur e bi dtim vif pool skb buffered ds st left :
  ath_tx_cabq hdrlen cur e bi dtim vif pool skb buffered = Ok (ds, st, left) ->
  exists taken, buffered = taken ++ left /\ S (length taken) = (length (cb_queue st) + length (cb_freed st))%nat /\ (length (cb_freed st) <= 1)%nat /\
    fst <$> pool ≡ₚ ((fun q => bf_daddr q.2) <$> cb_queue st) ++ (fst <$> cb_pool st) /\ length ds = length (cb_queue st).
Proof.
  unfold ath_tx_cabq. destruct (cab_loop _ _ _ _ _ _ _) as [[st1 left1]|] eqn:E; [|done]. cbn [obind].
  apply (cab_loop_inv _ _ _ _ (fst <$> pool) _ _ _ _ _ 0) in E as (sent & -> & (Hn & Hp & Hf) & Hl & _); [|by split_and!]. cbn [cb_freed length] in Hl.
  destruct (cb_queue st1) as [|q rest] eqn:Eq.
  - intros [= <- <- <-]. exists sent. rewrite Eq. by split_and!.
  - set (q1 := if ieee80211_has_moredata _ then _ else q). assert (bf_daddr q1.2 = bf_daddr q.2) as Hq by (unfold q1; by destruct (ieee80211_has_moredata _)).
    clearbody q1. cbn [cb_queue upd]. destruct (ath_tx_fill_desc _ _ _) as [ds1|] eqn:Ed; [|done]. cbn [obind]. intros [= <- <- <-]. exists sent.
    cbn [cb_queue cb_freed cb_pool upd]. split_and!; [done|exact Hn|lia|rewrite Hp; cbn; by rewrite Hq|]. apply fill_loop_length in Ed. by rewrite Ed, length_fmap.
Qed.

(** * Concrete frames

    A card on a channel of 10 MHz, and the frames of one aggregate. *)

Definition demo_desc : desc_env :=
  {| rts_threshold := 0xffffffff; rts_aggr_limit := 8192; de_tx99 := false; de_uapsd := false; de_qnum := 2; cap_apm := true; de_curchan := Some (CHANNEL_5GHZ .| CHANNEL_HALF);
     cck_second_chain := false; bitrates := fun _ => [{| rate_flags := 0; bitrate := 60; hw_value := 0x0b; hw_value_short := 0 |}]; paprd_training_power := 0;
     pwr := {| pw_common := ah_common hw_11p; ar9300_eep := ar9300_default; txchainmask := 3; caps_tx_chainmask := 7; pw_9340 := false; pw_9550 := false;
               pw_9531_9561 := false; pw_9462_20 := false; paprd_mcs7 := false; mci_enabled := false; concur_tx := false; paprd_enabled := false;
               paprd_table_write_done := false; paprd_ratemask := 0; paprd_ratemask_ht40 := 0; paprd_target_power := 0; tpc_enabled := true;
               tx_power := replicate 36 30; tx_power_stbc := replicate 36 30; max_power_level := 0 |};
     de_wide := true |}.
Definition unused_rate : ieee80211_tx_rate := {| idx := -1; count := 0; rc_flags := 0 |}.
Definition demo_tx_frame (n : Z) (last : Z) (aggr : bool) (rate : ieee80211_tx_rate) : tx_frame :=
  {| bf_daddr := 0x1000 + 128 * n; bf_buf_addr := 0x80000 + 4096 * n; bf_lastbf := 0x1000 + 128 * last; bf_aggr := aggr; bf_ampdu := aggr; bf_ndelim := 2; bfs_paprd := 0;
     bf_rates := [rate; unused_rate; unused_rate; unused_rate]; skb_len := 300; hdr_fc := 0x0088; ctl_stbc := false; ctl_no_ack := true; ctl_ldpc := false;
     ctl_clear_ps_filt := false; ctl_band := 1;
     frame_info := {| fi_framelen := 304; fi_keyix := 255; fi_rtscts_rate := 0; fi_tx_power := 40; fi_keytype := 0 |} |}.
Definition mcs3 : ieee80211_tx_rate := {| idx := 3; count := 2; rc_flags := IEEE80211_TX_RC_MCS |}.
Definition wide_rts : ieee80211_tx_rate := {| idx := 3; count := 2; rc_flags := IEEE80211_TX_RC_MCS .| IEEE80211_TX_RC_40_MHZ_WIDTH .| IEEE80211_TX_RC_USE_RTS_CTS |}.
Definition six_mbit : ieee80211_tx_rate := {| idx := 0; count := 1; rc_flags := 0 |}.

(** Three frames of 912 bytes in all. *)
Lemma aggregate_described_witness : exists ds d1, ath_tx_fill_desc demo_desc [demo_tx_frame 0 2 true mcs3; demo_tx_frame 1 2 true mcs3; demo_tx_frame 2 2 true mcs3] 912 = Ok ds /\
  ds !! 1%nat = Some d1 /\ link d1 = 0x1100 /\ has (ctl12 d1) AR_MoreAggr = true.
Proof.
  destruct (aggregate_described demo_desc (demo_tx_frame 0 2 true mcs3) [demo_tx_frame 1 2 true mcs3; demo_tx_frame 2 2 true mcs3] 912) as (ds & d0 & E & _ & Hl & H).
  - split; [done|by repeat constructor| |by intros l [= <-]]. apply (bool_decide_unpack _). vm_compute. reflexivity.
  - split; [by eexists|]. repeat apply Forall_cons_2; [right; right; vm_compute; split; [done|by left]|by left..|apply Forall_nil_2].
  - destruct (lookup_lt_is_Some_2 ds 1) as [d1 Ed]; [rewrite Hl; cbn; lia|]. exists ds, d1. split; [exact E|]. split; [done|].
    destruct (H 1%nat (demo_tx_frame 1 2 true mcs3) d1 eq_refl Ed) as [[Hlink _ _ _ [_ Hm] _ _ _] _]. split; [exact Hlink|exact Hm].
Defined.

(** The second frame wants a single try at 6 Mb/s without protection. *)
Lemma burst_inherits_witness : exists ds d2, ath_tx_fill_desc demo_desc [demo_tx_frame 0 0 false wide_rts; demo_tx_frame 1 1 false six_mbit] 0 = Ok ds /\
  ds !! 1%nat = Some d2 /\ has (ctl15 d2) AR_RTSCTSQual0 = true.
Proof.
  destruct (ath_tx_fill_desc demo_desc [demo_tx_frame 0 0 false wide_rts; demo_tx_frame 1 1 false six_mbit] 0) as [ds|] eqn:E; [|vm_compute in E; discriminate].
  assert (forall n r, single (demo_tx_frame n n false r)) as Hs by (intros n r; by split).
  destruct (burst_inherits _ _ _ _ wide_rts _ (Hs 0 wide_rts) (Hs 1 six_mbit) eq_refl eq_refl eq_refl eq_refl E) as (d2 & E2 & H & _). exists ds, d2. split; [reflexivity|]. split; [exact E2|exact H].
Defined.

(** A data frame of the 802.11p network with a QoS header of 26 bytes. *)
Definition qos_env : rx_env := demo_rx_env <| ieee80211_hdrlen := fun _ => 26 |> <| ieee80211_get_hdrlen_from_skb := fun _ => 26 |>.
Definition demo_tx_skb (fc : Z) : tx_skb :=
  {| sk_data := [fc .& 0xff; fc .>> 8] ++ replicate 24 7 ++ [1; 2; 3; 4; 5]; sk_headroom := replicate 32 9; assign_seq := true; first_fragment := true; clear_ps_filt := false;
     stbc := false; ldpc := false; skb_no_ack := true; sk_band := 1; hw_key := None; rts_cts_rate := None; sk_rates := [six_mbit; unused_rate; unused_rate; unused_rate] |}.
Definition demo_vif : tx_vif := {| vif_is_ap := false; vif_txpower := 20; use_short_preamble := false; vif_seq_no := 0x50 |}.
Lemma padding_roundtrip_witness : exists vif skb fi data rxs, ath_tx_prepare (fun _ => 26) 0 (Some demo_vif) None (demo_tx_skb 0x0088) = Ok (vif, Some (skb, fi)) /\
  length (sk_data skb) = 33%nat /\
  ath9k_cmn_rx_skb_postprocess qos_env (sk_data skb ++ [0; 0; 0; 0]) 37 zero_rx_status (zero_rxs) false = Ok (data, 35, rxs) /\ drop 26 data = [1; 2; 3; 4; 5; 0; 0; 0; 0].
Proof.
  destruct (ath_tx_prepare (fun _ => 26) 0 (Some demo_vif) None (demo_tx_skb 0x0088)) as [[vif [[skb fi]|]]|] eqn:E; [|vm_compute in E; discriminate..].
  destruct (padding_roundtrip qos_env 0 (Some demo_vif) None (demo_tx_skb 0x0088) vif skb fi [0; 0; 0; 0] zero_rx_status zero_rxs false) as (skb1 & rxs & E1 & E2 & _);
    [done|vm_compute; discriminate|cbn; lia|done|exact E|].
  exists vif, skb, fi, (sk_data skb1 ++ [0; 0; 0; 0]), rxs. split; [done|]. vm_compute in E. injection E as <- <- <-. split; [done|].
  vm_compute in E1. injection E1 as <-. split; [exact E2|done].
Defined.

(** The flag "more data" is taken from the first of two multicast frames, after
    which stations go to sleep, and left in the last one. *)
Example more_data_first :
  (fun r => (fun q => hdr_fc q.2) <$> cb_queue (snd (fst r))) <$>
    (match ath_tx_cabq (fun _ => 24) 0 demo_desc 100 1 (Some demo_vif) [(0x1000, Some 0x80000); (0x1080, Some 0x81000)] (demo_tx_skb 0x2008) [demo_tx_skb 0x2008] with
     | Ok r => Some r | Oops => None end) = Some [0x0008; 0x2008].
Proof. vm_compute. reflexivity. Qed.
