(* ===== verification/FiCodec.v ===== *)
(** Frame information packets of the SATMAC protocol
    (src/ns3/satmac/model/satmac-packet.cc, satmac-common.h): the state of a
    slot, the frame information a node keeps or receives, and the bit-level
    encoding of a frame information packet.

    A packet is the identifier of the sender (9 bits), the logarithm of the
    frame length (4 bits), and 13 bits per slot: the status (2), the owner (9)
    and the number of neighbours that see it (2). *)

From S2P Require Import Prelude.

(** * Constants *)

Definition BIT_LENGTH_BUSY : Z := 2.
Definition BIT_LENGTH_STI : Z := 9.
Definition BIT_LENGTH_FRAMELEN : Z := 4.
Definition BIT_LENGTH_PSF : Z := 0.
Definition BIT_LENGTH_COUNT : Z := 2.
Definition BIT_LENGTH_SLOT_TAG : Z :=
  BIT_LENGTH_BUSY + BIT_LENGTH_STI + BIT_LENGTH_PSF + BIT_LENGTH_COUNT.

Definition SLOT_FREE : Z := 0.
Definition SLOT_1HOP : Z := 2.
Definition SLOT_2HOP : Z := 1.
Definition SLOT_COLLISION : Z := 3.

(** * Data *)

Record slot_tag := {
  tg_busy : Z;          (* char *)
  tg_count_2hop : Z;
  tg_count_3hop : Z;
  tg_life_time : Z;
  tg_existed : bool;
  tg_sti : Z;
  tg_psf : Z;           (* char *)
  tg_c3hop_flag : bool;
  tg_locker : bool;
}.
#[export] Instance eta_slot_tag : Eta slot_tag := fun r =>
  Build_slot_tag (tg_busy r) (tg_count_2hop r) (tg_count_3hop r) (tg_life_time r) (tg_existed r)
    (tg_sti r) (tg_psf r) (tg_c3hop_flag r) (tg_locker r).
#[export] Instance slot_tag_eq_dec : EqDecision slot_tag.
Proof. solve_decision. Defined.

(** The constructor. *)
Definition slot_tag_init : slot_tag :=
  {| tg_busy := 0; tg_sti := 0; tg_psf := 0; tg_count_2hop := 0; tg_count_3hop := 0;
     tg_c3hop_flag := false; tg_life_time := 0; tg_existed := false; tg_locker := false |}.

Record Frame_info := {
  fi_sti : Z;
  fi_remain_time : Z;
  fi_frame_len : Z;
  fi_valid_time : Z;
  fi_recv_slot : Z;
  slot_describe : list slot_tag;
}.
#[export] Instance eta_Frame_info : Eta Frame_info := fun r =>
  Build_Frame_info (fi_sti r) (fi_remain_time r) (fi_frame_len r) (fi_valid_time r) (fi_recv_slot r)
    (slot_describe r).

(** The constructor with a length. *)
Definition Frame_info_new (framelen : Z) : Frame_info :=
  {| fi_sti := 0; fi_remain_time := 0; fi_valid_time := 0; fi_recv_slot := -1;
     fi_frame_len := framelen; slot_describe := replicate (Z.to_nat framelen) slot_tag_init |}.

(** * Writing bit fields *)

(** [mode]: the sum of [pow(2, i)] for [i < k]. *)
Fixpoint mode_bits (k : nat) : Z :=
  match k with O => 0 | S k => mode_bits k + 2 ^ Z.of_nat k end.

(** [buffer[index] |= x]. *)
Definition or_byte (buffer : list Z) (index x : Z) : outcome (list Z) :=
  match buffer !! Z.to_nat index with
  | Some b => Ok (<[Z.to_nat index := u8 (b .| x)]> buffer)
  | None => Oops
  end.

Fixpoint setvalue_loop (fuel : nat) (value : Z) (buffer : list Z) (index bit_remain field_length : Z)
  : outcome (list Z * Z * Z) :=
  let '(index, bit_remain) := if bit_remain =? 0 then (index + 1, 8) else (index, bit_remain) in
  if field_length <=? 0 then Ok (buffer, index, bit_remain)
  else
    match fuel with
    | O => Oops
    | S fuel =>
        let '(shift, mode, bit_remain, field_length) :=
          if field_length <=? bit_remain then
            (bit_remain - field_length, mode_bits (Z.to_nat field_length), bit_remain - field_length, 0)
          else (0, mode_bits (Z.to_nat bit_remain), 0, field_length - bit_remain) in
        obind (or_byte buffer index (((value .>> field_length) .& mode) .<< shift)) (fun buffer =>
        setvalue_loop fuel value buffer index bit_remain field_length)
    end.

(** Returns the buffer and the new values of [byte_pos] and [bit_pos]. Every
    round writes at least one bit, so [bit_len] rounds are enough. *)
Definition setvalue (value bit_len : Z) (buffer : list Z) (byte_pos bit_pos : Z) : outcome (list Z * Z * Z) :=
  obind (setvalue_loop (Z.to_nat bit_len) (u8 value) buffer byte_pos (bit_pos + 1) bit_len)
    (fun '(buffer, index, bit_remain) => Ok (buffer, index, bit_remain - 1)).

(** * Reading bit fields *)

(** The inner [while] loop of [decode_value], which occurs twice with the same
    body: once for the leading [length % 8] bits, once for every full byte. *)
Fixpoint read_field (fuel : nat) (buffer : list Z) (index bit_remain field_length value : Z)
  : outcome (Z * Z * Z) :=
  if field_length <=? 0 then Ok (value, index, bit_remain)
  else
    match fuel, buffer !! Z.to_nat index with
    | S fuel, Some b =>
        if field_length <=? bit_remain then
          let shift := bit_remain - field_length in
          let value := value .| ((b .>> shift) .& mode_bits (Z.to_nat field_length)) in
          let bit_remain := bit_remain - field_length in
          let '(index, bit_remain) := if bit_remain =? 0 then (index + 1, 8) else (index, bit_remain) in
          read_field fuel buffer index bit_remain 0 value
        else
          let value := value .| (((b .>> 0) .& mode_bits (Z.to_nat bit_remain)) .<< (8 - bit_remain)) in
          read_field fuel buffer (index + 1) 8 (field_length - bit_remain) value
    | _, _ => Oops
    end.

(** The loop over the full bytes of a field. *)
Fixpoint read_bytes (n : nat) (buffer : list Z) (index bit_remain value : Z) : outcome (Z * Z * Z) :=
  match n with
  | O => Ok (value, index, bit_remain)
  | S n =>
      obind (read_field 8 buffer index bit_remain 8 (u64 (value .<< 8))) (fun '(value, index, bit_remain) =>
      read_bytes n buffer index bit_remain value)
  end.

(** Returns the value and the new values of [byte_pos] and [bit_pos]. *)
Definition decode_value (buffer : list Z) (byte_pos bit_pos length : Z) : outcome (Z * Z * Z) :=
  if length =? 0 then Ok (0, byte_pos, bit_pos)
  else
    obind (read_field 8 buffer byte_pos (bit_pos + 1) (length mod 8) 0) (fun '(value, index, bit_remain) =>
    obind (read_bytes (Z.to_nat (length / 8)) buffer index bit_remain value) (fun '(value, index, bit_remain) =>
    Ok (value, index, bit_remain - 1))).

(** * The packet *)

(** The buffer with the position of the next bit. *)
Definition cursor : Type := list Z * Z * Z.

Definition put (value bit_len : Z) (c : cursor) : outcome cursor :=
  let '(buffer, byte_pos, bit_pos) := c in setvalue value bit_len buffer byte_pos bit_pos.

(** An identifier: its upper bit, then its lower byte. *)
Definition put_sti (sti : Z) (c : cursor) : outcome cursor :=
  let field_length := BIT_LENGTH_STI / 8 in
  obind (put (u8 (sti .>> (8 * field_length))) (BIT_LENGTH_STI mod 8) c) (fun c =>
  put (u8 (sti .>> 0)) 8 c).

(** The count is saturated at [~((0xff >> BIT_LENGTH_COUNT) << BIT_LENGTH_COUNT)]. *)
Definition count_mask : Z := clr 0xff ((0xff .>> BIT_LENGTH_COUNT) .<< BIT_LENGTH_COUNT).

Definition put_tag (tag : slot_tag) (c : cursor) : outcome cursor :=
  obind (put (u8 (tg_busy tag)) BIT_LENGTH_BUSY c) (fun c =>
  obind (put_sti (tg_sti tag) c) (fun c =>
  put (if count_mask <? tg_count_2hop tag then count_mask else u8 (tg_count_2hop tag)) BIT_LENGTH_COUNT c)).

(** The counters start again after they have been sent. *)
Definition clear_counts (global_sti : Z) (tag : slot_tag) : slot_tag :=
  if tg_sti tag =? global_sti then tag <| tg_count_2hop := 1 |> <| tg_count_3hop := 1 |>
  else tag <| tg_c3hop_flag := false |> <| tg_count_2hop := 0 |> <| tg_count_3hop := 0 |>.

Fixpoint put_tags (n i : nat) (global_sti : Z) (fi_local : list slot_tag) (c : cursor)
  : outcome (list slot_tag * cursor) :=
  match n with
  | O => Ok (fi_local, c)
  | S n =>
      match fi_local !! i with
      | None => Oops
      | Some tag =>
          obind (put_tag tag c) (fun c =>
          put_tags n (S i) global_sti (<[i := clear_counts global_sti tag]> fi_local) c)
      end
  end.

Definition fi_size (framelength : Z) : Z :=
  let bits := BIT_LENGTH_SLOT_TAG * framelength + BIT_LENGTH_STI + BIT_LENGTH_FRAMELEN in
  if negb (bits mod 8 =? 0) then bits / 8 + 1 else bits / 8.

(** The constructor of [FiHeader]: the bytes of the packet and the table of
    the sender with its counters cleared. [log(m)/log(2)], stored into a byte,
    is the integer logarithm. *)
Definition FiHeader (framelength global_sti : Z) (fi_local : list slot_tag)
  : outcome (list slot_tag * list Z) :=
  let c := (replicate (Z.to_nat (fi_size framelength)) 0, 0, 7) in
  obind (put_sti global_sti c) (fun c =>
  obind (put (u8 (Z.log2 framelength)) BIT_LENGTH_FRAMELEN c) (fun c =>
  obind (put_tags (Z.to_nat framelength) 0 global_sti fi_local c) (fun '(fi_local, (buffer, _, _)) =>
  Ok (fi_local, buffer)))).

(** Returns the tag and the position after it. *)
Definition decode_slot_tag (buffer : list Z) (byte_pos bit_pos : Z) (tag : slot_tag)
  : outcome (slot_tag * Z * Z) :=
  obind (decode_value buffer byte_pos bit_pos BIT_LENGTH_BUSY) (fun '(busy, byte_pos, bit_pos) =>
  obind (decode_value buffer byte_pos bit_pos BIT_LENGTH_STI) (fun '(sti, byte_pos, bit_pos) =>
  obind (decode_value buffer byte_pos bit_pos BIT_LENGTH_COUNT) (fun '(count, byte_pos, bit_pos) =>
  obind (decode_value buffer byte_pos bit_pos BIT_LENGTH_PSF) (fun '(psf, byte_pos, bit_pos) =>
  Ok ((tag <| tg_busy := s8 busy |> <| tg_sti := s32 sti |> <| tg_count_2hop := s32 count |>
           <| tg_psf := s8 psf |>), byte_pos, bit_pos))))).

Fixpoint decode_tags (buffer : list Z) (byte_pos bit_pos : Z) (tags : list slot_tag) : outcome (list slot_tag) :=
  match tags with
  | [] => Ok []
  | tag :: tags =>
      obind (decode_slot_tag buffer byte_pos bit_pos tag) (fun '(tag, byte_pos, bit_pos) =>
      obind (decode_tags buffer byte_pos bit_pos tags) (fun tags => Ok (tag :: tags)))
  end.

(** The part of [TdmaSatmac::recvFI] that reads the packet: [my_frame_len] and
    [adj_frame_ena] are the receiver's. *)
Definition decode_FI (adj_frame_ena : bool) (my_frame_len slot_count : Z) (buffer : list Z)
  : outcome Frame_info :=
  obind (decode_value buffer 0 7 BIT_LENGTH_STI) (fun '(sti, byte_pos, bit_pos) =>
  obind (decode_value buffer byte_pos bit_pos BIT_LENGTH_FRAMELEN) (fun '(value, byte_pos, bit_pos) =>
  let recv_fi_frame_fi := if adj_frame_ena then 2 ^ value else my_frame_len in
  let fi := Frame_info_new recv_fi_frame_fi in
  let fi := fi <| fi_sti := s32 sti |> <| fi_recv_slot := slot_count |>
               <| fi_valid_time := my_frame_len |> <| fi_remain_time := my_frame_len |> in
  obind (decode_tags buffer byte_pos bit_pos (slot_describe fi)) (fun tags =>
  Ok (fi <| slot_describe := tags |>)))).

(** * Bit streams

    Bit [j] of a buffer, the most significant bit of a byte first. *)

Definition bit_at (buffer : list Z) (j : Z) : bool :=
  match buffer !! Z.to_nat (j / 8) with Some b => Z.testbit b (7 - j mod 8) | None => false end.

(** The number formed by the [n] bits from position [p] on. *)
Fixpoint bits_val (buffer : list Z) (p : Z) (n : nat) : Z :=
  match n with
  | O => 0
  | S n => 2 * bits_val buffer p n + Z.b2z (bit_at buffer (p + Z.of_nat n))
  end.

Lemma mode_bits_ones k : mode_bits k = Z.ones (Z.of_nat k).
Proof.
  induction k as [|k IH]; [done|]. cbn [mode_bits]. rewrite IH, !Z.ones_equiv, Nat2Z.inj_succ, Z.pow_succ_r by lia. lia.
Qed.

Lemma testbit_high b n : in_u8 b -> 8 <= n -> Z.testbit b n = false.
Proof.
  intros Hb Hn. destruct (Z.eq_dec b 0) as [->|]; [apply Z.testbit_0_l|]. unfold in_u8 in Hb.
  apply Z.bits_above_log2; [lia|]. assert (Z.log2 b < 8) by (apply Z.log2_lt_pow2; lia). lia.
Qed.

Lemma testbit_u8 x n : 0 <= n -> Z.testbit (u8 x) n = (n <? 8) && Z.testbit x n.
Proof.
  intros Hn. unfold u8. change 256 with (2 ^ 8). destruct (Z.ltb_spec n 8).
  - by rewrite Z.mod_pow2_bits_low by lia.
  - by rewrite Z.mod_pow2_bits_high by lia.
Qed.

(** A field of [k] bits of [value] put at distance [shift] from the right. *)
Lemma testbit_field value low k shift n : 0 <= low -> 0 <= shift -> 0 <= n ->
  Z.testbit (((value .>> low) .& mode_bits k) .<< shift) n =
  (shift <=? n) && (n <? shift + Z.of_nat k) && Z.testbit value (n - shift + low).
Proof.
  intros Hl Hs Hn. destruct (Z.leb_spec shift n).
  - rewrite Z.shiftl_spec, Z.land_spec, Z.shiftr_spec, mode_bits_ones by lia.
    destruct (Z.ltb_spec n (shift + Z.of_nat k)).
    + rewrite Z.ones_spec_low by lia. by rewrite andb_true_r.
    + rewrite Z.ones_spec_high by lia. by rewrite andb_false_r.
  - by rewrite Z.shiftl_spec_low by lia.
Qed.

Lemma or_byte_bits buffer index x : Forall in_u8 buffer -> 0 <= index < Z.of_nat (length buffer) ->
  exists buffer', or_byte buffer index x = Ok buffer' /\ length buffer' = length buffer /\
    Forall in_u8 buffer' /\
    forall j, 0 <= j -> bit_at buffer' j = bit_at buffer j || ((j / 8 =? index) && Z.testbit x (7 - j mod 8)).
Proof.
  intros Hb Hi. destruct (lookup_lt_is_Some_2 buffer (Z.to_nat index) ltac:(lia)) as [b E].
  unfold or_byte. rewrite E. eexists. split; [done|]. rewrite length_insert. split; [done|]. split.
  { apply Forall_insert; [done|]. apply u8_range. }
  intros j Hj. unfold bit_at. destruct (Z.eqb_spec (j / 8) index) as [<-|Hne].
  - rewrite list_lookup_insert_eq by lia. rewrite E, testbit_u8, Z.lor_spec by dlia.
    destruct (Z.ltb_spec (7 - j mod 8) 8); [done|dlia].
  - rewrite list_lookup_insert_ne by dlia. by rewrite orb_false_r.
Qed.

(** ** Writing *)

Lemma setvalue_loop_spec value : forall fuel buffer index bit_remain field_length,
  Forall in_u8 buffer -> 0 <= index -> 0 <= bit_remain <= 8 -> 0 <= field_length <= Z.of_nat fuel ->
  let p := 8 * index + 8 - bit_remain in
  p + field_length <= 8 * Z.of_nat (length buffer) ->
  exists buffer' index' bit_remain',
    setvalue_loop fuel value buffer index bit_remain field_length = Ok (buffer', index', bit_remain') /\
    length buffer' = length buffer /\ Forall in_u8 buffer' /\ 0 <= index' /\ 1 <= bit_remain' <= 8 /\
    8 * index' + 8 - bit_remain' = p + field_length /\
    forall j, 0 <= j -> bit_at buffer' j =
      bit_at buffer j || ((p <=? j) && (j <? p + field_length) && Z.testbit value (p + field_length - 1 - j)).
Proof.
  induction fuel as [|fuel IH]; intros buffer index bit_remain field_length Hb Hi Hr Hf p Hp;
    cbn [setvalue_loop];
    (destruct (if bit_remain =? 0 then (index + 1, 8) else (index, bit_remain)) as [i r] eqn:En;
     assert (0 <= i /\ 1 <= r <= 8 /\ 8 * i + 8 - r = p) as (Hi' & Hr' & Hp')
       by (subst p; destruct (Z.eqb_spec bit_remain 0); simplify_eq; lia); clear En Hr Hi).
  - assert (field_length = 0) as -> by lia. cbn. do 3 eexists. split; [reflexivity|]. split_and!; try done; try lia.
    intros j _. destruct (Z.leb_spec p j), (Z.ltb_spec j (p + 0)); cbn; rewrite ?orb_false_r; try done; lia.
  - destruct (Z.leb_spec field_length 0).
    { do 3 eexists. split; [reflexivity|]. split_and!; try done; try lia.
      intros j _. destruct (Z.leb_spec p j), (Z.ltb_spec j (p + field_length)); cbn; rewrite ?orb_false_r; try done; lia. }
    set (k := Z.min field_length r). set (rest := field_length - k).
    assert (exists shift, (if field_length <=? r then (r - field_length, mode_bits (Z.to_nat field_length), r - field_length, 0)
      else (0, mode_bits (Z.to_nat r), 0, field_length - r)) = (shift, mode_bits (Z.to_nat k), r - k, rest) /\ shift = r - k)
      as (shift & -> & Hshift).
    { subst k rest. destruct (Z.leb_spec field_length r).
      - rewrite Z.min_l by lia. exists (r - field_length). split; [do 2 f_equal; lia|lia].
      - rewrite Z.min_r by lia. exists 0. split; [repeat f_equal; lia|lia]. }
    assert (1 <= k <= field_length /\ k <= r /\ 0 <= rest) as (Hk & Hkr & Hrest) by lia.
    destruct (or_byte_bits buffer i (((value .>> rest) .& mode_bits (Z.to_nat k)) .<< shift) Hb ltac:(lia))
      as (b1 & -> & Hlen & Hb1 & Hbits). cbn [obind].
    destruct (IH b1 i (r - k) rest Hb1 Hi' ltac:(lia) ltac:(lia)) as (b2 & i2 & r2 & -> & Hl2 & Hb2 & Hi2 & Hr2 & Hp2 & Hbits2);
      [rewrite Hlen; lia|].
    do 3 eexists. split; [reflexivity|]. split_and!; try done; try lia.
    intros j Hj. rewrite Hbits2, Hbits by done. rewrite <- orb_assoc. f_equal.
    replace (8 * i + 8 - (r - k)) with (p + k) by lia. replace (p + k + rest) with (p + field_length) by lia.
    destruct (Z.eqb_spec (j / 8) i) as [Hji|Hji].
    + rewrite testbit_field by (try dlia). rewrite Z2Nat.id by lia.
      replace (7 - j mod 8 - shift + rest) with (p + field_length - 1 - j) by dlia.
      destruct (Z.leb_spec p j), (Z.ltb_spec j (p + field_length)), (Z.leb_spec (p + k) j),
        (Z.leb_spec shift (7 - j mod 8)), (Z.ltb_spec (7 - j mod 8) (shift + k)); cbn; rewrite ?orb_false_r; try done; dlia.
    + destruct (Z.leb_spec p j), (Z.ltb_spec j (p + field_length)), (Z.leb_spec (p + k) j); cbn; try done; dlia.
Qed.

(** Position of the next bit. *)
Definition cursor_pos (c : cursor) : Z := 8 * snd (fst c) + 7 - snd c.

Definition cursor_ok (c : cursor) : Prop :=
  Forall in_u8 (fst (fst c)) /\ 0 <= snd (fst c) /\ 0 <= snd c <= 7.

Lemma put_spec value bit_len c : cursor_ok c -> in_u8 value -> 0 < bit_len ->
  cursor_pos c + bit_len <= 8 * Z.of_nat (length (fst (fst c))) ->
  exists c', put value bit_len c = Ok c' /\ cursor_ok c' /\ length (fst (fst c')) = length (fst (fst c)) /\
    cursor_pos c' = cursor_pos c + bit_len /\
    forall j, 0 <= j -> bit_at (fst (fst c')) j = bit_at (fst (fst c)) j ||
      ((cursor_pos c <=? j) && (j <? cursor_pos c + bit_len) && Z.testbit value (cursor_pos c + bit_len - 1 - j)).
Proof.
  destruct c as [[buffer byte_pos] bit_pos]. unfold cursor_ok, cursor_pos. cbn [fst snd].
  intros (Hb & Hi & Hr) Hv Hl Hp. cbn [put]. unfold setvalue. rewrite u8_id by done.
  destruct (setvalue_loop_spec value (Z.to_nat bit_len) buffer byte_pos (bit_pos + 1) bit_len)
    as (b & i & r & -> & Hlen & Hb' & Hi' & Hr' & Hp' & Hbits); try done; try lia.
  exists (b, i, r - 1). cbn [obind fst snd]. split; [done|]. split_and!; try done; try lia.
  intros j Hj. rewrite Hbits by done. by replace (8 * byte_pos + 8 - (bit_pos + 1)) with (8 * byte_pos + 7 - bit_pos) by lia.
Qed.

Lemma bits_val_testbit buffer p k : forall n, 0 <= n ->
  Z.testbit (bits_val buffer p k) n = (n <? Z.of_nat k) && bit_at buffer (p + Z.of_nat k - 1 - n).
Proof.
  induction k as [|k IH]; intros n Hn; cbn [bits_val].
  { rewrite Z.testbit_0_l. destruct (Z.ltb_spec n (Z.of_nat 0)); [lia|done]. }
  destruct (Z.eq_dec n 0) as [->|].
  - rewrite Z.testbit_0_r. destruct (Z.ltb_spec 0 (Z.of_nat (S k))); [|lia]. cbn. f_equal. lia.
  - replace n with (Z.succ (n - 1)) by lia. rewrite Z.testbit_succ_r, IH by lia.
    destruct (Z.ltb_spec (n - 1) (Z.of_nat k)), (Z.ltb_spec (Z.succ (n - 1)) (Z.of_nat (S k))); try lia; try done.
    cbn. f_equal. lia.
Qed.

Lemma bits_val_range buffer p k : 0 <= bits_val buffer p k < 2 ^ Z.of_nat k.
Proof.
  induction k as [|k IH]; cbn [bits_val]; [done|].
  rewrite Nat2Z.inj_succ, Z.pow_succ_r by lia. destruct (bit_at _ _); cbn; lia.
Qed.

(** The bits of a field are its value. *)
Lemma bits_val_field buffer p k v :
  (forall j, p <= j < p + Z.of_nat k -> bit_at buffer j = Z.testbit v (p + Z.of_nat k - 1 - j)) ->
  bits_val buffer p k = v mod 2 ^ Z.of_nat k.
Proof.
  intros Hj. apply Z.bits_inj'. intros n Hn. rewrite bits_val_testbit by done.
  destruct (Z.ltb_spec n (Z.of_nat k)).
  - rewrite Z.mod_pow2_bits_low, Hj by lia. cbn. f_equal. lia.
  - by rewrite Z.mod_pow2_bits_high by lia.
Qed.

Lemma bits_val_byte buffer i b off k : buffer !! Z.to_nat i = Some b -> 0 <= i -> 0 <= off ->
  off + Z.of_nat k <= 8 ->
  (b .>> (8 - off - Z.of_nat k)) .& mode_bits k = bits_val buffer (8 * i + off) k.
Proof.
  intros E Hi Ho Hk. apply Z.bits_inj'. intros n Hn.
  rewrite Z.land_spec, Z.shiftr_spec, mode_bits_ones, bits_val_testbit by lia. destruct (Z.ltb_spec n (Z.of_nat k)).
  - rewrite Z.ones_spec_low, andb_true_r by lia. cbn. unfold bit_at.
    replace ((8 * i + off + Z.of_nat k - 1 - n) / 8) with i by dlia. rewrite E. f_equal. dlia.
  - rewrite Z.ones_spec_high, andb_false_r by lia. done.
Qed.

(** What [read_field] makes of the field of [k] bits at position [p]: the part
    in the first byte is always shifted as if the field were a full byte. *)
Definition field_read (buffer : list Z) (p k : Z) : Z :=
  let r := 8 - p mod 8 in
  if k <=? r then bits_val buffer p (Z.to_nat k)
  else (bits_val buffer p (Z.to_nat r) .<< (8 - r)) .| bits_val buffer (p + r) (Z.to_nat (k - r)).

Lemma read_field_spec buffer index bit_remain k value :
  0 <= index -> 1 <= bit_remain <= 8 -> 0 < k <= 8 ->
  let p := 8 * index + 8 - bit_remain in
  p + k <= 8 * Z.of_nat (length buffer) ->
  exists index' bit_remain',
    read_field 8 buffer index bit_remain k value = Ok (value .| field_read buffer p k, index', bit_remain') /\
    0 <= index' /\ 1 <= bit_remain' <= 8 /\ 8 * index' + 8 - bit_remain' = p + k.
Proof.
  intros Hi Hr Hk p Hp. unfold field_read.
  replace (8 - p mod 8) with bit_remain by (subst p; dlia).
  destruct (lookup_lt_is_Some_2 buffer (Z.to_nat index) ltac:(lia)) as [b E].
  cbn [read_field]. destruct (Z.leb_spec k 0); [lia|]. rewrite E. destruct (Z.leb_spec k bit_remain).
  - pose proof (bits_val_byte buffer index b (8 - bit_remain) (Z.to_nat k) E Hi ltac:(lia) ltac:(lia)) as Hb.
    replace (8 - (8 - bit_remain) - Z.of_nat (Z.to_nat k)) with (bit_remain - k) in Hb by lia.
    replace (8 * index + (8 - bit_remain)) with p in Hb by lia. rewrite Hb.
    destruct (Z.eqb_spec (bit_remain - k) 0); (do 2 eexists; split; [reflexivity|lia]).
  - pose proof (bits_val_byte buffer index b (8 - bit_remain) (Z.to_nat bit_remain) E Hi ltac:(lia) ltac:(lia)) as Hb.
    replace (8 - (8 - bit_remain) - Z.of_nat (Z.to_nat bit_remain)) with 0 in Hb by lia.
    replace (8 * index + (8 - bit_remain)) with p in Hb by lia. rewrite Hb.
    destruct (lookup_lt_is_Some_2 buffer (Z.to_nat (index + 1)) ltac:(lia)) as [b' E'].
    destruct (Z.leb_spec (k - bit_remain) 0); [lia|]. rewrite E'. destruct (Z.leb_spec (k - bit_remain) 8); [|lia].
    pose proof (bits_val_byte buffer (index + 1) b' 0 (Z.to_nat (k - bit_remain)) E' ltac:(lia) ltac:(lia) ltac:(lia)) as Hb'.
    replace (8 - 0 - Z.of_nat (Z.to_nat (k - bit_remain))) with (8 - (k - bit_remain)) in Hb' by lia.
    replace (8 * (index + 1) + 0) with (p + bit_remain) in Hb' by lia. rewrite Hb', <- Z.lor_assoc.
    destruct (Z.eqb_spec (8 - (k - bit_remain)) 0); (do 2 eexists; split; [reflexivity|lia]).
Qed.

(** Full bytes are read correctly. *)
Lemma field_read_byte buffer p : field_read buffer p 8 = bits_val buffer p 8.
Proof.
  unfold field_read. set (r := 8 - p mod 8). assert (1 <= r <= 8) as Hr by (subst r; dlia).
  destruct (Z.leb_spec 8 r); [done|]. apply Z.bits_inj'. intros n Hn.
  rewrite Z.lor_spec, !bits_val_testbit by done. rewrite Z2Nat.id by lia.
  destruct (Z.ltb_spec n (8 - r)).
  - rewrite Z.shiftl_spec_low by lia. destruct (Z.ltb_spec n (Z.of_nat 8)); [|lia]. cbn. f_equal. lia.
  - rewrite Z.shiftl_spec, bits_val_testbit, orb_false_r, Z2Nat.id by lia.
    destruct (Z.ltb_spec (n - (8 - r)) r), (Z.ltb_spec n (Z.of_nat 8)); try lia; try done. cbn. f_equal. lia.
Qed.

(** ** Sequences of fields *)

(** A field is its length and its value. *)
Fixpoint put_fields (fs : list (Z * Z)) (c : cursor) : outcome cursor :=
  match fs with
  | [] => Ok c
  | (len, v) :: fs => obind (put v len c) (put_fields fs)
  end.

Definition fields_len (fs : list (Z * Z)) : Z := sumZ fst fs.

Fixpoint fields_at (buffer : list Z) (p : Z) (fs : list (Z * Z)) : Prop :=
  match fs with
  | [] => True
  | (len, v) :: fs => bits_val buffer p (Z.to_nat len) = v mod 2 ^ len /\ fields_at buffer (p + len) fs
  end.

Lemma put_fields_app fs fs' c : put_fields (fs ++ fs') c = obind (put_fields fs c) (put_fields fs').
Proof.
  revert c. induction fs as [|[len v] fs IH]; intros c; [done|]. cbn [put_fields app].
  destruct (put v len c); [apply IH|done].
Qed.

Lemma fields_at_app buffer fs fs' p :
  fields_at buffer p (fs ++ fs') <-> fields_at buffer p fs /\ fields_at buffer (p + fields_len fs) fs'.
Proof.
  revert p. induction fs as [|[len v] fs IH]; intros p.
  - cbn. unfold fields_len. cbn. rewrite Z.add_0_r. tauto.
  - cbn [fields_at app]. rewrite IH. unfold fields_len. rewrite sumZ_cons. cbn [fst].
    rewrite (Z.add_assoc p len). tauto.
Qed.

Lemma bits_val_ext buffer buffer' p n :
  (forall j, p <= j < p + Z.of_nat n -> bit_at buffer j = bit_at buffer' j) ->
  bits_val buffer p n = bits_val buffer' p n.
Proof.
  induction n as [|n IH]; intros Hj; [done|]. cbn [bits_val]. rewrite IH, (Hj (p + Z.of_nat n)); [done|lia|].
  intros j Hx. apply Hj. lia.
Qed.

Lemma put_fields_spec fs : forall c,
  cursor_ok c -> (forall j, cursor_pos c <= j -> bit_at (fst (fst c)) j = false) ->
  Forall (fun f => 0 < fst f /\ in_u8 (snd f)) fs ->
  cursor_pos c + fields_len fs <= 8 * Z.of_nat (length (fst (fst c))) ->
  exists c', put_fields fs c = Ok c' /\ cursor_ok c' /\ length (fst (fst c')) = length (fst (fst c)) /\
    cursor_pos c' = cursor_pos c + fields_len fs /\
    (forall j, cursor_pos c' <= j -> bit_at (fst (fst c')) j = false) /\
    (forall j, 0 <= j < cursor_pos c -> bit_at (fst (fst c')) j = bit_at (fst (fst c)) j) /\
    fields_at (fst (fst c')) (cursor_pos c) fs.
Proof.
  induction fs as [|[len v] fs IH]; intros c Hc Hz Hfs Hlen.
  { exists c. unfold fields_len. cbn. rewrite Z.add_0_r. by split_and!. }
  apply Forall_cons in Hfs as [[Hl Hv] Hfs]. cbn [fst snd] in Hl, Hv. unfold fields_len in *.
  rewrite sumZ_cons in *. cbn [fst] in *. cbn [put_fields fields_at].
  assert (0 <= cursor_pos c) as Hp0 by (destruct Hc as (_ & ? & ?); unfold cursor_pos; lia).
  assert (0 <= sumZ fst fs) as Hs0.
  { clear -Hfs. induction Hfs as [|f fs [Hf _] _ IH]; [done|]. rewrite sumZ_cons. lia. }
  destruct (put_spec v len c Hc Hv Hl ltac:(lia)) as (c1 & -> & Hc1 & Hl1 & Hp1 & Hb1). cbn [obind].
  destruct (IH c1 Hc1) as (c2 & -> & Hc2 & Hl2 & Hp2 & Hz2 & Hlow & Hat); [|done|rewrite Hl1; lia|].
  { intros j Hj. rewrite Hb1, Hz by lia. destruct (Z.ltb_spec j (cursor_pos c + len)); [lia|]. by rewrite andb_false_r. }
  exists c2. split; [done|]. split_and!; try done; try lia; try congruence.
  - intros j Hj. rewrite Hlow, Hb1 by lia. destruct (Z.leb_spec (cursor_pos c) j); [lia|]. by rewrite orb_false_r.
  - rewrite <- (Z2Nat.id len) at 2 by lia. apply bits_val_field. rewrite Z2Nat.id by lia. intros j Hj.
    rewrite Hlow, Hb1, Hz by lia.
    destruct (Z.leb_spec (cursor_pos c) j), (Z.ltb_spec j (cursor_pos c + len)); try lia. done.
Qed.

Definition sti_fields (sti : Z) : list (Z * Z) := [(1, u8 (sti .>> 8)); (8, u8 sti)].
Definition tag_fields (tag : slot_tag) : list (Z * Z) :=
  [(2, u8 (tg_busy tag))] ++ sti_fields (tg_sti tag) ++
  [(2, if 3 <? tg_count_2hop tag then 3 else u8 (tg_count_2hop tag))].

Lemma put_sti_fields sti c : put_sti sti c = put_fields (sti_fields sti) c.
Proof.
  unfold put_sti, sti_fields. cbn [put_fields]. rewrite Z.shiftr_0_r.
  change (8 * (BIT_LENGTH_STI / 8)) with 8. change (BIT_LENGTH_STI mod 8) with 1.
  destruct (put _ 1 c) as [c1|]; [|done]. cbn [obind put_fields]. by destruct (put _ 8 c1).
Qed.

Lemma put_tag_fields tag c : put_tag tag c = put_fields (tag_fields tag) c.
Proof.
  unfold put_tag, tag_fields. rewrite !put_fields_app. cbn [put_fields]. change count_mask with 3.
  unfold BIT_LENGTH_BUSY, BIT_LENGTH_COUNT.
  destruct (put (u8 (tg_busy tag)) 2 c) as [c1|]; [|done]. cbn [obind]. rewrite put_fields_app, put_sti_fields.
  destruct (put_fields _ c1) as [c2|]; [|done]. cbn [obind put_fields]. by destruct (put _ 2 c2).
Qed.

Lemma put_tags_fields g : forall n i l c, (i + n <= length l)%nat ->
  put_tags n i g l c =
  obind (put_fields (concat (tag_fields <$> take n (drop i l))) c) (fun c =>
  Ok (take i l ++ (clear_counts g <$> take n (drop i l)) ++ drop (i + n) l, c)).
Proof.
  induction n as [|n IH]; intros i l c Hi; cbn [put_tags].
  { rewrite take_0. cbn. by rewrite Nat.add_0_r, take_drop. }
  destruct (lookup_lt_is_Some_2 l i ltac:(lia)) as [tag E]. rewrite E.
  rewrite (drop_S l tag i E). cbn [take fmap list_fmap concat]. rewrite put_fields_app, put_tag_fields.
  destruct (put_fields (tag_fields tag) c) as [c1|]; [|done]. cbn [obind]. rewrite IH by (rewrite length_insert; lia).
  rewrite !drop_insert_lt by lia. destruct (put_fields _ c1); [|done]. cbn [obind]. do 2 f_equal.
  rewrite (take_S_r _ _ (clear_counts g tag)) by (rewrite list_lookup_insert_eq; [done|lia]).
  rewrite take_insert_ge by lia. rewrite <- app_assoc. cbn. replace (i + S n)%nat with (S (i + n)) by lia. done.
Qed.

(** ** Reading back *)

(** A value of two bits whose bits lie in different bytes. *)
Definition straddled (v : Z) : Z := (v / 2) * 128 + v mod 2.

Lemma field_read_inner buffer p k : p mod 8 + k <= 8 -> field_read buffer p k = bits_val buffer p (Z.to_nat k).
Proof. intros H. unfold field_read. destruct (Z.leb_spec k (8 - p mod 8)); [done|lia]. Qed.

Lemma field_read_2 buffer p :
  field_read buffer p 2 = if p mod 8 =? 7 then straddled (bits_val buffer p 2) else bits_val buffer p 2.
Proof.
  destruct (Z.eqb_spec (p mod 8) 7) as [E|E].
  - unfold field_read. rewrite E. change (2 <=? 8 - 7) with false. cbn [Z.sub Z.to_nat].
    change (Z.to_nat (8 - 7)) with 1%nat. change (Z.to_nat (2 - (8 - 7))) with 1%nat.
    change (8 - (8 - 7)) with 7. change (8 - 7) with 1. cbn [bits_val]. unfold straddled.
    change (Z.of_nat 0) with 0. change (Z.of_nat 1) with 1. rewrite !Z.add_0_r.
    by destruct (bit_at buffer p), (bit_at buffer (p + 1)).
  - rewrite field_read_inner by dlia. done.
Qed.

Lemma bits_val_split buffer p m n :
  bits_val buffer p (m + n) = bits_val buffer p m * 2 ^ Z.of_nat n + bits_val buffer (p + Z.of_nat m) n.
Proof.
  induction n as [|n IH]; [rewrite Nat.add_0_r; cbn; lia|]. rewrite Nat.add_succ_r. cbn [bits_val].
  rewrite IH, Nat2Z.inj_succ, Z.pow_succ_r by lia. replace (p + Z.of_nat (m + n)) with (p + Z.of_nat m + Z.of_nat n) by lia.
  lia.
Qed.

Lemma decode_value_spec buffer byte_pos bit_pos len :
  0 <= byte_pos -> 0 <= bit_pos <= 7 -> len = 2 \/ len = 4 \/ len = 9 ->
  let p := 8 * byte_pos + 7 - bit_pos in
  p + len <= 8 * Z.of_nat (length buffer) ->
  exists byte_pos' bit_pos',
    decode_value buffer byte_pos bit_pos len =
      Ok (if len =? 9 then bits_val buffer p 9 else field_read buffer p len, byte_pos', bit_pos') /\
    0 <= byte_pos' /\ 0 <= bit_pos' <= 7 /\ 8 * byte_pos' + 7 - bit_pos' = p + len.
Proof.
  intros Hi Hr Hlen p Hp. unfold decode_value.
  destruct (Z.eqb_spec len 0); [lia|].
  assert (0 < len mod 8 <= 8) as Hk by (destruct Hlen as [->|[->| ->]]; done).
  destruct (read_field_spec buffer byte_pos (bit_pos + 1) (len mod 8) 0 Hi ltac:(lia) Hk) as (i & r & -> & Hi' & Hr' & Hp');
    [dlia|]. cbn [obind]. rewrite Z.lor_0_l. replace (8 * byte_pos + 8 - (bit_pos + 1)) with p in * by lia.
  destruct Hlen as [->|[->| ->]].
  - change (2 mod 8) with 2 in *. cbn. exists i, (r - 1). split; [done|]. lia.
  - cbn. exists i, (r - 1). split; [done|]. change (4 mod 8) with 4 in *. lia.
  - change (Z.to_nat (9 / 8)) with 1%nat. change (9 mod 8) with 1 in *. cbn [read_bytes].
    destruct (read_field_spec buffer i r 8 (u64 (field_read buffer p 1 .<< 8)) Hi' Hr' ltac:(lia))
      as (i2 & r2 & -> & Hi2 & Hr2 & Hp2); [lia|]. cbn [obind]. exists i2, (r2 - 1). split; [|lia].
    rewrite Hp', field_read_byte, field_read_inner by dlia. do 3 f_equal. change (9 =? 9) with true. cbn iota.
    change (Z.to_nat 1) with 1%nat. pose proof (bits_val_range buffer p 1) as H1.
    pose proof (bits_val_range buffer (p + 1) 8) as H8. change (2 ^ Z.of_nat 1) with 2 in H1. change (2 ^ Z.of_nat 8) with 256 in H8.
    rewrite u64_id by (unfold in_u64; rewrite Z.shiftl_mul_pow2 by lia; lia).
    rewrite Z.lor_comm, lor_shiftl_add by lia. change 9%nat with (1 + 8)%nat; rewrite (bits_val_split buffer p 1 8).
    change (2 ^ Z.of_nat 8) with 256. change (Z.of_nat 1) with 1. lia.
Qed.

(** ** A received tag *)

(** What the receiver makes of the tag of slot [i]: the bits of the status of
    every slot 2, 10, 18, ... and of the count of every slot 3, 11, 19, ... lie
    in different bytes. *)
Definition received_tag (i : Z) (tag : slot_tag) : slot_tag :=
  let count := Z.min (tg_count_2hop tag) 3 in
  slot_tag_init
    <| tg_busy := if i mod 8 =? 2 then s8 (straddled (tg_busy tag)) else tg_busy tag |>
    <| tg_sti := tg_sti tag |>
    <| tg_count_2hop := if i mod 8 =? 3 then straddled count else count |>.

(** Tags that fit the packet. *)
Definition tag_fits (tag : slot_tag) : Prop :=
  0 <= tg_busy tag < 4 /\ 0 <= tg_sti tag < 512 /\ 0 <= tg_count_2hop tag.

Lemma s8_small x : 0 <= x < 128 -> s8 x = x.
Proof. intros H. unfold s8. rewrite u8_id by (unfold in_u8; lia). by destruct (Z.ltb_spec x 128); [|lia]. Qed.
Lemma s32_small x : 0 <= x < 2147483648 -> s32 x = x.
Proof. intros H. unfold s32. rewrite u32_id by (unfold in_u32; lia). by destruct (Z.ltb_spec x 2147483648); [|lia]. Qed.

Lemma straddled_range v : 0 <= v < 4 -> 0 <= straddled v < 130.
Proof. intros H. unfold straddled. dlia. Qed.

(** The two fields of an identifier, read as one. *)
Lemma sti_fields_read buffer p sti : 0 <= sti < 512 -> fields_at buffer p (sti_fields sti) ->
  bits_val buffer p 9 = sti.
Proof.
  intros Hs (H1 & H8 & _). change (Z.to_nat 1) with 1%nat in H1. change (Z.to_nat 8) with 8%nat in H8.
  change (2 ^ 1) with 2 in H1. change (2 ^ 8) with 256 in H8. rewrite Z.shiftr_div_pow2 in H1 by lia.
  change (2 ^ 8) with 256 in H1. unfold u8 in *. rewrite Z.mod_mod in H8 by lia.
  change 9%nat with (1 + 8)%nat; rewrite (bits_val_split buffer p 1 8). change (2 ^ Z.of_nat 8) with 256. change (Z.of_nat 1) with 1. rewrite H1, H8. dlia.
Qed.

Lemma decode_slot_tag_spec buffer byte_pos bit_pos i tag :
  0 <= byte_pos -> 0 <= bit_pos <= 7 -> 0 <= i -> tag_fits tag ->
  8 * byte_pos + 7 - bit_pos = 13 * (i + 1) -> 13 * (i + 2) <= 8 * Z.of_nat (length buffer) ->
  fields_at buffer (13 * (i + 1)) (tag_fields tag) ->
  exists byte_pos' bit_pos',
    decode_slot_tag buffer byte_pos bit_pos slot_tag_init = Ok (received_tag i tag, byte_pos', bit_pos') /\
    0 <= byte_pos' /\ 0 <= bit_pos' <= 7 /\ 8 * byte_pos' + 7 - bit_pos' = 13 * (i + 2).
Proof.
  intros Hb Hr Hi (Hbusy & Hsti & Hcount) Hp Hlen Hat. unfold tag_fields in Hat.
  apply fields_at_app in Hat as [[Hf1 _] Hat]. apply fields_at_app in Hat as [Hf2 [Hf3 _]].
  change (fields_len [(2, u8 (tg_busy tag))]) with 2 in *. change (fields_len (sti_fields (tg_sti tag))) with 9 in *.
  change (Z.to_nat 2) with 2%nat in *. change (2 ^ 2) with 4 in *.
  set (p := 13 * (i + 1)) in *. unfold decode_slot_tag, BIT_LENGTH_BUSY, BIT_LENGTH_STI, BIT_LENGTH_COUNT, BIT_LENGTH_PSF.
  destruct (decode_value_spec buffer byte_pos bit_pos 2 Hb Hr ltac:(lia) ltac:(lia)) as (b1 & r1 & -> & Hb1 & Hr1 & Hp1).
  cbn [obind]. rewrite Hp in *.
  destruct (decode_value_spec buffer b1 r1 9 Hb1 Hr1 ltac:(lia) ltac:(lia)) as (b2 & r2 & -> & Hb2 & Hr2 & Hp2).
  cbn [obind]. rewrite Hp1 in *.
  destruct (decode_value_spec buffer b2 r2 2 Hb2 Hr2 ltac:(lia) ltac:(lia)) as (b3 & r3 & -> & Hb3 & Hr3 & Hp3).
  cbn [obind]. rewrite Hp2 in *. change (2 =? 9) with false. change (9 =? 9) with true. cbn iota.
  exists b3, r3. split; [|subst p; lia]. change (decode_value buffer b3 r3 0) with (@Ok (Z * Z * Z) (0, b3, r3)). cbn [obind].
  rewrite !field_read_2, Hf1, Hf3, (sti_fields_read _ _ _ Hsti Hf2).
  rewrite (u8_id (tg_busy tag)) by (unfold in_u8; lia). rewrite (Z.mod_small (tg_busy tag)) by lia.
  replace ((if 3 <? tg_count_2hop tag then 3 else u8 (tg_count_2hop tag)) mod 4) with (Z.min (tg_count_2hop tag) 3).
  2:{ destruct (Z.ltb_spec 3 (tg_count_2hop tag)); [rewrite Z.min_r by lia; done|].
      rewrite u8_id by (unfold in_u8; lia). rewrite Z.mod_small, Z.min_l by lia. done. }
  assert ((p mod 8 =? 7) = (i mod 8 =? 2)) as ->
    by (subst p; destruct (Z.eqb_spec (13 * (i + 1) mod 8) 7), (Z.eqb_spec (i mod 8) 2); try done; dlia).
  assert (((p + 2 + 9) mod 8 =? 7) = (i mod 8 =? 3)) as ->
    by (subst p; destruct (Z.eqb_spec ((13 * (i + 1) + 2 + 9) mod 8) 7), (Z.eqb_spec (i mod 8) 3); try done; dlia).
  rewrite (s32_small (tg_sti tag)) by lia. unfold received_tag. rewrite (s8_small 0) by lia.
  assert (0 <= Z.min (tg_count_2hop tag) 3 < 4) as Hm by lia. pose proof (straddled_range _ Hm).
  destruct (i mod 8 =? 2), (i mod 8 =? 3); rewrite ?s32_small, ?(s8_small (tg_busy tag)) by lia; done.
Qed.

Lemma decode_tags_spec buffer tags : forall byte_pos bit_pos i,
  0 <= byte_pos -> 0 <= bit_pos <= 7 -> 0 <= i -> Forall tag_fits tags ->
  8 * byte_pos + 7 - bit_pos = 13 * (i + 1) ->
  13 * (i + 1 + Z.of_nat (length tags)) <= 8 * Z.of_nat (length buffer) ->
  fields_at buffer (13 * (i + 1)) (concat (tag_fields <$> tags)) ->
  decode_tags buffer byte_pos bit_pos (replicate (length tags) slot_tag_init) =
  Ok (imap (fun n tag => received_tag (i + Z.of_nat n) tag) tags).
Proof.
  induction tags as [|tag tags IH]; intros byte_pos bit_pos i Hb Hr Hi Hfit Hp Hlen Hat; [done|].
  apply Forall_cons in Hfit as [Hft Hfit]. cbn [fmap list_fmap concat length] in *.
  apply fields_at_app in Hat as [Hat1 Hat2]. change (fields_len (tag_fields tag)) with 13 in Hat2.
  cbn [replicate decode_tags].
  destruct (decode_slot_tag_spec buffer byte_pos bit_pos i tag Hb Hr Hi Hft Hp ltac:(clear -Hlen; lia) Hat1) as (b & r & -> & Hb' & Hr' & Hp').
  cbn [obind]. rewrite (IH b r (i + 1)); try done; try lia.
  - cbn [obind imap]. do 2 f_equal; [by rewrite Z.add_0_r|]. apply imap_ext. intros n t _. cbn. f_equal. lia.
  - by replace (13 * (i + 1 + 1)) with (13 * (i + 1) + 13) by lia.
Qed.

Lemma tag_fields_ok tags : Forall (fun f => 0 < fst f /\ in_u8 (snd f)) (concat (tag_fields <$> tags)).
Proof.
  induction tags as [|tag tags IH]; [constructor|]. cbn [fmap list_fmap concat]. apply Forall_app. split; [|done].
  unfold tag_fields, sti_fields. cbn [app]. repeat (constructor; cbn [fst snd]); try lia; try apply u8_range;
    destruct (3 <? tg_count_2hop tag); unfold in_u8; try lia; apply u8_range.
Qed.

Lemma tag_fields_len tags : fields_len (concat (tag_fields <$> tags)) = 13 * Z.of_nat (length tags).
Proof.
  induction tags as [|tag tags IH]; [done|]. cbn [fmap list_fmap concat length]. unfold fields_len in *.
  rewrite sumZ_app, IH. change (sumZ fst (tag_fields tag)) with 13. lia.
Qed.

(** ** The round trip *)

Lemma fi_size_bits n : 0 <= n -> 13 * n + 13 <= 8 * fi_size n.
Proof.
  intros Hn. unfold fi_size. change BIT_LENGTH_SLOT_TAG with 13. change BIT_LENGTH_STI with 9. change BIT_LENGTH_FRAMELEN with 4.
  cbv zeta. destruct (Z.eqb_spec ((13 * n + 9 + 4) mod 8) 0); cbn [negb]; dlia.
Qed.

Lemma fi_header_spec framelen sti tags :
  0 <= framelen <= Z.of_nat (length tags) -> in_u8 (Z.log2 framelen) ->
  exists buffer,
    FiHeader framelen sti tags =
      Ok ((clear_counts sti <$> take (Z.to_nat framelen) tags) ++ drop (Z.to_nat framelen) tags, buffer) /\
    8 * Z.of_nat (length buffer) = 8 * fi_size framelen /\
    fields_at buffer 0 (sti_fields sti ++ (4, Z.log2 framelen) :: concat (tag_fields <$> take (Z.to_nat framelen) tags)).
Proof.
  intros Hf Hlog. unfold FiHeader. set (n := Z.to_nat framelen).
  pose proof (fi_size_bits framelen ltac:(lia)) as Hsz. rewrite u8_id by done.
  set (c0 := (replicate (Z.to_nat (fi_size framelen)) 0, 0, 7) : cursor).
  destruct (put_fields_spec (sti_fields sti ++ (4, Z.log2 framelen) :: concat (tag_fields <$> take n tags)) c0)
    as (c & Hput & Hc & Hlen & _ & _ & _ & Hat).
  - split_and!; cbn; try lia. apply Forall_replicate. unfold in_u8. lia.
  - intros j _. unfold bit_at. cbn. destruct (replicate _ 0 !! _) as [b|] eqn:E; [|done].
    apply lookup_replicate in E as [-> _]. apply Z.testbit_0_l.
  - apply Forall_app. split; [repeat (constructor; cbn [fst snd]); try lia; apply u8_range|].
    constructor; [cbn; split; [lia|done]|apply tag_fields_ok].
  - unfold fields_len. rewrite sumZ_app, sumZ_cons. change (sumZ fst (sti_fields sti)) with 9. cbn [fst].
    fold (fields_len (concat (tag_fields <$> take n tags))). rewrite tag_fields_len, length_take.
    change (cursor_pos c0) with 0. subst c0. cbn [fst]. rewrite length_replicate. subst n. lia.
  - exists (fst (fst c)). rewrite put_fields_app in Hput. cbn [put_fields] in Hput. rewrite put_sti_fields.
    destruct (put_fields (sti_fields sti) c0) as [c1|]; [|done]. cbn [obind] in *.
    destruct (put (Z.log2 framelen) 4 c1) as [c2|] eqn:E2; [|done]. cbn [obind] in *.
    unfold BIT_LENGTH_FRAMELEN. rewrite E2. cbn [obind]. rewrite put_tags_fields by (subst n; lia). rewrite drop_0, Hput.
    cbn [obind]. destruct c as [[buffer ?] ?]. cbn [fst snd] in *. split_and!; [done| |done].
    rewrite Hlen. cbn. rewrite length_replicate. lia.
Qed.

Lemma fi_roundtrip_aux framelen sti tags adj mylen slot :
  0 <= sti < 512 -> 1 <= framelen <= Z.of_nat (length tags) -> Z.log2 framelen < 16 ->
  framelen = (if adj : bool then 2 ^ Z.log2 framelen else mylen) ->
  Forall tag_fits (take (Z.to_nat framelen) tags) ->
  exists buffer,
    FiHeader framelen sti tags =
      Ok ((clear_counts sti <$> take (Z.to_nat framelen) tags) ++ drop (Z.to_nat framelen) tags, buffer) /\
    decode_FI adj mylen slot buffer =
      Ok {| fi_sti := sti; fi_remain_time := mylen; fi_frame_len := framelen; fi_valid_time := mylen;
            fi_recv_slot := slot;
            slot_describe := imap (fun n tag => received_tag (Z.of_nat n) tag) (take (Z.to_nat framelen) tags) |}.
Proof.
  intros Hs Hf Hlog Hadj Hfit. pose proof (Z.log2_nonneg framelen).
  destruct (fi_header_spec framelen sti tags ltac:(lia) ltac:(unfold in_u8; lia)) as (buffer & -> & Hlen & Hat).
  exists buffer. split; [done|]. pose proof (fi_size_bits framelen ltac:(lia)) as Hsz.
  apply fields_at_app in Hat as [Hat1 [Hat2 Hat3]]. change (0 + fields_len (sti_fields sti)) with 9 in *.
  unfold decode_FI, BIT_LENGTH_STI, BIT_LENGTH_FRAMELEN.
  destruct (decode_value_spec buffer 0 7 9 ltac:(lia) ltac:(lia) ltac:(lia) ltac:(lia)) as (b1 & r1 & -> & Hb1 & Hr1 & Hp1).
  cbn [obind]. change (9 =? 9) with true. change (8 * 0 + 7 - 7) with 0 in *. cbn iota.
  rewrite (sti_fields_read buffer 0 sti Hs Hat1).
  destruct (decode_value_spec buffer b1 r1 4 Hb1 Hr1 ltac:(lia) ltac:(lia)) as (b2 & r2 & -> & Hb2 & Hr2 & Hp2).
  cbn [obind]. change (4 =? 9) with false. cbn iota. rewrite Hp1 in *. change (0 + 9) with 9 in *.
  rewrite field_read_inner by (change (9 mod 8) with 1; lia). rewrite Hat2, (Z.mod_small (Z.log2 framelen)) by lia.
  rewrite <- Hadj. unfold Frame_info_new. cbn [slot_describe upd eta eta_Frame_info].
  rewrite s32_small by lia.
  pose proof (decode_tags_spec buffer (take (Z.to_nat framelen) tags) b2 r2 0 Hb2 Hr2 ltac:(lia) Hfit) as Hd.
  rewrite length_take, Nat.min_l in Hd by lia. rewrite Z2Nat.id in Hd by lia.
  rewrite Hd; [|lia|lia|done]. cbn [obind]. done.
Qed.

(** * Theorems *)

Section RoundTrip.
Context (framelen sti : Z) (tags : list slot_tag) (adj : bool) (mylen slot : Z).
(** The sender's table and identifier fit the packet, and the receiver works
    with the sender's frame length (a power of two when frame lengths are
    adapted). *)
Context (Hsti : 0 <= sti < 512) (Hlen : 1 <= framelen <= Z.of_nat (length tags)).
Context (Hlog : Z.log2 framelen < 16).
Context (Hadj : framelen = if adj then 2 ^ Z.log2 framelen else mylen).
Context (Hfit : Forall tag_fits (take (Z.to_nat framelen) tags)).

(** C11. A frame information packet arrives: the receiver gets the sender, the
    frame length and every slot's owner; the status of every slot except those
    with a number of 2 modulo 8; and the count (at most 3) of every slot except
    those with a number of 3 modulo 8. *)
Theorem fi_roundtrip :
  exists tags' buffer fi,
    FiHeader framelen sti tags = Ok (tags', buffer) /\ decode_FI adj mylen slot buffer = Ok fi /\
    fi_sti fi = sti /\ fi_frame_len fi = framelen /\ Z.of_nat (length (slot_describe fi)) = framelen /\
    forall i tag, tags !! i = Some tag -> Z.of_nat i < framelen ->
      exists r, slot_describe fi !! i = Some r /\ tg_sti r = tg_sti tag /\
        (Z.of_nat i mod 8 <> 2 -> tg_busy r = tg_busy tag) /\
        (Z.of_nat i mod 8 <> 3 -> tg_count_2hop r = Z.min (tg_count_2hop tag) 3).
Proof using All.
  destruct (fi_roundtrip_aux framelen sti tags adj mylen slot Hsti Hlen Hlog Hadj Hfit) as (buffer & Henc & Hdec).
  do 3 eexists. split; [exact Henc|]. split; [exact Hdec|]. cbn [fi_sti fi_frame_len slot_describe].
  split_and!; try done.
  { rewrite length_imap, length_take. lia. }
  intros i tag Hi Hlt. exists (received_tag (Z.of_nat i) tag).
  rewrite list_lookup_imap, lookup_take_lt, Hi by lia. split; [done|]. split; [done|]. split; intros Hne.
  - unfold received_tag. by destruct (Z.eqb_spec (Z.of_nat i mod 8) 2).
  - unfold received_tag. by destruct (Z.eqb_spec (Z.of_nat i mod 8) 3).
Qed.

(** In the slots 2, 10, 18, ... an occupied slot is not recognised: the status
    [SLOT_1HOP] arrives as -128, which is none of the four values. *)
Theorem straddled_status_lost i tag :
  tags !! i = Some tag -> Z.of_nat i < framelen -> Z.of_nat i mod 8 = 2 -> tg_busy tag = SLOT_1HOP ->
  exists tags' buffer fi r,
    FiHeader framelen sti tags = Ok (tags', buffer) /\ decode_FI adj mylen slot buffer = Ok fi /\
    slot_describe fi !! i = Some r /\ tg_sti r = tg_sti tag /\ tg_busy r = -128.
Proof using All.
  intros Hi Hlt Hm Hb.
  destruct (fi_roundtrip_aux framelen sti tags adj mylen slot Hsti Hlen Hlog Hadj Hfit) as (buffer & Henc & Hdec).
  do 4 eexists. split; [exact Henc|]. split; [exact Hdec|]. cbn [slot_describe].
  rewrite list_lookup_imap, lookup_take_lt, Hi by lia. split; [done|]. split; [done|].
  unfold received_tag. rewrite Hm. cbn -[s8 straddled]. by rewrite Hb.
Qed.
End RoundTrip.

(** A table of 16 slots in which a node with identifier 7 owns slots 2 and 5. *)
Definition demo_tags : list slot_tag :=
  let own := slot_tag_init <| tg_busy := SLOT_1HOP |> <| tg_sti := 7 |> <| tg_count_2hop := 1 |> in
  <[2%nat := own]> (<[5%nat := own]> (replicate 16 slot_tag_init)).

Lemma demo_tags_fit : Forall tag_fits (take (Z.to_nat 16) demo_tags).
Proof. repeat (constructor; [vm_compute; repeat split; discriminate|]). constructor. Qed.

Lemma fi_roundtrip_witness : exists tags' buffer fi,
  FiHeader 16 7 demo_tags = Ok (tags', buffer) /\ decode_FI true 32 3 buffer = Ok fi /\
  fi_sti fi = 7 /\ fi_frame_len fi = 16.
Proof.
  destruct (fi_roundtrip 16 7 demo_tags true 32 3) as (t & b & fi & H1 & H2 & H3 & H4 & _);
    [lia|vm_compute; split; discriminate|reflexivity|reflexivity|exact demo_tags_fit|].
  exact (ex_intro _ t (ex_intro _ b (ex_intro _ fi (conj H1 (conj H2 (conj H3 H4)))))).
Defined.

Lemma straddled_status_lost_witness : exists tags' buffer fi r,
  FiHeader 16 7 demo_tags = Ok (tags', buffer) /\ decode_FI true 32 3 buffer = Ok fi /\
  slot_describe fi !! 2%nat = Some r /\ tg_sti r = 7 /\ tg_busy r = -128.
Proof.
  destruct (straddled_status_lost 16 7 demo_tags true 32 3) with (i := 2%nat)
    (tag := slot_tag_init <| tg_busy := SLOT_1HOP |> <| tg_sti := 7 |> <| tg_count_2hop := 1 |>)
    as (t & b & fi & r & H1 & H2 & H3 & H4 & H5);
    [lia|vm_compute; split; discriminate|reflexivity|reflexivity|exact demo_tags_fit|reflexivity|done|done|done|].
  exact (ex_intro _ t (ex_intro _ b (ex_intro _ fi (ex_intro _ r (conj H1 (conj H2 (conj H3 (conj H4 H5)))))))).
Defined.
