(* ===== verification/SatmacFi.v ===== *)
(** The slot table of a SATMAC node (src/ns3/satmac/model/tdma-satmac.cc):
    merging the frame information received from the neighbours, the ageing of
    the entries, and the queries on the table.

    The table [collected_fi_] has 512 entries, of which the first
    [m_frame_len] are in use. A received frame information may use a longer
    frame; merging it then extends the frame of the node. *)

From S2P Require Import Prelude FiCodec.

(** * Attributes

    The attributes of the node, set once before [Start]. The integers used as
    switches are booleans. [adj_single_slot_ena_] has no attribute and is
    never assigned: the class leaves it uninitialised. *)
Record satmac_attr := {
  global_sti : Z;
  slot_lifetime_frame_ : Z;
  c3hop_threshold_ : Z;
  random_bch_if_single_switch_ : bool;
  choose_bch_random_switch_ : Z;
  adj_ena_ : bool;
  adj_frame_ena_ : bool;
  adj_frame_lower_bound_ : Z;
  adj_frame_upper_bound_ : Z;
  slot_memory_ : bool;
  adj_single_slot_ena_ : bool;
}.

(** [switch (busy)]. *)
Definition on_busy {A} (busy : Z) (hop1 hop2 free collision other : A) : A :=
  if busy =? SLOT_1HOP then hop1 else if busy =? SLOT_2HOP then hop2
  else if busy =? SLOT_FREE then free else if busy =? SLOT_COLLISION then collision else other.

Section Table.
Context (at_ : satmac_attr).

(** * Merging *)

(** A node that sees a collision names one of the owners: that one counts as a
    neighbour two hops away. *)
Definition take_collision (loc recv : slot_tag) : slot_tag :=
  loc <| tg_life_time := slot_lifetime_frame_ at_ |> <| tg_sti := tg_sti recv |>
      <| tg_count_2hop := 1 |> <| tg_count_3hop := 1 |> <| tg_busy := SLOT_2HOP |>.

(** The owner of a slot says that the slot is empty. *)
Definition vacate (loc : slot_tag) : slot_tag :=
  loc <| tg_life_time := 0 |> <| tg_sti := 0 |> <| tg_count_2hop := 0 |> <| tg_count_3hop := 0 |>
      <| tg_busy := SLOT_FREE |> <| tg_locker := true |>.

Definition add_counts (loc recv : slot_tag) : slot_tag :=
  loc <| tg_count_2hop ::= Z.succ |> <| tg_count_3hop ::= fun c => c + tg_count_2hop recv |>.

(** The body of the first loop of [merge_fi]: the slots of this node.
    [new_neighbor]: the sender of the frame information is not in the table. *)
Definition merge_own (new_neighbor : bool) (append_sti : Z) (loc recv : slot_tag) : slot_tag :=
  if negb (tg_sti loc =? global_sti at_) then loc
  else if negb (tg_sti loc =? tg_sti recv) && negb (tg_sti recv =? 0) then
    on_busy (tg_busy recv)
      (if tg_psf loc <? tg_psf recv then
         let loc := loc <| tg_life_time := slot_lifetime_frame_ at_ |> <| tg_sti := tg_sti recv |> in
         (add_counts loc recv) <| tg_busy := if tg_sti recv =? append_sti then SLOT_1HOP else SLOT_2HOP |>
       else if tg_psf recv =? tg_psf loc then loc <| tg_busy := SLOT_COLLISION |>
       else loc)
      (loc <| tg_count_3hop ::= fun c => c + tg_count_2hop recv |>)
      (loc <| tg_busy := SLOT_COLLISION |>)
      (take_collision loc recv)
      loc
  else if tg_sti loc =? tg_sti recv then
    on_busy (tg_busy recv) loc loc (loc <| tg_busy := SLOT_COLLISION |>) loc loc
  else if tg_busy recv =? SLOT_FREE then
    if negb new_neighbor then loc <| tg_busy := SLOT_COLLISION |> else loc
  else loc.

Definition isNewNeighbor (m_frame_len sid : Z) (fi_local : list slot_tag) : bool :=
  forallb (fun tag => negb (tg_sti tag =? sid)) (take (Z.to_nat m_frame_len) fi_local).

(** The first loop, [k] rounds from slot [count] on. The source reads
    [fi_append[count]] once more before it stops at the end of a shorter
    received frame; the value is not used. *)
Fixpoint merge_own_loop (k count : nat) (m_frame_len append_sti : Z) (fi_append fi_local : list slot_tag)
  : outcome (list slot_tag) :=
  match k with
  | O => Ok fi_local
  | S k =>
      match fi_local !! count, fi_append !! count with
      | Some loc, Some recv =>
          let new := isNewNeighbor m_frame_len append_sti fi_local in
          merge_own_loop k (S count) m_frame_len append_sti fi_append
            (<[count := merge_own new append_sti loc recv]> fi_local)
      | _, _ => Oops
      end
  end.

(** A slot of a direct neighbour. *)
Definition merge_1hop (append_sti : Z) (loc recv : slot_tag) : slot_tag :=
  if negb (tg_sti loc =? tg_sti recv) && negb (tg_sti recv =? 0) then
    on_busy (tg_busy recv)
      (if tg_sti recv =? append_sti then
         if tg_psf loc <? tg_psf recv then
           let loc := loc <| tg_life_time := slot_lifetime_frame_ at_ |> <| tg_sti := tg_sti recv |> in
           (add_counts loc recv) <| tg_busy := SLOT_1HOP |>
         else if tg_psf recv =? tg_psf loc then
           loc <| tg_life_time := slot_lifetime_frame_ at_ |> <| tg_busy := SLOT_COLLISION |>
         else loc
       else add_counts loc recv)
      (loc <| tg_count_3hop ::= fun c => c + tg_count_2hop recv |>)
      loc
      (take_collision loc recv)
      loc
  else if tg_sti loc =? tg_sti recv then
    if tg_busy recv =? SLOT_1HOP then
      if tg_sti recv =? append_sti then
        let loc := loc <| tg_life_time := slot_lifetime_frame_ at_ |> in
        if negb (tg_c3hop_flag loc) then (add_counts loc recv) <| tg_c3hop_flag := true |> else loc
      else loc <| tg_existed := true |>
    else loc
  else if append_sti =? tg_sti loc then vacate loc else loc.

(** A slot of a neighbour two hops away. *)
Definition merge_2hop (append_sti : Z) (loc recv : slot_tag) : slot_tag :=
  if negb (tg_sti loc =? tg_sti recv) && negb (tg_sti recv =? 0) then
    on_busy (tg_busy recv) (add_counts loc recv) loc loc (take_collision loc recv) loc
  else if tg_sti loc =? tg_sti recv then
    if tg_busy recv =? SLOT_1HOP then
      let loc := if tg_sti recv =? append_sti then loc <| tg_busy := SLOT_1HOP |> else loc in
      let loc := loc <| tg_life_time := slot_lifetime_frame_ at_ |> in
      if negb (tg_c3hop_flag loc) then add_counts (loc <| tg_c3hop_flag := true |>) recv else loc
    else loc
  else if append_sti =? tg_sti loc then vacate loc else loc.

(** A free slot. *)
Definition merge_free (append_sti : Z) (loc recv : slot_tag) : slot_tag :=
  if negb (tg_sti loc =? tg_sti recv) then
    on_busy (tg_busy recv)
      (loc <| tg_life_time := slot_lifetime_frame_ at_ |> <| tg_sti := tg_sti recv |>
           <| tg_count_2hop := 1 |> <| tg_count_3hop := tg_count_2hop recv |> <| tg_c3hop_flag := true |>
           <| tg_busy := if tg_sti recv =? append_sti then SLOT_1HOP else SLOT_2HOP |>)
      (loc <| tg_count_3hop ::= fun c => c + tg_count_2hop recv |>)
      loc
      (take_collision loc recv)
      loc
  else loc.

(** The slots that the second loop passes over. *)
Definition merge_skips (loc recv : slot_tag) : bool :=
  tg_locker loc || (tg_sti loc =? global_sti at_) || (tg_sti recv =? global_sti at_).

Definition merge_tag (append_sti : Z) (loc recv : slot_tag) : slot_tag :=
  if merge_skips loc recv then loc
  else if tg_busy loc =? SLOT_1HOP then merge_1hop append_sti loc recv
  else if tg_busy loc =? SLOT_2HOP then merge_2hop append_sti loc recv
  else if (tg_busy loc =? SLOT_FREE) && (tg_sti loc =? 0) then merge_free append_sti loc recv
  else loc.

(** The second loop: it runs over the received frame and adopts its length as
    soon as a slot behind the node's own frame is in use. *)
Fixpoint merge_tag_loop (k count : nat) (m_frame_len recv_fi_frame_len append_sti : Z)
    (fi_append fi_local : list slot_tag) : outcome (Z * list slot_tag) :=
  match k with
  | O => Ok (m_frame_len, fi_local)
  | S k =>
      match fi_local !! count, fi_append !! count with
      | Some loc, Some recv =>
          let loc' := merge_tag append_sti loc recv in
          let m_frame_len' :=
            if negb (merge_skips loc recv) && (m_frame_len <=? Z.of_nat count) && negb (tg_sti loc' =? 0)
            then recv_fi_frame_len else m_frame_len in
          merge_tag_loop k (S count) m_frame_len' recv_fi_frame_len append_sti fi_append
            (<[count := loc']> fi_local)
      | _, _ => Oops
      end
  end.

Definition merge_fi (m_frame_len : Z) (base : list slot_tag) (append : Frame_info)
  : outcome (Z * list slot_tag) :=
  let len := fi_frame_len append in
  obind (merge_own_loop (Z.to_nat (Z.min m_frame_len len)) 0 m_frame_len (fi_sti append)
           (slot_describe append) base) (fun base =>
  merge_tag_loop (Z.to_nat len) 0 m_frame_len len (fi_sti append) (slot_describe append) base).

Fixpoint merge_fi_list (m_frame_len : Z) (base : list slot_tag) (l : list Frame_info)
  : outcome (Z * list slot_tag) :=
  match l with
  | [] => Ok (m_frame_len, base)
  | fi :: l => obind (merge_fi m_frame_len base fi) (fun '(m, base) => merge_fi_list m base l)
  end.

(** * Ageing *)

Definition wipe (locker : bool) (tag : slot_tag) : slot_tag :=
  tag <| tg_busy := SLOT_FREE |> <| tg_sti := 0 |> <| tg_count_2hop := 0 |> <| tg_count_3hop := 0 |>
      <| tg_psf := 0 |> <| tg_c3hop_flag := false |> <| tg_life_time := 0 |> <| tg_locker := locker |>.

Definition age_tag (slot_num slot_adj_candidate count : Z) (tag : slot_tag) : slot_tag :=
  let tag := if tg_locker tag && negb (tg_sti tag =? 0) then tag <| tg_locker := false |> else tag in
  if ((tg_sti tag =? global_sti at_) && ((count =? slot_num) || (count =? slot_adj_candidate)))
     || (tg_sti tag =? 0) then tag
  else
    let tag := if 0 <? tg_life_time tag then tag <| tg_life_time ::= Z.pred |> else tag in
    let tag :=
      if tg_life_time tag =? 0 then
        if tg_busy tag =? SLOT_2HOP then wipe false tag
        else if (tg_busy tag =? SLOT_1HOP) && tg_existed tag then
          tag <| tg_busy := SLOT_2HOP |> <| tg_life_time := slot_lifetime_frame_ at_ - 1 |>
              <| tg_locker := false |>
        else wipe true tag
      else if negb (tg_busy tag =? SLOT_COLLISION) && (tg_life_time tag =? 0) then tag <| tg_busy := SLOT_FREE |>
      else tag in
    tag <| tg_existed := false |>.

(** [f count tag] for the slots below [n]. *)
Definition map_slots (n : Z) (f : Z -> slot_tag -> slot_tag) (l : list slot_tag) : list slot_tag :=
  imap (fun i tag => if Z.of_nat i <? n then f (Z.of_nat i) tag else tag) l.

Definition unlock_tag (tag : slot_tag) : slot_tag :=
  if tg_locker tag && (tg_sti tag =? 0) then tag <| tg_locker := false |> else tag.

(** [listening]: [node_state_ == NODE_LISTEN]. *)
Definition synthesize_fi_list (listening : bool) (slot_num slot_adj_candidate m_frame_len : Z)
    (received : list Frame_info) (fi_local : list slot_tag) : outcome (Z * list slot_tag) :=
  if Z.of_nat (length fi_local) <? m_frame_len then Oops
  else
    let ages := negb listening && slot_memory_ at_ in
    let unlock_flag :=
      ages && existsb (fun tag => tg_locker tag && (tg_sti tag =? 0)) (take (Z.to_nat m_frame_len) fi_local) in
    let fi_local :=
      if ages then map_slots m_frame_len (age_tag slot_num slot_adj_candidate) fi_local else fi_local in
    obind (merge_fi_list m_frame_len fi_local received) (fun '(m_frame_len, fi_local) =>
    Ok (m_frame_len, if unlock_flag then map_slots m_frame_len (fun _ => unlock_tag) fi_local else fi_local)).

(** * Queries and resets *)

Definition isSingle (m_frame_len : Z) (fi_local : list slot_tag) : bool :=
  forallb (fun tag => (tg_sti tag =? 0) || (tg_sti tag =? global_sti at_)) (take (Z.to_nat m_frame_len) fi_local).

Definition clear_others_slot_status (m_frame_len : Z) (fi_local : list slot_tag) : list slot_tag :=
  map_slots m_frame_len (fun _ tag =>
    if negb (tg_sti tag =? global_sti at_) then
      tag <| tg_busy := SLOT_FREE |> <| tg_sti := 0 |> <| tg_count_2hop := 0 |> <| tg_count_3hop := 0 |>
          <| tg_psf := 0 |> <| tg_locker := false |>
    else tag) fi_local.

(** The table after [clear_FI]. *)
Definition clear_FI : list slot_tag := replicate 512 slot_tag_init.

(** [fade_received_fi_list]: the entries that remain. *)
Definition fade_received_fi_list (time : Z) (l : list Frame_info) : list Frame_info :=
  filter (fun fi => Z.ltb 0 (fi_remain_time fi) && negb (time =? 0) = true)
    ((fun fi => fi <| fi_remain_time ::= fun r => r - time |>) <$> l).
End Table.

(** * The effect of merging on one slot *)

Section MergeFacts.
Context (at_ : satmac_attr).

Definition fi_wf (fi : Frame_info) : Prop :=
  Z.of_nat (length (slot_describe fi)) = fi_frame_len fi /\ fi_frame_len fi <= 512.

Lemma merge_own_loop_spec m sti a : forall k count l,
  (count + k <= length l)%nat -> (count + k <= length a)%nat ->
  exists l', merge_own_loop at_ k count m sti a l = Ok l' /\ length l' = length l /\
    forall i tag, l !! i = Some tag ->
      if decide (count <= i < count + k)%nat
      then exists recv b, a !! i = Some recv /\ l' !! i = Some (merge_own at_ b sti tag recv)
      else l' !! i = Some tag.
Proof.
  induction k as [|k IH]; intros count l Hl Ha; cbn [merge_own_loop].
  { exists l. split; [done|]. split; [done|]. intros i tag Hi. destruct (decide _); [lia|done]. }
  destruct (lookup_lt_is_Some_2 l count ltac:(lia)) as [loc El]. destruct (lookup_lt_is_Some_2 a count ltac:(lia)) as [recv Ea].
  rewrite El, Ea. set (b := isNewNeighbor m sti l).
  destruct (IH (S count) (<[count:=merge_own at_ b sti loc recv]> l)) as (l' & -> & Hlen & Hat);
    [rewrite length_insert; lia|lia|]. rewrite length_insert in Hlen. exists l'. split; [done|]. split; [done|].
  intros i tag Hi. destruct (decide (i = count)) as [->|Hne].
  - rewrite El in Hi. injection Hi as <-. specialize (Hat count (merge_own at_ b sti loc recv)).
    rewrite list_lookup_insert_eq in Hat by (apply lookup_lt_Some in El; lia). specialize (Hat eq_refl).
    destruct (decide (S count <= count < S count + k)%nat); [lia|]. destruct (decide _); [|lia]. by eauto.
  - specialize (Hat i tag). rewrite list_lookup_insert_ne in Hat by done. specialize (Hat Hi).
    destruct (decide (S count <= i < S count + k)%nat), (decide (count <= i < count + S k)%nat); try lia; done.
Qed.

Lemma merge_tag_loop_spec len sti a : forall k count m l,
  (count + k <= length l)%nat -> (count + k <= length a)%nat -> Z.of_nat (count + k) <= len ->
  exists m' l', merge_tag_loop at_ k count m len sti a l = Ok (m', l') /\ length l' = length l /\
    (m' = m \/ m' = len) /\ m <= m' /\
    forall i tag, l !! i = Some tag ->
      if decide (count <= i < count + k)%nat
      then exists recv, a !! i = Some recv /\ l' !! i = Some (merge_tag at_ sti tag recv)
      else l' !! i = Some tag.
Proof.
  induction k as [|k IH]; intros count m l Hl Ha Hc; cbn [merge_tag_loop].
  { exists m, l. split_and!; try done; [by left|]. intros i tag Hi. destruct (decide _); [lia|done]. }
  destruct (lookup_lt_is_Some_2 l count ltac:(lia)) as [loc El]. destruct (lookup_lt_is_Some_2 a count ltac:(lia)) as [recv Ea].
  rewrite El, Ea. cbv zeta. set (loc' := merge_tag at_ sti loc recv).
  set (m1 := if _ : bool then len else m).
  assert ((m1 = m \/ m1 = len) /\ m <= m1) as [Hm1 Hle].
  { subst m1. destruct (_ && _) eqn:E; [|split; [by left|lia]]. rewrite !andb_true_iff in E. split; [by right|lia]. }
  destruct (IH (S count) m1 (<[count:=loc']> l)) as (m' & l' & -> & Hlen & Hm' & Hle' & Hat);
    [rewrite length_insert; lia|lia|lia|]. rewrite length_insert in Hlen. exists m', l'.
  split; [done|]. split; [done|]. split; [naive_solver|]. split; [lia|].
  intros i tag Hi. destruct (decide (i = count)) as [->|Hne].
  - rewrite El in Hi. injection Hi as <-. specialize (Hat count loc').
    rewrite list_lookup_insert_eq in Hat by (apply lookup_lt_Some in El; lia). specialize (Hat eq_refl).
    destruct (decide (S count <= count < S count + k)%nat); [lia|]. destruct (decide _); [|lia]. by eauto.
  - specialize (Hat i tag). rewrite list_lookup_insert_ne in Hat by done. specialize (Hat Hi).
    destruct (decide (S count <= i < S count + k)%nat), (decide (count <= i < count + S k)%nat); try lia; done.
Qed.

(** The result of merging [fi] into [tag] at slot [i]. *)
Definition merged (fi : Frame_info) (i : nat) (tag tag' : slot_tag) : Prop :=
  match slot_describe fi !! i with
  | None => tag' = tag
  | Some recv =>
      tag' = merge_tag at_ (fi_sti fi) tag recv \/
      exists b, tag' = merge_tag at_ (fi_sti fi) (merge_own at_ b (fi_sti fi) tag recv) recv
  end.

Lemma merge_fi_spec m base fi :
  fi_wf fi -> length base = 512%nat -> 0 <= m <= 512 ->
  exists m' base', merge_fi at_ m base fi = Ok (m', base') /\ length base' = 512%nat /\
    (m' = m \/ m' = fi_frame_len fi) /\ m <= m' <= 512 /\
    forall i tag, base !! i = Some tag -> exists tag', base' !! i = Some tag' /\ merged fi i tag tag' /\
      (Z.of_nat i < m -> forall recv, slot_describe fi !! i = Some recv ->
       exists b, tag' = merge_tag at_ (fi_sti fi) (merge_own at_ b (fi_sti fi) tag recv) recv).
Proof.
  intros [Hlen H512] Hb Hm. unfold merge_fi.
  destruct (merge_own_loop_spec m (fi_sti fi) (slot_describe fi) (Z.to_nat (Z.min m (fi_frame_len fi))) 0 base)
    as (l1 & -> & Hl1 & Hat1); [lia|lia|]. cbn [obind].
  destruct (merge_tag_loop_spec (fi_frame_len fi) (fi_sti fi) (slot_describe fi) (Z.to_nat (fi_frame_len fi)) 0 m l1)
    as (m' & l2 & -> & Hl2 & Hm' & Hle & Hat2); [lia|lia|lia|].
  exists m', l2. split; [done|]. split; [congruence|]. split; [done|]. split; [destruct Hm' as [->| ->]; lia|].
  intros i tag Hi. specialize (Hat1 i tag Hi). unfold merged.
  destruct (slot_describe fi !! i) as [recv|] eqn:Er.
  - assert (i < length (slot_describe fi))%nat as Hil by by eapply lookup_lt_Some.
    destruct (decide (0 <= i < 0 + Z.to_nat (Z.min m (fi_frame_len fi)))%nat) as [Hin|Hout].
    + destruct Hat1 as (recv' & b & Er' & H1). assert (recv' = recv) as -> by congruence; clear Er'.
      specialize (Hat2 i _ H1). destruct (decide (0 <= i < 0 + Z.to_nat (fi_frame_len fi))%nat); [|lia].
      destruct Hat2 as (recv' & Er' & H2). assert (recv' = recv) as -> by congruence; clear Er'.
      eexists. split; [exact H2|]. split; [right; by eexists|]. intros _ r [= <-]. by eexists.
    + specialize (Hat2 i _ Hat1). destruct (decide (0 <= i < 0 + Z.to_nat (fi_frame_len fi))%nat); [|lia].
      destruct Hat2 as (recv' & Er' & H2). assert (recv' = recv) as -> by congruence; clear Er'.
      eexists. split; [exact H2|]. split; [by left|]. intros Hlt. lia.
  - apply lookup_ge_None in Er.
    destruct (decide (0 <= i < 0 + Z.to_nat (Z.min m (fi_frame_len fi)))%nat) as [Hin|Hout]; [lia|].
    specialize (Hat2 i _ Hat1). destruct (decide (0 <= i < 0 + Z.to_nat (fi_frame_len fi))%nat); [lia|].
    exists tag. split; [done|]. split; [done|]. intros _ r Hr. done.
Qed.

(** Merging a list: the table stays, the frame only grows, and what every
    merge preserves for a slot holds in the end. *)
Lemma merge_fi_list_spec l : forall m base,
  Forall fi_wf l -> length base = 512%nat -> 0 <= m <= 512 ->
  exists m' base', merge_fi_list at_ m base l = Ok (m', base') /\ length base' = 512%nat /\ m <= m' <= 512 /\
    (m' = m \/ exists fi, fi ∈ l /\ m' = fi_frame_len fi) /\
    forall i (Q : slot_tag -> Prop) tag, base !! i = Some tag -> Q tag ->
      (forall fi t t', fi ∈ l -> merged fi i t t' -> Q t -> Q t') ->
      exists tag', base' !! i = Some tag' /\ Q tag'.
Proof.
  induction l as [|fi l IH]; intros m base Hwf Hb Hm; cbn [merge_fi_list].
  { exists m, base. split_and!; try done; try lia. intros i Q tag Hi HQ _. by exists tag. }
  apply Forall_cons in Hwf as [Hfi Hwf].
  destruct (merge_fi_spec m base fi Hfi Hb Hm) as (m1 & b1 & -> & Hb1 & Hm1 & Hle1 & Hat1). cbn [obind].
  destruct (IH m1 b1 Hwf Hb1 ltac:(lia)) as (m2 & b2 & -> & Hb2 & Hle2 & Hm2 & Hat2).
  exists m2, b2. split; [done|]. split; [done|]. split; [lia|]. split.
  { destruct Hm2 as [->|(f & Hf & ->)]; [|right; exists f; split; [by right|done]].
    destruct Hm1 as [->| ->]; [by left|]. right. exists fi. split; [left|done]. }
  intros i Q tag Hi HQ Hstep. destruct (Hat1 i tag Hi) as (t1 & H1 & Hmg & _).
  apply (Hat2 i Q t1 H1); [eapply Hstep; [left|exact Hmg|done]|].
  intros f t t' Hf. apply Hstep. by right.
Qed.

(** [tag_cases] runs through the branches of a merge. *)
Ltac tag_cases :=
  unfold merge_tag, merge_skips, merge_1hop, merge_2hop, merge_free, merge_own, on_busy, take_collision,
    add_counts, vacate in *;
  repeat (case_match; ztest; cbn in *; try done; try lia).

Context (Hid : global_sti at_ <> 0).

Lemma merge_tag_not_own s tag recv : tg_sti tag <> global_sti at_ ->
  tg_sti (merge_tag at_ s tag recv) <> global_sti at_.
Proof using Hid. intros Hs. tag_cases. Qed.

Lemma merge_tag_skip s tag recv : tg_sti tag = global_sti at_ -> merge_tag at_ s tag recv = tag.
Proof using. intros Hs. unfold merge_tag, merge_skips. rewrite (proj2 (Z.eqb_eq _ _) Hs). by rewrite orb_true_r. Qed.

Lemma merge_own_skip b s tag recv : tg_sti tag <> global_sti at_ -> merge_own at_ b s tag recv = tag.
Proof using. intros Hs. unfold merge_own. by destruct (Z.eqb_spec (tg_sti tag) (global_sti at_)). Qed.

(** Merging never makes the node the owner of a slot. *)
Lemma merged_not_own fi i t t' : merged fi i t t' -> tg_sti t <> global_sti at_ -> tg_sti t' <> global_sti at_.
Proof using Hid.
  unfold merged. destruct (slot_describe fi !! i) as [recv|]; [|by intros ->].
  intros [->|[b ->]] Hs; rewrite ?merge_own_skip by done; by apply merge_tag_not_own.
Qed.

(** Tags of the table and tags of a packet. *)
Definition tag_ok (tag : slot_tag) : Prop :=
  0 <= tg_busy tag < 4 /\ 0 <= tg_sti tag < 512 /\ 0 <= tg_count_2hop tag /\ 0 <= tg_count_3hop tag /\
  tg_psf tag = 0 /\ (tg_sti tag = 0 -> tg_busy tag = SLOT_FREE).
Definition recv_ok (tag : slot_tag) : Prop :=
  0 <= tg_sti tag < 512 /\ 0 <= tg_count_2hop tag /\ tg_psf tag = 0.

Lemma merge_tag_ok s tag recv : tag_ok tag -> recv_ok recv -> tag_ok (merge_tag at_ s tag recv).
Proof using Hid.
  unfold tag_ok, recv_ok, SLOT_FREE. intros Ht Hr.
  tag_cases; unfold SLOT_1HOP, SLOT_2HOP, SLOT_FREE, SLOT_COLLISION in *; split_and!; lia.
Qed.
Lemma merge_own_ok b s tag recv : tag_ok tag -> recv_ok recv -> tag_ok (merge_own at_ b s tag recv).
Proof using Hid.
  unfold tag_ok, recv_ok, SLOT_FREE. intros Ht Hr.
  tag_cases; unfold SLOT_1HOP, SLOT_2HOP, SLOT_FREE, SLOT_COLLISION in *; split_and!; lia.
Qed.

(** ** Reports of another owner *)

(** A neighbour reports another owner, or a collision with another one. *)
Definition conflict (recv : slot_tag) : Prop :=
  tg_sti recv <> 0 /\ tg_sti recv <> global_sti at_ /\
  (tg_busy recv = SLOT_1HOP \/ tg_busy recv = SLOT_COLLISION).

(** The node has lost the slot: it knows of a collision, or has recorded
    another owner (one of [X]). *)
Definition lost (X : Z -> Prop) (tag : slot_tag) : Prop :=
  tg_psf tag = 0 /\
  ((tg_sti tag = global_sti at_ /\ tg_busy tag = SLOT_COLLISION) \/
   (tg_sti tag <> global_sti at_ /\ tg_sti tag <> 0 /\ X (tg_sti tag))).

(** The tags that list [l] holds for slot [i] have no priorities, and a node
    that one of them names in a collision does not call the slot empty. *)
Definition reports_ok (i : nat) (l : list Frame_info) (X : Z -> Prop) : Prop :=
  forall fi recv, fi ∈ l -> slot_describe fi !! i = Some recv ->
    tg_psf recv = 0 /\ (tg_sti recv = 0 -> ~ X (fi_sti fi)) /\
    (tg_busy recv = SLOT_COLLISION -> tg_sti recv <> 0 -> X (tg_sti recv)).

Lemma lost_tag X s tag recv : tg_psf recv = 0 -> (tg_sti recv = 0 -> ~ X s) ->
  (tg_busy recv = SLOT_COLLISION -> tg_sti recv <> 0 -> X (tg_sti recv)) ->
  lost X tag -> lost X (merge_tag at_ s tag recv).
Proof using Hid.
  unfold lost. intros Hp Hv Hc [Ht [[Hs Hb]|(Hs & H0 & HX)]].
  - tag_cases; (split; [done|]; by left).
  - tag_cases; (split; [done|]); try (right; split_and!; (done || auto)); exfalso; subst; auto.
    all: naive_solver lia.
Qed.

Lemma lost_own X b s tag recv : tg_psf recv = 0 ->
  (tg_busy recv = SLOT_COLLISION -> tg_sti recv <> 0 -> X (tg_sti recv)) ->
  lost X tag -> lost X (merge_own at_ b s tag recv).
Proof using Hid.
  unfold lost. intros Hp Hc [Ht [[Hs Hb]|(Hs & H0 & HX)]].
  - tag_cases; (split; [done|]); first [by left | right; split_and!; auto; lia].
  - unfold merge_own. destruct (Z.eqb_spec (tg_sti tag) (global_sti at_)); [done|]. cbn. auto.
Qed.

Lemma conflict_own X b s tag recv : tg_psf recv = 0 -> tg_psf tag = 0 -> tg_sti tag = global_sti at_ ->
  (tg_busy recv = SLOT_COLLISION -> tg_sti recv <> 0 -> X (tg_sti recv)) ->
  conflict recv -> lost X (merge_own at_ b s tag recv).
Proof using Hid.
  unfold lost, conflict. intros Hp Ht Hs Hc (H0 & Hg & Hb).
  tag_cases; (split; [done|]); first [by left | right; split_and!; auto; lia
    | exfalso; unfold SLOT_1HOP, SLOT_2HOP, SLOT_FREE, SLOT_COLLISION in *; lia].
Qed.

Lemma lost_merged X i l fi t t' : reports_ok i l X -> fi ∈ l -> merged fi i t t' -> lost X t -> lost X t'.
Proof using Hid.
  intros Hr Hfi Hm Hl. unfold merged in Hm. destruct (slot_describe fi !! i) as [recv|] eqn:E; [|by subst].
  destruct (Hr fi recv Hfi E) as (Hp & Hv & Hc).
  destruct Hm as [->|[b ->]]; apply lost_tag; auto. apply lost_own; auto.
Qed.

(** One report of another owner is enough: whatever else is merged, the slot
    is lost in the end. *)
Lemma conflict_merged X i l : forall m base tag,
  reports_ok i l X -> Forall fi_wf l -> length base = 512%nat -> 0 <= m <= 512 -> Z.of_nat i < m ->
  base !! i = Some tag -> tg_psf tag = 0 -> tg_sti tag = global_sti at_ ->
  (exists fi recv, fi ∈ l /\ slot_describe fi !! i = Some recv /\ conflict recv) ->
  exists m' base' tag', merge_fi_list at_ m base l = Ok (m', base') /\ length base' = 512%nat /\ m <= m' <= 512 /\
    base' !! i = Some tag' /\ lost X tag'.
Proof using Hid.
  induction l as [|fi l IH]; intros m base tag Hr Hwf Hb Hm Hi Hlk Hp Hs (f & recv & Hf & Ef & Hconf);
    [by apply not_elem_of_nil in Hf|].
  apply Forall_cons in Hwf as [Hwfi Hwf].
  assert (reports_ok i l X) as Hr' by (intros g r Hg; apply Hr; by right).
  cbn [merge_fi_list]. destruct (merge_fi_spec m base fi Hwfi Hb Hm) as (m1 & b1 & -> & Hb1 & _ & Hle1 & Hat). cbn [obind].
  destruct (Hat i tag Hlk) as (t1 & H1 & _ & Hown). specialize (Hown Hi).
  assert (lost X t1 -> exists m' base' tag', merge_fi_list at_ m1 b1 l = Ok (m', base') /\ length base' = 512%nat /\
    m <= m' <= 512 /\ base' !! i = Some tag' /\ lost X tag') as Hdone.
  { intros Hl. destruct (merge_fi_list_spec l m1 b1 Hwf Hb1 ltac:(lia)) as (m2 & b2 & -> & Hb2 & Hle2 & _ & Hat2).
    destruct (Hat2 i (lost X) t1 H1 Hl) as (t2 & H2 & Hl2).
    { intros g t t' Hg Hmg Hlt. by eapply lost_merged. }
    exists m2, b2, t2. split_and!; try done; lia. }
  destruct (slot_describe fi !! i) as [recv1|] eqn:E1.
  - destruct (Hown recv1 eq_refl) as [b ->]. destruct (Hr fi recv1 ltac:(left) E1) as (Hp1 & Hv1 & Hc1).
    destruct (Z.eq_dec (tg_sti (merge_own at_ b (fi_sti fi) tag recv1)) (global_sti at_)) as [Eown|Eown].
    + destruct (decide (tg_busy (merge_own at_ b (fi_sti fi) tag recv1) = SLOT_COLLISION)) as [Ec|Ec].
      { apply Hdone, lost_tag; auto. split; [|by left]. clear -Hp Hp1 Hs. tag_cases. }
      assert (~ conflict recv1) as Hnc.
      { intros Hc. pose proof (conflict_own X b (fi_sti fi) tag recv1 Hp1 Hp Hs Hc1 Hc) as [_ [[_ ?]|[? _]]]; done. }
      assert (merge_tag at_ (fi_sti fi) (merge_own at_ b (fi_sti fi) tag recv1) recv1
              = merge_own at_ b (fi_sti fi) tag recv1) as Eid by by apply merge_tag_skip.
      rewrite Eid in *. destruct (IH m1 b1 _ Hr' Hwf Hb1 ltac:(lia) ltac:(lia) H1) as (m2 & b2 & t2 & H2).
      * clear -Hp Hp1 Hs. tag_cases.
      * done.
      * apply elem_of_cons in Hf as [->|Hf]; [|by exists f, recv]. exfalso. apply Hnc.
        by assert (recv1 = recv) as -> by congruence.
      * exists m2, b2, t2. destruct H2 as (-> & ? & ? & ? & ?). split_and!; try done; lia.
    + apply Hdone. apply lost_tag; auto. clear Hdone Hat H1. 
      assert (tg_psf (merge_own at_ b (fi_sti fi) tag recv1) = 0) as Hpp by (clear -Hp Hp1 Hs; tag_cases).
      split; [done|]. right. split; [done|]. clear -Hp Hp1 Hs Eown Hc1 Hid.
      tag_cases; split; auto.
  - apply elem_of_cons in Hf as [->|Hf]; [congruence|].
    assert (t1 = tag) as ->.
    { destruct (Hat i tag Hlk) as (t & Ht & Hmg & _). unfold merged in Hmg. rewrite E1 in Hmg. congruence. }
    destruct (IH m1 b1 tag Hr' Hwf Hb1 ltac:(lia) ltac:(lia) H1 Hp Hs) as (m2 & b2 & t2 & -> & ? & ? & ? & ?);
      [by exists f, recv|]. exists m2, b2, t2. split_and!; try done; lia.
Qed.

(** ** Confirmations *)

(** A report that lets the node keep its slot: it names the node, or it does
    not say that the slot is in use, empty or in a collision. *)
Definition confirms (recv : slot_tag) : Prop :=
  tg_psf recv = 0 /\
  ((tg_sti recv = global_sti at_ /\ tg_busy recv <> SLOT_FREE) \/
   (tg_sti recv <> 0 /\ tg_busy recv <> SLOT_1HOP /\ tg_busy recv <> SLOT_FREE /\ tg_busy recv <> SLOT_COLLISION)).

Definition kept (tag : slot_tag) : Prop :=
  tg_sti tag = global_sti at_ /\ tg_busy tag = SLOT_1HOP /\ tg_psf tag = 0.

Lemma kept_merged fi i t t' : (forall recv, slot_describe fi !! i = Some recv -> confirms recv) ->
  merged fi i t t' -> kept t -> kept t'.
Proof using Hid.
  unfold merged, kept. intros Hc Hm (Hs & Hb & Hp). destruct (slot_describe fi !! i) as [recv|]; [|by subst].
  specialize (Hc recv eq_refl). unfold confirms in Hc.
  destruct Hm as [->|[b ->]]; [by rewrite merge_tag_skip|].
  assert (kept (merge_own at_ b (fi_sti fi) t recv)) as (Ho & Hb' & Hp').
  { unfold kept. tag_cases; unfold SLOT_1HOP, SLOT_2HOP, SLOT_FREE, SLOT_COLLISION in *; lia. }
  rewrite merge_tag_skip; done.
Qed.

(** ** The node's own slot *)

(** The slot is the node's own and not locked, or is recorded for one of [X]. *)
Definition owned (X : Z -> Prop) (tag : slot_tag) : Prop :=
  tg_psf tag = 0 /\ tg_sti tag <> 0 /\ (tg_sti tag = global_sti at_ -> tg_locker tag = false) /\
  (tg_sti tag <> global_sti at_ -> X (tg_sti tag)).

Lemma owned_merged X i l fi t t' : reports_ok i l X -> fi ∈ l -> merged fi i t t' -> owned X t -> owned X t'.
Proof using Hid.
  intros Hr Hfi Hm Ho. unfold merged in Hm. destruct (slot_describe fi !! i) as [recv|] eqn:E; [|by subst].
  destruct (Hr fi recv Hfi E) as (Hp & Hv & Hc). clear Hr E Hfi.
  assert (forall tag, owned X tag -> owned X (merge_tag at_ (fi_sti fi) tag recv)) as Htag.
  { intros tag Ho'. destruct (Z.eq_dec (tg_sti tag) (global_sti at_)) as [E|E]; [by rewrite merge_tag_skip|].
    destruct Ho' as (Ht & H0 & _ & HX).
    destruct (lost_tag X (fi_sti fi) tag recv Hp Hv Hc) as [Hp' [[? _]|(H1 & H2 & H3)]];
      [split; [done|]; right; auto|by eapply merge_tag_not_own in E|split_and!; auto; done]. }
  assert (forall tag b, owned X tag -> owned X (merge_own at_ b (fi_sti fi) tag recv)) as Hown.
  { intros tag b Ho'. destruct (Z.eq_dec (tg_sti tag) (global_sti at_)) as [E|E]; [|by rewrite merge_own_skip].
    destruct Ho' as (Ht & H0 & Hl & _). specialize (Hl E). clear Htag Hm Hv Ho. unfold owned. tag_cases; split_and!; auto. }
  destruct Hm as [->|[b ->]]; auto.
Qed.

(** ** Ageing *)

Lemma age_tag_ok slot cand count tag : tag_ok tag -> tag_ok (age_tag at_ slot cand count tag).
Proof using Hid.
  unfold tag_ok, age_tag, wipe, SLOT_FREE. intros Ht.
  repeat (case_match; ztest; cbn in *; try done; try lia);
    unfold SLOT_1HOP, SLOT_2HOP, SLOT_FREE, SLOT_COLLISION in *; split_and!; lia.
Qed.

Lemma unlock_tag_ok tag : tag_ok tag -> tag_ok (unlock_tag tag).
Proof using. unfold unlock_tag. by destruct (_ && _). Qed.

(** The node's own slot does not age. *)
Lemma age_tag_own slot cand count tag : count = slot \/ count = cand -> tg_sti tag = global_sti at_ ->
  exists b, age_tag at_ slot cand count tag = tag <| tg_locker := b |> /\ b = false.
Proof using Hid.
  intros Hc Hs. exists false. split; [|done]. unfold age_tag. rewrite Hs.
  rewrite (proj2 (Z.eqb_neq (global_sti at_) 0) Hid). cbn [negb]. rewrite andb_true_r.
  assert (((count =? slot) || (count =? cand)) = true) as Hcc by lia.
  destruct (tg_locker tag) eqn:El; cbn; rewrite Hs, Z.eqb_refl, Hcc; cbn; [done|]. by destruct tag; cbn in *; subst.
Qed.

Lemma merge_list_ok l : forall m base, Forall fi_wf l -> Forall (fun fi => Forall recv_ok (slot_describe fi)) l ->
  length base = 512%nat -> 0 <= m <= 512 -> Forall tag_ok base ->
  exists m' base', merge_fi_list at_ m base l = Ok (m', base') /\ length base' = 512%nat /\ m <= m' <= 512 /\
    (m' = m \/ exists fi, fi ∈ l /\ m' = fi_frame_len fi) /\ Forall tag_ok base' /\
    forall i (Q : slot_tag -> Prop) tag, base !! i = Some tag -> Q tag ->
      (forall fi t t', fi ∈ l -> merged fi i t t' -> Q t -> Q t') ->
      exists tag', base' !! i = Some tag' /\ Q tag'.
Proof using Hid.
  intros m base Hwf Hrecv Hb Hm Hok.
  destruct (merge_fi_list_spec l m base Hwf Hb Hm) as (m' & base' & E & Hb' & Hle & Hm' & Hat).
  exists m', base'. do 4 (split; [done|]). split; [|done]. apply Forall_lookup. intros i tag' Hi.
  destruct (lookup_lt_is_Some_2 base i ltac:(apply lookup_lt_Some in Hi; lia)) as [tag Ht].
  destruct (Hat i tag_ok tag Ht) as (t & Ht' & Hok'); [by eapply Forall_lookup_1| |congruence].
  intros fi t t' Hfi Hmg Htok. unfold merged in Hmg. destruct (slot_describe fi !! i) as [recv|] eqn:Er; [|by subst].
  rewrite Forall_forall in Hrecv. pose proof (Forall_lookup_1 _ _ _ _ (Hrecv fi Hfi) Er) as Hr.
  destruct Hmg as [->|[b ->]]; apply merge_tag_ok; auto. by apply merge_own_ok.
Qed.

(** ** The whole update *)

Lemma map_slots_lookup n f l i :
  map_slots n f l !! i = (fun tag => if Z.of_nat i <? n then f (Z.of_nat i) tag else tag) <$> l !! i.
Proof using. unfold map_slots. by rewrite list_lookup_imap. Qed.

Lemma map_slots_length n f l : length (map_slots n f l) = length l.
Proof using. apply length_imap. Qed.

Lemma Forall_map_slots (P : slot_tag -> Prop) n f l :
  (forall i tag, P tag -> P (f i tag)) -> Forall P l -> Forall P (map_slots n f l).
Proof using.
  rewrite !Forall_lookup. intros Hf Hl i tag. rewrite map_slots_lookup, fmap_Some.
  intros (t & Ht & ->). case_match; eauto.
Qed.

(** The table before the received information is merged. *)
Definition aged (listening : bool) (slot_num cand m_frame_len : Z) (l : list slot_tag) : list slot_tag :=
  if negb listening && slot_memory_ at_ then map_slots m_frame_len (age_tag at_ slot_num cand) l else l.

Lemma aged_length listening slot cand m l : length (aged listening slot cand m l) = length l.
Proof using. unfold aged. case_match; [apply map_slots_length|done]. Qed.

Lemma aged_own slot cand m l i tag : slot_memory_ at_ = true -> 0 <= i < m -> i = slot \/ i = cand ->
  l !! Z.to_nat i = Some tag -> tg_sti tag = global_sti at_ ->
  aged false slot cand m l !! Z.to_nat i = Some (tag <| tg_locker := false |>).
Proof using Hid.
  intros Hmem Hi Hc Hl Hs. unfold aged. rewrite Hmem. cbn [negb andb]. rewrite map_slots_lookup, Hl. cbn [fmap option_fmap option_map].
  rewrite Z2Nat.id by lia. rewrite (proj2 (Z.ltb_lt i m)) by lia.
  by destruct (age_tag_own slot cand i tag Hc Hs) as (b & -> & ->).
Qed.

Lemma synthesize_merge listening slot cand m received l m' base' :
  0 <= m <= Z.of_nat (length l) ->
  merge_fi_list at_ m (aged listening slot cand m l) received = Ok (m', base') ->
  exists l', synthesize_fi_list at_ listening slot cand m received l = Ok (m', l') /\ length l' = length base' /\
    (Forall tag_ok base' -> Forall tag_ok l') /\
    forall i tag, base' !! i = Some tag -> l' !! i = Some tag \/ l' !! i = Some (unlock_tag tag).
Proof using.
  intros Hm E. unfold synthesize_fi_list. rewrite (proj2 (Z.ltb_ge _ _)) by lia. cbv zeta.
  unfold aged in E. rewrite E. cbn [obind]. set (u := _ && existsb _ _). destruct u; eexists; (split; [done|]).
  - rewrite map_slots_length. split; [done|]. split.
    + intros H. apply Forall_map_slots; [|done]. intros _ tag. apply unlock_tag_ok.
    + intros i tag Hi. rewrite map_slots_lookup, Hi. cbn [fmap option_fmap option_map].
      destruct (Z.of_nat i <? m'); [by right|by left].
  - split; [done|]. split; [done|]. auto.
Qed.

(** Received frame information that the node can use. *)
Definition fi_ok (fi : Frame_info) : Prop :=
  fi_wf fi /\ (exists k, 0 <= k <= 8 /\ fi_frame_len fi = 2 ^ k) /\ Forall recv_ok (slot_describe fi).

Lemma synthesize_ok listening slot cand k received l :
  length l = 512%nat -> Forall tag_ok l -> 0 <= k <= 8 -> Forall fi_ok received ->
  exists k' l', synthesize_fi_list at_ listening slot cand (2 ^ k) received l = Ok (2 ^ k', l') /\
    length l' = 512%nat /\ Forall tag_ok l' /\ k <= k' <= 8 /\
    forall i (Q : slot_tag -> Prop) tag, aged listening slot cand (2 ^ k) l !! i = Some tag -> Q tag ->
      (forall fi t t', fi ∈ received -> merged fi i t t' -> Q t -> Q t') ->
      exists tag', (l' !! i = Some tag' \/ l' !! i = Some (unlock_tag tag')) /\ Q tag'.
Proof using Hid.
  intros Hl Hok Hk Hfi. pose proof (Z.pow_le_mono_r 2 k 8 ltac:(lia) ltac:(lia)) as H8. change (2 ^ 8) with 256 in H8.
  pose proof (Z.pow_pos_nonneg 2 k ltac:(lia) ltac:(lia)) as H0.
  destruct (merge_list_ok received (2 ^ k) (aged listening slot cand (2 ^ k) l)) as (m' & base' & E & Hb & Hle & Hm' & Hbok & Hat).
  { eapply Forall_impl; [exact Hfi|]. by intros fi (? & _). }
  { eapply Forall_impl; [exact Hfi|]. by intros fi (_ & _ & ?). }
  { by rewrite aged_length. }
  { lia. }
  { unfold aged. case_match; [|done]. apply Forall_map_slots; [|done]. intros i tag. apply age_tag_ok. }
  destruct (synthesize_merge listening slot cand (2 ^ k) received l m' base' ltac:(lia) E) as (l' & El & Hl' & Hlok & Hun).
  assert (exists k', k <= k' <= 8 /\ m' = 2 ^ k') as (k' & Hk' & ->).
  { destruct Hm' as [->|(fi & Hin & ->)]; [by exists k; split; [lia|]|].
    rewrite Forall_forall in Hfi. destruct (Hfi fi Hin) as (_ & (k' & Hk' & Ek) & _). exists k'. split; [|done].
    rewrite Ek in Hle. apply proj1 in Hle. apply Z.pow_le_mono_r_iff in Hle; lia. }
  exists k', l'. split; [done|]. split; [congruence|]. split; [auto|]. split; [done|].
  intros i Q tag Hi HQ Hstep. destruct (Hat i Q tag Hi HQ Hstep) as (t & Ht & HQt). exists t. split; [auto|done].
Qed.

Lemma unlock_tag_id tag : tg_sti tag <> 0 -> unlock_tag tag = tag.
Proof using. intros H. unfold unlock_tag. rewrite (proj2 (Z.eqb_neq _ _) H). by rewrite andb_false_r. Qed.

Section OwnSlot.
Context (slot cand k : Z) (received : list Frame_info) (l : list slot_tag).
Context (Hmem : slot_memory_ at_ = true).
Context (Hl : length l = 512%nat) (Hok : Forall tag_ok l) (Hk : 0 <= k <= 8) (Hfi : Forall fi_ok received).
Context (i : Z) (tag : slot_tag) (Hi : 0 <= i < 2 ^ k) (Hc : i = slot \/ i = cand).
Context (Htag : l !! Z.to_nat i = Some tag) (Hs : tg_sti tag = global_sti at_) (Hp : tg_psf tag = 0).

(** Consistent reports leave the slot with the node or with one of [X]. *)
Lemma synthesize_owned X : reports_ok (Z.to_nat i) received X ->
  exists k' l' tag', synthesize_fi_list at_ false slot cand (2 ^ k) received l = Ok (2 ^ k', l') /\
    length l' = 512%nat /\ Forall tag_ok l' /\ k <= k' <= 8 /\ l' !! Z.to_nat i = Some tag' /\ owned X tag'.
Proof using All.
  intros Hr. destruct (synthesize_ok false slot cand k received l Hl Hok Hk Hfi) as (k' & l' & E & Hl' & Hok' & Hk' & Hat).
  destruct (Hat (Z.to_nat i) (owned X) (tag <| tg_locker := false |>)) as (t & Ht & Ho).
  { by apply aged_own. }
  { unfold owned. cbn. split_and!; [done|congruence|done|done]. }
  { intros fi t t' Hin Hm. by eapply owned_merged. }
  exists k', l', t. do 4 (split; [done|]). split; [|done]. destruct Ht as [Ht|Ht]; [done|].
  by rewrite unlock_tag_id in Ht by apply Ho.
Qed.

(** Confirmations leave the slot with the node. *)
Lemma synthesize_kept : tg_busy tag = SLOT_1HOP ->
  (forall fi recv, fi ∈ received -> slot_describe fi !! Z.to_nat i = Some recv -> confirms recv) ->
  exists k' l' tag', synthesize_fi_list at_ false slot cand (2 ^ k) received l = Ok (2 ^ k', l') /\
    length l' = 512%nat /\ Forall tag_ok l' /\ k <= k' <= 8 /\ l' !! Z.to_nat i = Some tag' /\ kept tag'.
Proof using All.
  intros Hb Hr. destruct (synthesize_ok false slot cand k received l Hl Hok Hk Hfi) as (k' & l' & E & Hl' & Hok' & Hk' & Hat).
  destruct (Hat (Z.to_nat i) kept (tag <| tg_locker := false |>)) as (t & Ht & Ho).
  { by apply aged_own. }
  { done. }
  { intros fi t t' Hin. apply kept_merged. intros recv. by apply Hr. }
  exists k', l', t. do 4 (split; [done|]). split; [|done]. destruct Ht as [Ht|Ht]; [done|].
  rewrite unlock_tag_id in Ht; [done|]. destruct Ho as [-> _]. done.
Qed.

(** One conflicting report and the slot is lost. *)
Lemma synthesize_conflict X : reports_ok (Z.to_nat i) received X ->
  (exists fi recv, fi ∈ received /\ slot_describe fi !! Z.to_nat i = Some recv /\ conflict recv) ->
  exists m' l' tag', synthesize_fi_list at_ false slot cand (2 ^ k) received l = Ok (m', l') /\
    l' !! Z.to_nat i = Some tag' /\ lost X tag'.
Proof using All.
  intros Hr Hconf. pose proof (Z.pow_le_mono_r 2 k 8 ltac:(lia) ltac:(lia)) as H8. change (2 ^ 8) with 256 in H8.
  destruct (conflict_merged X (Z.to_nat i) received (2 ^ k) (aged false slot cand (2 ^ k) l) (tag <| tg_locker := false |>))
    as (m' & b' & t & E & Hb & Hm & Ht & Hlost); try done; try lia.
  { eapply Forall_impl; [exact Hfi|]. by intros fi (? & _). }
  { by rewrite aged_length. }
  { by apply aged_own. }
  destruct (synthesize_merge false slot cand (2 ^ k) received l m' b' ltac:(lia) E) as (l' & El & _ & _ & Hun).
  exists m', l', t. split; [done|]. split; [|done]. destruct (Hun _ _ Ht) as [H|H]; [done|].
  rewrite unlock_tag_id in H; [done|]. destruct Hlost as [_ [[-> _]|(_ & ? & _)]]; done.
Qed.
End OwnSlot.
End MergeFacts.
