(* ===== verification/SatmacSlot.v ===== *)
(** The choice of a slot and of the frame length of a SATMAC node
    (src/ns3/satmac/model/tdma-satmac.cc): [determine_BCH],
    [adjust_is_needed] and [adjFrameLen].

    The thresholds on the utilisation are compared in floating point: a
    quotient in single precision with a constant in double precision. *)

From Stdlib Require Import SpecFloat.
From S2P Require Import Prelude FiCodec SatmacFi.

(** * Floating-point comparisons

    Single precision has 24 bits, double precision 53. *)

Definition float_of_int (n : Z) : spec_float := binary_normalize 24 128 n 0 false.
Definition float_div (x y : spec_float) : spec_float := SFdiv 24 128 x y.

Definition double_of_float (x : spec_float) : spec_float :=
  match x with
  | S754_finite s m e => binary_normalize 53 1024 (cond_Zopp s (Zpos m)) e s
  | _ => x
  end.

(** The literal [a/b]: the nearest double. *)
Definition double_literal (a b : Z) : spec_float :=
  SFdiv 53 1024 (binary_normalize 53 1024 a 0 false) (binary_normalize 53 1024 b 0 false).

Definition FRAMEADJ_CUT_RATIO_THS : spec_float := double_literal 4 10.
Definition FRAMEADJ_CUT_RATIO_EHS : spec_float := double_literal 6 10.
Definition FRAMEADJ_EXP_RATIO : spec_float := double_literal 9 10.

(** [(float)(m - free) / m]. *)
Definition utilrate (m_frame_len free_count : Z) : spec_float :=
  float_div (float_of_int (m_frame_len - free_count)) (float_of_int m_frame_len).

Definition float_le (x d : spec_float) : bool := SFleb (double_of_float x) d.
Definition float_ge (x d : spec_float) : bool := SFleb d (double_of_float x).

(** * Counting *)

(** The numbers of free slots: of the frame, and of those that no neighbour
    three hops away uses. *)
Definition free_ths (m_frame_len : Z) (fi_local : list slot_tag) : Z :=
  Z.of_nat (length (filter (fun tag => tg_busy tag = SLOT_FREE) (take (Z.to_nat m_frame_len) fi_local))).
Definition free_ehs (m_frame_len : Z) (fi_local : list slot_tag) : Z :=
  Z.of_nat (length (filter (fun tag => tg_busy tag = SLOT_FREE /\ tg_count_3hop tag = 0)
                      (take (Z.to_nat m_frame_len) fi_local))).

(** The slot numbers below [n] that satisfy [P]. *)
Definition slots_where (n : Z) (fi_local : list slot_tag) (P : Z -> slot_tag -> bool) : list Z :=
  filter (fun i => match fi_local !! Z.to_nat i with Some tag => P i tag | None => false end = true) (seqZ 0 n).

Section Choice.
Context (at_ : satmac_attr).
(** [m_uniformRandomVariable->GetInteger (min, max)]: the result of the
    [k]-th call. *)
Context (GetInteger : Z -> Z -> Z -> Z).

(** The frame is so empty that it may be cut. *)
Definition cut_possible (m_frame_len : Z) (fi_local : list slot_tag) : bool :=
  adj_frame_ena_ at_ && (adj_frame_lower_bound_ at_ <? m_frame_len)
  && float_le (utilrate m_frame_len (free_ehs m_frame_len fi_local)) FRAMEADJ_CUT_RATIO_EHS
  && float_le (utilrate m_frame_len (free_ths m_frame_len fi_local)) FRAMEADJ_CUT_RATIO_THS.

(** The slots that may be chosen. *)
Definition candidate (strict : bool) (tag : slot_tag) : bool :=
  ((tg_busy tag =? SLOT_FREE) || (negb strict && (tg_sti tag =? global_sti at_))) && negb (tg_locker tag).

Definition s2c (strict : bool) (m_frame_len : Z) (l : list slot_tag) : list Z :=
  slots_where m_frame_len l (fun _ tag => adj_ena_ at_ && candidate strict tag).
Definition s0c (strict : bool) (m_frame_len : Z) (l : list slot_tag) : list Z :=
  slots_where m_frame_len l (fun _ tag => candidate strict tag && (negb (adj_ena_ at_) || (tg_count_3hop tag =? 0))).
Definition s0_1c (strict : bool) (m_frame_len : Z) (l : list slot_tag) : list Z :=
  slots_where m_frame_len l (fun i tag =>
    adj_ena_ at_ && candidate strict tag && (tg_count_3hop tag =? 0) && (i <? m_frame_len / 2)).

(** [c[GetInteger (0, c_num - 1)]]. *)
Definition pick (draws : Z) (c : list Z) : outcome (Z * Z) :=
  match c !! Z.to_nat (GetInteger draws 0 (Z.of_nat (length c) - 1)) with
  | Some i => Ok (i, draws + 1)
  | None => Oops
  end.

Definition pick_or_first (draws : Z) (c : list Z) : outcome (Z * Z) :=
  if negb (choose_bch_random_switch_ at_ =? 0) then pick draws c
  else match c with i :: _ => Ok (i, draws) | [] => Oops end.

(** Returns the slot (or -1), the number of random numbers drawn so far and
    the new value of [testmode_init_flag_]. The arrays of candidates have
    fixed sizes. *)
Definition determine_BCH (strict testmode_init_flag : bool) (adj_free_threshold m_frame_len draws : Z)
    (fi_local : list slot_tag) : outcome (Z * Z * bool) :=
  if Z.of_nat (length fi_local) <? m_frame_len then Oops
  else
    let s2 := s2c strict m_frame_len fi_local in
    let s0 := s0c strict m_frame_len fi_local in
    let s0_1 := s0_1c strict m_frame_len fi_local in
    if (256 <? Z.of_nat (length s2)) || (256 <? Z.of_nat (length s0)) || (128 <? Z.of_nat (length s0_1)) then Oops
    else if cut_possible m_frame_len fi_local && negb (Z.of_nat (length s0_1) =? 0) then
      obind (pick draws s0_1) (fun '(i, draws) => Ok (i, draws, testmode_init_flag))
    else if testmode_init_flag && (choose_bch_random_switch_ at_ =? 2) then
      let sti := global_sti at_ in
      let i := if sti =? 1 then 0 else if sti =? 2 then 1 else if sti =? 3 then 2
               else if sti =? 4 then 0 else sti - 1 in
      Ok (i, draws, false)
    else
      obind
        (if negb (adj_ena_ at_) then
           if 0 <? Z.of_nat (length s0) then pick draws s0 else Ok (-1, draws)
         else if adj_free_threshold <=? Z.of_nat (length s0) then pick_or_first draws s0
         else if negb (Z.of_nat (length s2) =? 0) then pick_or_first draws s2
         else Ok (-1, draws))
        (fun '(i, draws) => Ok (i, draws, testmode_init_flag)).

Definition adjust_is_needed (adj_free_threshold m_frame_len slot_num : Z) (fi_collection : list slot_tag)
  : outcome bool :=
  match fi_collection !! Z.to_nat slot_num with
  | None => Oops
  | Some tag =>
      let lower_half := slots_where m_frame_len fi_collection (fun i tag =>
        (tg_busy tag =? SLOT_FREE) && (tg_count_3hop tag =? 0) && (i <? m_frame_len / 2)) in
      Ok ((adj_ena_ at_ && (c3hop_threshold_ at_ <=? tg_count_3hop tag)
           && (adj_free_threshold <=? free_ehs m_frame_len fi_collection))
          || ((m_frame_len / 2 <=? slot_num) && cut_possible m_frame_len fi_collection
              && negb (Z.of_nat (length lower_half) =? 0)))
  end.

(** The new frame length and the new [adj_free_threshold_]. *)
Definition adjFrameLen (adj_free_threshold m_frame_len : Z) (fi_local : list slot_tag) : Z * Z :=
  if negb (adj_frame_ena_ at_) then (m_frame_len, adj_free_threshold)
  else
    let cutflag := bool_decide (slots_where m_frame_len fi_local (fun i tag =>
      negb (tg_busy tag =? SLOT_FREE) && (m_frame_len / 2 <=? i)) = []) in
    let ths := free_ths m_frame_len fi_local in
    let ehs := free_ehs m_frame_len fi_local in
    let utilrate_ths := if ths <=? adj_free_threshold then float_of_int 1 else utilrate m_frame_len ths in
    let utilrate_ehs := if ehs <=? adj_free_threshold then float_of_int 1 else utilrate m_frame_len ehs in
    let m_frame_len :=
      if float_ge utilrate_ehs FRAMEADJ_EXP_RATIO && (m_frame_len <? adj_frame_upper_bound_ at_) then m_frame_len * 2
      else if cutflag && float_le utilrate_ths FRAMEADJ_CUT_RATIO_THS
              && float_le utilrate_ehs FRAMEADJ_CUT_RATIO_EHS && (adj_frame_lower_bound_ at_ <? m_frame_len)
      then m_frame_len / 2
      else m_frame_len in
    (m_frame_len,
     if m_frame_len =? 16 then 2 else if m_frame_len =? 32 then 3 else if m_frame_len =? 64 then 4 else 5).
End Choice.

(** * Lists of slots *)

Lemma Forall_filter_nil {A} (P : A -> Prop) `{!forall x, Decision (P x)} l :
  Forall (fun x => ~ P x) l -> filter P l = [].
Proof. induction 1 as [|x l Hx _ IH]; [done|]. by rewrite filter_cons_False. Qed.

Lemma elem_of_slots_where n l P i : i ∈ slots_where n l P <->
  0 <= i < n /\ exists tag, l !! Z.to_nat i = Some tag /\ P i tag = true.
Proof.
  unfold slots_where. rewrite list_elem_of_filter, elem_of_seqZ, Z.add_0_l. split.
  - intros [Hp Hi]. split; [lia|]. destruct (l !! Z.to_nat i) as [tag|]; [by eexists|done].
  - intros [Hi (tag & -> & Hp)]. split; [done|lia].
Qed.

Lemma slots_where_length n l P : 0 <= n -> Z.of_nat (length (slots_where n l P)) <= n.
Proof.
  intros Hn. unfold slots_where. etrans; [apply Nat2Z.inj_le, length_filter|]. rewrite length_seqZ. lia.
Qed.

Lemma slots_where_bound n k l P : 0 <= k <= n -> (forall i tag, P i tag = true -> i < k) ->
  Z.of_nat (length (slots_where n l P)) <= k.
Proof.
  intros Hk HP. unfold slots_where. replace n with (k + (n - k)) by lia. rewrite seqZ_app, Z.add_0_l by lia.
  rewrite filter_app, length_app, Nat2Z.inj_add.
  match goal with |- context [length (filter ?Q (seqZ k (n - k)))] =>
    assert (filter Q (seqZ k (n - k)) = []) as -> end.
  - apply Forall_filter_nil, Forall_forall. intros i Hi%elem_of_seqZ Hp.
    destruct (l !! Z.to_nat i); [apply HP in Hp; lia|done].
  - pose proof (slots_where_length k l P ltac:(lia)). unfold slots_where in *. cbn [length]. lia.
Qed.

Lemma slots_where_nil n l P :
  slots_where n l P = [] <-> forall i tag, 0 <= i < n -> l !! Z.to_nat i = Some tag -> P i tag = false.
Proof.
  split.
  - intros E i tag Hi Hl. destruct (P i tag) eqn:Ep; [|done]. exfalso.
    assert (i ∈ slots_where n l P) as Hin by (apply elem_of_slots_where; eauto). rewrite E in Hin. by apply not_elem_of_nil in Hin.
  - intros H. destruct (slots_where n l P) as [|i r] eqn:E; [done|].
    assert (i ∈ slots_where n l P) as (Hi & tag & Hl & Hp)%elem_of_slots_where by (rewrite E; left).
    rewrite (H i tag Hi Hl) in Hp. done.
Qed.

(** * The choice of a slot *)

Section ChoiceFacts.
Context (at_ : satmac_attr) (GetInteger : Z -> Z -> Z -> Z).
(** A uniform random variable returns a value of its range. *)
Context (Hrandom : forall k lo hi, lo <= hi -> lo <= GetInteger k lo hi <= hi).

Lemma pick_ok draws c : c <> [] -> exists i d, pick GetInteger draws c = Ok (i, d) /\ i ∈ c.
Proof using Hrandom.
  intros Hc. unfold pick. destruct c as [|x c]; [done|].
  pose proof (Hrandom draws 0 (Z.of_nat (length (x :: c)) - 1) ltac:(cbn [length]; lia)) as Hr.
  destruct (lookup_lt_is_Some_2 (x :: c) (Z.to_nat (GetInteger draws 0 (Z.of_nat (length (x :: c)) - 1))) ltac:(lia))
    as [i Hi]. rewrite Hi. do 2 eexists. split; [done|]. by eapply list_elem_of_lookup_2.
Qed.

Lemma pick_or_first_ok draws c : c <> [] ->
  exists i d, pick_or_first at_ GetInteger draws c = Ok (i, d) /\ i ∈ c.
Proof using Hrandom.
  intros Hc. unfold pick_or_first. destruct (negb _); [by apply pick_ok|].
  destruct c as [|i c]; [done|]. do 2 eexists. split; [done|]. left.
Qed.

(** Switch value 2 is the test mode. *)
Context (Hswitch : choose_bch_random_switch_ at_ <> 2).

(** What [determine_BCH] returns. *)
Lemma determine_BCH_spec strict flag thr m draws l :
  1 <= m <= 256 -> m <= Z.of_nat (length l) -> 1 <= thr ->
  exists i d, determine_BCH at_ GetInteger strict flag thr m draws l = Ok (i, d, flag) /\
    ((i = -1 /\ forall j tag, 0 <= j < m -> l !! Z.to_nat j = Some tag -> candidate at_ strict tag = false) \/
     (0 <= i < m /\ exists tag, l !! Z.to_nat i = Some tag /\ candidate at_ strict tag = true)).
Proof using Hrandom Hswitch.
  intros Hm Hl Ht. unfold determine_BCH.
  destruct (Z.ltb_spec (Z.of_nat (length l)) m); [lia|]. cbv zeta.
  set (s2 := s2c at_ strict m l). set (s0 := s0c at_ strict m l). set (s1 := s0_1c at_ strict m l).
  assert (Z.of_nat (length s2) <= m /\ Z.of_nat (length s0) <= m) as [H2 H0] by (split; apply slots_where_length; lia).
  assert (Z.of_nat (length s1) <= m / 2) as H1.
  { apply slots_where_bound; [dlia|]. intros i tag Hp. apply andb_true_iff in Hp as [_ Hp]. lia. }
  destruct (Z.ltb_spec 256 (Z.of_nat (length s2))); [lia|]. destruct (Z.ltb_spec 256 (Z.of_nat (length s0))); [lia|].
  destruct (Z.ltb_spec 128 (Z.of_nat (length s1))); [dlia|]. cbn [orb andb].
  assert (forall i, i ∈ s0 \/ i ∈ s1 \/ i ∈ s2 ->
    0 <= i < m /\ exists tag, l !! Z.to_nat i = Some tag /\ candidate at_ strict tag = true) as Hin.
  { intros i [Hi|[Hi|Hi]]; apply elem_of_slots_where in Hi as (Hi & tag & Hlk & Hp); (split; [done|]); exists tag; (split; [done|]);
      rewrite ?andb_true_iff in Hp; tauto. }
  destruct (cut_possible at_ m l && negb (Z.of_nat (length s1) =? 0)) eqn:Ecut.
  { apply andb_true_iff in Ecut as [_ E1]. assert (s1 <> []) as Hne by (intros ->; done).
    destruct (pick_ok draws s1 Hne) as (i & d & -> & Hi). cbn [obind]. do 2 eexists. split; [done|]. right. auto. }
  rewrite (proj2 (Z.eqb_neq _ _) Hswitch), andb_false_r.
  destruct (adj_ena_ at_) eqn:Eadj; cbn [negb].
  - destruct (Z.leb_spec thr (Z.of_nat (length s0))).
    { assert (s0 <> []) as Hne by (intros ->; cbn in *; lia).
      destruct (pick_or_first_ok draws s0 Hne) as (i & d & -> & Hi). cbn [obind]. do 2 eexists. split; [done|]. right. auto. }
    destruct (Z.eqb_spec (Z.of_nat (length s2)) 0) as [E2|E2]; cbn [negb obind].
    + do 2 eexists. split; [done|]. left. split; [done|]. intros j tag Hj Hlk.
      assert (s2 = []) as Hnil by (destruct s2; [done|cbn in E2; lia]).
      pose proof (proj1 (slots_where_nil _ _ _) Hnil j tag Hj Hlk) as Hp. by rewrite Eadj in Hp.
    + assert (s2 <> []) as Hne by (intros E; rewrite E in E2; done).
      destruct (pick_or_first_ok draws s2 Hne) as (i & d & -> & Hi). cbn [obind]. do 2 eexists. split; [done|]. right. auto.
  - destruct (Z.ltb_spec 0 (Z.of_nat (length s0))); cbn [obind].
    + assert (s0 <> []) as Hne by (intros ->; cbn in *; lia).
      destruct (pick_ok draws s0 Hne) as (i & d & -> & Hi). cbn [obind]. do 2 eexists. split; [done|]. right. auto.
    + do 2 eexists. split; [done|]. left. split; [done|]. intros j tag Hj Hlk.
      assert (s0 = []) as Hnil by (destruct s0; [done|cbn in *; lia]).
      pose proof (proj1 (slots_where_nil _ _ _) Hnil j tag Hj Hlk) as Hp. rewrite Eadj in Hp. by rewrite andb_true_r in Hp.
Qed.
End ChoiceFacts.

(** * Utilisation *)

(** For the frame lengths of the protocol (powers of two) the floating-point
    tests are the comparisons of the exact quotients. *)
Definition util_exact (m used : Z) : bool :=
  let u := utilrate m (m - used) in
  eqb (float_le u FRAMEADJ_CUT_RATIO_THS) (5 * used <=? 2 * m) &&
  eqb (float_le u FRAMEADJ_CUT_RATIO_EHS) (5 * used <=? 3 * m) &&
  eqb (float_ge u FRAMEADJ_EXP_RATIO) (9 * m <=? 10 * used).

Lemma util_exact_all :
  forallb (fun k => forallb (util_exact (2 ^ k)) (seqZ 0 (2 ^ k + 1))) (seqZ 0 9) = true.
Proof. by vm_compute. Qed.

Lemma util_exact_pow2 k used : 0 <= k <= 8 -> 0 <= used <= 2 ^ k -> util_exact (2 ^ k) used = true.
Proof.
  intros Hk Hu. pose proof util_exact_all as H. rewrite forallb_forall in H.
  specialize (H k). rewrite <- list_elem_of_In, elem_of_seqZ in H. specialize (H ltac:(lia)).
  rewrite forallb_forall in H. apply H. rewrite <- list_elem_of_In, elem_of_seqZ. lia.
Qed.

Section FrameLength.
Context (at_ : satmac_attr).

Lemma free_range m l : 0 <= m <= Z.of_nat (length l) -> 0 <= free_ths m l <= m /\ 0 <= free_ehs m l <= m.
Proof.
  intros Hm. unfold free_ths, free_ehs.
  split; (split; [lia|]; etrans; [apply Nat2Z.inj_le, length_filter|]; rewrite length_take; lia).
Qed.

(** The length chosen by [adjFrameLen] in exact arithmetic: double when at
    least nine tenths of the slots are used within three hops or few are free,
    halve when the upper half is unused and the frame is sparse. *)
Definition frame_len_exact (thr m : Z) (l : list slot_tag) : Z :=
  let ths := free_ths m l in let ehs := free_ehs m l in
  if ((ehs <=? thr) || (9 * m <=? 10 * (m - ehs))) && (m <? adj_frame_upper_bound_ at_) then 2 * m
  else if bool_decide (slots_where m l (fun i tag => negb (tg_busy tag =? SLOT_FREE) && (m / 2 <=? i)) = [])
          && (thr <? ths) && (thr <? ehs) && (5 * (m - ths) <=? 2 * m) && (5 * (m - ehs) <=? 3 * m)
          && (adj_frame_lower_bound_ at_ <? m)
  then m / 2 else m.

Lemma util_cases k free : 0 <= k <= 8 -> 0 <= free <= 2 ^ k ->
  float_le (utilrate (2 ^ k) free) FRAMEADJ_CUT_RATIO_THS = (5 * (2 ^ k - free) <=? 2 * 2 ^ k) /\
  float_le (utilrate (2 ^ k) free) FRAMEADJ_CUT_RATIO_EHS = (5 * (2 ^ k - free) <=? 3 * 2 ^ k) /\
  float_ge (utilrate (2 ^ k) free) FRAMEADJ_EXP_RATIO = (9 * 2 ^ k <=? 10 * (2 ^ k - free)).
Proof.
  intros Hk Hf. pose proof (util_exact_pow2 k (2 ^ k - free) Hk ltac:(lia)) as H. unfold util_exact in H.
  replace (2 ^ k - (2 ^ k - free)) with free in H by lia.
  rewrite !andb_true_iff, !eqb_true_iff in H. tauto.
Qed.

Lemma adjFrameLen_exact k thr l : adj_frame_ena_ at_ = true -> 0 <= k <= 8 -> 2 ^ k <= Z.of_nat (length l) ->
  fst (adjFrameLen at_ thr (2 ^ k) l) = frame_len_exact thr (2 ^ k) l.
Proof.
  intros Ha Hk Hl. pose proof (Z.pow_pos_nonneg 2 k ltac:(lia) ltac:(lia)) as Hp.
  destruct (free_range (2 ^ k) l ltac:(lia)) as [Ht He]. unfold adjFrameLen. rewrite Ha. cbn [negb fst].
  unfold frame_len_exact. cbv zeta. set (ths := free_ths (2 ^ k) l) in *. set (ehs := free_ehs (2 ^ k) l) in *.
  destruct (util_cases k ths Hk Ht) as (T1 & _ & _). destruct (util_cases k ehs Hk He) as (_ & E2 & E3).
  set (cut := bool_decide _).
  destruct (Z.leb_spec ehs thr), (Z.leb_spec ths thr); rewrite ?T1, ?E2, ?E3;
    change (float_ge (float_of_int 1) FRAMEADJ_EXP_RATIO) with true;
    change (float_le (float_of_int 1) FRAMEADJ_CUT_RATIO_EHS) with false;
    change (float_le (float_of_int 1) FRAMEADJ_CUT_RATIO_THS) with false;
    repeat match goal with |- context [Z.ltb ?a ?b] => destruct (Z.ltb_spec a b); try lia end;
    rewrite ?andb_false_r, ?andb_true_r; cbn [orb andb];
    repeat (match goal with |- context [if ?b then _ else _] => destruct b end); lia.
Qed.

Lemma adjFrameLen_threshold thr m l : 1 <= thr -> 1 <= snd (adjFrameLen at_ thr m l).
Proof.
  intros Ht. unfold adjFrameLen. destruct (negb _); [done|]. cbv zeta. cbn [snd].
  match goal with |- context [?x =? 16] => generalize x end. intros z.
  destruct (z =? 16), (z =? 32), (z =? 64); lia.
Qed.

Lemma pow2_double k : 0 <= k -> 2 * 2 ^ k = 2 ^ (k + 1).
Proof. intros. by rewrite Z.pow_add_r, Z.mul_comm by lia. Qed.
Lemma pow2_half k : 1 <= k -> 2 ^ k / 2 = 2 ^ (k - 1).
Proof. intros. replace k with (k - 1 + 1) at 1 by lia. rewrite Z.pow_add_r by lia. change (2 ^ 1) with 2. by rewrite Z.div_mul by lia. Qed.

Lemma frame_len_exact_bounds k lo hi thr l :
  0 <= lo -> 2 ^ lo = adj_frame_lower_bound_ at_ -> 2 ^ hi = adj_frame_upper_bound_ at_ -> lo <= k <= hi ->
  exists k', lo <= k' <= hi /\ frame_len_exact thr (2 ^ k) l = 2 ^ k'.
Proof.
  intros Hlo Elo Ehi Hk. unfold frame_len_exact. rewrite <- Elo, <- Ehi. cbv zeta.
  destruct (_ && (2 ^ k <? 2 ^ hi)) eqn:E1.
  { apply andb_true_iff in E1 as [_ E1%Z.ltb_lt]. apply Z.pow_lt_mono_r_iff in E1; [|lia|lia].
    exists (k + 1). split; [lia|]. by apply pow2_double; lia. }
  destruct (_ && (2 ^ lo <? 2 ^ k)) eqn:E2.
  { apply andb_true_iff in E2 as [_ E2%Z.ltb_lt]. apply Z.pow_lt_mono_r_iff in E2; [|lia|lia].
    exists (k - 1). split; [lia|]. apply pow2_half. lia. }
  exists k. done.
Qed.

(** A cut keeps every slot that is in use. *)
Lemma frame_len_exact_keeps thr m l i tag : 0 <= m -> 0 <= i < m -> l !! Z.to_nat i = Some tag ->
  tg_busy tag <> SLOT_FREE -> i < frame_len_exact thr m l.
Proof.
  intros Hm Hi Hl Hb. unfold frame_len_exact. cbv zeta. destruct (_ && (m <? _)); [lia|].
  destruct (_ && (adj_frame_lower_bound_ at_ <? m)) eqn:E; [|lia]. rewrite !andb_true_iff in E.
  destruct E as [[[[[E _] _] _] _] _]. apply bool_decide_eq_true in E.
  pose proof (proj1 (slots_where_nil _ _ _) E i tag Hi Hl) as Hf.
  cbn beta in Hf. destruct (Z.eqb_spec (tg_busy tag) SLOT_FREE); [done|]. cbn in Hf. lia.
Qed.

(** C35. When both bounds of the frame length are powers of two and the length is one
    between them, of at most 256 slots, then [adjFrameLen] adapts it as in exact
    arithmetic (the floats round without effect), the new length is again a power
    of two between the bounds, and a cut keeps every slot that is in use. The
    attribute checkers allow other bounds, with which the length can leave them:
    with the upper bound 100 a length of 64 becomes 128 ([upper_bound_passed]). *)
Theorem adj_frame_len_correct k lo hi thr l :
  adj_frame_ena_ at_ = true -> 0 <= lo <= k -> k <= hi <= 8 ->
  2 ^ lo = adj_frame_lower_bound_ at_ -> 2 ^ hi = adj_frame_upper_bound_ at_ -> 2 ^ k <= Z.of_nat (length l) ->
  let m := fst (adjFrameLen at_ thr (2 ^ k) l) in
  m = frame_len_exact thr (2 ^ k) l /\ (exists k', lo <= k' <= hi /\ m = 2 ^ k') /\
  (forall i tag, 0 <= i < 2 ^ k -> l !! Z.to_nat i = Some tag -> tg_busy tag <> SLOT_FREE -> i < m).
Proof.
  intros Ha Hlo Hhi Elo Ehi Hl. cbv zeta. rewrite (adjFrameLen_exact k thr l Ha ltac:(lia) Hl).
  split; [done|]. split.
  - by apply (frame_len_exact_bounds k lo hi); try lia.
  - intros i tag Hi Hlk Hb. eapply frame_len_exact_keeps; eauto. lia.
Qed.
End FrameLength.
