(* ===== verification/Satmac.v ===== *)
(** The SATMAC node (src/ns3/satmac/model/tdma-satmac.cc): the state machine
    that runs once per slot, the reception of frame information, and the
    sending of the node's own.

    A node owns a slot, its BCH. It listens for a frame, chooses a free slot,
    requests it by sending its frame information there, and works once the
    neighbours confirm it; it gives the slot up when a neighbour reports
    another owner. Packets on the air are byte lists; [sent] collects those the
    node has sent. Logging and the statistics of the slots are left out, and so
    is the time within a slot (see TdmaQueue). *)

From S2P Require Import Prelude FiCodec SatmacFi SatmacSlot.

(** * State *)

Inductive NodeState :=
  | NODE_INIT | NODE_LISTEN | NODE_WAIT_REQUEST | NODE_REQUEST | NODE_WORK_FI | NODE_WORK_ADJ.
#[export] Instance NodeState_eq_dec : EqDecision NodeState.
Proof. solve_decision. Defined.

Record TdmaSatmac := {
  m_frame_len : Z;
  adj_free_threshold_ : Z;
  slot_num_ : Z;
  slot_adj_candidate_ : Z;
  bch_slot_lock_ : Z;
  slot_count_ : Z;
  total_slot_count_ : Z;
  node_state_ : NodeState;
  backoff_frame_num_ : Z;
  collected_fi_ : list slot_tag;
  received_fi_list_ : list Frame_info;
  testmode_init_flag_ : bool;
  draws : Z;                 (* random numbers drawn so far *)
  collision_count_ : Z;
  request_fail_times : Z;
  no_avalible_count_ : Z;
  waiting_frame_count : Z;
  frame_count_ : Z;
  continuous_work_fi_ : Z;
  continuous_work_fi_max_ : Z;
  adj_count_total_ : Z;
  adj_count_success_ : Z;
  sent : list (list Z);      (* frame information packets, oldest first *)
}.
#[export] Instance eta_TdmaSatmac : Eta TdmaSatmac := fun r =>
  Build_TdmaSatmac (m_frame_len r) (adj_free_threshold_ r) (slot_num_ r) (slot_adj_candidate_ r)
    (bch_slot_lock_ r) (slot_count_ r) (total_slot_count_ r) (node_state_ r) (backoff_frame_num_ r)
    (collected_fi_ r) (received_fi_list_ r) (testmode_init_flag_ r) (draws r) (collision_count_ r)
    (request_fail_times r) (no_avalible_count_ r) (waiting_frame_count r) (frame_count_ r)
    (continuous_work_fi_ r) (continuous_work_fi_max_ r) (adj_count_total_ r) (adj_count_success_ r) (sent r).

(** [fi_collection[i]]. *)
Definition read_slot (l : list slot_tag) (i : Z) : outcome slot_tag :=
  if i <? 0 then Oops else match l !! Z.to_nat i with Some tag => Ok tag | None => Oops end.

Definition update_slot (l : list slot_tag) (i : Z) (f : slot_tag -> slot_tag) : outcome (list slot_tag) :=
  obind (read_slot l i) (fun tag => Ok (<[Z.to_nat i := f tag]> l)).

Section Node.
Context (at_ : satmac_attr) (GetInteger : Z -> Z -> Z -> Z).

(** The assignments with which the node claims a slot or gives it up. *)
Definition own_tag (tag : slot_tag) : slot_tag :=
  tag <| tg_busy := SLOT_1HOP |> <| tg_sti := global_sti at_ |> <| tg_count_2hop := 1 |>
      <| tg_count_3hop := 1 |> <| tg_psf := 0 |>.
Definition free_tag (locker : bool) (tag : slot_tag) : slot_tag :=
  tag <| tg_busy := SLOT_FREE |> <| tg_sti := 0 |> <| tg_count_2hop := 0 |> <| tg_count_3hop := 0 |>
      <| tg_psf := 0 |> <| tg_locker := locker |>.

Definition set_slot (i : Z) (f : slot_tag -> slot_tag) (s : TdmaSatmac) : outcome TdmaSatmac :=
  obind (update_slot (collected_fi_ s) i f) (fun l => Ok (s <| collected_fi_ := l |>)).

(** The slot is still the node's: nobody else claims it, or it is empty. *)
Definition slot_valid (tag : slot_tag) : bool :=
  ((tg_sti tag =? global_sti at_) && (tg_busy tag =? SLOT_1HOP)) || (tg_sti tag =? 0).

Definition synthesize (s : TdmaSatmac) : outcome TdmaSatmac :=
  obind (synthesize_fi_list at_ (bool_decide (node_state_ s = NODE_LISTEN)) (slot_num_ s) (slot_adj_candidate_ s)
           (m_frame_len s) (received_fi_list_ s) (collected_fi_ s)) (fun '(m, l) =>
  Ok (s <| m_frame_len := m |> <| collected_fi_ := l |>)).

(** [if (!slot_memory_) clear_others_slot_status(); synthesize_fi_list();] *)
Definition refresh (s : TdmaSatmac) : outcome TdmaSatmac :=
  synthesize
    (if negb (slot_memory_ at_)
     then s <| collected_fi_ ::= clear_others_slot_status at_ (m_frame_len s) |> else s).

(** [determine_BCH (strict)]; the result is passed on. *)
Definition determine (strict : bool) (s : TdmaSatmac) : outcome (Z * TdmaSatmac) :=
  obind (determine_BCH at_ GetInteger strict (testmode_init_flag_ s) (adj_free_threshold_ s) (m_frame_len s)
           (draws s) (collected_fi_ s)) (fun '(i, d, flag) =>
  Ok (i, s <| draws := d |> <| testmode_init_flag_ := flag |>)).

(** The packet is built from the table, whose counters start again. *)
Definition generate_send_FI_packet (s : TdmaSatmac) : outcome TdmaSatmac :=
  obind (FiHeader (m_frame_len s) (global_sti at_) (collected_fi_ s)) (fun '(l, bytes) =>
  Ok (s <| collected_fi_ := l |> <| sent ::= fun p => p ++ [bytes] |>)).

(** No slot could be chosen: listen again after a random number of frames. *)
Definition back_to_listen (s : TdmaSatmac) : TdmaSatmac :=
  s <| node_state_ := NODE_LISTEN |> <| no_avalible_count_ ::= Z.succ |>
    <| backoff_frame_num_ := GetInteger (draws s) 0 20 |> <| draws ::= Z.succ |>
    <| slot_num_ := slot_count_ s |>.

(** The node has lost its slot and chooses another one. *)
Definition choose_again (s : TdmaSatmac) : outcome TdmaSatmac :=
  obind (determine false s) (fun '(i, s) =>
  let s := s <| slot_num_ := i |> in
  if (i <? 0) || (i =? slot_count_ s) then Ok (back_to_listen s)
  else Ok (s <| node_state_ := NODE_WAIT_REQUEST |>)).

(** If the table still names the node as the owner of slot [i], free it. *)
Definition release_slot (i : Z) (s : TdmaSatmac) : outcome TdmaSatmac :=
  obind (read_slot (collected_fi_ s) i) (fun tag =>
  if tg_sti tag =? global_sti at_ then set_slot i (free_tag true) s else Ok s).

(** * The states *)

Definition init_step (s : TdmaSatmac) : TdmaSatmac :=
  s <| node_state_ := NODE_LISTEN |> <| waiting_frame_count := 0 |> <| request_fail_times := 0 |>
    <| collision_count_ := 0 |> <| continuous_work_fi_ := 0 |> <| continuous_work_fi_max_ := 0 |>
    <| adj_count_success_ := 0 |> <| adj_count_total_ := 0 |> <| no_avalible_count_ := 0 |>
    <| backoff_frame_num_ := 0 |>.

Definition request_here (s : TdmaSatmac) : outcome TdmaSatmac :=
  obind (set_slot (slot_count_ s) own_tag s) (fun s =>
  obind (generate_send_FI_packet s) (fun s =>
  Ok (s <| node_state_ := NODE_REQUEST |>))).

Definition listen_step (s : TdmaSatmac) : outcome TdmaSatmac :=
  let s := s <| waiting_frame_count ::= Z.succ |> in
  if negb (backoff_frame_num_ s =? 0) then Ok (s <| backoff_frame_num_ ::= Z.pred |>)
  else
    obind (synthesize (s <| collected_fi_ := clear_FI |>)) (fun s =>
    obind (determine false s) (fun '(i, s) =>
    let s := s <| slot_num_ := i |> in
    if i <? 0 then Ok (back_to_listen s)
    else if i =? slot_count_ s then request_here s
    else Ok (s <| node_state_ := NODE_WAIT_REQUEST |>))).

Definition wait_request_step (s : TdmaSatmac) : outcome TdmaSatmac :=
  let s := s <| waiting_frame_count ::= Z.succ |> in
  obind (refresh s) (fun s =>
  obind (read_slot (collected_fi_ s) (slot_count_ s)) (fun tag =>
  if slot_valid tag then request_here s
  else
    obind (release_slot (slot_count_ s) s) (fun s =>
    choose_again (s <| request_fail_times ::= Z.succ |>)))).

Definition request_step (s : TdmaSatmac) : outcome TdmaSatmac :=
  obind (refresh s) (fun s =>
  obind (read_slot (collected_fi_ s) (slot_count_ s)) (fun tag =>
  if slot_valid tag then generate_send_FI_packet (s <| node_state_ := NODE_WORK_FI |>)
  else
    let s := s <| waiting_frame_count ::= Z.succ |> in
    obind (release_slot (slot_count_ s) s) (fun s =>
    choose_again (s <| request_fail_times ::= Z.succ |>)))).

(** Moving to a better slot, or adapting the frame length. *)
Definition adjust_step (s : TdmaSatmac) : outcome TdmaSatmac :=
  obind (adjust_is_needed at_ (adj_free_threshold_ s) (m_frame_len s) (slot_num_ s) (collected_fi_ s)) (fun needed =>
  if needed then
    obind (determine true s) (fun '(i, s) =>
    let s := s <| slot_adj_candidate_ := i |> in
    if i <? 0 then Ok s
    else if adj_single_slot_ena_ at_ then
      let s := s <| adj_count_success_ ::= Z.succ |> <| slot_num_ := i |> in
      obind (set_slot (slot_count_ s) (free_tag false) s) (fun s => set_slot i own_tag s)
    else
      set_slot i own_tag (s <| node_state_ := NODE_WORK_ADJ |> <| adj_count_total_ ::= Z.succ |>))
  else
    let '(m, thr) := adjFrameLen at_ (adj_free_threshold_ s) (m_frame_len s) (collected_fi_ s) in
    Ok (s <| m_frame_len := m |> <| adj_free_threshold_ := thr |>)).

(** A node without neighbours changes its slot now and then. *)
Definition single_step (s : TdmaSatmac) : outcome TdmaSatmac :=
  if random_bch_if_single_switch_ at_ && isSingle at_ (m_frame_len s) (collected_fi_ s) then
    let lock := bch_slot_lock_ s in
    let s := s <| bch_slot_lock_ ::= Z.pred |> in
    if lock =? 0 then
      obind (determine false s) (fun '(i, s) =>
      let s := s <| slot_num_ := i |> in
      obind (set_slot (slot_count_ s) (free_tag true) s) (fun s =>
      obind (set_slot i own_tag s) (fun s => Ok (s <| bch_slot_lock_ := 5 |>))))
    else Ok s
  else Ok (s <| bch_slot_lock_ := 5 |>).

Definition work_fi_step (s : TdmaSatmac) : outcome TdmaSatmac :=
  obind (refresh s) (fun s =>
  obind (read_slot (collected_fi_ s) (slot_count_ s)) (fun tag =>
  if slot_valid tag then
    let s := s <| continuous_work_fi_ ::= Z.succ |> in
    let s := s <| continuous_work_fi_max_ ::= Z.max (continuous_work_fi_ s) |> in
    obind (adjust_step s) (fun s => obind (generate_send_FI_packet s) single_step)
  else
    let s := s <| continuous_work_fi_ := 0 |> in
    obind (release_slot (slot_count_ s) s) (fun s =>
    choose_again (s <| collision_count_ ::= Z.succ |>)))).

Definition work_adj_step (s : TdmaSatmac) : outcome TdmaSatmac :=
  obind (refresh s) (fun s =>
  let cand := slot_adj_candidate_ s in
  obind (read_slot (collected_fi_ s) (slot_count_ s)) (fun bch =>
  obind (read_slot (collected_fi_ s) cand) (fun adj =>
  if slot_valid bch then
    obind
      (if (tg_count_3hop adj <=? tg_count_3hop bch) && slot_valid adj then
         let oldbch := slot_num_ s in
         set_slot oldbch (free_tag true)
           (s <| node_state_ := NODE_WORK_FI |> <| slot_num_ := cand |> <| adj_count_success_ ::= Z.succ |>)
       else set_slot cand (free_tag true) (s <| node_state_ := NODE_WORK_FI |>))
      generate_send_FI_packet
  else if slot_valid adj then
    Ok (s <| node_state_ := NODE_WORK_FI |> <| adj_count_success_ ::= Z.succ |> <| slot_num_ := cand |>)
  else
    obind (release_slot cand (s <| collision_count_ ::= Z.succ |>)) choose_again))).

(** * The node *)

(** The beginning of a slot. *)
Definition begin_slot (s : TdmaSatmac) : TdmaSatmac :=
  let s := s <| total_slot_count_ ::= Z.succ |> in
  let s := s <| slot_count_ := total_slot_count_ s mod m_frame_len s |> in
  s <| received_fi_list_ ::= fade_received_fi_list 1 |>.

(** Once per slot. A failing [NS_ASSERT] stops the program. *)
Definition slotHandler (s : TdmaSatmac) : outcome TdmaSatmac :=
  let s := begin_slot s in
  if m_frame_len s <? slot_num_ s then Oops
  else if negb (slot_count_ s =? slot_num_ s) then Ok s
  else
    let s := s <| frame_count_ ::= Z.succ |> in
    match node_state_ s with
    | NODE_INIT => Ok (init_step s)
    | NODE_LISTEN => listen_step s
    | NODE_WAIT_REQUEST => wait_request_step s
    | NODE_REQUEST => request_step s
    | NODE_WORK_FI => work_fi_step s
    | NODE_WORK_ADJ => work_adj_step s
    end.

(** A frame information packet arrives: it is added to the list. *)
Definition recvFI (bytes : list Z) (s : TdmaSatmac) : outcome TdmaSatmac :=
  obind (decode_FI (adj_frame_ena_ at_) (m_frame_len s) (slot_count_ s) bytes) (fun fi =>
  Ok (s <| received_fi_list_ ::= fun l => l ++ [fi] |>)).

(** [frame_len] and [threshold] are attributes; the last four arguments are
    the members that [Start] leaves uninitialised. *)
Definition Start (frame_len threshold adj_candidate slot_lock backoff : Z) (testmode : bool) : TdmaSatmac :=
  {| m_frame_len := frame_len; adj_free_threshold_ := threshold;
     slot_num_ := (0 + 1) mod frame_len; slot_adj_candidate_ := adj_candidate;
     bch_slot_lock_ := slot_lock; slot_count_ := 0; total_slot_count_ := 0;
     node_state_ := NODE_INIT; backoff_frame_num_ := backoff;
     collected_fi_ := replicate 512 slot_tag_init; received_fi_list_ := [];
     testmode_init_flag_ := testmode; draws := 0; collision_count_ := 0; request_fail_times := 0;
     no_avalible_count_ := 0; waiting_frame_count := 0; frame_count_ := 0; continuous_work_fi_ := 0;
     continuous_work_fi_max_ := 0; adj_count_total_ := 0; adj_count_success_ := 0; sent := [] |}.
End Node.
