(* ===== verification/SatmacInv.v ===== *)
(** The invariant of a SATMAC node, and what its slot handler does.

    A well-formed node whose neighbours' reports are consistent never fails:
    no index leaves an array, no assertion stops it, and it is well formed
    again after every slot. A node that holds a slot gives it up when one
    neighbour reports another owner, and keeps it when all confirm. *)

From S2P Require Import Prelude FiCodec SatmacFi SatmacSlot Satmac.

(** * Computations that return *)

Definition returns {A} (o : outcome A) (P : A -> Prop) : Prop := exists a, o = Ok a /\ P a.

Lemma returns_ok {A} (a : A) (P : A -> Prop) : P a -> returns (Ok a) P.
Proof. intros H. by exists a. Qed.

Lemma returns_bind {A B} (o : outcome A) (f : A -> outcome B) P Q :
  returns o P -> (forall a, P a -> returns (f a) Q) -> returns (obind o f) Q.
Proof. intros (a & -> & Ha) Hf. exact (Hf a Ha). Qed.

Lemma returns_impl {A} (o : outcome A) (P Q : A -> Prop) : returns o P -> (forall a, P a -> Q a) -> returns o Q.
Proof. intros (a & -> & Ha) H. exists a. auto. Qed.

(** * The invariant *)

(** A packet that a well-formed node sends. *)
Definition packet_ok (bytes : list Z) : Prop :=
  exists k sti tags tags', 0 <= k <= 8 /\ 0 < sti < 512 /\ length tags = 512%nat /\ Forall tag_ok tags /\
    FiHeader (2 ^ k) sti tags = Ok (tags', bytes).

(** The states in which the node uses its slot. *)
Definition holding (st : NodeState) : bool :=
  match st with NODE_REQUEST | NODE_WORK_FI | NODE_WORK_ADJ => true | _ => false end.

(** What does not depend on the state of the protocol. *)
Record table_ok (s : TdmaSatmac) : Prop := {
  ok_len : length (collected_fi_ s) = 512%nat;
  ok_tags : Forall tag_ok (collected_fi_ s);
  ok_recv : Forall fi_ok (received_fi_list_ s);
  ok_frame : exists k, 0 <= k <= 8 /\ m_frame_len s = 2 ^ k;
  ok_thr : 1 <= adj_free_threshold_ s;
  ok_sent : Forall packet_ok (sent s);
}.

(** No neighbour calls a slot empty while another one names it in a collision
    there. *)
Definition consistent (l : list Frame_info) : Prop :=
  forall i fi recv fi' recv', fi ∈ l -> fi' ∈ l ->
    slot_describe fi !! i = Some recv -> slot_describe fi' !! i = Some recv' ->
    tg_busy recv = SLOT_COLLISION -> tg_sti recv <> 0 -> tg_sti recv = fi_sti fi' -> tg_sti recv' <> 0.

(** The identifiers that [l] names in a collision in slot [i]. *)
Definition named (i : nat) (l : list Frame_info) (x : Z) : Prop :=
  x <> 0 /\ exists fi recv, fi ∈ l /\ slot_describe fi !! i = Some recv /\ tg_busy recv = SLOT_COLLISION /\ tg_sti recv = x.

Lemma consistent_reports i l : consistent l -> Forall fi_ok l -> reports_ok i l (named i l).
Proof.
  intros Hc Hok fi recv Hfi Hr. rewrite Forall_forall in Hok. destruct (Hok fi Hfi) as (_ & _ & Hrecv).
  pose proof (Forall_lookup_1 _ _ _ _ Hrecv Hr) as (_ & _ & Hp). split; [done|]. split.
  - intros H0 (Hx & fi' & recv' & Hfi' & Hr' & Hb & Hs). eapply (Hc i fi' recv' fi recv); eauto. by rewrite Hs.
  - intros Hb Hs. split; [done|]. by exists fi, recv.
Qed.

Lemma fade_elem t l fi : fi ∈ fade_received_fi_list t l ->
  exists fi0, fi0 ∈ l /\ fi = fi0 <| fi_remain_time ::= fun r => r - t |>.
Proof.
  unfold fade_received_fi_list. rewrite list_elem_of_filter, list_elem_of_fmap. intros [_ (fi0 & -> & H)]. by exists fi0.
Qed.

Lemma fade_keeps l fi : fi ∈ l -> 1 < fi_remain_time fi ->
  fi <| fi_remain_time ::= fun r => r - 1 |> ∈ fade_received_fi_list 1 l.
Proof.
  intros Hfi Hr. unfold fade_received_fi_list. rewrite list_elem_of_filter, list_elem_of_fmap. split; [|by exists fi].
  cbn. lia.
Qed.

Lemma fade_ok t l : Forall fi_ok l -> Forall fi_ok (fade_received_fi_list t l).
Proof. rewrite !Forall_forall. intros H fi (fi0 & Hin & ->)%fade_elem. exact (H fi0 Hin). Qed.

Lemma fade_consistent t l : consistent l -> consistent (fade_received_fi_list t l).
Proof.
  intros H i fi recv fi' recv' (f & Hf & ->)%fade_elem (f' & Hf' & ->)%fade_elem. exact (H i f recv f' recv' Hf Hf').
Qed.

Section Invariant.
Context (at_ : satmac_attr) (GetInteger : Z -> Z -> Z -> Z).

(** The node announces slot [i] as its own. *)
Definition own_at (i : Z) (l : list slot_tag) : Prop :=
  exists tag, l !! Z.to_nat i = Some tag /\ tg_sti tag = global_sti at_ /\ tg_busy tag = SLOT_1HOP.

Record node_ok (s : TdmaSatmac) : Prop := {
  ok_table : table_ok s;
  ok_slot : 0 <= slot_num_ s < m_frame_len s;
  ok_own : holding (node_state_ s) = true -> own_at (slot_num_ s) (collected_fi_ s);
  ok_cand : node_state_ s = NODE_WORK_ADJ ->
    0 <= slot_adj_candidate_ s < m_frame_len s /\ slot_adj_candidate_ s <> slot_num_ s /\
    own_at (slot_adj_candidate_ s) (collected_fi_ s);
}.

(** The attributes: identifiers have nine bits, the table remembers slots
    (the default), the random choice is not in its test mode, frame lengths
    are adapted between bounds that fit the table. *)
Record attr_ok : Prop := {
  at_id : 0 < global_sti at_ < 512;
  at_memory : slot_memory_ at_ = true;
  at_switch : choose_bch_random_switch_ at_ <> 2;
  at_frame : adj_frame_ena_ at_ = true;
  at_lower : 1 <= adj_frame_lower_bound_ at_;
  at_upper : adj_frame_upper_bound_ at_ <= 256;
  (** a uniform random variable returns a value of its range *)
  at_random : forall k lo hi, lo <= hi -> lo <= GetInteger k lo hi <= hi;
}.
Context (Hat : attr_ok).

Lemma id_nonzero : global_sti at_ <> 0.
Proof using Hat. pose proof (at_id Hat). lia. Qed.

Lemma frame_range s : table_ok s -> 1 <= m_frame_len s <= 256.
Proof using.
  intros [_ _ _ (k & Hk & ->) _ _]. pose proof (Z.pow_le_mono_r 2 k 8 ltac:(lia) ltac:(lia)).
  pose proof (Z.pow_pos_nonneg 2 k ltac:(lia) ltac:(lia)). change (2 ^ 8) with 256 in *. lia.
Qed.

Lemma table_lookup s i : table_ok s -> 0 <= i < 512 ->
  exists tag, collected_fi_ s !! Z.to_nat i = Some tag /\ tag_ok tag.
Proof using.
  intros Hs Hi. destruct (lookup_lt_is_Some_2 (collected_fi_ s) (Z.to_nat i)) as [tag Ht]; [rewrite (ok_len s Hs); lia|].
  exists tag. split; [done|]. eapply Forall_lookup_1; [apply (ok_tags s Hs)|done].
Qed.

Lemma read_slot_eq l i tag : 0 <= i -> l !! Z.to_nat i = Some tag -> read_slot l i = Ok tag.
Proof using. intros Hi Hl. unfold read_slot. rewrite (proj2 (Z.ltb_ge _ _)) by lia. by rewrite Hl. Qed.

Lemma set_slot_eq i f s tag : 0 <= i -> collected_fi_ s !! Z.to_nat i = Some tag ->
  set_slot i f s = Ok (s <| collected_fi_ := <[Z.to_nat i := f tag]> (collected_fi_ s) |>).
Proof using. intros Hi Hl. unfold set_slot, update_slot. by rewrite (read_slot_eq _ _ _ Hi Hl). Qed.

(** The table with one slot changed. *)
Definition with_slot (i : Z) (tag : slot_tag) (s : TdmaSatmac) : TdmaSatmac :=
  s <| collected_fi_ := <[Z.to_nat i := tag]> (collected_fi_ s) |>.

Lemma with_slot_ok i tag s : table_ok s -> tag_ok tag -> table_ok (with_slot i tag s).
Proof using.
  intros [] Ht. constructor; cbn; try done; [by rewrite length_insert|]. by apply Forall_insert.
Qed.

Lemma own_tag_ok tag : tag_ok (own_tag at_ tag).
Proof using Hat. pose proof (at_id Hat). unfold tag_ok. cbn. unfold SLOT_1HOP, SLOT_FREE. lia. Qed.
Lemma free_tag_ok b tag : tag_ok (free_tag b tag).
Proof using. unfold tag_ok. cbn. unfold SLOT_FREE. lia. Qed.

Lemma own_at_insert i tag s : 0 <= i < 512 -> table_ok s -> own_at i (collected_fi_ (with_slot i (own_tag at_ tag) s)).
Proof using.
  intros Hi Hs. exists (own_tag at_ tag). cbn. rewrite list_lookup_insert_eq by (rewrite (ok_len s Hs); lia). done.
Qed.

Lemma own_at_other i j tag l : 0 <= i -> 0 <= j -> i <> j -> own_at i l -> own_at i (<[Z.to_nat j := tag]> l).
Proof using. intros Hi Hj Hne (t & Ht & H). exists t. rewrite list_lookup_insert_ne by lia. done. Qed.

Lemma slot_valid_own X tag : owned at_ X tag -> slot_valid at_ tag = true ->
  tg_sti tag = global_sti at_ /\ tg_busy tag = SLOT_1HOP /\ tg_locker tag = false.
Proof using.
  intros (_ & H0 & Hl & _). unfold slot_valid. rewrite (proj2 (Z.eqb_neq _ _) H0), orb_false_r, andb_true_iff.
  intros [Hs Hb]. apply Z.eqb_eq in Hs. split_and!; [done|lia|auto].
Qed.

(** * The operations *)

Lemma synthesize_returns s : table_ok s ->
  exists m l, synthesize at_ s = Ok (s <| m_frame_len := m |> <| collected_fi_ := l |>) /\
    table_ok (s <| m_frame_len := m |> <| collected_fi_ := l |>) /\ m_frame_len s <= m.
Proof using Hat.
  intros [Hl Ht Hr (k & Hk & Em) Hthr Hsent]. unfold synthesize. rewrite Em.
  destruct (synthesize_ok at_ id_nonzero (bool_decide (node_state_ s = NODE_LISTEN)) (slot_num_ s) (slot_adj_candidate_ s) k
    (received_fi_list_ s) (collected_fi_ s) Hl Ht Hk Hr) as (k' & l' & -> & Hl' & Ht' & Hk' & _).
  exists (2 ^ k'), l'. split; [done|]. split; [|apply Z.pow_le_mono_r; lia].
  constructor; cbn; try done. exists k'. split; [lia|done].
Qed.

Lemma refresh_eq s : refresh at_ s = synthesize at_ s.
Proof using Hat. unfold refresh. by rewrite (at_memory Hat). Qed.

(** A slot of the node after a refresh. *)
Lemma refresh_owned s s' i : table_ok s -> node_state_ s <> NODE_LISTEN -> consistent (received_fi_list_ s) ->
  0 <= i < m_frame_len s -> i = slot_num_ s \/ i = slot_adj_candidate_ s -> own_at i (collected_fi_ s) ->
  synthesize at_ s = Ok s' ->
  exists tag, collected_fi_ s' !! Z.to_nat i = Some tag /\ owned at_ (named (Z.to_nat i) (received_fi_list_ s)) tag.
Proof using Hat.
  intros Hs Hst Hcons Hi Hc (tag & Htag & Hid & _) E.
  pose proof (Forall_lookup_1 _ _ _ _ (ok_tags s Hs) Htag) as (_ & _ & _ & _ & Hpsf & _).
  destruct (ok_frame s Hs) as (k & Hk & Em). unfold synthesize in E. rewrite bool_decide_eq_false_2, Em in E by done.
  rewrite Em in Hi.
  destruct (synthesize_owned at_ id_nonzero (slot_num_ s) (slot_adj_candidate_ s) k (received_fi_list_ s) (collected_fi_ s)
    (at_memory Hat) (ok_len s Hs) (ok_tags s Hs) Hk (ok_recv s Hs) i tag Hi Hc Htag Hid Hpsf (named (Z.to_nat i) (received_fi_list_ s)))
    as (k' & l' & tag' & E' & _ & _ & _ & Hlk & Ho); [by apply consistent_reports; [|apply ok_recv]|].
  rewrite E' in E. injection E as <-. by exists tag'.
Qed.

(** Sending keeps owners and statuses. *)
Lemma generate_returns s : table_ok s ->
  exists l bytes, generate_send_FI_packet at_ s = Ok (s <| collected_fi_ := l |> <| sent ::= fun p => p ++ [bytes] |>) /\
    table_ok (s <| collected_fi_ := l |> <| sent ::= fun p => p ++ [bytes] |>) /\
    (forall i tag, collected_fi_ s !! i = Some tag ->
     exists tag', l !! i = Some tag' /\ tg_sti tag' = tg_sti tag /\ tg_busy tag' = tg_busy tag /\ tg_locker tag' = tg_locker tag) /\
    FiHeader (m_frame_len s) (global_sti at_) (collected_fi_ s) = Ok (l, bytes).
Proof using Hat.
  intros Hs. pose proof (frame_range s Hs) as Hm. pose proof Hs as [Hl Ht Hr (k & Hk & Em) Hthr Hsent].
  destruct (fi_header_spec (m_frame_len s) (global_sti at_) (collected_fi_ s)) as (bytes & E & _); [lia| |].
  { rewrite Em, Z.log2_pow2 by lia. unfold in_u8. lia. }
  unfold generate_send_FI_packet. rewrite E. cbn [obind]. do 2 eexists. split; [done|].
  assert (forall tag, tag_ok tag -> tag_ok (clear_counts (global_sti at_) tag)) as Hcl.
  { unfold tag_ok, clear_counts. intros tag H. case_match; cbn; lia. }
  split; [|split; [|done]].
  - constructor; cbn; try done.
    + rewrite length_app, length_fmap, <- length_app, take_drop. done.
    + apply Forall_app. split; [|by apply Forall_drop]. apply Forall_fmap. eapply Forall_impl; [by apply Forall_take|]. exact Hcl.
    + by exists k.
    + apply Forall_app. split; [done|]. constructor; [|constructor]. exists k, (global_sti at_), (collected_fi_ s). eexists.
      rewrite Em in E. pose proof (at_id Hat). split_and!; try done; lia.
  - intros i tag Hi. destruct (decide (i < Z.to_nat (m_frame_len s))%nat) as [Hlt|Hge].
    + exists (clear_counts (global_sti at_) tag). rewrite lookup_app_l by (rewrite length_fmap, length_take; lia).
      rewrite list_lookup_fmap, lookup_take_lt, Hi by done. split; [done|]. unfold clear_counts. by case_match.
    + exists tag. rewrite lookup_app_r by (rewrite length_fmap, length_take; lia).
      rewrite lookup_drop, length_fmap, length_take. split; [|done]. rewrite <- Hi. f_equal. lia.
Qed.

Lemma determine_returns strict s : table_ok s ->
  exists i d, determine at_ GetInteger strict s = Ok (i, s <| draws := d |>) /\
    ((i = -1 /\ forall j tag, 0 <= j < m_frame_len s -> collected_fi_ s !! Z.to_nat j = Some tag ->
        candidate at_ strict tag = false) \/
     (0 <= i < m_frame_len s /\ exists tag, collected_fi_ s !! Z.to_nat i = Some tag /\ candidate at_ strict tag = true)).
Proof using Hat.
  intros Hs. pose proof (frame_range s Hs) as Hm. unfold determine.
  destruct (determine_BCH_spec at_ GetInteger (at_random Hat) (at_switch Hat) strict (testmode_init_flag_ s)
    (adj_free_threshold_ s) (m_frame_len s) (draws s) (collected_fi_ s)) as (i & d & -> & H);
    [done|rewrite (ok_len s Hs); lia|apply (ok_thr s Hs)|].
  exists i, d. split; [by destruct s|done].
Qed.

(** * The steps *)

(** Only these fields matter to the table. *)
Lemma table_ok_same s s' : table_ok s -> collected_fi_ s' = collected_fi_ s -> received_fi_list_ s' = received_fi_list_ s ->
  m_frame_len s' = m_frame_len s -> adj_free_threshold_ s' = adj_free_threshold_ s -> sent s' = sent s -> table_ok s'.
Proof using. intros [] E1 E2 E3 E4 E5. constructor; rewrite ?E1, ?E2, ?E3, ?E4, ?E5; done. Qed.

(** The node gives its slot up and sends nothing. *)
Definition gave_up (s s' : TdmaSatmac) : Prop :=
  sent s' = sent s /\
  ((node_state_ s' = NODE_LISTEN /\ slot_num_ s' = slot_count_ s) \/
   (node_state_ s' = NODE_WAIT_REQUEST /\ slot_num_ s' <> slot_count_ s)).

Lemma choose_again_ok s : table_ok s -> 0 <= slot_count_ s < m_frame_len s ->
  returns (choose_again at_ GetInteger s) (fun s' => node_ok s' /\ gave_up s s').
Proof using Hat.
  intros Hs Hc. unfold choose_again. destruct (determine_returns false s Hs) as (i & d & -> & Hi). cbn [obind].
  cbn [slot_count_ upd eta eta_TdmaSatmac]. destruct ((i <? 0) || (i =? slot_count_ s)) eqn:E; apply returns_ok.
  - split; [|by split; [|left]]. constructor; try done. by eapply table_ok_same.
  - assert (i <> -1 /\ i <> slot_count_ s) as [H1 H2] by lia. destruct Hi as [[-> _]|[Hi _]]; [done|].
    split; [|by split; [|right]]. constructor; try done. by eapply table_ok_same.
Qed.

Lemma release_slot_ok i s : table_ok s -> 0 <= i < 512 ->
  exists l, release_slot at_ i s = Ok (s <| collected_fi_ := l |>) /\ table_ok (s <| collected_fi_ := l |>).
Proof using Hat.
  intros Hs Hi. destruct (table_lookup s i Hs Hi) as (tag & Ht & Hok). unfold release_slot.
  rewrite (read_slot_eq _ _ _ (proj1 Hi) Ht). cbn [obind]. destruct (tg_sti tag =? global_sti at_).
  - rewrite (set_slot_eq i _ s tag (proj1 Hi) Ht). eexists. split; [done|]. apply with_slot_ok; [done|]. apply free_tag_ok.
  - exists (collected_fi_ s). by destruct s.
Qed.

(** The whole of giving up: [f] counts the event. *)
Lemma abandon_ok i f s : table_ok s -> 0 <= i < 512 -> 0 <= slot_count_ s < m_frame_len s ->
  (forall s, collected_fi_ (f s) = collected_fi_ s /\ received_fi_list_ (f s) = received_fi_list_ s /\
   m_frame_len (f s) = m_frame_len s /\ adj_free_threshold_ (f s) = adj_free_threshold_ s /\ sent (f s) = sent s /\
   slot_count_ (f s) = slot_count_ s) ->
  returns (obind (release_slot at_ i s) (fun s => choose_again at_ GetInteger (f s))) (fun s' => node_ok s' /\ gave_up s s').
Proof using Hat.
  intros Hs Hi Hc Hf. destruct (release_slot_ok i s Hs Hi) as (l & -> & Hs1). cbn [obind].
  destruct (Hf (s <| collected_fi_ := l |>)) as (F1 & F2 & F3 & F4 & F5 & F6).
  eapply returns_impl; [apply choose_again_ok|].
  - by eapply table_ok_same.
  - rewrite F6, F3. done.
  - intros s' [H1 H2]. split; [done|]. unfold gave_up in *. rewrite F5, F6 in H2. done.
Qed.

Lemma request_here_ok s : table_ok s -> slot_num_ s = slot_count_ s -> 0 <= slot_count_ s < m_frame_len s ->
  returns (request_here at_ s) (fun s' => node_ok s' /\ node_state_ s' = NODE_REQUEST /\
    received_fi_list_ s' = received_fi_list_ s /\ m_frame_len s' = m_frame_len s).
Proof using Hat.
  intros Hs Hn Hc. pose proof (frame_range s Hs). unfold request_here.
  destruct (table_lookup s (slot_count_ s) Hs ltac:(lia)) as (tag & Ht & _).
  rewrite (set_slot_eq _ _ _ _ (proj1 Hc) Ht). cbn [obind]. fold (with_slot (slot_count_ s) (own_tag at_ tag) s).
  set (s1 := with_slot _ _ s). assert (table_ok s1) as Hs1 by (apply with_slot_ok; [done|apply own_tag_ok]).
  destruct (own_at_insert (slot_count_ s) tag s ltac:(lia) Hs) as (t & Hlk & Hid & Hb). fold s1 in Hlk.
  destruct (generate_returns s1 Hs1) as (l & bytes & -> & Hs2 & Hsame & _). cbn [obind]. apply returns_ok.
  split; [|done]. constructor; try done.
  - by eapply table_ok_same.
  - cbn. rewrite Hn. done.
  - intros _. destruct (Hsame _ _ Hlk) as (t' & Ht' & Hi' & Hb' & _). exists t'. cbn. rewrite Hn, Hi', Hb'. done.
Qed.

Lemma clear_ok : Forall tag_ok clear_FI.
Proof using. apply Forall_replicate. unfold tag_ok. cbn. unfold SLOT_FREE. lia. Qed.

Lemma listen_step_ok s : table_ok s -> node_state_ s = NODE_LISTEN -> slot_num_ s = slot_count_ s ->
  0 <= slot_count_ s < m_frame_len s -> returns (listen_step at_ GetInteger s) node_ok.
Proof using Hat.
  intros Hs Hst Hn Hc. unfold listen_step. destruct (negb _).
  { apply returns_ok. constructor; cbn; try (rewrite Hst; done); [by eapply table_ok_same|lia]. }
  set (s0 := _ <| collected_fi_ := clear_FI |>).
  assert (table_ok s0) as Hs0.
  { destruct Hs. constructor; try done. exact clear_ok. }
  destruct (synthesize_returns s0 Hs0) as (m & l & -> & Hs1 & Hm). cbn [obind]. set (s1 := _ <| collected_fi_ := l |>) in *.
  destruct (determine_returns false s1 Hs1) as (i & d & -> & Hi). cbn [obind].
  change (m_frame_len s0) with (m_frame_len s) in Hm. change (m_frame_len s1) with m in Hi.
  cbn [slot_count_ upd eta eta_TdmaSatmac]. change (slot_count_ s1) with (slot_count_ s).
  destruct (Z.ltb_spec i 0).
  { apply returns_ok. constructor; try done; [by eapply table_ok_same|cbn; lia]. }
  destruct Hi as [[-> _]|[Hi _]]; [lia|]. destruct (Z.eqb_spec i (slot_count_ s)).
  - eapply returns_impl; [apply request_here_ok|tauto]; [by eapply table_ok_same|done|cbn; lia].
  - apply returns_ok. constructor; try done. by eapply table_ok_same.
Qed.

Lemma wait_request_step_ok s : table_ok s -> slot_num_ s = slot_count_ s ->
  0 <= slot_count_ s < m_frame_len s -> returns (wait_request_step at_ GetInteger s) node_ok.
Proof using Hat.
  intros Hs Hn Hc. unfold wait_request_step. rewrite refresh_eq.
  destruct (synthesize_returns (s <| waiting_frame_count ::= Z.succ |>)) as (m & l & -> & Hs1 & Hm);
    [by eapply table_ok_same|]. cbn [obind]. set (s1 := _ <| collected_fi_ := l |>) in *.
  change (m_frame_len s <= m) in Hm. pose proof (frame_range s1 Hs1) as Hr. change (1 <= m <= 256) in Hr.
  change (slot_count_ s1) with (slot_count_ s).
  destruct (table_lookup s1 (slot_count_ s) Hs1 ltac:(lia)) as (tag & Ht & _).
  rewrite (read_slot_eq _ _ _ (proj1 Hc) Ht). cbn [obind]. destruct (slot_valid at_ tag).
  - eapply returns_impl; [apply request_here_ok; [done|done|]|tauto]. cbn. lia.
  - eapply returns_impl; [apply (abandon_ok _ (fun s => s <| request_fail_times ::= Z.succ |>)); [done|lia|cbn; lia|done]|tauto].
Qed.

(** A packet that names slot [i] as the node's own. *)
Definition announces (i : Z) (bytes : list Z) : Prop :=
  exists m l l', FiHeader m (global_sti at_) l = Ok (l', bytes) /\ 0 <= i < m /\ own_at i l.

(** Still in possession of the slot, and the frame information is sent. Two rules
    of the node itself change the slot: the adjustment in one step, and the draw
    of a node that is alone. *)
Definition went_on (s s' : TdmaSatmac) : Prop :=
  (node_state_ s' = NODE_WORK_FI \/ node_state_ s' = NODE_WORK_ADJ) /\ exists bytes, sent s' = sent s ++ [bytes] /\
  (adj_single_slot_ena_ at_ = false -> announces (slot_num_ s) bytes /\
     (bch_slot_lock_ s <> 0 \/ random_bch_if_single_switch_ at_ = false -> slot_num_ s' = slot_num_ s)).

(** A step of a node that holds a slot: [tag] is the slot after the refresh. *)
Definition decided (s : TdmaSatmac) (tag : slot_tag) (s' : TdmaSatmac) : Prop :=
  node_ok s' /\ if slot_valid at_ tag then went_on s s' else gave_up s s'.

Lemma own_at_sent (l l' : list slot_tag) i :
  (forall i tag, l !! i = Some tag -> exists tag', l' !! i = Some tag' /\ tg_sti tag' = tg_sti tag /\
     tg_busy tag' = tg_busy tag /\ tg_locker tag' = tg_locker tag) ->
  own_at i l -> own_at i l'.
Proof using.
  intros H (t & Ht & Hid & Hb). destruct (H _ _ Ht) as (t' & Ht' & H1 & H2 & _). exists t'. by rewrite H1, H2.
Qed.

Lemma adj_frame_ok s : table_ok s -> own_at (slot_num_ s) (collected_fi_ s) -> 0 <= slot_num_ s < m_frame_len s ->
  exists m thr, adjFrameLen at_ (adj_free_threshold_ s) (m_frame_len s) (collected_fi_ s) = (m, thr) /\
    table_ok (s <| m_frame_len := m |> <| adj_free_threshold_ := thr |>) /\ slot_num_ s < m.
Proof using Hat.
  intros Hs (tag & Ht & _ & Hb) Hn. pose proof Hs as [Hl Htags Hr (k & Hk & Em) Hthr Hsent].
  pose proof (adjFrameLen_exact at_ k (adj_free_threshold_ s) (collected_fi_ s) (at_frame Hat) Hk) as Hex.
  pose proof (Z.pow_le_mono_r 2 k 8 ltac:(lia) ltac:(lia)) as H8. change (2 ^ 8) with 256 in H8.
  specialize (Hex ltac:(lia)). rewrite <- Em in Hex.
  pose proof (frame_len_exact_keeps at_ (adj_free_threshold_ s) (m_frame_len s) (collected_fi_ s) (slot_num_ s) tag) as Hkeep.
  specialize (Hkeep ltac:(lia) Hn Ht). rewrite Hb in Hkeep. specialize (Hkeep ltac:(done)). rewrite <- Hex in Hkeep.
  destruct (adjFrameLen at_ _ _ _) as [m thr] eqn:Ea. cbn [fst] in *. exists m, thr. split; [done|]. split; [|done].
  pose proof (adjFrameLen_threshold at_ (adj_free_threshold_ s) (m_frame_len s) (collected_fi_ s) Hthr) as Ht1.
  rewrite Ea in Ht1. cbn [snd] in Ht1.
  constructor; cbn; try done. rewrite Hex, Em. pose proof (at_lower Hat). pose proof (at_upper Hat).
  unfold frame_len_exact. cbv zeta. destruct (_ && (2 ^ k <? _)) eqn:E1.
  { apply andb_true_iff in E1 as [_ E1%Z.ltb_lt]. exists (k + 1). split; [|by apply pow2_double; lia].
    destruct (decide (k = 8)) as [->|]; [change (2 ^ 8) with 256 in E1|]; lia. }
  destruct (_ && (_ <? 2 ^ k)) eqn:E2; [|by exists k].
  apply andb_true_iff in E2 as [_ E2%Z.ltb_lt]. exists (k - 1). destruct (decide (k = 0)) as [->|]; [cbn in E2; lia|].
  split; [lia|]. apply pow2_half. lia.
Qed.

(** The adjustment: [needed] tells which of the two it is. *)
Definition adjusted (needed : bool) (s s' : TdmaSatmac) : Prop :=
  node_ok s' /\ (node_state_ s' = NODE_WORK_FI \/ node_state_ s' = NODE_WORK_ADJ) /\ sent s' = sent s /\
  slot_count_ s' = slot_count_ s /\ bch_slot_lock_ s' = bch_slot_lock_ s /\
  (adj_single_slot_ena_ at_ = false -> slot_num_ s' = slot_num_ s) /\
  (needed = false -> node_state_ s' = NODE_WORK_FI /\ slot_num_ s' = slot_num_ s /\ collected_fi_ s' = collected_fi_ s).

Lemma strict_not_own i l : own_at i l -> forall j tag, l !! Z.to_nat j = Some tag -> candidate at_ true tag = true -> j <> i.
Proof using.
  intros (t & Ht & _ & Hb) j tag Hj Hcand ->. rewrite Ht in Hj. injection Hj as <-. unfold candidate in Hcand.
  rewrite Hb in Hcand. done.
Qed.

Lemma adjust_step_ok s : node_ok s -> node_state_ s = NODE_WORK_FI -> slot_num_ s = slot_count_ s ->
  exists needed, adjust_is_needed at_ (adj_free_threshold_ s) (m_frame_len s) (slot_num_ s) (collected_fi_ s) = Ok needed /\
    returns (adjust_step at_ GetInteger s) (adjusted needed s).
Proof using Hat.
  intros [Hs Hslot Hown _] Hst Hn. rewrite Hst in Hown. specialize (Hown eq_refl). pose proof (frame_range s Hs) as Hr.
  unfold adjust_step. destruct (adjust_is_needed _ _ _ _ _) as [needed|] eqn:Ea.
  2:{ exfalso. unfold adjust_is_needed in Ea. destruct Hown as (t & Ht & _). by rewrite Ht in Ea. }
  exists needed. split; [done|]. cbn [obind]. destruct needed; cycle 1.
  { destruct (adj_frame_ok s Hs Hown Hslot) as (m & thr & -> & Hs' & Hlt). apply returns_ok. unfold adjusted.
    split; [|cbn; rewrite ?Hst; split_and!; auto]. constructor; cbn; try (rewrite Hst; done); try done; lia. }
  destruct (determine_returns true s Hs) as (i & d & -> & Hi). cbn [obind]. set (s1 := _ <| slot_adj_candidate_ := i |>).
  assert (table_ok s1) as Hs1 by by eapply table_ok_same.
  destruct (Z.ltb_spec i 0) as [Hneg|Hpos].
  { apply returns_ok. unfold adjusted. split; [|cbn; rewrite ?Hst; split_and!; auto]. constructor; cbn; rewrite ?Hst; done. }
  destruct Hi as [[-> _]|(Hi & tag & Htag & Hcand)]; [lia|].
  assert (i <> slot_num_ s) as Hne by by eapply strict_not_own.
  destruct (adj_single_slot_ena_ at_) eqn:Esingle.
  - destruct (table_lookup s1 (slot_count_ s) Hs1 ltac:(lia)) as (t0 & Ht0 & _).
    set (s2 := _ <| slot_num_ := i |>). assert (table_ok s2) as Hs2 by by eapply table_ok_same.
    change (slot_count_ s2) with (slot_count_ s). rewrite (set_slot_eq (slot_count_ s) _ s2 t0 ltac:(lia) Ht0). cbn [obind].
    fold (with_slot (slot_count_ s) (free_tag false t0) s2). set (s3 := with_slot _ _ s2).
    assert (table_ok s3) as Hs3 by (apply with_slot_ok; [done|apply free_tag_ok]).
    destruct (table_lookup s3 i Hs3 ltac:(lia)) as (t1 & Ht1 & _). rewrite (set_slot_eq i _ s3 t1 ltac:(lia) Ht1).
    fold (with_slot i (own_tag at_ t1) s3). apply returns_ok. unfold adjusted. split; [|cbn; rewrite ?Hst; split_and!; auto; congruence].
    constructor; try (cbn; rewrite ?Hst; done).
    + apply with_slot_ok; [done|apply own_tag_ok].
    + intros _. change (own_at i (collected_fi_ (with_slot i (own_tag at_ t1) s3))). apply own_at_insert; [lia|done].
  - set (s2 := _ <| adj_count_total_ ::= Z.succ |>). assert (table_ok s2) as Hs2 by by eapply table_ok_same.
    rewrite (set_slot_eq i _ s2 tag ltac:(lia) Htag). fold (with_slot i (own_tag at_ tag) s2). apply returns_ok.
    unfold adjusted. split; [|cbn; rewrite ?Hst; split_and!; auto; done]. constructor; try done.
    + apply with_slot_ok; [done|apply own_tag_ok].
    + intros _. apply (own_at_other (slot_num_ s) i); [lia|lia|done|done].
    + intros _. split; [done|]. split; [done|].
      change (own_at i (collected_fi_ (with_slot i (own_tag at_ tag) s2))). apply own_at_insert; [lia|done].
Qed.

(** A node alone changes its slot; it must not be about to move anyway. *)
Lemma single_step_ok s : node_ok s ->
  (bch_slot_lock_ s = 0 -> random_bch_if_single_switch_ at_ = true -> node_state_ s = NODE_WORK_FI /\
   slot_num_ s = slot_count_ s /\ exists tag, collected_fi_ s !! Z.to_nat (slot_count_ s) = Some tag /\
   tg_sti tag = global_sti at_ /\ tg_locker tag = false) ->
  returns (single_step at_ GetInteger s) (fun s' => node_ok s' /\ node_state_ s' = node_state_ s /\ sent s' = sent s /\
    (bch_slot_lock_ s <> 0 \/ random_bch_if_single_switch_ at_ = false -> slot_num_ s' = slot_num_ s)).
Proof using Hat.
  intros Hs Hlock. pose proof (frame_range s (ok_table s Hs)) as Hr. unfold single_step.
  destruct (random_bch_if_single_switch_ at_); cbn [andb].
  2:{ apply returns_ok. destruct Hs. split; [|done]. constructor; try done. by eapply table_ok_same. }
  destruct (isSingle _ _ _).
  2:{ apply returns_ok. destruct Hs. split; [|done]. constructor; try done. by eapply table_ok_same. }
  cbv zeta. destruct (Z.eqb_spec (bch_slot_lock_ s) 0) as [E0|_].
  2:{ apply returns_ok. destruct Hs. split; [|done]. constructor; try done. by eapply table_ok_same. }
  destruct (Hlock E0 eq_refl) as (Hst & Hn & tag & Ht & Hid & Hlk). destruct Hs as [Hs Hslot _ _].
  set (s1 := s <| bch_slot_lock_ ::= Z.pred |>). assert (table_ok s1) as Hs1 by by eapply table_ok_same.
  destruct (determine_returns false s1 Hs1) as (i & d & -> & Hi). cbn [obind]. set (s2 := _ <| slot_num_ := i |>).
  assert (table_ok s2) as Hs2 by by eapply table_ok_same. destruct Hi as [[_ Hno]|[Hi _]].
  { exfalso. specialize (Hno (slot_count_ s) tag). change (m_frame_len s1) with (m_frame_len s) in Hno.
    specialize (Hno ltac:(lia) Ht). unfold candidate in Hno. rewrite Hid, Hlk, Z.eqb_refl in Hno. by rewrite orb_true_r in Hno. }
  change (m_frame_len s1) with (m_frame_len s) in Hi. change (slot_count_ s2) with (slot_count_ s).
  rewrite (set_slot_eq (slot_count_ s) _ s2 tag ltac:(lia) Ht). cbn [obind].
  fold (with_slot (slot_count_ s) (free_tag true tag) s2). set (s3 := with_slot _ _ s2).
  assert (table_ok s3) as Hs3 by (apply with_slot_ok; [done|apply free_tag_ok]).
  destruct (table_lookup s3 i Hs3 ltac:(lia)) as (t1 & Ht1 & _). rewrite (set_slot_eq i _ s3 t1 ltac:(lia) Ht1). cbn [obind].
  fold (with_slot i (own_tag at_ t1) s3). set (s4 := with_slot i _ s3).
  assert (table_ok s4) as Hs4 by (apply with_slot_ok; [done|apply own_tag_ok]).
  apply returns_ok. split; [|split_and!; [done..|by intros [?|?]]]. constructor; try done.
  - by eapply table_ok_same.
  - intros _. change (own_at i (collected_fi_ s4)). apply own_at_insert; [lia|done].
  - intros Hadj. exfalso. change (node_state_ s = NODE_WORK_ADJ) in Hadj. congruence.
Qed.

Section Holding.
Context (s s1 : TdmaSatmac) (tag : slot_tag) (X : Z -> Prop).
Context (Hs : table_ok s) (Hn : slot_num_ s = slot_count_ s) (Hc : 0 <= slot_count_ s < m_frame_len s).
Context (E : synthesize at_ s = Ok s1).
Context (Ht : collected_fi_ s1 !! Z.to_nat (slot_count_ s) = Some tag) (Ho : owned at_ X tag).

Lemma synthesized : exists m l, s1 = s <| m_frame_len := m |> <| collected_fi_ := l |> /\ table_ok s1 /\ m_frame_len s <= m.
Proof using Hat Hs E.
  clear Ht Ho. destruct (synthesize_returns s Hs) as (m & l & E' & H). rewrite E in E'. injection E' as ->. by exists m, l.
Qed.

Lemma request_step_ok : returns (request_step at_ GetInteger s) (decided s tag).
Proof using All.
  destruct synthesized as (m & l & E1 & Hs1 & Hm). pose proof (frame_range s1 Hs1) as Hr.
  assert (slot_count_ s1 = slot_count_ s /\ slot_num_ s1 = slot_num_ s /\ m_frame_len s1 = m /\ sent s1 = sent s)
    as (Ec & En & Em & Es) by by rewrite E1.
  unfold request_step. rewrite refresh_eq, E. cbn [obind]. rewrite Ec, (read_slot_eq _ _ _ (proj1 Hc) Ht). cbn [obind].
  unfold decided. destruct (slot_valid at_ tag) eqn:Ev.
  - destruct (slot_valid_own X tag Ho Ev) as (Hid & Hb & _).
    destruct (generate_returns (s1 <| node_state_ := NODE_WORK_FI |>)) as (l' & bytes & -> & Hs2 & Hsame & Epkt);
      [by eapply table_ok_same|]. assert (own_at (slot_num_ s1) (collected_fi_ s1)) as Hown by (exists tag; by rewrite En, Hn).
    apply returns_ok. split.
    + constructor; try done; [cbn; lia|]. intros _. eapply own_at_sent; [exact Hsame|exact Hown].
    + split; [by left|]. exists bytes. cbn. rewrite Es, En. split; [done|]. intros _. split; [|done].
      eexists _, _, _. split; [exact Epkt|]. rewrite <- En. split; [cbn; lia|exact Hown].
  - eapply returns_impl;
      [apply (abandon_ok _ (fun s => s <| request_fail_times ::= Z.succ |>) (s1 <| waiting_frame_count ::= Z.succ |>))|].
    + by eapply table_ok_same.
    + cbn. lia.
    + cbn. lia.
    + done.
    + unfold gave_up. cbn. rewrite Ec, Es. tauto.
Qed.

(** The node does not move its slot and draw a new one in the same slot. *)
Definition steady (s1 : TdmaSatmac) : Prop :=
  bch_slot_lock_ s1 = 0 -> random_bch_if_single_switch_ at_ = true ->
  adjust_is_needed at_ (adj_free_threshold_ s1) (m_frame_len s1) (slot_num_ s1) (collected_fi_ s1) = Ok false.

Lemma work_fi_step_ok : node_state_ s = NODE_WORK_FI -> steady s1 ->
  returns (work_fi_step at_ GetInteger s) (decided s tag).
Proof using All.
  intros Hst Hsteady. destruct synthesized as (m & l & E1 & Hs1 & Hm). pose proof (frame_range s1 Hs1) as Hr.
  assert (slot_count_ s1 = slot_count_ s /\ slot_num_ s1 = slot_num_ s /\ m_frame_len s1 = m /\ sent s1 = sent s /\
    node_state_ s1 = NODE_WORK_FI) as (Ec & En & Em & Es & Est) by by rewrite E1.
  unfold work_fi_step. rewrite refresh_eq, E. cbn [obind]. rewrite Ec, (read_slot_eq _ _ _ (proj1 Hc) Ht). cbn [obind].
  unfold decided. destruct (slot_valid at_ tag) eqn:Ev.
  - destruct (slot_valid_own X tag Ho Ev) as (Hid & Hb & Hlk). cbv zeta.
    set (s2 := _ <| continuous_work_fi_max_ ::= _ |>).
    assert (node_ok s2) as Hs2.
    { constructor; [by eapply table_ok_same|cbn; lia| |cbn; rewrite Est; done].
      intros _. exists tag. cbn. by rewrite En, Hn. }
    destruct (adjust_step_ok s2 Hs2 Est) as (needed & Ea & Hadj); [cbn; lia|].
    eapply returns_bind; [exact Hadj|]. intros s3 (Hs3 & Hst3 & Hsent3 & Hc3 & Hlock3 & Hsingle & Hneed).
    destruct (generate_returns s3 (ok_table s3 Hs3)) as (l4 & bytes & -> & Hs4 & Hsame & Epkt). cbn [obind].
    set (s4 := _ <| sent ::= _ |>) in *.
    assert (node_ok s4) as Hok4.
    { destruct Hs3 as [_ Hn3 Ho3 Hd3]. constructor; try done.
      - intros H. eapply own_at_sent; [exact Hsame|auto].
      - intros H. destruct (Hd3 H) as (? & ? & ?). split; [done|]. split; [done|]. by eapply own_at_sent. }
    eapply returns_impl; [apply single_step_ok; [done|]|].
    + change (bch_slot_lock_ s4) with (bch_slot_lock_ s3). rewrite Hlock3. intros H0 Hsw.
      assert (Ok needed = Ok false) as [= ->] by (rewrite <- Ea; exact (Hsteady H0 Hsw)).
      destruct (Hneed eq_refl) as (Hst' & Hn' & Hl'). split; [done|].
      split; [change (slot_num_ s3 = slot_count_ s3); rewrite Hn', Hc3; cbn; lia|].
      change (slot_count_ s4) with (slot_count_ s3). rewrite Hc3. change (slot_count_ s2) with (slot_count_ s1). rewrite Ec.
      rewrite Hl' in Hsame. destruct (Hsame _ tag Ht) as (t' & Ht' & Hi' & _ & Hk'). exists t'.
      split; [exact Ht'|]. split; congruence.
    + intros s5 (Hok5 & Hst5 & Hsent5 & Hn5). split; [done|]. split; [by rewrite Hst5|]. exists bytes. split.
      { rewrite Hsent5. change (sent s3 ++ [bytes] = sent s ++ [bytes]). by rewrite Hsent3, <- Es. }
      intros Hns. assert (slot_num_ s3 = slot_num_ s) as Hn3 by (rewrite (Hsingle Hns); exact En). split.
      * eexists _, _, _. split; [exact Epkt|]. rewrite <- Hn3. split; [apply (ok_slot s3 Hs3)|].
        apply (ok_own s3 Hs3). by destruct Hst3 as [-> | ->].
      * intros Hl. rewrite <- Hn3. apply Hn5. change (bch_slot_lock_ s4) with (bch_slot_lock_ s3). rewrite Hlock3.
        change (bch_slot_lock_ s2) with (bch_slot_lock_ s1). by rewrite E1.
  - eapply returns_impl;
      [apply (abandon_ok _ (fun s => s <| collision_count_ ::= Z.succ |>) (s1 <| continuous_work_fi_ := 0 |>))|].
    + by eapply table_ok_same.
    + cbn. lia.
    + cbn. lia.
    + done.
    + unfold gave_up. cbn. rewrite Ec, Es. tauto.
Qed.
End Holding.

Lemma sent_ok s s' l bytes : table_ok (s <| collected_fi_ := l |> <| sent ::= fun p => p ++ [bytes] |>) ->
  s' = s <| collected_fi_ := l |> <| sent ::= fun p => p ++ [bytes] |> -> node_state_ s = NODE_WORK_FI ->
  0 <= slot_num_ s < m_frame_len s -> own_at (slot_num_ s) l -> node_ok s'.
Proof using.
  intros Hs -> Hst Hn Ho. constructor; try done. intros H. exfalso. change (node_state_ s = NODE_WORK_ADJ) in H. congruence.
Qed.

(** A node on the move that has lost its slot: it goes to its candidate, or gives
    both up. It sends nothing. *)
Definition left_slot (s s' : TdmaSatmac) : Prop :=
  gave_up s s' \/ (sent s' = sent s /\ node_state_ s' = NODE_WORK_FI /\ slot_num_ s' = slot_adj_candidate_ s).

Lemma work_adj_step_ok s : node_ok s -> node_state_ s = NODE_WORK_ADJ -> slot_num_ s = slot_count_ s ->
  consistent (received_fi_list_ s) ->
  exists s1 bch, synthesize at_ s = Ok s1 /\ collected_fi_ s1 !! Z.to_nat (slot_num_ s) = Some bch /\
    returns (work_adj_step at_ GetInteger s) (fun s' => node_ok s' /\ (slot_valid at_ bch = false -> left_slot s s')).
Proof using Hat.
  intros [Hs Hslot Hown Hcand] Hst Hn Hcons. rewrite Hst in Hown. specialize (Hown eq_refl).
  destruct (Hcand Hst) as (Hc & Hne & Hca). clear Hcand.
  unfold work_adj_step. rewrite refresh_eq. destruct (synthesize_returns s Hs) as (m & l & E & Hs1 & Hm).
  destruct (refresh_owned s _ (slot_num_ s) Hs ltac:(congruence) Hcons Hslot ltac:(by left) Hown E) as (bch & Hb & Hbo).
  destruct (refresh_owned s _ (slot_adj_candidate_ s) Hs ltac:(congruence) Hcons Hc ltac:(by right) Hca E) as (adj & Ha & Hao).
  exists (s <| m_frame_len := m |> <| collected_fi_ := l |>), bch. split; [exact E|]. split; [exact Hb|].
  rewrite E. cbn [obind]. set (s1 := _ <| collected_fi_ := l |>) in *. pose proof (frame_range s1 Hs1) as Hr.
  change (m_frame_len s1) with m in *. change (slot_count_ s1) with (slot_count_ s).
  change (slot_adj_candidate_ s1) with (slot_adj_candidate_ s). change (slot_num_ s1) with (slot_num_ s). cbv zeta.
  rewrite <- Hn, (read_slot_eq _ (slot_num_ s) bch (proj1 Hslot) Hb), (read_slot_eq _ (slot_adj_candidate_ s) adj (proj1 Hc) Ha).
  cbn [obind]. destruct (slot_valid at_ bch) eqn:Evb.
  - destruct (slot_valid_own _ bch Hbo Evb) as (Hbid & Hbb & _). destruct (_ && slot_valid at_ adj) eqn:Eva.
    + apply andb_true_iff in Eva as [_ Eva]. destruct (slot_valid_own _ adj Hao Eva) as (Haid & Hab & _).
      set (s2 := _ <| adj_count_success_ ::= Z.succ |>). assert (table_ok s2) as Hs2 by by eapply table_ok_same.
      rewrite (set_slot_eq (slot_num_ s) _ s2 bch ltac:(lia) Hb). cbn [obind].
      fold (with_slot (slot_num_ s) (free_tag true bch) s2). set (s3 := with_slot _ _ s2).
      assert (table_ok s3) as Hs3 by (apply with_slot_ok; [done|apply free_tag_ok]).
      destruct (generate_returns s3 Hs3) as (l4 & bytes & -> & Hs4 & Hsame & _). apply returns_ok.
      split; [|done]. eapply sent_ok; [exact Hs4|done|done|cbn; lia|]. eapply own_at_sent; [exact Hsame|].
      apply (own_at_other (slot_adj_candidate_ s) (slot_num_ s)); [lia|lia|done|]. by exists adj.
    + set (s2 := _ <| node_state_ := NODE_WORK_FI |>). assert (table_ok s2) as Hs2 by by eapply table_ok_same.
      rewrite (set_slot_eq (slot_adj_candidate_ s) _ s2 adj ltac:(lia) Ha). cbn [obind].
      fold (with_slot (slot_adj_candidate_ s) (free_tag true adj) s2). set (s3 := with_slot _ _ s2).
      assert (table_ok s3) as Hs3 by (apply with_slot_ok; [done|apply free_tag_ok]).
      destruct (generate_returns s3 Hs3) as (l4 & bytes & -> & Hs4 & Hsame & _). apply returns_ok.
      split; [|done]. eapply sent_ok; [exact Hs4|done|done|cbn; lia|]. eapply own_at_sent; [exact Hsame|].
      apply (own_at_other (slot_num_ s) (slot_adj_candidate_ s)); [lia|lia|done|]. by exists bch.
  - destruct (slot_valid at_ adj) eqn:Eva.
    + destruct (slot_valid_own _ adj Hao Eva) as (Haid & Hab & _). apply returns_ok.
      split; [|intros _; by right]. constructor; [by eapply table_ok_same|cbn; lia| |done]. intros _. by exists adj.
    + eapply returns_impl; [apply (abandon_ok _ (fun s => s) (s1 <| collision_count_ ::= Z.succ |>)); [by eapply table_ok_same|lia|cbn; lia|done]|].
      intros s' [? Hg]. split; [done|]. intros _. left. exact Hg.
Qed.

(** * The slot handler *)

(** What a node relies on in a slot: its neighbours' reports are consistent,
    and it does not move its slot and draw a new one at once. *)
Definition calm (s : TdmaSatmac) : Prop :=
  consistent (received_fi_list_ s) /\
  (node_state_ s = NODE_WORK_FI -> forall s1, synthesize at_ (begin_slot s <| frame_count_ ::= Z.succ |>) = Ok s1 -> steady s1).

Lemma begin_slot_ok s : node_ok s -> node_ok (begin_slot s) /\ 0 <= slot_count_ (begin_slot s) < m_frame_len s.
Proof using.
  intros [Hs Hn Ho Hd]. pose proof (frame_range s Hs). split.
  - constructor; try done. destruct Hs. constructor; try done. by apply fade_ok.
  - cbn. apply Z.mod_pos_bound. lia.
Qed.

Lemma node_ok_frame s : node_ok s -> node_ok (s <| frame_count_ ::= Z.succ |>).
Proof using. intros [Hs Hn Ho Hd]. constructor; try done. by eapply table_ok_same. Qed.

(** In another slot than its own the node only takes note of the time. *)
Lemma slotHandler_other s : node_ok s -> slot_count_ (begin_slot s) <> slot_num_ s ->
  slotHandler at_ GetInteger s = Ok (begin_slot s).
Proof using.
  intros Hs Hne. unfold slotHandler. cbv zeta. pose proof (ok_slot s Hs).
  change (m_frame_len (begin_slot s)) with (m_frame_len s). change (slot_num_ (begin_slot s)) with (slot_num_ s).
  rewrite (proj2 (Z.ltb_ge _ _)) by lia. by rewrite (proj2 (Z.eqb_neq _ _) Hne).
Qed.

Lemma slotHandler_own s : node_ok s -> slot_count_ (begin_slot s) = slot_num_ s ->
  slotHandler at_ GetInteger s =
    let s := begin_slot s <| frame_count_ ::= Z.succ |> in
    match node_state_ s with
    | NODE_INIT => Ok (init_step s)
    | NODE_LISTEN => listen_step at_ GetInteger s
    | NODE_WAIT_REQUEST => wait_request_step at_ GetInteger s
    | NODE_REQUEST => request_step at_ GetInteger s
    | NODE_WORK_FI => work_fi_step at_ GetInteger s
    | NODE_WORK_ADJ => work_adj_step at_ GetInteger s
    end.
Proof using.
  intros Hs He. unfold slotHandler. cbv zeta. pose proof (ok_slot s Hs).
  change (m_frame_len (begin_slot s)) with (m_frame_len s). change (slot_num_ (begin_slot s)) with (slot_num_ s).
  rewrite (proj2 (Z.ltb_ge _ _)) by lia. rewrite He, Z.eqb_refl. done.
Qed.

Lemma slotHandler_ok s : node_ok s -> calm s -> returns (slotHandler at_ GetInteger s) node_ok.
Proof using Hat.
  intros Hs [Hcons Hsteady]. destruct (begin_slot_ok s Hs) as [Hb Hc].
  destruct (Z.eq_dec (slot_count_ (begin_slot s)) (slot_num_ s)) as [He|Hne].
  2:{ rewrite slotHandler_other by done. by apply returns_ok. }
  rewrite slotHandler_own by done. cbv zeta. apply node_ok_frame in Hb.
  set (s0 := begin_slot s <| frame_count_ ::= Z.succ |>) in *.
  assert (slot_num_ s0 = slot_count_ s0) as Hn by (symmetry; exact He).
  assert (0 <= slot_count_ s0 < m_frame_len s0) as Hr by exact Hc.
  assert (consistent (received_fi_list_ s0)) as Hc0 by by apply fade_consistent.
  destruct (synthesize_returns s0 (ok_table s0 Hb)) as (m & l & E & _).
  assert (node_state_ s0 <> NODE_LISTEN -> holding (node_state_ s0) = true -> exists tag,
    collected_fi_ (s0 <| m_frame_len := m |> <| collected_fi_ := l |>) !! Z.to_nat (slot_count_ s0) = Some tag /\
    owned at_ (named (Z.to_nat (slot_count_ s0)) (received_fi_list_ s0)) tag) as Hown.
  { intros Hl Hh. rewrite <- Hn. eapply refresh_owned; eauto; [apply Hb|apply (ok_slot s0 Hb)|by apply (ok_own s0 Hb)]. }
  destruct (node_state_ s0) eqn:Est.
  - apply returns_ok. constructor; try done; [|apply (ok_slot s0 Hb)]. eapply table_ok_same; [apply Hb|done..].
  - apply listen_step_ok; [apply Hb|done|done|done].
  - apply wait_request_step_ok; [apply Hb|done|done].
  - destruct Hown as (tag & Ht & Ho); [done|done|].
    eapply returns_impl; [eapply request_step_ok; [apply Hb|done|done|exact E|exact Ht|exact Ho]|]. by intros s' [? _].
  - destruct Hown as (tag & Ht & Ho); [done|done|].
    eapply returns_impl; [eapply work_fi_step_ok; [apply Hb|done|done|exact E|exact Ht|exact Ho|done|]|by intros s' [? _]].
    by apply Hsteady.
  - destruct (work_adj_step_ok s0 Hb Est Hn Hc0) as (s1 & bch & _ & _ & H). eapply returns_impl; [exact H|]. by intros s' [? _].
Qed.

(** ** Losing and keeping a slot *)

(** The refresh of a node in its slot. *)
Lemma own_refresh s m l : node_ok s -> node_state_ s <> NODE_LISTEN ->
  (let s0 := begin_slot s <| frame_count_ ::= Z.succ |> in synthesize at_ s0 = Ok (s0 <| m_frame_len := m |> <| collected_fi_ := l |>)) ->
  synthesize_fi_list at_ false (slot_num_ s) (slot_adj_candidate_ s) (m_frame_len s)
    (fade_received_fi_list 1 (received_fi_list_ s)) (collected_fi_ s) = Ok (m, l).
Proof using.
  intros Hs Hst E. cbv zeta in E. set (s0 := begin_slot s <| frame_count_ ::= Z.succ |>) in E. unfold synthesize in E.
  rewrite bool_decide_eq_false_2 in E by exact Hst.
  change (fade_received_fi_list 1 (received_fi_list_ s)) with (received_fi_list_ s0).
  change (slot_num_ s) with (slot_num_ s0). change (slot_adj_candidate_ s) with (slot_adj_candidate_ s0).
  change (m_frame_len s) with (m_frame_len s0). change (collected_fi_ s) with (collected_fi_ s0).
  destruct (synthesize_fi_list _ _ _ _ _ _ _) as [[m' l']|]; [|done]. cbn [obind] in E.
  apply (f_equal (fun o => match o with Ok s => Ok (m_frame_len s, collected_fi_ s) | Oops => Oops end)) in E. exact E.
Qed.

(** The step of a node that requests or uses its slot, in its slot. *)
Lemma holding_step s : node_ok s -> calm s -> slot_count_ (begin_slot s) = slot_num_ s ->
  node_state_ s = NODE_REQUEST \/ node_state_ s = NODE_WORK_FI ->
  exists m l tag,
    synthesize_fi_list at_ false (slot_num_ s) (slot_adj_candidate_ s) (m_frame_len s)
      (fade_received_fi_list 1 (received_fi_list_ s)) (collected_fi_ s) = Ok (m, l) /\
    l !! Z.to_nat (slot_num_ s) = Some tag /\
    returns (slotHandler at_ GetInteger s) (decided (begin_slot s) tag).
Proof using Hat.
  intros Hs [Hcons Hsteady] He Hst. destruct (begin_slot_ok s Hs) as [Hb Hc].
  rewrite slotHandler_own by done. cbv zeta. apply node_ok_frame in Hb.
  set (s0 := begin_slot s <| frame_count_ ::= Z.succ |>) in *.
  assert (slot_num_ s0 = slot_count_ s0) as Hn by (symmetry; exact He).
  assert (0 <= slot_count_ s0 < m_frame_len s0) as Hr by exact Hc.
  assert (consistent (received_fi_list_ s0)) as Hc0 by by apply fade_consistent.
  change (node_state_ s) with (node_state_ s0) in Hst.
  destruct (synthesize_returns s0 (ok_table s0 Hb)) as (m & l & E & _).
  destruct (refresh_owned s0 _ (slot_num_ s0) (ok_table s0 Hb) ltac:(naive_solver congruence) Hc0 (ok_slot s0 Hb)
    ltac:(by left) ltac:(apply (ok_own s0 Hb); by destruct Hst as [-> | ->]) E) as (tag & Ht & Ho).
  exists m, l, tag. split; [|split; [exact Ht|]].
  - apply own_refresh; [done| |exact E]. change (node_state_ s) with (node_state_ s0). by destruct Hst as [-> | ->].
  - rewrite Hn in Ht, Ho. destruct Hst as [Hst|Hst]; rewrite Hst.
    + eapply returns_impl; [eapply request_step_ok; [apply Hb|done|done|exact E|exact Ht|exact Ho]|]. by intros s' [? ?].
    + eapply returns_impl; [eapply work_fi_step_ok; [apply Hb|done|done|exact E|exact Ht|exact Ho|done|]|by intros s' [? ?]].
      by apply Hsteady.
Qed.

(** The step of a node on the move, in its slot. *)
Lemma moving_step s : node_ok s -> calm s -> slot_count_ (begin_slot s) = slot_num_ s -> node_state_ s = NODE_WORK_ADJ ->
  exists m l tag,
    synthesize_fi_list at_ false (slot_num_ s) (slot_adj_candidate_ s) (m_frame_len s)
      (fade_received_fi_list 1 (received_fi_list_ s)) (collected_fi_ s) = Ok (m, l) /\
    l !! Z.to_nat (slot_num_ s) = Some tag /\
    returns (slotHandler at_ GetInteger s) (fun s' => node_ok s' /\ (slot_valid at_ tag = false -> left_slot (begin_slot s) s')).
Proof using Hat.
  intros Hs [Hcons _] He Hst. destruct (begin_slot_ok s Hs) as [Hb _].
  rewrite slotHandler_own by done. cbv zeta. apply node_ok_frame in Hb.
  set (s0 := begin_slot s <| frame_count_ ::= Z.succ |>) in *. change (node_state_ s) with (node_state_ s0) in Hst. rewrite Hst.
  destruct (work_adj_step_ok s0 Hb Hst) as (s1 & tag & E & Ht & H); [by symmetry|by apply fade_consistent|].
  destruct (synthesize_returns s0 (ok_table s0 Hb)) as (m & l & E' & _). rewrite E in E'. injection E' as ->.
  exists m, l, tag. split; [|by split]. apply own_refresh; [done| |exact E]. change (node_state_ s) with (node_state_ s0). by rewrite Hst.
Qed.

(** A report of another owner invalidates the entry of the slot. *)
Lemma conflict_invalid s fi recv m l tag : node_ok s -> consistent (received_fi_list_ s) -> holding (node_state_ s) = true ->
  fi ∈ received_fi_list_ s -> 1 < fi_remain_time fi ->
  slot_describe fi !! Z.to_nat (slot_num_ s) = Some recv -> conflict at_ recv ->
  synthesize_fi_list at_ false (slot_num_ s) (slot_adj_candidate_ s) (m_frame_len s)
    (fade_received_fi_list 1 (received_fi_list_ s)) (collected_fi_ s) = Ok (m, l) ->
  l !! Z.to_nat (slot_num_ s) = Some tag -> slot_valid at_ tag = false.
Proof using Hat.
  intros Hs Hcons Hst Hfi Hrem Hr Hconf E Ht.
  destruct (ok_frame s (ok_table s Hs)) as (k & Hk & Em). rewrite Em in E.
  destruct (ok_own s Hs Hst) as (t & Hlk & Hid & _).
  pose proof (ok_slot s Hs) as Hslot. rewrite Em in Hslot.
  pose proof (Forall_lookup_1 _ _ _ _ (ok_tags s (ok_table s Hs)) Hlk) as (_ & _ & _ & _ & Hpsf & _).
  destruct (synthesize_conflict at_ id_nonzero (slot_num_ s) (slot_adj_candidate_ s) k (fade_received_fi_list 1 (received_fi_list_ s))
    (collected_fi_ s) (at_memory Hat) (ok_len s (ok_table s Hs)) (ok_tags s (ok_table s Hs)) Hk
    (fade_ok 1 _ (ok_recv s (ok_table s Hs))) (slot_num_ s) t Hslot ltac:(by left) Hlk Hid Hpsf
    (named (Z.to_nat (slot_num_ s)) (fade_received_fi_list 1 (received_fi_list_ s))))
    as (m' & l' & tag' & E' & Ht' & Hlost).
  - apply consistent_reports; [apply fade_consistent, Hcons|apply fade_ok, (ok_recv s (ok_table s Hs))].
  - eexists _, recv. split; [by apply fade_keeps|]. done.
  - rewrite E' in E. injection E as -> ->. assert (tag' = tag) as -> by congruence.
    unfold slot_valid. pose proof id_nonzero. destruct Hlost as [_ [[H1 H2]|(H1 & H2 & _)]].
    + rewrite H1, H2, Z.eqb_refl, (proj2 (Z.eqb_neq _ _) id_nonzero). done.
    + rewrite (proj2 (Z.eqb_neq _ _) H1), (proj2 (Z.eqb_neq _ _) H2). done.
Qed.

Lemma conflict_step s fi recv : node_ok s -> calm s -> slot_count_ (begin_slot s) = slot_num_ s ->
  holding (node_state_ s) = true ->
  fi ∈ received_fi_list_ s -> 1 < fi_remain_time fi ->
  slot_describe fi !! Z.to_nat (slot_num_ s) = Some recv -> conflict at_ recv ->
  returns (slotHandler at_ GetInteger s) (fun s' => node_ok s' /\ left_slot (begin_slot s) s' /\
    (node_state_ s <> NODE_WORK_ADJ -> gave_up (begin_slot s) s')).
Proof using Hat.
  intros Hs Hcalm He Hst Hfi Hrem Hr Hconf.
  assert (forall m l tag, synthesize_fi_list at_ false (slot_num_ s) (slot_adj_candidate_ s) (m_frame_len s)
      (fade_received_fi_list 1 (received_fi_list_ s)) (collected_fi_ s) = Ok (m, l) ->
    l !! Z.to_nat (slot_num_ s) = Some tag -> slot_valid at_ tag = false) as Hinv
    by (intros; eapply conflict_invalid; eauto; apply Hcalm).
  destruct (decide (node_state_ s = NODE_WORK_ADJ)) as [Hadj|Hadj].
  - destruct (moving_step s Hs Hcalm He Hadj) as (m & l & tag & E & Ht & H).
    eapply returns_impl; [exact H|]. intros s' [Hok Hd]. split; [done|]. split; [|done]. exact (Hd (Hinv m l tag E Ht)).
  - destruct (holding_step s Hs Hcalm He) as (m & l & tag & E & Ht & H); [destruct (node_state_ s); try done; tauto|].
    eapply returns_impl; [exact H|]. intros s' [Hok Hd]. rewrite (Hinv m l tag E Ht) in Hd. split; [done|]. split; [by left|done].
Qed.

Lemma confirmed_step s : node_ok s -> calm s -> slot_count_ (begin_slot s) = slot_num_ s ->
  node_state_ s = NODE_REQUEST \/ node_state_ s = NODE_WORK_FI ->
  (forall fi recv, fi ∈ received_fi_list_ s -> slot_describe fi !! Z.to_nat (slot_num_ s) = Some recv -> confirms at_ recv) ->
  returns (slotHandler at_ GetInteger s) (fun s' => node_ok s' /\ went_on s s').
Proof using Hat.
  intros Hs Hcalm He Hst Hconf.
  destruct (holding_step s Hs Hcalm He Hst) as (m & l & tag & E & Ht & H).
  eapply returns_impl; [exact H|]. intros s' [Hok Hd]. split; [done|].
  assert (slot_valid at_ tag = true) as Hv; [|by rewrite Hv in Hd].
  destruct (ok_frame s (ok_table s Hs)) as (k & Hk & Em). rewrite Em in E.
  destruct (ok_own s Hs) as (t & Hlk & Hid & Hb); [by destruct Hst as [-> | ->]|].
  pose proof (ok_slot s Hs) as Hslot. rewrite Em in Hslot.
  pose proof (Forall_lookup_1 _ _ _ _ (ok_tags s (ok_table s Hs)) Hlk) as (_ & _ & _ & _ & Hpsf & _).
  destruct (synthesize_kept at_ id_nonzero (slot_num_ s) (slot_adj_candidate_ s) k (fade_received_fi_list 1 (received_fi_list_ s))
    (collected_fi_ s) (at_memory Hat) (ok_len s (ok_table s Hs)) (ok_tags s (ok_table s Hs)) Hk
    (fade_ok 1 _ (ok_recv s (ok_table s Hs))) (slot_num_ s) t Hslot ltac:(by left) Hlk Hid Hpsf Hb)
    as (m' & l' & tag' & E' & _ & _ & _ & Ht' & H1 & H2 & _).
  - intros fi recv (f & Hf & ->)%fade_elem. exact (Hconf f recv Hf).
  - rewrite E' in E. injection E as <- <-. assert (tag' = tag) as -> by congruence.
    unfold slot_valid. by rewrite H1, H2, Z.eqb_refl.
Qed.
End Invariant.
