(* ===== verification/SatmacNet.v ===== *)
(** Networks of SATMAC nodes: the reception of packets, any number of nodes
    that exchange frame information, and the behaviour of a node over several
    slots. *)

From S2P Require Import Prelude FiCodec SatmacFi SatmacSlot Satmac SatmacInv.

(** * Reception *)

Lemma pow2_8 k : 0 <= k <= 8 -> 1 <= 2 ^ k <= 256.
Proof.
  intros Hk. pose proof (Z.pow_le_mono_r 2 k 8 ltac:(lia) ltac:(lia)).
  pose proof (Z.pow_pos_nonneg 2 k ltac:(lia) ltac:(lia)). change (2 ^ 8) with 256 in *. lia.
Qed.

Lemma tag_ok_fits tag : tag_ok tag -> tag_fits tag.
Proof. unfold tag_ok, tag_fits. tauto. Qed.

Lemma received_tag_ok i tag : tag_ok tag -> recv_ok (received_tag i tag).
Proof.
  intros (_ & Hs & Hc & _). unfold recv_ok, received_tag. cbn. split; [done|]. split; [|done].
  case_match; [|lia]. unfold straddled. dlia.
Qed.

(** What the receiver of a packet gets. *)
Lemma decode_packet k sti tags tags' bytes mylen slot :
  0 <= k <= 8 -> 0 < sti < 512 -> length tags = 512%nat -> Forall tag_ok tags ->
  FiHeader (2 ^ k) sti tags = Ok (tags', bytes) ->
  exists fi, decode_FI true mylen slot bytes = Ok fi /\ fi_ok fi /\ fi_sti fi = sti /\ fi_remain_time fi = mylen /\
    forall i tag, tags !! i = Some tag -> Z.of_nat i < 2 ^ k ->
      slot_describe fi !! i = Some (received_tag (Z.of_nat i) tag).
Proof.
  intros Hk Hsti Hl Hok E. pose proof (pow2_8 k Hk) as Hp.
  destruct (fi_roundtrip_aux (2 ^ k) sti tags true mylen slot) as (b & E' & Hd);
    [lia|lia|rewrite Z.log2_pow2; lia|by rewrite Z.log2_pow2 by lia| |].
  { apply Forall_take. eapply Forall_impl; [exact Hok|]. exact tag_ok_fits. }
  rewrite E in E'. injection E' as _ <-. eexists. split; [exact Hd|].
  split; [|split; [done|split; [done|]]].
  - split; [|split]; cbn [fi_frame_len slot_describe].
    + split; cbn [fi_frame_len slot_describe]; [rewrite length_imap, length_take|]; lia.
    + by exists k.
    + apply Forall_lookup. intros i r Hi. rewrite list_lookup_imap, fmap_Some in Hi.
      destruct Hi as (tag & Ht & ->). apply received_tag_ok. eapply Forall_lookup_1; [|exact Ht]. by apply Forall_take.
  - intros i tag Hi Hlt. cbn [slot_describe]. by rewrite list_lookup_imap, lookup_take_lt, Hi by lia.
Qed.

Lemma recvFI_ok at_ GetInteger s bytes : attr_ok at_ GetInteger -> node_ok at_ s -> packet_ok bytes ->
  returns (recvFI at_ bytes s) (node_ok at_).
Proof.
  intros Hat [Hs Hn Ho Hd] (k & sti & tags & tags' & Hk & Hsti & Hl & Hok & E).
  destruct (decode_packet k sti tags tags' bytes (m_frame_len s) (slot_count_ s) Hk Hsti Hl Hok E) as (fi & Ed & Hfi & _).
  unfold recvFI. rewrite (at_frame _ _ Hat), Ed. cbn [obind]. apply returns_ok.
  constructor; try done. destruct Hs. constructor; try done. cbn. apply Forall_app. by split; [|constructor].
Qed.

Lemma Start_ok at_ k thr cand lock backoff flag : 0 <= k <= 8 -> 1 <= thr ->
  node_ok at_ (Start (2 ^ k) thr cand lock backoff flag).
Proof.
  intros Hk Ht. pose proof (pow2_8 k Hk). constructor; try done.
  - constructor; try done; [exact clear_ok|by exists k].
  - cbn [slot_num_ m_frame_len Start]. apply Z.mod_pos_bound. lia.
Qed.

(** * Networks *)

Section Network.
(** Node [i] has the attributes [ats i] and the random numbers [rnds i]. *)
Context (ats : nat -> satmac_attr) (rnds : nat -> Z -> Z -> Z -> Z).

(** A node passes to its next slot, or receives a packet that some node has
    sent. Packets may be lost, late or received several times. *)
Inductive net_step (net : list TdmaSatmac) : list TdmaSatmac -> Prop :=
  | net_slot i s s' :
      net !! i = Some s -> calm (ats i) s -> slotHandler (ats i) (rnds i) s = Ok s' -> net_step net (<[i := s']> net)
  | net_recv i j s t t' bytes :
      net !! i = Some s -> net !! j = Some t -> bytes ∈ sent s -> recvFI (ats j) bytes t = Ok t' ->
      net_step net (<[j := t']> net).

Definition net_start (net : list TdmaSatmac) : Prop :=
  Forall (fun s => exists k thr cand lock backoff flag, 0 <= k <= 8 /\ 1 <= thr /\ s = Start (2 ^ k) thr cand lock backoff flag) net.

Context (Hats : forall i, attr_ok (ats i) (rnds i)).

Definition net_ok (net : list TdmaSatmac) : Prop := forall i s, net !! i = Some s -> node_ok (ats i) s.

Lemma net_ok_insert net i s : net_ok net -> node_ok (ats i) s -> net_ok (<[i := s]> net).
Proof using.
  intros Hn Hs j t Hj. apply list_lookup_insert_Some in Hj as [(-> & -> & _)|[_ Hj]]; [done|]. by apply Hn.
Qed.

Lemma net_step_ok net net' : net_step net net' -> net_ok net -> net_ok net'.
Proof using Hats.
  intros [i s s' Hi Hc E|i j s t t' bytes Hi Hj Hb E] Hn; apply net_ok_insert; try done.
  - destruct (slotHandler_ok (ats i) (rnds i) (Hats i) s (Hn i s Hi) Hc) as (a & E' & H). congruence.
  - pose proof (ok_sent s (ok_table _ s (Hn i s Hi))) as Hsent. rewrite Forall_forall in Hsent.
    destruct (recvFI_ok (ats j) (rnds j) t bytes (Hats j) (Hn j t Hj) (Hsent bytes Hb)) as (a & E' & H). congruence.
Qed.

Lemma net_reach_ok net net' : net_start net -> rtc net_step net net' -> net_ok net'.
Proof using Hats.
  intros H0 Hr. assert (net_ok net) as Hn.
  { intros i s Hi. destruct (Forall_lookup_1 _ _ _ _ H0 Hi) as (k & thr & c & l & b & f & Hk & Ht & ->). by apply Start_ok. }
  clear H0. induction Hr as [|x y z Hxy Hyz IH]; [done|]. apply IH. by eapply net_step_ok.
Qed.
End Network.

(** * Runs of one node *)

Section Runs.
Context (at_ : satmac_attr) (GetInteger : Z -> Z -> Z -> Z) (Hat : attr_ok at_ GetInteger).

(** [n] slots without a reception. *)
Fixpoint run (n : nat) (s : TdmaSatmac) : outcome TdmaSatmac :=
  match n with O => Ok s | S n => obind (slotHandler at_ GetInteger s) (run n) end.

Lemma run_app n m s : run (n + m) s = obind (run n s) (run m).
Proof using.
  revert s. induction n as [|n IH]; intros s; [done|]. cbn [run Nat.add]. destruct (slotHandler _ _ s); [apply IH|done].
Qed.

Definition wait (n : nat) (s : TdmaSatmac) : TdmaSatmac := Nat.iter n begin_slot s.

(** The slots between this one and the next of the node. *)
Definition idle (s : TdmaSatmac) : nat := Z.to_nat ((slot_num_ s - total_slot_count_ s - 1) mod m_frame_len s).

Lemma wait_fields n s :
  total_slot_count_ (wait n s) = total_slot_count_ s + Z.of_nat n /\ m_frame_len (wait n s) = m_frame_len s /\
  slot_num_ (wait n s) = slot_num_ s /\ node_state_ (wait n s) = node_state_ s /\
  collected_fi_ (wait n s) = collected_fi_ s /\ sent (wait n s) = sent s /\ backoff_frame_num_ (wait n s) = backoff_frame_num_ s /\
  bch_slot_lock_ (wait n s) = bch_slot_lock_ s.
Proof using.
  induction n as [|n IH]; [cbn; split_and!; try done; lia|]. unfold wait in *. rewrite Nat.iter_succ.
  destruct IH as (H1 & H2 & H3 & H4 & H5 & H6 & H7 & H8). cbn. split_and!; try done. lia.
Qed.

Lemma wait_candidate n s : slot_adj_candidate_ (wait n s) = slot_adj_candidate_ s.
Proof using. induction n as [|n IH]; [done|]. unfold wait in *. by rewrite Nat.iter_succ. Qed.

Lemma wait_received n : forall s fi, fi ∈ received_fi_list_ s -> Z.of_nat n < fi_remain_time fi ->
  fi <| fi_remain_time ::= fun r => r - Z.of_nat n |> ∈ received_fi_list_ (wait n s).
Proof using.
  induction n as [|n IH]; intros s fi Hfi Hr.
  - by destruct fi; cbn in *; rewrite Z.sub_0_r.
  - unfold wait. rewrite Nat.iter_succ. specialize (IH s fi Hfi ltac:(lia)). apply fade_keeps in IH; [|cbn; lia].
    cbn [received_fi_list_ begin_slot upd eta eta_TdmaSatmac]. revert IH. destruct fi; cbn.
    by replace (fi_remain_time - Z.of_nat n - 1) with (fi_remain_time - Z.pos (Pos.of_succ_nat n)) by lia.
Qed.

Lemma wait_received_inv n s fi : fi ∈ received_fi_list_ (wait n s) ->
  exists fi0, fi0 ∈ received_fi_list_ s /\ slot_describe fi = slot_describe fi0 /\ fi_sti fi = fi_sti fi0.
Proof using.
  revert fi. induction n as [|n IH]; intros fi; [by exists fi|]. unfold wait. rewrite Nat.iter_succ.
  change (received_fi_list_ (begin_slot (Nat.iter n begin_slot s)))
    with (fade_received_fi_list 1 (received_fi_list_ (wait n s))).
  intros (f & Hf & ->)%fade_elem. destruct (IH f Hf) as (f0 & ? & ? & ?). by exists f0.
Qed.

Lemma wait_node_ok n s : node_ok at_ s -> node_ok at_ (wait n s).
Proof using. intros Hs. induction n as [|n IH]; [done|]. unfold wait. rewrite Nat.iter_succ. by apply begin_slot_ok. Qed.

(** Until its slot comes, the node waits. *)
Lemma run_wait n s : node_ok at_ s -> (n <= idle s)%nat -> run n s = Ok (wait n s).
Proof using.
  intros Hs. pose proof (frame_range s (ok_table _ s Hs)) as Hm. induction n as [|n IH]; [done|]. intros Hn.
  rewrite <- Nat.add_1_r, run_app, IH by lia. cbn [obind run]. rewrite Nat.add_1_r. unfold wait at 2. rewrite Nat.iter_succ.
  destruct (wait_fields n s) as (Ht & Em & En & _).
  rewrite slotHandler_other; [done|by apply wait_node_ok|].
  rewrite En. cbn. rewrite Em, Ht. unfold idle in Hn. pose proof (ok_slot _ s Hs) as Hslot. intros He.
  assert ((slot_num_ s - total_slot_count_ s - 1) mod m_frame_len s = Z.of_nat n) as Hc; [|lia].
  pose proof (Z.mod_pos_bound (slot_num_ s - total_slot_count_ s - 1) (m_frame_len s) ltac:(lia)).
  symmetry. apply (Z.mod_unique_pos _ _ ((slot_num_ s - (total_slot_count_ s + Z.of_nat n + 1)) / m_frame_len s)); [lia|].
  rewrite <- He. rewrite <- Z.add_1_r.
  pose proof (Z.div_mod (total_slot_count_ s + Z.of_nat n + 1) (m_frame_len s) ltac:(lia)) as Hdm.
  set (q := (total_slot_count_ s + Z.of_nat n + 1) / m_frame_len s) in *.
  set (r := (total_slot_count_ s + Z.of_nat n + 1) mod m_frame_len s) in *.
  replace (r - (total_slot_count_ s + Z.of_nat n + 1)) with ((- q) * m_frame_len s) by lia. rewrite Z.div_mul by lia. lia.
Qed.

Lemma wait_own s : node_ok at_ s -> slot_count_ (begin_slot (wait (idle s) s)) = slot_num_ (wait (idle s) s).
Proof using.
  intros Hs. pose proof (frame_range s (ok_table _ s Hs)) as Hm. pose proof (ok_slot _ s Hs) as Hslot.
  destruct (wait_fields (idle s) s) as (Ht & Em & En & _). rewrite En. cbn. rewrite Em, Ht. unfold idle.
  pose proof (Z.mod_pos_bound (slot_num_ s - total_slot_count_ s - 1) (m_frame_len s) ltac:(lia)).
  rewrite Z2Nat.id, <- Z.add_1_r by lia. rewrite <- Z.add_assoc, (Z.add_comm _ 1), Z.add_assoc.
  rewrite Z.add_mod_idemp_r by lia.
  replace (total_slot_count_ s + 1 + (slot_num_ s - total_slot_count_ s - 1)) with (slot_num_ s) by lia.
  by apply Z.mod_small.
Qed.

Lemma idle_range s : node_ok at_ s -> Z.of_nat (idle s) < m_frame_len s.
Proof using.
  intros Hs. pose proof (frame_range s (ok_table _ s Hs)) as Hm. unfold idle.
  pose proof (Z.mod_pos_bound (slot_num_ s - total_slot_count_ s - 1) (m_frame_len s) ltac:(lia)). lia.
Qed.

(** The run up to and including the next slot of the node. *)
Lemma run_next s : node_ok at_ s -> run (S (idle s)) s = slotHandler at_ GetInteger (wait (idle s) s).
Proof using.
  intros Hs. rewrite <- Nat.add_1_r, run_app, run_wait by done. cbn [obind run].
  destruct (slotHandler _ _ _); done.
Qed.

(** ** Reports of other owners over the air *)

Lemma idle_other s : node_ok at_ s -> total_slot_count_ s mod m_frame_len s <> slot_num_ s ->
  Z.of_nat (idle s) + 1 < m_frame_len s.
Proof using.
  intros Hs Hne. pose proof (frame_range s (ok_table _ s Hs)) as Hm. unfold idle.
  pose proof (Z.mod_pos_bound (slot_num_ s - total_slot_count_ s - 1) (m_frame_len s) ltac:(lia)) as Hr.
  rewrite Z2Nat.id by lia. destruct (Z.eq_dec ((slot_num_ s - total_slot_count_ s - 1) mod m_frame_len s + 1) (m_frame_len s)) as [E|]; [|lia].
  exfalso. apply Hne. pose proof (ok_slot _ s Hs).
  pose proof (Z.div_mod (slot_num_ s - total_slot_count_ s - 1) (m_frame_len s) ltac:(lia)) as Hd.
  set (q := (slot_num_ s - total_slot_count_ s - 1) / m_frame_len s) in *.
  symmetry. apply (Z.mod_unique_pos _ _ (- q - 1)); lia.
Qed.

Lemma recvFI_eq s bytes s1 : recvFI at_ bytes s = Ok s1 -> exists fi,
  decode_FI true (m_frame_len s) (slot_count_ s) bytes = Ok fi /\ s1 = s <| received_fi_list_ ::= fun l => l ++ [fi] |>.
Proof using Hat.
  unfold recvFI. rewrite (at_frame _ _ Hat). destruct (decode_FI _ _ _ _) as [fi|]; [|done]. intros [= <-]. by exists fi.
Qed.

Lemma conflict_received i tag : i mod 8 <> 2 -> conflict at_ tag -> conflict at_ (received_tag i tag).
Proof using. intros Hi. unfold conflict, received_tag. rewrite (proj2 (Z.eqb_neq _ _) Hi). done. Qed.

(** Slots with a number of 2 modulo 8 arrive without a usable status. *)
Lemma occupied_received i tag : i mod 8 = 2 -> tg_sti tag <> 0 -> tg_busy tag = SLOT_1HOP \/ tg_busy tag = SLOT_COLLISION ->
  confirms at_ (received_tag i tag).
Proof using.
  intros Hi Hs Hb. unfold confirms, received_tag. rewrite (proj2 (Z.eqb_eq _ _) Hi). cbn -[s8 straddled].
  split; [done|]. right. split; [done|]. by destruct Hb as [-> | ->].
Qed.

(** A report in a received packet. *)
Definition reports (i : Z) (tag : slot_tag) (bytes : list Z) : Prop :=
  exists k sti tags tags', 0 <= k <= 8 /\ 0 < sti < 512 /\ length tags = 512%nat /\ Forall tag_ok tags /\
    FiHeader (2 ^ k) sti tags = Ok (tags', bytes) /\ 0 <= i < 2 ^ k /\ tags !! Z.to_nat i = Some tag.

Lemma conflict_over_the_air s s1 bytes tag :
  node_ok at_ s -> holding (node_state_ s) = true ->
  total_slot_count_ s mod m_frame_len s <> slot_num_ s ->
  reports (slot_num_ s) tag bytes -> conflict at_ tag -> slot_num_ s mod 8 <> 2 ->
  recvFI at_ bytes s = Ok s1 -> calm at_ (wait (idle s1) s1) ->
  exists s2, run (S (idle s1)) s1 = Ok s2 /\ left_slot (begin_slot (wait (idle s1) s1)) s2 /\
    (node_state_ s <> NODE_WORK_ADJ -> gave_up (begin_slot (wait (idle s1) s1)) s2).
Proof using Hat.
  intros Hs Hst Hne (k & sti & tags & tags' & Hk & Hsti & Hl & Hok & E & Hi & Htag) Hconf H8 Hrecv Hcalm.
  assert (node_ok at_ s1) as Hs1.
  { destruct (recvFI_ok at_ GetInteger s bytes Hat Hs) as (a & Ea & Ha); [by exists k, sti, tags, tags'|congruence]. }
  destruct (recvFI_eq s bytes s1 Hrecv) as (fi & Ed & E1).
  destruct (decode_packet k sti tags tags' bytes (m_frame_len s) (slot_count_ s) Hk Hsti Hl Hok E) as (fi' & Ed' & _ & _ & Hrem & Hlk).
  assert (fi' = fi) as -> by congruence. clear Ed'. specialize (Hlk _ _ Htag ltac:(lia)). rewrite Z2Nat.id in Hlk by lia.
  assert (Z.of_nat (idle s1) + 1 < m_frame_len s1) as Hid by (apply idle_other; [done|by rewrite E1]).
  assert (m_frame_len s1 = m_frame_len s /\ slot_num_ s1 = slot_num_ s /\ node_state_ s1 = node_state_ s) as (Em & En & Est) by by rewrite E1.
  rewrite run_next by done. destruct (wait_fields (idle s1) s1) as (_ & _ & Wn & Wst & _).
  destruct (conflict_step at_ GetInteger Hat (wait (idle s1) s1) (fi <| fi_remain_time ::= fun r => r - Z.of_nat (idle s1) |>)
    (received_tag (slot_num_ s) tag)) as (s2 & E2 & _ & H2 & H3); try done.
  - by apply wait_node_ok.
  - by apply wait_own.
  - by rewrite Wst, Est.
  - apply wait_received; [rewrite E1; cbn; apply elem_of_app; right; by left|rewrite Hrem; lia].
  - cbn. rewrite Hrem. lia.
  - rewrite Wn, En. exact Hlk.
  - by apply conflict_received.
  - exists s2. rewrite Wst, Est in H3. by split_and!.
Qed.

(** ** A node without neighbours *)

Definition quiet (s : TdmaSatmac) : Prop := received_fi_list_ s = [].

Lemma synthesize_quiet s : table_ok s -> quiet s ->
  exists l, synthesize at_ s = Ok (s <| m_frame_len := m_frame_len s |> <| collected_fi_ := l |>) /\
    table_ok (s <| m_frame_len := m_frame_len s |> <| collected_fi_ := l |>) /\
    forall i tag, aged at_ (bool_decide (node_state_ s = NODE_LISTEN)) (slot_num_ s) (slot_adj_candidate_ s) (m_frame_len s)
        (collected_fi_ s) !! i = Some tag ->
      l !! i = Some tag \/ l !! i = Some (unlock_tag tag).
Proof using Hat.
  intros Hs Hq. pose proof (frame_range s Hs) as Hm. destruct (synthesize_returns at_ GetInteger Hat s Hs) as (m & l & E & Hs' & _).
  unfold synthesize in E. rewrite Hq in E.
  destruct (synthesize_merge at_ (bool_decide (node_state_ s = NODE_LISTEN)) (slot_num_ s) (slot_adj_candidate_ s) (m_frame_len s) []
    (collected_fi_ s) (m_frame_len s) _ ltac:(rewrite (ok_len s Hs); lia) eq_refl) as (l' & E' & _ & _ & Hl).
  rewrite E' in E. cbn [obind] in E.
  apply (f_equal (fun o => match o with Ok s => Ok (m_frame_len s, collected_fi_ s) | Oops => Oops end)) in E.
  cbn in E. injection E as <- <-. exists l'. split; [|done]. unfold synthesize. by rewrite Hq, E'.
Qed.

Lemma aged_free b slot cand m i : aged at_ b slot cand m clear_FI !! i = clear_FI !! i.
Proof using Hat.
  unfold aged. destruct (_ && _); [|done]. rewrite map_slots_lookup. destruct (clear_FI !! i) as [t|] eqn:E; [|done].
  apply lookup_replicate in E as [-> _]. cbn [fmap option_fmap option_map]. destruct (_ <? m); [|done]. f_equal.
  unfold age_tag. cbn. by rewrite orb_true_r.
Qed.

Lemma quiet_table s l : collected_fi_ s = clear_FI ->
  (forall i tag, aged at_ (bool_decide (node_state_ s = NODE_LISTEN)) (slot_num_ s) (slot_adj_candidate_ s) (m_frame_len s)
     (collected_fi_ s) !! i = Some tag -> l !! i = Some tag \/ l !! i = Some (unlock_tag tag)) ->
  length l = 512%nat -> l = clear_FI.
Proof using Hat.
  intros Hc Hl Hlen. apply list_eq_same_length with 512%nat; [exact (length_replicate 512 slot_tag_init)|done|].
  intros i x y Hi Hx Hy. rewrite Hc in Hl. specialize (Hl i y). rewrite aged_free in Hl. specialize (Hl Hy).
  apply lookup_replicate in Hy as [-> _]. destruct Hl as [H|H]; rewrite Hx in H; by injection H.
Qed.

Lemma lone_listen s : node_ok at_ s -> quiet s -> node_state_ s = NODE_LISTEN -> backoff_frame_num_ s = 0 ->
  slot_count_ (begin_slot s) = slot_num_ s ->
  exists s', slotHandler at_ GetInteger s = Ok s' /\ node_ok at_ s' /\ quiet s' /\ m_frame_len s' = m_frame_len s /\
    (node_state_ s' = NODE_REQUEST \/ (node_state_ s' = NODE_WAIT_REQUEST /\ collected_fi_ s' = clear_FI)).
Proof using Hat.
  intros Hs Hq Hst Hbo He. destruct (begin_slot_ok at_ s Hs) as [Hb Hc]. rewrite slotHandler_own by done. cbv zeta.
  apply node_ok_frame in Hb. set (s0 := begin_slot s <| frame_count_ ::= Z.succ |>) in *.
  change (node_state_ s) with (node_state_ s0) in Hst. rewrite Hst. unfold listen_step. cbv zeta.
  change (backoff_frame_num_ (s0 <| waiting_frame_count ::= Z.succ |>)) with (backoff_frame_num_ s). rewrite Hbo.
  change (negb (0 =? 0)) with false. cbn iota. set (s1 := _ <| collected_fi_ := clear_FI |>).
  assert (quiet s1) as Hq1 by (unfold quiet in *; cbn; by rewrite Hq).
  assert (table_ok s1) as Hs1 by (destruct Hb as [[] _ _ _]; constructor; try done; exact clear_ok).
  destruct (synthesize_quiet s1 Hs1 Hq1) as (l & -> & Hs2 & Hl). cbn [obind].
  apply quiet_table in Hl; [|done|apply (ok_len _ Hs2)]. subst l. set (s2 := _ <| collected_fi_ := clear_FI |>) in *.
  destruct (determine_returns at_ GetInteger Hat false s2 Hs2) as (i & d & -> & Hi). cbn [obind].
  change (m_frame_len s2) with (m_frame_len s) in Hi.
  destruct Hi as [[_ Hno]|[Hi _]].
  { exfalso. pose proof (frame_range s (ok_table _ s Hs)). specialize (Hno 0 slot_tag_init ltac:(lia) eq_refl). done. }
  cbn [slot_count_ upd eta eta_TdmaSatmac]. change (slot_count_ s2) with (slot_count_ (begin_slot s)).
  rewrite (proj2 (Z.ltb_ge _ _)) by lia. destruct (Z.eqb_spec i (slot_count_ (begin_slot s))).
  - match goal with |- context [request_here at_ ?x] => destruct (request_here_ok at_ GetInteger Hat x) as (s' & -> & H1 & H2 & H3 & H4) end.
    + by eapply table_ok_same.
    + done.
    + exact Hc.
    + exists s'. split; [done|]. split; [done|]. split; [by unfold quiet; rewrite H3|]. split; [by rewrite H4|]. by left.
  - eexists. split; [done|]. split; [|by auto]. constructor; try done. by eapply table_ok_same.
Qed.

Lemma lone_wait s : node_ok at_ s -> quiet s -> node_state_ s = NODE_WAIT_REQUEST -> collected_fi_ s = clear_FI ->
  slot_count_ (begin_slot s) = slot_num_ s ->
  exists s', slotHandler at_ GetInteger s = Ok s' /\ node_ok at_ s' /\ quiet s' /\ m_frame_len s' = m_frame_len s /\
    node_state_ s' = NODE_REQUEST.
Proof using Hat.
  intros Hs Hq Hst Hcl He. destruct (begin_slot_ok at_ s Hs) as [Hb Hc]. rewrite slotHandler_own by done. cbv zeta.
  apply node_ok_frame in Hb. set (s0 := begin_slot s <| frame_count_ ::= Z.succ |>) in *.
  change (node_state_ s) with (node_state_ s0) in Hst. rewrite Hst. unfold wait_request_step. cbv zeta.
  rewrite (refresh_eq at_ GetInteger Hat). set (s1 := s0 <| waiting_frame_count ::= Z.succ |>).
  assert (quiet s1) as Hq1 by (unfold quiet in *; cbn; by rewrite Hq).
  assert (table_ok s1) as Hs1 by (eapply table_ok_same; [apply Hb|done..]).
  destruct (synthesize_quiet s1 Hs1 Hq1) as (l & -> & Hs2 & Hl). cbn [obind].
  apply quiet_table in Hl; [|done|apply (ok_len _ Hs2)]. subst l. set (s2 := _ <| collected_fi_ := clear_FI |>) in *.
  change (slot_count_ s2) with (slot_count_ (begin_slot s)). rewrite He.
  pose proof (ok_slot _ s Hs) as Hslot. pose proof (frame_range s (ok_table _ s Hs)) as Hm.
  rewrite (read_slot_eq _ (slot_num_ s) slot_tag_init (proj1 Hslot)) by (apply lookup_replicate; split; [done|lia]).
  cbn [obind]. unfold slot_valid at 1. rewrite (orb_true_r : forall b, b || (tg_sti slot_tag_init =? 0) = true).
  destruct (request_here_ok at_ GetInteger Hat s2 Hs2) as (s' & -> & H1 & H2 & H3 & H4).
  - symmetry. exact He.
  - exact Hc.
  - exists s'. split; [done|]. split; [done|]. split; [by unfold quiet; rewrite H3|]. split; [by rewrite H4|done].
Qed.

Lemma wait_quiet n s : quiet s -> quiet (wait n s).
Proof using.
  intros Hq. induction n as [|n IH]; [done|]. unfold wait, quiet in *. rewrite Nat.iter_succ.
  cbn [received_fi_list_ begin_slot upd eta eta_TdmaSatmac]. by rewrite IH.
Qed.

(** A run of at most a frame to the next own slot. *)
Lemma advance s (P : TdmaSatmac -> Prop) : node_ok at_ s -> quiet s ->
  (forall s0, node_ok at_ s0 -> quiet s0 -> slot_count_ (begin_slot s0) = slot_num_ s0 -> s0 = wait (idle s) s ->
   exists s', slotHandler at_ GetInteger s0 = Ok s' /\ P s') ->
  exists n s', Z.of_nat n <= m_frame_len s /\ run n s = Ok s' /\ P s'.
Proof using.
  intros Hs Hq H. destruct (H (wait (idle s) s)) as (s' & E & HP); [by apply wait_node_ok|by apply wait_quiet|by apply wait_own|done|].
  exists (S (idle s)), s'. pose proof (idle_range s Hs). split; [lia|]. split; [|done]. by rewrite run_next.
Qed.

Lemma run_trans n n' s s' s'' : run n s = Ok s' -> run n' s' = Ok s'' -> run (n + n') s = Ok s''.
Proof using. intros E E'. by rewrite run_app, E. Qed.

Definition working (s : TdmaSatmac) : Prop :=
  (node_state_ s = NODE_WORK_FI \/ node_state_ s = NODE_WORK_ADJ) /\ own_at at_ (slot_num_ s) (collected_fi_ s) /\ sent s <> [].

Lemma lone_request s : node_ok at_ s -> quiet s -> node_state_ s = NODE_REQUEST ->
  exists n s', Z.of_nat n <= m_frame_len s /\ run n s = Ok s' /\ working s'.
Proof using Hat.
  intros Hs Hq Hst. apply advance; [done|done|]. intros s0 Hs0 Hq0 He ->. destruct (wait_fields (idle s) s) as (_ & _ & _ & Wst & _).
  destruct (confirmed_step at_ GetInteger Hat (wait (idle s) s) Hs0) as (s' & E & Hok & Hw & bytes & Hsent & _); [|done|left; congruence| |].
  - split; [|congruence]. unfold quiet in Hq0. rewrite Hq0. intros i fi recv fi' recv' Hfi. by apply not_elem_of_nil in Hfi.
  - unfold quiet in Hq0. rewrite Hq0. intros fi recv Hfi. by apply not_elem_of_nil in Hfi.
  - exists s'. split; [done|]. split; [done|]. split; [|rewrite Hsent; by intros [_ ?]%app_eq_nil].
    apply (ok_own _ s' Hok). by destruct Hw as [-> | ->].
Qed.

Lemma lone_waiting s : node_ok at_ s -> quiet s -> node_state_ s = NODE_WAIT_REQUEST -> collected_fi_ s = clear_FI ->
  exists n s', Z.of_nat n <= 2 * m_frame_len s /\ run n s = Ok s' /\ working s'.
Proof using Hat.
  intros Hs Hq Hst Hcl.
  destruct (advance s (fun s' => node_ok at_ s' /\ quiet s' /\ m_frame_len s' = m_frame_len s /\ node_state_ s' = NODE_REQUEST))
    as (n & s1 & Hn & E & Hs1 & Hq1 & Em & Hst1); [done|done| |].
  - intros s0 Hs0 Hq0 He ->. destruct (wait_fields (idle s) s) as (_ & Wm & _ & Wst & Wc & _). rewrite <- Wm.
    apply lone_wait; try done; congruence.
  - destruct (lone_request s1 Hs1 Hq1 Hst1) as (n' & s2 & Hn' & E' & Hw). exists (n + n')%nat, s2.
    split; [lia|]. split; [by eapply run_trans|done].
Qed.

Lemma lone_listening s : node_ok at_ s -> quiet s -> node_state_ s = NODE_LISTEN -> backoff_frame_num_ s = 0 ->
  exists n s', Z.of_nat n <= 3 * m_frame_len s /\ run n s = Ok s' /\ working s'.
Proof using Hat.
  intros Hs Hq Hst Hb. pose proof (frame_range s (ok_table _ s Hs)) as Hm.
  destruct (advance s (fun s' => node_ok at_ s' /\ quiet s' /\ m_frame_len s' = m_frame_len s /\
      (node_state_ s' = NODE_REQUEST \/ (node_state_ s' = NODE_WAIT_REQUEST /\ collected_fi_ s' = clear_FI))))
    as (n & s1 & Hn & E & Hs1 & Hq1 & Em & Hst1); [done|done| |].
  - intros s0 Hs0 Hq0 He ->. destruct (wait_fields (idle s) s) as (_ & Wm & _ & Wst & _ & _ & Wb & _). rewrite <- Wm.
    apply lone_listen; try done; congruence.
  - assert (exists n' s2, Z.of_nat n' <= 2 * m_frame_len s1 /\ run n' s1 = Ok s2 /\ working s2) as (n' & s2 & Hn' & E' & Hw).
    { destruct Hst1 as [Hst1|[Hst1 Hcl]]; [|by apply lone_waiting].
      destruct (lone_request s1 Hs1 Hq1 Hst1) as (n' & s2 & Hn' & H). exists n', s2. split; [lia|done]. }
    exists (n + n')%nat, s2. split; [lia|]. split; [by eapply run_trans|done].
Qed.

Lemma lone_start k thr cand lock backoff flag : 0 <= k <= 8 -> 1 <= thr ->
  exists n s', Z.of_nat n <= 3 * 2 ^ k + 1 /\ run n (Start (2 ^ k) thr cand lock backoff flag) = Ok s' /\ working s'.
Proof using Hat.
  intros Hk Ht. pose proof (pow2_8 k Hk) as Hp. set (s := Start _ _ _ _ _ _). assert (node_ok at_ s) as Hs by by apply Start_ok.
  assert (slot_count_ (begin_slot s) = slot_num_ s) as He by done.
  assert (slotHandler at_ GetInteger s = Ok (init_step (begin_slot s <| frame_count_ ::= Z.succ |>))) as E.
  { by rewrite slotHandler_own. }
  set (s1 := init_step _) in E. destruct (begin_slot_ok at_ s Hs) as [Hb _].
  assert (node_ok at_ s1) as Hs1.
  { constructor; try done; [|apply (ok_slot _ _ Hb)]. eapply table_ok_same; [apply Hb|done..]. }
  destruct (lone_listening s1 Hs1) as (n & s2 & Hn & E2 & Hw); [done|done|done|].
  exists (S n), s2. change (m_frame_len s1) with (2 ^ k) in Hn. split; [lia|]. split; [|done]. cbn [run]. by rewrite E.
Qed.
End Runs.
