(* ===== verification/SatmacProps.v ===== *)
(** The properties of the SATMAC protocol, with concrete instances. *)

From S2P Require Import Prelude FiCodec SatmacFi SatmacSlot Satmac SatmacInv SatmacNet.

(** * A network for the instances

    The default attributes, except for the bounds of the frame length. The
    random numbers are the smallest possible. *)

Definition demo_attr (sti : Z) : satmac_attr :=
  {| global_sti := sti; slot_lifetime_frame_ := 3; c3hop_threshold_ := 2; random_bch_if_single_switch_ := true;
     choose_bch_random_switch_ := 1; adj_ena_ := true; adj_frame_ena_ := true; adj_frame_lower_bound_ := 16;
     adj_frame_upper_bound_ := 128; slot_memory_ := true; adj_single_slot_ena_ := false |}.
Definition demo_random (k lo hi : Z) : Z := lo.

Lemma demo_attr_ok sti : 0 < sti < 512 -> attr_ok (demo_attr sti) demo_random.
Proof. intros Hs. constructor; cbn; unfold demo_random; try done; lia. Qed.

(** A node with identifier 1 that holds slot [i] of a frame of 16 slots, the
    random choice of a lone node being five frames away. *)
Definition demo_node (st : NodeState) (i : Z) : TdmaSatmac :=
  (with_slot i (own_tag (demo_attr 1) slot_tag_init) (Start 16 5 0 5 0 false)) <| node_state_ := st |> <| slot_num_ := i |>.

Lemma demo_node_ok st i : st = NODE_REQUEST \/ st = NODE_WORK_FI -> 0 <= i < 16 -> node_ok (demo_attr 1) (demo_node st i).
Proof.
  intros Hst Hi. assert (table_ok (Start 16 5 0 5 0 false)) as H0 by apply (Start_ok (demo_attr 1) 4 5 0 5 0 false ltac:(lia) ltac:(lia)).
  assert (table_ok (with_slot i (own_tag (demo_attr 1) slot_tag_init) (Start 16 5 0 5 0 false))) as H1.
  { apply with_slot_ok; [done|]. apply (own_tag_ok _ _ (demo_attr_ok 1 ltac:(lia))). }
  constructor.
  - by eapply table_ok_same.
  - exact Hi.
  - intros _. apply own_at_insert; [lia|done].
  - cbn. by destruct Hst as [-> | ->].
Qed.

(** The table of a neighbour that attributes slot [i] to node [sti], and its
    packet. *)
Definition demo_table (i : Z) (sti busy : Z) : list slot_tag :=
  <[Z.to_nat i := slot_tag_init <| tg_sti := sti |> <| tg_busy := busy |>]> clear_FI.
Definition demo_packet (i sti busy : Z) : list Z :=
  match FiHeader (2 ^ 4) 2 (demo_table i sti busy) with Ok (_, bytes) => bytes | Oops => [] end.

Lemma demo_reports i sti busy : 0 <= i < 16 -> 0 < sti < 512 -> 0 <= busy < 4 ->
  reports i (slot_tag_init <| tg_sti := sti |> <| tg_busy := busy |>) (demo_packet i sti busy).
Proof.
  intros Hi Hs Hb. assert (length (demo_table i sti busy) = 512%nat) as Hl.
  { unfold demo_table. rewrite length_insert. exact (length_replicate 512 slot_tag_init). }
  destruct (fi_header_spec (2 ^ 4) 2 (demo_table i sti busy)) as (b & E & _).
  { rewrite Hl. change (2 ^ 4) with 16. lia. }
  { change (Z.log2 (2 ^ 4)) with 4. unfold in_u8. lia. }
  exists 4, 2, (demo_table i sti busy). eexists. split_and!; try lia; try done.
  - apply Forall_insert; [exact clear_ok|]. unfold tag_ok. cbn. unfold SLOT_FREE. lia.
  - unfold demo_packet. rewrite E. reflexivity.
  - unfold demo_table. apply list_lookup_insert_eq. unfold clear_FI. rewrite length_replicate. lia.
Qed.

Lemma no_collision_consistent l :
  forallb (fun fi => forallb (fun r => negb (tg_busy r =? SLOT_COLLISION)) (slot_describe fi)) l = true -> consistent l.
Proof.
  intros H i fi recv fi' recv' Hfi _ Hr _ Hb _ _. exfalso. rewrite forallb_forall in H. specialize (H fi).
  rewrite <- list_elem_of_In in H. specialize (H Hfi). rewrite forallb_forall in H. specialize (H recv).
  rewrite <- list_elem_of_In in H. specialize (H (list_elem_of_lookup_2 _ _ _ Hr)). by rewrite Hb in H.
Qed.

(** The state after the packet has been received. *)
Definition demo_heard (st : NodeState) (i sti busy : Z) : TdmaSatmac :=
  match recvFI (demo_attr 1) (demo_packet i sti busy) (demo_node st i) with Ok s => s | Oops => demo_node st i end.

(** * Properties *)

(** C2. Networks of nodes stay safe, on two conditions. The attributes of every node
    are those of [attr_ok] (identifiers of nine bits, slots remembered, no test
    mode, adaptive frames with bounds from 1 to 256), which is narrower than what
    the simulator accepts; and it starts with a frame length that is a power of two
    up to 256 and a threshold of at least 1. A node passes to its next slot only
    where that slot is [calm]: no neighbour calls a slot empty while another one
    names it in a collision there, and the node does not move its slot and draw a
    new one at once ([slot_outside_frame] and [unannounced_slot] show what happens
    otherwise). Then, in whatever order the slots of the nodes and the receptions
    follow each other, with packets lost, late or repeated: every node is well
    formed, its slot handler returns in a calm slot, and every packet that any node
    has sent can be received by any other. *)
Theorem network_safe ats rnds net net' :
  (forall i, attr_ok (ats i) (rnds i)) -> net_start net -> rtc (net_step ats rnds) net net' ->
  forall j t, net' !! j = Some t ->
    node_ok (ats j) t /\ (calm (ats j) t -> exists t', slotHandler (ats j) (rnds j) t = Ok t') /\
    (forall i s bytes, net' !! i = Some s -> bytes ∈ sent s -> exists t', recvFI (ats j) bytes t = Ok t').
Proof.
  intros Hats H0 Hr j t Hj. pose proof (net_reach_ok ats rnds Hats net net' H0 Hr) as Hok. split; [by apply Hok|]. split.
  - intros Hc. destruct (slotHandler_ok _ _ (Hats j) t (Hok j t Hj) Hc) as (t' & E & _). by exists t'.
  - intros i s bytes Hi Hb. pose proof (ok_sent s (ok_table _ s (Hok i s Hi))) as Hs. rewrite Forall_forall in Hs.
    destruct (recvFI_ok _ _ t bytes (Hats j) (Hok j t Hj) (Hs bytes Hb)) as (t' & E & _). by exists t'.
Qed.

Definition demo_start : TdmaSatmac := Start (2 ^ 4) 5 0 5 0 false.

Lemma network_safe_witness :
  node_ok (demo_attr 1) (init_step (begin_slot demo_start <| frame_count_ ::= Z.succ |>)).
Proof.
  apply (network_safe (fun i => demo_attr (Z.of_nat (i `mod` 2) + 1)) (fun _ => demo_random)
    [demo_start; demo_start] [init_step (begin_slot demo_start <| frame_count_ ::= Z.succ |>); demo_start]) with (j := 0%nat).
  - intros i. apply demo_attr_ok. pose proof (Nat.mod_upper_bound i 2). lia.
  - repeat constructor; exists 4, 5, 0, 5, 0, false; (split; [lia|split; [lia|reflexivity]]).
  - apply rtc_once.
    refine (net_slot _ _ [demo_start; demo_start] 0%nat demo_start (init_step (begin_slot demo_start <| frame_count_ ::= Z.succ |>))
      eq_refl _ _); [|vm_compute; reflexivity].
    split; [intros i fi recv fi' recv' Hfi; by apply not_elem_of_nil in Hfi|discriminate].
  - reflexivity.
Defined.

(** C33. A well-formed node stays well formed: in every calm slot the handler
    returns, with a table of 512 well-formed entries, a frame length that is a
    power of two up to 256, the node's slot inside the frame and, when the node
    uses its slot, that slot announced as its own. *)
Theorem slotHandler_type at_ GetInteger s :
  attr_ok at_ GetInteger -> node_ok at_ s -> calm at_ s ->
  exists s', slotHandler at_ GetInteger s = Ok s' /\ node_ok at_ s'.
Proof. intros Hat Hs Hc. exact (slotHandler_ok at_ GetInteger Hat s Hs Hc). Qed.

Lemma slotHandler_type_witness : exists s',
  slotHandler (demo_attr 1) demo_random (demo_node NODE_WORK_FI 1) = Ok s' /\ node_ok (demo_attr 1) s'.
Proof.
  apply slotHandler_type; [apply demo_attr_ok; lia|apply demo_node_ok; [by right|lia]|].
  split; [intros i fi recv fi' recv' Hfi; by apply not_elem_of_nil in Hfi|].
  intros _ s1 E Hlock. exfalso. vm_compute in E. injection E as <-. discriminate Hlock.
Defined.

Section Protocol.
Context (at_ : satmac_attr) (GetInteger : Z -> Z -> Z -> Z) (Hat : attr_ok at_ GetInteger).

(** C1. A node of [attr_ok] requests or uses a slot, and a neighbour's packet arrives
    between two of its slots and attributes the slot to another node (or to a
    collision with one). The next time the slot comes, within one frame, the node
    gives it up and sends nothing: it listens, waits for another slot or, if it was
    about to move (NODE_WORK_ADJ), goes to its candidate slot. This holds for all
    slots except those with a number of 2 modulo 8 ([conflict_unnoticed]), when that
    slot is [calm]: no neighbour calls a slot empty while another one names it in a
    collision there, and the node does not move its slot and draw a new one at once.
    Without the first of these the node may miss the conflict
    ([slot_outside_frame]). *)
Theorem conflict_within_frame s s1 bytes tag :
  node_ok at_ s -> holding (node_state_ s) = true ->
  total_slot_count_ s mod m_frame_len s <> slot_num_ s ->
  reports (slot_num_ s) tag bytes -> conflict at_ tag -> slot_num_ s mod 8 <> 2 ->
  recvFI at_ bytes s = Ok s1 -> calm at_ (wait (idle s1) s1) ->
  exists s2, run at_ GetInteger (S (idle s1)) s1 = Ok s2 /\ Z.of_nat (S (idle s1)) < m_frame_len s /\
    sent s2 = sent s /\
    ((node_state_ s2 = NODE_LISTEN /\ slot_num_ s2 = slot_num_ s) \/
     (node_state_ s2 = NODE_WAIT_REQUEST /\ slot_num_ s2 <> slot_num_ s) \/
     (node_state_ s = NODE_WORK_ADJ /\ node_state_ s2 = NODE_WORK_FI /\
      slot_num_ s2 = slot_adj_candidate_ s /\ slot_num_ s2 <> slot_num_ s)).
Proof using Hat.
  intros Hs Hst Hne Hrep Hconf H8 Hrecv Hcalm.
  destruct (conflict_over_the_air at_ GetInteger Hat s s1 bytes tag Hs Hst Hne Hrep Hconf H8 Hrecv Hcalm) as (s2 & E & Hl & Hgu).
  destruct (recvFI_eq at_ GetInteger Hat s bytes s1 Hrecv) as (fi & _ & E1).
  assert (node_ok at_ s1) as Hs1.
  { destruct Hrep as (k & sti & tags & tags' & Hrep). destruct (recvFI_ok at_ GetInteger s bytes Hat Hs) as (a & Ea & Ha);
      [exists k, sti, tags, tags'; tauto|congruence]. }
  destruct (wait_fields (idle s1) s1) as (_ & _ & Wn & _ & _ & Ws & _).
  pose proof (wait_own at_ s1 Hs1) as Hown. unfold left_slot, gave_up in Hl, Hgu. rewrite Hown, Wn in Hl, Hgu.
  change (sent (begin_slot (wait (idle s1) s1))) with (sent (wait (idle s1) s1)) in Hl, Hgu. rewrite Ws in Hl, Hgu.
  change (slot_adj_candidate_ (begin_slot (wait (idle s1) s1))) with (slot_adj_candidate_ (wait (idle s1) s1)) in Hl.
  assert (sent s1 = sent s /\ slot_num_ s1 = slot_num_ s /\ slot_adj_candidate_ s1 = slot_adj_candidate_ s) as (F1 & F2 & F3) by by rewrite E1.
  rewrite wait_candidate in Hl. rewrite F1, F2 in Hl, Hgu. rewrite F3 in Hl.
  exists s2. split; [done|]. split.
  { pose proof (idle_other at_ s1 Hs1) as Hidle. rewrite E1 in Hidle |- *. specialize (Hidle Hne). cbn in *. lia. }
  destruct (decide (node_state_ s = NODE_WORK_ADJ)) as [Hadj|Hadj]; [|specialize (Hgu Hadj); tauto].
  destruct (ok_cand at_ s Hs Hadj) as (_ & Hcand & _). destruct Hl as [[? ?]|(? & ? & Hn)]; [tauto|]. rewrite Hn. tauto.
Qed.

(** C9. A node requests or uses its slot, and every report about the slot lets it
    keep it: then it works and sends its frame information. *)
Theorem confirmed_keeps s :
  node_ok at_ s -> calm at_ s -> slot_count_ (begin_slot s) = slot_num_ s ->
  node_state_ s = NODE_REQUEST \/ node_state_ s = NODE_WORK_FI ->
  (forall fi recv, fi ∈ received_fi_list_ s -> slot_describe fi !! Z.to_nat (slot_num_ s) = Some recv -> confirms at_ recv) ->
  exists s' bytes, slotHandler at_ GetInteger s = Ok s' /\
    (node_state_ s' = NODE_WORK_FI \/ node_state_ s' = NODE_WORK_ADJ) /\ sent s' = sent s ++ [bytes].
Proof using Hat.
  intros Hs Hc He Hst Hconf. destruct (confirmed_step at_ GetInteger Hat s Hs Hc He Hst Hconf) as (s' & E & _ & Hw & bytes & Hsent & _).
  by exists s', bytes.
Qed.


(** C12. A node that hears nobody works after at most three frames and one slot,
    in a slot that it announces as its own. *)
Theorem lone_node_works k thr cand lock backoff flag : 0 <= k <= 8 -> 1 <= thr ->
  exists n s', Z.of_nat n <= 3 * 2 ^ k + 1 /\ run at_ GetInteger n (Start (2 ^ k) thr cand lock backoff flag) = Ok s' /\
    (node_state_ s' = NODE_WORK_FI \/ node_state_ s' = NODE_WORK_ADJ) /\
    own_at at_ (slot_num_ s') (collected_fi_ s') /\ sent s' <> [].
Proof using Hat. exact (lone_start at_ GetInteger Hat k thr cand lock backoff flag). Qed.

(** Received frame information never makes a node the owner of a slot. *)
Theorem synthesize_never_claims listening slot cand k received l i tag :
  length l = 512%nat -> Forall tag_ok l -> 0 <= k <= 8 -> Forall fi_ok received ->
  l !! i = Some tag -> tg_sti tag <> global_sti at_ ->
  exists m' l' tag', synthesize_fi_list at_ listening slot cand (2 ^ k) received l = Ok (m', l') /\
    l' !! i = Some tag' /\ tg_sti tag' <> global_sti at_.
Proof using Hat.
  intros Hl Hok Hk Hfi Hi Hs. pose proof (id_nonzero at_ GetInteger Hat) as Hid.
  destruct (synthesize_ok at_ Hid listening slot cand k received l Hl Hok Hk Hfi) as (k' & l' & E & _ & _ & _ & Hat').
  assert (exists t, aged at_ listening slot cand (2 ^ k) l !! i = Some t /\ tg_sti t <> global_sti at_) as (t & Ht & Hts).
  { unfold aged. destruct (_ && _); [|by exists tag]. rewrite map_slots_lookup, Hi. eexists. split; [done|].
    destruct (_ <? _); [|done]. unfold age_tag, wipe. repeat (case_match; cbn; try done; try lia). }
  destruct (Hat' i (fun t => tg_sti t <> global_sti at_) t Ht Hts) as (t' & Ht' & Hts').
  { intros fi t0 t' _. by apply merged_not_own. }
  destruct Ht' as [Ht'|Ht']; exists (2 ^ k'), l'; eexists; (split; [exact E|split; [exact Ht'|]]); [done|].
  unfold unlock_tag. by destruct (_ && _).
Qed.

(** The slot that a node chooses is a candidate: free or its own, and not
    locked. It finds one whenever the frame has one. *)
Theorem determine_BCH_correct strict flag thr m draws l :
  1 <= m <= 256 -> m <= Z.of_nat (length l) -> 1 <= thr ->
  exists i d, determine_BCH at_ GetInteger strict flag thr m draws l = Ok (i, d, flag) /\
    ((i = -1 /\ forall j tag, 0 <= j < m -> l !! Z.to_nat j = Some tag -> candidate at_ strict tag = false) \/
     (0 <= i < m /\ exists tag, l !! Z.to_nat i = Some tag /\ candidate at_ strict tag = true)).
Proof using Hat. exact (determine_BCH_spec at_ GetInteger (at_random _ _ Hat) (at_switch _ _ Hat) strict flag thr m draws l). Qed.
End Protocol.

(** * Instances *)

(** The instances are calm: no collision is reported, and the lock is not 0. *)
Ltac demo_calm :=
  split; [apply no_collision_consistent; vm_compute; reflexivity
         |intros _ s' E Hlock; exfalso; vm_compute in E; injection E as <-; discriminate Hlock].

Lemma conflict_within_frame_witness : exists s2,
  run (demo_attr 1) demo_random (S (idle (demo_heard NODE_WORK_FI 5 3 SLOT_1HOP))) (demo_heard NODE_WORK_FI 5 3 SLOT_1HOP) = Ok s2 /\
  sent s2 = [].
Proof.
  destruct (conflict_within_frame (demo_attr 1) demo_random (demo_attr_ok 1 ltac:(lia)) (demo_node NODE_WORK_FI 5)
    (demo_heard NODE_WORK_FI 5 3 SLOT_1HOP) (demo_packet 5 3 SLOT_1HOP) (slot_tag_init <| tg_sti := 3 |> <| tg_busy := SLOT_1HOP |>))
    as (s2 & E & _ & H & _).
  - apply demo_node_ok; [by right|lia].
  - reflexivity.
  - discriminate.
  - apply demo_reports; unfold SLOT_1HOP; lia.
  - split; [discriminate|]. split; [discriminate|by left].
  - discriminate.
  - vm_compute. reflexivity.
  - demo_calm.
  - exact (ex_intro _ s2 (conj E H)).
Defined.

(** The node requests slot [i], a neighbour has attributed it to [sti], and the
    slot is about to come. *)
Definition demo_before (i sti busy : Z) : TdmaSatmac := (demo_heard NODE_REQUEST i sti busy) <| total_slot_count_ := i - 1 |>.

Lemma demo_before_ok i sti busy : 0 <= i < 16 -> 0 < sti < 512 -> 0 <= busy < 4 ->
  node_ok (demo_attr 1) (demo_before i sti busy).
Proof.
  intros Hi Hs Hb. destruct (recvFI_ok (demo_attr 1) demo_random (demo_node NODE_REQUEST i) (demo_packet i sti busy)) as (s & E & Hok).
  - apply demo_attr_ok. lia.
  - apply demo_node_ok; [by left|done].
  - destruct (demo_reports i sti busy Hi Hs Hb) as (k & x & tags & tags' & H). exists k, x, tags, tags'. tauto.
  - unfold demo_before, demo_heard. rewrite E. destruct Hok. constructor; try done. by eapply table_ok_same.
Qed.

Lemma confirmed_keeps_witness : exists s' bytes,
  slotHandler (demo_attr 1) demo_random (demo_before 5 1 SLOT_1HOP) = Ok s' /\ sent s' = [bytes].
Proof.
  destruct (confirmed_keeps (demo_attr 1) demo_random (demo_attr_ok 1 ltac:(lia)) (demo_before 5 1 SLOT_1HOP))
    as (s' & bytes & E & _ & H).
  - apply demo_before_ok; unfold SLOT_1HOP; lia.
  - demo_calm.
  - vm_compute. reflexivity.
  - left. vm_compute. reflexivity.
  - intros fi recv Hfi Hr. vm_compute in Hfi. apply list_elem_of_singleton in Hfi as ->.
    vm_compute in Hr. injection Hr as <-. split; [reflexivity|]. left. split; [reflexivity|discriminate].
  - exact (ex_intro _ s' (ex_intro _ bytes (conj E H))).
Defined.


Lemma lone_node_works_witness : exists n s', Z.of_nat n <= 49 /\
  run (demo_attr 1) demo_random n (Start (2 ^ 4) 5 0 5 0 false) = Ok s' /\ sent s' <> [].
Proof.
  destruct (lone_node_works (demo_attr 1) demo_random (demo_attr_ok 1 ltac:(lia)) 4 5 0 5 0 false ltac:(lia) ltac:(lia))
    as (n & s' & Hn & E & _ & _ & H).
  exact (ex_intro _ n (ex_intro _ s' (conj Hn (conj E H)))).
Defined.

Lemma synthesize_never_claims_witness : exists m' l' tag',
  synthesize_fi_list (demo_attr 1) false 5 0 (2 ^ 4) (received_fi_list_ (demo_before 5 3 SLOT_1HOP))
    (collected_fi_ (demo_before 5 3 SLOT_1HOP)) = Ok (m', l') /\ l' !! 6%nat = Some tag' /\ tg_sti tag' <> 1.
Proof.
  apply (synthesize_never_claims (demo_attr 1) demo_random (demo_attr_ok 1 ltac:(lia)) false 5 0 4
    (received_fi_list_ (demo_before 5 3 SLOT_1HOP)) (collected_fi_ (demo_before 5 3 SLOT_1HOP)) 6%nat slot_tag_init);
    [|apply (ok_tags _ (ok_table _ _ (demo_before_ok 5 3 SLOT_1HOP ltac:(lia) ltac:(lia) ltac:(unfold SLOT_1HOP; lia))))
     |lia
     |apply (ok_recv _ (ok_table _ _ (demo_before_ok 5 3 SLOT_1HOP ltac:(lia) ltac:(lia) ltac:(unfold SLOT_1HOP; lia))))
     |vm_compute; reflexivity|discriminate].
  apply (ok_len _ (ok_table _ _ (demo_before_ok 5 3 SLOT_1HOP ltac:(lia) ltac:(lia) ltac:(unfold SLOT_1HOP; lia)))).
Defined.

Lemma determine_BCH_correct_witness : exists i d,
  determine_BCH (demo_attr 1) demo_random false true 5 16 0 (demo_table 0 3 SLOT_1HOP) = Ok (i, d, true).
Proof.
  destruct (determine_BCH_correct (demo_attr 1) demo_random (demo_attr_ok 1 ltac:(lia)) false true 5 16 0 (demo_table 0 3 SLOT_1HOP))
    as (i & d & E & _); [lia|vm_compute; discriminate|lia|]. exact (ex_intro _ i (ex_intro _ d E)).
Defined.

(** * Where the hypotheses are needed *)

(** ** A slot that is not announced

    Slot adjustment is switched off ([AdjEnable] 0); every random choice takes
    the candidate with index 20, or the last one. *)
Definition stray_attr : satmac_attr :=
  {| global_sti := 1; slot_lifetime_frame_ := 3; c3hop_threshold_ := 2; random_bch_if_single_switch_ := true;
     choose_bch_random_switch_ := 1; adj_ena_ := false; adj_frame_ena_ := true; adj_frame_lower_bound_ := 16;
     adj_frame_upper_bound_ := 128; slot_memory_ := true; adj_single_slot_ena_ := false |}.
Definition stray_random (k lo hi : Z) : Z := Z.min hi 20.

Definition stray_node : TdmaSatmac :=
  match run stray_attr stray_random 372 (Start 32 5 0 5 0 false) with Ok s => s | Oops => demo_start end.
Definition stray_packet : list Z := match last (sent stray_node) with Some bytes => bytes | None => [] end.

(** A lone node that moves its slot to another one and, in the same slot,
    draws that one as its new slot, frees it when the move is completed. After
    372 slots the node works in slot 20, but neither its table nor the packet
    that it has just sent names it as the owner of any slot. *)
Theorem unannounced_slot : exists s bytes fi,
  run stray_attr stray_random 372 (Start 32 5 0 5 0 false) = Ok s /\
  node_state_ s = NODE_WORK_FI /\ slot_num_ s = 20 /\ slot_count_ s = 20 /\
  existsb (fun tag => tg_sti tag =? 1) (collected_fi_ s) = false /\
  last (sent s) = Some bytes /\ decode_FI true 32 0 bytes = Ok fi /\
  existsb (fun tag => tg_sti tag =? 1) (slot_describe fi) = false.
Proof.
  exists stray_node, stray_packet,
    (match decode_FI true 32 0 stray_packet with Ok fi => fi | Oops => Frame_info_new 0 end).
  split_and!; vm_compute; reflexivity.
Qed.

(** ** A slot outside the frame *)

(** The default attributes; node 1 works in slot 40 of 64. The lower half is
    full within three hops, the upper half empty. *)
Definition cut_attr : satmac_attr :=
  {| global_sti := 1; slot_lifetime_frame_ := 3; c3hop_threshold_ := 2; random_bch_if_single_switch_ := true;
     choose_bch_random_switch_ := 1; adj_ena_ := true; adj_frame_ena_ := true; adj_frame_lower_bound_ := 32;
     adj_frame_upper_bound_ := 128; slot_memory_ := true; adj_single_slot_ena_ := false |}.
Definition cut_table : list slot_tag :=
  (fun i =>
     if i <? 25 then slot_tag_init <| tg_sti := 100 + i |> <| tg_busy := SLOT_2HOP |> <| tg_count_2hop := 1 |>
                                   <| tg_count_3hop := 1 |> <| tg_life_time := 3 |>
     else if i <? 32 then slot_tag_init <| tg_count_3hop := 1 |>
     else if i =? 40 then own_tag cut_attr slot_tag_init else slot_tag_init) <$> seqZ 0 512.
Definition cut_node : TdmaSatmac :=
  (Start 64 4 0 5 0 false) <| collected_fi_ := cut_table |> <| node_state_ := NODE_WORK_FI |> <| slot_num_ := 40 |>
    <| total_slot_count_ := 39 |>.

Lemma cut_node_ok : node_ok cut_attr cut_node.
Proof.
  constructor; [|cbn; lia|intros _; exists (own_tag cut_attr slot_tag_init); split_and!; vm_compute; reflexivity|discriminate].
  constructor; try done; [|by exists 6].
  apply Forall_fmap, Forall_forall. intros i [Hi _]%elem_of_seqZ. unfold tag_ok, compose.
  destruct (Z.ltb_spec i 25); [cbn; unfold SLOT_2HOP, SLOT_FREE; lia|]. destruct (i <? 32); [cbn; unfold SLOT_FREE; lia|].
  destruct (i =? 40); cbn; unfold SLOT_1HOP, SLOT_FREE; lia.
Qed.

Definition cut_packet (sti : Z) (tag : slot_tag) : list Z :=
  match FiHeader 64 sti (<[40%nat := tag]> cut_table) with Ok (_, bytes) => bytes | Oops => [] end.

(** Node 2 reports a collision with node 3 in slot 40, and node 3 reports the
    slot as empty. The node loses the entry of its slot without noticing it,
    sends its frame information, cuts the frame to 32 slots, and the assertion
    on the slot number fails in the next slot. *)
Theorem slot_outside_frame : exists s1 s2 s3,
  node_ok cut_attr cut_node /\
  recvFI cut_attr (cut_packet 2 (slot_tag_init <| tg_sti := 3 |> <| tg_busy := SLOT_COLLISION |>)) cut_node = Ok s1 /\
  recvFI cut_attr (cut_packet 3 slot_tag_init) s1 = Ok s2 /\
  slotHandler cut_attr demo_random s2 = Ok s3 /\ m_frame_len s3 = 32 /\ slot_num_ s3 = 40 /\ length (sent s3) = 1%nat /\
  slotHandler cut_attr demo_random s3 = Oops.
Proof.
  set (ok := fun o : outcome TdmaSatmac => match o with Ok s => s | Oops => demo_start end).
  set (s1 := ok (recvFI cut_attr (cut_packet 2 (slot_tag_init <| tg_sti := 3 |> <| tg_busy := SLOT_COLLISION |>)) cut_node)).
  set (s2 := ok (recvFI cut_attr (cut_packet 3 slot_tag_init) s1)).
  set (s3 := ok (slotHandler cut_attr demo_random s2)).
  exists s1, s2, s3. split; [exact cut_node_ok|]. split_and!; vm_compute; reflexivity.
Qed.

(** An upper bound that is no power of two does not bound the length. *)
Theorem upper_bound_passed :
  let at_ := {| global_sti := 1; slot_lifetime_frame_ := 3; c3hop_threshold_ := 2; random_bch_if_single_switch_ := true;
     choose_bch_random_switch_ := 1; adj_ena_ := true; adj_frame_ena_ := true; adj_frame_lower_bound_ := 16;
     adj_frame_upper_bound_ := 100; slot_memory_ := true; adj_single_slot_ena_ := false |} in
  fst (adjFrameLen at_ 5 64 (replicate 128 (slot_tag_init <| tg_busy := SLOT_1HOP |>))) = 128.
Proof. vm_compute. reflexivity. Qed.

Lemma adj_frame_len_correct_witness :
  fst (adjFrameLen (demo_attr 1) 5 (2 ^ 5) (demo_table 3 7 SLOT_1HOP)) = frame_len_exact (demo_attr 1) 5 (2 ^ 5) (demo_table 3 7 SLOT_1HOP).
Proof.
  destruct (adj_frame_len_correct (demo_attr 1) 5 4 7 5 (demo_table 3 7 SLOT_1HOP)) as (H & _);
    [reflexivity|lia|lia|reflexivity|reflexivity|vm_compute; discriminate|exact H].
Defined.
