(* ===== verification/MacHeader.v ===== *)
(** The 802.11 MAC header of the simulator (src/ns3/wifi/model/
    wifi-mac-header.cc), in which SATMAC and MBR frames have types of their own
    (data frames with the five-bit subtypes 17 and 16), and the dispatch of
    received frames (tdma-mac-low.cc, tdma-satmac.cc).

    Addresses and the byte order of the buffer are the simulator's own; they
    are an interface, [Ns3Buffer], with its laws. A failing [NS_ASSERT] and a
    read behind the end of the buffer are [Oops]. *)

From S2P Require Import Prelude.

(** * The buffer of the simulator *)

Class Ns3Buffer := {
  Mac48Address : Type;
  WriteTo : Mac48Address -> list Z;
  ReadFrom : list Z -> Mac48Address;
  WriteHtolsbU16 : Z -> list Z;
  ReadLsbtohU16 : list Z -> Z;
}.

(** An address takes six bytes, a 16-bit number two; what has been written is
    read back. *)
Class Ns3BufferLaws (B : Ns3Buffer) : Prop := {
  WriteTo_length : forall a, length (WriteTo a) = 6%nat;
  ReadFrom_WriteTo : forall a, ReadFrom (WriteTo a) = a;
  WriteU16_length : forall x, length (WriteHtolsbU16 x) = 2%nat;
  ReadU16_WriteU16 : forall x, in_u16 x -> ReadLsbtohU16 (WriteHtolsbU16 x) = x;
}.

(** Reading [n] bytes. *)
Definition read (n : nat) {A} (f : list Z -> A) (i : list Z) : outcome (A * list Z) :=
  if (length i <? n)%nat then Oops else Ok (f (take n i), drop n i).

(** * The header *)

Inductive WifiMacType :=
  | WIFI_MAC_CTL_CTLWRAPPER | WIFI_MAC_CTL_RTS | WIFI_MAC_CTL_CTS | WIFI_MAC_CTL_ACK | WIFI_MAC_CTL_BACKREQ
  | WIFI_MAC_CTL_BACKRESP
  | WIFI_MAC_MGT_BEACON | WIFI_MAC_MGT_ASSOCIATION_REQUEST | WIFI_MAC_MGT_ASSOCIATION_RESPONSE
  | WIFI_MAC_MGT_DISASSOCIATION | WIFI_MAC_MGT_REASSOCIATION_REQUEST | WIFI_MAC_MGT_REASSOCIATION_RESPONSE
  | WIFI_MAC_MGT_PROBE_REQUEST | WIFI_MAC_MGT_PROBE_RESPONSE | WIFI_MAC_MGT_AUTHENTICATION
  | WIFI_MAC_MGT_DEAUTHENTICATION | WIFI_MAC_MGT_ACTION | WIFI_MAC_MGT_ACTION_NO_ACK | WIFI_MAC_MGT_MULTIHOP_ACTION
  | WIFI_MAC_DATA | WIFI_MAC_DATA_CFACK | WIFI_MAC_DATA_CFPOLL | WIFI_MAC_DATA_CFACK_CFPOLL | WIFI_MAC_DATA_NULL
  | WIFI_MAC_DATA_NULL_CFACK | WIFI_MAC_DATA_NULL_CFPOLL | WIFI_MAC_DATA_NULL_CFACK_CFPOLL
  | WIFI_MAC_QOSDATA | WIFI_MAC_QOSDATA_CFACK | WIFI_MAC_QOSDATA_CFPOLL | WIFI_MAC_QOSDATA_CFACK_CFPOLL
  | WIFI_MAC_QOSDATA_NULL | WIFI_MAC_QOSDATA_NULL_CFPOLL | WIFI_MAC_QOSDATA_NULL_CFACK_CFPOLL
  | WIFI_MAC_MBR_DATA | WIFI_MAC_SATMAC.
#[export] Instance WifiMacType_eq_dec : EqDecision WifiMacType.
Proof. solve_decision. Defined.

Definition TYPE_MGT : Z := 0.
Definition TYPE_CTL : Z := 1.
Definition TYPE_DATA : Z := 2.

Definition SUBTYPE_CTL_CTLWRAPPER : Z := 7.
Definition SUBTYPE_CTL_BACKREQ : Z := 8.
Definition SUBTYPE_CTL_BACKRESP : Z := 9.
Definition SUBTYPE_CTL_RTS : Z := 11.
Definition SUBTYPE_CTL_CTS : Z := 12.
Definition SUBTYPE_CTL_ACK : Z := 13.

(** [m_ctrlType] and [m_ctrlSubtype] of a type, as [SetType] assigns them. *)
Definition type_fields (type : WifiMacType) : Z * Z :=
  match type with
  | WIFI_MAC_CTL_CTLWRAPPER => (TYPE_CTL, SUBTYPE_CTL_CTLWRAPPER)
  | WIFI_MAC_CTL_BACKREQ => (TYPE_CTL, SUBTYPE_CTL_BACKREQ)
  | WIFI_MAC_CTL_BACKRESP => (TYPE_CTL, SUBTYPE_CTL_BACKRESP)
  | WIFI_MAC_CTL_RTS => (TYPE_CTL, SUBTYPE_CTL_RTS)
  | WIFI_MAC_CTL_CTS => (TYPE_CTL, SUBTYPE_CTL_CTS)
  | WIFI_MAC_CTL_ACK => (TYPE_CTL, SUBTYPE_CTL_ACK)
  | WIFI_MAC_MGT_ASSOCIATION_REQUEST => (TYPE_MGT, 0)
  | WIFI_MAC_MGT_ASSOCIATION_RESPONSE => (TYPE_MGT, 1)
  | WIFI_MAC_MGT_REASSOCIATION_REQUEST => (TYPE_MGT, 2)
  | WIFI_MAC_MGT_REASSOCIATION_RESPONSE => (TYPE_MGT, 3)
  | WIFI_MAC_MGT_PROBE_REQUEST => (TYPE_MGT, 4)
  | WIFI_MAC_MGT_PROBE_RESPONSE => (TYPE_MGT, 5)
  | WIFI_MAC_MGT_BEACON => (TYPE_MGT, 8)
  | WIFI_MAC_MGT_DISASSOCIATION => (TYPE_MGT, 10)
  | WIFI_MAC_MGT_AUTHENTICATION => (TYPE_MGT, 11)
  | WIFI_MAC_MGT_DEAUTHENTICATION => (TYPE_MGT, 12)
  | WIFI_MAC_MGT_ACTION => (TYPE_MGT, 13)
  | WIFI_MAC_MGT_ACTION_NO_ACK => (TYPE_MGT, 14)
  | WIFI_MAC_MGT_MULTIHOP_ACTION => (TYPE_MGT, 15)
  | WIFI_MAC_DATA => (TYPE_DATA, 0)
  | WIFI_MAC_DATA_CFACK => (TYPE_DATA, 1)
  | WIFI_MAC_DATA_CFPOLL => (TYPE_DATA, 2)
  | WIFI_MAC_DATA_CFACK_CFPOLL => (TYPE_DATA, 3)
  | WIFI_MAC_DATA_NULL => (TYPE_DATA, 4)
  | WIFI_MAC_DATA_NULL_CFACK => (TYPE_DATA, 5)
  | WIFI_MAC_DATA_NULL_CFPOLL => (TYPE_DATA, 6)
  | WIFI_MAC_DATA_NULL_CFACK_CFPOLL => (TYPE_DATA, 7)
  | WIFI_MAC_QOSDATA => (TYPE_DATA, 8)
  | WIFI_MAC_QOSDATA_CFACK => (TYPE_DATA, 9)
  | WIFI_MAC_QOSDATA_CFPOLL => (TYPE_DATA, 10)
  | WIFI_MAC_QOSDATA_CFACK_CFPOLL => (TYPE_DATA, 11)
  | WIFI_MAC_QOSDATA_NULL => (TYPE_DATA, 12)
  | WIFI_MAC_QOSDATA_NULL_CFPOLL => (TYPE_DATA, 14)
  | WIFI_MAC_QOSDATA_NULL_CFACK_CFPOLL => (TYPE_DATA, 15)
  | WIFI_MAC_MBR_DATA => (TYPE_DATA, 16)
  | WIFI_MAC_SATMAC => (TYPE_DATA, 17)
  end.

Section Header.
Context `{B : Ns3Buffer}.

Record WifiMacHeader := {
  m_ctrlType : Z;
  m_ctrlSubtype : Z;
  m_ctrlToDs : Z;
  m_ctrlFromDs : Z;
  m_ctrlMoreFrag : Z;
  m_ctrlRetry : Z;
  m_ctrlMoreData : Z;
  m_ctrlWep : Z;
  m_ctrlOrder : Z;
  m_duration : Z;
  m_addr1 : Mac48Address;
  m_addr2 : Mac48Address;
  m_addr3 : Mac48Address;
  m_seqFrag : Z;
  m_seqSeq : Z;
  m_addr4 : Mac48Address;
  m_qosTid : Z;
  m_qosEosp : Z;
  m_qosAckPolicy : Z;
  m_amsduPresent : Z;
  m_qosStuff : Z;
}.
#[export] Instance eta_WifiMacHeader : Eta WifiMacHeader := fun r =>
  Build_WifiMacHeader (m_ctrlType r) (m_ctrlSubtype r) (m_ctrlToDs r) (m_ctrlFromDs r) (m_ctrlMoreFrag r) (m_ctrlRetry r)
    (m_ctrlMoreData r) (m_ctrlWep r) (m_ctrlOrder r) (m_duration r) (m_addr1 r) (m_addr2 r) (m_addr3 r) (m_seqFrag r)
    (m_seqSeq r) (m_addr4 r) (m_qosTid r) (m_qosEosp r) (m_qosAckPolicy r) (m_amsduPresent r) (m_qosStuff r).

(** The constructor: the members of [h] keep what was in memory, except four. *)
Definition WifiMacHeader_new (h : WifiMacHeader) : WifiMacHeader :=
  h <| m_ctrlMoreData := 0 |> <| m_ctrlWep := 0 |> <| m_ctrlOrder := 1 |> <| m_amsduPresent := 0 |>.

Definition SetType (type : WifiMacType) (h : WifiMacHeader) : WifiMacHeader :=
  let '(t, st) := type_fields type in
  h <| m_ctrlType := t |> <| m_ctrlSubtype := st |> <| m_ctrlToDs := 0 |> <| m_ctrlFromDs := 0 |>.

Definition SetDsFrom (h : WifiMacHeader) : WifiMacHeader := h <| m_ctrlFromDs := 1 |>.
Definition SetDsNotTo (h : WifiMacHeader) : WifiMacHeader := h <| m_ctrlToDs := 0 |>.
Definition SetAddr1 (a : Mac48Address) (h : WifiMacHeader) : WifiMacHeader := h <| m_addr1 := a |>.
Definition SetAddr2 (a : Mac48Address) (h : WifiMacHeader) : WifiMacHeader := h <| m_addr2 := a |>.
Definition SetAddr3 (a : Mac48Address) (h : WifiMacHeader) : WifiMacHeader := h <| m_addr3 := a |>.

(** The setters of the other types keep the DS bits. *)
Definition set_type_fields (t st : Z) (h : WifiMacHeader) : WifiMacHeader := h <| m_ctrlType := t |> <| m_ctrlSubtype := st |>.
Definition SetAssocReq : WifiMacHeader -> WifiMacHeader := set_type_fields TYPE_MGT 0.
Definition SetAssocResp : WifiMacHeader -> WifiMacHeader := set_type_fields TYPE_MGT 1.
Definition SetProbeReq : WifiMacHeader -> WifiMacHeader := set_type_fields TYPE_MGT 4.
Definition SetProbeResp : WifiMacHeader -> WifiMacHeader := set_type_fields TYPE_MGT 5.
Definition SetBeacon : WifiMacHeader -> WifiMacHeader := set_type_fields TYPE_MGT 8.
Definition SetBlockAckReq : WifiMacHeader -> WifiMacHeader := set_type_fields TYPE_CTL 8.
Definition SetBlockAck : WifiMacHeader -> WifiMacHeader := set_type_fields TYPE_CTL 9.
Definition SetTypeData : WifiMacHeader -> WifiMacHeader := set_type_fields TYPE_DATA 0.
Definition SetTypeMBRData : WifiMacHeader -> WifiMacHeader := set_type_fields TYPE_DATA 16.
Definition SetAction : WifiMacHeader -> WifiMacHeader := set_type_fields TYPE_MGT 0x0D.
Definition SetMultihopAction : WifiMacHeader -> WifiMacHeader := set_type_fields TYPE_MGT 0x0F.

Definition SetDsNotFrom (h : WifiMacHeader) : WifiMacHeader := h <| m_ctrlFromDs := 0 |>.
Definition SetDsTo (h : WifiMacHeader) : WifiMacHeader := h <| m_ctrlToDs := 1 |>.
Definition SetAddr4 (a : Mac48Address) (h : WifiMacHeader) : WifiMacHeader := h <| m_addr4 := a |>.
Definition SetRawDuration (duration : Z) (h : WifiMacHeader) : WifiMacHeader := h <| m_duration := duration |>.
Definition SetId (id : Z) (h : WifiMacHeader) : WifiMacHeader := h <| m_duration := id |>.
(** [duration] in nanoseconds. The quotient in double precision is within
    half a unit in the last place of the exact one, so that [ceil] of it is the
    exact ceiling for all durations that pass the assertion. *)
Definition SetDuration (duration : Z) (h : WifiMacHeader) : outcome WifiMacHeader :=
  let duration_us := (duration + 999) / 1000 in
  if (0 <=? duration_us) && (duration_us <=? 0x7fff) then Ok (h <| m_duration := u16 duration_us |>) else Oops.
Definition SetSequenceNumber (seq : Z) (h : WifiMacHeader) : WifiMacHeader := h <| m_seqSeq := seq |>.
Definition SetFragmentNumber (frag : Z) (h : WifiMacHeader) : WifiMacHeader := h <| m_seqFrag := frag |>.
Definition SetNoMoreFragments (h : WifiMacHeader) : WifiMacHeader := h <| m_ctrlMoreFrag := 0 |>.
Definition SetMoreFragments (h : WifiMacHeader) : WifiMacHeader := h <| m_ctrlMoreFrag := 1 |>.
Definition SetOrder (h : WifiMacHeader) : WifiMacHeader := h <| m_ctrlOrder := 1 |>.
Definition SetNoOrder (h : WifiMacHeader) : WifiMacHeader := h <| m_ctrlOrder := 0 |>.
Definition SetRetry (h : WifiMacHeader) : WifiMacHeader := h <| m_ctrlRetry := 1 |>.
Definition SetNoRetry (h : WifiMacHeader) : WifiMacHeader := h <| m_ctrlRetry := 0 |>.

Inductive QosAckPolicy := NORMAL_ACK | NO_ACK | NO_EXPLICIT_ACK | BLOCK_ACK.

Definition SetQosTid (tid : Z) (h : WifiMacHeader) : WifiMacHeader := h <| m_qosTid := tid |>.
Definition SetQosEosp (h : WifiMacHeader) : WifiMacHeader := h <| m_qosEosp := 1 |>.
Definition SetQosNoEosp (h : WifiMacHeader) : WifiMacHeader := h <| m_qosEosp := 0 |>.
Definition SetQosAckPolicy (policy : QosAckPolicy) (h : WifiMacHeader) : WifiMacHeader :=
  h <| m_qosAckPolicy := match policy with NORMAL_ACK => 0 | NO_ACK => 1 | NO_EXPLICIT_ACK => 2 | BLOCK_ACK => 3 end |>.
Definition SetQosNormalAck (h : WifiMacHeader) : WifiMacHeader := h <| m_qosAckPolicy := 0 |>.
Definition SetQosBlockAck (h : WifiMacHeader) : WifiMacHeader := h <| m_qosAckPolicy := 3 |>.
Definition SetQosNoAck (h : WifiMacHeader) : WifiMacHeader := h <| m_qosAckPolicy := 1 |>.
Definition SetQosAmsdu (h : WifiMacHeader) : WifiMacHeader := h <| m_amsduPresent := 1 |>.
Definition SetQosNoAmsdu (h : WifiMacHeader) : WifiMacHeader := h <| m_amsduPresent := 0 |>.
Definition SetQosTxopLimit (txop : Z) (h : WifiMacHeader) : WifiMacHeader := h <| m_qosStuff := txop |>.
Definition SetQosMeshControlPresent (h : WifiMacHeader) : WifiMacHeader := h <| m_qosStuff ::= fun x => x .| 0x01 |>.
Definition SetQosNoMeshControlPresent (h : WifiMacHeader) : WifiMacHeader := h <| m_qosStuff ::= fun x => x .& 0xfe |>.

Definition GetQosAckPolicy (h : WifiMacHeader) : outcome QosAckPolicy :=
  let p := m_qosAckPolicy h in
  if p =? 0 then Ok NORMAL_ACK else if p =? 1 then Ok NO_ACK else if p =? 2 then Ok NO_EXPLICIT_ACK
  else if p =? 3 then Ok BLOCK_ACK else Oops.

Definition GetType (h : WifiMacHeader) : outcome WifiMacType :=
  let st := m_ctrlSubtype h in
  if m_ctrlType h =? TYPE_MGT then
    if st =? 0 then Ok WIFI_MAC_MGT_ASSOCIATION_REQUEST else if st =? 1 then Ok WIFI_MAC_MGT_ASSOCIATION_RESPONSE
    else if st =? 2 then Ok WIFI_MAC_MGT_REASSOCIATION_REQUEST else if st =? 3 then Ok WIFI_MAC_MGT_REASSOCIATION_RESPONSE
    else if st =? 4 then Ok WIFI_MAC_MGT_PROBE_REQUEST else if st =? 5 then Ok WIFI_MAC_MGT_PROBE_RESPONSE
    else if st =? 8 then Ok WIFI_MAC_MGT_BEACON else if st =? 10 then Ok WIFI_MAC_MGT_DISASSOCIATION
    else if st =? 11 then Ok WIFI_MAC_MGT_AUTHENTICATION else if st =? 12 then Ok WIFI_MAC_MGT_DEAUTHENTICATION
    else if st =? 13 then Ok WIFI_MAC_MGT_ACTION else if st =? 14 then Ok WIFI_MAC_MGT_ACTION_NO_ACK
    else if st =? 15 then Ok WIFI_MAC_MGT_MULTIHOP_ACTION else Oops
  else if m_ctrlType h =? TYPE_CTL then
    if st =? SUBTYPE_CTL_BACKREQ then Ok WIFI_MAC_CTL_BACKREQ else if st =? SUBTYPE_CTL_BACKRESP then Ok WIFI_MAC_CTL_BACKRESP
    else if st =? SUBTYPE_CTL_RTS then Ok WIFI_MAC_CTL_RTS else if st =? SUBTYPE_CTL_CTS then Ok WIFI_MAC_CTL_CTS
    else if st =? SUBTYPE_CTL_ACK then Ok WIFI_MAC_CTL_ACK else Oops
  else if m_ctrlType h =? TYPE_DATA then
    if st =? 0 then Ok WIFI_MAC_DATA else if st =? 1 then Ok WIFI_MAC_DATA_CFACK
    else if st =? 2 then Ok WIFI_MAC_DATA_CFPOLL else if st =? 3 then Ok WIFI_MAC_DATA_CFACK_CFPOLL
    else if st =? 4 then Ok WIFI_MAC_DATA_NULL else if st =? 5 then Ok WIFI_MAC_DATA_NULL_CFACK
    else if st =? 6 then Ok WIFI_MAC_DATA_NULL_CFPOLL else if st =? 7 then Ok WIFI_MAC_DATA_NULL_CFACK_CFPOLL
    else if st =? 8 then Ok WIFI_MAC_QOSDATA else if st =? 9 then Ok WIFI_MAC_QOSDATA_CFACK
    else if st =? 10 then Ok WIFI_MAC_QOSDATA_CFPOLL else if st =? 11 then Ok WIFI_MAC_QOSDATA_CFACK_CFPOLL
    else if st =? 12 then Ok WIFI_MAC_QOSDATA_NULL else if st =? 14 then Ok WIFI_MAC_QOSDATA_NULL_CFPOLL
    else if st =? 15 then Ok WIFI_MAC_QOSDATA_NULL_CFACK_CFPOLL else if st =? 16 then Ok WIFI_MAC_MBR_DATA
    else if st =? 17 then Ok WIFI_MAC_SATMAC else Oops
  else Oops.

Definition IsData (h : WifiMacHeader) : bool := m_ctrlType h =? TYPE_DATA.
Definition IsMgt (h : WifiMacHeader) : bool := m_ctrlType h =? TYPE_MGT.
Definition IsSatmacData (h : WifiMacHeader) : bool := (m_ctrlType h =? TYPE_DATA) && (m_ctrlSubtype h =? 17).
Definition IsMBRData (h : WifiMacHeader) : bool := (m_ctrlType h =? TYPE_DATA) && (m_ctrlSubtype h =? 16).

(** ** The control fields *)

(** [(x << n) & (mask << n)]. *)
Definition bits (x mask n : Z) : Z := (x .<< n) .& (mask .<< n).

Definition GetFrameControl (h : WifiMacHeader) : Z :=
  u16 (0 .| bits (m_ctrlType h) 0x3 1 .| bits (m_ctrlSubtype h) 0x1f 3 .| bits (m_ctrlToDs h) 0x1 8
       .| bits (m_ctrlFromDs h) 0x1 9 .| bits (m_ctrlMoreFrag h) 0x1 10 .| bits (m_ctrlRetry h) 0x1 11
       .| bits (m_ctrlMoreData h) 0x1 13 .| bits (m_ctrlWep h) 0x1 14 .| bits (m_ctrlOrder h) 0x1 15).

Definition SetFrameControl (ctrl : Z) (h : WifiMacHeader) : WifiMacHeader :=
  h <| m_ctrlType := (ctrl .>> 1) .& 0x03 |> <| m_ctrlSubtype := (ctrl .>> 3) .& 0x1f |>
    <| m_ctrlToDs := (ctrl .>> 8) .& 0x01 |> <| m_ctrlFromDs := (ctrl .>> 9) .& 0x01 |>
    <| m_ctrlMoreFrag := (ctrl .>> 10) .& 0x01 |> <| m_ctrlRetry := (ctrl .>> 11) .& 0x01 |>
    <| m_ctrlMoreData := (ctrl .>> 13) .& 0x01 |> <| m_ctrlWep := (ctrl .>> 14) .& 0x01 |>
    <| m_ctrlOrder := (ctrl .>> 15) .& 0x01 |>.

Definition GetSequenceControl (h : WifiMacHeader) : Z := u16 ((m_seqSeq h .<< 4) .| m_seqFrag h).
Definition SetSequenceControl (seq : Z) (h : WifiMacHeader) : WifiMacHeader :=
  h <| m_seqFrag := seq .& 0x0f |> <| m_seqSeq := (seq .>> 4) .& 0x0fff |>.

Definition GetQosControl (h : WifiMacHeader) : Z :=
  u16 (0 .| m_qosTid h .| (m_qosEosp h .<< 4) .| (m_qosAckPolicy h .<< 5) .| (m_amsduPresent h .<< 7) .| (m_qosStuff h .<< 8)).
Definition SetQosControl (qos : Z) (h : WifiMacHeader) : WifiMacHeader :=
  h <| m_qosTid := qos .& 0x000f |> <| m_qosEosp := (qos .>> 4) .& 0x0001 |>
    <| m_qosAckPolicy := (qos .>> 5) .& 0x0003 |> <| m_amsduPresent := (qos .>> 7) .& 0x0001 |>
    <| m_qosStuff := (qos .>> 8) .& 0x00ff |>.

(** ** The wire format *)

(** The fourth address is present, the QoS control field is present. *)
Definition has_addr4 (h : WifiMacHeader) : bool :=
  (negb (m_ctrlToDs h =? 0) && negb (m_ctrlFromDs h =? 0)) || (m_ctrlSubtype h =? 16).
Definition has_qos (h : WifiMacHeader) : bool := has (m_ctrlSubtype h) 0x08.

Definition GetSize (h : WifiMacHeader) : Z :=
  if m_ctrlType h =? TYPE_MGT then 2 + 2 + 6 + 6 + 6 + 2
  else if m_ctrlType h =? TYPE_CTL then
    let st := m_ctrlSubtype h in
    if st =? SUBTYPE_CTL_RTS then 2 + 2 + 6 + 6
    else if (st =? SUBTYPE_CTL_CTS) || (st =? SUBTYPE_CTL_ACK) then 2 + 2 + 6
    else if (st =? SUBTYPE_CTL_BACKREQ) || (st =? SUBTYPE_CTL_BACKRESP) then 2 + 2 + 6 + 6
    else if st =? SUBTYPE_CTL_CTLWRAPPER then 2 + 2 + 6 + 2 + 4
    else 0
  else if m_ctrlType h =? TYPE_DATA then
    2 + 2 + 6 + 6 + 6 + 2 + (if has_addr4 h then 6 else 0) + (if has_qos h then 2 else 0)
  else 0.

(** Control frames with a second address, and without. *)
Definition ctl_two (st : Z) : bool := (st =? SUBTYPE_CTL_RTS) || (st =? SUBTYPE_CTL_BACKREQ) || (st =? SUBTYPE_CTL_BACKRESP).
Definition ctl_one (st : Z) : bool := (st =? SUBTYPE_CTL_CTS) || (st =? SUBTYPE_CTL_ACK).

Definition Serialize (h : WifiMacHeader) : outcome (list Z) :=
  let i := WriteHtolsbU16 (GetFrameControl h) ++ WriteHtolsbU16 (m_duration h) ++ WriteTo (m_addr1 h) in
  if m_ctrlType h =? TYPE_MGT then
    Ok (i ++ WriteTo (m_addr2 h) ++ WriteTo (m_addr3 h) ++ WriteHtolsbU16 (GetSequenceControl h))
  else if m_ctrlType h =? TYPE_CTL then
    if ctl_two (m_ctrlSubtype h) then Ok (i ++ WriteTo (m_addr2 h))
    else if ctl_one (m_ctrlSubtype h) then Ok i
    else Oops
  else if m_ctrlType h =? TYPE_DATA then
    Ok (i ++ WriteTo (m_addr2 h) ++ WriteTo (m_addr3 h) ++ WriteHtolsbU16 (GetSequenceControl h)
        ++ (if has_addr4 h then WriteTo (m_addr4 h) else [])
        ++ (if has_qos h then WriteHtolsbU16 (GetQosControl h) else []))
  else Oops.

(** Reading a field into the header. *)
Definition read_addr (set : Mac48Address -> WifiMacHeader -> WifiMacHeader) (hi : WifiMacHeader * list Z)
  : outcome (WifiMacHeader * list Z) :=
  let '(h, i) := hi in obind (read 6 ReadFrom i) (fun '(a, i) => Ok (set a h, i)).
Definition read_u16 (set : Z -> WifiMacHeader -> WifiMacHeader) (hi : WifiMacHeader * list Z)
  : outcome (WifiMacHeader * list Z) :=
  let '(h, i) := hi in obind (read 2 ReadLsbtohU16 i) (fun '(x, i) => Ok (set x h, i)).

(** The header that is read into [h], and the number of bytes read. *)
Definition Deserialize (start : list Z) (h : WifiMacHeader) : outcome (WifiMacHeader * Z) :=
  obind (read_u16 SetFrameControl (h, start)) (fun hi =>
  obind (read_u16 (fun x h => h <| m_duration := x |>) hi) (fun hi =>
  obind (read_addr SetAddr1 hi) (fun hi =>
  obind
    (let '(h, i) := hi in
     if m_ctrlType h =? TYPE_MGT then
       obind (read_addr SetAddr2 hi) (fun hi =>
       obind (read_addr SetAddr3 hi) (fun hi => read_u16 SetSequenceControl hi))
     else if m_ctrlType h =? TYPE_CTL then
       if ctl_two (m_ctrlSubtype h) then read_addr SetAddr2 hi else Ok hi
     else if m_ctrlType h =? TYPE_DATA then
       obind (read_addr SetAddr2 hi) (fun hi =>
       obind (read_addr SetAddr3 hi) (fun hi =>
       obind (read_u16 SetSequenceControl hi) (fun hi =>
       obind (if has_addr4 (fst hi) then read_addr (fun a h => h <| m_addr4 := a |>) hi else Ok hi) (fun hi =>
       if has_qos (fst hi) then read_u16 SetQosControl hi else Ok hi))))
     else Ok hi)
    (fun '(h, i) => Ok (h, Z.of_nat (length start) - Z.of_nat (length i)))))).
End Header.

(** * Round trips *)

Lemma bits_mod k x mask n : mask = Z.ones k -> 0 <= k -> 0 <= n -> bits x mask n = (x mod 2 ^ k) .<< n.
Proof. intros -> Hk Hn. unfold bits. rewrite <- Z.shiftl_land. by rewrite Z.land_ones. Qed.

Lemma shiftr_mask k x mask n : mask = Z.ones k -> 0 <= k -> 0 <= n -> (x .>> n) .& mask = (x / 2 ^ n) mod 2 ^ k.
Proof. intros -> **. by rewrite Z.land_ones, Z.shiftr_div_pow2. Qed.

(** A field of [k] bits at bit [n] of a word. *)
Lemma field_of lo x hi v n k : 0 <= n -> 0 <= k -> v = lo + 2 ^ n * (x + 2 ^ k * hi) ->
  0 <= lo < 2 ^ n -> 0 <= x < 2 ^ k -> (v / 2 ^ n) mod 2 ^ k = x.
Proof.
  intros Hn Hk -> Hlo Hx. rewrite (Z.mul_comm (2 ^ n)), Z.div_add, Z.div_small, Z.add_0_l by lia.
  rewrite (Z.mul_comm (2 ^ k)), Z.mod_add by lia. by apply Z.mod_small.
Qed.

Section RoundTripHeader.
Context `{B : Ns3Buffer} (L : Ns3BufferLaws B).

(** The members fit their fields. *)
Record header_ok (h : WifiMacHeader) : Prop := {
  h_type : 0 <= m_ctrlType h < 4;
  h_sub : 0 <= m_ctrlSubtype h < 32;
  h_to : 0 <= m_ctrlToDs h < 2;
  h_from : 0 <= m_ctrlFromDs h < 2;
  h_frag : 0 <= m_ctrlMoreFrag h < 2;
  h_retry : 0 <= m_ctrlRetry h < 2;
  h_data : 0 <= m_ctrlMoreData h < 2;
  h_wep : 0 <= m_ctrlWep h < 2;
  h_order : 0 <= m_ctrlOrder h < 2;
  h_duration : in_u16 (m_duration h);
  h_seqFrag : 0 <= m_seqFrag h < 16;
  h_seqSeq : 0 <= m_seqSeq h < 4096;
  h_tid : 0 <= m_qosTid h < 16;
  h_eosp : 0 <= m_qosEosp h < 2;
  h_ack : 0 <= m_qosAckPolicy h < 4;
  h_amsdu : 0 <= m_amsduPresent h < 2;
  h_stuff : 0 <= m_qosStuff h < 256;
}.

Lemma frame_control_value h : GetFrameControl h =
  m_ctrlType h mod 4 * 2
  + m_ctrlSubtype h mod 32 * 8
  + m_ctrlToDs h mod 2 * 256
  + m_ctrlFromDs h mod 2 * 512
  + m_ctrlMoreFrag h mod 2 * 1024
  + m_ctrlRetry h mod 2 * 2048
  + m_ctrlMoreData h mod 2 * 8192
  + m_ctrlWep h mod 2 * 16384
  + m_ctrlOrder h mod 2 * 32768.
Proof using.
  unfold GetFrameControl.
  rewrite (bits_mod 2 (m_ctrlType h)), (bits_mod 5 (m_ctrlSubtype h)), (bits_mod 1 (m_ctrlToDs h)), (bits_mod 1 (m_ctrlFromDs h)), (bits_mod 1 (m_ctrlMoreFrag h)), (bits_mod 1 (m_ctrlRetry h)), (bits_mod 1 (m_ctrlMoreData h)), (bits_mod 1 (m_ctrlWep h)), (bits_mod 1 (m_ctrlOrder h)) by (done || lia).
  rewrite Z.lor_0_l, Z.shiftl_mul_pow2 by lia.
  set (a := m_ctrlType h mod 2 ^ 2); assert (0 <= a < 2 ^ 2) by (apply Z.mod_pos_bound; lia).
  set (b := m_ctrlSubtype h mod 2 ^ 5); assert (0 <= b < 2 ^ 5) by (apply Z.mod_pos_bound; lia).
  set (c := m_ctrlToDs h mod 2 ^ 1); assert (0 <= c < 2 ^ 1) by (apply Z.mod_pos_bound; lia).
  set (d := m_ctrlFromDs h mod 2 ^ 1); assert (0 <= d < 2 ^ 1) by (apply Z.mod_pos_bound; lia).
  set (e := m_ctrlMoreFrag h mod 2 ^ 1); assert (0 <= e < 2 ^ 1) by (apply Z.mod_pos_bound; lia).
  set (f := m_ctrlRetry h mod 2 ^ 1); assert (0 <= f < 2 ^ 1) by (apply Z.mod_pos_bound; lia).
  set (g := m_ctrlMoreData h mod 2 ^ 1); assert (0 <= g < 2 ^ 1) by (apply Z.mod_pos_bound; lia).
  set (i := m_ctrlWep h mod 2 ^ 1); assert (0 <= i < 2 ^ 1) by (apply Z.mod_pos_bound; lia).
  set (j := m_ctrlOrder h mod 2 ^ 1); assert (0 <= j < 2 ^ 1) by (apply Z.mod_pos_bound; lia).
  rewrite (lor_shiftl_add _ b 3), (lor_shiftl_add _ c 8), (lor_shiftl_add _ d 9), (lor_shiftl_add _ e 10), (lor_shiftl_add _ f 11), (lor_shiftl_add _ g 13), (lor_shiftl_add _ i 14), (lor_shiftl_add _ j 15) by lia.
  unfold u16. rewrite Z.mod_small by lia. reflexivity.
Qed.

(** Nine fields survive, each at its width. *)
Lemma frame_control_roundtrip h h0 : SetFrameControl (GetFrameControl h) h0 =
  h0 <| m_ctrlType := m_ctrlType h mod 4 |>
     <| m_ctrlSubtype := m_ctrlSubtype h mod 32 |>
     <| m_ctrlToDs := m_ctrlToDs h mod 2 |>
     <| m_ctrlFromDs := m_ctrlFromDs h mod 2 |>
     <| m_ctrlMoreFrag := m_ctrlMoreFrag h mod 2 |>
     <| m_ctrlRetry := m_ctrlRetry h mod 2 |>
     <| m_ctrlMoreData := m_ctrlMoreData h mod 2 |>
     <| m_ctrlWep := m_ctrlWep h mod 2 |>
     <| m_ctrlOrder := m_ctrlOrder h mod 2 |>.
Proof using.
  rewrite frame_control_value. unfold SetFrameControl.
  rewrite (shiftr_mask 2 _ 0x3 1), (shiftr_mask 5 _ 0x1f 3), (shiftr_mask 1 _ 0x1 8), (shiftr_mask 1 _ 0x1 9), (shiftr_mask 1 _ 0x1 10), (shiftr_mask 1 _ 0x1 11), (shiftr_mask 1 _ 0x1 13), (shiftr_mask 1 _ 0x1 14), (shiftr_mask 1 _ 0x1 15) by (done || lia).
  set (a := m_ctrlType h mod 4); assert (0 <= a < 4) by (apply Z.mod_pos_bound; lia).
  set (b := m_ctrlSubtype h mod 32); assert (0 <= b < 32) by (apply Z.mod_pos_bound; lia).
  set (c := m_ctrlToDs h mod 2); assert (0 <= c < 2) by (apply Z.mod_pos_bound; lia).
  set (d := m_ctrlFromDs h mod 2); assert (0 <= d < 2) by (apply Z.mod_pos_bound; lia).
  set (e := m_ctrlMoreFrag h mod 2); assert (0 <= e < 2) by (apply Z.mod_pos_bound; lia).
  set (f := m_ctrlRetry h mod 2); assert (0 <= f < 2) by (apply Z.mod_pos_bound; lia).
  set (g := m_ctrlMoreData h mod 2); assert (0 <= g < 2) by (apply Z.mod_pos_bound; lia).
  set (i := m_ctrlWep h mod 2); assert (0 <= i < 2) by (apply Z.mod_pos_bound; lia).
  set (j := m_ctrlOrder h mod 2); assert (0 <= j < 2) by (apply Z.mod_pos_bound; lia).
  set (v := a * 2 + _ + _ + _ + _ + _ + _ + _ + _).
  rewrite (field_of (0) a (b * 1 + c * 32 + d * 64 + e * 128 + f * 256 + g * 1024 + i * 2048 + j * 4096) v 1 2) by (subst v; lia).
  rewrite (field_of (a * 2) b (c * 1 + d * 2 + e * 4 + f * 8 + g * 32 + i * 64 + j * 128) v 3 5) by (subst v; lia).
  rewrite (field_of (a * 2 + b * 8) c (d * 1 + e * 2 + f * 4 + g * 16 + i * 32 + j * 64) v 8 1) by (subst v; lia).
  rewrite (field_of (a * 2 + b * 8 + c * 256) d (e * 1 + f * 2 + g * 8 + i * 16 + j * 32) v 9 1) by (subst v; lia).
  rewrite (field_of (a * 2 + b * 8 + c * 256 + d * 512) e (f * 1 + g * 4 + i * 8 + j * 16) v 10 1) by (subst v; lia).
  rewrite (field_of (a * 2 + b * 8 + c * 256 + d * 512 + e * 1024) f (g * 2 + i * 4 + j * 8) v 11 1) by (subst v; lia).
  rewrite (field_of (a * 2 + b * 8 + c * 256 + d * 512 + e * 1024 + f * 2048) g (i * 1 + j * 2) v 13 1) by (subst v; lia).
  rewrite (field_of (a * 2 + b * 8 + c * 256 + d * 512 + e * 1024 + f * 2048 + g * 8192) i (j * 1) v 14 1) by (subst v; lia).
  rewrite (field_of (a * 2 + b * 8 + c * 256 + d * 512 + e * 1024 + f * 2048 + g * 8192 + i * 16384) j (0) v 15 1) by (subst v; lia).
  done.
Qed.

Lemma sequence_control_roundtrip h h0 : header_ok h ->
  SetSequenceControl (GetSequenceControl h) h0 = h0 <| m_seqFrag := m_seqFrag h |> <| m_seqSeq := m_seqSeq h |>.
Proof using.
  intros []. unfold SetSequenceControl, GetSequenceControl.
  rewrite Z.lor_comm, lor_shiftl_add by lia. csimp. change 0x0f with (Z.ones 4). rewrite Z.land_ones by lia.
  rewrite (shiftr_mask 12 _ 0xfff 4) by (done || lia).
  rewrite (field_of (m_seqFrag h) (m_seqSeq h) 0 _ 4 12) by lia.
  replace ((m_seqFrag h + m_seqSeq h * 2 ^ 4) mod 2 ^ 4) with (m_seqFrag h) by dlia. done.
Qed.

Lemma qos_control_roundtrip h h0 : header_ok h ->
  SetQosControl (GetQosControl h) h0 =
    h0 <| m_qosTid := m_qosTid h |> <| m_qosEosp := m_qosEosp h |> <| m_qosAckPolicy := m_qosAckPolicy h |>
       <| m_amsduPresent := m_amsduPresent h |> <| m_qosStuff := m_qosStuff h |>.
Proof using.
  intros []. unfold SetQosControl, GetQosControl. rewrite Z.lor_0_l.
  rewrite (lor_shiftl_add _ (m_qosEosp h) 4), (lor_shiftl_add _ (m_qosAckPolicy h) 5),
    (lor_shiftl_add _ (m_amsduPresent h) 7), (lor_shiftl_add _ (m_qosStuff h) 8) by lia.
  csimp. set (v := m_qosTid h + _ + _ + _ + _). change 0x000f with (Z.ones 4). rewrite Z.land_ones by lia.
  rewrite (shiftr_mask 1 _ 0x1 4), (shiftr_mask 2 _ 0x3 5), (shiftr_mask 1 _ 0x1 7), (shiftr_mask 8 _ 0xff 8) by (done || lia).
  replace (v mod 2 ^ 4) with (m_qosTid h) by (subst v; dlia).
  rewrite (field_of (m_qosTid h) (m_qosEosp h) (m_qosAckPolicy h + m_amsduPresent h * 4 + m_qosStuff h * 8) v 4 1) by (subst v; lia).
  rewrite (field_of (m_qosTid h + m_qosEosp h * 16) (m_qosAckPolicy h) (m_amsduPresent h + m_qosStuff h * 2) v 5 2) by (subst v; lia).
  rewrite (field_of (m_qosTid h + m_qosEosp h * 16 + m_qosAckPolicy h * 32) (m_amsduPresent h) (m_qosStuff h) v 7 1) by (subst v; lia).
  rewrite (field_of (m_qosTid h + m_qosEosp h * 16 + m_qosAckPolicy h * 32 + m_amsduPresent h * 128) (m_qosStuff h) 0 v 8 8) by (subst v; lia).
  done.
Qed.

Lemma read_addr_write set h a rest : read_addr set (h, WriteTo a ++ rest) = Ok (set a h, rest).
Proof using L.
  unfold read_addr, read. rewrite length_app, WriteTo_length. cbn [obind Nat.ltb Nat.leb Nat.add].
  rewrite take_app_length' by (symmetry; apply WriteTo_length). rewrite drop_app_length' by (symmetry; apply WriteTo_length).
  by rewrite ReadFrom_WriteTo.
Qed.

Lemma read_u16_write set h x rest : in_u16 x -> read_u16 set (h, WriteHtolsbU16 x ++ rest) = Ok (set x h, rest).
Proof using L.
  intros Hx. unfold read_u16, read. rewrite length_app, WriteU16_length. cbn [obind Nat.ltb Nat.leb Nat.add].
  rewrite take_app_length' by (symmetry; apply WriteU16_length). rewrite drop_app_length' by (symmetry; apply WriteU16_length).
  by rewrite ReadU16_WriteU16.
Qed.

(** The fields that a frame carries: those of [h]; the rest stays as in [h0]. *)
Definition with_control (h h0 : WifiMacHeader) : WifiMacHeader :=
  h0 <| m_ctrlType := m_ctrlType h |> <| m_ctrlSubtype := m_ctrlSubtype h |> <| m_ctrlToDs := m_ctrlToDs h |>
     <| m_ctrlFromDs := m_ctrlFromDs h |> <| m_ctrlMoreFrag := m_ctrlMoreFrag h |> <| m_ctrlRetry := m_ctrlRetry h |>
     <| m_ctrlMoreData := m_ctrlMoreData h |> <| m_ctrlWep := m_ctrlWep h |> <| m_ctrlOrder := m_ctrlOrder h |>
     <| m_duration := m_duration h |> <| m_addr1 := m_addr1 h |>.
Definition with_addresses (h h0 : WifiMacHeader) : WifiMacHeader :=
  h0 <| m_addr2 := m_addr2 h |> <| m_addr3 := m_addr3 h |> <| m_seqFrag := m_seqFrag h |> <| m_seqSeq := m_seqSeq h |>.
Definition with_qos (h h0 : WifiMacHeader) : WifiMacHeader :=
  h0 <| m_qosTid := m_qosTid h |> <| m_qosEosp := m_qosEosp h |> <| m_qosAckPolicy := m_qosAckPolicy h |>
     <| m_amsduPresent := m_amsduPresent h |> <| m_qosStuff := m_qosStuff h |>.
Definition received_header (h h0 : WifiMacHeader) : WifiMacHeader :=
  let r := with_control h h0 in
  if m_ctrlType h =? TYPE_MGT then with_addresses h r
  else if m_ctrlType h =? TYPE_CTL then if ctl_two (m_ctrlSubtype h) then r <| m_addr2 := m_addr2 h |> else r
  else
    let r := with_addresses h r in
    let r := if has_addr4 h then r <| m_addr4 := m_addr4 h |> else r in
    if has_qos h then with_qos h r else r.

Lemma set_control h h0 : header_ok h ->
  SetAddr1 (m_addr1 h) ((SetFrameControl (GetFrameControl h) h0) <| m_duration := m_duration h |>) = with_control h h0.
Proof using. intros []. rewrite frame_control_roundtrip, !Z.mod_small by lia. done. Qed.

Lemma sequence_range h : in_u16 (GetSequenceControl h).
Proof using. apply u16_range. Qed.

Lemma GetType_cases h t : GetType h = Ok t ->
  m_ctrlType h = TYPE_MGT \/
  (m_ctrlType h = TYPE_CTL /\ (ctl_two (m_ctrlSubtype h) = true \/ (ctl_two (m_ctrlSubtype h) = false /\ ctl_one (m_ctrlSubtype h) = true))) \/
  m_ctrlType h = TYPE_DATA.
Proof using.
  unfold GetType. destruct (Z.eqb_spec (m_ctrlType h) TYPE_MGT); [by left|].
  destruct (Z.eqb_spec (m_ctrlType h) TYPE_CTL); [|destruct (Z.eqb_spec (m_ctrlType h) TYPE_DATA); [by right; right|done]].
  intros H. right. left. split; [done|]. unfold ctl_two, ctl_one. repeat (case_match; try done); rewrite ?orb_true_r; auto.
Qed.

Lemma ctl_size h : m_ctrlType h = TYPE_CTL -> ctl_two (m_ctrlSubtype h) = true \/ ctl_one (m_ctrlSubtype h) = true ->
  GetSize h = if ctl_two (m_ctrlSubtype h) then 16 else 10.
Proof using.
  intros E. unfold GetSize, ctl_two, ctl_one. rewrite E. cbn [Z.eqb Pos.eqb TYPE_MGT TYPE_CTL].
  generalize (m_ctrlSubtype h). unfold SUBTYPE_CTL_RTS, SUBTYPE_CTL_CTS, SUBTYPE_CTL_ACK, SUBTYPE_CTL_BACKREQ,
    SUBTYPE_CTL_BACKRESP, SUBTYPE_CTL_CTLWRAPPER. intros st H.
  repeat match goal with |- context [st =? ?c] => destruct (Z.eqb_spec st c) end; cbn [orb]; lia.
Qed.

(** [Deserialize] on a frame whose first part is that of [h]. *)
Lemma deserialize_start h h0 rest :
  header_ok h ->
  Deserialize (WriteHtolsbU16 (GetFrameControl h) ++ WriteHtolsbU16 (m_duration h) ++ WriteTo (m_addr1 h) ++ rest) h0 =
  obind
    (let hi := (with_control h h0, rest) in
     if m_ctrlType h =? TYPE_MGT then
       obind (read_addr SetAddr2 hi) (fun hi =>
       obind (read_addr SetAddr3 hi) (fun hi => read_u16 SetSequenceControl hi))
     else if m_ctrlType h =? TYPE_CTL then
       if ctl_two (m_ctrlSubtype h) then read_addr SetAddr2 hi else Ok hi
     else if m_ctrlType h =? TYPE_DATA then
       obind (read_addr SetAddr2 hi) (fun hi =>
       obind (read_addr SetAddr3 hi) (fun hi =>
       obind (read_u16 SetSequenceControl hi) (fun hi =>
       obind (if has_addr4 (fst hi) then read_addr (fun a h => h <| m_addr4 := a |>) hi else Ok hi) (fun hi =>
       if has_qos (fst hi) then read_u16 SetQosControl hi else Ok hi))))
     else Ok hi)
    (fun '(h, i) => Ok (h, 10 + Z.of_nat (length rest) - Z.of_nat (length i))).
Proof using L.
  intros Hh. unfold Deserialize. rewrite read_u16_write by apply u16_range. cbn [obind].
  rewrite read_u16_write by apply (h_duration h Hh). cbn [obind]. rewrite read_addr_write. cbn [obind].
  rewrite (set_control h h0 Hh). rewrite !length_app, !WriteU16_length, WriteTo_length.
  replace (Z.of_nat (2 + (2 + (6 + length rest)))) with (10 + Z.of_nat (length rest)) by lia. done.
Qed.

(** The control fields of [r] are those of [h]. *)
Definition same_control (h r : WifiMacHeader) : Prop :=
  m_ctrlSubtype r = m_ctrlSubtype h /\ m_ctrlToDs r = m_ctrlToDs h /\ m_ctrlFromDs r = m_ctrlFromDs h.

Lemma same_control_has h r : same_control h r -> has_addr4 r = has_addr4 h /\ has_qos r = has_qos h.
Proof using. intros (E1 & E2 & E3). unfold has_addr4, has_qos. by rewrite E1, E2, E3. Qed.

Lemma read_addresses r h rest : header_ok h ->
  obind (read_addr SetAddr2 (r, WriteTo (m_addr2 h) ++ WriteTo (m_addr3 h) ++ WriteHtolsbU16 (GetSequenceControl h) ++ rest)) (fun hi =>
  obind (read_addr SetAddr3 hi) (fun hi => read_u16 SetSequenceControl hi)) = Ok (with_addresses h r, rest).
Proof using L.
  intros Hh. rewrite read_addr_write. cbn [obind]. rewrite read_addr_write. cbn [obind].
  rewrite read_u16_write by apply u16_range. by rewrite sequence_control_roundtrip.
Qed.

Lemma read_options r h rest : header_ok h -> same_control h r ->
  obind (if has_addr4 r then read_addr (fun a h => h <| m_addr4 := a |>)
           (r, (if has_addr4 h then WriteTo (m_addr4 h) else []) ++ (if has_qos h then WriteHtolsbU16 (GetQosControl h) else []) ++ rest)
         else Ok (r, (if has_addr4 h then WriteTo (m_addr4 h) else []) ++ (if has_qos h then WriteHtolsbU16 (GetQosControl h) else []) ++ rest))
    (fun hi => if has_qos (fst hi) then read_u16 SetQosControl hi else Ok hi) =
  Ok (let r := if has_addr4 h then r <| m_addr4 := m_addr4 h |> else r in if has_qos h then with_qos h r else r, rest).
Proof using L.
  intros Hh Hr. destruct (same_control_has h r Hr) as [E4 Eq]. rewrite E4.
  assert (forall r', has_qos r' = has_qos h ->
    (if has_qos r' then read_u16 SetQosControl (r', (if has_qos h then WriteHtolsbU16 (GetQosControl h) else []) ++ rest)
     else Ok (r', (if has_qos h then WriteHtolsbU16 (GetQosControl h) else []) ++ rest)) =
    Ok (if has_qos h then with_qos h r' else r', rest)) as Hq.
  { intros r' ->. destruct (has_qos h); [|done]. rewrite read_u16_write by apply u16_range. by rewrite qos_control_roundtrip. }
  destruct (has_addr4 h); [rewrite read_addr_write|]; cbn [obind fst app]; by rewrite Hq.
Qed.

(** C40. A header of any type except the control wrapper: the frame has the
    announced size, and the receiver reads it back, whatever follows it. *)
Theorem header_roundtrip h h0 t rest : header_ok h -> GetType h = Ok t ->
  exists bytes, Serialize h = Ok bytes /\ Z.of_nat (length bytes) = GetSize h /\
    Deserialize (bytes ++ rest) h0 = Ok (received_header h h0, GetSize h).
Proof using L.
  intros Hh Ht. pose proof (sequence_range h) as Hseq.
  destruct (GetType_cases h t Ht) as [E|[[E E2]|E]].
  - unfold Serialize, GetSize, received_header. rewrite E. cbn [Z.eqb TYPE_MGT].
    eexists. split; [done|]. split; [rewrite !length_app, !WriteU16_length, !WriteTo_length; done|].
    rewrite <- !app_assoc, deserialize_start by done. rewrite E. cbn [Z.eqb TYPE_MGT]. cbv zeta.
    rewrite read_addresses by done. cbn [obind]. rewrite !length_app, WriteU16_length, !WriteTo_length.
    by replace (10 + _ - _) with 24 by lia.
  - rewrite (ctl_size h E) by tauto. unfold Serialize, received_header. rewrite E. cbn [Z.eqb Pos.eqb TYPE_MGT TYPE_CTL].
    destruct E2 as [E2|[E1 E2]]; [rewrite E2|rewrite E1, E2]; eexists; (split; [done|]);
      (split; [rewrite !length_app, !WriteU16_length, !WriteTo_length; done|]);
      rewrite <- !app_assoc, deserialize_start by done; rewrite E; cbn [Z.eqb Pos.eqb TYPE_MGT TYPE_CTL]; cbv zeta.
    + rewrite E2, read_addr_write. cbn [obind]. rewrite length_app, WriteTo_length.
      by replace (10 + _ - _) with 16 by lia.
    + rewrite E1. cbn [obind]. by replace (10 + _ - _) with 10 by lia.
  - unfold Serialize, GetSize, received_header. rewrite E. cbn [Z.eqb Pos.eqb TYPE_MGT TYPE_CTL TYPE_DATA].
    eexists. split; [done|]. split.
    { rewrite !length_app, !WriteU16_length, !WriteTo_length. destruct (has_addr4 h), (has_qos h); rewrite ?WriteTo_length, ?WriteU16_length; done. }
    rewrite <- !app_assoc, deserialize_start by done. rewrite E. cbn [Z.eqb Pos.eqb TYPE_MGT TYPE_CTL TYPE_DATA]. cbv zeta.
    pose proof (read_addresses (with_control h h0) h
      ((if has_addr4 h then WriteTo (m_addr4 h) else []) ++ (if has_qos h then WriteHtolsbU16 (GetQosControl h) else []) ++ rest) Hh) as Ha.
    assert (same_control h (with_addresses h (with_control h h0))) as Hsame by done.
    set (r0 := with_control h h0) in *. clearbody r0. set (r := with_addresses h r0) in *. clearbody r.
    destruct (read_addr SetAddr2 _) as [p2|]; [cbn [obind] in *|done].
    destruct (read_addr SetAddr3 p2) as [p3|]; [cbn [obind] in *|done].
    rewrite Ha. cbn [obind fst]. rewrite (read_options r h rest Hh Hsame). cbn [obind].
    rewrite !length_app, !WriteTo_length, WriteU16_length.
    match goal with |- Ok (_, ?x) = Ok (_, ?y) => replace x with y; [done|] end.
    destruct (has_addr4 h), (has_qos h); rewrite ?WriteTo_length, ?WriteU16_length; cbn [length]; lia.
Qed.

(** What [SetType] sets, [GetType] finds, except for the control wrapper. *)
Theorem SetType_GetType t h :
  GetType (SetType t h) = if decide (t = WIFI_MAC_CTL_CTLWRAPPER) then Oops else Ok t.
Proof using. by destruct t. Qed.

(** The same for the setters of single types and of the acknowledgement
    policy. *)
Theorem type_setters h :
  GetType (SetAssocReq h) = Ok WIFI_MAC_MGT_ASSOCIATION_REQUEST /\ GetType (SetAssocResp h) = Ok WIFI_MAC_MGT_ASSOCIATION_RESPONSE /\
  GetType (SetProbeReq h) = Ok WIFI_MAC_MGT_PROBE_REQUEST /\ GetType (SetProbeResp h) = Ok WIFI_MAC_MGT_PROBE_RESPONSE /\
  GetType (SetBeacon h) = Ok WIFI_MAC_MGT_BEACON /\ GetType (SetBlockAckReq h) = Ok WIFI_MAC_CTL_BACKREQ /\
  GetType (SetBlockAck h) = Ok WIFI_MAC_CTL_BACKRESP /\ GetType (SetTypeData h) = Ok WIFI_MAC_DATA /\
  GetType (SetTypeMBRData h) = Ok WIFI_MAC_MBR_DATA /\ GetType (SetAction h) = Ok WIFI_MAC_MGT_ACTION /\
  GetType (SetMultihopAction h) = Ok WIFI_MAC_MGT_MULTIHOP_ACTION /\
  forall policy, GetQosAckPolicy (SetQosAckPolicy policy h) = Ok policy.
Proof using. split_and!; try done. by intros []. Qed.

(** ** Frames with three addresses *)

(** The header of a data frame without options, whatever the flags hold. *)
Definition plain_data (st : Z) (h : WifiMacHeader) : Prop :=
  m_ctrlType h = TYPE_DATA /\ m_ctrlSubtype h = st /\ m_ctrlToDs h = 0 /\ in_u16 (m_duration h).

Lemma plain_data_received st h h0 rest : st = 0 \/ st = 17 -> plain_data st h ->
  exists bytes h', Serialize h = Ok bytes /\ length bytes = 24%nat /\ Deserialize (bytes ++ rest) h0 = Ok (h', 24) /\
    m_ctrlType h' = TYPE_DATA /\ m_ctrlSubtype h' = st /\
    m_addr1 h' = m_addr1 h /\ m_addr2 h' = m_addr2 h /\ m_addr3 h' = m_addr3 h.
Proof using L.
  intros Hst (E & Es & Et & Hd). unfold Serialize. rewrite E. cbn [Z.eqb Pos.eqb TYPE_MGT TYPE_CTL TYPE_DATA].
  assert (forall r, m_ctrlSubtype r = st -> m_ctrlToDs r = 0 -> has_addr4 r = false /\ has_qos r = false) as Hopt.
  { intros r E1 E2. unfold has_addr4, has_qos. rewrite E1, E2. by destruct Hst as [-> | ->]. }
  destruct (Hopt h Es Et) as [-> ->]. rewrite !app_nil_r.
  set (r := SetAddr1 (m_addr1 h) ((SetFrameControl (GetFrameControl h) h0) <| m_duration := m_duration h |>)).
  assert (m_ctrlType r = TYPE_DATA /\ m_ctrlSubtype r = st /\ m_ctrlToDs r = 0 /\ m_addr1 r = m_addr1 h) as (R1 & R2 & R3 & R4).
  { subst r. rewrite frame_control_roundtrip. cbn -[Z.modulo]. rewrite E, Es, Et. by destruct Hst as [-> | ->]. }
  exists (WriteHtolsbU16 (GetFrameControl h) ++ WriteHtolsbU16 (m_duration h) ++ WriteTo (m_addr1 h) ++ WriteTo (m_addr2 h)
          ++ WriteTo (m_addr3 h) ++ WriteHtolsbU16 (GetSequenceControl h)),
    (SetSequenceControl (GetSequenceControl h) (SetAddr3 (m_addr3 h) (SetAddr2 (m_addr2 h) r))).
  split; [by rewrite <- !app_assoc|]. split; [by rewrite !length_app, !WriteU16_length, !WriteTo_length|]. split; [|done].
  rewrite <- !app_assoc. unfold Deserialize. rewrite read_u16_write by apply u16_range. cbn [obind].
  rewrite read_u16_write by done. cbn [obind]. rewrite read_addr_write. cbn [obind]. fold r. clearbody r.
  rewrite R1. cbn [Z.eqb Pos.eqb TYPE_MGT TYPE_CTL TYPE_DATA].
  rewrite read_addr_write. cbn [obind]. rewrite read_addr_write. cbn [obind]. rewrite read_u16_write by apply u16_range.
  cbn [obind fst]. set (r' := SetSequenceControl _ _). destruct (Hopt r' R2 R3) as [H1 H2]. rewrite H1. cbn [obind fst]. rewrite H2.
  cbn [obind]. rewrite !length_app, !WriteU16_length, !WriteTo_length.
  match goal with |- Ok (_, ?x) = _ => replace x with 24 by lia end. done.
Qed.
End RoundTripHeader.

(** * Sending and receiving frames *)

Section Frames.
Context `{B : Ns3Buffer} (L : Ns3BufferLaws B).
(** The frame check sequence that the trailer appends. *)
Context (fcs : list Z).

(** The header of a frame information packet, of a data packet ([Enqueue]).
    [h]: the uninitialised object. *)
Definition fi_frame_header (broadcast self : Mac48Address) (h : WifiMacHeader) : WifiMacHeader :=
  SetDsNotTo (SetDsFrom (SetAddr3 self (SetAddr2 self (SetAddr1 broadcast (SetType WIFI_MAC_SATMAC (WifiMacHeader_new h)))))).
Definition data_frame_header (to from self : Mac48Address) (h : WifiMacHeader) : WifiMacHeader :=
  SetDsNotTo (SetDsFrom (SetAddr3 from (SetAddr2 self (SetAddr1 to (SetType WIFI_MAC_DATA (WifiMacHeader_new h)))))).

(** [TdmaMacLow::StartTransmission]: the frame on the channel. *)
Definition low_StartTransmission (packet : list Z) (hdr : WifiMacHeader) : outcome (list Z) :=
  obind (Serialize hdr) (fun bytes => Ok (bytes ++ packet ++ fcs)).

(** What becomes of a received frame. *)
Inductive delivery :=
  | DeliverFI (packet : list Z)                          (* recvFI *)
  | DeliverUp (packet : list Z) (hdr : WifiMacHeader)    (* m_upCallback *)
  | DeliverNot.

(** [TdmaSatmac::Receive]. *)
Definition satmac_Receive (packet : list Z) (hdr : WifiMacHeader) : delivery :=
  if IsSatmacData hdr then DeliverFI packet else DeliverUp packet hdr.

(** [TdmaMacLow::Receive]. *)
Definition low_Receive (frame : list Z) (hdr : WifiMacHeader) : outcome delivery :=
  obind (Deserialize frame hdr) (fun '(hdr, n) =>
  let packet := drop (Z.to_nat n) frame in
  if IsData hdr || IsMgt hdr then
    if (length packet <? length fcs)%nat then Oops
    else Ok (satmac_Receive (take (length packet - length fcs) packet) hdr)
  else Ok DeliverNot).

Lemma low_received st packet h h0 : st = 0 \/ st = 17 -> plain_data st h ->
  exists frame h', low_StartTransmission packet h = Ok frame /\ low_Receive frame h0 = Ok (satmac_Receive packet h') /\
    m_ctrlType h' = TYPE_DATA /\ m_ctrlSubtype h' = st /\
    m_addr1 h' = m_addr1 h /\ m_addr2 h' = m_addr2 h /\ m_addr3 h' = m_addr3 h.
Proof using L.
  intros Hst Hh. destruct (plain_data_received L st h h0 (packet ++ fcs) Hst Hh) as (bytes & h' & Es & Hl & Ed & Ht & Hs & Ha).
  exists (bytes ++ packet ++ fcs), h'. unfold low_StartTransmission. rewrite Es. split; [done|]. split; [|done].
  unfold low_Receive. rewrite Ed. cbn [obind]. change (Z.to_nat 24) with 24%nat. rewrite drop_app_length' by done.
  unfold IsData. rewrite Ht. cbn [Z.eqb Pos.eqb orb TYPE_DATA].
  rewrite length_app. destruct (Nat.ltb_spec (length packet + length fcs) (length fcs)); [lia|].
  by rewrite Nat.add_sub, take_app_length.
Qed.

(** A frame information packet passes the channel and the header, whatever was
    in memory where the headers are, and comes to [recvFI]; a data packet goes
    up the stack with its addresses. *)
Theorem frames_delivered packet a self from h h0 : in_u16 (m_duration h) ->
  (exists frame, low_StartTransmission packet (fi_frame_header a self h) = Ok frame /\
     low_Receive frame h0 = Ok (DeliverFI packet)) /\
  (exists frame hdr, low_StartTransmission packet (data_frame_header a from self h) = Ok frame /\
     low_Receive frame h0 = Ok (DeliverUp packet hdr) /\ m_addr1 hdr = a /\ m_addr2 hdr = self /\ m_addr3 hdr = from).
Proof using L.
  intros Hd. split.
  - destruct (low_received 17 packet (fi_frame_header a self h) h0) as (frame & h' & Es & Er & Ht & Hs & _); [by right|done|].
    exists frame. split; [done|]. rewrite Er. unfold satmac_Receive, IsSatmacData. by rewrite Ht, Hs.
  - destruct (low_received 0 packet (data_frame_header a from self h) h0) as (frame & h' & Es & Er & Ht & Hs & Ha); [by left|done|].
    exists frame, h'. split; [done|]. rewrite Er. unfold satmac_Receive, IsSatmacData. rewrite Ht, Hs. done.
Qed.
End Frames.

(** * An instance of the interface *)

(** Addresses as six bytes, numbers with the low byte first. *)
#[local] Instance bytes_buffer : Ns3Buffer := {|
  Mac48Address := Z * Z * Z * Z * Z * Z;
  WriteTo := fun '(a, b, c, d, e, f) => [a; b; c; d; e; f];
  ReadFrom := fun l => match l with [a; b; c; d; e; f] => (a, b, c, d, e, f) | _ => (0, 0, 0, 0, 0, 0) end;
  WriteHtolsbU16 := fun x => [x mod 256; x / 256];
  ReadLsbtohU16 := fun l => match l with [a; b] => a + 256 * b | _ => 0 end |}.

Lemma bytes_buffer_laws : Ns3BufferLaws bytes_buffer.
Proof.
  constructor; cbn.
  - by intros [[[[[a b] c] d] e] f].
  - by intros [[[[[a b] c] d] e] f].
  - done.
  - intros x Hx. dlia.
Qed.

Definition demo_header (type : WifiMacType) : WifiMacHeader :=
  SetType type (Build_WifiMacHeader 0 0 0 0 0 1 0 0 1 1234 (1, 2, 3, 4, 5, 6) (7, 8, 9, 10, 11, 12) (13, 14, 15, 16, 17, 18)
    5 777 (19, 20, 21, 22, 23, 24) 3 1 2 1 99).

Lemma header_roundtrip_witness : exists bytes,
  Serialize (demo_header WIFI_MAC_MBR_DATA) = Ok bytes /\ Z.of_nat (length bytes) = 30 /\
  Deserialize (bytes ++ [1; 2; 3]) (demo_header WIFI_MAC_CTL_ACK) =
    Ok (received_header (demo_header WIFI_MAC_MBR_DATA) (demo_header WIFI_MAC_CTL_ACK), 30).
Proof.
  exact (header_roundtrip bytes_buffer_laws (demo_header WIFI_MAC_MBR_DATA) (demo_header WIFI_MAC_CTL_ACK) WIFI_MAC_MBR_DATA [1; 2; 3]
    ltac:(constructor; vm_compute; split; (reflexivity || discriminate)) eq_refl).
Defined.

Lemma frames_delivered_witness : exists frame,
  low_StartTransmission [9; 9; 9; 9] [1; 2; 3] (fi_frame_header (255, 255, 255, 255, 255, 255) (1, 1, 1, 1, 1, 1) (demo_header WIFI_MAC_DATA)) = Ok frame /\
  low_Receive [9; 9; 9; 9] frame (demo_header WIFI_MAC_DATA) = Ok (DeliverFI [1; 2; 3]).
Proof.
  exact (proj1 (frames_delivered bytes_buffer_laws [9; 9; 9; 9] [1; 2; 3] (255, 255, 255, 255, 255, 255) (1, 1, 1, 1, 1, 1)
    (2, 2, 2, 2, 2, 2) (demo_header WIFI_MAC_DATA) (demo_header WIFI_MAC_DATA) ltac:(vm_compute; split; (reflexivity || discriminate)))).
Defined.
