(* ===== verification/TdmaQueue.v ===== *)
(** The data queue of a SATMAC node (src/ns3/satmac/model/tdma-mac-queue.cc)
    and the sending of its packets in the rest of a slot (tdma-satmac.cc:
    [StartTransmission], [SendPacketDown], [SendFiDown] over the simple
    channel).

    Time is in nanoseconds, except where the source works in microseconds.
    Packets and the transmission time of a number of bytes belong to the
    simulator and are parameters. [now] stands for [Simulator::Now ()]. *)

From S2P Require Import Prelude.

Section Queue.
Context {Packet : Type} `{EqDecision Packet} (PacketSize : Packet -> Z).
Context {Hdr : Type}.

(** * The queue *)

Record Item := { packet : Packet; hdr : Hdr; tstamp : Z }.

Record TdmaMacQueue := {
  m_queue : list Item;
  m_size : Z;
  m_maxSize : Z;
  m_maxDelay : Z;
  m_count : Z;
  dropped : list Packet;     (* the calls of m_txDropCallback, oldest first *)
}.
#[export] Instance eta_TdmaMacQueue : Eta TdmaMacQueue := fun r =>
  Build_TdmaMacQueue (m_queue r) (m_size r) (m_maxSize r) (m_maxDelay r) (m_count r) (dropped r).

(** The packet may still be sent. *)
Definition fresh (now : Z) (delay : Z) (i : Item) : bool := now <? tstamp i + delay.

Definition Cleanup (now : Z) (q : TdmaMacQueue) : TdmaMacQueue :=
  match m_queue q with
  | [] => q
  | _ =>
      let late := filter (fun i => fresh now (m_maxDelay q) i = false) (m_queue q) in
      q <| m_queue ::= filter (fun i => fresh now (m_maxDelay q) i = true) |>
        <| m_count ::= fun c => u32 (c + Z.of_nat (length late)) |>
        <| dropped ::= fun d => d ++ (packet <$> late) |>
        <| m_size ::= fun s => u32 (s - Z.of_nat (length late)) |>
  end.

Definition Enqueue (now : Z) (p : Packet) (h : Hdr) (q : TdmaMacQueue) : bool * TdmaMacQueue :=
  let q := Cleanup now q in
  if m_size q =? m_maxSize q then (false, q)
  else (true, q <| m_queue ::= fun l => l ++ [{| packet := p; hdr := h; tstamp := now |}] |>
                <| m_size ::= fun s => u32 (s + 1) |>).

Definition Dequeue (now : Z) (q : TdmaMacQueue) : option (Packet * Hdr) * TdmaMacQueue :=
  let q := Cleanup now q in
  match m_queue q with
  | i :: l => (Some (packet i, hdr i), q <| m_queue := l |> <| m_size ::= fun s => u32 (s - 1) |>)
  | [] => (None, q)
  end.

Definition Peek (now : Z) (q : TdmaMacQueue) : option (Packet * Hdr) * TdmaMacQueue :=
  let q := Cleanup now q in
  match m_queue q with
  | i :: _ => (Some (packet i, hdr i), q)
  | [] => (None, q)
  end.

Definition IsEmpty (now : Z) (q : TdmaMacQueue) : bool * TdmaMacQueue :=
  let q := Cleanup now q in (bool_decide (m_queue q = []), q).

Definition Flush (q : TdmaMacQueue) : TdmaMacQueue := q <| m_queue := [] |> <| m_size := 0 |>.

(** The list without the first item of the packet, if there is one. *)
Fixpoint remove_first (p : Packet) (l : list Item) : option (list Item) :=
  match l with
  | [] => None
  | i :: l => if decide (packet i = p) then Some l else (fun l => i :: l) <$> remove_first p l
  end.

Definition Remove (p : Packet) (q : TdmaMacQueue) : bool * TdmaMacQueue :=
  match remove_first p (m_queue q) with
  | Some l => (true, q <| m_queue := l |> <| m_size ::= fun s => u32 (s - 1) |>)
  | None => (false, q)
  end.

Definition SetMaxSize (maxSize : Z) (q : TdmaMacQueue) : TdmaMacQueue := q <| m_maxSize := maxSize |>.
Definition SetMaxDelay (delay : Z) (q : TdmaMacQueue) : TdmaMacQueue := q <| m_maxDelay := delay |>.

(** [TdmaSatmac::GetQueueState]: 0 when the queue is full. *)
Definition GetQueueState (q : TdmaMacQueue) : Z := if m_maxSize q =? m_size q then 0 else 1.

(** [TdmaSatmac::Queue]: a packet that the queue refuses is reported as
    dropped. *)
Definition Queue (now : Z) (p : Packet) (h : Hdr) (q : TdmaMacQueue) : TdmaMacQueue :=
  let '(ok, q) := Enqueue now p h q in if ok : bool then q else q <| dropped ::= fun d => d ++ [p] |>.

(** * Sending in a slot *)

(** [m_bps.CalculateBytesTxTime]. *)
Context (CalculateBytesTxTime : Z -> Z).

Definition CalculateTxTime (p : Packet) : outcome Z :=
  if PacketSize p <? 1500 then Ok (CalculateBytesTxTime (PacketSize p)) else Oops.

(** Packets that arrive while the [k]-th packet is on the air. *)
Context (arrivals : nat -> list (Z * Packet * Hdr)).
Definition arrive (k : nat) (q : TdmaMacQueue) : TdmaMacQueue :=
  fold_left (fun q '(t, p, h) => Queue t p h q) (arrivals k) q.

(** [StartTransmission (transmissionTimeUs)] with the [SendPacketDown] events
    that it schedules. The results: the packets handed down with the times at
    which their transmission ends, the queue and [m_slotRemainTime]. A null
    packet is an error. [m_lastpktUsedTime] is only read on the other kind of
    channel and left out. *)
Fixpoint StartTransmission (fuel k : nat) (now transmissionTimeUs m_slotRemainTime : Z) (q : TdmaMacQueue)
  : outcome (list (Z * Packet) * TdmaMacQueue * Z) :=
  match fuel with
  | O => Oops
  | S fuel =>
      let totalTransmissionSlot := transmissionTimeUs * 1000 in
      let '(empty, q) := IsEmpty now q in
      if empty : bool then Ok ([], q, m_slotRemainTime)
      else
        match Peek now q with
        | (None, _) => Oops
        | (Some (p, _), q) =>
            obind (CalculateTxTime p) (fun packetTransmissionTime =>
            if packetTransmissionTime <? totalTransmissionSlot then
              let remainingTime := totalTransmissionSlot - packetTransmissionTime in
              let m_slotRemainTime := u32 (m_slotRemainTime - packetTransmissionTime / 1000) in
              let now := now + packetTransmissionTime in
              match Dequeue now (arrive k q) with
              | (None, _) => Oops
              | (Some (p, _), q) =>
                  obind (StartTransmission fuel (S k) now (remainingTime / 1000) m_slotRemainTime q)
                    (fun '(sent, q, r) => Ok ((now, p) :: sent, q, r))
              end
            else Ok ([], q, m_slotRemainTime))
        end
  end.

(** [generate_send_FI_packet] and [SendFiDown] in a slot that begins at
    [start]: the frame information [fi] is sent first. [working]: the state is
    NODE_WORK_FI or NODE_WORK_ADJ. *)
Definition send_slot (start m_slotTime : Z) (fi : Packet) (working : bool) (q : TdmaMacQueue)
  : outcome (list (Z * Packet) * TdmaMacQueue * Z) :=
  obind (CalculateTxTime fi) (fun packetTransmissionTime =>
  let m_slotRemainTime := u32 (m_slotTime - packetTransmissionTime / 1000) in
  if negb (packetTransmissionTime <? m_slotTime * 1000) then Oops
  else
    let now := start + packetTransmissionTime in
    if working then
      obind (StartTransmission (S (Z.to_nat m_slotRemainTime)) 0 now m_slotRemainTime m_slotRemainTime q)
        (fun '(sent, q, r) => Ok ((now, fi) :: sent, q, r))
    else Ok ([(now, fi)], q, m_slotRemainTime)).
End Queue.
Arguments Item : clear implicits.
Arguments TdmaMacQueue : clear implicits.

(** * The queue as a bounded list *)

Section QueueFacts.
Context {Packet : Type} `{EqDecision Packet} {Hdr : Type}.
Implicit Types (q : TdmaMacQueue Packet Hdr) (l : list (Item Packet Hdr)).

(** [m_size] counts the items, and the limit is kept. *)
Record queue_ok q : Prop := {
  q_size : m_size q = Z.of_nat (length (m_queue q));
  q_max : Z.of_nat (length (m_queue q)) <= m_maxSize q;
  q_u32 : in_u32 (m_maxSize q);
}.

(** The items that may still be sent, and those that have waited too long: the
    comparison of tdma-mac-queue.cc:149. *)
Definition live (now : Z) q : list (Item Packet Hdr) := filter (fun i => now < tstamp i + m_maxDelay q) (m_queue q).
Definition expired (now : Z) q : list (Item Packet Hdr) := filter (fun i => tstamp i + m_maxDelay q <= now) (m_queue q).

Lemma live_fresh now q : filter (fun i => fresh now (m_maxDelay q) i = true) (m_queue q) = live now q.
Proof. apply list_filter_iff. intros i. unfold fresh. lia. Qed.
Lemma expired_fresh now q : filter (fun i => fresh now (m_maxDelay q) i = false) (m_queue q) = expired now q.
Proof. apply list_filter_iff. intros i. unfold fresh. lia. Qed.

Lemma filter_split {A} (f : A -> bool) (l : list A) :
  (length (filter (fun x => f x = true) l) + length (filter (fun x => f x = false) l) = length l)%nat.
Proof.
  induction l as [|x l IH]; [done|]. destruct (f x) eqn:E.
  - rewrite filter_cons_True, filter_cons_False by (done || by rewrite E). cbn [length]. lia.
  - rewrite filter_cons_False, filter_cons_True by (done || by rewrite E). cbn [length]. lia.
Qed.

Lemma filter_all {A} (f : A -> bool) (l : list A) : Forall (fun x => f x = true) l ->
  filter (fun x => f x = true) l = l /\ filter (fun x => f x = false) l = [].
Proof.
  induction 1 as [|x l Hx _ [IH1 IH2]]; [done|].
  rewrite filter_cons_True, filter_cons_False by (done || by rewrite Hx). by rewrite IH1, IH2.
Qed.

(** [q'] is the same queue after expired packets have been reported. *)
Definition reported (now : Z) q q' : Prop :=
  dropped q' = dropped q ++ (packet <$> expired now q) /\ m_maxSize q' = m_maxSize q /\ m_maxDelay q' = m_maxDelay q.

Lemma Cleanup_spec now q : queue_ok q ->
  m_queue (Cleanup now q) = live now q /\ queue_ok (Cleanup now q) /\ reported now q (Cleanup now q).
Proof.
  intros Hq. pose proof Hq as [Hs Hm Hu]. unfold reported. rewrite <- live_fresh, <- expired_fresh. unfold Cleanup.
  destruct (m_queue q) as [|i l] eqn:E.
  { rewrite E. cbn. rewrite app_nil_r. done. }
  rewrite <- E in *. set (late := filter (fun i => fresh now (m_maxDelay q) i = false) (m_queue q)).
  pose proof (filter_split (fresh now (m_maxDelay q)) (m_queue q)) as Hf. fold late in Hf.
  set (keep := filter (fun i => fresh now (m_maxDelay q) i = true) (m_queue q)) in *.
  split; [done|]. split; [|done]. unfold in_u32 in Hu. constructor.
  - change (u32 (m_size q - Z.of_nat (length late)) = Z.of_nat (length keep)). rewrite Hs, u32_id by (unfold in_u32; lia). lia.
  - change (Z.of_nat (length keep) <= m_maxSize q). lia.
  - done.
Qed.

Lemma live_nil now q : queue_ok q -> m_queue (Cleanup now q) = [] <-> live now q = [].
Proof. intros Hq. by rewrite (proj1 (Cleanup_spec now q Hq)). Qed.

(** What an [Enqueue] and a [Dequeue] make of the waiting items. *)
Lemma Enqueue_spec now q p h : queue_ok q -> let '(ok, q') := Enqueue now p h q in
  queue_ok q' /\ reported now q q' /\ ok = (Z.of_nat (length (live now q)) <? m_maxSize q) /\
  m_queue q' = if ok then live now q ++ [{| packet := p; hdr := h; tstamp := now |}] else live now q.
Proof.
  intros Hq. destruct (Cleanup_spec now q Hq) as (El & [Hs Hm Hu] & R). unfold in_u32 in Hu. unfold Enqueue, reported in *.
  set (q1 := Cleanup now q) in *. clearbody q1. destruct R as (Ed & Ex & Ey). rewrite <- El, <- Ex, <- Ey, <- Ed, Hs.
  destruct (Z.eqb_spec (Z.of_nat (length (m_queue q1))) (m_maxSize q1)) as [E|E].
  - split; [by constructor|]. split; [done|]. split; [symmetry; apply Z.ltb_ge; lia|done].
  - split; [|split; [done|]; split; [symmetry; apply Z.ltb_lt; lia|done]].
    constructor; cbn; rewrite ?length_app; cbn [length]; [|lia|done]. rewrite u32_id by (unfold in_u32; lia). lia.
Qed.
Lemma Dequeue_spec now q : queue_ok q -> let '(r, q') := Dequeue now q in
  queue_ok q' /\ reported now q q' /\ r = (fun i => (packet i, hdr i)) <$> head (live now q) /\ m_queue q' = tail (live now q).
Proof.
  intros Hq. destruct (Cleanup_spec now q Hq) as (El & [Hs Hm Hu] & R). unfold in_u32 in Hu. unfold Dequeue.
  set (q1 := Cleanup now q) in *. clearbody q1. rewrite <- El.
  destruct (m_queue q1) as [|i l] eqn:E; [split; [by constructor; rewrite ?E|]; done|]. split; [|done].
  constructor; cbn; [|cbn in Hm; lia|done]. rewrite Hs. cbn. rewrite u32_id by (unfold in_u32; cbn in Hm; lia). lia.
Qed.
Lemma Remove_spec p q : queue_ok q -> let '(ok, q') := Remove p q in queue_ok q' /\
  if ok : bool then exists a i b, m_queue q = a ++ i :: b /\ packet i = p /\ Forall (fun j => packet j <> p) a /\ m_queue q' = a ++ b
  else q' = q /\ Forall (fun j => packet j <> p) (m_queue q).
Proof.
  intros [Hs Hm Hu]. unfold in_u32 in Hu. unfold Remove.
  assert (match remove_first p (m_queue q) with
    | Some l => exists a i b, m_queue q = a ++ i :: b /\ packet i = p /\ Forall (fun j => packet j <> p) a /\ l = a ++ b
    | None => Forall (fun j => packet j <> p) (m_queue q) end) as Hr.
  { clear. induction (m_queue q) as [|i l IH]; [constructor|]. cbn. destruct (decide (packet i = p)) as [Hi|Hi].
    - by exists [], i, l.
    - destruct (remove_first p l) as [r|]; cbn; [|by constructor]. destruct IH as (a & j & b & -> & Hj & Ha & ->).
      exists (i :: a), j, b. split_and!; try done. by constructor. }
  destruct (remove_first p (m_queue q)) as [l|]; [|by split; [constructor|]].
  destruct Hr as (a & i & b & E & Hi & Ha & ->). split; [|by exists a, i, b].
  assert (length (m_queue q) = S (length (a ++ b))) as Hlen by (rewrite E, !length_app; cbn; lia).
  constructor; cbn; [|lia|done]. rewrite Hs, Hlen, u32_id by (unfold in_u32; lia). lia.
Qed.

(** C36. While its limits are not changed, the queue is a list of at most [m_maxSize]
    items. Enqueue, Dequeue, Peek and IsEmpty first remove exactly the items with
    time stamp + m_maxDelay <= now and report them as dropped, and then append
    the packet unless the list is full, take the first item, look at it, or test
    for emptiness. Remove and Flush look at no time stamp: Remove takes out the
    first item of the packet, expired or not, and Flush empties the list without
    a report. (A limit that is set below the number of waiting packets breaks the
    bound: [lowered_limit_ignored].) *)
Theorem queue_refines now q p h : queue_ok q ->
  let l := live now q in
  (let '(ok, q') := Enqueue now p h q in queue_ok q' /\ reported now q q' /\ ok = (Z.of_nat (length l) <? m_maxSize q) /\
     m_queue q' = if ok then l ++ [{| packet := p; hdr := h; tstamp := now |}] else l) /\
  (let '(r, q') := Dequeue now q in queue_ok q' /\ reported now q q' /\ r = (fun i => (packet i, hdr i)) <$> head l /\ m_queue q' = tail l) /\
  (let '(r, q') := Peek now q in queue_ok q' /\ reported now q q' /\ r = (fun i => (packet i, hdr i)) <$> head l /\ m_queue q' = l) /\
  (let '(b, q') := IsEmpty now q in queue_ok q' /\ reported now q q' /\ b = bool_decide (l = []) /\ m_queue q' = l) /\
  (let q' := Flush q in queue_ok q' /\ m_queue q' = [] /\ dropped q' = dropped q) /\
  (let '(ok, q') := Remove p q in queue_ok q' /\
     if ok then exists a i b, m_queue q = a ++ i :: b /\ packet i = p /\ Forall (fun j => packet j <> p) a /\ m_queue q' = a ++ b
     else q' = q /\ Forall (fun j => packet j <> p) (m_queue q)).
Proof.
  intros Hq. cbv zeta. destruct (Cleanup_spec now q Hq) as (El & Hc & R). pose proof (Remove_spec p q Hq) as Hr.
  split; [by apply Enqueue_spec|]. split; [by apply Dequeue_spec|]. unfold Peek, IsEmpty.
  set (q1 := Cleanup now q) in *. clearbody q1. rewrite <- El. split; [by destruct (m_queue q1) eqn:E|].
  split; [done|]. split; [|done]. split; [|done]. destruct Hq as [_ _ Hu]. constructor; cbn; [done| |done]. unfold in_u32 in Hu. lia.
Qed.

(** Time stamps in the order of arrival: what is removed is the oldest part. *)
Theorem cleanup_oldest now q : queue_ok q -> StronglySorted Z.le (tstamp <$> m_queue q) ->
  exists n, m_queue (Cleanup now q) = drop n (m_queue q) /\
    dropped (Cleanup now q) = dropped q ++ (packet <$> take n (m_queue q)).
Proof.
  intros Hq Hsort. destruct (Cleanup_spec now q Hq) as (-> & _ & -> & _). rewrite <- live_fresh, <- expired_fresh. generalize (m_maxDelay q) as d. intros d.
  clear Hq. induction (m_queue q) as [|i l IH]; [by exists 0%nat|]. cbn in Hsort. apply StronglySorted_inv in Hsort as [Hs Hall].
  destruct (fresh now d i) eqn:E.
  - exists 0%nat. rewrite drop_0, take_0.
    assert (Forall (fun j => fresh now d j = true) (i :: l)) as Hf.
    { constructor; [done|]. rewrite Forall_fmap in Hall. eapply Forall_impl; [exact Hall|]. unfold compose, fresh in *. intros j ?. lia. }
    by destruct (filter_all _ _ Hf) as [-> ->].
  - destruct (IH Hs) as (n & En & Ed). exists (S n). cbn [drop take fmap list_fmap].
    rewrite filter_cons_False by (by rewrite E). rewrite filter_cons_True by done. cbn. split; [done|].
    apply app_inv_head in Ed. by rewrite Ed.
Qed.

(** A limit below the number of waiting packets is not enforced: every further
    packet is accepted. *)
Theorem lowered_limit_ignored now q p h maxSize : queue_ok q -> 0 <= maxSize < Z.of_nat (length (live now q)) ->
  fst (Enqueue now p h (SetMaxSize maxSize q)) = true.
Proof.
  intros Hq Hm. destruct (Cleanup_spec now q Hq) as (El & [Hs _ _] & _). unfold Enqueue.
  assert (m_size (Cleanup now (SetMaxSize maxSize q)) = m_size (Cleanup now q) /\
          m_maxSize (Cleanup now (SetMaxSize maxSize q)) = maxSize) as [E1 E2].
  { unfold Cleanup, SetMaxSize. cbn. by destruct (m_queue q). }
  rewrite E1, E2, Hs, El. destruct (Z.eqb_spec (Z.of_nat (length (live now q))) maxSize); [lia|done].
Qed.
End QueueFacts.

(** * The time of a slot *)

Section Budget.
Context {Packet : Type} `{EqDecision Packet} (PacketSize : Packet -> Z) {Hdr : Type}.
Context (CalculateBytesTxTime : Z -> Z) (arrivals : nat -> list (Z * Packet * Hdr)).
(** A transmission takes time. *)
Context (Htx : forall n, 1 <= CalculateBytesTxTime n).
(** No packet expires before [D], arrivals included. *)
Context (D delay : Z).
Context (Harr : forall k t p h, (t, p, h) ∈ arrivals k -> t <= D < t + delay /\ PacketSize p < 1500).

Definition packets (q : TdmaMacQueue Packet Hdr) : list Packet := packet <$> m_queue q.

Record lasting (q : TdmaMacQueue Packet Hdr) : Prop := {
  l_ok : queue_ok q;
  l_delay : m_maxDelay q = delay;
  l_fresh : Forall (fun i => fresh D delay i = true) (m_queue q);
  l_size : Forall (fun i => PacketSize (packet i) < 1500) (m_queue q);
}.

Lemma lasting_live now q : lasting q -> now <= D -> live now q = m_queue q /\ expired now q = [].
Proof using.
  intros [_ Hd Hf _] Hn. rewrite <- live_fresh, <- expired_fresh, Hd. apply filter_all. eapply Forall_impl; [exact Hf|].
  unfold fresh. intros i ?. lia.
Qed.

Lemma lasting_cleanup now q : lasting q -> now <= D ->
  lasting (Cleanup now q) /\ m_queue (Cleanup now q) = m_queue q /\ dropped (Cleanup now q) = dropped q /\ m_maxSize (Cleanup now q) = m_maxSize q.
Proof using.
  intros Hq Hn. destruct (Cleanup_spec now q (l_ok q Hq)) as (E & Hok & Edr & Emax & Ed). destruct (lasting_live now q Hq Hn) as [El Ee].
  rewrite El in E. rewrite Ee, app_nil_r in Edr. split_and!; try done. destruct Hq. constructor; rewrite ?E, ?Ed; done.
Qed.

(** The packets that wait in [q] have become those of [q'] with [late] behind
    them, while [rejected] were reported as dropped. *)
Definition joined (q q' : TdmaMacQueue Packet Hdr) (late rejected : list Packet) : Prop :=
  packets q' = packets q ++ late /\ dropped q' = dropped q ++ rejected /\ m_maxSize q' = m_maxSize q.

Lemma lasting_queue t p h q : lasting q -> t <= D < t + delay -> PacketSize p < 1500 ->
  let q' := Queue t p h q in lasting q' /\
  if Z.of_nat (length (m_queue q)) <? m_maxSize q then joined q q' [p] [] else joined q q' [] [p].
Proof using EqDecision0.
  intros Hq Ht Hp. pose proof (Enqueue_spec t q p h (l_ok q Hq)) as He. unfold Queue, joined, packets.
  destruct (lasting_live t q Hq ltac:(lia)) as [El Ee]. unfold reported in He. rewrite El, Ee in He. cbn in He. rewrite app_nil_r in He.
  destruct (Enqueue t p h q) as [ok q']. destruct He as (Hok & (Edr & Emax & Edel) & -> & E). destruct Hq as [_ Hd Hf Hs].
  destruct (_ <? _); cbn [dropped upd m_queue m_maxSize].
  - rewrite E, Edr, Emax, fmap_app, app_nil_r. split; [|done].
    constructor; rewrite ?E; [done|congruence| |]; apply Forall_app; (split; [done|]); constructor; [|constructor| |constructor]; [|done].
    unfold fresh. cbn. lia.
  - rewrite E, Edr, Emax, app_nil_r. split; [|done]. destruct Hok as [O1 O2 O3]. rewrite E in O1, O2.
    constructor; cbn; rewrite ?E; [constructor; cbn; by rewrite ?E, <- ?Emax|congruence|done..].
Qed.

(** The packets that arrive during the first transmissions. *)
Definition arriving (k : nat) : list Packet := (fun a => snd (fst a)) <$> arrivals k.
Definition arrived (k n : nat) : list Packet := seq k n ≫= arriving.

(** Every arriving packet is either accepted, in its order, or dropped, and none
    is dropped while there is room. *)
Definition accounted (arrived late rejected : list Packet) (room : Z) : Prop :=
  late `sublist_of` arrived /\ late ++ rejected ≡ₚ arrived /\ (Z.of_nat (length arrived) <= room -> rejected = []).
Definition room (q : TdmaMacQueue Packet Hdr) : Z := m_maxSize q - Z.of_nat (length (m_queue q)).

Lemma joined_room q q' late rejected : joined q q' late rejected -> room q' = room q - Z.of_nat (length late).
Proof using.
  intros (E & _ & Em). apply (f_equal length) in E. unfold packets, room in *. rewrite length_app, !length_fmap in E. lia.
Qed.
Lemma joined_app q1 q2 q3 l1 r1 l2 r2 : joined q1 q2 l1 r1 -> joined q2 q3 l2 r2 -> joined q1 q3 (l1 ++ l2) (r1 ++ r2).
Proof using. intros (A & B & C) (A' & B' & C'). unfold joined. rewrite A', B', C', A, B, C, !app_assoc. done. Qed.
Lemma accounted_app a1 l1 r1 n1 a2 l2 r2 n2 : accounted a1 l1 r1 n1 -> accounted a2 l2 r2 n2 -> n1 - Z.of_nat (length l1) <= n2 ->
  accounted (a1 ++ a2) (l1 ++ l2) (r1 ++ r2) n1.
Proof using.
  intros (S1 & P1 & F1) (S2 & P2 & F2) Hn. split; [by apply sublist_app|]. split.
  - rewrite <- P1, <- P2. rewrite <- !app_assoc. apply Permutation_app_head. rewrite !app_assoc. apply Permutation_app_tail, Permutation_app_comm.
  - rewrite length_app. intros H. rewrite F1 by lia. cbn. apply F2. apply Permutation_length in P1. rewrite F1, app_nil_r in P1 by lia. lia.
Qed.

Lemma lasting_arrive k q : lasting q -> lasting (arrive arrivals k q) /\
  exists late rejected, joined q (arrive arrivals k q) late rejected /\ accounted (arriving k) late rejected (room q).
Proof using Harr EqDecision0.
  intros Hq. unfold arrive, arriving. pose proof (Harr k) as Ha. revert q Hq. induction (arrivals k) as [|[[t p] h] l IH]; intros q Hq; cbn [fold_left].
  { split; [done|]. exists [], []. unfold joined, accounted. rewrite !app_nil_r. done. }
  destruct (Ha t p h ltac:(left)) as [Ht Hp]. destruct (lasting_queue t p h q Hq Ht Hp) as [Hq' Hj].
  destruct (IH ltac:(intros t' p' h' Hin; apply (Ha t' p' h'); by right) _ Hq') as (Hl & late & rej & J & A). split; [done|].
  assert (exists l1 r1, joined q (Queue t p h q) l1 r1 /\ accounted [p] l1 r1 (room q)) as (l1 & r1 & J1 & A1).
  { unfold accounted, room. destruct (Z.ltb_spec (Z.of_nat (length (m_queue q))) (m_maxSize q)).
    - exists [p], []. split; [done|]. rewrite app_nil_r. done.
    - exists [], [p]. split; [done|]. split; [apply sublist_nil_l|]. split; [done|]. cbn. lia. }
  exists (l1 ++ late), (r1 ++ rej). split; [by eapply joined_app|]. change ((fun a => snd (fst a)) <$> (t, p, h) :: l) with ([p] ++ ((fun a => snd (fst a)) <$> l)).
  eapply accounted_app; [done|done|]. rewrite (joined_room _ _ _ _ J1). lia.
Qed.

(** Packets sent one after the other from [now] on, with the times at which each
    transmission ends. *)
Fixpoint back_to_back (now : Z) (ps : list Packet) : list (Z * Packet) :=
  match ps with
  | [] => []
  | p :: ps => let t := now + CalculateBytesTxTime (PacketSize p) in (t, p) :: back_to_back t ps
  end.
Definition finish (now : Z) (ps : list Packet) : Z := foldl (fun t p => t + CalculateBytesTxTime (PacketSize p)) now ps.

(** All of [ps] ends before [deadline]; the packet at the head of the queue would
    not, up to the part of a microsecond by which the source rounds the remaining
    time after each packet. *)
Definition filled (now deadline : Z) (ps waiting : list Packet) : Prop :=
  Forall (fun tp => fst tp < deadline) (back_to_back now ps) /\
  match waiting with
  | [] => True
  | p :: _ => deadline - 999 * Z.of_nat (length ps) <= finish now (ps ++ [p])
  end.

Lemma StartTransmission_spec fuel : forall k now us r q,
  (Z.to_nat us < fuel)%nat -> 0 <= us -> now + us * 1000 <= D -> lasting q ->
  exists ps q' r' late rejected,
    StartTransmission PacketSize CalculateBytesTxTime arrivals fuel k now us r q = Ok (back_to_back now ps, q', r') /\
    lasting q' /\ ps ++ packets q' = packets q ++ late /\ dropped q' = dropped q ++ rejected /\
    accounted (arrived k (length ps)) late rejected (room q) /\ filled now (now + us * 1000) ps (packets q').
Proof using Harr Htx EqDecision0.
  induction fuel as [|fuel IH]; intros k now us r q Hfuel Hus Hend Hq; [lia|]. cbn [StartTransmission].
  unfold IsEmpty, Peek. destruct (lasting_cleanup now q Hq ltac:(lia)) as (Hq1 & E1 & D1 & M1).
  set (q1 := Cleanup now q) in *. clearbody q1.
  assert (forall q', m_queue q' = m_queue q -> dropped q' = dropped q -> filled now (now + us * 1000) [] (packets q) ->
    [] ++ packets q' = packets q ++ [] /\ dropped q' = dropped q ++ [] /\ accounted (arrived k 0) [] [] (room q) /\ filled now (now + us * 1000) [] (packets q')) as H0.
  { intros q' E E' F. unfold packets in *. rewrite E, E', !app_nil_r. done. }
  destruct (decide (m_queue q1 = [])) as [E0|E0].
  { rewrite bool_decide_eq_true_2 by done. exists [], q1, r, [], []. split; [done|]. split; [done|]. apply H0; [done..|].
    unfold packets. rewrite <- E1, E0. split; [constructor|done]. }
  rewrite bool_decide_eq_false_2 by done. destruct (lasting_cleanup now q1 Hq1 ltac:(lia)) as (Hq2 & E2 & D2 & M2).
  set (q2 := Cleanup now q1) in *. clearbody q2. rewrite E2. destruct (m_queue q1) as [|i l] eqn:El; [done|].
  assert (PacketSize (packet i) < 1500) as Hsize.
  { pose proof (l_size q1 Hq1) as Hs. rewrite El in Hs. by apply Forall_cons in Hs as [? _]. }
  unfold CalculateTxTime. rewrite (proj2 (Z.ltb_lt _ _) Hsize). cbn [obind]. pose proof (Htx (PacketSize (packet i))) as Hpos.
  set (ptt := CalculateBytesTxTime (PacketSize (packet i))) in *. destruct (Z.ltb_spec ptt (us * 1000)) as [Hlt|Hge].
  2:{ exists [], q2, r, [], []. split; [done|]. split; [done|]. apply H0; [congruence..|]. unfold packets. rewrite <- E1.
      split; [constructor|]. cbn. fold ptt. lia. }
  destruct (lasting_arrive k q2 Hq2) as (Hq3 & late & rej & (J1 & J2 & J3) & A). set (q3 := arrive arrivals k q2) in *. clearbody q3.
  destruct (lasting_live (now + ptt) q3 Hq3 ltac:(lia)) as [L3 X3].
  pose proof (Dequeue_spec (now + ptt) q3 (l_ok q3 Hq3)) as Hdeq. unfold reported in Hdeq. rewrite L3, X3 in Hdeq. cbn in Hdeq. rewrite app_nil_r in Hdeq.
  unfold packets in J1. rewrite E2 in J1. destruct (m_queue q3) as [|j l3] eqn:El3; [done|]. cbn [fmap list_fmap app] in J1. injection J1 as Eji J1.
  destruct (Dequeue (now + ptt) q3) as [x q5]. destruct Hdeq as (Hok5 & (D5 & M5 & Y5) & -> & E5). cbn [head tail fmap option_fmap option_map] in *. rewrite Eji.
  assert (lasting q5) as Hq5.
  { destruct Hq3 as [_ Hd3 Hf3 Hs3]. rewrite El3 in *. apply Forall_cons in Hf3 as [_ Hf3]. apply Forall_cons in Hs3 as [_ Hs3].
    constructor; rewrite ?E5; (done || congruence). }
  destruct (IH (S k) (now + ptt) ((us * 1000 - ptt) / 1000) (u32 (r - ptt / 1000)) q5) as (ps & q' & r' & late' & rej' & E & Hq' & Hp & Hdrop & A' & F1 & F2);
    [dlia|dlia|dlia|done|].
  rewrite E. cbn [obind]. exists (packet i :: ps), q', r', (late ++ late'), (rej ++ rej'). split; [done|]. split; [done|]. split; [|split; [|split; [|split]]].
  - cbn [app]. rewrite Hp. unfold packets. rewrite E5, J1, <- E1. cbn. by rewrite app_assoc.
  - rewrite Hdrop, D5, J2, D2, D1. by rewrite app_assoc.
  - cbn [length]. unfold arrived. cbn [seq]. rewrite bind_cons.
    apply (f_equal length) in J1. rewrite length_app, !length_fmap in J1. unfold room in *.
    assert (length (m_queue q) = S (length l)) as Hlq by (by rewrite <- E1).
    eapply accounted_app; [|exact A'|].
    + rewrite E2, M2, M1 in A. cbn [length] in A. rewrite Hlq. exact A.
    + rewrite E5, M5, J3, M2, M1, Hlq. lia.
  - cbn [back_to_back]. constructor; [cbn; fold ptt; lia|]. eapply Forall_impl; [exact F1|]. intros [t p]. cbn. dlia.
  - destruct (packets q') as [|p' l']; [done|]. unfold finish in *. cbn [app foldl length]. fold ptt. revert F2. dlia.
Qed.

(** C21. In a slot over the simple channel the frame information is followed by the
    packets of the queue, in their order and back to back, as many as fit: all
    transmissions end before the slot does, up to the part of a microsecond by
    which the time of the frame information is rounded, and a packet that stays
    at the head of the queue would not have ended in time (the remaining time is
    cut to microseconds after each packet). No packet is lost, invented or
    repeated: every one that arrives meanwhile is behind those that were waiting,
    or was dropped because the queue was full. Assumed is that no packet expires
    in the slot; one that expires during its own transmission makes the node
    hand down a null packet ([expired_packet_null], tdma-satmac.cc:1582). Packets
    are shorter than the 1500 bytes that CalculateTxTime asserts. *)
Theorem slot_budget start m_slotTime fi q :
  0 < m_slotTime < 4294967296 -> PacketSize fi < 1500 -> CalculateBytesTxTime (PacketSize fi) < m_slotTime * 1000 ->
  start + m_slotTime * 1000 + 999 <= D -> lasting q ->
  let now := start + CalculateBytesTxTime (PacketSize fi) in
  exists ps q' r late rejected deadline,
    send_slot PacketSize CalculateBytesTxTime arrivals start m_slotTime fi true q = Ok ((now, fi) :: back_to_back now ps, q', r) /\
    ps ++ packets q' = packets q ++ late /\ dropped q' = dropped q ++ rejected /\ lasting q' /\
    accounted (arrived 0 (length ps)) late rejected (room q) /\
    start + m_slotTime * 1000 <= deadline <= start + m_slotTime * 1000 + 999 /\ filled now deadline ps (packets q').
Proof using Harr Htx EqDecision0.
  intros Hslot Hfi Htime HD Hq now. unfold send_slot, CalculateTxTime. rewrite (proj2 (Z.ltb_lt _ _) Hfi). cbn [obind].
  pose proof (Htx (PacketSize fi)) as Hpos. set (ft := CalculateBytesTxTime (PacketSize fi)) in *. cbv zeta.
  rewrite (proj2 (Z.ltb_lt _ _) Htime). cbn [negb]. rewrite (u32_id (m_slotTime - ft / 1000)) by (unfold in_u32; dlia).
  destruct (StartTransmission_spec (S (Z.to_nat (m_slotTime - ft / 1000))) 0 now (m_slotTime - ft / 1000)
    (m_slotTime - ft / 1000) q) as (ps & q' & r & late & rej & E & Hq' & Hp & Hd & A & F); [lia|dlia|subst now; dlia|done|].
  subst now. rewrite E. cbn [obind]. exists ps, q', r, late, rej, (start + ft + (m_slotTime - ft / 1000) * 1000). do 5 (split; [done|]).
  split; [dlia|done].
Qed.
End Budget.

(** * Instances

    Packets are pairs of a number and a size; a byte takes 800 ns (10 Mb/s). *)

Definition demo_tx (bytes : Z) : Z := Z.max 1 (800 * bytes).
Definition demo_queue (items : list (Z * Z * Z)) (maxDelay : Z) : TdmaMacQueue (Z * Z) unit :=
  {| m_queue := (fun '(id, size, t) => {| packet := (id, size); hdr := tt; tstamp := t |}) <$> items;
     m_size := Z.of_nat (length items); m_maxSize := 400; m_maxDelay := maxDelay; m_count := 0; dropped := [] |}.

Lemma demo_queue_ok : queue_ok (demo_queue [(1, 500, 0); (2, 700, 10)] 10000000).
Proof. constructor; vm_compute; try split; (reflexivity || discriminate). Qed.

Lemma queue_refines_witness :
  m_queue (snd (Enqueue 5000 (3, 100) tt (demo_queue [(1, 500, 0); (2, 700, 10)] 10000000))) =
  m_queue (demo_queue [(1, 500, 0); (2, 700, 10); (3, 100, 5000)] 10000000).
Proof. exact (proj2 (proj2 (proj2 (proj1 (queue_refines 5000 _ (3, 100) tt demo_queue_ok))))). Defined.

Lemma cleanup_oldest_witness : exists n,
  m_queue (Cleanup 10000005 (demo_queue [(1, 500, 0); (2, 700, 10)] 10000000)) =
  drop n (m_queue (demo_queue [(1, 500, 0); (2, 700, 10)] 10000000)).
Proof.
  destruct (cleanup_oldest 10000005 _ demo_queue_ok) as (n & E & _); [repeat constructor; discriminate|].
  exact (ex_intro _ n E).
Defined.

Lemma lowered_limit_ignored_witness :
  fst (Enqueue 5000 (3, 100) tt (SetMaxSize 1 (demo_queue [(1, 500, 0); (2, 700, 10)] 10000000))) = true.
Proof. apply (lowered_limit_ignored 5000 _ (3, 100) tt 1 demo_queue_ok). vm_compute. split; [discriminate|reflexivity]. Defined.

Lemma slot_budget_witness : exists ps q' r late,
  send_slot snd demo_tx (fun k => match k with O => [(200000, (3, 100), tt)] | _ => [] end) 100000 1000 (0, 106) true
    (demo_queue [(1, 500, 0); (2, 700, 10)] 10000000) = Ok ((184800, (0, 106)) :: back_to_back snd demo_tx 184800 ps, q', r) /\
  ps ++ packets q' = [(1, 500); (2, 700)] ++ late.
Proof.
  destruct (slot_budget snd demo_tx (fun k => match k with O => [(200000, (3, 100), tt)] | _ => [] end)
    ltac:(intros n; unfold demo_tx; lia) 2000000 10000000) with (start := 100000) (m_slotTime := 1000) (fi := (0, 106))
    (q := demo_queue [(1, 500, 0); (2, 700, 10)] 10000000) as (ps & q' & r & late & rej & deadline & E & P & _).
  - intros [|k] t p h Hin; [|by apply not_elem_of_nil in Hin]. apply list_elem_of_singleton in Hin as [= -> -> ->].
    split; [split; [discriminate|reflexivity]|reflexivity].
  - split; reflexivity.
  - reflexivity.
  - reflexivity.
  - discriminate.
  - constructor; [exact demo_queue_ok|reflexivity|repeat constructor|repeat constructor].
  - exact (ex_intro _ ps (ex_intro _ q' (ex_intro _ r (ex_intro _ late (conj E P))))).
Defined.

(** A packet that expires between the look at the queue and the end of its
    transmission is gone when it is to be sent: a null packet is handed down. *)
Theorem expired_packet_null :
  exists q : TdmaMacQueue (Z * Z) unit, queue_ok q /\
    fst (IsEmpty 184800 q) = false /\
    send_slot snd demo_tx (fun _ => []) 100000 1000 (0, 106) true q = Oops.
Proof.
  exists (demo_queue [(1, 500, 0)] 200000). split; [constructor; vm_compute; try split; (reflexivity || discriminate)|].
  split; vm_compute; reflexivity.
Qed.
