(* ===== verification/Mbr.v ===== *)
(** The neighbour discovery of multi-hop broadcast routing (src/ns3/
    mbr-neighbor/model/): the hello packet (mbr-header.cc), the table of
    neighbours with its expiry (neighbor.cc) and the application that sends a
    hello in every interval and feeds received ones into the table
    (mbr-neighbor-app.cc).

    Addresses, the byte order of the buffer, the road map and the sets of
    geohash cells belong to other modules; they are the interface
    [MbrPlatform]. Times are integers (nanoseconds). A position is kept as the
    bit pattern of the [float] that the hello carries: storing it in a
    [double] loses nothing. *)

From S2P Require Import Prelude.

Class MbrPlatform := {
  Ipv4Address : Type;
  ip_eq_dec :: EqDecision Ipv4Address;
  Ipv4Address_default : Ipv4Address;
  ip_WriteTo : Ipv4Address -> list Z;
  ip_ReadFrom : list Z -> Ipv4Address;
  Mac48Address : Type;
  mac_eq_dec :: EqDecision Mac48Address;
  Mac48Address_default : Mac48Address;
  CopyFrom : list Z -> Mac48Address;
  CopyTo : Mac48Address -> list Z;
  WriteHtonU32 : Z -> list Z;
  ReadNtohU32 : list Z -> Z;
  WriteHtonU64 : Z -> list Z;
  ReadNtohU64 : list Z -> Z;
  GeoHashSetCoordinate : Type;
  sx : GeoHashSetCoordinate -> Z;
  sy : GeoHashSetCoordinate -> Z;
  geohashset : GeoHashSetCoordinate -> Z -> Z -> Z;
  sumoCartesian2GPS : Z * Z -> Z * Z;       (* longitude, latitude *)
  sumoCartesian2Geohash : Z * Z -> Z;
}.

(** What has been written is read back; addresses of hardware are six bytes. *)
Class MbrPlatformLaws (P : MbrPlatform) : Prop := {
  ip_WriteTo_length : forall a, length (ip_WriteTo a) = 4%nat;
  ip_ReadFrom_WriteTo : forall a, ip_ReadFrom (ip_WriteTo a) = a;
  CopyTo_length : forall m, length (CopyTo m) = 6%nat;
  CopyFrom_CopyTo : forall m, CopyFrom (CopyTo m) = m;
  WriteHtonU32_length : forall x, length (WriteHtonU32 x) = 4%nat;
  ReadNtohU32_Write : forall x, in_u32 x -> ReadNtohU32 (WriteHtonU32 x) = x;
  WriteHtonU64_length : forall x, length (WriteHtonU64 x) = 8%nat;
  ReadNtohU64_Write : forall x, in_u64 x -> ReadNtohU64 (WriteHtonU64 x) = x;
}.

Section Mbr.
Context `{P : MbrPlatform}.

(** * The hello packet *)

Record MbrHeader := {
  m_flags : Z;          (* u8 *)
  m_prefixSize : Z;     (* u8 *)
  m_hopCount : Z;       (* u8 *)
  m_dst : Ipv4Address;
  m_dstSeqNo : Z;       (* u32 *)
  m_origin : Ipv4Address;
  m_lifeTime : Z;       (* u32, milliseconds *)
  m_geohash : Z;        (* u64 *)
  m_mac : list Z;       (* six bytes *)
  m_direction : Z;      (* u16 *)
  m_latitude : Z;       (* float, as its bits *)
  m_longitude : Z;
}.
#[export] Instance eta_MbrHeader : Eta MbrHeader := fun r =>
  Build_MbrHeader (m_flags r) (m_prefixSize r) (m_hopCount r) (m_dst r) (m_dstSeqNo r) (m_origin r) (m_lifeTime r)
    (m_geohash r) (m_mac r) (m_direction r) (m_latitude r) (m_longitude r).

(** The constructor; times are in nanoseconds. *)
Definition new_MbrHeader (prefixSize hopCount : Z) (dst : Ipv4Address) (dstSeqNo : Z) (origin : Ipv4Address) (lifeTime geohash : Z)
    (mac : list Z) (direction latitude longitude : Z) : MbrHeader :=
  {| m_flags := 0; m_prefixSize := prefixSize; m_hopCount := hopCount; m_dst := dst; m_dstSeqNo := dstSeqNo; m_origin := origin;
     m_lifeTime := u32 (lifeTime / 1000000); m_geohash := geohash; m_mac := take 6 mac; m_direction := direction;
     m_latitude := latitude; m_longitude := longitude |}.

Definition GetSerializedSize : Z := 41.

Definition Serialize (h : MbrHeader) : list Z :=
  [m_flags h; m_prefixSize h; m_hopCount h] ++ ip_WriteTo (m_dst h) ++ WriteHtonU32 (m_dstSeqNo h) ++ ip_WriteTo (m_origin h) ++
  WriteHtonU32 (m_lifeTime h) ++ WriteHtonU64 (m_geohash h) ++ m_mac h ++ WriteHtonU32 (m_latitude h) ++ WriteHtonU32 (m_longitude h).

(** Reading [n] bytes; behind the end of the buffer is [Oops]. *)
Definition read_bytes (n : nat) {A} (f : list Z -> A) (i : list Z) : outcome (A * list Z) :=
  if (length i <? n)%nat then Oops else Ok (f (take n i), drop n i).
Definition ReadU8 : list Z -> outcome (Z * list Z) := read_bytes 1 (fun l => nth 0 l 0).

(** Into the header [h0]: the direction is not in the packet. *)
Definition Deserialize (h0 : MbrHeader) (start : list Z) : outcome (MbrHeader * Z) :=
  obind (ReadU8 start) (fun '(flags, i) =>
  obind (ReadU8 i) (fun '(prefixSize, i) =>
  obind (ReadU8 i) (fun '(hopCount, i) =>
  obind (read_bytes 4 ip_ReadFrom i) (fun '(dst, i) =>
  obind (read_bytes 4 ReadNtohU32 i) (fun '(dstSeqNo, i) =>
  obind (read_bytes 4 ip_ReadFrom i) (fun '(origin, i) =>
  obind (read_bytes 4 ReadNtohU32 i) (fun '(lifeTime, i) =>
  obind (read_bytes 8 ReadNtohU64 i) (fun '(geohash, i) =>
  obind (read_bytes 6 (fun l => l) i) (fun '(mac, i) =>
  obind (read_bytes 4 ReadNtohU32 i) (fun '(t1, i) =>
  obind (read_bytes 4 ReadNtohU32 i) (fun '(t2, i) =>
  let dist := Z.of_nat (length start) - Z.of_nat (length i) in
  if dist =? GetSerializedSize then
    Ok ({| m_flags := flags; m_prefixSize := prefixSize; m_hopCount := hopCount; m_dst := dst; m_dstSeqNo := dstSeqNo;
           m_origin := origin; m_lifeTime := lifeTime; m_geohash := geohash; m_mac := mac; m_direction := m_direction h0;
           m_latitude := t1; m_longitude := t2 |}, dist)
  else Oops))))))))))).

Definition SetLifeTime (t : Z) (h : MbrHeader) : MbrHeader := h <| m_lifeTime := u32 (t / 1000000) |>.
Definition GetLifeTime (h : MbrHeader) : Z := m_lifeTime h * 1000000.
Definition SetAckRequired (f : bool) (h : MbrHeader) : MbrHeader :=
  if f then h <| m_flags ::= fun x => x .| (1 .<< 6) |> else h <| m_flags ::= fun x => clr x (1 .<< 6) |>.
Definition GetAckRequired (h : MbrHeader) : bool := has (m_flags h) (1 .<< 6).
Definition SetHello (origin : Ipv4Address) (srcSeqNo lifetime : Z) (h : MbrHeader) : MbrHeader :=
  h <| m_flags := 0 |> <| m_prefixSize := 0 |> <| m_hopCount := 0 |> <| m_dst := origin |> <| m_dstSeqNo := srcSeqNo |>
    <| m_origin := origin |> <| m_lifeTime := u32 (lifetime / 1000000) |>.
(** [operator==]: geohash, hardware address and position do not count. *)
Definition MbrHeader_eq (h o : MbrHeader) : bool :=
  (m_flags h =? m_flags o) && (m_prefixSize h =? m_prefixSize o) && (m_hopCount h =? m_hopCount o) &&
  bool_decide (m_dst h = m_dst o) && (m_dstSeqNo h =? m_dstSeqNo o) && bool_decide (m_origin h = m_origin o) &&
  (m_lifeTime h =? m_lifeTime o).

(** * The table of neighbours *)

Record Neighbor := {
  m_ipAddress : Ipv4Address;
  m_hardwareAddress : Mac48Address;
  m_expireTime : Z;
  m_settingTime : Z;
  close : bool;
  nb_geohash : Z;
  nb_direction : Z;
  m_x : Z;
  m_y : Z;
}.
#[export] Instance eta_Neighbor : Eta Neighbor := fun r =>
  Build_Neighbor (m_ipAddress r) (m_hardwareAddress r) (m_expireTime r) (m_settingTime r) (close r) (nb_geohash r)
    (nb_direction r) (m_x r) (m_y r).

(** [m_ntimer]: when the timer will run [Purge]. *)
Record Neighbors := {
  delay : Z;
  m_ntimer : option Z;
  m_nb : list Neighbor;
}.
#[export] Instance eta_Neighbors : Eta Neighbors := fun r => Build_Neighbors (delay r) (m_ntimer r) (m_nb r).

Definition new_Neighbors (delay : Z) : Neighbors := {| delay := delay; m_ntimer := None; m_nb := [] |}.
Definition new_Neighbor (ip : Ipv4Address) (mac : Mac48Address) (t sett geohash direction x y : Z) : Neighbor :=
  {| m_ipAddress := ip; m_hardwareAddress := mac; m_expireTime := t; m_settingTime := sett; close := false;
     nb_geohash := geohash; nb_direction := direction; m_x := x; m_y := y |}.

(** [now] is [Simulator::Now ()]. *)
Definition CloseNeighbor (now : Z) (nb : Neighbor) : bool := (m_expireTime nb <? now) || close nb.

Definition ScheduleTimer (now : Z) (t : Neighbors) : Neighbors := t <| m_ntimer := Some (now + delay t) |>.

Definition Purge (now : Z) (t : Neighbors) : Neighbors :=
  if bool_decide (m_nb t = []) then t
  else ScheduleTimer now (t <| m_nb ::= filter (fun nb => CloseNeighbor now nb = false) |>).

Definition Clear (t : Neighbors) : Neighbors := t <| m_nb := [] |>.

(** The loop of [Update] over the entries; [None]: there is no such entry. *)
Fixpoint update_entry (addr : Ipv4Address) (f : Neighbor -> Neighbor) (l : list Neighbor) : option (list Neighbor) :=
  match l with
  | [] => None
  | i :: l => if decide (m_ipAddress i = addr) then Some (f i :: l) else cons i <$> update_entry addr f l
  end.

Definition Update (now : Z) (addr : Ipv4Address) (expire : Z) (mac : list Z) (geohash direction x y : Z) (t : Neighbors) : Neighbors :=
  let tempmac := CopyFrom mac in
  match update_entry addr (fun i =>
          let i := i <| m_expireTime ::= Z.max (expire + now) |> <| m_settingTime := now |> in
          let i := if decide (m_hardwareAddress i = Mac48Address_default) then i <| m_hardwareAddress := tempmac |> else i in
          i <| m_x := x |> <| m_y := y |>) (m_nb t) with
  | Some l => t <| m_nb := l |>
  | None => Purge now (t <| m_nb ::= fun l => l ++ [new_Neighbor addr tempmac (expire + now) now geohash direction x y] |>)
  end.

Definition find_ip (addr : Ipv4Address) (t : Neighbors) : option Neighbor :=
  snd <$> list_find (fun i => m_ipAddress i = addr) (m_nb t).

Definition IsNeighbor (now : Z) (addr : Ipv4Address) (t : Neighbors) : bool * Neighbors :=
  let t := Purge now t in (bool_decide (is_Some (find_ip addr t)), t).
Definition GetExpireTime (now : Z) (addr : Ipv4Address) (t : Neighbors) : Z * Neighbors :=
  let t := Purge now t in (from_option (fun i => m_expireTime i - now) 0 (find_ip addr t), t).
Definition GetSettingTime (now : Z) (addr : Ipv4Address) (t : Neighbors) : Z * Neighbors :=
  let t := Purge now t in (from_option m_settingTime 0 (find_ip addr t), t).

(** The result and, when there is one, the position. *)
Definition GetGeohashFromMacInNb (now : Z) (mac : list Z) (t : Neighbors) : (Z * option (Z * Z)) * Neighbors :=
  let t := Purge now t in
  (match snd <$> list_find (fun i => m_hardwareAddress i = CopyFrom mac) (m_nb t) with
   | Some i => (nb_geohash i, Some (m_x i, m_y i))
   | None => (0, None)
   end, t).
(** [NS_ASSERT (m_geohash > 0)]. *)
Definition GetGeohashFromIpInNb (now : Z) (ip : Ipv4Address) (t : Neighbors)
  : outcome ((Z * option (Z * Z * list Z)) * Neighbors) :=
  let t := Purge now t in
  match find_ip ip t with
  | Some i => if 0 <? nb_geohash i then Ok ((nb_geohash i, Some (m_x i, m_y i, CopyTo (m_hardwareAddress i))), t) else Oops
  | None => Ok ((0, None), t)
  end.
(** The bits of [-1] as a [float]. *)
Definition float_minus_one : Z := 0xBF800000.
Definition GetGPSPositionFromIp (now : Z) (ip : Ipv4Address) (t : Neighbors) : (Z * Z) * Neighbors :=
  let t := Purge now t in (from_option (fun i => (m_x i, m_y i)) (float_minus_one, float_minus_one) (find_ip ip t), t).
Definition GetMacFromIp (now : Z) (ip : Ipv4Address) (t : Neighbors) : option Mac48Address * Neighbors :=
  let t := Purge now t in (m_hardwareAddress <$> find_ip ip t, t).
Definition NeighborEmpty (t : Neighbors) : bool := bool_decide (m_nb t = []).
Definition GetEntryUpdateTime (ip : Ipv4Address) (t : Neighbors) : Z := from_option m_settingTime 0 (find_ip ip t).
Definition GetTableSize (t : Neighbors) : Z := Z.of_nat (length (m_nb t)).
(** An index outside the table is [None]. *)
Definition GetGPSPosition (i : nat) (t : Neighbors) : option (Z * Z) := (fun nb => (m_x nb, m_y nb)) <$> m_nb t !! i.
Definition GetIp (i : nat) (t : Neighbors) : option Ipv4Address := m_ipAddress <$> m_nb t !! i.

(** ** Choosing a relay *)

(** The cells of a set, row by row. *)
Definition cells (g : GeoHashSetCoordinate) : list (Z * Z) := seqZ 0 (sy g) ≫= fun i => (fun j => (i, j)) <$> seqZ 0 (sx g).
Definition bad_set (g : GeoHashSetCoordinate) : bool := negb (sx g =? 3) && negb (sy g =? 3).

Definition GetnbFromsetRandom (now : Z) (g : GeoHashSetCoordinate) (t : Neighbors) : option Mac48Address * Neighbors :=
  let t := Purge now t in
  (if bad_set g then None
   else m_hardwareAddress <$>
     (snd <$> list_find (fun nb => Exists (fun '(j, k) => nb_geohash nb = geohashset g j k) (cells g)) (m_nb t)), t).

(** How many cells of the set a vehicle in cell [(i, j)] has ahead of it. *)
Definition dwell (g : GeoHashSetCoordinate) (direct i j : Z) : option Z :=
  if (45 <=? direct) && (direct <? 135) then Some (sx g - j)
  else if (225 <=? direct) && (direct <? 315) then Some (j + 1)
  else if (135 <=? direct) && (direct <? 225) then Some (sy g - i)
  else if (315 <=? direct) || (direct <? 45) then Some (i + 1)
  else None.

Fixpoint dtime_loop (g : GeoHashSetCoordinate) (geohash direct : Z) (l : list (Z * Z)) : Z :=
  match l with
  | [] => -1
  | (i, j) :: l =>
      if geohash =? geohashset g i j then
        match dwell g direct i j with Some d => d | None => dtime_loop g geohash direct l end
      else dtime_loop g geohash direct l
  end.
Definition GetDtime (geohash direct : Z) (g : GeoHashSetCoordinate) : Z :=
  if bad_set g then -1 else dtime_loop g geohash direct (cells g).

(** The loop of [GetnbFromsetBest] with [dtime_best] and [best]. *)
Fixpoint best_loop (g : GeoHashSetCoordinate) (dtime_max : Z) (l : list Neighbor) (dtime_best : Z) (best : Mac48Address)
  : option Mac48Address :=
  match l with
  | [] => if 0 <? dtime_best then Some best else None
  | nb :: l =>
      let dtime_curr := GetDtime (nb_geohash nb) (nb_direction nb) g in
      if dtime_curr =? dtime_max then Some (m_hardwareAddress nb)
      else if dtime_best <? dtime_curr then best_loop g dtime_max l dtime_curr (m_hardwareAddress nb)
      else best_loop g dtime_max l dtime_best best
  end.
Definition GetnbFromsetBest (now : Z) (g : GeoHashSetCoordinate) (t : Neighbors) : option Mac48Address * Neighbors :=
  let dtime_max := if sy g <? sx g then sx g else sy g in
  let t := Purge now t in
  (if bad_set g then None else best_loop g dtime_max (m_nb t) 0 Mac48Address_default, t).

(** * The application *)

Record MbrNeighborApp := {
  m_stop : bool;
  m_waveInterval : Z;
  m_waveExpire : Z;
  m_prevTxDelay : Z;
  m_neighbors : Neighbors;
}.
#[export] Instance eta_MbrNeighborApp : Eta MbrNeighborApp := fun r =>
  Build_MbrNeighborApp (m_stop r) (m_waveInterval r) (m_waveExpire r) (m_prevTxDelay r) (m_neighbors r).

Definition StopApplication (a : MbrNeighborApp) : MbrNeighborApp := a <| m_stop := true |>.

(** The last part of [StartApplication]: when the first packet is sent. *)
Definition StartApplication (tDrift txDelay : Z) (a : MbrNeighborApp) : Z * MbrNeighborApp :=
  let startTime := 1000000000 in
  (startTime + tDrift + txDelay, a <| m_prevTxDelay := txDelay |>).

(** The hello of the node at [pos], the time until the next one with its
    [pktCount], and the new state. [ip] and [mac] are those of the data
    interface, [txDelay] is the random delay. *)
Definition GenerateWaveTraffic (pos : Z * Z) (ip : Ipv4Address) (mac : Mac48Address) (txDelay : Z) (pktCount pktInterval : Z) (a : MbrNeighborApp)
  : MbrHeader * option (Z * Z) * MbrNeighborApp :=
  let '(longi, lat) := sumoCartesian2GPS pos in
  let helloHeader := new_MbrHeader 0 0 ip 0 ip 0 (sumoCartesian2Geohash pos) (CopyTo mac) 0 lat longi in
  let txTime := pktInterval - m_prevTxDelay a + txDelay in
  let a := a <| m_prevTxDelay := txDelay |> in
  (helloHeader, if negb (m_stop a) then Some (txTime, u32 (pktCount - 1)) else None, a).

(** The header object into which a packet is read. *)
Definition empty_header : MbrHeader :=
  {| m_flags := 0; m_prefixSize := 0; m_hopCount := 0; m_dst := Ipv4Address_default; m_dstSeqNo := 0; m_origin := Ipv4Address_default;
     m_lifeTime := 0; m_geohash := 0; m_mac := []; m_direction := 0; m_latitude := 0; m_longitude := 0 |}.

Definition ReceiveWavePacket (now : Z) (packet : list Z) (a : MbrNeighborApp) : outcome MbrNeighborApp :=
  obind (Deserialize empty_header packet) (fun '(h, _) =>
  Ok (a <| m_neighbors ::= Update now (m_origin h) (m_waveExpire a) (m_mac h) (m_geohash h) (m_direction h) (m_longitude h) (m_latitude h) |>)).

(** * The packet *)

Lemma read_bytes_app n {A} (f : list Z -> A) l1 l2 : length l1 = n -> read_bytes n f (l1 ++ l2) = Ok (f l1, l2).
Proof using.
  intros <-. unfold read_bytes. rewrite length_app. destruct (Nat.ltb_spec (length l1 + length l2) (length l1)); [lia|].
  by rewrite take_app_length, drop_app_length.
Qed.

Lemma ReadU8_cons x l : ReadU8 (x :: l) = Ok (x, l).
Proof using. exact (read_bytes_app 1 (fun l => nth 0 l 0) [x] l eq_refl). Qed.

Record hello_ok (h : MbrHeader) : Prop := {
  hk_seq : in_u32 (m_dstSeqNo h);
  hk_life : in_u32 (m_lifeTime h);
  hk_geohash : in_u64 (m_geohash h);
  hk_mac : length (m_mac h) = 6%nat;
  hk_lat : in_u32 (m_latitude h);
  hk_long : in_u32 (m_longitude h);
}.

Lemma Deserialize_Serialize `{L : !MbrPlatformLaws P} h0 h : hello_ok h ->
  Deserialize h0 (Serialize h) = Ok (h <| m_direction := m_direction h0 |>, GetSerializedSize).
Proof using.
  intros []. unfold Deserialize. set (start := Serialize h).
  assert (Z.of_nat (length start) = 41) as Elen.
  { subst start. unfold Serialize. rewrite !length_app, !ip_WriteTo_length, !WriteHtonU32_length, WriteHtonU64_length, hk_mac0. done. }
  assert (start = Serialize h) as Es by done. clearbody start. rewrite Es at 1. unfold Serialize. cbn [app].
  rewrite ReadU8_cons. cbn [obind]. rewrite ReadU8_cons. cbn [obind]. rewrite ReadU8_cons. cbn [obind].
  rewrite read_bytes_app by apply ip_WriteTo_length. cbn [obind]. rewrite read_bytes_app by apply WriteHtonU32_length. cbn [obind].
  rewrite read_bytes_app by apply ip_WriteTo_length. cbn [obind]. rewrite read_bytes_app by apply WriteHtonU32_length. cbn [obind].
  rewrite read_bytes_app by apply WriteHtonU64_length. cbn [obind]. rewrite read_bytes_app by done. cbn [obind].
  rewrite read_bytes_app by apply WriteHtonU32_length. cbn [obind].
  rewrite <- (app_nil_r (WriteHtonU32 (m_longitude h))), read_bytes_app by apply WriteHtonU32_length. cbn [obind length].
  rewrite Elen. cbn [Z.eqb Z.of_nat Z.sub Z.add Z.opp Pos.eqb GetSerializedSize].
  rewrite !ip_ReadFrom_WriteTo, !ReadNtohU32_Write, ReadNtohU64_Write by done. done.
Qed.


(** * The table *)

(** What happens to a table: a hello is entered, the table is asked, the timer
    runs out. *)
Inductive nb_op :=
  | NbUpdate (addr : Ipv4Address) (expire : Z) (mac : list Z) (geohash direction x y : Z)
  | NbQuery | NbTimeout.
Definition nb_exec (now : Z) (o : nb_op) (t : Neighbors) : Neighbors :=
  match o with
  | NbUpdate addr expire mac geohash direction x y => Update now addr expire mac geohash direction x y t
  | NbQuery => Purge now t
  | NbTimeout => Purge now (t <| m_ntimer := None |>)
  end.
Definition nb_run (l : list (Z * nb_op)) (t : Neighbors) : Neighbors := foldl (fun t e => nb_exec (fst e) (snd e) t) t l.

(** The specification: a hello of [addr] has been heard that is still valid. *)
Definition hello_valid (addr : Ipv4Address) (now : Z) (e : Z * nb_op) : Prop :=
  match snd e with NbUpdate a expire _ _ _ _ _ => a = addr /\ now <= fst e + expire | _ => False end.

(** [h]: the operations so far, [last]: the time of the last. *)
Record table_inv (h : list (Z * nb_op)) (last : Z) (l : list Neighbor) : Prop := {
  ti_nodup : NoDup (m_ipAddress <$> l);
  ti_open : Forall (fun nb => close nb = false) l;
  ti_heard : forall nb, nb ∈ l -> exists e, e ∈ h /\ hello_valid (m_ipAddress nb) (m_expireTime nb) e;
  ti_known : forall addr t e, e ∈ h -> hello_valid addr t e -> last <= t -> exists nb, nb ∈ l /\ m_ipAddress nb = addr /\ t <= m_expireTime nb;
}.

Lemma update_entry_spec addr f l : (forall i, m_ipAddress (f i) = m_ipAddress i) ->
  match update_entry addr f l with
  | Some l' => exists l1 i l2, l = l1 ++ i :: l2 /\ m_ipAddress i = addr /\ l' = l1 ++ f i :: l2
  | None => addr ∉ (m_ipAddress <$> l)
  end.
Proof using.
  intros Hf. induction l as [|i l IH]; cbn [update_entry]; [apply not_elem_of_nil|].
  destruct (decide (m_ipAddress i = addr)) as [E|Hne]; [by exists [], i, l|].
  destruct (update_entry addr f l) as [l'|]; cbn.
  - destruct IH as (l1 & j & l2 & -> & E & ->). by exists (i :: l1), j, l2.
  - apply not_elem_of_cons. by split.
Qed.

Lemma purge_entries now t : m_nb (Purge now t) = filter (fun nb => CloseNeighbor now nb = false) (m_nb t).
Proof using. unfold Purge. destruct (bool_decide_reflect (m_nb t = [])) as [->|_]; done. Qed.

Lemma NoDup_fmap_filter {A} (f : Neighbor -> A) (p : Neighbor -> bool) b l : NoDup (f <$> l) -> NoDup (f <$> filter (fun nb => p nb = b) l).
Proof using.
  induction l as [|i l IH]; [done|]. rewrite fmap_cons, NoDup_cons, filter_cons. intros [Hi Hl]. destruct (decide (p i = b)); [|by apply IH].
  rewrite fmap_cons, NoDup_cons. split; [|by apply IH]. intros (j & Ej & Hj)%list_elem_of_fmap. apply Hi. rewrite Ej.
  apply list_elem_of_fmap_2. by apply list_elem_of_filter in Hj as [_ Hj].
Qed.

Lemma purge_inv h last now l : table_inv h last l -> last <= now -> table_inv h now (filter (fun nb => CloseNeighbor now nb = false) l).
Proof using.
  intros [H1 H2 H3 H4] Hle. split.
  - by apply NoDup_fmap_filter.
  - apply Forall_forall. intros nb [_ Hnb]%list_elem_of_filter. rewrite Forall_forall in H2. by apply H2.
  - intros nb [_ Hnb]%list_elem_of_filter. by apply H3.
  - intros addr t e He Hv Ht. destruct (H4 addr t e He Hv) as (nb & Hnb & E & Hx); [lia|]. exists nb. split; [|done].
    apply list_elem_of_filter. split; [|done]. unfold CloseNeighbor. rewrite Forall_forall in H2. rewrite (H2 nb Hnb), orb_false_r. lia.
Qed.

Lemma hello_valid_mono addr t t' e : t' <= t -> hello_valid addr t e -> hello_valid addr t' e.
Proof using. unfold hello_valid. destruct (snd e); [|done|done]. intros ? [? ?]. split; [done|lia]. Qed.
Lemma query_invalid addr t now o : (forall a e m g d x y, o <> NbUpdate a e m g d x y) -> ~ hello_valid addr t (now, o).
Proof using. intros Ho. unfold hello_valid. cbn. destruct o; [|tauto..]. by destruct (Ho addr0 expire mac geohash direction x y). Qed.

(** The history may grow by operations that are not hellos. *)
Lemma table_inv_other h last l now o : (forall a e m g d x y, o <> NbUpdate a e m g d x y) -> table_inv h last l -> table_inv (h ++ [(now, o)]) last l.
Proof using.
  intros Ho [H1 H2 H3 H4]. split; [done|done| |].
  - intros nb Hnb. destruct (H3 nb Hnb) as (e & He & Hv). exists e. split; [apply elem_of_app; by left|done].
  - intros addr t e [He|He]%elem_of_app Hv Ht; [by eapply H4|]. apply list_elem_of_singleton in He as ->. by apply query_invalid in Hv.
Qed.

Lemma update_inv h last now t addr expire mac g d x y : table_inv h last (m_nb t) -> last <= now ->
  table_inv (h ++ [(now, NbUpdate addr expire mac g d x y)]) now (m_nb (Update now addr expire mac g d x y t)).
Proof using.
  intros [H1 H2 H3 H4] Hle. unfold Update. cbv zeta. set (o := (now, NbUpdate addr expire mac g d x y)).
  match goal with |- context [update_entry addr ?f (m_nb t)] => pose proof (update_entry_spec addr f (m_nb t)) as Hu; set (f0 := f) in * end.
  assert (forall i, m_ipAddress (f0 i) = m_ipAddress i /\ m_expireTime (f0 i) = Z.max (expire + now) (m_expireTime i) /\ close (f0 i) = close i) as Hf
    by (intros i; subst f0; cbn; by destruct (decide _)).
  specialize (Hu ltac:(intros i; apply Hf)). destruct (update_entry addr f0 (m_nb t)) as [l'|].
  - destruct Hu as (l1 & i & l2 & El & Ei & ->). cbn [m_nb upd]. destruct (Hf i) as (F1 & F2 & F3). rewrite El in *. split.
    + rewrite fmap_app, fmap_cons, F1. by rewrite fmap_app, fmap_cons in H1.
    + apply Forall_app in H2 as [H2 H2']. inversion_clear H2' as [|? ? Hi Hl2]. apply Forall_app_2; [done|]. constructor; [by rewrite F3|done].
    + intros nb Hnb. apply elem_of_app in Hnb as [Hnb|[->|Hnb]%elem_of_cons].
      * destruct (H3 nb) as (e & He & Hv); [apply elem_of_app; by left|]. exists e. split; [apply elem_of_app; by left|done].
      * rewrite F1, F2. destruct (Z.max_spec (expire + now) (m_expireTime i)) as [[_ ->]|[_ ->]].
        -- destruct (H3 i) as (e & He & Hv); [apply elem_of_app; right; left|]. exists e. split; [apply elem_of_app; by left|done].
        -- exists o. split; [apply elem_of_app; right; left|]. unfold hello_valid, o. cbn. split; [done|lia].
      * destruct (H3 nb) as (e & He & Hv); [apply elem_of_app; right; by right|]. exists e. split; [apply elem_of_app; by left|done].
    + intros a t0 e [He|He]%elem_of_app Hv Ht.
      * destruct (H4 a t0 e He Hv) as (nb & Hnb & E & Hx); [lia|]. apply elem_of_app in Hnb as [Hnb|[->|Hnb]%elem_of_cons].
        -- exists nb. split; [apply elem_of_app; by left|done].
        -- exists (f0 i). split; [apply elem_of_app; right; left|]. rewrite F1, F2. split; [done|lia].
        -- exists nb. split; [apply elem_of_app; right; by right|done].
      * apply list_elem_of_singleton in He as ->. unfold hello_valid, o in Hv. cbn in Hv. destruct Hv as [<- Hv].
        exists (f0 i). split; [apply elem_of_app; right; left|]. rewrite F1, F2. split; [congruence|lia].
  - rewrite purge_entries. cbn [m_nb upd]. apply (purge_inv _ last); [|done]. split.
    + rewrite fmap_app. apply NoDup_app. split; [done|]. split; [|apply NoDup_singleton]. intros a Ha Hn. apply list_elem_of_singleton in Hn as ->. done.
    + apply Forall_app_2; [done|]. by constructor.
    + intros nb [Hnb|Hnb]%elem_of_app.
      * destruct (H3 nb Hnb) as (e & He & Hv). exists e. split; [apply elem_of_app; by left|done].
      * apply list_elem_of_singleton in Hnb as ->. exists o. split; [apply elem_of_app; right; left|]. unfold hello_valid, o. cbn. split; [done|lia].
    + intros a t0 e [He|He]%elem_of_app Hv Ht.
      * destruct (H4 a t0 e He Hv) as (nb & Hnb & E & Hx); [lia|]. exists nb. split; [apply elem_of_app; by left|done].
      * apply list_elem_of_singleton in He as ->. unfold hello_valid, o in Hv. cbn in Hv. destruct Hv as [<- Hv].
        eexists. split; [apply elem_of_app; right; left|]. cbn. split; [done|lia].
Qed.

Lemma exec_table_inv h last now o t : table_inv h last (m_nb t) -> last <= now -> table_inv (h ++ [(now, o)]) now (m_nb (nb_exec now o t)).
Proof using.
  intros H Hle. destruct o; cbn [nb_exec].
  - by eapply update_inv.
  - rewrite purge_entries. apply table_inv_other; [done|]. by eapply purge_inv.
  - rewrite purge_entries. apply table_inv_other; [done|]. by eapply purge_inv.
Qed.

(** The operations are in the order of time. *)
Fixpoint in_time (last : Z) (l : list (Z * nb_op)) (now : Z) : Prop :=
  match l with
  | [] => last <= now
  | (t, _) :: l => last <= t /\ in_time t l now
  end.

Lemma nb_run_inv l : forall h last now t, table_inv h last (m_nb t) -> in_time last l now ->
  exists last', last' <= now /\ table_inv (h ++ l) last' (m_nb (nb_run l t)).
Proof using.
  induction l as [|[t0 o] l IH]; intros h last now t H Hl; cbn [in_time] in Hl; [exists last; by rewrite app_nil_r|].
  destruct Hl as [Hle Hl]. apply (exec_table_inv _ _ t0 o) in H; [|done]. destruct (IH _ _ now _ H Hl) as (last' & H1 & H2).
  exists last'. split; [done|]. by rewrite <- app_assoc in H2.
Qed.

Lemma find_ip_in addr t : is_Some (find_ip addr t) <-> exists nb, nb ∈ m_nb t /\ m_ipAddress nb = addr.
Proof using.
  unfold find_ip. rewrite fmap_is_Some. split.
  - intros [[i nb] H]. apply list_find_Some in H as (H1 & H2 & _). exists nb. split; [by eapply list_elem_of_lookup_2|done].
  - intros (nb & Hnb & E). by eapply list_find_elem_of.
Qed.

(** C23. The table implements its specification: after any operations in the order
    of time, an address is a neighbour exactly when one of its hellos is still
    valid, and it has one entry at most. *)
Theorem neighbors_refine d l now addr : in_time 0 l now ->
  (fst (IsNeighbor now addr (nb_run l (new_Neighbors d))) = true <-> exists e, e ∈ l /\ hello_valid addr now e) /\
  NoDup (m_ipAddress <$> m_nb (nb_run l (new_Neighbors d))).
Proof using.
  intros Hl. destruct (nb_run_inv l [] 0 now (new_Neighbors d)) as (last & Hle & H); [|done|].
  { split; [by apply NoDup_nil|done|by intros nb Hnb%elem_of_nil|by intros a t e He%elem_of_nil]. }
  cbn [app] in H. split; [|by apply H]. apply (purge_inv _ _ now) in H; [|done]. rewrite <- purge_entries in H.
  unfold IsNeighbor. cbn [fst]. rewrite bool_decide_eq_true, find_ip_in. split.
  - intros (nb & Hnb & <-). destruct (ti_heard _ _ _ H nb Hnb) as (e & He & Hv). exists e. split; [done|]. eapply hello_valid_mono; [|done].
    rewrite purge_entries in Hnb. apply list_elem_of_filter in Hnb as [Hc _]. unfold CloseNeighbor in Hc. ztest. lia.
  - intros (e & He & Hv). destruct (ti_known _ _ _ H addr now e He Hv) as (nb & Hnb & E & _); [lia|]. by exists nb.
Qed.

(** * Choosing a relay *)

Lemma dwell_bounds g direct i j : 0 <= i < sy g -> 0 <= j < sx g ->
  exists d, dwell g direct i j = Some d /\ 0 < d <= Z.max (sx g) (sy g).
Proof using.
  intros Hi Hj. unfold dwell.
  destruct (Z.leb_spec 45 direct), (Z.ltb_spec direct 135), (Z.leb_spec 225 direct), (Z.ltb_spec direct 315), (Z.leb_spec 135 direct),
    (Z.ltb_spec direct 225), (Z.leb_spec 315 direct), (Z.ltb_spec direct 45); cbn [andb orb]; try lia; eexists; (split; [reflexivity|lia]).
Qed.

Lemma elem_of_cells g i j : (i, j) ∈ cells g <-> 0 <= i < sy g /\ 0 <= j < sx g.
Proof using.
  unfold cells. rewrite list_elem_of_bind. split.
  - intros (i' & (j' & [= <- <-] & Hj)%list_elem_of_fmap & Hi). apply elem_of_seqZ in Hi, Hj. lia.
  - intros [Hi Hj]. exists i. split; [apply list_elem_of_fmap; exists j; split; [done|]|]; apply elem_of_seqZ; lia.
Qed.

(** A vehicle in a cell of the set stays between one cell and the width of
    the set; [-1] means that it is in none of them. *)
Lemma GetDtime_bounds g geohash direct : bad_set g = false ->
  (GetDtime geohash direct g = -1 /\ forall i j, 0 <= i < sy g -> 0 <= j < sx g -> geohash <> geohashset g i j) \/
  (0 < GetDtime geohash direct g <= Z.max (sx g) (sy g) /\
   exists i j, 0 <= i < sy g /\ 0 <= j < sx g /\ geohash = geohashset g i j /\ dwell g direct i j = Some (GetDtime geohash direct g)).
Proof using.
  intros Hg. unfold GetDtime. rewrite Hg.
  assert (forall l, (forall i j, (i, j) ∈ l -> (i, j) ∈ cells g) ->
    (dtime_loop g geohash direct l = -1 /\ forall i j, (i, j) ∈ l -> geohash <> geohashset g i j) \/
    (0 < dtime_loop g geohash direct l <= Z.max (sx g) (sy g) /\
     exists i j, (i, j) ∈ l /\ geohash = geohashset g i j /\ dwell g direct i j = Some (dtime_loop g geohash direct l))) as H.
  { intros l. induction l as [|[i j] l IH]; intros Hl; cbn [dtime_loop]; [left; split; [done|]; by intros i j Hn%elem_of_nil|].
    destruct (Z.eqb_spec geohash (geohashset g i j)) as [E|Hne].
    - destruct (proj1 (elem_of_cells g i j) (Hl i j (list_elem_of_here _ _))) as [Hi Hj].
      destruct (dwell_bounds g direct i j Hi Hj) as (d & Ed & Hd). rewrite Ed. right. split; [done|]. exists i, j. split; [left|done].
    - destruct IH as [[E H]|[Hd (i' & j' & H1 & H2 & H3)]]; [intros ? ? ?; apply Hl; by right| |].
      + left. split; [done|]. intros i' j' [[= -> ->]|Hin]%elem_of_cons; [done|by apply H].
      + right. split; [done|]. exists i', j'. split; [by right|done]. }
  destruct (H (cells g)) as [[E Hn]|[Hd (i & j & H1 & H2 & H3)]]; [done| |].
  - left. split; [done|]. intros i j Hi Hj. apply Hn. by apply elem_of_cells.
  - right. split; [done|]. exists i, j. apply elem_of_cells in H1. tauto.
Qed.

Definition dtime_of (g : GeoHashSetCoordinate) (nb : Neighbor) : Z := GetDtime (nb_geohash nb) (nb_direction nb) g.

Lemma best_loop_spec g dmax l : (forall nb, nb ∈ l -> dtime_of g nb <= dmax) -> forall d best, 0 <= d < dmax ->
  (exists l1 nb l2, l = l1 ++ nb :: l2 /\ best_loop g dmax l d best = Some (m_hardwareAddress nb) /\ d < dtime_of g nb /\
     Forall (fun i => dtime_of g i < dtime_of g nb) l1 /\ Forall (fun i => dtime_of g i <= dtime_of g nb) l2) \/
  (Forall (fun i => dtime_of g i <= d) l /\ best_loop g dmax l d best = (if 0 <? d then Some best else None)).
Proof using.
  induction l as [|nb l IH]; intros Hmax d best Hd; cbn [best_loop]; [by right|]. change (GetDtime _ _ g) with (dtime_of g nb).
  assert (forall i, i ∈ l -> dtime_of g i <= dmax) as Hl by (intros i Hi; apply Hmax; by right).
  pose proof (Hmax nb (list_elem_of_here _ _)) as Hnb. destruct (Z.eqb_spec (dtime_of g nb) dmax) as [E|Hne].
  - left. exists [], nb, l. split_and!; [done|done|lia|done|]. apply Forall_forall. intros i Hi. rewrite E. by apply Hl.
  - destruct (Z.ltb_spec d (dtime_of g nb)) as [Hlt|Hge].
    + destruct (IH Hl (dtime_of g nb) (m_hardwareAddress nb) ltac:(lia)) as [(l1 & i & l2 & -> & H1 & H2 & H3 & H4)|[H1 H2]].
      * left. exists (nb :: l1), i, l2. split_and!; [done|done|lia| |done]. by constructor.
      * destruct (Z.ltb_spec 0 (dtime_of g nb)).
        -- left. exists [], nb, l. by split_and!.
        -- lia.
    + destruct (IH Hl d best Hd) as [(l1 & i & l2 & -> & H1 & H2 & H3 & H4)|[H1 H2]].
      * left. exists (nb :: l1), i, l2. split_and!; [done|done|lia| |done]. constructor; [lia|done].
      * right. split; [|done]. by constructor.
Qed.

(** The relay is a neighbour of the set that stays longest in it (the first of
    those in the table), and one is found whenever a neighbour is in the set.
    The early return for the width of the set is only a short cut: no stay is
    longer. *)
Theorem GetnbFromsetBest_correct now g t : bad_set g = false -> 0 < sx g -> 0 < sy g ->
  match fst (GetnbFromsetBest now g t) with
  | Some mac => exists l1 nb l2, m_nb (Purge now t) = l1 ++ nb :: l2 /\ mac = m_hardwareAddress nb /\ 0 < dtime_of g nb /\
      Forall (fun i => dtime_of g i < dtime_of g nb) l1 /\ Forall (fun i => dtime_of g i <= dtime_of g nb) l2
  | None => Forall (fun nb => forall i j, 0 <= i < sy g -> 0 <= j < sx g -> nb_geohash nb <> geohashset g i j) (m_nb (Purge now t))
  end.
Proof using.
  intros Hg Hx Hy. unfold GetnbFromsetBest. cbv zeta. rewrite Hg. cbn [fst].
  assert ((if sy g <? sx g then sx g else sy g) = Z.max (sx g) (sy g)) as -> by (destruct (Z.ltb_spec (sy g) (sx g)); lia).
  destruct (best_loop_spec g (Z.max (sx g) (sy g)) (m_nb (Purge now t))) with (d := 0) (best := Mac48Address_default)
    as [(l1 & nb & l2 & -> & -> & H1 & H2 & H3)|[H1 ->]]; [|lia|by exists l1, nb, l2|].
  - intros nb _. unfold dtime_of. destruct (GetDtime_bounds g (nb_geohash nb) (nb_direction nb) Hg) as [[-> _]|[? _]]; lia.
  - cbn. eapply Forall_impl; [exact H1|]. intros nb Hnb. unfold dtime_of in Hnb.
    destruct (GetDtime_bounds g (nb_geohash nb) (nb_direction nb) Hg) as [[_ H]|[? _]]; [done|lia].
Qed.

(** * Sending and receiving *)

(** The times of the first sends, with the random delays [ds] (the first one is
    the one of the start), and the application afterwards. *)
Fixpoint send_times (now : Z) (ds : list Z) (pktCount : Z) (a : MbrNeighborApp) : list Z * MbrNeighborApp :=
  match ds with
  | [] => ([now], a)
  | d :: ds =>
      match GenerateWaveTraffic (0, 0) (ip_ReadFrom []) Mac48Address_default d pktCount (m_waveInterval a) a with
      | (_, Some (txTime, n), a) => let '(l, a) := send_times (now + txTime) ds n a in (now :: l, a)
      | (_, None, a) => ([now], a)
      end
  end.

Lemma send_times_cons now d ds n a : m_stop a = false ->
  fst (send_times now (d :: ds) n a) =
    now :: fst (send_times (now + (m_waveInterval a - m_prevTxDelay a + d)) ds (u32 (n - 1)) (a <| m_prevTxDelay := d |>)).
Proof using.
  intros Hs. cbn [send_times]. unfold GenerateWaveTraffic. destruct (sumoCartesian2GPS (0, 0)) as [lo la].
  set (a1 := a <| m_prevTxDelay := d |>). change (m_stop a1) with (m_stop a). rewrite Hs. cbn [negb]. by destruct (send_times _ _ _ a1).
Qed.

Lemma send_times_spec ds : forall k base now n a, m_stop a = false -> now = base + k * m_waveInterval a + m_prevTxDelay a ->
  fst (send_times now ds n a) = now :: imap (fun i d => base + (k + 1 + Z.of_nat i) * m_waveInterval a + d) ds.
Proof using.
  induction ds as [|d ds IH]; intros k base now n a Hs Hn; [done|]. rewrite send_times_cons by done.
  rewrite (IH (k + 1) base) by (cbn; done || lia). cbn [imap]. f_equal. f_equal; [cbn; lia|]. apply imap_ext. intros i x _. cbn. lia.
Qed.

(** Hellos are sent on a fixed grid: the [k]-th one [k] intervals after the
    start, plus its own random delay. Delays do not add up, and the sending
    goes on until the application is stopped: the packet count has no
    influence. *)
Theorem hellos_on_grid tDrift d0 ds n a : m_stop a = false ->
  let '(t0, a0) := StartApplication tDrift d0 a in
  fst (send_times t0 ds n a0) = imap (fun k d => 1000000000 + tDrift + Z.of_nat k * m_waveInterval a + d) (d0 :: ds).
Proof using.
  intros Hs. unfold StartApplication. cbv zeta. set (a0 := a <| m_prevTxDelay := d0 |>).
  rewrite (send_times_spec ds 0 (1000000000 + tDrift)); [|done|change (m_prevTxDelay a0) with d0; lia].
  change (m_waveInterval a0) with (m_waveInterval a). cbn [imap]. f_equal; [lia|]. apply imap_ext. intros i x _. cbn. lia.
Qed.

Lemma find_ip_elem addr t nb : find_ip addr t = Some nb -> nb ∈ m_nb t /\ m_ipAddress nb = addr.
Proof using.
  unfold find_ip. intros H. apply fmap_Some in H as ([i j] & H & ->). apply list_find_Some in H as (H1 & H2 & _).
  split; [by eapply list_elem_of_lookup_2|done].
Qed.
Lemma find_ip_unique addr t nb : (forall i, i ∈ m_nb t -> m_ipAddress i = addr -> i = nb) -> nb ∈ m_nb t -> m_ipAddress nb = addr ->
  find_ip addr t = Some nb.
Proof using.
  intros H Hin E. destruct (proj2 (find_ip_in addr t)) as [i Hi]; [by exists nb|]. destruct (find_ip_elem _ _ _ Hi) as [H1 H2].
  rewrite Hi. f_equal. by apply H.
Qed.
Lemma find_ip_none addr t : find_ip addr t = None -> addr ∉ (m_ipAddress <$> m_nb t).
Proof using.
  intros H (i & Ei & Hi)%list_elem_of_fmap. assert (is_Some (find_ip addr t)) as [j Hj] by (apply find_ip_in; by exists i). congruence.
Qed.

(** A hello of an address that is not in the table makes a new entry. *)
Lemma update_new now addr expire mac g d x y t : find_ip addr t = None -> 0 <= expire ->
  find_ip addr (Update now addr expire mac g d x y t) = Some (new_Neighbor addr (CopyFrom mac) (expire + now) now g d x y).
Proof using.
  intros Hn He. apply find_ip_none in Hn. unfold Update. cbv zeta.
  match goal with |- context [update_entry addr ?f (m_nb t)] => pose proof (update_entry_spec addr f (m_nb t)) as Hu; set (f0 := f) in * end.
  specialize (Hu ltac:(intros i; subst f0; cbn; by destruct (decide _))). destruct (update_entry addr f0 (m_nb t)) as [l'|].
  - destruct Hu as (l1 & i & l2 & El & Ei & _). exfalso. apply Hn. rewrite El. apply list_elem_of_fmap. exists i. split; [done|].
    apply elem_of_app. right. left.
  - apply find_ip_unique; [|rewrite purge_entries; apply list_elem_of_filter; split|done].
    + intros i Hi E. rewrite purge_entries in Hi. apply list_elem_of_filter in Hi as [_ Hi]. cbn [m_nb upd] in Hi.
      apply elem_of_app in Hi as [Hi|Hi]; [|by apply list_elem_of_singleton in Hi]. exfalso. apply Hn. rewrite <- E. by apply list_elem_of_fmap_2.
    + unfold CloseNeighbor. cbn. rewrite orb_false_r. apply Z.ltb_ge. lia.
    + cbn [m_nb upd]. apply elem_of_app. right. left.
Qed.

(** The first entry is the one that [Update] changes. *)
Lemma update_known now addr expire mac g d x y t nb : find_ip addr t = Some nb ->
  exists nb', find_ip addr (Update now addr expire mac g d x y t) = Some nb' /\ m_nb (Update now addr expire mac g d x y t) <> [] /\
    m_expireTime nb' = Z.max (expire + now) (m_expireTime nb) /\ nb_geohash nb' = nb_geohash nb /\ nb_direction nb' = nb_direction nb /\
    m_x nb' = x /\ m_y nb' = y.
Proof using.
  unfold Update. cbv zeta. match goal with |- context [update_entry addr ?f (m_nb t)] => set (f0 := f) end. unfold find_ip.
  assert (forall i, m_ipAddress (f0 i) = m_ipAddress i /\ m_expireTime (f0 i) = Z.max (expire + now) (m_expireTime i) /\
    nb_geohash (f0 i) = nb_geohash i /\ nb_direction (f0 i) = nb_direction i /\ m_x (f0 i) = x /\ m_y (f0 i) = y) as Hf
    by (intros i; subst f0; cbn; by destruct (decide _)).
  clearbody f0. intros H. apply fmap_Some in H as ([n nb0] & H & ->). cbn [snd].
  assert (exists l', update_entry addr f0 (m_nb t) = Some l' /\ l' <> [] /\ snd <$> list_find (fun i => m_ipAddress i = addr) l' = Some (f0 nb0)) as (l' & -> & Hne & Hl).
  { revert n H. induction (m_nb t) as [|i l IH]; intros n H; [done|]. cbn [update_entry list_find] in *. destruct (decide (m_ipAddress i = addr)) as [E|Hne].
    - injection H as <- <-. exists (f0 i :: l). split; [done|]. split; [done|]. cbn. rewrite decide_True; [done|]. by rewrite (proj1 (Hf i)).
    - apply fmap_Some in H as ([m nb1] & H & [= -> ->]). destruct (IH m H) as (l' & -> & _ & Hl). exists (i :: l'). split; [done|]. split; [done|].
      cbn. rewrite decide_False by done. destruct (list_find _ l') as [[? ?]|]; [|done]. cbn in *. congruence. }
  exists (f0 nb0). cbn [m_nb upd]. split; [done|]. split; [done|]. by destruct (Hf nb0) as (_ & ? & ? & ? & ? & ?).
Qed.

(** A known neighbour that has driven into another cell stays in its old one:
    its hello with the new cell renews the entry and the position, but neither
    the cell nor the direction by which relays are chosen. *)
Theorem stale_cell now addr expire mac g d x y t nb : find_ip addr t = Some nb -> nb_geohash nb <> g ->
  exists nb', find_ip addr (Update now addr expire mac g d x y t) = Some nb' /\
    nb_geohash nb' = nb_geohash nb /\ nb_geohash nb' <> g /\ m_x nb' = x /\ m_y nb' = y /\ expire + now <= m_expireTime nb'.
Proof using.
  intros H Hg. destruct (update_known now addr expire mac g d x y t nb H) as (nb' & H1 & _ & H2 & H3 & _ & H5 & H6).
  exists nb'. split_and!; try done; [congruence|lia].
Qed.

(** A hello reaches the table of another node unchanged, but for the direction:
    a node that is not known yet is entered with its data address, its cell and
    its position, for the time a hello is valid; its direction is always north,
    whatever it was. *)
Theorem hello_delivered `{L : !MbrPlatformLaws P} pos ip mac txDelay n i sender now receiver :
  in_u64 (sumoCartesian2Geohash pos) -> in_u32 (fst (sumoCartesian2GPS pos)) -> in_u32 (snd (sumoCartesian2GPS pos)) ->
  0 <= m_waveExpire receiver -> find_ip ip (m_neighbors receiver) = None ->
  exists receiver', ReceiveWavePacket now (Serialize (fst (fst (GenerateWaveTraffic pos ip mac txDelay n i sender)))) receiver = Ok receiver' /\
    find_ip ip (m_neighbors receiver') =
      Some (new_Neighbor ip mac (m_waveExpire receiver + now) now (sumoCartesian2Geohash pos) 0
              (fst (sumoCartesian2GPS pos)) (snd (sumoCartesian2GPS pos))).
Proof using.
  intros Hg Hlo Hla He Hn. unfold GenerateWaveTraffic. destruct (sumoCartesian2GPS pos) as [longi lat]. cbn [fst snd] in *.
  set (h := new_MbrHeader _ _ _ _ _ _ _ _ _ _ _). assert (take 6 (CopyTo mac) = CopyTo mac) as Em by (apply take_ge; by rewrite CopyTo_length).
  assert (hello_ok h) as Hh by (split; cbn; [done|done|done|by rewrite Em, CopyTo_length|done|done]).
  unfold ReceiveWavePacket. rewrite Deserialize_Serialize by done. cbn [obind]. eexists. split; [reflexivity|]. cbn [m_neighbors upd].
  rewrite update_new by done. cbn. by rewrite Em, CopyFrom_CopyTo.
Qed.
End Mbr.

(** * A concrete platform *)

Definition to_big_endian (n : nat) (x : Z) : list Z := (fun i => (x / 256 ^ Z.of_nat i) mod 256) <$> rev (seq 0 n).
Definition of_big_endian (l : list Z) : Z := foldl (fun acc b => acc * 256 + b) 0 l.

Lemma big_endian_fold n x : forall acc, foldl (fun acc b => acc * 256 + b) acc (to_big_endian n x) = acc * 256 ^ Z.of_nat n + x mod 256 ^ Z.of_nat n.
Proof.
  induction n as [|n IH]; intros acc; [unfold to_big_endian; cbn; rewrite Z.mod_1_r; lia|].
  unfold to_big_endian in *. rewrite seq_S, rev_app_distr. cbn [rev app]. rewrite fmap_cons. cbn [foldl]. rewrite IH, Nat2Z.inj_succ, Z.pow_succ_r by lia.
  rewrite (Z.mul_comm 256), Z.rem_mul_r by lia. cbn [Nat.add]. lia.
Qed.
Lemma big_endian_roundtrip n x : 0 <= x < 256 ^ Z.of_nat n -> of_big_endian (to_big_endian n x) = x.
Proof. intros Hx. unfold of_big_endian. rewrite big_endian_fold, Z.mod_small by done. lia. Qed.

#[export] Instance demo_platform : MbrPlatform := {
  Ipv4Address := Z * Z * Z * Z;
  Ipv4Address_default := (102, 102, 102, 102);
  ip_WriteTo '(a, b, c, d) := [a; b; c; d];
  ip_ReadFrom l := (nth 0 l 0, nth 1 l 0, nth 2 l 0, nth 3 l 0);
  Mac48Address := Z * Z * Z * Z * Z * Z;
  Mac48Address_default := (0, 0, 0, 0, 0, 0);
  CopyFrom l := (nth 0 l 0, nth 1 l 0, nth 2 l 0, nth 3 l 0, nth 4 l 0, nth 5 l 0);
  CopyTo '(a, b, c, d, e, f) := [a; b; c; d; e; f];
  WriteHtonU32 := to_big_endian 4;
  ReadNtohU32 := of_big_endian;
  WriteHtonU64 := to_big_endian 8;
  ReadNtohU64 := of_big_endian;
  GeoHashSetCoordinate := Z * Z * (Z -> Z -> Z);
  sx g := fst (fst g);
  sy g := snd (fst g);
  geohashset := snd;
  sumoCartesian2GPS := id;
  sumoCartesian2Geohash p := fst p * 1000 + snd p;
}.

#[export] Instance demo_platform_laws : MbrPlatformLaws demo_platform.
Proof.
  split; cbn.
  - by intros [[[a b] c] d].
  - by intros [[[a b] c] d].
  - by intros [[[[[a b] c] d] e] f].
  - by intros [[[[[a b] c] d] e] f].
  - done.
  - intros x Hx. by apply (big_endian_roundtrip 4).
  - done.
  - intros x Hx. by apply (big_endian_roundtrip 8).
Qed.

Definition demo_ip (n : Z) : Ipv4Address := (10, 0, 0, n).
Definition demo_mac (n : Z) : Mac48Address := (0, 0, 0, 0, 0, n).
(** Cells numbered row by row from [100]. *)
Definition demo_set : GeoHashSetCoordinate := (3, 3, fun i j => 100 + 3 * i + j).
Definition demo_app : MbrNeighborApp :=
  {| m_stop := false; m_waveInterval := 100; m_waveExpire := 350; m_prevTxDelay := 0; m_neighbors := new_Neighbors 100 |}.
Definition demo_history : list (Z * nb_op) :=
  [(10, NbUpdate (demo_ip 1) 350 (CopyTo (demo_mac 1)) 101 0 0 0); (20, NbUpdate (demo_ip 2) 350 (CopyTo (demo_mac 2)) 107 0 0 0);
   (200, NbUpdate (demo_ip 2) 350 (CopyTo (demo_mac 2)) 108 0 0 0); (380, NbTimeout)].

Lemma neighbors_refine_witness :
  fst (IsNeighbor 400 (demo_ip 2) (nb_run demo_history (new_Neighbors 100))) = true /\
  fst (IsNeighbor 400 (demo_ip 1) (nb_run demo_history (new_Neighbors 100))) = false.
Proof.
  split.
  - apply (neighbors_refine 100 demo_history 400); [by vm_compute; split_and!|].
    exists (200, NbUpdate (demo_ip 2) 350 (CopyTo (demo_mac 2)) 108 0 0 0). split; [right; right; left|]. by vm_compute.
  - vm_compute. reflexivity.
Defined.

Lemma GetnbFromsetBest_correct_witness : exists nb,
  nb ∈ m_nb (Purge 210 (nb_run (take 3 demo_history) (new_Neighbors 100))) /\
  fst (GetnbFromsetBest 210 demo_set (nb_run (take 3 demo_history) (new_Neighbors 100))) = Some (m_hardwareAddress nb) /\ 0 < dtime_of demo_set nb.
Proof.
  pose proof (GetnbFromsetBest_correct 210 demo_set (nb_run (take 3 demo_history) (new_Neighbors 100)) eq_refl eq_refl eq_refl) as H.
  destruct (fst (GetnbFromsetBest 210 demo_set (nb_run (take 3 demo_history) (new_Neighbors 100)))) as [m|] eqn:E; [|vm_compute in E; discriminate E].
  destruct H as (l1 & nb & l2 & E1 & -> & Hpos & _). exists nb. split; [|split; [reflexivity|exact Hpos]]. rewrite E1. apply elem_of_app. right. left.
Defined.

Lemma hellos_on_grid_witness : fst (send_times 1000000005 [3; 7] 1 (demo_app <| m_prevTxDelay := 5 |>)) = [1000000005; 1000000103; 1000000207].
Proof. exact (hellos_on_grid 0 5 [3; 7] 1 demo_app eq_refl). Defined.

Definition demo_entry : Neighbor := new_Neighbor (demo_ip 2) (demo_mac 2) 370 20 107 0 0 0.
Definition demo_table : Neighbors := (new_Neighbors 100) <| m_nb := [demo_entry] |>.
Lemma demo_table_entry : find_ip (demo_ip 2) demo_table = Some demo_entry.
Proof. reflexivity. Qed.

Lemma stale_cell_witness : exists nb',
  find_ip (demo_ip 2) (Update 200 (demo_ip 2) 350 (CopyTo (demo_mac 2)) 108 0 5 6 demo_table) = Some nb' /\ nb_geohash nb' <> 108.
Proof.
  destruct (stale_cell 200 (demo_ip 2) 350 (CopyTo (demo_mac 2)) 108 0 5 6 demo_table demo_entry demo_table_entry ltac:(discriminate))
    as (nb' & H1 & _ & H2 & _).
  by exists nb'.
Defined.

Lemma hello_delivered_witness : exists receiver',
  ReceiveWavePacket 50 (Serialize (fst (fst (GenerateWaveTraffic (3, 4) (demo_ip 1) (demo_mac 1) 0 1 100 demo_app)))) demo_app = Ok receiver' /\
  nb_geohash <$> find_ip (demo_ip 1) (m_neighbors receiver') = Some 3004.
Proof.
  destruct (hello_delivered (3, 4) (demo_ip 1) (demo_mac 1) 0 1 100 demo_app 50 demo_app) as (r & H1 & H2); [done|done|done|done|done|].
  exists r. split; [exact H1|]. by rewrite H2.
Defined.
